(* ===== verification/_CoqProject ===== *)
-Q . S2P
Prelude.v
Nginx.v
Window.v
RingBuf.v
Jitter.v
Hsm.v
SessionFsm.v
Avsync.v
Audio.v
AudioWorker.v
Rtp.v
Rtcp.v
Stun.v
Text.v
Dtls.v
Sdp.v
SdpAnswer.v
HttpBody.v
Signal.v
Session.v
Pacer.v
GopRing.v
SendPath.v
Nack.v
Replay.v
Registry.v
ShmRing.v
Retransmit.v
Shm.v
ShmInv.v
ShmStep.v
ShmProps.v
ShmMedia.v
Publish.v
Broadcast.v
Request.v
Stream.v
StreamMedia.v
StreamSafe.v
StreamMediaSafe.v
StreamProps.v
StreamRun.v
