(* ===== verification/Prelude.v ===== *)
(** * A model of nginx-rtc-module

    The module is an RTC gateway inside nginx: a publisher arrives over RTMP or WHIP,
    its media is packetised as RTP and fanned out to WebRTC viewers, each with its own
    session (ICE, DTLS, SRTP, pacing, NACK answering).  This library models the C units
    of src/ that hold that logic and proves what makes them correct.

    ** How the program is put together, and which file models which part

    - Prelude.v (this file): machine integers ([u8] .. [u64], [s16], [s32]), C pointers
      ([ptr]), runs that may access memory outside a buffer ([outcome], [Fault]), buffers
      as lists read and written by index ([load], [store], [load_range], ...), network
      byte order, and the tactics and lemmas the other files share.
    - Window.v: the circular-window predicate every ring is proved against.
    - RingBuf.v: src/ngx_rtc_ring.c, the fixed-size ring and the byte arena.
    - Jitter.v: src/ngx_rtc_jitter.c, the uplink reorder buffer.
    - Hsm.v, SessionFsm.v: src/ngx_rtc_hsm.c, the hierarchical state machine engine, and
      src/ngx_rtc_session_fsm.c, the session lifecycle tables it runs.
    - Avsync.v: src/ngx_rtc_avsync.c, RTP time against the wall clock.
    - Audio.v, AudioWorker.v: src/ngx_rtc_audio.c, the transcoder over FFmpeg and libopus as a
      class with laws, and src/ngx_rtc_audio_worker.c, its thread and the event loop as two
      processes with a queue each way.
    - Rtp.v: src/ngx_rtc_rtp.c, RTP headers and H.264/Opus packetisation.
    - Rtcp.v: src/ngx_rtc_rtcp.c, the RTCP decoder and encoders.
    - Stun.v: src/ngx_rtc_stun.c, the binding request and its response.
    - Text.v: text as the parsers walk it, numbers in decimal, C strings; Sdp.v and
      SdpAnswer.v: src/ngx_rtc_sdp.c, the offer parser and the answer generator.
    - Nginx.v: nginx's intrusive queues and string red-black trees, as interfaces with
      their laws, and an implementation of each.
    - Session.v: the structures of src/ngx_rtc_core.h the next files work on.
    - Pacer.v, GopRing.v, SendPath.v, Nack.v, Replay.v: src/ngx_rtc_core.c, in turn the
      token bucket with its loss-driven target, the GOP ring, the path of one packet to
      one session, NACK answering (with its driver in src/ngx_rtc_stream_module.c), and
      the replay of a keyframe to a late viewer.
    - Registry.v: the registries of src/ngx_rtc_core.h and the rules by which the last
      user of a source frees it, with the close of a session in
      src/ngx_rtc_stream_module.c, on an explicit heap.
    - src/ngx_rtc_shm.c, what the worker processes share in the slab pool: ShmRing.v, the
      media ring of each worker; Retransmit.v, the retransmit ring of a source; Shm.v, the
      table of sources and session skeletons with every call on it; ShmInv.v, its
      invariant and what each call does; ShmStep.v, the calls as one step relation and its
      traces; ShmProps.v, the guarantees over every interleaving; ShmMedia.v, appending,
      looking up and replaying packets across workers; Publish.v, the publish right as the
      workers claim, renew and release it, and the pointer they cache meanwhile;
      Broadcast.v, the fan-out of a packet to the sessions of every worker
      (src/ngx_rtmp_rtc_bridge_module.c and src/ngx_rtc_stream_module.c).
    - src/ngx_rtc_http_module.c, where sessions come from: HttpBody.v, the request body and
      the JSON fields in it; Signal.v, the name of the source and the text of the answer;
      Request.v, the play and publish requests as whole handlers over the registry and the
      zone, with the kick and disconnect requests.
    - Dtls.v: src/ngx_rtc_dtls.c and src/ngx_rtc_srtp.c, a session's handshake and its SRTP
      contexts; OpenSSL and libsrtp are classes with their documented laws.
    - src/ngx_rtc_stream_module.c, where datagrams arrive: Stream.v, the handlers over one
      worker (its registry, the zone, the DTLS part of each session, the connections, the
      posted finalizations and what was sent); StreamMedia.v, the SRTCP and SRTP handlers
      over the same worker and the media rings of the others, and the datagram handler;
      StreamSafe.v and StreamMediaSafe.v, what holds of a worker between two events and that
      the handlers keep it; StreamProps.v, guarantees of single events, and a run from the
      first Binding request to a session that is ready; StreamRun.v, a worker over any
      sequence of events.

    A session's way through the model: Request.v reads the body (HttpBody.v), the name
    (Signal.v) and the offer (Sdp.v), makes or finds the source and opens the session in
    Registry.v, claims the name through Publish.v and mirrors the session in Shm.v, and
    answers with SdpAnswer.v; Stun.v then answers the client's binding requests and Stream.v
    takes the session through Dtls.v to SRTP_READY, in the worker the client reaches.

    A packet's way through the model: Rtp.v makes packets of a NAL unit; GopRing.v caches
    each; SendPath.v sends it to a session whose machine (SessionFsm.v, run by Hsm.v) is
    in SRTP_READY, asking Pacer.v first; what the viewer reports comes back through
    Rtcp.v to Pacer.v (transport-cc feedback, REMB) and to Nack.v, which looks packets up
    in the ring and sends them again through SendPath.v.  An uplink packet passes
    Jitter.v first.  StreamMedia.v puts the two ways together.  A viewer whose
    worker is not the publisher's gets its packets through ShmRing.v and its keyframe and
    retransmissions through ShmMedia.v.

    ** Conventions

    A definition carries the name of the C function or structure it translates; loops and
    inlined blocks have a name of their own.  A function that writes through a pointer
    returns the new value; a callback's calls are appended to a log.  Fuel is the number
    of iterations the loop's own bound allows and running out of it is [Fault], so a
    theorem that a run returns [Ret] says both that it ends and that it stays in bounds.
    Code that is not under src/ (the SRTP library, the socket, the clock, the allocator,
    the wall clock) is a parameter of a Section or an argument, with the hypotheses a
    theorem needs about it named there; each has a concrete instance in the witnesses.
    What a theorem asks of the environment is a predicate of its own ([op_env], [event_env],
    [grants_ok], ...): allocators hand out free memory, arrays have the sizes they are
    declared with, arguments have the types they are declared with.

    ** What the theorems show

    Refinement of an abstract specification: the rings are bounded FIFOs, the table-driven
    session machine is a flat automaton, a replay offers exactly one access unit.
    Safety: no bad memory access on any input (with the exact exceptions stated as
    theorems), packets leave the reorder buffer in order, the transport sequence numbers a
    viewer sees have no gaps, no session of a worker ever points at a freed source, two protocols
    never hold a stream of the zone at once, a slow viewer gets no video until a keyframe, and a
    NACK storm is bounded.  Three guarantees hold up to a defect of the code, which the
    statement names and another theorem exhibits: the shared zone has no dangling pointer
    until a session_add loses its source to its own sweep (ShmProps.v); the pointer a publisher
    caches is live until that, or until the right is given back under it (Publish.v); and a
    worker outlives any sequence of datagrams, timers and changes by the other workers until a
    session is taken over from another connection, a keyframe request overflows its packet, or
    such a pointer dangles (StreamRun.v).  Equivalence: the sweep of the shared
    zone against a function of the table.  Round trips: packetise and reassemble, encode and decode,
    generate an SDP answer and read it back.  Bounds and
    overflow: the token-bucket envelope, the keyframe exemption, indices and lengths at
    2^32.  Liveness: the controller converges, a crashed publisher's source is freed.
    Where the code does not do what it means to, the theorem states what it does.

    ** Not modelled

    The directives and cycle hooks of the HTTP, RTMP and core modules, event registration,
    making the certificate and the SSL context: the manifest gives the reason for each.
    Logging, lock-cost and timing sums and other statistics that nothing reads back are left
    out of the modelled functions.  The HTTP requests are run with a slab that, when its sweep
    after a refusal freed nothing it can use, refuses again. *)

From stdpp Require Export base tactics numbers option list.
From Stdlib Require Export ZArith Lia.

#[global] Open Scope Z_scope.

(** ** Machine integers

    A C unsigned integer of width w is a [Z] in [0, 2^w); every operation that
    can leave the range writes its wrap-around with one of these casts. *)

Definition u8 (x : Z) : Z := x mod 256.
Definition u16 (x : Z) : Z := x mod 65536.
Definition u32 (x : Z) : Z := x mod 4294967296.
Definition u64 (x : Z) : Z := x mod 18446744073709551616.

(** Two's-complement reinterpretation casts, [(int16_t) x] and [(int32_t) x]. *)
Definition s16 (x : Z) : Z := if u16 x <? 32768 then u16 x else u16 x - 65536.
Definition s32 (x : Z) : Z :=
  if u32 x <? 2147483648 then u32 x else u32 x - 4294967296.

Definition is_u8 (x : Z) : Prop := 0 <= x < 256.
Definition is_u16 (x : Z) : Prop := 0 <= x < 65536.
Definition is_u32 (x : Z) : Prop := 0 <= x < 4294967296.
Definition is_u64 (x : Z) : Prop := 0 <= x < 18446744073709551616.

(** ** Pointers and outcomes

    [ptr A] is a C pointer the callee compares with [NULL].  [outcome A] is the
    result of a run: [Ret a] when the code returns, [Fault] when it performs an
    access outside its buffer, which C leaves undefined. *)

Inductive ptr (A : Type) : Type :=
| NULL
| Ref (a : A).
Arguments NULL {A}.
Arguments Ref {A} a.

Inductive outcome (A : Type) : Type :=
| Ret (a : A)
| Fault.
Arguments Ret {A} a.
Arguments Fault {A}.

Definition is_null {A} (p : ptr A) : bool :=
  match p with NULL => true | Ref _ => false end.

#[global] Instance outcome_ret : MRet outcome := fun A a => Ret a.
#[global] Instance outcome_bind : MBind outcome :=
  fun A B k m => match m with Ret a => k a | Fault => Fault end.

Lemma bind_Ret {A B} (a : A) (k : A -> outcome B) : mbind k (Ret a) = k a.
Proof. reflexivity. Qed.

(** [safe P m]: the run [m] makes no bad access and its result satisfies [P]. *)
Definition safe {A} (P : A -> Prop) (m : outcome A) : Prop :=
  match m with Ret a => P a | Fault => False end.

Lemma safe_ret {A} (P : A -> Prop) a : P a -> safe P (Ret a).
Proof. done. Qed.

Lemma safe_bind {A B} (P : A -> Prop) (Q : B -> Prop) m k :
  safe P m -> (forall a, P a -> safe Q (k a)) -> safe Q (mbind k m).
Proof. destruct m; [intros H Hk; by apply Hk | done]. Qed.

Lemma safe_mono {A} (P Q : A -> Prop) m :
  (forall a, P a -> Q a) -> safe P m -> safe Q m.
Proof. destruct m; simpl; auto. Qed.

Lemma safe_not_fault {A} (P : A -> Prop) m : safe P m -> m <> Fault.
Proof. by destruct m. Qed.

(** [safe_unless H P m]: the same, except that the run may make a bad access where [H] holds. *)
Definition safe_unless {A} (H : Prop) (P : A -> Prop) (m : outcome A) : Prop :=
  match m with Ret a => P a | Fault => H end.

Lemma safe_safe_unless {A} (H : Prop) (P : A -> Prop) m : safe P m -> safe_unless H P m.
Proof. by destruct m. Qed.

Lemma safe_unless_bind {A B} (H : Prop) (P : A -> Prop) (Q : B -> Prop) m k :
  safe_unless H P m -> (forall a, P a -> safe_unless H Q (k a)) -> safe_unless H Q (mbind k m).
Proof. destruct m; [intros Hm Hk; by apply Hk | done]. Qed.

Lemma safe_bind_unless {A B} (H : Prop) (P : A -> Prop) (Q : B -> Prop) m k :
  safe P m -> (forall a, P a -> safe_unless H Q (k a)) -> safe_unless H Q (mbind k m).
Proof. intros Hm. by apply safe_unless_bind, safe_safe_unless. Qed.

Lemma safe_unless_mono {A} (H K : Prop) (P Q : A -> Prop) m :
  (H -> K) -> (forall a, P a -> Q a) -> safe_unless H P m -> safe_unless K Q m.
Proof. destruct m; simpl; auto. Qed.

#[global] Instance outcome_eq_dec `{EqDecision A} : EqDecision (outcome A).
Proof. solve_decision. Defined.
#[global] Instance ptr_eq_dec `{EqDecision A} : EqDecision (ptr A).
Proof. solve_decision. Defined.

(** ** Return codes shared by the pure C units (ngx_rtc_rtp.h, ngx_rtc_rtcp.h,
    ngx_rtc_avsync.h, ngx_rtc_core.h). *)

Definition NGX_RTC_OK : Z := 0.
Definition NGX_RTC_ERR_INVALID : Z := -1.
Definition NGX_RTC_ERR_TOO_SMALL : Z := -2.
Definition NGX_RTC_ERR_TOO_LARGE : Z := -3.
Definition NGX_RTC_ERR_PARSE : Z := -4.
Definition NGX_RTC_ERR_NEED_MORE : Z := -5.
Definition NGX_RTC_AGAIN : Z := -6.

(** ** Byte buffers

    A buffer is its list of octets; offsets and lengths are [Z] as in the code,
    and every access outside the buffer is a [Fault]. *)

Abbreviation octets := (list Z).

Definition octets_ok (b : octets) : Prop := Forall is_u8 b.

Definition zlen {A} (l : list A) : Z := Z.of_nat (length l).

Definition ztake {A} (n : Z) (l : list A) : list A := take (Z.to_nat n) l.
Definition zdrop {A} (n : Z) (l : list A) : list A := drop (Z.to_nat n) l.

(** [b[i]] as a read. *)
Definition load {A} (b : list A) (i : Z) : outcome A :=
  if i <? 0 then Fault
  else match b !! Z.to_nat i with Some x => Ret x | None => Fault end.

(** The source side of [memcpy (dst, b + off, n)]. *)
Definition load_range {A} (b : list A) (off n : Z) : outcome (list A) :=
  if (0 <=? off) && (0 <=? n) && (off + n <=? zlen b)
  then Ret (ztake n (zdrop off b)) else Fault.

(** [b[i] = v]. *)
Definition store {A} (b : list A) (i : Z) (v : A) : outcome (list A) :=
  if (0 <=? i) && (i <? zlen b) then Ret (<[Z.to_nat i := v]> b) else Fault.

(** [memcpy (b + off, src, len src)]. *)
Definition store_range {A} (b : list A) (off : Z) (src : list A)
    : outcome (list A) :=
  if (0 <=? off) && (off + zlen src <=? zlen b)
  then Ret (ztake off b ++ src ++ zdrop (off + zlen src) b) else Fault.

(** [calloc (n, 1)] / [memset (b, 0, n)]. *)
Definition zeros (n : Z) : octets := replicate (Z.to_nat n) 0.

#[global] Arguments zlen : simpl never.
#[global] Arguments ztake : simpl never.
#[global] Arguments zdrop : simpl never.
#[global] Arguments load : simpl never.
#[global] Arguments load_range : simpl never.
#[global] Arguments store : simpl never.
#[global] Arguments store_range : simpl never.
#[global] Arguments zeros : simpl never.

(** ** Record updates

    [setter eta proj] builds the update function of one field from the record's
    eta-expansion, so that every setter reduces to the constructor. *)

Ltac setter eta proj :=
  match type of proj with
  | ?R -> ?T =>
      let v := fresh "v" in
      let r := fresh "r" in
      refine (fun (v : T) (r : R) => _);
      let t := eval cbv beta delta [eta] in (eta r) in
      let g := eval pattern (proj r) in t in
      match g with ?h _ => let t' := eval cbv beta in (h v) in exact t' end
  end.

Declare Scope rtc_scope.
Delimit Scope rtc_scope with rtc.
Notation "r |> f" := (f r)
  (at level 50, left associativity, only parsing) : rtc_scope.
#[global] Open Scope rtc_scope.

(** ** Lists indexed by [Z] *)

Create HintDb rtc.
Create Rewrite HintDb zlen.

Lemma zlen_nonneg {A} (l : list A) : 0 <= zlen l.
Proof. unfold zlen. lia. Qed.

Lemma zlen_nil A : zlen (@nil A) = 0.
Proof. reflexivity. Qed.

Lemma zlen_cons {A} (x : A) l : zlen (x :: l) = 1 + zlen l.
Proof. unfold zlen. simpl length. lia. Qed.

Lemma zlen_app {A} (l k : list A) : zlen (l ++ k) = zlen l + zlen k.
Proof. unfold zlen. rewrite length_app. lia. Qed.

Lemma zlen_insert {A} (l : list A) i x : zlen (<[i := x]> l) = zlen l.
Proof. unfold zlen. by rewrite length_insert. Qed.

Lemma zlen_replicate {A} n (x : A) : zlen (replicate n x) = Z.of_nat n.
Proof. unfold zlen. by rewrite length_replicate. Qed.

Lemma zlen_zeros n : 0 <= n -> zlen (zeros n) = n.
Proof. intros H. unfold zeros. rewrite zlen_replicate. lia. Qed.

Lemma zlen_ztake {A} n (l : list A) :
  0 <= n -> zlen (ztake n l) = Z.min n (zlen l).
Proof. intros H. unfold zlen, ztake. rewrite length_take. lia. Qed.

Lemma zlen_zdrop {A} n (l : list A) :
  0 <= n -> zlen (zdrop n l) = Z.max 0 (zlen l - n).
Proof. intros H. unfold zlen, zdrop. rewrite length_drop. lia. Qed.

Lemma zlen_map {A B} (f : A -> B) l : zlen (map f l) = zlen l.
Proof. unfold zlen. by rewrite length_map. Qed.

Lemma zlen_fmap {A B} (f : A -> B) (l : list A) : zlen (f <$> l) = zlen l.
Proof. unfold zlen. by rewrite length_fmap. Qed.

#[export] Hint Rewrite @zlen_nil @zlen_cons @zlen_app @zlen_insert
  @zlen_replicate @zlen_map @zlen_fmap : zlen.
#[export] Hint Rewrite zlen_zeros @zlen_ztake @zlen_zdrop using lia : zlen.
#[export] Hint Resolve zlen_nonneg : rtc.

(** [zl] normalises the lengths of the goal and closes what is linear. *)
Ltac zl := autorewrite with zlen in *; unfold zlen in *; simpl length in *; lia.

Lemma ztake_all {A} n (l : list A) : zlen l <= n -> ztake n l = l.
Proof. intros H. unfold ztake, zlen in *. apply take_ge. lia. Qed.

Lemma ztake_zlen {A} (l : list A) : ztake (zlen l) l = l.
Proof. apply ztake_all. lia. Qed.

Lemma zdrop_0 {A} (l : list A) : zdrop 0 l = l.
Proof. reflexivity. Qed.

Lemma ztake_0 {A} (l : list A) : ztake 0 l = [].
Proof. reflexivity. Qed.

Lemma zdrop_all {A} n (l : list A) : zlen l <= n -> zdrop n l = [].
Proof. intros H. unfold zdrop, zlen in *. apply drop_ge. lia. Qed.

Lemma ztake_app_le {A} n (l k : list A) :
  n <= zlen l -> ztake n (l ++ k) = ztake n l.
Proof. intros H. unfold ztake, zlen in *. rewrite take_app_le; [done | lia]. Qed.

Lemma ztake_app_length {A} n (l k : list A) :
  n = zlen l -> ztake n (l ++ k) = l.
Proof. intros ->. rewrite ztake_app_le by lia. apply ztake_zlen. Qed.

Lemma zdrop_app_ge {A} n (l k : list A) :
  zlen l <= n -> zdrop n (l ++ k) = zdrop (n - zlen l) k.
Proof.
  intros H. unfold zdrop, zlen in *. rewrite drop_app_ge by lia. f_equal. lia.
Qed.

Lemma zdrop_app_length {A} n (l k : list A) :
  n = zlen l -> zdrop n (l ++ k) = k.
Proof. intros ->. rewrite zdrop_app_ge by lia. by rewrite Z.sub_diag. Qed.

Lemma ztake_zdrop {A} n (l : list A) : ztake n l ++ zdrop n l = l.
Proof. apply take_drop. Qed.

Lemma zdrop_zdrop {A} n m (l : list A) :
  0 <= n -> 0 <= m -> zdrop n (zdrop m l) = zdrop (m + n) l.
Proof. intros. unfold zdrop. rewrite drop_drop. f_equal. lia. Qed.

(** ** Reads and writes *)

Lemma load_ret {A} (b : list A) i x :
  load b i = Ret x <-> 0 <= i /\ b !! Z.to_nat i = Some x.
Proof.
  unfold load. destruct (Z.ltb_spec i 0); [split; [done | lia] |].
  destruct (b !! Z.to_nat i); split.
  all: try by intros [_ ?].
  - by intros [= ->].
  - by intros [_ [= ->]].
  - done.
Qed.

Lemma load_in {A} (b : list A) i :
  0 <= i < zlen b -> exists x, load b i = Ret x.
Proof.
  intros H. destruct (lookup_lt_is_Some_2 b (Z.to_nat i)) as [x Hx].
  { unfold zlen in H. lia. }
  exists x. apply load_ret. split; [lia | done].
Qed.

Lemma load_bound {A} (b : list A) i x : load b i = Ret x -> 0 <= i < zlen b.
Proof.
  intros [H Hx]%load_ret. apply lookup_lt_Some in Hx. unfold zlen. lia.
Qed.

Lemma load_u8 b i x : octets_ok b -> load b i = Ret x -> is_u8 x.
Proof. intros Hb [_ Hx]%load_ret. by eapply Forall_lookup_1. Qed.

Lemma load_safe b i : octets_ok b -> 0 <= i < zlen b -> safe is_u8 (load b i).
Proof.
  intros Hb [x Hx]%load_in. rewrite Hx. by apply (load_u8 b i).
Qed.

Lemma load_range_safe {A} (b : list A) off n :
  0 <= off -> 0 <= n -> off + n <= zlen b -> safe (fun r => zlen r = n) (load_range b off n).
Proof.
  intros H0 H1 H2. destruct (load_range b off n) as [r |] eqn:E.
  - unfold load_range in E. destruct (_ && _); [| done]. injection E as <-. simpl. zl.
  - unfold load_range in E.
    destruct (Z.leb_spec 0 off), (Z.leb_spec 0 n), (Z.leb_spec (off + n) (zlen b)); done || lia.
Qed.

Lemma store_safe {A} (b : list A) i v :
  0 <= i < zlen b -> safe (fun b' => zlen b' = zlen b) (store b i v).
Proof.
  intros H. unfold store. destruct (Z.leb_spec 0 i), (Z.ltb_spec i (zlen b)); try lia.
  simpl. apply zlen_insert.
Qed.

Lemma store_range_safe {A} (b : list A) off src :
  0 <= off -> off + zlen src <= zlen b ->
  safe (fun b' => zlen b' = zlen b) (store_range b off src).
Proof.
  intros H0 H1. destruct (store_range b off src) eqn:E; simpl.
  - unfold store_range in E. destruct (_ && _) eqn:B; [| done]. injection E as <-.
    pose proof (zlen_nonneg src). zl.
  - unfold store_range in E.
    destruct (Z.leb_spec 0 off), (Z.leb_spec (off + zlen src) (zlen b)); done || lia.
Qed.

Lemma load_0 {A} (x : A) b : load (x :: b) 0 = Ret x.
Proof. reflexivity. Qed.

Lemma load_app_l {A} (l k : list A) i :
  0 <= i < zlen l -> load (l ++ k) i = load l i.
Proof.
  intros H. unfold load, zlen in *. destruct (Z.ltb_spec i 0); [done |].
  rewrite lookup_app_l; [done | lia].
Qed.

Lemma load_app_r {A} (l k : list A) i :
  zlen l <= i -> load (l ++ k) i = load k (i - zlen l).
Proof.
  intros H. unfold load, zlen in *.
  destruct (Z.ltb_spec i 0), (Z.ltb_spec (i - Z.of_nat (length l)) 0); try lia.
  rewrite lookup_app_r by lia. by replace (Z.to_nat i - length l)%nat
    with (Z.to_nat (i - Z.of_nat (length l))) by lia.
Qed.

Lemma load_range_ret {A} (b : list A) off n r :
  load_range b off n = Ret r <->
  0 <= off /\ 0 <= n /\ off + n <= zlen b /\ r = ztake n (zdrop off b).
Proof.
  unfold load_range.
  destruct (Z.leb_spec 0 off), (Z.leb_spec 0 n), (Z.leb_spec (off + n) (zlen b));
    simpl; split; try done; try lia.
  - intros [= <-]. done.
  - intros (_ & _ & _ & ->). done.
Qed.

Lemma load_range_in {A} (b : list A) off n :
  0 <= off -> 0 <= n -> off + n <= zlen b ->
  load_range b off n = Ret (ztake n (zdrop off b)).
Proof. intros. by apply load_range_ret. Qed.

Lemma load_range_app {A} (p m s : list A) off n :
  off = zlen p -> n = zlen m -> load_range (p ++ m ++ s) off n = Ret m.
Proof.
  intros -> ->. apply load_range_ret. autorewrite with zlen.
  pose proof (zlen_nonneg p). pose proof (zlen_nonneg m).
  pose proof (zlen_nonneg s). split_and!; try lia.
  rewrite zdrop_app_length by done. by rewrite ztake_app_length.
Qed.

Lemma load_range_prefix {A} (m s : list A) n :
  n = zlen m -> load_range (m ++ s) 0 n = Ret m.
Proof. intros H. by apply (load_range_app []). Qed.

(** A read inside a prefix is a read of the whole. *)
Lemma load_ztake {A} (b : list A) n i : 0 <= i < n -> load (ztake n b) i = load b i.
Proof.
  intros H. unfold load, ztake. destruct (i <? 0); [done |]. rewrite lookup_take_lt by lia. done.
Qed.

Lemma load_zdrop {A} (b : list A) k i : 0 <= k -> 0 <= i -> load (zdrop k b) i = load b (k + i).
Proof.
  intros Hk Hi. unfold load, zdrop. destruct (Z.ltb_spec i 0), (Z.ltb_spec (k + i) 0); try lia.
  rewrite lookup_drop. by replace (Z.to_nat k + Z.to_nat i)%nat with (Z.to_nat (k + i)) by lia.
Qed.

Lemma load_range_ztake {A} (b : list A) n i m :
  n <= zlen b -> 0 <= i -> 0 <= m -> i + m <= n ->
  load_range (ztake n b) i m = load_range b i m.
Proof.
  intros Hn Hi Hm H. rewrite !load_range_in; [| lia.. | done | done | rewrite zlen_ztake; lia].
  f_equal. unfold ztake, zdrop. rewrite skipn_firstn_comm, firstn_firstn. f_equal. lia.
Qed.

Lemma load_range_all {A} (b : list A) n :
  n = zlen b -> load_range b 0 n = Ret b.
Proof.
  intros ->. apply load_range_ret. pose proof (zlen_nonneg b).
  split_and!; try lia. rewrite zdrop_0. by rewrite ztake_zlen.
Qed.

Lemma store_ret {A} (b : list A) i v r :
  store b i v = Ret r <-> 0 <= i < zlen b /\ r = <[Z.to_nat i := v]> b.
Proof.
  unfold store.
  destruct (Z.leb_spec 0 i), (Z.ltb_spec i (zlen b)); simpl; split; try done;
    try lia; [intros [= <-]; done | intros [_ ->]; done].
Qed.

Lemma store_in {A} (b : list A) i v :
  0 <= i < zlen b -> store b i v = Ret (<[Z.to_nat i := v]> b).
Proof. intros. by apply store_ret. Qed.

Lemma store_range_ret {A} (b : list A) off src r :
  store_range b off src = Ret r <->
  0 <= off /\ off + zlen src <= zlen b /\
  r = ztake off b ++ src ++ zdrop (off + zlen src) b.
Proof.
  unfold store_range.
  destruct (Z.leb_spec 0 off), (Z.leb_spec (off + zlen src) (zlen b));
    simpl; split; try done; try lia; [intros [= <-]; done |].
  intros (_ & _ & ->). done.
Qed.

Lemma store_range_in {A} (b : list A) off src :
  0 <= off -> off + zlen src <= zlen b ->
  store_range b off src = Ret (ztake off b ++ src ++ zdrop (off + zlen src) b).
Proof. intros. by apply store_range_ret. Qed.

Lemma store_range_zlen {A} (b : list A) off src r :
  store_range b off src = Ret r -> zlen r = zlen b.
Proof.
  intros (H1 & H2 & ->)%store_range_ret. pose proof (zlen_nonneg src). zl.
Qed.

Lemma store_range_app {A} (p m s : list A) off src :
  off = zlen p -> zlen src = zlen m ->
  store_range (p ++ m ++ s) off src = Ret (p ++ src ++ s).
Proof.
  intros -> Hm. apply store_range_ret. autorewrite with zlen.
  pose proof (zlen_nonneg p). pose proof (zlen_nonneg s).
  pose proof (zlen_nonneg m). split_and!; try lia.
  rewrite ztake_app_length by done. f_equal. f_equal.
  rewrite zdrop_app_ge by lia. rewrite zdrop_app_length by lia. done.
Qed.

(** ** Pointwise views of reads and writes *)

Lemma load_store_range {A} (b : list A) off src b' j :
  store_range b off src = Ret b' -> 0 <= j < zlen b ->
  load b' j = if (off <=? j) && (j <? off + zlen src)
              then load src (j - off) else load b j.
Proof.
  intros (H0 & H1 & ->)%store_range_ret Hj. pose proof (zlen_nonneg src).
  destruct (Z.leb_spec off j); simpl.
  2: { rewrite load_app_l by zl. unfold load. destruct (Z.ltb_spec j 0); [done |].
       unfold ztake. rewrite lookup_take_lt; [done | lia]. }
  rewrite load_app_r by zl.
  replace (zlen (ztake off b)) with off by zl.
  destruct (Z.ltb_spec j (off + zlen src)).
  - apply load_app_l. lia.
  - rewrite load_app_r by lia. unfold load, zdrop.
    destruct (Z.ltb_spec (j - off - zlen src) 0), (Z.ltb_spec j 0); try lia.
    rewrite lookup_drop. f_equal.
    replace (Z.to_nat (off + zlen src) + Z.to_nat (j - off - zlen src))%nat
      with (Z.to_nat j) by lia. done.
Qed.

Lemma load_load_range {A} (b : list A) off n r i :
  load_range b off n = Ret r -> 0 <= i < n -> load r i = load b (off + i).
Proof.
  intros (H0 & H1 & H2 & ->)%load_range_ret Hi. unfold load, ztake, zdrop.
  destruct (Z.ltb_spec i 0), (Z.ltb_spec (off + i) 0); try lia.
  rewrite lookup_take_lt, lookup_drop by lia.
  by replace (Z.to_nat off + Z.to_nat i)%nat with (Z.to_nat (off + i)) by lia.
Qed.

Lemma load_range_zlen {A} (b : list A) off n r :
  load_range b off n = Ret r -> zlen r = n.
Proof. intros (H0 & H1 & H2 & ->)%load_range_ret. zl. Qed.

Lemma load_ext {A} (l k : list A) :
  zlen l = zlen k -> (forall i, 0 <= i < zlen l -> load l i = load k i) -> l = k.
Proof.
  intros Hl H. apply list_eq_same_length with (length l); unfold zlen in *; try lia.
  intros i x y Hi Hx Hy. specialize (H (Z.of_nat i) ltac:(lia)). unfold load in H.
  destruct (Z.ltb_spec (Z.of_nat i) 0); [lia |]. rewrite Nat2Z.id, Hx, Hy in H.
  congruence.
Qed.

Lemma store_head {A} (x v : A) b : store (x :: b) 0 v = Ret (v :: b).
Proof. apply store_ret. split; [pose proof (zlen_nonneg b); zl | done]. Qed.

Lemma load_store_other {A} (b : list A) i v b' :
  store b i v = Ret b' ->
  load b' i = Ret v /\ (forall j, 0 <= j -> j <> i -> load b' j = load b j).
Proof.
  intros [Hi ->]%store_ret. unfold zlen in Hi. split.
  - apply load_ret. split; [lia |]. apply list_lookup_insert_eq. lia.
  - intros j Hj Hne. unfold load. destruct (Z.ltb_spec j 0); [done |].
    rewrite list_lookup_insert_ne; [done | lia].
Qed.

(** ** Casts *)

(** [wraps] decides linear goals about the casts. *)
Ltac wraps :=
  unfold s16, s32, u8, u16, u32, u64, is_u8, is_u16, is_u32, is_u64 in *;
  repeat match goal with
         | |- context [if ?a <? ?b then _ else _] => destruct (Z.ltb_spec a b)
         | H : context [if ?a <? ?b then _ else _] |- _ =>
             destruct (Z.ltb_spec a b)
         end;
  Z.div_mod_to_equations; lia.

(** [zcase] splits on the integer comparisons of the goal, dropping the branches
    that contradict the context. *)
Ltac zcase :=
  repeat match goal with
         | |- context [?a <=? ?b] => destruct (Z.leb_spec a b); simpl; try lia
         | |- context [?a <? ?b] => destruct (Z.ltb_spec a b); simpl; try lia
         | |- context [?a =? ?b] => destruct (Z.eqb_spec a b); simpl; try lia
         end.

Lemma u8_range x : is_u8 (u8 x).
Proof. wraps. Qed.
Lemma u16_range x : is_u16 (u16 x).
Proof. wraps. Qed.
Lemma u32_range x : is_u32 (u32 x).
Proof. wraps. Qed.
Lemma u64_range x : is_u64 (u64 x).
Proof. wraps. Qed.

Lemma u8_small x : is_u8 x -> u8 x = x.
Proof. apply Z.mod_small. Qed.
Lemma u16_small x : is_u16 x -> u16 x = x.
Proof. apply Z.mod_small. Qed.
Lemma u32_small x : is_u32 x -> u32 x = x.
Proof. apply Z.mod_small. Qed.
Lemma u64_small x : is_u64 x -> u64 x = x.
Proof. apply Z.mod_small. Qed.

#[export] Hint Resolve u8_range u16_range u32_range u64_range : rtc.

Lemma u32_add_l x y : u32 (u32 x + y) = u32 (x + y).
Proof. apply Zplus_mod_idemp_l. Qed.
Lemma u64_add_l x y : u64 (u64 x + y) = u64 (x + y).
Proof. apply Zplus_mod_idemp_l. Qed.
Lemma u32_add_r x y : u32 (x + u32 y) = u32 (x + y).
Proof. apply Zplus_mod_idemp_r. Qed.
Lemma u16_add_l x y : u16 (u16 x + y) = u16 (x + y).
Proof. apply Zplus_mod_idemp_l. Qed.
Lemma u16_sub_l x y : u16 (u16 x - y) = u16 (x - y).
Proof. apply Zminus_mod_idemp_l. Qed.
Lemma u16_sub_r x y : u16 (x - u16 y) = u16 (x - y).
Proof. apply Zminus_mod_idemp_r. Qed.
Lemma u32_sub_l x y : u32 (u32 x - y) = u32 (x - y).
Proof. apply Zminus_mod_idemp_l. Qed.
Lemma u32_sub_r x y : u32 (x - u32 y) = u32 (x - y).
Proof. apply Zminus_mod_idemp_r. Qed.

(** [(int16_t) x > 0] is "x is ahead by less than half the sequence space". *)
Lemma s16_pos x : 0 < s16 x <-> 0 < u16 x < 32768.
Proof. wraps. Qed.
Lemma s32_pos x : 0 < s32 x <-> 0 < u32 x < 2147483648.
Proof. wraps. Qed.

(** ** Bit operations as arithmetic *)

Lemma shiftr_div x k : 0 <= k -> Z.shiftr x k = x / 2 ^ k.
Proof. apply Z.shiftr_div_pow2. Qed.

Lemma shiftl_mul x k : 0 <= k -> Z.shiftl x k = x * 2 ^ k.
Proof. apply Z.shiftl_mul_pow2. Qed.

Lemma land_mask x k : 0 <= k -> Z.land x (Z.ones k) = x mod 2 ^ k.
Proof. apply Z.land_ones. Qed.

Lemma land_255 x : Z.land x 255 = x mod 256.
Proof. apply (Z.land_ones x 8). lia. Qed.

Lemma lor_low a b k :
  0 <= k -> 0 <= b < 2 ^ k -> Z.lor (a * 2 ^ k) b = a * 2 ^ k + b.
Proof.
  intros Hk Hb. rewrite <- Z.shiftl_mul_pow2 by done.
  rewrite <- Z.lxor_lor, Z.add_nocarry_lxor; [done | | ];
    apply Z.bits_inj_0; intros i; rewrite Z.land_spec;
    destruct (Z.ltb_spec i k).
  all: try (rewrite Z.shiftl_spec_low by done; done).
  all: destruct (decide (b = 0)) as [-> | Hb0];
    [by rewrite Z.bits_0, andb_false_r |].
  all: rewrite (Z.bits_above_log2 b i); [apply andb_false_r | lia |].
  all: apply Z.lt_le_trans with k; [apply Z.log2_lt_pow2; lia | done].
Qed.

Lemma lor_shiftl a b k :
  0 <= k -> 0 <= b < 2 ^ k -> Z.lor (Z.shiftl a k) b = a * 2 ^ k + b.
Proof. intros. rewrite Z.shiftl_mul_pow2 by done. by apply lor_low. Qed.

Lemma land_pow2_bit x k :
  0 <= k -> Z.land x (2 ^ k) = if Z.testbit x k then 2 ^ k else 0.
Proof.
  intros Hk. apply Z.bits_inj'. intros i Hi. rewrite Z.land_spec.
  rewrite Z.pow2_bits_eqb by done. destruct (Z.eqb_spec k i) as [-> | Hne].
  - rewrite andb_true_r. destruct (Z.testbit x i).
    + by rewrite Z.pow2_bits_true.
    + by rewrite Z.bits_0.
  - rewrite andb_false_r. destruct (Z.testbit x k).
    + by rewrite Z.pow2_bits_false.
    + by rewrite Z.bits_0.
Qed.

(** ** Big-endian fields

    [be_enc n v] is the n-octet network-order form of v; the wire writers of
    the codecs are shown equal to it, so that every round trip is an instance
    of [be_dec_enc] or [be_enc_dec]. *)

Fixpoint be_enc (n : nat) (v : Z) : octets :=
  match n with
  | O => []
  | S n' => (v / 2 ^ (8 * Z.of_nat n')) mod 256 :: be_enc n' v
  end.

Definition be_dec (b : octets) : Z := fold_left (fun a x => a * 256 + x) b 0.

Lemma be_enc_length n v : length (be_enc n v) = n.
Proof. induction n; simpl; congruence. Qed.

Lemma zlen_be_enc n v : zlen (be_enc n v) = Z.of_nat n.
Proof. unfold zlen. by rewrite be_enc_length. Qed.
#[export] Hint Rewrite zlen_be_enc : zlen.

Lemma be_enc_ok n v : octets_ok (be_enc n v).
Proof.
  induction n; simpl; constructor; [| done]. apply Z.mod_pos_bound. lia.
Qed.
#[export] Hint Resolve be_enc_ok : rtc.

Lemma be_dec_acc b a :
  fold_left (fun a x => a * 256 + x) b a = a * 256 ^ zlen b + be_dec b.
Proof.
  revert a. induction b as [| x b IH]; intros a.
  - change (a = a * 1 + 0). lia.
  - unfold be_dec. simpl. rewrite (IH (a * 256 + x)), (IH (0 * 256 + x)).
    rewrite zlen_cons, Z.pow_add_r by (pose proof (zlen_nonneg b); lia). lia.
Qed.

Lemma be_dec_cons x b : be_dec (x :: b) = x * 256 ^ zlen b + be_dec b.
Proof. unfold be_dec at 1. simpl. rewrite be_dec_acc. lia. Qed.

Lemma be_dec_range b : octets_ok b -> 0 <= be_dec b < 256 ^ zlen b.
Proof.
  induction 1 as [| x b Hx Hb IH].
  { change (0 <= 0 < 1). lia. }
  unfold is_u8 in Hx. rewrite be_dec_cons, zlen_cons.
  rewrite Z.pow_add_r by (pose proof (zlen_nonneg b); lia). nia.
Qed.

Lemma be_dec_enc n v : be_dec (be_enc n v) = v mod 256 ^ Z.of_nat n.
Proof.
  induction n as [| n IH]; [by rewrite Z.mod_1_r |].
  simpl be_enc. rewrite be_dec_cons, IH, zlen_be_enc.
  rewrite Nat2Z.inj_succ, Z.pow_succ_r by lia.
  rewrite Z.pow_mul_r by lia. change (2 ^ 8) with 256.
  rewrite (Z.mul_comm 256), Z.rem_mul_r by lia. lia.
Qed.

Lemma be_enc_mod n v : be_enc n (v mod 256 ^ Z.of_nat n) = be_enc n v.
Proof.
  cut (forall m, (n <= m)%nat -> be_enc n (v mod 256 ^ Z.of_nat m) = be_enc n v);
    [intros H; by apply H |].
  induction n as [| n IH]; intros m Hm; [done |]. simpl. f_equal; [| apply IH; lia].
  rewrite Z.pow_mul_r by lia. change (2 ^ 8) with 256.
  replace (Z.of_nat m) with (Z.of_nat n + (1 + (Z.of_nat m - Z.of_nat n - 1))) by lia.
  rewrite (Z.pow_add_r 256 (Z.of_nat n)) by lia.
  rewrite Z.rem_mul_r by lia.
  rewrite (Z.mul_comm (256 ^ Z.of_nat n)), Z.div_add by lia.
  rewrite (Z.div_small (v mod _)) by (apply Z.mod_pos_bound; lia). simpl.
  apply Z.mod_mod_divide. exists (256 ^ (Z.of_nat m - Z.of_nat n - 1)).
  rewrite Z.pow_add_r by lia. lia.
Qed.

Lemma be_enc_dec b : octets_ok b -> be_enc (length b) (be_dec b) = b.
Proof.
  induction 1 as [| x b Hx Hb IH]; [done |]. simpl. unfold is_u8 in Hx.
  pose proof (be_dec_range b Hb). rewrite be_dec_cons.
  rewrite Z.pow_mul_r by lia. change (2 ^ 8) with 256. fold (zlen b).
  f_equal.
  - rewrite Z.div_add_l by lia. rewrite (Z.div_small (be_dec b)) by done.
    rewrite Z.add_0_r. by apply Z.mod_small.
  - rewrite <- (be_enc_mod (length b)). fold (zlen b).
    rewrite Z.add_comm, Z.mod_add by lia. rewrite Z.mod_small by done. done.
Qed.

Lemma be_enc_inj n v w :
  0 <= v < 256 ^ Z.of_nat n -> 0 <= w < 256 ^ Z.of_nat n ->
  be_enc n v = be_enc n w -> v = w.
Proof.
  intros Hv Hw H%(f_equal be_dec). rewrite !be_dec_enc in H.
  by rewrite !Z.mod_small in H.
Qed.

(** [p[off] = v0; p[off + 1] = v1; ...]. *)
Fixpoint stores {A} (b : list A) (off : Z) (vs : list A) : outcome (list A) :=
  match vs with
  | [] => Ret b
  | v :: vs => b ← store b off v; stores b (off + 1) vs
  end.

Lemma stores_store_range {A} (vs : list A) : forall b off,
  0 <= off <= zlen b -> stores b off vs = store_range b off vs.
Proof.
  induction vs as [| v vs IH]; intros b off Hoff; simpl.
  - rewrite store_range_in by zl. simpl. rewrite zlen_nil, Z.add_0_r.
    by rewrite ztake_zdrop.
  - unfold store. destruct (Z.leb_spec 0 off), (Z.ltb_spec off (zlen b)); try lia; simpl.
    + rewrite IH by zl. pose proof (zlen_nonneg vs). unfold store_range.
      rewrite zlen_insert, zlen_cons. replace (off + (1 + zlen vs)) with (off + 1 + zlen vs) by lia.
      destruct (Z.leb_spec 0 (off + 1)), (Z.leb_spec 0 off); try lia; simpl.
      destruct (off + 1 + zlen vs <=? zlen b); [| done]. f_equal.
      unfold ztake, zdrop. rewrite drop_insert_lt by lia.
      replace (Z.to_nat (off + 1)) with (S (Z.to_nat off)) by lia.
      unfold zlen in *. rewrite (take_S_r _ _ v); [| apply list_lookup_insert_eq; lia].
      rewrite take_insert_ge by lia. by rewrite <- app_assoc.
    + unfold store_range. rewrite zlen_cons. pose proof (zlen_nonneg vs).
      destruct (Z.leb_spec (off + (1 + zlen vs)) (zlen b)); [lia |].
      by rewrite andb_false_r.
Qed.

#[global] Arguments stores : simpl never.

(** A write of [src] at the end of what [pre] already holds. *)
Lemma store_range_cursor {A} (pre b : list A) off src :
  off = zlen pre -> zlen src <= zlen b ->
  store_range (pre ++ b) off src = Ret ((pre ++ src) ++ zdrop (zlen src) b).
Proof.
  intros -> H. pose proof (zlen_nonneg src). pose proof (zlen_nonneg pre).
  rewrite store_range_in by zl. rewrite ztake_app_length by done.
  rewrite zdrop_app_ge by lia. rewrite app_assoc. do 3 f_equal. lia.
Qed.

Lemma stores_cursor {A} (pre b : list A) off src :
  off = zlen pre -> zlen src <= zlen b ->
  stores (pre ++ b) off src = Ret ((pre ++ src) ++ zdrop (zlen src) b).
Proof.
  intros Ho H. pose proof (zlen_nonneg pre). pose proof (zlen_nonneg src).
  rewrite stores_store_range by zl. by apply store_range_cursor.
Qed.

Lemma store_cursor {A} (pre b : list A) off v :
  off = zlen pre -> 1 <= zlen b ->
  store (pre ++ b) off v = Ret ((pre ++ [v]) ++ zdrop 1 b).
Proof.
  intros Ho H. change 1 with (zlen [v]) in *. 
  rewrite <- (stores_cursor pre b off) by done. unfold stores. by destruct (store _ _ _).
Qed.

(** The two shift-and-mask field writers of the codecs. *)
Lemma be_enc_2 x : [Z.land (Z.shiftr x 8) 255; Z.land x 255] = be_enc 2 x.
Proof.
  simpl. rewrite !land_255, shiftr_div by lia. by rewrite Z.div_1_r.
Qed.

Lemma be_enc_4 x :
  [Z.land (Z.shiftr x 24) 255; Z.land (Z.shiftr x 16) 255;
   Z.land (Z.shiftr x 8) 255; Z.land x 255] = be_enc 4 x.
Proof.
  simpl. rewrite !land_255, !shiftr_div by lia. by rewrite Z.div_1_r.
Qed.

(** The in-memory form of a host integer on the little-endian targets the module
    is built for. *)
Definition le_enc (n : nat) (v : Z) : octets := rev (be_enc n v).
Definition le_dec (b : octets) : Z := be_dec (rev b).

Lemma zlen_le_enc n v : zlen (le_enc n v) = Z.of_nat n.
Proof. unfold le_enc, zlen. rewrite length_rev. apply zlen_be_enc. Qed.
#[export] Hint Rewrite zlen_le_enc : zlen.

Lemma le_dec_enc n v : le_dec (le_enc n v) = v mod 256 ^ Z.of_nat n.
Proof. unfold le_dec, le_enc. rewrite rev_involutive. apply be_dec_enc. Qed.

#[global] Arguments le_enc : simpl never.
#[global] Arguments le_dec : simpl never.

(** ** Power-of-two index masks *)

Lemma land_pow2_mask x k : 0 <= k -> Z.land x (2 ^ k - 1) = x mod 2 ^ k.
Proof.
  intros Hk. rewrite <- Z.land_ones by done. f_equal.
  rewrite Z.ones_equiv. lia.
Qed.

Lemma u32_mod_pow2 x k : 0 <= k <= 32 -> u32 x mod 2 ^ k = x mod 2 ^ k.
Proof.
  intros Hk. unfold u32. change 4294967296 with (2 ^ 32).
  apply Z.mod_mod_divide. exists (2 ^ (32 - k)).
  rewrite <- Z.pow_add_r by lia. f_equal. lia.
Qed.

Lemma u64_mod_pow2 x k : 0 <= k <= 64 -> u64 x mod 2 ^ k = x mod 2 ^ k.
Proof.
  intros Hk. unfold u64. change 18446744073709551616 with (2 ^ 64).
  apply Z.mod_mod_divide. exists (2 ^ (64 - k)).
  rewrite <- Z.pow_add_r by lia. f_equal. lia.
Qed.

Lemma u16_mod_pow2 x k : 0 <= k <= 16 -> u16 x mod 2 ^ k = x mod 2 ^ k.
Proof.
  intros Hk. unfold u16. change 65536 with (2 ^ 16).
  apply Z.mod_mod_divide. exists (2 ^ (16 - k)).
  rewrite <- Z.pow_add_r by lia. f_equal. lia.
Qed.

(** A standard-library allocation: [ok] says whether the allocator succeeded. *)
Definition calloc (ok : bool) (n m : Z) : ptr octets :=
  if ok then Ref (zeros (n * m)) else NULL.
