(* ===== verification/Nginx.v ===== *)
(** What the registries use of nginx: intrusive queues (ngx_queue_t) and the string
    tree (ngx_str_rbtree_lookup and its kin).  nginx is not part of the repository, so each is an
    interface: a class of operations and a class of the laws the callers rely on, which
    are the documented behaviour of those macros and functions.  The instances at the end
    show that the laws can hold. *)

From stdpp Require Export gmap functions.
From S2P Require Import Prelude.

(** ** Intrusive queues

    A queue is named by the structure that embeds its head, a node by the structure that
    embeds its link.  In a release build [ngx_queue_remove] only rewires the neighbours:
    the removed node keeps stale pointers and must not be removed again. *)

Inductive link (QI : Type) : Type :=
| Zeroed
| Self
| On (i : QI)
| Stale.
Arguments Zeroed {QI}.
Arguments Self {QI}.
Arguments On {QI} i.
Arguments Stale {QI}.

#[global] Instance link_eq_dec `{EqDecision QI} : EqDecision (link QI).
Proof. solve_decision. Defined.

Class Queues (QI Nd Q : Type) := {
  q_list : QI -> Q -> list Nd;
  q_link : Nd -> Q -> link QI;
  ngx_queue_init_head : QI -> Q -> Q;
  ngx_queue_init : Nd -> Q -> Q;
  ngx_queue_zero : Nd -> Q -> Q;
  ngx_queue_insert_head : QI -> Nd -> Q -> Q;
  ngx_queue_remove : Nd -> Q -> outcome Q
}.

(** [q] and [q'] agree but for queue [i] and node [x]. *)
Definition q_same `{Queues QI Nd Q} (i : QI) (x : Nd) (q q' : Q) : Prop :=
  (forall j, j <> i -> q_list j q' = q_list j q) /\
  (forall y, y <> x -> q_link y q' = q_link y q).

Class QueueLaws (QI Nd Q : Type) `{!EqDecision Nd} `{Queues QI Nd Q} := {
  init_head_law i q :
    (forall x, q_link x q <> On i) ->
    q_list i (ngx_queue_init_head i q) = [] /\
    (forall j, j <> i -> q_list j (ngx_queue_init_head i q) = q_list j q) /\
    (forall x, q_link x (ngx_queue_init_head i q) = q_link x q);
  init_law x q :
    (forall i, q_link x q <> On i) ->
    q_link x (ngx_queue_init x q) = Self /\
    (forall y, y <> x -> q_link y (ngx_queue_init x q) = q_link y q) /\
    (forall j, q_list j (ngx_queue_init x q) = q_list j q);
  zero_law x q :
    (forall i, q_link x q <> On i) ->
    q_link x (ngx_queue_zero x q) = Zeroed /\
    (forall y, y <> x -> q_link y (ngx_queue_zero x q) = q_link y q) /\
    (forall j, q_list j (ngx_queue_zero x q) = q_list j q);
  insert_head_law i x q :
    (forall j, q_link x q <> On j) ->
    q_list i (ngx_queue_insert_head i x q) = x :: q_list i q /\
    q_link x (ngx_queue_insert_head i x q) = On i /\
    q_same i x q (ngx_queue_insert_head i x q);
  remove_law i x q :
    q_link x q = On i ->
    exists q', ngx_queue_remove x q = Ret q' /\
      q_list i q' = filter (fun y => y <> x) (q_list i q) /\ q_link x q' = Stale /\
      q_same i x q q';
  remove_self_law x q : q_link x q = Self -> ngx_queue_remove x q = Ret q
}.

(** A filter that keeps everything. *)
Lemma filter_all {A} (P : A -> Prop) `{!forall x, Decision (P x)} (l : list A) :
  (forall x, x ∈ l -> P x) -> filter P l = l.
Proof.
  induction l as [| x l IH]; intros Hl; [done |]. rewrite filter_cons_True by (apply Hl; by left).
  f_equal. apply IH. intros y Hy. apply Hl. by right.
Qed.

(** The node after [x] in a list, if any. *)
Fixpoint successor `{EqDecision Nd} (x : Nd) (l : list Nd) : option Nd :=
  match l with
  | [] => None
  | y :: l => if decide (y = x) then head l else successor x l
  end.

(** [ngx_queue_next] from a node of queue [i]; None is the sentinel.  A detached node's
    pointers lead nowhere. *)
Definition ngx_queue_next `{EqDecision QI, EqDecision Nd, Queues QI Nd Q} (i : QI) (x : Nd) (q : Q)
    : outcome (option Nd) :=
  if decide (q_link x q = On i) then Ret (successor x (q_list i q)) else Fault.

Lemma successor_mid `{EqDecision Nd} (x : Nd) pre post :
  NoDup (pre ++ x :: post) -> successor x (pre ++ x :: post) = head post.
Proof.
  induction pre as [| y pre IH]; cbn; [by rewrite decide_True |].
  intros [Hy Hnd]%NoDup_cons. rewrite decide_False; [by apply IH |].
  intros ->. apply Hy, elem_of_app. right. by left.
Qed.

(** Links and lists agree. *)
Record q_ok `{Queues QI Nd Q} (q : Q) : Prop := {
  q_iff x i : q_link x q = On i <-> x ∈ q_list i q;
  q_nodup i : NoDup (q_list i q)
}.

Section queue_ok.
Context `{EqDecision QI, EqDecision Nd, HQ : Queues QI Nd Q, !QueueLaws QI Nd Q}.
Implicit Types (q : Q) (i : QI) (x : Nd).

Lemma detached_not_in x q : q_ok q -> (forall i, q_link x q <> On i) -> forall i, x ∉ q_list i q.
Proof. intros Hq Hx i Hin. apply (q_iff q Hq) in Hin. by apply (Hx i). Qed.

Lemma link_not_on x q (l : link QI) :
  q_link x q = l -> (forall i, l <> On i) -> forall i, q_link x q <> On i.
Proof. intros -> H. exact H. Qed.

Lemma init_head_ok i q :
  q_ok q -> (forall x, q_link x q <> On i) -> q_ok (ngx_queue_init_head i q).
Proof.
  intros Hq Hi. destruct (init_head_law i q Hi) as (H1 & H2 & H3). split.
  - intros x j. rewrite H3. destruct (decide (j = i)) as [-> |].
    + rewrite H1. split; [intros E; by apply Hi in E | by intros ?%elem_of_nil].
    + rewrite H2 by done. apply Hq.
  - intros j. destruct (decide (j = i)) as [-> |]; [rewrite H1; constructor |].
    rewrite H2 by done. apply Hq.
Qed.

Lemma relink_ok x q q' (l : link QI) :
  q_ok q -> (forall i, q_link x q <> On i) -> (forall i, l <> On i) ->
  q_link x q' = l -> (forall y, y <> x -> q_link y q' = q_link y q) ->
  (forall j, q_list j q' = q_list j q) -> q_ok q'.
Proof.
  intros Hq Hx Hl H1 H2 H3. split; [| intros j; rewrite H3; apply Hq].
  intros y j. rewrite H3. destruct (decide (y = x)) as [-> |].
  - rewrite H1. split; [intros E; by apply Hl in E |].
    intros Hin. apply (q_iff q Hq) in Hin. by apply Hx in Hin.
  - rewrite H2 by done. apply Hq.
Qed.

Lemma init_ok x q : q_ok q -> (forall i, q_link x q <> On i) -> q_ok (ngx_queue_init x q).
Proof.
  intros Hq Hx. destruct (init_law x q Hx) as (H1 & H2 & H3). by eapply (relink_ok x q _ Self).
Qed.

Lemma zero_ok x q : q_ok q -> (forall i, q_link x q <> On i) -> q_ok (ngx_queue_zero x q).
Proof.
  intros Hq Hx. destruct (zero_law x q Hx) as (H1 & H2 & H3). by eapply (relink_ok x q _ Zeroed).
Qed.

Lemma insert_head_ok i x q :
  q_ok q -> (forall j, q_link x q <> On j) -> q_ok (ngx_queue_insert_head i x q).
Proof.
  intros Hq Hx. destruct (insert_head_law i x q Hx) as (H1 & H2 & H3 & H4). split.
  - intros y j. destruct (decide (y = x)) as [-> | Hy].
    + rewrite H2. destruct (decide (j = i)) as [-> | Hj].
      * rewrite H1. split; [by left | done].
      * rewrite H3 by done. split; [congruence |]. intros Hin. by apply (detached_not_in x q Hq Hx j) in Hin.
    + rewrite H4 by done. destruct (decide (j = i)) as [-> | Hj]; [| rewrite H3 by done; apply Hq].
      rewrite H1, elem_of_cons, (q_iff q Hq). split; [by right | by intros [-> |]].
  - intros j. destruct (decide (j = i)) as [-> | Hj]; [| rewrite H3 by done; apply Hq].
    rewrite H1. constructor; [by apply detached_not_in | apply Hq].
Qed.

Lemma remove_ok i x q :
  q_ok q -> q_link x q = On i ->
  exists q', ngx_queue_remove x q = Ret q' /\ q_ok q' /\
    q_list i q' = filter (fun y => y <> x) (q_list i q) /\ q_link x q' = Stale /\
    q_same i x q q'.
Proof.
  intros Hq Hx. destruct (remove_law i x q Hx) as (q' & E & H1 & H2 & H3 & H4).
  exists q'. split_and!; try done. split.
  - intros y j. destruct (decide (y = x)) as [-> | Hy].
    + rewrite H2. split; [done |]. destruct (decide (j = i)) as [-> | Hj].
      * rewrite H1. by intros [? _]%list_elem_of_filter.
      * rewrite H3 by done. intros Hin. apply (q_iff q Hq) in Hin. congruence.
    + rewrite H4 by done. destruct (decide (j = i)) as [-> | Hj]; [| rewrite H3 by done; apply Hq].
      rewrite H1, list_elem_of_filter, (q_iff q Hq). tauto.
  - intros j. destruct (decide (j = i)) as [-> | Hj]; [| rewrite H3 by done; apply Hq].
    rewrite H1. apply NoDup_filter, Hq.
Qed.
End queue_ok.

(** *** Walking a queue

    [for (q = ngx_queue_head (i); q != sentinel; q = ngx_queue_next (q))]: [queue_find]
    stops at the first node [p] accepts; [queue_each] runs [body] on each node of the queue
    that [qs] finds in the state, reading the successor before the body, which may unlink
    the node. *)

Definition ngx_queue_head `{Queues QI Nd Q} (i : QI) (q : Q) : option Nd := head (q_list i q).

Fixpoint queue_find `{EqDecision QI, EqDecision Nd, Queues QI Nd Q} (fuel : nat) (i : QI)
    (p : Nd -> outcome bool) (q : Q) (x : option Nd) : outcome (option Nd) :=
  match x with
  | None => Ret None
  | Some n =>
      match fuel with
      | O => Fault
      | S fuel =>
          b ← p n;
          if b : bool then Ret (Some n)
          else x ← ngx_queue_next i n q; queue_find fuel i p q x
      end
  end.

Fixpoint queue_each `{EqDecision QI, EqDecision Nd, Queues QI Nd Q} {S : Type} (fuel : nat)
    (i : QI) (qs : S -> Q) (body : Nd -> S -> outcome S) (s : S) (x : option Nd) : outcome S :=
  match x with
  | None => Ret s
  | Some n =>
      match fuel with
      | O => Fault
      | Datatypes.S fuel =>
          next ← ngx_queue_next i n (qs s);
          s ← body n s;
          queue_each fuel i qs body s next
      end
  end.

Section walk.
Context `{EqDecision QI, EqDecision Nd, HQ : Queues QI Nd Q}.

Lemma queue_next_mid (i : QI) (n : Nd) (q : Q) pre post :
  q_ok q -> q_list i q = pre ++ n :: post -> ngx_queue_next i n q = Ret (head post).
Proof.
  intros Hq Hl. unfold ngx_queue_next. rewrite decide_True.
  - rewrite Hl, successor_mid by (rewrite <- Hl; apply Hq). done.
  - apply (q_iff q Hq). rewrite Hl. apply elem_of_app. right. by left.
Qed.

Lemma queue_find_from (i : QI) p (b : Nd -> bool) (q : Q) post : forall pre fuel,
  q_ok q -> q_list i q = pre ++ post -> (length post <= fuel)%nat ->
  (forall n, n ∈ post -> p n = Ret (b n)) ->
  queue_find fuel i p q (head post) = Ret (List.find b post).
Proof.
  induction post as [| n post IH]; intros pre fuel Hq Hl Hf Hp; [by destruct fuel |].
  cbn [length] in Hf. destruct fuel as [| fuel]; [lia |]. cbn [queue_find head List.find].
  rewrite Hp, bind_Ret by (by left). destruct (b n); [done |].
  rewrite (queue_next_mid i n q pre post Hq Hl), bind_Ret.
  apply (IH (pre ++ [n])); [done | by rewrite <- app_assoc | lia |].
  intros m Hm. apply Hp. by right.
Qed.

(** A search over the whole queue is [List.find]. *)
Lemma queue_find_spec (i : QI) p (b : Nd -> bool) (q : Q) :
  q_ok q -> (forall n, n ∈ q_list i q -> p n = Ret (b n)) ->
  queue_find (length (q_list i q)) i p q (ngx_queue_head i q) = Ret (List.find b (q_list i q)).
Proof. intros Hq Hp. by apply (queue_find_from i p b q _ []). Qed.

(** A loop invariant, indexed by the nodes still to visit. *)
Lemma queue_each_spec {S} (Inv : list Nd -> S -> Prop) (i : QI) (qs : S -> Q) body :
  (forall l s, Inv l s -> q_ok (qs s) /\ exists pre, q_list i (qs s) = pre ++ l) ->
  (forall n l s, Inv (n :: l) s -> exists s', body n s = Ret s' /\ Inv l s') ->
  forall l fuel s, Inv l s -> (length l <= fuel)%nat ->
  exists s', queue_each fuel i qs body s (head l) = Ret s' /\ Inv [] s'.
Proof.
  intros Hq Hb. induction l as [| n l IH]; intros fuel s Hs Hf.
  { exists s. by destruct fuel. }
  cbn [length] in Hf. destruct fuel as [| fuel]; [lia |]. cbn [queue_each head].
  destruct (Hq _ _ Hs) as (Hqok & pre & Hl).
  rewrite (queue_next_mid i n _ pre l Hqok Hl), bind_Ret.
  destruct (Hb _ _ _ Hs) as (s1 & -> & Hs1). rewrite bind_Ret. apply IH; [done | lia].
Qed.
End walk.

(** ** The string tree *)

(** Nodes carry a hash and a string; the address of the structure that embeds the node
    identifies it. *)
Definition key : Type := Z * octets.

Class StrTree (T : Type) := {
  t_empty : T;
  t_has : T -> key -> Z -> Prop;
  ngx_str_rbtree_lookup : T -> key -> ptr Z;
  ngx_rbtree_insert : T -> key -> Z -> T;
  ngx_rbtree_delete : T -> Z -> T
}.

Class StrTreeLaws (T : Type) `{StrTree T} := {
  empty_law k a : ~ t_has t_empty k a;
  insert_law t k a k' a' :
    (forall k0, ~ t_has t k0 a) ->
    t_has (ngx_rbtree_insert t k a) k' a' <-> (k' = k /\ a' = a) \/ t_has t k' a';
  delete_law t k a k' a' :
    t_has t k a -> t_has (ngx_rbtree_delete t a) k' a' <-> a' <> a /\ t_has t k' a';
  lookup_some_law t k a : ngx_str_rbtree_lookup t k = Ref a -> t_has t k a;
  lookup_none_law t k a : ngx_str_rbtree_lookup t k = NULL -> ~ t_has t k a
}.

(** ** Instances *)

Record queues (QI Nd : Type) := { lists : QI -> list Nd; links : Nd -> link QI }.
Arguments lists {QI Nd} q.
Arguments links {QI Nd} q.

#[global] Instance list_queues `{EqDecision QI, EqDecision Nd} : Queues QI Nd (queues QI Nd) := {
  q_list i q := lists q i;
  q_link x q := links q x;
  ngx_queue_init_head i q := {| lists := <[i := []]> (lists q); links := links q |};
  ngx_queue_init x q := {| lists := lists q; links := <[x := Self]> (links q) |};
  ngx_queue_zero x q := {| lists := lists q; links := <[x := Zeroed]> (links q) |};
  ngx_queue_insert_head i x q :=
    {| lists := <[i := x :: lists q i]> (lists q); links := <[x := On i]> (links q) |};
  ngx_queue_remove x q :=
    match links q x with
    | On i => Ret {| lists := <[i := filter (fun y => y <> x) (lists q i)]> (lists q);
                     links := <[x := Stale]> (links q) |}
    | Self => Ret q
    | _ => Fault
    end
}.

Ltac fn_solve :=
  repeat match goal with
  | |- _ /\ _ => split
  | |- forall _, _ => intros ?
  | |- context [<[?i := _]> ?f ?i] => rewrite (fn_lookup_insert f)
  | H : ?j <> ?i |- context [<[?i := _]> ?f ?j] => rewrite (fn_lookup_insert_ne f) by congruence
  end; try done.

#[global] Instance list_queue_laws `{EqDecision QI, EqDecision Nd} : QueueLaws QI Nd (queues QI Nd).
Proof.
  split.
  - intros i q _. cbn. fn_solve.
  - intros x q _. cbn. fn_solve.
  - intros x q _. cbn. fn_solve.
  - intros i x q _. unfold q_same. cbn. fn_solve.
  - intros i x q Hx. cbn in Hx |- *. rewrite Hx. eexists. split; [reflexivity |].
    unfold q_same. cbn. fn_solve.
  - intros x q Hx. cbn in Hx |- *. by rewrite Hx.
Qed.

(** A tree as the list of its nodes. *)
#[global] Instance list_tree : StrTree (list (key * Z)) := {
  t_empty := [];
  t_has t k a := (k, a) ∈ t;
  ngx_str_rbtree_lookup t k :=
    match list_find (fun n => n.1 = k) t with Some (_, (_, a)) => Ref a | None => NULL end;
  ngx_rbtree_insert t k a := (k, a) :: t;
  ngx_rbtree_delete t a := filter (fun n => n.2 <> a) t
}.

#[global] Instance list_tree_laws : StrTreeLaws (list (key * Z)).
Proof.
  split; cbn.
  - intros k a ?%elem_of_nil. done.
  - intros t k a k' a' _. rewrite elem_of_cons. intuition congruence.
  - intros t k a k' a' _. rewrite list_elem_of_filter. cbn. tauto.
  - intros t k a H. destruct (list_find _ t) as [[i [k' a']] |] eqn:E; [| done].
    injection H as ->. apply list_find_Some in E as (E & Hk & _). cbn in Hk. subst k'.
    by eapply list_elem_of_lookup_2.
  - intros t k a H Hin. destruct (list_find _ t) as [[i [k' a']] |] eqn:E; [done |].
    apply list_find_None in E. rewrite Forall_forall in E. by apply (E _ Hin).
Qed.
