(* ===== verification/Window.v ===== *)
(** Circular windows.  Every ring of the program (the fixed-size ring, the byte
    ring, the GOP ring, the retransmit ring and the shm media ring) stores the
    i-th live item at index (start + i) mod cap.  [window] says so for an
    arbitrary slot accessor, and the lemmas here are the steps the rings share:
    append a slot, drop the oldest, overwrite the oldest when full. *)

From S2P Require Import Prelude.

Section window.
Context {A : Type}.
Implicit Types (get : Z -> outcome A) (l k : list A).

Definition window (cap : Z) get (start : Z) l : Prop :=
  forall i, 0 <= i < zlen l -> get ((start + i) mod cap) = load l i.

Lemma window_nil cap get start : window cap get start [].
Proof. intros i Hi. rewrite zlen_nil in Hi. lia. Qed.

Lemma window_app cap get start l k :
  window cap get start (l ++ k) <->
  window cap get start l /\ window cap get (start + zlen l) k.
Proof.
  unfold window. rewrite zlen_app. split.
  - intros H. split; intros i Hi.
    + rewrite H by (pose proof (zlen_nonneg k); lia). by apply load_app_l.
    + replace (start + zlen l + i) with (start + (zlen l + i)) by lia.
      pose proof (zlen_nonneg l). rewrite H by lia.
      rewrite load_app_r by lia. f_equal. lia.
  - intros [Hl Hk] i Hi. destruct (Z.lt_ge_cases i (zlen l)).
    + rewrite load_app_l by lia. apply Hl. lia.
    + rewrite load_app_r by lia. rewrite <- Hk by lia. f_equal. f_equal. lia.
Qed.

Lemma window_start cap get start start' l :
  start mod cap = start' mod cap ->
  window cap get start l -> window cap get start' l.
Proof.
  intros Hs H i Hi. rewrite <- H by done. f_equal.
  rewrite <- (Zplus_mod_idemp_l start'), <- (Zplus_mod_idemp_l start).
  by rewrite Hs.
Qed.

Lemma window_agree cap get get' start l :
  (forall i, 0 <= i < zlen l ->
     get' ((start + i) mod cap) = get ((start + i) mod cap)) ->
  window cap get start l -> window cap get' start l.
Proof. intros Ha H i Hi. rewrite Ha by done. by apply H. Qed.

Lemma window_one cap get start x :
  get (start mod cap) = Ret x -> window cap get start [x].
Proof.
  intros H i Hi. rewrite zlen_cons, zlen_nil in Hi.
  replace i with 0 by lia. by rewrite Z.add_0_r, H.
Qed.

Lemma window_head cap get start x l :
  window cap get start (x :: l) -> get (start mod cap) = Ret x.
Proof.
  intros H. rewrite <- (Z.add_0_r start). apply (H 0).
  rewrite zlen_cons. pose proof (zlen_nonneg l). lia.
Qed.

Lemma window_tail cap get start x l :
  window cap get start (x :: l) -> window cap get (start + 1) l.
Proof. intros H. by apply (window_app cap get start [x] l) in H as [_ H]. Qed.

Lemma window_index cap get start l i x :
  window cap get start l -> load l i = Ret x ->
  get ((start + i) mod cap) = Ret x.
Proof. intros H Hx. rewrite H; [done | by eapply load_bound]. Qed.

Lemma mod_offset_inj cap s i j :
  0 <= i < cap -> 0 <= j < cap ->
  (s + i) mod cap = (s + j) mod cap -> i = j.
Proof.
  intros Hi Hj H.
  assert (Hd : (i - j) mod cap = 0).
  { replace (i - j) with ((s + i) - (s + j)) by lia.
    rewrite Zminus_mod, H, Z.sub_diag. by apply Zmod_0_l. }
  apply Z.mod_divide in Hd as [c Hc]; [| lia].
  destruct (Z.lt_trichotomy c 0) as [? | [-> | ?]]; nia.
Qed.

(** Appending to a window that is not full. *)
Lemma window_push cap get get' start l x :
  0 < cap -> zlen l < cap ->
  get' ((start + zlen l) mod cap) = Ret x ->
  (forall j, 0 <= j < cap -> j <> (start + zlen l) mod cap -> get' j = get j) ->
  window cap get start l -> window cap get' start (l ++ [x]).
Proof.
  intros Hc Hl Hx Hother H. apply window_app. split; [| by apply window_one].
  apply window_agree with get; [| done]. intros i Hi.
  apply Hother; [by apply Z.mod_pos_bound |].
  intros He. pose proof (zlen_nonneg l).
  apply mod_offset_inj in He; lia.
Qed.

(** Appending to a full window overwrites the oldest item. *)
Lemma window_slide cap get get' start y l x :
  0 < cap -> zlen (y :: l) = cap ->
  get' ((start + cap) mod cap) = Ret x ->
  (forall j, 0 <= j < cap -> j <> (start + cap) mod cap -> get' j = get j) ->
  window cap get start (y :: l) -> window cap get' (start + 1) (l ++ [x]).
Proof.
  intros Hc Hl Hx Hother H%window_tail. rewrite zlen_cons in Hl.
  apply window_push with get; try done; try lia.
  - by replace (start + 1 + zlen l) with (start + cap) by lia.
  - by replace (start + 1 + zlen l) with (start + cap) by lia.
Qed.
(** Appending a whole block to a window that has room for it. *)
Lemma window_append cap get get' start l k :
  zlen l + zlen k <= cap ->
  window cap get' (start + zlen l) k ->
  (forall j, 0 <= j < cap ->
     (forall i, 0 <= i < zlen k -> j <> (start + zlen l + i) mod cap) ->
     get' j = get j) ->
  window cap get start l -> window cap get' start (l ++ k).
Proof.
  intros Hc Hk Hother H. apply window_app. split; [| done].
  apply window_agree with get; [| done]. intros i Hi.
  pose proof (zlen_nonneg k). apply Hother; [apply Z.mod_pos_bound; lia |].
  intros i' Hi' He. rewrite <- Z.add_assoc in He.
  apply mod_offset_inj in He; lia.
Qed.
End window.

(** ** Rounding a capacity up to a power of two

    [v |= v >> 1; v |= v >> 2; ...] smears the leading bit downwards.  After the
    shifts 1, 2, .., k/2 the bits of [y] are those of the original [x] seen
    through a window of k positions. *)

Definition smeared (x k y : Z) : Prop :=
  0 <= y /\
  forall i, 0 <= i ->
    (Z.testbit y i = true <-> exists d, 0 <= d < k /\ Z.testbit x (i + d) = true).

Lemma smeared_1 x : 0 <= x -> smeared x 1 x.
Proof.
  intros Hx. split; [done |]. intros i Hi. split.
  - intros H. exists 0. rewrite Z.add_0_r. split; [lia | done].
  - intros (d & Hd & H). replace (i + d) with i in H by lia. done.
Qed.

Lemma smeared_step x k y :
  0 < k -> smeared x k y -> smeared x (2 * k) (Z.lor y (Z.shiftr y k)).
Proof.
  intros Hk [Hy H]. split.
  { apply Z.lor_nonneg. split; [done |]. by apply Z.shiftr_nonneg. }
  intros i Hi. rewrite Z.lor_spec, Z.shiftr_spec, orb_true_iff by done.
  rewrite !H by lia. split.
  - intros [(d & Hd & Hb) | (d & Hd & Hb)].
    + exists d. split; [lia | done].
    + exists (k + d). split; [lia |]. by rewrite Z.add_assoc.
  - intros (d & Hd & Hb). destruct (Z.lt_ge_cases d k).
    + left. exists d. split; [lia | done].
    + right. exists (d - k). split; [lia |]. by replace (i + k + (d - k))
        with (i + d) by lia.
Qed.

Lemma smeared_done x k y :
  0 < x -> Z.log2 x < k -> smeared x k y -> y + 1 = 2 ^ Z.succ (Z.log2 x).
Proof.
  intros Hx Hk [Hy H]. pose proof (Z.log2_nonneg x).
  assert (Heq : y = Z.ones (Z.succ (Z.log2 x))).
  2: { rewrite Heq, Z.ones_equiv. lia. }
  apply Z.bits_inj'. intros i Hi.
  destruct (Z.le_gt_cases i (Z.log2 x)) as [Hle | Hgt].
  - rewrite Z.ones_spec_low by lia. apply H; [done |].
    exists (Z.log2 x - i). split; [lia |].
    replace (i + (Z.log2 x - i)) with (Z.log2 x) by lia. by apply Z.bit_log2.
  - rewrite Z.ones_spec_high by lia.
    apply not_true_iff_false. intros Hb. apply H in Hb as (d & Hd & Hb); [| done].
    rewrite Z.bits_above_log2 in Hb by lia. done.
Qed.

Lemma pow2_succ_log2_up v : 1 < v -> 2 ^ Z.succ (Z.log2 (v - 1)) = 2 ^ Z.log2_up v.
Proof. intros Hv. rewrite Z.log2_up_eqn by done. done. Qed.
