(* ===== verification/RingBuf.v ===== *)
(** The two bounded FIFOs of src/ngx_rtc_ring.{h,c}: [Ring], the fixed-size slot
    ring indexed by free-running 32-bit counters, and [VRing], the byte arena of
    length-prefixed entries.  Each is shown to implement a queue of octet
    strings; AudioWorker.v builds its two queues on [VRing]. *)

From S2P Require Import Prelude Window.

Module Ring.

Record ngx_rtc_ring_t := {
  buf : ptr octets;
  capacity : Z;
  elem_size : Z;
  head : Z;
  tail : Z
}.

Definition eta (r : ngx_rtc_ring_t) : ngx_rtc_ring_t :=
  {| buf := buf r; capacity := capacity r; elem_size := elem_size r;
     head := head r; tail := tail r |}.
Definition set_buf := ltac:(setter eta buf).
Definition set_head := ltac:(setter eta head).
Definition set_tail := ltac:(setter eta tail).

Definition ngx_rtc_ring_next_pow2 (v : Z) : Z :=
  let v := u32 (v - 1) in
  let v := Z.lor v (Z.shiftr v 1) in
  let v := Z.lor v (Z.shiftr v 2) in
  let v := Z.lor v (Z.shiftr v 4) in
  let v := Z.lor v (Z.shiftr v 8) in
  let v := Z.lor v (Z.shiftr v 16) in
  u32 (v + 1).

(** [calloc_ok] is whether the allocator succeeds; on failure [r->buf] has
    already been overwritten with NULL. *)
Definition ngx_rtc_ring_init (calloc_ok : bool) (r : ptr ngx_rtc_ring_t)
    (cap esz : Z) : Z * ptr ngx_rtc_ring_t :=
  match r with
  | NULL => (-1, NULL)
  | Ref r =>
      if (cap =? 0) || (esz =? 0) then (-1, Ref r)
      else
        let cap := ngx_rtc_ring_next_pow2 cap in
        let b := calloc calloc_ok cap esz in
        if is_null b then (-1, Ref (set_buf b r))
        else (0, Ref {| buf := b; capacity := cap; elem_size := esz;
                        head := 0; tail := 0 |})
  end.

Definition ngx_rtc_ring_destroy (r : ptr ngx_rtc_ring_t)
    : ptr ngx_rtc_ring_t :=
  match r with
  | NULL => NULL
  | Ref _ => Ref {| buf := NULL; capacity := 0; elem_size := 0;
                    head := 0; tail := 0 |}
  end.

Definition ngx_rtc_ring_full (r : ptr ngx_rtc_ring_t) : Z :=
  match r with
  | NULL => 1
  | Ref r =>
      if is_null (buf r) then 1
      else if capacity r <=? u32 (head r - tail r) then 1 else 0
  end.

Definition ngx_rtc_ring_empty (r : ptr ngx_rtc_ring_t) : Z :=
  match r with
  | NULL => 1
  | Ref r =>
      if is_null (buf r) then 1 else if head r =? tail r then 1 else 0
  end.

Definition ngx_rtc_ring_count (r : ptr ngx_rtc_ring_t) : Z :=
  match r with
  | NULL => 0
  | Ref r => if is_null (buf r) then 0 else u32 (head r - tail r)
  end.

(** [(x & (r->capacity - 1u)) * r->elem_size] in 32-bit arithmetic. *)
Definition slot_off (r : ngx_rtc_ring_t) (x : Z) : Z :=
  u32 (Z.land x (u32 (capacity r - 1)) * elem_size r).

Definition ngx_rtc_ring_push (r : ptr ngx_rtc_ring_t) (elem : ptr octets)
    : outcome (Z * ptr ngx_rtc_ring_t) :=
  match r with
  | NULL => Ret (-1, r)
  | Ref rr =>
      match buf rr, elem with
      | Ref b, Ref e =>
          if negb (ngx_rtc_ring_full r =? 0) then Ret (-1, r)
          else
            let idx := slot_off rr (head rr) in
            src ← load_range e 0 (elem_size rr);
            b' ← store_range b idx src;
            Ret (0, Ref (rr |> set_buf (Ref b')
                            |> set_head (u32 (head rr + 1))))
      | _, _ => Ret (-1, r)
      end
  end.

(** The out-buffer [elem] is returned as the callee leaves it. *)
Definition ngx_rtc_ring_pop (r : ptr ngx_rtc_ring_t) (elem : ptr octets)
    : outcome (Z * ptr ngx_rtc_ring_t * ptr octets) :=
  match r with
  | NULL => Ret (-1, r, elem)
  | Ref rr =>
      match buf rr, elem with
      | Ref b, Ref e =>
          if negb (ngx_rtc_ring_empty r =? 0) then Ret (-1, r, elem)
          else
            let idx := slot_off rr (tail rr) in
            src ← load_range b idx (elem_size rr);
            e' ← store_range e 0 src;
            Ret (0, Ref (set_tail (u32 (tail rr + 1)) rr), Ref e')
      | _, _ => Ret (-1, r, elem)
      end
  end.

#[global] Arguments ngx_rtc_ring_push : simpl never.
#[global] Arguments ngx_rtc_ring_pop : simpl never.

(** *** The capacity *)

Lemma next_pow2_log2_up v :
  1 <= v <= 2 ^ 31 -> ngx_rtc_ring_next_pow2 v = 2 ^ Z.log2_up v.
Proof.
  intros Hv. destruct (decide (v = 1)) as [-> | Hne]; [done |].
  unfold ngx_rtc_ring_next_pow2. rewrite (u32_small (v - 1)) by wraps.
  assert (Hs : smeared (v - 1) 1 (v - 1)) by (apply smeared_1; lia).
  apply (smeared_step _ 1) in Hs; [| lia]. apply (smeared_step _ 2) in Hs; [| lia].
  apply (smeared_step _ 4) in Hs; [| lia]. apply (smeared_step _ 8) in Hs; [| lia].
  apply (smeared_step _ 16) in Hs; [| lia].
  assert (Hlog : Z.log2 (v - 1) <= 30).
  { apply Z.lt_succ_r, Z.log2_lt_pow2; simpl; lia. }
  apply smeared_done in Hs; [| lia | lia]. cbv zeta. rewrite Hs.
  rewrite u32_small; [apply pow2_succ_log2_up; lia |].
  pose proof (Z.log2_nonneg (v - 1)). unfold is_u32.
  pose proof (Z.pow_le_mono_r 2 (Z.succ (Z.log2 (v - 1))) 31). lia.
Qed.

(** *** Refinement to a bounded queue *)

(** The queue a ring of [cap] slots of [esz] octets promises to be. *)
Definition spec_push (cap : Z) (q : list octets) (e : octets) : Z * list octets :=
  if zlen q <? cap then (0, q ++ [e]) else (-1, q).

Definition spec_pop (q : list octets) (out : octets) : Z * octets * list octets :=
  match q with [] => (-1, out, []) | e :: q' => (0, e, q') end.

Definition slot (esz : Z) (b : octets) (i : Z) : outcome octets :=
  load_range b (i * esz) esz.

Definition ring_rep (k esz : Z) (r : ngx_rtc_ring_t) (q : list octets) : Prop :=
  exists b, buf r = Ref b /\ capacity r = 2 ^ k /\ elem_size r = esz /\
    0 <= k <= 31 /\ 0 < esz /\ 2 ^ k * esz < 2 ^ 32 /\
    zlen b = 2 ^ k * esz /\ is_u32 (head r) /\ is_u32 (tail r) /\
    u32 (head r - tail r) = zlen q /\ zlen q <= 2 ^ k /\
    Forall (fun e => zlen e = esz) q /\
    window (2 ^ k) (slot esz b) (tail r) q.

Lemma slot_off_mod r k esz x :
  0 <= k <= 31 -> 0 < esz -> 2 ^ k * esz < 2 ^ 32 ->
  capacity r = 2 ^ k -> elem_size r = esz ->
  slot_off r x = x mod 2 ^ k * esz.
Proof.
  intros Hk He Ho Hc Hs. unfold slot_off. rewrite Hc, Hs.
  pose proof (Z.pow_pos_nonneg 2 k).
  pose proof (Z.pow_le_mono_r 2 k 31).
  rewrite (u32_small (2 ^ k - 1)) by (unfold is_u32; lia).
  rewrite land_pow2_mask by lia.
  pose proof (Z.mod_pos_bound x (2 ^ k)).
  rewrite u32_small; [done |]. unfold is_u32. nia.
Qed.

Lemma slot_write esz b b' i e :
  0 < esz -> 0 <= i -> zlen e = esz ->
  store_range b (i * esz) e = Ret b' ->
  slot esz b' i = Ret e /\
  (forall j, 0 <= j -> j <> i -> slot esz b' j = slot esz b j).
Proof.
  intros He Hi Hl Hst. pose proof (store_range_zlen _ _ _ _ Hst) as Hlen.
  apply store_range_ret in Hst as (H0 & Hb & ->). rewrite Hl in Hb.
  pose proof (zlen_nonneg b). split.
  - unfold slot. apply load_range_app; [zl | done].
  - intros j Hj Hne. unfold slot, load_range.
    rewrite Hlen, Hl. destruct (Z.leb_spec 0 (j * esz)); [| done].
    destruct (Z.leb_spec 0 esz); [| done].
    destruct (Z.leb_spec (j * esz + esz) (zlen b)); [| done]. simpl. f_equal.
    destruct (Z.lt_ge_cases j i).
    + assert (j * esz + esz <= i * esz) by nia.
      unfold ztake, zdrop. rewrite <- (take_drop (Z.to_nat (i * esz)) b) at 3.
      unfold zlen in *.
      rewrite !drop_app_le by (rewrite length_take; lia).
      rewrite !take_app_le; [done | |]; rewrite length_drop, length_take; lia.
    + assert (i * esz + esz <= j * esz) by nia.
      rewrite !zdrop_app_ge by zl. rewrite zdrop_zdrop by zl.
      do 2 f_equal. zl.
Qed.

Lemma u32_diff_zero h t : is_u32 h -> is_u32 t -> u32 (h - t) = 0 <-> h = t.
Proof. intros. wraps. Qed.

Lemma ring_rep_full k esz r q :
  ring_rep k esz r q ->
  ngx_rtc_ring_full (Ref r) = if zlen q <? 2 ^ k then 0 else 1.
Proof.
  intros (b & Hb & Hc & _ & _ & _ & _ & _ & _ & _ & Hd & _).
  unfold ngx_rtc_ring_full. rewrite Hb, Hc, Hd. simpl.
  destruct (Z.leb_spec (2 ^ k) (zlen q)), (Z.ltb_spec (zlen q) (2 ^ k)); lia.
Qed.

Lemma ring_rep_empty k esz r q :
  ring_rep k esz r q ->
  ngx_rtc_ring_empty (Ref r) = match q with [] => 1 | _ => 0 end.
Proof.
  intros (b & Hb & _ & _ & _ & _ & _ & _ & Hh & Ht & Hd & _).
  unfold ngx_rtc_ring_empty. rewrite Hb. simpl.
  pose proof (u32_diff_zero _ _ Hh Ht) as [Hz1 Hz2].
  destruct (Z.eqb_spec (head r) (tail r)) as [Heq | Hne], q as [| e q']; try done.
  - rewrite Hz2, zlen_cons in Hd by done. pose proof (zlen_nonneg q'). lia.
  - rewrite zlen_nil in Hd. by apply Hz1 in Hd.
Qed.

Lemma ring_rep_count k esz r q :
  ring_rep k esz r q -> ngx_rtc_ring_count (Ref r) = zlen q.
Proof.
  intros (b & Hb & _ & _ & _ & _ & _ & _ & _ & _ & Hd & _).
  unfold ngx_rtc_ring_count. by rewrite Hb.
Qed.

(** The write position of a ring of [n] live slots, modulo the capacity. *)
Lemma head_mod k h t n :
  0 <= k <= 31 -> u32 (h - t) = n -> h mod 2 ^ k = (t + n) mod 2 ^ k.
Proof.
  intros Hk <-. rewrite <- Zplus_mod_idemp_r.
  rewrite u32_mod_pow2 by lia. rewrite Zplus_mod_idemp_r. f_equal. lia.
Qed.

Lemma ring_push_refines k esz r q e :
  ring_rep k esz r q -> zlen e = esz ->
  exists r', ngx_rtc_ring_push (Ref r) (Ref e)
      = Ret (fst (spec_push (2 ^ k) q e), Ref r') /\
    ring_rep k esz r' (snd (spec_push (2 ^ k) q e)).
Proof.
  intros Hrep He. unfold ngx_rtc_ring_push, spec_push.
  rewrite (ring_rep_full _ _ _ _ Hrep).
  pose proof Hrep as (b & Hb & Hc & Hs & Hk & Hesz & Ho & Hlb & Hh & Ht & Hd &
    Hq & Hall & Hw).
  rewrite Hb. destruct (Z.ltb_spec (zlen q) (2 ^ k)) as [Hlt | Hge]; simpl.
  2: { by exists r. }
  rewrite (slot_off_mod r k esz) by done. rewrite Hs.
  rewrite load_range_all by done. simpl.
  assert (Hidx := Z.mod_pos_bound (head r) (2 ^ k) ltac:(lia)).
  assert (Hst : exists b', store_range b (head r mod 2 ^ k * esz) e = Ret b').
  { eexists. apply store_range_in; nia. }
  destruct Hst as [b' Hst]. rewrite Hst. simpl. eexists. split; [done |].
  exists b'. simpl. pose proof (store_range_zlen _ _ _ _ Hst).
  apply slot_write in Hst as [Hw1 Hw2]; [| lia | lia | done].
  rewrite (head_mod k _ (tail r) (zlen q)) in Hw1, Hw2 by done.
  split_and!; try done; try lia; try (by wraps).
  - rewrite u32_sub_l. rewrite zlen_app, zlen_cons, zlen_nil.
    pose proof (Z.pow_le_mono_r 2 k 31 ltac:(lia) ltac:(lia)). wraps.
  - rewrite zlen_app, zlen_cons, zlen_nil. lia.
  - by apply Forall_app_2, Forall_singleton.
  - apply window_push with (slot esz b); try done; [lia |].
    intros j Hj Hne. apply Hw2; [lia | done].
Qed.

Lemma ring_pop_refines k esz r q out :
  ring_rep k esz r q -> zlen out = esz ->
  exists r', ngx_rtc_ring_pop (Ref r) (Ref out)
      = Ret (fst (fst (spec_pop q out)), Ref r',
             Ref (snd (fst (spec_pop q out)))) /\
    ring_rep k esz r' (snd (spec_pop q out)).
Proof.
  intros Hrep Hout. unfold ngx_rtc_ring_pop.
  rewrite (ring_rep_empty _ _ _ _ Hrep).
  pose proof Hrep as (b & Hb & Hc & Hs & Hk & Hesz & Ho & Hlb & Hh & Ht & Hd &
    Hq & Hall & Hw).
  rewrite Hb. destruct q as [| e q]; simpl; [by exists r |].
  rewrite (slot_off_mod r k esz) by done. rewrite Hs.
  pose proof (window_head _ _ _ _ _ Hw) as Hhd. unfold slot in Hhd.
  rewrite Hhd. simpl. apply Forall_cons_1 in Hall as [He Hall].
  rewrite store_range_in by lia. simpl.
  rewrite zdrop_all by lia. rewrite app_nil_r.
  eexists. split; [done |]. exists b. simpl. rewrite zlen_cons in *.
  split_and!; try done; try lia; try (by wraps).
  - rewrite u32_sub_r. pose proof (zlen_nonneg q). wraps.
  - apply window_start with (tail r + 1); [by rewrite u32_mod_pow2 by lia |].
    by apply window_tail with e.
Qed.

Lemma ring_init_rep r cap esz :
  1 <= cap <= 2 ^ 31 -> 0 < esz -> 2 ^ Z.log2_up cap * esz < 2 ^ 32 ->
  exists r', ngx_rtc_ring_init true (Ref r) cap esz = (0, Ref r') /\
    ring_rep (Z.log2_up cap) esz r' [].
Proof.
  intros Hcap Hesz Ho. unfold ngx_rtc_ring_init.
  destruct (Z.eqb_spec cap 0), (Z.eqb_spec esz 0); try lia. simpl.
  eexists. split; [done |]. rewrite next_pow2_log2_up by done.
  pose proof (Z.log2_up_nonneg cap).
  assert (Z.log2_up cap <= 31) by (apply Z.log2_up_le_pow2; lia).
  exists (zeros (2 ^ Z.log2_up cap * esz)). simpl.
  split_and!; try done; try lia.
  - apply zlen_zeros. lia.
  - rewrite zlen_nil. lia.
  - apply window_nil.
Qed.

(** *** Whole runs *)

Inductive op := Push (e : octets) | Pop (out : octets).

Definition step (r : ptr ngx_rtc_ring_t) (o : op)
    : outcome (Z * octets * ptr ngx_rtc_ring_t) :=
  match o with
  | Push e =>
      '(rc, r') ← ngx_rtc_ring_push r (Ref e); Ret (rc, [], r')
  | Pop out =>
      '(rc, r', out') ← ngx_rtc_ring_pop r (Ref out);
      Ret (rc, match out' with Ref b => b | NULL => [] end, r')
  end.

Fixpoint run (r : ptr ngx_rtc_ring_t) (os : list op)
    : outcome (list (Z * octets) * ptr ngx_rtc_ring_t) :=
  match os with
  | [] => Ret ([], r)
  | o :: os =>
      '(rc, out, r') ← step r o;
      '(rs, r'') ← run r' os;
      Ret ((rc, out) :: rs, r'')
  end.

Fixpoint spec_run (cap : Z) (q : list octets) (os : list op)
    : list (Z * octets) * list octets :=
  match os with
  | [] => ([], q)
  | Push e :: os =>
      let '(rc, q') := spec_push cap q e in
      let '(rs, q'') := spec_run cap q' os in ((rc, []) :: rs, q'')
  | Pop out :: os =>
      let '(rc, out', q') := spec_pop q out in
      let '(rs, q'') := spec_run cap q' os in ((rc, out') :: rs, q'')
  end.

Definition op_ok (esz : Z) (o : op) : Prop :=
  match o with Push e => zlen e = esz | Pop out => zlen out = esz end.

Lemma run_refines k esz os : forall r q,
  Forall (op_ok esz) os -> ring_rep k esz r q ->
  exists r', run (Ref r) os = Ret (fst (spec_run (2 ^ k) q os), Ref r') /\
    ring_rep k esz r' (snd (spec_run (2 ^ k) q os)).
Proof.
  induction os as [| o os IH]; intros r q Hok Hrep; [by exists r |].
  apply Forall_cons_1 in Hok as [Ho Hok]. destruct o as [e | out]; simpl in *.
  - destruct (ring_push_refines k esz r q e) as (r' & -> & Hrep'); try done.
    destruct (spec_push (2 ^ k) q e) as [rc q']; simpl in *.
    destruct (IH r' q' Hok Hrep') as (r'' & -> & Hrep'').
    destruct (spec_run (2 ^ k) q' os); simpl in *. by exists r''.
  - destruct (ring_pop_refines k esz r q out) as (r' & -> & Hrep'); try done.
    destruct (spec_pop q out) as [[rc out'] q']; simpl in *.
    destruct (IH r' q' Hok Hrep') as (r'' & -> & Hrep'').
    destruct (spec_run (2 ^ k) q' os); simpl in *. by exists r''.
Qed.

(** A ring initialised for [cap] slots behaves, over every sequence of
    pushes and pops and whatever its free-running 32-bit counters wrap to, as
    the bounded FIFO of [2 ^ log2_up cap] elements: same return codes, same
    elements out, same final count; no access leaves the buffer. *)
Theorem ring_fifo (r : ngx_rtc_ring_t) cap esz os :
  1 <= cap <= 2 ^ 31 -> 0 < esz -> 2 ^ Z.log2_up cap * esz < 2 ^ 32 ->
  Forall (op_ok esz) os ->
  exists r0 r1,
    ngx_rtc_ring_init true (Ref r) cap esz = (0, Ref r0) /\
    run (Ref r0) os
      = Ret (fst (spec_run (2 ^ Z.log2_up cap) [] os), Ref r1) /\
    ngx_rtc_ring_count (Ref r1)
      = zlen (snd (spec_run (2 ^ Z.log2_up cap) [] os)).
Proof.
  intros Hc He Ho Hok.
  destruct (ring_init_rep r cap esz) as (r0 & Hi & Hr0); try done.
  destruct (run_refines (Z.log2_up cap) esz os r0 []) as (r1 & Hrun & Hr1); try done.
  exists r0, r1. split_and!; try done. by eapply ring_rep_count.
Qed.

Lemma ring_fifo_witness :
  let os := [Push [1; 2]; Push [3; 4]; Push [5; 6]; Push [7; 8]; Push [9; 9];
             Pop [0; 0]; Push [9; 9]; Pop [0; 0]] in
  fst (spec_run 4 [] os)
    = [(0, []); (0, []); (0, []); (0, []); (-1, []); (0, [1; 2]); (0, []);
       (0, [3; 4])] /\
  exists r0 r1,
    ngx_rtc_ring_init true (Ref {| buf := NULL; capacity := 0; elem_size := 0;
      head := 0; tail := 0 |}) 3 2 = (0, Ref r0) /\
    run (Ref r0) os = Ret (fst (spec_run (2 ^ Z.log2_up 3) [] os), Ref r1) /\
    ngx_rtc_ring_count (Ref r1) = zlen (snd (spec_run (2 ^ Z.log2_up 3) [] os)).
Proof.
  split; [vm_compute; reflexivity |].
  apply ring_fifo; [vm_compute; split; discriminate | lia | vm_compute; reflexivity |].
  repeat (constructor; [vm_compute; reflexivity |]); constructor.
Defined.

End Ring.

Module VRing.

Record ngx_rtc_vring_t := {
  buf : ptr octets;
  capacity : Z;
  head : Z;
  tail : Z;
  bytes : Z
}.

Definition eta (r : ngx_rtc_vring_t) : ngx_rtc_vring_t :=
  {| buf := buf r; capacity := capacity r; head := head r; tail := tail r;
     bytes := bytes r |}.
Definition set_buf := ltac:(setter eta buf).
Definition set_head := ltac:(setter eta head).
Definition set_tail := ltac:(setter eta tail).
Definition set_bytes := ltac:(setter eta bytes).

Definition ngx_rtc_vring_write_at (b : octets) (capacity off : Z)
    (src : octets) (n : Z) : outcome octets :=
  let first := u32 (capacity - off) in
  let first := if n <? first then n else first in
  s1 ← load_range src 0 first;
  b1 ← store_range b off s1;
  if first <? n then
    s2 ← load_range src first (n - first);
    store_range b1 0 s2
  else Ret b1.

Definition ngx_rtc_vring_read_at (b : octets) (capacity off : Z)
    (dst : octets) (n : Z) : outcome octets :=
  let first := u32 (capacity - off) in
  let first := if n <? first then n else first in
  s1 ← load_range b off first;
  d1 ← store_range dst 0 s1;
  if first <? n then
    s2 ← load_range b 0 (n - first);
    store_range d1 first s2
  else Ret d1.

Definition ngx_rtc_vring_init (calloc_ok : bool) (r : ptr ngx_rtc_vring_t)
    (cap : Z) : Z * ptr ngx_rtc_vring_t :=
  match r with
  | NULL => (-1, NULL)
  | Ref r =>
      if cap =? 0 then (-1, Ref r)
      else
        let b := calloc calloc_ok cap 1 in
        if is_null b then (-1, Ref (set_buf b r))
        else (0, Ref {| buf := b; capacity := cap; head := 0; tail := 0;
                        bytes := 0 |})
  end.

Definition ngx_rtc_vring_destroy (r : ptr ngx_rtc_vring_t)
    : ptr ngx_rtc_vring_t :=
  match r with
  | NULL => NULL
  | Ref _ => Ref {| buf := NULL; capacity := 0; head := 0; tail := 0;
                    bytes := 0 |}
  end.

Definition ngx_rtc_vring_empty (r : ptr ngx_rtc_vring_t) : Z :=
  match r with
  | NULL => 1
  | Ref r =>
      if is_null (buf r) then 1 else if bytes r =? 0 then 1 else 0
  end.

(** [&len] is read as the four octets of the host integer. *)
Definition ngx_rtc_vring_push (r : ptr ngx_rtc_vring_t) (data : ptr octets)
    (len : Z) : outcome (Z * ptr ngx_rtc_vring_t) :=
  match r with
  | NULL => Ret (-1, r)
  | Ref rr =>
      match buf rr, data with
      | Ref b, Ref d =>
          if len =? 0 then Ret (-1, r)
          else
            let total := u32 (4 + len) in
            if capacity rr <? u32 (bytes rr + total) then Ret (-1, r)
            else
              b1 ← ngx_rtc_vring_write_at b (capacity rr) (head rr)
                     (le_enc 4 len) 4;
              b2 ← ngx_rtc_vring_write_at b1 (capacity rr)
                     (u32 (head rr + 4) mod capacity rr) d len;
              Ret (0, Ref (rr |> set_buf (Ref b2)
                |> set_head (u32 (head rr + total) mod capacity rr)
                |> set_bytes (u32 (bytes rr + total))))
      | _, _ => Ret (-1, r)
      end
  end.

(** [out] and [out_len] are returned as the callee leaves them. *)
Definition ngx_rtc_vring_pop (r : ptr ngx_rtc_vring_t) (out : ptr octets)
    (out_cap : Z) (out_len : ptr Z)
    : outcome (Z * ptr ngx_rtc_vring_t * ptr octets * ptr Z) :=
  match r with
  | NULL => Ret (-1, r, out, out_len)
  | Ref rr =>
      match buf rr, out, out_len with
      | Ref b, Ref o, Ref _ =>
          if bytes rr =? 0 then Ret (-1, r, out, out_len)
          else
            lenb ← ngx_rtc_vring_read_at b (capacity rr) (tail rr) (zeros 4) 4;
            let len := le_dec lenb in
            if out_cap <? len then Ret (-1, r, out, out_len)
            else
              o' ← ngx_rtc_vring_read_at b (capacity rr)
                     (u32 (tail rr + 4) mod capacity rr) o len;
              let total := u32 (4 + len) in
              Ret (0, Ref (rr
                |> set_tail (u32 (tail rr + total) mod capacity rr)
                |> set_bytes (u32 (bytes rr - total))), Ref o', Ref len)
      | _, _, _ => Ret (-1, r, out, out_len)
      end
  end.

#[global] Arguments ngx_rtc_vring_push : simpl never.
#[global] Arguments ngx_rtc_vring_pop : simpl never.

(** *** The two-part copies *)

Lemma mod_wrap cap off j :
  0 <= off < cap -> 0 <= j < cap ->
  (j - off) mod cap = if off <=? j then j - off else j - off + cap.
Proof.
  intros Ho Hj. destruct (Z.leb_spec off j); [apply Z.mod_small; lia |].
  rewrite <- (Z_mod_plus_full _ 1). rewrite Z.mod_small; lia.
Qed.

(** A copy of a slice of [src] is a pointwise update. *)
Lemma slice_store (src : octets) s n (b : octets) off :
  0 <= s -> 0 <= n -> s + n <= zlen src -> 0 <= off -> off + n <= zlen b ->
  exists x b', load_range src s n = Ret x /\ store_range b off x = Ret b' /\
    zlen b' = zlen b /\
    forall j, 0 <= j < zlen b ->
      load b' j = if (off <=? j) && (j <? off + n)
                  then load src (s + (j - off)) else load b j.
Proof.
  intros Hs Hn Hsn Ho Hb.
  destruct (load_range src s n) as [x |] eqn:Hx.
  2: { rewrite load_range_in in Hx by lia. done. }
  pose proof (load_range_zlen _ _ _ _ Hx).
  destruct (store_range b off x) as [b' |] eqn:Hb'.
  2: { rewrite store_range_in in Hb' by lia. done. }
  exists x, b'. split_and!; try done; [by eapply store_range_zlen |].
  intros j Hj. rewrite (load_store_range _ _ _ _ _ Hb') by lia. subst n.
  destruct (Z.leb_spec off j), (Z.ltb_spec j (off + zlen x)); try done. simpl.
  apply (load_load_range _ _ _ _ _ Hx). lia.
Qed.

Lemma vring_write_at_load b cap off src n :
  0 <= off < cap -> cap < 2 ^ 32 -> zlen b = cap -> 0 <= n <= cap ->
  n <= zlen src ->
  exists b', ngx_rtc_vring_write_at b cap off src n = Ret b' /\ zlen b' = cap /\
    forall j, 0 <= j < cap ->
      load b' j = if (j - off) mod cap <? n then load src ((j - off) mod cap)
                  else load b j.
Proof.
  intros Ho Hc Hb Hn Hs. unfold ngx_rtc_vring_write_at.
  rewrite (u32_small (cap - off)) by (unfold is_u32; lia).
  set (first := if n <? cap - off then n else cap - off).
  assert (Hf : first = Z.min n (cap - off))
    by (unfold first; destruct (Z.ltb_spec n (cap - off)); lia).
  destruct (slice_store src 0 first b off) as (x & b1 & -> & Hb1 & Hl1 & H1);
    try lia. simpl. rewrite Hb1. simpl.
  destruct (Z.ltb_spec first n).
  - destruct (slice_store src first (n - first) b1 0)
      as (y & b2 & -> & Hb2 & Hl2 & H2); try lia.
    exists b2. split; [done |]. split; [lia |]. intros j Hj.
    rewrite H2, H1 by lia. rewrite mod_wrap by done.
    zcase; try done; f_equal; lia.
  - exists b1. split; [done |]. split; [lia |]. intros j Hj.
    rewrite H1 by lia. rewrite mod_wrap by done. zcase; done.
Qed.

Lemma vring_write_window b cap off src n :
  0 <= off < cap -> cap < 2 ^ 32 -> zlen b = cap -> n = zlen src -> n <= cap ->
  exists b', ngx_rtc_vring_write_at b cap off src n = Ret b' /\ zlen b' = cap /\
    window cap (load b') off src /\
    (forall j, 0 <= j < cap ->
       (forall i, 0 <= i < n -> j <> (off + i) mod cap) ->
       load b' j = load b j).
Proof.
  intros Ho Hc Hb -> Hs. pose proof (zlen_nonneg src).
  destruct (vring_write_at_load b cap off src (zlen src)) as (b' & Hw & Hl & H');
    try done. exists b'. split_and!; try done.
  - intros i Hi. rewrite H' by (apply Z.mod_pos_bound; lia).
    rewrite Zminus_mod_idemp_l. replace (off + i - off) with i by lia.
    rewrite Z.mod_small by lia. destruct (Z.ltb_spec i (zlen src)); [done | lia].
  - intros j Hj Hne. rewrite H' by done.
    destruct (Z.ltb_spec ((j - off) mod cap) (zlen src)); [| done].
    pose proof (Z.mod_pos_bound (j - off) cap).
    destruct (Hne ((j - off) mod cap)); [lia |].
    rewrite Zplus_mod_idemp_r. replace (off + (j - off)) with j by lia.
    by rewrite Z.mod_small.
Qed.

Lemma vring_read_window b cap off l dst n :
  0 <= off < cap -> cap < 2 ^ 32 -> zlen b = cap -> n = zlen l -> n <= cap ->
  n <= zlen dst -> window cap (load b) off l ->
  ngx_rtc_vring_read_at b cap off dst n = Ret (l ++ zdrop n dst).
Proof.
  intros Ho Hc Hb -> Hl Hd Hw. pose proof (zlen_nonneg l).
  unfold ngx_rtc_vring_read_at.
  rewrite (u32_small (cap - off)) by (unfold is_u32; lia).
  set (first := if zlen l <? cap - off then zlen l else cap - off).
  assert (Hf : first = Z.min (zlen l) (cap - off))
    by (unfold first; destruct (Z.ltb_spec (zlen l) (cap - off)); lia).
  assert (Hdrop : forall j, zlen l <= j -> j < zlen dst ->
    load (l ++ zdrop (zlen l) dst) j = load dst j).
  { intros j Hj1 Hj2. rewrite load_app_r by lia. unfold zdrop, load.
    destruct (Z.ltb_spec (j - zlen l) 0), (Z.ltb_spec j 0); try lia.
    rewrite lookup_drop. by replace (Z.to_nat (zlen l) + Z.to_nat (j - zlen l))%nat
      with (Z.to_nat j) by lia. }
  destruct (slice_store b off first dst 0) as (x & d1 & -> & Hd1 & Hl1 & H1);
    try lia. simpl. rewrite Hd1. simpl.
  destruct (Z.ltb_spec first (zlen l)).
  - destruct (slice_store b 0 (zlen l - first) d1 first)
      as (y & d2 & -> & Hd2 & Hl2 & H2); try lia. simpl.
    rewrite Hd2. f_equal. apply load_ext; [zl |]. intros j Hj.
    rewrite H2, H1 by lia.
    destruct (Z.leb_spec first j), (Z.leb_spec 0 j), (Z.ltb_spec j (0 + first)),
      (Z.ltb_spec j (first + (zlen l - first))); simpl; try lia.
    all: try (rewrite Hdrop by lia; done).
    all: rewrite load_app_l by lia; rewrite <- Hw by lia; f_equal.
    + rewrite <- (Z_mod_plus_full _ (-1)), Z.mod_small; lia.
    + rewrite Z.mod_small; lia.
  - rewrite <- Hd1. f_equal. rewrite Hd1. f_equal. apply load_ext; [zl |].
    intros j Hj. rewrite H1 by lia.
    destruct (Z.leb_spec 0 j), (Z.ltb_spec j (0 + first)); simpl; try lia.
    + rewrite load_app_l by lia. rewrite <- Hw by lia. f_equal.
      rewrite Z.mod_small; lia.
    + rewrite Hdrop by lia. done.
Qed.

(** *** Refinement to a byte-bounded queue *)

Definition frame (e : octets) : octets := le_enc 4 (zlen e) ++ e.
Definition frames (q : list octets) : octets := concat (map frame q).
#[global] Arguments frame : simpl never.

Definition spec_push (cap : Z) (q : list octets) (e : octets) : Z * list octets :=
  if (zlen e =? 0) || (cap <? zlen (frames q) + (4 + zlen e)) then (-1, q)
  else (0, q ++ [e]).

(** The code, the length stored through [out_len] and the out-buffer. *)
Definition spec_pop (q : list octets) (out : octets) (out_cap out_len : Z)
    : Z * Z * octets * list octets :=
  match q with
  | [] => (-1, out_len, out, [])
  | e :: q' =>
      if out_cap <? zlen e then (-1, out_len, out, q)
      else (0, zlen e, e ++ zdrop (zlen e) out, q')
  end.

Definition vring_rep (cap : Z) (r : ngx_rtc_vring_t) (q : list octets) : Prop :=
  exists b, buf r = Ref b /\ capacity r = cap /\ 0 < cap <= 2 ^ 31 /\
    zlen b = cap /\ 0 <= tail r < cap /\
    head r = (tail r + bytes r) mod cap /\
    bytes r = zlen (frames q) /\ zlen (frames q) <= cap /\
    Forall (fun e => 0 < zlen e) q /\
    window cap (load b) (tail r) (frames q).

Lemma zlen_frame e : zlen (frame e) = 4 + zlen e.
Proof. unfold frame. zl. Qed.

Lemma frames_app q k : frames (q ++ k) = frames q ++ frames k.
Proof. unfold frames. by rewrite map_app, concat_app. Qed.

Lemma frames_one e : frames [e] = frame e.
Proof. apply (app_nil_r (frame e)). Qed.

Lemma frames_cons e q : frames (e :: q) = frame e ++ frames q.
Proof. done. Qed.

Lemma vring_init_rep r cap :
  0 < cap <= 2 ^ 31 ->
  exists r', ngx_rtc_vring_init true (Ref r) cap = (0, Ref r') /\
    vring_rep cap r' [].
Proof.
  intros Hcap. unfold ngx_rtc_vring_init. destruct (Z.eqb_spec cap 0); [lia |].
  simpl. eexists. split; [done |]. exists (zeros (cap * 1)). simpl.
  split_and!; try done; try lia; [zl | | apply window_nil].
  change (frames []) with (@nil Z). rewrite zlen_nil. lia.
Qed.

Lemma vring_rep_empty cap r q :
  vring_rep cap r q ->
  ngx_rtc_vring_empty (Ref r) = match q with [] => 1 | _ => 0 end.
Proof.
  intros (b & Hb & _ & _ & _ & _ & _ & Hby & _). unfold ngx_rtc_vring_empty.
  rewrite Hb, Hby. simpl. destruct q as [| e q]; [done |].
  rewrite frames_cons, zlen_app, zlen_frame.
  pose proof (zlen_nonneg e). pose proof (zlen_nonneg (frames q)). zcase; done.
Qed.

Lemma u32_pos_mod cap x : 0 < cap -> 0 <= u32 x mod cap < cap.
Proof. intros. by apply Z.mod_pos_bound. Qed.

(** Two consecutive copies, the length word and the payload. *)
Lemma vring_write_frame b cap h e :
  0 <= h < cap -> cap <= 2 ^ 31 -> zlen b = cap -> 4 + zlen e <= cap ->
  exists b1 b2,
    ngx_rtc_vring_write_at b cap h (le_enc 4 (zlen e)) 4 = Ret b1 /\
    ngx_rtc_vring_write_at b1 cap (u32 (h + 4) mod cap) e (zlen e) = Ret b2 /\
    zlen b2 = cap /\ window cap (load b2) h (frame e) /\
    (forall j, 0 <= j < cap ->
       (forall i, 0 <= i < zlen (frame e) -> j <> (h + i) mod cap) ->
       load b2 j = load b j).
Proof.
  intros Hh Hc Hb He. pose proof (zlen_nonneg e).
  destruct (vring_write_window b cap h (le_enc 4 (zlen e)) 4)
    as (b1 & Hw1 & Hl1 & Hin1 & Hout1); [done | lia | done | zl | lia |].
  rewrite (u32_small (h + 4)) by (unfold is_u32; lia).
  destruct (vring_write_window b1 cap ((h + 4) mod cap) e (zlen e))
    as (b2 & Hw2 & Hl2 & Hin2 & Hout2); try done; try lia.
  { apply Z.mod_pos_bound. lia. }
  exists b1, b2. split_and!; try done.
  - apply window_append with (load b1); try done.
    + apply window_start with ((h + 4) mod cap); [| done].
      rewrite zlen_le_enc. apply Z.mod_mod; lia.
    + intros j Hj Hne. apply Hout2; [done |]. intros i Hi.
      rewrite Zplus_mod_idemp_l. rewrite zlen_le_enc in Hne. by apply Hne.
  - intros j Hj Hne. rewrite zlen_frame in Hne.
    rewrite Hout2; [apply Hout1; try done | done |]; intros i Hi.
    + apply Hne. lia.
    + rewrite Zplus_mod_idemp_l, <- Z.add_assoc. apply Hne. lia.
Qed.

Lemma vring_push_refines cap r q e :
  vring_rep cap r q -> zlen e < 2 ^ 31 - 4 ->
  exists r', ngx_rtc_vring_push (Ref r) (Ref e) (zlen e)
      = Ret (fst (spec_push cap q e), Ref r') /\
    vring_rep cap r' (snd (spec_push cap q e)).
Proof.
  intros Hrep He. pose proof Hrep as (b & Hb & Hc & Hcap & Hl & Ht & Hh & Hby &
    Hfit & Hall & Hw). pose proof (zlen_nonneg e).
  unfold ngx_rtc_vring_push, spec_push. rewrite Hb, Hc, Hby.
  destruct (Z.eqb_spec (zlen e) 0); simpl; [by exists r |].
  pose proof (zlen_nonneg (frames q)).
  rewrite (u32_small (4 + zlen e)) by (unfold is_u32; lia).
  rewrite (u32_small (zlen (frames q) + _)) by (unfold is_u32; lia).
  destruct (Z.ltb_spec cap (zlen (frames q) + (4 + zlen e))); simpl;
    [by exists r |].
  assert (Hhb : 0 <= head r < cap) by (rewrite Hh; apply Z.mod_pos_bound; lia).
  destruct (vring_write_frame b cap (head r) e)
    as (b1 & b2 & Hw1 & Hw2 & Hl2 & Hin & Hout); try done; try lia.
  rewrite Hw1. simpl. rewrite Hw2. simpl. eexists. split; [done |].
  exists b2. simpl. rewrite !frames_app, !frames_one, zlen_app, zlen_frame.
  split_and!; try done; try lia.
  - rewrite u32_small by (unfold is_u32; lia).
    rewrite Hh, Hby, Zplus_mod_idemp_l. f_equal. lia.
  - apply Forall_app_2; [done | apply Forall_singleton; lia].
  - apply window_append with (load b); try done; [rewrite zlen_frame; lia | |].
    + apply window_start with (head r); [| done].
      rewrite Hh, Hby. by rewrite Z.mod_mod by lia.
    + intros j Hj Hne. apply Hout; [done |]. intros i Hi.
      rewrite Hh, Hby, Zplus_mod_idemp_l. by apply Hne.
Qed.

(** What [pop] reads of the entry at the front. *)
Lemma vring_read_frame b cap t e rest out :
  0 <= t < cap -> cap <= 2 ^ 31 -> zlen b = cap ->
  zlen (frame e ++ rest) <= cap -> window cap (load b) t (frame e ++ rest) ->
  ngx_rtc_vring_read_at b cap t (zeros 4) 4 = Ret (le_enc 4 (zlen e)) /\
  (zlen e <= zlen out ->
   ngx_rtc_vring_read_at b cap (u32 (t + 4) mod cap) out (zlen e)
     = Ret (e ++ zdrop (zlen e) out)).
Proof.
  intros Ht Hc Hb Hl Hw. rewrite zlen_app, zlen_frame in Hl.
  pose proof (zlen_nonneg e). pose proof (zlen_nonneg rest).
  apply window_app in Hw as [Hw _]. apply window_app in Hw as [Hlen Hdat].
  rewrite zlen_le_enc in Hdat. split.
  - rewrite (vring_read_window b cap t (le_enc 4 (zlen e))) by (done || zl).
    by rewrite zdrop_all by zl; rewrite app_nil_r.
  - intros Ho. rewrite (u32_small (t + 4)) by (unfold is_u32; lia).
    apply vring_read_window; try done; try lia; [apply Z.mod_pos_bound; lia |].
    apply window_start with (t + Z.of_nat 4); [| done].
    by rewrite Z.mod_mod by lia.
Qed.

Lemma vring_pop_refines cap r q out out_cap out_len :
  vring_rep cap r q -> 0 <= out_cap <= zlen out ->
  exists r', ngx_rtc_vring_pop (Ref r) (Ref out) out_cap (Ref out_len)
      = (let '(rc, n, o, _) := spec_pop q out out_cap out_len in
         Ret (rc, Ref r', Ref o, Ref n)) /\
    vring_rep cap r' (snd (spec_pop q out out_cap out_len)).
Proof.
  intros Hrep Ho. pose proof Hrep as (b & Hb & Hc & Hcap & Hl & Ht & Hh & Hby &
    Hfit & Hall & Hw). unfold ngx_rtc_vring_pop, spec_pop. rewrite Hb, Hc, Hby.
  destruct q as [| e q].
  { change (frames []) with (@nil Z). rewrite zlen_nil. simpl. by exists r. }
  rewrite frames_cons in *. rewrite zlen_app, zlen_frame in *.
  pose proof (zlen_nonneg e). pose proof (zlen_nonneg (frames q)).
  destruct (Z.eqb_spec (4 + zlen e + zlen (frames q)) 0); [lia |].
  destruct (vring_read_frame b cap (tail r) e (frames q) out) as [-> Hread];
    try done; try lia. { rewrite zlen_app, zlen_frame. lia. }
  simpl. rewrite le_dec_enc. change (256 ^ Z.of_nat 4) with (2 ^ 32).
  rewrite Z.mod_small by lia.
  destruct (Z.ltb_spec out_cap (zlen e)); simpl; [by exists r |].
  rewrite Hread by lia. simpl. eexists. split; [done |]. exists b. simpl.
  apply Forall_cons_1 in Hall as [_ Hall].
  rewrite (u32_small (4 + zlen e)) by (unfold is_u32; lia).
  rewrite (u32_small (tail r + _)), (u32_small (4 + zlen e + _ - _))
    by (unfold is_u32; lia).
  split_and!; try done; try lia; try (apply Z.mod_pos_bound; lia).
  - rewrite Hh, Hby, Zplus_mod_idemp_l. f_equal. lia.
  - apply window_app in Hw as [_ Hw]. rewrite zlen_frame in Hw.
    apply window_start with (tail r + (4 + zlen e)); [| done].
    by rewrite Z.mod_mod by lia.
Qed.

(** A length within 4 of 2^32 wraps [total], so the capacity test passes and
    the payload copy leaves the arena. *)
Lemma vring_push_wraps cap r q d len :
  vring_rep cap r q -> 2 ^ 32 - 4 <= len < 2 ^ 32 ->
  cap <= 2 ^ 30 -> zlen (frames q) + 4 <= cap ->
  ngx_rtc_vring_push (Ref r) (Ref d) len = Fault.
Proof.
  intros (b & Hb & Hc & Hcap & Hl & Ht & Hh & Hby & Hfit & Hall & Hw) Hlen Hc4 Hroom.
  unfold ngx_rtc_vring_push. rewrite Hb, Hc, Hby.
  assert (Htot : u32 (4 + len) = 4 + len - 2 ^ 32) by wraps. rewrite Htot.
  pose proof (zlen_nonneg (frames q)).
  rewrite (u32_small (zlen (frames q) + _)) by (unfold is_u32; lia).
  destruct (Z.eqb_spec len 0); [lia |].
  destruct (Z.ltb_spec cap (zlen (frames q) + (4 + len - 2 ^ 32))); [lia |].
  assert (Hhb : 0 <= head r < cap) by (rewrite Hh; apply Z.mod_pos_bound; lia).
  destruct (vring_write_window b cap (head r) (le_enc 4 len) 4)
    as (b1 & -> & Hl1 & _); [done | lia | done | zl | lia |]. simpl.
  rewrite (u32_small (head r + 4)) by (unfold is_u32; lia).
  pose proof (Z.mod_pos_bound (head r + 4) cap ltac:(lia)) as Hoff.
  set (off := (head r + 4) mod cap) in *. unfold ngx_rtc_vring_write_at.
  rewrite (u32_small (cap - off)) by (unfold is_u32; lia).
  destruct (Z.ltb_spec len (cap - off)); [lia |].
  destruct (load_range d 0 (cap - off)) as [x |] eqn:Hx; [| done]. simpl.
  apply load_range_zlen in Hx.
  destruct (store_range b1 off x) as [b2 |] eqn:Hb2; [| done]. simpl.
  apply store_range_zlen in Hb2.
  destruct (Z.ltb_spec (cap - off) len); [| lia].
  destruct (load_range d (cap - off) (len - (cap - off))) as [y |] eqn:Hy; [| done].
  apply load_range_zlen in Hy. simpl. unfold store_range.
  destruct (Z.leb_spec (0 + zlen y) (zlen b2)).
  { lia. }
  done.
Qed.

(** *** Whole runs *)

Inductive op := Push (e : octets) | Pop (out : octets).

Definition step (r : ptr ngx_rtc_vring_t) (o : op)
    : outcome (Z * octets * ptr ngx_rtc_vring_t) :=
  match o with
  | Push e =>
      '(rc, r') ← ngx_rtc_vring_push r (Ref e) (zlen e); Ret (rc, [], r')
  | Pop out =>
      '(rc, r', out', n) ← ngx_rtc_vring_pop r (Ref out) (zlen out) (Ref 0);
      Ret (rc, match out', n with
               | Ref b, Ref n => if rc =? 0 then ztake n b else []
               | _, _ => []
               end, r')
  end.

Fixpoint run (r : ptr ngx_rtc_vring_t) (os : list op)
    : outcome (list (Z * octets) * ptr ngx_rtc_vring_t) :=
  match os with
  | [] => Ret ([], r)
  | o :: os =>
      '(rc, out, r') ← step r o;
      '(rs, r'') ← run r' os;
      Ret ((rc, out) :: rs, r'')
  end.

Definition spec_step (cap : Z) (q : list octets) (o : op)
    : Z * octets * list octets :=
  match o with
  | Push e => let '(rc, q') := spec_push cap q e in (rc, [], q')
  | Pop out =>
      match q with
      | [] => (-1, [], [])
      | e :: q' => if zlen out <? zlen e then (-1, [], q) else (0, e, q')
      end
  end.

Fixpoint spec_run (cap : Z) (q : list octets) (os : list op)
    : list (Z * octets) * list octets :=
  match os with
  | [] => ([], q)
  | o :: os =>
      let '(rc, out, q') := spec_step cap q o in
      let '(rs, q'') := spec_run cap q' os in ((rc, out) :: rs, q'')
  end.

Definition op_ok (o : op) : Prop :=
  match o with Push e => zlen e < 2 ^ 31 - 4 | Pop _ => True end.

Lemma vstep_refines cap r q o :
  op_ok o -> vring_rep cap r q ->
  exists r', step (Ref r) o = Ret (fst (spec_step cap q o), Ref r') /\
    vring_rep cap r' (snd (spec_step cap q o)).
Proof.
  intros Hok Hrep. destruct o as [e | out]; simpl.
  - destruct (vring_push_refines cap r q e) as (r' & -> & Hrep'); try done.
    simpl. destruct (spec_push cap q e). by exists r'.
  - pose proof (zlen_nonneg out).
    destruct (vring_pop_refines cap r q out (zlen out) 0) as (r' & -> & Hrep');
      [done | lia |].
    unfold spec_pop in *. destruct q as [| e q]; simpl in *; [by exists r' |].
    destruct (Z.ltb_spec (zlen out) (zlen e)); simpl in *; exists r'; [done |].
    by rewrite ztake_app_length.
Qed.

Lemma vrun_refines cap os : forall r q,
  Forall op_ok os -> vring_rep cap r q ->
  exists r', run (Ref r) os = Ret (fst (spec_run cap q os), Ref r') /\
    vring_rep cap r' (snd (spec_run cap q os)).
Proof.
  induction os as [| o os IH]; intros r q Hok Hrep; [by exists r |].
  apply Forall_cons_1 in Hok as [Ho Hok]. simpl.
  destruct (vstep_refines cap r q o) as (r' & -> & Hrep'); try done. simpl.
  destruct (spec_step cap q o) as [[rc out] q']; simpl in *.
  destruct (IH r' q' Hok Hrep') as (r'' & -> & Hrep''). simpl.
  destruct (spec_run cap q' os); simpl in *. by exists r''.
Qed.

(** The byte arena is the FIFO of variable-length entries its header
    promises, over every sequence of pushes and pops: an entry is accepted
    exactly when it and its length word fit, entries come out whole and in
    order although the copies wrap around the arena, and an entry larger than
    the caller's buffer stays at the front. *)
Theorem vring_fifo (r : ngx_rtc_vring_t) cap os :
  0 < cap <= 2 ^ 31 -> Forall op_ok os ->
  exists r0 r1,
    ngx_rtc_vring_init true (Ref r) cap = (0, Ref r0) /\
    run (Ref r0) os = Ret (fst (spec_run cap [] os), Ref r1) /\
    (ngx_rtc_vring_empty (Ref r1) = 1 <-> snd (spec_run cap [] os) = []).
Proof.
  intros Hc Hok. destruct (vring_init_rep r cap) as (r0 & Hi & Hr0); [done |].
  destruct (vrun_refines cap os r0 []) as (r1 & Hrun & Hr1); try done.
  exists r0, r1. split_and!; try done. rewrite (vring_rep_empty _ _ _ Hr1).
  by destruct (snd (spec_run cap [] os)).
Qed.

Lemma vring_fifo_witness :
  let os := [Push [1; 2; 3]; Push [4]; Push [5; 6]; Pop (zeros 2); Pop (zeros 8);
             Push [7; 8; 9; 10]; Pop (zeros 8); Pop (zeros 8); Pop (zeros 8)] in
  fst (spec_run 14 [] os)
    = [(0, []); (0, []); (-1, []); (-1, []); (0, [1; 2; 3]); (0, []); (0, [4]);
       (0, [7; 8; 9; 10]); (-1, [])] /\
  exists r0 r1,
    ngx_rtc_vring_init true (Ref {| buf := NULL; capacity := 0; head := 0;
      tail := 0; bytes := 0 |}) 14 = (0, Ref r0) /\
    run (Ref r0) os = Ret (fst (spec_run 14 [] os), Ref r1) /\
    (ngx_rtc_vring_empty (Ref r1) = 1 <-> snd (spec_run 14 [] os) = []).
Proof.
  split; [vm_compute; reflexivity |]. apply vring_fifo; [lia |].
  repeat (constructor; [vm_compute; reflexivity || exact I |]); constructor.
Defined.

(** Pushing with a length within four of 2^32 wraps [total] to at most 3,
    so the full-ring test passes and the payload copy runs past the arena:
    the bound the header states is not enforced for such lengths. *)
Theorem vring_push_total_wraps (r0 r : ngx_rtc_vring_t) cap os rs d len :
  0 < cap <= 2 ^ 30 -> Forall op_ok os ->
  ngx_rtc_vring_init true (Ref r0) cap = (0, Ref r) ->
  2 ^ 32 - 4 <= len < 2 ^ 32 -> zlen (frames (snd (spec_run cap [] os))) + 4 <= cap ->
  forall r1, run (Ref r) os = Ret (rs, Ref r1) ->
  ngx_rtc_vring_push (Ref r1) (Ref d) len = Fault.
Proof.
  intros Hc Hok Hi Hlen Hroom r1 Hrun.
  destruct (vring_init_rep r0 cap) as (r' & Hi' & Hr); [lia |].
  rewrite Hi in Hi'. injection Hi' as <-.
  destruct (vrun_refines cap os r []) as (r1' & Hrun' & Hr1); try done.
  rewrite Hrun in Hrun'. injection Hrun' as -> <-.
  apply (vring_push_wraps cap r1 (snd (spec_run cap [] os)) d len); try done. lia.
Qed.

Lemma vring_push_total_wraps_witness :
  ngx_rtc_vring_push (Ref {| buf := Ref (zeros 14); capacity := 14; head := 0;
    tail := 0; bytes := 0 |}) (Ref [1]) (2 ^ 32 - 4) = Fault.
Proof.
  apply (vring_push_total_wraps {| buf := NULL; capacity := 0; head := 0;
    tail := 0; bytes := 0 |} {| buf := Ref (zeros 14); capacity := 14; head := 0;
    tail := 0; bytes := 0 |} 14 [] []); try lia; try reflexivity.
  - constructor.
  - vm_compute. discriminate.
Defined.
End VRing.
