(* ===== verification/Jitter.v ===== *)
(** The WHIP uplink reorder buffer of src/ngx_rtc_jitter.{h,c}: 128 slots indexed
    by sequence number, drained in order, with a gap timeout and a re-anchor on
    far-ahead packets.  A call of the emit callback is an entry of the emission
    log.  The theorems: no push faults or loops, every emission is a packet that
    was pushed, and emissions never go back in sequence order. *)

From S2P Require Import Prelude Window.

Module Jitter.

Definition NGX_RTC_MAX_RTP_PKT : Z := 1214.
Definition NGX_RTC_JITTER_CAP : Z := 128.
Definition NGX_RTC_JITTER_TIMEOUT_MS : Z := 50.

Record ngx_rtc_jitter_slot_t := {
  data : octets;
  len : Z;
  is_gop_start : Z;
  valid : Z
}.

Record ngx_rtc_jitter_t := {
  slots : list ngx_rtc_jitter_slot_t;
  next_seq : Z;
  pending : Z;
  initialized : Z;
  gap_ts : Z;
  gap_timeout_ms : Z;
  n_cached : Z;
  n_skipped : Z;
  n_stale : Z;
  n_reanchor : Z
}.

Definition slot_eta (s : ngx_rtc_jitter_slot_t) : ngx_rtc_jitter_slot_t :=
  {| data := data s; len := len s; is_gop_start := is_gop_start s;
     valid := valid s |}.
Definition set_valid := ltac:(setter slot_eta valid).

Definition eta (j : ngx_rtc_jitter_t) : ngx_rtc_jitter_t :=
  {| slots := slots j; next_seq := next_seq j; pending := pending j;
     initialized := initialized j; gap_ts := gap_ts j;
     gap_timeout_ms := gap_timeout_ms j; n_cached := n_cached j;
     n_skipped := n_skipped j; n_stale := n_stale j;
     n_reanchor := n_reanchor j |}.
Definition set_slots := ltac:(setter eta slots).
Definition set_next_seq := ltac:(setter eta next_seq).
Definition set_pending := ltac:(setter eta pending).
Definition set_initialized := ltac:(setter eta initialized).
Definition set_gap_ts := ltac:(setter eta gap_ts).
Definition set_gap_timeout_ms := ltac:(setter eta gap_timeout_ms).
Definition set_n_cached := ltac:(setter eta n_cached).
Definition set_n_skipped := ltac:(setter eta n_skipped).
Definition set_n_stale := ltac:(setter eta n_stale).
Definition set_n_reanchor := ltac:(setter eta n_reanchor).

(** The arguments [cb] is called with: the packet and its GOP flag. *)
Definition emission : Type := octets * Z.

Definition ngx_rtc_jitter_seq_gt (a b : Z) : bool := 0 <? s16 (a - b).

Definition slot_index (seq : Z) : Z := Z.land seq (NGX_RTC_JITTER_CAP - 1).

Fixpoint ngx_rtc_jitter_drain_loop (fuel : nat) (j : ngx_rtc_jitter_t)
    : outcome (ngx_rtc_jitter_t * list emission) :=
  match fuel with
  | O => Fault
  | S fuel =>
      slot ← load (slots j) (slot_index (next_seq j));
      if valid slot =? 0 then Ret (j, [])
      else
        d ← load_range (data slot) 0 (len slot);
        sl ← store (slots j) (slot_index (next_seq j)) (set_valid 0 slot);
        let j := set_slots sl j in
        let j := if 0 <? pending j then set_pending (pending j - 1) j else j in
        let j := set_next_seq (u16 (next_seq j + 1)) j in
        '(j, log) ← ngx_rtc_jitter_drain_loop fuel j;
        Ret (j, (d, is_gop_start slot) :: log)
  end.

Definition ngx_rtc_jitter_drain (fuel : nat) (j : ngx_rtc_jitter_t)
    : outcome (ngx_rtc_jitter_t * list emission) :=
  '(j, log) ← ngx_rtc_jitter_drain_loop fuel j;
  Ret (if pending j =? 0 then set_gap_ts 0 j else j, log).

Fixpoint ngx_rtc_jitter_skip_loop (fuel : nat) (j : ngx_rtc_jitter_t)
    : outcome ngx_rtc_jitter_t :=
  match fuel with
  | O => Fault
  | S fuel =>
      slot ← load (slots j) (slot_index (next_seq j));
      if valid slot =? 0
      then ngx_rtc_jitter_skip_loop fuel
             (j |> set_next_seq (u16 (next_seq j + 1))
                |> set_n_skipped (u32 (n_skipped j + 1)))
      else Ret j
  end.

Definition ngx_rtc_jitter_skip_gap (fuel : nat) (j : ngx_rtc_jitter_t)
    : outcome (ngx_rtc_jitter_t * list emission) :=
  j ← ngx_rtc_jitter_skip_loop fuel j;
  ngx_rtc_jitter_drain fuel j.

(** [memset (j, 0, sizeof *j)]. *)
Definition zero_slot : ngx_rtc_jitter_slot_t :=
  {| data := zeros NGX_RTC_MAX_RTP_PKT; len := 0; is_gop_start := 0; valid := 0 |}.

Definition zero_jitter : ngx_rtc_jitter_t :=
  {| slots := replicate (Z.to_nat NGX_RTC_JITTER_CAP) zero_slot; next_seq := 0;
     pending := 0; initialized := 0; gap_ts := 0; gap_timeout_ms := 0;
     n_cached := 0; n_skipped := 0; n_stale := 0; n_reanchor := 0 |}.

Definition ngx_rtc_jitter_reset (j : ptr ngx_rtc_jitter_t)
    : ptr ngx_rtc_jitter_t :=
  match j with
  | NULL => NULL
  | Ref j => Ref (set_gap_timeout_ms (gap_timeout_ms j) zero_jitter)
  end.

(** Each loop runs at most once per slot. *)
Definition jitter_fuel : nat := 129.

Definition ngx_rtc_jitter_push {F : Type} (j : ptr ngx_rtc_jitter_t)
    (rtp : ptr octets) (len seq is_gop_start now : Z) (cb : ptr F)
    : outcome (Z * ptr ngx_rtc_jitter_t * list emission) :=
  match j, rtp with
  | Ref j0, Ref rtp =>
      if is_null cb || (len =? 0) || (NGX_RTC_MAX_RTP_PKT <? len)
      then Ret (NGX_RTC_ERR_INVALID, j, [])
      else
        let timeout := if negb (gap_timeout_ms j0 =? 0) then gap_timeout_ms j0
                       else NGX_RTC_JITTER_TIMEOUT_MS in
        let j := if initialized j0 =? 0
                 then j0 |> set_next_seq seq |> set_initialized 1 else j0 in
        if seq =? next_seq j then
          d ← load_range rtp 0 len;
          let j := set_next_seq (u16 (next_seq j + 1)) j in
          '(j, log) ← ngx_rtc_jitter_drain jitter_fuel j;
          if (0 <? pending j) && (timeout <=? u32 (now - gap_ts j)) then
            '(j, log') ← ngx_rtc_jitter_skip_gap jitter_fuel j;
            Ret (NGX_RTC_OK, Ref j, ((d, is_gop_start) :: log) ++ log')
          else Ret (NGX_RTC_OK, Ref j, (d, is_gop_start) :: log)
        else if ngx_rtc_jitter_seq_gt seq (next_seq j) then
          if NGX_RTC_JITTER_CAP <=? u16 (seq - next_seq j) then
            let j := set_gap_timeout_ms (gap_timeout_ms j) zero_jitter in
            let j := set_n_reanchor (u32 (n_reanchor j + 1)) j in
            let j := j |> set_next_seq seq |> set_initialized 1 in
            d ← load_range rtp 0 len;
            Ret (NGX_RTC_OK, Ref (set_next_seq (u16 (next_seq j + 1)) j),
                 [(d, is_gop_start)])
          else
            slot ← load (slots j) (slot_index seq);
            let j := if valid slot =? 0
                     then set_pending (u16 (pending j + 1)) j else j in
            src ← load_range rtp 0 len;
            d ← store_range (data slot) 0 src;
            sl ← store (slots j) (slot_index seq)
                   {| data := d; len := u16 len;
                      is_gop_start := if negb (is_gop_start =? 0) then 1 else 0;
                      valid := 1 |};
            let j := j |> set_slots sl |> set_n_cached (u32 (n_cached j + 1)) in
            let j := if gap_ts j =? 0 then set_gap_ts now j else j in
            if timeout <=? u32 (now - gap_ts j) then
              '(j, log) ← ngx_rtc_jitter_skip_gap jitter_fuel j;
              Ret (NGX_RTC_OK, Ref j, log)
            else Ret (NGX_RTC_OK, Ref j, [])
        else
          Ret (NGX_RTC_OK, Ref (set_n_stale (u32 (n_stale j + 1)) j), [])
  | _, _ => Ret (NGX_RTC_ERR_INVALID, j, [])
  end.

#[global] Arguments ngx_rtc_jitter_push : simpl never.

(** *** The slot array *)

Definition live (s : ngx_rtc_jitter_slot_t) : Z := if valid s =? 0 then 0 else 1.

Fixpoint nlive (l : list ngx_rtc_jitter_slot_t) : Z :=
  match l with [] => 0 | s :: l => live s + nlive l end.

Definition slot_wf (s : ngx_rtc_jitter_slot_t) : Prop :=
  zlen (data s) = NGX_RTC_MAX_RTP_PKT /\
  (valid s <> 0 -> 0 <= len s <= NGX_RTC_MAX_RTP_PKT).

(** What the slot [d] places after the expected sequence holds. *)
Definition slot_at (j : ngx_rtc_jitter_t) (d : Z) : outcome ngx_rtc_jitter_slot_t :=
  load (slots j) ((next_seq j + d) mod 128).

(** [P s d g] is "packet d with GOP flag g was pushed with sequence s". *)
Record jinv (P : Z -> octets -> Z -> Prop) (j : ngx_rtc_jitter_t) : Prop := {
  inv_len : zlen (slots j) = 128;
  inv_next : is_u16 (next_seq j);
  inv_pending : pending j = nlive (slots j);
  inv_wf : Forall slot_wf (slots j);
  inv_slots : forall d s, 0 <= d < 128 -> slot_at j d = Ret s -> valid s <> 0 ->
    P (u16 (next_seq j + d)) (ztake (len s) (data s)) (is_gop_start s)
}.

(** Nothing waits at the expected sequence itself. *)
Definition settled (j : ngx_rtc_jitter_t) : Prop :=
  forall s, slot_at j 0 = Ret s -> valid s = 0.

(** The fields a drain does not touch. *)
Definition same_meta (j j' : ngx_rtc_jitter_t) : Prop :=
  initialized j' = initialized j /\ gap_timeout_ms j' = gap_timeout_ms j /\
  n_reanchor j' = n_reanchor j.

(** [delivers G P nx ss log nx']: the emissions of [log] carry the sequences
    [ss], each at most [G] ahead of the one expected, which starts at [nx] and
    ends at [nx']. *)
Inductive delivers (G : Z) (P : Z -> octets -> Z -> Prop)
    : Z -> list Z -> list emission -> Z -> Prop :=
| delivers_nil nx : delivers G P nx [] [] nx
| delivers_cons nx s d g ss log nx' :
    is_u16 s -> u16 (s - nx) <= G -> P s d g ->
    delivers G P (u16 (s + 1)) ss log nx' ->
    delivers G P nx (s :: ss) ((d, g) :: log) nx'.

Lemma delivers_app G P nx ss log nx' ss' log' nx'' :
  delivers G P nx ss log nx' -> delivers G P nx' ss' log' nx'' ->
  delivers G P nx (ss ++ ss') (log ++ log') nx''.
Proof. induction 1; intros H'; [done |]. constructor; auto. Qed.

Lemma delivers_mono G G' P nx ss log nx' :
  G <= G' -> delivers G P nx ss log nx' -> delivers G' P nx ss log nx'.
Proof. intros HG. induction 1; constructor; try done. lia. Qed.

(** Consecutive emissions after a skipped run of [k] sequences. *)
Lemma delivers_skip G P nx k ss log nx' :
  is_u16 nx -> 0 <= k <= G -> G < 65536 -> log <> [] ->
  delivers 0 P (u16 (nx + k)) ss log nx' -> delivers G P nx ss log nx'.
Proof.
  intros Hn Hk HG Hne H. inversion H as [| ? s d g ss0 log0 ? Hs Hz HP Hrest]; subst.
  { done. }
  constructor; try done; [wraps |]. apply delivers_mono with 0; [lia | done].
Qed.

Lemma nlive_nonneg l : 0 <= nlive l.
Proof. induction l as [| s l IH]; simpl; [lia |]. unfold live. zcase. Qed.

Lemma nlive_le l : nlive l <= zlen l.
Proof.
  induction l as [| s l IH]; [done |]. rewrite zlen_cons. simpl. unfold live. zcase.
Qed.

Lemma nlive_insert l i s s' :
  l !! i = Some s -> nlive (<[i := s']> l) = nlive l - live s + live s'.
Proof.
  revert i. induction l as [| x l IH]; intros [| i] H; try done; simpl in *.
  - injection H as ->. lia.
  - rewrite (IH i) by done. lia.
Qed.

Lemma nlive_pos l i s : l !! i = Some s -> valid s <> 0 -> 1 <= nlive l.
Proof.
  revert i. induction l as [| x l IH]; intros [| i] H Hv; try done; simpl in *.
  - injection H as ->. pose proof (nlive_nonneg l). unfold live. zcase.
  - specialize (IH i H Hv). unfold live. zcase.
Qed.

Lemma slot_index_mod seq : slot_index seq = seq mod 128.
Proof. apply (land_pow2_mask seq 7). lia. Qed.

Lemma slot_at_in j d :
  zlen (slots j) = 128 -> exists s, slot_at j d = Ret s.
Proof.
  intros Hl. apply load_in. rewrite Hl. apply Z.mod_pos_bound. lia.
Qed.

Lemma slot_at_wf P j d s : jinv P j -> slot_at j d = Ret s -> slot_wf s.
Proof.
  intros Hj Hs%load_ret. eapply Forall_lookup_1; [apply (inv_wf P j Hj) | apply Hs].
Qed.

Lemma u16_next_mod nx k d : (u16 (nx + k) + d) mod 128 = (nx + (k + d)) mod 128.
Proof.
  rewrite <- Zplus_mod_idemp_l, (u16_mod_pow2 _ 7) by lia.
  rewrite Zplus_mod_idemp_l. f_equal. lia.
Qed.

(** Moving past an empty slot keeps the invariant. *)
Lemma jinv_advance P j :
  jinv P j -> settled j -> jinv P (set_next_seq (u16 (next_seq j + 1)) j).
Proof.
  intros Hj Hset. destruct Hj as [Hl Hn Hp Hw Hs].
  constructor; try done; [apply u16_range |].
  intros d s Hd Hat Hv. unfold slot_at in Hat. simpl in *.
  rewrite u16_next_mod in Hat.
  destruct (decide (d = 127)) as [-> | Hne].
  - destruct Hv. apply Hset. unfold slot_at. rewrite <- Hat. f_equal.
    replace (next_seq j + (1 + 127)) with (next_seq j + 0 + 1 * 128) by lia.
    by rewrite Z.mod_add by lia.
  - rewrite u16_add_l. replace (next_seq j + 1 + d) with (next_seq j + (1 + d)) by lia.
    apply Hs; [lia | done | done].
Qed.

(** Taking the packet at the expected sequence. *)
Lemma jinv_take P j s sl :
  jinv P j -> slot_at j 0 = Ret s -> valid s <> 0 ->
  store (slots j) (next_seq j mod 128) (set_valid 0 s) = Ret sl ->
  jinv P (j |> set_slots sl |> set_pending (pending j - 1)) /\
  settled (j |> set_slots sl |> set_pending (pending j - 1)) /\
  nlive sl = nlive (slots j) - 1.
Proof.
  intros Hj Hat Hv Hst. pose proof (slot_at_wf _ _ _ _ Hj Hat) as Hwf.
  destruct Hj as [Hl Hn Hp Hw Hs].
  unfold slot_at in Hat. rewrite Z.add_0_r in Hat.
  pose proof Hst as [Hnew Hold]%load_store_other.
  apply load_ret in Hat as [Hi Hat]. apply store_ret in Hst as [Hb ->].
  assert (Hnl : nlive (<[Z.to_nat (next_seq j mod 128) := set_valid 0 s]> (slots j))
    = nlive (slots j) - 1).
  { erewrite nlive_insert by done. unfold live. simpl. zcase. }
  split; [| split; [| done]].
  - constructor; simpl; try done; [zl | lia | |].
    + apply Forall_insert; [done |]. destruct Hwf. by split.
    + intros d s' Hd Hat' Hv'. unfold slot_at in Hat'. simpl in Hat'.
      destruct (decide (d = 0)) as [-> | Hne].
      { rewrite Z.add_0_r, Hnew in Hat'. injection Hat' as <-. done. }
      rewrite Hold in Hat'; [by apply Hs | apply Z.mod_pos_bound; lia |].
      rewrite <- (Z.add_0_r (next_seq j)) at 2.
      intros He%mod_offset_inj; lia.
  - intros s' Hat'. unfold slot_at in Hat'. simpl in Hat'.
    rewrite Z.add_0_r, Hnew in Hat'. by injection Hat' as <-.
Qed.

Lemma drain_loop_spec P fuel : forall j,
  jinv P j -> nlive (slots j) < Z.of_nat fuel ->
  exists j' ss log, ngx_rtc_jitter_drain_loop fuel j = Ret (j', log) /\
    jinv P j' /\ settled j' /\ same_meta j j' /\ gap_ts j' = gap_ts j /\
    pending j' = pending j - zlen log /\
    delivers 0 P (next_seq j) ss log (next_seq j') /\
    (forall s, slot_at j 0 = Ret s -> valid s <> 0 -> log <> []).
Proof.
  induction fuel as [| fuel IH]; intros j Hj Hf.
  { pose proof (nlive_nonneg (slots j)). lia. }
  simpl. rewrite slot_index_mod.
  destruct (slot_at_in j 0 (inv_len P j Hj)) as [s Hs].
  pose proof (slot_at_wf _ _ _ _ Hj Hs) as [Hw1 Hw2].
  pose proof Hs as Hload. unfold slot_at in Hload. rewrite Z.add_0_r in Hload.
  rewrite Hload. simpl. destruct (Z.eqb_spec (valid s) 0) as [Hv | Hv].
  { exists j, [], []. split_and!; try done; [| rewrite zlen_nil; lia | constructor |].
    - intros s' Hs'. congruence.
    - intros s' Hs' Hv'. congruence. }
  specialize (Hw2 Hv). rewrite load_range_in by lia. simpl.
  destruct (store (slots j) (next_seq j mod 128) (set_valid 0 s)) as [sl |] eqn:Hst.
  2: { apply load_bound in Hload. unfold store in Hst. revert Hst. zcase; done. }
  simpl. pose proof (jinv_take P j s sl Hj Hs Hv Hst) as (Hj1 & Hset & Hnl).
  pose proof (inv_pending P j Hj) as Hp. pose proof (nlive_nonneg sl).
  change (pending (set_slots sl j)) with (pending j).
  destruct (Z.ltb_spec 0 (pending j)); [| lia].
  pose proof (jinv_advance P _ Hj1 Hset) as Hj2.
  destruct (IH _ Hj2) as (j' & ss & log & Hrun & Hj' & Hset' & (Hm1 & Hm2 & Hm3) &
    Hg & Hp' & Hd & _); [simpl; lia |].
  rewrite Hrun. simpl.
  exists j', (next_seq j :: ss), ((ztake (len s) (zdrop 0 (data s)), is_gop_start s) :: log).
  split_and!; try done.
  - rewrite zlen_cons. simpl in Hp'. lia.
  - constructor; [apply (inv_next P j Hj) | by rewrite Z.sub_diag | | done].
    rewrite zdrop_0. pose proof (inv_slots P j Hj 0 s ltac:(lia) Hs Hv) as HP.
    rewrite Z.add_0_r, u16_small in HP by apply (inv_next P j Hj). done.
Qed.

Lemma same_meta_trans j1 j2 j3 :
  same_meta j1 j2 -> same_meta j2 j3 -> same_meta j1 j3.
Proof. unfold same_meta. intuition congruence. Qed.

Lemma drain_spec P j :
  jinv P j ->
  exists j' ss log, ngx_rtc_jitter_drain jitter_fuel j = Ret (j', log) /\
    jinv P j' /\ settled j' /\ same_meta j j' /\
    pending j' = pending j - zlen log /\
    gap_ts j' = (if pending j' =? 0 then 0 else gap_ts j) /\
    delivers 0 P (next_seq j) ss log (next_seq j') /\
    (forall s, slot_at j 0 = Ret s -> valid s <> 0 -> log <> []).
Proof.
  intros Hj. pose proof (nlive_le (slots j)) as Hle.
  rewrite (inv_len P j Hj) in Hle.
  destruct (drain_loop_spec P jitter_fuel j Hj) as (j' & ss & log & Hr & Hj' & Hset &
    Hm & Hg & Hp & Hd & Hne); [change (Z.of_nat jitter_fuel) with 129; lia |].
  unfold ngx_rtc_jitter_drain. rewrite Hr. simpl.
  exists (if pending j' =? 0 then set_gap_ts 0 j' else j'), ss, log.
  destruct (Z.eqb_spec (pending j') 0) as [Hz | Hz]; split_and!; try done.
  - destruct Hj'. by constructor.
  - simpl. by rewrite Hz.
  - destruct (Z.eqb_spec (pending j') 0); [done | done].
Qed.

Lemma skip_loop_spec P fuel : forall j d s,
  jinv P j -> slot_at j d = Ret s -> valid s <> 0 -> 0 <= d < 128 ->
  d < Z.of_nat fuel ->
  exists j' k s', ngx_rtc_jitter_skip_loop fuel j = Ret j' /\ 0 <= k <= d /\
    jinv P j' /\ next_seq j' = u16 (next_seq j + k) /\ slots j' = slots j /\
    pending j' = pending j /\ gap_ts j' = gap_ts j /\ same_meta j j' /\
    u32 (n_skipped j') = u32 (n_skipped j + k) /\
    slot_at j' 0 = Ret s' /\ valid s' <> 0.
Proof.
  induction fuel as [| fuel IH]; intros j d s Hj Hat Hv Hd Hf; [lia |]. simpl.
  rewrite slot_index_mod. destruct (slot_at_in j 0 (inv_len P j Hj)) as [s0 Hs0].
  pose proof Hs0 as Hload. unfold slot_at in Hload. rewrite Z.add_0_r in Hload.
  rewrite Hload. simpl. destruct (Z.eqb_spec (valid s0) 0) as [Hv0 | Hv0].
  2: { exists j, 0, s0. rewrite Z.add_0_r. pose proof (inv_next P j Hj).
       rewrite u16_small, Z.add_0_r by done. split_and!; try done; lia. }
  assert (Hset : settled j) by (intros s' Hs'; congruence).
  pose proof (jinv_advance P j Hj Hset) as Hj1.
  assert (Hd0 : d <> 0) by (intros ->; congruence).
  set (j1 := j |> set_next_seq (u16 (next_seq j + 1))
               |> set_n_skipped (u32 (n_skipped j + 1))) in *.
  assert (Hj1' : jinv P j1) by (destruct Hj1; by constructor).
  assert (Hat1 : slot_at j1 (d - 1) = Ret s).
  { unfold slot_at, j1. simpl. rewrite u16_next_mod.
    by replace (1 + (d - 1)) with d by lia. }
  destruct (IH j1 (d - 1) s) as (j' & k & s' & Hrun & Hk & Hj' & Hn & Hsl & Hp & Hg &
    Hm & Hsk & Hat' & Hv'); try done; try lia.
  exists j', (k + 1), s'. split_and!; try done; try lia.
  - rewrite Hn. simpl. rewrite u16_add_l. f_equal. lia.
  - rewrite Hsk. simpl. rewrite u32_add_l. f_equal. lia.
Qed.

Lemma skip_gap_spec P j d s :
  jinv P j -> slot_at j d = Ret s -> valid s <> 0 -> 0 <= d < 128 ->
  exists j' ss log, ngx_rtc_jitter_skip_gap jitter_fuel j = Ret (j', log) /\
    jinv P j' /\ settled j' /\ same_meta j j' /\ log <> [] /\
    pending j' = pending j - zlen log /\
    gap_ts j' = (if pending j' =? 0 then 0 else gap_ts j) /\
    delivers 127 P (next_seq j) ss log (next_seq j').
Proof.
  intros Hj Hat Hv Hd.
  destruct (skip_loop_spec P jitter_fuel j d s) as (j1 & k & s' & Hr & Hk & Hj1 & Hn &
    Hsl & Hp & Hg & Hm & _ & Hat' & Hv'); try done.
  { change (Z.of_nat jitter_fuel) with 129. lia. }
  destruct (drain_spec P j1 Hj1) as (j' & ss & log & Hr' & Hj' & Hset & Hm' & Hp' &
    Hg' & Hd' & Hne). specialize (Hne _ Hat' Hv').
  unfold ngx_rtc_jitter_skip_gap. rewrite Hr. simpl. rewrite Hr'.
  exists j', ss, log. split_and!; try done; [by eapply same_meta_trans | lia | |].
  - rewrite Hg'. by rewrite Hg.
  - rewrite Hn in Hd'. apply delivers_skip with k; try done; try lia.
    apply (inv_next P j Hj).
Qed.

(** A pending packet is somewhere ahead of the expected sequence. *)
Lemma pending_slot P j :
  jinv P j -> 0 < pending j ->
  exists d s, 0 <= d < 128 /\ slot_at j d = Ret s /\ valid s <> 0.
Proof.
  intros Hj Hp. rewrite (inv_pending P j Hj) in Hp.
  assert (exists i s, slots j !! i = Some s /\ valid s <> 0) as (i & s & Hi & Hv).
  { induction (slots j) as [| x l IH]; simpl in Hp; [lia |].
    destruct (decide (valid x = 0)) as [Hx | Hx]; [| by exists 0%nat, x].
    destruct IH as (i & s & Hi & Hv); [unfold live in Hp; rewrite Hx in Hp; done |].
    by exists (S i), s. }
  pose proof (lookup_lt_Some _ _ _ Hi) as Hlt.
  pose proof (inv_len P j Hj) as Hl. unfold zlen in Hl.
  exists ((Z.of_nat i - next_seq j) mod 128), s.
  split; [by apply Z.mod_pos_bound |]. split; [| done].
  unfold slot_at. rewrite Zplus_mod_idemp_r.
  replace (next_seq j + (Z.of_nat i - next_seq j)) with (Z.of_nat i) by lia.
  rewrite Z.mod_small by lia. apply load_ret. rewrite Nat2Z.id. split; [lia | done].
Qed.

Lemma jinv_zero P nx t :
  is_u16 nx ->
  jinv P (zero_jitter |> set_gap_timeout_ms t |> set_next_seq nx) /\
  settled (zero_jitter |> set_gap_timeout_ms t |> set_next_seq nx).
Proof.
  intros Hn.
  assert (Hz : forall d s, slot_at (zero_jitter |> set_gap_timeout_ms t
    |> set_next_seq nx) d = Ret s -> valid s = 0).
  { intros d s [_ Hs]%load_ret. simpl in Hs.
    by apply (lookup_replicate_1 128) in Hs as [-> _]. }
  split; [| intros s; apply Hz]. constructor; try done.
  - simpl. repeat constructor; done.
  - intros d s _ Hs Hv. destruct Hv. by apply (Hz d).
Qed.

(** A push hands on no more packets than its loops have turns. *)
Lemma drain_length fuel j j' log : ngx_rtc_jitter_drain fuel j = Ret (j', log) -> (length log <= fuel)%nat.
Proof.
  unfold ngx_rtc_jitter_drain. destruct (ngx_rtc_jitter_drain_loop fuel j) as [[k l] |] eqn:E; [| done]. rewrite bind_Ret.
  intros [= _ <-]. revert j k l E. induction fuel as [| fuel IH]; intros j k l; cbn [ngx_rtc_jitter_drain_loop]; [done |].
  destruct (load _ _) as [s |]; [rewrite bind_Ret | done]. destruct (_ =? 0); [intros [= _ <-]; cbn; lia |].
  destruct (load_range _ _ _) as [d |]; [rewrite bind_Ret | done]. destruct (store _ _ _) as [sl |]; [rewrite bind_Ret | done].
  cbv zeta. destruct (ngx_rtc_jitter_drain_loop fuel _) as [[k1 l1] |] eqn:E; [rewrite bind_Ret | done].
  intros [= _ <-]. apply IH in E. cbn. lia.
Qed.

Lemma skip_gap_length fuel j j' log : ngx_rtc_jitter_skip_gap fuel j = Ret (j', log) -> (length log <= fuel)%nat.
Proof. unfold ngx_rtc_jitter_skip_gap. destruct (ngx_rtc_jitter_skip_loop fuel j); [apply drain_length | done]. Qed.

Lemma push_length {F} j rtp len seq g now (cb : ptr F) rc j' log :
  ngx_rtc_jitter_push j rtp len seq g now cb = Ret (rc, j', log) -> (length log <= 259)%nat.
Proof.
  unfold ngx_rtc_jitter_push, jitter_fuel. destruct j as [| j]; [intros [= _ _ <-]; cbn [length]; lia |].
  destruct rtp as [| rtp]; [intros [= _ _ <-]; cbn [length]; lia |]. destruct (_ || _); [intros [= _ _ <-]; cbn [length]; lia |]. cbv zeta.
  destruct (_ =? next_seq _).
  { destruct (load_range _ _ _) as [d |]; [rewrite bind_Ret | done].
    destruct (ngx_rtc_jitter_drain _ _) as [[j1 l1] |] eqn:E1; [rewrite bind_Ret | done]. apply drain_length in E1.
    destruct (_ && _); [| intros [= _ _ <-]; cbn [length]; lia].
    destruct (ngx_rtc_jitter_skip_gap _ _) as [[j2 l2] |] eqn:E2; [rewrite bind_Ret | done]. apply skip_gap_length in E2.
    intros E. injection E as _ _ <-. change ((d, g) :: l1 ++ l2) with (((d, g) :: l1) ++ l2). rewrite length_app. cbn [length]. unfold emission in *. lia. }
  destruct (ngx_rtc_jitter_seq_gt _ _); [| intros [= _ _ <-]; cbn [length]; lia]. destruct (_ <=? u16 _).
  { destruct (load_range _ _ _) as [d |]; [rewrite bind_Ret | done]. intros [= _ _ <-]. cbn [length]. lia. }
  destruct (load _ _) as [s |]; [rewrite bind_Ret | done]. destruct (load_range _ _ _) as [d |]; [rewrite bind_Ret | done].
  destruct (store_range _ _ _) as [d' |]; [rewrite bind_Ret | done]. destruct (store _ _ _) as [sl |]; [rewrite bind_Ret | done].
  match goal with |- context [if ?c then _ else Ret (_, _, [])] => destruct c end; [| intros [= _ _ <-]; cbn [length]; lia].
  destruct (ngx_rtc_jitter_skip_gap _ _) as [[j2 l2] |] eqn:E2; [rewrite bind_Ret | done]. apply skip_gap_length in E2.
  intros [= _ _ <-]. lia.
Qed.

#[local] Opaque ngx_rtc_jitter_drain ngx_rtc_jitter_skip_gap.

(** What one accepted push guarantees. *)
Definition push_ok (P : Z -> octets -> Z -> Prop) (j : ngx_rtc_jitter_t)
    (nx : Z) (r : outcome (Z * ptr ngx_rtc_jitter_t * list emission)) : Prop :=
  exists j' ss log, r = Ret (NGX_RTC_OK, Ref j', log) /\
    jinv P j' /\ settled j' /\ initialized j' <> 0 /\
    n_reanchor j' <= Z.max 1 (n_reanchor j) /\
    gap_timeout_ms j' = gap_timeout_ms j /\
    delivers 32767 P nx ss log (next_seq j').

Lemma push_expired P j (expired : bool) (pre : list emission) pss nx :
  jinv P j -> settled j -> 0 < pending j \/ expired = false ->
  initialized j <> 0 ->
  delivers 32767 P nx pss pre (next_seq j) ->
  push_ok P j nx
    (if expired then
       '(j, log) ← ngx_rtc_jitter_skip_gap jitter_fuel j;
       Ret (NGX_RTC_OK, Ref j, pre ++ log)
     else Ret (NGX_RTC_OK, Ref j, pre)).
Proof.
  intros Hj Hset Hp Hi Hpre. destruct expired.
  - destruct Hp as [Hp | Hp]; [| done].
    destruct (pending_slot P j Hj Hp) as (d & s & Hd & Hat & Hv).
    destruct (skip_gap_spec P j d s) as (j' & ss & log & Hr & Hj' & Hset' &
      (Hm1 & Hm2 & Hm3) & _ & _ & _ & Hdel); try done. rewrite Hr. simpl.
    exists j', (pss ++ ss), (pre ++ log). split_and!; try done; try congruence; try lia.
    apply delivers_app with (next_seq j); [done |].
    by apply delivers_mono with 127; [lia |].
  - exists j, pss, pre. split_and!; try done. lia.
Qed.

Lemma push_in_order P j rtp len g now tmo :
  jinv P j -> settled j -> initialized j <> 0 -> 0 <= len <= zlen rtp ->
  P (next_seq j) (ztake len rtp) g ->
  push_ok P j (next_seq j)
    (d ← load_range rtp 0 len;
     let j := set_next_seq (u16 (next_seq j + 1)) j in
     '(j, log) ← ngx_rtc_jitter_drain jitter_fuel j;
     if (0 <? pending j) && (tmo <=? u32 (now - gap_ts j)) then
       '(j, log') ← ngx_rtc_jitter_skip_gap jitter_fuel j;
       Ret (NGX_RTC_OK, Ref j, ((d, g) :: log) ++ log')
     else Ret (NGX_RTC_OK, Ref j, (d, g) :: log)).
Proof.
  intros Hj Hset Hi Hlen HP. rewrite load_range_in by lia.
  rewrite bind_Ret, zdrop_0. cbv zeta.
  pose proof (jinv_advance P j Hj Hset) as Hj1.
  destruct (drain_spec P _ Hj1) as (j2 & ss & log & Hr & Hj2 & Hset2 &
    (Hm1 & Hm2 & Hm3) & Hp2 & Hg2 & Hdel & _).
  rewrite Hr, bind_Ret. clear Hr. simpl in Hm1, Hm2, Hm3, Hdel.
  assert (Hpre : delivers 32767 P (next_seq j) (next_seq j :: ss)
    ((ztake len rtp, g) :: log) (next_seq j2)).
  { constructor; try done; [apply (inv_next P j Hj) | by rewrite Z.sub_diag |].
    by apply delivers_mono with 0; [lia |]. }
  pose proof (push_expired P j2 ((0 <? pending j2) && (tmo <=? u32 (now - gap_ts j2)))
    ((ztake len rtp, g) :: log) (next_seq j :: ss) (next_seq j) Hj2 Hset2) as Hexp.
  destruct Hexp as (j' & ss' & log' & Hrun & ? & ? & ? & ? & ? & ?); try done.
  { destruct (Z.ltb_spec 0 (pending j2)); [by left | by right]. }
  { congruence. }
  exists j', ss', log'. split_and!; try done; congruence.
Qed.

(** The slot a packet [d] ahead is written to. *)
Lemma jinv_cache P j d old new sl :
  jinv P j -> settled j -> 1 <= d < 128 -> slot_at j d = Ret old ->
  store (slots j) ((next_seq j + d) mod 128) new = Ret sl ->
  slot_wf new -> valid new = 1 ->
  P (u16 (next_seq j + d)) (ztake (len new) (data new)) (is_gop_start new) ->
  let j1 := j |> set_pending (if valid old =? 0 then u16 (pending j + 1)
                              else pending j) |> set_slots sl in
  jinv P j1 /\ settled j1 /\ 0 < pending j1.
Proof.
  intros Hj Hset Hd Hold Hst Hwf Hv HP j1.
  pose proof Hst as [Hnew Hother]%load_store_other.
  pose proof Hold as [_ Hlk]%load_ret. pose proof Hst as [Hb ->]%store_ret.
  destruct Hj as [Hl Hn Hp Hw Hs].
  assert (Hnl : nlive (<[Z.to_nat ((next_seq j + d) mod 128):=new]> (slots j))
    = (if valid old =? 0 then nlive (slots j) + 1 else nlive (slots j))).
  { erewrite nlive_insert by done. unfold live. rewrite Hv. zcase. }
  assert (Hpend : pending j1 = nlive (slots j1)).
  { unfold j1. simpl. rewrite Hnl, Hp. pose proof (nlive_le (slots j)).
    pose proof (nlive_nonneg (slots j)). rewrite u16_small by (unfold is_u16; lia).
    done. }
  assert (Hmod : forall e, 0 <= e < 128 -> e <> d ->
    slot_at j1 e = slot_at j e).
  { intros e He Hne. unfold slot_at, j1. simpl. apply Hother.
    - apply Z.mod_pos_bound. lia.
    - intros Heq%mod_offset_inj; lia. }
  split; [constructor | split].
  - unfold j1. simpl. zl.
  - done.
  - done.
  - by apply Forall_insert.
  - intros e s He Hat Hvs. destruct (decide (e = d)) as [-> | Hne].
    + unfold slot_at, j1 in Hat. simpl in Hat. rewrite Hnew in Hat.
      by injection Hat as <-.
    + rewrite Hmod in Hat by done. by apply Hs.
  - intros s Hs0. rewrite Hmod in Hs0 by lia. by apply Hset.
  - rewrite Hpend. unfold j1. simpl.
    apply Z.lt_le_trans with 1; [lia |].
    apply nlive_pos with (Z.to_nat ((next_seq j + d) mod 128)) new; [| lia].
    apply list_lookup_insert_eq. unfold zlen in Hb. lia.
Qed.

Lemma push_cached P j rtp n seq g now tmo :
  jinv P j -> settled j -> initialized j <> 0 ->
  0 <= n <= NGX_RTC_MAX_RTP_PKT -> n <= zlen rtp ->
  is_u16 seq -> 1 <= u16 (seq - next_seq j) < 128 ->
  P seq (ztake n rtp) (if negb (g =? 0) then 1 else 0) ->
  push_ok P j (next_seq j)
    (slot ← load (slots j) (slot_index seq);
     let j := if valid slot =? 0
              then set_pending (u16 (pending j + 1)) j else j in
     src ← load_range rtp 0 n;
     d ← store_range (data slot) 0 src;
     sl ← store (slots j) (slot_index seq)
            {| data := d; len := u16 n;
               is_gop_start := if negb (g =? 0) then 1 else 0;
               valid := 1 |};
     let j := j |> set_slots sl |> set_n_cached (u32 (n_cached j + 1)) in
     let j := if gap_ts j =? 0 then set_gap_ts now j else j in
     if tmo <=? u32 (now - gap_ts j) then
       '(j, log) ← ngx_rtc_jitter_skip_gap jitter_fuel j;
       Ret (NGX_RTC_OK, Ref j, log)
     else Ret (NGX_RTC_OK, Ref j, [])).
Proof.
  intros Hj Hset Hi Hlen Hrtp Hsq Hd HP.
  set (d := u16 (seq - next_seq j)) in *. pose proof (inv_next P j Hj) as Hn.
  assert (Hseq : u16 (next_seq j + d) = seq) by (subst d; wraps).
  rewrite slot_index_mod.
  assert (Hidx : seq mod 128 = (next_seq j + d) mod 128).
  { rewrite <- Hseq. apply (u16_mod_pow2 _ 7). lia. }
  rewrite Hidx. destruct (slot_at_in j d (inv_len P j Hj)) as [old Hold].
  pose proof (slot_at_wf _ _ _ _ Hj Hold) as [Hw1 _].
  pose proof Hold as Hld. unfold slot_at in Hld. rewrite Hld, bind_Ret. cbv zeta.
  rewrite load_range_in, bind_Ret, zdrop_0 by lia.
  rewrite store_range_in by zl. rewrite bind_Ret.
  set (new := {| data := _; len := u16 n; is_gop_start := _; valid := 1 |}).
  destruct (store (slots j) ((next_seq j + d) mod 128) new) as [sl |] eqn:Hst.
  2: { apply load_bound in Hld. unfold store in Hst. revert Hst. zcase; done. }
  assert (Hlz : zlen (ztake n rtp) = n) by zl.
  destruct (jinv_cache P j d old new sl) as (Hj1 & Hset1 & Hp1); try done.
  { split; subst new; cbn [data len valid]; [zl |]. intros _. rewrite u16_small.
    - done. - unfold is_u16, NGX_RTC_MAX_RTP_PKT in *. lia. }
  { subst new. cbn [data len is_gop_start]. rewrite Hseq, (u16_small n)
      by (unfold is_u16, NGX_RTC_MAX_RTP_PKT in *; lia).
    rewrite ztake_0, app_nil_l. by rewrite ztake_app_length. }
  set (j1 := j |> set_pending _ |> set_slots sl) in *.
  replace (slots (if valid old =? 0 then set_pending (u16 (pending j + 1)) j else j))
    with (slots j) by (by destruct (valid old =? 0)).
  rewrite Hst, bind_Ret. cbv zeta.
  set (j2 := set_n_cached _ (set_slots sl _)).
  set (j3 := if gap_ts j2 =? 0 then set_gap_ts now j2 else j2).
  assert (Heq : slots j3 = slots j1 /\ next_seq j3 = next_seq j1 /\
    pending j3 = pending j1 /\ initialized j3 = initialized j /\
    gap_timeout_ms j3 = gap_timeout_ms j /\ n_reanchor j3 = n_reanchor j).
  { subst j3 j2 j1. destruct (gap_ts _ =? 0), (valid old =? 0); done. }
  destruct Heq as (H1 & H2 & H3 & H4 & H5 & H6).
  assert (Hj3 : jinv P j3 /\ settled j3).
  { split.
    - destruct Hj1. constructor; unfold slot_at in *; rewrite ?H1, ?H2, ?H3; done.
    - unfold settled, slot_at. rewrite H1, H2. done. }
  destruct Hj3 as [Hj3 Hset3].
  destruct (push_expired P j3 (tmo <=? u32 (now - gap_ts j3)) [] [] (next_seq j))
    as (j' & ss & log & Hr & ? & ? & ? & ? & ? & ?); try done.
  { rewrite H3. by left. }
  { by rewrite H4. }
  { rewrite H2. constructor. }
  exists j', ss, log. rewrite H6, H5 in *. split_and!; done.
Qed.

Lemma push_spec {F} P j rtp len seq g now (cb : F) :
  jinv P j -> settled j -> (initialized j = 0 -> pending j = 0) ->
  1 <= len <= NGX_RTC_MAX_RTP_PKT -> len <= zlen rtp -> is_u16 seq ->
  P seq (ztake len rtp) g -> P seq (ztake len rtp) (if negb (g =? 0) then 1 else 0) ->
  push_ok P j (if initialized j =? 0 then seq else next_seq j)
    (ngx_rtc_jitter_push (Ref j) (Ref rtp) len seq g now (Ref cb)).
Proof.
  intros Hj Hset Hinit Hlen Hrtp Hsq HP HP'. unfold ngx_rtc_jitter_push. cbn [is_null].
  destruct (Z.eqb_spec len 0), (Z.ltb_spec NGX_RTC_MAX_RTP_PKT len); try lia.
  cbn [orb]. cbv zeta. set (tmo := if negb _ then _ else _).
  set (j0 := if initialized j =? 0 then _ else j).
  assert (Hj0 : jinv P j0 /\ settled j0 /\ initialized j0 <> 0 /\
    next_seq j0 = (if initialized j =? 0 then seq else next_seq j) /\
    n_reanchor j0 = n_reanchor j /\ gap_timeout_ms j0 = gap_timeout_ms j).
  { subst j0. destruct (Z.eqb_spec (initialized j) 0) as [Hz | Hz]; [| done].
    specialize (Hinit Hz).
    assert (Hempty : forall x s d, slots x = slots j ->
      slot_at x d = Ret s -> valid s = 0).
    { intros x s d Hx Hat%load_ret. rewrite Hx in Hat. destruct Hat as [_ Hat].
      destruct (decide (valid s = 0)) as [| Hv]; [done |].
      pose proof (nlive_pos _ _ _ Hat Hv). rewrite <- (inv_pending P j Hj) in *. lia. }
    split_and!; try done.
    - destruct Hj. constructor; try done. intros d s Hd Hat Hv.
      destruct Hv. by eapply (Hempty (j |> set_next_seq seq |> set_initialized 1)).
    - intros s Hat.
      by eapply (Hempty (j |> set_next_seq seq |> set_initialized 1)). }
  destruct Hj0 as (Hj0 & Hset0 & Hi0 & Hn0 & Hr0 & Hg0). rewrite <- Hn0.
  pose proof (inv_next P j0 Hj0) as Hn. unfold push_ok. rewrite <- Hr0, <- Hg0.
  destruct (Z.eqb_spec seq (next_seq j0)) as [He | He].
  { apply push_in_order; try done; [lia |]. by rewrite <- He. }
  destruct (ngx_rtc_jitter_seq_gt seq (next_seq j0)) eqn:Hgt.
  - apply Z.ltb_lt, s16_pos in Hgt.
    destruct (Z.leb_spec NGX_RTC_JITTER_CAP (u16 (seq - next_seq j0))) as [Hcap | Hcap].
    + rewrite load_range_in, bind_Ret, zdrop_0 by lia.
      destruct (jinv_zero P (u16 (seq + 1)) (gap_timeout_ms j0)) as [Hz1 Hz2];
        [apply u16_range |].
      eexists _, [seq], _. split; [reflexivity |]. simpl. split_and!; try done; try lia.
      * destruct Hz1. by constructor.
      * change (u32 (0 + 1)) with 1. lia.
      * constructor; try done; [lia | constructor].
    + apply push_cached; try done; unfold NGX_RTC_JITTER_CAP in Hcap; lia.
  - eexists _, [], []. split; [reflexivity |]. split_and!; try done; simpl; try lia;
      [| constructor]. destruct Hj0. by constructor.
Qed.

(** *** Whole runs *)

Record arrival := { a_rtp : octets; a_len : Z; a_seq : Z; a_gop : Z; a_now : Z }.

Definition arrival_ok (a : arrival) : Prop :=
  1 <= a_len a <= NGX_RTC_MAX_RTP_PKT /\ a_len a <= zlen (a_rtp a) /\
  is_u16 (a_seq a).

Fixpoint run (j : ptr ngx_rtc_jitter_t) (l : list arrival)
    : outcome (ptr ngx_rtc_jitter_t * list emission) :=
  match l with
  | [] => Ret (j, [])
  | a :: l =>
      '(_, j, log) ← ngx_rtc_jitter_push j (Ref (a_rtp a)) (a_len a) (a_seq a)
                       (a_gop a) (a_now a) (Ref tt);
      '(j, log') ← run j l;
      Ret (j, log ++ log')
  end.

(** Packet [d] with flag [g] arrived with sequence [s]; only whether the flag
    is set is kept while a packet waits. *)
Definition arrived (l : list arrival) (s : Z) (d : octets) (g : Z) : Prop :=
  exists a, In a l /\ a_seq a = s /\ ztake (a_len a) (a_rtp a) = d /\
    (a_gop a =? 0) = (g =? 0).

(** Every sequence is ahead of the one before, by at most half the space. *)
Definition forward (ss : list Z) : Prop :=
  forall i a b, ss !! i = Some a -> ss !! S i = Some b -> 1 <= u16 (b - a) <= 32768.

Lemma delivers_forward P nx ss log nx' :
  delivers 32767 P nx ss log nx' -> forward ss.
Proof.
  induction 1 as [| nx s d g ss log nx' Hs Hg HP Hd IH]; [by intros [] ? ? |].
  intros [| i] a b Ha Hb; simpl in *; [| by apply (IH i)].
  injection Ha as ->. inversion Hd; subst; [done |].
  injection Hb as ->. wraps.
Qed.

Lemma delivers_arrived G P nx ss log nx' :
  delivers G P nx ss log nx' -> Forall2 (fun s e => P s (fst e) (snd e)) ss log.
Proof. by induction 1; constructor. Qed.

Lemma run_spec all l : forall j,
  Forall arrival_ok l -> (forall a, In a l -> In a all) ->
  jinv (arrived all) j -> settled j -> (initialized j = 0 -> pending j = 0) ->
  n_reanchor j <= 1 ->
  exists nx j' ss log, run (Ref j) l = Ret (Ref j', log) /\
    (initialized j <> 0 -> nx = next_seq j) /\
    n_reanchor j' <= 1 /\ gap_timeout_ms j' = gap_timeout_ms j /\
    delivers 32767 (arrived all) nx ss log (next_seq j').
Proof.
  induction l as [| a l IH]; intros j Hok Hin Hj Hset Hinit Hre.
  { exists (next_seq j), j, [], []. split_and!; try done. constructor. }
  apply Forall_cons_1 in Hok as [(Ha1 & Ha2 & Ha3) Hok].
  destruct (push_spec (arrived all) j (a_rtp a) (a_len a) (a_seq a) (a_gop a)
    (a_now a) tt) as (j1 & ss1 & log1 & Hr1 & Hj1 & Hset1 & Hi1 & Hre1 & Hg1 & Hd1);
    try done.
  { exists a. split_and!; try done. apply Hin. by left. }
  { exists a. split_and!; try done; [apply Hin; by left |]. by destruct (a_gop a =? 0). }
  destruct (IH j1) as (nx & j' & ss & log & Hr & Hnx & Hre' & Hg' & Hd); try done; try lia.
  { intros b Hb. apply Hin. by right. }
  simpl run. rewrite Hr1, bind_Ret, Hr, bind_Ret.
  specialize (Hnx Hi1). subst nx.
  exists (if initialized j =? 0 then a_seq a else next_seq j), j', (ss1 ++ ss),
    (log1 ++ log).
  split_and!; try done; try congruence.
  - intros Hne. by destruct (Z.eqb_spec (initialized j) 0).
  - by eapply delivers_app.
Qed.

(** C15: whatever order, duplication, loss and timing the arrivals have, the
    reorder buffer never faults and never loops, hands on only packets that
    arrived (each with the sequence and GOP flag it arrived with), and hands
    them on in strictly forward sequence order, wrap-around of the 16-bit
    sequence, gap skips and re-anchors included. *)
Theorem jitter_in_order t l :
  Forall arrival_ok l ->
  exists j' ss log,
    run (ngx_rtc_jitter_reset (Ref (set_gap_timeout_ms t zero_jitter))) l
      = Ret (Ref j', log) /\
    Forall2 (fun s e => arrived l s (fst e) (snd e)) ss log /\ forward ss.
Proof.
  intros Hok. destruct (jinv_zero (arrived l) 0 t) as [Hz1 Hz2]; [done |].
  destruct (run_spec l l (set_gap_timeout_ms t zero_jitter))
    as (nx & j' & ss & log & Hr & _ & _ & _ & Hd); try done.
  exists j', ss, log. split_and!; [done | by eapply delivers_arrived |].
  by eapply delivers_forward.
Qed.

Definition demo_arrival (s now : Z) : arrival :=
  {| a_rtp := [s; s]; a_len := 2; a_seq := s; a_gop := 1; a_now := now |}.

Lemma jitter_in_order_witness :
  let l := [demo_arrival 65535 10; demo_arrival 1 11; demo_arrival 0 12;
            demo_arrival 0 13; demo_arrival 4 14; demo_arrival 6 70;
            demo_arrival 900 71] in
  (exists j, run (ngx_rtc_jitter_reset (Ref (set_gap_timeout_ms 0 zero_jitter))) l
    = Ret (j, [([65535; 65535], 1); ([0; 0], 1); ([1; 1], 1); ([4; 4], 1);
               ([900; 900], 1)])) /\
  exists j' ss log,
    run (ngx_rtc_jitter_reset (Ref (set_gap_timeout_ms 0 zero_jitter))) l
      = Ret (Ref j', log) /\
    Forall2 (fun s e => arrived l s (fst e) (snd e)) ss log /\ forward ss.
Proof.
  split; [eexists; vm_compute; reflexivity |]. apply jitter_in_order.
  repeat (constructor; [repeat split; vm_compute; congruence |]); constructor.
Defined.

(** The re-anchor count the header calls cumulative never exceeds one: the
    re-anchor branch resets the whole buffer, counters included, before it
    increments the counter. *)
Theorem jitter_reanchor_count_lost t l :
  Forall arrival_ok l ->
  forall j' log,
    run (ngx_rtc_jitter_reset (Ref (set_gap_timeout_ms t zero_jitter))) l
      = Ret (Ref j', log) -> n_reanchor j' <= 1.
Proof.
  intros Hok j' log Hrun. destruct (jinv_zero (arrived l) 0 t) as [Hz1 Hz2]; [done |].
  destruct (run_spec l l (set_gap_timeout_ms t zero_jitter))
    as (nx & j1 & ss & log1 & Hr & _ & Hre & _ & _); try done.
  cbn [ngx_rtc_jitter_reset] in Hrun.
  change (gap_timeout_ms (set_gap_timeout_ms t zero_jitter)) with t in Hrun.
  rewrite Hr in Hrun. by injection Hrun as <- _.
Qed.

(** Two re-anchors, one counted. *)
Lemma jitter_reanchor_count_lost_witness :
  let l := [demo_arrival 1 10; demo_arrival 301 11; demo_arrival 601 12] in
  exists j' log,
    run (ngx_rtc_jitter_reset (Ref (set_gap_timeout_ms 0 zero_jitter))) l
      = Ret (Ref j', log) /\ zlen log = 3 /\ n_reanchor j' = 1 /\
    n_reanchor j' <= 1.
Proof.
  eexists _, _. split; [vm_compute; reflexivity |].
  split; [reflexivity |]. split; [reflexivity |].
  apply (jitter_reanchor_count_lost 0
    [demo_arrival 1 10; demo_arrival 301 11; demo_arrival 601 12]) with
    [([1; 1], 1); ([301; 301], 1); ([601; 601], 1)].
  - repeat (constructor; [repeat split; vm_compute; congruence |]); constructor.
  - vm_compute. reflexivity.
Defined.
End Jitter.
