(* ===== verification/Hsm.v ===== *)
(** The hierarchical state machine engine of src/ngx_rtc_hsm.{h,c}.

    States, action functions and guard functions are named by identifiers; [obj]
    is the table of state objects and [act], [grd] call a function pointer.  The
    machine value is passed to every action and returned by it, so an action may
    change any field of it.  A guard is a predicate that may fault.  The NULL tests on [sm] in
    the static helpers are dropped: only the public entry points, which test
    it, call them.  Every pointer walk has the section's fuel, and following the
    parent of NULL is a [Fault]. *)

From Stdlib Require Import String.
From stdpp Require Import sets.
From S2P Require Import Prelude.

Module Hsm.

Inductive ngx_rtc_hsm_transition_type_t :=
| NGX_RTC_HSM_TRANSITION_EXTERNAL
| NGX_RTC_HSM_TRANSITION_INTERNAL.

Section engine.
Context {St Act Gd Ctx User : Type} `{EqDecision St}.

Record ngx_rtc_hsm_event := { id : Z; context : ptr Ctx }.

Record ngx_rtc_hsm_transition := {
  event_id : Z;
  target : ptr St;
  guard : ptr Gd;
  action : ptr Act;
  type : ngx_rtc_hsm_transition_type_t
}.

(** [transitions] is the array of [num_transitions] entries. *)
Record ngx_rtc_hsm_state := {
  parent : ptr St;
  entry_action : ptr Act;
  exit_action : ptr Act;
  transitions : list ngx_rtc_hsm_transition;
  name : ptr string
}.

Record ngx_rtc_hsm := {
  current_state : ptr St;
  initial_state : ptr St;
  user_data : ptr User;
  unhandled_event_hook : ptr Act;
  entry_path_buffer : ptr (list (ptr St));
  buffer_size : Z
}.

Definition eta (sm : ngx_rtc_hsm) : ngx_rtc_hsm :=
  {| current_state := current_state sm; initial_state := initial_state sm;
     user_data := user_data sm;
     unhandled_event_hook := unhandled_event_hook sm;
     entry_path_buffer := entry_path_buffer sm;
     buffer_size := buffer_size sm |}.
Definition set_current_state := ltac:(setter eta current_state).
Definition set_user_data := ltac:(setter eta user_data).
Definition set_unhandled_event_hook := ltac:(setter eta unhandled_event_hook).
Definition set_entry_path_buffer := ltac:(setter eta entry_path_buffer).

Context (obj : St -> ngx_rtc_hsm_state)
  (act : Act -> ngx_rtc_hsm -> ptr ngx_rtc_hsm_event -> ngx_rtc_hsm)
  (grd : Gd -> ngx_rtc_hsm -> ngx_rtc_hsm_event -> outcome bool)
  (fuel : nat).

(** [if (NULL != f) f (sm, event)]. *)
Definition call (f : ptr Act) (event : ptr ngx_rtc_hsm_event)
    (sm : ngx_rtc_hsm) : ngx_rtc_hsm :=
  match f with NULL => sm | Ref a => act a sm event end.

(** [p->parent]. *)
Definition up (p : ptr St) : outcome (ptr St) :=
  match p with NULL => Fault | Ref s => Ret (parent (obj s)) end.

Fixpoint hsm_get_state_depth_loop (n : nat) (p : ptr St) (depth : Z) : outcome Z :=
  match p with
  | NULL => Ret depth
  | Ref s =>
      match n with
      | O => Fault
      | S n => hsm_get_state_depth_loop n (parent (obj s)) (u8 (depth + 1))
      end
  end.

Definition hsm_get_state_depth (p : ptr St) : outcome Z :=
  hsm_get_state_depth_loop fuel p 0.

(** [while (d1 > d2) { p = p->parent; d1--; }]. *)
Fixpoint hsm_climb (n : nat) (p : ptr St) (d1 d2 : Z) : outcome (ptr St) :=
  if d2 <? d1 then
    match n with
    | O => Fault
    | S n => p ← up p; hsm_climb n p (d1 - 1) d2
    end
  else Ret p.

Fixpoint hsm_meet (n : nat) (p1 p2 : ptr St) : outcome (ptr St) :=
  if decide (p1 = p2) then Ret p1
  else
    match n with
    | O => Fault
    | S n => p1 ← up p1; p2 ← up p2; hsm_meet n p1 p2
    end.

Definition hsm_find_lca (s1 s2 : ptr St) : outcome (ptr St) :=
  match s1, s2 with
  | Ref _, Ref _ =>
      depth1 ← hsm_get_state_depth s1;
      depth2 ← hsm_get_state_depth s2;
      p1 ← hsm_climb fuel s1 depth1 depth2;
      p2 ← hsm_climb fuel s2 depth2 depth1;
      hsm_meet fuel p1 p2
  | NULL, _ => Ret s2
  | _, NULL => Ret s1
  end.

Fixpoint hsm_build_entry_path_loop (n : nat) (sm : ngx_rtc_hsm) (path_idx : Z)
    (entry_iter lca : ptr St) : outcome (bool * ngx_rtc_hsm) :=
  match entry_iter with
  | NULL => Ret (true, sm)
  | Ref s =>
      if decide (entry_iter = lca) then Ret (true, sm)
      else
        match n with
        | O => Fault
        | S n =>
            if path_idx <? buffer_size sm then
              match entry_path_buffer sm with
              | NULL => Fault
              | Ref b =>
                  b ← store b path_idx entry_iter;
                  hsm_build_entry_path_loop n (set_entry_path_buffer (Ref b) sm)
                    (u8 (path_idx + 1)) (parent (obj s)) lca
              end
            else Ret (false, sm)
        end
  end.

Definition hsm_build_entry_path (sm : ngx_rtc_hsm) (target_state lca : ptr St)
    : outcome (bool * ngx_rtc_hsm) :=
  match target_state with
  | NULL => Ret (false, sm)
  | Ref _ => hsm_build_entry_path_loop fuel sm 0 target_state lca
  end.

Fixpoint hsm_path_length (n : nat) (entry_iter lca : ptr St) (len : Z) : outcome Z :=
  match entry_iter with
  | NULL => Ret len
  | Ref s =>
      if decide (entry_iter = lca) then Ret len
      else
        match n with
        | O => Fault
        | S n => hsm_path_length n (parent (obj s)) lca (u8 (len + 1))
        end
  end.

Fixpoint hsm_execute_exit_actions (n : nat) (sm : ngx_rtc_hsm)
    (exit_iter lca : ptr St) (event : ptr ngx_rtc_hsm_event)
    : outcome ngx_rtc_hsm :=
  match exit_iter with
  | NULL => Ret sm
  | Ref s =>
      if decide (exit_iter = lca) then Ret sm
      else
        match n with
        | O => Fault
        | S n =>
            hsm_execute_exit_actions n (call (exit_action (obj s)) event sm)
              (parent (obj s)) lca event
        end
  end.

Fixpoint hsm_entry_loop (path_length : nat) (sm : ngx_rtc_hsm)
    (event : ptr ngx_rtc_hsm_event) : outcome ngx_rtc_hsm :=
  match path_length with
  | O => Ret sm
  | S k =>
      match entry_path_buffer sm with
      | NULL => Fault
      | Ref b =>
          p ← load b (Z.of_nat k);
          hsm_entry_loop k
            match p with
            | NULL => sm
            | Ref s => call (entry_action (obj s)) event sm
            end event
      end
  end.

Definition hsm_execute_entry_actions (sm : ngx_rtc_hsm) (path_length : Z)
    (event : ptr ngx_rtc_hsm_event) : outcome ngx_rtc_hsm :=
  if is_null (entry_path_buffer sm) then Ret sm
  else hsm_entry_loop (Z.to_nat path_length) sm event.

Definition hsm_perform_transition (sm : ngx_rtc_hsm) (target_state : ptr St)
    (event : ptr ngx_rtc_hsm_event) : outcome (bool * ngx_rtc_hsm) :=
  match target_state with
  | NULL => Ret (false, sm)
  | Ref t =>
      let source_state := current_state sm in
      if decide (source_state = target_state) then
        let sm := call (exit_action (obj t)) event sm in
        let sm := call (entry_action (obj t)) event sm in
        Ret (true, sm)
      else
        lca ← hsm_find_lca source_state target_state;
        '(built, sm) ← hsm_build_entry_path sm target_state lca;
        if negb built then Ret (false, sm)
        else
          path_length ← hsm_path_length fuel target_state lca 0;
          sm ← hsm_execute_exit_actions fuel sm source_state lca event;
          let sm := set_current_state target_state sm in
          sm ← hsm_execute_entry_actions sm path_length event;
          Ret (true, sm)
  end.

Definition ngx_rtc_hsm_init (sm : ptr ngx_rtc_hsm) (initial : ptr St)
    (path_buffer : ptr (list (ptr St))) (size : Z) (user : ptr User)
    (unhandled_hook : ptr Act) : outcome (ptr ngx_rtc_hsm) :=
  match sm with
  | NULL => Ret sm
  | Ref _ =>
      if negb (is_null initial) && negb (is_null path_buffer) && (0 <? size) then
        '(_, m) ← hsm_perform_transition
          {| current_state := NULL; initial_state := initial; user_data := user;
             unhandled_event_hook := unhandled_hook;
             entry_path_buffer := path_buffer; buffer_size := size |}
          initial NULL;
        Ret (Ref m)
      else Ret sm
  end.

Definition ngx_rtc_hsm_deinit (sm : ptr ngx_rtc_hsm) : ptr ngx_rtc_hsm :=
  match sm with
  | NULL => NULL
  | Ref _ => Ref {| current_state := NULL; initial_state := NULL;
                    user_data := NULL; unhandled_event_hook := NULL;
                    entry_path_buffer := NULL; buffer_size := 0 |}
  end.

Definition ngx_rtc_hsm_reset (sm : ptr ngx_rtc_hsm) : outcome (ptr ngx_rtc_hsm) :=
  match sm with
  | NULL => Ret sm
  | Ref m =>
      if is_null (initial_state m) then Ret sm
      else '(_, m) ← hsm_perform_transition m (initial_state m) NULL; Ret (Ref m)
  end.

Fixpoint hsm_find_matching_transition (ts : list ngx_rtc_hsm_transition)
    (event : ngx_rtc_hsm_event) (sm : ngx_rtc_hsm)
    : outcome (ptr ngx_rtc_hsm_transition) :=
  match ts with
  | [] => Ret NULL
  | t :: ts =>
      if event_id t =? id event then
        guard_passed ← match guard t with
                       | NULL => Ret true
                       | Ref g => grd g sm event
                       end;
        if (guard_passed : bool) then Ret (Ref t)
        else hsm_find_matching_transition ts event sm
      else hsm_find_matching_transition ts event sm
  end.

Definition hsm_execute_transition (sm : ngx_rtc_hsm) (t : ngx_rtc_hsm_transition)
    (event : ngx_rtc_hsm_event) : outcome (bool * ngx_rtc_hsm) :=
  let sm := call (action t) (Ref event) sm in
  match type t with
  | NGX_RTC_HSM_TRANSITION_INTERNAL => Ret (true, sm)
  | NGX_RTC_HSM_TRANSITION_EXTERNAL =>
      hsm_perform_transition sm (target t) (Ref event)
  end.

Definition hsm_process_state_transitions (sm : ngx_rtc_hsm) (s : St)
    (event : ngx_rtc_hsm_event) : outcome (bool * ngx_rtc_hsm) :=
  matching ← hsm_find_matching_transition (transitions (obj s)) event sm;
  match matching with
  | NULL => Ret (false, sm)
  | Ref t => hsm_execute_transition sm t event
  end.

Fixpoint hsm_bubble (n : nat) (sm : ngx_rtc_hsm) (state_iter : ptr St)
    (event : ngx_rtc_hsm_event) : outcome (bool * ngx_rtc_hsm) :=
  match state_iter with
  | NULL => Ret (false, sm)
  | Ref s =>
      match n with
      | O => Fault
      | S n =>
          '(handled, sm) ← hsm_process_state_transitions sm s event;
          if (handled : bool) then Ret (true, sm)
          else hsm_bubble n sm (parent (obj s)) event
      end
  end.

Definition ngx_rtc_hsm_dispatch (sm : ptr ngx_rtc_hsm)
    (event : ptr ngx_rtc_hsm_event) : outcome (bool * ptr ngx_rtc_hsm) :=
  match sm, event with
  | Ref m, Ref ev =>
      '(handled, m) ← hsm_bubble fuel m (current_state m) ev;
      if (handled : bool) then Ret (true, Ref m)
      else Ret (false, Ref (call (unhandled_event_hook m) event m))
  | _, _ => Ret (false, sm)
  end.

Fixpoint hsm_is_in_state_loop (n : nat) (current_iter : ptr St) (s : St)
    : outcome bool :=
  match current_iter with
  | NULL => Ret false
  | Ref c =>
      if decide (c = s) then Ret true
      else
        match n with
        | O => Fault
        | S n => hsm_is_in_state_loop n (parent (obj c)) s
        end
  end.

Definition ngx_rtc_hsm_is_in_state (sm : ptr ngx_rtc_hsm) (s : ptr St)
    : outcome bool :=
  match sm, s with
  | Ref m, Ref s => hsm_is_in_state_loop fuel (current_state m) s
  | _, _ => Ret false
  end.

Definition ngx_rtc_hsm_get_current_state_name (sm : ptr ngx_rtc_hsm) : string :=
  match sm with
  | NULL => "Unknown"
  | Ref m =>
      match current_state m with
      | NULL => "Unknown"
      | Ref s => match name (obj s) with NULL => "Unknown" | Ref n => n end
      end
  end.

Definition ngx_rtc_hsm_restore_state (sm : ptr ngx_rtc_hsm) (s : ptr St)
    : bool * ptr ngx_rtc_hsm :=
  match sm, s with
  | Ref m, Ref _ => (true, Ref (set_current_state s m))
  | _, _ => (false, sm)
  end.
End engine.

Arguments ngx_rtc_hsm_event : clear implicits.
Arguments ngx_rtc_hsm_transition : clear implicits.
Arguments ngx_rtc_hsm_state : clear implicits.
Arguments ngx_rtc_hsm : clear implicits.
#[global] Arguments hsm_perform_transition : simpl never.

(** *** Correctness against ancestor chains *)

Section theory.
Context {St Act Gd Ctx User : Type} `{EqDecision St}.
Context (obj : St -> ngx_rtc_hsm_state St Act Gd)
  (act : Act -> ngx_rtc_hsm St Act User -> ptr (ngx_rtc_hsm_event Ctx) ->
         ngx_rtc_hsm St Act User)
  (fuel : nat) (lvl : St -> nat).

(** The state table is a forest: [lvl] decreases towards the root, and the
    fuel covers it. *)
Definition forest : Prop :=
  (forall s t, parent (obj s) = Ref t -> (lvl t < lvl s)%nat) /\
  (forall s, (lvl s < fuel)%nat).

Fixpoint anc_n (n : nat) (p : ptr St) : list St :=
  match p, n with
  | Ref s, S n => s :: anc_n n (parent (obj s))
  | _, _ => []
  end.

(** The chain from [p] up to its root. *)
Definition anc (p : ptr St) : list St := anc_n fuel p.

(** The part of the chain from [p] strictly below [lca]. *)
Fixpoint below (l : list St) (lca : ptr St) : list St :=
  match l with
  | [] => []
  | s :: l => if decide (Ref s = lca) then [] else s :: below l lca
  end.

Definition run_actions (f : ngx_rtc_hsm_state St Act Gd -> ptr Act)
    (event : ptr (ngx_rtc_hsm_event Ctx)) (l : list St)
    (sm : ngx_rtc_hsm St Act User) : ngx_rtc_hsm St Act User :=
  fold_left (fun sm s => call act (f (obj s)) event sm) l sm.

(** [r] is the lowest common ancestor of [p] and [q], NULL when they share
    none. *)
Definition is_lca (p q r : ptr St) : Prop :=
  (forall x, x ∈ anc p /\ x ∈ anc q <-> x ∈ anc r) /\
  match r with NULL => True | Ref a => a ∈ anc p /\ a ∈ anc q end.

Context (Hforest : forest).

Lemma anc_n_enough n m s :
  (lvl s < n)%nat -> (lvl s < m)%nat -> anc_n n (Ref s) = anc_n m (Ref s).
Proof.
  destruct Hforest as [Hp _]. revert m s.
  induction n as [| n IH]; intros [| m] s Hn Hm; try lia. simpl. f_equal.
  destruct (parent (obj s)) as [| t] eqn:Ht; [by destruct n, m |].
  apply Hp in Ht. apply IH; lia.
Qed.

Lemma anc_NULL : anc NULL = [].
Proof. unfold anc. by destruct fuel. Qed.

Lemma anc_Ref s : anc (Ref s) = s :: anc (parent (obj s)).
Proof.
  destruct Hforest as [Hp Hf]. unfold anc.
  rewrite (anc_n_enough fuel (S fuel)) by (pose proof (Hf s); lia). simpl. f_equal.
Qed.

Lemma anc_le_fuel p : (length (anc p) <= fuel)%nat.
Proof.
  unfold anc. generalize fuel. intros n. revert p.
  induction n as [| n IH]; intros [| s]; simpl; try lia.
  specialize (IH (parent (obj s))). lia.
Qed.

(** Chain induction. *)
Lemma ptr_ind (P : ptr St -> Prop) :
  P NULL -> (forall s, P (parent (obj s)) -> P (Ref s)) -> forall p, P p.
Proof.
  intros HN HR. destruct Hforest as [Hp _].
  assert (H : forall n s, (lvl s < n)%nat -> P (Ref s)).
  { induction n as [| n IH]; intros s Hs; [lia |]. apply HR.
    destruct (parent (obj s)) as [| t] eqn:Ht; [done |].
    apply IH. apply Hp in Ht. lia. }
  intros [| s]; [done |]. apply (H (S (lvl s))). lia.
Qed.

(** An ancestor's chain is a suffix, so it is no longer, and as long only when
    it is the same state. *)
Lemma anc_elem_chain x p :
  x ∈ anc p -> (length (anc (Ref x)) < length (anc p))%nat \/ p = Ref x.
Proof.
  induction p as [| s IH] using ptr_ind; [by rewrite anc_NULL; intros ?%not_elem_of_nil |].
  rewrite (anc_Ref s). intros [-> | Hx]%elem_of_cons; [by right |]. left.
  destruct (IH Hx) as [Hl | Hl]; simpl; [lia |]. rewrite Hl. lia.
Qed.

Lemma anc_elem_sub x p : x ∈ anc p -> forall y, y ∈ anc (Ref x) -> y ∈ anc p.
Proof.
  induction p as [| s IH] using ptr_ind; [by rewrite anc_NULL; intros ?%not_elem_of_nil |].
  rewrite (anc_Ref s). intros [-> | Hx]%elem_of_cons y Hy.
  - by rewrite anc_Ref in Hy.
  - apply elem_of_cons. right. by apply IH.
Qed.

Lemma depth_spec p :
  (length (anc p) < 256)%nat ->
  hsm_get_state_depth obj fuel p = Ret (Z.of_nat (length (anc p))).
Proof.
  intros Hl. unfold hsm_get_state_depth.
  assert (H : forall n d, (length (anc p) <= n)%nat -> 0 <= d ->
    d + Z.of_nat (length (anc p)) < 256 ->
    hsm_get_state_depth_loop obj n p d = Ret (d + Z.of_nat (length (anc p)))).
  { clear Hl. induction p as [| s IH] using ptr_ind; intros n d Hn Hd Hlt.
    - rewrite anc_NULL. simpl. destruct n; simpl; f_equal; lia.
    - rewrite anc_Ref in *. simpl length in *. destruct n as [| n]; [lia |]. simpl.
      rewrite u8_small by (unfold is_u8; lia). rewrite IH by lia. f_equal. lia. }
  rewrite H by (try apply anc_le_fuel; lia). f_equal.
Qed.

(** Lifting the deeper state keeps the common ancestors. *)
Lemma climb_spec p q :
  exists p', hsm_climb obj fuel p (Z.of_nat (length (anc p)))
    (Z.of_nat (length (anc q))) = Ret p' /\
    length (anc p') = Nat.min (length (anc p)) (length (anc q)) /\
    (forall x, x ∈ anc p' -> x ∈ anc p) /\
    (forall x, x ∈ anc p -> x ∈ anc q -> x ∈ anc p').
Proof.
  assert (H : forall n, (length (anc p) <= n)%nat -> exists p',
    hsm_climb obj n p (Z.of_nat (length (anc p))) (Z.of_nat (length (anc q)))
      = Ret p' /\
    length (anc p') = Nat.min (length (anc p)) (length (anc q)) /\
    (forall x, x ∈ anc p' -> x ∈ anc p) /\
    (forall x, x ∈ anc p -> x ∈ anc q -> x ∈ anc p')).
  2: { apply H, anc_le_fuel. }
  induction p as [| s IH] using ptr_ind; intros n Hn.
  - exists NULL. rewrite anc_NULL in *.
    split; [| split_and!; [done | done | set_solver]].
    assert (Hb : (Z.of_nat (length (anc q)) <? Z.of_nat (length (@nil St))) = false)
      by (apply Z.ltb_ge; simpl; lia).
    destruct n; cbn [hsm_climb]; by rewrite Hb.
  - destruct n as [| n]; [rewrite anc_Ref in Hn; simpl in Hn; lia |].
    simpl hsm_climb. destruct (Z.ltb_spec (Z.of_nat (length (anc q)))
      (Z.of_nat (length (anc (Ref s))))) as [Hlt | Hge].
    + rewrite anc_Ref in *. simpl length in *.
      destruct (IH n ltac:(lia)) as (p' & Hc & Hl & Hx1 & Hx2).
      replace (Z.of_nat (S (length (anc (parent (obj s))))) - 1)
        with (Z.of_nat (length (anc (parent (obj s))))) by lia.
      exists p'. split; [done |]. split; [lia |]. split; intros x.
      { intros Hx. apply elem_of_cons. auto. }
      intros [-> | Hxs]%elem_of_cons Hxq; [| by apply Hx2].
      apply anc_elem_chain in Hxq as [Hlen | Hq].
      * rewrite anc_Ref in Hlen. simpl in Hlen. lia.
      * subst q. rewrite anc_Ref in Hlt. simpl in Hlt. lia.
    + exists (Ref s). split; [done |]. split; [lia | done].
Qed.

Lemma meet_same n p : hsm_meet obj n p p = Ret p.
Proof. destruct n; simpl; by rewrite decide_True. Qed.

Lemma meet_spec p q :
  length (anc p) = length (anc q) ->
  exists r, hsm_meet obj fuel p q = Ret r /\ is_lca p q r.
Proof.
  assert (H : forall n q, (length (anc p) <= n)%nat ->
    length (anc p) = length (anc q) ->
    exists r, hsm_meet obj n p q = Ret r /\ is_lca p q r).
  2: { intros Hl. apply H; [apply anc_le_fuel | done]. }
  assert (Hrefl : forall r, is_lca r r r).
  { intros [| a]; split; try done; try tauto. rewrite anc_Ref. set_solver. }
  clear q. induction p as [| s IH] using ptr_ind; intros n q Hn Hl.
  - destruct q as [| t]; [| rewrite anc_NULL, anc_Ref in Hl; done].
    exists NULL. split; [apply meet_same | apply Hrefl].
  - destruct q as [| t]; [rewrite anc_NULL, anc_Ref in Hl; done |].
    destruct (decide (Ref s = Ref t)) as [Heq | Hne].
    { rewrite <- Heq. exists (Ref s). split; [apply meet_same | apply Hrefl]. }
    rewrite !anc_Ref in *. simpl length in *. destruct n as [| n]; [lia |].
    destruct (IH n (parent (obj t))) as (r & Hr & Hx & Hmem); [lia | lia |].
    exists r. split.
    { simpl. destruct (decide (Ref s = Ref t)); [done |].
      exact Hr. }
    assert (Hst : ~ s ∈ anc (Ref t)).
    { intros [Hlen | Ht]%anc_elem_chain; [| congruence].
      rewrite !anc_Ref in Hlen. simpl in Hlen. lia. }
    assert (Hts : ~ t ∈ anc (Ref s)).
    { intros [Hlen | Ht]%anc_elem_chain; [| congruence].
      rewrite !anc_Ref in Hlen. simpl in Hlen. lia. }
    split.
    + intros x. rewrite <- Hx, !anc_Ref, !elem_of_cons in *.
      split; [| tauto]. intros [[-> | ?] [-> | ?]]; tauto.
    + destruct r as [| a]; [done |]. rewrite !anc_Ref, !elem_of_cons. tauto.
Qed.

Lemma find_lca_spec s t :
  (length (anc (Ref s)) < 256)%nat -> (length (anc (Ref t)) < 256)%nat ->
  exists r, hsm_find_lca obj fuel (Ref s) (Ref t) = Ret r /\
    is_lca (Ref s) (Ref t) r.
Proof.
  intros Hs Ht. unfold hsm_find_lca. rewrite !depth_spec, !bind_Ret by done.
  destruct (climb_spec (Ref s) (Ref t)) as (p & Hp & Hlp & Hp1 & Hp2).
  destruct (climb_spec (Ref t) (Ref s)) as (q & Hq & Hlq & Hq1 & Hq2).
  rewrite Hp, bind_Ret, Hq, bind_Ret.
  destruct (meet_spec p q) as (r & Hr & Hx & Hmem); [lia |].
  exists r. split; [done |].
  assert (Hall : forall x, x ∈ anc (Ref s) /\ x ∈ anc (Ref t) <->
    x ∈ anc p /\ x ∈ anc q).
  { intros x. split; intros [H1 H2]; auto. }
  split; [intros x; by rewrite Hall |].
  destruct r as [| a]; [done |]. by apply Hall.
Qed.

(** *** The walks below the common ancestor *)

Lemma below_NULL (p r : ptr St) : below (anc NULL) r = [].
Proof. by rewrite anc_NULL. Qed.

Lemma below_here p : below (anc p) p = [].
Proof.
  destruct p as [| s]; [by rewrite anc_NULL |]. rewrite anc_Ref. simpl.
  by rewrite decide_True.
Qed.

Lemma below_up s r :
  Ref s <> r -> below (anc (Ref s)) r = s :: below (anc (parent (obj s))) r.
Proof. intros Hne. rewrite anc_Ref. simpl. by rewrite decide_False. Qed.

Lemma below_le p r : (length (below (anc p) r) <= length (anc p))%nat.
Proof.
  induction (anc p) as [| s l IH]; simpl; [done |].
  destruct (decide (Ref s = r)); simpl; lia.
Qed.

(** Induction along the chain from [p] up to [r], excluded. *)
Lemma below_ind (r : ptr St) (P : nat -> ptr St -> list St -> Prop) :
  (forall n, P n NULL []) -> (forall n s, Ref s = r -> P n (Ref s) []) ->
  (forall n s l, Ref s <> r -> P n (parent (obj s)) l -> P (S n) (Ref s) (s :: l)) ->
  forall n p, (length (anc p) <= n)%nat -> P n p (below (anc p) r).
Proof.
  intros HN HE HS n p. revert n. induction p as [| s IH] using ptr_ind; intros n Hn.
  - rewrite anc_NULL. apply HN.
  - destruct (decide (Ref s = r)) as [He | Hne].
    + assert (Hb : below (anc (Ref s)) r = []) by (by rewrite He, below_here).
      rewrite Hb. by apply HE.
    + rewrite below_up by done. rewrite anc_Ref in Hn.
      destruct n as [| n]; simpl in Hn; [lia |]. apply HS; [done |]. apply IH. lia.
Qed.

Lemma exit_actions_spec r ev n p : (length (anc p) <= n)%nat -> forall sm,
  hsm_execute_exit_actions obj act n sm p r ev
    = Ret (run_actions exit_action ev (below (anc p) r) sm).
Proof.
  apply (below_ind r (fun n p l => forall sm,
    hsm_execute_exit_actions obj act n sm p r ev
      = Ret (run_actions exit_action ev l sm))); clear n p.
  - by intros [].
  - intros [] s He sm; simpl; by rewrite decide_True.
  - intros n s l Hne IH sm. simpl. rewrite decide_False by done. apply IH.
Qed.

Lemma path_length_spec r n p : (length (anc p) <= n)%nat -> forall len,
  0 <= len -> len + zlen (below (anc p) r) < 256 ->
  hsm_path_length obj n p r len = Ret (len + zlen (below (anc p) r)).
Proof.
  apply (below_ind r (fun n p l => forall len, 0 <= len -> len + zlen l < 256 ->
    hsm_path_length obj n p r len = Ret (len + zlen l))); clear n p.
  - intros [] len _ _; simpl; by rewrite zlen_nil, Z.add_0_r.
  - intros [] s He len _ _; simpl; rewrite decide_True by done;
      by rewrite zlen_nil, Z.add_0_r.
  - intros n s l Hne IH len Hl Hlt. rewrite zlen_cons in *. simpl.
    rewrite decide_False by done. pose proof (zlen_nonneg l).
    rewrite u8_small by (unfold is_u8; lia). rewrite IH by lia. f_equal. lia.
Qed.

(** The path recorded from index [i] on; a path that does not fit leaves only
    the scratch buffer changed. *)
Lemma build_path_spec r n p : (length (anc p) <= n)%nat ->
  forall (sm : ngx_rtc_hsm St Act User) b i,
  entry_path_buffer sm = Ref b -> buffer_size sm <= zlen b ->
  buffer_size sm < 256 -> 0 <= i <= buffer_size sm ->
  let path := below (anc p) r in
  exists b', zlen b' = zlen b /\
    hsm_build_entry_path_loop obj n sm i p r
      = Ret (i + zlen path <=? buffer_size sm, set_entry_path_buffer (Ref b') sm) /\
    (forall j, 0 <= j < i -> load b' j = load b j) /\
    (i + zlen path <= buffer_size sm ->
     forall k, 0 <= k < zlen path -> load b' (i + k) = load (map Ref path) k).
Proof.
  assert (Hsame : forall (sm : ngx_rtc_hsm St Act User) b,
    entry_path_buffer sm = Ref b -> set_entry_path_buffer (Ref b) sm = sm).
  { intros [] b Hb. simpl in Hb. by subst. }
  apply (below_ind r (fun n p path => forall (sm : ngx_rtc_hsm St Act User) b i,
    entry_path_buffer sm = Ref b -> buffer_size sm <= zlen b ->
    buffer_size sm < 256 -> 0 <= i <= buffer_size sm ->
    exists b', zlen b' = zlen b /\
      hsm_build_entry_path_loop obj n sm i p r
        = Ret (i + zlen path <=? buffer_size sm, set_entry_path_buffer (Ref b') sm) /\
      (forall j, 0 <= j < i -> load b' j = load b j) /\
      (i + zlen path <= buffer_size sm ->
       forall k, 0 <= k < zlen path -> load b' (i + k) = load (map Ref path) k)));
    clear n p.
  - intros n sm b i Hb Hsz H256 Hi. exists b. rewrite (Hsame sm b), zlen_nil by done.
    split_and!; try done; [destruct n; simpl; f_equal; f_equal; symmetry;
      apply Z.leb_le; lia | intros; lia].
  - intros n s He sm b i Hb Hsz H256 Hi. exists b.
    rewrite (Hsame sm b), zlen_nil by done.
    split_and!; try done; [destruct n; simpl; rewrite decide_True by done; f_equal;
      f_equal; symmetry; apply Z.leb_le; lia | intros; lia].
  - intros n s l Hne IH sm b i Hb Hsz H256 Hi. simpl. rewrite decide_False by done.
    rewrite zlen_cons. pose proof (zlen_nonneg l).
    destruct (Z.ltb_spec i (buffer_size sm)) as [Hlt | Hge].
    2: { exists b. rewrite (Hsame sm b) by done. split_and!; try done; [| lia].
         f_equal. f_equal. symmetry. apply Z.leb_gt. lia. }
    rewrite Hb. destruct (store b i (Ref s)) as [b1 |] eqn:Hst.
    2: { unfold store in Hst. revert Hst. zcase; done. }
    rewrite bind_Ret. pose proof Hst as [Hnew Hold]%load_store_other.
    apply store_ret in Hst as [_ Hb1].
    assert (Hl1 : zlen b1 = zlen b) by (subst b1; zl).
    rewrite u8_small by (unfold is_u8; lia).
    destruct (IH (set_entry_path_buffer (Ref b1) sm) b1 (i + 1))
      as (b' & Hl' & Hrun & Hkeep & Hpath); simpl; try done; try lia.
    exists b'. split; [lia |]. split; [| split].
    + rewrite Hrun. simpl. f_equal. f_equal. f_equal. lia.
    + intros j Hj. rewrite Hkeep by lia. apply Hold; lia.
    + intros Hfit k Hk. destruct (decide (k = 0)) as [-> | Hk0].
      * rewrite Z.add_0_r, Hkeep by lia. by rewrite Hnew.
      * replace (i + k) with (i + 1 + (k - 1)) by lia. rewrite Hpath by (simpl; lia).
        change (load (map Ref l) (k - 1) = load ([Ref s] ++ map Ref l) k).
        rewrite load_app_r by (rewrite zlen_cons, zlen_nil; lia).
        by rewrite zlen_cons, zlen_nil.
Qed.

(** Actions leave the scratch buffer to the engine. *)
Definition frames_buffer : Prop :=
  forall a sm ev, entry_path_buffer (act a sm ev) = entry_path_buffer sm.

Context (Hframe : frames_buffer).

Lemma call_frame f ev sm :
  entry_path_buffer (call act f ev sm) = entry_path_buffer sm.
Proof. destruct f; [done | apply Hframe]. Qed.

Lemma run_actions_frame f ev l : forall sm,
  entry_path_buffer (run_actions f ev l sm) = entry_path_buffer sm.
Proof.
  induction l as [| s l IH]; intros sm; [done |].
  etransitivity; [apply IH | apply call_frame].
Qed.

Lemma entry_loop_spec path b ev k : forall sm,
  entry_path_buffer sm = Ref b -> (k <= length path)%nat ->
  (forall i, 0 <= i < zlen path -> load b i = load (map Ref path) i) ->
  hsm_entry_loop obj act k sm ev
    = Ret (run_actions entry_action ev (rev (take k path)) sm).
Proof.
  induction k as [| k IH]; intros sm Hb Hk Hpath; [done |]. simpl. rewrite Hb.
  destruct (lookup_lt_is_Some_2 path k) as [s Hs]; [lia |].
  rewrite Hpath by (unfold zlen; lia).
  assert (Hld : load (map Ref path) (Z.of_nat k) = Ret (Ref s)).
  { apply load_ret. rewrite Nat2Z.id. split; [lia |].
    change (map Ref path) with (Ref <$> path). by rewrite list_lookup_fmap, Hs. }
  rewrite Hld, bind_Ret. rewrite IH; [| by rewrite call_frame | lia | done].
  f_equal. rewrite (take_S_r _ _ _ Hs), rev_app_distr. done.
Qed.

Lemma perform_transition_spec sm s t ev b :
  current_state sm = Ref s -> s <> t ->
  (forall u, (length (anc (Ref u)) < 256)%nat) ->
  entry_path_buffer sm = Ref b -> buffer_size sm <= zlen b ->
  0 <= buffer_size sm < 256 ->
  exists r b', is_lca (Ref s) (Ref t) r /\
    hsm_perform_transition obj act fuel sm (Ref t) ev
    = if zlen (below (anc (Ref t)) r) <=? buffer_size sm then
        Ret (true, sm |> set_entry_path_buffer (Ref b')
                      |> run_actions exit_action ev (below (anc (Ref s)) r)
                      |> set_current_state (Ref t)
                      |> run_actions entry_action ev (rev (below (anc (Ref t)) r)))
      else Ret (false, set_entry_path_buffer (Ref b') sm).
Proof.
  intros Hcur Hne Hdeep Hbuf Hsz H256.
  destruct (find_lca_spec s t) as (r & Hr & Hlca); try apply Hdeep.
  pose proof (anc_le_fuel (Ref t)) as Hft. pose proof (anc_le_fuel (Ref s)) as Hfs.
  destruct (build_path_spec r fuel (Ref t) Hft sm b 0)
    as (b' & _ & Hbuild & _ & Hpath); try done; try lia. rewrite Z.add_0_l in *.
  exists r, b'. split; [done |]. unfold hsm_perform_transition.
  rewrite Hcur, decide_False, Hr, bind_Ret by congruence.
  unfold hsm_build_entry_path. rewrite Hbuild, bind_Ret.
  destruct (Z.leb_spec (zlen (below (anc (Ref t)) r)) (buffer_size sm)) as [Hfit | _];
    [| done].
  rewrite (path_length_spec r) by (done || lia). rewrite Z.add_0_l, bind_Ret.
  rewrite exit_actions_spec, bind_Ret by done.
  assert (Heb : entry_path_buffer (set_current_state (Ref t) (run_actions exit_action ev
    (below (anc (Ref s)) r) (set_entry_path_buffer (Ref b') sm))) = Ref b').
  { cbn [set_current_state entry_path_buffer]. by rewrite run_actions_frame. }
  unfold hsm_execute_entry_actions. rewrite Heb. cbn [is_null].
  rewrite (entry_loop_spec (below (anc (Ref t)) r) b').
  - rewrite bind_Ret, take_ge; [done | unfold zlen; lia].
  - done.
  - unfold zlen. lia.
  - intros i Hi. rewrite <- (Z.add_0_l i) at 1. by apply Hpath.
Qed.
End theory.

(** A transition between distinct states computes their lowest common
    ancestor and then, in this order, runs the exit actions from the source up
    to it, makes the target current, and runs the entry actions from below it
    down to the target, each state's once; a target too deep for the caller's
    path buffer fails the transition with no action run and the current state
    unchanged. *)
Theorem transition_exits_then_enters {St Act Gd Ctx User} `{EqDecision St}
    (obj : St -> ngx_rtc_hsm_state St Act Gd)
    (act : Act -> ngx_rtc_hsm St Act User -> ptr (ngx_rtc_hsm_event Ctx) ->
           ngx_rtc_hsm St Act User)
    (fuel : nat) (lvl : St -> nat) (sm : ngx_rtc_hsm St Act User) s t ev b :
  forest obj fuel lvl -> frames_buffer act ->
  (forall u, (length (anc obj fuel (Ref u)) < 256)%nat) ->
  current_state sm = Ref s -> s <> t ->
  entry_path_buffer sm = Ref b -> buffer_size sm <= zlen b ->
  0 <= buffer_size sm < 256 ->
  exists r b', is_lca obj fuel (Ref s) (Ref t) r /\
    let exits := below (anc obj fuel (Ref s)) r in
    let enters := below (anc obj fuel (Ref t)) r in
    hsm_perform_transition obj act fuel sm (Ref t) ev
    = if zlen enters <=? buffer_size sm then
        Ret (true, sm |> set_entry_path_buffer (Ref b')
                      |> run_actions obj act exit_action ev exits
                      |> set_current_state (Ref t)
                      |> run_actions obj act entry_action ev (rev enters))
      else Ret (false, set_entry_path_buffer (Ref b') sm).
Proof. intros. by eapply perform_transition_spec. Qed.

(** A tree 0 (root); 1, 2 below 0; 3 below 1; 4 below 2 that logs every action. *)
Definition demo_obj (s : nat) : ngx_rtc_hsm_state nat Z unit :=
  {| parent := match s with
               | 0%nat => NULL | 1%nat | 2%nat => Ref 0%nat
               | 3%nat => Ref 1%nat | _ => Ref 2%nat
               end;
     entry_action := Ref (Z.of_nat s); exit_action := Ref (- Z.of_nat s);
     transitions := []; name := NULL |}.

Definition demo_act (a : Z) (sm : ngx_rtc_hsm nat Z (list Z))
    (_ : ptr (ngx_rtc_hsm_event unit)) : ngx_rtc_hsm nat Z (list Z) :=
  set_user_data (Ref (match user_data sm with Ref l => l | NULL => [] end ++ [a])) sm.

Definition demo_sm (size : Z) : ngx_rtc_hsm nat Z (list Z) :=
  {| current_state := Ref 3%nat; initial_state := NULL; user_data := Ref [];
     unhandled_event_hook := NULL; entry_path_buffer := Ref [NULL; NULL; NULL];
     buffer_size := size |}.

Definition demo_lvl (s : nat) : nat :=
  match s with 0%nat => 0%nat | 1%nat | 2%nat => 1%nat | _ => 2%nat end.

Lemma transition_exits_then_enters_witness :
  (exists b, hsm_perform_transition demo_obj demo_act 4 (demo_sm 2) (Ref 4%nat) NULL
    = Ret (true, demo_sm 2 |> set_entry_path_buffer b |> set_current_state (Ref 4%nat)
                   |> set_user_data (Ref [-3; -1; 2; 4]))) /\
  exists r b', is_lca demo_obj 4 (Ref 3%nat) (Ref 4%nat) r /\
    let exits := below (anc demo_obj 4 (Ref 3%nat)) r in
    let enters := below (anc demo_obj 4 (Ref 4%nat)) r in
    hsm_perform_transition demo_obj demo_act 4 (demo_sm 1) (Ref 4%nat) NULL
    = if zlen enters <=? buffer_size (demo_sm 1) then
        Ret (true, demo_sm 1 |> set_entry_path_buffer (Ref b')
                      |> run_actions demo_obj demo_act exit_action NULL exits
                      |> set_current_state (Ref 4%nat)
                      |> run_actions demo_obj demo_act entry_action NULL (rev enters))
      else Ret (false, set_entry_path_buffer (Ref b') (demo_sm 1)).
Proof.
  split; [eexists; vm_compute; reflexivity |].
  apply (transition_exits_then_enters demo_obj demo_act 4 demo_lvl)
    with (b := [NULL; NULL; NULL]); try done.
  - split; [| intros [| [| [| s]]]; simpl; lia].
    intros [| [| [| [| s]]]] t [= <-]; simpl; lia.
  - intros [| [| [| [| u]]]]; simpl; lia.
Defined.
End Hsm.
