(* ===== verification/SessionFsm.v ===== *)
(** The session lifecycle machine of src/ngx_rtc_session_fsm.{h,c}: its transition
    tables, guards and wrappers, run on the engine of [Hsm].  The theorems show
    that the table-driven machine is the flat lifecycle automaton the header
    documents, and what that automaton guarantees about SRTP_READY and CLOSED. *)

From Stdlib Require Import String.
From stdpp Require Import sets.
From S2P Require Import Prelude Hsm.
Import Hsm.

Module SessionFsm.

Inductive session_object :=
| s_session_top
| s_session_new
| s_session_ice_bound
| s_session_dtls_handshake
| s_session_srtp_ready
| s_session_closed.

#[global] Instance session_object_eq_dec : EqDecision session_object.
Proof. solve_decision. Defined.

Inductive session_guard := s_session_binding_guard | s_session_dtls_guard.

Record ngx_rtc_session_fsm_ctx_t := { conn : ptr unit; data : ptr octets; len : Z }.

Definition NGX_RTC_SESSION_DTLS_RECORD_MIN : Z := 13.
Definition NGX_RTC_SESSION_DTLS_TYPE_MIN : Z := 20.
Definition NGX_RTC_SESSION_DTLS_TYPE_MAX : Z := 63.

Inductive ngx_rtc_session_event_t :=
| NGX_RTC_SESSION_EVT_STUN_BINDING
| NGX_RTC_SESSION_EVT_DTLS_PACKET
| NGX_RTC_SESSION_EVT_DTLS_HANDSHAKE_DONE
| NGX_RTC_SESSION_EVT_SRTP_READY
| NGX_RTC_SESSION_EVT_TIMEOUT
| NGX_RTC_SESSION_EVT_CLOSE
| NGX_RTC_SESSION_EVT_RTCP_BYE.

Definition evt (e : ngx_rtc_session_event_t) : Z :=
  match e with
  | NGX_RTC_SESSION_EVT_STUN_BINDING => 1
  | NGX_RTC_SESSION_EVT_DTLS_PACKET => 2
  | NGX_RTC_SESSION_EVT_DTLS_HANDSHAKE_DONE => 3
  | NGX_RTC_SESSION_EVT_SRTP_READY => 4
  | NGX_RTC_SESSION_EVT_TIMEOUT => 16
  | NGX_RTC_SESSION_EVT_CLOSE => 32
  | NGX_RTC_SESSION_EVT_RTCP_BYE => 48
  end.

Inductive ngx_rtc_session_state_t :=
| NGX_RTC_SESSION_STATE_UNKNOWN
| NGX_RTC_SESSION_STATE_NEW
| NGX_RTC_SESSION_STATE_ICE_BOUND
| NGX_RTC_SESSION_STATE_DTLS_HANDSHAKE
| NGX_RTC_SESSION_STATE_SRTP_READY
| NGX_RTC_SESSION_STATE_CLOSED.

#[global] Instance session_state_eq_dec : EqDecision ngx_rtc_session_state_t.
Proof. solve_decision. Defined.

Section machine.
(** [Hook] names the reporter functions, [Session] the opaque session. *)
Context {Hook Session : Type}.

#[local] Abbreviation ctx_t := ngx_rtc_session_fsm_ctx_t.
#[local] Abbreviation machine := (ngx_rtc_hsm session_object Hook Session).
#[local] Abbreviation event := (ngx_rtc_hsm_event ctx_t).

Context (report : Hook -> machine -> ptr event -> machine).

Definition binding_guard (sm : machine) (ev : event) : outcome bool :=
  match context ev with
  | NULL => Ret true
  | Ref ctx => Ret (negb (is_null (conn ctx)))
  end.

Definition dtls_guard (sm : machine) (ev : event) : outcome bool :=
  match context ev with
  | NULL => Ret true
  | Ref ctx =>
      match data ctx with
      | NULL => Ret false
      | Ref d =>
          if len ctx <? NGX_RTC_SESSION_DTLS_RECORD_MIN then Ret false
          else
            b ← load d 0;
            Ret ((NGX_RTC_SESSION_DTLS_TYPE_MIN <=? b)
                 && (b <=? NGX_RTC_SESSION_DTLS_TYPE_MAX))
      end
  end.

Definition call_guard (g : session_guard) : machine -> event -> outcome bool :=
  match g with
  | s_session_binding_guard => binding_guard
  | s_session_dtls_guard => dtls_guard
  end.

#[local] Abbreviation transition := (ngx_rtc_hsm_transition session_object Hook session_guard).

Definition external (e : ngx_rtc_session_event_t) (t : session_object)
    (g : ptr session_guard) : transition :=
  {| event_id := evt e; target := Ref t; guard := g; action := NULL;
     type := NGX_RTC_HSM_TRANSITION_EXTERNAL |}.

Definition internal (e : ngx_rtc_session_event_t) (g : ptr session_guard)
    : transition :=
  {| event_id := evt e; target := NULL; guard := g; action := NULL;
     type := NGX_RTC_HSM_TRANSITION_INTERNAL |}.

Definition s_session_top_transitions : list transition :=
  [external NGX_RTC_SESSION_EVT_CLOSE s_session_closed NULL;
   external NGX_RTC_SESSION_EVT_TIMEOUT s_session_closed NULL;
   external NGX_RTC_SESSION_EVT_RTCP_BYE s_session_closed NULL].

Definition s_session_new_transitions : list transition :=
  [external NGX_RTC_SESSION_EVT_STUN_BINDING s_session_ice_bound
     (Ref s_session_binding_guard)].

Definition s_session_ice_bound_transitions : list transition :=
  [internal NGX_RTC_SESSION_EVT_STUN_BINDING (Ref s_session_binding_guard);
   external NGX_RTC_SESSION_EVT_DTLS_PACKET s_session_dtls_handshake
     (Ref s_session_dtls_guard)].

Definition s_session_dtls_handshake_transitions : list transition :=
  [external NGX_RTC_SESSION_EVT_DTLS_HANDSHAKE_DONE s_session_srtp_ready NULL;
   external NGX_RTC_SESSION_EVT_SRTP_READY s_session_srtp_ready NULL;
   internal NGX_RTC_SESSION_EVT_STUN_BINDING (Ref s_session_binding_guard)].

Definition s_session_srtp_ready_transitions : list transition :=
  [internal NGX_RTC_SESSION_EVT_SRTP_READY NULL;
   internal NGX_RTC_SESSION_EVT_STUN_BINDING (Ref s_session_binding_guard)].

Definition s_session_closed_transitions : list transition :=
  [internal NGX_RTC_SESSION_EVT_CLOSE NULL;
   internal NGX_RTC_SESSION_EVT_TIMEOUT NULL;
   internal NGX_RTC_SESSION_EVT_RTCP_BYE NULL].

Definition session_obj (s : session_object)
    : ngx_rtc_hsm_state session_object Hook session_guard :=
  match s with
  | s_session_top =>
      {| parent := NULL; entry_action := NULL; exit_action := NULL;
         transitions := s_session_top_transitions; name := Ref "SESSION"%string |}
  | s_session_new =>
      {| parent := Ref s_session_top; entry_action := NULL; exit_action := NULL;
         transitions := s_session_new_transitions; name := Ref "NEW"%string |}
  | s_session_ice_bound =>
      {| parent := Ref s_session_top; entry_action := NULL; exit_action := NULL;
         transitions := s_session_ice_bound_transitions;
         name := Ref "ICE_BOUND"%string |}
  | s_session_dtls_handshake =>
      {| parent := Ref s_session_top; entry_action := NULL; exit_action := NULL;
         transitions := s_session_dtls_handshake_transitions;
         name := Ref "DTLS_HANDSHAKE"%string |}
  | s_session_srtp_ready =>
      {| parent := Ref s_session_top; entry_action := NULL; exit_action := NULL;
         transitions := s_session_srtp_ready_transitions;
         name := Ref "SRTP_READY"%string |}
  | s_session_closed =>
      {| parent := Ref s_session_top; entry_action := NULL; exit_action := NULL;
         transitions := s_session_closed_transitions; name := Ref "CLOSED"%string |}
  end.

(** Twice the depth of the hierarchy bounds every walk. *)
Definition fsm_fuel : nat := 4.

Definition ngx_rtc_session_fsm_init (sm : ptr machine)
    (path_buf : ptr (list (ptr session_object))) (path_buf_size : Z)
    (sess : ptr Session) : outcome (ptr machine) :=
  ngx_rtc_hsm_init session_obj report fsm_fuel sm (Ref s_session_new) path_buf
    path_buf_size sess NULL.

Definition ngx_rtc_session_fsm_deinit (sm : ptr machine) : ptr machine :=
  ngx_rtc_hsm_deinit sm.

Definition ngx_rtc_session_fsm_dispatch_ctx (sm : ptr machine)
    (e : ngx_rtc_session_event_t) (ctx : ptr ctx_t)
    : outcome (bool * ptr machine) :=
  match sm with
  | NULL => Ret (false, sm)
  | Ref _ =>
      ngx_rtc_hsm_dispatch session_obj report call_guard fsm_fuel sm
        (Ref {| id := evt e; context := ctx |})
  end.

Definition ngx_rtc_session_fsm_dispatch (sm : ptr machine)
    (e : ngx_rtc_session_event_t) : outcome (bool * ptr machine) :=
  ngx_rtc_session_fsm_dispatch_ctx sm e NULL.

Definition in_state (sm : ptr machine) (s : session_object) : outcome bool :=
  ngx_rtc_hsm_is_in_state session_obj fsm_fuel sm (Ref s).

Definition ngx_rtc_session_fsm_dtls_pending (sm : ptr machine) : outcome bool :=
  match sm with
  | NULL => Ret false
  | Ref _ =>
      a ← in_state sm s_session_new;
      if (a : bool) then Ret true else in_state sm s_session_ice_bound
  end.

Definition ngx_rtc_session_fsm_get_state (sm : ptr machine)
    : outcome ngx_rtc_session_state_t :=
  match sm with
  | NULL => Ret NGX_RTC_SESSION_STATE_UNKNOWN
  | Ref _ =>
      a ← in_state sm s_session_srtp_ready;
      if (a : bool) then Ret NGX_RTC_SESSION_STATE_SRTP_READY else
      a ← in_state sm s_session_dtls_handshake;
      if (a : bool) then Ret NGX_RTC_SESSION_STATE_DTLS_HANDSHAKE else
      a ← in_state sm s_session_ice_bound;
      if (a : bool) then Ret NGX_RTC_SESSION_STATE_ICE_BOUND else
      a ← in_state sm s_session_closed;
      if (a : bool) then Ret NGX_RTC_SESSION_STATE_CLOSED else
      a ← in_state sm s_session_new;
      if (a : bool) then Ret NGX_RTC_SESSION_STATE_NEW else
      Ret NGX_RTC_SESSION_STATE_UNKNOWN
  end.

Definition ngx_rtc_session_fsm_get_state_name (sm : ptr machine) : string :=
  ngx_rtc_hsm_get_current_state_name session_obj sm.

Definition ngx_rtc_session_fsm_state_object (s : ngx_rtc_session_state_t)
    : ptr session_object :=
  match s with
  | NGX_RTC_SESSION_STATE_NEW => Ref s_session_new
  | NGX_RTC_SESSION_STATE_ICE_BOUND => Ref s_session_ice_bound
  | NGX_RTC_SESSION_STATE_DTLS_HANDSHAKE => Ref s_session_dtls_handshake
  | NGX_RTC_SESSION_STATE_SRTP_READY => Ref s_session_srtp_ready
  | NGX_RTC_SESSION_STATE_CLOSED => Ref s_session_closed
  | NGX_RTC_SESSION_STATE_UNKNOWN => NULL
  end.

Definition ngx_rtc_session_fsm_state_name (s : ngx_rtc_session_state_t) : string :=
  match ngx_rtc_session_fsm_state_object s with
  | NULL => "UNKNOWN"
  | Ref o => match name (session_obj o) with NULL => "" | Ref n => n end
  end.

Definition ngx_rtc_session_fsm_restore (sm : ptr machine)
    (s : ngx_rtc_session_state_t) : bool * ptr machine :=
  ngx_rtc_hsm_restore_state sm (ngx_rtc_session_fsm_state_object s).

Definition ngx_rtc_session_fsm_is_ready (sm : ptr machine) : outcome bool :=
  match sm with NULL => Ret false | Ref _ => in_state sm s_session_srtp_ready end.

Definition ngx_rtc_session_fsm_set_reporter (sm : ptr machine)
    (reporter : ptr Hook) : ptr machine :=
  match sm with
  | NULL => NULL
  | Ref m => Ref (set_unhandled_event_hook reporter m)
  end.

(** *** The flat lifecycle automaton *)

Definition close_class (e : ngx_rtc_session_event_t) : bool :=
  match e with
  | NGX_RTC_SESSION_EVT_TIMEOUT | NGX_RTC_SESSION_EVT_CLOSE
  | NGX_RTC_SESSION_EVT_RTCP_BYE => true
  | _ => false
  end.

(** The evidence the guards ask for; no context is "the caller checked". *)
Definition on_connection (ctx : ptr ctx_t) : bool :=
  match ctx with NULL => true | Ref c => negb (is_null (conn c)) end.

Definition dtls_record (ctx : ptr ctx_t) : bool :=
  match ctx with
  | NULL => true
  | Ref c =>
      match data c with
      | Ref (b :: _) => (13 <=? len c) && (20 <=? b) && (b <=? 63)
      | _ => false
      end
  end.

Definition ctx_wf (ctx : ptr ctx_t) : Prop :=
  match ctx with
  | Ref c => match data c with Ref d => len c <= zlen d | NULL => True end
  | NULL => True
  end.

(** Whether the event is consumed, and the next state. *)
Definition flat_step (q : ngx_rtc_session_state_t) (e : ngx_rtc_session_event_t)
    (ctx : ptr ctx_t) : bool * ngx_rtc_session_state_t :=
  if close_class e then (true, NGX_RTC_SESSION_STATE_CLOSED) else
  match e, q with
  | NGX_RTC_SESSION_EVT_STUN_BINDING, NGX_RTC_SESSION_STATE_CLOSED => (false, q)
  | NGX_RTC_SESSION_EVT_STUN_BINDING, NGX_RTC_SESSION_STATE_NEW =>
      if on_connection ctx then (true, NGX_RTC_SESSION_STATE_ICE_BOUND) else (false, q)
  | NGX_RTC_SESSION_EVT_STUN_BINDING, _ => (on_connection ctx, q)
  | NGX_RTC_SESSION_EVT_DTLS_PACKET, NGX_RTC_SESSION_STATE_ICE_BOUND =>
      if dtls_record ctx then (true, NGX_RTC_SESSION_STATE_DTLS_HANDSHAKE)
      else (false, q)
  | (NGX_RTC_SESSION_EVT_DTLS_HANDSHAKE_DONE | NGX_RTC_SESSION_EVT_SRTP_READY),
    NGX_RTC_SESSION_STATE_DTLS_HANDSHAKE => (true, NGX_RTC_SESSION_STATE_SRTP_READY)
  | NGX_RTC_SESSION_EVT_SRTP_READY, NGX_RTC_SESSION_STATE_SRTP_READY => (true, q)
  | _, _ => (false, q)
  end.

Definition fsm_rep (m : machine) (q : ngx_rtc_session_state_t) : Prop :=
  q <> NGX_RTC_SESSION_STATE_UNKNOWN /\
  current_state m = ngx_rtc_session_fsm_state_object q /\
  exists x b, entry_path_buffer m = Ref (x :: b) /\
    1 <= buffer_size m <= zlen (x :: b) /\ buffer_size m < 256.

(** The reporter logs: it leaves the position and the scratch buffer alone. *)
Definition reporter_logs : Prop :=
  forall h m ev q, fsm_rep m q -> fsm_rep (report h m ev) q.

Definition leaf (s : session_object) : Prop := s <> s_session_top.

(** Between leaves the common ancestor is the root and the path one state. *)
Lemma leaf_transition m s t ev x b :
  leaf s -> leaf t -> s <> t -> current_state m = Ref s ->
  entry_path_buffer m = Ref (x :: b) -> 1 <= buffer_size m ->
  hsm_perform_transition session_obj report fsm_fuel m (Ref t) ev
  = Ret (true, m |> set_entry_path_buffer (Ref (Ref t :: b))
                 |> set_current_state (Ref t)).
Proof.
  intros Hs Ht Hne Hc Hb Hsz. unfold leaf in *.
  assert (Hlca : hsm_find_lca (session_obj) fsm_fuel (Ref s) (Ref t)
    = Ret (Ref s_session_top)) by (destruct s, t; done).
  unfold hsm_perform_transition. rewrite Hc, decide_False by congruence.
  rewrite Hlca, bind_Ret.
  assert (Hpar : forall u, leaf u -> parent (session_obj u) = Ref s_session_top)
    by (intros []; done).
  unfold hsm_build_entry_path, fsm_fuel. simpl.
  rewrite !decide_False by congruence.
  destruct (Z.ltb_spec 0 (buffer_size m)); [| lia].
  rewrite Hb, store_head, bind_Ret, Hpar by done. simpl.
  assert (Hact : forall u, exit_action (session_obj u) = NULL /\
    entry_action (session_obj u) = NULL) by (intros []; done).
  rewrite (proj1 (Hact s)), Hpar by done. simpl.
  destruct (decide (Ref s = Ref s_session_top)); [congruence |].
  rewrite bind_Ret. change (u8 (0 + 1)) with 1.
  unfold hsm_execute_entry_actions. simpl. by rewrite (proj2 (Hact t)).
Qed.

(** One dispatch, by the table: consumed events move as the flat automaton
    does, the others reach the root unhandled. *)
Lemma bubble_flat m q e ctx :
  fsm_rep m q -> ctx_wf ctx ->
  exists m', hsm_bubble session_obj report call_guard fsm_fuel fsm_fuel m (current_state m)
      {| id := evt e; context := ctx |}
    = Ret (fst (flat_step q e ctx), m') /\
    unhandled_event_hook m' = unhandled_event_hook m /\
    user_data m' = user_data m /\
    fsm_rep m' (snd (flat_step q e ctx)).
Proof.
  intros (Hq & Hc & x & b & Hb & Hsz & H256) Hwf.
  assert (Hmove : forall s t q', leaf s -> leaf t -> s <> t ->
    current_state m = Ref s -> ngx_rtc_session_fsm_state_object q' = Ref t ->
    forall ev, exists m',
      hsm_perform_transition session_obj report fsm_fuel m (Ref t) ev
        = Ret (true, m') /\
      unhandled_event_hook m' = unhandled_event_hook m /\
      user_data m' = user_data m /\ fsm_rep m' q').
  { intros s t q' Hs Ht Hne Hcs Hq' ev. eexists.
    split; [apply (leaf_transition m s t ev x b); try done; lia |].
    split_and!; try done. split; [by intros -> |]. split; [done |].
    exists (Ref t), b. split_and!; try done; simpl; rewrite zlen_cons in *; lia. }
  assert (Hstay : fsm_rep m q) by (split_and!; eauto).
  assert (Hbg : forall ev, context ev = ctx ->
    binding_guard m ev = Ret (on_connection ctx)).
  { intros ev Hev. unfold binding_guard, on_connection. rewrite Hev. by destruct ctx. }
  assert (Hdg : forall ev, context ev = ctx -> dtls_guard m ev = Ret (dtls_record ctx)).
  { intros ev Hev. unfold dtls_guard, dtls_record. rewrite Hev.
    destruct ctx as [| c]; [done |]. simpl in Hwf. destruct (data c) as [| d]; [done |].
    unfold NGX_RTC_SESSION_DTLS_RECORD_MIN.
    destruct (Z.ltb_spec (len c) 13), (Z.leb_spec 13 (len c)), d as [| y d];
      try lia; try done. rewrite zlen_nil in Hwf. lia. }
  destruct q; [done |..]; simpl in Hc; rewrite Hc; destruct e; simpl;
    unfold hsm_process_state_transitions, flat_step; simpl;
    rewrite ?Hbg, ?Hdg by done; simpl;
    try (destruct (on_connection ctx)); try (destruct (dtls_record ctx)); simpl;
    unfold hsm_execute_transition; simpl.
  all: try (by exists m).
  all: match type of Hc with current_state _ = Ref ?s =>
       match goal with |- context [hsm_perform_transition _ _ _ _ (Ref ?t) ?ev] =>
       match goal with |- context [fsm_rep _ ?q'] =>
         destruct (Hmove s t q' ltac:(done) ltac:(done) ltac:(done) Hc eq_refl ev)
           as (m' & Hr & Hm');
         rewrite Hr; simpl; by exists m'
       end end end.
Qed.

Lemma dispatch_flat m q e ctx :
  reporter_logs -> fsm_rep m q -> ctx_wf ctx ->
  exists m', ngx_rtc_session_fsm_dispatch_ctx (Ref m) e ctx
      = Ret (fst (flat_step q e ctx), Ref m') /\
    fsm_rep m' (snd (flat_step q e ctx)).
Proof.
  intros Hlog Hrep Hwf.
  destruct (bubble_flat m q e ctx Hrep Hwf) as (m' & Hrun & Hh & _ & Hrep').
  unfold ngx_rtc_session_fsm_dispatch_ctx, ngx_rtc_hsm_dispatch.
  rewrite Hrun, bind_Ret. destruct (flat_step q e ctx) as [[] q'] eqn:Hf; simpl in *.
  - by exists m'.
  - eexists. split; [done |]. unfold call.
    destruct (unhandled_event_hook m'); [done | by apply Hlog].
Qed.

Lemma init_rep m0 x b size sess :
  1 <= size <= zlen (x :: b) -> size < 256 ->
  exists m, ngx_rtc_session_fsm_init (Ref m0) (Ref (x :: b)) size sess
    = Ret (Ref m) /\ fsm_rep m NGX_RTC_SESSION_STATE_NEW.
Proof.
  intros Hs H256. unfold ngx_rtc_session_fsm_init, ngx_rtc_hsm_init.
  destruct (Z.ltb_spec 0 size); [| lia]. eexists. split; [reflexivity |].
  split; [done |]. split; [done |]. exists x, b. split_and!; try done; simpl; lia.
Qed.

Lemma get_state_rep m q :
  fsm_rep m q -> ngx_rtc_session_fsm_get_state (Ref m) = Ret q.
Proof.
  intros (Hq & Hc & _). unfold ngx_rtc_session_fsm_get_state, in_state.
  unfold ngx_rtc_hsm_is_in_state. rewrite Hc. by destruct q.
Qed.

Lemma is_ready_rep m q :
  fsm_rep m q ->
  ngx_rtc_session_fsm_is_ready (Ref m)
    = Ret (bool_decide (q = NGX_RTC_SESSION_STATE_SRTP_READY)).
Proof.
  intros (Hq & Hc & _). unfold ngx_rtc_session_fsm_is_ready, in_state.
  unfold ngx_rtc_hsm_is_in_state. rewrite Hc. by destruct q.
Qed.

Lemma dtls_pending_rep m q :
  fsm_rep m q ->
  ngx_rtc_session_fsm_dtls_pending (Ref m)
    = Ret (bool_decide (q = NGX_RTC_SESSION_STATE_NEW \/
                        q = NGX_RTC_SESSION_STATE_ICE_BOUND)).
Proof.
  intros (Hq & Hc & _). unfold ngx_rtc_session_fsm_dtls_pending, in_state.
  unfold ngx_rtc_hsm_is_in_state. rewrite Hc. by destruct q.
Qed.

Lemma restore_rep m q q' :
  fsm_rep m q ->
  exists m', ngx_rtc_session_fsm_restore (Ref m) q'
    = (negb (bool_decide (q' = NGX_RTC_SESSION_STATE_UNKNOWN)), Ref m') /\
    fsm_rep m' (if decide (q' = NGX_RTC_SESSION_STATE_UNKNOWN) then q else q').
Proof.
  intros (Hq & Hc & x & b & Hb & Hs).
  destruct q'; eexists; (split; [reflexivity |]); split_and!; simpl; eauto; done.
Qed.

#[local] Arguments ngx_rtc_session_fsm_dispatch_ctx : simpl never.

(** *** Runs of the machine *)

Fixpoint run (m : ptr machine) (l : list (ngx_rtc_session_event_t * ptr ctx_t))
    : outcome (list bool * ptr machine) :=
  match l with
  | [] => Ret ([], m)
  | (e, ctx) :: l =>
      '(h, m) ← ngx_rtc_session_fsm_dispatch_ctx m e ctx;
      '(hs, m) ← run m l;
      Ret (h :: hs, m)
  end.

Fixpoint flat_run (q : ngx_rtc_session_state_t)
    (l : list (ngx_rtc_session_event_t * ptr ctx_t))
    : list bool * ngx_rtc_session_state_t :=
  match l with
  | [] => ([], q)
  | (e, ctx) :: l =>
      let '(h, q) := flat_step q e ctx in
      let '(hs, q) := flat_run q l in (h :: hs, q)
  end.

Lemma run_flat l : forall m q,
  reporter_logs -> fsm_rep m q -> Forall (fun p => ctx_wf (snd p)) l ->
  exists m', run (Ref m) l = Ret (fst (flat_run q l), Ref m') /\
    fsm_rep m' (snd (flat_run q l)).
Proof.
  induction l as [| [e ctx] l IH]; intros m q Hlog Hrep Hwf; [by exists m |].
  apply Forall_cons_1 in Hwf as [Hw Hwf].
  destruct (dispatch_flat m q e ctx) as (m1 & Hr1 & Hrep1); try done.
  simpl run. rewrite Hr1, bind_Ret. simpl flat_run.
  destruct (flat_step q e ctx) as [h q1]. simpl in *.
  destruct (IH m1 q1) as (m2 & -> & Hrep2); try done. rewrite bind_Ret.
  exists m2. by destruct (flat_run q1 l).
Qed.
End machine.

(** *** What the automaton guarantees *)

Lemma run_from_init {Hook Session}
    (report : Hook -> ngx_rtc_hsm session_object Hook Session ->
              ptr (ngx_rtc_hsm_event ngx_rtc_session_fsm_ctx_t) ->
              ngx_rtc_hsm session_object Hook Session) m0 x b size sess l :
  reporter_logs report -> 1 <= size <= zlen (x :: b) -> size < 256 ->
  Forall (fun p => ctx_wf (snd p)) l ->
  exists m m', ngx_rtc_session_fsm_init report (Ref m0) (Ref (x :: b)) size sess
      = Ret (Ref m) /\
    run report (Ref m) l
      = Ret (fst (flat_run NGX_RTC_SESSION_STATE_NEW l), Ref m') /\
    fsm_rep m' (snd (flat_run NGX_RTC_SESSION_STATE_NEW l)).
Proof.
  intros Hlog Hs H256 Hwf.
  destruct (init_rep report m0 x b size sess) as (m & Hi & Hrep); [done.. |].
  destruct (run_flat report l m NGX_RTC_SESSION_STATE_NEW) as (m' & Hr & Hrep');
    [done.. |].
  by exists m, m'.
Qed.

Lemma flat_run_app q l k :
  snd (flat_run q (l ++ k)) = snd (flat_run (snd (flat_run q l)) k).
Proof.
  revert q. induction l as [| [e ctx] l IH]; intros q; [done |]. simpl.
  destruct (flat_step q e ctx) as [h q1]. specialize (IH q1).
  destruct (flat_run q1 (l ++ k)), (flat_run q1 l). done.
Qed.

Lemma flat_run_snoc q l e ctx :
  snd (flat_run q (l ++ [(e, ctx)])) = snd (flat_step (snd (flat_run q l)) e ctx).
Proof.
  rewrite flat_run_app. simpl. by destruct (flat_step (snd (flat_run q l)) e ctx).
Qed.

Definition is_binding (p : ngx_rtc_session_event_t * ptr ngx_rtc_session_fsm_ctx_t)
    : Prop :=
  fst p = NGX_RTC_SESSION_EVT_STUN_BINDING /\ on_connection (snd p) = true.
Definition is_dtls (p : ngx_rtc_session_event_t * ptr ngx_rtc_session_fsm_ctx_t)
    : Prop :=
  fst p = NGX_RTC_SESSION_EVT_DTLS_PACKET /\ dtls_record (snd p) = true.
Definition is_keyed (p : ngx_rtc_session_event_t * ptr ngx_rtc_session_fsm_ctx_t)
    : Prop :=
  fst p = NGX_RTC_SESSION_EVT_DTLS_HANDSHAKE_DONE \/
  fst p = NGX_RTC_SESSION_EVT_SRTP_READY.

(** The events [ps] hold of entries of [l] in this order. *)
Fixpoint in_turn {A} (ps : list (A -> Prop)) (l : list A) : Prop :=
  match ps with
  | [] => True
  | p :: ps => exists l1 x l2, l = l1 ++ x :: l2 /\ p x /\ in_turn ps l2
  end.

Lemma in_turn_app {A} (ps : list (A -> Prop)) : forall l k,
  in_turn ps l -> in_turn ps (l ++ k).
Proof.
  induction ps as [| p ps IH]; intros l k; [done |].
  intros (l1 & x & l2 & -> & Hp & Hl). exists l1, x, (l2 ++ k).
  rewrite <- app_assoc. by split_and!; auto.
Qed.

Lemma in_turn_snoc {A} (ps : list (A -> Prop)) (p : A -> Prop) x : forall l,
  in_turn ps l -> p x -> in_turn (ps ++ [p]) (l ++ [x]).
Proof.
  induction ps as [| p' ps IH]; intros l Hl Hx.
  - by exists l, x, [].
  - destruct Hl as (l1 & y & l2 & -> & Hy & Hl). exists l1, y, (l2 ++ [x]).
    rewrite <- app_assoc. by split_and!; auto.
Qed.

(** The evidence each state stands for. *)
Definition needed (q : ngx_rtc_session_state_t) :=
  match q with
  | NGX_RTC_SESSION_STATE_ICE_BOUND => [is_binding]
  | NGX_RTC_SESSION_STATE_DTLS_HANDSHAKE => [is_binding; is_dtls]
  | NGX_RTC_SESSION_STATE_SRTP_READY => [is_binding; is_dtls; is_keyed]
  | _ => []
  end.

Lemma flat_evidence l :
  let q := snd (flat_run NGX_RTC_SESSION_STATE_NEW l) in
  in_turn (needed q) l /\
  (q <> NGX_RTC_SESSION_STATE_CLOSED <-> Forall (fun p => close_class (fst p) = false) l).
Proof.
  induction l as [| [e ctx] l [IH1 IH2]] using rev_ind; [simpl; by rewrite Forall_nil |].
  cbv zeta in *. rewrite flat_run_snoc. set (q := snd (flat_run _ l)) in *.
  rewrite Forall_app, Forall_singleton, <- IH2. cbn [fst].
  pose proof (in_turn_snoc (needed q)) as Hsnoc.
  pose proof (in_turn_app (needed q) l [(e, ctx)] IH1) as Happ.
  split.
  - unfold flat_step. destruct (close_class e); [done |].
    destruct e, q; simpl; try exact Happ; try done;
      try (by destruct (on_connection ctx)).
    + destruct (on_connection ctx) eqn:Hc; [| done].
      by apply (Hsnoc is_binding (NGX_RTC_SESSION_EVT_STUN_BINDING, ctx) l).
    + destruct (dtls_record ctx) eqn:Hc; [| exact Happ].
      by apply (Hsnoc is_dtls (NGX_RTC_SESSION_EVT_DTLS_PACKET, ctx) l).
    + apply (Hsnoc is_keyed (NGX_RTC_SESSION_EVT_DTLS_HANDSHAKE_DONE, ctx) l); [done |].
      by left.
    + apply (Hsnoc is_keyed (NGX_RTC_SESSION_EVT_SRTP_READY, ctx) l); [done |].
      by right.
  - unfold flat_step. destruct (close_class e) eqn:He; simpl.
    { split; [done | by intros [_ ?]]. }
    destruct e, q; simpl; try done;
      try (destruct (on_connection ctx)); try (destruct (dtls_record ctx)); simpl;
      clear; intuition congruence.
Qed.

(** C13: driven through its transition tables by the engine, the session machine
    is the flat lifecycle automaton: every dispatch is handled or reported
    exactly as [flat_step] says, and the state query, the readiness poll and
    the DTLS-pending poll all agree with the automaton's state, after every
    sequence of events and whatever evidence they carry. *)
Theorem session_machine_is_flat {Hook Session}
    (report : Hook -> ngx_rtc_hsm session_object Hook Session ->
              ptr (ngx_rtc_hsm_event ngx_rtc_session_fsm_ctx_t) ->
              ngx_rtc_hsm session_object Hook Session) m0 x b size sess l :
  reporter_logs report -> 1 <= size <= zlen (x :: b) -> size < 256 ->
  Forall (fun p => ctx_wf (snd p)) l ->
  let '(hs, q) := flat_run NGX_RTC_SESSION_STATE_NEW l in
  exists m m', ngx_rtc_session_fsm_init report (Ref m0) (Ref (x :: b)) size sess
      = Ret (Ref m) /\
    run report (Ref m) l = Ret (hs, Ref m') /\
    ngx_rtc_session_fsm_get_state (Ref m') = Ret q /\
    ngx_rtc_session_fsm_is_ready (Ref m')
      = Ret (bool_decide (q = NGX_RTC_SESSION_STATE_SRTP_READY)) /\
    ngx_rtc_session_fsm_dtls_pending (Ref m')
      = Ret (bool_decide (q = NGX_RTC_SESSION_STATE_NEW \/
                          q = NGX_RTC_SESSION_STATE_ICE_BOUND)).
Proof.
  intros Hlog Hs H256 Hwf.
  destruct (run_from_init report m0 x b size sess l) as (m & m' & Hi & Hr & Hrep);
    [done.. |].
  destruct (flat_run _ l) as [hs q]. exists m, m'.
  by rewrite (get_state_rep _ _ Hrep), (is_ready_rep _ _ Hrep),
    (dtls_pending_rep _ _ Hrep).
Qed.

Definition quiet (_ : unit) (m : ngx_rtc_hsm session_object unit unit)
    (_ : ptr (ngx_rtc_hsm_event ngx_rtc_session_fsm_ctx_t)) := m.

Definition blank : ngx_rtc_hsm session_object unit unit :=
  {| current_state := NULL; initial_state := NULL; user_data := NULL;
     unhandled_event_hook := NULL; entry_path_buffer := NULL; buffer_size := 0 |}.

Definition stun_on (c : ptr unit) : ptr ngx_rtc_session_fsm_ctx_t :=
  Ref {| conn := c; data := NULL; len := 0 |}.

Definition datagram (first : Z) : ptr ngx_rtc_session_fsm_ctx_t :=
  Ref {| conn := NULL; data := Ref (first :: zeros 12); len := 13 |}.

Definition demo_events :=
  [(NGX_RTC_SESSION_EVT_DTLS_PACKET, datagram 22);
   (NGX_RTC_SESSION_EVT_STUN_BINDING, stun_on NULL);
   (NGX_RTC_SESSION_EVT_STUN_BINDING, stun_on (Ref tt));
   (NGX_RTC_SESSION_EVT_DTLS_PACKET, datagram 128);
   (NGX_RTC_SESSION_EVT_DTLS_PACKET, datagram 22);
   (NGX_RTC_SESSION_EVT_DTLS_HANDSHAKE_DONE, NULL)].

Lemma session_machine_is_flat_witness :
  flat_run NGX_RTC_SESSION_STATE_NEW demo_events
    = ([false; false; true; false; true; true], NGX_RTC_SESSION_STATE_SRTP_READY) /\
  exists m m', ngx_rtc_session_fsm_init quiet (Ref blank) (Ref [NULL; NULL]) 2 NULL
      = Ret (Ref m) /\
    run quiet (Ref m) demo_events
      = Ret ([false; false; true; false; true; true], Ref m') /\
    ngx_rtc_session_fsm_get_state (Ref m') = Ret NGX_RTC_SESSION_STATE_SRTP_READY /\
    ngx_rtc_session_fsm_is_ready (Ref m') = Ret true /\
    ngx_rtc_session_fsm_dtls_pending (Ref m') = Ret false.
Proof.
  split; [vm_compute; reflexivity |].
  apply (session_machine_is_flat quiet blank NULL [NULL] 2 NULL demo_events).
  - intros h m ev q Hm. exact Hm.
  - vm_compute. split; discriminate.
  - lia.
  - repeat (constructor; [vm_compute; exact I || discriminate |]); constructor.
Defined.

(** A session reports SRTP_READY only after, in this order, a STUN binding on
    a connection, a well-formed DTLS record and the end of the handshake, and
    with no close, timeout or BYE before: the media gate cannot open early and
    cannot reopen. *)
Theorem session_ready_evidence {Hook Session}
    (report : Hook -> ngx_rtc_hsm session_object Hook Session ->
              ptr (ngx_rtc_hsm_event ngx_rtc_session_fsm_ctx_t) ->
              ngx_rtc_hsm session_object Hook Session) m0 x b size sess l m hs m' :
  reporter_logs report -> 1 <= size <= zlen (x :: b) -> size < 256 ->
  Forall (fun p => ctx_wf (snd p)) l ->
  ngx_rtc_session_fsm_init report (Ref m0) (Ref (x :: b)) size sess = Ret (Ref m) ->
  run report (Ref m) l = Ret (hs, m') ->
  ngx_rtc_session_fsm_is_ready m' = Ret true ->
  in_turn [is_binding; is_dtls; is_keyed] l /\
  Forall (fun p => close_class (fst p) = false) l.
Proof.
  intros Hlog Hs H256 Hwf Hi Hr Hready.
  destruct (run_from_init report m0 x b size sess l) as (m1 & m2 & Hi' & Hr' & Hrep);
    [done.. |].
  rewrite Hi in Hi'. injection Hi' as <-. rewrite Hr in Hr'. injection Hr' as -> ->.
  rewrite (is_ready_rep _ _ Hrep) in Hready. injection Hready as Hq%bool_decide_eq_true.
  destruct (flat_evidence l) as [H1 H2]. rewrite Hq in *. split; [exact H1 |].
  by apply H2.
Qed.

Lemma session_ready_evidence_witness :
  in_turn [is_binding; is_dtls; is_keyed] demo_events /\
  Forall (fun p => close_class (fst p) = false) demo_events.
Proof.
  eapply (session_ready_evidence quiet blank NULL [NULL] 2 NULL demo_events).
  - intros h m ev q Hm. exact Hm.
  - vm_compute. split; discriminate.
  - lia.
  - repeat (constructor; [vm_compute; exact I || discriminate |]); constructor.
  - vm_compute. reflexivity.
  - vm_compute. reflexivity.
  - vm_compute. reflexivity.
Defined.

(** A session is CLOSED exactly when some CLOSE, TIMEOUT or RTCP_BYE arrived:
    each closes it from whatever state it is in, and no later event moves a
    closed session. *)
Theorem session_closed_iff {Hook Session}
    (report : Hook -> ngx_rtc_hsm session_object Hook Session ->
              ptr (ngx_rtc_hsm_event ngx_rtc_session_fsm_ctx_t) ->
              ngx_rtc_hsm session_object Hook Session) m0 x b size sess l m hs m' :
  reporter_logs report -> 1 <= size <= zlen (x :: b) -> size < 256 ->
  Forall (fun p => ctx_wf (snd p)) l ->
  ngx_rtc_session_fsm_init report (Ref m0) (Ref (x :: b)) size sess = Ret (Ref m) ->
  run report (Ref m) l = Ret (hs, m') ->
  ngx_rtc_session_fsm_get_state m' = Ret NGX_RTC_SESSION_STATE_CLOSED <->
  Exists (fun p => close_class (fst p) = true) l.
Proof.
  intros Hlog Hs H256 Hwf Hi Hr.
  destruct (run_from_init report m0 x b size sess l) as (m1 & m2 & Hi' & Hr' & Hrep);
    [done.. |].
  rewrite Hi in Hi'. injection Hi' as <-. rewrite Hr in Hr'. injection Hr' as -> ->.
  rewrite (get_state_rep _ _ Hrep). destruct (flat_evidence l) as [_ H2].
  destruct (decide (snd (flat_run NGX_RTC_SESSION_STATE_NEW l)
    = NGX_RTC_SESSION_STATE_CLOSED)) as [Hq | Hq].
  - rewrite Hq. split; [intros _ | done].
    destruct (decide (Forall (fun p => close_class (fst p) = false) l)) as [Hf | Hf].
    { by apply H2 in Hf. }
    apply not_Forall_Exists in Hf; [| apply _]. eapply Exists_impl; [exact Hf |].
    intros p Hp. simpl in Hp. by destruct (close_class (fst p)).
  - split; [intros [= ?]; done |]. apply H2 in Hq. intros Hex.
    apply Exists_exists in Hex as (p & Hp & Hc).
    rewrite Forall_forall in Hq. rewrite Hq in Hc by done. done.
Qed.

Lemma session_closed_iff_witness :
  let l := demo_events ++ [(NGX_RTC_SESSION_EVT_RTCP_BYE, NULL);
                           (NGX_RTC_SESSION_EVT_SRTP_READY, NULL)] in
  exists m hs m',
    ngx_rtc_session_fsm_init quiet (Ref blank) (Ref [NULL; NULL]) 2 NULL
      = Ret (Ref m) /\
    run quiet (Ref m) l = Ret (hs, m') /\
    (ngx_rtc_session_fsm_get_state m' = Ret NGX_RTC_SESSION_STATE_CLOSED <->
     Exists (fun p => close_class (fst p) = true) l).
Proof.
  eexists _, _, _. split; [vm_compute; reflexivity |].
  split; [vm_compute; reflexivity |].
  eapply (session_closed_iff quiet blank NULL [NULL] 2 NULL).
  - intros h m ev q Hm. exact Hm.
  - vm_compute. split; discriminate.
  - lia.
  - repeat (constructor; [vm_compute; exact I || discriminate |]); constructor.
  - vm_compute. reflexivity.
  - vm_compute. reflexivity.
Defined.
End SessionFsm.
