(* ===== verification/Avsync.v ===== *)
(** The Sender Report clock mapping of src/ngx_rtc_avsync.{h,c}: two accepted
    reports anchor the line from RTP to NTP time.  The theorems: the mapping is
    the exact line through both anchors, the anchors are reports that arrived, and
    the reference anchor never moves back in time. *)

From S2P Require Import Prelude.

Module Avsync.

Record ngx_rtc_avsync_t := {
  has_anchor : Z;
  has_slope : Z;
  ntp_cur : Z;
  rtp_cur : Z;
  ntp_prev : Z;
  rtp_prev : Z;
  slope_num : Z;
  slope_den : Z
}.

Definition eta (s : ngx_rtc_avsync_t) : ngx_rtc_avsync_t :=
  {| has_anchor := has_anchor s; has_slope := has_slope s; ntp_cur := ntp_cur s;
     rtp_cur := rtp_cur s; ntp_prev := ntp_prev s; rtp_prev := rtp_prev s;
     slope_num := slope_num s; slope_den := slope_den s |}.
Definition set_has_anchor := ltac:(setter eta has_anchor).
Definition set_ntp_cur := ltac:(setter eta ntp_cur).
Definition set_rtp_cur := ltac:(setter eta rtp_cur).

Definition ngx_rtc_avsync_rtp_delta (a b : Z) : Z := s32 (a - b).

Definition ngx_rtc_avsync_calibrate (s : ngx_rtc_avsync_t)
    (np rp nc rc drtp : Z) : ngx_rtc_avsync_t :=
  {| has_anchor := has_anchor s; has_slope := 1; ntp_cur := nc; rtp_cur := rc;
     ntp_prev := np; rtp_prev := rp; slope_num := u64 (nc - np); slope_den := drtp |}.

Definition ngx_rtc_avsync_init (s : ptr ngx_rtc_avsync_t) : ptr ngx_rtc_avsync_t :=
  match s with
  | NULL => NULL
  | Ref _ => Ref {| has_anchor := 0; has_slope := 0; ntp_cur := 0; rtp_cur := 0;
                    ntp_prev := 0; rtp_prev := 0; slope_num := 0; slope_den := 0 |}
  end.

Definition ngx_rtc_avsync_on_sr (s : ptr ngx_rtc_avsync_t) (ntp rtp_ts : Z)
    : Z * ptr ngx_rtc_avsync_t :=
  match s with
  | NULL => (NGX_RTC_ERR_INVALID, s)
  | Ref s =>
      if has_anchor s =? 0 then
        (NGX_RTC_AGAIN, Ref (s |> set_ntp_cur ntp |> set_rtp_cur rtp_ts
                               |> set_has_anchor 1))
      else if ntp =? ntp_cur s then (NGX_RTC_OK, Ref s)
      else if ntp <? ntp_cur s then
        let drtp := ngx_rtc_avsync_rtp_delta (rtp_cur s) rtp_ts in
        if drtp <=? 0 then (NGX_RTC_OK, Ref s)
        else (NGX_RTC_OK, Ref (ngx_rtc_avsync_calibrate s ntp rtp_ts (ntp_cur s)
                                 (rtp_cur s) (u32 drtp)))
      else
        let drtp := ngx_rtc_avsync_rtp_delta rtp_ts (rtp_cur s) in
        if drtp <=? 0 then (NGX_RTC_OK, Ref s)
        else (NGX_RTC_OK, Ref (ngx_rtc_avsync_calibrate s (ntp_cur s) (rtp_cur s)
                                 ntp rtp_ts (u32 drtp)))
  end.

(** The product is a 128-bit one and the quotient is truncated to 64 bits; division
    by zero is a [Fault].  [ntp_out] is returned as the callee leaves it. *)
Definition ngx_rtc_avsync_map_rtp_to_wall (s : ptr ngx_rtc_avsync_t) (rtp_ts : Z)
    (ntp_out : ptr Z) : outcome (Z * ptr Z) :=
  match s, ntp_out with
  | Ref s, Ref _ =>
      if has_slope s =? 0 then Ret (NGX_RTC_AGAIN, ntp_out)
      else
        let delta := ngx_rtc_avsync_rtp_delta rtp_ts (rtp_cur s) in
        if slope_den s =? 0 then Fault
        else if 0 <=? delta then
          let ntp_delta := u64 ((delta * slope_num s) mod 2 ^ 128 / slope_den s) in
          Ret (NGX_RTC_OK, Ref (u64 (ntp_cur s + ntp_delta)))
        else
          let ntp_delta := u64 ((- delta * slope_num s) mod 2 ^ 128 / slope_den s) in
          Ret (NGX_RTC_OK, Ref (u64 (ntp_cur s - ntp_delta)))
  | _, _ => Ret (NGX_RTC_ERR_INVALID, ntp_out)
  end.

#[global] Arguments ngx_rtc_avsync_on_sr : simpl never.

(** *** The anchors *)

(** [reports] are the (ntp, rtp) pairs that arrived. *)
Record anchored (reports : list (Z * Z)) (s : ngx_rtc_avsync_t) : Prop := {
  anc_cur : has_anchor s <> 0 -> (ntp_cur s, rtp_cur s) ∈ reports;
  anc_ranges : is_u64 (ntp_cur s) /\ is_u32 (rtp_cur s);
  anc_none : has_anchor s = 0 -> has_slope s = 0;
  anc_prev : has_slope s <> 0 ->
    (ntp_prev s, rtp_prev s) ∈ reports /\
    0 <= ntp_prev s < ntp_cur s /\ is_u32 (rtp_prev s) /\
    0 < ngx_rtc_avsync_rtp_delta (rtp_cur s) (rtp_prev s) /\
    slope_num s = ntp_cur s - ntp_prev s /\
    slope_den s = ngx_rtc_avsync_rtp_delta (rtp_cur s) (rtp_prev s)
}.

Definition report_ok (p : Z * Z) : Prop := is_u64 (fst p) /\ is_u32 (snd p).

Lemma anchored_on_sr reports s ntp rtp :
  anchored reports s -> report_ok (ntp, rtp) -> (ntp, rtp) ∈ reports ->
  exists rc s', ngx_rtc_avsync_on_sr (Ref s) ntp rtp = (rc, Ref s') /\
    anchored reports s' /\ (has_anchor s <> 0 -> ntp_cur s <= ntp_cur s') /\
    has_anchor s' <> 0.
Proof.
  intros [Hcur [Hr1 Hr2] Hnone Hprev] [Hn Hr] Hin. cbn [fst snd] in *.
  unfold ngx_rtc_avsync_on_sr.
  destruct (Z.eqb_spec (has_anchor s) 0) as [Ha | Ha].
  { eexists _, _. split; [done |]. split; [| split; [done | done]].
    constructor; simpl; try done. intros Hs. by specialize (Hnone Ha). }
  destruct (Z.eqb_spec ntp (ntp_cur s)) as [He | He].
  { eexists _, _. split; [done |]. split; [by constructor | done]. }
  specialize (Hcur Ha).
  destruct (Z.ltb_spec ntp (ntp_cur s)) as [Hlt | Hge].
  - destruct (Z.leb_spec (ngx_rtc_avsync_rtp_delta (rtp_cur s) rtp) 0) as [Hd | Hd].
    { eexists _, _. split; [done |]. split; [by constructor | done]. }
    eexists _, _. split; [done |]. split; [| split; [simpl; lia | done]].
    constructor; simpl; try done. intros _. unfold ngx_rtc_avsync_rtp_delta in *.
    unfold is_u64 in *. rewrite u64_small by (unfold is_u64; lia).
    rewrite (u32_small (s32 _)) by (clear - Hd; wraps). split_and!; try done; lia.
  - destruct (Z.leb_spec (ngx_rtc_avsync_rtp_delta rtp (rtp_cur s)) 0) as [Hd | Hd].
    { eexists _, _. split; [done |]. split; [by constructor | done]. }
    eexists _, _. split; [done |]. split; [| split; [simpl; lia | done]].
    constructor; simpl; try done. intros _. unfold ngx_rtc_avsync_rtp_delta in *.
    unfold is_u64 in *. rewrite u64_small by (unfold is_u64; lia).
    rewrite (u32_small (s32 _)) by (clear - Hd; wraps). split_and!; try done; lia.
Qed.

(** The line through the anchors, rounded towards the reference, modulo 2^64. *)
Lemma map_line reports s rtp out :
  anchored reports s -> has_slope s <> 0 ->
  let d := ngx_rtc_avsync_rtp_delta rtp (rtp_cur s) in
  ngx_rtc_avsync_map_rtp_to_wall (Ref s) rtp (Ref out)
    = Ret (NGX_RTC_OK, Ref (u64 (ntp_cur s + Z.quot (d * slope_num s) (slope_den s)))).
Proof.
  intros Ha Hs d. pose proof (anc_prev _ _ Ha Hs) as (_ & Hn & _ & Hd & Hnum & Hden).
  pose proof (anc_ranges _ _ Ha) as [Hr _]. unfold is_u64 in Hr.
  unfold ngx_rtc_avsync_map_rtp_to_wall. fold d.
  assert (Hd31 : -2 ^ 31 <= d < 2 ^ 31) by (unfold d, ngx_rtc_avsync_rtp_delta; wraps).
  assert (Hprod : forall a, 0 <= a <= 2 ^ 31 -> 0 <= a * slope_num s < 2 ^ 128) by nia.
  destruct (Z.eqb_spec (has_slope s) 0) as [| _]; [done |].
  destruct (Z.eqb_spec (slope_den s) 0) as [| _]; [lia |].
  destruct (Z.leb_spec 0 d) as [Hpos | Hneg].
  - rewrite Z.mod_small by (apply Hprod; lia). do 3 f_equal.
    rewrite Z.quot_div_nonneg by nia. apply Zplus_mod_idemp_r.
  - rewrite Z.mod_small by (apply Hprod; lia). do 3 f_equal.
    replace (d * slope_num s) with (- (- d * slope_num s)) by ring.
    rewrite Z.quot_opp_l by lia. rewrite Z.quot_div_nonneg by nia.
    rewrite Z.add_opp_r. apply Zminus_mod_idemp_r.
Qed.

Fixpoint feed (s : ptr ngx_rtc_avsync_t) (l : list (Z * Z)) : ptr ngx_rtc_avsync_t :=
  match l with
  | [] => s
  | (ntp, rtp) :: l => feed (snd (ngx_rtc_avsync_on_sr s ntp rtp)) l
  end.

Lemma feed_app s l k : feed s (l ++ k) = feed (feed s l) k.
Proof. revert s. induction l as [| [n r] l IH]; intros s; [done | apply IH]. Qed.

Lemma feed_anchored all l : forall s,
  anchored all s -> Forall report_ok l -> (forall p, p ∈ l -> p ∈ all) ->
  exists s', feed (Ref s) l = Ref s' /\ anchored all s' /\
    (has_anchor s <> 0 -> ntp_cur s <= ntp_cur s' /\ has_anchor s' <> 0).
Proof.
  induction l as [| [n r] l IH]; intros s Ha Hok Hin; [exists s; split_and!; done |].
  apply Forall_cons_1 in Hok as [Hp Hok].
  destruct (anchored_on_sr all s n r Ha Hp) as (rc & s1 & Hr & Ha1 & Hmono & Hanc).
  { apply Hin. by left. }
  simpl. rewrite Hr. simpl. destruct (IH s1 Ha1 Hok) as (s' & -> & Ha' & Hmono').
  { intros p Hp'. apply Hin. by right. }
  exists s'. split_and!; try done. intros Hs. specialize (Hmono Hs).
  destruct (Hmono' Hanc). split; [lia | done].
Qed.

Lemma init_anchored all s0 :
  exists s, ngx_rtc_avsync_init (Ref s0) = Ref s /\ anchored all s /\ has_slope s = 0.
Proof. eexists. split; [done |]. split; [by constructor | done]. Qed.

(** Whatever reports arrive, in whatever order, once the mapping is available
    it sends the RTP times of both anchors exactly to their NTP times, both anchors
    are reports that arrived with the earlier strictly before the reference, and
    every other RTP time is placed on the line through them (the exact rational
    slope, rounded towards the reference, in 64-bit NTP arithmetic). *)
Theorem avsync_maps_through_anchors (s0 : ngx_rtc_avsync_t) l s :
  Forall report_ok l ->
  feed (ngx_rtc_avsync_init (Ref s0)) l = Ref s -> has_slope s <> 0 ->
  (ntp_prev s, rtp_prev s) ∈ l /\ (ntp_cur s, rtp_cur s) ∈ l /\
  ntp_prev s < ntp_cur s /\
  forall out,
    ngx_rtc_avsync_map_rtp_to_wall (Ref s) (rtp_cur s) (Ref out)
      = Ret (NGX_RTC_OK, Ref (ntp_cur s)) /\
    ngx_rtc_avsync_map_rtp_to_wall (Ref s) (rtp_prev s) (Ref out)
      = Ret (NGX_RTC_OK, Ref (ntp_prev s)) /\
    forall rtp,
      let d := ngx_rtc_avsync_rtp_delta rtp (rtp_cur s) in
      ngx_rtc_avsync_map_rtp_to_wall (Ref s) rtp (Ref out)
        = Ret (NGX_RTC_OK, Ref (u64 (ntp_cur s
            + Z.quot (d * (ntp_cur s - ntp_prev s))
                (ngx_rtc_avsync_rtp_delta (rtp_cur s) (rtp_prev s))))).
Proof.
  intros Hok Hf Hs. destruct (init_anchored l s0) as (s1 & Hi & Ha1 & _).
  rewrite Hi in Hf. destruct (feed_anchored l l s1 Ha1 Hok) as (s' & Hf' & Ha & _);
    [done |]. rewrite Hf in Hf'. injection Hf' as <-.
  pose proof (anc_prev _ _ Ha Hs) as (Hin & Hn & Hr32 & Hd & Hnum & Hden).
  pose proof (anc_ranges _ _ Ha) as [Hr64 Hrc].
  pose proof (map_line l s) as Hline. rewrite Hnum, Hden in Hline.
  split; [done |]. split.
  { apply (anc_cur _ _ Ha). intros H0. by apply (anc_none _ _ Ha) in H0. }
  split; [lia |]. intros out. split_and!.
  - rewrite Hline by done. do 3 f_equal.
    assert (H0 : ngx_rtc_avsync_rtp_delta (rtp_cur s) (rtp_cur s) = 0).
    { unfold ngx_rtc_avsync_rtp_delta. by rewrite Z.sub_diag. }
    rewrite H0, Z.mul_0_l, Z.quot_0_l by lia.
    rewrite Z.add_0_r. by apply u64_small.
  - rewrite Hline by done. do 3 f_equal.
    assert (Hsym : ngx_rtc_avsync_rtp_delta (rtp_prev s) (rtp_cur s)
      = - ngx_rtc_avsync_rtp_delta (rtp_cur s) (rtp_prev s)).
    { clear - Hd. unfold ngx_rtc_avsync_rtp_delta in *. wraps. }
    rewrite Hsym, Z.mul_opp_l, Z.quot_opp_l, Z.mul_comm, Z.quot_mul by lia.
    replace (ntp_cur s + - (ntp_cur s - ntp_prev s)) with (ntp_prev s) by lia.
    apply u64_small. unfold is_u64 in *. lia.
  - intros rtp d. by rewrite Hline.
Qed.

Lemma avsync_maps_through_anchors_witness :
  let l := [(1000, 4294967290); (2000, 90); (1500, 40)] in
  let s := {| has_anchor := 1; has_slope := 1; ntp_cur := 2000; rtp_cur := 90;
              ntp_prev := 1500; rtp_prev := 40; slope_num := 500; slope_den := 50 |} in
  (ntp_prev s, rtp_prev s) ∈ l /\ (ntp_cur s, rtp_cur s) ∈ l /\
  ntp_prev s < ntp_cur s /\
  forall out,
    ngx_rtc_avsync_map_rtp_to_wall (Ref s) (rtp_cur s) (Ref out)
      = Ret (NGX_RTC_OK, Ref (ntp_cur s)) /\
    ngx_rtc_avsync_map_rtp_to_wall (Ref s) (rtp_prev s) (Ref out)
      = Ret (NGX_RTC_OK, Ref (ntp_prev s)) /\
    forall rtp,
      let d := ngx_rtc_avsync_rtp_delta rtp (rtp_cur s) in
      ngx_rtc_avsync_map_rtp_to_wall (Ref s) rtp (Ref out)
        = Ret (NGX_RTC_OK, Ref (u64 (ntp_cur s
            + Z.quot (d * (ntp_cur s - ntp_prev s))
                (ngx_rtc_avsync_rtp_delta (rtp_cur s) (rtp_prev s))))).
Proof.
  apply (avsync_maps_through_anchors {| has_anchor := 0; has_slope := 0; ntp_cur := 0;
    rtp_cur := 0; ntp_prev := 0; rtp_prev := 0; slope_num := 0; slope_den := 0 |}
    [(1000, 4294967290); (2000, 90); (1500, 40)]).
  - repeat (constructor; [unfold report_ok, is_u64, is_u32; simpl; lia |]); constructor.
  - vm_compute. reflexivity.
  - discriminate.
Defined.

(** The reference anchor never regresses: over any further reports its NTP time
    only grows, late and duplicate reports included. *)
Theorem avsync_never_regresses (s0 : ngx_rtc_avsync_t) l k s s' :
  Forall report_ok (l ++ k) -> l <> [] ->
  feed (ngx_rtc_avsync_init (Ref s0)) l = Ref s ->
  feed (ngx_rtc_avsync_init (Ref s0)) (l ++ k) = Ref s' ->
  ntp_cur s <= ntp_cur s'.
Proof.
  intros [Hl Hk]%Forall_app Hne Hf Hf'.
  destruct (init_anchored (l ++ k) s0) as (s1 & Hi & Ha1 & _).
  rewrite Hi in *. rewrite feed_app, Hf in Hf'.
  destruct (feed_anchored (l ++ k) l s1 Ha1 Hl) as (s2 & Hf2 & Ha2 & _).
  { intros p Hp. apply elem_of_app. by left. }
  rewrite Hf in Hf2. injection Hf2 as <-.
  destruct (feed_anchored (l ++ k) k s Ha2 Hk) as (s3 & Hf3 & _ & Hmono).
  { intros p Hp. apply elem_of_app. by right. }
  rewrite Hf' in Hf3. injection Hf3 as <-. apply Hmono. intros Hz.
  destruct l as [| [n r] l]; [done |]. simpl in Hf.
  apply Forall_cons_1 in Hl as [Hp Hl].
  destruct (anchored_on_sr ((n, r) :: l ++ k) s1 n r) as (rc & s4 & Hr & Ha4 & _ & Hanc);
    [done | done | by left |].
  rewrite Hr in Hf. simpl in Hf.
  destruct (feed_anchored ((n, r) :: l ++ k) l s4 Ha4 Hl) as (s5 & Hf5 & _ & Hm5).
  { intros p Hp'. right. apply elem_of_app. by left. }
  rewrite Hf in Hf5. injection Hf5 as <-. by apply Hm5.
Qed.

Lemma avsync_never_regresses_witness :
  let zero := {| has_anchor := 0; has_slope := 0; ntp_cur := 0; rtp_cur := 0;
    ntp_prev := 0; rtp_prev := 0; slope_num := 0; slope_den := 0 |} in
  exists s s', feed (ngx_rtc_avsync_init (Ref zero)) [(1000, 0); (2000, 90)] = Ref s /\
    feed (ngx_rtc_avsync_init (Ref zero)) ([(1000, 0); (2000, 90)] ++ [(1500, 40)])
      = Ref s' /\ ntp_cur s <= ntp_cur s'.
Proof.
  eexists _, _. split; [vm_compute; reflexivity |]. split; [vm_compute; reflexivity |].
  eapply (avsync_never_regresses {| has_anchor := 0; has_slope := 0; ntp_cur := 0;
    rtp_cur := 0; ntp_prev := 0; rtp_prev := 0; slope_num := 0; slope_den := 0 |}
    [(1000, 0); (2000, 90)] [(1500, 40)]).
  - repeat (constructor; [unfold report_ok, is_u64, is_u32; simpl; lia |]); constructor.
  - discriminate.
  - vm_compute. reflexivity.
  - vm_compute. reflexivity.
Defined.

End Avsync.
