(* ===== verification/Audio.v ===== *)
(** The AAC to Opus transcoder, src/ngx_rtc_audio.c: what it owns, and what it makes of one
    AAC frame.

    FFmpeg and libopus are a class with the laws their manuals give: a decoder that takes a
    packet and then gives frames until it has no more, a resampler that is asked for at most a
    buffer of samples at a time, a FIFO of samples, an encoder.  A sample is one 48 kHz stereo
    sample; its value is nothing the transcoder looks at. *)

From S2P Require Import Prelude.
From stdpp Require Import list.

#[local] Open Scope Z_scope.

Module Audio.

Definition NGX_RTC_AUDIO_OPUS_FRAME_SIZE : Z := 960.
Definition NGX_RTC_AUDIO_FIFO_MAX_SAMPLES : Z := NGX_RTC_AUDIO_OPUS_FRAME_SIZE * 4.
Definition NGX_RTC_AUDIO_AAC_MAX : Z := 8192.
Definition NGX_RTC_AUDIO_OPUS_MAX_PACKET : Z := 4000.

Abbreviation samples := (list Z).

(** What FFmpeg answers for AVERROR(EAGAIN) and AVERROR_EOF. *)
Definition AVERROR_EAGAIN : Z := -11.
Definition AVERROR_EOF : Z := -541478725.

(** A decoder [D] with frames [A], a resampler [R], a FIFO [F], an encoder [E].  A call that
    fills an array returns what it put there. *)
Class Codec (D A R F E : Type) := {
  avcodec_open : octets -> ptr D;
  avcodec_send_packet : D -> octets -> Z * D;
  avcodec_receive_frame : D -> Z * A * D;
  swr_alloc : D -> ptr R;
  swr_init : R -> Z * R;
  swr_convert : R -> Z -> ptr A -> Z * samples * R;
  swr_get_out_samples : R -> Z;
  av_audio_fifo_size : F -> Z;
  av_audio_fifo_write : F -> samples -> Z -> Z * F;
  av_audio_fifo_read : F -> Z -> Z * samples * F;
  opus_encode : E -> samples -> Z -> Z * octets * E
}.

(** [left] is what a decoder still has to give, [held] what a resampler keeps, [contents] and
    [space] what a FIFO holds and was allocated for. *)
Class CodecLaws (D A R F E : Type) `{Codec D A R F E} := {
  left : D -> nat;
  held : R -> nat;
  contents : F -> samples;
  space : F -> Z;
  receive_law d : let '(rc, _, d') := avcodec_receive_frame d in 0 <= rc -> (left d' < left d)%nat;
  convert_law r cap f : let '(n, out, _) := swr_convert r cap f in n < 0 \/ 0 <= n <= cap /\ zlen out = n;
  flush_law r cap : 0 < cap -> cap <= swr_get_out_samples r ->
    let '(n, _, r') := swr_convert r cap NULL in n < 0 \/ (held r' < held r)%nat;
  size_law f : av_audio_fifo_size f = zlen (contents f);
  write_law f l n : 0 <= n <= zlen l -> zlen (contents f) + n <= space f ->
    let '(rc, f') := av_audio_fifo_write f l n in rc = n /\ contents f' = contents f ++ ztake n l /\ space f' = space f;
  read_law f n : 0 <= n <= zlen (contents f) ->
    let '(rc, l, f') := av_audio_fifo_read f n in rc = n /\ l = ztake n (contents f) /\ contents f' = zdrop n (contents f) /\ space f' = space f;
  encode_law e l cap : let '(n, out, _) := opus_encode e l cap in n < 0 \/ 0 <= n <= cap /\ zlen out = n
}.

Section audio.
Context {D A R F E : Type} `{HC : Codec D A R F E}.

(** The fields that own something, and the resampler's flag.  The buffers of an AAC and of an
    Opus frame are arrays of the struct, larger than what is copied to them. *)
Record ngx_rtc_audio_t := {
  dec : ptr D;
  dec_frame : ptr unit;
  dec_pkt : ptr unit;
  enc : ptr E;
  swr : ptr R;
  swr_data : ptr unit;
  fifo : ptr F;
  swr_ready : Z;
  pcm_buf : ptr unit
}.

Definition audio_eta (a : ngx_rtc_audio_t) : ngx_rtc_audio_t :=
  {| dec := dec a; dec_frame := dec_frame a; dec_pkt := dec_pkt a; enc := enc a; swr := swr a; swr_data := swr_data a;
     fifo := fifo a; swr_ready := swr_ready a; pcm_buf := pcm_buf a |}.
Definition set_dec := ltac:(setter audio_eta dec).
Definition set_dec_frame := ltac:(setter audio_eta dec_frame).
Definition set_dec_pkt := ltac:(setter audio_eta dec_pkt).
Definition set_enc := ltac:(setter audio_eta enc).
Definition set_swr := ltac:(setter audio_eta swr).
Definition set_swr_data := ltac:(setter audio_eta swr_data).
Definition set_fifo := ltac:(setter audio_eta fifo).
Definition set_swr_ready := ltac:(setter audio_eta swr_ready).
Definition set_pcm_buf := ltac:(setter audio_eta pcm_buf).

Definition zero_audio : ngx_rtc_audio_t :=
  {| dec := NULL; dec_frame := NULL; dec_pkt := NULL; enc := NULL; swr := NULL; swr_data := NULL; fifo := NULL; swr_ready := 0; pcm_buf := NULL |}.
Implicit Types (a : ngx_rtc_audio_t).

(** *** What it owns *)

Inductive resource := Struct | Decoder | Frame | Packet | Encoder | Resampler | ResamplerData | Fifo | Pcm.

Definition owned {T} (p : ptr T) (x : resource) : list resource := if is_null p then [] else [x].

(** What the code frees, in order. *)
Definition ngx_rtc_audio_destroy (p : ptr ngx_rtc_audio_t) : list resource :=
  match p with
  | NULL => []
  | Ref a =>
      owned (enc a) Encoder ++ owned (fifo a) Fifo ++ owned (swr_data a) ResamplerData ++ owned (swr a) Resampler ++
      owned (pcm_buf a) Pcm ++ owned (dec_pkt a) Packet ++ owned (dec_frame a) Frame ++ owned (dec a) Decoder ++ [Struct]
  end.

(** What the allocators grant: [g_context] is avcodec_alloc_context3, [g_extradata] the copy
    of the configuration, [g_opened] what avcodec_open2 answers; the encoder may come with an
    error code. *)
Record grants := {
  g_struct : bool;
  g_codec : bool;
  g_context : bool;
  g_extradata : bool;
  g_frame : bool;
  g_packet : bool;
  g_fifo : ptr F;
  g_pcm : bool;
  g_enc : ptr E;
  g_enc_error : bool;
  g_raw : D
}.

Definition granted (b : bool) : ptr unit := if b then Ref tt else NULL.

(** The transcoder, and what was freed on the way out when there is none. *)
Definition ngx_rtc_audio_create (g : grants) (asc : ptr octets) (asc_len bitrate : Z) : outcome (ptr ngx_rtc_audio_t * list resource) :=
  match asc with
  | NULL => Ret (NULL, [])
  | Ref asc =>
      if (asc_len <? 2) || (bitrate <=? 0) || negb (g_struct g) then Ret (NULL, [])
      else
        let fail a := Ret (NULL, ngx_rtc_audio_destroy (Ref a)) in
        let a := zero_audio in
        if negb (g_codec g) || negb (g_context g) then fail a
        else
          let a := set_dec (Ref (g_raw g)) a in
          if negb (g_extradata g) then fail a
          else
            extradata ← load_range asc 0 asc_len;
            match avcodec_open extradata with
            | NULL => fail a
            | Ref d =>
                let a := a |> set_dec (Ref d) |> set_dec_frame (granted (g_frame g)) |> set_dec_pkt (granted (g_packet g)) in
                if negb (g_frame g) || negb (g_packet g) then fail a
                else
                  let a := set_fifo (g_fifo g) a in
                  if is_null (fifo a) then fail a
                  else
                    let a := set_pcm_buf (granted (g_pcm g)) a in
                    if negb (g_pcm g) then fail a
                    else
                      let a := set_enc (g_enc g) a in
                      if is_null (enc a) || g_enc_error g then fail a else Ret (Ref a, [])
            end
  end.

(** *** One AAC frame *)

(** [sampled] is what av_samples_alloc grants. *)
Definition ngx_rtc_audio_init_swr (sampled : bool) a : Z * ngx_rtc_audio_t :=
  match dec a with
  | NULL => (-1, a)
  | Ref d =>
      match swr_alloc d with
      | NULL => (-1, set_swr NULL a)
      | Ref r =>
          let '(rc, r) := swr_init r in
          if rc <? 0 then (-1, set_swr NULL a)
          else if sampled then (0, a |> set_swr (Ref r) |> set_swr_data (Ref tt) |> set_swr_ready 1)
          else (-1, a |> set_swr NULL |> set_swr_data NULL)
      end
  end.

Definition ngx_rtc_audio_fifo_write (l : samples) (n : Z) a : outcome (Z * ngx_rtc_audio_t) :=
  match fifo a with
  | NULL => Fault
  | Ref f =>
      if NGX_RTC_AUDIO_FIFO_MAX_SAMPLES <? av_audio_fifo_size f + n then Ret (-1, a)
      else
        let '(rc, f) := av_audio_fifo_write f l n in
        Ret (if rc <? n then -1 else 0, set_fifo (Ref f) a)
  end.

(** The first round converts the frame, the others what the resampler kept. *)
Fixpoint pump_loop (fuel : nat) (frame : ptr A) a : outcome (Z * ngx_rtc_audio_t) :=
  match fuel, swr a with
  | O, _ | _, NULL => Fault
  | S fuel, Ref r =>
      let '(n, l, r) := swr_convert r NGX_RTC_AUDIO_OPUS_FRAME_SIZE frame in
      let a := set_swr (Ref r) a in
      if n <? 0 then Ret (-1, a)
      else
        '(rc, a) ← (if 0 <? n then ngx_rtc_audio_fifo_write l n a else Ret (0, a));
        if rc <? 0 then Ret (-1, a)
        else if NGX_RTC_AUDIO_OPUS_FRAME_SIZE <=? swr_get_out_samples r then pump_loop fuel NULL a else Ret (0, a)
  end.

Definition ngx_rtc_audio_pump (fuel : nat) (frame : A) a : outcome (Z * ngx_rtc_audio_t) := pump_loop fuel (Ref frame) a.

(** [emit] is the callback over a state of its own. *)
Context {W : Type} (emit : octets -> Z -> W -> outcome (Z * W)).
Implicit Types (w : W).

Fixpoint encode_loop (fuel : nat) a w : outcome (Z * ngx_rtc_audio_t * W) :=
  match fuel, fifo a, enc a with
  | S fuel, Ref f, Ref e =>
      if av_audio_fifo_size f <? NGX_RTC_AUDIO_OPUS_FRAME_SIZE then Ret (0, a, w)
      else
        let '(n, pcm, f) := av_audio_fifo_read f NGX_RTC_AUDIO_OPUS_FRAME_SIZE in
        let a := set_fifo (Ref f) a in
        if n <? NGX_RTC_AUDIO_OPUS_FRAME_SIZE then Ret (-1, a, w)
        else
          let '(nb, opus, e) := opus_encode e pcm NGX_RTC_AUDIO_OPUS_MAX_PACKET in
          let a := set_enc (Ref e) a in
          if nb <? 0 then Ret (-1, a, w)
          else
            '(rc, w) ← emit opus nb w;
            if rc <? 0 then Ret (rc, a, w) else encode_loop fuel a w
  | _, _, _ => Fault
  end.

Definition ngx_rtc_audio_encode (fuel : nat) a w : outcome (Z * ngx_rtc_audio_t * W) := encode_loop fuel a w.

(** The frames of one packet; the answer says whether the caller goes on to encode. *)
Fixpoint decode_loop (fuel : nat) (sampled : bool) a : outcome (Z * ngx_rtc_audio_t) :=
  match fuel, dec a with
  | S n, Ref d =>
      let '(rc, frame, d) := avcodec_receive_frame d in
      let a := set_dec (Ref d) a in
      if (AVERROR_EAGAIN =? rc) || (AVERROR_EOF =? rc) then Ret (0, a)
      else if rc <? 0 then Ret (-1, a)
      else
        let '(rc, a) := if swr_ready a =? 0 then ngx_rtc_audio_init_swr sampled a else (0, a) in
        if rc <? 0 then Ret (-1, a)
        else
          '(rc, a) ← ngx_rtc_audio_pump fuel frame a;
          if rc <? 0 then Ret (-1, a) else decode_loop n sampled a
  | _, _ => Fault
  end.

Definition ngx_rtc_audio_transcode (fuel : nat) (sampled : bool) (p : ptr ngx_rtc_audio_t) (aac : ptr octets) (aac_len : Z) w
    : outcome (Z * ptr ngx_rtc_audio_t * W) :=
  match p, aac with
  | Ref a, Ref aac =>
      if (aac_len =? 0) || (NGX_RTC_AUDIO_AAC_MAX <? aac_len) then Ret (-1, p, w)
      else
        d ← load_range aac 0 aac_len;
        match dec a with
        | NULL => Fault
        | Ref c =>
            let '(rc, c) := avcodec_send_packet c d in
            let a := set_dec (Ref c) a in
            if rc <? 0 then Ret (-1, Ref a, w)
            else
              '(rc, a) ← decode_loop fuel sampled a;
              if rc <? 0 then Ret (-1, Ref a, w)
              else '(rc, a, w) ← ngx_rtc_audio_encode fuel a w; Ret (rc, Ref a, w)
        end
  | _, _ => Ret (-1, p, w)
  end.

(** ** What a frame becomes *)

Context `{HL : !CodecLaws D A R F E}.

Record audio_ok a : Prop := {
  ao_dec : exists d, dec a = Ref d;
  ao_enc : exists e, enc a = Ref e;
  ao_fifo : exists f, fifo a = Ref f /\ space f = NGX_RTC_AUDIO_FIFO_MAX_SAMPLES /\ zlen (contents f) <= NGX_RTC_AUDIO_FIFO_MAX_SAMPLES;
  ao_swr : swr_ready a <> 0 -> exists r, swr a = Ref r
}.

(** The samples that wait in the FIFO. *)
Definition waiting a : samples := match fifo a with NULL => [] | Ref f => contents f end.

(** What the calls on the resampler give for one frame. *)
Inductive pumped : R -> ptr A -> samples -> R -> Prop :=
  | pumped_last r frame n out r' :
      swr_convert r NGX_RTC_AUDIO_OPUS_FRAME_SIZE frame = (n, out, r') -> 0 <= n ->
      swr_get_out_samples r' < NGX_RTC_AUDIO_OPUS_FRAME_SIZE -> pumped r frame (ztake n out) r'
  | pumped_more r frame n out r1 rest r2 :
      swr_convert r NGX_RTC_AUDIO_OPUS_FRAME_SIZE frame = (n, out, r1) -> 0 <= n ->
      NGX_RTC_AUDIO_OPUS_FRAME_SIZE <= swr_get_out_samples r1 -> pumped r1 NULL rest r2 -> pumped r frame (ztake n out ++ rest) r2.

(** The resampler a frame is given to: the one there is, or a new one. *)
Definition resampler (d : D) (p : ptr R) : ptr R :=
  match p with
  | Ref r => Ref r
  | NULL => match swr_alloc d with NULL => NULL | Ref r => let '(rc, r) := swr_init r in if rc <? 0 then NULL else Ref r end
  end.

(** What the frames of one packet give. *)
Inductive decoded : D -> ptr R -> samples -> D -> ptr R -> Prop :=
  | decoded_none d p rc frame d' :
      avcodec_receive_frame d = (rc, frame, d') -> rc = AVERROR_EAGAIN \/ rc = AVERROR_EOF -> decoded d p [] d' p
  | decoded_frame d p rc frame d1 r out r1 rest d2 p2 :
      avcodec_receive_frame d = (rc, frame, d1) -> 0 <= rc -> resampler d1 p = Ref r -> pumped r (Ref frame) out r1 ->
      decoded d1 (Ref r1) rest d2 p2 -> decoded d p (out ++ rest) d2 p2.

(** Samples encoded a frame at a time, each frame handed to the callback before the next. *)
Inductive encoded : E -> W -> samples -> E -> W -> samples -> Prop :=
  | encoded_done e w l : zlen l < NGX_RTC_AUDIO_OPUS_FRAME_SIZE -> encoded e w l e w l
  | encoded_frame e w frame l nb opus e1 rc w1 e2 w2 l2 :
      zlen frame = NGX_RTC_AUDIO_OPUS_FRAME_SIZE -> opus_encode e frame NGX_RTC_AUDIO_OPUS_MAX_PACKET = (nb, opus, e1) -> 0 <= nb ->
      emit opus nb w = Ret (rc, w1) -> 0 <= rc -> encoded e1 w1 l e2 w2 l2 -> encoded e w (frame ++ l) e2 w2 l2.

Definition ready_swr a : ptr R := if swr_ready a =? 0 then NULL else swr a.

(** What the calls below keep of a transcoder. *)
Record grown a (out : samples) a' : Prop := {
  gr_ok : audio_ok a';
  gr_enc : enc a' = enc a;
  gr_waiting : waiting a' = waiting a ++ out
}.

Lemma fifo_write_spec (l : samples) n a :
  audio_ok a -> 0 <= n <= zlen l ->
  exists rc a', ngx_rtc_audio_fifo_write l n a = Ret (rc, a') /\ dec a' = dec a /\ swr a' = swr a /\ swr_ready a' = swr_ready a /\
    (rc = 0 /\ zlen (waiting a) + n <= NGX_RTC_AUDIO_FIFO_MAX_SAMPLES /\ grown a (ztake n l) a' \/
     rc = -1 /\ NGX_RTC_AUDIO_FIFO_MAX_SAMPLES < zlen (waiting a) + n /\ a' = a).
Proof.
  intros [H1 H2 (f & Hf & Hsp & Hle) H4] Hn. unfold ngx_rtc_audio_fifo_write, waiting. rewrite Hf, size_law.
  destruct (Z.ltb_spec NGX_RTC_AUDIO_FIFO_MAX_SAMPLES (zlen (contents f) + n)) as [Hgt | Hfit].
  { exists (-1), a. split_and!; try done. right. by split_and!. }
  assert (Hsp' : zlen (contents f) + n <= space f) by (rewrite Hsp; exact Hfit). pose proof (write_law f l n Hn Hsp') as Hw.
  destruct (av_audio_fifo_write f l n) as [rc f'] eqn:E0. destruct Hw as (-> & Hc & Hs').
  exists 0, (set_fifo (Ref f') a). destruct (Z.ltb_spec n n); [lia |]. split; [done |]. split_and!; try done. left. split_and!; try done.
  split; [| done |].
  - split; try done. exists f'. split_and!; [done | congruence |]. rewrite Hc, zlen_app, zlen_ztake by lia. lia.
  - unfold waiting. cbn. by rewrite Hf.
Qed.

Lemma grown_trans a b c l1 l2 : grown a l1 b -> grown b l2 c -> grown a (l1 ++ l2) c.
Proof. intros [H1 H2 H3] [H4 H5 H6]. split; [done | congruence | by rewrite H6, H3, app_assoc]. Qed.

(** One round of the resampler. *)
Lemma convert_round frame a r n out r' :
  audio_ok a -> swr a = Ref r -> swr_convert r NGX_RTC_AUDIO_OPUS_FRAME_SIZE frame = (n, out, r') -> 0 <= n ->
  exists rc b, (if 0 <? n then ngx_rtc_audio_fifo_write out n (set_swr (Ref r') a) else Ret (0, set_swr (Ref r') a)) = Ret (rc, b) /\
    audio_ok b /\ swr b = Ref r' /\ dec b = dec a /\ swr_ready b = swr_ready a /\ enc b = enc a /\
    (rc = 0 /\ grown a (ztake n out) b \/ rc = -1 /\ NGX_RTC_AUDIO_FIFO_MAX_SAMPLES < zlen (waiting a) + n /\ waiting b = waiting a).
Proof.
  intros Ha Hr E0 Hn. pose proof (convert_law r NGX_RTC_AUDIO_OPUS_FRAME_SIZE frame) as Hl. rewrite E0 in Hl.
  assert (Ha1 : audio_ok (set_swr (Ref r') a)) by (destruct Ha as [H1 H2 H3 H4]; split; try done; by exists r').
  destruct (Z.ltb_spec 0 n) as [Hpos | Hz].
  - destruct (fifo_write_spec out n (set_swr (Ref r') a) Ha1) as (rc & b & Eb & B1 & B2 & B3 & Hb); [lia |].
    exists rc, b. split; [exact Eb |]. destruct Hb as [(-> & _ & [G1 G2 G3]) | (-> & Hgt & ->)].
    + split_and!; try done. by left.
    + split_and!; try done. by right.
  - assert (n = 0) as -> by lia. exists 0, (set_swr (Ref r') a). split_and!; try done. left. split; [done |]. split; [done | done |].
    unfold waiting. cbn. by rewrite ztake_0, app_nil_r.
Qed.

(** The loop from here ends, and what it leaves. *)
Definition pump_ends (frame : ptr A) a (r : R) : Prop :=
  exists n0 rc b, (forall fuel, (n0 <= fuel)%nat -> pump_loop fuel frame a = Ret (rc, b)) /\
    audio_ok b /\ dec b = dec a /\ swr_ready b = swr_ready a /\ enc b = enc a /\ (exists r', swr b = Ref r') /\
    ((rc = 0 /\ exists out r', pumped r frame out r' /\ swr b = Ref r' /\ grown a out b) \/
     (rc = -1 /\ exists out, waiting b = waiting a ++ out)).

Lemma pump_step frame a r :
  audio_ok a -> swr a = Ref r ->
  (forall n out r1 b, swr_convert r NGX_RTC_AUDIO_OPUS_FRAME_SIZE frame = (n, out, r1) -> 0 <= n ->
     NGX_RTC_AUDIO_OPUS_FRAME_SIZE <= swr_get_out_samples r1 -> audio_ok b -> swr b = Ref r1 -> pump_ends NULL b r1) ->
  pump_ends frame a r.
Proof.
  intros Ha Hr Hcont. destruct (swr_convert r NGX_RTC_AUDIO_OPUS_FRAME_SIZE frame) as [[n out] r1] eqn:E0.
  assert (Ha1 : audio_ok (set_swr (Ref r1) a)) by (destruct Ha as [H1 H2 H3 H4]; split; try done; by exists r1).
  destruct (Z.ltb_spec n 0) as [Hneg | Hn].
  { exists 1%nat, (-1), (set_swr (Ref r1) a). split.
    - intros [| fuel] Hfuel; [lia |]. cbn [pump_loop]. rewrite Hr, E0. by destruct (Z.ltb_spec n 0); [| lia].
    - split_and!; try done; [by exists r1 |]. right. split; [done |]. exists []. unfold waiting. cbn. by rewrite app_nil_r. }
  destruct (convert_round frame a r n out r1 Ha Hr E0 Hn) as (rc & b & Eb & B1 & B2 & B3 & B4 & B5 & Hb).
  assert (Hstep : forall fuel, pump_loop (S fuel) frame a =
    if rc <? 0 then Ret (-1, b) else if NGX_RTC_AUDIO_OPUS_FRAME_SIZE <=? swr_get_out_samples r1 then pump_loop fuel NULL b else Ret (0, b)).
  { intros fuel. cbn [pump_loop]. rewrite Hr, E0. destruct (Z.ltb_spec n 0); [lia |]. by rewrite Eb, bind_Ret. }
  destruct Hb as [(-> & Hg) | (-> & _ & Hw)].
  2: { exists 1%nat, (-1), b. split; [intros [| fuel] Hfuel; [lia |]; by rewrite Hstep |].
       split_and!; try done; [by exists r1 |]. right. split; [done |]. exists []. by rewrite app_nil_r. }
  change (0 <? 0) with false in Hstep. cbv iota in Hstep.
  destruct (Z.leb_spec NGX_RTC_AUDIO_OPUS_FRAME_SIZE (swr_get_out_samples r1)) as [Hmore | Hlast].
  2: { exists 1%nat, 0, b. split; [intros [| fuel] Hfuel; [lia |]; by rewrite Hstep |].
       split_and!; try done; [by exists r1 |]. left. split; [done |]. exists (ztake n out), r1. split; [by eapply pumped_last | done]. }
  destruct (Hcont n out r1 b eq_refl Hn Hmore B1 B2) as (n0 & rc & c & Ec & C1 & C2 & C3 & C4 & C5 & Hc).
  exists (S n0), rc, c. split; [intros [| fuel] Hfuel; [lia |]; rewrite Hstep; apply Ec; lia |].
  split_and!; try done; [congruence.. |]. destruct Hc as [(-> & l & r' & Hp & Er & Hgc) | (-> & l & Hl)]; [left | right].
  - split; [done |]. exists (ztake n out ++ l), r'. split; [by eapply pumped_more |]. split; [done | by eapply grown_trans].
  - split; [done |]. exists (ztake n out ++ l). rewrite Hl, (gr_waiting _ _ _ Hg). by rewrite app_assoc.
Qed.

Lemma pump_flush k : forall a r,
  audio_ok a -> swr a = Ref r -> NGX_RTC_AUDIO_OPUS_FRAME_SIZE <= swr_get_out_samples r -> (held r <= k)%nat -> pump_ends NULL a r.
Proof.
  induction k as [| k IH]; intros a r Ha Hr Hge Hk; apply pump_step; try done; intros n out r1 b E0 Hn Hmore Hb Hr1;
    pose proof (flush_law r NGX_RTC_AUDIO_OPUS_FRAME_SIZE eq_refl Hge) as Hfl; rewrite E0 in Hfl; [lia |].
  apply IH; [done | done | done | lia].
Qed.

Lemma pump_spec frame a r : audio_ok a -> swr a = Ref r -> pump_ends (Ref frame) a r.
Proof. intros Ha Hr. apply pump_step; try done. intros n out r1 b _ _ Hmore Hb Hr1. by eapply (pump_flush (held r1)). Qed.

(** The resampler before a frame: there is one, or one is made, or the frame is refused. *)
Lemma resampler_ready sampled d a :
  audio_ok a -> dec a = Ref d ->
  exists rc b, (if swr_ready a =? 0 then ngx_rtc_audio_init_swr sampled a else (0, a)) = (rc, b) /\
    audio_ok b /\ dec b = dec a /\ enc b = enc a /\ waiting b = waiting a /\
    ((rc = 0 /\ exists r, resampler d (ready_swr a) = Ref r /\ swr b = Ref r /\ swr_ready b <> 0) \/ rc = -1).
Proof.
  intros Ha Hd. pose proof Ha as [H1 H2 H3 H4]. unfold ready_swr. destruct (Z.eqb_spec (swr_ready a) 0) as [Hz | Hnz].
  2: { exists 0, a. destruct (H4 Hnz) as [r Hr]. split_and!; try done. left. split; [done |]. exists r. by rewrite Hr. }
  unfold ngx_rtc_audio_init_swr, resampler. rewrite Hd.
  assert (Hoff : forall p q, audio_ok (set_swr_data q (set_swr p a)) /\ audio_ok (set_swr p a)).
  { intros p q. split; split; try done; intros Hn; by destruct Hn. }
  destruct (swr_alloc d) as [| r]; [eexists _, _; split; [done |]; split_and!; try done; try (by right); by apply (Hoff NULL NULL) |].
  destruct (swr_init r) as [rc r']. destruct (rc <? 0).
  { eexists _, _. split; [done |]. split_and!; try done; try (by right); by apply (Hoff NULL NULL). }
  destruct sampled.
  - eexists _, _. split; [done |]. split_and!; try done; [split; try done; intros _; by exists r' |]. left. split; [done |]. by exists r'.
  - eexists _, _. split; [done |]. split_and!; try done; try (by right); by apply (Hoff NULL NULL).
Qed.

Lemma decode_spec sampled k : forall a d,
  audio_ok a -> dec a = Ref d -> (left d <= k)%nat ->
  exists n0 rc b, (forall fuel, (n0 <= fuel)%nat -> decode_loop fuel sampled a = Ret (rc, b)) /\ audio_ok b /\ enc b = enc a /\
    ((rc = 0 /\ exists out d', dec b = Ref d' /\ decoded d (ready_swr a) out d' (ready_swr b) /\ waiting b = waiting a ++ out) \/
     (rc = -1 /\ exists out, waiting b = waiting a ++ out)).
Proof.
  induction k as [k IH] using lt_wf_ind. intros a d Ha Hd Hk.
  destruct (avcodec_receive_frame d) as [[rc frame] d1] eqn:E0. set (a1 := set_dec (Ref d1) a).
  assert (Ha1 : audio_ok a1) by (destruct Ha as [H1 H2 H3 H4]; split; try done; by exists d1).
  destruct ((AVERROR_EAGAIN =? rc) || (AVERROR_EOF =? rc)) eqn:Eend.
  { exists 1%nat, 0, a1. split; [intros [| n] Hn; [lia |]; cbn [decode_loop]; by rewrite Hd, E0, Eend |].
    split_and!; try done. left. split; [done |]. exists [], d1. split; [done |]. split; [| unfold waiting; cbn; by rewrite app_nil_r].
    eapply decoded_none; [exact E0 |]. apply orb_true_iff in Eend as [Ee%Z.eqb_eq | Ee%Z.eqb_eq]; [by left | by right]. }
  destruct (Z.ltb_spec rc 0) as [Hneg | Hrc].
  { exists 1%nat, (-1), a1. split; [intros [| n] Hn; [lia |]; cbn [decode_loop]; rewrite Hd, E0, Eend; by destruct (Z.ltb_spec rc 0); [| lia] |].
    split_and!; try done. right. split; [done |]. exists []. unfold waiting. cbn. by rewrite app_nil_r. }
  pose proof (receive_law d) as Hleft. rewrite E0 in Hleft. specialize (Hleft Hrc).
  destruct (resampler_ready sampled d1 a1 Ha1 eq_refl) as (rc2 & a2 & E2 & Ha2 & D2 & N2 & W2 & Hr2).
  assert (Hto : forall fuel, decode_loop (S fuel) sampled a = if rc2 <? 0 then Ret (-1, a2) else
     '(rc, a) ← ngx_rtc_audio_pump (S fuel) frame a2; if rc <? 0 then Ret (-1, a) else decode_loop fuel sampled a).
  { intros fuel. cbn [decode_loop]. rewrite Hd, E0, Eend. destruct (Z.ltb_spec rc 0); [lia |]. fold a1. by rewrite E2. }
  change (waiting a1) with (waiting a) in W2. change (enc a1) with (enc a) in N2. change (dec a1) with (Ref d1) in D2.
  destruct Hr2 as [(-> & r & Er & Es & Hready) | ->].
  2: { exists 1%nat, (-1), a2. split; [intros [| n] Hn; [lia |]; by rewrite Hto |]. split_and!; try done.
       right. split; [done |]. exists []. by rewrite W2, app_nil_r. }
  change (0 <? 0) with false in Hto. cbv iota in Hto.
  destruct (pump_spec frame a2 r Ha2 Es) as (n1 & rc3 & a3 & E3 & Ha3 & D3 & S3 & N3 & (r3 & Hr3) & Hp).
  destruct Hp as [(-> & out & r' & Hpump & Er3 & [_ _ W3]) | (-> & out & W3)].
  2: { exists (S n1), (-1), a3. split; [intros [| n] Hn; [lia |]; rewrite Hto; unfold ngx_rtc_audio_pump; by rewrite E3 by lia |].
       split_and!; try done; [congruence |]. right. split; [done |]. exists out. by rewrite W3, W2. }
  destruct (IH (left d1) ltac:(lia) a3 d1 Ha3 ltac:(congruence) (le_n _)) as (n2 & rc4 & b & E4 & Hb & N4 & Hend).
  exists (S (Nat.max n1 n2)), rc4, b. split.
  { intros [| n] Hn; [lia |]. rewrite Hto. unfold ngx_rtc_audio_pump. rewrite E3, bind_Ret by lia. change (0 <? 0) with false. cbv iota. apply E4. lia. }
  split; [done |]. split; [congruence |]. destruct Hend as [(-> & l & d' & Db & Hdec & Wb) | (-> & l & Wb)]; [left | right].
  - split; [done |]. exists (out ++ l), d'. split; [done |]. split; [| by rewrite Wb, W3, W2, app_assoc].
    eapply decoded_frame; [exact E0 | done | exact Er | exact Hpump |].
    assert (E5 : ready_swr a3 = Ref r') by (unfold ready_swr; rewrite S3; by destruct (Z.eqb_spec (swr_ready a2) 0)). by rewrite E5 in Hdec.
  - split; [done |]. exists (out ++ l). by rewrite Wb, W3, W2, app_assoc.
Qed.

(** The encoder takes full frames until less than one is left, or something is refused. *)
Lemma encode_spec k : forall a w,
  (forall o w, exists rc w', emit o (zlen o) w = Ret (rc, w')) ->
  audio_ok a -> (length (waiting a) <= k)%nat ->
  exists n0 rc b w', (forall fuel, (n0 <= fuel)%nat -> encode_loop fuel a w = Ret (rc, b, w')) /\ audio_ok b /\ dec b = dec a /\
    ready_swr b = ready_swr a /\ (exists done, waiting a = done ++ waiting b) /\
    ((rc = 0 /\ exists e e', enc a = Ref e /\ enc b = Ref e' /\ encoded e w (waiting a) e' w' (waiting b)) \/ rc < 0).
Proof.
  induction k as [k IH] using lt_wf_ind. intros a w Hemit Ha Hk. pose proof Ha as [H1 (e & He) (f & Hf & Hsp & Hle) H4].
  assert (Hwa : waiting a = contents f) by (unfold waiting; by rewrite Hf).
  destruct (Z.ltb_spec (zlen (contents f)) NGX_RTC_AUDIO_OPUS_FRAME_SIZE) as [Hless | Hfull].
  { exists 1%nat, 0, a, w. split.
    - intros [| n] Hn; [lia |]. cbn [encode_loop]. rewrite Hf, He, size_law. by destruct (Z.ltb_spec (zlen (contents f)) NGX_RTC_AUDIO_OPUS_FRAME_SIZE); [| lia].
    - split_and!; try done; [by exists [] |]. left. split; [done |]. exists e, e. split_and!; try done. apply encoded_done. by rewrite Hwa. }
  assert (Hin : 0 <= NGX_RTC_AUDIO_OPUS_FRAME_SIZE <= zlen (contents f)) by (split; [by vm_compute | exact Hfull]).
  pose proof (read_law f NGX_RTC_AUDIO_OPUS_FRAME_SIZE Hin) as Hrd.
  destruct (av_audio_fifo_read f NGX_RTC_AUDIO_OPUS_FRAME_SIZE) as [[n pcm] f1] eqn:E1. destruct Hrd as (-> & -> & Hc1 & Hsp1).
  set (chunk := ztake NGX_RTC_AUDIO_OPUS_FRAME_SIZE (contents f)) in *. set (a1 := set_fifo (Ref f1) a).
  assert (Hsplit : waiting a = chunk ++ contents f1) by (rewrite Hwa, Hc1; symmetry; apply ztake_zdrop).
  assert (Hzc : zlen chunk = NGX_RTC_AUDIO_OPUS_FRAME_SIZE) by (unfold chunk, NGX_RTC_AUDIO_OPUS_FRAME_SIZE in *; rewrite zlen_ztake; lia).
  assert (Hz1 : zlen (contents f1) <= NGX_RTC_AUDIO_FIFO_MAX_SAMPLES) by (rewrite Hwa in Hsplit; rewrite Hsplit, zlen_app in Hle; unfold NGX_RTC_AUDIO_OPUS_FRAME_SIZE in *; lia).
  assert (Ha1 : forall e1, audio_ok (set_enc (Ref e1) a1)).
  { intros e1. split; try done; [by exists e1 |]. exists f1. split_and!; [done | congruence | done]. }
  destruct (opus_encode e chunk NGX_RTC_AUDIO_OPUS_MAX_PACKET) as [[nb opus] e1] eqn:E2. set (a2 := set_enc (Ref e1) a1).
  assert (Hto : forall fuel, encode_loop (S fuel) a w =
    if nb <? 0 then Ret (-1, a2, w) else '(rc, w) ← emit opus nb w; if rc <? 0 then Ret (rc, a2, w) else encode_loop fuel a2 w).
  { intros fuel. cbn [encode_loop]. rewrite Hf, He, size_law. destruct (Z.ltb_spec (zlen (contents f)) NGX_RTC_AUDIO_OPUS_FRAME_SIZE); [lia |].
    rewrite E1. destruct (Z.ltb_spec NGX_RTC_AUDIO_OPUS_FRAME_SIZE NGX_RTC_AUDIO_OPUS_FRAME_SIZE); [lia |]. by rewrite E2. }
  destruct (Z.ltb_spec nb 0) as [Hneg | Hnb].
  { exists 1%nat, (-1), a2, w. split; [intros [| m] Hm; [lia |]; by rewrite Hto |]. split_and!; try done; [apply Ha1 | by exists chunk | by right]. }
  pose proof (encode_law e chunk NGX_RTC_AUDIO_OPUS_MAX_PACKET) as Hel. rewrite E2 in Hel.
  assert (Hzo : zlen opus = nb) by lia. destruct (Hemit opus w) as (rc & w1 & Ew). rewrite Hzo in Ew.
  destruct (Z.ltb_spec rc 0) as [Hrneg | Hrc].
  { exists 1%nat, rc, a2, w1. split; [intros [| m] Hm; [lia |]; rewrite Hto, Ew, bind_Ret; by destruct (Z.ltb_spec rc 0); [| lia] |].
    split_and!; try done; [apply Ha1 | by exists chunk | by right]. }
  assert (Hlt : (length (waiting a2) < k)%nat).
  { assert (Hl : (length (waiting a) = length chunk + length (contents f1))%nat) by (by rewrite Hsplit, length_app).
    change (waiting a2) with (contents f1). unfold zlen, NGX_RTC_AUDIO_OPUS_FRAME_SIZE in Hzc. lia. }
  destruct (IH _ Hlt a2 w1 Hemit (Ha1 e1) (le_n _)) as (n0 & rc2 & b & w' & Eb & Hb & D2 & S2 & (l & Hl) & Hend).
  exists (S n0), rc2, b, w'. split.
  { intros [| m] Hm; [lia |]. rewrite Hto, Ew, bind_Ret. destruct (Z.ltb_spec rc 0); [lia |]. apply Eb. lia. }
  split; [done |]. split; [exact D2 |]. split; [done |]. split; [exists (chunk ++ l); rewrite Hsplit, <- app_assoc; by rewrite <- Hl |].
  destruct Hend as [(-> & e2 & e3 & He2 & He3 & Henc) | Hneg2]; [left | by right]. injection He2 as <-.
  split; [done |]. exists e, e3. split_and!; [done.. |]. rewrite Hsplit. by eapply encoded_frame.
Qed.
(** Transcoding one AAC frame ends, whatever the decoder and the resampler give for it, and
    loses nothing: when it succeeds, what waited in the FIFO and after it every sample the
    resampler made of every decoded frame was cut into Opus frames of 20 ms in order, each
    encoded and handed on before the next, and what waits now is the rest, less than a frame. *)
Theorem transcode_exact sampled a (aac : octets) len w :
  (forall o w, exists rc w', emit o (zlen o) w = Ret (rc, w')) ->
  audio_ok a -> 0 < len <= NGX_RTC_AUDIO_AAC_MAX -> len <= zlen aac ->
  exists n0 rc b w', (forall fuel, (n0 <= fuel)%nat -> ngx_rtc_audio_transcode fuel sampled (Ref a) (Ref aac) len w = Ret (rc, Ref b, w')) /\
    audio_ok b /\
    (rc = 0 -> exists d e rc1 d1 pcm d2 e2, dec a = Ref d /\ enc a = Ref e /\ dec b = Ref d2 /\ enc b = Ref e2 /\
       avcodec_send_packet d (ztake len aac) = (rc1, d1) /\ 0 <= rc1 /\
       decoded d1 (ready_swr a) pcm d2 (ready_swr b) /\ encoded e w (waiting a ++ pcm) e2 w' (waiting b)).
Proof.
  intros Hemit Ha Hlen Hz. pose proof Ha as [(d & Hd) (e & He) H3 H4].
  destruct (avcodec_send_packet d (ztake len aac)) as [rc1 d1] eqn:E1. set (a1 := set_dec (Ref d1) a).
  assert (Ha1 : audio_ok a1) by (destruct Ha as [A1 A2 A3 A4]; split; try done; by exists d1).
  assert (Hto : forall fuel, ngx_rtc_audio_transcode fuel sampled (Ref a) (Ref aac) len w =
    if rc1 <? 0 then Ret (-1, Ref a1, w) else
      '(rc, a) ← decode_loop fuel sampled a1;
      if rc <? 0 then Ret (-1, Ref a, w) else '(rc, a, w) ← ngx_rtc_audio_encode fuel a w; Ret (rc, Ref a, w)).
  { intros fuel. unfold ngx_rtc_audio_transcode. destruct (Z.eqb_spec len 0); [lia |].
    destruct (Z.ltb_spec NGX_RTC_AUDIO_AAC_MAX len); [lia |]. cbn [orb].
    rewrite load_range_in by lia. rewrite bind_Ret, Hd, zdrop_0. by rewrite E1. }
  destruct (Z.ltb_spec rc1 0) as [Hneg | Hrc1].
  { exists O, (-1), a1, w. split; [intros fuel _; exact (Hto fuel) | split; [done |]]. intros; lia. }
  destruct (decode_spec sampled (left d1) a1 d1 Ha1 eq_refl (le_n _)) as (n1 & rc2 & b & Eb & Hb & N2 & Hdec).
  destruct Hdec as [(-> & pcm & d2 & Db & Hdec & Wb) | (-> & _)].
  2: { exists n1, (-1), b, w. split; [intros fuel Hf; by rewrite Hto, Eb by done | split; [done |]]. intros; lia. }
  destruct (encode_spec (length (waiting b)) b w Hemit Hb (le_n _)) as (n2 & rc3 & c & w' & Ec & Hc & D3 & S3 & _ & Hend).
  exists (Nat.max n1 n2), rc3, c, w'. split.
  { intros fuel Hf. rewrite Hto, Eb, bind_Ret by lia. change (0 <? 0) with false. cbv iota. unfold ngx_rtc_audio_encode. by rewrite Ec by lia. }
  split; [done |]. intros ->. destruct Hend as [(_ & e1 & e2 & He1 & He2 & Henc) | Hneg]; [| lia].
  rewrite N2 in He1. change (enc a1) with (enc a) in He1. rewrite He in He1. injection He1 as <-.
  exists d, e, rc1, d1, pcm, d2, e2. rewrite S3, D3. split_and!; try done. rewrite Wb in Henc. exact Henc.
Qed.

(** What the callback keeps of its state, a call keeps. *)
Lemma transcode_callback (P : W -> Prop) fuel sampled p (aac : ptr octets) len w rc q w' :
  (forall o w rc w', P w -> emit o (zlen o) w = Ret (rc, w') -> P w') -> P w ->
  ngx_rtc_audio_transcode fuel sampled p aac len w = Ret (rc, q, w') -> P w'.
Proof.
  intros Hemit Hw. unfold ngx_rtc_audio_transcode. destruct p as [| a]; [by intros [= _ _ <-] |]. destruct aac as [| d]; [by intros [= _ _ <-] |].
  destruct (_ || _); [by intros [= _ _ <-] |]. destruct (load_range d 0 len) as [e |]; [rewrite bind_Ret | done].
  destruct (dec a) as [| c]; [done |]. destruct (avcodec_send_packet c e) as [rc1 c1]. destruct (rc1 <? 0); [by intros [= _ _ <-] |].
  destruct (decode_loop fuel sampled _) as [[rc2 b] |]; [rewrite bind_Ret | done]. destruct (rc2 <? 0); [by intros [= _ _ <-] |].
  unfold ngx_rtc_audio_encode. set (m := fuel) at 1. clearbody m. clear rc1 rc2. revert b w Hw. induction m as [| m IH]; intros b w Hw; [done |].
  cbn [encode_loop]. destruct (fifo b) as [| f]; [done |]. destruct (enc b) as [| e0]; [done |].
  destruct (_ <? _); [by intros [= _ _ <-] |]. destruct (av_audio_fifo_read _ _) as [[n pcm] f1]. destruct (n <? _); [by intros [= _ _ <-] |].
  pose proof (encode_law e0 pcm NGX_RTC_AUDIO_OPUS_MAX_PACKET) as Hl. destruct (opus_encode _ _ _) as [[nb o] e1].
  destruct (Z.ltb_spec nb 0); [by intros [= _ _ <-] |]. assert (Ho : nb = zlen o) by lia. rewrite Ho.
  destruct (emit o (zlen o) w) as [[rc3 w1] |] eqn:E0; [rewrite bind_Ret | done].
  destruct (rc3 <? 0); [intros [= _ _ <-]; by eapply Hemit | apply IH; by eapply Hemit].
Qed.

(** ** A frame that does not fit *)

Fixpoint transcode_all (fuel : nat) (sampled : bool) a (l : list octets) w : outcome (list Z * ngx_rtc_audio_t * W) :=
  match l with
  | [] => Ret ([], a, w)
  | aac :: l =>
      '(rc, p, w) ← ngx_rtc_audio_transcode fuel sampled (Ref a) (Ref aac) (zlen aac) w;
      match p with
      | NULL => Fault
      | Ref a => '(rcs, a, w) ← transcode_all fuel sampled a l w; Ret (rc :: rcs, a, w)
      end
  end.

(** A packet the decoder takes and makes no samples of. *)
Definition soundless a (aac : octets) : Prop :=
  exists d rc d1 d2 p2, dec a = Ref d /\ avcodec_send_packet d aac = (rc, d1) /\ 0 <= rc /\ decoded d1 (ready_swr a) [] d2 p2.

Lemma full_step sampled a (aac : octets) w :
  audio_ok a -> zlen (waiting a) = NGX_RTC_AUDIO_FIFO_MAX_SAMPLES ->
  soundless a aac \/
  exists n0 b, (forall fuel, (n0 <= fuel)%nat -> ngx_rtc_audio_transcode fuel sampled (Ref a) (Ref aac) (zlen aac) w = Ret (-1, Ref b, w)) /\
    audio_ok b /\ waiting b = waiting a.
Proof.
  intros Ha Hfull. pose proof Ha as [(d & Hd) (e & He) H3 H4]. pose proof (zlen_nonneg aac).
  destruct (avcodec_send_packet d aac) as [rc1 d1] eqn:E1. set (a1 := set_dec (Ref d1) a).
  assert (Ha1 : audio_ok a1) by (destruct Ha as [A1 A2 A3 A4]; split; try done; by exists d1).
  destruct (decide (zlen aac = 0 \/ NGX_RTC_AUDIO_AAC_MAX < zlen aac)) as [Hz | Hz].
  { right. exists O, a. split; [| done]. intros fuel _. unfold ngx_rtc_audio_transcode.
    destruct (Z.eqb_spec (zlen aac) 0); [done |]. by destruct (Z.ltb_spec NGX_RTC_AUDIO_AAC_MAX (zlen aac)); [| lia]. }
  assert (Hto : forall fuel, ngx_rtc_audio_transcode fuel sampled (Ref a) (Ref aac) (zlen aac) w =
    if rc1 <? 0 then Ret (-1, Ref a1, w) else
      '(rc, a) ← decode_loop fuel sampled a1;
      if rc <? 0 then Ret (-1, Ref a, w) else '(rc, a, w) ← ngx_rtc_audio_encode fuel a w; Ret (rc, Ref a, w)).
  { intros fuel. unfold ngx_rtc_audio_transcode. destruct (Z.eqb_spec (zlen aac) 0); [lia |].
    destruct (Z.ltb_spec NGX_RTC_AUDIO_AAC_MAX (zlen aac)); [lia |]. cbn [orb].
    rewrite load_range_in by lia. rewrite bind_Ret, Hd, zdrop_0, ztake_all by lia. by rewrite E1. }
  destruct (Z.ltb_spec rc1 0) as [Hneg | Hrc1].
  { right. exists O, a1. split; [intros fuel _; exact (Hto fuel) | done]. }
  destruct (decode_spec sampled (left d1) a1 d1 Ha1 eq_refl (le_n _)) as (n1 & rc2 & b & Eb & Hb & _ & Hdec).
  assert (Hout : forall out, waiting b = waiting a1 ++ out -> out = []).
  { intros out Ew. destruct Hb as [_ _ (f & Hf & _ & Hle) _]. assert (Hwb : waiting b = contents f) by (unfold waiting; by rewrite Hf).
    rewrite <- Hwb, Ew, zlen_app in Hle. change (waiting a1) with (waiting a) in Hle. rewrite Hfull in Hle.
    destruct out as [| o out]; [done |]. rewrite zlen_cons in Hle. pose proof (zlen_nonneg out). lia. }
  destruct Hdec as [(-> & pcm & d2 & Db & Hdec & Wb) | (-> & pcm & Wb)]; pose proof (Hout pcm Wb) as ->.
  - left. by exists d, rc1, d1, d2, (ready_swr b).
  - right. exists n1, b. split; [intros fuel Hf; by rewrite Hto, Eb by done |]. split; [done |]. by rewrite Wb, app_nil_r.
Qed.

(** C27: A full FIFO silences the stream.  Whatever packets come once it is full, each is refused with
    -1, hands nothing to the callback and leaves the FIFO full, up to the first that the decoder
    takes and makes no samples of, if one comes: samples are encoded only after all of a
    packet's are written, and there is no room to write any.  In the witness one
    packet at 8 kHz leaves the FIFO so. *)
Theorem full_fifo_silent sampled a (l : list octets) w :
  audio_ok a -> zlen (waiting a) = NGX_RTC_AUDIO_FIFO_MAX_SAMPLES ->
  exists n0 k b, (forall fuel, (n0 <= fuel)%nat -> transcode_all fuel sampled a (take k l) w = Ret (replicate k (-1), b, w)) /\
    waiting b = waiting a /\ (k = length l \/ exists aac, l !! k = Some aac /\ soundless b aac).
Proof.
  revert a. induction l as [| aac l IH]; intros a Ha Hfull; [by exists O, O, a; split_and!; [| | left] |].
  destruct (full_step sampled a aac w Ha Hfull) as [Hs | (n1 & b & Eb & Hb & Wb)].
  { exists O, O, a. split_and!; [done | done | right]. by exists aac. }
  destruct (IH b Hb ltac:(congruence)) as (n2 & k & c & Ec & Wc & Hend). exists (Nat.max n1 n2), (S k), c. split_and!.
  - intros fuel Hf. cbn [take transcode_all replicate]. by rewrite Eb, bind_Ret, Ec, bind_Ret by lia.
  - congruence.
  - destruct Hend as [-> | Hend]; [by left | right; exact Hend].
Qed.
End audio.

(** ** A codec of counts: each packet is one frame of [per_frame] samples at 48 kHz *)

Definition demo_codec (per_frame : Z) : Codec nat unit nat samples unit :=
  let convert (r : nat) (cap : Z) (f : ptr unit) :=
    let m := if is_null f then Z.of_nat r else Z.of_nat r + per_frame in
    let n := Z.min cap m in (n, replicate (Z.to_nat n) 0, Z.to_nat (m - n)) in
  {| avcodec_open := fun _ => Ref 0%nat; avcodec_send_packet := fun _ _ => (0, 1%nat);
     avcodec_receive_frame := fun d => match d with S n => (0, tt, n) | O => (AVERROR_EAGAIN, tt, O) end;
     swr_alloc := fun _ => Ref 0%nat; swr_init := fun r => (0, r); swr_convert := convert; swr_get_out_samples := Z.of_nat;
     av_audio_fifo_size := zlen; av_audio_fifo_write := fun f l n => (n, f ++ ztake n l);
     av_audio_fifo_read := fun f n => (n, ztake n f, zdrop n f); opus_encode := fun _ l cap => (Z.min cap 2, ztake cap [1; 2], tt) |}.

Definition demo_laws k : CodecLaws (H := demo_codec k) nat unit nat samples unit.
Proof.
  refine {| left := fun d : nat => d; held := fun r : nat => r; contents := fun f : samples => f; space := fun _ : samples => NGX_RTC_AUDIO_FIFO_MAX_SAMPLES |}; cbn.
  - intros [| d]; cbn; [unfold AVERROR_EAGAIN; lia | lia].
  - intros r cap f. set (n := Z.min cap _). destruct (Z.ltb_spec n 0); [by left | right]. unfold zlen. rewrite length_replicate. lia.
  - intros r cap Hc Hr. right. lia.
  - done.
  - intros f l n Hn _. done.
  - intros f n Hn. done.
  - intros _ l cap. destruct (Z.ltb_spec cap 0); [left; lia | right]. rewrite zlen_ztake by lia. unfold zlen. cbn. lia.
Defined.

Definition demo_grants : grants (D := nat) (F := samples) (E := unit) :=
  {| g_struct := true; g_codec := true; g_context := true; g_extradata := true; g_frame := true; g_packet := true;
     g_fifo := Ref []; g_pcm := true; g_enc := Ref tt; g_enc_error := false; g_raw := 0%nat |}.
Abbreviation demo_audio := (ngx_rtc_audio_t (D := nat) (R := nat) (F := samples) (E := unit)).

Definition started : demo_audio :=
  match ngx_rtc_audio_create (HC := demo_codec 1024) demo_grants (Ref [17; 144]) 2 64000 with Ret (Ref a, _) => a | _ => zero_audio end.

Lemma started_ok k : audio_ok (HL := demo_laws k) started.
Proof. split; [by eexists | by eexists | exists []; split_and!; [done | done | by vm_compute] | done]. Qed.

Definition collect (o : octets) (n : Z) (w : list octets) : outcome (Z * list octets) := Ret (0, w ++ [o]).

Lemma transcode_exact_witness :
  exists n0 rc b w', (forall fuel, (n0 <= fuel)%nat ->
    ngx_rtc_audio_transcode (HC := demo_codec 1024) collect fuel true (Ref started) (Ref [33; 0; 73]) 3 [] = Ret (rc, Ref b, w')) /\
    audio_ok (HL := demo_laws 1024) b.
Proof.
  destruct (transcode_exact (HC := demo_codec 1024) (HL := demo_laws 1024) collect true started [33; 0; 73] 3 []) as (n0 & rc & b & w' & E & Hb & _).
  - intros o w. by eexists _, _.
  - apply started_ok.
  - unfold NGX_RTC_AUDIO_AAC_MAX. lia.
  - done.
  - by exists n0, rc, b, w'.
Defined.

Example transcode_at_48k :
  match ngx_rtc_audio_transcode (HC := demo_codec 1024) collect 5 true (Ref started) (Ref [33; 0; 73]) 3 [] with
  | Ret (rc, Ref b, w) => (rc, zlen (waiting (HL := demo_laws 1024) b), w) = (0, 0, [[1; 2]])
  | _ => False
  end.
Proof. by vm_compute. Qed.

(** At 8 kHz a frame of 1024 samples is 6144 at 48 kHz. *)
Definition deafened : demo_audio :=
  match ngx_rtc_audio_transcode (HC := demo_codec 6144) collect 9 true (Ref started) (Ref [33; 0; 73]) 3 [] with
  | Ret (_, Ref a, _) => a
  | _ => zero_audio
  end.

(** The codec of 6144 samples makes samples of every packet. *)
Lemma demo_first (r : nat) : exists x l, ztake (Z.min 960 (Z.of_nat r + 6144)) (replicate (Z.to_nat (Z.min 960 (Z.of_nat r + 6144))) 0) = x :: l.
Proof. replace (Z.min 960 (Z.of_nat r + 6144)) with 960 by lia. by eexists _, _. Qed.

Lemma demo_pumped r f out r' : pumped (HC := demo_codec 6144) r (Ref f) out r' -> out <> [].
Proof.
  destruct (demo_first r) as (x & l & E).
  intros Hp. inversion Hp as [? ? n o ? Ec | ? ? n o ? rest ? Ec]; subst; cbn in Ec; injection Ec as <- <- _;
    unfold NGX_RTC_AUDIO_OPUS_FRAME_SIZE in *; rewrite E; discriminate.
Qed.

Lemma demo_sounds d p out d2 p2 : decoded (HC := demo_codec 6144) d p out d2 p2 -> d = 1%nat -> out <> [].
Proof.
  intros Hd ->. inversion Hd as [? ? rc f ? Er Hrc | ? ? rc f ? r o ? rest ? ? Er _ _ Hp _]; subst; cbn in Er.
  - injection Er as <- _ _. unfold AVERROR_EAGAIN, AVERROR_EOF in Hrc. lia.
  - apply demo_pumped in Hp. by destruct o.
Qed.

Lemma full_fifo_silent_witness :
  (ngx_rtc_audio_transcode (HC := demo_codec 6144) collect 9 true (Ref started) (Ref [33; 0; 73]) 3 [] = Ret (-1, Ref deafened, [])) /\
  exists n0 b, forall fuel, (n0 <= fuel)%nat ->
    transcode_all (HC := demo_codec 6144) collect fuel true deafened [[33; 0; 74]; [33; 0; 75]; [33; 0; 76]] [] = Ret ([-1; -1; -1], b, []).
Proof.
  split; [vm_compute; reflexivity |].
  destruct (full_fifo_silent (HC := demo_codec 6144) (HL := demo_laws 6144) collect true deafened [[33; 0; 74]; [33; 0; 75]; [33; 0; 76]] [])
    as (n0 & k & b & E & _ & [-> | (aac & _ & d & rc & d1 & d2 & p2 & _ & Es & _ & Hdec)]).
  - split; [by eexists | by eexists | eexists; split; [reflexivity | vm_compute; split; congruence] | intros _; by eexists].
  - by vm_compute.
  - exists n0, b. exact E.
  - exfalso. apply (demo_sounds d1 (ready_swr b) [] d2 p2 Hdec); [by injection Es as _ <- | reflexivity].
Defined.
End Audio.
