(* ===== verification/AudioWorker.v ===== *)
(** The thread that transcodes, src/ngx_rtc_audio_worker.c: the event loop and the thread as
    two processes that take turns at the mutex, with a byte ring each way and a condition
    variable.

    A step of either is one critical section, with what the process does until the next one;
    the transcoder belongs to the thread, so a call of it is part of the step that gave it the
    frame, and what it emits is queued one critical section after another. *)

From S2P Require Import Prelude RingBuf Audio.
From stdpp Require Import list.
Import RingBuf Audio.

#[local] Open Scope Z_scope.

Module AudioWorker.

Definition NGX_RTC_AUDIO_WORKER_RING_CAP : Z := 16.
Definition NGX_RTC_AUDIO_IN_ARENA_BYTES : Z := NGX_RTC_AUDIO_WORKER_RING_CAP * (4 + NGX_RTC_AUDIO_AAC_MAX).
Definition NGX_RTC_AUDIO_OUT_ARENA_BYTES : Z := NGX_RTC_AUDIO_WORKER_RING_CAP * (4 + NGX_RTC_AUDIO_OPUS_MAX_PACKET).

Abbreviation vring := VRing.ngx_rtc_vring_t.

Section worker.
Context {D A R F E : Type} `{HC : Codec D A R F E}.
Abbreviation audio := (ngx_rtc_audio_t (D := D) (R := R) (F := F) (E := E)).

Record ngx_rtc_audio_worker_t := {
  stop : Z;
  a : ptr audio;
  inq : ptr vring;
  outq : ptr vring;
  in_dropped : Z;
  out_dropped : Z
}.

Definition worker_eta (w : ngx_rtc_audio_worker_t) : ngx_rtc_audio_worker_t :=
  {| stop := stop w; a := a w; inq := inq w; outq := outq w; in_dropped := in_dropped w; out_dropped := out_dropped w |}.
Definition set_stop := ltac:(setter worker_eta stop).
Definition set_a := ltac:(setter worker_eta a).
Definition set_inq := ltac:(setter worker_eta inq).
Definition set_outq := ltac:(setter worker_eta outq).
Definition set_in_dropped := ltac:(setter worker_eta in_dropped).
Definition set_out_dropped := ltac:(setter worker_eta out_dropped).
Implicit Types (w : ngx_rtc_audio_worker_t).

(** *** Making and ending one *)

Inductive resource := Mutex | Cond | Transcoder | InRing | OutRing | Struct.
#[global] Instance resource_eq_dec : EqDecision resource.
Proof. solve_decision. Defined.

(** What the allocators and pthread grant; [g_audio] is what ngx_rtc_audio_create returns. *)
Record grants := {
  g_struct : bool;
  g_mutex : bool;
  g_cond : bool;
  g_audio : ptr audio;
  g_in : bool;
  g_out : bool;
  g_thread : bool
}.

Definition no_ring : vring := {| VRing.buf := NULL; VRing.capacity := 0; VRing.head := 0; VRing.tail := 0; VRing.bytes := 0 |}.
Definition held_by (p : ptr vring) : bool := match p with Ref r => negb (is_null (VRing.buf r)) | NULL => false end.

(** What the label fail releases, in order. *)
Definition released (mutex_ok cond_ok : bool) w : list resource :=
  (if is_null (a w) then [] else [Transcoder]) ++ (if held_by (outq w) then [OutRing] else []) ++
  (if held_by (inq w) then [InRing] else []) ++ (if cond_ok then [Cond] else []) ++ (if mutex_ok then [Mutex] else []) ++ [Struct].

(** The worker with its thread started, or none and what was released. *)
Definition ngx_rtc_audio_worker_create (g : grants) : ptr ngx_rtc_audio_worker_t * list resource :=
  if negb (g_struct g) then (NULL, [])
  else
    let w := {| stop := 0; a := NULL; inq := Ref no_ring; outq := Ref no_ring; in_dropped := 0; out_dropped := 0 |} in
    let fail mutex_ok cond_ok w := (NULL, released mutex_ok cond_ok w) in
    if negb (g_mutex g) then fail false false w
    else if negb (g_cond g) then fail true false w
    else
      let w := set_a (g_audio g) w in
      if is_null (a w) then fail true true w
      else
        let '(rc, r) := VRing.ngx_rtc_vring_init (g_in g) (inq w) NGX_RTC_AUDIO_IN_ARENA_BYTES in
        let w := set_inq r w in
        if negb (rc =? 0) then fail true true w
        else
          let '(rc, r) := VRing.ngx_rtc_vring_init (g_out g) (outq w) NGX_RTC_AUDIO_OUT_ARENA_BYTES in
          let w := set_outq r w in
          if negb (rc =? 0) then fail true true w
          else if negb (g_thread g) then fail true true w
          else (Ref w, []).

(** *** The calls of the event loop *)

(** The answer, the worker, and whether the condition variable is signalled. *)
Definition ngx_rtc_audio_worker_push (p : ptr ngx_rtc_audio_worker_t) (aac : ptr octets) (len : Z)
    : outcome (Z * ptr ngx_rtc_audio_worker_t * bool) :=
  match p with
  | NULL => Ret (-1, p, false)
  | Ref w =>
      if is_null aac || (len =? 0) || (NGX_RTC_AUDIO_AAC_MAX <? len) then Ret (-1, p, false)
      else
        '(rc, r) ← VRing.ngx_rtc_vring_push (inq w) aac len;
        let w := set_inq r w in
        Ret (rc, Ref (if rc =? 0 then w else set_in_dropped (u32 (in_dropped w + 1)) w), rc =? 0)
  end.

(** One round of the loop of ngx_rtc_audio_worker_drain: the frame it hands to emit. *)
Definition drain_one w : outcome (option octets * ngx_rtc_audio_worker_t) :=
  '(rc, r, o, n) ← VRing.ngx_rtc_vring_pop (outq w) (Ref (zeros NGX_RTC_AUDIO_OPUS_MAX_PACKET)) NGX_RTC_AUDIO_OPUS_MAX_PACKET (Ref 0);
  let w := set_outq r w in
  match o, n with
  | Ref o, Ref n => if negb (rc =? 0) then Ret (None, w) else d ← load_range o 0 n; Ret (Some d, w)
  | _, _ => Fault
  end.

(** The loop, when the thread does nothing meanwhile: the frames handed to emit, in order. *)
Fixpoint ngx_rtc_audio_worker_drain (fuel : nat) w : outcome (list octets * ngx_rtc_audio_worker_t) :=
  match fuel with
  | O => Fault
  | S fuel =>
      '(o, w) ← drain_one w;
      match o with
      | None => Ret ([], w)
      | Some d => '(l, w) ← ngx_rtc_audio_worker_drain fuel w; Ret (d :: l, w)
      end
  end.

Definition ngx_rtc_audio_worker_drop_stats (p : ptr ngx_rtc_audio_worker_t) (i o : ptr Z) : ptr Z * ptr Z :=
  match p with
  | NULL => (i, o)
  | Ref w => (if is_null i then i else Ref (in_dropped w), if is_null o then o else Ref (out_dropped w))
  end.

(** *** The thread *)

(** The callback of the transcoder. *)
Definition ngx_rtc_audio_worker_emit (p : ptr ngx_rtc_audio_worker_t) (opus : ptr octets) (len : Z)
    : outcome (Z * ptr ngx_rtc_audio_worker_t) :=
  match p with
  | NULL => Ret (-1, p)
  | Ref w =>
      if is_null opus || (len =? 0) || (NGX_RTC_AUDIO_OPUS_MAX_PACKET <? len) then Ret (-1, p)
      else
        '(rc, r) ← VRing.ngx_rtc_vring_push (outq w) opus len;
        let w := set_outq r w in
        Ret (0, Ref (if rc =? 0 then w else set_out_dropped (u32 (out_dropped w + 1)) w))
  end.

(** Where the thread is: about to look at the queue; waiting on the condition variable; with
    frames the transcoder emitted and that are not queued yet; or gone. *)
Inductive thread := Looking | Waiting | Emitting (l : list octets) | Gone.

(** What the callback answers does not depend on the rings, so the frames a call of the
    transcoder emits do not either. *)
Definition keep (opus : octets) (len : Z) (l : list octets) : outcome (Z * list octets) :=
  if (len =? 0) || (NGX_RTC_AUDIO_OPUS_MAX_PACKET <? len) then Ret (-1, l)
  else d ← load_range opus 0 len; Ret (0, l ++ [d]).

(** The thread's next critical section; [fuel] and [sampled] are those of the transcoder. *)
Definition ngx_rtc_audio_worker_main (fuel : nat) (sampled : bool) w (t : thread) : outcome (ngx_rtc_audio_worker_t * thread) :=
  match t with
  | Gone | Waiting => Ret (w, t)
  | Emitting [] => Ret (w, Looking)
  | Emitting (o :: l) =>
      '(_, p) ← ngx_rtc_audio_worker_emit (Ref w) (Ref o) (zlen o);
      match p with NULL => Fault | Ref w => Ret (w, Emitting l) end
  | Looking =>
      if negb (stop w =? 0) then Ret (w, Gone)
      else if negb (VRing.ngx_rtc_vring_empty (inq w) =? 0) then Ret (w, Waiting)
      else
        '(_, r, o, n) ← VRing.ngx_rtc_vring_pop (inq w) (Ref (zeros NGX_RTC_AUDIO_AAC_MAX)) NGX_RTC_AUDIO_AAC_MAX (Ref 0);
        let w := set_inq r w in
        match o, n with
        | Ref aac, Ref len =>
            '(_, x, l) ← ngx_rtc_audio_transcode keep fuel sampled (a w) (Ref aac) len [];
            Ret (set_a x w, Emitting l)
        | _, _ => Fault
        end
  end.

(** ** The two processes *)

(** What the scheduler picks: a call of the event loop, a critical section of the thread, or a
    spurious wakeup. *)
Inductive action := Push (aac : octets) | Drain | Stop | Thread | Wake.

(** What the event loop sees. *)
Inductive seen := Answer (rc : Z) | Frame (o : option octets) | Nothing.

Definition woken (t : thread) : thread := match t with Waiting => Looking | _ => t end.

Definition act (fuel : nat) (sampled : bool) (x : action) (s : ngx_rtc_audio_worker_t * thread)
    : outcome (seen * (ngx_rtc_audio_worker_t * thread)) :=
  let '(w, t) := s in
  match x with
  | Push aac =>
      '(rc, p, signal) ← ngx_rtc_audio_worker_push (Ref w) (Ref aac) (zlen aac);
      match p with NULL => Fault | Ref w => Ret (Answer rc, (w, if (signal : bool) then woken t else t)) end
  | Drain => '(o, w) ← drain_one w; Ret (Frame o, (w, t))
  | Stop => Ret (Nothing, (set_stop 1 w, woken t))
  | Thread => s ← ngx_rtc_audio_worker_main fuel sampled w t; Ret (Nothing, s)
  | Wake => Ret (Nothing, (w, woken t))
  end.

Fixpoint run (fuel : nat) (sampled : bool) (l : list action) (s : ngx_rtc_audio_worker_t * thread)
    : outcome (list seen * (ngx_rtc_audio_worker_t * thread)) :=
  match l with
  | [] => Ret ([], s)
  | x :: l => '(o, s) ← act fuel sampled x s; '(os, s) ← run fuel sampled l s; Ret (o :: os, s)
  end.

(** The frames the event loop got rid of, the ones refused although they are frames, and the
    ones it was given. *)
Definition accepted_one (p : action * seen) : list octets :=
  match p with (Push aac, Answer rc) => if rc =? 0 then [aac] else [] | _ => [] end.
Definition refused_one (p : action * seen) : Z :=
  match p with (Push aac, Answer rc) => if (0 <? zlen aac) && (zlen aac <=? NGX_RTC_AUDIO_AAC_MAX) && negb (rc =? 0) then 1 else 0 | _ => 0 end.
Definition delivered_one (o : seen) : list octets := match o with Frame (Some d) => [d] | _ => [] end.
Definition accepted (l : list action) (os : list seen) : list octets := concat (map accepted_one (combine l os)).
Definition refused (l : list action) (os : list seen) : Z := foldr Z.add 0 (map refused_one (combine l os)).
Definition delivered (os : list seen) : list octets := concat (map delivered_one os).

(** *** What holds between two critical sections *)

Context `{HL : !CodecLaws D A R F E}.

(** A call of the transcoder: the frame it is given, and what it emits. *)
Definition turned (sampled : bool) (x : audio) (aac : octets) (y : audio) (l : list octets) : Prop :=
  exists n0 rc, forall fuel, (n0 <= fuel)%nat -> ngx_rtc_audio_transcode keep fuel sampled (Ref x) (Ref aac) (zlen aac) [] = Ret (rc, Ref y, l).

Inductive transcoded (sampled : bool) : audio -> list octets -> audio -> list octets -> Prop :=
  | transcoded_none x : transcoded sampled x [] x []
  | transcoded_more x fed y made aac z l :
      transcoded sampled x fed y made -> turned sampled y aac z l -> transcoded sampled x (fed ++ [aac]) z (made ++ l).

Definition pending (t : thread) : list octets := match t with Emitting l => l | _ => [] end.
Definition opus_frame (o : octets) : Prop := 0 < zlen o <= NGX_RTC_AUDIO_OPUS_MAX_PACKET.
Definition aac_frame (o : octets) : Prop := 0 < zlen o <= NGX_RTC_AUDIO_AAC_MAX.

(** The rings hold the frames accepted and not yet given to the transcoder, and the ones it
    emitted and that were not yet delivered; [made] is what was offered to the outgoing ring. *)
Record flows (sampled : bool) (x0 : audio) (l : list action) (os : list seen) w (t : thread) : Prop := {
  fl_seen : length os = length l;
  fl_in : exists r q fed x made, inq w = Ref r /\ VRing.vring_rep NGX_RTC_AUDIO_IN_ARENA_BYTES r q /\ Forall aac_frame q /\
    accepted l os = fed ++ q /\ a w = Ref x /\ audio_ok x /\ transcoded sampled x0 fed x (made ++ pending t) /\
    (t = Waiting -> q = [] /\ stop w = 0) /\
    exists r2 q2 lost, outq w = Ref r2 /\ VRing.vring_rep NGX_RTC_AUDIO_OUT_ARENA_BYTES r2 q2 /\ Forall opus_frame q2 /\
      sublist (delivered os ++ q2) made /\ zlen made = zlen (delivered os ++ q2) + lost /\ out_dropped w = u32 lost;
  fl_refused : in_dropped w = u32 (refused l os);
  fl_pending : Forall opus_frame (pending t)
}.

Lemma combine_snoc {X Y} (l : list X) : forall (k : list Y) x y, length k = length l -> combine (l ++ [x]) (k ++ [y]) = combine l k ++ [(x, y)].
Proof. induction l as [| u l IH]; intros [| v k] x y Hl; try done. cbn. f_equal. apply IH. cbn in Hl. lia. Qed.

Lemma accepted_snoc l os x o : length os = length l -> accepted (l ++ [x]) (os ++ [o]) = accepted l os ++ accepted_one (x, o).
Proof. intros Hl. unfold accepted. by rewrite combine_snoc, map_app, concat_app; [cbn; rewrite app_nil_r |]. Qed.

Lemma refused_snoc l os x o : length os = length l -> refused (l ++ [x]) (os ++ [o]) = refused l os + refused_one (x, o).
Proof.
  intros Hl. unfold refused. rewrite combine_snoc, map_app by done. generalize (map refused_one (combine l os)). cbn [map].
  intros k. induction k as [| z k IH]; cbn in *; lia.
Qed.

Lemma delivered_snoc os o : delivered (os ++ [o]) = delivered os ++ delivered_one o.
Proof. unfold delivered. rewrite map_app, concat_app. cbn. by rewrite app_nil_r. Qed.

Lemma keep_frames o l rc l' : Forall opus_frame l -> keep o (zlen o) l = Ret (rc, l') -> Forall opus_frame l'.
Proof.
  intros Hl. unfold keep. destruct (Z.eqb_spec (zlen o) 0); [by intros [= _ <-] |].
  destruct (Z.ltb_spec NGX_RTC_AUDIO_OPUS_MAX_PACKET (zlen o)); [by intros [= _ <-] |]. cbn [orb]. pose proof (zlen_nonneg o).
  rewrite load_range_in, bind_Ret by lia. rewrite zdrop_0, ztake_all by lia. intros [= _ <-]. apply Forall_app. split; [done |].
  constructor; [unfold opus_frame; lia | constructor].
Qed.

(** One call of the transcoder on a frame at the start of a larger buffer. *)
Lemma turn sampled (x : audio) (aac rest : octets) :
  audio_ok x -> aac_frame aac ->
  exists n0 rc y l, turned sampled x aac y l /\ audio_ok y /\ Forall opus_frame l /\
    forall fuel, (n0 <= fuel)%nat -> ngx_rtc_audio_transcode keep fuel sampled (Ref x) (Ref (aac ++ rest)) (zlen aac) [] = Ret (rc, Ref y, l).
Proof.
  intros Hx Hf. unfold aac_frame in Hf.
  assert (Hkeep : forall o l, exists rc l', keep o (zlen o) l = Ret (rc, l')).
  { intros o l. unfold keep. destruct (_ || _); [by eexists _, _ |]. pose proof (zlen_nonneg o). rewrite load_range_in, bind_Ret by lia. by eexists _, _. }
  destruct (transcode_exact keep sampled x aac (zlen aac) [] Hkeep Hx Hf ltac:(lia)) as (n0 & rc & y & l & E0 & Hy & _).
  assert (Hbuf : forall fuel, ngx_rtc_audio_transcode keep fuel sampled (Ref x) (Ref (aac ++ rest)) (zlen aac) []
    = ngx_rtc_audio_transcode keep fuel sampled (Ref x) (Ref aac) (zlen aac) []).
  { intros fuel. unfold ngx_rtc_audio_transcode. destruct (_ || _); [done |]. pose proof (zlen_nonneg rest).
    rewrite !load_range_in by (rewrite ?zlen_app; lia). rewrite !zdrop_0, ztake_app_length, ztake_all by lia. done. }
  exists n0, rc, y, l. split; [by exists n0, rc |]. split; [done |]. split; [| intros fuel Hn; rewrite Hbuf; by apply E0].
  eapply (transcode_callback keep (Forall opus_frame)); [by intros; eapply keep_frames | constructor | apply (E0 n0 (le_n _))].
Qed.

(** What an action leads to. *)
Definition moves (sampled : bool) (x0 : audio) (l : list action) (os : list seen) w (t : thread) (x : action) : Prop :=
  exists n0 o w' t', (forall fuel, (n0 <= fuel)%nat -> act fuel sampled x (w, t) = Ret (o, (w', t'))) /\
    flows sampled x0 (l ++ [x]) (os ++ [o]) w' t'.

Lemma seen_snoc l os (x : action) (o : seen) : length os = length l -> length (os ++ [o]) = length (l ++ [x]).
Proof. intros Hl. rewrite !length_app. cbn. lia. Qed.

Lemma push_moves sampled x0 l os w t aac : flows sampled x0 l os w t -> moves sampled x0 l os w t (Push aac).
Proof.
  intros [Hseen (r & q & fed & x & made & Hi & Hr & Hq & Hacc & Ha & Hx & Htr & Hwait & r2 & q2 & lost & Ho & Hr2 & Hq2 & Hsub & Hlost & Hod) Href Hpend].
  unfold moves. cbn [act]. unfold ngx_rtc_audio_worker_push. cbn [is_null orb]. pose proof (zlen_nonneg aac).
  destruct ((zlen aac =? 0) || (NGX_RTC_AUDIO_AAC_MAX <? zlen aac)) eqn:Ebad.
  { exists O, (Answer (-1)), w, t. split; [done |]. split; [by apply seen_snoc | | | done].
    - rewrite accepted_snoc, delivered_snoc by done. cbn [accepted_one delivered_one Z.eqb]. rewrite !app_nil_r.
      exists r, q, fed, x, made. split_and!; try done; by exists r2, q2, lost.
    - rewrite refused_snoc by done. cbn [refused_one]. rewrite Href. f_equal.
      destruct (Z.ltb_spec 0 (zlen aac)), (Z.leb_spec (zlen aac) NGX_RTC_AUDIO_AAC_MAX); cbn [andb Z.eqb negb]; try lia. }
  assert (Hf : aac_frame aac).
  { unfold aac_frame. destruct (Z.eqb_spec (zlen aac) 0), (Z.ltb_spec NGX_RTC_AUDIO_AAC_MAX (zlen aac)); try discriminate Ebad. lia. }
  destruct (VRing.vring_push_refines _ r q aac Hr) as (r' & Epush & Hr'); [unfold aac_frame, NGX_RTC_AUDIO_AAC_MAX in Hf; lia |].
  unfold VRing.spec_push in Epush, Hr'.
  destruct ((zlen aac =? 0) || (NGX_RTC_AUDIO_IN_ARENA_BYTES <? zlen (VRing.frames q) + (4 + zlen aac))); cbn [fst snd] in Epush, Hr';
    rewrite Hi, Epush, bind_Ret.
  - change (-1 =? 0) with false. cbv iota. exists O, (Answer (-1)), (set_in_dropped (u32 (in_dropped w + 1)) (set_inq (Ref r') w)), t.
    split; [done |]. split; [by apply seen_snoc | | | done].
    + rewrite accepted_snoc, delivered_snoc by done. cbn [accepted_one delivered_one Z.eqb]. rewrite !app_nil_r.
      exists r', q, fed, x, made. split_and!; try done; by exists r2, q2, lost.
    + rewrite refused_snoc by done. cbn [refused_one in_dropped]. unfold aac_frame in Hf.
      destruct (Z.ltb_spec 0 (zlen aac)); [| lia]. destruct (Z.leb_spec (zlen aac) NGX_RTC_AUDIO_AAC_MAX); [| lia]. cbn [andb Z.eqb negb].
      change (u32 (in_dropped w + 1) = u32 (refused l os + 1)). by rewrite Href, u32_add_l.
  - change (0 =? 0) with true. cbv iota. exists O, (Answer 0), (set_inq (Ref r') w), (woken t).
    split; [done |]. assert (Hp : pending (woken t) = pending t) by by destruct t.
    split; [by apply seen_snoc | | | by rewrite Hp].
    + rewrite accepted_snoc, delivered_snoc by done. cbn [accepted_one delivered_one Z.eqb]. rewrite app_nil_r, Hp.
      exists r', (q ++ [aac]), fed, x, made. split_and!; try done; [apply Forall_app; split; [done | by constructor] | by rewrite Hacc, app_assoc | by destruct t |].
      by exists r2, q2, lost.
    + rewrite refused_snoc by done. cbn [refused_one]. change (in_dropped (set_inq (Ref r') w)) with (in_dropped w). cbn [Z.eqb negb]. by rewrite andb_false_r, Z.add_0_r.
Qed.

Lemma load_range_start (o rest : octets) : load_range (o ++ rest) 0 (zlen o) = Ret o.
Proof.
  pose proof (zlen_nonneg o). pose proof (zlen_nonneg rest). rewrite load_range_in by (rewrite ?zlen_app; lia).
  by rewrite zdrop_0, ztake_app_length.
Qed.

Lemma drain_moves sampled x0 l os w t : flows sampled x0 l os w t -> moves sampled x0 l os w t Drain.
Proof.
  intros [Hseen (r & q & fed & x & made & Hi & Hr & Hq & Hacc & Ha & Hx & Htr & Hwait & r2 & q2 & lost & Ho & Hr2 & Hq2 & Hsub & Hlost & Hod) Href Hpend].
  unfold moves. cbn [act]. unfold drain_one. rewrite Ho.
  assert (Hout : 0 <= NGX_RTC_AUDIO_OPUS_MAX_PACKET <= zlen (zeros NGX_RTC_AUDIO_OPUS_MAX_PACKET)) by by vm_compute.
  destruct (VRing.vring_pop_refines _ r2 q2 (zeros NGX_RTC_AUDIO_OPUS_MAX_PACKET) NGX_RTC_AUDIO_OPUS_MAX_PACKET 0 Hr2 Hout) as (r' & Epop & Hr').
  destruct q2 as [| o q2]; cbn [VRing.spec_pop] in Epop, Hr'; cbn [snd] in Hr'.
  - rewrite Epop, bind_Ret. change (-1 =? 0) with false. cbn [negb]. rewrite bind_Ret.
    exists O, (Frame None), (set_outq (Ref r') w), t. split; [done |]. split; [by apply seen_snoc | | | done].
    + rewrite accepted_snoc, delivered_snoc by done. cbn [accepted_one delivered_one]. rewrite app_nil_r, app_nil_r.
      exists r, q, fed, x, made. split_and!; try done; by exists r', [], lost.
    + rewrite refused_snoc by done. cbn [refused_one]. by rewrite Z.add_0_r.
  - inversion Hq2 as [| ? ? Hof Hq2']; subst. unfold opus_frame in Hof.
    destruct (Z.ltb_spec NGX_RTC_AUDIO_OPUS_MAX_PACKET (zlen o)); [lia |]. cbn [snd] in Hr'. rewrite Epop, bind_Ret. change (0 =? 0) with true. cbn [negb].
    rewrite load_range_start, !bind_Ret.
    exists O, (Frame (Some o)), (set_outq (Ref r') w), t. split; [done |]. split; [by apply seen_snoc | | | done].
    + rewrite accepted_snoc, delivered_snoc by done. cbn [accepted_one delivered_one]. rewrite app_nil_r.
      exists r, q, fed, x, made. split_and!; try done. exists r', q2, lost. rewrite <- !app_assoc. by split_and!.
    + rewrite refused_snoc by done. cbn [refused_one]. by rewrite Z.add_0_r.
Qed.

(** Actions on neither ring. *)
Lemma still_moves sampled x0 l os w t x w' t' :
  flows sampled x0 l os w t -> (forall fuel, act fuel sampled x (w, t) = Ret (Nothing, (w', t'))) ->
  a w' = a w -> inq w' = inq w -> outq w' = outq w -> in_dropped w' = in_dropped w -> out_dropped w' = out_dropped w ->
  pending t' = pending t -> (t' = Waiting -> (t = Waiting /\ stop w' = stop w) \/ exists r, inq w = Ref r /\ VRing.ngx_rtc_vring_empty (Ref r) <> 0 /\ stop w' = 0) ->
  moves sampled x0 l os w t x.
Proof.
  intros [Hseen (r & q & fed & y & made & Hi & Hr & Hq & Hacc & Ha & Hx & Htr & Hwait & Hout) Href Hpend] E0 E1 E2 E3 E4 E5 E6 E7.
  exists O, Nothing, w', t'. split; [done |]. split; [by apply seen_snoc | | | by rewrite E6].
  - rewrite accepted_snoc, delivered_snoc by done. cbn [delivered_one]. assert (En : accepted_one (x, Nothing) = []) by by destruct x.
    rewrite En, !app_nil_r, E1, E2, E3, E5, E6. exists r, q, fed, y, made. split_and!; try done.
    intros Hw. destruct (E7 Hw) as [[Ht ->] | (r0 & Er & Hem & ->)]; [by apply Hwait |]. split; [| done].
      assert (r0 = r) as -> by congruence. rewrite (VRing.vring_rep_empty _ _ _ Hr) in Hem. by destruct q.
  - rewrite refused_snoc, E4, Href by done. f_equal. destruct x; cbn; lia.
Qed.

(** The callback queues a frame or counts it lost. *)
Lemma emit_moves sampled x0 l os w o rest : flows sampled x0 l os w (Emitting (o :: rest)) -> moves sampled x0 l os w (Emitting (o :: rest)) Thread.
Proof.
  intros [Hseen (r & q & fed & x & made & Hi & Hr & Hq & Hacc & Ha & Hx & Htr & Hwait & r2 & q2 & lost & Ho & Hr2 & Hq2 & Hsub & Hlost & Hod) Href Hpend].
  cbn [pending] in Htr, Hpend. inversion Hpend as [| ? ? Hof Hrest]; subst. unfold opus_frame in Hof.
  assert (Hseq : made ++ o :: rest = (made ++ [o]) ++ rest) by by rewrite <- app_assoc. rewrite Hseq in Htr.
  destruct (VRing.vring_push_refines _ r2 q2 o Hr2) as (r' & Epush & Hr'); [unfold NGX_RTC_AUDIO_OPUS_MAX_PACKET in Hof; lia |].
  assert (Eemit : forall w', ngx_rtc_audio_worker_emit (Ref w) (Ref o) (zlen o) = Ret (0, Ref w') ->
    forall fuel, act fuel sampled Thread (w, Emitting (o :: rest)) = Ret (Nothing, (w', Emitting rest))).
  { intros w' E0 fuel. cbn [act ngx_rtc_audio_worker_main]. by rewrite E0, !bind_Ret. }
  assert (Etry : ngx_rtc_audio_worker_emit (Ref w) (Ref o) (zlen o) = '(rc, r) ← VRing.ngx_rtc_vring_push (outq w) (Ref o) (zlen o);
    let w := set_outq r w in Ret (0, Ref (if rc =? 0 then w else set_out_dropped (u32 (out_dropped w + 1)) w))).
  { unfold ngx_rtc_audio_worker_emit. cbn [is_null orb]. destruct (Z.eqb_spec (zlen o) 0); [lia |].
    by destruct (Z.ltb_spec NGX_RTC_AUDIO_OPUS_MAX_PACKET (zlen o)); [lia |]. }
  rewrite Ho, Epush, bind_Ret in Etry. unfold VRing.spec_push in Etry, Hr'.
  destruct ((zlen o =? 0) || (NGX_RTC_AUDIO_OUT_ARENA_BYTES <? zlen (VRing.frames q2) + (4 + zlen o))); cbn [fst snd] in Etry, Hr'.
  - change (-1 =? 0) with false in Etry. cbv iota zeta in Etry.
    eexists O, Nothing, _, (Emitting rest). split; [intros fuel _; exact (Eemit _ Etry fuel) |].
    split; [by apply seen_snoc | | | done].
    + rewrite accepted_snoc, delivered_snoc by done. cbn [accepted_one delivered_one pending]. rewrite !app_nil_r.
      exists r, q, fed, x, (made ++ [o]). split_and!; try done. exists r', q2, (lost + 1). split_and!; try done.
      * by apply sublist_inserts_r.
      * rewrite zlen_app, Hlost. change (zlen [o]) with 1. lia.
      * change (u32 (out_dropped w + 1) = u32 (lost + 1)). by rewrite Hod, u32_add_l.
    + rewrite refused_snoc by done. cbn [refused_one]. by rewrite Z.add_0_r.
  - change (0 =? 0) with true in Etry. cbv iota zeta in Etry.
    eexists O, Nothing, _, (Emitting rest). split; [intros fuel _; exact (Eemit _ Etry fuel) |].
    split; [by apply seen_snoc | | | done].
    + rewrite accepted_snoc, delivered_snoc by done. cbn [accepted_one delivered_one pending]. rewrite !app_nil_r.
      exists r, q, fed, x, (made ++ [o]). split_and!; try done. exists r', (q2 ++ [o]), lost. split_and!; try done.
      * apply Forall_app. split; [done | by constructor].
      * rewrite app_assoc. by apply sublist_app.
      * rewrite app_assoc, !(zlen_app _ [o]), Hlost. lia.
    + rewrite refused_snoc by done. cbn [refused_one]. by rewrite Z.add_0_r.
Qed.

(** The thread takes a frame off the queue and transcodes it. *)
Lemma take_moves sampled x0 l os w :
  flows sampled x0 l os w Looking -> stop w = 0 -> (forall r, inq w = Ref r -> VRing.ngx_rtc_vring_empty (Ref r) = 0) -> moves sampled x0 l os w Looking Thread.
Proof.
  intros [Hseen (r & q & fed & x & made & Hi & Hr & Hq & Hacc & Ha & Hx & Htr & Hwait & Hout) Href Hpend] Hstop Hne.
  specialize (Hne r Hi). pose proof (VRing.vring_rep_empty _ _ _ Hr) as Hem. rewrite Hne in Hem. destruct q as [| e q]; [done |].
  inversion Hq as [| ? ? He Hq']; subst. pose proof He as He'. unfold aac_frame in He'.
  assert (Hbuf : 0 <= NGX_RTC_AUDIO_AAC_MAX <= zlen (zeros NGX_RTC_AUDIO_AAC_MAX)) by (unfold zeros, zlen; rewrite length_replicate; unfold NGX_RTC_AUDIO_AAC_MAX; lia).
  destruct (VRing.vring_pop_refines _ r (e :: q) (zeros NGX_RTC_AUDIO_AAC_MAX) NGX_RTC_AUDIO_AAC_MAX 0 Hr Hbuf) as (r' & Epop & Hr').
  cbn [VRing.spec_pop] in Epop, Hr'. destruct (Z.ltb_spec NGX_RTC_AUDIO_AAC_MAX (zlen e)); [lia |]. cbn [snd] in Hr'.
  destruct (turn sampled x e (zdrop (zlen e) (zeros NGX_RTC_AUDIO_AAC_MAX)) Hx He) as (n0 & rc & y & ls & Hturn & Hy & Hls & Erun).
  exists n0, Nothing, (set_a (Ref y) (set_inq (Ref r') w)), (Emitting ls). split.
  - intros fuel Hn. cbn [act ngx_rtc_audio_worker_main]. rewrite Hstop, Hi, Hne. cbn [Z.eqb negb]. rewrite Epop, bind_Ret.
    change (a (set_inq (Ref r') w)) with (a w). by rewrite Ha, (Erun fuel Hn), !bind_Ret.
  - split; [by apply seen_snoc | | | done].
    + rewrite accepted_snoc, delivered_snoc by done. cbn [accepted_one delivered_one pending]. rewrite !app_nil_r.
      cbn [pending] in Htr. rewrite app_nil_r in Htr.
      exists r', q, (fed ++ [e]), y, made. split_and!; try done.
      * by rewrite Hacc, <- app_assoc.
      * by eapply transcoded_more.
    + rewrite refused_snoc by done. cbn [refused_one]. by rewrite Z.add_0_r.
Qed.

Lemma thread_moves sampled x0 l os w t : flows sampled x0 l os w t -> moves sampled x0 l os w t Thread.
Proof.
  intros Hf. destruct t as [| | [| o rest] |].
  - pose proof (fl_in _ _ _ _ _ _ Hf) as (r & q & fed & x & made & Hi & _).
    destruct (Z.eqb_spec (stop w) 0) as [Hs | Hs].
    2: { apply (still_moves sampled x0 l os w Looking Thread w Gone Hf); try done.
         intros fuel. cbn [act ngx_rtc_audio_worker_main]. by destruct (Z.eqb_spec (stop w) 0). }
    destruct (Z.eqb_spec (VRing.ngx_rtc_vring_empty (Ref r)) 0) as [He | He].
    + apply take_moves; [done | done |]. intros r0 Er. by assert (r0 = r) as -> by congruence.
    + apply (still_moves sampled x0 l os w Looking Thread w Waiting Hf); try done.
      * intros fuel. cbn [act ngx_rtc_audio_worker_main]. rewrite Hs, Hi. cbn [Z.eqb negb]. by destruct (Z.eqb_spec (VRing.ngx_rtc_vring_empty (Ref r)) 0).
      * intros _. right. by exists r.
  - apply (still_moves sampled x0 l os w Waiting Thread w Waiting Hf); try done. intros _. by left.
  - by apply (still_moves sampled x0 l os w (Emitting []) Thread w Looking Hf).
  - by apply emit_moves.
  - by apply (still_moves sampled x0 l os w Gone Thread w Gone Hf).
Qed.

Lemma act_moves sampled x0 l os w t x : flows sampled x0 l os w t -> moves sampled x0 l os w t x.
Proof.
  intros Hf. destruct x as [aac | | | |]; [by apply push_moves | by apply drain_moves | | by apply thread_moves |].
  - apply (still_moves sampled x0 l os w t Stop (set_stop 1 w) (woken t) Hf); try done; by destruct t.
  - apply (still_moves sampled x0 l os w t Wake w (woken t) Hf); try done; by destruct t.
Qed.

Lemma run_snoc fuel sampled l x : forall s, run fuel sampled (l ++ [x]) s =
  '(os, s) ← run fuel sampled l s; '(o, s) ← act fuel sampled x s; Ret (os ++ [o], s).
Proof.
  induction l as [| y l IH]; intros s; cbn [run app].
  { rewrite bind_Ret. by destruct (act fuel sampled x s) as [[o s'] |]. }
  destruct (act fuel sampled y s) as [[o s'] |]; [| done]. rewrite !bind_Ret, IH.
  destruct (run fuel sampled l s') as [[os s''] |]; [| done]. rewrite !bind_Ret. by destruct (act fuel sampled x s'') as [[o' s3] |].
Qed.

Lemma run_flows sampled x0 w0 l :
  flows sampled x0 [] [] w0 Looking ->
  exists n0 os w t, (forall fuel, (n0 <= fuel)%nat -> run fuel sampled l (w0, Looking) = Ret (os, (w, t))) /\ flows sampled x0 l os w t.
Proof.
  intros H0. induction l as [| x l (n1 & os & w & t & E1 & Hf)] using rev_ind; [by exists O, [], w0, Looking |].
  destruct (act_moves sampled x0 l os w t x Hf) as (n2 & o & w' & t' & E2 & Hf').
  exists (Nat.max n1 n2), (os ++ [o]), w', t'. split; [| done]. intros fuel Hn. rewrite run_snoc, E1, bind_Ret by lia. by rewrite E2 by lia.
Qed.

(** *** Making one *)

(** What is taken, in order, until something is refused. *)
Definition asked (g : grants) : list (bool * resource) :=
  [(g_struct g, Struct); (g_mutex g, Mutex); (g_cond g, Cond); (negb (is_null (g_audio g)), Transcoder); (g_in g, InRing); (g_out g, OutRing)].
Fixpoint taken (l : list (bool * resource)) : list resource :=
  match l with (true, x) :: l => x :: taken l | _ => [] end.

Lemma arena_ok : 0 < NGX_RTC_AUDIO_IN_ARENA_BYTES <= 2 ^ 31 /\ 0 < NGX_RTC_AUDIO_OUT_ARENA_BYTES <= 2 ^ 31.
Proof. by vm_compute. Qed.

Lemma init_ring ok r cap : 0 < cap ->
  VRing.ngx_rtc_vring_init ok (Ref r) cap =
    if ok then (0, Ref {| VRing.buf := Ref (zeros (cap * 1)); VRing.capacity := cap; VRing.head := 0; VRing.tail := 0; VRing.bytes := 0 |})
    else (-1, Ref (VRing.set_buf NULL r)).
Proof. intros Hc. unfold VRing.ngx_rtc_vring_init. destruct (Z.eqb_spec cap 0); [lia |]. by destruct ok. Qed.

(** Making a worker gives all of it or nothing: it is there with its thread started, or whatever
    was taken on the way is released, once. *)
Theorem create_all_or_nothing (g : grants) :
  let '(p, l) := ngx_rtc_audio_worker_create g in
  match p with
  | Ref w => l = [] /\ g_thread g = true /\ taken (asked g) = [Struct; Mutex; Cond; Transcoder; InRing; OutRing] /\ a w = g_audio g
  | NULL => NoDup l /\ forall x, x ∈ l <-> x ∈ taken (asked g)
  end.
Proof.
  unfold ngx_rtc_audio_worker_create, asked. destruct arena_ok as [[H1 _] [H2 _]].
  destruct (g_struct g); cbn [negb taken]; [| split; [constructor | done]].
  destruct (g_mutex g); cbn [negb taken]; [| split; [by apply NoDup_singleton | done]].
  destruct (g_cond g); cbn [negb taken]; [| split; [by apply (bool_decide_unpack _) | intros y; cbn; rewrite ?elem_of_cons, ?elem_of_nil; tauto]].
  destruct (g_audio g) as [| x]; cbn [negb taken is_null set_a worker_eta a]; [split; [by apply (bool_decide_unpack _) | intros y; cbn; rewrite ?elem_of_cons, ?elem_of_nil; tauto] |].
  change (inq (set_a _ _)) with (Ref no_ring). rewrite (init_ring _ _ _ H1).
  destruct (g_in g); cbn [Z.eqb negb taken]; [| split; [by apply (bool_decide_unpack _) | intros y; cbn; rewrite ?elem_of_cons, ?elem_of_nil; tauto]].
  change (outq (set_inq _ _)) with (Ref no_ring). rewrite (init_ring _ _ _ H2).
  destruct (g_out g); cbn [Z.eqb negb taken]; [| split; [by apply (bool_decide_unpack _) | intros y; cbn; rewrite ?elem_of_cons, ?elem_of_nil; tauto]].
  destruct (g_thread g); cbn [negb]; [by split_and! | split; [by apply (bool_decide_unpack _) | intros y; cbn; rewrite ?elem_of_cons, ?elem_of_nil; tauto]].
Qed.

Lemma created_flows sampled g w (x : audio) :
  ngx_rtc_audio_worker_create g = (Ref w, []) -> g_audio g = Ref x -> audio_ok x -> flows sampled x [] [] w Looking.
Proof.
  unfold ngx_rtc_audio_worker_create. intros E0 Ea Hx. destruct arena_ok as [H1 H2].
  destruct (g_struct g); [| done]. destruct (g_mutex g); [| done]. destruct (g_cond g); [| done]. cbn [negb] in E0.
  rewrite Ea in E0. cbv zeta in E0. change (inq (set_a _ _)) with (Ref no_ring) in E0. cbn [is_null set_a a] in E0.
  destruct (VRing.vring_init_rep no_ring NGX_RTC_AUDIO_IN_ARENA_BYTES H1) as (r1 & Er1 & Hr1).
  destruct (VRing.vring_init_rep no_ring NGX_RTC_AUDIO_OUT_ARENA_BYTES H2) as (r2 & Er2 & Hr2).
  destruct (g_in g); [| by rewrite init_ring in E0 by apply H1]. rewrite Er1 in E0. change (negb (0 =? 0)) with false in E0.
  change (outq (set_inq _ _)) with (Ref no_ring) in E0.
  destruct (g_out g); [| by rewrite init_ring in E0 by apply H2]. rewrite Er2 in E0. change (negb (0 =? 0)) with false in E0.
  destruct (g_thread g); [| done]. injection E0 as <-. split; [done | | done | constructor].
  exists r1, [], [], x, []. split_and!; try done; [constructor |]. by exists r2, [], 0.
Qed.

(** ** What the worker promises *)

(** C11: Through any interleaving of the event loop and the transcoding thread, every call ends
    without a bad access; the frames the event loop got accepted reach the transcoder each once
    and in order; what it emits of them reaches the event loop in order, except for the frames
    counted as dropped because the queue out was full; the drop counters are exact; and the
    thread sleeps only while there is nothing to do and no stop is asked for. *)
Theorem transcoding_pipeline sampled g w0 (x0 : audio) l :
  ngx_rtc_audio_worker_create g = (Ref w0, []) -> g_audio g = Ref x0 -> audio_ok x0 ->
  exists n0 os w t, (forall fuel, (n0 <= fuel)%nat -> run fuel sampled l (w0, Looking) = Ret (os, (w, t))) /\
    exists fed q made q2 x, accepted l os = fed ++ q /\ transcoded sampled x0 fed x (made ++ pending t) /\
      sublist (delivered os ++ q2) made /\ out_dropped w = u32 (zlen made - zlen (delivered os ++ q2)) /\
      in_dropped w = u32 (refused l os) /\ (t = Waiting -> q = [] /\ stop w = 0).
Proof.
  intros E0 Ea Hx. destruct (run_flows sampled x0 w0 l (created_flows sampled g w0 x0 E0 Ea Hx)) as (n0 & os & w & t & Er & Hf).
  exists n0, os, w, t. split; [done |]. destruct Hf as [_ (r & q & fed & x & made & _ & _ & _ & Hacc & _ & _ & Htr & Hw & r2 & q2 & lost & _ & _ & _ & Hs & Hl & Ho) Hi _].
  exists fed, q, made, q2, x. split_and!; try done. rewrite Ho. f_equal. lia.
Qed.

(** The thread's critical sections until it is gone, once it was told to stop. *)
Definition turns (t : thread) : nat := match t with Gone => 0 | Looking => 1 | Waiting => 2 | Emitting l => length l + 2 end.
Fixpoint threads (l : list action) : nat := match l with [] => 0 | Thread :: l => Datatypes.S (threads l) | _ :: l => threads l end.

Lemma act_turns fuel sampled x w t o w' t' :
  act fuel sampled x (w, t) = Ret (o, (w', t')) -> stop w <> 0 -> t <> Waiting ->
  stop w' <> 0 /\ t' <> Waiting /\ (turns t' <= turns t - threads [x])%nat.
Proof.
  intros E0 Hs Ht. assert (Hwk : woken t = t) by by destruct t.
  destruct x as [aac | | | |]; cbn [act] in E0.
  - unfold ngx_rtc_audio_worker_push in E0. destruct (_ || _); [rewrite bind_Ret in E0; injection E0 as _ <- <-; split_and!; [done | done | cbn; lia] |].
    destruct (VRing.ngx_rtc_vring_push _ _ _) as [[rc r] |]; [| done]. rewrite !bind_Ret, Hwk in E0. injection E0 as _ <- Et.
    assert (t' = t) as -> by by destruct (rc =? 0). split_and!; [by destruct (rc =? 0) | done | cbn; lia].
  - unfold drain_one in E0. destruct (VRing.ngx_rtc_vring_pop _ _ _ _) as [[[[rc r] p] n] |]; [| done]. rewrite bind_Ret in E0.
    destruct p as [| p], n as [| n]; try done. destruct (negb _); [| destruct (load_range p 0 n); [rewrite bind_Ret in E0 | done]];
      rewrite bind_Ret in E0; injection E0 as _ <- <-; split_and!; [done | done | cbn; lia | done | done | cbn; lia].
  - rewrite Hwk in E0. injection E0 as _ <- <-. split_and!; [done | done | cbn; lia].
  - destruct t as [| | [| p rest] |]; cbn [ngx_rtc_audio_worker_main] in E0.
    + destruct (Z.eqb_spec (stop w) 0); [done |]. cbn [negb] in E0. rewrite bind_Ret in E0. injection E0 as _ <- <-. split_and!; [done | done | cbn; lia].
    + done.
    + rewrite bind_Ret in E0. injection E0 as _ <- <-. split_and!; [done | done | cbn; lia].
    + unfold ngx_rtc_audio_worker_emit in E0. destruct (_ || _).
      * rewrite !bind_Ret in E0. injection E0 as _ <- <-. split_and!; [done | done | cbn; lia].
      * destruct (VRing.ngx_rtc_vring_push _ _ _) as [[rc r] |]; [| done]. rewrite !bind_Ret in E0. injection E0 as _ <- <-.
        split_and!; [by destruct (rc =? 0) | done | cbn; lia].
    + rewrite bind_Ret in E0. injection E0 as _ <- <-. split_and!; [done | done | cbn; lia].
  - rewrite Hwk in E0. injection E0 as _ <- <-. split_and!; [done | done | cbn; lia].
Qed.

Lemma run_turns fuel sampled l : forall w t os w' t',
  run fuel sampled l (w, t) = Ret (os, (w', t')) -> stop w <> 0 -> t <> Waiting -> (turns t' <= turns t - threads l)%nat.
Proof.
  induction l as [| x l IH]; intros w t os w' t' E0 Hs Ht; cbn [run] in E0.
  { injection E0 as _ _ <-. cbn. lia. }
  destruct (act fuel sampled x (w, t)) as [[o [w1 t1]] |] eqn:E1; [| done]. rewrite bind_Ret in E0.
  destruct (run fuel sampled l (w1, t1)) as [[os1 [w2 t2]] |] eqn:E2; [| done]. rewrite bind_Ret in E0. injection E0 as _ -> ->.
  destruct (act_turns _ _ _ _ _ _ _ _ E1 Hs Ht) as (Hs1 & Ht1 & Hle). pose proof (IH _ _ _ _ _ E2 Hs1 Ht1) as Hle2.
  assert (Hth : threads (x :: l) = (threads [x] + threads l)%nat) by by destruct x. lia.
Qed.

Lemma run_app fuel sampled l k : forall s, run fuel sampled (l ++ k) s =
  '(os, s) ← run fuel sampled l s; '(os', s) ← run fuel sampled k s; Ret (os ++ os', s).
Proof.
  induction l as [| y l IH]; intros s; cbn [run app].
  { rewrite bind_Ret. by destruct (run fuel sampled k s) as [[o s'] |]. }
  destruct (act fuel sampled y s) as [[o s'] |]; [| done]. rewrite !bind_Ret, IH.
  destruct (run fuel sampled l s') as [[os s''] |]; [| done]. rewrite !bind_Ret. by destruct (run fuel sampled k s'') as [[o' s3] |].
Qed.

(** C28: Ending a worker ends: whatever happened before, there is a number of critical sections of
    the thread after which it is gone once it was told to stop, whether it was asleep, idle or
    had frames to queue, and whatever the event loop does meanwhile; so the join returns. *)
Theorem destroy_joins sampled g w0 (x0 : audio) l :
  ngx_rtc_audio_worker_create g = (Ref w0, []) -> g_audio g = Ref x0 -> audio_ok x0 ->
  exists m, forall k, (m <= threads k)%nat ->
    exists n0 os w, forall fuel, (n0 <= fuel)%nat -> run fuel sampled (l ++ Stop :: k) (w0, Looking) = Ret (os, (w, Gone)).
Proof.
  intros E0 Ea Hx. pose proof (created_flows sampled g w0 x0 E0 Ea Hx) as Hf.
  destruct (run_flows sampled x0 w0 l Hf) as (n1 & os1 & w1 & t1 & E1 & _). exists (turns (woken t1)). intros k Hk.
  destruct (run_flows sampled x0 w0 (l ++ Stop :: k) Hf) as (n2 & os2 & w2 & t2 & E2 & _).
  assert (Hgone : t2 = Gone).
  { pose proof (E2 (Nat.max n1 n2) ltac:(lia)) as E3. rewrite run_app, E1, bind_Ret in E3 by lia. cbn [run act] in E3. rewrite bind_Ret in E3.
    destruct (run _ sampled k _) as [[os3 [w3 t3]] |] eqn:E4; [| done]. rewrite !bind_Ret in E3. injection E3 as _ -> ->.
    assert (Hle : (turns t2 <= turns (woken t1) - threads k)%nat) by (eapply run_turns; [exact E4 | done | by destruct t1]).
    assert (Hz : turns t2 = 0%nat) by lia. by destruct t2 as [| | [] |]. }
  subst t2. by exists n2, os2, w2.
Qed.
End worker.

(** ** A worker over the codec of counts *)

Definition demo_grants : grants (D := nat) (R := nat) (F := samples) (E := unit) :=
  {| g_struct := true; g_mutex := true; g_cond := true; g_audio := Ref started; g_in := true; g_out := true; g_thread := true |}.
Abbreviation demo_worker := (ngx_rtc_audio_worker_t (D := nat) (R := nat) (F := samples) (E := unit)).
Definition demo_start : demo_worker :=
  match ngx_rtc_audio_worker_create demo_grants with
  | (Ref w, _) => w
  | _ => {| stop := 0; a := NULL; inq := NULL; outq := NULL; in_dropped := 0; out_dropped := 0 |}
  end.

(** The thread sleeps before the first frame and between the two. *)
Definition demo_actions : list action :=
  [Thread; Thread; Push [33; 0; 73]; Thread; Thread; Thread; Drain; Thread; Push [33; 0; 74]; Thread; Wake; Thread; Thread; Drain; Drain].

Lemma demo_created : ngx_rtc_audio_worker_create demo_grants = (Ref demo_start, []).
Proof. unfold demo_start. reflexivity. Qed.

Example demo_run :
  match run (HC := demo_codec 1024) 5 true demo_actions (demo_start, Looking) with
  | Ret (os, (_, t)) => (delivered os, t) = ([[1; 2]; [1; 2]], Looking)
  | Fault => False
  end.
Proof. by vm_compute. Qed.

Lemma transcoding_pipeline_witness :
  exists n0 os w t, forall fuel, (n0 <= fuel)%nat ->
    run (HC := demo_codec 1024) fuel true demo_actions (demo_start, Looking) = Ret (os, (w, t)).
Proof.
  destruct (transcoding_pipeline (HC := demo_codec 1024) (HL := demo_laws 1024) true demo_grants demo_start started demo_actions
    demo_created eq_refl (started_ok 1024)) as (n0 & os & w & t & E & _).
  by exists n0, os, w, t.
Defined.

Lemma destroy_joins_witness :
  exists m, forall k, (m <= threads k)%nat -> exists n0 os w, forall fuel, (n0 <= fuel)%nat ->
    run (HC := demo_codec 1024) fuel true (demo_actions ++ Stop :: k) (demo_start, Looking) = Ret (os, (w, Gone)).
Proof.
  apply (destroy_joins (HC := demo_codec 1024) (HL := demo_laws 1024) true demo_grants demo_start started demo_actions
    demo_created eq_refl (started_ok 1024)).
Defined.
End AudioWorker.
