(* ===== verification/Rtp.v ===== *)
(** RTP packetization of src/ngx_rtc_rtp.{h,c}: header writing and stripping, NALU
    scanning, the B-frame probe and the single-NALU, FU-A, STAP-A and Opus
    packetizers.

    An out-buffer is returned as the callee leaves it.  The emit callback is a
    parameter [emit log pkt], the value it returns for [pkt] after the calls of
    [log]; the calls made are returned.  Casts that cannot change a value are
    omitted. *)

From S2P Require Import Prelude.

Module Rtp.

Definition NGX_RTC_RTP_HEADER_SIZE : Z := 12.
Definition NGX_RTC_RTP_MARKER : Z := 0x80.
Definition NGX_RTC_RTP_VERSION_CC : Z := 0x80.
Definition NGX_RTC_RTP_EXTENSION : Z := 0x10.
Definition NGX_RTC_RTP_CSRC_MASK : Z := 0x0f.
Definition NGX_RTC_H264_NAL_TYPE_MASK : Z := 0x1f.
Definition NGX_RTC_H264_NRI_MASK : Z := 0xe0.
Definition NGX_RTC_H264_STAP_A : Z := 24.
Definition NGX_RTC_H264_FU_A : Z := 28.
Definition NGX_RTC_H264_FU_START : Z := 0x80.
Definition NGX_RTC_H264_FU_END : Z := 0x40.
Definition NGX_RTC_H264_MTU : Z := 1200.
Definition NGX_RTC_MAX_RTP_PKT : Z := NGX_RTC_RTP_HEADER_SIZE + 2 + NGX_RTC_H264_MTU.
Definition NGX_RTC_NALU_RESERVED : Z := 0.

Record ngx_rtc_rtp_header_t := {
  version_cc : Z;
  marker_pt : Z;
  seq : Z;
  timestamp : Z;
  ssrc : Z
}.

Definition ngx_rtc_rtp_header_write (hdr : ptr ngx_rtc_rtp_header_t)
    (buf : ptr octets) (cap : Z) : outcome (Z * ptr octets) :=
  match hdr, buf with
  | Ref h, Ref b =>
      if cap <? NGX_RTC_RTP_HEADER_SIZE then Ret (NGX_RTC_ERR_TOO_SMALL, buf)
      else
        b ← stores b 0
              [version_cc h; marker_pt h;
               Z.land (Z.shiftr (seq h) 8) 255; Z.land (seq h) 255;
               Z.land (Z.shiftr (timestamp h) 24) 255;
               Z.land (Z.shiftr (timestamp h) 16) 255;
               Z.land (Z.shiftr (timestamp h) 8) 255; Z.land (timestamp h) 255;
               Z.land (Z.shiftr (ssrc h) 24) 255; Z.land (Z.shiftr (ssrc h) 16) 255;
               Z.land (Z.shiftr (ssrc h) 8) 255; Z.land (ssrc h) 255];
        Ret (NGX_RTC_OK, Ref b)
  | _, _ => Ret (NGX_RTC_ERR_INVALID, buf)
  end.

Definition ngx_rtc_rtp_build_header (buf : octets) (sq ts sc pt marker : Z)
    : outcome (Z * octets) :=
  let mp := Z.land pt 0x7f in
  let mp := if negb (marker =? 0) then Z.lor mp NGX_RTC_RTP_MARKER else mp in
  '(_, b) ← ngx_rtc_rtp_header_write
              (Ref {| version_cc := NGX_RTC_RTP_VERSION_CC; marker_pt := mp;
                      seq := sq; timestamp := ts; ssrc := sc |})
              (Ref buf) NGX_RTC_RTP_HEADER_SIZE;
  Ret (NGX_RTC_RTP_HEADER_SIZE, match b with Ref b => b | NULL => buf end).

Definition ngx_rtc_rtp_strip_header_ext (rtp : ptr octets) (len : ptr Z)
    : outcome (Z * ptr octets * ptr Z) :=
  match rtp, len with
  | Ref b, Ref n =>
      if n <? NGX_RTC_RTP_HEADER_SIZE then Ret (NGX_RTC_ERR_PARSE, rtp, len)
      else
        b0 ← load b 0;
        let hdr := NGX_RTC_RTP_HEADER_SIZE + 4 * Z.land b0 NGX_RTC_RTP_CSRC_MASK in
        hdr ← (if negb (Z.land b0 NGX_RTC_RTP_EXTENSION =? 0) then
                 if n <? hdr + 4 then Ret NULL
                 else
                   hi ← load b (hdr + 2);
                   lo ← load b (hdr + 3);
                   let ext_words := Z.lor (Z.shiftl hi 8) lo in
                   Ret (Ref (hdr + (4 + 4 * ext_words)))
               else Ret (Ref hdr));
        match hdr with
        | NULL => Ret (NGX_RTC_ERR_PARSE, rtp, len)
        | Ref hdr =>
            if n <? hdr then Ret (NGX_RTC_ERR_PARSE, rtp, len)
            else
              '(b, n) ← (if negb (hdr =? NGX_RTC_RTP_HEADER_SIZE) then
                           src ← load_range b hdr (n - hdr);
                           b ← store_range b NGX_RTC_RTP_HEADER_SIZE src;
                           Ret (b, NGX_RTC_RTP_HEADER_SIZE + (n - hdr))
                         else Ret (b, n));
              b0 ← load b 0;
              b ← store b 0 (Z.land b0 (u8 (Z.lnot (Z.lor NGX_RTC_RTP_CSRC_MASK
                                                          NGX_RTC_RTP_EXTENSION))));
              Ret (NGX_RTC_OK, Ref b, Ref n)
        end
  | _, _ => Ret (NGX_RTC_ERR_PARSE, rtp, len)
  end.

Definition ngx_rtc_h264_timestamp_from_ms (ms : Z) : Z := u32 (u64 (ms * 90000) / 1000).
Definition ngx_rtc_opus_timestamp_from_ms (ms : Z) : Z := u32 (u64 (ms * 48000) / 1000).

Definition ngx_rtc_h264_nalu_type (nalu : ptr octets) (len : Z) : outcome Z :=
  match nalu with
  | NULL => Ret NGX_RTC_NALU_RESERVED
  | Ref d =>
      if len =? 0 then Ret NGX_RTC_NALU_RESERVED
      else b ← load d 0; Ret (Z.land b NGX_RTC_H264_NAL_TYPE_MASK)
  end.

(** The scan loop; [n] iterations remain.  [&&] stops at the first mismatch. *)
Fixpoint find_nalu_loop (n : nat) (d : octets) (len i : Z) : outcome Z :=
  match n with
  | O => Ret i
  | S n =>
      if negb (i + 2 <? len) then Ret i
      else
        a ← load d i;
        if negb (a =? 0) then find_nalu_loop n d len (i + 1) else
        b ← load d (i + 1);
        if negb (b =? 0) then find_nalu_loop n d len (i + 1) else
        c ← load d (i + 2);
        if negb (c =? 1) then find_nalu_loop n d len (i + 1) else Ret i
  end.

Definition ngx_rtc_h264_find_nalu (data : ptr octets) (len : Z) (off : ptr Z)
    : outcome (Z * ptr Z) :=
  match data, off with
  | Ref d, Ref _ =>
      i ← find_nalu_loop (Z.to_nat len) d len 0;
      if len <=? i + 2 then Ret (NGX_RTC_ERR_PARSE, off)
      else Ret (NGX_RTC_OK, Ref (i + 3))
  | _, _ => Ret (NGX_RTC_ERR_INVALID, off)
  end.

(** The status, the next position and the bit. *)
Definition ngx_rtc_h264_read_bit (d : octets) (bit_len pos bit : Z)
    : outcome (Z * Z * Z) :=
  if bit_len <=? pos then Ret (NGX_RTC_ERR_PARSE, pos, bit)
  else
    x ← load d (Z.shiftr pos 3);
    Ret (NGX_RTC_OK, u32 (pos + 1), Z.land (Z.shiftr x (7 - Z.land pos 7)) 1).

(** The leading-zero loop ends after at most 32 bits. *)
Fixpoint read_ue_leading (n : nat) (d : octets) (bit_len pos leading : Z)
    : outcome (Z * Z * Z) :=
  match n with
  | O => Fault
  | S n =>
      '(r, pos, b) ← ngx_rtc_h264_read_bit d bit_len pos 0;
      if negb (r =? 0) then Ret (r, pos, leading)
      else if b =? 1 then Ret (NGX_RTC_OK, pos, leading)
      else
        let leading := leading + 1 in
        if 31 <? leading then Ret (NGX_RTC_ERR_PARSE, pos, leading)
        else read_ue_leading n d bit_len pos leading
  end.

(** [n = leading - i] suffix bits remain. *)
Fixpoint read_ue_suffix (n : nat) (d : octets) (bit_len pos value : Z)
    : outcome (Z * Z * Z) :=
  match n with
  | O => Ret (NGX_RTC_OK, pos, value)
  | S n =>
      '(r, pos, b) ← ngx_rtc_h264_read_bit d bit_len pos 0;
      if negb (r =? 0) then Ret (r, pos, value)
      else read_ue_suffix n d bit_len pos (u32 (value + u32 (Z.shiftl b (Z.of_nat n))))
  end.

Definition ngx_rtc_h264_read_ue (d : octets) (bit_len pos value : Z)
    : outcome (Z * Z * Z) :=
  '(r, pos, leading) ← read_ue_leading 33 d bit_len pos 0;
  if negb (r =? 0) then Ret (r, pos, value)
  else read_ue_suffix (Z.to_nat leading) d bit_len pos (u32 (Z.shiftl 1 leading) - 1).

Definition ngx_rtc_h264_is_b_frame (nalu : ptr octets) (len : Z) : outcome Z :=
  match nalu with
  | NULL => Ret NGX_RTC_ERR_INVALID
  | Ref d =>
      if len =? 0 then Ret NGX_RTC_ERR_INVALID
      else
        b ← load d 0;
        let nal_type := Z.land b NGX_RTC_H264_NAL_TYPE_MASK in
        if negb (nal_type =? 1) && negb (nal_type =? 2) && negb (nal_type =? 3)
           && negb (nal_type =? 4) then Ret 0
        else if len <? 2 then Ret 0
        else
          let bit_len := u32 (len * 8) in
          '(r, pos, first_mb) ← ngx_rtc_h264_read_ue d bit_len 8 0;
          if negb (r =? 0) then Ret 0
          else
            '(r, pos, slice_type) ← ngx_rtc_h264_read_ue d bit_len pos 0;
            if negb (r =? 0) then Ret 0
            else if (slice_type =? 1) || (slice_type =? 6) then Ret 1
            else Ret 0
  end.

Section packetize.
  Context (emit : list octets -> octets -> Z).

(** The status, [*seq], the scratch buffer and the packets emitted. *)
Definition tx : Type := Z * Z * octets * list octets.

(** [return emit (opaque, scratch, total)]. *)
Definition emit_scratch (scratch : octets) (total sq : Z) (log : list octets)
    : outcome tx :=
  pkt ← load_range scratch 0 total;
  Ret (emit log pkt, sq, scratch, log ++ [pkt]).

Definition ngx_rtc_h264_packetize_single (nalu : ptr octets) (len ts : Z)
    (sq : ptr Z) (sc pt marker : Z) (scratch : ptr octets) (scratch_cap : Z)
    (has_emit : bool) (log : list octets) : outcome (Z * ptr Z * ptr octets * list octets) :=
  match nalu, sq, scratch with
  | Ref d, Ref s, Ref b =>
      if negb has_emit || (len =? 0) then Ret (NGX_RTC_ERR_INVALID, sq, scratch, log)
      else
        let total := u32 (NGX_RTC_RTP_HEADER_SIZE + len) in
        if scratch_cap <? total then Ret (NGX_RTC_ERR_TOO_SMALL, sq, scratch, log)
        else
          '(_, b) ← ngx_rtc_rtp_build_header b s ts sc pt marker;
          src ← load_range d 0 len;
          b ← store_range b NGX_RTC_RTP_HEADER_SIZE src;
          '(r, s, b, log) ← emit_scratch b total (u16 (s + 1)) log;
          Ret (r, Ref s, Ref b, log)
  | _, _, _ => Ret (NGX_RTC_ERR_INVALID, sq, scratch, log)
  end.

(** Build one fragment in the scratch buffer and emit it; [off] is the pointer p. *)
Definition fu_a_fragment (d b : octets) (ind fu_header ts sc pt pkt_marker off chunk
    total s : Z) (log : list octets) : outcome tx :=
  '(_, b) ← ngx_rtc_rtp_build_header b s ts sc pt pkt_marker;
  b ← store b NGX_RTC_RTP_HEADER_SIZE ind;
  b ← store b (NGX_RTC_RTP_HEADER_SIZE + 1) fu_header;
  src ← load_range d off chunk;
  b ← store_range b (NGX_RTC_RTP_HEADER_SIZE + 2) src;
  emit_scratch b total (u16 (s + 1)) log.

(** One iteration per fragment, [n = num - i] remain. *)
Fixpoint fu_a_loop (n : nat) (d : octets) (ind nal_type ts sc pt marker mtu : Z)
    (scratch_cap i num off nb_left s : Z) (b : octets) (log : list octets)
    : outcome tx :=
  match n with
  | O => Ret (NGX_RTC_OK, s, b, log)
  | S n =>
      let chunk := if nb_left <? mtu then nb_left else mtu in
      let total := u32 (NGX_RTC_RTP_HEADER_SIZE + 2 + chunk) in
      if scratch_cap <? total then Ret (NGX_RTC_ERR_TOO_SMALL, s, b, log)
      else
        let fu_header := nal_type in
        let fu_header := if i =? 0 then Z.lor fu_header NGX_RTC_H264_FU_START
                         else fu_header in
        let fu_header := if i =? num - 1 then Z.lor fu_header NGX_RTC_H264_FU_END
                         else fu_header in
        let pkt_marker := if negb (marker =? 0) && (i =? num - 1) then 1 else 0 in
        '(r, s, b, log) ← fu_a_fragment d b ind fu_header ts sc pt pkt_marker off
                            chunk total s log;
        if negb (r =? 0) then Ret (r, s, b, log)
        else fu_a_loop n d ind nal_type ts sc pt marker mtu scratch_cap (i + 1) num
               (off + chunk) (nb_left - chunk) s b log
  end.

Definition ngx_rtc_h264_packetize_fu_a (nalu : ptr octets) (len ts : Z)
    (sq : ptr Z) (sc pt mtu marker : Z) (scratch : ptr octets) (scratch_cap : Z)
    (has_emit : bool) (log : list octets) : outcome (Z * ptr Z * ptr octets * list octets) :=
  match nalu, sq, scratch with
  | Ref d, Ref s, Ref b =>
      if negb has_emit then Ret (NGX_RTC_ERR_INVALID, sq, scratch, log)
      else if (len <? 2) || (mtu =? 0) then Ret (NGX_RTC_ERR_INVALID, sq, scratch, log)
      else
        n0 ← load d 0;
        let nal_type := Z.land n0 NGX_RTC_H264_NAL_TYPE_MASK in
        let ind := Z.lor (Z.land n0 NGX_RTC_H264_NRI_MASK) NGX_RTC_H264_FU_A in
        let nb_left := len - 1 in
        let num := 1 + (nb_left - 1) / mtu in
        '(r, s, b, log) ← fu_a_loop (Z.to_nat num) d ind nal_type ts sc pt marker mtu
                            scratch_cap 0 num 1 nb_left s b log;
        Ret (r, Ref s, Ref b, log)
  | _, _, _ => Ret (NGX_RTC_ERR_INVALID, sq, scratch, log)
  end.

(** First pass of STAP-A: the payload length, or the error. *)
Fixpoint stap_a_length (n : nat) (sizes : list Z) (i payload_len : Z)
    : outcome (Z * Z) :=
  match n with
  | O => Ret (NGX_RTC_OK, payload_len)
  | S n =>
      sz ← load sizes i;
      if 0xffff <? sz then Ret (NGX_RTC_ERR_TOO_LARGE, payload_len)
      else
        let payload_len := payload_len + (2 + sz) in
        if NGX_RTC_H264_MTU <? payload_len then Ret (NGX_RTC_ERR_TOO_LARGE, payload_len)
        else stap_a_length n sizes (i + 1) payload_len
  end.

Fixpoint stap_a_copy (n : nat) (nalus : list octets) (sizes : list Z)
    (i out : Z) (b : octets) : outcome octets :=
  match n with
  | O => Ret b
  | S n =>
      sz ← load sizes i;
      d ← load nalus i;
      b ← stores b out [Z.land (Z.shiftr sz 8) 255; Z.land sz 255];
      src ← load_range d 0 sz;
      b ← store_range b (out + 2) src;
      stap_a_copy n nalus sizes (i + 1) (out + 2 + sz) b
  end.

Definition ngx_rtc_h264_packetize_stap_a (nalus : ptr (list octets))
    (sizes : ptr (list Z)) (count ts : Z) (sq : ptr Z) (sc pt : Z)
    (scratch : ptr octets) (scratch_cap : Z) (has_emit : bool) (log : list octets)
    : outcome (Z * ptr Z * ptr octets * list octets) :=
  match nalus, sizes, sq, scratch with
  | Ref ds, Ref szs, Ref s, Ref b =>
      if negb has_emit || (count =? 0) then Ret (NGX_RTC_ERR_INVALID, sq, scratch, log)
      else
        '(rc, payload_len) ← stap_a_length (Z.to_nat count) szs 0 1;
        if negb (rc =? 0) then Ret (rc, sq, scratch, log)
        else
          let total := NGX_RTC_RTP_HEADER_SIZE + payload_len in
          if scratch_cap <? total then Ret (NGX_RTC_ERR_TOO_SMALL, sq, scratch, log)
          else
            '(out, b) ← ngx_rtc_rtp_build_header b s ts sc pt 0;
            d0 ← load ds 0;
            n0 ← load d0 0;
            b ← store b out (Z.lor (Z.land n0 NGX_RTC_H264_NRI_MASK) NGX_RTC_H264_STAP_A);
            b ← stap_a_copy (Z.to_nat count) ds szs 0 (out + 1) b;
            '(r, s, b, log) ← emit_scratch b total (u16 (s + 1)) log;
            Ret (r, Ref s, Ref b, log)
  | _, _, _, _ => Ret (NGX_RTC_ERR_INVALID, sq, scratch, log)
  end.

Definition ngx_rtc_h264_packetize (nalu : ptr octets) (len ts : Z) (sq : ptr Z)
    (sc pt marker : Z) (scratch : ptr octets) (scratch_cap : Z) (has_emit : bool)
    (log : list octets) : outcome (Z * ptr Z * ptr octets * list octets) :=
  if is_null nalu || is_null sq || is_null scratch || negb has_emit || (len =? 0)
  then Ret (NGX_RTC_ERR_INVALID, sq, scratch, log)
  else if len <=? NGX_RTC_H264_MTU then
    ngx_rtc_h264_packetize_single nalu len ts sq sc pt marker scratch scratch_cap
      has_emit log
  else
    ngx_rtc_h264_packetize_fu_a nalu len ts sq sc pt NGX_RTC_H264_MTU marker scratch
      scratch_cap has_emit log.

Definition ngx_rtc_opus_packetize (opus : ptr octets) (len ts : Z) (sq : ptr Z)
    (sc pt marker : Z) (scratch : ptr octets) (scratch_cap : Z) (has_emit : bool)
    (log : list octets) : outcome (Z * ptr Z * ptr octets * list octets) :=
  match opus, sq, scratch with
  | Ref d, Ref s, Ref b =>
      if negb has_emit || (len =? 0) then Ret (NGX_RTC_ERR_INVALID, sq, scratch, log)
      else
        let total := u32 (NGX_RTC_RTP_HEADER_SIZE + len) in
        if scratch_cap <? total then Ret (NGX_RTC_ERR_TOO_SMALL, sq, scratch, log)
        else
          '(_, b) ← ngx_rtc_rtp_build_header b s ts sc pt marker;
          src ← load_range d 0 len;
          b ← store_range b NGX_RTC_RTP_HEADER_SIZE src;
          '(r, s, b, log) ← emit_scratch b total (u16 (s + 1)) log;
          Ret (r, Ref s, Ref b, log)
  | _, _, _ => Ret (NGX_RTC_ERR_INVALID, sq, scratch, log)
  end.

End packetize.

#[global] Arguments ngx_rtc_rtp_build_header : simpl never.
#[global] Arguments emit_scratch : simpl never.
#[global] Arguments fu_a_fragment : simpl never.

(** *** The wire format *)

Definition mark (marker : bool) (pt : Z) : Z :=
  if marker then Z.lor (Z.land pt 0x7f) 0x80 else Z.land pt 0x7f.

Definition rtp_packet (marker : bool) (pt sq ts sc : Z) (payload : octets) : octets :=
  [0x80; mark marker pt] ++ be_enc 2 sq ++ be_enc 4 ts ++ be_enc 4 sc ++ payload.

(** What a receiver reads of a packet without CSRCs and extension. *)
Record rtp_view := {
  v_marker : bool; v_pt : Z; v_seq : Z; v_ts : Z; v_ssrc : Z; v_payload : octets
}.

Definition rtp_parse (p : octets) : option rtp_view :=
  match p with
  | v :: m :: s1 :: s0 :: t3 :: t2 :: t1 :: t0 :: c3 :: c2 :: c1 :: c0 :: payload =>
      if v =? 0x80 then
        Some {| v_marker := 128 <=? m; v_pt := m mod 128; v_seq := be_dec [s1; s0];
                v_ts := be_dec [t3; t2; t1; t0]; v_ssrc := be_dec [c3; c2; c1; c0];
                v_payload := payload |}
      else None
  | _ => None
  end.

Lemma zlen_rtp_packet m pt sq ts sc payload :
  zlen (rtp_packet m pt sq ts sc payload) = 12 + zlen payload.
Proof. unfold rtp_packet. zl. Qed.

Lemma rtp_parse_packet m pt sq ts sc payload :
  is_u16 sq -> is_u32 ts -> is_u32 sc -> 0 <= pt < 128 ->
  rtp_parse (rtp_packet m pt sq ts sc payload)
  = Some {| v_marker := m; v_pt := pt; v_seq := sq; v_ts := ts; v_ssrc := sc;
            v_payload := payload |}.
Proof.
  intros Hs Ht Hc Hp. unfold rtp_packet.
  change (rtp_parse _) with (Some {| v_marker := 128 <=? mark m pt;
    v_pt := mark m pt mod 128; v_seq := be_dec (be_enc 2 sq);
    v_ts := be_dec (be_enc 4 ts); v_ssrc := be_dec (be_enc 4 sc);
    v_payload := payload |}).
  rewrite !be_dec_enc. unfold is_u16, is_u32 in *.
  change (256 ^ Z.of_nat 2) with 65536. change (256 ^ Z.of_nat 4) with 4294967296.
  rewrite (Z.mod_small sq), (Z.mod_small ts), (Z.mod_small sc) by lia.
  assert (Hland : Z.land pt 127 = pt).
  { etransitivity; [apply (land_pow2_mask pt 7); lia | by apply Z.mod_small]. }
  unfold mark. rewrite Hland. do 2 f_equal.
  - destruct m.
    + rewrite Z.lor_comm. change 128 with (1 * 2 ^ 7) at 2.
      rewrite lor_low by lia. apply Z.leb_le. lia.
    + apply Z.leb_gt. lia.
  - destruct m; [| by apply Z.mod_small].
    rewrite Z.lor_comm. change 128 with (1 * 2 ^ 7) at 1.
    rewrite lor_low by lia. Z.div_mod_to_equations. lia.
Qed.

Lemma build_header_spec b sq ts sc pt marker :
  12 <= zlen b ->
  ngx_rtc_rtp_build_header b sq ts sc pt marker
  = Ret (12, rtp_packet (negb (marker =? 0)) pt sq ts sc (zdrop 12 b)).
Proof.
  intros Hb. unfold ngx_rtc_rtp_build_header, ngx_rtc_rtp_header_write.
  cbn [version_cc marker_pt seq timestamp ssrc].
  change (NGX_RTC_RTP_HEADER_SIZE <? NGX_RTC_RTP_HEADER_SIZE) with false. cbv iota.
  rewrite stores_store_range by lia.
  set (hdr := _ :: _).
  assert (Hh : hdr = [0x80; mark (negb (marker =? 0)) pt] ++ be_enc 2 sq ++ be_enc 4 ts
    ++ be_enc 4 sc).
  { rewrite <- be_enc_2, <- !be_enc_4. unfold mark. by destruct (negb (marker =? 0)). }
  rewrite Hh. by rewrite store_range_in by zl.
Qed.

Lemma store_range_packet m pt sq ts sc rest off src :
  0 <= off -> off + zlen src <= zlen rest ->
  store_range (rtp_packet m pt sq ts sc rest) (12 + off) src
  = Ret (rtp_packet m pt sq ts sc (ztake off rest ++ src ++ zdrop (off + zlen src) rest)).
Proof.
  intros Ho Hl. pose proof (zlen_nonneg src).
  rewrite store_range_in by (rewrite ?zlen_rtp_packet; lia). f_equal.
  unfold rtp_packet. rewrite !app_assoc.
  set (h := (([0x80; mark m pt] ++ be_enc 2 sq) ++ be_enc 4 ts) ++ be_enc 4 sc).
  assert (Hh : zlen h = 12) by (unfold h; zl).
  unfold ztake, zdrop, zlen in *. rewrite take_app_ge, drop_app_ge by lia.
  rewrite <- !app_assoc. f_equal. f_equal; [f_equal; lia |]. do 2 f_equal. lia.
Qed.

Lemma store_packet m pt sq ts sc rest off v :
  0 <= off < zlen rest ->
  store (rtp_packet m pt sq ts sc rest) (12 + off) v
  = Ret (rtp_packet m pt sq ts sc (<[Z.to_nat off := v]> rest)).
Proof.
  intros Ho. unfold store. rewrite zlen_rtp_packet. zcase. f_equal. unfold rtp_packet.
  rewrite !app_assoc.
  set (h := (([0x80; mark m pt] ++ be_enc 2 sq) ++ be_enc 4 ts) ++ be_enc 4 sc).
  assert (Hh : zlen h = 12) by (unfold h; zl).
  unfold zlen in Hh. rewrite insert_app_r_alt by lia. f_equal. f_equal. lia.
Qed.

Section stamped.
  Context (marker : bool) (pt ts sc : Z).

(** Consecutive packets of one access unit: sequence numbers from [sq] on, the
    common stamp, the marker on the last only. *)
Fixpoint stamped (sq : Z) (pkts : list octets) : Prop :=
  match pkts with
  | [] => True
  | p :: ps =>
      rtp_parse p = Some {| v_marker := marker && bool_decide (ps = []); v_pt := pt;
                            v_seq := sq; v_ts := ts; v_ssrc := sc;
                            v_payload := zdrop 12 p |} /\
      stamped (u16 (sq + 1)) ps
  end.
End stamped.

(** *** RFC 6184 reassembly, the receiver's side *)

(** Fragments after the first: [first] was consumed, the last carries E. *)
Fixpoint fu_tail (ps : list octets) : option octets :=
  match ps with
  | [] => None
  | [_ :: fh :: d] => if Z.testbit fh 6 then Some d else None
  | (_ :: fh :: d) :: ps =>
      if Z.testbit fh 6 || Z.testbit fh 7 then None
      else match fu_tail ps with Some r => Some (d ++ r) | None => None end
  | _ => None
  end.

Definition h264_depacketize (ps : list octets) : option octets :=
  match ps with
  | [n0 :: d] => if Z.land n0 31 =? 28 then None else Some (n0 :: d)
  | (ind :: fh :: d) :: ps =>
      if (Z.land ind 31 =? 28) && Z.testbit fh 7 && negb (Z.testbit fh 6) then
        match fu_tail ps with
        | Some r => Some (Z.lor (Z.land ind 224) (Z.land fh 31) :: d ++ r)
        | None => None
        end
      else None
  | _ => None
  end.

(** *** The single-packet forms *)

Section single.
  Context (emit : list octets -> octets -> Z).

Lemma emit_scratch_packet m pt sq ts sc pl rest s' log :
  emit_scratch emit (rtp_packet m pt sq ts sc (pl ++ rest)) (12 + zlen pl) s' log
  = Ret (emit log (rtp_packet m pt sq ts sc pl), s',
         rtp_packet m pt sq ts sc (pl ++ rest), log ++ [rtp_packet m pt sq ts sc pl]).
Proof.
  unfold emit_scratch.
  assert (Hp : rtp_packet m pt sq ts sc (pl ++ rest)
    = [] ++ rtp_packet m pt sq ts sc pl ++ rest).
  { unfold rtp_packet. by rewrite <- !app_assoc. }
  rewrite Hp at 1. rewrite load_range_app; [done | done |].
  by rewrite zlen_rtp_packet.
Qed.

Lemma store_payload m pt sq ts sc rest src :
  zlen src <= zlen rest ->
  store_range (rtp_packet m pt sq ts sc rest) 12 src
  = Ret (rtp_packet m pt sq ts sc (src ++ zdrop (zlen src) rest)).
Proof. intros Hl. apply (store_range_packet m pt sq ts sc rest 0). lia. done. Qed.

Lemma packetize_single_spec d ts s sc pt marker b cap log :
  1 <= zlen d -> 12 + zlen d <= cap -> cap <= zlen b -> cap < 2 ^ 32 ->
  let p := rtp_packet (negb (marker =? 0)) pt s ts sc d in
  exists b', zlen b' = zlen b /\
    ngx_rtc_h264_packetize_single emit (Ref d) (zlen d) ts (Ref s) sc pt marker (Ref b)
      cap true log = Ret (emit log p, Ref (u16 (s + 1)), Ref b', log ++ [p]).
Proof.
  intros Hd Hc Hb H32 p. unfold ngx_rtc_h264_packetize_single, NGX_RTC_RTP_HEADER_SIZE.
  destruct (Z.eqb_spec (zlen d) 0); [lia |]. cbn [negb orb]. cbv iota zeta.
  rewrite u32_small by (unfold is_u32; lia).
  destruct (Z.ltb_spec cap (12 + zlen d)); [lia |].
  rewrite build_header_spec, bind_Ret by lia. cbv iota beta.
  rewrite load_range_all, bind_Ret by done.
  rewrite store_payload, bind_Ret by zl.
  rewrite emit_scratch_packet, bind_Ret.
  eexists. split; [| reflexivity]. rewrite zlen_rtp_packet. zl.
Qed.

Lemma opus_packetize_spec d ts s sc pt marker b cap log :
  1 <= zlen d -> 12 + zlen d <= cap -> cap <= zlen b -> cap < 2 ^ 32 ->
  let p := rtp_packet (negb (marker =? 0)) pt s ts sc d in
  exists b', zlen b' = zlen b /\
    ngx_rtc_opus_packetize emit (Ref d) (zlen d) ts (Ref s) sc pt marker (Ref b)
      cap true log = Ret (emit log p, Ref (u16 (s + 1)), Ref b', log ++ [p]).
Proof. apply packetize_single_spec. Qed.

(** *** FU-A *)

Definition fu_header (first last : bool) (nt : Z) : Z :=
  let h := if first then Z.lor nt 0x80 else nt in
  if last then Z.lor h 0x40 else h.

Definition fu_ind (n0 : Z) : Z := Z.lor (Z.land n0 224) 28.

#[global] Arguments fu_header : simpl never.
#[global] Arguments fu_ind : simpl never.

(** The [n] fragments of [rest]. *)
Fixpoint fu_packets (mark_last : bool) (pt ts sc n0 mtu : Z) (first : bool) (n : nat)
    (s : Z) (rest : octets) : list octets :=
  match n with
  | O => []
  | S n' =>
      let last := match n' with O => true | _ => false end in
      rtp_packet (mark_last && last) pt s ts sc
        (fu_ind n0 :: fu_header first last (Z.land n0 31) :: ztake mtu rest)
      :: fu_packets mark_last pt ts sc n0 mtu false n' (u16 (s + 1)) (zdrop mtu rest)
  end.

(** One iteration, with the packet it builds. *)
Lemma fu_step b s ts sc pt mk ind fh d off chunk log :
  14 + chunk <= zlen b -> 0 <= off -> 0 <= chunk -> off + chunk <= zlen d ->
  exists b', zlen b' = zlen b /\
  fu_a_fragment emit d b ind fh ts sc pt mk off chunk (14 + chunk) s log
  = (let p := rtp_packet (negb (mk =? 0)) pt s ts sc
                (ind :: fh :: ztake chunk (zdrop off d)) in
     Ret (emit log p, u16 (s + 1), b', log ++ [p])).
Proof.
  intros Hb Ho Hch Hd. unfold fu_a_fragment, NGX_RTC_RTP_HEADER_SIZE.
  rewrite build_header_spec, bind_Ret by lia. cbv iota beta.
  assert (Hrest : exists x y r, zdrop 12 b = x :: y :: r).
  { assert (Hz : zlen (zdrop 12 b) = zlen b - 12) by zl.
    destruct (zdrop 12 b) as [| x [| y r]]; [| | by exists x, y, r];
      rewrite ?zlen_cons, zlen_nil in Hz; lia. }
  destruct Hrest as (x & y & r & Hr). rewrite Hr.
  assert (Hlr : zlen r = zlen b - 14).
  { assert (Hz : zlen (zdrop 12 b) = zlen b - 12) by zl.
    rewrite Hr, !zlen_cons in Hz. lia. }
  change (store (rtp_packet (negb (mk =? 0)) pt s ts sc (x :: y :: r)) 12 ind)
    with (store (rtp_packet (negb (mk =? 0)) pt s ts sc (x :: y :: r)) (12 + 0) ind).
  pose proof (zlen_nonneg r). rewrite store_packet, bind_Ret by zl.
  rewrite store_packet, bind_Ret by zl.
  rewrite load_range_in, bind_Ret by lia.
  assert (Hch' : zlen (ztake chunk (zdrop off d)) = chunk) by zl.
  change (<[Z.to_nat 1:=fh]> (<[Z.to_nat 0:=ind]> (x :: y :: r)))
    with ([ind; fh] ++ r).
  rewrite store_range_packet, bind_Ret by zl.
  change (ztake 2 ([ind; fh] ++ r)) with [ind; fh].
  set (chunk_b := ztake chunk (zdrop off d)) in *.
  replace (14 + chunk) with (12 + zlen ([ind; fh] ++ chunk_b)) by zl.
  rewrite app_assoc, emit_scratch_packet.
  eexists. split; [| reflexivity]. rewrite zlen_rtp_packet. zl.
Qed.

Lemma fu_loop_spec n0 ts sc pt marker mtu cap num d : forall n i off s b log,
  (forall log p, emit log p = 0) ->
  0 < mtu -> 14 + mtu <= cap -> cap <= zlen b -> cap < 2 ^ 32 ->
  0 <= i -> num = i + Z.of_nat n -> 0 <= off <= zlen d ->
  zlen d - off <= Z.of_nat n * mtu -> Z.of_nat n * mtu - mtu < zlen d - off ->
  exists b',
    let pkts := fu_packets (negb (marker =? 0)) pt ts sc n0 mtu (i =? 0) n s
                  (zdrop off d) in
    fu_a_loop emit n d (fu_ind n0) (Z.land n0 31) ts sc pt marker mtu cap i num off
      (zlen d - off) s b log
    = Ret (0, u16 (s + Z.of_nat n), b', log ++ pkts) \/ n = O.
Proof.
  induction n as [| n IH]; intros i off s b log He Hmtu Hcap Hb H32 Hi Hnum Hoff Hle Hlt.
  { exists b. by right. }
  set (chunk := if zlen d - off <? mtu then zlen d - off else mtu).
  assert (Hch : chunk = Z.min (zlen d - off) mtu)
    by (unfold chunk; destruct (Z.ltb_spec (zlen d - off) mtu); lia).
  set (lst := match n with O => true | _ => false end).
  assert (Hlast : (i =? num - 1) = lst).
  { unfold lst. destruct n; [apply Z.eqb_eq | apply Z.eqb_neq]; lia. }
  set (mk := if negb (marker =? 0) && lst then 1 else 0).
  assert (Hmk : negb (mk =? 0) = negb (marker =? 0) && lst)
    by (unfold mk; by destruct (negb (marker =? 0) && lst)).
  destruct (fu_step b s ts sc pt mk (fu_ind n0) (fu_header (i =? 0) lst (Z.land n0 31)) d
    off chunk log) as (b1 & Hl1 & Hstep); [lia.. |].
  rewrite Hmk in Hstep. cbv zeta in Hstep.
  assert (Htake : ztake chunk (zdrop off d) = ztake mtu (zdrop off d)).
  { destruct (Z.le_gt_cases mtu (zlen d - off)); [f_equal; lia |].
    rewrite !ztake_all; [done | zl | zl]. }
  rewrite Htake in Hstep.
  cbn [fu_a_loop]. fold chunk. unfold NGX_RTC_RTP_HEADER_SIZE.
  rewrite (u32_small (12 + 2 + chunk)) by (unfold is_u32; lia).
  destruct (Z.ltb_spec cap (12 + 2 + chunk)); [lia |].
  rewrite Hlast. fold mk.
  change (12 + 2 + chunk) with (14 + chunk).
  change (if lst then Z.lor (if i =? 0 then Z.lor (Z.land n0 31) NGX_RTC_H264_FU_START
    else Z.land n0 31) NGX_RTC_H264_FU_END else if i =? 0 then
    Z.lor (Z.land n0 31) NGX_RTC_H264_FU_START else Z.land n0 31)
    with (fu_header (i =? 0) lst (Z.land n0 31)).
  rewrite Hstep, bind_Ret, He. cbn [negb Z.eqb].
  cbn [fu_packets]. fold lst.
  assert (Hdrop : zdrop mtu (zdrop off d) = zdrop (off + chunk) d).
  { rewrite zdrop_zdrop by lia. destruct (Z.le_gt_cases mtu (zlen d - off)).
    - f_equal. lia.
    - rewrite !zdrop_all; [done | lia | lia]. }
  replace (zlen d - off - chunk) with (zlen d - (off + chunk)) by lia.
  rewrite Hdrop. destruct (decide (n = O)) as [-> | Hn].
  { exists b1. left. cbn [fu_a_loop fu_packets]. by rewrite Z.add_1_r. }
  set (pkt := rtp_packet _ _ _ _ _ _) in *.
  destruct (IH (i + 1) (off + chunk) (u16 (s + 1)) b1 (log ++ [pkt]))
    as (b2 & [Hrun | Hz]); try done; try lia; try nia.
  exists b2. left. rewrite Hrun.
  replace (i + 1 =? 0) with false by (symmetry; apply Z.eqb_neq; lia).
  rewrite <- app_assoc. do 3 f_equal.
  rewrite u16_add_l. do 2 f_equal. lia.
Qed.

(** *** Reassembly of the fragments *)

Lemma land_type_fu n0 : Z.land (fu_ind n0) 31 = 28.
Proof.
  unfold fu_ind. rewrite Z.land_lor_distr_l, <- Z.land_assoc.
  change (Z.land 224 31) with 0. by rewrite Z.land_0_r.
Qed.

Lemma land_nri_fu n0 : Z.land (fu_ind n0) 224 = Z.land n0 224.
Proof.
  unfold fu_ind. rewrite Z.land_lor_distr_l, <- Z.land_assoc.
  change (Z.land 224 224) with 224. change (Z.land 28 224) with 0. apply Z.lor_0_r.
Qed.

Lemma fu_header_type first last n0 :
  Z.land (fu_header first last (Z.land n0 31)) 31 = Z.land n0 31.
Proof.
  unfold fu_header. destruct first, last; rewrite ?Z.land_lor_distr_l, <- ?Z.land_assoc;
    change (Z.land 128 31) with 0; change (Z.land 64 31) with 0;
    change (Z.land 31 31) with 31; by rewrite ?Z.lor_0_r.
Qed.

Lemma fu_header_start first last n0 :
  Z.testbit (fu_header first last (Z.land n0 31)) 7 = first.
Proof.
  unfold fu_header. destruct first, last; rewrite ?Z.lor_spec, Z.land_spec;
    change (Z.testbit 31 7) with false; by rewrite andb_false_r.
Qed.

Lemma fu_header_end first last n0 :
  Z.testbit (fu_header first last (Z.land n0 31)) 6 = last.
Proof.
  unfold fu_header. destruct first, last; rewrite ?Z.lor_spec, Z.land_spec;
    change (Z.testbit 31 6) with false; by rewrite andb_false_r.
Qed.

Lemma nal_header_split n0 :
  is_u8 n0 -> Z.lor (Z.land n0 224) (Z.land n0 31) = n0.
Proof.
  intros Hn. rewrite <- Z.land_lor_distr_r. change (Z.lor 224 31) with 255.
  rewrite land_255. by apply Z.mod_small.
Qed.

Lemma fu_packets_payload mk pt ts sc n0 mtu first n s rest :
  map (zdrop 12) (fu_packets mk pt ts sc n0 mtu first (S n) s rest)
  = (fu_ind n0 :: fu_header first (match n with O => true | _ => false end)
       (Z.land n0 31) :: ztake mtu rest)
    :: map (zdrop 12) (fu_packets mk pt ts sc n0 mtu false n (u16 (s + 1))
         (zdrop mtu rest)).
Proof. reflexivity. Qed.

Lemma fu_tail_cons a fh d p2 ps :
  fu_tail ((a :: fh :: d) :: p2 :: ps)
  = if Z.testbit fh 6 || Z.testbit fh 7 then None
    else match fu_tail (p2 :: ps) with Some r => Some (d ++ r) | None => None end.
Proof. reflexivity. Qed.

Lemma fu_tail_packets mk pt ts sc n0 mtu n : forall s rest,
  0 < mtu -> zlen rest <= Z.of_nat (S n) * mtu ->
  fu_tail (map (zdrop 12) (fu_packets mk pt ts sc n0 mtu false (S n) s rest))
  = Some rest.
Proof.
  induction n as [| n IH]; intros s rest Hm Hl; rewrite fu_packets_payload.
  - change ((if Z.testbit (fu_header false true (Z.land n0 31)) 6
             then Some (ztake mtu rest) else None) = Some rest).
    rewrite fu_header_end. by rewrite ztake_all by lia.
  - rewrite fu_packets_payload, fu_tail_cons.
    rewrite fu_header_end, fu_header_start. cbn [orb].
    rewrite <- fu_packets_payload, IH by zl. by rewrite ztake_zdrop.
Qed.

Lemma packetize_fu_a_spec n0 d ts s sc pt marker b cap log :
  (forall log p, emit log p = 0) ->
  1 <= zlen d -> 1214 <= cap -> cap <= zlen b -> cap < 2 ^ 32 ->
  let n := Z.to_nat (1 + (zlen d - 1) / 1200) in
  let pkts := fu_packets (negb (marker =? 0)) pt ts sc n0 1200 true n s d in
  exists b',
    ngx_rtc_h264_packetize_fu_a emit (Ref (n0 :: d)) (zlen (n0 :: d)) ts (Ref s) sc pt
      NGX_RTC_H264_MTU marker (Ref b) cap true log
    = Ret (0, Ref (u16 (s + Z.of_nat n)), Ref b', log ++ pkts).
Proof.
  intros He Hd Hc Hb H32 n pkts. unfold ngx_rtc_h264_packetize_fu_a.
  cbn [negb]. rewrite zlen_cons. unfold NGX_RTC_H264_MTU.
  destruct (Z.ltb_spec (1 + zlen d) 2); [lia |]. cbn [orb Z.eqb]. cbv iota.
  rewrite load_0, bind_Ret. cbv zeta.
  replace (1 + zlen d - 1) with (zlen (n0 :: d) - 1) by (rewrite zlen_cons; lia).
  assert (Hn : Z.of_nat n = 1 + (zlen d - 1) / 1200).
  { unfold n. rewrite Z2Nat.id; [done |]. Z.div_mod_to_equations. lia. }
  rewrite zlen_cons. replace (1 + zlen d - 1 - 1) with (zlen d - 1) by lia. fold n.
  destruct (fu_loop_spec n0 ts sc pt marker 1200 cap (1 + (zlen d - 1) / 1200)
    (n0 :: d) n 0 1 s b log) as (b' & [Hrun | Hz]); try done; try lia;
    try (rewrite ?zlen_cons; Z.div_mod_to_equations; lia).
  exists b'. rewrite zlen_cons in Hrun. unfold fu_ind in Hrun.
  unfold NGX_RTC_H264_NAL_TYPE_MASK, NGX_RTC_H264_NRI_MASK, NGX_RTC_H264_FU_A.
  rewrite Hrun, bind_Ret. done.
Qed.
End single.

(** *** Stamps *)

Lemma stamped_fu m pt ts sc n0 mtu n : forall first s rest,
  is_u16 s -> is_u32 ts -> is_u32 sc -> 0 <= pt < 128 ->
  stamped m pt ts sc s (fu_packets m pt ts sc n0 mtu first n s rest).
Proof.
  induction n as [| n IH]; intros first s rest Hs Ht Hc Hp; [done |].
  cbn [fu_packets stamped]. split; [| apply IH; auto with rtc].
  rewrite rtp_parse_packet by done. do 2 f_equal.
  by destruct n.
Qed.

Lemma fu_packets_small m pt ts sc n0 n : forall first s rest,
  Forall (fun p => zlen p <= 1214) (fu_packets m pt ts sc n0 1200 first n s rest).
Proof.
  induction n as [| n IH]; intros first s rest; [constructor |].
  cbn [fu_packets]. constructor; [| apply IH].
  rewrite zlen_rtp_packet, !zlen_cons. zl.
Qed.

Lemma fu_packets_length m pt ts sc n0 mtu n : forall first s rest,
  length (fu_packets m pt ts sc n0 mtu first n s rest) = n.
Proof. induction n; intros; simpl; congruence. Qed.

Lemma depacketize_fu m pt ts sc n0 mtu n s rest :
  is_u8 n0 -> 0 < mtu -> zlen rest <= Z.of_nat (S (S n)) * mtu ->
  h264_depacketize (map (zdrop 12) (fu_packets m pt ts sc n0 mtu true (S (S n)) s rest))
  = Some (n0 :: rest).
Proof.
  intros Hn Hm Hl. rewrite fu_packets_payload.
  assert (Hcons : forall ind fh d p ps, h264_depacketize ((ind :: fh :: d) :: p :: ps)
    = if (Z.land ind 31 =? 28) && Z.testbit fh 7 && negb (Z.testbit fh 6) then
        match fu_tail (p :: ps) with
        | Some r => Some (Z.lor (Z.land ind 224) (Z.land fh 31) :: d ++ r)
        | None => None
        end
      else None) by reflexivity.
  rewrite fu_packets_payload, Hcons, <- fu_packets_payload.
  rewrite land_type_fu, fu_header_start, fu_header_end, land_nri_fu, fu_header_type.
  rewrite nal_header_split by done.
  rewrite fu_tail_packets by zl. cbn. by rewrite ztake_zdrop.
Qed.

(** The stamp, bound and order of the packets of one NALU, whatever its size. *)
Definition access_unit (marker : Z) (pt ts sc s : Z) (pkts : list octets) : Prop :=
  stamped (negb (marker =? 0)) pt ts sc s pkts /\
  Forall (fun p => zlen p <= NGX_RTC_MAX_RTP_PKT) pkts.

Lemma packetize_spec emit n0 d ts s sc pt marker b cap log :
  (forall log p, emit log p = 0) ->
  is_u16 s -> is_u32 ts -> is_u32 sc -> 0 <= pt < 128 ->
  1214 <= cap -> cap <= zlen b -> cap < 2 ^ 32 ->
  exists b' pkts,
    ngx_rtc_h264_packetize emit (Ref (n0 :: d)) (zlen (n0 :: d)) ts (Ref s) sc pt
      marker (Ref b) cap true log
    = Ret (NGX_RTC_OK, Ref (u16 (s + zlen pkts)), Ref b', log ++ pkts) /\
    access_unit marker pt ts sc s pkts /\
    pkts = (if zlen (n0 :: d) <=? 1200
            then [rtp_packet (negb (marker =? 0)) pt s ts sc (n0 :: d)]
            else fu_packets (negb (marker =? 0)) pt ts sc n0 1200 true
                   (Z.to_nat (1 + (zlen d - 1) / 1200)) s d).
Proof.
  intros He Hs Ht Hc Hp Hcap Hb H32. unfold ngx_rtc_h264_packetize.
  pose proof (zlen_nonneg d). cbn [is_null negb orb].
  destruct (Z.eqb_spec (zlen (n0 :: d)) 0) as [H0 | _]; [rewrite zlen_cons in H0; lia |].
  unfold NGX_RTC_H264_MTU at 1.
  destruct (Z.leb_spec (zlen (n0 :: d)) 1200) as [Hle | Hgt].
  - destruct (packetize_single_spec emit (n0 :: d) ts s sc pt marker b cap log)
      as (b' & _ & Hr); [rewrite zlen_cons in *; lia | lia.. |].
    rewrite Hr, He. exists b', [rtp_packet (negb (marker =? 0)) pt s ts sc (n0 :: d)].
    split; [done |]. split; [| done]. split.
    + cbn [stamped]. split; [| done]. rewrite rtp_parse_packet by done.
      by destruct (negb (marker =? 0)).
    + apply Forall_singleton. rewrite zlen_rtp_packet.
      change NGX_RTC_MAX_RTP_PKT with 1214. lia.
  - destruct (packetize_fu_a_spec emit n0 d ts s sc pt marker b cap log)
      as (b' & Hr); [done | rewrite zlen_cons in Hgt; lia | done.. |].
    rewrite Hr. eexists b', _. split; [| split; [| reflexivity]].
    + unfold zlen at 3. by rewrite fu_packets_length.
    + split; [by apply stamped_fu | apply fu_packets_small].
Qed.

(** Packetizing any NALU and reassembling the emitted payloads as RFC 6184
    prescribes gives the NALU back, whether it is sent whole or in FU-A fragments;
    every packet stays within the documented 1214 bytes, carries the caller's
    timestamp, SSRC and payload type and the next sequence number (modulo 2^16),
    the marker is on the last packet only, and [*seq] advances once per packet.
    The one length left out is the subject of [fu_a_single_fragment]. *)
Theorem h264_packetize_roundtrip emit n0 d ts s sc pt marker b cap :
  (forall log p, emit log p = 0) ->
  is_u8 n0 -> Z.land n0 31 <> 28 -> zlen (n0 :: d) <> 1201 ->
  is_u16 s -> is_u32 ts -> is_u32 sc -> 0 <= pt < 128 ->
  1214 <= cap -> cap <= zlen b -> cap < 2 ^ 32 ->
  exists b' pkts,
    ngx_rtc_h264_packetize emit (Ref (n0 :: d)) (zlen (n0 :: d)) ts (Ref s) sc pt
      marker (Ref b) cap true []
    = Ret (NGX_RTC_OK, Ref (u16 (s + zlen pkts)), Ref b', pkts) /\
    access_unit marker pt ts sc s pkts /\
    h264_depacketize (map (zdrop 12) pkts) = Some (n0 :: d).
Proof.
  intros He Hn Hty Hlen Hs Ht Hc Hp Hcap Hb H32.
  destruct (packetize_spec emit n0 d ts s sc pt marker b cap [])
    as (b' & pkts & Hr & Hau & Hpk); try done.
  exists b', pkts. split; [done |]. split; [done |]. rewrite Hpk.
  destruct (Z.leb_spec (zlen (n0 :: d)) 1200).
  - change (h264_depacketize [n0 :: d] = Some (n0 :: d)). cbn [h264_depacketize].
    destruct (Z.eqb_spec (Z.land n0 31) 28); by destruct d.
  - rewrite zlen_cons in *.
    assert (Hq : exists k, Z.to_nat (1 + (zlen d - 1) / 1200) = S (S k)).
    { exists (Z.to_nat (1 + (zlen d - 1) / 1200) - 2)%nat.
      assert (2 <= 1 + (zlen d - 1) / 1200) by (Z.div_mod_to_equations; lia). lia. }
    destruct Hq as [k Hk]. rewrite Hk. apply depacketize_fu; [done | lia |].
    rewrite <- Hk, Z2Nat.id; Z.div_mod_to_equations; lia.
Qed.

Lemma h264_packetize_roundtrip_witness :
  let d := replicate 2500 7 in
  exists b' pkts,
    ngx_rtc_h264_packetize (fun _ _ => 0) (Ref (101 :: d)) (zlen (101 :: d)) 90000
      (Ref 65535) 11 102 1 (Ref (zeros 1214)) 1214 true []
    = Ret (NGX_RTC_OK, Ref (u16 (65535 + zlen pkts)), Ref b', pkts) /\
    access_unit 1 102 90000 11 65535 pkts /\
    h264_depacketize (map (zdrop 12) pkts) = Some (101 :: d).
Proof.
  apply h264_packetize_roundtrip; try (vm_compute; done);
    try (vm_compute; split; congruence); try done.
Defined.

(** A NALU of exactly MTU + 1 = 1201 bytes is above the single-packet limit but
    its 1200 payload bytes fit one fragment, so it goes out as a lone FU-A packet
    with both the start and the end bit set, which RFC 6184 section 5.8 forbids and
    a strict receiver rejects. *)
Theorem fu_a_single_fragment emit n0 d ts s sc pt marker b cap :
  (forall log p, emit log p = 0) -> zlen (n0 :: d) = 1201 ->
  is_u16 s -> is_u32 ts -> is_u32 sc -> 0 <= pt < 128 ->
  1214 <= cap -> cap <= zlen b -> cap < 2 ^ 32 ->
  exists b' fh,
    ngx_rtc_h264_packetize emit (Ref (n0 :: d)) (zlen (n0 :: d)) ts (Ref s) sc pt
      marker (Ref b) cap true []
    = Ret (NGX_RTC_OK, Ref (u16 (s + 1)), Ref b',
           [rtp_packet (negb (marker =? 0)) pt s ts sc (fu_ind n0 :: fh :: d)]) /\
    Z.testbit fh 7 = true /\ Z.testbit fh 6 = true /\
    h264_depacketize [fu_ind n0 :: fh :: d] = None.
Proof.
  intros He Hlen Hs Ht Hc Hp Hcap Hb H32.
  destruct (packetize_spec emit n0 d ts s sc pt marker b cap [])
    as (b' & pkts & Hr & _ & Hpk); try done.
  exists b', (fu_header true true (Z.land n0 31)).
  rewrite fu_header_start, fu_header_end.
  rewrite Hlen in Hpk. change (1201 <=? 1200) with false in Hpk. cbv iota in Hpk.
  rewrite zlen_cons in Hlen. replace (zlen d - 1) with 1199 in Hpk by lia.
  change (Z.to_nat (1 + 1199 / 1200)) with 1%nat in Hpk. cbn [fu_packets] in Hpk.
  rewrite andb_true_r, ztake_all in Hpk by lia. subst pkts.
  split; [done |]. split; [done |]. split; [done |].
  change ((if Z.land (fu_ind n0) 31 =? 28 then None
           else Some (fu_ind n0 :: fu_header true true (Z.land n0 31) :: d)) = None).
  by rewrite land_type_fu.
Qed.

Lemma fu_a_single_fragment_witness :
  let d := replicate 1200 7 in
  exists b' fh,
    ngx_rtc_h264_packetize (fun _ _ => 0) (Ref (101 :: d)) (zlen (101 :: d)) 90000
      (Ref 65535) 11 102 1 (Ref (zeros 1214)) 1214 true []
    = Ret (NGX_RTC_OK, Ref (u16 (65535 + 1)), Ref b',
           [rtp_packet (negb (1 =? 0)) 102 65535 90000 11 (fu_ind 101 :: fh :: d)]) /\
    Z.testbit fh 7 = true /\ Z.testbit fh 6 = true /\
    h264_depacketize [fu_ind 101 :: fh :: d] = None.
Proof.
  apply fu_a_single_fragment; try (vm_compute; done);
    try (vm_compute; split; congruence); try done.
Defined.

(** *** STAP-A *)

Definition stap_unit (d : octets) : octets := be_enc 2 (zlen d) ++ d.
Definition stap_body (ds : list octets) : octets := concat (map stap_unit ds).

(** The receiver's side: split an aggregation into its NALUs. *)
Fixpoint stap_split (n : nat) (p : octets) : option (list octets) :=
  match n, p with
  | _, [] => Some []
  | S n, hi :: lo :: p =>
      let sz := be_dec [hi; lo] in
      if zlen p <? sz then None
      else match stap_split n (zdrop sz p) with
           | Some ds => Some (ztake sz p :: ds)
           | None => None
           end
  | _, _ => None
  end.

Lemma zlen_stap_unit d : zlen (stap_unit d) = 2 + zlen d.
Proof. unfold stap_unit. zl. Qed.

Lemma stap_body_cons d ds : stap_body (d :: ds) = stap_unit d ++ stap_body ds.
Proof. reflexivity. Qed.

Lemma stap_split_body ds : forall n,
  (length ds <= n)%nat -> Forall (fun d => zlen d < 65536) ds ->
  stap_split n (stap_body ds) = Some ds.
Proof.
  induction ds as [| d ds IH]; intros n Hn Hall; [by destruct n |].
  apply Forall_cons_1 in Hall as [Hd Hall]. simpl in Hn. destruct n as [| n]; [lia |].
  pose proof (zlen_nonneg d).
  rewrite stap_body_cons. unfold stap_unit. rewrite <- app_assoc.
  change (stap_split (S n) (be_enc 2 (zlen d) ++ d ++ stap_body ds)) with
    (let sz := be_dec (be_enc 2 (zlen d)) in
     if zlen (d ++ stap_body ds) <? sz then None
     else match stap_split n (zdrop sz (d ++ stap_body ds)) with
          | Some ds' => Some (ztake sz (d ++ stap_body ds) :: ds')
          | None => None
          end).
  rewrite be_dec_enc. change (256 ^ Z.of_nat 2) with 65536. rewrite Z.mod_small by lia.
  cbv zeta. pose proof (zlen_nonneg (stap_body ds)).
  destruct (Z.ltb_spec (zlen (d ++ stap_body ds)) (zlen d)) as [Hlt |];
    [rewrite zlen_app in Hlt; lia |].
  rewrite zdrop_app_length, ztake_app_length, IH by (done || lia). done.
Qed.

Lemma load_nth {A} (l : list A) i x :
  l !! i = Some x -> load l (Z.of_nat i) = Ret x.
Proof. intros H. apply load_ret. rewrite Nat2Z.id. split; [lia | done]. Qed.

(** The first pass, over the sizes of the NALUs from index [i] on. *)
Lemma stap_a_length_spec ds : forall pre acc,
  let sizes := map zlen (pre ++ ds) in
  1 <= acc <= 1200 ->
  exists v, stap_a_length (length ds) sizes (Z.of_nat (length pre)) acc
    = Ret (if acc + zlen (stap_body ds) <=? 1200 then NGX_RTC_OK
           else NGX_RTC_ERR_TOO_LARGE, v) /\
  (acc + zlen (stap_body ds) <= 1200 -> v = acc + zlen (stap_body ds)).
Proof.
  induction ds as [| d ds IH]; intros pre acc sizes Hacc.
  { exists acc. change (stap_body []) with (@nil Z). rewrite zlen_nil, Z.add_0_r.
    simpl. destruct (Z.leb_spec acc 1200); [done | lia]. }
  assert (Hld : load sizes (Z.of_nat (length pre)) = Ret (zlen d)).
  { apply load_nth. unfold sizes. change (map zlen ?l) with (zlen <$> l).
    by rewrite list_lookup_fmap, list_lookup_middle. }
  cbn [length stap_a_length]. rewrite Hld, bind_Ret.
  rewrite stap_body_cons, zlen_app, zlen_stap_unit. pose proof (zlen_nonneg d).
  pose proof (zlen_nonneg (stap_body ds)).
  destruct (Z.ltb_spec 0xffff (zlen d)).
  { exists acc. destruct (Z.leb_spec (acc + (2 + zlen d + zlen (stap_body ds))) 1200);
      [lia |]. split; [done | lia]. }
  cbv zeta. unfold NGX_RTC_H264_MTU.
  destruct (Z.ltb_spec 1200 (acc + (2 + zlen d))).
  { exists (acc + (2 + zlen d)).
    destruct (Z.leb_spec (acc + (2 + zlen d + zlen (stap_body ds))) 1200);
      [lia |]. split; [done | lia]. }
  destruct (IH (pre ++ [d]) (acc + (2 + zlen d))) as (v & Hr & Hv); [lia |].
  rewrite length_app in Hr. cbn [length] in Hr. rewrite <- app_assoc in Hr.
  exists v. replace (Z.of_nat (length pre) + 1) with (Z.of_nat (length pre + 1)) by lia.
  unfold sizes. replace (acc + (2 + zlen d + zlen (stap_body ds)))
    with (acc + (2 + zlen d) + zlen (stap_body ds)) by lia.
  split; [exact Hr | exact Hv].
Qed.

Lemma store_next m pt s ts sc got rest src :
  zlen src <= zlen rest ->
  store_range (rtp_packet m pt s ts sc (got ++ rest)) (12 + zlen got) src
  = Ret (rtp_packet m pt s ts sc (got ++ src ++ zdrop (zlen src) rest)).
Proof.
  intros Hl. pose proof (zlen_nonneg got). pose proof (zlen_nonneg src).
  rewrite store_range_packet by zl.
  rewrite ztake_app_length, zdrop_app_ge by (done || lia).
  do 5 f_equal. lia.
Qed.

(** The second pass appends one unit per NALU. *)
Lemma stap_a_copy_spec m pt s ts sc ds : forall pre got rest,
  let nalus := pre ++ ds in
  zlen (stap_body ds) <= zlen rest -> Forall (fun d => zlen d < 65536) ds ->
  stap_a_copy (length ds) nalus (map zlen nalus) (Z.of_nat (length pre))
    (12 + zlen got) (rtp_packet m pt s ts sc (got ++ rest))
  = Ret (rtp_packet m pt s ts sc (got ++ stap_body ds ++ zdrop (zlen (stap_body ds)) rest)).
Proof.
  induction ds as [| d ds IH]; intros pre got rest nalus Hl Hall; [done |].
  apply Forall_cons_1 in Hall as [Hd Hall]. rewrite stap_body_cons in *.
  rewrite zlen_app, zlen_stap_unit in Hl.
  pose proof (zlen_nonneg d). pose proof (zlen_nonneg (stap_body ds)).
  pose proof (zlen_nonneg got).
  assert (Hsz : load (map zlen nalus) (Z.of_nat (length pre)) = Ret (zlen d)).
  { apply load_nth. unfold nalus. change (map zlen ?l) with (zlen <$> l).
    by rewrite list_lookup_fmap, list_lookup_middle. }
  assert (Hld : load nalus (Z.of_nat (length pre)) = Ret d).
  { apply load_nth. unfold nalus. by rewrite list_lookup_middle. }
  cbn [length stap_a_copy]. rewrite Hsz, bind_Ret, Hld, bind_Ret, be_enc_2.
  rewrite stores_store_range by (rewrite zlen_rtp_packet, zlen_app; lia).
  rewrite store_next, bind_Ret by zl.
  rewrite load_range_all, bind_Ret by done.
  replace (12 + zlen got + 2) with (12 + zlen (got ++ be_enc 2 (zlen d))) by zl.
  rewrite (app_assoc got), store_next, bind_Ret by zl.
  specialize (IH (pre ++ [d]) (got ++ stap_unit d) (zdrop (2 + zlen d) rest)).
  rewrite <- (app_assoc pre), length_app in IH. cbn [length] in IH.
  replace (Z.of_nat (length pre + 1)) with (Z.of_nat (length pre) + 1) in IH by lia.
  replace (12 + zlen (got ++ be_enc 2 (zlen d)) + zlen d)
    with (12 + zlen (got ++ stap_unit d)) by (unfold stap_unit; zl).
  rewrite zlen_be_enc, zdrop_zdrop by lia. rewrite (app_assoc (got ++ _)).
  rewrite <- (app_assoc got). fold (stap_unit d). change (Z.of_nat 2) with 2.
  unfold nalus. cbn [app] in IH. rewrite IH by (done || zl).
  rewrite zlen_app, zlen_stap_unit, zdrop_zdrop by lia.
  by rewrite <- !app_assoc.
Qed.

Lemma packetize_stap_a_spec emit n0 d0 ds ts s sc pt b cap log :
  let nalus := (n0 :: d0) :: ds in
  let payload := Z.lor (Z.land n0 224) 24 :: stap_body nalus in
  1212 <= cap -> cap <= zlen b ->
  exists b',
    ngx_rtc_h264_packetize_stap_a emit (Ref nalus) (Ref (map zlen nalus))
      (zlen nalus) ts (Ref s) sc pt (Ref b) cap true log
    = if zlen payload <=? 1200 then
        let p := rtp_packet false pt s ts sc payload in
        Ret (emit log p, Ref (u16 (s + 1)), Ref b', log ++ [p])
      else Ret (NGX_RTC_ERR_TOO_LARGE, Ref s, Ref b, log).
Proof.
  intros nalus payload Hcap Hb. unfold ngx_rtc_h264_packetize_stap_a.
  assert (Hc : zlen nalus <> 0).
  { unfold nalus. rewrite zlen_cons. pose proof (zlen_nonneg ds). lia. }
  destruct (Z.eqb_spec (zlen nalus) 0); [done |]. cbn [negb orb]. cbv iota.
  assert (Hn : Z.to_nat (zlen nalus) = length nalus) by (unfold zlen; lia). rewrite Hn.
  destruct (stap_a_length_spec nalus [] 1) as (v & Hr & Hv); [lia |].
  cbn [app length] in Hr. change (Z.of_nat 0) with 0 in Hr. rewrite Hr, bind_Ret.
  assert (Hpl : zlen payload = 1 + zlen (stap_body nalus))
    by (unfold payload; by rewrite zlen_cons).
  rewrite <- Hpl in Hr, Hv |- *.
  destruct (Z.leb_spec (zlen payload) 1200) as [Hfit | Hbig]; [| by exists b].
  specialize (Hv Hfit). subst v. change (negb (NGX_RTC_OK =? 0)) with false. cbv iota.
  unfold NGX_RTC_RTP_HEADER_SIZE. destruct (Z.ltb_spec cap (12 + zlen payload)); [lia |].
  rewrite build_header_spec, bind_Ret by lia. cbv iota beta.
  change (load nalus 0) with (Ret (n0 :: d0)). rewrite bind_Ret.
  rewrite load_0, bind_Ret. pose proof (zlen_nonneg (stap_body nalus)).
  assert (Hz : exists x r, zdrop 12 b = x :: r /\ zlen r = zlen b - 13).
  { assert (Hz : zlen (zdrop 12 b) = zlen b - 12) by zl.
    destruct (zdrop 12 b) as [| x r]; rewrite ?zlen_cons, ?zlen_nil in Hz; [lia |].
    exists x, r. split; [done | lia]. }
  destruct Hz as (x & r & -> & Hlr).
  change (store (rtp_packet (negb (0 =? 0)) pt s ts sc (x :: r)) 12)
    with (store (rtp_packet false pt s ts sc (x :: r)) (12 + 0)).
  rewrite store_packet, bind_Ret by zl.
  set (hd := Z.lor (Z.land n0 NGX_RTC_H264_NRI_MASK) NGX_RTC_H264_STAP_A).
  change (<[Z.to_nat 0:=hd]> (x :: r)) with ([hd] ++ r).
  pose proof (stap_a_copy_spec false pt s ts sc nalus [] [hd] r) as Hcopy.
  cbn [app length] in Hcopy. change (Z.of_nat 0) with 0 in Hcopy.
  change (zlen [hd]) with 1 in Hcopy. cbn [app]. rewrite Hcopy, bind_Ret; [| lia |].
  - assert (Hpay : (hd :: stap_body nalus) = payload) by done.
    exists (rtp_packet false pt s ts sc (payload ++ zdrop (zlen (stap_body nalus)) r)).
    change (hd :: stap_body nalus ++ ?t) with ((hd :: stap_body nalus) ++ t).
    rewrite Hpay. by rewrite emit_scratch_packet, bind_Ret.
  - clear - Hfit Hpl. assert (Hall : zlen (stap_body nalus) < 65536) by lia.
    revert Hall. generalize nalus. clear. intros l. induction l as [| d l IH]; intros Hl;
      [constructor |].
    rewrite stap_body_cons, zlen_app, zlen_stap_unit in Hl.
    pose proof (zlen_nonneg d). pose proof (zlen_nonneg (stap_body l)).
    constructor; [lia | apply IH; lia].
Qed.

(** Aggregating NALUs that fit one MTU emits exactly one STAP-A packet, marker
    clear, whose payload has type 24 with the NRI of the first NALU and splits back
    into the same NALUs; NALUs that do not fit are refused before anything is
    written, sent or numbered. *)
Theorem stap_a_roundtrip emit n0 d0 ds ts s sc pt b cap log :
  let nalus := (n0 :: d0) :: ds in
  is_u16 s -> is_u32 ts -> is_u32 sc -> 0 <= pt < 128 ->
  1212 <= cap -> cap <= zlen b ->
  exists b' payload,
    let fits := zlen payload <=? NGX_RTC_H264_MTU in
    ngx_rtc_h264_packetize_stap_a emit (Ref nalus) (Ref (map zlen nalus))
      (zlen nalus) ts (Ref s) sc pt (Ref b) cap true log
    = (if fits then
         let p := rtp_packet false pt s ts sc payload in
         Ret (emit log p, Ref (u16 (s + 1)), Ref b', log ++ [p])
       else Ret (NGX_RTC_ERR_TOO_LARGE, Ref s, Ref b, log)) /\
    (fits = true -> rtp_parse (rtp_packet false pt s ts sc payload)
       = Some {| v_marker := false; v_pt := pt; v_seq := s; v_ts := ts; v_ssrc := sc;
                 v_payload := payload |}) /\
    exists hd body, payload = hd :: body /\ Z.land hd 31 = 24 /\
      Z.land hd 224 = Z.land n0 224 /\
      (fits = true -> stap_split (length nalus) body = Some nalus).
Proof.
  intros nalus Hs Ht Hc Hp Hcap Hb.
  destruct (packetize_stap_a_spec emit n0 d0 ds ts s sc pt b cap log Hcap Hb) as (b' & Hr).
  exists b', (Z.lor (Z.land n0 224) 24 :: stap_body nalus). cbv zeta.
  split; [exact Hr |]. split; [intros _; by apply rtp_parse_packet |].
  eexists _, _. split; [reflexivity |]. split_and!.
  - rewrite Z.land_lor_distr_l, <- Z.land_assoc. change (Z.land 224 31) with 0.
    by rewrite Z.land_0_r.
  - rewrite Z.land_lor_distr_l, <- Z.land_assoc. change (Z.land 24 224) with 0.
    change (Z.land 224 224) with 224. apply Z.lor_0_r.
  - intros Hfit%Z.leb_le. rewrite zlen_cons in Hfit. unfold NGX_RTC_H264_MTU in Hfit.
    apply stap_split_body; [done |].
    assert (Hall : zlen (stap_body nalus) < 65536) by lia.
    revert Hall. generalize nalus. clear. intros l. induction l as [| d l IH]; intros Hl;
      [constructor |].
    rewrite stap_body_cons, zlen_app, zlen_stap_unit in Hl.
    pose proof (zlen_nonneg d). pose proof (zlen_nonneg (stap_body l)).
    constructor; [lia | apply IH; lia].
Qed.

Lemma stap_a_roundtrip_witness :
  let nalus := [[103; 66; 0]; [104; 206]] in
  exists b' payload,
    let fits := zlen payload <=? NGX_RTC_H264_MTU in
    ngx_rtc_h264_packetize_stap_a (fun _ _ => 0) (Ref nalus) (Ref (map zlen nalus))
      (zlen nalus) 7 (Ref 65535) 9 102 (Ref (zeros 1214)) 1214 true []
    = (if fits then
         let p := rtp_packet false 102 65535 7 9 payload in
         Ret (0, Ref (u16 (65535 + 1)), Ref b', [] ++ [p])
       else Ret (NGX_RTC_ERR_TOO_LARGE, Ref 65535, Ref (zeros 1214), [])) /\
    (fits = true -> rtp_parse (rtp_packet false 102 65535 7 9 payload)
       = Some {| v_marker := false; v_pt := 102; v_seq := 65535; v_ts := 7; v_ssrc := 9;
                 v_payload := payload |}) /\
    exists hd body, payload = hd :: body /\ Z.land hd 31 = 24 /\
      Z.land hd 224 = Z.land 103 224 /\
      (fits = true -> stap_split (length nalus) body = Some nalus).
Proof.
  apply (stap_a_roundtrip (fun _ _ => 0) 103 [66; 0] [[104; 206]]);
    try (vm_compute; split; congruence); try (vm_compute; done).
Defined.

(** *** Header stripping *)

(** The length of the fixed header, CSRC list and extension of [p]; None when the
    extension's own header is cut off. *)
Definition rtp_header_len (p : octets) : option Z :=
  match p with
  | b0 :: _ =>
      let h := 12 + 4 * (b0 mod 16) in
      if Z.testbit b0 4 then
        match load p (h + 2), load p (h + 3) with
        | Ret hi, Ret lo => Some (h + 4 + 4 * (hi * 256 + lo))
        | _, _ => None
        end
      else Some h
  | [] => None
  end.

(** The 12-byte form: CC and X cleared, payload moved up. *)
Definition stripped (p : octets) (h : Z) : octets :=
  match p with
  | b0 :: p' => Z.land b0 224 :: ztake 11 p' ++ zdrop h p
  | [] => []
  end.

Lemma strip_tail b0 p' h :
  12 <= h <= zlen (b0 :: p') ->
  exists b',
    ('(b, n) ← (if negb (h =? NGX_RTC_RTP_HEADER_SIZE) then
                  src ← load_range (b0 :: p') h (zlen (b0 :: p') - h);
                  b ← store_range (b0 :: p') NGX_RTC_RTP_HEADER_SIZE src;
                  Ret (b, NGX_RTC_RTP_HEADER_SIZE + (zlen (b0 :: p') - h))
                else Ret (b0 :: p', zlen (b0 :: p')));
     b0 ← load b 0;
     b ← store b 0 (Z.land b0 (u8 (Z.lnot (Z.lor NGX_RTC_RTP_CSRC_MASK
                                             NGX_RTC_RTP_EXTENSION))));
     Ret (NGX_RTC_OK, Ref b, Ref n))
    = Ret (NGX_RTC_OK, Ref b', Ref (12 + (zlen (b0 :: p') - h))) /\
    ztake (12 + (zlen (b0 :: p') - h)) b' = stripped (b0 :: p') h.
Proof.
  intros Hh. unfold NGX_RTC_RTP_HEADER_SIZE.
  change (u8 _) with 224. pose proof (zlen_cons b0 p') as Hzl.
  destruct (Z.eqb_spec h 12) as [-> | Hne]; cbn [negb].
  - rewrite bind_Ret, load_0, bind_Ret, store_head, bind_Ret.
    eexists. split; [f_equal; f_equal; f_equal; lia |].
    rewrite ztake_all by (rewrite zlen_cons; lia). unfold stripped. f_equal.
    change (zdrop 12 (b0 :: p')) with (zdrop 11 p'). by rewrite ztake_zdrop.
  - rewrite load_range_in, bind_Ret by lia.
    assert (Hsrc : ztake (zlen (b0 :: p') - h) (zdrop h (b0 :: p')) = zdrop h (b0 :: p')).
    { apply ztake_all. zl. }
    rewrite Hsrc.
    assert (Hlsrc : zlen (zdrop h (b0 :: p')) = zlen (b0 :: p') - h) by zl.
    rewrite store_range_in, !bind_Ret by lia.
    change (ztake 12 (b0 :: p')) with (b0 :: ztake 11 p').
    cbn [app]. rewrite load_0, bind_Ret, store_head, bind_Ret.
    eexists. split; [done |].
    change (zdrop ?n (b0 :: p')) with (zdrop n (b0 :: p')).
    rewrite app_comm_cons, app_assoc.
    rewrite ztake_app_length; [done |].
    assert (H12 : zlen (Z.land b0 224 :: ztake 11 p') = 12).
    { rewrite zlen_cons in *. rewrite zlen_ztake by lia. lia. }
    rewrite zlen_app, Hlsrc, H12. lia.
Qed.

Lemma ext_words hi lo : is_u8 lo -> Z.lor (Z.shiftl hi 8) lo = hi * 256 + lo.
Proof. intros H. unfold is_u8 in H. by apply (lor_shiftl hi lo 8). Qed.

Lemma land_csrc b : Z.land b 15 = b mod 16.
Proof. apply (land_pow2_mask b 4). lia. Qed.

(** Stripping is total: on any packet it either reports a parse error and leaves
    the packet untouched, exactly when the header (with its CSRC list and extension)
    does not fit, or leaves the 12-byte fixed header with CC and X cleared and the
    sequence, timestamp, SSRC and marker bytes as they were, followed by exactly the
    payload, with the length reduced accordingly. *)
Theorem strip_header_ext_total (p : octets) :
  octets_ok p ->
  match (if zlen p <? 12 then None else rtp_header_len p) with
  | Some h =>
      if zlen p <? h then
        ngx_rtc_rtp_strip_header_ext (Ref p) (Ref (zlen p))
          = Ret (NGX_RTC_ERR_PARSE, Ref p, Ref (zlen p))
      else
        exists b', ngx_rtc_rtp_strip_header_ext (Ref p) (Ref (zlen p))
            = Ret (NGX_RTC_OK, Ref b', Ref (12 + (zlen p - h))) /\
          ztake (12 + (zlen p - h)) b' = stripped p h
  | None =>
      ngx_rtc_rtp_strip_header_ext (Ref p) (Ref (zlen p))
        = Ret (NGX_RTC_ERR_PARSE, Ref p, Ref (zlen p))
  end.
Proof.
  intros Hok. unfold ngx_rtc_rtp_strip_header_ext.
  change (zlen p <? NGX_RTC_RTP_HEADER_SIZE) with (zlen p <? 12).
  destruct (Z.ltb_spec (zlen p) 12) as [| Hlen]; [done |].
  destruct p as [| b0 p']; [rewrite zlen_nil in Hlen; lia |].
  rewrite load_0, bind_Ret. cbv zeta. unfold rtp_header_len.
  set (h := 12 + 4 * (b0 mod 16)).
  assert (Hhc : NGX_RTC_RTP_HEADER_SIZE + 4 * Z.land b0 NGX_RTC_RTP_CSRC_MASK = h)
    by (unfold h; rewrite <- land_csrc; done).
  rewrite Hhc.
  assert (Hh : 12 <= h) by (pose proof (Z.mod_pos_bound b0 16); lia).
  assert (Hx : negb (Z.land b0 NGX_RTC_RTP_EXTENSION =? 0) = Z.testbit b0 4).
  { change NGX_RTC_RTP_EXTENSION with (2 ^ 4). rewrite land_pow2_bit by lia.
    by destruct (Z.testbit b0 4). }
  rewrite Hx. destruct (Z.testbit b0 4).
  2: { rewrite bind_Ret. destruct (Z.ltb_spec (zlen (b0 :: p')) h); [done |].
       apply strip_tail. lia. }
  destruct (Z.ltb_spec (zlen (b0 :: p')) (h + 4)) as [Hcut | Hext].
  - rewrite bind_Ret.
    destruct (load (b0 :: p') (h + 2)) as [hi |] eqn:Hhi; [| done].
    destruct (load (b0 :: p') (h + 3)) as [lo |] eqn:Hlo; [| done].
    apply load_bound in Hlo. lia.
  - destruct (load_in (b0 :: p') (h + 2)) as [hi Hhi]; [lia |].
    destruct (load_in (b0 :: p') (h + 3)) as [lo Hlo]; [lia |].
    rewrite Hhi, bind_Ret, Hlo, bind_Ret.
    pose proof (load_u8 _ _ _ Hok Hhi) as Hu1. pose proof (load_u8 _ _ _ Hok Hlo) as Hu2.
    rewrite ext_words, bind_Ret by done. unfold is_u8 in *.
    replace (h + (4 + 4 * (hi * 256 + lo))) with (h + 4 + 4 * (hi * 256 + lo)) by lia.
    destruct (Z.ltb_spec (zlen (b0 :: p')) (h + 4 + 4 * (hi * 256 + lo))); [done |].
    apply strip_tail. lia.
Qed.

(** CC = 1, one extension word, payload [7; 8]. *)
Definition demo_ext_packet : octets :=
  [0x91; 102; 0; 1; 0; 0; 0; 2; 0; 0; 0; 3; 9; 9; 9; 9; 0xbe; 0xde; 0; 1; 5; 5; 5; 5;
   7; 8].

Lemma strip_header_ext_total_witness :
  stripped demo_ext_packet 24 = [0x80; 102; 0; 1; 0; 0; 0; 2; 0; 0; 0; 3; 7; 8] /\
  match (if zlen demo_ext_packet <? 12 then None else rtp_header_len demo_ext_packet) with
  | Some h =>
      if zlen demo_ext_packet <? h then
        ngx_rtc_rtp_strip_header_ext (Ref demo_ext_packet) (Ref (zlen demo_ext_packet))
          = Ret (NGX_RTC_ERR_PARSE, Ref demo_ext_packet, Ref (zlen demo_ext_packet))
      else
        exists b', ngx_rtc_rtp_strip_header_ext (Ref demo_ext_packet)
            (Ref (zlen demo_ext_packet))
            = Ret (NGX_RTC_OK, Ref b', Ref (12 + (zlen demo_ext_packet - h))) /\
          ztake (12 + (zlen demo_ext_packet - h)) b' = stripped demo_ext_packet h
  | None =>
      ngx_rtc_rtp_strip_header_ext (Ref demo_ext_packet) (Ref (zlen demo_ext_packet))
        = Ret (NGX_RTC_ERR_PARSE, Ref demo_ext_packet, Ref (zlen demo_ext_packet))
  end.
Proof.
  split; [vm_compute; reflexivity |]. apply strip_header_ext_total.
  repeat (constructor; [unfold is_u8; lia |]); constructor.
Defined.

(** *** Exp-Golomb codes and the B-frame probe *)

(** Bit [pos] of the stream, most significant first. *)
Definition bit_at (d : octets) (pos : Z) : Z :=
  match load d (pos / 8) with Ret x => (x / 2 ^ (7 - pos mod 8)) mod 2 | Fault => 0 end.

Definition bits_at (d : octets) (pos : Z) (bs : list Z) : Prop :=
  forall i b, load bs i = Ret b -> bit_at d (pos + i) = b.

(** The [n] low bits of [w], most significant first. *)
Fixpoint low_bits (n : nat) (w : Z) : list Z :=
  match n with O => [] | S n => (w / 2 ^ Z.of_nat n) mod 2 :: low_bits n w end.

(** ue(v): for w = v + 1 with leading bit k, k zeros, a one and the k low bits of w. *)
Definition ue_bits (v : Z) : list Z :=
  let k := Z.to_nat (Z.log2 (v + 1)) in replicate k 0 ++ 1 :: low_bits k (v + 1).

Lemma bits_at_app d pos bs cs :
  bits_at d pos (bs ++ cs) <-> bits_at d pos bs /\ bits_at d (pos + zlen bs) cs.
Proof.
  unfold bits_at. split.
  - intros H. split; intros i b Hl; pose proof (load_bound _ _ _ Hl).
    + apply H. by rewrite load_app_l.
    + rewrite <- Z.add_assoc. pose proof (zlen_nonneg bs). apply H.
      rewrite load_app_r by lia. rewrite <- Hl. f_equal. lia.
  - intros [H1 H2] i b Hl. destruct (Z.lt_ge_cases i (zlen bs)) as [Hlt | Hge].
    + pose proof (load_bound _ _ _ Hl). rewrite load_app_l in Hl by lia. by apply H1.
    + rewrite load_app_r in Hl by lia. specialize (H2 _ _ Hl).
      by replace (pos + i) with (pos + zlen bs + (i - zlen bs)) by lia.
Qed.

Lemma bits_at_cons d pos b bs :
  bits_at d pos (b :: bs) <-> bit_at d pos = b /\ bits_at d (pos + 1) bs.
Proof.
  change (b :: bs) with ([b] ++ bs). rewrite bits_at_app.
  change (zlen [b]) with 1. split; intros [H1 H2]; split; try done.
  - specialize (H1 0 b). rewrite Z.add_0_r in H1. by apply H1.
  - intros i x Hl. pose proof (load_bound _ _ _ Hl) as Hb. change (zlen [b]) with 1 in Hb.
    replace i with 0 in * by lia. rewrite Z.add_0_r. injection Hl as <-. done.
Qed.

Lemma read_bit_spec d bit_len pos bit :
  0 <= pos < bit_len -> bit_len <= 8 * zlen d -> bit_len < 2 ^ 32 ->
  ngx_rtc_h264_read_bit d bit_len pos bit = Ret (NGX_RTC_OK, pos + 1, bit_at d pos).
Proof.
  intros Hp Hl H32. unfold ngx_rtc_h264_read_bit.
  destruct (Z.leb_spec bit_len pos); [lia |].
  rewrite shiftr_div by lia. change (2 ^ 3) with 8. unfold bit_at.
  destruct (load_in d (pos / 8)) as [x Hx]; [Z.div_mod_to_equations; lia |].
  rewrite Hx, bind_Ret, u32_small by (unfold is_u32; lia).
  assert (Hm : Z.land pos 7 = pos mod 8) by (apply (land_pow2_mask pos 3); lia).
  assert (H1 : forall y, Z.land y 1 = y mod 2)
    by (intros y; apply (land_pow2_mask y 1); lia).
  rewrite Hm, H1, shiftr_div by (pose proof (Z.mod_pos_bound pos 8); lia). done.
Qed.

Lemma read_bit_end d bit_len pos bit :
  bit_len <= pos ->
  ngx_rtc_h264_read_bit d bit_len pos bit = Ret (NGX_RTC_ERR_PARSE, pos, bit).
Proof. intros. unfold ngx_rtc_h264_read_bit. zcase. done. Qed.

#[local] Opaque ngx_rtc_h264_read_bit.

Lemma read_ue_leading_spec d bit_len k : forall n pos leading,
  bits_at d pos (replicate k 0 ++ [1]) -> (k < n)%nat -> 0 <= leading ->
  leading + Z.of_nat k <= 31 -> 0 <= pos -> pos + Z.of_nat k < bit_len ->
  bit_len <= 8 * zlen d -> bit_len < 2 ^ 32 ->
  read_ue_leading n d bit_len pos leading
  = Ret (NGX_RTC_OK, pos + Z.of_nat k + 1, leading + Z.of_nat k).
Proof.
  induction k as [| k IH]; intros [| n] pos leading Hb Hn Hle Hk Hp Hpk Hl H32; try lia;
    cbn [read_ue_leading]; rewrite read_bit_spec, bind_Ret by lia.
  - apply bits_at_cons in Hb as [Hb _]. rewrite Hb.
    cbn [negb Z.eqb NGX_RTC_OK]. do 3 f_equal; lia.
  - apply bits_at_cons in Hb as [Hb Hrest]. rewrite Hb. cbn [negb Z.eqb Pos.eqb NGX_RTC_OK].
    cbv zeta. destruct (Z.ltb_spec 31 (leading + 1)); [lia |].
    rewrite IH by (done || lia). do 2 f_equal; [f_equal; lia | lia].
Qed.

Lemma read_ue_suffix_spec d bit_len w n : forall pos value,
  bits_at d pos (low_bits n w) -> 0 <= pos -> pos + Z.of_nat n <= bit_len ->
  bit_len <= 8 * zlen d -> bit_len < 2 ^ 32 -> 0 <= value ->
  value + 2 ^ Z.of_nat n <= 2 ^ 32 ->
  read_ue_suffix n d bit_len pos value
  = Ret (NGX_RTC_OK, pos + Z.of_nat n, value + w mod 2 ^ Z.of_nat n).
Proof.
  induction n as [| n IH]; intros pos value Hb Hp Hpn Hl H32 Hv Hv32.
  { cbn [read_ue_suffix]. change (2 ^ Z.of_nat 0) with 1. rewrite Z.mod_1_r.
    do 3 f_equal; lia. }
  cbn [read_ue_suffix low_bits] in *. apply bits_at_cons in Hb as [Hb Hrest].
  rewrite read_bit_spec, bind_Ret, Hb by lia. cbn [negb Z.eqb NGX_RTC_OK].
  set (b := (w / 2 ^ Z.of_nat n) mod 2).
  assert (Hbr : 0 <= b < 2) by (apply Z.mod_pos_bound; lia).
  rewrite Nat2Z.inj_succ, Z.pow_succ_r in * by lia.
  assert (Hp2 : 0 < 2 ^ Z.of_nat n) by (apply Z.pow_pos_nonneg; lia).
  rewrite shiftl_mul by lia.
  rewrite (u32_small (b * _)) by (unfold is_u32; nia).
  rewrite u32_small by (unfold is_u32; nia).
  rewrite IH by (done || nia). do 2 f_equal; [f_equal; lia |].
  rewrite (Z.mul_comm 2), Z.rem_mul_r by lia. fold b. lia.
Qed.

(** Reading inverts the code. *)
Lemma read_ue_spec d bit_len pos v old :
  0 <= v < 2 ^ 32 - 1 -> bits_at d pos (ue_bits v) -> 0 <= pos ->
  pos + zlen (ue_bits v) <= bit_len -> bit_len <= 8 * zlen d -> bit_len < 2 ^ 32 ->
  ngx_rtc_h264_read_ue d bit_len pos old = Ret (NGX_RTC_OK, pos + zlen (ue_bits v), v).
Proof.
  intros Hv Hb Hp Hlen Hl H32. unfold ngx_rtc_h264_read_ue, ue_bits in *.
  set (w := v + 1) in *. set (k := Z.to_nat (Z.log2 w)) in *.
  assert (Hk : Z.of_nat k = Z.log2 w) by (pose proof (Z.log2_nonneg w); lia).
  assert (Hk31 : Z.log2 w < 32) by (apply Z.log2_lt_pow2; lia).
  pose proof (Z.log2_spec w ltac:(lia)) as [Hw1 Hw2]. rewrite <- Hk in Hw1, Hw2.
  assert (Hlow : forall n, zlen (low_bits n w) = Z.of_nat n).
  { induction n; [done |]. cbn [low_bits]. rewrite zlen_cons. lia. }
  change (1 :: low_bits k w) with ([1] ++ low_bits k w) in *. rewrite app_assoc in *.
  apply bits_at_app in Hb as [Hb1 Hb2].
  rewrite zlen_app, Hlow in *. rewrite !zlen_app, zlen_replicate in *.
  change (zlen [1]) with 1 in *.
  rewrite (read_ue_leading_spec d bit_len k), bind_Ret by (done || lia).
  cbn [negb Z.eqb NGX_RTC_OK]. rewrite Z.add_0_l, shiftl_mul, Z.mul_1_l by lia. rewrite Nat2Z.id.
  assert (Hpow : 2 ^ Z.of_nat k <= 2 ^ 31) by (apply Z.pow_le_mono_r; lia).
  rewrite u32_small by (unfold is_u32; lia).
  rewrite (read_ue_suffix_spec d bit_len w k); try done; try lia.
  2: { by replace (pos + Z.of_nat k + 1) with (pos + (Z.of_nat k + 1)) by lia. }
  rewrite Z.pow_succ_r in Hw2 by lia.
  rewrite <- (Z_mod_plus_full w (-1)), Z.mod_small by lia.
  do 2 f_equal; [f_equal; lia | lia].
Qed.

(** No read leaves the NALU and no loop runs dry, whatever the bits. *)
Lemma read_bit_total d bit_len pos bit :
  0 <= pos -> bit_len <= 8 * zlen d -> bit_len < 2 ^ 32 ->
  exists r p b, ngx_rtc_h264_read_bit d bit_len pos bit = Ret (r, p, b) /\ 0 <= p.
Proof.
  intros Hp Hl H32. destruct (Z.lt_ge_cases pos bit_len).
  - rewrite read_bit_spec by lia. eexists _, _, _. split; [done | lia].
  - rewrite read_bit_end by lia. eexists _, _, _. split; [done | lia].
Qed.

Lemma read_ue_total d bit_len pos old :
  0 <= pos -> bit_len <= 8 * zlen d -> bit_len < 2 ^ 32 ->
  exists r p v, ngx_rtc_h264_read_ue d bit_len pos old = Ret (r, p, v) /\ 0 <= p.
Proof.
  intros Hp Hl H32.
  assert (Hsuf : forall n q v, 0 <= q -> exists r p w,
    read_ue_suffix n d bit_len q v = Ret (r, p, w) /\ 0 <= p).
  { induction n as [| n IH]; intros q v Hq; cbn [read_ue_suffix]; [by eexists _, _, _ |].
    destruct (read_bit_total d bit_len q 0) as (r & p & b & -> & Hp'); try done.
    rewrite bind_Ret. destruct (negb (r =? 0)); [by eexists _, _, _ | by apply IH]. }
  assert (Hlead : forall n q l, 0 <= q -> 0 <= l <= 31 -> 31 - l < Z.of_nat n -> exists r p l',
    read_ue_leading n d bit_len q l = Ret (r, p, l') /\ 0 <= p).
  { induction n as [| n IH]; intros q l Hq Hl0 Hn; cbn [read_ue_leading].
    - lia.
    - destruct (read_bit_total d bit_len q 0) as (r & p & b & -> & Hp'); try done.
      rewrite bind_Ret. destruct (negb (r =? 0)); [by eexists _, _, _ |].
      destruct (b =? 1); [by eexists _, _, _ |]. cbv zeta.
      destruct (Z.ltb_spec 31 (l + 1)); [by eexists _, _, _ |]. apply IH; lia. }
  unfold ngx_rtc_h264_read_ue.
  destruct (Hlead 33%nat pos 0) as (r & p & l & -> & Hp'); [lia.. |]. rewrite bind_Ret.
  destruct (negb (r =? 0)); [by eexists _, _, _ | by apply Hsuf].
Qed.

(** The B-frame probe never reads outside the NALU and answers 0 or 1 for every
    NALU; and for a slice NALU whose header begins with the Exp-Golomb codes of
    first_mb_in_slice and slice_type it answers 1 exactly for slice types B (1) and
    B1 (6), i.e. the bit reader inverts the ue(v) code. *)
Theorem b_frame_probe n0 d :
  8 * zlen (n0 :: d) < 2 ^ 32 ->
  (exists r, ngx_rtc_h264_is_b_frame (Ref (n0 :: d)) (zlen (n0 :: d)) = Ret r /\
     (r = 0 \/ r = 1)) /\
  forall first_mb slice_type,
    1 <= Z.land n0 31 <= 4 ->
    0 <= first_mb < 2 ^ 32 - 1 -> 0 <= slice_type < 2 ^ 32 - 1 ->
    bits_at (n0 :: d) 8 (ue_bits first_mb ++ ue_bits slice_type) ->
    8 + zlen (ue_bits first_mb ++ ue_bits slice_type) <= 8 * zlen (n0 :: d) ->
    ngx_rtc_h264_is_b_frame (Ref (n0 :: d)) (zlen (n0 :: d))
    = Ret (if (slice_type =? 1) || (slice_type =? 6) then 1 else 0).
Proof.
  intros H32. pose proof (zlen_nonneg d). unfold ngx_rtc_h264_is_b_frame.
  destruct (Z.eqb_spec (zlen (n0 :: d)) 0) as [H0 | _]; [rewrite zlen_cons in H0; lia |].
  rewrite load_0, bind_Ret. cbv zeta. unfold NGX_RTC_H264_NAL_TYPE_MASK.
  rewrite (u32_small (zlen (n0 :: d) * 8)) by (unfold is_u32; rewrite zlen_cons in *; lia).
  split.
  - set (ty := Z.land n0 31).
    destruct (negb (ty =? 1) && negb (ty =? 2) && negb (ty =? 3) && negb (ty =? 4));
      [by exists 0; auto |].
    destruct (Z.ltb_spec (zlen (n0 :: d)) 2); [by exists 0; auto |].
    destruct (read_ue_total (n0 :: d) (zlen (n0 :: d) * 8) 8 0)
      as (r & p & v & -> & Hp); [lia.. |]. rewrite bind_Ret.
    destruct (negb (r =? 0)); [by exists 0; auto |].
    destruct (read_ue_total (n0 :: d) (zlen (n0 :: d) * 8) p 0)
      as (r' & p' & v' & -> & Hp'); [lia.. |]. rewrite bind_Ret.
    destruct (negb (r' =? 0)); [by exists 0; auto |].
    destruct ((v' =? 1) || (v' =? 6)); [exists 1 | exists 0]; auto.
  - intros fm st Hty Hfm Hst Hbits Hlen.
    assert (Hue : forall v, 1 <= zlen (ue_bits v)).
    { intros v. unfold ue_bits. rewrite zlen_app, zlen_cons, zlen_replicate.
      match goal with |- context [zlen ?l] => pose proof (zlen_nonneg l) end. lia. }
    pose proof (Hue fm). pose proof (Hue st). rewrite zlen_app in Hlen.
    apply bits_at_app in Hbits as [Hb1 Hb2].
    assert (Hno : negb (Z.land n0 31 =? 1) && negb (Z.land n0 31 =? 2)
      && negb (Z.land n0 31 =? 3) && negb (Z.land n0 31 =? 4) = false) by (zcase; done).
    rewrite Hno. destruct (Z.ltb_spec (zlen (n0 :: d)) 2); [lia |].
    rewrite (read_ue_spec _ _ 8 fm), bind_Ret by (done || lia). cbn [negb Z.eqb NGX_RTC_OK].
    rewrite (read_ue_spec _ _ _ st), bind_Ret by (done || lia). cbn [negb Z.eqb NGX_RTC_OK].
    by destruct ((st =? 1) || (st =? 6)).
Qed.

(** A non-IDR slice with first_mb = 0 (1) and slice_type = 6 (00111). *)
Lemma b_frame_probe_witness :
  ngx_rtc_h264_is_b_frame (Ref [1; 0x9c]) (zlen [1; 0x9c]) = Ret 1.
Proof.
  apply (b_frame_probe 1 [0x9c]) with (first_mb := 0) (slice_type := 6);
    try (vm_compute; intuition congruence).
  intros i b Hb. pose proof (load_bound _ _ _ Hb) as Hi.
  change (zlen (ue_bits 0 ++ ue_bits 6)) with 6 in Hi.
  assert (Hc : i = 0 \/ i = 1 \/ i = 2 \/ i = 3 \/ i = 4 \/ i = 5) by lia.
  destruct Hc as [-> | [-> | [-> | [-> | [-> | ->]]]]]; revert Hb; vm_compute; congruence.
Defined.
End Rtp.
