(* ===== verification/Rtcp.v ===== *)
(** The RTCP codec of src/ngx_rtc_rtcp.{h,c}: parsing of SR, RR, SDES, generic NACK,
    transport-wide CC, PLI and REMB packets, the compound walk, NACK expansion, the
    SR, SDES and PLI encoders and the NTP conversion.

    A pointer into a buffer is an offset.  Out-parameters are returned as the callee
    leaves them; the decode callback is a parameter [cb], the value it returns for a
    packet after the calls made so far.  The wall clock is a parameter. *)

From S2P Require Import Prelude.

Module Rtcp.

Definition NGX_RTC_RTCP_SR : Z := 200.
Definition NGX_RTC_RTCP_RR : Z := 201.
Definition NGX_RTC_RTCP_SDES : Z := 202.
Definition NGX_RTC_RTCP_BYE : Z := 203.
Definition NGX_RTC_RTCP_RTPFB : Z := 205.
Definition NGX_RTC_RTCP_PSFB : Z := 206.
Definition NGX_RTC_RTCP_FMT_NACK : Z := 1.
Definition NGX_RTC_RTCP_FMT_PLI : Z := 1.
Definition NGX_RTC_RTCP_FMT_TWCC : Z := 15.
Definition NGX_RTC_RTCP_FMT_REMB : Z := 15.
Definition NGX_RTC_RTCP_MAX_NACK_ENTRIES : Z := 128.
Definition NGX_RTC_RTCP_MAX_REMB_SSRCS : Z := 32.
Definition NGX_RTC_RTCP_MAX_CNAME : Z := 256.
Definition NGX_RTC_RTCP_NTP_UNIX_OFFSET : Z := 2208988800.

Record ngx_rtc_rtcp_rb_t := {
  rb_ssrc : Z;
  fraction_lost : Z;
  lost_packets : Z;
  highest_seq : Z;
  jitter : Z;
  lsr : Z;
  dlsr : Z
}.

Record ngx_rtc_rtcp_pkt_t := {
  version : Z;
  padding : Z;
  type : Z;
  fmt : Z;
  length_words : Z;
  total_len : Z;
  ssrc : Z;
  ntp : Z;
  rtp_ts : Z;
  sender_packet_count : Z;
  sender_octet_count : Z;
  has_rb : Z;
  rb : ngx_rtc_rtcp_rb_t;
  cname : octets;
  media_ssrc : Z;
  nack_count : Z;
  nack_pid : list Z;
  nack_blp : list Z;
  twcc_base_seq : Z;
  twcc_pkt_count : Z;
  twcc_lost : Z;
  twcc_received : Z;
  has_remb : Z;
  remb_bitrate_bps : Z;
  remb_ssrc : Z;
  remb_ssrc_count : Z;
  remb_ssrcs : list Z
}.

Definition eta (p : ngx_rtc_rtcp_pkt_t) : ngx_rtc_rtcp_pkt_t :=
  {| version := version p; padding := padding p; type := type p; fmt := fmt p;
     length_words := length_words p; total_len := total_len p; ssrc := ssrc p;
     ntp := ntp p; rtp_ts := rtp_ts p; sender_packet_count := sender_packet_count p;
     sender_octet_count := sender_octet_count p; has_rb := has_rb p; rb := rb p;
     cname := cname p; media_ssrc := media_ssrc p; nack_count := nack_count p;
     nack_pid := nack_pid p; nack_blp := nack_blp p;
     twcc_base_seq := twcc_base_seq p; twcc_pkt_count := twcc_pkt_count p;
     twcc_lost := twcc_lost p; twcc_received := twcc_received p;
     has_remb := has_remb p; remb_bitrate_bps := remb_bitrate_bps p;
     remb_ssrc := remb_ssrc p; remb_ssrc_count := remb_ssrc_count p;
     remb_ssrcs := remb_ssrcs p |}.
Definition set_ntp := ltac:(setter eta ntp).
Definition set_rtp_ts := ltac:(setter eta rtp_ts).
Definition set_sender_packet_count := ltac:(setter eta sender_packet_count).
Definition set_sender_octet_count := ltac:(setter eta sender_octet_count).
Definition set_has_rb := ltac:(setter eta has_rb).
Definition set_rb := ltac:(setter eta rb).
Definition set_cname := ltac:(setter eta cname).
Definition set_media_ssrc := ltac:(setter eta media_ssrc).
Definition set_nack_count := ltac:(setter eta nack_count).
Definition set_nack_pid := ltac:(setter eta nack_pid).
Definition set_nack_blp := ltac:(setter eta nack_blp).
Definition set_twcc_base_seq := ltac:(setter eta twcc_base_seq).
Definition set_twcc_pkt_count := ltac:(setter eta twcc_pkt_count).
Definition set_twcc_lost := ltac:(setter eta twcc_lost).
Definition set_twcc_received := ltac:(setter eta twcc_received).
Definition set_has_remb := ltac:(setter eta has_remb).
Definition set_remb_bitrate_bps := ltac:(setter eta remb_bitrate_bps).
Definition set_remb_ssrc := ltac:(setter eta remb_ssrc).
Definition set_remb_ssrc_count := ltac:(setter eta remb_ssrc_count).
Definition set_remb_ssrcs := ltac:(setter eta remb_ssrcs).

(** *** Wire helpers; [off] is the pointer p *)

Definition ngx_rtc_rtcp_rd_u16 (b : octets) (off : Z) : outcome Z :=
  x ← load b off; y ← load b (off + 1);
  Ret (Z.lor (Z.shiftl x 8) y).

Definition ngx_rtc_rtcp_rd_u24 (b : octets) (off : Z) : outcome Z :=
  x ← load b off; y ← load b (off + 1); z ← load b (off + 2);
  Ret (Z.lor (Z.lor (Z.shiftl x 16) (Z.shiftl y 8)) z).

Definition ngx_rtc_rtcp_rd_u32 (b : octets) (off : Z) : outcome Z :=
  x ← load b off; y ← load b (off + 1); z ← load b (off + 2); w ← load b (off + 3);
  Ret (Z.lor (Z.lor (Z.lor (Z.shiftl x 24) (Z.shiftl y 16)) (Z.shiftl z 8)) w).

Definition ngx_rtc_rtcp_rd_u64 (b : octets) (off : Z) : outcome Z :=
  hi ← ngx_rtc_rtcp_rd_u32 b off; lo ← ngx_rtc_rtcp_rd_u32 b (off + 4);
  Ret (Z.lor (Z.shiftl hi 32) lo).

Definition ngx_rtc_rtcp_wr_u16 (b : octets) (off v : Z) : outcome octets :=
  stores b off [Z.land (Z.shiftr v 8) 255; Z.land v 255].

Definition ngx_rtc_rtcp_wr_u32 (b : octets) (off v : Z) : outcome octets :=
  stores b off [Z.land (Z.shiftr v 24) 255; Z.land (Z.shiftr v 16) 255;
                Z.land (Z.shiftr v 8) 255; Z.land v 255].

Definition ngx_rtc_rtcp_wr_u64 (b : octets) (off v : Z) : outcome octets :=
  b ← ngx_rtc_rtcp_wr_u32 b off (u32 (Z.shiftr v 32));
  ngx_rtc_rtcp_wr_u32 b (off + 4) (u32 (Z.land v 0xffffffff)).

Definition ngx_rtc_rtcp_wr_header (b : octets) (off type fmt total_len : Z)
    : outcome octets :=
  let length := u16 (total_len / 4 - 1) in
  b ← store b off (Z.lor 0x80 (Z.land fmt 0x1f));
  b ← store b (off + 1) type;
  ngx_rtc_rtcp_wr_u16 b (off + 2) length.

Definition ngx_rtc_rtcp_read_rb (b : octets) (off : Z) : outcome ngx_rtc_rtcp_rb_t :=
  s ← ngx_rtc_rtcp_rd_u32 b off;
  f ← load b (off + 4);
  l ← ngx_rtc_rtcp_rd_u24 b (off + 5);
  h ← ngx_rtc_rtcp_rd_u32 b (off + 8);
  j ← ngx_rtc_rtcp_rd_u32 b (off + 12);
  ls ← ngx_rtc_rtcp_rd_u32 b (off + 16);
  dl ← ngx_rtc_rtcp_rd_u32 b (off + 20);
  Ret {| rb_ssrc := s; fraction_lost := f; lost_packets := l; highest_seq := h;
         jitter := j; lsr := ls; dlsr := dl |}.

Definition ngx_rtc_rtcp_write_rb (b : octets) (off : Z) (r : ngx_rtc_rtcp_rb_t)
    : outcome octets :=
  b ← ngx_rtc_rtcp_wr_u32 b off (rb_ssrc r);
  b ← stores b (off + 4)
        [fraction_lost r; Z.land (Z.shiftr (lost_packets r) 16) 255;
         Z.land (Z.shiftr (lost_packets r) 8) 255; Z.land (lost_packets r) 255];
  b ← ngx_rtc_rtcp_wr_u32 b (off + 8) (highest_seq r);
  b ← ngx_rtc_rtcp_wr_u32 b (off + 12) (jitter r);
  b ← ngx_rtc_rtcp_wr_u32 b (off + 16) (lsr r);
  ngx_rtc_rtcp_wr_u32 b (off + 20) (dlsr r).

Definition ngx_rtc_rtcp_ntp_from_unix_us (unix_us : Z) : Z :=
  let seconds := unix_us / 1000000 in
  let usec := unix_us mod 1000000 in
  let fraction := u64 (Z.shiftl usec 32) / 1000000 in
  Z.lor (u64 (Z.shiftl (u64 (seconds + NGX_RTC_RTCP_NTP_UNIX_OFFSET)) 32)) fraction.

(** *** Decoding *)

(** The item loop of one chunk: the offset after the terminator, or NULL when the
    function returns from inside the loop. *)
Fixpoint sdes_items (n : nat) (b : octets) (total off : Z) (pkt : ngx_rtc_rtcp_pkt_t)
    : outcome (ptr Z * ngx_rtc_rtcp_pkt_t) :=
  match n with
  | O => Fault
  | S n =>
      if negb (off + 1 <=? total) then Ret (Ref off, pkt)
      else
        item_type ← load b off;
        if item_type =? 0 then Ret (Ref (off + 1), pkt)
        else if total <? off + 2 then Ret (NULL, pkt)
        else
          item_len ← load b (off + 1);
          if total <? off + 2 + item_len then Ret (NULL, pkt)
          else if item_type =? 1 then
            let copy := if NGX_RTC_RTCP_MAX_CNAME <=? item_len
                        then NGX_RTC_RTCP_MAX_CNAME - 1 else item_len in
            src ← load_range b (off + 2) copy;
            c ← store_range (cname pkt) 0 src;
            c ← store c copy 0;
            Ret (NULL, set_cname c pkt)
          else sdes_items n b total (off + (2 + item_len)) pkt
  end.

(** [while (0 != off % 4) off++;]. *)
Definition align4 (off : Z) : Z := off + (4 - off mod 4) mod 4.

(** [n = sc - chunk] chunks remain. *)
Fixpoint sdes_chunks (n : nat) (b : octets) (total off : Z) (pkt : ngx_rtc_rtcp_pkt_t)
    : outcome ngx_rtc_rtcp_pkt_t :=
  match n with
  | O => Ret pkt
  | S n =>
      if negb (off + 4 <=? total) then Ret pkt
      else
        '(o, pkt) ← sdes_items (Z.to_nat total) b total (off + 4) pkt;
        match o with
        | NULL => Ret pkt
        | Ref off => sdes_chunks n b total (align4 off) pkt
        end
  end.

Definition ngx_rtc_rtcp_parse_sdes (b : octets) (total : Z) (pkt : ngx_rtc_rtcp_pkt_t)
    : outcome ngx_rtc_rtcp_pkt_t :=
  sdes_chunks (Z.to_nat (fmt pkt)) b total 4 pkt.

Definition twcc_count (lost : bool) (n : Z) (pkt : ngx_rtc_rtcp_pkt_t)
    : ngx_rtc_rtcp_pkt_t :=
  if lost then set_twcc_lost (u32 (twcc_lost pkt + n)) pkt
  else set_twcc_received (u32 (twcc_received pkt + n)) pkt.

(** A status vector of [n] more symbols of [w] bits, the next at bit [shift]. *)
Fixpoint twcc_vector (n : nat) (chunk w shift count parsed : Z)
    (pkt : ngx_rtc_rtcp_pkt_t) : Z * ngx_rtc_rtcp_pkt_t :=
  match n with
  | O => (parsed, pkt)
  | S n =>
      if negb (parsed <? count) then (parsed, pkt)
      else
        let sym := Z.land (Z.shiftr chunk shift) (2 ^ w - 1) in
        twcc_vector n chunk w (shift - w) count (parsed + 1)
          (twcc_count (sym =? 0) 1 pkt)
  end.

Fixpoint twcc_chunks (n : nat) (b : octets) (total p count parsed : Z)
    (pkt : ngx_rtc_rtcp_pkt_t) : outcome ngx_rtc_rtcp_pkt_t :=
  if (parsed <? count) && (p + 2 <=? total) then
    match n with
    | O => Fault
    | S n =>
        chunk ← ngx_rtc_rtcp_rd_u16 b p;
        let p := p + 2 in
        if Z.shiftr chunk 15 =? 0 then
          let run := Z.land chunk 0x1fff in
          let symbol := Z.land (Z.shiftr chunk 13) 3 in
          let run := if count - parsed <? run then count - parsed else run in
          twcc_chunks n b total p count (parsed + run) (twcc_count (symbol =? 0) run pkt)
        else if Z.land chunk 0x4000 =? 0 then
          let '(parsed, pkt) := twcc_vector 14 chunk 1 13 count parsed pkt in
          twcc_chunks n b total p count parsed pkt
        else
          let '(parsed, pkt) := twcc_vector 7 chunk 2 12 count parsed pkt in
          twcc_chunks n b total p count parsed pkt
    end
  else Ret pkt.

Definition ngx_rtc_rtcp_parse_twcc (b : octets) (total : Z) (pkt : ngx_rtc_rtcp_pkt_t)
    : outcome ngx_rtc_rtcp_pkt_t :=
  if total <? 20 then Ret pkt
  else
    base ← ngx_rtc_rtcp_rd_u16 b 12;
    cnt ← ngx_rtc_rtcp_rd_u16 b 14;
    let pkt := pkt |> set_twcc_base_seq base |> set_twcc_pkt_count cnt in
    twcc_chunks (Z.to_nat total) b total 20 cnt 0 pkt.

Fixpoint remb_list (n : nat) (b : octets) (p i : Z) (l : list Z) : outcome (list Z) :=
  match n with
  | O => Ret l
  | S n =>
      s ← ngx_rtc_rtcp_rd_u32 b p;
      l ← store l i s;
      remb_list n b (p + 4) (i + 1) l
  end.

Definition ngx_rtc_rtcp_parse_remb (b : octets) (total : Z) (pkt : ngx_rtc_rtcp_pkt_t)
    : outcome (Z * ngx_rtc_rtcp_pkt_t) :=
  let fci := u32 (total - 12) in
  if fci <? 4 then Ret (NGX_RTC_OK, pkt)
  else
    m0 ← load b 12; m1 ← load b 13; m2 ← load b 14; m3 ← load b 15;
    if negb (m0 =? 0x52) || negb (m1 =? 0x45) || negb (m2 =? 0x4d) || negb (m3 =? 0x42)
    then Ret (NGX_RTC_OK, pkt)
    else if fci <? 8 then Ret (NGX_RTC_ERR_PARSE, pkt)
    else
      word ← ngx_rtc_rtcp_rd_u32 b 16;
      let num_ssrc := Z.land (Z.shiftr word 24) 0xff in
      let br_exp := Z.land (Z.shiftr word 18) 0x3f in
      let br_mantissa := Z.land word 0x3ffff in
      if fci <? 8 + num_ssrc * 4 then Ret (NGX_RTC_ERR_PARSE, pkt)
      else
        let pkt := pkt |> set_has_remb 1
          |> set_remb_bitrate_bps (u32 (u64 (br_mantissa * Z.shiftl 1 br_exp))) in
        let keep := if NGX_RTC_RTCP_MAX_REMB_SSRCS <? num_ssrc
                    then NGX_RTC_RTCP_MAX_REMB_SSRCS else num_ssrc in
        let pkt := set_remb_ssrc_count (u16 keep) pkt in
        l ← remb_list (Z.to_nat keep) b 20 0 (remb_ssrcs pkt);
        let pkt := set_remb_ssrcs l pkt in
        if 0 <? keep then
          s ← load (remb_ssrcs pkt) 0;
          Ret (NGX_RTC_OK, set_remb_ssrc s pkt)
        else Ret (NGX_RTC_OK, pkt).

Fixpoint nack_entries (n : nat) (b : octets) (p i : Z) (pkt : ngx_rtc_rtcp_pkt_t)
    : outcome ngx_rtc_rtcp_pkt_t :=
  match n with
  | O => Ret pkt
  | S n =>
      pid ← ngx_rtc_rtcp_rd_u16 b p;
      blp ← ngx_rtc_rtcp_rd_u16 b (p + 2);
      pids ← store (nack_pid pkt) i pid;
      blps ← store (nack_blp pkt) i blp;
      nack_entries n b (p + 4) (i + 1) (pkt |> set_nack_pid pids |> set_nack_blp blps)
  end.

Definition rb_zero : ngx_rtc_rtcp_rb_t :=
  {| rb_ssrc := 0; fraction_lost := 0; lost_packets := 0; highest_seq := 0;
     jitter := 0; lsr := 0; dlsr := 0 |}.

(** The packet after [memset] and the header fields. *)
Definition pkt_header (v pd ty fm lw tl sc : Z) : ngx_rtc_rtcp_pkt_t :=
  {| version := v; padding := pd; type := ty; fmt := fm; length_words := lw;
     total_len := tl; ssrc := sc; ntp := 0; rtp_ts := 0; sender_packet_count := 0;
     sender_octet_count := 0; has_rb := 0; rb := rb_zero;
     cname := zeros NGX_RTC_RTCP_MAX_CNAME; media_ssrc := 0; nack_count := 0;
     nack_pid := zeros NGX_RTC_RTCP_MAX_NACK_ENTRIES;
     nack_blp := zeros NGX_RTC_RTCP_MAX_NACK_ENTRIES;
     twcc_base_seq := 0; twcc_pkt_count := 0; twcc_lost := 0; twcc_received := 0;
     has_remb := 0; remb_bitrate_bps := 0; remb_ssrc := 0; remb_ssrc_count := 0;
     remb_ssrcs := zeros NGX_RTC_RTCP_MAX_REMB_SSRCS |}.

(** The [switch (type)] of the parser, after the header fields. *)
Definition parse_payload (b : octets) (total : Z) (pkt : ngx_rtc_rtcp_pkt_t)
    : outcome (Z * ngx_rtc_rtcp_pkt_t) :=
  let off := 8 in
  if type pkt =? NGX_RTC_RTCP_SR then
    if total <? 28 then Ret (NGX_RTC_ERR_PARSE, pkt)
    else
      n ← ngx_rtc_rtcp_rd_u64 b 8;
      ts ← ngx_rtc_rtcp_rd_u32 b 16;
      pc ← ngx_rtc_rtcp_rd_u32 b 20;
      oc ← ngx_rtc_rtcp_rd_u32 b 24;
      let pkt := pkt |> set_ntp n |> set_rtp_ts ts |> set_sender_packet_count pc
                     |> set_sender_octet_count oc in
      if 0 <? fmt pkt then
        if total <? 52 then Ret (NGX_RTC_ERR_PARSE, pkt)
        else
          r ← ngx_rtc_rtcp_read_rb b 28;
          Ret (NGX_RTC_OK, pkt |> set_rb r |> set_has_rb 1)
      else Ret (NGX_RTC_OK, pkt)
  else if type pkt =? NGX_RTC_RTCP_RR then
    if 0 <? fmt pkt then
      if total <? off + 24 then Ret (NGX_RTC_ERR_PARSE, pkt)
      else
        r ← ngx_rtc_rtcp_read_rb b off;
        Ret (NGX_RTC_OK, pkt |> set_rb r |> set_has_rb 1)
    else Ret (NGX_RTC_OK, pkt)
  else if type pkt =? NGX_RTC_RTCP_SDES then
    if total <? 8 then Ret (NGX_RTC_ERR_PARSE, pkt)
    else
      pkt ← ngx_rtc_rtcp_parse_sdes b total pkt;
      Ret (NGX_RTC_OK, pkt)
  else if type pkt =? NGX_RTC_RTCP_RTPFB then
    if total <? 12 then Ret (NGX_RTC_ERR_PARSE, pkt)
    else
      m ← ngx_rtc_rtcp_rd_u32 b 8;
      let pkt := set_media_ssrc m pkt in
      if fmt pkt =? NGX_RTC_RTCP_FMT_NACK then
        let fci_bytes := total - 12 in
        let entries := fci_bytes / 4 in
        let keep := if NGX_RTC_RTCP_MAX_NACK_ENTRIES <? entries
                    then NGX_RTC_RTCP_MAX_NACK_ENTRIES else entries in
        pkt ← nack_entries (Z.to_nat keep) b 12 0 pkt;
        Ret (NGX_RTC_OK, set_nack_count (u16 keep) pkt)
      else if fmt pkt =? NGX_RTC_RTCP_FMT_TWCC then
        pkt ← ngx_rtc_rtcp_parse_twcc b total pkt;
        Ret (NGX_RTC_OK, pkt)
      else Ret (NGX_RTC_OK, pkt)
  else if type pkt =? NGX_RTC_RTCP_PSFB then
    if total <? 12 then Ret (NGX_RTC_ERR_PARSE, pkt)
    else
      m ← ngx_rtc_rtcp_rd_u32 b 8;
      let pkt := set_media_ssrc m pkt in
      if fmt pkt =? NGX_RTC_RTCP_FMT_REMB then ngx_rtc_rtcp_parse_remb b total pkt
      else Ret (NGX_RTC_OK, pkt)
  else Ret (NGX_RTC_OK, pkt).

Definition ngx_rtc_rtcp_parse (buf : ptr octets) (len : Z)
    (pkt : ptr ngx_rtc_rtcp_pkt_t) (consumed : ptr Z)
    : outcome (Z * ptr ngx_rtc_rtcp_pkt_t * ptr Z) :=
  match buf, pkt, consumed with
  | Ref b, Ref _, Ref _ =>
      if len <? 4 then Ret (NGX_RTC_ERR_NEED_MORE, pkt, consumed)
      else
        b0 ← load b 0;
        let version := Z.land (Z.shiftr b0 6) 3 in
        let padding := Z.land (Z.shiftr b0 5) 1 in
        let fmt := Z.land b0 0x1f in
        type ← load b 1;
        length_words ← ngx_rtc_rtcp_rd_u16 b 2;
        let total := (length_words + 1) * 4 in
        if len <? total then Ret (NGX_RTC_ERR_NEED_MORE, pkt, consumed)
        else if negb (version =? 2) then Ret (NGX_RTC_ERR_PARSE, pkt, consumed)
        else
          ssrc ← ngx_rtc_rtcp_rd_u32 b 4;
          '(r, pkt) ← parse_payload b total
             (pkt_header version padding type fmt length_words total ssrc);
          if negb (r =? NGX_RTC_OK) then Ret (r, Ref pkt, consumed)
          else Ret (NGX_RTC_OK, Ref pkt, Ref total)
  | _, _, _ => Ret (NGX_RTC_ERR_INVALID, pkt, consumed)
  end.

(** The callback and its [opaque] argument: the value returned and the state left. *)
Section decode.
Context {St : Type}.

Fixpoint decode_loop (n : nat) (b : octets) (len off : Z)
    (cb : ngx_rtc_rtcp_pkt_t -> St -> Z * St) (opaque : St) : outcome (Z * St) :=
  if off <? len then
    match n with
    | O => Fault
    | S n =>
        '(r, pkt, consumed) ← ngx_rtc_rtcp_parse (Ref (zdrop off b)) (u32 (len - off))
            (Ref (pkt_header 0 0 0 0 0 0 0)) (Ref 0);
        if negb (r =? NGX_RTC_OK) then Ret (r, opaque)
        else
          match pkt, consumed with
          | Ref pkt, Ref consumed =>
              let '(r, opaque) := cb pkt opaque in
              if negb (r =? NGX_RTC_OK) then Ret (r, opaque)
              else decode_loop n b len (u32 (off + consumed)) cb opaque
          | _, _ => Fault
          end
    end
  else Ret (NGX_RTC_OK, opaque).

Definition ngx_rtc_rtcp_decode (buf : ptr octets) (len : Z)
    (cb : ptr (ngx_rtc_rtcp_pkt_t -> St -> Z * St)) (opaque : St)
    : outcome (Z * St) :=
  match buf, cb with
  | Ref b, Ref cb => decode_loop (Z.to_nat len) b len 0 cb opaque
  | _, _ => Ret (NGX_RTC_ERR_INVALID, opaque)
  end.

End decode.

(** The bits of one BLP from bit [j], [n = 16 - j] of them. *)
Fixpoint nack_bits (n : nat) (j pid blp cap : Z) (seqs : list Z) (out : Z)
    : outcome (Z * list Z * Z) :=
  match n with
  | O => Ret (NGX_RTC_OK, seqs, out)
  | S n =>
      if Z.land blp (u16 (Z.shiftl 1 j)) =? 0 then
        nack_bits n (j + 1) pid blp cap seqs out
      else if cap <=? out then Ret (NGX_RTC_ERR_TOO_SMALL, seqs, out)
      else
        seqs ← store seqs out (u16 (pid + j + 1));
        nack_bits n (j + 1) pid blp cap seqs (u16 (out + 1))
  end.

(** The entries from [i], [n] of them left. *)
Fixpoint nack_expand_loop (n : nat) (i : Z) (pkt : ngx_rtc_rtcp_pkt_t) (cap : Z)
    (seqs : list Z) (out : Z) : outcome (Z * list Z * Z) :=
  match n with
  | O => Ret (NGX_RTC_OK, seqs, out)
  | S n =>
      pid ← load (nack_pid pkt) i;
      blp ← load (nack_blp pkt) i;
      if cap <=? out then Ret (NGX_RTC_ERR_TOO_SMALL, seqs, out)
      else
        seqs ← store seqs out pid;
        '(r, seqs, out) ← nack_bits 16 0 pid blp cap seqs (u16 (out + 1));
        if negb (r =? NGX_RTC_OK) then Ret (r, seqs, out)
        else nack_expand_loop n (i + 1) pkt cap seqs out
  end.

Definition ngx_rtc_rtcp_nack_expand (pkt : ptr ngx_rtc_rtcp_pkt_t)
    (seqs : ptr (list Z)) (cap : Z) (count : ptr Z)
    : outcome (Z * ptr (list Z) * ptr Z) :=
  match pkt, seqs, count with
  | Ref p, Ref s, Ref _ =>
      '(r, s, out) ← nack_expand_loop (Z.to_nat (nack_count p)) 0 p cap s 0;
      Ret (r, Ref s, Ref out)
  | _, _, _ => Ret (NGX_RTC_ERR_INVALID, seqs, count)
  end.

(** *** Encoding *)

Record ngx_rtc_rtcp_sr_t := {
  sr_ssrc : Z;
  sr_ntp : Z;
  sr_rtp_ts : Z;
  packet_count : Z;
  octet_count : Z;
  sr_rb : ptr ngx_rtc_rtcp_rb_t
}.

(** [now] is the value of [ngx_rtc_rtcp_ntp_now ()]. *)
Definition ngx_rtc_rtcp_encode_sr (now : Z) (sr : ptr ngx_rtc_rtcp_sr_t)
    (buf : ptr octets) (cap : Z) (len : ptr Z) : outcome (Z * ptr octets * ptr Z) :=
  match sr, buf, len with
  | Ref sr, Ref b, Ref _ =>
      let rc := if is_null (sr_rb sr) then 0 else 1 in
      let total := 28 + rc * 24 in
      if cap <? total then Ret (NGX_RTC_ERR_TOO_SMALL, buf, len)
      else
        let ntp := if sr_ntp sr =? 0 then now else sr_ntp sr in
        b ← ngx_rtc_rtcp_wr_header b 0 NGX_RTC_RTCP_SR rc total;
        b ← ngx_rtc_rtcp_wr_u32 b 4 (sr_ssrc sr);
        b ← ngx_rtc_rtcp_wr_u64 b 8 ntp;
        b ← ngx_rtc_rtcp_wr_u32 b 16 (sr_rtp_ts sr);
        b ← ngx_rtc_rtcp_wr_u32 b 20 (packet_count sr);
        b ← ngx_rtc_rtcp_wr_u32 b 24 (octet_count sr);
        b ← match sr_rb sr with
            | NULL => Ret b
            | Ref rb => ngx_rtc_rtcp_write_rb b 28 rb
            end;
        Ret (NGX_RTC_OK, Ref b, Ref total)
  | _, _, _ => Ret (NGX_RTC_ERR_INVALID, buf, len)
  end.

(** [cname] is the characters before the terminating NUL. *)
Definition ngx_rtc_rtcp_encode_sdes (ssrc : Z) (cname : ptr octets)
    (buf : ptr octets) (cap : Z) (len : ptr Z) : outcome (Z * ptr octets * ptr Z) :=
  match cname, buf, len with
  | Ref name, Ref b, Ref _ =>
      let cname_len := u32 (zlen name) in
      if 255 <? cname_len then Ret (NGX_RTC_ERR_TOO_LARGE, buf, len)
      else
        let total := 4 + 4 + 2 + cname_len + 1 in
        let pad := (4 - total mod 4) mod 4 in
        let total := total + pad in
        if cap <? total then Ret (NGX_RTC_ERR_TOO_SMALL, buf, len)
        else
          b ← ngx_rtc_rtcp_wr_header b 0 NGX_RTC_RTCP_SDES 1 total;
          b ← ngx_rtc_rtcp_wr_u32 b 4 ssrc;
          b ← store b 8 1;
          b ← store b 9 (u8 cname_len);
          src ← load_range name 0 cname_len;
          b ← store_range b 10 src;
          b ← store b (10 + cname_len) 0;
          b ← stores b (10 + cname_len + 1) (zeros pad);
          Ret (NGX_RTC_OK, Ref b, Ref total)
  | _, _, _ => Ret (NGX_RTC_ERR_INVALID, buf, len)
  end.

Definition ngx_rtc_rtcp_encode_pli (sender_ssrc media_ssrc : Z) (buf : ptr octets)
    (cap : Z) (len : ptr Z) : outcome (Z * ptr octets * ptr Z) :=
  match buf, len with
  | Ref b, Ref _ =>
      if cap <? 12 then Ret (NGX_RTC_ERR_TOO_SMALL, buf, len)
      else
        b ← ngx_rtc_rtcp_wr_header b 0 NGX_RTC_RTCP_PSFB NGX_RTC_RTCP_FMT_PLI 12;
        b ← ngx_rtc_rtcp_wr_u32 b 4 sender_ssrc;
        b ← ngx_rtc_rtcp_wr_u32 b 8 media_ssrc;
        Ret (NGX_RTC_OK, Ref b, Ref 12)
  | _, _ => Ret (NGX_RTC_ERR_INVALID, buf, len)
  end.

Definition ngx_rtc_rtcp_compound_append (compound : ptr octets) (cap : Z)
    (len : ptr Z) (pkt : ptr octets) (pkt_len : Z)
    : outcome (Z * ptr octets * ptr Z) :=
  match compound, len, pkt with
  | Ref c, Ref l, Ref p =>
      if (cap <? l) || (u32 (cap - l) <? pkt_len)
      then Ret (NGX_RTC_ERR_TOO_SMALL, compound, len)
      else
        src ← load_range p 0 pkt_len;
        c ← store_range c l src;
        Ret (NGX_RTC_OK, Ref c, Ref (u32 (l + pkt_len)))
  | _, _, _ => Ret (NGX_RTC_ERR_INVALID, compound, len)
  end.


(** ** Readers and writers as network-order fields *)

#[global] Arguments ngx_rtc_rtcp_rd_u16 : simpl never.
#[global] Arguments ngx_rtc_rtcp_rd_u24 : simpl never.
#[global] Arguments ngx_rtc_rtcp_rd_u32 : simpl never.
#[global] Arguments ngx_rtc_rtcp_rd_u64 : simpl never.
#[global] Arguments ngx_rtc_rtcp_read_rb : simpl never.
#[global] Arguments ngx_rtc_rtcp_wr_u32 : simpl never.
#[global] Arguments ngx_rtc_rtcp_wr_header : simpl never.
#[global] Arguments ngx_rtc_rtcp_write_rb : simpl never.

(** A reader that only looks at offsets from [off] on. *)
Class Shifts {A} (rd : octets -> Z -> outcome A) :=
  rd_skip : forall p b off, zlen p <= off -> rd (p ++ b) off = rd b (off - zlen p).

#[export] Instance rd_u16_shifts : Shifts ngx_rtc_rtcp_rd_u16.
Proof.
  intros p b off H. unfold ngx_rtc_rtcp_rd_u16. rewrite !load_app_r by lia.
  by replace (off + 1 - zlen p) with (off - zlen p + 1) by lia.
Qed.

#[export] Instance rd_u24_shifts : Shifts ngx_rtc_rtcp_rd_u24.
Proof.
  intros p b off H. unfold ngx_rtc_rtcp_rd_u24. rewrite !load_app_r by lia.
  replace (off + 1 - zlen p) with (off - zlen p + 1) by lia.
  by replace (off + 2 - zlen p) with (off - zlen p + 2) by lia.
Qed.

#[export] Instance rd_u32_shifts : Shifts ngx_rtc_rtcp_rd_u32.
Proof.
  intros p b off H. unfold ngx_rtc_rtcp_rd_u32. rewrite !load_app_r by lia.
  replace (off + 1 - zlen p) with (off - zlen p + 1) by lia.
  replace (off + 2 - zlen p) with (off - zlen p + 2) by lia.
  by replace (off + 3 - zlen p) with (off - zlen p + 3) by lia.
Qed.

#[export] Instance rd_u64_shifts : Shifts ngx_rtc_rtcp_rd_u64.
Proof.
  intros p b off H. unfold ngx_rtc_rtcp_rd_u64. rewrite !rd_skip by lia.
  by replace (off + 4 - zlen p) with (off - zlen p + 4) by lia.
Qed.

#[export] Instance load_shifts : Shifts (@load Z).
Proof. intros p b off H. by apply load_app_r. Qed.

#[export] Instance read_rb_shifts : Shifts ngx_rtc_rtcp_read_rb.
Proof.
  intros p b off H. unfold ngx_rtc_rtcp_read_rb. rewrite !rd_skip by lia.
  repeat match goal with
         | |- context [off + ?k - zlen p] =>
             replace (off + k - zlen p) with (off - zlen p + k) by lia
         end. done.
Qed.

Lemma rd_u16_cons a b l : 
  is_u8 a -> is_u8 b -> ngx_rtc_rtcp_rd_u16 (a :: b :: l) 0 = Ret (be_dec [a; b]).
Proof.
  intros Ha Hb. unfold is_u8 in *. unfold ngx_rtc_rtcp_rd_u16, load. simpl.
  rewrite lor_shiftl by lia. f_equal; unfold be_dec; cbn [fold_left]; lia.
Qed.

Lemma rd_u24_cons a b c l :
  is_u8 a -> is_u8 b -> is_u8 c ->
  ngx_rtc_rtcp_rd_u24 (a :: b :: c :: l) 0 = Ret (be_dec [a; b; c]).
Proof.
  intros Ha Hb Hc. unfold is_u8 in *. unfold ngx_rtc_rtcp_rd_u24, load. simpl.
  rewrite !shiftl_mul by lia. rewrite lor_low by lia.
  replace (a * 2 ^ 16 + b * 2 ^ 8) with ((a * 256 + b) * 2 ^ 8) by lia.
  rewrite lor_low by lia. f_equal; unfold be_dec; cbn [fold_left]; lia.
Qed.

Lemma rd_u32_cons a b c d l :
  is_u8 a -> is_u8 b -> is_u8 c -> is_u8 d ->
  ngx_rtc_rtcp_rd_u32 (a :: b :: c :: d :: l) 0 = Ret (be_dec [a; b; c; d]).
Proof.
  intros Ha Hb Hc Hd. unfold is_u8 in *. unfold ngx_rtc_rtcp_rd_u32, load. simpl.
  rewrite !shiftl_mul by lia. rewrite lor_low by lia.
  replace (a * 2 ^ 24 + b * 2 ^ 16) with ((a * 256 + b) * 2 ^ 16) by lia.
  rewrite lor_low by lia.
  replace ((a * 256 + b) * 2 ^ 16 + c * 2 ^ 8)
    with (((a * 256 + b) * 256 + c) * 2 ^ 8) by lia.
  rewrite lor_low by lia. f_equal; unfold be_dec; cbn [fold_left]; lia.
Qed.

#[local] Ltac byte := apply Z.mod_pos_bound; lia.

Lemma rd_u16_enc v l : ngx_rtc_rtcp_rd_u16 (be_enc 2 v ++ l) 0 = Ret (u16 v).
Proof. simpl. rewrite rd_u16_cons by byte. f_equal. apply (be_dec_enc 2). Qed.

Lemma rd_u24_enc v l :
  ngx_rtc_rtcp_rd_u24 (be_enc 3 v ++ l) 0 = Ret (v mod 16777216).
Proof. simpl. rewrite rd_u24_cons by byte. f_equal. apply (be_dec_enc 3). Qed.

Lemma rd_u32_enc v l : ngx_rtc_rtcp_rd_u32 (be_enc 4 v ++ l) 0 = Ret (u32 v).
Proof. simpl. rewrite rd_u32_cons by byte. f_equal. apply (be_dec_enc 4). Qed.

Lemma be_enc_add n m v :
  0 <= v -> be_enc (n + m) v = be_enc n (v / 256 ^ Z.of_nat m) ++ be_enc m v.
Proof.
  intros Hv. induction n as [| n IH]; [done |]. simpl. rewrite IH. f_equal. f_equal.
  rewrite Z.div_div by lia. f_equal. rewrite Nat2Z.inj_add.
  replace (8 * (Z.of_nat n + Z.of_nat m)) with (8 * Z.of_nat m + 8 * Z.of_nat n) by lia.
  rewrite Z.pow_add_r by lia. rewrite (Z.pow_mul_r 2 8 (Z.of_nat m)) by lia. done.
Qed.

Lemma rd_u64_enc v l :
  is_u64 v -> ngx_rtc_rtcp_rd_u64 (be_enc 8 v ++ l) 0 = Ret v.
Proof.
  intros Hv. unfold is_u64 in Hv. rewrite (be_enc_add 4 4), <- app_assoc by lia.
  unfold ngx_rtc_rtcp_rd_u64. rewrite rd_u32_enc, bind_Ret.
  rewrite rd_skip by zl. rewrite zlen_be_enc. change (0 + 4 - Z.of_nat 4) with 0.
  rewrite rd_u32_enc, bind_Ret. f_equal. change (256 ^ Z.of_nat 4) with 4294967296.
  rewrite (u32_small (v / _)) by wraps.
  rewrite lor_shiftl by (try lia; apply u32_range). wraps.
Qed.

Lemma wr_u32_cursor pre b off v :
  off = zlen pre -> 4 <= zlen b ->
  ngx_rtc_rtcp_wr_u32 (pre ++ b) off v = Ret ((pre ++ be_enc 4 v) ++ zdrop 4 b).
Proof.
  intros Ho H. unfold ngx_rtc_rtcp_wr_u32. rewrite be_enc_4.
  rewrite stores_cursor by zl. done.
Qed.

Lemma wr_u64_cursor pre b off v :
  is_u64 v -> off = zlen pre -> 8 <= zlen b ->
  ngx_rtc_rtcp_wr_u64 (pre ++ b) off v = Ret ((pre ++ be_enc 8 v) ++ zdrop 8 b).
Proof.
  intros Hv Ho H. unfold is_u64 in Hv. unfold ngx_rtc_rtcp_wr_u64.
  rewrite wr_u32_cursor, bind_Ret by zl. rewrite wr_u32_cursor by zl.
  rewrite zdrop_zdrop by lia. change (4 + 4) with 8. do 2 f_equal.
  rewrite <- app_assoc. f_equal. rewrite (be_enc_add 4 4) by lia. f_equal.
  - rewrite shiftr_div by lia. apply (be_enc_mod 4).
  - change 0xffffffff with (Z.ones 32). rewrite land_mask by lia.
    unfold u32. change (2 ^ 32) with (256 ^ Z.of_nat 4).
    change 4294967296 with (256 ^ Z.of_nat 4). by rewrite !be_enc_mod.
Qed.

(** The four header octets of a packet of [total] octets. *)
Definition header_wire (type fmt total : Z) : octets :=
  [Z.lor 0x80 (Z.land fmt 0x1f); type] ++ be_enc 2 (total / 4 - 1).

Lemma zlen_header_wire type fmt total : zlen (header_wire type fmt total) = 4.
Proof. reflexivity. Qed.
#[export] Hint Rewrite zlen_header_wire : zlen.

Lemma wr_header_cursor b type fmt total :
  4 <= zlen b ->
  ngx_rtc_rtcp_wr_header b 0 type fmt total
  = Ret (header_wire type fmt total ++ zdrop 4 b).
Proof.
  intros H. unfold ngx_rtc_rtcp_wr_header. cbv zeta.
  trans (b1 ← stores ([] ++ b) 0 [Z.lor 128 (Z.land fmt 31); type];
         ngx_rtc_rtcp_wr_u16 b1 2 (u16 (total / 4 - 1))).
  { unfold stores. simpl. destruct (store b 0 _) as [b1 |]; [simpl | done].
    by destruct (store b1 (0 + 1) type). }
  rewrite stores_cursor, bind_Ret by zl. unfold ngx_rtc_rtcp_wr_u16.
  rewrite be_enc_2, stores_cursor by zl. rewrite zdrop_zdrop by zl.
  unfold u16. change 65536 with (256 ^ Z.of_nat 2). by rewrite be_enc_mod.
Qed.

(** The 24 octets of a report block. *)
Definition rb_wire (r : ngx_rtc_rtcp_rb_t) : octets :=
  be_enc 4 (rb_ssrc r) ++ [fraction_lost r] ++ be_enc 3 (lost_packets r)
  ++ be_enc 4 (highest_seq r) ++ be_enc 4 (jitter r) ++ be_enc 4 (lsr r)
  ++ be_enc 4 (dlsr r).

Definition rb_ok (r : ngx_rtc_rtcp_rb_t) : Prop :=
  is_u32 (rb_ssrc r) /\ is_u8 (fraction_lost r) /\ 0 <= lost_packets r < 16777216 /\
  is_u32 (highest_seq r) /\ is_u32 (jitter r) /\ is_u32 (lsr r) /\ is_u32 (dlsr r).

Lemma zlen_rb_wire r : zlen (rb_wire r) = 24.
Proof. reflexivity. Qed.
#[export] Hint Rewrite zlen_rb_wire : zlen.

Lemma be_enc_3 x :
  [Z.land (Z.shiftr x 16) 255; Z.land (Z.shiftr x 8) 255; Z.land x 255] = be_enc 3 x.
Proof.
  simpl. rewrite !land_255, !shiftr_div by lia. by rewrite Z.div_1_r.
Qed.

Lemma write_rb_cursor pre b off r :
  off = zlen pre -> 24 <= zlen b ->
  ngx_rtc_rtcp_write_rb (pre ++ b) off r = Ret ((pre ++ rb_wire r) ++ zdrop 24 b).
Proof.
  intros Ho H. unfold ngx_rtc_rtcp_write_rb.
  rewrite wr_u32_cursor, bind_Ret by zl.
  change [fraction_lost r; Z.land (Z.shiftr (lost_packets r) 16) 255;
          Z.land (Z.shiftr (lost_packets r) 8) 255; Z.land (lost_packets r) 255]
    with ([fraction_lost r] ++ [Z.land (Z.shiftr (lost_packets r) 16) 255;
          Z.land (Z.shiftr (lost_packets r) 8) 255; Z.land (lost_packets r) 255]).
  rewrite be_enc_3, stores_cursor, bind_Ret by zl.
  change (zlen ([fraction_lost r] ++ be_enc 3 (lost_packets r))) with 4.
  do 3 (rewrite wr_u32_cursor, bind_Ret by zl). rewrite wr_u32_cursor by zl.
  rewrite !zdrop_zdrop by lia. unfold rb_wire. rewrite <- !app_assoc. done.
Qed.

Lemma bind_step {A B} (m : outcome A) v (k : A -> outcome B) r :
  m = Ret v -> k v = r -> mbind k m = r.
Proof. by intros -> <-. Qed.

(** [field] reads the next field of a packet written as a concatenation. *)
Ltac field_skip :=
  repeat (rewrite rd_skip by zl);
  autorewrite with zlen;
  match goal with
  | |- _ _ ?off = _ =>
      first [ constr_eq off 0 | let o := eval vm_compute in off in change off with o ]
  end.

Ltac field :=
  eapply bind_step;
  [ field_skip;
    lazymatch goal with
    | |- ngx_rtc_rtcp_rd_u32 _ _ = _ => apply rd_u32_enc
    | |- ngx_rtc_rtcp_rd_u16 _ _ = _ => apply rd_u16_enc
    | |- ngx_rtc_rtcp_rd_u24 _ _ = _ => apply rd_u24_enc
    | |- ngx_rtc_rtcp_rd_u64 _ _ = _ => apply rd_u64_enc; assumption
    | |- load _ _ = _ => apply load_0
    end
  | cbv beta; rewrite ?u32_small, ?u16_small by assumption ].

Lemma read_rb_wire r l : rb_ok r -> ngx_rtc_rtcp_read_rb (rb_wire r ++ l) 0 = Ret r.
Proof.
  intros (H0 & H1 & H2 & H3 & H4 & H5 & H6). unfold ngx_rtc_rtcp_read_rb, rb_wire.
  rewrite <- !app_assoc. do 7 field.
  rewrite (Z.mod_small (lost_packets r)) by done. by destruct r.
Qed.

(** ** The packets the module sends, as octets and as the parser exposes them *)

Definition sr_ok (r : ngx_rtc_rtcp_sr_t) : Prop :=
  is_u32 (sr_ssrc r) /\ is_u64 (sr_ntp r) /\ is_u32 (sr_rtp_ts r) /\
  is_u32 (packet_count r) /\ is_u32 (octet_count r) /\
  match sr_rb r with NULL => True | Ref rb => rb_ok rb end.

Definition sr_rc (r : ngx_rtc_rtcp_sr_t) : Z := if is_null (sr_rb r) then 0 else 1.

Definition sr_time (now : Z) (r : ngx_rtc_rtcp_sr_t) : Z :=
  if sr_ntp r =? 0 then now else sr_ntp r.

Definition sr_wire (now : Z) (r : ngx_rtc_rtcp_sr_t) : octets :=
  header_wire NGX_RTC_RTCP_SR (sr_rc r) (28 + sr_rc r * 24)
  ++ be_enc 4 (sr_ssrc r) ++ be_enc 8 (sr_time now r) ++ be_enc 4 (sr_rtp_ts r)
  ++ be_enc 4 (packet_count r) ++ be_enc 4 (octet_count r)
  ++ match sr_rb r with NULL => [] | Ref rb => rb_wire rb end.

Definition sr_view (now : Z) (r : ngx_rtc_rtcp_sr_t) : ngx_rtc_rtcp_pkt_t :=
  let p := pkt_header 2 0 NGX_RTC_RTCP_SR (sr_rc r) (6 + sr_rc r * 6)
             (28 + sr_rc r * 24) (sr_ssrc r)
           |> set_ntp (sr_time now r) |> set_rtp_ts (sr_rtp_ts r)
           |> set_sender_packet_count (packet_count r)
           |> set_sender_octet_count (octet_count r) in
  match sr_rb r with NULL => p | Ref rb => p |> set_rb rb |> set_has_rb 1 end.

(** [b] parses, whatever follows it, as the packet [v]. *)
Definition parses_as (b : octets) (v : ngx_rtc_rtcp_pkt_t) : Prop :=
  4 <= zlen b <= 262144 /\
  forall rest len p0 c0, zlen b <= len ->
    ngx_rtc_rtcp_parse (Ref (b ++ rest)) len (Ref p0) (Ref c0)
    = Ret (NGX_RTC_OK, Ref v, Ref (zlen b)).

Lemma zlen_sr_wire now r : zlen (sr_wire now r) = 28 + sr_rc r * 24.
Proof. unfold sr_wire, sr_rc. destruct (sr_rb r); reflexivity. Qed.

Lemma encode_sr_wire now r b cap l :
  sr_ok r -> is_u64 now -> 28 + sr_rc r * 24 <= cap <= zlen b ->
  ngx_rtc_rtcp_encode_sr now (Ref r) (Ref b) cap (Ref l)
  = Ret (NGX_RTC_OK, Ref (sr_wire now r ++ zdrop (zlen (sr_wire now r)) b),
         Ref (zlen (sr_wire now r))).
Proof.
  intros (H0 & H1 & H2 & H3 & H4 & Hrb) Hnow Hcap. rewrite zlen_sr_wire.
  unfold ngx_rtc_rtcp_encode_sr. fold (sr_rc r). cbv zeta.
  destruct (Z.ltb_spec cap (28 + sr_rc r * 24)); [lia |].
  assert (Hrc : sr_rc r = 0 \/ sr_rc r = 1)
    by (unfold sr_rc; destruct (sr_rb r); auto).
  assert (Ht : is_u64 (sr_time now r)) by (unfold sr_time; by destruct (_ =? _)).
  rewrite wr_header_cursor, bind_Ret by lia. fold (sr_time now r).
  rewrite wr_u32_cursor, bind_Ret by zl. rewrite wr_u64_cursor, bind_Ret by (done || zl).
  do 3 (rewrite wr_u32_cursor, bind_Ret by zl). unfold sr_wire, sr_rc in *.
  destruct (sr_rb r); cbn [is_null].
  - rewrite bind_Ret, !zdrop_zdrop by lia. rewrite app_nil_r, <- !app_assoc. done.
  - cbn [is_null] in *. rewrite write_rb_cursor, bind_Ret by zl.
    rewrite !zdrop_zdrop by lia. rewrite <- !app_assoc. done.
Qed.

Lemma header_byte fm :
  0 <= fm < 32 ->
  let x := Z.lor 0x80 (Z.land fm 0x1f) in
  Z.land (Z.shiftr x 6) 3 = 2 /\ Z.land (Z.shiftr x 5) 1 = 0 /\ Z.land x 0x1f = fm.
Proof.
  intros H. cbv zeta. change 0x1f with (Z.ones 5). rewrite land_mask by lia.
  rewrite (Z.mod_small fm) by lia. change 0x80 with (4 * 2 ^ 5).
  rewrite lor_low by lia. change 3 with (Z.ones 2). change 1 with (Z.ones 1).
  rewrite !land_mask, !shiftr_div by lia. change (2 ^ 5) with 32.
  change (2 ^ 6) with 64. change (2 ^ 2) with 4. change (2 ^ 1) with 2.
  split_and!; Z.div_mod_to_equations; lia.
Qed.

Lemma parse_header ty fm total s body v :
  0 <= fm < 32 -> total mod 4 = 0 -> total = 8 + zlen body -> total <= 262144 ->
  is_u32 s ->
  (forall rest,
     parse_payload ((header_wire ty fm total ++ be_enc 4 s ++ body) ++ rest) total
       (pkt_header 2 0 ty fm (total / 4 - 1) total s) = Ret (NGX_RTC_OK, v)) ->
  parses_as (header_wire ty fm total ++ be_enc 4 s ++ body) v.
Proof.
  intros Hfm Hmod Htot Hmax Hs Hpay. pose proof (zlen_nonneg body).
  assert (Hlen : zlen (header_wire ty fm total ++ be_enc 4 s ++ body) = total) by zl.
  split; [lia |]. intros rest len p0 c0 Hl. rewrite Hlen in *.
  destruct (header_byte fm Hfm) as (Hv & Hpd & Hf).
  assert (Hw : is_u16 (total / 4 - 1)) by wraps.
  specialize (Hpay rest). unfold header_wire in *. rewrite <- !app_assoc in *.
  unfold ngx_rtc_rtcp_parse. destruct (Z.ltb_spec len 4); [lia |].
  eapply bind_step; [apply load_0 |]. eapply bind_step; [reflexivity |].
  field. cbv zeta. replace ((total / 4 - 1 + 1) * 4) with total
    by (Z.div_mod_to_equations; lia).
  destruct (Z.ltb_spec len total); [lia |].
  rewrite Hv, Hpd, Hf. cbn [negb Z.eqb]. change (negb (2 =? 2)) with false.
  cbv iota. field. rewrite Hpay, bind_Ret. reflexivity.
Qed.

Lemma parse_sr now r : sr_ok r -> is_u64 now -> parses_as (sr_wire now r) (sr_view now r).
Proof.
  intros (H0 & H1 & H2 & H3 & H4 & Hrb) Hnow.
  assert (Ht : is_u64 (sr_time now r)) by (unfold sr_time; by destruct (_ =? _)).
  unfold sr_wire, sr_view, sr_rc. apply parse_header; [| | | | done |].
  1-4: destruct (sr_rb r); done.
  intros rest. unfold header_wire. rewrite <- !app_assoc. unfold parse_payload.
  cbv zeta. destruct (sr_rb r) as [| rb]; cbn -[be_enc app rb_wire];
    do 4 field; [done |].
  eapply bind_step; [field_skip; by apply read_rb_wire |]. done.
Qed.

(** *** SDES *)

Definition sdes_pad (n : Z) : Z := (4 - (11 + n) mod 4) mod 4.

Definition sdes_wire (s : Z) (name : octets) : octets :=
  header_wire NGX_RTC_RTCP_SDES 1 (11 + zlen name + sdes_pad (zlen name))
  ++ be_enc 4 s ++ [1; zlen name] ++ name ++ [0] ++ zeros (sdes_pad (zlen name)).

Definition sdes_view (s : Z) (name : octets) : ngx_rtc_rtcp_pkt_t :=
  let total := 11 + zlen name + sdes_pad (zlen name) in
  pkt_header 2 0 NGX_RTC_RTCP_SDES 1 (total / 4 - 1) total s
  |> set_cname (name ++ zeros (NGX_RTC_RTCP_MAX_CNAME - zlen name)).

Lemma sdes_pad_range n : 0 <= sdes_pad n < 4.
Proof. apply Z.mod_pos_bound. lia. Qed.

Lemma zlen_sdes_wire s name :
  zlen (sdes_wire s name) = 11 + zlen name + sdes_pad (zlen name).
Proof. pose proof (sdes_pad_range (zlen name)). unfold sdes_wire. zl. Qed.

Lemma encode_sdes_wire s name b cap l :
  zlen name <= 255 -> zlen (sdes_wire s name) <= cap <= zlen b ->
  ngx_rtc_rtcp_encode_sdes s (Ref name) (Ref b) cap (Ref l)
  = Ret (NGX_RTC_OK, Ref (sdes_wire s name ++ zdrop (zlen (sdes_wire s name)) b),
         Ref (zlen (sdes_wire s name))).
Proof.
  intros Hn Hcap. pose proof (zlen_nonneg name). rewrite zlen_sdes_wire in *.
  pose proof (sdes_pad_range (zlen name)) as Hp.
  unfold ngx_rtc_rtcp_encode_sdes. rewrite u32_small by (unfold is_u32; lia).
  cbv zeta. destruct (Z.ltb_spec 255 (zlen name)); [lia |].
  replace (4 + 4 + 2 + zlen name + 1) with (11 + zlen name) by lia.
  fold (sdes_pad (zlen name)).
  destruct (Z.ltb_spec cap (11 + zlen name + sdes_pad (zlen name))); [lia |].
  rewrite wr_header_cursor, bind_Ret by lia.
  rewrite wr_u32_cursor, bind_Ret by zl.
  rewrite u8_small by (unfold is_u8; lia).
  do 2 (rewrite store_cursor, bind_Ret by zl).
  rewrite load_range_all, bind_Ret by done.
  rewrite store_range_cursor, bind_Ret by zl. rewrite store_cursor, bind_Ret by zl.
  rewrite stores_cursor, bind_Ret by zl. rewrite zlen_zeros by lia.
  rewrite !zdrop_zdrop by lia. unfold sdes_wire. rewrite <- !app_assoc.
  replace (4 + (4 + (1 + (1 + (zlen name + (1 + sdes_pad (zlen name)))))))
    with (11 + zlen name + sdes_pad (zlen name)) by lia. done.
Qed.

Lemma zeros_app n m : 0 <= n -> 0 <= m -> zeros (n + m) = zeros n ++ zeros m.
Proof.
  intros. unfold zeros. rewrite <- replicate_add. f_equal. lia.
Qed.

Lemma zdrop_zeros n m : 0 <= n -> zdrop n (zeros m) = zeros (m - n).
Proof.
  intros. unfold zdrop, zeros. rewrite drop_replicate. f_equal. lia.
Qed.

(** The C string copied into the zeroed [cname] field. *)
Lemma cname_copy name :
  zlen name <= 255 ->
  (c ← store_range (zeros NGX_RTC_RTCP_MAX_CNAME) 0 name; store c (zlen name) 0)
  = Ret (name ++ zeros (NGX_RTC_RTCP_MAX_CNAME - zlen name)).
Proof.
  intros Hn. pose proof (zlen_nonneg name). unfold NGX_RTC_RTCP_MAX_CNAME.
  replace (zeros 256) with (zeros (zlen name) ++ [0] ++ zeros (255 - zlen name)).
  2: { change [0] with (zeros 1). rewrite <- !zeros_app by lia. f_equal. lia. }
  trans (c ← Ret (name ++ [0] ++ zeros (255 - zlen name)); store c (zlen name) 0).
  { f_equal. apply (store_range_app []); [done | zl]. }
  rewrite bind_Ret.
  rewrite store_cursor by zl. f_equal. rewrite <- app_assoc. f_equal.
  replace (256 - zlen name) with (1 + (255 - zlen name)) by lia.
  by rewrite zeros_app by lia.
Qed.

(** The item loop on a chunk whose first item is a CNAME. *)
Lemma sdes_items_cname n pre name suf total off pkt :
  off = zlen pre -> off + 2 + zlen name <= total -> zlen name <= 255 ->
  cname pkt = zeros NGX_RTC_RTCP_MAX_CNAME -> (0 < n)%nat ->
  sdes_items n (pre ++ [1; zlen name] ++ name ++ suf) total off pkt
  = Ret (NULL, set_cname (name ++ zeros (NGX_RTC_RTCP_MAX_CNAME - zlen name)) pkt).
Proof.
  intros Ho Htot Hn Hc Hfuel. pose proof (zlen_nonneg name). pose proof (zlen_nonneg pre).
  destruct n as [| n]; [lia |]. cbn -[app Z.ltb Z.leb].
  destruct (Z.leb_spec (off + 1) total); [cbn [negb] | lia].
  eapply bind_step; [rewrite rd_skip by lia; rewrite Ho, Z.sub_diag; apply load_0 |].
  cbn -[app Z.ltb Z.leb]. destruct (Z.ltb_spec total (off + 2)); [lia |].
  eapply bind_step.
  { rewrite rd_skip by lia. replace (off + 1 - zlen pre) with 1 by lia. reflexivity. }
  cbv beta. destruct (Z.ltb_spec total (off + 2 + zlen name)); [lia |].
  assert ((NGX_RTC_RTCP_MAX_CNAME <=? zlen name) = false) as ->
    by (apply Z.leb_gt; unfold NGX_RTC_RTCP_MAX_CNAME; lia).
  eapply bind_step.
  { rewrite app_assoc. apply load_range_app; [| done]. zl. }
  cbv beta. rewrite Hc. pose proof (cname_copy name Hn) as Hcopy.
  destruct (store_range (zeros NGX_RTC_RTCP_MAX_CNAME) 0 name) as [c |]; [| done].
  cbn in Hcopy |- *. rewrite Hcopy. done.
Qed.

Lemma parse_sdes s name :
  is_u32 s -> zlen name <= 255 -> parses_as (sdes_wire s name) (sdes_view s name).
Proof.
  intros Hs Hn. pose proof (zlen_nonneg name).
  pose proof (sdes_pad_range (zlen name)) as Hp. unfold sdes_wire, sdes_view. cbv zeta.
  apply parse_header; [done | | zl | lia | done |].
  { unfold sdes_pad. Z.div_mod_to_equations. lia. }
  intros rest. set (total := 11 + zlen name + sdes_pad (zlen name)) in *.
  unfold parse_payload. cbn -[be_enc app Z.ltb ngx_rtc_rtcp_parse_sdes].
  destruct (Z.ltb_spec total 8); [lia |]. unfold ngx_rtc_rtcp_parse_sdes.
  change (Z.to_nat _) with 1%nat. cbn [sdes_chunks].
  destruct (Z.leb_spec (4 + 4) total); [cbn [negb] | lia].
  rewrite (app_assoc (header_wire _ _ _)), <- !app_assoc.
  rewrite (app_assoc (header_wire _ _ _)).
  rewrite sdes_items_cname; [done | done | lia | done | done | lia].
Qed.

Definition pli_wire (s m : Z) : octets :=
  header_wire NGX_RTC_RTCP_PSFB NGX_RTC_RTCP_FMT_PLI 12 ++ be_enc 4 s ++ be_enc 4 m.

Definition pli_view (s m : Z) : ngx_rtc_rtcp_pkt_t :=
  pkt_header 2 0 NGX_RTC_RTCP_PSFB NGX_RTC_RTCP_FMT_PLI 2 12 s |> set_media_ssrc m.

Lemma encode_pli_wire s m b cap l :
  12 <= cap <= zlen b ->
  ngx_rtc_rtcp_encode_pli s m (Ref b) cap (Ref l)
  = Ret (NGX_RTC_OK, Ref (pli_wire s m ++ zdrop 12 b), Ref 12).
Proof.
  intros Hcap. unfold ngx_rtc_rtcp_encode_pli. destruct (Z.ltb_spec cap 12); [lia |].
  rewrite wr_header_cursor, bind_Ret by lia. do 2 (rewrite wr_u32_cursor, bind_Ret by zl).
  rewrite !zdrop_zdrop by lia. unfold pli_wire. rewrite <- !app_assoc. done.
Qed.

Lemma parse_pli s m : is_u32 s -> is_u32 m -> parses_as (pli_wire s m) (pli_view s m).
Proof.
  intros Hs Hm. unfold pli_wire, pli_view. apply parse_header; [done.. | done |].
  intros rest. unfold header_wire. rewrite <- !app_assoc. unfold parse_payload.
  cbn -[be_enc app]. by field.
Qed.

(** ** NACK expansion *)

Definition nack_bit_seqs (n : nat) (j pid blp : Z) : list Z :=
  (fun k => u16 (pid + k + 1)) <$> filter (fun k => Z.testbit blp k = true) (seqZ j (Z.of_nat n)).

(** The sequence numbers one (PID, BLP) entry asks for, RFC 4585 section 6.2.1. *)
Definition nack_entry_seqs (e : Z * Z) : list Z :=
  e.1 :: nack_bit_seqs 16 0 e.1 e.2.

Definition nack_seqs (es : list (Z * Z)) : list Z := es ≫= nack_entry_seqs.

(** What writing [xs] at the cursor leaves when there is room for [room] of them. *)
Definition push_code (room : Z) (xs : list Z) : Z :=
  if zlen xs <=? room then NGX_RTC_OK else NGX_RTC_ERR_TOO_SMALL.

Definition pushed (pre post xs : list Z) (room : Z) : outcome (Z * list Z * Z) :=
  let k := Z.min room (zlen xs) in
  Ret (push_code room xs, pre ++ ztake k xs ++ zdrop k post, zlen pre + k).

Lemma pushed_nil pre post room :
  0 <= room -> pushed pre post [] room = Ret (NGX_RTC_OK, pre ++ post, zlen pre).
Proof.
  intros H. unfold pushed, push_code. rewrite zlen_nil, Z.min_r by lia.
  destruct (Z.leb_spec 0 room); [| lia]. by rewrite Z.add_0_r.
Qed.

Lemma pushed_full pre post x xs :
  pushed pre post (x :: xs) 0 = Ret (NGX_RTC_ERR_TOO_SMALL, pre ++ post, zlen pre).
Proof.
  pose proof (zlen_nonneg xs). unfold pushed, push_code. rewrite zlen_cons.
  rewrite Z.min_l by lia. destruct (Z.leb_spec (1 + zlen xs) 0); [lia |].
  by rewrite Z.add_0_r.
Qed.

Lemma ztake_cons {A} n (x : A) l : 0 < n -> ztake n (x :: l) = x :: ztake (n - 1) l.
Proof.
  intros H. unfold ztake. replace (Z.to_nat n) with (S (Z.to_nat (n - 1))) by lia. done.
Qed.

Lemma pushed_cons pre post x xs room :
  0 < room ->
  pushed (pre ++ [x]) (zdrop 1 post) xs (room - 1) = pushed pre post (x :: xs) room.
Proof.
  intros H. pose proof (zlen_nonneg xs). unfold pushed, push_code. cbv zeta.
  autorewrite with zlen. replace (Z.min room (1 + zlen xs)) with
    (1 + Z.min (room - 1) (zlen xs)) by lia.
  rewrite ztake_cons, zdrop_zdrop, <- app_assoc by lia.
  replace (1 + Z.min (room - 1) (zlen xs) - 1) with (Z.min (room - 1) (zlen xs)) by lia.
  replace (zlen xs <=? room - 1) with (1 + zlen xs <=? room) by (zcase; done).
  f_equal. f_equal. lia.
Qed.

(** Expansion in two steps is expansion of the concatenation. *)
Lemma pushed_app pre post xs ys room k :
  k = Z.min room (zlen xs) -> 0 <= room ->
  ('(r, s, out) ← pushed pre post xs room;
   if negb (r =? NGX_RTC_OK) then Ret (r, s, out)
   else pushed (pre ++ ztake k xs) (zdrop k post) ys (room - k))
  = pushed pre post (xs ++ ys) room.
Proof.
  intros -> Hr. pose proof (zlen_nonneg xs). pose proof (zlen_nonneg ys).
  unfold pushed, push_code. cbv zeta. rewrite bind_Ret, !zlen_app.
  destruct (Z.leb_spec (zlen xs) room); cbn [negb Z.eqb NGX_RTC_OK NGX_RTC_ERR_TOO_SMALL].
  - rewrite (Z.min_r room (zlen xs)), ztake_zlen by lia.
    replace (zlen xs + zlen ys <=? room) with (zlen ys <=? room - zlen xs) by (zcase; done).
    replace (Z.min room (zlen xs + zlen ys)) with
      (zlen xs + Z.min (room - zlen xs) (zlen ys)) by lia.
    rewrite zdrop_zdrop by lia. rewrite <- app_assoc.
    replace (ztake (zlen xs + Z.min (room - zlen xs) (zlen ys)) (xs ++ ys))
      with (xs ++ ztake (Z.min (room - zlen xs) (zlen ys)) ys).
    { by rewrite <- app_assoc, Z.add_assoc. }
    unfold ztake. rewrite take_app_ge by (unfold zlen in *; lia).
    f_equal. f_equal. unfold zlen in *. lia.
  - rewrite !Z.min_l by lia. rewrite ztake_app_le by lia.
    destruct (Z.leb_spec (zlen xs + zlen ys) room); [lia |]. done.
Qed.

Lemma u16_bit j : 0 <= j < 16 -> u16 (Z.shiftl 1 j) = 2 ^ j.
Proof.
  intros H. rewrite shiftl_mul, Z.mul_1_l by lia. apply u16_small. split; [lia |].
  apply (Z.pow_lt_mono_r 2 j 16); lia.
Qed.

Lemma nack_bits_pushed n : forall j pid blp cap pre post,
  0 <= j -> j + Z.of_nat n = 16 -> is_u16 cap ->
  zlen pre <= cap <= zlen pre + zlen post ->
  nack_bits n j pid blp cap (pre ++ post) (zlen pre)
  = pushed pre post (nack_bit_seqs n j pid blp) (cap - zlen pre).
Proof.
  induction n as [| n IH]; intros j pid blp cap pre post Hj Hn Hc Hcap.
  { unfold nack_bit_seqs. simpl. by rewrite pushed_nil by lia. }
  pose proof (zlen_nonneg pre).
  cbn [nack_bits]. rewrite u16_bit, land_pow2_bit by lia.
  assert (Hs : nack_bit_seqs (S n) j pid blp =
    (if Z.testbit blp j then [u16 (pid + j + 1)] else []) ++ nack_bit_seqs n (j + 1) pid blp).
  { unfold nack_bit_seqs. rewrite seqZ_cons by lia.
    replace (Z.pred (Z.of_nat (S n))) with (Z.of_nat n) by lia.
    rewrite filter_cons. change (Z.succ j) with (j + 1).
    destruct (Z.testbit blp j); [rewrite decide_True by done | rewrite decide_False by done]; done. }
  rewrite Hs. destruct (Z.testbit blp j).
  2: { rewrite Z.eqb_refl. apply IH; lia || done. }
  destruct (Z.eqb_spec (2 ^ j) 0) as [E |]; [pose proof (Z.pow_pos_nonneg 2 j); lia |].
  simpl app. destruct (Z.leb_spec cap (zlen pre)).
  { replace (cap - zlen pre) with 0 by lia. by rewrite pushed_full. }
  rewrite store_cursor, bind_Ret by lia. unfold is_u16 in Hc.
  rewrite (u16_small (zlen pre + 1)) by (unfold is_u16; lia).
  rewrite <- pushed_cons by lia.
  replace (zlen pre + 1) with (zlen (pre ++ [u16 (pid + j + 1)])) by zl.
  rewrite IH by (unfold is_u16; zl). f_equal. zl.
Qed.

Lemma nack_expand_pushed es : forall P B P' B' p cap pre post,
  nack_pid p = P ++ es.*1 ++ P' -> nack_blp p = B ++ es.*2 ++ B' -> zlen P = zlen B ->
  is_u16 cap -> zlen pre <= cap <= zlen pre + zlen post ->
  nack_expand_loop (length es) (zlen P) p cap (pre ++ post) (zlen pre)
  = pushed pre post (nack_seqs es) (cap - zlen pre).
Proof.
  induction es as [| [pid blp] es IH]; intros P B P' B' p cap pre post HP HB Hl Hc Hcap.
  { simpl. by rewrite pushed_nil by lia. }
  pose proof (zlen_nonneg pre). cbn [nack_expand_loop length].
  eapply bind_step; [rewrite HP, rd_skip, Z.sub_diag by lia; apply load_0 |].
  eapply bind_step; [rewrite Hl, HB, rd_skip, Z.sub_diag by lia; apply load_0 |].
  cbv beta. assert (nack_seqs ((pid, blp) :: es)
    = pid :: nack_bit_seqs 16 0 pid blp ++ nack_seqs es) as -> by done.
  cbn [fst snd].
  destruct (Z.leb_spec cap (zlen pre)).
  { replace (cap - zlen pre) with 0 by lia. by rewrite pushed_full. }
  rewrite store_cursor, bind_Ret by lia. unfold is_u16 in Hc.
  rewrite (u16_small (zlen pre + 1)) by (unfold is_u16; lia).
  rewrite <- pushed_cons by lia.
  replace (zlen pre + 1) with (zlen (pre ++ [pid])) by zl.
  rewrite nack_bits_pushed by (unfold is_u16; zl).
  replace (cap - zlen pre - 1) with (cap - zlen (pre ++ [pid])) by zl.
  rewrite <- (pushed_app _ _ _ _ _ _ eq_refl) by zl.
  set (room := cap - zlen (pre ++ [pid])). set (xs := nack_bit_seqs 16 0 pid blp).
  unfold pushed at 1 3. cbv zeta. rewrite !bind_Ret. unfold push_code.
  assert (Hmin : 0 <= Z.min room (zlen xs) <= room) by (pose proof (zlen_nonneg xs); unfold room; zl).
  destruct (Z.leb_spec (zlen xs) room); [| done].
  cbn [negb Z.eqb NGX_RTC_OK]. rewrite Z.min_r, ztake_zlen in * by lia.
  replace (zlen P + 1) with (zlen (P ++ [pid])) by zl.
  rewrite app_assoc, <- zlen_app.
  rewrite (IH (P ++ [pid]) (B ++ [blp]) P' B'); try (unfold is_u16, room in *; zl).
  - f_equal. unfold room. zl.
  - by rewrite HP, <- app_assoc.
  - by rewrite HB, <- app_assoc.
Qed.

Definition nack_fci (es : list (Z * Z)) : octets :=
  es ≫= (fun e => be_enc 2 e.1 ++ be_enc 2 e.2).

Definition nack_wire (s m : Z) (es : list (Z * Z)) : octets :=
  header_wire NGX_RTC_RTCP_RTPFB NGX_RTC_RTCP_FMT_NACK (12 + 4 * zlen es)
  ++ be_enc 4 s ++ be_enc 4 m ++ nack_fci es.

Definition entry_ok (e : Z * Z) : Prop := is_u16 e.1 /\ is_u16 e.2.

Definition nack_view (s m : Z) (es : list (Z * Z)) : ngx_rtc_rtcp_pkt_t :=
  let kept := ztake NGX_RTC_RTCP_MAX_NACK_ENTRIES es in
  let room := zeros (NGX_RTC_RTCP_MAX_NACK_ENTRIES - zlen kept) in
  pkt_header 2 0 NGX_RTC_RTCP_RTPFB NGX_RTC_RTCP_FMT_NACK (2 + zlen es)
    (12 + 4 * zlen es) s
  |> set_media_ssrc m |> set_nack_pid (kept.*1 ++ room) |> set_nack_blp (kept.*2 ++ room)
  |> set_nack_count (zlen kept).

Lemma zlen_nack_fci es : zlen (nack_fci es) = 4 * zlen es.
Proof.
  unfold nack_fci. induction es as [| e es IH]; [done |].
  change ((e :: es) ≫= (fun e => be_enc 2 e.1 ++ be_enc 2 e.2))
    with ((be_enc 2 e.1 ++ be_enc 2 e.2) ++ (es ≫= (fun e => be_enc 2 e.1 ++ be_enc 2 e.2))).
  rewrite zlen_app, IH, zlen_cons. zl.
Qed.
#[export] Hint Rewrite zlen_nack_fci : zlen.

Lemma zlen_nack_wire s m es : zlen (nack_wire s m es) = 12 + 4 * zlen es.
Proof. unfold nack_wire. zl. Qed.

Lemma nack_entries_wire es : forall pre rest P B Q R pkt,
  Forall entry_ok es -> zlen P = zlen B -> zlen es <= zlen Q -> zlen es <= zlen R ->
  nack_entries (length es) (pre ++ nack_fci es ++ rest) (zlen pre) (zlen P)
    (pkt |> set_nack_pid (P ++ Q) |> set_nack_blp (B ++ R))
  = Ret (pkt |> set_nack_pid (P ++ es.*1 ++ zdrop (zlen es) Q)
             |> set_nack_blp (B ++ es.*2 ++ zdrop (zlen es) R)).
Proof.
  induction es as [| [x y] es IH]; intros pre rest P B Q R pkt Hes Hl HQ HR; [done |].
  inversion_clear Hes as [| ?? [Hx Hy] Hes']. cbn [fst snd] in Hx, Hy.
  pose proof (zlen_nonneg es). rewrite zlen_cons in *.
  change (nack_fci ((x, y) :: es)) with ((be_enc 2 x ++ be_enc 2 y) ++ nack_fci es).
  rewrite <- !app_assoc. cbn [nack_entries length].
  eapply bind_step; [rewrite rd_skip, Z.sub_diag by lia; apply rd_u16_enc |].
  eapply bind_step.
  { rewrite rd_skip by lia. replace (zlen pre + 2 - zlen pre) with 2 by lia.
    rewrite rd_skip by zl. apply rd_u16_enc. }
  cbv beta. rewrite !u16_small by done. cbn [nack_pid nack_blp set_nack_pid set_nack_blp].
  rewrite (store_cursor P Q), bind_Ret by lia. rewrite (store_cursor B R), bind_Ret by lia.
  specialize (IH (pre ++ be_enc 2 x ++ be_enc 2 y) rest (P ++ [x]) (B ++ [y])
    (zdrop 1 Q) (zdrop 1 R) pkt Hes' ltac:(zl) ltac:(zl) ltac:(zl)).
  replace (zlen pre + 4) with (zlen (pre ++ be_enc 2 x ++ be_enc 2 y)) by zl.
  replace (zlen P + 1) with (zlen (P ++ [x])) by zl.
  rewrite <- !app_assoc in IH. rewrite !zdrop_zdrop in IH by lia.
  rewrite <- !app_assoc. exact IH.
Qed.

Lemma nack_fci_split es k rest :
  nack_fci es ++ rest = nack_fci (ztake k es) ++ (nack_fci (zdrop k es) ++ rest).
Proof.
  unfold nack_fci. rewrite app_assoc, <- bind_app, ztake_zdrop. done.
Qed.

Lemma parse_nack s m es :
  is_u32 s -> is_u32 m -> Forall entry_ok es -> zlen es <= 65533 ->
  parses_as (nack_wire s m es) (nack_view s m es).
Proof.
  intros Hs Hm Hes Hn. pose proof (zlen_nonneg es). unfold nack_wire.
  assert (Hv : (12 + 4 * zlen es) / 4 - 1 = 2 + zlen es) by (Z.div_mod_to_equations; lia).
  apply parse_header; [done | | zl | lia | done |].
  { Z.div_mod_to_equations. lia. }
  intros rest. rewrite Hv. unfold parse_payload.
  cbn -[be_enc app Z.ltb Z.mul Z.add header_wire Z.sub Z.div zlen].
  destruct (Z.ltb_spec (12 + 4 * zlen es) 12); [lia |].
  rewrite <- !app_assoc. eapply bind_step; [field_skip; apply rd_u32_enc |].
  cbv beta. rewrite u32_small by done.
  replace ((12 + 4 * zlen es - 12) / 4) with (zlen es) by (Z.div_mod_to_equations; lia).
  assert (Hk : zlen (ztake 128 es) = if 128 <? zlen es then 128 else zlen es).
  { rewrite zlen_ztake by lia. zcase. }
  change NGX_RTC_RTCP_MAX_NACK_ENTRIES with 128. rewrite <- Hk.
  assert (Hmax : zlen (ztake 128 es) <= 128) by (rewrite zlen_ztake; lia).
  pose proof (zlen_nonneg (ztake 128 es)).
  rewrite (nack_fci_split es 128). unfold zlen at 2. rewrite Nat2Z.id.
  pose proof (nack_entries_wire (ztake 128 es)
    (header_wire NGX_RTC_RTCP_RTPFB NGX_RTC_RTCP_FMT_NACK (12 + 4 * zlen es)
     ++ be_enc 4 s ++ be_enc 4 m) (nack_fci (zdrop 128 es) ++ rest) [] []
    (zeros 128) (zeros 128)
    (set_media_ssrc m (pkt_header 2 0 NGX_RTC_RTCP_RTPFB NGX_RTC_RTCP_FMT_NACK
       (2 + zlen es) (12 + 4 * zlen es) s)) (Forall_take _ _ _ Hes) eq_refl) as He.
  rewrite <- !app_assoc in He. eapply bind_step; [apply He; zl |].
  cbv beta. rewrite u16_small by (unfold is_u16; lia). rewrite !zdrop_zeros by lia.
  done.
Qed.

Lemma nack_view_expand s m es seqs cap c :
  is_u16 cap -> cap <= zlen seqs ->
  ngx_rtc_rtcp_nack_expand (Ref (nack_view s m es)) (Ref seqs) cap (Ref c)
  = '(r, l, out) ← pushed [] seqs
        (nack_seqs (ztake NGX_RTC_RTCP_MAX_NACK_ENTRIES es)) cap;
    Ret (r, Ref l, Ref out).
Proof.
  intros Hc Hcap. unfold ngx_rtc_rtcp_nack_expand, nack_view. cbv zeta.
  set (kept := ztake NGX_RTC_RTCP_MAX_NACK_ENTRIES es).
  set (room := zeros (NGX_RTC_RTCP_MAX_NACK_ENTRIES - zlen kept)).
  cbn [nack_count set_nack_count]. unfold zlen at 1. rewrite Nat2Z.id.
  assert (cap - 0 = cap) as Hz by lia. unfold is_u16 in Hc.
  pose proof (nack_expand_pushed kept [] [] room room
    (pkt_header 2 0 NGX_RTC_RTCP_RTPFB NGX_RTC_RTCP_FMT_NACK (2 + zlen es)
       (12 + 4 * zlen es) s
     |> set_media_ssrc m |> set_nack_pid (kept.*1 ++ room)
     |> set_nack_blp (kept.*2 ++ room) |> set_nack_count (zlen kept))
    cap [] seqs eq_refl eq_refl eq_refl ltac:(unfold is_u16; lia) ltac:(zl)) as He.
  rewrite zlen_nil, Hz in He. simpl app in He. by rewrite He.
Qed.

(** ** Compound datagrams *)

(** What the module sends in one compound, and what it is given to send it. *)
Inductive message :=
| Report (now : Z) (r : ngx_rtc_rtcp_sr_t)
| Describe (s : Z) (name : octets)
| PictureLoss (s m : Z).

Definition message_ok (x : message) : Prop :=
  match x with
  | Report now r => is_u64 now /\ sr_ok r
  | Describe s name => is_u32 s /\ zlen name <= 255
  | PictureLoss s m => is_u32 s /\ is_u32 m
  end.

Definition message_wire (x : message) : octets :=
  match x with
  | Report now r => sr_wire now r
  | Describe s name => sdes_wire s name
  | PictureLoss s m => pli_wire s m
  end.

Definition message_view (x : message) : ngx_rtc_rtcp_pkt_t :=
  match x with
  | Report now r => sr_view now r
  | Describe s name => sdes_view s name
  | PictureLoss s m => pli_view s m
  end.

Definition encode (x : message) (buf : ptr octets) (cap : Z) (len : ptr Z)
    : outcome (Z * ptr octets * ptr Z) :=
  match x with
  | Report now r => ngx_rtc_rtcp_encode_sr now (Ref r) buf cap len
  | Describe s name => ngx_rtc_rtcp_encode_sdes s (Ref name) buf cap len
  | PictureLoss s m => ngx_rtc_rtcp_encode_pli s m buf cap len
  end.

Lemma message_parses x : message_ok x -> parses_as (message_wire x) (message_view x).
Proof.
  destruct x; intros [H1 H2]; [by apply parse_sr | by apply parse_sdes | by apply parse_pli].
Qed.

Lemma encode_wire x b cap l :
  message_ok x -> zlen (message_wire x) <= cap <= zlen b ->
  encode x (Ref b) cap (Ref l)
  = Ret (NGX_RTC_OK, Ref (message_wire x ++ zdrop (zlen (message_wire x)) b),
         Ref (zlen (message_wire x))).
Proof.
  destruct x; intros [H1 H2] H; cbn [encode message_wire] in *.
  - apply encode_sr_wire; [done | done |]. by rewrite zlen_sr_wire in H.
  - by apply encode_sdes_wire.
  - by apply encode_pli_wire.
Qed.

(** The use the header documents: encode each packet into [tmp], append it to
    [out], and send the whole. *)
Fixpoint compound_build (xs : list message) (tmp : octets) (out : ptr octets)
    (cap : Z) (out_len : ptr Z) : outcome (Z * ptr octets * ptr Z) :=
  match xs with
  | [] => Ret (NGX_RTC_OK, out, out_len)
  | x :: xs =>
      '(r, t, sub_len) ← encode x (Ref tmp) (zlen tmp) (Ref 0);
      if negb (r =? NGX_RTC_OK) then Ret (r, out, out_len)
      else
        match t, sub_len with
        | Ref t, Ref n =>
            '(r, out, out_len) ← ngx_rtc_rtcp_compound_append out cap out_len (Ref t) n;
            if negb (r =? NGX_RTC_OK) then Ret (r, out, out_len)
            else compound_build xs t out cap out_len
        | _, _ => Fault
        end
  end.

Definition compound_wire (xs : list message) : octets := xs ≫= message_wire.

Lemma compound_build_wire xs : forall tmp pre out cap,
  Forall message_ok xs -> Forall (fun x => zlen (message_wire x) <= zlen tmp) xs ->
  zlen pre + zlen (compound_wire xs) <= cap <= zlen pre + zlen out -> is_u32 cap ->
  compound_build xs tmp (Ref (pre ++ out)) cap (Ref (zlen pre))
  = Ret (NGX_RTC_OK,
         Ref (pre ++ compound_wire xs ++ zdrop (zlen (compound_wire xs)) out),
         Ref (zlen pre + zlen (compound_wire xs))).
Proof.
  induction xs as [| x xs IH]; intros tmp pre out cap Hok Hfit Hcap Hc.
  { cbn [compound_build]. change (compound_wire []) with (@nil Z).
    by rewrite zlen_nil, Z.add_0_r. }
  inversion_clear Hok as [| ?? Hx Hxs]. inversion_clear Hfit as [| ?? Ht Hts].
  change (compound_wire (x :: xs)) with (message_wire x ++ compound_wire xs) in *.
  rewrite zlen_app in *. pose proof (zlen_nonneg (message_wire x)).
  pose proof (zlen_nonneg (compound_wire xs)). pose proof (zlen_nonneg pre).
  unfold is_u32 in Hc. cbn [compound_build]. rewrite encode_wire, bind_Ret by (done || lia).
  cbn [negb Z.eqb NGX_RTC_OK]. unfold ngx_rtc_rtcp_compound_append.
  rewrite u32_small by (unfold is_u32; lia).
  destruct (Z.ltb_spec cap (zlen pre)); [lia |].
  destruct (Z.ltb_spec (cap - zlen pre) (zlen (message_wire x))); [lia |].
  cbn [orb].
  assert (Hr : load_range (message_wire x ++ zdrop (zlen (message_wire x)) tmp) 0
                 (zlen (message_wire x)) = Ret (message_wire x))
    by (apply (load_range_app []); done).
  rewrite Hr, bind_Ret, store_range_cursor, bind_Ret by lia.
  rewrite u32_small, bind_Ret by (unfold is_u32; lia).
  cbn [negb Z.eqb NGX_RTC_OK]. rewrite <- zlen_app.
  rewrite IH; [| done | | zl | done].
  - rewrite zdrop_zdrop by lia. rewrite <- !app_assoc, zlen_app, Z.add_assoc. done.
  - replace (zlen (message_wire x ++ zdrop (zlen (message_wire x)) tmp)) with (zlen tmp);
      [done | zl].
Qed.

(** The callback run on each packet in turn, stopping at the first refusal. *)
Fixpoint deliver {St} (cb : ngx_rtc_rtcp_pkt_t -> St -> Z * St)
    (vs : list ngx_rtc_rtcp_pkt_t) (st : St) : Z * St :=
  match vs with
  | [] => (NGX_RTC_OK, st)
  | v :: vs =>
      let '(r, st) := cb v st in
      if r =? NGX_RTC_OK then deliver cb vs st else (r, st)
  end.

Lemma decode_loop_wires {St} (cb : ngx_rtc_rtcp_pkt_t -> St -> Z * St) ws vs :
  Forall2 parses_as ws vs ->
  forall n pre rest st, (length ws <= n)%nat ->
  zlen pre + zlen (mjoin ws) < 4294967296 ->
  decode_loop n (pre ++ mjoin ws ++ rest) (zlen pre + zlen (mjoin ws)) (zlen pre) cb st
  = Ret (deliver cb vs st).
Proof.
  induction 1 as [| w v ws vs [Hw Hp] Hws IH]; intros n pre rest st Hn Hmax.
  { change (zlen (mjoin [])) with 0. destruct n; cbn [decode_loop];
      destruct (Z.ltb_spec (zlen pre) (zlen pre + 0)); done || lia. }
  change (mjoin (w :: ws)) with (w ++ mjoin ws) in *. rewrite zlen_app in *.
  pose proof (zlen_nonneg pre). pose proof (zlen_nonneg (mjoin ws)).
  destruct n as [| n]; [simpl in Hn; lia |]. cbn [decode_loop].
  destruct (Z.ltb_spec (zlen pre) (zlen pre + (zlen w + zlen (mjoin ws)))); [| lia].
  rewrite zdrop_app_length, u32_small by (unfold is_u32; done || lia).
  rewrite <- app_assoc, Hp, bind_Ret by lia. cbn [negb Z.eqb NGX_RTC_OK].
  cbn [deliver]. destruct (cb v st) as [r st']. change NGX_RTC_OK with 0.
  destruct (r =? 0); cbn [negb]; [| done].
  rewrite u32_small by (unfold is_u32; lia).
  replace (zlen pre + zlen w) with (zlen (pre ++ w)) by zl.
  replace (zlen pre + (zlen w + zlen (mjoin ws)))
    with (zlen (pre ++ w) + zlen (mjoin ws)) by zl.
  rewrite (app_assoc pre). apply IH; [simpl in Hn; lia | zl].
Qed.

(** ** Memory safety of the parser *)

(** The arrays embedded in the packet structure keep their sizes. *)
Definition arrays_ok (p : ngx_rtc_rtcp_pkt_t) : Prop :=
  zlen (cname p) = NGX_RTC_RTCP_MAX_CNAME /\
  zlen (nack_pid p) = NGX_RTC_RTCP_MAX_NACK_ENTRIES /\
  zlen (nack_blp p) = NGX_RTC_RTCP_MAX_NACK_ENTRIES /\
  zlen (remb_ssrcs p) = NGX_RTC_RTCP_MAX_REMB_SSRCS /\
  Forall is_u16 (nack_pid p) /\ 0 <= nack_count p <= NGX_RTC_RTCP_MAX_NACK_ENTRIES.

Section safety.
Context (b : octets) (Hb : octets_ok b).

Lemma rd_u16_safe off : 0 <= off -> off + 2 <= zlen b -> safe is_u16 (ngx_rtc_rtcp_rd_u16 b off).
Proof.
  intros H0 H1. eapply safe_bind; [apply load_safe; lia || done |]. intros x Hx.
  eapply safe_bind; [apply load_safe; lia || done |]. intros y Hy. simpl.
  unfold is_u8, is_u16 in *. rewrite lor_shiftl; lia.
Qed.

Lemma rd_u24_safe off :
  0 <= off -> off + 3 <= zlen b -> safe (fun _ => True) (ngx_rtc_rtcp_rd_u24 b off).
Proof.
  intros H0 H1. do 3 (eapply safe_bind; [apply load_safe; lia || done | intros]). done.
Qed.

Lemma rd_u32_safe off : 0 <= off -> off + 4 <= zlen b -> safe is_u32 (ngx_rtc_rtcp_rd_u32 b off).
Proof.
  intros H0 H1. eapply safe_bind; [apply load_safe; lia || done |]. intros x Hx.
  eapply safe_bind; [apply load_safe; lia || done |]. intros y Hy.
  eapply safe_bind; [apply load_safe; lia || done |]. intros z Hz.
  eapply safe_bind; [apply load_safe; lia || done |]. intros w Hw. simpl.
  unfold is_u8, is_u32 in *. rewrite !shiftl_mul, lor_low by lia.
  replace (x * 2 ^ 24 + y * 2 ^ 16) with ((x * 256 + y) * 2 ^ 16) by lia.
  rewrite lor_low by lia.
  replace ((x * 256 + y) * 2 ^ 16 + z * 2 ^ 8) with (((x * 256 + y) * 256 + z) * 2 ^ 8) by lia.
  rewrite lor_low; lia.
Qed.

Lemma rd_u64_safe off :
  0 <= off -> off + 8 <= zlen b -> safe (fun _ => True) (ngx_rtc_rtcp_rd_u64 b off).
Proof.
  intros H0 H1. do 2 (eapply safe_bind; [apply rd_u32_safe; lia | intros]). done.
Qed.

(** [rd] steps over one in-bounds read. *)
Ltac rd :=
  eapply safe_bind;
  [ first [ apply rd_u32_safe; lia | apply rd_u16_safe; lia | apply rd_u24_safe; lia
          | apply rd_u64_safe; lia | apply load_safe; [done | lia] ]
  | cbv beta; intros ].

Lemma read_rb_safe off :
  0 <= off -> off + 24 <= zlen b -> safe (fun _ => True) (ngx_rtc_rtcp_read_rb b off).
Proof. intros H0 H1. unfold ngx_rtc_rtcp_read_rb. do 7 rd. done. Qed.

Lemma sdes_items_safe total : total <= zlen b -> forall n off pkt,
  arrays_ok pkt -> 0 <= off <= total -> total < off + Z.of_nat n ->
  safe (fun '(o, p) => arrays_ok p /\
          match o with NULL => True | Ref off' => off <= off' end)
    (sdes_items n b total off pkt).
Proof.
  intros Htot. induction n as [| n IH]; intros off pkt Hp Hoff Hn; [lia |].
  cbn [sdes_items]. destruct (Z.leb_spec (off + 1) total); cbn [negb]; [| simpl; auto with lia].
  rd. destruct (Z.eqb_spec a 0); [simpl; auto with lia |].
  destruct (Z.ltb_spec total (off + 2)); [simpl; auto |].
  rd. unfold is_u8 in *. destruct (Z.ltb_spec total (off + 2 + a0)); [simpl; auto |].
  destruct (Z.eqb_spec a 1).
  - set (copy := if _ <=? _ then _ else _).
    assert (Hc : 0 <= copy <= 255 /\ copy <= a0).
    { unfold copy, NGX_RTC_RTCP_MAX_CNAME. zcase. }
    clearbody copy. destruct Hp as (Hc1 & Hrest). unfold NGX_RTC_RTCP_MAX_CNAME in *.
    eapply safe_bind; [apply load_range_safe; lia |]. cbv beta. intros src Hsrc.
    eapply safe_bind; [apply store_range_safe; lia |]. cbv beta. intros c Hc2.
    eapply safe_bind; [apply store_safe; lia |]. cbv beta. intros c' Hc3.
    simpl. split; [| done]. split; [| done]. unfold NGX_RTC_RTCP_MAX_CNAME.
    change (zlen c' = 256). lia.
  - eapply safe_mono; [| apply IH; lia || done].
    intros [[|] p]; [auto |]. intros [? ?]. split; [done | lia].
Qed.

Lemma sdes_chunks_safe total : total <= zlen b -> forall n off pkt,
  arrays_ok pkt -> 0 <= off -> safe arrays_ok (sdes_chunks n b total off pkt).
Proof.
  intros Htot. induction n as [| n IH]; intros off pkt Hp Hoff; [done |].
  cbn [sdes_chunks]. destruct (Z.leb_spec (off + 4) total); cbn [negb]; [| done].
  eapply safe_bind; [apply sdes_items_safe; lia || done |].
  intros [[| o] p]; intros [H1 H2]; [done |]. apply IH; [done |]. unfold align4.
  pose proof (Z.mod_pos_bound (4 - o mod 4) 4). lia.
Qed.

Lemma twcc_count_arrays lost n pkt : arrays_ok pkt -> arrays_ok (twcc_count lost n pkt).
Proof. by destruct lost. Qed.

Lemma twcc_vector_arrays w count n : forall chunk shift parsed pkt,
  arrays_ok pkt -> arrays_ok (twcc_vector n chunk w shift count parsed pkt).2.
Proof.
  induction n as [| n IH]; intros; [done |]. cbn [twcc_vector].
  destruct (negb _); [done |]. apply IH. by apply twcc_count_arrays.
Qed.

Lemma twcc_chunks_safe total : total <= zlen b -> forall n p count parsed pkt,
  arrays_ok pkt -> 0 <= p -> total <= p + Z.of_nat n ->
  safe arrays_ok (twcc_chunks n b total p count parsed pkt).
Proof.
  intros Htot. induction n as [| n IH]; intros p count parsed pkt Hp Hp0 Hn;
    cbn [twcc_chunks]; destruct (Z.ltb_spec parsed count); try done;
    destruct (Z.leb_spec (p + 2) total); try done; [lia |]. cbn [andb].
  rd. cbv zeta.
  destruct (_ =? 0).
  { apply IH; [by apply twcc_count_arrays | lia..]. }
  destruct (_ =? 0);
    [pose proof (twcc_vector_arrays 1 count 14 a 13 parsed pkt Hp) as Hv
    | pose proof (twcc_vector_arrays 2 count 7 a 12 parsed pkt Hp) as Hv];
    destruct (twcc_vector _ _ _ _ _ _ _); apply IH; done || lia.
Qed.

Lemma remb_list_safe n : forall p i l,
  0 <= p -> p + 4 * Z.of_nat n <= zlen b -> 0 <= i -> i + Z.of_nat n <= zlen l ->
  safe (fun l' => zlen l' = zlen l) (remb_list n b p i l).
Proof.
  induction n as [| n IH]; intros p i l Hp Hpn Hi Hin; [done |]. cbn [remb_list].
  rd. eapply safe_bind; [apply store_safe; lia |]. cbv beta. intros l' Hl'.
  rewrite <- Hl'. apply IH; lia.
Qed.

Lemma nack_entries_safe n : forall p i pkt,
  0 <= p -> p + 4 * Z.of_nat n <= zlen b -> 0 <= i -> i + Z.of_nat n <= 128 ->
  arrays_ok pkt -> safe arrays_ok (nack_entries n b p i pkt).
Proof.
  induction n as [| n IH]; intros p i pkt Hp Hpn Hi Hin Ha; [done |].
  destruct Ha as (H1 & H2 & H3 & H4 & H5 & H6). unfold NGX_RTC_RTCP_MAX_NACK_ENTRIES in *.
  cbn [nack_entries]. rd. rd.
  rewrite (store_in (nack_pid pkt)), bind_Ret by lia. set (l1 := <[_ := _]> (nack_pid pkt)).
  assert (Hl1 : zlen l1 = 128) by (unfold l1; by rewrite zlen_insert).
  eapply safe_bind; [apply store_safe; lia |]. cbv beta. intros l2 Hl2.
  apply IH; try lia. split_and!; [exact H1 | | | exact H4 | by apply Forall_insert | exact (proj1 H6) | exact (proj2 H6)];
    unfold NGX_RTC_RTCP_MAX_NACK_ENTRIES; [change (zlen l1 = 128) | change (zlen l2 = 128)]; lia.
Qed.

Lemma parse_remb_safe total pkt :
  12 <= total <= zlen b -> total <= 262144 -> arrays_ok pkt ->
  safe (fun r => arrays_ok r.2) (ngx_rtc_rtcp_parse_remb b total pkt).
Proof.
  intros Htot Hmax Ha. unfold ngx_rtc_rtcp_parse_remb. cbv zeta.
  rewrite u32_small by (unfold is_u32; lia).
  destruct (Z.ltb_spec (total - 12) 4); [done |]. do 4 rd.
  destruct (_ || _); [done |]. destruct (Z.ltb_spec (total - 12) 8); [done |]. rd.
  change 0xff with (Z.ones 8). rewrite land_mask by lia.
  set (num := _ mod 2 ^ 8). assert (0 <= num < 256) by (apply Z.mod_pos_bound; lia).
  destruct (Z.ltb_spec (total - 12) (8 + num * 4)); [done |].
  set (keep := if _ <? num then _ else _).
  assert (0 <= keep <= 32 /\ keep <= num) by (unfold keep, NGX_RTC_RTCP_MAX_REMB_SSRCS; zcase).
  clearbody keep. destruct Ha as (Ha1 & Ha2 & Ha3 & Ha & Ha5). unfold NGX_RTC_RTCP_MAX_REMB_SSRCS in *.
  eapply safe_bind; [apply remb_list_safe; try lia |].
  { cbn [remb_ssrcs set_remb_ssrc_count set_remb_bitrate_bps set_has_remb]. lia. }
  cbv beta. cbn [remb_ssrcs set_remb_ssrc_count set_remb_bitrate_bps set_has_remb].
  intros l Hl. assert (Hend : arrays_ok (set_remb_ssrcs l pkt)) by by (split; [exact Ha1 | split; [exact Ha2 | split; [exact Ha3 | split; [| exact Ha5]]]]; change (zlen l = 32); lia).
  destruct (0 <? keep); [| exact Hend].
  destruct (load_in l 0 ltac:(lia)) as [x Hx]. cbn [remb_ssrcs set_remb_ssrcs].
  rewrite Hx. exact Hend.
Qed.

Lemma parse_twcc_safe total pkt :
  total <= zlen b -> arrays_ok pkt -> safe arrays_ok (ngx_rtc_rtcp_parse_twcc b total pkt).
Proof.
  intros Htot Ha. unfold ngx_rtc_rtcp_parse_twcc.
  destruct (Z.ltb_spec total 20); [done |]. do 2 rd. apply twcc_chunks_safe; lia || done.
Qed.

Lemma parse_payload_safe total pkt :
  total <= zlen b -> total <= 262144 -> arrays_ok pkt ->
  safe (fun r => arrays_ok r.2) (parse_payload b total pkt).
Proof.
  intros Htot Hmax Ha. unfold parse_payload. cbv zeta.
  destruct (_ =? NGX_RTC_RTCP_SR).
  { destruct (Z.ltb_spec total 28); [done |]. do 4 rd. destruct (0 <? _); [| done].
    destruct (Z.ltb_spec total 52); [done |].
    eapply safe_bind; [apply read_rb_safe; lia | done]. }
  destruct (_ =? NGX_RTC_RTCP_RR).
  { destruct (0 <? _); [| done]. destruct (Z.ltb_spec total (8 + 24)); [done |].
    eapply safe_bind; [apply read_rb_safe; lia | done]. }
  destruct (_ =? NGX_RTC_RTCP_SDES).
  { destruct (Z.ltb_spec total 8); [done |].
    eapply safe_bind; [apply sdes_chunks_safe; lia || done | done]. }
  destruct (_ =? NGX_RTC_RTCP_RTPFB).
  { destruct (Z.ltb_spec total 12); [done |]. rd. destruct (_ =? NGX_RTC_RTCP_FMT_NACK).
    - unfold NGX_RTC_RTCP_MAX_NACK_ENTRIES. set (keep := if _ <? _ then _ else _).
      assert (0 <= keep <= 128 /\ 4 * keep <= total - 12).
      { unfold keep. destruct (Z.ltb_spec 128 ((total - 12) / 4));
          Z.div_mod_to_equations; lia. }
      eapply safe_bind; [apply nack_entries_safe; lia || done |]. intros p (K1 & K2 & K3 & K4 & K5 & _).
      split_and!; try done; cbn; rewrite u16_small by (unfold is_u16; lia); unfold NGX_RTC_RTCP_MAX_NACK_ENTRIES; lia.
    - destruct (_ =? NGX_RTC_RTCP_FMT_TWCC); [| done].
      eapply safe_bind; [apply parse_twcc_safe; done | done]. }
  destruct (_ =? NGX_RTC_RTCP_PSFB); [| done].
  destruct (Z.ltb_spec total 12); [done |]. rd.
  destruct (_ =? NGX_RTC_RTCP_FMT_REMB); [| done]. apply parse_remb_safe; lia || done.
Qed.
End safety.

Lemma pkt_header_arrays v pd ty fm lw tl sc : arrays_ok (pkt_header v pd ty fm lw tl sc).
Proof. split_and!; first [by apply zlen_zeros | done | by apply Forall_replicate]. Qed.

(** What [ngx_rtc_rtcp_parse] answers on any buffer that holds the SSRC word, or whose
    header rejects it first. *)
Lemma parse_safe b len p c :
  octets_ok b -> len <= zlen b ->
  (8 <= zlen b \/ forall lw, ngx_rtc_rtcp_rd_u16 b 2 = Ret lw -> lw <> 0) ->
  safe (fun '(r, p', c') => r = NGX_RTC_OK ->
          exists q t, p' = Ref q /\ arrays_ok q /\ c' = Ref t /\ 4 <= t <= len)
    (ngx_rtc_rtcp_parse (Ref b) len (Ref p) (Ref c)).
Proof.
  intros Hb Hlen Hw. unfold ngx_rtc_rtcp_parse.
  destruct (Z.ltb_spec len 4); [done |].
  destruct (load_in b 0 ltac:(lia)) as [b0 E0]. rewrite E0, bind_Ret. cbv zeta.
  destruct (load_in b 1 ltac:(lia)) as [b1 E1]. rewrite E1, bind_Ret.
  pose proof (rd_u16_safe b Hb 2 ltac:(lia) ltac:(lia)) as H2.
  destruct (ngx_rtc_rtcp_rd_u16 b 2) as [lw |]; [| done]. simpl in H2. unfold is_u16 in H2.
  rewrite bind_Ret. destruct (Z.ltb_spec len ((lw + 1) * 4)); [done |].
  destruct (negb _); [done |].
  assert (8 <= zlen b) by (destruct Hw as [? | Hw]; [done | specialize (Hw lw eq_refl); lia]).
  eapply safe_bind; [apply rd_u32_safe; done || lia |]. cbv beta. intros s _.
  eapply safe_bind; [apply parse_payload_safe; try done; try lia; apply pkt_header_arrays |].
  intros [r q] Hq. destruct (Z.eqb_spec r NGX_RTC_OK); cbn [negb]; [| by intros ?].
  intros _. eexists _, _. split_and!; [done | exact Hq | done | lia..].
Qed.

Lemma ztake_insert_next {A} (l : list A) i x : 0 <= i < zlen l -> ztake (i + 1) (<[Z.to_nat i := x]> l) = ztake i l ++ [x].
Proof.
  intros Hi. unfold ztake, zlen in *. replace (Z.to_nat (i + 1)) with (S (Z.to_nat i)) by lia.
  erewrite take_S_r by (apply list_lookup_insert_eq; lia). by rewrite take_insert_ge by lia.
Qed.

(** A buffer with eight octets past the datagram is walked to the end, and the callback sees
    packets whose arrays are in order. *)
(** Where the packets of a compound packet start, and the packets. *)
Inductive starts (b : octets) (len : Z) : Z -> Prop :=
| starts_first : starts b len 0
| starts_next off p c :
    starts b len off -> off < len ->
    ngx_rtc_rtcp_parse (Ref (zdrop off b)) (u32 (len - off)) (Ref (pkt_header 0 0 0 0 0 0 0)) (Ref 0) = Ret (NGX_RTC_OK, Ref p, Ref c) ->
    starts b len (u32 (off + c)).

Definition member (b : octets) (len : Z) (p : ngx_rtc_rtcp_pkt_t) : Prop :=
  exists off c, starts b len off /\ off < len /\
    ngx_rtc_rtcp_parse (Ref (zdrop off b)) (u32 (len - off)) (Ref (pkt_header 0 0 0 0 0 0 0)) (Ref 0) = Ret (NGX_RTC_OK, Ref p, Ref c).

Lemma decode_safe {St} (I : St -> Prop) (cb : ngx_rtc_rtcp_pkt_t -> St -> Z * St) b len st :
  octets_ok b -> is_u32 len -> len + 8 <= zlen b -> (forall p st, arrays_ok p -> member b len p -> I st -> I (cb p st).2) -> I st ->
  safe (fun r => I r.2) (ngx_rtc_rtcp_decode (Ref b) len (Ref cb) st).
Proof.
  intros Hb Hlen Hroom Hcb Hst. unfold is_u32 in Hlen. unfold ngx_rtc_rtcp_decode.
  assert (Hloop : forall n off st, 0 <= off -> len - off <= Z.of_nat n -> starts b len off -> I st -> safe (fun r => I r.2) (decode_loop n b len off cb st)).
  { induction n as [| n IH]; intros off st0 H0 Hn Hat HI; cbn [decode_loop]; destruct (Z.ltb_spec off len); [lia | done | | done].
    assert (Hd : zlen (zdrop off b) = zlen b - off) by (rewrite zlen_zdrop; lia).
    pose proof (parse_safe (zdrop off b) (u32 (len - off)) (pkt_header 0 0 0 0 0 0 0) 0) as Hsafe.
    destruct (ngx_rtc_rtcp_parse _ _ _ _) as [[[r p] c] |] eqn:Ep.
    2: { destruct Hsafe; [by apply Forall_drop | rewrite u32_small; unfold is_u32; lia | left; lia]. }
    pose proof (Hsafe ltac:(by apply Forall_drop) ltac:(rewrite u32_small; unfold is_u32; lia) ltac:(left; lia)) as Hp. rewrite bind_Ret.
    destruct (Z.eqb_spec r NGX_RTC_OK) as [Hr | Hr]; cbn [negb]; [| done].
    destruct (Hp Hr) as (q & t & -> & Hq & -> & Ht). rewrite u32_small in Ht by (unfold is_u32; lia). rewrite Hr in Ep.
    pose proof (Hcb q st0 Hq ltac:(by exists off, t) HI) as HI'. destruct (cb q st0) as [r' st1]. destruct (negb _); [done |].
    pose proof (starts_next b len off q t Hat ltac:(lia) Ep) as Hnext.
    rewrite u32_small in Hnext |- * by (unfold is_u32; lia). apply IH; [lia | lia | done | done]. }
  apply Hloop; [lia | lia | apply starts_first | done].
Qed.

(** Expanding a NACK stays in the array and yields sequence numbers. *)
Lemma nack_bits_safe n : forall j pid blp cap seqs out,
  cap <= zlen seqs -> 0 <= out <= cap -> is_u16 cap -> Forall is_u16 (ztake out seqs) ->
  safe (fun '(_, s, o) => cap <= zlen s /\ 0 <= o <= cap /\ Forall is_u16 (ztake o s)) (nack_bits n j pid blp cap seqs out).
Proof.
  induction n as [| n IH]; intros j pid blp cap seqs out Hs Ho Hc Hf; cbn [nack_bits]; [done |].
  destruct (_ =? 0); [by apply IH |]. destruct (Z.leb_spec cap out); [done |].
  rewrite store_in, bind_Ret by lia. unfold is_u16 in Hc. rewrite (u16_small (out + 1)) by (unfold is_u16; lia).
  apply IH; [by rewrite zlen_insert | lia | done |]. rewrite ztake_insert_next by lia. apply Forall_app. split; [done |].
  constructor; [apply u16_range | done].
Qed.

Lemma nack_expand_loop_safe n : forall i p cap seqs out,
  0 <= i -> i + Z.of_nat n <= 128 -> arrays_ok p -> cap <= zlen seqs -> 0 <= out <= cap -> is_u16 cap -> Forall is_u16 (ztake out seqs) ->
  safe (fun '(_, s, o) => cap <= zlen s /\ 0 <= o <= cap /\ Forall is_u16 (ztake o s)) (nack_expand_loop n i p cap seqs out).
Proof.
  induction n as [| n IH]; intros i p cap seqs out Hi Hn Hp Hs Ho Hc Hf; cbn [nack_expand_loop]; [done |].
  pose proof Hp as (_ & H1 & H2 & _ & H3 & _). unfold NGX_RTC_RTCP_MAX_NACK_ENTRIES in *.
  destruct (load_in (nack_pid p) i ltac:(lia)) as [pid Epid]. rewrite Epid, bind_Ret.
  destruct (load_in (nack_blp p) i ltac:(lia)) as [blp ->]. rewrite bind_Ret. destruct (Z.leb_spec cap out); [done |].
  apply load_ret in Epid as [_ Epid]. pose proof (Forall_lookup_1 _ _ _ _ H3 Epid) as Hpid.
  rewrite store_in, bind_Ret by lia. unfold is_u16 in Hc. rewrite (u16_small (out + 1)) by (unfold is_u16; lia).
  eapply safe_bind; [apply nack_bits_safe; [by rewrite zlen_insert | lia | done |] |].
  { rewrite ztake_insert_next by lia. apply Forall_app. split; [done |]. by constructor. }
  intros [[r s] o] (K1 & K2 & K3). destruct (negb _); [done |]. by apply IH; [lia | lia | ..].
Qed.

Lemma nack_expand_safe p seqs cap :
  arrays_ok p -> is_u16 cap -> cap <= zlen seqs ->
  safe (fun '(_, s, o) => exists s' n, s = Ref s' /\ o = Ref n /\ 0 <= n <= zlen s' /\ Forall is_u16 (ztake n s'))
    (ngx_rtc_rtcp_nack_expand (Ref p) (Ref seqs) cap (Ref 0)).
Proof.
  intros Hp Hc Hs. unfold ngx_rtc_rtcp_nack_expand. pose proof Hp as (_ & _ & _ & _ & _ & Hn). unfold NGX_RTC_RTCP_MAX_NACK_ENTRIES in Hn.
  pose proof Hc as Hc'. unfold is_u16 in Hc'.
  eapply safe_bind; [apply nack_expand_loop_safe; [lia | lia | done | done | lia | done | rewrite ztake_0; constructor] |].
  intros [[r s] o] (K1 & K2 & K3). exists s, o. split_and!; done || lia.
Qed.

(** ** Transport-wide feedback as a list of packet statuses *)

Fixpoint vector_symbols (n : nat) (chunk w shift : Z) : list Z :=
  match n with
  | O => []
  | S n => Z.land (Z.shiftr chunk shift) (2 ^ w - 1) :: vector_symbols n chunk w (shift - w)
  end.

(** The statuses one chunk of draft-holmer-rmcat-transport-wide-cc section 3.1.2
    stands for. *)
Definition chunk_symbols (chunk : Z) : list Z :=
  if Z.shiftr chunk 15 =? 0
  then replicate (Z.to_nat (Z.land chunk 0x1fff)) (Z.land (Z.shiftr chunk 13) 3)
  else if Z.land chunk 0x4000 =? 0 then vector_symbols 14 chunk 1 13
  else vector_symbols 7 chunk 2 12.

Definition is_lost (sym : Z) : bool := sym =? 0.

Definition count_lost (syms : list Z) : Z := zlen (filter (fun x => is_lost x = true) syms).
Definition count_received (syms : list Z) : Z :=
  zlen (filter (fun x => is_lost x = false) syms).

Definition tally (syms : list Z) (pkt : ngx_rtc_rtcp_pkt_t) : ngx_rtc_rtcp_pkt_t :=
  fold_left (fun p s => twcc_count (is_lost s) 1 p) syms pkt.

Lemma tally_app l k pkt : tally (l ++ k) pkt = tally k (tally l pkt).
Proof. apply fold_left_app. Qed.

Lemma tally_cons s l pkt : tally (s :: l) pkt = tally l (twcc_count (is_lost s) 1 pkt).
Proof. done. Qed.

Lemma count_lost_cons s l : count_lost (s :: l) = (if is_lost s then 1 else 0) + count_lost l.
Proof.
  unfold count_lost. rewrite filter_cons. destruct (is_lost s).
  - rewrite decide_True by done. apply zlen_cons.
  - rewrite decide_False by done. lia.
Qed.

Lemma count_received_cons s l :
  count_received (s :: l) = (if is_lost s then 0 else 1) + count_received l.
Proof.
  unfold count_received. rewrite filter_cons. destruct (is_lost s).
  - rewrite decide_False by done. lia.
  - rewrite decide_True by done. apply zlen_cons.
Qed.

Lemma tally_spec l : forall pkt,
  is_u32 (twcc_lost pkt) -> is_u32 (twcc_received pkt) ->
  tally l pkt = pkt |> set_twcc_lost (u32 (twcc_lost pkt + count_lost l))
                    |> set_twcc_received (u32 (twcc_received pkt + count_received l)).
Proof.
  induction l as [| s l IH]; intros pkt Hl Hr.
  { unfold count_lost, count_received. cbn [tally fold_left filter list_filter].
    rewrite zlen_nil, !Z.add_0_r, !u32_small by done. by destruct pkt. }
  rewrite tally_cons, count_lost_cons, count_received_cons. unfold twcc_count.
  destruct (is_lost s).
  - rewrite IH; [| apply u32_range | done]. destruct pkt; cbn -[u32].
    by rewrite u32_add_l, Z.add_0_l, Z.add_assoc.
  - rewrite IH; [| done | apply u32_range]. destruct pkt; cbn -[u32].
    by rewrite u32_add_l, Z.add_0_l, Z.add_assoc.
Qed.

(** A run counted in one addition. *)
Lemma twcc_count_run s n pkt :
  is_u32 (twcc_lost pkt) -> is_u32 (twcc_received pkt) ->
  twcc_count (is_lost s) (Z.of_nat n) pkt = tally (replicate n s) pkt.
Proof.
  intros Hl Hr. rewrite tally_spec by done.
  assert (count_lost (replicate n s) = (if is_lost s then Z.of_nat n else 0) /\
          count_received (replicate n s) = (if is_lost s then 0 else Z.of_nat n)) as [-> ->].
  { induction n as [| n [IH1 IH2]]; [by destruct (is_lost s) |]. cbn [replicate].
    rewrite count_lost_cons, count_received_cons, IH1, IH2. destruct (is_lost s); lia. }
  unfold twcc_count. destruct (is_lost s); destruct pkt; cbn in Hl, Hr;
    cbn -[u32]; rewrite Z.add_0_r.
  - by rewrite (u32_small twcc_received0).
  - by rewrite (u32_small twcc_lost0).
Qed.

Lemma twcc_count_u32 lost n pkt :
  is_u32 (twcc_lost pkt) -> is_u32 (twcc_received pkt) ->
  is_u32 (twcc_lost (twcc_count lost n pkt)) /\
  is_u32 (twcc_received (twcc_count lost n pkt)).
Proof. intros. destruct lost; split; try done; apply u32_range. Qed.

Lemma tally_u32 l : forall pkt,
  is_u32 (twcc_lost pkt) -> is_u32 (twcc_received pkt) ->
  is_u32 (twcc_lost (tally l pkt)) /\ is_u32 (twcc_received (tally l pkt)).
Proof.
  induction l as [| s l IH]; intros pkt H1 H2; [done |]. rewrite tally_cons.
  destruct (twcc_count_u32 (is_lost s) 1 pkt H1 H2). by apply IH.
Qed.

Lemma twcc_vector_tally w count n : forall chunk shift parsed pkt,
  parsed <= count ->
  twcc_vector n chunk w shift count parsed pkt
  = (Z.min count (parsed + Z.of_nat n),
     tally (ztake (count - parsed) (vector_symbols n chunk w shift)) pkt).
Proof.
  induction n as [| n IH]; intros chunk shift parsed pkt Hp.
  { cbn [twcc_vector vector_symbols]. unfold ztake. rewrite take_nil.
    f_equal. lia. }
  cbn [twcc_vector]. destruct (Z.ltb_spec parsed count); cbn [negb].
  - rewrite IH by lia. cbn [vector_symbols]. rewrite ztake_cons, tally_cons by lia.
    f_equal; [lia |]. by replace (count - parsed - 1) with (count - (parsed + 1)) by lia.
  - replace (count - parsed) with 0 by lia. rewrite ztake_0. f_equal. lia.
Qed.

Lemma zlen_vector_symbols n chunk w shift : zlen (vector_symbols n chunk w shift) = Z.of_nat n.
Proof. revert shift. induction n; intros; [done |]. cbn [vector_symbols]. rewrite zlen_cons, IHn. lia. Qed.

(** What the code does with one chunk. *)
Definition twcc_chunk (chunk count parsed : Z) (pkt : ngx_rtc_rtcp_pkt_t)
    : Z * ngx_rtc_rtcp_pkt_t :=
  (Z.min count (parsed + zlen (chunk_symbols chunk)),
   tally (ztake (count - parsed) (chunk_symbols chunk)) pkt).

Lemma ztake_replicate {A} k n (x : A) :
  0 <= k -> ztake k (replicate n x) = replicate (Z.to_nat (Z.min k (Z.of_nat n))) x.
Proof. intros H. unfold ztake. rewrite take_replicate. f_equal. lia. Qed.

Lemma twcc_chunks_step n b total p count parsed pkt chunk :
  is_u16 chunk -> is_u32 (twcc_lost pkt) -> is_u32 (twcc_received pkt) ->
  parsed < count -> p + 2 <= total -> ngx_rtc_rtcp_rd_u16 b p = Ret chunk ->
  twcc_chunks (S n) b total p count parsed pkt
  = twcc_chunks n b total (p + 2) count (twcc_chunk chunk count parsed pkt).1
      (twcc_chunk chunk count parsed pkt).2.
Proof.
  intros Hc Hl Hr Hlt Hp Hrd. cbn [twcc_chunks].
  destruct (Z.ltb_spec parsed count), (Z.leb_spec (p + 2) total); try lia. cbn [andb].
  rewrite Hrd, bind_Ret. cbv zeta. unfold twcc_chunk, chunk_symbols. cbn [fst snd].
  destruct (Z.shiftr chunk 15 =? 0).
  - set (run := Z.land chunk 0x1fff).
    assert (Hrun : 0 <= run)
      by (apply Z.land_nonneg; unfold is_u16 in Hc; lia).
    rewrite ztake_replicate, zlen_replicate, !Z2Nat.id by lia.
    set (k := if count - parsed <? run then count - parsed else run).
    assert (Hk : k = Z.min (count - parsed) run) by (unfold k; zcase).
    rewrite <- Hk, <- twcc_count_run by done.
    rewrite Z2Nat.id by lia. unfold is_lost. f_equal. lia.
  - destruct (Z.land chunk 0x4000 =? 0); rewrite twcc_vector_tally by lia;
      by rewrite zlen_vector_symbols.
Qed.

Definition twcc_chunks_wire (cs : list Z) : octets := cs ≫= be_enc 2.

Lemma twcc_chunks_wire_tally cs : forall n pre rest total count parsed pkt,
  Forall is_u16 cs -> is_u32 (twcc_lost pkt) -> is_u32 (twcc_received pkt) ->
  zlen pre + 2 * zlen cs <= total -> (length cs <= n)%nat ->
  parsed <= count <= parsed + zlen (cs ≫= chunk_symbols) ->
  twcc_chunks n (pre ++ twcc_chunks_wire cs ++ rest) total (zlen pre) count parsed pkt
  = Ret (tally (ztake (count - parsed) (cs ≫= chunk_symbols)) pkt).
Proof.
  induction cs as [| c cs IH]; intros n pre rest total count parsed pkt
    Hcs Hl Hr Htot Hn Hcount.
  { change (zlen ([] ≫= chunk_symbols)) with 0 in Hcount.
    replace (count - parsed) with 0 by lia. rewrite ztake_0.
    destruct n; cbn [twcc_chunks]; destruct (Z.ltb_spec parsed count); done || lia. }
  destruct n as [| n]; [simpl in Hn; lia |]. inversion_clear Hcs as [| ?? Hc Hcs'].
  destruct (decide (parsed = count)) as [-> | Hne].
  { rewrite Z.sub_diag, ztake_0. cbn [twcc_chunks].
    destruct (Z.ltb_spec count count); done || lia. }
  change ((c :: cs) ≫= chunk_symbols) with (chunk_symbols c ++ (cs ≫= chunk_symbols)) in *.
  change (twcc_chunks_wire (c :: cs)) with (be_enc 2 c ++ twcc_chunks_wire cs).
  rewrite zlen_app, zlen_cons in *. pose proof (zlen_nonneg cs).
  pose proof (zlen_nonneg (chunk_symbols c)).
  rewrite (twcc_chunks_step _ _ _ _ _ _ _ c); try done; try lia.
  2: { rewrite rd_skip, Z.sub_diag by lia. rewrite <- app_assoc, rd_u16_enc.
       by rewrite u16_small. }
  rewrite <- (app_assoc (be_enc 2 c)), (app_assoc pre).
  replace (zlen pre + 2) with (zlen (pre ++ be_enc 2 c)) by zl.
  cbn [twcc_chunk fst snd].
  destruct (tally_u32 (ztake (count - parsed) (chunk_symbols c)) pkt Hl Hr).
  pose proof (zlen_nonneg (cs ≫= chunk_symbols)).
  rewrite IH; [| done.. | zl | simpl in Hn; lia | lia].
  rewrite <- tally_app. do 2 f_equal. unfold ztake, zlen in *. rewrite take_app.
  f_equal. f_equal. lia.
Qed.

Definition twcc_wire (s m base count ref_fb : Z) (cs : list Z) (deltas : octets) : octets :=
  header_wire NGX_RTC_RTCP_RTPFB NGX_RTC_RTCP_FMT_TWCC (20 + 2 * zlen cs + zlen deltas)
  ++ be_enc 4 s ++ be_enc 4 m ++ be_enc 2 base ++ be_enc 2 count ++ be_enc 4 ref_fb
  ++ twcc_chunks_wire cs ++ deltas.

Definition twcc_view (s m base count : Z) (cs : list Z) (deltas : octets)
    : ngx_rtc_rtcp_pkt_t :=
  let total := 20 + 2 * zlen cs + zlen deltas in
  let seen := ztake count (cs ≫= chunk_symbols) in
  pkt_header 2 0 NGX_RTC_RTCP_RTPFB NGX_RTC_RTCP_FMT_TWCC (total / 4 - 1) total s
  |> set_media_ssrc m |> set_twcc_base_seq base |> set_twcc_pkt_count count
  |> set_twcc_lost (count_lost seen) |> set_twcc_received (count_received seen).

Lemma zlen_twcc_chunks_wire cs : zlen (twcc_chunks_wire cs) = 2 * zlen cs.
Proof.
  unfold twcc_chunks_wire. induction cs as [| c cs IH]; [done |].
  change ((c :: cs) ≫= be_enc 2) with (be_enc 2 c ++ (cs ≫= be_enc 2)).
  rewrite zlen_app, IH, zlen_cons. zl.
Qed.
#[export] Hint Rewrite zlen_twcc_chunks_wire : zlen.

Lemma count_lost_received l : count_lost l + count_received l = zlen l.
Proof.
  induction l as [| s l IH]; [done |].
  rewrite count_lost_cons, count_received_cons, zlen_cons. destruct (is_lost s); lia.
Qed.

Lemma parse_twcc s m base count ref_fb cs deltas :
  is_u32 s -> is_u32 m -> is_u16 base -> is_u16 count -> Forall is_u16 cs ->
  count <= zlen (cs ≫= chunk_symbols) ->
  (2 * zlen cs + zlen deltas) mod 4 = 0 -> 2 * zlen cs + zlen deltas <= 262124 ->
  parses_as (twcc_wire s m base count ref_fb cs deltas) (twcc_view s m base count cs deltas).
Proof.
  intros Hs Hm Hb Hc Hcs Hcount Hmod Hmax. pose proof (zlen_nonneg cs).
  pose proof (zlen_nonneg deltas). unfold twcc_wire, twcc_view. cbv zeta.
  apply parse_header; [done | | zl | lia | done |].
  { Z.div_mod_to_equations. lia. }
  intros rest. set (total := 20 + 2 * zlen cs + zlen deltas). unfold parse_payload.
  cbn -[be_enc app Z.ltb header_wire Z.sub Z.div zlen ngx_rtc_rtcp_parse_twcc].
  destruct (Z.ltb_spec total 12); [lia |]. rewrite <- !app_assoc. field.
  unfold ngx_rtc_rtcp_parse_twcc. destruct (Z.ltb_spec total 20); [lia |].
  eapply bind_step.
  { do 2 field. cbv zeta. rewrite !app_assoc. rewrite <- (app_assoc _ _ rest), <- (app_assoc _ _ (deltas ++ rest)).
    apply twcc_chunks_wire_tally; try done; try zl; unfold is_u16 in *; try zl.
  }
  cbv beta. rewrite Z.sub_0_r, tally_spec by done. unfold is_u16 in Hc.
  set (seen := ztake count (cs ≫= chunk_symbols)).
  pose proof (count_lost_received seen) as Hsum.
  assert (Hseen : zlen seen = count) by (unfold seen; rewrite zlen_ztake; lia).
  assert (0 <= count_lost seen /\ 0 <= count_received seen)
    by (split; apply zlen_nonneg).
  cbn [twcc_lost twcc_received set_twcc_pkt_count set_twcc_base_seq set_media_ssrc pkt_header].
  rewrite !u32_small by (unfold is_u32; lia). done.
Qed.

(** A REMB message: mantissa and exponent of the estimate and the SSRCs it covers. *)
Definition remb_wire (s m e mant : Z) (ss : list Z) : octets :=
  header_wire NGX_RTC_RTCP_PSFB NGX_RTC_RTCP_FMT_REMB (20 + 4 * zlen ss)
  ++ be_enc 4 s ++ be_enc 4 m ++ [0x52; 0x45; 0x4d; 0x42]
  ++ be_enc 4 (zlen ss * 2 ^ 24 + e * 2 ^ 18 + mant) ++ (ss ≫= be_enc 4).

Lemma remb_list_wire ss : forall pre rest P Q,
  Forall is_u32 ss -> zlen ss <= zlen Q ->
  remb_list (length ss) (pre ++ (ss ≫= be_enc 4) ++ rest) (zlen pre) (zlen P) (P ++ Q)
  = Ret (P ++ ss ++ zdrop (zlen ss) Q).
Proof.
  induction ss as [| x ss IH]; intros pre rest P Q Hss HQ; [done |].
  inversion_clear Hss as [| ?? Hx Hss']. rewrite zlen_cons in *.
  pose proof (zlen_nonneg ss). cbn [remb_list length].
  change ((x :: ss) ≫= be_enc 4) with (be_enc 4 x ++ (ss ≫= be_enc 4)).
  rewrite <- !app_assoc.
  eapply bind_step; [rewrite rd_skip, Z.sub_diag by lia; apply rd_u32_enc |].
  cbv beta. rewrite u32_small by done. rewrite store_cursor, bind_Ret by lia.
  rewrite (app_assoc pre).
  replace (zlen pre + 4) with (zlen (pre ++ be_enc 4 x)) by zl.
  replace (zlen P + 1) with (zlen (P ++ [x])) by zl.
  rewrite IH; [| done | zl]. rewrite zdrop_zdrop by lia. by rewrite <- app_assoc.
Qed.

Lemma remb_word n e m :
  0 <= n < 256 -> 0 <= e < 64 -> 0 <= m < 2 ^ 18 ->
  let w := n * 2 ^ 24 + e * 2 ^ 18 + m in
  is_u32 w /\ Z.land (Z.shiftr w 24) 0xff = n /\ Z.land (Z.shiftr w 18) 0x3f = e /\
  Z.land w 0x3ffff = m.
Proof.
  intros Hn He Hm. cbv zeta. change 0xff with (Z.ones 8). change 0x3f with (Z.ones 6).
  change 0x3ffff with (Z.ones 18). rewrite !land_mask, !shiftr_div by lia.
  change (2 ^ 24) with 16777216. change (2 ^ 18) with 262144 in *.
  change (2 ^ 8) with 256. change (2 ^ 6) with 64. unfold is_u32.
  split_and!; Z.div_mod_to_equations; lia.
Qed.

Lemma zlen_bind_be4 ss : zlen (ss ≫= be_enc 4) = 4 * zlen ss.
Proof.
  induction ss as [| c cs IH]; [done |].
  change ((c :: cs) ≫= be_enc 4) with (be_enc 4 c ++ (cs ≫= be_enc 4)).
  rewrite zlen_app, IH, zlen_cons. zl.
Qed.
#[export] Hint Rewrite zlen_bind_be4 : zlen.

Definition remb_view (s m e mant : Z) (ss : list Z) : ngx_rtc_rtcp_pkt_t :=
  let kept := ztake NGX_RTC_RTCP_MAX_REMB_SSRCS ss in
  let p := pkt_header 2 0 NGX_RTC_RTCP_PSFB NGX_RTC_RTCP_FMT_REMB (4 + zlen ss)
             (20 + 4 * zlen ss) s
           |> set_media_ssrc m |> set_has_remb 1
           |> set_remb_bitrate_bps (u32 (mant * 2 ^ e))
           |> set_remb_ssrc_count (zlen kept)
           |> set_remb_ssrcs (kept ++ zeros (NGX_RTC_RTCP_MAX_REMB_SSRCS - zlen kept)) in
  match kept with [] => p | x :: _ => set_remb_ssrc x p end.

Lemma parse_remb s m e mant ss :
  is_u32 s -> is_u32 m -> 0 <= e < 64 -> 0 <= mant < 2 ^ 18 -> Forall is_u32 ss ->
  zlen ss <= 255 ->
  parses_as (remb_wire s m e mant ss) (remb_view s m e mant ss).
Proof.
  intros Hs Hm He Hmant Hss Hn. pose proof (zlen_nonneg ss).
  destruct (remb_word (zlen ss) e mant ltac:(lia) He Hmant) as (Hw & Hw1 & Hw2 & Hw3).
  unfold remb_wire. set (w := zlen ss * 2 ^ 24 + e * 2 ^ 18 + mant) in *.
  apply parse_header; [done | | zl | lia | done |].
  { Z.div_mod_to_equations. lia. }
  intros rest. replace ((20 + 4 * zlen ss) / 4 - 1) with (4 + zlen ss)
    by (Z.div_mod_to_equations; lia).
  set (total := 20 + 4 * zlen ss). unfold parse_payload.
  cbn -[be_enc app Z.ltb header_wire Z.sub Z.div zlen ngx_rtc_rtcp_parse_remb].
  destruct (Z.ltb_spec total 12); [lia |]. rewrite <- !app_assoc. field.
  unfold ngx_rtc_rtcp_parse_remb. cbv zeta. rewrite u32_small by (unfold is_u32; lia).
  destruct (Z.ltb_spec (total - 12) 4); [lia |].
  eapply bind_step; [field_skip; apply load_0 |].
  do 3 (eapply bind_step; [field_skip; reflexivity |]).
  cbn [negb orb Z.eqb Pos.eqb].
  destruct (Z.ltb_spec (total - 12) 8); [lia |]. field. rewrite Hw1, Hw2, Hw3.
  destruct (Z.ltb_spec (total - 12) (8 + zlen ss * 4)); [lia |].
  change NGX_RTC_RTCP_MAX_REMB_SSRCS with 32.
  set (kept := ztake 32 ss).
  assert (Hk : (if 32 <? zlen ss then 32 else zlen ss) = zlen kept).
  { unfold kept. rewrite zlen_ztake by lia. zcase. }
  rewrite Hk. assert (0 <= zlen kept <= 32)
    by (split; [apply zlen_nonneg | unfold kept; rewrite zlen_ztake; lia]).
  eapply bind_step.
  { rewrite <- (ztake_zdrop 32 ss) at 1. fold kept. rewrite bind_app.
    cbn [remb_ssrcs set_remb_ssrc_count set_remb_bitrate_bps set_has_remb set_media_ssrc
         pkt_header]. change (zeros NGX_RTC_RTCP_MAX_REMB_SSRCS) with ([] ++ zeros 32).
    replace (Z.to_nat (zlen kept)) with (length kept) by (unfold zlen; lia).
    rewrite !app_assoc. rewrite <- (app_assoc _ _ rest), <- (app_assoc _ _ (_ ++ rest)).
    match goal with
    | |- remb_list _ (?pre ++ _ ++ ?suf) _ _ _ = _ =>
        pose proof (remb_list_wire kept pre suf [] (zeros 32)
          (Forall_take _ _ _ Hss) ltac:(zl)) as Hlist;
        replace (zlen pre) with 20 in Hlist by zl
    end. exact Hlist. }
  cbv beta. unfold remb_view. change NGX_RTC_RTCP_MAX_REMB_SSRCS with 32. fold kept.
  rewrite (zdrop_zeros (zlen kept)), (u16_small (zlen kept)), shiftl_mul, Z.mul_1_l
    by (unfold is_u16; lia).
  assert (u32 (u64 (mant * 2 ^ e)) = u32 (mant * 2 ^ e)) as ->
    by (apply (Z.mod_mod_divide _ (2 ^ 64) (2 ^ 32)); by exists (2 ^ 32)).
  destruct kept as [| x kept]; [done |].
  destruct (Z.ltb_spec 0 (zlen (x :: kept))); [done | zl].
Qed.

Lemma ntp_floor us :
  is_u64 us ->
  ngx_rtc_rtcp_ntp_from_unix_us us
  = u64 ((us + NGX_RTC_RTCP_NTP_UNIX_OFFSET * 1000000) * 2 ^ 32 / 1000000).
Proof.
  intros Hus. unfold is_u64 in Hus. unfold ngx_rtc_rtcp_ntp_from_unix_us.
  unfold NGX_RTC_RTCP_NTP_UNIX_OFFSET. cbv zeta.
  rewrite (shiftl_mul (us mod 1000000)) by lia. change (2 ^ 32) with 4294967296.
  assert (Hm : 0 <= us mod 1000000 < 1000000) by (apply Z.mod_pos_bound; lia).
  rewrite (u64_small (us mod 1000000 * _)) by (unfold is_u64; nia).
  rewrite (u64_small (us / 1000000 + _)) by wraps.
  set (q := us / 1000000). set (r := us mod 1000000) in *.
  assert (Hus' : us = q * 1000000 + r) by (unfold q, r; Z.div_mod_to_equations; lia).
  set (f := r * 4294967296 / 1000000).
  assert (Hf : 0 <= f < 4294967296).
  { unfold f. split; [apply Z.div_pos; lia | apply Z.div_lt_upper_bound; lia]. }
  rewrite shiftl_mul by lia. change (2 ^ 32) with 4294967296.
  unfold u64. change 18446744073709551616 with (4294967296 * 4294967296).
  rewrite Zmult_mod_distr_r.
  change 4294967296 with (2 ^ 32) at 2. rewrite lor_low by (change (2 ^ 32) with 4294967296; lia).
  rewrite Hus'.
  replace ((q * 1000000 + r + 2208988800 * 1000000) * 4294967296)
    with ((q + 2208988800) * 4294967296 * 1000000 + r * 4294967296) by lia.
  rewrite Z.div_add_l by lia. fold f. change (2 ^ 32) with 4294967296.
  set (k := q + 2208988800).
  apply (Z.mod_unique_pos _ _ (k / 4294967296)); Z.div_mod_to_equations; lia.
Qed.

Lemma length_le_zlen_mjoin (ws : list octets) :
  Forall (fun w => 1 <= zlen w) ws -> (length ws <= Z.to_nat (zlen (mjoin ws)))%nat.
Proof.
  induction 1 as [| w ws Hw _ IH]; [simpl; lia |].
  change (mjoin (w :: ws)) with (w ++ mjoin ws). rewrite zlen_app.
  pose proof (zlen_nonneg (mjoin ws)). cbn [length]. lia.
Qed.

Lemma version_byte b0 :
  is_u8 b0 -> Z.land (Z.shiftr b0 6) 3 = 2 <-> 128 <= b0 < 192.
Proof.
  intros H. unfold is_u8 in H. change 3 with (Z.ones 2).
  rewrite land_mask, shiftr_div by lia. change (2 ^ 6) with 64. change (2 ^ 2) with 4.
  Z.div_mod_to_equations. lia.
Qed.

(** ** Properties *)

(** Encoding any list of sender reports, source descriptions and picture-loss
    indications, appending each to one datagram and decoding that datagram hands the
    callback exactly those packets, field for field and in order, until it refuses. *)
Theorem compound_roundtrip {St} xs tmp out cap (cb : ngx_rtc_rtcp_pkt_t -> St -> Z * St) st :
  Forall message_ok xs -> Forall (fun x => zlen (message_wire x) <= zlen tmp) xs ->
  zlen (compound_wire xs) <= cap <= zlen out -> is_u32 cap ->
  exists c,
    compound_build xs tmp (Ref out) cap (Ref 0)
    = Ret (NGX_RTC_OK, Ref c, Ref (zlen (compound_wire xs))) /\
    ngx_rtc_rtcp_decode (Ref c) (zlen (compound_wire xs)) (Ref cb) st
    = Ret (deliver cb (message_view <$> xs) st).
Proof.
  intros Hok Hfit Hcap Hc.
  exists (compound_wire xs ++ zdrop (zlen (compound_wire xs)) out). split.
  { pose proof (compound_build_wire xs tmp [] out cap Hok Hfit) as H.
    rewrite zlen_nil, !Z.add_0_l in H. by apply H. }
  unfold ngx_rtc_rtcp_decode, compound_wire, is_u32 in *.
  assert (Hw : xs ≫= message_wire = mjoin (message_wire <$> xs)).
  { clear. induction xs; [done |]. simpl. by f_equal. }
  rewrite Hw in *.
  pose proof (decode_loop_wires cb (message_wire <$> xs) (message_view <$> xs)) as Hd.
  specialize (Hd ltac:(clear -Hok; induction Hok; constructor; auto using message_parses)
    (Z.to_nat (zlen (mjoin (message_wire <$> xs)))) []
    (zdrop (zlen (mjoin (message_wire <$> xs))) out) st).
  rewrite zlen_nil, Z.add_0_l in Hd. apply Hd; [| lia].
  apply length_le_zlen_mjoin, Forall_fmap. eapply Forall_impl; [exact Hok |].
  intros x [Hl _]%message_parses. cbn. lia.
Qed.

Definition demo_sr : ngx_rtc_rtcp_sr_t :=
  {| sr_ssrc := 0x11223344; sr_ntp := 0x0102030405060708; sr_rtp_ts := 90000;
     packet_count := 7; octet_count := 9000; sr_rb := NULL |}.

Definition demo_compound : list message :=
  [Report 5 demo_sr; Describe 0x11223344 [114; 116; 99]; PictureLoss 1 2].

Lemma compound_roundtrip_witness :
  exists c,
    compound_build demo_compound (zeros 64) (Ref (zeros 128)) 128 (Ref 0)
    = Ret (NGX_RTC_OK, Ref c, Ref 56) /\
    ngx_rtc_rtcp_decode (Ref c) 56 (Ref (fun p l => (NGX_RTC_OK, l ++ [ssrc p]))) []
    = Ret (NGX_RTC_OK, [0x11223344; 0x11223344; 1]).
Proof.
  destruct (compound_roundtrip demo_compound (zeros 64) (zeros 128) 128
    (fun p l => (NGX_RTC_OK, l ++ [ssrc p])) []) as (c & H1 & H2).
  - repeat constructor; vm_compute; intuition congruence.
  - repeat constructor; vm_compute; congruence.
  - vm_compute; intuition congruence.
  - vm_compute; intuition congruence.
  - exists c. split; [exact H1 | exact H2].
Defined.

(** A generic NACK, parsed and expanded, yields the sequence numbers its (PID, BLP)
    pairs stand for, in order: those of the first 128 pairs, cut to the caller's
    capacity, and TOO_SMALL exactly when the capacity cut the list. *)
Theorem nack_request_roundtrip s m es rest len p0 c0 seqs cap n0 :
  is_u32 s -> is_u32 m -> Forall entry_ok es -> zlen es <= 65533 ->
  12 + 4 * zlen es <= len -> is_u16 cap -> cap <= zlen seqs ->
  let asked := nack_seqs (ztake NGX_RTC_RTCP_MAX_NACK_ENTRIES es) in
  let k := Z.min cap (zlen asked) in
  exists v,
    ngx_rtc_rtcp_parse (Ref (nack_wire s m es ++ rest)) len (Ref p0) (Ref c0)
    = Ret (NGX_RTC_OK, Ref v, Ref (12 + 4 * zlen es)) /\
    ssrc v = s /\ media_ssrc v = m /\
    ngx_rtc_rtcp_nack_expand (Ref v) (Ref seqs) cap (Ref n0)
    = Ret (if zlen asked <=? cap then NGX_RTC_OK else NGX_RTC_ERR_TOO_SMALL,
           Ref (ztake k asked ++ zdrop k seqs), Ref k).
Proof.
  intros Hs Hm Hes Hn Hlen Hc Hcap asked k. exists (nack_view s m es).
  destruct (parse_nack s m es Hs Hm Hes Hn) as [_ Hp]. rewrite zlen_nack_wire in Hp.
  split; [by apply Hp |]. do 2 (split; [done |]).
  rewrite nack_view_expand by done. done.
Qed.

Lemma nack_request_roundtrip_witness :
  exists v,
    ngx_rtc_rtcp_parse (Ref (nack_wire 1 2 [(65534, 0x8003)])) 16
      (Ref (pkt_header 0 0 0 0 0 0 0)) (Ref 0)
    = Ret (NGX_RTC_OK, Ref v, Ref 16) /\ ssrc v = 1 /\ media_ssrc v = 2 /\
    ngx_rtc_rtcp_nack_expand (Ref v) (Ref [0; 0; 0; 0; 0]) 5 (Ref 0)
    = Ret (NGX_RTC_OK, Ref [65534; 65535; 0; 14; 0], Ref 4).
Proof.
  apply (nack_request_roundtrip 1 2 [(65534, 0x8003)] [] 16
    (pkt_header 0 0 0 0 0 0 0) 0 [0; 0; 0; 0; 0] 5 0);
    repeat constructor; vm_compute; intuition congruence.
Defined.

(** On a datagram of exactly [zlen b] octets the parser makes a bad read in one case
    only: a version-2 header whose length field is zero, with fewer than four octets
    behind it, where it reads the SSRC word without having checked for it.  In every
    other case each embedded array and every field read is in bounds. *)
Theorem parse_faults_iff b p c :
  octets_ok b ->
  ngx_rtc_rtcp_parse (Ref b) (zlen b) (Ref p) (Ref c) = Fault <->
  exists b0 b1 rest, b = b0 :: b1 :: 0 :: 0 :: rest /\ 128 <= b0 < 192 /\ zlen rest < 4.
Proof.
  intros Hb. split.
  - intros HF. destruct (Z.ltb_spec (zlen b) 8) as [Hlt |].
    2: { exfalso. revert HF. eapply safe_not_fault, parse_safe; auto; lia. }
    destruct b as [| b0 [| b1 [| b2 [| b3 rest]]]]; try discriminate HF.
    pose proof (parse_safe (b0 :: b1 :: b2 :: b3 :: rest)
      (zlen (b0 :: b1 :: b2 :: b3 :: rest)) p c Hb ltac:(lia)) as Hsafe.
    do 4 (apply Forall_cons_1 in Hb as [? Hb]).
    assert (Hrd : ngx_rtc_rtcp_rd_u16 (b0 :: b1 :: b2 :: b3 :: rest) 2 = Ret (b2 * 256 + b3)).
    { change (b0 :: b1 :: b2 :: b3 :: rest) with ([b0; b1] ++ b2 :: b3 :: rest).
      rewrite rd_skip by zl. rewrite rd_u16_cons by done. done. }
    unfold is_u8 in *. destruct (decide (b2 * 256 + b3 = 0)) as [Hz |].
    2: { exfalso. revert HF. eapply safe_not_fault, Hsafe. right. congruence. }
    assert (b2 = 0 /\ b3 = 0) as [-> ->] by lia. exists b0, b1, rest.
    split; [done |]. split; [| autorewrite with zlen in Hlt; lia].
    apply version_byte; [done |]. destruct (Z.eqb_spec (Z.land (Z.shiftr b0 6) 3) 2);
      [done | exfalso]. revert HF. unfold ngx_rtc_rtcp_parse.
    destruct (Z.ltb_spec (zlen (b0 :: b1 :: 0 :: 0 :: rest)) 4); [done |].
    rewrite load_0, bind_Ret. cbv zeta.
    change (load (b0 :: b1 :: 0 :: 0 :: rest) 1) with (Ret b1). rewrite bind_Ret, Hrd, bind_Ret.
    change ((0 * 256 + 0 + 1) * 4) with 4.
    destruct (Z.ltb_spec (zlen (b0 :: b1 :: 0 :: 0 :: rest)) 4); [done |].
    destruct (Z.eqb_spec (Z.land (Z.shiftr b0 6) 3) 2); done.
  - intros (b0 & b1 & rest & -> & Hv & Hr). apply Forall_cons_1 in Hb as [Hb0 _].
    apply version_byte in Hv; [| done]. unfold ngx_rtc_rtcp_parse.
    pose proof (zlen_nonneg rest).
    destruct (Z.ltb_spec (zlen (b0 :: b1 :: 0 :: 0 :: rest)) 4); [zl |].
    rewrite load_0, bind_Ret. cbv zeta. rewrite Hv.
    change (load (b0 :: b1 :: 0 :: 0 :: rest) 1) with (Ret b1). rewrite bind_Ret.
    change (ngx_rtc_rtcp_rd_u16 (b0 :: b1 :: 0 :: 0 :: rest) 2) with (Ret 0).
    rewrite bind_Ret. change ((0 + 1) * 4) with 4.
    destruct (Z.ltb_spec (zlen (b0 :: b1 :: 0 :: 0 :: rest)) 4); [zl |].
    cbn [negb Z.eqb Pos.eqb].
    destruct rest as [| ? [| ? [| ? [| ? rest]]]]; try done.
    exfalso. pose proof (zlen_nonneg rest). zl.
Qed.

Lemma parse_faults_iff_witness :
  octets_ok [128; 201; 0; 0] /\
  ngx_rtc_rtcp_parse (Ref [128; 201; 0; 0]) 4 (Ref (pkt_header 0 0 0 0 0 0 0)) (Ref 0) = Fault.
Proof.
  assert (H : octets_ok [128; 201; 0; 0]) by (repeat constructor; unfold is_u8; lia).
  split; [exact H |].
  apply (parse_faults_iff [128; 201; 0; 0] (pkt_header 0 0 0 0 0 0 0) 0 H).
  exists 128, 201, []. split_and!; [reflexivity | lia | lia | reflexivity].
Defined.

(** A transport-wide feedback report whose chunks carry at least as many statuses as
    its packet count parses to the exact number of lost and received packets among the
    first [count] statuses, whatever mix of run-length, one-bit and two-bit chunks it
    uses, and the two numbers add up to the packet count. *)
Theorem twcc_counts_statuses s m base count ref_fb cs deltas rest len p0 c0 :
  is_u32 s -> is_u32 m -> is_u16 base -> is_u16 count -> Forall is_u16 cs ->
  count <= zlen (cs ≫= chunk_symbols) ->
  (2 * zlen cs + zlen deltas) mod 4 = 0 -> 2 * zlen cs + zlen deltas <= 262124 ->
  20 + 2 * zlen cs + zlen deltas <= len ->
  exists v,
    ngx_rtc_rtcp_parse (Ref (twcc_wire s m base count ref_fb cs deltas ++ rest)) len
      (Ref p0) (Ref c0)
    = Ret (NGX_RTC_OK, Ref v, Ref (20 + 2 * zlen cs + zlen deltas)) /\
    twcc_base_seq v = base /\ twcc_pkt_count v = count /\
    twcc_lost v = count_lost (ztake count (cs ≫= chunk_symbols)) /\
    twcc_received v = count_received (ztake count (cs ≫= chunk_symbols)) /\
    twcc_lost v + twcc_received v = count.
Proof.
  intros Hs Hm Hb Hc Hcs Hcount Hmod Hmax Hlen.
  exists (twcc_view s m base count cs deltas).
  destruct (parse_twcc s m base count ref_fb cs deltas) as [_ Hp]; try done.
  assert (Hw : zlen (twcc_wire s m base count ref_fb cs deltas)
               = 20 + 2 * zlen cs + zlen deltas) by (unfold twcc_wire; zl).
  rewrite Hw in Hp. split; [by apply Hp |]. do 4 (split; [done |]).
  change (count_lost (ztake count (cs ≫= chunk_symbols)) +
          count_received (ztake count (cs ≫= chunk_symbols)) = count).
  unfold is_u16 in Hc. rewrite count_lost_received, zlen_ztake; lia.
Qed.

Lemma twcc_counts_statuses_witness :
  exists v,
    ngx_rtc_rtcp_parse (Ref (twcc_wire 1 2 100 20 0 [0x2005; 0xbff0; 0xd400] [1; 2])) 28
      (Ref (pkt_header 0 0 0 0 0 0 0)) (Ref 0)
    = Ret (NGX_RTC_OK, Ref v, Ref 28) /\
    twcc_base_seq v = 100 /\ twcc_pkt_count v = 20 /\ twcc_lost v = 4 /\
    twcc_received v = 16 /\ twcc_lost v + twcc_received v = 20.
Proof.
  apply (twcc_counts_statuses 1 2 100 20 0 [0x2005; 0xbff0; 0xd400] [1; 2] [] 28
    (pkt_header 0 0 0 0 0 0 0) 0);
    repeat constructor; vm_compute; intuition congruence.
Defined.

(** A REMB message reports its SSRC list, cut to 32 entries, and the estimate
    [mant * 2^e] reduced modulo 2^32: an estimate of 2^32 bit/s or more is silently
    replaced by its low 32 bits rather than saturated. *)
Theorem remb_estimate_modulo s m e mant ss rest len p0 c0 :
  is_u32 s -> is_u32 m -> 0 <= e < 64 -> 0 <= mant < 2 ^ 18 -> Forall is_u32 ss ->
  zlen ss <= 255 -> 20 + 4 * zlen ss <= len ->
  exists v,
    ngx_rtc_rtcp_parse (Ref (remb_wire s m e mant ss ++ rest)) len (Ref p0) (Ref c0)
    = Ret (NGX_RTC_OK, Ref v, Ref (20 + 4 * zlen ss)) /\
    has_remb v = 1 /\ remb_bitrate_bps v = (mant * 2 ^ e) mod 2 ^ 32 /\
    ztake (remb_ssrc_count v) (remb_ssrcs v) = ztake NGX_RTC_RTCP_MAX_REMB_SSRCS ss.
Proof.
  intros Hs Hm He Hmant Hss Hn Hlen. exists (remb_view s m e mant ss).
  destruct (parse_remb s m e mant ss) as [_ Hp]; try done.
  assert (Hw : zlen (remb_wire s m e mant ss) = 20 + 4 * zlen ss) by (unfold remb_wire; zl).
  rewrite Hw in Hp. split; [by apply Hp |]. unfold remb_view.
  set (kept := ztake NGX_RTC_RTCP_MAX_REMB_SSRCS ss).
  assert (Hk : ztake (zlen kept) (kept ++ zeros (NGX_RTC_RTCP_MAX_REMB_SSRCS - zlen kept))
               = kept) by by apply ztake_app_length.
  destruct kept; split_and!; done.
Qed.

Lemma remb_estimate_modulo_witness :
  exists v,
    ngx_rtc_rtcp_parse (Ref (remb_wire 1 0 16 65536 [7])) 24
      (Ref (pkt_header 0 0 0 0 0 0 0)) (Ref 0)
    = Ret (NGX_RTC_OK, Ref v, Ref 24) /\
    has_remb v = 1 /\ remb_bitrate_bps v = 0 /\
    ztake (remb_ssrc_count v) (remb_ssrcs v) = [7].
Proof.
  apply (remb_estimate_modulo 1 0 16 65536 [7] [] 24 (pkt_header 0 0 0 0 0 0 0) 0);
    repeat constructor; vm_compute; intuition congruence.
Defined.

(** The wall clock in microseconds becomes the NTP fixed-point time rounded down to
    1/2^32 s, modulo the 2^64 of the NTP era. *)
Theorem ntp_from_unix_us_floor us :
  is_u64 us ->
  ngx_rtc_rtcp_ntp_from_unix_us us
  = (us + NGX_RTC_RTCP_NTP_UNIX_OFFSET * 1000000) * 2 ^ 32 / 1000000 mod 2 ^ 64.
Proof. apply ntp_floor. Qed.

Lemma ntp_from_unix_us_floor_witness :
  is_u64 1700000000500000 /\
  ngx_rtc_rtcp_ntp_from_unix_us 1700000000500000 = 3908988800 * 2 ^ 32 + 2 ^ 31.
Proof.
  split; [unfold is_u64; lia |].
  rewrite (ntp_from_unix_us_floor 1700000000500000); [reflexivity | unfold is_u64; lia].
Defined.
End Rtcp.
