(* ===== verification/Stun.v ===== *)
(** STUN binding messages: src/ngx_rtc_stun.c, the decoder of a request, the check of its
    MESSAGE-INTEGRITY and the encoder of the response.

    OpenSSL's HMAC-SHA1 is the parameter [hmac], from a key and a message to the digest,
    None when the call fails; the CRC is the code's own.  A password is a C string without
    its terminator; the two ufrag buffers of a message keep theirs. *)

From S2P Require Import Prelude.

Module Stun.

Definition NGX_RTC_STUN_HEADER_LEN : Z := 20.
Definition NGX_RTC_STUN_FINGERPRINT_XOR : Z := 0x5354554E.
Definition NGX_RTC_STUN_MAGIC_COOKIE : Z := 0x2112A442.
Definition NGX_RTC_STUN_UFRAG_MAX : Z := 16.
Definition NGX_RTC_STUN_BINDING_REQUEST : Z := 0x0001.
Definition NGX_RTC_STUN_BINDING_RESPONSE : Z := 0x0101.
Definition NGX_RTC_STUN_ATTR_USERNAME : Z := 0x0006.
Definition NGX_RTC_STUN_ATTR_MESSAGE_INTEGRITY : Z := 0x0008.
Definition NGX_RTC_STUN_ATTR_XOR_MAPPED_ADDR : Z := 0x0020.
Definition NGX_RTC_STUN_ATTR_USE_CANDIDATE : Z := 0x0025.
Definition NGX_RTC_STUN_ATTR_FINGERPRINT : Z := 0x8028.
Definition NGX_RTC_STUN_ATTR_ICE_CONTROLLED : Z := 0x8029.
Definition NGX_RTC_STUN_ATTR_ICE_CONTROLLING : Z := 0x802A.

Record ngx_rtc_stun_t := {
  type : Z;
  transaction_id : octets;
  has_username : Z;
  local_ufrag : octets;
  remote_ufrag : octets;
  use_candidate : Z;
  ice_controlled : Z;
  ice_controlling : Z;
  has_message_integrity : Z;
  message_integrity_offset : Z;
  has_fingerprint : Z;
  fingerprint_offset : Z
}.

Definition eta (s : ngx_rtc_stun_t) : ngx_rtc_stun_t :=
  {| type := type s; transaction_id := transaction_id s; has_username := has_username s;
     local_ufrag := local_ufrag s; remote_ufrag := remote_ufrag s;
     use_candidate := use_candidate s; ice_controlled := ice_controlled s;
     ice_controlling := ice_controlling s; has_message_integrity := has_message_integrity s;
     message_integrity_offset := message_integrity_offset s;
     has_fingerprint := has_fingerprint s; fingerprint_offset := fingerprint_offset s |}.
Definition set_type := ltac:(setter eta type).
Definition set_transaction_id := ltac:(setter eta transaction_id).
Definition set_has_username := ltac:(setter eta has_username).
Definition set_local_ufrag := ltac:(setter eta local_ufrag).
Definition set_remote_ufrag := ltac:(setter eta remote_ufrag).
Definition set_use_candidate := ltac:(setter eta use_candidate).
Definition set_ice_controlled := ltac:(setter eta ice_controlled).
Definition set_ice_controlling := ltac:(setter eta ice_controlling).
Definition set_has_message_integrity := ltac:(setter eta has_message_integrity).
Definition set_message_integrity_offset := ltac:(setter eta message_integrity_offset).
Definition set_has_fingerprint := ltac:(setter eta has_fingerprint).
Definition set_fingerprint_offset := ltac:(setter eta fingerprint_offset).

Definition zero_stun : ngx_rtc_stun_t :=
  {| type := 0; transaction_id := zeros 12; has_username := 0;
     local_ufrag := zeros (NGX_RTC_STUN_UFRAG_MAX + 1);
     remote_ufrag := zeros (NGX_RTC_STUN_UFRAG_MAX + 1); use_candidate := 0;
     ice_controlled := 0; ice_controlling := 0; has_message_integrity := 0;
     message_integrity_offset := 0; has_fingerprint := 0; fingerprint_offset := 0 |}.

(** *** The checksum *)

Fixpoint crc_bits (n : nat) (crc : Z) : Z :=
  match n with
  | O => crc
  | S n => crc_bits n (Z.lxor (Z.shiftr crc 1) (Z.land 0xEDB88320 (u32 (0 - Z.land crc 1))))
  end.

Definition crc_octet (crc b : Z) : Z := crc_bits 8 (Z.lxor crc b).

Definition ngx_rtc_crc32 (data : octets) : Z :=
  Z.lxor (fold_left crc_octet data 0xFFFFFFFF) 0xFFFFFFFF.

(** *** Fields *)

Definition ngx_rtc_stun_write_u16 (p : octets) (off v : Z) : outcome octets :=
  stores p off [u8 (Z.shiftr v 8); u8 (Z.land v 0xff)].

Definition ngx_rtc_stun_write_u32 (p : octets) (off v : Z) : outcome octets :=
  stores p off [u8 (Z.shiftr v 24); u8 (Z.land (Z.shiftr v 16) 0xff);
                u8 (Z.land (Z.shiftr v 8) 0xff); u8 (Z.land v 0xff)].

Definition ngx_rtc_stun_read_u16 (p : octets) (off : Z) : outcome Z :=
  a ← load p off; b ← load p (off + 1); Ret (u16 (Z.lor (Z.shiftl a 8) b)).

(** strchr and the length of a C string; both read up to the terminator. *)
Fixpoint strchr (p : octets) (c i : Z) : outcome (option Z) :=
  match p with
  | [] => Fault
  | x :: p => if x =? c then Ret (Some i) else if x =? 0 then Ret None else strchr p c (i + 1)
  end.

Fixpoint c_str (p : octets) : outcome octets :=
  match p with
  | [] => Fault
  | x :: p => if x =? 0 then Ret [] else s ← c_str p; Ret (x :: s)
  end.

(** *** The decoder *)

(** Copy user[from .. from + n) into a ufrag buffer, cut to its room, and terminate it. *)
Definition copy_ufrag (dst user : octets) (from n : Z) : outcome octets :=
  let n := if NGX_RTC_STUN_UFRAG_MAX <? n then NGX_RTC_STUN_UFRAG_MAX else n in
  v ← load_range user from n;
  dst ← store_range dst 0 v;
  store dst n 0.

Definition decode_username (stun : ngx_rtc_stun_t) (data : octets) (pos attr_len : Z) : outcome ngx_rtc_stun_t :=
  let user_size := 2 * NGX_RTC_STUN_UFRAG_MAX + 2 in
  let user_len := if attr_len <? user_size - 1 then attr_len else user_size - 1 in
  v ← load_range data pos user_len;
  let user := v ++ [0] in
  colon ← strchr user 58 0;
  match colon with
  | None => Ret stun
  | Some k =>
      l ← copy_ufrag (local_ufrag stun) user 0 k;
      r ← copy_ufrag (remote_ufrag stun) user (k + 1) (user_len - k - 1);
      Ret (stun |> set_local_ufrag l |> set_remote_ufrag r |> set_has_username 1)
  end.

Definition decode_attribute (stun : ngx_rtc_stun_t) (data : octets) (pos attr_type attr_len : Z)
    : outcome ngx_rtc_stun_t :=
  if attr_type =? NGX_RTC_STUN_ATTR_USERNAME then decode_username stun data pos attr_len
  else if attr_type =? NGX_RTC_STUN_ATTR_USE_CANDIDATE then Ret (set_use_candidate 1 stun)
  else if attr_type =? NGX_RTC_STUN_ATTR_ICE_CONTROLLED then Ret (set_ice_controlled 1 stun)
  else if attr_type =? NGX_RTC_STUN_ATTR_ICE_CONTROLLING then Ret (set_ice_controlling 1 stun)
  else if attr_type =? NGX_RTC_STUN_ATTR_MESSAGE_INTEGRITY then
    Ret (stun |> set_has_message_integrity 1 |> set_message_integrity_offset (u16 pos))
  else if attr_type =? NGX_RTC_STUN_ATTR_FINGERPRINT then
    Ret (stun |> set_has_fingerprint 1 |> set_fingerprint_offset (u16 pos))
  else Ret stun.

Fixpoint decode_loop (fuel : nat) (stun : ngx_rtc_stun_t) (data : octets) (len pos : Z)
    : outcome (Z * ngx_rtc_stun_t) :=
  if pos + 4 <=? len then
    match fuel with
    | O => Fault
    | S fuel =>
        attr_type ← ngx_rtc_stun_read_u16 data pos;
        attr_len ← ngx_rtc_stun_read_u16 data (pos + 2);
        let pos := pos + 4 in
        if len <? pos + attr_len then Ret (-1, stun)
        else
          stun ← decode_attribute stun data pos attr_type attr_len;
          let pos := pos + attr_len in
          let pos := if attr_len mod 4 =? 0 then pos else pos + (4 - attr_len mod 4) in
          decode_loop fuel stun data len pos
    end
  else Ret (0, stun).

Definition ngx_rtc_stun_decode (stun : ptr ngx_rtc_stun_t) (data : ptr octets) (len : Z)
    : outcome (Z * ptr ngx_rtc_stun_t) :=
  match stun, data with
  | Ref _, Ref data =>
      let stun := zero_stun in
      if len <? NGX_RTC_STUN_HEADER_LEN then Ret (-1, Ref stun)
      else
        t ← ngx_rtc_stun_read_u16 data 0;
        let stun := set_type t stun in
        message_len ← ngx_rtc_stun_read_u16 data 2;
        if negb (NGX_RTC_STUN_HEADER_LEN + message_len =? len) then Ret (-1, Ref stun)
        else
          tid ← load_range data 8 12;
          let stun := set_transaction_id tid stun in
          '(rc, stun) ← decode_loop (Z.to_nat (len / 4)) stun data len NGX_RTC_STUN_HEADER_LEN;
          Ret (rc, Ref stun)
  | _, _ => Ret (-1, stun)
  end.

Section hmac.
Context (hmac : octets -> octets -> option octets).

Definition ngx_rtc_stun_verify_request (stun : ptr ngx_rtc_stun_t) (data : ptr octets) (len : Z)
    (ice_pwd : ptr octets) : outcome Z :=
  match stun, data, ice_pwd with
  | Ref stun, Ref data, Ref ice_pwd =>
      if has_message_integrity stun =? 0 then Ret (-1)
      else if (2048 <? len) || (len <? message_integrity_offset stun + 20)
              || (message_integrity_offset stun <? 4) then Ret (-1)
      else
        d ← load_range data 0 len;
        tmp ← store_range (zeros 2048) 0 d;
        tmp ← ngx_rtc_stun_write_u16 tmp 2 (message_integrity_offset stun);
        m ← load_range tmp 0 (message_integrity_offset stun - 4);
        match hmac ice_pwd m with
        | None => Ret (-1)
        | Some out =>
            if negb (zlen out =? 20) then Ret (-1)
            else
              d ← load_range data (message_integrity_offset stun) 20;
              Ret (if bool_decide (d = out) then 0 else -1)
        end
  | _, _, _ => Ret (-1)
  end.

(** [strlen (local) + 1 + strlen (remote)] octets, cut to the buffer of 128. *)
Definition echo_username (req : ngx_rtc_stun_t) : outcome octets :=
  l ← c_str (local_ufrag req);
  r ← c_str (remote_ufrag req);
  let text := l ++ [58] ++ r in
  Ret (ztake (if 128 <=? zlen text then 127 else zlen text) text).

Definition ngx_rtc_stun_encode_binding_response (req : ptr ngx_rtc_stun_t) (ice_pwd : ptr octets)
    (mapped_addr mapped_port : Z) (out : ptr octets) (out_len : Z) : outcome (Z * ptr octets) :=
  match req, ice_pwd, out with
  | Ref req, Ref ice_pwd, Ref o =>
      if out_len <? 128 then Ret (-1, out)
      else if has_username req =? 0 then Ret (-1, out)
      else
        o ← ngx_rtc_stun_write_u16 o 0 NGX_RTC_STUN_BINDING_RESPONSE;
        o ← ngx_rtc_stun_write_u16 o 2 0;
        o ← ngx_rtc_stun_write_u32 o 4 NGX_RTC_STUN_MAGIC_COOKIE;
        o ← store_range o 8 (transaction_id req);
        let pos := NGX_RTC_STUN_HEADER_LEN in
        username ← echo_username req;
        let username_len := zlen username in
        let pad := (4 - username_len mod 4) mod 4 in
        if out_len - pos <? 4 + username_len + pad then Ret (-1, Ref o)
        else
          o ← ngx_rtc_stun_write_u16 o pos NGX_RTC_STUN_ATTR_USERNAME;
          o ← ngx_rtc_stun_write_u16 o (pos + 2) (u16 username_len);
          o ← store_range o (pos + 4) username;
          o ← store_range o (pos + 4 + username_len) (zeros pad);
          let pos := pos + 4 + username_len + pad in
          if out_len - pos <? 12 then Ret (-1, Ref o)
          else
            let xor_port := u16 (Z.lxor mapped_port (Z.shiftr NGX_RTC_STUN_MAGIC_COOKIE 16)) in
            let xor_addr := Z.lxor mapped_addr NGX_RTC_STUN_MAGIC_COOKIE in
            o ← ngx_rtc_stun_write_u16 o pos NGX_RTC_STUN_ATTR_XOR_MAPPED_ADDR;
            o ← ngx_rtc_stun_write_u16 o (pos + 2) 8;
            o ← stores o (pos + 4) [0; 1];
            o ← ngx_rtc_stun_write_u16 o (pos + 6) xor_port;
            o ← ngx_rtc_stun_write_u32 o (pos + 8) xor_addr;
            let pos := pos + 12 in
            o ← ngx_rtc_stun_write_u16 o 2 (u16 (pos - NGX_RTC_STUN_HEADER_LEN + 24));
            m ← load_range o 0 pos;
            match hmac ice_pwd m with
            | None => Ret (-1, Ref o)
            | Some mac =>
                if out_len - pos <? 4 + zlen mac then Ret (-1, Ref o)
                else
                  o ← ngx_rtc_stun_write_u16 o pos NGX_RTC_STUN_ATTR_MESSAGE_INTEGRITY;
                  o ← ngx_rtc_stun_write_u16 o (pos + 2) (u16 (zlen mac));
                  o ← store_range o (pos + 4) mac;
                  let pos := pos + 4 + zlen mac in
                  o ← ngx_rtc_stun_write_u16 o 2 (u16 (pos - NGX_RTC_STUN_HEADER_LEN + 8));
                  if out_len - pos <? 8 then Ret (-1, Ref o)
                  else
                    m ← load_range o 0 pos;
                    let crc := Z.lxor (ngx_rtc_crc32 m) NGX_RTC_STUN_FINGERPRINT_XOR in
                    o ← ngx_rtc_stun_write_u16 o pos NGX_RTC_STUN_ATTR_FINGERPRINT;
                    o ← ngx_rtc_stun_write_u16 o (pos + 2) 4;
                    o ← ngx_rtc_stun_write_u32 o (pos + 4) crc;
                    let pos := pos + 8 in
                    o ← ngx_rtc_stun_write_u16 o 2 (u16 (pos - NGX_RTC_STUN_HEADER_LEN));
                    Ret (pos, Ref o)
            end
  | _, _, _ => Ret (-1, out)
  end.
End hmac.

(** ** Messages as lists of attributes *)

Definition attribute : Type := Z * octets.

Definition padding (n : Z) : Z := (4 - n mod 4) mod 4.

(** The attributes of a message body; the padding of the last may be missing, and what is
    left is less than an attribute's header.  None: an attribute runs past the end. *)
Fixpoint attrs_of (fuel : nat) (b : octets) : option (list attribute) :=
  match b with
  | t1 :: t2 :: l1 :: l2 :: b =>
      let l := be_dec [l1; l2] in
      if zlen b <? l then None
      else
        match fuel with
        | O => None
        | S fuel =>
            rest ← attrs_of fuel (zdrop (l + padding l) b);
            Some ((be_dec [t1; t2], ztake l b) :: rest)
        end
  | _ => Some []
  end.

(** Where the local ufrag of a USERNAME ends. *)
Fixpoint colon_at (u : octets) : option Z :=
  match u with
  | [] => None
  | x :: u => if x =? 58 then Some 0 else if x =? 0 then None else Z.succ <$> colon_at u
  end.

(** A ufrag buffer with a string of at most 16 octets written over it. *)
Definition place (dst v : octets) : octets :=
  let w := ztake 16 v in w ++ 0 :: zdrop (zlen w + 1) dst.

Definition absorb_username (s : ngx_rtc_stun_t) (v : octets) : ngx_rtc_stun_t :=
  let u := ztake 33 v in
  match colon_at u with
  | None => s
  | Some k =>
      s |> set_local_ufrag (place (local_ufrag s) (ztake k u))
        |> set_remote_ufrag (place (remote_ufrag s) (zdrop (k + 1) u)) |> set_has_username 1
  end.

(** What an attribute whose value is at [pos] tells. *)
Definition absorb (s : ngx_rtc_stun_t) (pos : Z) (a : attribute) : ngx_rtc_stun_t :=
  let '(t, v) := a in
  if t =? NGX_RTC_STUN_ATTR_USERNAME then absorb_username s v
  else if t =? NGX_RTC_STUN_ATTR_USE_CANDIDATE then set_use_candidate 1 s
  else if t =? NGX_RTC_STUN_ATTR_ICE_CONTROLLED then set_ice_controlled 1 s
  else if t =? NGX_RTC_STUN_ATTR_ICE_CONTROLLING then set_ice_controlling 1 s
  else if t =? NGX_RTC_STUN_ATTR_MESSAGE_INTEGRITY then
    s |> set_has_message_integrity 1 |> set_message_integrity_offset (u16 pos)
  else if t =? NGX_RTC_STUN_ATTR_FINGERPRINT then
    s |> set_has_fingerprint 1 |> set_fingerprint_offset (u16 pos)
  else s.

Fixpoint absorb_all (s : ngx_rtc_stun_t) (pos : Z) (l : list attribute) : ngx_rtc_stun_t :=
  match l with
  | [] => s
  | a :: l => absorb_all (absorb s (pos + 4) a) (pos + 4 + zlen a.2 + padding (zlen a.2)) l
  end.

(** *** The decoder is that *)

Definition ufrags_ok (s : ngx_rtc_stun_t) : Prop :=
  zlen (local_ufrag s) = 17 /\ zlen (remote_ufrag s) = 17.

Lemma zlen_place dst v : zlen dst = 17 -> zlen (place dst v) = 17.
Proof.
  intros H. unfold place. assert (Hv : zlen (ztake 16 v) <= 16) by (unfold zlen, ztake; rewrite length_take; lia).
  pose proof (zlen_nonneg (ztake 16 v)). rewrite zlen_app, zlen_cons, zlen_zdrop by lia. lia.
Qed.

Lemma absorb_ufrags s pos a : ufrags_ok s -> ufrags_ok (absorb s pos a).
Proof.
  intros [H1 H2]. destruct a as [t v]. unfold absorb, absorb_username.
  repeat match goal with |- context [if ?c then _ else _] => destruct c end;
    try (destruct (colon_at _)); try done.
  split; by apply zlen_place.
Qed.

Lemma strchr_colon u t : forall i,
  strchr (u ++ 0 :: t) 58 i = Ret ((fun k => i + k) <$> colon_at u).
Proof.
  induction u as [| x u IH]; intros i; [done |]. cbn [app strchr colon_at].
  destruct (x =? 58); [cbn; by rewrite Z.add_0_r |]. destruct (x =? 0); [done |].
  rewrite IH. destruct (colon_at u); cbn; [| done]. do 2 f_equal. lia.
Qed.

Lemma colon_at_bound u k : colon_at u = Some k -> 0 <= k < zlen u.
Proof.
  revert k. induction u as [| x u IH]; intros k; [done |]. cbn [colon_at]. rewrite zlen_cons.
  pose proof (zlen_nonneg u). destruct (x =? 58); [intros [= <-]; lia |].
  destruct (x =? 0); [done |]. destruct (colon_at u) as [j |]; [| done]. intros [= <-].
  specialize (IH j eq_refl). lia.
Qed.

Lemma copy_ufrag_place dst user from n :
  zlen dst = 17 -> 0 <= from -> 0 <= n -> from + n <= zlen user ->
  copy_ufrag dst user from n = Ret (place dst (ztake n (zdrop from user))).
Proof.
  intros Hd Hf Hn Hu. unfold copy_ufrag, place, NGX_RTC_STUN_UFRAG_MAX. cbv zeta.
  set (m := if 16 <? n then 16 else n).
  assert (Hm : 0 <= m <= 16 /\ m <= n) by (unfold m; destruct (Z.ltb_spec 16 n); lia).
  assert (Hw : ztake 16 (ztake n (zdrop from user)) = ztake m (zdrop from user)).
  { unfold ztake, m. rewrite take_take. f_equal. destruct (Z.ltb_spec 16 n); lia. }
  assert (Hz : zlen (ztake m (zdrop from user)) = m) by (rewrite zlen_ztake; rewrite ?zlen_zdrop; lia).
  rewrite Hw, load_range_in, bind_Ret by lia. rewrite store_range_in by lia. rewrite bind_Ret, Hz.
  rewrite ztake_0, app_nil_l, Z.add_0_l. rewrite store_cursor; [| lia |].
  - rewrite zdrop_zdrop by lia. by rewrite <- app_assoc.
  - rewrite zlen_zdrop by lia. lia.
Qed.

Lemma decode_username_absorb s data pos v :
  ufrags_ok s -> 0 <= pos -> pos + zlen v <= zlen data -> ztake (zlen v) (zdrop pos data) = v ->
  decode_username s data pos (zlen v) = Ret (absorb_username s v).
Proof.
  intros [H1 H2] Hp Hd Hv. unfold decode_username, absorb_username, NGX_RTC_STUN_UFRAG_MAX. cbv zeta.
  change (2 * 16 + 2 - 1) with 33. set (n := if zlen v <? 33 then zlen v else 33).
  pose proof (zlen_nonneg v).
  assert (Hn : 0 <= n <= zlen v) by (unfold n; destruct (Z.ltb_spec (zlen v) 33); lia).
  assert (Hu : ztake n (zdrop pos data) = ztake 33 v).
  { rewrite <- Hv. unfold ztake, n. rewrite take_take. f_equal. destruct (Z.ltb_spec (zlen v) 33); lia. }
  rewrite load_range_in, bind_Ret, Hu by lia. set (u := ztake 33 v).
  assert (Hun : zlen u = n) by (unfold u; rewrite <- Hu, zlen_ztake; rewrite ?zlen_zdrop; lia).
  rewrite strchr_colon, bind_Ret. destruct (colon_at u) as [k |] eqn:Ek; [| done]. cbn [fmap option_fmap option_map].
  pose proof (colon_at_bound u k Ek) as Hk. rewrite Z.add_0_l.
  rewrite !copy_ufrag_place, bind_Ret, bind_Ret by (rewrite ?zlen_app, ?zlen_cons, ?zlen_nil; lia).
  rewrite zdrop_0, ztake_app_le by lia. rewrite <- Hun.
  assert (Hr : ztake (zlen u - k - 1) (zdrop (k + 1) (u ++ [0])) = zdrop (k + 1) u).
  { unfold zdrop. rewrite drop_app_le by (unfold zlen in *; lia). fold (zdrop (k + 1) u).
    rewrite ztake_app_length; [done |]. rewrite zlen_zdrop; lia. }
  by rewrite Hr.
Qed.

Lemma decode_attribute_absorb s data pos t v :
  ufrags_ok s -> 0 <= pos -> pos + zlen v <= zlen data -> ztake (zlen v) (zdrop pos data) = v ->
  decode_attribute s data pos t (zlen v) = Ret (absorb s pos (t, v)).
Proof.
  intros Hs Hp Hd Hv. unfold decode_attribute, absorb.
  destruct (t =? NGX_RTC_STUN_ATTR_USERNAME); [by apply decode_username_absorb |].
  by repeat match goal with |- context [if ?c then _ else _] => destruct c end.
Qed.

Lemma two_octets a b l : octets_ok (a :: b :: l) -> octets_ok [a; b].
Proof. intros H. change (a :: b :: l) with ([a; b] ++ l) in H. by apply Forall_app in H as [? _]. Qed.

Lemma read_u16_at data pos a b rest :
  octets_ok data -> 0 <= pos -> zdrop pos data = a :: b :: rest ->
  ngx_rtc_stun_read_u16 data pos = Ret (be_dec [a; b]).
Proof.
  intros Hok Hp Hd. unfold ngx_rtc_stun_read_u16.
  pose proof (load_zdrop data pos 0 Hp ltac:(lia)) as L0. rewrite Z.add_0_r in L0.
  pose proof (load_zdrop data pos 1 Hp ltac:(lia)) as L1.
  rewrite Hd in L0, L1. rewrite <- L0, <- L1. cbn [load]. rewrite load_0, bind_Ret.
  change (load (a :: b :: rest) 1) with (Ret b). rewrite bind_Ret.
  assert (Hab : octets_ok [a; b]).
  { assert (Hz : octets_ok (zdrop pos data)) by (by apply Forall_drop). rewrite Hd in Hz.
    by eapply two_octets. }
  apply Forall_cons in Hab as [Ha [Hb _]%Forall_cons]. unfold is_u8 in *. f_equal.
  rewrite lor_shiftl by lia. cbn. wraps.
Qed.

Lemma zdrop_cons4 {A} pos (data : list A) a b c d rest :
  0 <= pos -> zdrop pos data = a :: b :: c :: d :: rest ->
  zdrop (pos + 2) data = c :: d :: rest /\ zdrop (pos + 4) data = rest /\ pos + 4 + zlen rest = zlen data.
Proof.
  intros Hp Hd. pose proof (zlen_nonneg rest).
  assert (Hl : pos + 4 + zlen rest = zlen data).
  { assert (Hz : zlen (zdrop pos data) = 4 + zlen rest) by (rewrite Hd, !zlen_cons; lia).
    destruct (Z.le_gt_cases pos (zlen data)); [rewrite zlen_zdrop in Hz; lia |].
    rewrite zdrop_all in Hd by lia. done. }
  split_and!; [| | done]; rewrite <- zdrop_zdrop by lia; by rewrite Hd.
Qed.

Lemma padding_spec n : 0 <= n -> 0 <= padding n < 4.
Proof. intros. unfold padding. apply Z.mod_pos_bound. lia. Qed.

Lemma next_pos p l :
  0 <= l -> (if l mod 4 =? 0 then p + l else p + l + (4 - l mod 4)) = p + l + padding l.
Proof. intros Hl. unfold padding. pose proof (Z.mod_pos_bound l 4). zcase; Z.div_mod_to_equations; lia. Qed.

(** The return code of a decoder. *)
Definition code {A} (o : option A) : Z := match o with Some _ => 0 | None => -1 end.

Lemma decode_loop_attrs fuel : forall s data pos b,
  octets_ok data -> ufrags_ok s -> 0 <= pos -> zdrop pos data = b -> zlen b < 4 * (Z.of_nat fuel + 1) ->
  exists s', decode_loop fuel s data (zlen data) pos
    = Ret (code (attrs_of fuel b), s') /\ ufrags_ok s' /\
    forall l, attrs_of fuel b = Some l -> s' = absorb_all s pos l.
Proof.
  induction fuel as [| fuel IH]; intros s data pos b Hok Hs Hp Hb Hf.
  all: destruct b as [| t1 [| t2 [| l1 [| l2 b]]]];
    try (exists s; split;
      [unfold decode_loop; fold decode_loop; destruct (Z.leb_spec (pos + 4) (zlen data)) as [Hle | _]; [| done];
       exfalso; assert (Hz : zlen (zdrop pos data) = zlen data - pos) by (rewrite zlen_zdrop; lia);
       rewrite Hb, ?zlen_cons, zlen_nil in Hz; lia
      | split; [done |]; by intros l [= <-]]).
  { rewrite !zlen_cons in Hf. pose proof (zlen_nonneg b). lia. }
  destruct (zdrop_cons4 pos data _ _ _ _ _ Hp Hb) as (H2 & H4 & Hlen).
  cbn [decode_loop attrs_of]. pose proof (zlen_nonneg b).
  destruct (Z.leb_spec (pos + 4) (zlen data)); [| lia].
  rewrite (read_u16_at data pos t1 t2 _ Hok Hp Hb), bind_Ret.
  rewrite (read_u16_at data (pos + 2) l1 l2 _ Hok ltac:(lia) H2), bind_Ret. cbv zeta.
  set (t := be_dec [t1; t2]). set (l := be_dec [l1; l2]).
  assert (Hl : 0 <= l).
  { apply be_dec_range. assert (Hz : octets_ok (zdrop (pos + 2) data)) by (by apply Forall_drop).
    rewrite H2 in Hz. by eapply two_octets. }
  destruct (Z.ltb_spec (zlen b) l) as [Hover | Hfit].
  { exists s. destruct (Z.ltb_spec (zlen data) (pos + 4 + l)); [by split | lia]. }
  destruct (Z.ltb_spec (zlen data) (pos + 4 + l)); [lia |].
  assert (Hv : zlen (ztake l b) = l) by (rewrite zlen_ztake; lia).
  pose proof (decode_attribute_absorb s data (pos + 4) t (ztake l b)) as Hd. rewrite Hv, H4 in Hd.
  rewrite Hd, bind_Ret by (done || lia).
  rewrite next_pos by done. pose proof (padding_spec l Hl).
  destruct (IH (absorb s (pos + 4) (t, ztake l b)) data (pos + 4 + l + padding l) (zdrop (l + padding l) b))
    as (s' & E & Hs' & Habs).
  - done.
  - by apply absorb_ufrags.
  - lia.
  - rewrite <- H4, zdrop_zdrop by lia. f_equal. lia.
  - rewrite !zlen_cons in Hf. destruct (Z.le_gt_cases (l + padding l) (zlen b)).
    + rewrite zlen_zdrop by lia. lia.
    + rewrite zdrop_all, zlen_nil by lia. lia.
  - exists s'. rewrite E. split; [by destruct (attrs_of _ _) |]. split; [done |].
    destruct (attrs_of fuel _) as [rest |]; [| done]. intros k Hk.
    change (Some ((t, ztake l b) :: rest) = Some k) in Hk. injection Hk as <-.
    rewrite (Habs rest eq_refl). cbn [absorb_all snd]. by rewrite Hv.
Qed.

(** The message [b] is a header whose length field is right; then its attributes, or None. *)
Definition parse (b : octets) : option (Z * octets * list attribute) :=
  if (zlen b <? 20) || negb (20 + be_dec (ztake 2 (zdrop 2 b)) =? zlen b) then None
  else l ← attrs_of (Z.to_nat (zlen b / 4)) (zdrop 20 b); Some (be_dec (ztake 2 b), ztake 12 (zdrop 8 b), l).

Definition understood (t : Z) (tid : octets) (l : list attribute) : ngx_rtc_stun_t :=
  absorb_all (zero_stun |> set_type t |> set_transaction_id tid) 20 l.

Lemma decode_exact s data :
  octets_ok data ->
  exists s', ngx_rtc_stun_decode (Ref s) (Ref data) (zlen data) = Ret (code (parse data), Ref s') /\
    ufrags_ok s' /\ forall t tid l, parse data = Some (t, tid, l) -> s' = understood t tid l.
Proof.
  intros Hok. unfold ngx_rtc_stun_decode, parse, NGX_RTC_STUN_HEADER_LEN.
  assert (Hz0 : ufrags_ok zero_stun) by done.
  destruct (Z.ltb_spec (zlen data) 20) as [Hs | Hlen]; cbn [orb].
  { exists zero_stun. by split_and!. }
  destruct data as [| t1 [| t2 [| l1 [| l2 d]]]]; try (exfalso; rewrite ?zlen_cons, zlen_nil in Hlen; lia).
  set (data := t1 :: t2 :: l1 :: l2 :: d) in *.
  rewrite (read_u16_at data 0 t1 t2 (l1 :: l2 :: d) Hok) by done. rewrite bind_Ret.
  rewrite (read_u16_at data 2 l1 l2 d Hok) by done. rewrite bind_Ret.
  change (ztake 2 (zdrop 2 data)) with [l1; l2]. change (ztake 2 data) with [t1; t2].
  destruct (20 + be_dec [l1; l2] =? zlen data) eqn:El; cbn [negb].
  2: { eexists. by split_and!. }
  rewrite load_range_in, bind_Ret by lia.
  destruct (decode_loop_attrs (Z.to_nat (zlen data / 4))
              (zero_stun |> set_type (be_dec [t1; t2]) |> set_transaction_id (ztake 12 (zdrop 8 data)))
              data 20 (zdrop 20 data) Hok) as (s' & E & Hs' & Habs).
  - done.
  - lia.
  - done.
  - rewrite zlen_zdrop by lia. rewrite Z2Nat.id by (apply Z.div_pos; lia).
    pose proof (Z.mod_pos_bound (zlen data) 4). pose proof (Z.div_mod (zlen data) 4). lia.
  - rewrite E, bind_Ret. exists s'. split; [by destruct (attrs_of _ _) |]. split; [done |].
    destruct (attrs_of _ _) as [l |]; [| done]. cbn. intros t tid k [= <- <- <-]. by apply Habs.
Qed.

(** ** Messages on the wire *)

Definition attr_octets (a : attribute) : octets :=
  be_enc 2 a.1 ++ be_enc 2 (zlen a.2) ++ a.2 ++ zeros (padding (zlen a.2)).

Definition body (l : list attribute) : octets := concat (attr_octets <$> l).

(** Header with length field [n], a body, and what follows it in the buffer. *)
Definition frame (t n : Z) (tid b rest : octets) : octets :=
  be_enc 2 t ++ be_enc 2 n ++ be_enc 4 NGX_RTC_STUN_MAGIC_COOKIE ++ tid ++ b ++ rest.

Definition message (t : Z) (tid : octets) (l : list attribute) : octets :=
  frame t (zlen (body l)) tid (body l) [].

Definition attr_ok (a : attribute) : Prop := is_u16 a.1 /\ octets_ok a.2 /\ is_u16 (zlen a.2).

Lemma zlen_attr_octets a : zlen (attr_octets a) = 4 + zlen a.2 + padding (zlen a.2).
Proof.
  pose proof (padding_spec (zlen a.2) (zlen_nonneg _)). unfold attr_octets. zl.
Qed.

Lemma zlen_message_frame t n tid b rest : zlen tid = 12 -> zlen (frame t n tid b rest) = 20 + zlen b + zlen rest.
Proof. intros H. unfold frame. rewrite !zlen_app, !zlen_be_enc, H. lia. Qed.

Lemma be_enc_two v : exists a b, be_enc 2 v = [a; b].
Proof. by eexists _, _. Qed.

Lemma be_dec_enc_2 v : is_u16 v -> be_dec (be_enc 2 v) = v.
Proof. intros H. rewrite be_dec_enc. apply Z.mod_small. unfold is_u16 in H. simpl. lia. Qed.

Lemma attrs_of_body fuel : forall l,
  Forall attr_ok l -> zlen (body l) < 4 * (Z.of_nat fuel + 1) -> attrs_of fuel (body l) = Some l.
Proof.
  induction fuel as [| fuel IH]; intros [| a l] Hl Hf; try done.
  all: pose proof (zlen_nonneg (body l)) as Hb; pose proof (padding_spec (zlen a.2) (zlen_nonneg _)) as Hp;
    assert (Hbl : zlen (body (a :: l)) = 4 + zlen a.2 + padding (zlen a.2) + zlen (body l))
      by (unfold body; cbn [fmap list_fmap concat]; by rewrite zlen_app, zlen_attr_octets);
    pose proof (zlen_nonneg a.2).
  { lia. }
  apply Forall_cons in Hl as [(Ht & Hv & Hz) Hl]. rewrite Hbl in Hf.
  unfold body. cbn [fmap list_fmap concat]. fold (body l). unfold attr_octets.
  destruct (be_enc_two a.1) as (t1 & t2 & Et), (be_enc_two (zlen a.2)) as (l1 & l2 & El).
  pose proof (be_dec_enc_2 _ Ht) as Dt. pose proof (be_dec_enc_2 _ Hz) as Dl.
  rewrite Et in *. rewrite El in *. cbn [app]. cbn [attrs_of]. rewrite Dl, Dt, <- !app_assoc.
  rewrite zlen_app. pose proof (zlen_nonneg (zeros (padding (zlen a.2)) ++ body l)).
  destruct (Z.ltb_spec (zlen a.2 + zlen (zeros (padding (zlen a.2)) ++ body l)) (zlen a.2)); [lia |].
  rewrite ztake_app_length by done.
  assert (Hd : zdrop (zlen a.2 + padding (zlen a.2)) (a.2 ++ zeros (padding (zlen a.2)) ++ body l) = body l).
  { rewrite app_assoc. apply zdrop_app_length. rewrite zlen_app, zlen_zeros; lia. }
  rewrite Hd, IH by (done || lia). by destruct a.
Qed.

Lemma parse_frame t n tid b :
  zlen tid = 12 -> is_u16 t -> is_u16 n ->
  parse (frame t n tid b [])
  = if negb (20 + n =? 20 + zlen b) then None
    else l ← attrs_of (Z.to_nat ((20 + zlen b) / 4)) b; Some (t, tid, l).
Proof.
  intros Htid Ht Hn. unfold parse. rewrite zlen_message_frame, zlen_nil, Z.add_0_r by done.
  pose proof (zlen_nonneg b). destruct (Z.ltb_spec (20 + zlen b) 20); [lia |]. cbn [orb].
  assert (H2 : ztake 2 (frame t n tid b []) = be_enc 2 t) by (unfold frame; by apply ztake_app_length).
  assert (H4 : zdrop 2 (frame t n tid b []) = be_enc 2 n ++ be_enc 4 NGX_RTC_STUN_MAGIC_COOKIE ++ tid ++ b ++ [])
    by (unfold frame; by apply zdrop_app_length).
  assert (H8 : zdrop 8 (frame t n tid b []) = tid ++ b ++ []).
  { unfold frame. rewrite !app_assoc, <- (app_assoc _ tid), <- (app_assoc _ (tid ++ b)), <- (app_assoc tid).
    by apply zdrop_app_length. }
  assert (H20 : zdrop 20 (frame t n tid b []) = b).
  { replace 20 with (8 + 12) by lia. rewrite <- zdrop_zdrop, H8 by lia. rewrite app_nil_r.
    by apply zdrop_app_length. }
  rewrite H2, H4, H8, H20. rewrite ztake_app_length, !be_dec_enc_2 by done.
  by rewrite ztake_app_length.
Qed.

Lemma parse_message t tid l :
  is_u16 t -> zlen tid = 12 -> Forall attr_ok l -> is_u16 (zlen (body l)) ->
  parse (message t tid l) = Some (t, tid, l).
Proof.
  intros Ht Htid Hl Hb. unfold message. rewrite parse_frame, Z.eqb_refl by done. cbn [negb].
  rewrite attrs_of_body; [done | done |]. unfold is_u16 in Hb.
  rewrite Z2Nat.id by (apply Z.div_pos; lia).
  pose proof (Z.mod_pos_bound (20 + zlen (body l)) 4). pose proof (Z.div_mod (20 + zlen (body l)) 4). lia.
Qed.

Lemma message_octets t tid l : octets_ok tid -> Forall attr_ok l -> octets_ok (message t tid l).
Proof.
  intros Htid Hl. unfold message, frame, octets_ok. rewrite !Forall_app.
  split_and!; try apply be_enc_ok; [done | | done].
  unfold body. induction Hl as [| a l (_ & Ha & _) _ IH]; [constructor |]. cbn [fmap list_fmap concat].
  apply Forall_app. split; [| done]. unfold attr_octets. rewrite !Forall_app.
  split_and!; [apply be_enc_ok | apply be_enc_ok | done |]. by apply Forall_replicate.
Qed.

(** *** Writing into the buffer *)

Lemma write_u16_eq p off v :
  0 <= off -> off + 2 <= zlen p -> ngx_rtc_stun_write_u16 p off v = store_range p off (be_enc 2 v).
Proof.
  intros H1 H2. unfold ngx_rtc_stun_write_u16. rewrite stores_store_range by (rewrite ?zlen_cons, ?zlen_nil; lia).
  f_equal. rewrite <- be_enc_2. unfold u8. by rewrite !land_255, Z.mod_mod.
Qed.

Lemma write_u32_eq p off v :
  0 <= off -> off + 4 <= zlen p -> ngx_rtc_stun_write_u32 p off v = store_range p off (be_enc 4 v).
Proof.
  intros H1 H2. unfold ngx_rtc_stun_write_u32. rewrite stores_store_range by (rewrite ?zlen_cons, ?zlen_nil; lia).
  f_equal. rewrite <- be_enc_4. unfold u8. by rewrite !land_255, !Z.mod_mod.
Qed.

Lemma frame_append t n tid b rest v off :
  zlen tid = 12 -> off = 20 + zlen b -> zlen v <= zlen rest ->
  store_range (frame t n tid b rest) off v = Ret (frame t n tid (b ++ v) (zdrop (zlen v) rest)).
Proof.
  intros Htid -> Hv. unfold frame. rewrite !app_assoc. rewrite store_range_cursor; [| | done].
  - by rewrite <- !app_assoc.
  - rewrite !zlen_app, !zlen_be_enc. lia.
Qed.

Lemma frame_u16 t n tid b rest v off :
  zlen tid = 12 -> off = 20 + zlen b -> 2 <= zlen rest ->
  ngx_rtc_stun_write_u16 (frame t n tid b rest) off v = Ret (frame t n tid (b ++ be_enc 2 v) (zdrop 2 rest)).
Proof.
  intros Htid -> Hr. pose proof (zlen_nonneg b). rewrite write_u16_eq by (rewrite ?zlen_message_frame by done; lia).
  by apply frame_append.
Qed.

Lemma frame_u32 t n tid b rest v off :
  zlen tid = 12 -> off = 20 + zlen b -> 4 <= zlen rest ->
  ngx_rtc_stun_write_u32 (frame t n tid b rest) off v = Ret (frame t n tid (b ++ be_enc 4 v) (zdrop 4 rest)).
Proof.
  intros Htid -> Hr. pose proof (zlen_nonneg b). rewrite write_u32_eq by (rewrite ?zlen_message_frame by done; lia).
  by apply frame_append.
Qed.

Lemma frame_stores t n tid b rest v off :
  zlen tid = 12 -> off = 20 + zlen b -> zlen v <= zlen rest ->
  stores (frame t n tid b rest) off v = Ret (frame t n tid (b ++ v) (zdrop (zlen v) rest)).
Proof.
  intros Htid -> Hv. pose proof (zlen_nonneg b).
  pose proof (zlen_message_frame t n tid b rest Htid). pose proof (zlen_nonneg v).
  rewrite stores_store_range by lia. by apply frame_append.
Qed.

Lemma frame_rest t n tid b rest : frame t n tid b rest = frame t n tid b [] ++ rest.
Proof. unfold frame. by rewrite app_nil_r, <- !app_assoc. Qed.

Lemma frame_patch t n tid b rest v :
  zlen tid = 12 -> ngx_rtc_stun_write_u16 (frame t n tid b rest) 2 v = Ret (frame t v tid b rest).
Proof.
  intros Htid. pose proof (zlen_nonneg b). pose proof (zlen_nonneg rest).
  rewrite write_u16_eq by (rewrite ?zlen_message_frame by done; lia). unfold frame.
  rewrite (store_range_app (be_enc 2 t) (be_enc 2 n)); [done | done | by rewrite !zlen_be_enc].
Qed.

Lemma frame_load t n tid b rest m :
  zlen tid = 12 -> m = 20 + zlen b -> load_range (frame t n tid b rest) 0 m = Ret (frame t n tid b []).
Proof.
  intros Htid ->. unfold frame at 1. rewrite !app_assoc, load_range_prefix.
  - unfold frame. by rewrite app_nil_r, <- !app_assoc.
  - rewrite !zlen_app, !zlen_be_enc. lia.
Qed.

Lemma frame_ztake t n tid b c m :
  zlen tid = 12 -> m = 20 + zlen b -> ztake m (frame t n tid (b ++ c) []) = frame t n tid b [].
Proof.
  intros Htid ->. unfold frame. rewrite !app_nil_r, !app_assoc. apply ztake_app_length.
  rewrite !zlen_app, !zlen_be_enc. lia.
Qed.

Lemma frame_start o t tid :
  zlen tid = 12 -> 20 <= zlen o ->
  (o ← ngx_rtc_stun_write_u16 o 0 t; o ← ngx_rtc_stun_write_u16 o 2 0;
   o ← ngx_rtc_stun_write_u32 o 4 NGX_RTC_STUN_MAGIC_COOKIE; store_range o 8 tid)
  = Ret (frame t 0 tid [] (zdrop 20 o)).
Proof.
  intros Htid Ho.
  assert (exists a b c d r, o = a ++ b ++ c ++ d ++ r /\ zlen a = 2 /\ zlen b = 2 /\ zlen c = 4 /\ zlen d = 12)
    as (a & b & c & d & r & -> & Ha & Hb & Hc & Hd).
  { exists (ztake 2 o), (ztake 2 (zdrop 2 o)), (ztake 4 (zdrop 4 o)), (ztake 12 (zdrop 8 o)), (zdrop 20 o).
    split.
    - replace 20 with (8 + 12) at 1 by lia. rewrite <- (zdrop_zdrop 12 8) by lia. rewrite ztake_zdrop.
      replace 8 with (4 + 4) at 1 by lia. rewrite <- (zdrop_zdrop 4 4) by lia. rewrite ztake_zdrop.
      replace 4 with (2 + 2) at 1 by lia. rewrite <- (zdrop_zdrop 2 2) by lia. by rewrite !ztake_zdrop.
    - repeat split; rewrite zlen_ztake; rewrite ?zlen_zdrop; lia. }
  pose proof (zlen_nonneg r). rewrite write_u16_eq by (rewrite ?zlen_app; lia).
  rewrite (store_range_app [] a (b ++ c ++ d ++ r)) by (done || (rewrite zlen_be_enc; lia)). rewrite bind_Ret, app_nil_l.
  rewrite write_u16_eq by (rewrite ?zlen_app, ?zlen_be_enc; lia).
  rewrite store_range_app by (rewrite ?zlen_be_enc; lia). rewrite bind_Ret.
  rewrite app_assoc, write_u32_eq by (rewrite ?zlen_app, ?zlen_be_enc; lia).
  rewrite store_range_app by (rewrite ?zlen_app, ?zlen_be_enc; lia). rewrite bind_Ret.
  rewrite app_assoc, store_range_app by (rewrite ?zlen_app, ?zlen_be_enc; lia).
  unfold frame. rewrite app_nil_l, <- !app_assoc.
  assert (Hz : zdrop 20 (a ++ b ++ c ++ d ++ r) = r).
  { rewrite !app_assoc. apply zdrop_app_length. rewrite !zlen_app. lia. }
  by rewrite Hz.
Qed.

(** ** The ufrags of a decoded request *)

(** The strings in the ufrag buffers: no terminator inside, no colon in the local one. *)
Record named (s : ngx_rtc_stun_t) (l r : octets) : Prop := {
  nm_local : c_str (local_ufrag s) = Ret l;
  nm_remote : c_str (remote_ufrag s) = Ret r;
  nm_colon : (58 ∉ l);
  nm_len : zlen l <= 16 /\ zlen r <= 16;
  nm_octets : octets_ok l /\ octets_ok r
}.

Lemma c_str_app u t : (0 ∉ u) -> c_str (u ++ 0 :: t) = Ret u.
Proof.
  induction u as [| x u IH]; intros H; [done |]. apply not_elem_of_cons in H as [Hx Hu].
  cbn [app c_str]. destruct (Z.eqb_spec x 0); [congruence |]. by rewrite IH, bind_Ret.
Qed.

Lemma c_str_nonzero p u : c_str p = Ret u -> (0 ∉ u).
Proof.
  revert u. induction p as [| x p IH]; intros u; [done |]. cbn [c_str]. destruct (Z.eqb_spec x 0) as [| Hx].
  - intros [= <-]. apply not_elem_of_nil.
  - destruct (c_str p) as [v |]; [| done]. rewrite bind_Ret. intros [= <-].
    apply not_elem_of_cons. split; [congruence | by apply IH].
Qed.

Lemma c_str_prefix u t : exists v, c_str (u ++ 0 :: t) = Ret v /\ v `prefix_of` u.
Proof.
  induction u as [| x u (v & E & Hv)]; [by exists [] |]. cbn [app c_str].
  destruct (x =? 0); [exists []; split; [done | apply prefix_nil] |].
  rewrite E, bind_Ret. exists (x :: v). split; [done | by apply prefix_cons].
Qed.

Lemma colon_at_before u k : colon_at u = Some k -> (58 ∉ ztake k u).
Proof.
  revert k. induction u as [| x u IH]; intros k; [done |]. cbn [colon_at].
  destruct (Z.eqb_spec x 58) as [| Hx]; [intros [= <-]; apply not_elem_of_nil |].
  destruct (x =? 0); [done |]. destruct (colon_at u) as [j |] eqn:Ej; [| done]. intros [= <-].
  pose proof (colon_at_bound u j Ej). unfold ztake. replace (Z.to_nat (Z.succ j)) with (S (Z.to_nat j)) by lia.
  cbn [take]. apply not_elem_of_cons. split; [congruence | by apply IH].
Qed.

Lemma place_named dst v :
  octets_ok v -> exists w, c_str (place dst v) = Ret w /\ w `prefix_of` v /\ zlen w <= 16 /\ octets_ok w.
Proof.
  intros Hv. unfold place. cbv zeta. destruct (c_str_prefix (ztake 16 v) (zdrop (zlen (ztake 16 v) + 1) dst))
    as (w & E & Hw).
  exists w. split; [done |]. split_and!.
  - etrans; [exact Hw |]. apply prefix_take.
  - apply prefix_length in Hw. unfold zlen, ztake in *. rewrite length_take in Hw. lia.
  - destruct Hw as [t Ht]. assert (Hk : octets_ok (ztake 16 v)) by (by apply Forall_take).
    rewrite Ht in Hk. by apply Forall_app in Hk as [? _].
Qed.

Lemma absorb_named s pos a l r :
  octets_ok a.2 -> named s l r -> exists l' r', named (absorb s pos a) l' r'.
Proof.
  intros Ha Hs. destruct a as [t v]. cbn [snd] in Ha. unfold absorb.
  destruct (t =? NGX_RTC_STUN_ATTR_USERNAME).
  2: { exists l, r. destruct Hs. by repeat match goal with |- context [if ?c then _ else _] => destruct c end. }
  unfold absorb_username. cbv zeta. assert (Hu : octets_ok (ztake 33 v)) by (by apply Forall_take).
  destruct (colon_at (ztake 33 v)) as [k |] eqn:Ek; [| by exists l, r].
  destruct (place_named (local_ufrag s) (ztake k (ztake 33 v))) as (l' & El & Hl & Hl16 & Hlo); [by apply Forall_take |].
  destruct (place_named (remote_ufrag s) (zdrop (k + 1) (ztake 33 v))) as (r' & Er & Hr & Hr16 & Hro);
    [by apply Forall_drop |].
  exists l', r'. split; try done. intros Hin. apply (colon_at_before _ _ Ek).
  destruct Hl as [rest Hl]. rewrite Hl. apply elem_of_app. by left.
Qed.

Lemma absorb_all_named attrs : forall s pos l r,
  Forall (fun a => octets_ok a.2) attrs -> named s l r -> exists l' r', named (absorb_all s pos attrs) l' r'.
Proof.
  induction attrs as [| a attrs IH]; intros s pos l r Ha Hs; [by exists l, r |].
  apply Forall_cons in Ha as [Ha Hat]. destruct (absorb_named s (pos + 4) a l r Ha Hs) as (l1 & r1 & Hs1).
  by apply (IH _ _ l1 r1).
Qed.

Lemma attrs_of_octets fuel : forall b l,
  octets_ok b -> attrs_of fuel b = Some l -> Forall (fun a => octets_ok a.2) l.
Proof.
  induction fuel as [| fuel IH]; intros b l Hb; destruct b as [| t1 [| t2 [| l1 [| l2 b]]]]; cbn [attrs_of];
    try (by intros [= <-]); (destruct (zlen b <? _); [done |]); [done |].
  assert (Hb' : octets_ok b) by (by do 4 apply Forall_cons in Hb as [_ Hb]).
  destruct (attrs_of fuel _) as [rest |] eqn:E; [| done]. intros [= <-]. constructor.
  - by apply Forall_take.
  - eapply IH; [| exact E]. by apply Forall_drop.
Qed.

Lemma understood_named data t tid l :
  octets_ok data -> parse data = Some (t, tid, l) -> exists lu ru, named (understood t tid l) lu ru.
Proof.
  intros Hok. unfold parse. destruct (_ || _); [done |].
  destruct (attrs_of _ _) as [l' |] eqn:E; [| done]. cbn. intros [= <- <- <-].
  apply (absorb_all_named _ _ _ [] []).
  - eapply attrs_of_octets; [| exact E]. by apply Forall_drop.
  - split; try done; [apply not_elem_of_nil | split; constructor].
Qed.

Lemma understood_tid t tid l : transaction_id (understood t tid l) = tid /\ type (understood t tid l) = t.
Proof.
  unfold understood. set (s := _ |> set_transaction_id tid).
  assert (Hs : transaction_id s = tid /\ type s = t) by done. revert Hs. generalize 20, s.
  induction l as [| a l IH]; intros pos s' Hs; [done |]. cbn [absorb_all]. apply IH.
  destruct a as [u v]. unfold absorb, absorb_username.
  repeat match goal with |- context [if ?c then _ else _] => destruct c end;
    try (destruct (colon_at _)); done.
Qed.

(** ** The response *)

(** The attributes of a response, given the two things computed over what precedes them. *)
Definition answer_head (l r : octets) (addr port : Z) : list attribute :=
  [(NGX_RTC_STUN_ATTR_USERNAME, l ++ [58] ++ r);
   (NGX_RTC_STUN_ATTR_XOR_MAPPED_ADDR,
    [0; 1] ++ be_enc 2 (Z.lxor port 0x2112) ++ be_enc 4 (Z.lxor addr NGX_RTC_STUN_MAGIC_COOKIE))].
Definition answer (l r : octets) (addr port : Z) (mac : octets) (crc : Z) : list attribute :=
  answer_head l r addr port ++
  [(NGX_RTC_STUN_ATTR_MESSAGE_INTEGRITY, mac); (NGX_RTC_STUN_ATTR_FINGERPRINT, be_enc 4 crc)].

(** What the HMAC of a message covers, whose value is at [off]: the octets before its header,
    with the length field set to end there. *)
Definition covered (off : Z) (data : octets) : octets :=
  ztake (off - 4) (ztake 2 data ++ be_enc 2 off ++ zdrop 4 data).

Lemma zlen_answer_head l r addr port :
  zlen l <= 16 -> zlen r <= 16 ->
  let u := l ++ [58] ++ r in
  zlen (body (answer_head l r addr port)) = 4 + zlen u + padding (zlen u) + 12 /\
  1 <= zlen u <= 33.
Proof.
  intros Hl Hr u. pose proof (zlen_nonneg l). pose proof (zlen_nonneg r).
  assert (Hu : zlen u = zlen l + 1 + zlen r) by (unfold u; rewrite !zlen_app, zlen_cons, zlen_nil; lia).
  split; [| lia]. unfold answer_head, body. cbn [fmap list_fmap concat]. fold u.
  set (v := [0; 1] ++ _). assert (Hv : zlen v = 8) by (unfold v; by rewrite !zlen_app, !zlen_be_enc).
  rewrite app_nil_r, zlen_app, !zlen_attr_octets. cbn [snd]. rewrite Hv. change (padding 8) with 0. lia.
Qed.

(** The two attributes of the head, written one field after the other, whatever follows. *)
Lemma write_head {A} (k : octets -> outcome A) t n tid rest u addr port :
  zlen tid = 12 -> 1 <= zlen u <= 33 -> 4 + zlen u + padding (zlen u) + 12 <= zlen rest ->
  let pos := 20 + 4 + zlen u + padding (zlen u) in
  (o ← ngx_rtc_stun_write_u16 (frame t n tid [] rest) 20 NGX_RTC_STUN_ATTR_USERNAME;
   o ← ngx_rtc_stun_write_u16 o (20 + 2) (zlen u);
   o ← store_range o (20 + 4) u;
   o ← store_range o (20 + 4 + zlen u) (zeros (padding (zlen u)));
   o ← ngx_rtc_stun_write_u16 o pos NGX_RTC_STUN_ATTR_XOR_MAPPED_ADDR;
   o ← ngx_rtc_stun_write_u16 o (pos + 2) 8;
   o ← stores o (pos + 4) [0; 1];
   o ← ngx_rtc_stun_write_u16 o (pos + 6) (u16 (Z.lxor port 0x2112));
   o ← ngx_rtc_stun_write_u32 o (pos + 8) (Z.lxor addr NGX_RTC_STUN_MAGIC_COOKIE);
   k o)
  = k (frame t n tid
         (attr_octets (NGX_RTC_STUN_ATTR_USERNAME, u) ++
          attr_octets (NGX_RTC_STUN_ATTR_XOR_MAPPED_ADDR,
            [0; 1] ++ be_enc 2 (Z.lxor port 0x2112) ++ be_enc 4 (Z.lxor addr NGX_RTC_STUN_MAGIC_COOKIE)))
         (zdrop (4 + zlen u + padding (zlen u) + 12) rest)).
Proof.
  intros Htid Hu Hr pos. pose proof (padding_spec (zlen u) ltac:(lia)) as Hp.
  rewrite frame_u16, bind_Ret by zl. rewrite frame_u16, bind_Ret by zl.
  rewrite frame_append, bind_Ret by zl. rewrite frame_append, bind_Ret by zl.
  rewrite frame_u16, bind_Ret by (unfold pos; zl). rewrite frame_u16, bind_Ret by (unfold pos; zl).
  rewrite frame_stores, bind_Ret by (unfold pos; zl). rewrite frame_u16, bind_Ret by (unfold pos; zl).
  rewrite frame_u32, bind_Ret by (unfold pos; zl). f_equal. f_equal.
  - unfold attr_octets. cbn [fst snd].
    change (be_enc 2 (u16 (Z.lxor port 0x2112))) with (be_enc 2 (Z.lxor port 0x2112 mod 256 ^ Z.of_nat 2)).
    rewrite be_enc_mod. set (p := be_enc 2 (Z.lxor port 0x2112)). rewrite !zlen_app, !zlen_be_enc.
    cbn. by rewrite <- !app_assoc.
  - rewrite !zlen_zeros, !zdrop_zdrop by zl. f_equal. zl.
Qed.

(** An attribute of which nothing is padded. *)
Lemma write_attr {A} (k : octets -> outcome A) t n tid b rest off ty v :
  zlen tid = 12 -> off = 20 + zlen b -> zlen v mod 4 = 0 -> zlen v < 65536 -> 4 + zlen v <= zlen rest ->
  (o ← ngx_rtc_stun_write_u16 (frame t n tid b rest) off ty;
   o ← ngx_rtc_stun_write_u16 o (off + 2) (u16 (zlen v));
   o ← store_range o (off + 4) v; k o)
  = k (frame t n tid (b ++ attr_octets (ty, v)) (zdrop (4 + zlen v) rest)).
Proof.
  intros Htid -> Hm Hv Hr. pose proof (zlen_nonneg v). rewrite (u16_small (zlen v)) by (unfold is_u16; lia).
  rewrite frame_u16, bind_Ret by zl. rewrite frame_u16, bind_Ret by zl. rewrite frame_append, bind_Ret by zl.
  f_equal. f_equal.
  - unfold attr_octets. cbn [fst snd]. unfold padding. rewrite Hm. change (zeros _) with (@nil Z).
    by rewrite app_nil_r, <- !app_assoc.
  - rewrite !zdrop_zdrop by zl. f_equal. lia.
Qed.

(** The checksum over a body, and the attribute that carries it. *)
Lemma write_fingerprint t n tid b rest :
  zlen tid = 12 -> zlen b < 2000 -> 8 <= zlen rest ->
  let all crc := b ++ attr_octets (NGX_RTC_STUN_ATTR_FINGERPRINT, be_enc 4 crc) in
  exists crc,
    crc = Z.lxor (ngx_rtc_crc32 (ztake (20 + zlen b) (frame t (zlen b + 8) tid (all crc) [])))
            NGX_RTC_STUN_FINGERPRINT_XOR /\
    (o ← ngx_rtc_stun_write_u16 (frame t n tid b rest) 2 (u16 (20 + zlen b - 20 + 8));
     m ← load_range o 0 (20 + zlen b);
     let crc := Z.lxor (ngx_rtc_crc32 m) NGX_RTC_STUN_FINGERPRINT_XOR in
     o ← ngx_rtc_stun_write_u16 o (20 + zlen b) NGX_RTC_STUN_ATTR_FINGERPRINT;
     o ← ngx_rtc_stun_write_u16 o (20 + zlen b + 2) 4;
     o ← ngx_rtc_stun_write_u32 o (20 + zlen b + 4) crc;
     o ← ngx_rtc_stun_write_u16 o 2 (u16 (20 + zlen b + 8 - 20));
     Ret (20 + zlen b + 8, Ref o))
    = Ret (20 + zlen b + 8, Ref (frame t (zlen b + 8) tid (all crc) (zdrop 8 rest))).
Proof.
  intros Htid Hb Hr all. pose proof (zlen_nonneg b).
  replace (20 + zlen b - 20 + 8) with (zlen b + 8) by lia. replace (20 + zlen b + 8 - 20) with (zlen b + 8) by lia.
  rewrite (u16_small (zlen b + 8)) by (unfold is_u16; lia).
  rewrite frame_patch, bind_Ret by done. rewrite frame_load, bind_Ret by (done || lia). cbv zeta.
  set (crc := Z.lxor (ngx_rtc_crc32 _) _). exists crc. split.
  { unfold all. by rewrite frame_ztake by (done || lia). }
  rewrite frame_u16, bind_Ret by zl. rewrite frame_u16, bind_Ret by zl. rewrite frame_u32, bind_Ret by zl.
  rewrite frame_patch, bind_Ret by done. unfold all, attr_octets. cbn [fst snd]. rewrite zlen_be_enc.
  rewrite !zdrop_zdrop by lia. cbn. by rewrite <- !app_assoc.
Qed.

(** ** The integrity check *)

Section verify.
Context (hmac : octets -> octets -> option octets).

(** The message authenticates itself under [pwd]. *)
Definition authentic (pwd : octets) (off : Z) (data : octets) : Prop :=
  zlen data <= 2048 /\ 4 <= off /\ off + 20 <= zlen data /\
  hmac pwd (covered off data) = Some (ztake 20 (zdrop off data)).

Lemma verify_exact s data pwd :
  has_message_integrity s <> 0 ->
  exists rc, ngx_rtc_stun_verify_request hmac (Ref s) (Ref data) (zlen data) (Ref pwd) = Ret rc /\
    (rc = 0 \/ rc = -1) /\ (rc = 0 <-> authentic pwd (message_integrity_offset s) data).
Proof.
  intros Hmi. unfold ngx_rtc_stun_verify_request, authentic. set (off := message_integrity_offset s).
  destruct (Z.eqb_spec (has_message_integrity s) 0); [done |].
  destruct (Z.ltb_spec 2048 (zlen data)); cbn [orb]; [exists (-1); split_and!; [done | by right | lia] |].
  destruct (Z.ltb_spec (zlen data) (off + 20)); cbn [orb]; [exists (-1); split_and!; [done | by right | lia] |].
  destruct (Z.ltb_spec off 4); [exists (-1); split_and!; [done | by right | lia] |].
  rewrite (load_range_in data 0), bind_Ret, zdrop_0, ztake_zlen by lia.
  rewrite (store_range_cursor [] (zeros 2048)), bind_Ret, app_nil_l by (rewrite ?zlen_zeros; lia || done).
  assert (Hd : data = ztake 2 data ++ ztake 2 (zdrop 2 data) ++ zdrop 4 data).
  { rewrite <- (zdrop_zdrop 2 2) by lia. by rewrite !ztake_zdrop. }
  assert (H2 : zlen (ztake 2 data) = 2 /\ zlen (ztake 2 (zdrop 2 data)) = 2)
    by (rewrite !zlen_ztake, zlen_zdrop; lia).
  rewrite write_u16_eq by (rewrite ?zlen_app, ?zlen_zdrop, ?zlen_zeros; pose proof (zlen_nonneg data); lia).
  set (z := zdrop (zlen data) (zeros 2048)).
  replace (data ++ z) with (ztake 2 data ++ ztake 2 (zdrop 2 data) ++ zdrop 4 data ++ z)
    by (rewrite Hd at 4; by rewrite <- !app_assoc).
  rewrite store_range_app, bind_Ret by (rewrite ?zlen_be_enc; lia).
  rewrite !app_assoc. set (x := (ztake 2 data ++ be_enc 2 off) ++ zdrop 4 data).
  assert (Hx : zlen x = zlen data) by (unfold x; rewrite !zlen_app, zlen_be_enc, zlen_zdrop by lia; lia).
  pose proof (zlen_nonneg z).
  rewrite (load_range_in (x ++ z) 0), bind_Ret, zdrop_0 by (rewrite ?zlen_app; lia). rewrite ztake_app_le by lia.
  assert (Hc : ztake (off - 4) x = covered off data) by (unfold covered, x; by rewrite <- app_assoc).
  rewrite Hc. assert (Hv : zlen (ztake 20 (zdrop off data)) = 20) by (rewrite zlen_ztake, ?zlen_zdrop; lia).
  destruct (hmac pwd (covered off data)) as [out |].
  2: { exists (-1). split_and!; [done | by right |]. split; [done |]. by intros (_ & _ & _ & [=]). }
  destruct (Z.eqb_spec (zlen out) 20) as [Ho | Ho]; cbn [negb].
  - rewrite load_range_in, bind_Ret by lia. case_bool_decide as Hb.
    + exists 0. split_and!; [done | by left |]. rewrite Hb. by split_and!.
    + exists (-1). split_and!; [done | by right |]. split; [done |]. intros (_ & _ & _ & [= ->]). done.
  - exists (-1). split_and!; [done | by right |]. split; [done |]. intros (_ & _ & _ & [= ->]). done.
Qed.
End verify.

Lemma frame_zdrop t n tid b c m :
  zlen tid = 12 -> m = 20 + zlen b -> zdrop m (frame t n tid (b ++ c) []) = c.
Proof.
  intros Htid ->. unfold frame. rewrite app_nil_r, !app_assoc. apply zdrop_app_length.
  rewrite !zlen_app, !zlen_be_enc. lia.
Qed.

Lemma frame_covered t n tid b c off :
  zlen tid = 12 -> off = 24 + zlen b -> covered off (frame t n tid (b ++ c) []) = frame t off tid b [].
Proof.
  intros Htid ->. unfold covered.
  assert (H2 : ztake 2 (frame t n tid (b ++ c) []) = be_enc 2 t) by (unfold frame; by apply ztake_app_length).
  assert (H4 : zdrop 4 (frame t n tid (b ++ c) []) = be_enc 4 NGX_RTC_STUN_MAGIC_COOKIE ++ tid ++ (b ++ c) ++ []).
  { unfold frame. rewrite app_assoc. by apply zdrop_app_length. }
  rewrite H2, H4. apply (frame_ztake t (24 + zlen b) tid b c); [done | lia].
Qed.

(** Only what precedes a MESSAGE-INTEGRITY, and its value, decides. *)
Lemma authentic_frame hmac pwd t n tid b mac c :
  zlen tid = 12 -> zlen mac = 20 ->
  let m := frame t n tid (b ++ attr_octets (NGX_RTC_STUN_ATTR_MESSAGE_INTEGRITY, mac) ++ c) [] in
  authentic hmac pwd (24 + zlen b) m <-> zlen m <= 2048 /\ hmac pwd (frame t (24 + zlen b) tid b []) = Some mac.
Proof.
  intros Htid Hmac m. pose proof (zlen_nonneg b). pose proof (zlen_nonneg c).
  assert (Hm : zlen m = 44 + zlen b + zlen c).
  { unfold m. rewrite zlen_message_frame, zlen_nil, !zlen_app, zlen_attr_octets by done. cbn [snd]. rewrite Hmac.
    change (padding 20) with 0. lia. }
  assert (Hc : covered (24 + zlen b) m = frame t (24 + zlen b) tid b []) by (by apply frame_covered).
  assert (Hv : ztake 20 (zdrop (24 + zlen b) m) = mac).
  { unfold m, attr_octets. cbn [fst snd]. rewrite Hmac. change (padding 20) with 0. change (zeros 0) with (@nil Z).
    rewrite app_nil_r, <- !app_assoc. rewrite (app_assoc b), (app_assoc (b ++ _)).
    rewrite frame_zdrop; [by apply ztake_app_length | done | rewrite !zlen_app, !zlen_be_enc; lia]. }
  unfold authentic. rewrite Hc, Hv. split; [by intros (? & _ & _ & ?) | intros [? ?]; split_and!; by try lia].
Qed.

Lemma zlen_parsed data t tid l : parse data = Some (t, tid, l) -> zlen tid = 12.
Proof.
  unfold parse. destruct (Z.ltb_spec (zlen data) 20); [done |]. cbn [orb]. destruct (negb _); [done |].
  destruct (attrs_of _ _); [| done]. cbn. intros [= _ <- _]. rewrite zlen_ztake, ?zlen_zdrop; lia.
Qed.

Lemma parsed_octets data t tid l : octets_ok data -> parse data = Some (t, tid, l) -> octets_ok tid.
Proof.
  intros Hok. unfold parse. destruct (_ || _); [done |]. destruct (attrs_of _ _); [| done]. cbn.
  intros [= _ <- _]. apply Forall_take. by apply Forall_drop.
Qed.

Lemma colon_at_app l r : (58 ∉ l) -> (0 ∉ l) -> colon_at (l ++ 58 :: r) = Some (zlen l).
Proof.
  induction l as [| x l IH]; [done |]. intros [H1 H1']%not_elem_of_cons [H2 H2']%not_elem_of_cons.
  cbn [app colon_at]. destruct (Z.eqb_spec x 58); [congruence |]. destruct (Z.eqb_spec x 0); [congruence |].
  rewrite IH by done. cbn. rewrite zlen_cons. f_equal. lia.
Qed.

(** A USERNAME of two short strings is read back as them. *)
Lemma absorb_pair s l r :
  (58 ∉ l) -> (0 ∉ l) -> (0 ∉ r) -> zlen l <= 16 -> zlen r <= 16 ->
  absorb_username s (l ++ [58] ++ r)
  = (s |> set_local_ufrag (place (local_ufrag s) l) |> set_remote_ufrag (place (remote_ufrag s) r)
       |> set_has_username 1) /\
  (forall dst, c_str (place dst l) = Ret l) /\ (forall dst, c_str (place dst r) = Ret r).
Proof.
  intros Hc H0l H0r Hl Hr. split.
  - unfold absorb_username. cbv zeta.
    rewrite (ztake_all 33) by (rewrite !zlen_app, zlen_cons, zlen_nil; lia).
    cbn [app]. rewrite colon_at_app by done. rewrite ztake_app_length by done.
    change (l ++ 58 :: r) with (l ++ [58] ++ r). rewrite app_assoc, zdrop_app_length; [done |].
    by rewrite zlen_app.
  - unfold place. split; intros dst; rewrite ztake_all by done; by apply c_str_app.
Qed.

Section response.
Context (hmac : octets -> octets -> option octets).
(** The digest of SHA-1 has 20 octets. *)
Context (pwd : octets) (Hsha1 : forall m, exists mac, hmac pwd m = Some mac /\ zlen mac = 20 /\ octets_ok mac).

Lemma encode_exact req l r addr port o :
  named req l r -> zlen (transaction_id req) = 12 -> has_username req <> 0 -> 128 <= zlen o ->
  let head := body (answer_head l r addr port) in
  exists mac crc,
    hmac pwd (frame NGX_RTC_STUN_BINDING_RESPONSE (zlen head + 24) (transaction_id req) head []) = Some mac /\
    zlen mac = 20 /\ octets_ok mac /\
    let m := message NGX_RTC_STUN_BINDING_RESPONSE (transaction_id req) (answer l r addr port mac crc) in
    crc = Z.lxor (ngx_rtc_crc32 (ztake (zlen m - 8) m)) NGX_RTC_STUN_FINGERPRINT_XOR /\
    ngx_rtc_stun_encode_binding_response hmac (Ref req) (Ref pwd) addr port (Ref o) (zlen o)
    = Ret (zlen m, Ref (m ++ zdrop (zlen m) o)).
Proof.
  intros Hn Htid Hu Ho head. destruct (nm_len _ _ _ Hn) as [Hl Hr].
  destruct (zlen_answer_head l r addr port Hl Hr) as [Hhead Hul].
  fold head in Hhead. set (u := l ++ [58] ++ r) in *.
  pose proof (padding_spec (zlen u) ltac:(lia)) as Hpad.
  unfold ngx_rtc_stun_encode_binding_response.
  destruct (Z.ltb_spec (zlen o) 128); [lia |]. destruct (Z.eqb_spec (has_username req) 0); [done |].
  pose proof (frame_start o NGX_RTC_STUN_BINDING_RESPONSE (transaction_id req) Htid ltac:(lia)) as Hstart.
  destruct (ngx_rtc_stun_write_u16 o 0 _) as [o1 |]; [rewrite bind_Ret in Hstart; rewrite bind_Ret | done].
  destruct (ngx_rtc_stun_write_u16 o1 2 0) as [o2 |]; [rewrite bind_Ret in Hstart; rewrite bind_Ret | done].
  destruct (ngx_rtc_stun_write_u32 o2 4 _) as [o3 |]; [rewrite bind_Ret in Hstart; rewrite bind_Ret | done].
  rewrite Hstart, bind_Ret. clear Hstart o1 o2 o3. cbv zeta. unfold NGX_RTC_STUN_HEADER_LEN.
  assert (He : echo_username req = Ret u).
  { unfold echo_username. rewrite (nm_local _ _ _ Hn), (nm_remote _ _ _ Hn), !bind_Ret. fold u.
    destruct (Z.leb_spec 128 (zlen u)); [lia |]. by rewrite ztake_zlen. }
  rewrite He, bind_Ret. fold (padding (zlen u)).
  assert (Hrest : zlen (zdrop 20 o) = zlen o - 20) by (rewrite zlen_zdrop; lia).
  set (rest := zdrop 20 o) in *. set (tid := transaction_id req) in *.
  destruct (Z.ltb_spec (zlen o - 20) (4 + zlen u + padding (zlen u))); [lia |].
  rewrite (u16_small (zlen u)) by (unfold is_u16; lia).
  destruct (Z.ltb_spec (zlen o - (20 + 4 + zlen u + padding (zlen u))) 12); [lia |].
  change (NGX_RTC_STUN_MAGIC_COOKIE ≫ 16) with 0x2112. rewrite write_head by (done || lia).
  fold u. replace (_ ++ _) with head by (unfold head, body; cbn; by rewrite app_nil_r).
  replace (20 + 4 + zlen u + padding (zlen u) + 12) with (20 + zlen head) by lia.
  set (rest1 := zdrop _ rest). assert (Hr1 : rest1 = zdrop (20 + zlen head) o)
    by (unfold rest1, rest; rewrite zdrop_zdrop by lia; f_equal; lia).
  assert (Hl1 : zlen rest1 = zlen o - 20 - zlen head) by (rewrite Hr1, zlen_zdrop; lia).
  rewrite frame_patch, bind_Ret by done. rewrite (u16_small (20 + zlen head - 20 + 24)) by (unfold is_u16; lia).
  replace (20 + zlen head - 20 + 24) with (zlen head + 24) by lia.
  rewrite frame_load, bind_Ret by (done || lia).
  destruct (Hsha1 (frame NGX_RTC_STUN_BINDING_RESPONSE (zlen head + 24) tid head [])) as (mac & Emac & Hmac & Hmo).
  rewrite Emac. destruct (Z.ltb_spec (zlen o - (20 + zlen head)) (4 + zlen mac)); [lia |].
  rewrite write_attr by (rewrite ?Hmac; done || lia).
  set (b3 := head ++ attr_octets (NGX_RTC_STUN_ATTR_MESSAGE_INTEGRITY, mac)).
  assert (Hb3 : zlen b3 = zlen head + 24) by (unfold b3; rewrite zlen_app, zlen_attr_octets; cbn [snd]; by rewrite Hmac).
  replace (20 + zlen head + 4 + zlen mac) with (20 + zlen b3) by lia.
  destruct (write_fingerprint NGX_RTC_STUN_BINDING_RESPONSE (zlen head + 24) tid b3 (zdrop (4 + zlen mac) rest1))
    as (crc & Hcrc & E); [done | lia | rewrite zlen_zdrop; lia |].
  exists mac, crc. split; [done |]. split; [done |]. split; [done |].
  destruct (Z.ltb_spec (zlen o - (20 + zlen b3)) 8); [lia |]. cbv zeta in E. rewrite E. clear E.
  assert (Hb4 : b3 ++ attr_octets (NGX_RTC_STUN_ATTR_FINGERPRINT, be_enc 4 crc)
                = body (answer l r addr port mac crc)).
  { unfold b3, head, body, answer. rewrite fmap_app, concat_app, <- app_assoc. cbn [fmap list_fmap concat].
    by rewrite app_nil_r. }
  rewrite Hb4 in *. set (b4 := body (answer l r addr port mac crc)) in *.
  assert (Hl4 : zlen b3 + 8 = zlen b4) by (rewrite <- Hb4, zlen_app; rewrite zlen_attr_octets; cbn [snd]; by rewrite zlen_be_enc).
  rewrite Hl4 in *. unfold message. fold b4. rewrite zlen_message_frame, zlen_nil by done. split.
  - rewrite Hcrc at 1. do 3 f_equal. lia.
  - rewrite frame_rest, Hr1, !zdrop_zdrop by lia. do 2 f_equal; [lia |]. do 2 f_equal. f_equal. lia.
Qed.

Lemma answer_ok l r addr port mac crc :
  zlen l <= 16 -> zlen r <= 16 -> octets_ok l -> octets_ok r -> zlen mac = 20 -> octets_ok mac ->
  Forall attr_ok (answer l r addr port mac crc) /\
  zlen (body (answer l r addr port mac crc)) = zlen (body (answer_head l r addr port)) + 32.
Proof.
  intros Hl Hr Hlo Hro Hm Hmo. split.
  - pose proof (zlen_nonneg l). pose proof (zlen_nonneg r). unfold answer, answer_head. cbn [app].
    assert (Hc : octets_ok [58] /\ octets_ok [0; 1]) by (by repeat constructor).
    apply Forall_cons. split; [| apply Forall_cons; split; [| apply Forall_cons; split;
      [| apply Forall_cons; split; [| constructor]]]]; unfold attr_ok; cbn [fst snd].
    + split; [done |]. split; [| rewrite zlen_app, zlen_cons; unfold is_u16; lia].
      by apply Forall_app; split; [| apply Forall_cons].
    + split; [done |]. split; [| rewrite !zlen_cons, zlen_app, !zlen_be_enc; done].
      do 2 (apply Forall_cons; split; [done |]). apply Forall_app. split; apply be_enc_ok.
    + split; [done |]. split; [done |]. rewrite Hm. done.
    + split; [done |]. split; [apply be_enc_ok | by rewrite zlen_be_enc].
  - unfold answer, body. rewrite fmap_app, concat_app, zlen_app. cbn [fmap list_fmap concat].
    rewrite app_nil_r, (zlen_app (attr_octets _)), !zlen_attr_octets. cbn [snd]. rewrite Hm, zlen_be_enc.
    change (padding 20) with 0. change (padding (Z.of_nat 4)) with 0. lia.
Qed.

(** What a decoded response says. *)
Lemma understood_answer l r addr port mac crc tid :
  (58 ∉ l) -> (0 ∉ l) -> (0 ∉ r) -> zlen l <= 16 -> zlen r <= 16 -> zlen mac = 20 ->
  let resp := understood NGX_RTC_STUN_BINDING_RESPONSE tid (answer l r addr port mac crc) in
  c_str (local_ufrag resp) = Ret l /\ c_str (remote_ufrag resp) = Ret r /\ has_username resp = 1 /\
  has_message_integrity resp = 1 /\ has_fingerprint resp = 1 /\
  message_integrity_offset resp = 24 + zlen (body (answer_head l r addr port)).
Proof.
  intros Hc H0l H0r Hl Hr Hm resp. destruct (zlen_answer_head l r addr port Hl Hr) as [Hh Hu].
  set (hd := zlen (body (answer_head l r addr port))) in *. clearbody hd.
  unfold resp, understood, answer, answer_head. set (u := l ++ [58] ++ r) in *. set (v := [0; 1] ++ _).
  assert (Hv : zlen v = 8) by (unfold v; by rewrite !zlen_app, !zlen_be_enc). clearbody v.
  cbn [app absorb_all snd]. unfold absorb. cbn -[absorb_username zlen u16].
  set (s0 := set_transaction_id _ _).
  destruct (absorb_pair s0 l r Hc H0l H0r Hl Hr) as (E & El & Er). unfold u. rewrite E. fold u.
  cbn -[place zlen u16]. split_and!; try done.
  rewrite Hv. change (padding 8) with 0. pose proof (padding_spec (zlen u) ltac:(lia)).
  rewrite u16_small by (unfold is_u16; lia). lia.
Qed.

(** C21: The answer to a binding request is what the peer expects: the encoder fills at most
    108 octets of the buffer and no other; the message decodes as a response with the
    request's transaction and both ufrags, carries the peer's address, and passes the
    integrity check under the password and the checksum over what precedes it. *)
Theorem stun_response_roundtrip data t tid l addr port o s0 :
  octets_ok data -> parse data = Some (t, tid, l) -> has_username (understood t tid l) <> 0 -> 128 <= zlen o ->
  exists lu ru n out mac resp,
    let req := understood t tid l in
    let crc := Z.lxor (ngx_rtc_crc32 (ztake (n - 8) out)) NGX_RTC_STUN_FINGERPRINT_XOR in
    named req lu ru /\
    ngx_rtc_stun_encode_binding_response hmac (Ref req) (Ref pwd) addr port (Ref o) (zlen o) = Ret (n, Ref out) /\
    20 <= n <= 108 /\ zdrop n out = zdrop n o /\
    parse (ztake n out) = Some (NGX_RTC_STUN_BINDING_RESPONSE, tid, answer lu ru addr port mac crc) /\
    ngx_rtc_stun_decode (Ref s0) (Ref (ztake n out)) n = Ret (0, Ref resp) /\
    type resp = NGX_RTC_STUN_BINDING_RESPONSE /\ transaction_id resp = tid /\
    c_str (local_ufrag resp) = Ret lu /\ c_str (remote_ufrag resp) = Ret ru /\
    ngx_rtc_stun_verify_request hmac (Ref resp) (Ref (ztake n out)) n (Ref pwd) = Ret 0.
Proof.
  intros Hok Hp Hu Ho. destruct (understood_named data t tid l Hok Hp) as (lu & ru & Hn).
  pose proof (zlen_parsed data t tid l Hp) as Htid. set (req := understood t tid l) in *.
  assert (Ereq : transaction_id req = tid) by apply understood_tid.
  destruct (encode_exact req lu ru addr port o Hn ltac:(by rewrite Ereq) Hu Ho)
    as (mac & crc & Emac & Hmac & Hmo & Hcrc & E).
  rewrite Ereq in *. destruct (nm_len _ _ _ Hn) as [Hl Hr]. destruct (nm_octets _ _ _ Hn) as [Hlo Hro].
  destruct (answer_ok lu ru addr port mac crc Hl Hr Hlo Hro Hmac Hmo) as [Hatt Hlen].
  destruct (zlen_answer_head lu ru addr port Hl Hr) as [Hhead Hul].
  set (u := lu ++ [58] ++ ru) in *. pose proof (padding_spec (zlen u) ltac:(lia)) as Hpad.
  set (head := body (answer_head lu ru addr port)) in *.
  set (m := message NGX_RTC_STUN_BINDING_RESPONSE tid (answer lu ru addr port mac crc)) in *.
  assert (Hm : zlen m = 52 + zlen head) by (unfold m, message; rewrite zlen_message_frame, zlen_nil by done; lia).
  assert (Htake : ztake (zlen m) (m ++ zdrop (zlen m) o) = m) by (by apply ztake_app_length).
  assert (Hpm : parse m = Some (NGX_RTC_STUN_BINDING_RESPONSE, tid, answer lu ru addr port mac crc)).
  { apply parse_message; [done | done | done |]. unfold is_u16. lia. }
  assert (Hmok : octets_ok m).
  { apply message_octets; [| done]. exact (parsed_octets _ _ _ _ Hok Hp). }
  destruct (decode_exact s0 m Hmok) as (resp & Ed & _ & Hresp). rewrite Hpm in Ed.
  specialize (Hresp _ _ _ Hpm). destruct (understood_tid NGX_RTC_STUN_BINDING_RESPONSE tid (answer lu ru addr port mac crc)) as [Et Ety].
  destruct (understood_answer lu ru addr port mac crc tid) as (H1 & H2 & _ & H4 & _ & H6); try done;
    [apply Hn | eapply c_str_nonzero, Hn | eapply c_str_nonzero, Hn |].
  rewrite <- Hresp in *. fold head in H6.
  exists lu, ru, (zlen m), (m ++ zdrop (zlen m) o), mac, resp. cbv zeta. rewrite Htake.
  split; [done |]. split; [done |]. split; [lia |]. split; [by apply zdrop_app_length |].
  rewrite ztake_app_le, <- Hcrc by lia. split_and!; try done.
  assert (Hbody : body (answer lu ru addr port mac crc)
                  = head ++ attr_octets (NGX_RTC_STUN_ATTR_MESSAGE_INTEGRITY, mac)
                         ++ attr_octets (NGX_RTC_STUN_ATTR_FINGERPRINT, be_enc 4 crc)).
  { unfold body at 1, answer. rewrite fmap_app, concat_app. cbn [fmap list_fmap concat]. by rewrite app_nil_r. }
  destruct (verify_exact hmac resp m pwd) as (rc & Ev & _ & Hrc); [by rewrite H4 |].
  rewrite Ev. f_equal. apply Hrc. rewrite H6. unfold m, message in *. rewrite Hbody in *.
  apply authentic_frame; [done | done |]. split; [lia |]. by rewrite (Z.add_comm 24).
Qed.
End response.

(** C22: The decoder is exact: on any datagram it makes no bad access and ends; it accepts
    exactly a header whose length field is right followed by whole attributes, and what it
    reports is what those attributes say in order, the ufrag buffers kept at their size; and
    every message built of attributes is accepted as such. *)
Theorem stun_decode_exact s data :
  octets_ok data ->
  exists s', ngx_rtc_stun_decode (Ref s) (Ref data) (zlen data) = Ret (code (parse data), Ref s') /\
    zlen (local_ufrag s') = 17 /\ zlen (remote_ufrag s') = 17 /\
    (forall t tid l, parse data = Some (t, tid, l) -> s' = understood t tid l) /\
    (forall t tid l, is_u16 t -> zlen tid = 12 -> Forall attr_ok l -> is_u16 (zlen (body l)) ->
       data = message t tid l -> parse data = Some (t, tid, l)).
Proof.
  intros Hok. destruct (decode_exact s data Hok) as (s' & E & [H1 H2] & Hs). exists s'.
  split_and!; try done. intros t tid l Ht Htid Hl Hb ->. by apply parse_message.
Qed.

Lemma absorb_all_app l1 : forall s pos l2,
  absorb_all s pos (l1 ++ l2) = absorb_all (absorb_all s pos l1) (pos + zlen (body l1)) l2.
Proof.
  induction l1 as [| a l1 IH]; intros s pos l2; [cbn; by rewrite Z.add_0_r |].
  cbn [app absorb_all]. rewrite IH. f_equal. unfold body. cbn [fmap list_fmap concat].
  rewrite zlen_app, zlen_attr_octets. lia.
Qed.

Definition no_integrity (l : list attribute) : Prop :=
  Forall (fun a => a.1 <> NGX_RTC_STUN_ATTR_MESSAGE_INTEGRITY) l.

Lemma absorb_tail l : forall s pos,
  no_integrity l ->
  has_message_integrity (absorb_all s pos l) = has_message_integrity s /\
  message_integrity_offset (absorb_all s pos l) = message_integrity_offset s.
Proof.
  induction l as [| a l IH]; intros s pos Hl; [done |]. apply Forall_cons in Hl as [Ha Hl].
  cbn [absorb_all]. destruct (IH (absorb s (pos + 4) a) (pos + 4 + zlen a.2 + padding (zlen a.2)) Hl) as [-> ->].
  destruct a as [t v]. cbn [fst] in Ha. unfold absorb, absorb_username.
  apply Z.eqb_neq in Ha. rewrite Ha.
  repeat match goal with |- context [if ?c then _ else _] => destruct c end; try (destruct (colon_at _)); done.
Qed.

(** The integrity check says what the header of the function promises of
    MESSAGE-INTEGRITY and nothing of what follows it: a decoded request whose last
    MESSAGE-INTEGRITY carries [mac] passes if and only if [mac] is the digest, under the
    password, of everything before it with the length field set to end there, and the
    datagram is at most 2048 octets; a FINGERPRINT after it is not looked at. *)
Theorem stun_verify_exact hmac pwd t tid l mac tail :
  is_u16 t -> zlen tid = 12 -> zlen mac = 20 ->
  let attrs := l ++ (NGX_RTC_STUN_ATTR_MESSAGE_INTEGRITY, mac) :: tail in
  no_integrity tail -> is_u16 (24 + zlen (body l)) ->
  let m := message t tid attrs in
  exists rc, ngx_rtc_stun_verify_request hmac (Ref (understood t tid attrs)) (Ref m) (zlen m) (Ref pwd) = Ret rc /\
    (rc = 0 \/ rc = -1) /\
    (rc = 0 <-> zlen m <= 2048 /\ hmac pwd (frame t (24 + zlen (body l)) tid (body l) []) = Some mac).
Proof.
  intros Ht Htid Hmac attrs Htail Hl m.
  destruct (verify_exact hmac (understood t tid attrs) m pwd) as (rc & E & Hrc & Hv).
  { unfold attrs, understood. rewrite absorb_all_app. cbn [absorb_all snd].
    by rewrite (proj1 (absorb_tail tail _ _ Htail)). }
  exists rc. split; [done |]. split; [done |]. rewrite Hv.
  assert (Hoff : message_integrity_offset (understood t tid attrs) = 24 + zlen (body l)).
  { unfold attrs, understood. rewrite absorb_all_app. cbn [absorb_all snd].
    rewrite (proj2 (absorb_tail tail _ _ Htail)). cbn. rewrite u16_small; [lia |]. unfold is_u16 in *. lia. }
  rewrite Hoff. unfold m, message, attrs.
  assert (Hb : body (l ++ (NGX_RTC_STUN_ATTR_MESSAGE_INTEGRITY, mac) :: tail)
               = body l ++ attr_octets (NGX_RTC_STUN_ATTR_MESSAGE_INTEGRITY, mac) ++ body tail).
  { unfold body. by rewrite fmap_app, concat_app. }
  rewrite Hb. by apply authentic_frame.
Qed.

(** ** A demonstration: a digest made of the checksum *)

Example crc_check : ngx_rtc_crc32 [49; 50; 51; 52; 53; 54; 55; 56; 57] = 0xCBF43926.
Proof. reflexivity. Qed.

Definition demo_hmac (key m : octets) : option octets := Some (be_enc 4 (ngx_rtc_crc32 (key ++ m)) ++ zeros 16).
Definition demo_pwd : octets := [112; 119; 100].
Definition demo_tid : octets := [1; 2; 3; 4; 5; 6; 7; 8; 9; 10; 11; 12].

Lemma demo_sha1 m : exists mac, demo_hmac demo_pwd m = Some mac /\ zlen mac = 20 /\ octets_ok mac.
Proof.
  eexists. split; [reflexivity |]. split; [by rewrite zlen_app, zlen_be_enc |].
  apply Forall_app. split; [apply be_enc_ok | by repeat constructor].
Qed.

(** USERNAME alice:bo, then USE-CANDIDATE, MESSAGE-INTEGRITY and a wrong FINGERPRINT. *)
Definition demo_attrs : list attribute :=
  [(NGX_RTC_STUN_ATTR_USERNAME, [97; 108; 105; 99; 101; 58; 98; 111]); (NGX_RTC_STUN_ATTR_USE_CANDIDATE, [])].
Definition demo_mac : octets :=
  match demo_hmac demo_pwd (frame 1 (24 + zlen (body demo_attrs)) demo_tid (body demo_attrs) []) with
  | Some mac => mac | None => [] end.
Definition demo_request : list attribute :=
  demo_attrs ++ [(NGX_RTC_STUN_ATTR_MESSAGE_INTEGRITY, demo_mac); (NGX_RTC_STUN_ATTR_FINGERPRINT, [0; 0; 0; 0])].
Definition demo_datagram : octets := message 1 demo_tid demo_request.

Lemma demo_datagram_ok : octets_ok demo_datagram.
Proof. vm_compute. repeat constructor; discriminate. Qed.

Lemma stun_decode_exact_witness :
  exists s', ngx_rtc_stun_decode (Ref zero_stun) (Ref demo_datagram) (zlen demo_datagram) = Ret (0, Ref s') /\
    use_candidate s' = 1 /\ c_str (local_ufrag s') = Ret [97; 108; 105; 99; 101] /\
    message_integrity_offset s' = 40.
Proof.
  destruct (stun_decode_exact zero_stun demo_datagram demo_datagram_ok) as (s' & E & _ & _ & Hs & _).
  exists s'. assert (Hp : parse demo_datagram = Some (1, demo_tid, demo_request)) by (vm_compute; reflexivity).
  rewrite (Hs _ _ _ Hp). rewrite Hp in E. rewrite (Hs _ _ _ Hp) in E. split; [exact E |].
  split; [vm_compute; reflexivity |]. split; vm_compute; reflexivity.
Defined.

Lemma stun_verify_exact_witness :
  exists rc, ngx_rtc_stun_verify_request demo_hmac (Ref (understood 1 demo_tid demo_request)) (Ref demo_datagram)
    (zlen demo_datagram) (Ref demo_pwd) = Ret rc /\ rc = 0.
Proof.
  destruct (stun_verify_exact demo_hmac demo_pwd 1 demo_tid demo_attrs demo_mac
              [(NGX_RTC_STUN_ATTR_FINGERPRINT, [0; 0; 0; 0])]) as (rc & E & _ & H).
  - split; [done | reflexivity].
  - reflexivity.
  - reflexivity.
  - constructor; [discriminate | constructor].
  - vm_compute. split; [discriminate | reflexivity].
  - exists rc. split; [exact E |]. apply H. split; [vm_compute; discriminate | vm_compute; reflexivity].
Defined.

Lemma stun_response_roundtrip_witness :
  exists lu ru n out, named (understood 1 demo_tid demo_request) lu ru /\
    ngx_rtc_stun_encode_binding_response demo_hmac (Ref (understood 1 demo_tid demo_request)) (Ref demo_pwd)
      0x7F000001 9000 (Ref (zeros 256)) 256 = Ret (n, Ref out) /\ 20 <= n <= 108.
Proof.
  destruct (stun_response_roundtrip demo_hmac demo_pwd demo_sha1 demo_datagram 1 demo_tid demo_request
              0x7F000001 9000 (zeros 256) zero_stun) as (lu & ru & n & out & mac & resp & H1 & H2 & H3 & _).
  - exact demo_datagram_ok.
  - vm_compute. reflexivity.
  - vm_compute. discriminate.
  - vm_compute. discriminate.
  - exists lu, ru, n, out. split; [exact H1 |]. split; [exact H2 | exact H3].
Defined.

End Stun.
