(* ===== verification/Text.v ===== *)
(** Text as the parsers of the module walk it: a C pointer with a length is the list of the
    octets it covers, read by index, so that a read past the length is a bad access; a char
    array is the C string in it, which is all its readers see. *)

From S2P Require Import Prelude.
From Stdlib Require String Ascii.
Export String.StringSyntax.

Module Text.

(** The octets of a literal. *)
Definition lit (s : String.string) : octets :=
  map (fun c => Z.of_N (Ascii.N_of_ascii c)) (String.list_ascii_of_string s).
#[global] Arguments lit s%_string_scope.

Definition crlf : octets := [13; 10].

(** *** Results: a value or an error code *)

Inductive result (A : Type) : Type :=
| Ok (a : A)
| Err (rc : Z).
Arguments Ok {A} a.
Arguments Err {A} rc.

(** A run that may make a bad access and may return early with an error. *)
Definition try {A B} (m : outcome (result A)) (k : A -> outcome (result B)) : outcome (result B) :=
  r ← m; match r with Ok a => k a | Err rc => Ret (Err rc) end.

Definition ok {A} (a : A) : outcome (result A) := Ret (Ok a).
Definition fail {A} (rc : Z) : outcome (result A) := Ret (Err rc).

#[global] Instance result_ret : MRet result := fun A a => Ok a.
#[global] Instance result_bind : MBind result :=
  fun A B k m => match m with Ok a => k a | Err rc => Err rc end.

Declare Scope text_scope.
#[global] Notation "x ←? m ; k" := (try m (fun x => k))
  (at level 20, m at level 100, k at level 200, right associativity) : text_scope.
#[global] Notation "' p ←? m ; k" := (try m (fun p => k))
  (at level 20, p pattern, m at level 100, k at level 200, right associativity) : text_scope.
#[global] Open Scope text_scope.

Lemma try_ok {A B} (a : A) (k : A -> outcome (result B)) : try (ok a) k = k a.
Proof. reflexivity. Qed.
Lemma try_fail {A B} rc (k : A -> outcome (result B)) : try (fail rc) k = fail rc.
Proof. reflexivity. Qed.

(** *** Scanning *)

(** while (pos < len && p (s[pos])) pos++; the fuel is the length. *)
Fixpoint scan_loop (fuel : nat) (p : Z -> bool) (s : octets) (pos : Z) : outcome Z :=
  if pos <? zlen s then
    match fuel with
    | O => Fault
    | S fuel => c ← load s pos; if p c then scan_loop fuel p s (pos + 1) else Ret pos
    end
  else Ret pos.

Definition scan (p : Z -> bool) (s : octets) (pos : Z) : outcome Z := scan_loop (Z.to_nat (zlen s)) p s pos.

(** The longest prefix all of whose octets pass, and what follows it. *)
Fixpoint prefix_of (p : Z -> bool) (l : octets) : octets :=
  match l with [] => [] | x :: l => if p x then x :: prefix_of p l else [] end.
Fixpoint suffix_of (p : Z -> bool) (l : octets) : octets :=
  match l with [] => [] | x :: l' => if p x then suffix_of p l' else l end.

Lemma prefix_suffix p l : prefix_of p l ++ suffix_of p l = l.
Proof. induction l as [| x l IH]; [done |]. cbn. destruct (p x); [cbn; by rewrite IH | done]. Qed.

Lemma prefix_all p l : Forall (fun x => p x = true) (prefix_of p l).
Proof. induction l as [| x l IH]; [constructor |]. cbn. destruct (p x) eqn:E; by constructor. Qed.

Lemma suffix_stops p l x k : suffix_of p l = x :: k -> p x = false.
Proof.
  induction l as [| y l IH]; [done |]. cbn. destruct (p y) eqn:E; [done |]. by intros [= <- <-].
Qed.

(** A run of passing octets before one that does not. *)
Lemma prefix_app p a b :
  Forall (fun x => p x = true) a -> (match b with [] => True | x :: _ => p x = false end) ->
  prefix_of p (a ++ b) = a /\ suffix_of p (a ++ b) = b.
Proof.
  intros Ha Hb. induction Ha as [| x a Hx _ [IH1 IH2]]; cbn.
  - destruct b as [| y b]; [done |]. cbn. by rewrite Hb.
  - rewrite Hx. split; [by f_equal | done].
Qed.

Lemma zlen_split p l : zlen (prefix_of p l) + zlen (suffix_of p l) = zlen l.
Proof. rewrite <- zlen_app. by rewrite prefix_suffix. Qed.

Lemma scan_loop_eq p s fuel : forall pos,
  0 <= pos <= zlen s -> zlen s - pos <= Z.of_nat fuel ->
  scan_loop fuel p s pos = Ret (pos + zlen (prefix_of p (zdrop pos s))).
Proof.
  induction fuel as [| fuel IH]; intros pos Hp Hf; cbn [scan_loop].
  - destruct (Z.ltb_spec pos (zlen s)); [lia |]. rewrite zdrop_all by lia. cbn. by rewrite Z.add_0_r.
  - destruct (Z.ltb_spec pos (zlen s)) as [Hlt | Hge].
    2: { rewrite zdrop_all by lia. cbn. by rewrite Z.add_0_r. }
    destruct (load_in s pos ltac:(lia)) as [c Hc]. rewrite Hc, bind_Ret.
    assert (Hd : zdrop pos s = c :: zdrop (pos + 1) s).
    { apply load_ret in Hc as [Hr Hl]. unfold zdrop. replace (Z.to_nat (pos + 1)) with (S (Z.to_nat pos)) by lia.
      by apply drop_S. }
    rewrite Hd. cbn [prefix_of]. destruct (p c).
    + rewrite IH by lia. rewrite zlen_cons. f_equal. lia.
    + cbn. by rewrite Z.add_0_r.
Qed.

Lemma scan_eq p s pos :
  0 <= pos <= zlen s -> scan p s pos = Ret (pos + zlen (prefix_of p (zdrop pos s))).
Proof. intros Hp. apply scan_loop_eq; [done | lia]. Qed.

(** Where the scan stopped, and what it passed over. *)
Lemma scan_rest p s pos :
  0 <= pos <= zlen s ->
  let q := pos + zlen (prefix_of p (zdrop pos s)) in
  pos <= q <= zlen s /\ zdrop q s = suffix_of p (zdrop pos s) /\
  load_range s pos (q - pos) = Ret (prefix_of p (zdrop pos s)).
Proof.
  intros Hp q. pose proof (zlen_split p (zdrop pos s)) as Hs. rewrite zlen_zdrop in Hs by lia.
  pose proof (zlen_nonneg (prefix_of p (zdrop pos s))). pose proof (zlen_nonneg (suffix_of p (zdrop pos s))).
  split; [lia |]. pose proof (prefix_suffix p (zdrop pos s)) as E. split.
  - unfold q. rewrite <- zdrop_zdrop by lia. rewrite <- E at 2. by apply zdrop_app_length.
  - replace (q - pos) with (zlen (prefix_of p (zdrop pos s))) by lia. rewrite load_range_in by lia.
    f_equal. rewrite <- E at 2. by apply ztake_app_length.
Qed.

(** *** Numbers *)

Definition is_digit (c : Z) : bool := (48 <=? c) && (c <=? 57).

Definition number (ds : octets) : Z := fold_left (fun v c => v * 10 + (c - 48)) ds 0.

(** A %u conversion of a 32-bit value. *)
Fixpoint digits (fuel : nat) (n : Z) (acc : octets) : octets :=
  let acc := (48 + n mod 10) :: acc in
  if n / 10 =? 0 then acc else match fuel with O => acc | S fuel => digits fuel (n / 10) acc end.

Definition decimal (n : Z) : octets := digits 9 n [].

Lemma number_acc ds v : fold_left (fun v c => v * 10 + (c - 48)) ds v = v * 10 ^ zlen ds + number ds.
Proof.
  revert v. unfold number. induction ds as [| c ds IH]; intros v; cbn [fold_left].
  { rewrite zlen_nil. lia. }
  rewrite IH, (IH (0 * 10 + _)), zlen_cons. pose proof (zlen_nonneg ds).
  rewrite Z.pow_add_r by lia. lia.
Qed.

Lemma number_cons c ds : number (c :: ds) = (c - 48) * 10 ^ zlen ds + number ds.
Proof. unfold number at 1. cbn [fold_left]. rewrite number_acc. f_equal. Qed.

Lemma number_snoc ds c : number (ds ++ [c]) = number ds * 10 + (c - 48).
Proof. unfold number. by rewrite fold_left_app. Qed.

Lemma number_nonneg ds : Forall (fun c => is_digit c = true) ds -> 0 <= number ds.
Proof.
  induction 1 as [| c ds Hc _ IH]; [done |]. rewrite number_cons. unfold is_digit in Hc.
  pose proof (Z.pow_nonneg 10 (zlen ds)). nia.
Qed.

Lemma digit_ok n : is_digit (48 + n mod 10) = true.
Proof. unfold is_digit. pose proof (Z.mod_pos_bound n 10). lia. Qed.

Lemma digits_spec fuel : forall n acc,
  0 <= n < 10 ^ (Z.of_nat fuel + 1) -> Forall (fun c => is_digit c = true) acc ->
  Forall (fun c => is_digit c = true) (digits fuel n acc) /\ digits fuel n acc <> [] /\
  number (digits fuel n acc) = n * 10 ^ zlen acc + number acc.
Proof.
  induction fuel as [| fuel IH]; intros n acc Hn Ha; cbn [digits];
    set (c := 48 + n mod 10); pose proof (Z.mod_pos_bound n 10 ltac:(lia)) as Hm;
    pose proof (Z.div_mod n 10 ltac:(lia)) as Hd;
    assert (Hacc : Forall (fun c => is_digit c = true) (c :: acc)) by (constructor; [apply digit_ok | done]);
    assert (Hnum : number (c :: acc) = (n mod 10) * 10 ^ zlen acc + number acc)
      by (rewrite number_cons; unfold c; f_equal; f_equal; lia).
  - change (10 ^ (Z.of_nat 0 + 1)) with 10 in Hn. rewrite (Z.div_small n 10) by lia. cbn [Z.eqb].
    split_and!; [done | done |]. rewrite Hnum, Z.mod_small; lia.
  - destruct (Z.eqb_spec (n / 10) 0) as [Hz | Hz].
    + split_and!; [done | done |]. rewrite Hnum. nia.
    + destruct (IH (n / 10) (c :: acc)) as (H1 & H2 & H3).
      { split; [apply Z.div_pos; lia |]. apply Z.div_lt_upper_bound; [lia |].
        replace (10 * 10 ^ (Z.of_nat fuel + 1)) with (10 ^ (Z.of_nat (S fuel) + 1)); [lia |].
        replace (Z.of_nat (S fuel) + 1) with (1 + (Z.of_nat fuel + 1)) by lia. by rewrite Z.pow_add_r by lia. }
      { done. }
      split_and!; [done | done |]. rewrite H3, Hnum, zlen_cons. pose proof (zlen_nonneg acc).
      rewrite Z.pow_add_r by lia. nia.
Qed.

Lemma decimal_spec n :
  is_u32 n -> Forall (fun c => is_digit c = true) (decimal n) /\ decimal n <> [] /\ number (decimal n) = n.
Proof.
  intros Hn. destruct (digits_spec 9 n []) as (H1 & H2 & H3); [unfold is_u32 in Hn; lia | done |].
  split_and!; [done | done |]. unfold decimal. rewrite H3, zlen_nil. cbn. lia.
Qed.

(** *** C strings *)

Definition not_nul (c : Z) : bool := negb (c =? 0).

(** What a reader sees of octets copied into a char array and terminated. *)
Definition c_string (v : octets) : octets := prefix_of not_nul v.

Lemma c_string_id v : (0 ∉ v) -> c_string v = v.
Proof.
  intros H. unfold c_string. rewrite <- (app_nil_r v) at 1. apply prefix_app; [| done].
  apply Forall_forall. intros x Hx. unfold not_nul. apply negb_true_iff, Z.eqb_neq. intros ->. done.
Qed.

End Text.
