(* ===== verification/Dtls.v ===== *)
(** src/ngx_rtc_dtls.c and src/ngx_rtc_srtp.c: what the module does around OpenSSL and libsrtp,
    whose own state and functions are parameters with the laws they document.

    A callback given to a DTLS context is only called from inside a call on that context; the
    records it is handed and whether the completion callback ran are part of the call's result. *)

From S2P Require Import Prelude Text.
From stdpp Require Import list.
Import Text.

#[local] Open Scope Z_scope.

Module Dtls.

Definition NGX_RTC_SRTP_KEY_LEN : Z := 16.
Definition NGX_RTC_SRTP_SALT_LEN : Z := 14.
Definition NGX_RTC_SRTP_KEY_MATERIAL_LEN : Z := 2 * (NGX_RTC_SRTP_KEY_LEN + NGX_RTC_SRTP_SALT_LEN).

Definition SSL_ERROR_WANT_READ : Z := 2.
Definition SSL_ERROR_WANT_WRITE : Z := 3.
Definition SSL_ERROR_ZERO_RETURN : Z := 6.

(** OpenSSL's connection with its two memory BIOs: a datagram is written to the first, records
    come out of the second during a call. *)
Class OpenSsl (S : Type) := {
  BIO_write : S -> octets -> Z * S;
  SSL_read : S -> Z * Z * list octets * S;
  SSL_is_init_finished : S -> Z;
  DTLSv1_get_timeout : S -> option (Z * Z);
  DTLSv1_handle_timeout : S -> Z * list octets * S;
  SSL_export_keying_material : S -> octets -> ptr octets
}.

(** The exporter fills the block it is asked for. *)
Class OpenSslLaws (S : Type) `{OpenSsl S} := {
  export_law (s : S) l m : SSL_export_keying_material s l = Ref m -> zlen m = NGX_RTC_SRTP_KEY_MATERIAL_LEN
}.

(** *** The certificate's fingerprint *)

Definition hex_upper (n : Z) : Z := if n <? 10 then 48 + n else 55 + n.
Definition hex2 (b : Z) : octets := [hex_upper (Z.shiftr b 4); hex_upper (Z.land b 15)].

(** The digest's octets from the i-th on, the text's end at [p]; snprintf is given what is left
    of the array, as a size_t. *)
Fixpoint fingerprint_loop (md : octets) (i p : Z) (fp : octets) : outcome octets :=
  match md with
  | [] => Ret fp
  | b :: md =>
      let t := (if i =? 0 then [] else [58]) ++ hex2 b in
      let size := u64 (zlen fp - p) in
      fp ← (if size =? 0 then Ret fp else store_range fp p (ztake (size - 1) t ++ [0]));
      fingerprint_loop md (i + 1) (p + zlen t) fp
  end.

Definition colon_hex (b : Z) : octets := 58 :: hex2 b.
Definition fingerprint_text (md : octets) : octets :=
  match md with [] => [] | b :: md => hex2 b ++ concat (map colon_hex md) end.

Lemma zlen_hex2 b : zlen (hex2 b) = 2.
Proof. done. Qed.

(** One octet's text and terminator over the terminator before it. *)
Lemma fingerprint_step pre t rest :
  zlen t <= zlen rest -> zlen pre + zlen rest < 2 ^ 63 ->
  let fp := pre ++ 0 :: rest in
  (u64 (zlen fp - zlen pre) =? 0) = false /\
  store_range fp (zlen pre) (ztake (u64 (zlen fp - zlen pre) - 1) t ++ [0]) = Ret (pre ++ t ++ 0 :: zdrop (zlen t) rest).
Proof.
  intros Ht Hb fp. pose proof (zlen_nonneg pre). pose proof (zlen_nonneg t).
  assert (Hs : u64 (zlen fp - zlen pre) = zlen rest + 1).
  { unfold fp. rewrite zlen_app, zlen_cons. unfold u64. rewrite Z.mod_small; lia. }
  rewrite Hs, ztake_all by lia. split; [lia |]. unfold fp.
  rewrite store_range_cursor by (done || (rewrite zlen_app; change (zlen [0]) with 1; rewrite zlen_cons; lia)).
  rewrite zlen_app. change (zlen [0]) with 1. rewrite <- !app_assoc. cbn [app]. do 4 f_equal.
  replace (zlen t + 1) with (1 + zlen t) by lia. by rewrite <- zdrop_zdrop by lia.
Qed.

Lemma fingerprint_rest md : forall i pre rest,
  0 < i -> 3 * zlen md <= zlen rest -> zlen pre + zlen rest < 2 ^ 63 ->
  exists r, fingerprint_loop md i (zlen pre) (pre ++ 0 :: rest) = Ret (pre ++ concat (map colon_hex md) ++ 0 :: r).
Proof.
  induction md as [| b md IH]; intros i pre rest Hi Hl Hb; cbn [fingerprint_loop map concat]; [by exists rest |].
  rewrite zlen_cons in Hl. rewrite (proj2 (Z.eqb_neq i 0)) by lia. change ([58] ++ hex2 b) with (colon_hex b).
  assert (H3 : zlen (colon_hex b) = 3) by done. pose proof (zlen_nonneg md).
  destruct (fingerprint_step pre (colon_hex b) rest) as [-> ->]; [lia | done |]. rewrite bind_Ret.
  destruct (IH (i + 1) (pre ++ colon_hex b) (zdrop 3 rest)) as (r & E); [lia | rewrite zlen_zdrop; lia | |].
  { rewrite zlen_app, zlen_zdrop by lia. lia. }
  exists r. rewrite zlen_app, H3 in *. rewrite <- !app_assoc in *. exact E.
Qed.

(** The fingerprint is the digest's octets in upper-case hexadecimal joined by colons, and
    its array of 128 holds it with its terminator for any digest of up to 42 octets; SHA-256
    gives 32. *)
Theorem fingerprint_exact md fp :
  0 < zlen md <= 42 -> zlen fp = 128 ->
  exists r, fingerprint_loop md 0 0 fp = Ret (fingerprint_text md ++ 0 :: r) /\ zlen (fingerprint_text md) = 3 * zlen md - 1.
Proof.
  intros Hn Hf. destruct md as [| b md]; [rewrite zlen_nil in Hn; lia |]. rewrite zlen_cons in Hn. pose proof (zlen_nonneg md).
  destruct fp as [| x rest]; [done |]. rewrite zlen_cons in Hf. cbn [fingerprint_loop].
  change (0 =? 0) with true. cbv iota. cbn [app].
  assert (Hs : u64 (zlen (x :: rest) - 0) = 128) by (rewrite zlen_cons, Z.sub_0_r, Hf; done).
  rewrite Hs. change (128 =? 0) with false. cbv iota. change (ztake (128 - 1) (hex2 b) ++ [0]) with (hex2 b ++ [0]).
  pose proof (store_range_cursor [] (x :: rest) 0 (hex2 b ++ [0]) eq_refl) as E. cbn [app] in E.
  rewrite E, bind_Ret by (rewrite zlen_cons; change (zlen (hex2 b ++ [0])) with 3; lia).
  change (zlen (hex2 b ++ [0])) with 3. change (0 + zlen (hex2 b)) with (zlen (hex2 b)).
  assert (Hz : zlen (zdrop 3 (x :: rest)) = zlen rest - 2) by (rewrite zlen_zdrop, zlen_cons by (rewrite ?zlen_cons; lia); lia).
  destruct (fingerprint_rest md (0 + 1) (hex2 b) (zdrop 3 (x :: rest))) as (r & Er);
    [lia | lia | rewrite Hz, zlen_hex2; lia |].
  exists r. split; [rewrite <- app_assoc; exact Er |].
  unfold fingerprint_text. rewrite zlen_app, zlen_hex2, zlen_cons.
  assert (El : zlen (concat (map colon_hex md)) = 3 * zlen md).
  { clear. induction md as [| b md IH]; [done |]. cbn [map concat]. rewrite zlen_app, zlen_cons, IH. change (zlen (colon_hex b)) with 3. lia. }
  lia.
Qed.

Section dtls.
Context {S : Type} `{OpenSsl S}.

(** What OpenSSL allocated and did not free; a connection owns its two BIOs once it has them. *)
Record allocated := { connections : Z; bios : Z }.
Record connection := { ssl_state : S; has_bios : bool }.

Record ngx_rtc_dtls_t := {
  ssl : ptr connection;
  bio_in : ptr unit;
  bio_out : ptr unit;
  handshake_done : Z;
  send_cb : ptr unit;
  done_cb : ptr unit
}.

Definition eta (d : ngx_rtc_dtls_t) : ngx_rtc_dtls_t :=
  {| ssl := ssl d; bio_in := bio_in d; bio_out := bio_out d; handshake_done := handshake_done d;
     send_cb := send_cb d; done_cb := done_cb d |}.
Definition set_ssl := ltac:(setter eta ssl).
Definition set_bio_in := ltac:(setter eta bio_in).
Definition set_bio_out := ltac:(setter eta bio_out).
Definition set_handshake_done := ltac:(setter eta handshake_done).
Definition set_send_cb := ltac:(setter eta send_cb).
Definition set_done_cb := ltac:(setter eta done_cb).

Definition zero_dtls : ngx_rtc_dtls_t :=
  {| ssl := NULL; bio_in := NULL; bio_out := NULL; handshake_done := 0; send_cb := NULL; done_cb := NULL |}.

Definition SSL_free (c : connection) (m : allocated) : allocated :=
  {| connections := connections m - 1; bios := bios m - (if has_bios c then 2 else 0) |}.

Definition ngx_rtc_dtls_destroy (dtls : ptr ngx_rtc_dtls_t) (m : allocated) : ptr ngx_rtc_dtls_t * allocated :=
  match dtls with
  | NULL => (NULL, m)
  | Ref d =>
      let m := match ssl d with NULL => m | Ref c => SSL_free c m end in
      (Ref (d |> set_ssl NULL |> set_bio_in NULL |> set_bio_out NULL |> set_handshake_done 0), m)
  end.

Definition new_bio (b : ptr unit) (m : allocated) : allocated :=
  match b with NULL => m | Ref _ => {| connections := connections m; bios := bios m + 1 |} end.

(** [ctx] tells whether the SSL_CTX was built; [s], [b_in] and [b_out] are what OpenSSL's
    constructors return. *)
Definition ngx_rtc_dtls_create (ctx : bool) (s : ptr S) (b_in b_out : ptr unit) (dtls : ptr ngx_rtc_dtls_t)
    (send_cb done_cb : ptr unit) (m : allocated) : Z * ptr ngx_rtc_dtls_t * allocated :=
  match dtls with
  | NULL => (-1, NULL, m)
  | Ref _ =>
      if negb ctx then (-1, dtls, m)
      else
        let d := zero_dtls |> set_send_cb send_cb |> set_done_cb done_cb in
        match s with
        | NULL => (-1, Ref d, m)
        | Ref s =>
            let m := {| connections := connections m + 1; bios := bios m |} in
            let d := set_ssl (Ref {| ssl_state := s; has_bios := false |}) d in
            let m := new_bio b_out (new_bio b_in m) in
            let d := d |> set_bio_in b_in |> set_bio_out b_out in
            if is_null b_in || is_null b_out then
              let '(d, m) := ngx_rtc_dtls_destroy (Ref d) m in (-1, d, m)
            else (0, Ref (set_ssl (Ref {| ssl_state := s; has_bios := true |}) d), m)
        end
  end.

(** The records a call produced, as the send callback gets them. *)
Definition sent_records (d : ngx_rtc_dtls_t) (l : list octets) : list octets :=
  match send_cb d with NULL => [] | Ref _ => List.filter (fun r => 0 <? zlen r) l end.

(** The completion check that ends both calls: the flag tells whether the callback ran. *)
Definition completed (d : ngx_rtc_dtls_t) (s : S) : ngx_rtc_dtls_t * bool :=
  if (handshake_done d =? 0) && (SSL_is_init_finished s =? 1)
  then (set_handshake_done 1 d, negb (is_null (done_cb d))) else (d, false).

Definition ngx_rtc_dtls_on_data (dtls : ptr ngx_rtc_dtls_t) (data : octets)
    : Z * ptr ngx_rtc_dtls_t * list octets * bool :=
  match dtls with
  | NULL => (-1, NULL, [], false)
  | Ref d =>
      match ssl d with
      | NULL => (-1, dtls, [], false)
      | Ref c =>
          let '(n, s) := BIO_write (ssl_state c) data in
          if n <=? 0 then (-1, Ref (set_ssl (Ref {| ssl_state := s; has_bios := has_bios c |}) d), [], false)
          else
            let '(r0, r1, out, s) := SSL_read s in
            let d := set_ssl (Ref {| ssl_state := s; has_bios := has_bios c |}) d in
            if (r0 <=? 0) && negb (r1 =? SSL_ERROR_WANT_READ) && negb (r1 =? SSL_ERROR_WANT_WRITE)
               && negb (r1 =? SSL_ERROR_ZERO_RETURN)
            then (-1, Ref d, sent_records d out, false)
            else let '(d', fired) := completed d s in (0, Ref d', sent_records d out, fired)
      end
  end.

Definition ngx_rtc_dtls_is_done (dtls : ptr ngx_rtc_dtls_t) : Z :=
  match dtls with NULL => 0 | Ref d => handshake_done d end.

Definition ngx_rtc_dtls_next_timeout_ms (dtls : ptr ngx_rtc_dtls_t) : Z :=
  match dtls with
  | NULL => 0
  | Ref d =>
      match ssl d with
      | NULL => 0
      | Ref c =>
          if negb (handshake_done d =? 0) then 0
          else match DTLSv1_get_timeout (ssl_state c) with
               | None => 0
               | Some (sec, usec) => sec * 1000 + usec ÷ 1000
               end
      end
  end.

Definition ngx_rtc_dtls_handle_timeout (dtls : ptr ngx_rtc_dtls_t) : Z * ptr ngx_rtc_dtls_t * list octets * bool :=
  match dtls with
  | NULL => (-1, NULL, [], false)
  | Ref d =>
      match ssl d with
      | NULL => (-1, dtls, [], false)
      | Ref c =>
          let '(rc, out, s) := DTLSv1_handle_timeout (ssl_state c) in
          let d := set_ssl (Ref {| ssl_state := s; has_bios := has_bios c |}) d in
          if rc <? 0 then (-1, Ref d, sent_records d out, false)
          else if rc =? 0 then (0, Ref d, sent_records d out, false)
          else let '(d', fired) := completed d s in (0, Ref d', sent_records d out, fired)
      end
  end.

Definition label : octets := lit "EXTRACTOR-dtls_srtp".

Definition ngx_rtc_dtls_get_srtp_key (dtls : ptr ngx_rtc_dtls_t) (recv_key send_key : ptr octets)
    : outcome (Z * ptr octets * ptr octets) :=
  match dtls, recv_key, send_key with
  | Ref d, Ref r, Ref k =>
      if handshake_done d =? 0 then Ret (-1, recv_key, send_key)
      else
        match ssl d with
        | NULL => Fault
        | Ref c =>
            match SSL_export_keying_material (ssl_state c) label with
            | NULL => Ret (-1, recv_key, send_key)
            | Ref m =>
                let offset := 0 in
                x ← load_range m offset NGX_RTC_SRTP_KEY_LEN;
                r ← store_range r 0 x;
                let offset := offset + (NGX_RTC_SRTP_KEY_LEN + NGX_RTC_SRTP_KEY_LEN) in
                x ← load_range m offset NGX_RTC_SRTP_SALT_LEN;
                r ← store_range r NGX_RTC_SRTP_KEY_LEN x;
                let offset := offset + NGX_RTC_SRTP_SALT_LEN in
                x ← load_range m NGX_RTC_SRTP_KEY_LEN NGX_RTC_SRTP_KEY_LEN;
                k ← store_range k 0 x;
                x ← load_range m offset NGX_RTC_SRTP_SALT_LEN;
                k ← store_range k NGX_RTC_SRTP_KEY_LEN x;
                Ret (0, Ref r, Ref k)
            end
        end
  | _, _, _ => Ret (-1, recv_key, send_key)
  end.

(** ** What OpenSSL is left holding *)

Definition holds (m : allocated) (n k : Z) (m' : allocated) : Prop :=
  connections m' = connections m + n /\ bios m' = bios m + k.

(** A context that was created holds one connection and its two BIOs, and destroying it
    gives all three back; a creation that fails holds nothing, except that when OpenSSL grants
    just one of the two BIOs that one stays allocated with no pointer to it, because it is not
    the connection's yet when the connection is freed. *)
Theorem dtls_objects ctx s b_in b_out d0 k1 k2 m :
  let '(rc, d, m1) := ngx_rtc_dtls_create ctx s b_in b_out (Ref d0) k1 k2 m in
  if rc =? 0 then
    holds m 1 2 m1 /\
    (forall data, let '(_, d', _, _) := ngx_rtc_dtls_on_data d data in holds m 0 0 (ngx_rtc_dtls_destroy d' m1).2) /\
    holds m 0 0 (ngx_rtc_dtls_destroy d m1).2
  else
    holds m 0 (if ctx && negb (is_null s) && negb (Bool.eqb (is_null b_in) (is_null b_out)) then 1 else 0) m1 /\
    match d with NULL => False | Ref d => ctx = true -> ssl d = NULL /\ bio_in d = NULL /\ bio_out d = NULL end.
Proof.
  destruct ctx; [| by cbn; split; [split; lia |]]. destruct s as [| s]; [by cbn; split; [split; lia |] |].
  destruct b_in as [| []], b_out as [| []]; cbn.
  1, 2, 3: by split; [split; cbn; lia |].
  split; [by split; cbn; lia |]. split; [| by split; cbn; lia].
  intros data. destruct (BIO_write s data) as [n s1]. destruct (n <=? 0); [by split; cbn; lia |].
  destruct (SSL_read s1) as [[[r0 r1] out] s2]. destruct (_ && _); [by split; cbn; lia |].
  unfold completed. destruct (_ && _); by split; cbn; lia.
Qed.

(** ** The completion callback *)

(** Calls on a context, in the order they come. *)
Inductive call := Data (d : octets) | Timer.

Definition call_on (d : ptr ngx_rtc_dtls_t) (c : call) : Z * ptr ngx_rtc_dtls_t * list octets * bool :=
  match c with Data b => ngx_rtc_dtls_on_data d b | Timer => ngx_rtc_dtls_handle_timeout d end.

(** How often the callback ran. *)
Fixpoint completions (d : ptr ngx_rtc_dtls_t) (l : list call) : nat :=
  match l with
  | [] => 0
  | c :: l => let '(_, d, _, fired) := call_on d c in (if fired : bool then 1 else 0) + completions d l
  end.

Lemma call_on_done d c :
  let '(_, d', _, fired) := call_on (Ref d) c in
  exists e, d' = Ref e /\ (handshake_done d <> 0 -> fired = false /\ handshake_done e = handshake_done d) /\
    (fired = true -> handshake_done e = 1).
Proof.
  assert (Hc : forall d s, let '(e, fired) := completed d s in
    (handshake_done d <> 0 -> fired = false /\ handshake_done e = handshake_done d) /\ (fired = true -> handshake_done e = 1)).
  { intros e s. unfold completed. destruct (Z.eqb_spec (handshake_done e) 0); [| by cbn].
    destruct (_ =? 1); cbn; [by split; [| intros _] | by split]. }
  destruct c as [b |]; cbn [call_on].
  - unfold ngx_rtc_dtls_on_data. destruct (ssl d) as [| k]; [by exists d |].
    destruct (BIO_write _ b) as [n s]. destruct (n <=? 0); [by eexists |].
    destruct (SSL_read s) as [[[r0 r1] out] s2]. destruct (_ && _); [by eexists |].
    set (d1 := set_ssl _ d). specialize (Hc d1 s2). destruct (completed d1 s2) as [e fired]. by exists e.
  - unfold ngx_rtc_dtls_handle_timeout. destruct (ssl d) as [| k]; [by exists d |].
    destruct (DTLSv1_handle_timeout _) as [[rc out] s2]. destruct (rc <? 0); [by eexists |].
    destruct (rc =? 0); [by eexists |].
    set (d1 := set_ssl _ d). specialize (Hc d1 s2). destruct (completed d1 s2) as [e fired]. by exists e.
Qed.

(** A call neither makes nor loses the connection; the callback runs when the handshake ends. *)
Lemma call_on_ssl d c :
  let '(_, d', _, fired) := call_on (Ref d) c in
  exists e, d' = Ref e /\ (ssl e = NULL <-> ssl d = NULL) /\ (handshake_done d <> 0 -> handshake_done e <> 0) /\
    (handshake_done e <> 0 -> handshake_done d <> 0 \/ ssl e <> NULL) /\
    (fired = true -> handshake_done d = 0 /\ handshake_done e <> 0).
Proof.
  assert (Hno : forall e k, ssl d = Ref k -> (exists k', ssl e = Ref k') -> handshake_done e = handshake_done d ->
    (ssl e = NULL <-> ssl d = NULL) /\ (handshake_done d <> 0 -> handshake_done e <> 0) /\
    (handshake_done e <> 0 -> handshake_done d <> 0 \/ ssl e <> NULL) /\
    (false = true -> handshake_done d = 0 /\ handshake_done e <> 0)).
  { intros e k -> [k' ->] ->. split_and!; try done. by left. }
  assert (Hc : forall e s k, ssl d = Ref k -> (exists k', ssl e = Ref k') -> handshake_done e = handshake_done d ->
    let '(e', fired) := completed e s in
    (ssl e' = NULL <-> ssl d = NULL) /\ (handshake_done d <> 0 -> handshake_done e' <> 0) /\
    (handshake_done e' <> 0 -> handshake_done d <> 0 \/ ssl e' <> NULL) /\
    (fired = true -> handshake_done d = 0 /\ handshake_done e' <> 0)).
  { intros e s k Hd Hk He. unfold completed. destruct (Z.eqb_spec (handshake_done e) 0) as [H0 | H0]; [| by apply (Hno e k)].
    destruct (_ =? 1); cbn [andb]; [| by apply (Hno e k)]. destruct Hk as [k' Hk]. cbn. rewrite Hd, Hk.
    split_and!; try done; [by right |]. by rewrite <- He. }
  destruct c as [b |]; cbn [call_on].
  - unfold ngx_rtc_dtls_on_data. destruct (ssl d) as [| k] eqn:Ek; [exists d; split_and!; try done; by left |].
    destruct (BIO_write _ b) as [n s]. destruct (n <=? 0).
    { eexists. split; [done |]. apply (Hno _ k); [done | by eexists | done]. }
    destruct (SSL_read s) as [[[r0 r1] out] s2]. destruct (_ && _).
    { eexists. split; [done |]. apply (Hno _ k); [done | by eexists | done]. }
    set (d1 := set_ssl _ d). specialize (Hc d1 s2 k eq_refl ltac:(by eexists) eq_refl).
    destruct (completed d1 s2) as [e fired]. by exists e.
  - unfold ngx_rtc_dtls_handle_timeout. destruct (ssl d) as [| k] eqn:Ek; [exists d; split_and!; try done; by left |].
    destruct (DTLSv1_handle_timeout _) as [[rc out] s2]. destruct (rc <? 0).
    { eexists. split; [done |]. apply (Hno _ k); [done | by eexists | done]. }
    destruct (rc =? 0).
    { eexists. split; [done |]. apply (Hno _ k); [done | by eexists | done]. }
    set (d1 := set_ssl _ d). specialize (Hc d1 s2 k eq_refl ltac:(by eexists) eq_refl).
    destruct (completed d1 s2) as [e fired]. by exists e.
Qed.

Lemma completions_done l : forall d, handshake_done d <> 0 -> completions (Ref d) l = 0%nat.
Proof.
  induction l as [| c l IH]; intros d Hd; [done |]. cbn [completions].
  pose proof (call_on_done d c) as H'. destruct (call_on (Ref d) c) as [[[rc d'] out] fired].
  destruct H' as (e & -> & Hk & _). destruct (Hk Hd) as [-> He]. rewrite IH; [done | congruence].
Qed.

(** Over any sequence of datagrams and timeouts the completion callback runs at most once. *)
Theorem dtls_completes_once d l : (completions (Ref d) l <= 1)%nat.
Proof.
  revert d. induction l as [| c l IH]; intros d; cbn [completions]; [lia |].
  pose proof (call_on_done d c) as H'. destruct (call_on (Ref d) c) as [[[rc d'] out] fired].
  destruct H' as (e & -> & _ & Hf). destruct fired; [| apply IH].
  rewrite (completions_done l e); [lia |]. by rewrite Hf.
Qed.

(** ** Keys *)

(** RFC 5764, section 4.2: the exporter's output is the client's key, the server's key, the
    client's salt and the server's salt, and each side protects with its own key and salt. *)
Definition material (ck sk cs ss : octets) : octets := ck ++ sk ++ cs ++ ss.

(** Two parts that fill an array between them. *)
Lemma fill_two {B} (r a b : octets) n (k : octets -> outcome B) :
  zlen a = n -> zlen r = zlen a + zlen b ->
  (r ← store_range r 0 a; r ← store_range r n b; k r) = k (a ++ b).
Proof.
  intros Ha Hr. pose proof (zlen_nonneg b). pose proof (zlen_nonneg a).
  pose proof (store_range_cursor [] r 0 a eq_refl ltac:(lia)) as E. cbn [app] in E. rewrite E, bind_Ret.
  rewrite store_range_cursor, bind_Ret by (rewrite ?zlen_zdrop; lia).
  rewrite zdrop_zdrop, zdrop_all, app_nil_r by lia. done.
Qed.

Lemma srtp_key_eq d s ck sk cs ss r k :
  ssl d = Ref s -> handshake_done d <> 0 ->
  SSL_export_keying_material (ssl_state s) label = Ref (material ck sk cs ss) ->
  zlen ck = 16 -> zlen sk = 16 -> zlen cs = 14 -> zlen ss = 14 -> zlen r = 30 -> zlen k = 30 ->
  ngx_rtc_dtls_get_srtp_key (Ref d) (Ref r) (Ref k) = Ret (0, Ref (ck ++ cs), Ref (sk ++ ss)).
Proof.
  intros Hs Hd He Hck Hsk Hcs Hss Hr Hk. unfold ngx_rtc_dtls_get_srtp_key.
  rewrite (proj2 (Z.eqb_neq _ _) Hd), Hs, He. unfold NGX_RTC_SRTP_KEY_LEN, NGX_RTC_SRTP_SALT_LEN, material. cbv zeta.
  assert (E1 : load_range (ck ++ sk ++ cs ++ ss) 0 16 = Ret ck) by by apply load_range_prefix.
  assert (E2 : load_range (ck ++ sk ++ cs ++ ss) 16 16 = Ret sk) by by apply load_range_app.
  assert (E3 : load_range (ck ++ sk ++ cs ++ ss) (0 + (16 + 16)) 14 = Ret cs).
  { rewrite app_assoc. apply load_range_app; [rewrite zlen_app; lia | done]. }
  assert (E4 : load_range (ck ++ sk ++ cs ++ ss) (0 + (16 + 16) + 14) 14 = Ret ss).
  { assert (Ea : ck ++ sk ++ cs ++ ss = (ck ++ sk ++ cs) ++ ss ++ []) by (rewrite app_nil_r; by rewrite <- !app_assoc).
    rewrite Ea. apply load_range_app; rewrite ?zlen_app; lia. }
  rewrite E1, bind_Ret. rewrite E3.
  change (r ← store_range r 0 ck; x ← Ret cs; r ← store_range r 16 x;
          x ← load_range (ck ++ sk ++ cs ++ ss) 16 16; k ← store_range k 0 x;
          x ← load_range (ck ++ sk ++ cs ++ ss) (0 + (16 + 16) + 14) 14; k ← store_range k 16 x;
          Ret (0, Ref r, Ref k)) with
    (r ← store_range r 0 ck; r ← store_range r 16 cs;
          (fun r => x ← load_range (ck ++ sk ++ cs ++ ss) 16 16; k ← store_range k 0 x;
          x ← load_range (ck ++ sk ++ cs ++ ss) (0 + (16 + 16) + 14) 14; k ← store_range k 16 x;
          Ret (0, Ref r, Ref k)) r).
  rewrite fill_two by lia. rewrite E2, bind_Ret, E4.
  change (k ← store_range k 0 sk; x ← Ret ss; k ← store_range k 16 x; Ret (0, Ref (ck ++ cs), Ref k)) with
    (k ← store_range k 0 sk; k ← store_range k 16 ss; (fun k => Ret (0, Ref (ck ++ cs), Ref k)) k).
  by rewrite fill_two by lia.
Qed.

(** Once the handshake is done the keys are there or the call says they are not. *)
Lemma srtp_key_safe `{!OpenSslLaws S} d r k :
  handshake_done d <> 0 -> ssl d <> NULL -> zlen r = 30 -> zlen k = 30 ->
  exists rc r' k', ngx_rtc_dtls_get_srtp_key (Ref d) (Ref r) (Ref k) = Ret (rc, Ref r', Ref k').
Proof.
  intros Hd Hs Hr Hk. destruct (ssl d) as [| c] eqn:Ec; [done |].
  destruct (SSL_export_keying_material (ssl_state c) label) as [| m] eqn:Em.
  { eexists _, _, _. unfold ngx_rtc_dtls_get_srtp_key. rewrite (proj2 (Z.eqb_neq _ _) Hd), Ec, Em. reflexivity. }
  pose proof (export_law _ _ _ Em) as Hm. unfold NGX_RTC_SRTP_KEY_MATERIAL_LEN, NGX_RTC_SRTP_KEY_LEN, NGX_RTC_SRTP_SALT_LEN in Hm.
  set (m1 := zdrop 16 m). set (m2 := zdrop 16 m1).
  assert (H1 : zlen m1 = 44) by (unfold m1; rewrite zlen_zdrop; lia).
  assert (H2 : zlen m2 = 28) by (unfold m2; rewrite zlen_zdrop; lia).
  eexists _, _, _. apply (srtp_key_eq d c (ztake 16 m) (ztake 16 m1) (ztake 14 m2) (zdrop 14 m2)); try done.
  - rewrite Em. unfold material. rewrite ztake_zdrop. unfold m2. rewrite ztake_zdrop. unfold m1. by rewrite ztake_zdrop.
  - rewrite zlen_ztake; lia.
  - rewrite zlen_ztake; lia.
  - rewrite zlen_ztake; lia.
  - rewrite zlen_zdrop; lia.
Qed.
End dtls.
#[global] Arguments ngx_rtc_dtls_t : clear implicits.
#[global] Arguments connection : clear implicits.
End Dtls.

(** ** src/ngx_rtc_srtp.c *)

Module Srtp.

Inductive direction := ssrc_any_inbound | ssrc_any_outbound.

(** libsrtp's contexts: made for one direction from a key and salt under the one policy the
    module uses; each call works on the packet in place and says whether it succeeded. *)
Class LibSrtp (C : Type) := {
  srtp_create : direction -> octets -> C;
  srtp_protect : C -> octets -> bool * octets * C;
  srtp_unprotect : C -> octets -> bool * octets * C;
  srtp_protect_rtcp : C -> octets -> bool * octets * C;
  srtp_unprotect_rtcp : C -> octets -> bool * octets * C
}.

(** What one side protects, a fresh context of the other side with the same key opens; a packet
    grows by the tag of ten octets at most, and a control packet that is protected also by the
    four octets of the SRTCP index.  A packet that is opened loses what protecting adds. *)
Class LibSrtpLaws (C : Type) `{LibSrtp C} := {
  srtp_open_law k p : match srtp_protect (srtp_create ssrc_any_outbound k) p with
    | (true, q, _) => exists c, srtp_unprotect (srtp_create ssrc_any_inbound k) q = (true, p, c)
    | (false, _, _) => True end;
  srtcp_open_law k p : match srtp_protect_rtcp (srtp_create ssrc_any_outbound k) p with
    | (true, q, _) => exists c, srtp_unprotect_rtcp (srtp_create ssrc_any_inbound k) q = (true, p, c)
    | (false, _, _) => True end;
  srtp_size_law c p : zlen (srtp_protect c p).1.2 <= zlen p + 16;
  srtcp_size_law c p : let '(ok, q, _) := srtp_protect_rtcp c p in
    if ok : bool then zlen q = zlen p + 14 else zlen q <= zlen p + 14;
  srtp_opened_law c q : let '(ok, p, _) := srtp_unprotect c q in
    ok = true -> octets_ok q -> zlen p <= zlen q /\ octets_ok p;
  srtcp_opened_law c q : let '(ok, p, _) := srtp_unprotect_rtcp c q in
    ok = true -> octets_ok q -> zlen p + 14 <= zlen q /\ octets_ok p
}.

Section srtp.
Context {C : Type} `{LibSrtp C}.

Record ngx_rtc_srtp_t := { recv_ctx : ptr C; send_ctx : ptr C }.

Definition eta (s : ngx_rtc_srtp_t) : ngx_rtc_srtp_t := {| recv_ctx := recv_ctx s; send_ctx := send_ctx s |}.
Definition set_recv_ctx := ltac:(setter eta recv_ctx).
Definition set_send_ctx := ltac:(setter eta send_ctx).

Definition zero_srtp : ngx_rtc_srtp_t := {| recv_ctx := NULL; send_ctx := NULL |}.

(** srtp_create grants each context or not; [m] counts the contexts libsrtp holds. *)
Definition ngx_rtc_srtp_create (granted_recv granted_send : bool) (srtp : ptr ngx_rtc_srtp_t)
    (recv_key send_key : ptr octets) (m : Z) : Z * ptr ngx_rtc_srtp_t * Z :=
  match srtp, recv_key, send_key with
  | Ref _, Ref rk, Ref sk =>
      let s := zero_srtp in
      if negb granted_recv then (-1, Ref s, m)
      else
        let s := set_recv_ctx (Ref (srtp_create ssrc_any_inbound rk)) s in
        let m := m + 1 in
        if negb granted_send then (-1, Ref (set_recv_ctx NULL s), m - 1)
        else (0, Ref (set_send_ctx (Ref (srtp_create ssrc_any_outbound sk)) s), m + 1)
  | _, _, _ => (-1, srtp, m)
  end.

Definition in_place (f : C -> octets -> bool * octets * C) (c : C) (packet : octets) : Z * octets * C :=
  let '(ok, packet, c) := f c packet in (if ok then 0 else -1, packet, c).

(** The packet is the first *nb octets of its buffer; no caller passes a NULL pointer. *)
Definition ngx_rtc_srtp_protect_rtp (srtp : ngx_rtc_srtp_t) (packet : octets) : Z * octets * ngx_rtc_srtp_t :=
  match send_ctx srtp with
  | NULL => (-1, packet, srtp)
  | Ref c => let '(rc, packet, c) := in_place srtp_protect c packet in (rc, packet, set_send_ctx (Ref c) srtp)
  end.
Definition ngx_rtc_srtp_unprotect_rtp (srtp : ngx_rtc_srtp_t) (packet : octets) : Z * octets * ngx_rtc_srtp_t :=
  match recv_ctx srtp with
  | NULL => (-1, packet, srtp)
  | Ref c => let '(rc, packet, c) := in_place srtp_unprotect c packet in (rc, packet, set_recv_ctx (Ref c) srtp)
  end.
Definition ngx_rtc_srtp_protect_rtcp (srtp : ngx_rtc_srtp_t) (packet : octets) : Z * octets * ngx_rtc_srtp_t :=
  match send_ctx srtp with
  | NULL => (-1, packet, srtp)
  | Ref c => let '(rc, packet, c) := in_place srtp_protect_rtcp c packet in (rc, packet, set_send_ctx (Ref c) srtp)
  end.
Definition ngx_rtc_srtp_unprotect_rtcp (srtp : ngx_rtc_srtp_t) (packet : octets) : Z * octets * ngx_rtc_srtp_t :=
  match recv_ctx srtp with
  | NULL => (-1, packet, srtp)
  | Ref c => let '(rc, packet, c) := in_place srtp_unprotect_rtcp c packet in (rc, packet, set_recv_ctx (Ref c) srtp)
  end.

Definition ngx_rtc_srtp_destroy (srtp : ptr ngx_rtc_srtp_t) (m : Z) : ptr ngx_rtc_srtp_t * Z :=
  match srtp with
  | NULL => (NULL, m)
  | Ref s =>
      let '(s, m) := match recv_ctx s with NULL => (s, m) | Ref _ => (set_recv_ctx NULL s, m - 1) end in
      let '(s, m) := match send_ctx s with NULL => (s, m) | Ref _ => (set_send_ctx NULL s, m - 1) end in
      (Ref s, m)
  end.

Context `{!LibSrtpLaws C}.

(** A session gets both contexts or neither, destroying gives back what it got, and a
    session without its contexts neither sends nor accepts a packet. *)
Theorem srtp_both_or_none g1 g2 s0 rk sk m :
  let '(rc, s, m1) := ngx_rtc_srtp_create g1 g2 (Ref s0) (Ref rk) (Ref sk) m in
  (ngx_rtc_srtp_destroy s m1).2 = m /\
  if rc =? 0 then m1 = m + 2
  else m1 = m /\ s = Ref zero_srtp /\
    forall p, ngx_rtc_srtp_protect_rtp zero_srtp p = (-1, p, zero_srtp) /\ ngx_rtc_srtp_unprotect_rtp zero_srtp p = (-1, p, zero_srtp) /\
      ngx_rtc_srtp_protect_rtcp zero_srtp p = (-1, p, zero_srtp) /\ ngx_rtc_srtp_unprotect_rtcp zero_srtp p = (-1, p, zero_srtp).
Proof. destruct g1, g2; cbn; split_and!; try done; lia. Qed.

(** ** Both ends of a handshake *)

Context {S : Type} `{Dtls.OpenSsl S}.

(** The client of RFC 5764 protects with its own key and salt and opens with the server's. *)
Definition client (ck sk cs ss : octets) : ngx_rtc_srtp_t :=
  {| recv_ctx := Ref (srtp_create ssrc_any_inbound (sk ++ ss)); send_ctx := Ref (srtp_create ssrc_any_outbound (ck ++ cs)) |}.

(** C18: The contexts the server makes from an exported key block are the counterpart of those
    the client of RFC 5764 makes from the same block: what either end protects, in media or in
    control packets, the other end opens and gets back unchanged. *)
Theorem srtp_interoperates (d : Dtls.ngx_rtc_dtls_t S) conn ck sk cs ss r0 k0 s0 m p :
  Dtls.ssl d = Ref conn -> Dtls.handshake_done d <> 0 ->
  Dtls.SSL_export_keying_material (Dtls.ssl_state conn) Dtls.label = Ref (Dtls.material ck sk cs ss) ->
  zlen ck = 16 -> zlen sk = 16 -> zlen cs = 14 -> zlen ss = 14 -> zlen r0 = 30 -> zlen k0 = 30 ->
  exists rk sdk srv m1,
    Dtls.ngx_rtc_dtls_get_srtp_key (Ref d) (Ref r0) (Ref k0) = Ret (0, Ref rk, Ref sdk) /\
    ngx_rtc_srtp_create true true (Ref s0) (Ref rk) (Ref sdk) m = (0, Ref srv, m1) /\
    let opens (protect unprotect : ngx_rtc_srtp_t -> octets -> Z * octets * ngx_rtc_srtp_t) (x y : ngx_rtc_srtp_t) :=
      match protect x p with (0, q, _) => exists y', unprotect y q = (0, p, y') | _ => True end in
    let cl := client ck sk cs ss in
    opens ngx_rtc_srtp_protect_rtp ngx_rtc_srtp_unprotect_rtp cl srv /\
    opens ngx_rtc_srtp_protect_rtp ngx_rtc_srtp_unprotect_rtp srv cl /\
    opens ngx_rtc_srtp_protect_rtcp ngx_rtc_srtp_unprotect_rtcp cl srv /\
    opens ngx_rtc_srtp_protect_rtcp ngx_rtc_srtp_unprotect_rtcp srv cl.
Proof.
  intros Hc Hd He H1 H2 H3 H4 H5 H6.
  exists (ck ++ cs), (sk ++ ss). eexists _, _. split; [by apply (Dtls.srtp_key_eq d conn) |]. split; [reflexivity |].
  cbv zeta. unfold ngx_rtc_srtp_protect_rtp, ngx_rtc_srtp_unprotect_rtp, ngx_rtc_srtp_protect_rtcp,
    ngx_rtc_srtp_unprotect_rtcp, in_place, client. cbn [send_ctx recv_ctx set_send_ctx set_recv_ctx eta].
  pose proof (srtp_open_law (ck ++ cs) p) as L1. pose proof (srtp_open_law (sk ++ ss) p) as L2.
  pose proof (srtcp_open_law (ck ++ cs) p) as L3. pose proof (srtcp_open_law (sk ++ ss) p) as L4.
  split_and!.
  - destruct (srtp_protect _ p) as [[[] q] c]; [| done]. destruct L1 as [c' ->]. by eexists.
  - clear L1. destruct (srtp_protect _ p) as [[[] q] c]; [| done]. destruct L2 as [c' ->]. by eexists.
  - destruct (srtp_protect_rtcp _ p) as [[[] q] c]; [| done]. destruct L3 as [c' ->]. by eexists.
  - clear L3. destruct (srtp_protect_rtcp _ p) as [[[] q] c]; [| done]. destruct L4 as [c' ->]. by eexists.
Qed.

(** What the two calls for received packets leave. *)
Lemma unprotect_rtp_opened s q rc p k :
  ngx_rtc_srtp_unprotect_rtp s q = (rc, p, k) -> rc = 0 -> octets_ok q -> zlen p <= zlen q /\ octets_ok p.
Proof.
  unfold ngx_rtc_srtp_unprotect_rtp, in_place. destruct (recv_ctx s) as [| c]; [by intros [= <- <- <-] |].
  pose proof (srtp_opened_law c q) as Hl. destruct (srtp_unprotect c q) as [[[] p'] c']; intros [= <- <- <-] Hrc; [by apply Hl | done].
Qed.

Lemma unprotect_rtcp_opened s q rc p k :
  ngx_rtc_srtp_unprotect_rtcp s q = (rc, p, k) -> rc = 0 -> octets_ok q -> zlen p + 14 <= zlen q /\ octets_ok p.
Proof.
  unfold ngx_rtc_srtp_unprotect_rtcp, in_place. destruct (recv_ctx s) as [| c]; [by intros [= <- <- <-] |].
  pose proof (srtcp_opened_law c q) as Hl. destruct (srtp_unprotect_rtcp c q) as [[[] p'] c']; intros [= <- <- <-] Hrc; [by apply Hl | done].
Qed.

Lemma protect_rtcp_fits s p : zlen (ngx_rtc_srtp_protect_rtcp s p).1.2 <= zlen p + 14.
Proof.
  unfold ngx_rtc_srtp_protect_rtcp, in_place. destruct (send_ctx s) as [| c]; [cbn; lia |].
  pose proof (srtcp_size_law c p) as Hl. destruct (srtp_protect_rtcp c p) as [[[] q] c']; cbn; lia.
Qed.

(** The sizes the send path counts on. *)
Lemma protect_fits s p : zlen (ngx_rtc_srtp_protect_rtp s p).1.2 <= zlen p + 16.
Proof.
  unfold ngx_rtc_srtp_protect_rtp, in_place. destruct (send_ctx s) as [| c]; [cbn; lia |].
  pose proof (srtp_size_law c p) as Hl. destruct (srtp_protect c p) as [[[] q] c']; done.
Qed.
End srtp.
#[global] Arguments ngx_rtc_srtp_t : clear implicits.

(** ** A toy handshake and a toy cipher *)

(** The handshake is over after two datagrams; the key block is four constant runs. *)
#[export] Instance demo_ssl : Dtls.OpenSsl Z := {|
  Dtls.BIO_write s d := (zlen d, s + 1);
  Dtls.SSL_read s := (-1, Dtls.SSL_ERROR_WANT_READ, [[22; s]], s);
  Dtls.SSL_is_init_finished s := if 2 <=? s then 1 else 0;
  Dtls.DTLSv1_get_timeout s := Some (1, 500);
  Dtls.DTLSv1_handle_timeout s := (1, [[22; s]], s);
  Dtls.SSL_export_keying_material s l :=
    Ref (Dtls.material (replicate 16 1) (replicate 16 2) (replicate 14 3) (replicate 14 4))
|}.

#[export] Instance demo_ssl_laws : Dtls.OpenSslLaws Z.
Proof. split. by intros s l m [= <-]. Qed.

(** The tag is the start of the key, [n] octets of it. *)
Definition tag_of (n : Z) (k : octets) : octets := ztake n (k ++ zeros n).
Definition tagged (n : Z) (k p : octets) : octets := p ++ tag_of n k.
Definition untag (n : Z) (k q : octets) : bool * octets :=
  let i := zlen q - n in
  if (0 <=? i) && bool_decide (zdrop i q = tag_of n k) then (true, ztake i q) else (false, q).

Lemma zlen_tag_of n k : 0 <= n -> zlen (tag_of n k) = n.
Proof. intros Hn. pose proof (zlen_nonneg k). unfold tag_of. rewrite zlen_ztake, zlen_app, zlen_zeros by done. lia. Qed.

#[export] Instance demo_srtp : LibSrtp octets := {|
  srtp_create _ k := k;
  srtp_protect k p := (true, tagged 10 k p, k);
  srtp_unprotect k q := (untag 10 k q, k);
  srtp_protect_rtcp k p := (true, tagged 14 k p, k);
  srtp_unprotect_rtcp k q := (untag 14 k q, k)
|}.

Lemma untag_tagged n k p : 0 <= n -> untag n k (tagged n k p) = (true, p).
Proof.
  intros Hn. unfold untag, tagged. cbv zeta. pose proof (zlen_nonneg p). rewrite zlen_app, zlen_tag_of by done.
  replace (zlen p + n - n) with (zlen p) by lia.
  rewrite zdrop_app_length, ztake_app_length, bool_decide_eq_true_2 by done. by destruct (Z.leb_spec 0 (zlen p)); [| lia].
Qed.

Lemma untag_opened n k q :
  0 <= n -> (untag n k q).1 = true -> octets_ok q -> zlen (untag n k q).2 + n <= zlen q /\ octets_ok (untag n k q).2.
Proof.
  intros Hn. unfold untag. cbv zeta. destruct (_ && _) eqn:E; cbn; [| done]. intros _ Hq.
  apply andb_prop in E as [E _]. split; [rewrite zlen_ztake; lia |]. by apply Forall_take.
Qed.

#[export] Instance demo_srtp_laws : LibSrtpLaws octets.
Proof.
  split; cbn.
  - intros k p. exists k. by rewrite untag_tagged.
  - intros k p. exists k. by rewrite untag_tagged.
  - intros k p. unfold tagged. rewrite zlen_app, zlen_tag_of; lia.
  - intros k p. unfold tagged. by rewrite zlen_app, zlen_tag_of by lia.
  - intros k q. pose proof (untag_opened 10 k q ltac:(lia)) as H. destruct (untag 10 k q) as [ok p]. cbn in H.
    intros Hok Hq. destruct (H Hok Hq) as [Hl Hp]. split; [lia | done].
  - intros k q. pose proof (untag_opened 14 k q ltac:(lia)) as H. by destruct (untag 14 k q).
Qed.

Definition finished : Dtls.ngx_rtc_dtls_t Z :=
  {| Dtls.ssl := Ref {| Dtls.ssl_state := 2; Dtls.has_bios := true |}; Dtls.bio_in := Ref tt; Dtls.bio_out := Ref tt;
     Dtls.handshake_done := 1; Dtls.send_cb := Ref tt; Dtls.done_cb := Ref tt |}.

Lemma fingerprint_exact_witness :
  exists r, Dtls.fingerprint_loop (replicate 32 171) 0 0 (replicate 128 255) =
      Ret (Dtls.fingerprint_text (replicate 32 171) ++ 0 :: r) /\
    zlen (Dtls.fingerprint_text (replicate 32 171)) = 95.
Proof. by apply (Dtls.fingerprint_exact (replicate 32 171) (replicate 128 255)). Defined.

Lemma srtp_interoperates_witness :
  exists rk sdk srv m1,
    Dtls.ngx_rtc_dtls_get_srtp_key (Ref finished) (Ref (zeros 30)) (Ref (zeros 30)) = Ret (0, Ref rk, Ref sdk) /\
    ngx_rtc_srtp_create true true (Ref zero_srtp) (Ref rk) (Ref sdk) 0 = (0, Ref srv, m1).
Proof.
  destruct (srtp_interoperates finished {| Dtls.ssl_state := 2; Dtls.has_bios := true |}
    (replicate 16 1) (replicate 16 2) (replicate 14 3) (replicate 14 4) (zeros 30) (zeros 30) zero_srtp 0 [128; 96])
    as (rk & sdk & srv & m1 & H1 & H2 & _); try done. by exists rk, sdk, srv, m1.
Defined.

End Srtp.
