(* ===== verification/Sdp.v ===== *)
(** The offer parser of src/ngx_rtc_sdp.c.

    A pointer with a length is the slice it covers; fixed char arrays are the C strings in
    them, with their sizes where a copy checks them.  An early return drops the parser's
    local state, so an error is just its code. *)

From S2P Require Import Prelude Text.
Import Text.

Module Sdp.

Definition NGX_RTC_SDP_MAX_PT : Z := 32.
Definition NGX_RTC_SDP_ICE_UFRAG_LEN : Z := 64.
Definition NGX_RTC_SDP_ICE_PWD_LEN : Z := 256.
Definition NGX_RTC_SDP_FP_ALGO_LEN : Z := 32.
Definition NGX_RTC_SDP_FP_LEN : Z := 160.
Definition NGX_RTC_SDP_SETUP_LEN : Z := 32.
Definition NGX_RTC_SDP_STR_LEN : Z := 64.
Definition NGX_RTC_SDP_FMTP_LEN : Z := 256.
Definition NGX_RTC_SDP_MAX_MEDIA : Z := 4.
Definition NGX_RTC_SDP_MID_LEN : Z := 32.
Definition NGX_RTC_SDP_TWCC_URI_LEN : Z := 96.

Record ngx_rtc_sdp_pt_t := {
  pt : Z;
  encoding : octets;
  clock_rate : Z;
  channels : Z;
  fmtp : octets
}.

Definition pt_eta (p : ngx_rtc_sdp_pt_t) : ngx_rtc_sdp_pt_t :=
  {| pt := pt p; encoding := encoding p; clock_rate := clock_rate p; channels := channels p; fmtp := fmtp p |}.
Definition set_encoding := ltac:(setter pt_eta encoding).
Definition set_clock_rate := ltac:(setter pt_eta clock_rate).
Definition set_channels := ltac:(setter pt_eta channels).
Definition set_fmtp := ltac:(setter pt_eta fmtp).

(** [pts] is pts[0 .. n_pt). *)
Record ngx_rtc_sdp_media_t := {
  type : octets;
  mid : octets;
  ssrc : Z;
  twcc_ext : Z;
  twcc_uri : octets;
  pts : list ngx_rtc_sdp_pt_t
}.

Definition media_eta (m : ngx_rtc_sdp_media_t) : ngx_rtc_sdp_media_t :=
  {| type := type m; mid := mid m; ssrc := ssrc m; twcc_ext := twcc_ext m; twcc_uri := twcc_uri m;
     pts := pts m |}.
Definition set_type := ltac:(setter media_eta type).
Definition set_mid := ltac:(setter media_eta mid).
Definition set_ssrc := ltac:(setter media_eta ssrc).
Definition set_twcc_ext := ltac:(setter media_eta twcc_ext).
Definition set_twcc_uri := ltac:(setter media_eta twcc_uri).
Definition set_pts := ltac:(setter media_eta pts).

Record ngx_rtc_sdp_session_t := {
  ice_ufrag : octets;
  ice_pwd : octets;
  fingerprint_algo : octets;
  fingerprint : octets;
  setup : octets
}.

Definition session_eta (s : ngx_rtc_sdp_session_t) : ngx_rtc_sdp_session_t :=
  {| ice_ufrag := ice_ufrag s; ice_pwd := ice_pwd s; fingerprint_algo := fingerprint_algo s;
     fingerprint := fingerprint s; setup := setup s |}.
Definition set_ice_ufrag := ltac:(setter session_eta ice_ufrag).
Definition set_ice_pwd := ltac:(setter session_eta ice_pwd).
Definition set_fingerprint_algo := ltac:(setter session_eta fingerprint_algo).
Definition set_fingerprint := ltac:(setter session_eta fingerprint).
Definition set_setup := ltac:(setter session_eta setup).

(** [media] is media[0 .. n_media). *)
Record ngx_rtc_sdp_parser_t := {
  session : ngx_rtc_sdp_session_t;
  media : list ngx_rtc_sdp_media_t;
  in_media : Z
}.

Definition parser_eta (st : ngx_rtc_sdp_parser_t) : ngx_rtc_sdp_parser_t :=
  {| session := session st; media := media st; in_media := in_media st |}.
Definition set_session := ltac:(setter parser_eta session).
Definition set_media := ltac:(setter parser_eta media).
Definition set_in_media := ltac:(setter parser_eta in_media).

Definition new_pt (n : Z) : ngx_rtc_sdp_pt_t :=
  {| pt := n; encoding := []; clock_rate := 0; channels := 0; fmtp := [] |}.
Definition zero_media : ngx_rtc_sdp_media_t :=
  {| type := []; mid := []; ssrc := 0; twcc_ext := 0; twcc_uri := []; pts := [] |}.
Definition zero_session : ngx_rtc_sdp_session_t :=
  {| ice_ufrag := []; ice_pwd := []; fingerprint_algo := []; fingerprint := []; setup := [] |}.
Definition zero_parser : ngx_rtc_sdp_parser_t :=
  {| session := zero_session; media := []; in_media := 0 |}.

(** *** Tokens *)

Definition is_ws (c : Z) : bool := (c =? 32) || (c =? 9).
Definition not_ws (c : Z) : bool := negb (is_ws c).
Definition not_char (d c : Z) : bool := negb (c =? d).

Definition ngx_rtc_sdp_copy_token (dst_cap : Z) (src : octets) : outcome (result octets) :=
  if dst_cap =? 0 then fail NGX_RTC_ERR_TOO_SMALL
  else if dst_cap <=? zlen src then fail NGX_RTC_ERR_TOO_SMALL
  else ok (c_string src).

Fixpoint parse_u32_loop (fuel : nat) (s : octets) (i v : Z) (seen : bool) : outcome (result Z) :=
  let stop := if seen then ok v else fail NGX_RTC_ERR_PARSE in
  if i <? zlen s then
    match fuel with
    | O => Fault
    | S fuel =>
        c ← load s i;
        if (c <? 48) || (57 <? c) then stop
        else
          let d := c - 48 in
          if (4294967295 - d) / 10 <? v then fail NGX_RTC_ERR_PARSE
          else parse_u32_loop fuel s (i + 1) (u32 (v * 10 + d)) true
    end
  else stop.

Definition ngx_rtc_sdp_parse_u32 (s : octets) : outcome (result Z) :=
  parse_u32_loop (Z.to_nat (zlen s)) s 0 0 false.

Definition ngx_rtc_sdp_skip_ws (s : octets) (pos : Z) : outcome Z := scan is_ws s pos.

(** The token and the position after it. *)
Definition ngx_rtc_sdp_next_token (s : octets) (pos : Z) : outcome (result (octets * Z)) :=
  pos ← ngx_rtc_sdp_skip_ws s pos;
  if zlen s <=? pos then fail NGX_RTC_ERR_PARSE
  else
    let start := pos in
    pos ← scan not_ws s pos;
    tok ← load_range s start (pos - start);
    ok (tok, pos).

Definition ngx_rtc_sdp_name_eq (a b : octets) : bool := bool_decide (a = b).
Definition ngx_rtc_sdp_streq (a b : octets) : bool := bool_decide (a = b).

Definition upper (c : Z) : Z := if (97 <=? c) && (c <=? 122) then c - 97 + 65 else c.
Definition ngx_rtc_sdp_streq_ci (a b : octets) : bool := bool_decide (map upper a = map upper b).

Fixpoint find_pt_loop (l : list ngx_rtc_sdp_pt_t) (n i : Z) : ptr Z :=
  match l with
  | [] => NULL
  | p :: l => if n =? pt p then Ref i else find_pt_loop l n (i + 1)
  end.

(** The index of the entry. *)
Definition ngx_rtc_sdp_find_pt (m : ngx_rtc_sdp_media_t) (n : Z) : ptr Z := find_pt_loop (pts m) n 0.

Definition ngx_rtc_sdp_set_if_empty (dst : octets) (dst_cap : Z) (value : octets) : outcome (result octets) :=
  match dst with [] => ngx_rtc_sdp_copy_token dst_cap value | _ => ok dst end.

(** *** Attributes *)

Definition ngx_rtc_sdp_parse_fingerprint (s : ngx_rtc_sdp_session_t) (value : octets)
    : outcome (result ngx_rtc_sdp_session_t) :=
  '(tok, pos) ←? ngx_rtc_sdp_next_token value 0;
  match fingerprint_algo s with
  | [] =>
      algo ←? ngx_rtc_sdp_copy_token NGX_RTC_SDP_FP_ALGO_LEN tok;
      pos ← ngx_rtc_sdp_skip_ws value pos;
      hash ← load_range value pos (zlen value - pos);
      hash ←? ngx_rtc_sdp_copy_token NGX_RTC_SDP_FP_LEN hash;
      ok (s |> set_fingerprint_algo algo |> set_fingerprint hash)
  | _ => ok s
  end.

(** The entry of the payload type a value starts with, and the position after it. *)
Definition pt_token (m : ngx_rtc_sdp_media_t) (value : octets) : outcome (result (Z * ngx_rtc_sdp_pt_t * Z)) :=
  '(tok, pos) ←? ngx_rtc_sdp_next_token value 0;
  n ←? ngx_rtc_sdp_parse_u32 tok;
  if 127 <? n then fail NGX_RTC_ERR_PARSE
  else
    match ngx_rtc_sdp_find_pt m (u8 n) with
    | NULL => fail NGX_RTC_ERR_PARSE
    | Ref k =>
        p ← load (pts m) k;
        pos ← ngx_rtc_sdp_skip_ws value pos;
        ok (k, p, pos)
    end.

Definition put_pt (k : Z) (p : ngx_rtc_sdp_pt_t) (m : ngx_rtc_sdp_media_t) : outcome (result ngx_rtc_sdp_media_t) :=
  l ← store (pts m) k p; ok (set_pts l m).

Definition ngx_rtc_sdp_parse_rtpmap (m : ngx_rtc_sdp_media_t) (value : octets)
    : outcome (result ngx_rtc_sdp_media_t) :=
  '(k, p, pos) ←? pt_token m value;
  let start := pos in
  pos ← scan (not_char 47) value pos;
  enc ← load_range value start (pos - start);
  enc ←? ngx_rtc_sdp_copy_token NGX_RTC_SDP_STR_LEN enc;
  let pos := if pos <? zlen value then pos + 1 else pos in
  let start := pos in
  pos ← scan (not_char 47) value pos;
  clock ← load_range value start (pos - start);
  clock ←? ngx_rtc_sdp_parse_u32 clock;
  let p := p |> set_encoding enc |> set_clock_rate clock in
  let pos := if pos <? zlen value then pos + 1 else pos in
  if pos <? zlen value then
    rest ← load_range value pos (zlen value - pos);
    n ←? ngx_rtc_sdp_parse_u32 rest;
    put_pt k (set_channels n p) m
  else put_pt k p m.

Definition ngx_rtc_sdp_parse_ssrc (m : ngx_rtc_sdp_media_t) (value : octets) : outcome (result ngx_rtc_sdp_media_t) :=
  '(tok, _) ←? ngx_rtc_sdp_next_token value 0;
  n ←? ngx_rtc_sdp_parse_u32 tok;
  ok (set_ssrc n m).

Definition ngx_rtc_sdp_parse_fmtp (m : ngx_rtc_sdp_media_t) (value : octets) : outcome (result ngx_rtc_sdp_media_t) :=
  '(k, p, pos) ←? pt_token m value;
  rest ← load_range value pos (zlen value - pos);
  f ←? ngx_rtc_sdp_copy_token NGX_RTC_SDP_FMTP_LEN rest;
  put_pt k (set_fmtp f p) m.

Definition twcc : octets := lit "transport-wide-cc".

(** The digits of an extension id, accumulated in 32 bits. *)
Definition ext_id (ds : octets) : Z := fold_left (fun id c => u32 (id * 10 + (c - 48))) ds 0.

(** The search of [twcc] in value[i .. stop). *)
Fixpoint twcc_search (fuel : nat) (value : octets) (i stop : Z) : outcome bool :=
  if i + zlen twcc <=? stop then
    match fuel with
    | O => Fault
    | S fuel =>
        v ← load_range value i (zlen twcc);
        if bool_decide (v = twcc) then Ret true else twcc_search fuel value (i + 1) stop
    end
  else Ret false.

Definition is_uri (c : Z) : bool := negb (is_ws c || (c =? 13) || (c =? 10)).

Definition ngx_rtc_sdp_parse_extmap (m : ngx_rtc_sdp_media_t) (value : octets) : outcome (result ngx_rtc_sdp_media_t) :=
  pos ← ngx_rtc_sdp_skip_ws value 0;
  let start := pos in
  pos ← scan is_digit value pos;
  ds ← load_range value start (pos - start);
  let id := ext_id ds in
  if id =? 0 then ok m
  else
    pos ← ngx_rtc_sdp_skip_ws value pos;
    let uri_start := pos in
    pos ← scan is_uri value pos;
    let uri_len := pos - uri_start in
    matched ← twcc_search (Z.to_nat (zlen value)) value uri_start (uri_start + uri_len);
    if (matched : bool) && (id <=? 14) && (0 <? uri_len) && (uri_len <? NGX_RTC_SDP_TWCC_URI_LEN) then
      uri ← load_range value uri_start uri_len;
      ok (m |> set_twcc_uri (c_string uri) |> set_twcc_ext (u8 id))
    else ok m.

(** *** Lines *)

(** Update of the media description an attribute belongs to. *)
Definition on_media (st : ngx_rtc_sdp_parser_t) (k : Z)
    (f : ngx_rtc_sdp_media_t -> outcome (result ngx_rtc_sdp_media_t)) : outcome (result ngx_rtc_sdp_parser_t) :=
  m ← load (media st) k;
  m ←? f m;
  l ← store (media st) k m;
  ok (set_media l st).

(** [k] is the index of the media description, NULL at session level. *)
Definition ngx_rtc_sdp_apply_attr (st : ngx_rtc_sdp_parser_t) (name value : octets) (k : ptr Z)
    : outcome (result ngx_rtc_sdp_parser_t) :=
  let s := session st in
  if ngx_rtc_sdp_name_eq name (lit "ice-ufrag") then
    v ←? ngx_rtc_sdp_set_if_empty (ice_ufrag s) NGX_RTC_SDP_ICE_UFRAG_LEN value;
    ok (set_session (set_ice_ufrag v s) st)
  else if ngx_rtc_sdp_name_eq name (lit "ice-pwd") then
    v ←? ngx_rtc_sdp_set_if_empty (ice_pwd s) NGX_RTC_SDP_ICE_PWD_LEN value;
    ok (set_session (set_ice_pwd v s) st)
  else if ngx_rtc_sdp_name_eq name (lit "setup") then
    v ←? ngx_rtc_sdp_set_if_empty (setup s) NGX_RTC_SDP_SETUP_LEN value;
    ok (set_session (set_setup v s) st)
  else if ngx_rtc_sdp_name_eq name (lit "fingerprint") then
    s ←? ngx_rtc_sdp_parse_fingerprint s value; ok (set_session s st)
  else
    match k with
    | NULL => ok st
    | Ref k =>
        if ngx_rtc_sdp_name_eq name (lit "mid") then
          on_media st k (fun m => v ←? ngx_rtc_sdp_copy_token NGX_RTC_SDP_MID_LEN value; ok (set_mid v m))
        else if ngx_rtc_sdp_name_eq name (lit "rtpmap") then
          on_media st k (fun m => ngx_rtc_sdp_parse_rtpmap m value)
        else if ngx_rtc_sdp_name_eq name (lit "ssrc") then
          on_media st k (fun m => ngx_rtc_sdp_parse_ssrc m value)
        else if ngx_rtc_sdp_name_eq name (lit "fmtp") then
          on_media st k (fun m => ngx_rtc_sdp_parse_fmtp m value)
        else if ngx_rtc_sdp_name_eq name (lit "extmap") then
          on_media st k (fun m => ngx_rtc_sdp_parse_extmap m value)
        else ok st
    end.

Definition ngx_rtc_sdp_parse_attr (st : ngx_rtc_sdp_parser_t) (content : octets) (k : ptr Z)
    : outcome (result ngx_rtc_sdp_parser_t) :=
  colon ← scan (not_char 58) content 0;
  name ← load_range content 0 colon;
  if colon <? zlen content then
    value ← load_range content (colon + 1) (zlen content - colon - 1);
    ngx_rtc_sdp_apply_attr st name value k
  else ngx_rtc_sdp_apply_attr st name [] k.

(** The payload types after the protocol; a token that is no number ends them. *)
Fixpoint fmt_loop (fuel : nat) (content : octets) (pos : Z) (m : ngx_rtc_sdp_media_t)
    : outcome (result ngx_rtc_sdp_media_t) :=
  if pos <? zlen content then
    match fuel with
    | O => Fault
    | S fuel =>
        t ← ngx_rtc_sdp_next_token content pos;
        match t with
        | Err _ => ok m
        | Ok (tok, pos) =>
            n ← ngx_rtc_sdp_parse_u32 tok;
            match n with
            | Err _ => ok m
            | Ok n =>
                if 127 <? n then fail NGX_RTC_ERR_PARSE
                else if NGX_RTC_SDP_MAX_PT <=? zlen (pts m) then fail NGX_RTC_ERR_TOO_LARGE
                else fmt_loop fuel content pos (set_pts (pts m ++ [new_pt (u8 n)]) m)
            end
        end
    end
  else ok m.

Definition ngx_rtc_sdp_parse_media (st : ngx_rtc_sdp_parser_t) (content : octets)
    : outcome (result ngx_rtc_sdp_parser_t) :=
  if NGX_RTC_SDP_MAX_MEDIA <=? zlen (media st) then fail NGX_RTC_ERR_TOO_LARGE
  else
    '(tok, pos) ←? ngx_rtc_sdp_next_token content 0;
    t ←? ngx_rtc_sdp_copy_token NGX_RTC_SDP_STR_LEN tok;
    '(_, pos) ←? ngx_rtc_sdp_next_token content pos;
    '(_, pos) ←? ngx_rtc_sdp_next_token content pos;
    m ←? fmt_loop (Z.to_nat (zlen content)) content pos (set_type t zero_media);
    ok (st |> set_media (media st ++ [m]) |> set_in_media 1).

Definition ngx_rtc_sdp_parse_line (st : ngx_rtc_sdp_parser_t) (line : octets) : outcome (result ngx_rtc_sdp_parser_t) :=
  content ← load_range line 2 (zlen line - 2);
  c ← load line 0;
  if c =? 109 then ngx_rtc_sdp_parse_media st content
  else if c =? 97 then
    ngx_rtc_sdp_parse_attr st content (if in_media st =? 0 then NULL else Ref (zlen (media st) - 1))
  else ok st.

(** *** The offer *)

(** The codec picked for a medium: the video or the audio fields of the offer. *)
Record codec := {
  c_pt : Z;
  c_ssrc : Z;
  c_encoding : octets;
  c_clock_rate : Z;
  c_channels : Z;
  c_fmtp : octets;
  c_twcc_ext : Z;
  c_twcc_uri : octets
}.

Definition codec_eta (c : codec) : codec :=
  {| c_pt := c_pt c; c_ssrc := c_ssrc c; c_encoding := c_encoding c; c_clock_rate := c_clock_rate c;
     c_channels := c_channels c; c_fmtp := c_fmtp c; c_twcc_ext := c_twcc_ext c; c_twcc_uri := c_twcc_uri c |}.
Definition set_c_twcc_ext := ltac:(setter codec_eta c_twcc_ext).
Definition set_c_twcc_uri := ltac:(setter codec_eta c_twcc_uri).

Definition zero_codec : codec :=
  {| c_pt := 0; c_ssrc := 0; c_encoding := []; c_clock_rate := 0; c_channels := 0; c_fmtp := [];
     c_twcc_ext := 0; c_twcc_uri := [] |}.

(** [media_type] and [media_mid] are the first n_media entries. *)
Record ngx_rtc_sdp_offer_t := {
  o_session : ngx_rtc_sdp_session_t;
  o_video : codec;
  o_audio : codec;
  media_type : list octets;
  media_mid : list octets
}.

Definition zero_offer : ngx_rtc_sdp_offer_t :=
  {| o_session := zero_session; o_video := zero_codec; o_audio := zero_codec; media_type := []; media_mid := [] |}.

(** The first payload type of [m] with the encoding; the offer has no video channels. *)
Fixpoint pick (m : ngx_rtc_sdp_media_t) (name : octets) (keep_channels : bool) (l : list ngx_rtc_sdp_pt_t)
    (c : codec) : codec :=
  match l with
  | [] => c
  | p :: l =>
      if ngx_rtc_sdp_streq_ci (encoding p) name then
        {| c_pt := pt p; c_ssrc := ssrc m; c_encoding := encoding p; c_clock_rate := clock_rate p;
           c_channels := if keep_channels then channels p else c_channels c; c_fmtp := fmtp p;
           c_twcc_ext := c_twcc_ext c; c_twcc_uri := c_twcc_uri c |}
      else pick m name keep_channels l c
  end.

Definition take_codec (m : ngx_rtc_sdp_media_t) (name : octets) (keep_channels : bool) (c : codec) : codec :=
  pick m name keep_channels (pts m) (c |> set_c_twcc_ext (twcc_ext m) |> set_c_twcc_uri (twcc_uri m)).

Fixpoint build_loop (l : list ngx_rtc_sdp_media_t) (video audio : codec) : codec * codec :=
  match l with
  | [] => (video, audio)
  | m :: l =>
      if ngx_rtc_sdp_streq (type m) (lit "video") then
        build_loop l (take_codec m (lit "H264") false video) audio
      else if ngx_rtc_sdp_streq (type m) (lit "audio") then
        build_loop l video (take_codec m (lit "opus") true audio)
      else build_loop l video audio
  end.

Definition ngx_rtc_sdp_build_offer (st : ngx_rtc_sdp_parser_t) : ngx_rtc_sdp_offer_t :=
  let '(video, audio) := build_loop (media st) zero_codec zero_codec in
  {| o_session := session st; o_video := video; o_audio := audio;
     media_type := type <$> media st; media_mid := mid <$> media st |}.

Definition not_eol (c : Z) : bool := negb ((c =? 13) || (c =? 10)).

(** Past one line end, CR LF, CR or LF. *)
Definition skip_eol (sdp : octets) (pos : Z) : outcome Z :=
  if pos <? zlen sdp then
    c ← load sdp pos;
    let pos := if c =? 13 then pos + 1 else pos in
    if pos <? zlen sdp then c ← load sdp pos; Ret (if c =? 10 then pos + 1 else pos) else Ret pos
  else Ret pos.

Fixpoint parse_loop (fuel : nat) (sdp : octets) (pos : Z) (st : ngx_rtc_sdp_parser_t)
    : outcome (result ngx_rtc_sdp_parser_t) :=
  if pos <? zlen sdp then
    match fuel with
    | O => Fault
    | S fuel =>
        let line_start := pos in
        pos ← scan not_eol sdp pos;
        line ← load_range sdp line_start (pos - line_start);
        pos ← skip_eol sdp pos;
        is_line ← (if 2 <=? zlen line then c ← load line 1; Ret (c =? 61) else Ret false);
        if (is_line : bool) then
          st ←? ngx_rtc_sdp_parse_line st line; parse_loop fuel sdp pos st
        else parse_loop fuel sdp pos st
    end
  else ok st.

(** The return code and what the call leaves in [out]. *)
Definition ngx_rtc_sdp_parse_offer (sdp : ptr octets) (out : ptr ngx_rtc_sdp_offer_t)
    : outcome (Z * ptr ngx_rtc_sdp_offer_t) :=
  match sdp, out with
  | Ref sdp, Ref _ =>
      r ← parse_loop (Z.to_nat (zlen sdp)) sdp 0 zero_parser;
      Ret match r with
          | Ok st => (NGX_RTC_OK, Ref (ngx_rtc_sdp_build_offer st))
          | Err rc => (rc, Ref zero_offer)
          end
  | _, _ => Ret (NGX_RTC_ERR_INVALID, out)
  end.

(** ** The parser as functions of lists

    The same grammar without positions: [l] is what is left of the slice. *)

Definition word (l : octets) : result (octets * octets) :=
  match suffix_of is_ws l with
  | [] => Err NGX_RTC_ERR_PARSE
  | l => Ok (prefix_of not_ws l, suffix_of not_ws l)
  end.

Definition num (l : octets) : result Z :=
  let ds := prefix_of is_digit l in
  if bool_decide (ds = []) || (4294967295 <? number ds) then Err NGX_RTC_ERR_PARSE else Ok (number ds).

Definition copy (cap : Z) (v : octets) : result octets :=
  if cap <=? zlen v then Err NGX_RTC_ERR_TOO_SMALL else Ok (c_string v).

Definition copy_if_empty (dst : octets) (cap : Z) (v : octets) : result octets :=
  match dst with [] => copy cap v | _ => Ok dst end.

Definition fingerprint_of (s : ngx_rtc_sdp_session_t) (v : octets) : result ngx_rtc_sdp_session_t :=
  '(tok, r) ← word v;
  match fingerprint_algo s with
  | [] =>
      algo ← copy NGX_RTC_SDP_FP_ALGO_LEN tok;
      hash ← copy NGX_RTC_SDP_FP_LEN (suffix_of is_ws r);
      Ok (s |> set_fingerprint_algo algo |> set_fingerprint hash)
  | _ => Ok s
  end.

Definition entry_of (m : ngx_rtc_sdp_media_t) (v : octets) : result (Z * ngx_rtc_sdp_pt_t * octets) :=
  '(tok, r) ← word v;
  n ← num tok;
  if 127 <? n then Err NGX_RTC_ERR_PARSE
  else
    match ngx_rtc_sdp_find_pt m n with
    | NULL => Err NGX_RTC_ERR_PARSE
    | Ref k =>
        match pts m !! Z.to_nat k with
        | Some p => Ok (k, p, suffix_of is_ws r)
        | None => Err NGX_RTC_ERR_PARSE
        end
    end.

Definition with_pt (k : Z) (p : ngx_rtc_sdp_pt_t) (m : ngx_rtc_sdp_media_t) : ngx_rtc_sdp_media_t :=
  set_pts (<[Z.to_nat k := p]> (pts m)) m.

Definition rtpmap_of (m : ngx_rtc_sdp_media_t) (v : octets) : result ngx_rtc_sdp_media_t :=
  '(k, p, r) ← entry_of m v;
  enc ← copy NGX_RTC_SDP_STR_LEN (prefix_of (not_char 47) r);
  let r := tail (suffix_of (not_char 47) r) in
  clock ← num (prefix_of (not_char 47) r);
  let r := tail (suffix_of (not_char 47) r) in
  let p := p |> set_encoding enc |> set_clock_rate clock in
  match r with
  | [] => Ok (with_pt k p m)
  | r => n ← num r; Ok (with_pt k (set_channels n p) m)
  end.

Definition ssrc_of (m : ngx_rtc_sdp_media_t) (v : octets) : result ngx_rtc_sdp_media_t :=
  '(tok, _) ← word v; n ← num tok; Ok (set_ssrc n m).

Definition fmtp_of (m : ngx_rtc_sdp_media_t) (v : octets) : result ngx_rtc_sdp_media_t :=
  '(k, p, r) ← entry_of m v;
  f ← copy NGX_RTC_SDP_FMTP_LEN r;
  Ok (with_pt k (set_fmtp f p) m).

(** [twcc] occurs in [l]. *)
Fixpoint mentions_twcc (l : octets) : bool :=
  bool_decide (ztake (zlen twcc) l = twcc) || match l with [] => false | _ :: l => mentions_twcc l end.

Definition extmap_of (m : ngx_rtc_sdp_media_t) (v : octets) : ngx_rtc_sdp_media_t :=
  let r := suffix_of is_ws v in
  let id := ext_id (prefix_of is_digit r) in
  let uri := prefix_of is_uri (suffix_of is_ws (suffix_of is_digit r)) in
  if negb (id =? 0) && mentions_twcc uri && (id <=? 14) && (zlen uri <? NGX_RTC_SDP_TWCC_URI_LEN)
  then m |> set_twcc_uri (c_string uri) |> set_twcc_ext id
  else m.

Definition at_media (st : ngx_rtc_sdp_parser_t) (k : Z)
    (f : ngx_rtc_sdp_media_t -> result ngx_rtc_sdp_media_t) : result ngx_rtc_sdp_parser_t :=
  match media st !! Z.to_nat k with
  | Some m => m ← f m; Ok (set_media (<[Z.to_nat k := m]> (media st)) st)
  | None => Ok st
  end.

Definition attr_of (st : ngx_rtc_sdp_parser_t) (name v : octets) (k : ptr Z) : result ngx_rtc_sdp_parser_t :=
  let s := session st in
  if ngx_rtc_sdp_name_eq name (lit "ice-ufrag") then
    x ← copy_if_empty (ice_ufrag s) NGX_RTC_SDP_ICE_UFRAG_LEN v; Ok (set_session (set_ice_ufrag x s) st)
  else if ngx_rtc_sdp_name_eq name (lit "ice-pwd") then
    x ← copy_if_empty (ice_pwd s) NGX_RTC_SDP_ICE_PWD_LEN v; Ok (set_session (set_ice_pwd x s) st)
  else if ngx_rtc_sdp_name_eq name (lit "setup") then
    x ← copy_if_empty (setup s) NGX_RTC_SDP_SETUP_LEN v; Ok (set_session (set_setup x s) st)
  else if ngx_rtc_sdp_name_eq name (lit "fingerprint") then
    s ← fingerprint_of s v; Ok (set_session s st)
  else
    match k with
    | NULL => Ok st
    | Ref k =>
        if ngx_rtc_sdp_name_eq name (lit "mid") then
          at_media st k (fun m => x ← copy NGX_RTC_SDP_MID_LEN v; Ok (set_mid x m))
        else if ngx_rtc_sdp_name_eq name (lit "rtpmap") then at_media st k (fun m => rtpmap_of m v)
        else if ngx_rtc_sdp_name_eq name (lit "ssrc") then at_media st k (fun m => ssrc_of m v)
        else if ngx_rtc_sdp_name_eq name (lit "fmtp") then at_media st k (fun m => fmtp_of m v)
        else if ngx_rtc_sdp_name_eq name (lit "extmap") then at_media st k (fun m => Ok (extmap_of m v))
        else Ok st
    end.

Fixpoint fmts_of (fuel : nat) (l : octets) (m : ngx_rtc_sdp_media_t) : result ngx_rtc_sdp_media_t :=
  match word l with
  | Err _ => Ok m
  | Ok (tok, l) =>
      match num tok with
      | Err _ => Ok m
      | Ok n =>
          if 127 <? n then Err NGX_RTC_ERR_PARSE
          else if NGX_RTC_SDP_MAX_PT <=? zlen (pts m) then Err NGX_RTC_ERR_TOO_LARGE
          else
            match fuel with
            | O => Ok m
            | S fuel => fmts_of fuel l (set_pts (pts m ++ [new_pt n]) m)
            end
      end
  end.

Definition media_of (st : ngx_rtc_sdp_parser_t) (l : octets) : result ngx_rtc_sdp_parser_t :=
  if NGX_RTC_SDP_MAX_MEDIA <=? zlen (media st) then Err NGX_RTC_ERR_TOO_LARGE
  else
    '(tok, r) ← word l;
    t ← copy NGX_RTC_SDP_STR_LEN tok;
    '(_, r) ← word r;
    '(_, r) ← word r;
    m ← fmts_of (length l) r (set_type t zero_media);
    Ok (st |> set_media (media st ++ [m]) |> set_in_media 1).

(** A line; one that is no line of SDP says nothing. *)
Definition line_of (st : ngx_rtc_sdp_parser_t) (line : octets) : result ngx_rtc_sdp_parser_t :=
  match line with
  | c :: e :: l =>
      if negb (e =? 61) then Ok st
      else if c =? 109 then media_of st l
      else if c =? 97 then
        attr_of st (prefix_of (not_char 58) l) (tail (suffix_of (not_char 58) l))
          (if in_media st =? 0 then NULL else Ref (zlen (media st) - 1))
      else Ok st
  | _ => Ok st
  end.

(** Past one octet [d] if it comes next, past one line end. *)
Definition past (d : Z) (l : octets) : octets :=
  match l with x :: l' => if x =? d then l' else l | [] => [] end.
Definition after_eol (l : octets) : octets := past 10 (past 13 l).

Fixpoint lines_of (fuel : nat) (l : octets) : list octets :=
  match l, fuel with
  | [], _ | _, O => []
  | _, S fuel => prefix_of not_eol l :: lines_of fuel (after_eol (suffix_of not_eol l))
  end.

Definition lines (l : octets) : list octets := lines_of (length l) l.

Fixpoint parse_lines (ls : list octets) (st : ngx_rtc_sdp_parser_t) : result ngx_rtc_sdp_parser_t :=
  match ls with
  | [] => Ok st
  | l :: ls => st ← line_of st l; parse_lines ls st
  end.

(** ** The cursor and the list it stands at *)

(** [pos] is a position in [s] and [r] what is left from it. *)
Definition cursor (s : octets) (pos : Z) (r : octets) : Prop := 0 <= pos <= zlen s /\ zdrop pos s = r.

Lemma cursor_0 s : cursor s 0 s.
Proof. split; [pose proof (zlen_nonneg s); lia | apply zdrop_0]. Qed.

Lemma cursor_len s pos r : cursor s pos r -> zlen r = zlen s - pos.
Proof. intros [Hp <-]. rewrite zlen_zdrop; lia. Qed.

Lemma cursor_more s pos r : cursor s pos r -> (pos <? zlen s) = match r with [] => false | _ => true end.
Proof.
  intros Hc. pose proof (cursor_len _ _ _ Hc) as Hl. destruct Hc as [Hp _], r as [| x r].
  - rewrite zlen_nil in Hl. lia.
  - rewrite zlen_cons in Hl. pose proof (zlen_nonneg r). lia.
Qed.

Lemma cursor_next s pos x r : cursor s pos (x :: r) -> load s pos = Ret x /\ cursor s (pos + 1) r.
Proof.
  intros Hc. pose proof (cursor_len _ _ _ Hc) as Hl. rewrite zlen_cons in Hl. pose proof (zlen_nonneg r).
  destruct Hc as [Hp Hd]. split.
  - rewrite <- (Z.add_0_r pos), <- load_zdrop, Hd by lia. apply load_0.
  - split; [lia |]. by rewrite <- zdrop_zdrop, Hd by lia.
Qed.

Lemma cursor_rest s pos r : cursor s pos r -> load_range s pos (zlen s - pos) = Ret r.
Proof.
  intros [Hp Hd]. rewrite load_range_in by lia. rewrite Hd, ztake_all; [done |].
  rewrite <- Hd, zlen_zdrop by lia. lia.
Qed.

(** Past one octet where there is one. *)
Lemma cursor_tail s pos r : cursor s pos r -> cursor s (if pos <? zlen s then pos + 1 else pos) (tail r).
Proof.
  intros Hc. rewrite (cursor_more _ _ _ Hc). destruct r as [| x r]; [done |].
  by apply cursor_next in Hc as [_ ?].
Qed.

(** A scan moves the cursor past the longest prefix, which a read of the span then gives. *)
Lemma scan_cursor p s pos r :
  cursor s pos r ->
  exists q, scan p s pos = Ret q /\ cursor s q (suffix_of p r) /\ load_range s pos (q - pos) = Ret (prefix_of p r).
Proof.
  intros [Hp <-]. rewrite scan_eq by done. destruct (scan_rest p s pos Hp) as (H1 & H2 & H3).
  eexists. split; [done |]. split; [split; [lia | done] | done].
Qed.

Lemma try_Ret {A B} (r : result A) (k : A -> outcome (result B)) :
  try (Ret r) k = match r with Ok a => k a | Err rc => Ret (Err rc) end.
Proof. done. Qed.

(** A step of a run that is a pure result is a step of the results. *)
Lemma try_pure {A B} (r : result A) (k : A -> outcome (result B)) (g : A -> result B) :
  (forall a, r = Ok a -> k a = Ret (g a)) -> try (Ret r) k = Ret (r ≫= g).
Proof. intros H. rewrite try_Ret. destruct r as [a |]; [by apply H | done]. Qed.

Lemma copy_token_eq cap v : 0 < cap -> ngx_rtc_sdp_copy_token cap v = Ret (copy cap v).
Proof.
  intros Hc. unfold ngx_rtc_sdp_copy_token, copy. destruct (Z.eqb_spec cap 0); [lia |]. by destruct (_ <=? _).
Qed.

Lemma set_if_empty_eq dst cap v : 0 < cap -> ngx_rtc_sdp_set_if_empty dst cap v = Ret (copy_if_empty dst cap v).
Proof. intros Hc. unfold ngx_rtc_sdp_set_if_empty, copy_if_empty. destruct dst; [by apply copy_token_eq | done]. Qed.

(** *** Tokens and numbers *)

Lemma next_token_eq s pos r :
  cursor s pos r ->
  match word r with
  | Ok (tok, r') => exists q, ngx_rtc_sdp_next_token s pos = ok (tok, q) /\ cursor s q r' /\ zlen r' < zlen r
  | Err rc => ngx_rtc_sdp_next_token s pos = fail rc
  end.
Proof.
  intros Hc. unfold ngx_rtc_sdp_next_token, ngx_rtc_sdp_skip_ws, word.
  destruct (scan_cursor is_ws s pos r Hc) as (q & -> & Hq & _). rewrite bind_Ret.
  pose proof (cursor_more _ _ _ Hq) as Hm. pose proof (zlen_split is_ws r) as Hs.
  pose proof (zlen_nonneg (prefix_of is_ws r)).
  destruct (suffix_of is_ws r) as [| x l] eqn:E; rewrite Z.ltb_antisym in Hm;
    [rewrite (proj1 (negb_false_iff _) Hm) | rewrite (proj1 (negb_true_iff _) Hm)]; [done |].
  destruct (scan_cursor not_ws s q (x :: l) Hq) as (q' & -> & Hq' & Hr). rewrite bind_Ret, Hr, bind_Ret.
  exists q'. split; [done |]. split; [done |].
  pose proof (zlen_split not_ws (x :: l)) as Hs'.
  assert (Hx : not_ws x = true) by (unfold not_ws; by rewrite (suffix_stops _ _ _ _ E)).
  cbn [prefix_of] in Hs'. rewrite Hx, zlen_cons in Hs'. pose proof (zlen_nonneg (prefix_of not_ws l)). lia.
Qed.

Definition max_u32 : Z := 4294967295.

Lemma is_digit_eq c : ((c <? 48) || (57 <? c)) = negb (is_digit c).
Proof. unfold is_digit. lia. Qed.

Lemma digit_fits v d :
  0 <= d <= 9 -> ((max_u32 - d) / 10 <? v) = (max_u32 <? v * 10 + d).
Proof.
  intros Hd. pose proof (Z.div_mod (max_u32 - d) 10 ltac:(lia)). pose proof (Z.mod_pos_bound (max_u32 - d) 10 ltac:(lia)).
  unfold max_u32 in *. destruct (Z.ltb_spec ((4294967295 - d) / 10) v), (Z.ltb_spec 4294967295 (v * 10 + d)); lia.
Qed.

(** Reading on from [v] seen so far. *)
Definition num_from (v : Z) (seen : bool) (l : octets) : result Z :=
  let ds := prefix_of is_digit l in
  if negb seen && bool_decide (ds = []) then Err NGX_RTC_ERR_PARSE
  else if max_u32 <? fold_left (fun v c => v * 10 + (c - 48)) ds v then Err NGX_RTC_ERR_PARSE
  else Ok (fold_left (fun v c => v * 10 + (c - 48)) ds v).

Lemma num_from_ge ds v :
  Forall (fun c => is_digit c = true) ds -> 0 <= v -> v <= fold_left (fun v c => v * 10 + (c - 48)) ds v.
Proof.
  intros H. revert v. induction H as [| c ds Hc _ IH]; intros v Hv; cbn [fold_left]; [lia |].
  unfold is_digit in Hc. etrans; [| apply IH]; lia.
Qed.

Lemma parse_u32_loop_eq s fuel : forall pos r v seen,
  cursor s pos r -> zlen r <= Z.of_nat fuel -> 0 <= v <= max_u32 ->
  parse_u32_loop fuel s pos v seen = Ret (num_from v seen r).
Proof.
  induction fuel as [| fuel IH]; intros pos r v seen Hc Hf Hv; cbn [parse_u32_loop];
    rewrite (cursor_more _ _ _ Hc); destruct r as [| c r].
  1, 3: unfold num_from; cbn; rewrite andb_true_r; destruct (Z.ltb_spec max_u32 v); [lia | by destruct seen].
  { rewrite zlen_cons in Hf. pose proof (zlen_nonneg r). lia. }
  destruct (cursor_next _ _ _ _ Hc) as [-> Hc']. rewrite bind_Ret, is_digit_eq.
  rewrite zlen_cons in Hf. unfold num_from. cbn [prefix_of]. destruct (is_digit c) eqn:Ed; cbn [negb].
  - unfold is_digit in Ed. change 4294967295 with max_u32. rewrite digit_fits by lia.
    cbn [fold_left]. rewrite bool_decide_eq_false_2, andb_false_r by done.
    destruct (Z.ltb_spec max_u32 (v * 10 + (c - 48))) as [Hlt | Hge].
    + pose proof (num_from_ge (prefix_of is_digit r) (v * 10 + (c - 48)) (prefix_all _ _) ltac:(lia)).
      destruct (Z.ltb_spec max_u32 (fold_left (fun v c => v * 10 + (c - 48)) (prefix_of is_digit r) (v * 10 + (c - 48)))); [done | lia].
    + rewrite u32_small by (unfold is_u32, max_u32 in *; lia). by rewrite (IH _ r) by (done || lia).
  - cbn. rewrite andb_true_r. destruct (Z.ltb_spec max_u32 v); [lia |]. by destruct seen.
Qed.

Lemma parse_u32_eq s : ngx_rtc_sdp_parse_u32 s = Ret (num s).
Proof.
  unfold ngx_rtc_sdp_parse_u32. rewrite (parse_u32_loop_eq _ _ _ s) by (apply cursor_0 || unfold max_u32; lia).
  f_equal. unfold num_from, num, number. cbn [negb andb]. change 4294967295 with max_u32.
  by destruct (bool_decide _), (max_u32 <? _).
Qed.

Lemma num_range s n : num s = Ok n -> 0 <= n <= max_u32.
Proof.
  unfold num. pose proof (number_nonneg _ (prefix_all is_digit s)).
  destruct (bool_decide _); [done |]. unfold max_u32.
  destruct (Z.ltb_spec 4294967295 (number (prefix_of is_digit s))); [done |]. intros [= <-]. lia.
Qed.

(** *** Attributes *)

Lemma token_bind {A} s pos r (k : octets * Z -> outcome (result A)) (g : octets * octets -> result A) :
  cursor s pos r ->
  (forall tok q r', cursor s q r' -> k (tok, q) = Ret (g (tok, r'))) ->
  try (ngx_rtc_sdp_next_token s pos) k = Ret (word r ≫= g).
Proof.
  intros Hc Hk. pose proof (next_token_eq s pos r Hc) as H. destruct (word r) as [[tok r'] | rc].
  - destruct H as (q & -> & Hq & _). rewrite try_ok. by apply Hk.
  - by rewrite H.
Qed.

Lemma scan_bind {A} p s pos r (k : Z -> outcome A) y :
  cursor s pos r ->
  (forall q, cursor s q (suffix_of p r) -> load_range s pos (q - pos) = Ret (prefix_of p r) -> k q = y) ->
  (q ← scan p s pos; k q) = y.
Proof. intros Hc Hk. destruct (scan_cursor p s pos r Hc) as (q & -> & Hq & Hr). rewrite bind_Ret. by apply Hk. Qed.

Lemma parse_fingerprint_eq s v : ngx_rtc_sdp_parse_fingerprint s v = Ret (fingerprint_of s v).
Proof.
  apply token_bind; [apply cursor_0 |]. intros tok pos r Hc. destruct (fingerprint_algo s) as [| c l]; [| done].
  rewrite copy_token_eq by done. apply try_pure. intros algo _.
  apply (scan_bind is_ws v pos r _ _ Hc). intros q Hq _. rewrite (cursor_rest _ _ _ Hq), bind_Ret, copy_token_eq by done.
  by apply try_pure.
Qed.

Lemma find_pt_loop_in n l : forall i k,
  find_pt_loop l n i = Ref k -> i <= k < i + zlen l /\ exists p, l !! Z.to_nat (k - i) = Some p /\ pt p = n.
Proof.
  induction l as [| p l IH]; intros i k; cbn; [done |]. pose proof (zlen_nonneg l).
  destruct (Z.eqb_spec n (pt p)) as [He | Hne]; intros H0.
  - injection H0 as <-. rewrite zlen_cons. split; [lia |]. exists p. by replace (Z.to_nat (i - i)) with 0%nat by lia.
  - apply IH in H0 as [Hr (p' & Hp & Hn)]. rewrite zlen_cons. split; [lia |]. exists p'.
    replace (Z.to_nat (k - i)) with (S (Z.to_nat (k - (i + 1)))) by lia. done.
Qed.

Lemma find_pt_in m n k :
  ngx_rtc_sdp_find_pt m n = Ref k -> 0 <= k < zlen (pts m) /\ exists p, pts m !! Z.to_nat k = Some p /\ pt p = n.
Proof. intros H. apply find_pt_loop_in in H. by rewrite Z.sub_0_r in H. Qed.

Lemma put_pt_eq k p m : 0 <= k < zlen (pts m) -> put_pt k p m = Ret (Ok (with_pt k p m)).
Proof. intros Hk. unfold put_pt. by rewrite store_in, bind_Ret by done. Qed.

(** The entry of a payload type, its index in range. *)
Lemma pt_token_bind {A} m v (k : Z * ngx_rtc_sdp_pt_t * Z -> outcome (result A))
    (g : Z * ngx_rtc_sdp_pt_t * octets -> result A) :
  (forall i p q r, 0 <= i < zlen (pts m) -> cursor v q r -> k (i, p, q) = Ret (g (i, p, r))) ->
  try (pt_token m v) k = Ret (entry_of m v ≫= g).
Proof.
  intros Hk.
  enough (Hx : exists f, pt_token m v = Ret f /\ match f with
      | Ok (i, p, q) => exists r, entry_of m v = Ok (i, p, r) /\ 0 <= i < zlen (pts m) /\ cursor v q r
      | Err rc => entry_of m v = Err rc end).
  { destruct Hx as (f & -> & Hf). rewrite try_Ret. destruct f as [[[i p] q] | rc].
    - destruct Hf as (r & -> & Hi & Hc). by apply Hk.
    - by rewrite Hf. }
  unfold pt_token, entry_of. pose proof (next_token_eq v 0 v (cursor_0 v)) as H. destruct (word v) as [[tok r] | rc].
  2: { rewrite H. by eexists. }
  destruct H as (q & -> & Hq & _). rewrite try_ok, parse_u32_eq, try_Ret.
  cbn [mbind result_bind].
  destruct (num tok) as [n | rc] eqn:En; [| by eexists]. cbn [mbind result_bind]. apply num_range in En.
  destruct (Z.ltb_spec 127 n); [by eexists |]. rewrite u8_small by (unfold is_u8; lia).
  destruct (ngx_rtc_sdp_find_pt m n) as [| i] eqn:Ei; [by eexists |].
  apply find_pt_in in Ei as [Hi (p & Hp & _)]. rewrite Hp. unfold ngx_rtc_sdp_skip_ws.
  assert (Hl : load (pts m) i = Ret p) by (apply load_ret; split; [lia | done]). rewrite Hl, bind_Ret.
  destruct (scan_cursor is_ws v q r Hq) as (q' & -> & Hq' & _). rewrite bind_Ret.
  eexists. split; [done |]. eexists. split_and!; [done | lia | lia | done].
Qed.

Lemma parse_rtpmap_eq m v : ngx_rtc_sdp_parse_rtpmap m v = Ret (rtpmap_of m v).
Proof.
  apply pt_token_bind. intros i p pos r Hi Hc.
  apply (scan_bind _ v pos r _ _ Hc). intros q Hq Hr. rewrite Hr, bind_Ret, copy_token_eq by done.
  apply try_pure. intros enc _. apply cursor_tail in Hq.
  apply (scan_bind _ v _ _ _ _ Hq). intros q' Hq' Hr'. rewrite Hr', bind_Ret, parse_u32_eq.
  apply try_pure. intros clock _. apply cursor_tail in Hq'. cbv zeta. rewrite (cursor_more _ _ _ Hq').
  set (rest := tail (suffix_of _ (tail _))) in *. clearbody rest. destruct rest as [| x l]; [by apply put_pt_eq |].
  rewrite (cursor_rest _ _ _ Hq'), bind_Ret, parse_u32_eq. apply try_pure. intros n _. by apply put_pt_eq.
Qed.

Lemma parse_ssrc_eq m v : ngx_rtc_sdp_parse_ssrc m v = Ret (ssrc_of m v).
Proof.
  apply token_bind; [apply cursor_0 |]. intros tok pos r _. rewrite parse_u32_eq. by apply try_pure.
Qed.

Lemma parse_fmtp_eq m v : ngx_rtc_sdp_parse_fmtp m v = Ret (fmtp_of m v).
Proof.
  apply pt_token_bind. intros i p pos r Hi Hc. rewrite (cursor_rest _ _ _ Hc), bind_Ret, copy_token_eq by done.
  apply try_pure. intros f _. by apply put_pt_eq.
Qed.

(** The search over value[i .. stop), which holds [u]. *)
Lemma twcc_search_eq value fuel : forall i u r,
  cursor value i (u ++ r) -> zlen u <= Z.of_nat fuel ->
  twcc_search fuel value i (i + zlen u) = Ret (mentions_twcc u).
Proof.
  assert (Hshort : forall u, zlen u < zlen twcc -> mentions_twcc u = false).
  { induction u as [| x u IH]; intros Hu; cbn [mentions_twcc].
    - done.
    - rewrite zlen_cons in Hu. rewrite IH, orb_false_r by lia. apply bool_decide_eq_false_2. intros He.
      apply (f_equal zlen) in He. rewrite zlen_ztake, zlen_cons in He by done. lia. }
  assert (Ht : zlen twcc = 17) by done.
  induction fuel as [| fuel IH]; intros i u r Hc Hf; cbn [twcc_search]; pose proof (zlen_nonneg u).
  { destruct (Z.leb_spec (i + zlen twcc) (i + zlen u)); [lia |]. rewrite Hshort; [done | lia]. }
  destruct (Z.leb_spec (i + zlen twcc) (i + zlen u)) as [Hle | Hgt].
  2: { rewrite Hshort; [done | lia]. }
  destruct u as [| x u]; [rewrite zlen_nil in Hle; lia |].
  pose proof (cursor_len _ _ _ Hc) as Hl. pose proof (zlen_nonneg r). rewrite zlen_app in Hl.
  rewrite load_range_in by (destruct Hc; lia). rewrite bind_Ret. pose proof Hc as [Hp Hd]. rewrite Hd.
  rewrite ztake_app_le by lia. cbn [mentions_twcc].
  destruct (bool_decide _); [done |]. cbn [orb]. rewrite zlen_cons in *.
  replace (i + (1 + zlen u)) with (i + 1 + zlen u) by lia. apply (IH _ _ r); [| lia].
  by apply (cursor_next value i x (u ++ r)).
Qed.

Lemma parse_extmap_eq m v : ngx_rtc_sdp_parse_extmap m v = Ret (Ok (extmap_of m v)).
Proof.
  unfold ngx_rtc_sdp_parse_extmap, extmap_of. apply (scan_bind is_ws v 0 v _ _ (cursor_0 v)). intros q0 H0 _.
  apply (scan_bind _ v _ _ _ _ H0). intros q1 H1 Hd. rewrite Hd, bind_Ret.
  set (id := ext_id _). destruct (Z.eqb_spec id 0); [done |]. cbn [negb andb].
  apply (scan_bind _ v _ _ _ _ H1). intros q2 H2 _. apply (scan_bind _ v _ _ _ _ H2). intros q3 H3 Hu.
  set (uri := prefix_of is_uri _) in *. pose proof (load_range_zlen _ _ _ _ Hu) as Hlen.
  rewrite <- Hlen, (twcc_search_eq v _ q2 uri (suffix_of is_uri (suffix_of is_ws (suffix_of is_digit (suffix_of is_ws v))))).
  2: { unfold uri. by rewrite prefix_suffix. }
  2: { apply load_range_ret in Hu. destruct H2, H3. lia. }
  rewrite bind_Ret. destruct (mentions_twcc uri) eqn:Em; [| done]. cbn [andb].
  destruct (Z.leb_spec id 14); [| done]. cbn [andb].
  destruct (Z.ltb_spec 0 (zlen uri)) as [Hpos | Hz].
  2: { assert (Hnil : uri = []) by (destruct uri as [| y l]; [done | rewrite zlen_cons in Hz; pose proof (zlen_nonneg l); lia]).
       rewrite Hnil in Em. done. }
  cbn [andb]. destruct (zlen uri <? _); [| done]. rewrite Hlen, Hu, bind_Ret.
  rewrite u8_small; [done |]. unfold is_u8. assert (0 <= id); [| lia].
  unfold id, ext_id. generalize (prefix_of is_digit (suffix_of is_ws v)).
  intros ds. assert (Hb : forall a, 0 <= a -> 0 <= fold_left (fun id c => u32 (id * 10 + (c - 48))) ds a); [| by apply Hb].
  induction ds as [| c ds IH]; intros a Ha; cbn; [done |]. apply IH. apply u32_range.
Qed.

(** *** Lines *)

(** An attribute finds its media description. *)
Definition sound (st : ngx_rtc_sdp_parser_t) : Prop := in_media st <> 0 -> 0 < zlen (media st).

Lemma on_media_eq st k f g :
  0 <= k < zlen (media st) -> (forall m, f m = Ret (g m)) -> on_media st k f = Ret (at_media st k g).
Proof.
  intros Hk Hf. unfold on_media, at_media. destruct (load_in (media st) k Hk) as [m Hm]. rewrite Hm, bind_Ret.
  apply load_ret in Hm as [_ Hm]. rewrite Hm, Hf. apply try_pure. intros m' _. by rewrite store_in, bind_Ret by done.
Qed.

Lemma apply_attr_eq st name v k :
  (forall i, k = Ref i -> 0 <= i < zlen (media st)) ->
  ngx_rtc_sdp_apply_attr st name v k = Ret (attr_of st name v k).
Proof.
  intros Hk. unfold ngx_rtc_sdp_apply_attr, attr_of.
  do 3 (case (ngx_rtc_sdp_name_eq name _); [rewrite set_if_empty_eq by done; by apply try_pure |]).
  case (ngx_rtc_sdp_name_eq name _); [rewrite parse_fingerprint_eq; by apply try_pure |].
  destruct k as [| i]; [done |]. specialize (Hk i eq_refl).
  case (ngx_rtc_sdp_name_eq name _).
  { apply on_media_eq; [done |]. intros m. rewrite copy_token_eq by done. by apply try_pure. }
  do 4 (case (ngx_rtc_sdp_name_eq name _);
    [apply on_media_eq; [done |]; auto using parse_rtpmap_eq, parse_ssrc_eq, parse_fmtp_eq, parse_extmap_eq |]).
  done.
Qed.

Lemma parse_attr_eq st l k :
  (forall i, k = Ref i -> 0 <= i < zlen (media st)) ->
  ngx_rtc_sdp_parse_attr st l k = Ret (attr_of st (prefix_of (not_char 58) l) (tail (suffix_of (not_char 58) l)) k).
Proof.
  intros Hk. unfold ngx_rtc_sdp_parse_attr. apply (scan_bind _ l 0 l _ _ (cursor_0 l)). intros q Hq Hr.
  rewrite Z.sub_0_r in Hr. rewrite Hr, bind_Ret. pose proof (cursor_tail _ _ _ Hq) as Ht.
  rewrite (cursor_more _ _ _ Hq) in *. destruct (suffix_of (not_char 58) l) as [| x r]; [by apply apply_attr_eq |].
  replace (zlen l - q - 1) with (zlen l - (q + 1)) by lia. rewrite (cursor_rest _ _ _ Ht), bind_Ret.
  by apply apply_attr_eq.
Qed.

Lemma fmt_loop_eq content fuel : forall fuel' pos r m,
  cursor content pos r -> zlen r <= Z.of_nat fuel -> zlen r <= Z.of_nat fuel' ->
  fmt_loop fuel content pos m = Ret (fmts_of fuel' r m).
Proof.
  induction fuel as [| fuel IH]; intros fuel' pos r m Hc Hf Hf'; cbn [fmt_loop]; rewrite (cursor_more _ _ _ Hc);
    (destruct r as [| x r]; [by destruct fuel' |]); rewrite zlen_cons in *; pose proof (zlen_nonneg r) as Hn; [lia |].
  destruct fuel' as [| fuel']; [lia |]. cbn [fmts_of]. pose proof (next_token_eq _ _ _ Hc) as H.
  destruct (word (x :: r)) as [[tok r'] | rc]; [| rewrite H; unfold fail; by rewrite bind_Ret].
  destruct H as (q & -> & Hq & Hl). unfold ok. rewrite bind_Ret, parse_u32_eq, bind_Ret.
  destruct (num tok) as [n | rc] eqn:En; [| done]. apply num_range in En.
  destruct (Z.ltb_spec 127 n); [done |]. destruct (NGX_RTC_SDP_MAX_PT <=? zlen (pts m)); [done |].
  rewrite u8_small by (unfold is_u8; lia). rewrite zlen_cons in Hl. apply IH; [done | lia | lia].
Qed.

Lemma parse_media_eq st l : ngx_rtc_sdp_parse_media st l = Ret (media_of st l).
Proof.
  unfold ngx_rtc_sdp_parse_media, media_of. destruct (_ <=? _); [done |].
  apply token_bind; [apply cursor_0 |]. intros tok q r Hc. rewrite copy_token_eq by done. apply try_pure. intros t _.
  apply token_bind; [done |]. intros _ q2 r2 Hc2. apply token_bind; [done |]. intros _ q3 r3 Hc3.
  pose proof (cursor_len _ _ _ Hc3) as Hl. destruct Hc3 as [Hp Hd].
  rewrite (fmt_loop_eq _ _ (length l) _ r3) by (done || unfold zlen in *; lia). by apply try_pure.
Qed.

Lemma parse_line_eq st c l :
  sound st -> ngx_rtc_sdp_parse_line st (c :: 61 :: l) = Ret (line_of st (c :: 61 :: l)).
Proof.
  intros Hs. unfold ngx_rtc_sdp_parse_line.
  assert (Hc : cursor (c :: 61 :: l) 2 l) by (split; [rewrite !zlen_cons; pose proof (zlen_nonneg l); lia | done]).
  rewrite (cursor_rest _ _ _ Hc), bind_Ret, load_0, bind_Ret. cbn [line_of negb Z.eqb Pos.eqb].
  destruct (c =? 109); [apply parse_media_eq |]. destruct (c =? 97); [| done].
  apply parse_attr_eq. intros i Hi. destruct (Z.eqb_spec (in_media st) 0) as [| Hm]; [done |].
  injection Hi as <-. specialize (Hs Hm). lia.
Qed.

Lemma bind_Ok {A B} (m : result A) (f : A -> result B) b :
  m ≫= f = Ok b -> exists a, m = Ok a /\ f a = Ok b.
Proof. destruct m as [a |]; [by exists a | done]. Qed.

Lemma at_media_keeps st k f st' :
  at_media st k f = Ok st' -> in_media st' = in_media st /\ zlen (media st') = zlen (media st).
Proof.
  unfold at_media. destruct (media st !! Z.to_nat k) as [m |]; [| by intros [= <-]].
  intros H. apply bind_Ok in H as (m' & _ & [= <-]). split; [done |]. apply zlen_insert.
Qed.

Lemma attr_of_keeps st name v k st' :
  attr_of st name v k = Ok st' -> in_media st' = in_media st /\ zlen (media st') = zlen (media st).
Proof.
  unfold attr_of.
  do 4 (case (ngx_rtc_sdp_name_eq name _); [intros H; apply bind_Ok in H as (? & _ & [= <-]); done |]).
  destruct k as [| i]; [by intros [= <-] |].
  do 5 (case (ngx_rtc_sdp_name_eq name _); [apply at_media_keeps |]). by intros [= <-].
Qed.

Lemma line_of_sound st line st' : line_of st line = Ok st' -> sound st -> sound st'.
Proof.
  intros H Hs. destruct line as [| c [| e l]]; [by injection H as <- | by injection H as <- |]. cbn [line_of] in H.
  destruct (negb (e =? 61)); [by injection H as <- |]. destruct (c =? 109).
  { unfold media_of in H. destruct (_ <=? _); [done |]. apply bind_Ok in H as ([tok r] & _ & H).
    apply bind_Ok in H as (t & _ & H). apply bind_Ok in H as ([? r2] & _ & H). apply bind_Ok in H as ([? r3] & _ & H).
    apply bind_Ok in H as (m & _ & [= <-]). intros _. cbn. rewrite zlen_app. pose proof (zlen_nonneg (media st)).
    rewrite zlen_cons, zlen_nil. lia. }
  destruct (c =? 97); [| by injection H as <-]. apply attr_of_keeps in H as [H1 H2]. unfold sound. by rewrite H1, H2.
Qed.

(** *** The text *)

Lemma past_cursor d s pos r :
  cursor s pos r ->
  exists q, (if pos <? zlen s then c ← load s pos; Ret (if c =? d then pos + 1 else pos) else Ret pos) = Ret q /\
    cursor s q (past d r).
Proof.
  intros Hc. rewrite (cursor_more _ _ _ Hc). destruct r as [| x r]; [by eexists |].
  destruct (cursor_next _ _ _ _ Hc) as [-> Hc']. rewrite bind_Ret. cbn. destruct (x =? d); by eexists.
Qed.

Lemma skip_eol_cursor s pos r :
  cursor s pos r -> exists q, skip_eol s pos = Ret q /\ cursor s q (after_eol r).
Proof.
  intros Hc. unfold skip_eol, after_eol. destruct (past_cursor 13 s pos r Hc) as (q & Hq & Hc').
  destruct (past_cursor 10 s q _ Hc') as (q' & Hq' & Hc'').
  destruct r as [| x r]; rewrite (cursor_more _ _ _ Hc) in *.
  - injection Hq as <-. rewrite (cursor_more _ _ _ Hc) in Hq'. injection Hq' as <-. by eexists.
  - destruct (cursor_next _ _ _ _ Hc) as [Hl _]. rewrite Hl, bind_Ret in *. injection Hq as ->. by eexists.
Qed.

Lemma past_le d l : zlen (past d l) <= zlen l.
Proof. destruct l as [| x l]; cbn; [done |]. destruct (x =? d); rewrite ?zlen_cons; lia. Qed.

(** Every line takes an octet at least. *)
Lemma after_eol_lt x l : zlen (after_eol (suffix_of not_eol (x :: l))) < zlen (x :: l).
Proof.
  pose proof (zlen_split not_eol (x :: l)) as Hs. destruct (suffix_of not_eol (x :: l)) as [| y k] eqn:E.
  { rewrite zlen_cons in *. pose proof (zlen_nonneg l). unfold after_eol. cbn. rewrite zlen_nil. lia. }
  apply suffix_stops in E. pose proof (zlen_nonneg (prefix_of not_eol (x :: l))). rewrite (zlen_cons y) in Hs.
  unfold after_eol, not_eol in *. cbn [past].
  destruct (Z.eqb_spec y 13) as [-> | _]; [pose proof (past_le 10 k); lia |].
  destruct (Z.eqb_spec y 10) as [-> | _]; [| done]. cbn. lia.
Qed.

Lemma parse_loop_eq s fuel : forall fuel' pos r st,
  cursor s pos r -> zlen r <= Z.of_nat fuel -> zlen r <= Z.of_nat fuel' -> sound st ->
  parse_loop fuel s pos st = Ret (parse_lines (lines_of fuel' r) st).
Proof.
  induction fuel as [| fuel IH]; intros fuel' pos r st Hc Hf Hf' Hs; cbn [parse_loop];
    rewrite (cursor_more _ _ _ Hc);
    (destruct r as [| x r]; [by destruct fuel' |]); pose proof (zlen_nonneg r); [rewrite zlen_cons in *; lia |].
  destruct fuel' as [| fuel']; [rewrite zlen_cons in *; lia |]. cbn [lines_of parse_lines].
  pose proof (after_eol_lt x r) as Hlt.
  apply (scan_bind _ s _ _ _ _ Hc). intros q Hq Hr. rewrite Hr, bind_Ret.
  destruct (skip_eol_cursor _ _ _ Hq) as (q' & -> & Hq'). rewrite bind_Ret.
  assert (Hnext : forall st', sound st' ->
    parse_loop fuel s q' st' = Ret (parse_lines (lines_of fuel' (after_eol (suffix_of not_eol (x :: r)))) st'))
    by (intros; apply IH; [done | lia | lia | done]).
  destruct (prefix_of not_eol (x :: r)) as [| c [| e l]]; [by apply Hnext | by apply Hnext |].
  rewrite (proj2 (Z.leb_le 2 (zlen (c :: e :: l)))) by (rewrite !zlen_cons; pose proof (zlen_nonneg l); lia).
  change (load (c :: e :: l) 1) with (Ret e). rewrite !bind_Ret. destruct (Z.eqb_spec e 61) as [-> | Hne].
  - rewrite parse_line_eq by done. apply try_pure. intros st' Hst. apply Hnext. by apply (line_of_sound _ _ _ Hst).
  - cbn [line_of]. rewrite (proj2 (Z.eqb_neq e 61) Hne). by apply Hnext.
Qed.

Lemma parse_offer_eq sdp out :
  ngx_rtc_sdp_parse_offer (Ref sdp) (Ref out) =
    Ret match parse_lines (lines sdp) zero_parser with
        | Ok st => (NGX_RTC_OK, Ref (ngx_rtc_sdp_build_offer st))
        | Err rc => (rc, Ref zero_offer)
        end.
Proof.
  unfold ngx_rtc_sdp_parse_offer, lines.
  rewrite (parse_loop_eq _ _ (length sdp) _ sdp); [done | apply cursor_0 | | | by intros []]; unfold zlen; lia.
Qed.

(** C26: the offer parser, on any text and whatever it is handed to fill, reads inside the text,
    ends, and does what the grammar says line by line: the text is split at CR LF, CR or LF, each
    line updates the description, the first malformed one stops the parse with its code and an
    empty offer, and the offer is built from the description of the last line. *)
Theorem sdp_parse_exact sdp out :
  ngx_rtc_sdp_parse_offer (Ref sdp) (Ref out) =
    Ret match parse_lines (lines sdp) zero_parser with
        | Ok st => (NGX_RTC_OK, Ref (ngx_rtc_sdp_build_offer st))
        | Err rc => (rc, Ref zero_offer)
        end.
Proof. apply parse_offer_eq. Qed.

(** ** What a parse fills fits the structures *)

(** A C string in a char array of [n]. *)
Definition holds (n : Z) (s : octets) : Prop := zlen s < n /\ (0 ∉ s).

Definition pt_fits (p : ngx_rtc_sdp_pt_t) : Prop :=
  0 <= pt p <= 127 /\ holds NGX_RTC_SDP_STR_LEN (encoding p) /\ is_u32 (clock_rate p) /\ is_u32 (channels p) /\
  holds NGX_RTC_SDP_FMTP_LEN (fmtp p).

Definition media_fits (m : ngx_rtc_sdp_media_t) : Prop :=
  (holds NGX_RTC_SDP_STR_LEN (type m) /\ holds NGX_RTC_SDP_MID_LEN (mid m) /\ is_u32 (ssrc m)) /\
  (0 <= twcc_ext m <= 14 /\ holds NGX_RTC_SDP_TWCC_URI_LEN (twcc_uri m)) /\
  (zlen (pts m) <= NGX_RTC_SDP_MAX_PT /\ Forall pt_fits (pts m)).

Definition session_fits (s : ngx_rtc_sdp_session_t) : Prop :=
  (holds NGX_RTC_SDP_ICE_UFRAG_LEN (ice_ufrag s) /\ holds NGX_RTC_SDP_ICE_PWD_LEN (ice_pwd s)) /\
  (holds NGX_RTC_SDP_FP_ALGO_LEN (fingerprint_algo s) /\ holds NGX_RTC_SDP_FP_LEN (fingerprint s)) /\
  holds NGX_RTC_SDP_SETUP_LEN (setup s).

Definition parser_fits (st : ngx_rtc_sdp_parser_t) : Prop :=
  session_fits (session st) /\ zlen (media st) <= NGX_RTC_SDP_MAX_MEDIA /\ Forall media_fits (media st).

Definition codec_fits (c : codec) : Prop :=
  (0 <= c_pt c <= 127 /\ is_u32 (c_ssrc c) /\ holds NGX_RTC_SDP_STR_LEN (c_encoding c) /\ is_u32 (c_clock_rate c)) /\
  (is_u32 (c_channels c) /\ holds NGX_RTC_SDP_FMTP_LEN (c_fmtp c)) /\
  (0 <= c_twcc_ext c <= 14 /\ holds NGX_RTC_SDP_TWCC_URI_LEN (c_twcc_uri c)).

Definition offer_fits (o : ngx_rtc_sdp_offer_t) : Prop :=
  session_fits (o_session o) /\ codec_fits (o_video o) /\ codec_fits (o_audio o) /\
  zlen (media_type o) <= NGX_RTC_SDP_MAX_MEDIA /\ zlen (media_mid o) = zlen (media_type o) /\
  Forall (holds NGX_RTC_SDP_STR_LEN) (media_type o) /\ Forall (holds NGX_RTC_SDP_MID_LEN) (media_mid o).

Create HintDb sdp.

Lemma holds_nil n : 0 < n -> holds n [].
Proof. intros Hn. split; [by rewrite zlen_nil | by apply not_elem_of_nil]. Qed.

Lemma c_string_holds n v : zlen v < n -> holds n (c_string v).
Proof.
  intros Hn. split.
  - unfold c_string. pose proof (zlen_split not_nul v). pose proof (zlen_nonneg (suffix_of not_nul v)). lia.
  - intros Hin. by apply (proj1 (Forall_forall _ _) (prefix_all not_nul v)) in Hin.
Qed.

Lemma copy_holds cap v x : copy cap v = Ok x -> holds cap x.
Proof. unfold copy. destruct (Z.leb_spec cap (zlen v)); [done |]. intros [= <-]. by apply c_string_holds. Qed.

Lemma copy_if_empty_holds dst cap v x : copy_if_empty dst cap v = Ok x -> holds cap dst -> holds cap x.
Proof. destruct dst; [intros H _; by apply copy_holds in H | by intros [= <-]]. Qed.

Lemma num_u32 s n : num s = Ok n -> is_u32 n.
Proof. intros H. apply num_range in H. unfold is_u32, max_u32 in *. lia. Qed.

#[local] Hint Resolve copy_holds num_u32 : sdp.
#[local] Hint Extern 1 (holds _ []) => (apply holds_nil; done) : sdp.

Ltac fits := unfold session_fits, media_fits, pt_fits, codec_fits in *; cbn in *; intuition eauto with sdp.

Lemma fingerprint_of_fits s v s' : fingerprint_of s v = Ok s' -> session_fits s -> session_fits s'.
Proof.
  intros H Hs. apply bind_Ok in H as ([tok r] & _ & H). destruct (fingerprint_algo s) eqn:E; [| by injection H as <-].
  apply bind_Ok in H as (a & Ha & H). apply bind_Ok in H as (h & Hh & [= <-]). fits.
Qed.

Lemma entry_of_fits m v k p r : entry_of m v = Ok (k, p, r) -> media_fits m -> pt_fits p.
Proof.
  intros H Hm. apply bind_Ok in H as ([tok r0] & _ & H). apply bind_Ok in H as (n & _ & H).
  destruct (127 <? n); [done |]. destruct (ngx_rtc_sdp_find_pt m n) as [| i]; [done |].
  destruct (pts m !! Z.to_nat i) as [p' |] eqn:E; [| done]. injection H as <- <- <-.
  destruct Hm as (_ & _ & _ & Hf). by apply (Forall_lookup_1 _ _ _ _ Hf E).
Qed.

Lemma with_pt_fits k p m : media_fits m -> pt_fits p -> media_fits (with_pt k p m).
Proof.
  intros (H1 & H2 & H3 & H4) Hp. split; [done |]. split; [done |]. unfold with_pt. cbn. rewrite zlen_insert.
  split; [done |]. by apply Forall_insert.
Qed.

Lemma rtpmap_of_fits m v m' : rtpmap_of m v = Ok m' -> media_fits m -> media_fits m'.
Proof.
  intros H Hm. apply bind_Ok in H as ([[k p] r] & Hp & H). apply (entry_of_fits _ _ _ _ _) in Hp; [| done].
  apply bind_Ok in H as (enc & He & H). apply bind_Ok in H as (clock & Hc & H).
  cbv zeta in H. set (rest := tail (suffix_of _ (tail _))) in H. clearbody rest.
  destruct rest as [| x l]; [injection H as <- | apply bind_Ok in H as (n & Hn & [= <-])];
    (apply with_pt_fits; [done | fits]).
Qed.

Lemma fmtp_of_fits m v m' : fmtp_of m v = Ok m' -> media_fits m -> media_fits m'.
Proof.
  intros H Hm. apply bind_Ok in H as ([[k p] r] & Hp & H). apply (entry_of_fits _ _ _ _ _) in Hp; [| done].
  apply bind_Ok in H as (f & Hf & [= <-]). apply with_pt_fits; [done | fits].
Qed.

Lemma ssrc_of_fits m v m' : ssrc_of m v = Ok m' -> media_fits m -> media_fits m'.
Proof.
  intros H Hm. apply bind_Ok in H as ([tok r] & _ & H). apply bind_Ok in H as (n & Hn & [= <-]). fits.
Qed.

Lemma ext_id_nonneg ds : 0 <= ext_id ds.
Proof.
  unfold ext_id. enough (Hb : forall a, 0 <= a -> 0 <= fold_left (fun id c => u32 (id * 10 + (c - 48))) ds a) by by apply Hb.
  induction ds as [| c ds IH]; intros a Ha; cbn; [done |]. apply IH, u32_range.
Qed.

Lemma extmap_of_fits m v : media_fits m -> media_fits (extmap_of m v).
Proof.
  intros Hm. unfold extmap_of. cbv zeta. set (id := ext_id _). set (uri := prefix_of is_uri _).
  destruct (_ && _) eqn:E; [| done]. apply andb_prop in E as [E Hu]. apply andb_prop in E as [_ Hi].
  pose proof (ext_id_nonneg (prefix_of is_digit (suffix_of is_ws v))). fold id in H.
  pose proof (c_string_holds NGX_RTC_SDP_TWCC_URI_LEN uri ltac:(lia)). unfold media_fits in *. cbn. intuition lia.
Qed.

Lemma at_media_fits st k f st' :
  at_media st k f = Ok st' -> (forall m m', f m = Ok m' -> media_fits m -> media_fits m') ->
  parser_fits st -> parser_fits st'.
Proof.
  unfold at_media. intros H Hf (H1 & H2 & H3). destruct (media st !! Z.to_nat k) as [m |] eqn:E; [| by injection H as <-].
  apply bind_Ok in H as (m' & Hm & [= <-]). split; [done |]. cbn. rewrite zlen_insert. split; [done |].
  apply Forall_insert; [done |]. apply (Hf _ _ Hm). by apply (Forall_lookup_1 _ _ _ _ H3 E).
Qed.

Lemma attr_of_fits st name v k st' : attr_of st name v k = Ok st' -> parser_fits st -> parser_fits st'.
Proof.
  intros H Hst. pose proof Hst as (Hs & Hm). unfold attr_of in H. revert H.
  do 3 (case (ngx_rtc_sdp_name_eq name _);
    [intros H; apply bind_Ok in H as (x & Hx & [= <-]); split; [| done];
     apply copy_if_empty_holds in Hx; unfold session_fits in *; cbn in *; intuition eauto |]).
  case (ngx_rtc_sdp_name_eq name _).
  { intros H. apply bind_Ok in H as (x & Hx & [= <-]). split; [| done]. by apply (fingerprint_of_fits _ _ _ Hx). }
  destruct k as [| i]; [by intros [= <-] |].
  case (ngx_rtc_sdp_name_eq name _).
  { intros H. apply (at_media_fits _ _ _ _ H); [| done]. intros m m' H0 Hf.
    apply bind_Ok in H0 as (x & Hx & [= <-]). fits. }
  case (ngx_rtc_sdp_name_eq name _); [intros H; apply (at_media_fits _ _ _ _ H); [| done]; intros *; apply rtpmap_of_fits |].
  case (ngx_rtc_sdp_name_eq name _); [intros H; apply (at_media_fits _ _ _ _ H); [| done]; intros *; apply ssrc_of_fits |].
  case (ngx_rtc_sdp_name_eq name _); [intros H; apply (at_media_fits _ _ _ _ H); [| done]; intros *; apply fmtp_of_fits |].
  case (ngx_rtc_sdp_name_eq name _); [intros H; apply (at_media_fits _ _ _ _ H); [| done]; intros m m' [= <-]; apply extmap_of_fits |].
  by intros [= <-].
Qed.

Lemma fmts_of_fits fuel : forall l m m', fmts_of fuel l m = Ok m' -> media_fits m -> media_fits m'.
Proof.
  induction fuel as [| fuel IH]; intros l m m' H Hm; cbn [fmts_of] in H;
    destruct (word l) as [[tok r] | rc]; try by injection H as <-.
  all: destruct (num tok) as [n | rc] eqn:En; [| by injection H as <-].
  all: destruct (Z.ltb_spec 127 n); [done |]; destruct (Z.leb_spec NGX_RTC_SDP_MAX_PT (zlen (pts m))); [done |].
  { by injection H as <-. }
  apply (IH _ _ _ H). apply num_range in En. destruct Hm as (Ha & Hb & Hc & Hd).
  split; [done |]. split; [done |]. cbn. rewrite zlen_app, zlen_cons, zlen_nil. split; [lia |].
  apply Forall_app. split; [done |]. constructor; [| constructor]. fits; done.
Qed.

Lemma media_of_fits st l st' : media_of st l = Ok st' -> parser_fits st -> parser_fits st'.
Proof.
  intros H (H1 & H2 & H3). unfold media_of in H.
  destruct (Z.leb_spec NGX_RTC_SDP_MAX_MEDIA (zlen (media st))); [done |]. apply bind_Ok in H as ([tok r] & _ & H).
  apply bind_Ok in H as (t & Ht & H). apply bind_Ok in H as ([? r2] & _ & H). apply bind_Ok in H as ([? r3] & _ & H).
  apply bind_Ok in H as (m & Hm & [= <-]). split; [done |]. cbn. rewrite zlen_app, zlen_cons, zlen_nil. split; [lia |].
  apply Forall_app. split; [done |]. constructor; [| constructor]. apply (fmts_of_fits _ _ _ _ Hm).
  apply copy_holds in Ht. fits; done.
Qed.

Lemma parse_lines_fits ls : forall st st', parse_lines ls st = Ok st' -> parser_fits st -> parser_fits st'.
Proof.
  induction ls as [| l ls IH]; intros st st' H Hst; [by injection H as <- |]. cbn [parse_lines] in H.
  apply bind_Ok in H as (st1 & H1 & H). apply (IH _ _ H). clear H IH.
  destruct l as [| c [| e l]]; [by injection H1 as <- | by injection H1 as <- |]. cbn [line_of] in H1.
  destruct (negb _); [by injection H1 as <- |]. destruct (c =? 109); [by apply media_of_fits in H1 |].
  destruct (c =? 97); [by apply attr_of_fits in H1 | by injection H1 as <-].
Qed.

Lemma pick_fits m name keep l : forall c,
  media_fits m -> Forall pt_fits l -> codec_fits c -> codec_fits (pick m name keep l c).
Proof.
  induction l as [| p l IH]; intros c Hm Hl Hc; [done |]. inversion Hl as [| ? ? Hp Hl']; subst. cbn [pick].
  destruct (ngx_rtc_sdp_streq_ci _ _); [| by apply IH]. destruct keep; fits.
Qed.

Lemma take_codec_fits m name keep c : media_fits m -> codec_fits c -> codec_fits (take_codec m name keep c).
Proof. intros Hm Hc. apply pick_fits; [done | by destruct Hm as (_ & _ & _ & ?) | fits]. Qed.

Lemma build_loop_fits l : forall v a,
  Forall media_fits l -> codec_fits v -> codec_fits a ->
  codec_fits (build_loop l v a).1 /\ codec_fits (build_loop l v a).2.
Proof.
  induction l as [| m l IH]; intros v a Hl Hv Ha; [done |]. inversion Hl as [| ? ? Hm Hl']; subst. cbn [build_loop].
  destruct (ngx_rtc_sdp_streq _ _); [| destruct (ngx_rtc_sdp_streq _ _)]; apply IH; auto using take_codec_fits.
Qed.

Lemma build_offer_fits st : parser_fits st -> offer_fits (ngx_rtc_sdp_build_offer st).
Proof.
  intros (H1 & H2 & H3). unfold ngx_rtc_sdp_build_offer.
  assert (Hz : codec_fits zero_codec) by (fits; done).
  pose proof (build_loop_fits (media st) _ _ H3 Hz Hz) as [Hv Ha]. destruct (build_loop _ _ _) as [v a].
  unfold offer_fits. cbn. rewrite !zlen_fmap. split_and!; [done | done | done | done | done | |];
    apply Forall_fmap; (eapply Forall_impl; [done |]); by intros m ((? & ? & _) & _).
Qed.

Lemma parse_offer_fits sdp out :
  safe (fun '(_, o) => match o with Ref o => offer_fits o | NULL => False end)
    (ngx_rtc_sdp_parse_offer (Ref sdp) (Ref out)).
Proof.
  rewrite parse_offer_eq. apply safe_ret.
  assert (Hz : parser_fits zero_parser) by (split; [fits; done | split; [done | constructor]]).
  destruct (parse_lines _ _) as [st | rc] eqn:E.
  - apply build_offer_fits. by apply (parse_lines_fits _ _ _ E).
  - apply (build_offer_fits zero_parser Hz).
Qed.

(** C35: whatever text is parsed, what lands in the offer fits it: every array holds a terminated
    string, at most four media descriptions are recorded and a mid for each, payload types are
    7-bit numbers, rates and SSRCs 32-bit ones, and a transport-cc extension id is one a one-byte
    header can carry. *)
Theorem sdp_offer_fits sdp out :
  safe (fun '(_, o) => match o with Ref o => offer_fits o | NULL => False end)
    (ngx_rtc_sdp_parse_offer (Ref sdp) (Ref out)).
Proof. apply parse_offer_fits. Qed.

(** An extension offered with a direction is not negotiated, in the form of RFC 8285
    ("3/sendonly uri") nor in the one the comment at the URI scan says is tolerated
    ("3 sendonly uri"): the direction is taken for the URI. *)
Theorem extmap_direction_lost m ds dir sep uri :
  Forall (fun c => is_digit c = true) ds -> ds <> [] -> sep = 47 \/ sep = 32 ->
  dir = lit "sendonly" \/ dir = lit "recvonly" \/ dir = lit "sendrecv" \/ dir = lit "inactive" ->
  ngx_rtc_sdp_parse_extmap m (ds ++ sep :: dir ++ 32 :: uri) = ok m.
Proof.
  intros Hd Hne Hsep Hdir. rewrite parse_extmap_eq. unfold ok. do 2 f_equal. unfold extmap_of.
  assert (Hs : suffix_of is_ws (ds ++ sep :: dir ++ 32 :: uri) = ds ++ sep :: dir ++ 32 :: uri).
  { destruct ds as [| c l]; [done |]. apply Forall_cons in Hd as [Hd _]. cbn.
    by replace (is_ws c) with false by (unfold is_digit, is_ws in *; lia). }
  rewrite Hs. destruct (prefix_app is_digit ds (sep :: dir ++ 32 :: uri) Hd) as [-> ->]; [by destruct Hsep as [-> | ->] |].
  replace (mentions_twcc _) with false by (destruct Hsep as [-> | ->], Hdir as [-> | [-> | [-> | ->]]]; by vm_compute).
  by rewrite andb_false_r.
Qed.

Lemma extmap_direction_lost_witness :
  ngx_rtc_sdp_parse_extmap zero_media (lit "3/recvonly urn:ietf:params:rtp-hdrext:transport-wide-cc") = ok zero_media.
Proof.
  apply (extmap_direction_lost zero_media (lit "3") (lit "recvonly") 47 (lit "urn:ietf:params:rtp-hdrext:transport-wide-cc"));
    [by repeat constructor | done | by left | by right; left].
Defined.

End Sdp.
