(* ===== verification/SdpAnswer.v ===== *)
(** The answer generator of src/ngx_rtc_sdp.c, and its round trip through the parser.

    A conversion is its text: [append] takes what the format and its arguments print, and
    keeps what vsnprintf leaves in the buffer, truncated text included. *)

From S2P Require Import Prelude Text Sdp.
Import Text.

Module SdpAnswer.

Record ngx_rtc_sdp_answer_t := {
  ice_ufrag : ptr octets;
  ice_pwd : ptr octets;
  fingerprint_algo : ptr octets;
  fingerprint : ptr octets;
  setup : ptr octets;
  proto : ptr octets;
  candidate_ip : ptr octets;
  candidate_port : Z;
  n_media : Z;
  media_type : list octets;
  media_mid : list octets;
  video_ssrc : Z;
  audio_ssrc : Z;
  video_pt : Z;
  audio_pt : Z;
  video_clock_rate : Z;
  audio_clock_rate : Z;
  audio_channels : Z;
  video_twcc_ext : Z;
  audio_twcc_ext : Z;
  video_twcc_uri : ptr octets;
  audio_twcc_uri : ptr octets;
  video_fmtp : ptr octets;
  audio_fmtp : ptr octets;
  sendonly : Z;
  rtcp_mux : Z;
  rtcp_rsize : Z
}.

(** The bounded writer; [data] is the caller's whole buffer. *)
Record ngx_rtc_sdp_writer_t := { data : octets; cap : Z; len : Z }.

Definition int_max : Z := 2147483647.

(** A call on the writer: its return code and the writer after it. *)
Definition call := ngx_rtc_sdp_writer_t -> outcome (Z * ngx_rtc_sdp_writer_t).

Definition done_ok : call := fun w => Ret (NGX_RTC_OK, w).

(** r = m; if (0 != r) return r; k *)
Definition and_then (m k : call) : call := fun w => '(r, w) ← m w; if r =? 0 then k w else Ret (r, w).
#[local] Notation "m ;? k" := (and_then m k) (at level 100, k at level 200, right associativity).

(** A conversion of more than INT_MAX octets is the error vsnprintf reports as negative. *)
Definition ngx_rtc_sdp_writer_append (t : octets) : call := fun w =>
  if cap w <=? len w then Ret (NGX_RTC_ERR_TOO_SMALL, w)
  else if int_max <? zlen t then Ret (NGX_RTC_ERR_PARSE, w)
  else
    let room := cap w - len w in
    b ← store_range (data w) (len w) (ztake (room - 1) t ++ [0]);
    if room <=? zlen t then Ret (NGX_RTC_ERR_TOO_SMALL, {| data := b; cap := cap w; len := cap w |})
    else Ret (NGX_RTC_OK, {| data := b; cap := cap w; len := u32 (len w + zlen t) |}).

(** A %s of a pointer. *)
Definition with_str (p : ptr octets) (k : octets -> call) : call :=
  match p with NULL => fun _ => Fault | Ref s => k s end.

Definition with_load (l : list octets) (i : Z) (k : octets -> call) : call := fun w => x ← load l i; k x w.

(** NULL != p && '\0' != p[0] *)
Definition present (p : ptr octets) : bool := match p with Ref (_ :: _) => true | _ => false end.

Definition ngx_rtc_sdp_write_attr (name : octets) (value : ptr octets) : call :=
  if present value then with_str value (fun v => ngx_rtc_sdp_writer_append (lit "a=" ++ name ++ lit ":" ++ v ++ crlf))
  else done_ok.

Definition ngx_rtc_sdp_write_media (type mid : octets) (pt ssrc clock_rate channels : Z) (encoding : octets)
    (fmtp : ptr octets) (cfg : ngx_rtc_sdp_answer_t) (twcc_ext : Z) (twcc_uri : ptr octets) : call :=
  let append := ngx_rtc_sdp_writer_append in
  with_str (proto cfg) (fun proto => append (lit "m=" ++ type ++ lit " 9 " ++ proto ++ lit " " ++ decimal pt ++ crlf)) ;?
  append (lit "c=IN IP4 0.0.0.0" ++ crlf) ;?
  append (lit "a=mid:" ++ mid ++ crlf) ;?
  (if negb (twcc_ext =? 0) && present twcc_uri then
     with_str twcc_uri (fun uri => append (lit "a=extmap:" ++ decimal twcc_ext ++ lit " " ++ uri ++ crlf))
   else done_ok) ;?
  (if present (candidate_ip cfg) then
     with_str (candidate_ip cfg) (fun ip =>
       append (lit "a=candidate:1 1 udp 2130706431 " ++ ip ++ lit " " ++ decimal (candidate_port cfg)
               ++ lit " typ host generation 0" ++ crlf))
   else done_ok) ;?
  (if negb (sendonly cfg =? 0) then
     append (if 0 <? sendonly cfg then lit "a=sendonly" ++ crlf else lit "a=recvonly" ++ crlf)
   else done_ok) ;?
  (if negb (rtcp_mux cfg =? 0) then append (lit "a=rtcp-mux" ++ crlf) else done_ok) ;?
  (if negb (rtcp_rsize cfg =? 0) then append (lit "a=rtcp-rsize" ++ crlf) else done_ok) ;?
  (if negb (channels =? 0) then
     append (lit "a=rtpmap:" ++ decimal pt ++ lit " " ++ encoding ++ lit "/" ++ decimal clock_rate ++ lit "/"
             ++ decimal channels ++ crlf)
   else append (lit "a=rtpmap:" ++ decimal pt ++ lit " " ++ encoding ++ lit "/" ++ decimal clock_rate ++ crlf)) ;?
  (if present fmtp then
     with_str fmtp (fun f => append (lit "a=fmtp:" ++ decimal pt ++ lit " " ++ f ++ crlf))
   else done_ok) ;?
  (if Sdp.ngx_rtc_sdp_streq type (lit "video") then
     append (lit "a=rtcp-fb:" ++ decimal pt ++ lit " nack pli" ++ crlf) ;?
     (if 0 <? sendonly cfg then append (lit "a=rtcp-fb:" ++ decimal pt ++ lit " nack" ++ crlf) else done_ok)
   else done_ok) ;?
  append (lit "a=ssrc:" ++ decimal ssrc ++ lit " cname:" ++ decimal ssrc ++ crlf).

Definition is_video (t : octets) : bool := Sdp.ngx_rtc_sdp_streq t (lit "video").
Definition is_audio (t : octets) : bool := Sdp.ngx_rtc_sdp_streq t (lit "audio").

(** The mids of the BUNDLE group, from index [mi]. *)
Fixpoint bundle_loop (fuel : nat) (cfg : ngx_rtc_sdp_answer_t) (mi : Z) : call :=
  if mi <? n_media cfg then
    match fuel with
    | O => fun _ => Fault
    | S fuel =>
        with_load (media_type cfg) mi (fun t =>
          if is_video t || is_audio t
          then with_load (media_mid cfg) mi (fun m => ngx_rtc_sdp_writer_append (lit " " ++ m))
          else done_ok) ;?
        bundle_loop fuel cfg (mi + 1)
    end
  else done_ok.

(** The section of the media description [mi]. *)
Definition write_section (cfg : ngx_rtc_sdp_answer_t) (mi : Z) : call :=
  with_load (media_type cfg) mi (fun t =>
    if is_video t then
      with_load (media_mid cfg) mi (fun mid =>
        ngx_rtc_sdp_write_media (lit "video") mid (video_pt cfg) (video_ssrc cfg) (video_clock_rate cfg) 0
          (lit "H264") (video_fmtp cfg) cfg (video_twcc_ext cfg) (video_twcc_uri cfg))
    else if is_audio t then
      with_load (media_mid cfg) mi (fun mid =>
        ngx_rtc_sdp_write_media (lit "audio") mid (audio_pt cfg) (audio_ssrc cfg) (audio_clock_rate cfg)
          (audio_channels cfg) (lit "opus") (audio_fmtp cfg) cfg (audio_twcc_ext cfg) (audio_twcc_uri cfg))
    else
      with_str (proto cfg) (fun proto =>
        ngx_rtc_sdp_writer_append (lit "m=" ++ t ++ lit " 0 " ++ proto ++ crlf))).

Fixpoint section_loop (fuel : nat) (cfg : ngx_rtc_sdp_answer_t) (mi : Z) : call :=
  if mi <? n_media cfg then
    match fuel with
    | O => fun _ => Fault
    | S fuel => write_section cfg mi ;? section_loop fuel cfg (mi + 1)
    end
  else done_ok.

Definition write_answer (cfg : ngx_rtc_sdp_answer_t) : call :=
  let append := ngx_rtc_sdp_writer_append in
  append (lit "v=0" ++ crlf) ;?
  append (lit "o=ngx-rtc 0 1 IN IP4 0.0.0.0" ++ crlf) ;?
  append (lit "s=-" ++ crlf) ;?
  append (lit "t=0 0" ++ crlf) ;?
  append (lit "a=group:BUNDLE") ;?
  bundle_loop (Z.to_nat (n_media cfg)) cfg 0 ;?
  append crlf ;?
  append (lit "a=msid-semantic: WMS" ++ crlf) ;?
  append (lit "a=ice-lite" ++ crlf) ;?
  ngx_rtc_sdp_write_attr (lit "ice-ufrag") (ice_ufrag cfg) ;?
  ngx_rtc_sdp_write_attr (lit "ice-pwd") (ice_pwd cfg) ;?
  (if present (fingerprint_algo cfg) && present (fingerprint cfg) then
     with_str (fingerprint_algo cfg) (fun algo => with_str (fingerprint cfg) (fun hash =>
       append (lit "a=fingerprint:" ++ algo ++ lit " " ++ hash ++ crlf)))
   else done_ok) ;?
  ngx_rtc_sdp_write_attr (lit "setup") (setup cfg) ;?
  section_loop (Z.to_nat (n_media cfg)) cfg 0.

(** The return code, the buffer and the length cell after the call. *)
Definition ngx_rtc_sdp_generate_answer (cfg : ptr ngx_rtc_sdp_answer_t) (buf : ptr octets) (cap : Z) (out_len : ptr Z)
    : outcome (Z * ptr octets * ptr Z) :=
  match cfg, buf, out_len with
  | Ref cfg, Ref b, Ref _ =>
      if cap =? 0 then Ret (NGX_RTC_ERR_TOO_SMALL, buf, out_len)
      else
        '(r, w) ← write_answer cfg {| data := b; cap := cap; len := 0 |};
        Ret (r, Ref (data w), if r =? 0 then Ref (len w) else out_len)
  | _, _, _ => Ret (NGX_RTC_ERR_INVALID, buf, out_len)
  end.

Definition default_answer : ngx_rtc_sdp_answer_t :=
  {| ice_ufrag := NULL; ice_pwd := NULL; fingerprint_algo := NULL; fingerprint := NULL; setup := NULL;
     proto := Ref (lit "UDP/TLS/RTP/SAVPF"); candidate_ip := NULL; candidate_port := 0;
     n_media := 2;
     media_type := [lit "video"; lit "audio"; []; []]; media_mid := [lit "0"; lit "1"; []; []];
     video_ssrc := 0; audio_ssrc := 0; video_pt := 102; audio_pt := 111;
     video_clock_rate := 90000; audio_clock_rate := 48000; audio_channels := 2;
     video_twcc_ext := 0; audio_twcc_ext := 0; video_twcc_uri := NULL; audio_twcc_uri := NULL;
     video_fmtp := Ref (lit "level-asymmetry-allowed=1;packetization-mode=1;profile-level-id=42e01f");
     audio_fmtp := Ref (lit "minptime=10;useinbandfec=1");
     sendonly := 1; rtcp_mux := 1; rtcp_rsize := 1 |}.

Definition ngx_rtc_sdp_answer_init (cfg : ptr ngx_rtc_sdp_answer_t) : ptr ngx_rtc_sdp_answer_t :=
  match cfg with NULL => NULL | Ref _ => Ref default_answer end.

(** ** The text an answer is *)

(** The line of an attribute that is there, none otherwise. *)
Definition opt (b : bool) (l : octets) : list octets := if b then [l] else [].

(** The string, empty for NULL. *)
Definition str (p : ptr octets) : octets := match p with NULL => [] | Ref s => s end.

Definition attr_lines (name : octets) (v : ptr octets) : list octets :=
  opt (present v) (lit "a=" ++ name ++ lit ":" ++ str v).

(** What an m= section is about. *)
Record track := {
  t_type : octets;
  t_mid : octets;
  t_pt : Z;
  t_ssrc : Z;
  t_clock : Z;
  t_channels : Z;
  t_encoding : octets;
  t_fmtp : ptr octets;
  t_ext : Z;
  t_uri : ptr octets
}.

Definition track_lines (cfg : ngx_rtc_sdp_answer_t) (t : track) : list octets :=
  let pt := decimal (t_pt t) in
  [lit "m=" ++ t_type t ++ lit " 9 " ++ str (proto cfg) ++ lit " " ++ pt;
   lit "c=IN IP4 0.0.0.0";
   lit "a=mid:" ++ t_mid t]
  ++ opt (negb (t_ext t =? 0) && present (t_uri t))
       (lit "a=extmap:" ++ decimal (t_ext t) ++ lit " " ++ str (t_uri t))
  ++ opt (present (candidate_ip cfg))
       (lit "a=candidate:1 1 udp 2130706431 " ++ str (candidate_ip cfg) ++ lit " " ++ decimal (candidate_port cfg)
        ++ lit " typ host generation 0")
  ++ opt (negb (sendonly cfg =? 0)) (if 0 <? sendonly cfg then lit "a=sendonly" else lit "a=recvonly")
  ++ opt (negb (rtcp_mux cfg =? 0)) (lit "a=rtcp-mux")
  ++ opt (negb (rtcp_rsize cfg =? 0)) (lit "a=rtcp-rsize")
  ++ [lit "a=rtpmap:" ++ pt ++ lit " " ++ t_encoding t ++ lit "/" ++ decimal (t_clock t)
      ++ (if negb (t_channels t =? 0) then lit "/" ++ decimal (t_channels t) else [])]
  ++ opt (present (t_fmtp t)) (lit "a=fmtp:" ++ pt ++ lit " " ++ str (t_fmtp t))
  ++ opt (is_video (t_type t)) (lit "a=rtcp-fb:" ++ pt ++ lit " nack pli")
  ++ opt (is_video (t_type t) && (0 <? sendonly cfg)) (lit "a=rtcp-fb:" ++ pt ++ lit " nack")
  ++ [lit "a=ssrc:" ++ decimal (t_ssrc t) ++ lit " cname:" ++ decimal (t_ssrc t)].

Definition video_track (cfg : ngx_rtc_sdp_answer_t) (mid : octets) : track :=
  {| t_type := lit "video"; t_mid := mid; t_pt := video_pt cfg; t_ssrc := video_ssrc cfg;
     t_clock := video_clock_rate cfg; t_channels := 0; t_encoding := lit "H264"; t_fmtp := video_fmtp cfg;
     t_ext := video_twcc_ext cfg; t_uri := video_twcc_uri cfg |}.

Definition audio_track (cfg : ngx_rtc_sdp_answer_t) (mid : octets) : track :=
  {| t_type := lit "audio"; t_mid := mid; t_pt := audio_pt cfg; t_ssrc := audio_ssrc cfg;
     t_clock := audio_clock_rate cfg; t_channels := audio_channels cfg; t_encoding := lit "opus";
     t_fmtp := audio_fmtp cfg; t_ext := audio_twcc_ext cfg; t_uri := audio_twcc_uri cfg |}.

Definition section_lines (cfg : ngx_rtc_sdp_answer_t) (m : octets * octets) : list octets :=
  if is_video m.1 then track_lines cfg (video_track cfg m.2)
  else if is_audio m.1 then track_lines cfg (audio_track cfg m.2)
  else [lit "m=" ++ m.1 ++ lit " 0 " ++ str (proto cfg)].

(** The media descriptions to answer, in order, and the mids among them that get a track. *)
Definition sections (cfg : ngx_rtc_sdp_answer_t) : list (octets * octets) :=
  ztake (n_media cfg) (zip (media_type cfg) (media_mid cfg)).

Definition bundled (ms : list (octets * octets)) : list octets :=
  snd <$> filter (fun m => is_video m.1 || is_audio m.1) ms.

Definition session_lines (cfg : ngx_rtc_sdp_answer_t) : list octets :=
  [lit "v=0"; lit "o=ngx-rtc 0 1 IN IP4 0.0.0.0"; lit "s=-"; lit "t=0 0";
   lit "a=group:BUNDLE" ++ concat ((fun m => lit " " ++ m) <$> bundled (sections cfg));
   lit "a=msid-semantic: WMS"; lit "a=ice-lite"]
  ++ attr_lines (lit "ice-ufrag") (ice_ufrag cfg)
  ++ attr_lines (lit "ice-pwd") (ice_pwd cfg)
  ++ opt (present (fingerprint_algo cfg) && present (fingerprint cfg))
       (lit "a=fingerprint:" ++ str (fingerprint_algo cfg) ++ lit " " ++ str (fingerprint cfg))
  ++ attr_lines (lit "setup") (setup cfg).

Definition answer_lines (cfg : ngx_rtc_sdp_answer_t) : list octets :=
  session_lines cfg ++ concat (section_lines cfg <$> sections cfg).

(** Lines with their ends. *)
Definition text (ls : list octets) : octets := concat ((fun l => l ++ crlf) <$> ls).

(** ** The writer writes the text or stops at the end of the buffer *)

Section writer.
Context (buf : octets) (c : Z).
Hypothesis Hc : 0 < c <= zlen buf.
Hypothesis Hc32 : is_u32 c.

(** The writer after the text [s], which fits. *)
Definition holding (s : octets) : ngx_rtc_sdp_writer_t :=
  {| data := s ++ 0 :: zdrop (zlen s + 1) buf; cap := c; len := zlen s |}.

(** The writer after a text that does not. *)
Definition full (s : octets) : ngx_rtc_sdp_writer_t :=
  {| data := ztake (c - 1) s ++ 0 :: zdrop c buf; cap := c; len := c |}.

Definition written (s : octets) : Z * ngx_rtc_sdp_writer_t :=
  if zlen s <? c then (NGX_RTC_OK, holding s) else (NGX_RTC_ERR_TOO_SMALL, full s).

(** [m] writes [t] after whatever was written. *)
Definition emits (m : call) (t : octets) : Prop :=
  forall s, zlen s < c -> zlen (s ++ t) <= int_max -> m (holding s) = Ret (written (s ++ t)).

Lemma store_text pre b t :
  zlen pre + zlen t < c -> zlen pre + zlen b = zlen buf ->
  store_range (pre ++ b) (zlen pre) (t ++ [0]) = Ret ((pre ++ t) ++ 0 :: zdrop (zlen t + 1) b).
Proof.
  intros Hl Hb. pose proof (zlen_nonneg t). pose proof (zlen_nonneg pre).
  rewrite <- (ztake_zdrop (zlen t + 1) b) at 1.
  rewrite store_range_app by (rewrite ?zlen_ztake, ?zlen_app, ?zlen_cons, ?zlen_nil; lia).
  by rewrite <- !app_assoc.
Qed.

Lemma rest_of (s : octets) k : 0 <= k -> zdrop (k + 1) (0 :: zdrop (zlen s + 1) buf) = zdrop (zlen s + k + 1) buf.
Proof.
  intros Hk. pose proof (zlen_nonneg s). unfold zdrop. replace (Z.to_nat (k + 1)) with (S (Z.to_nat k)) by lia.
  cbn [drop]. rewrite drop_drop. f_equal. lia.
Qed.

Lemma emits_append t : emits (ngx_rtc_sdp_writer_append t) t.
Proof.
  intros s Hs Hi. unfold ngx_rtc_sdp_writer_append, holding. cbn [cap len data].
  pose proof (zlen_nonneg s). pose proof (zlen_nonneg t). rewrite zlen_app in Hi.
  destruct (Z.leb_spec c (zlen s)); [lia |]. destruct (Z.ltb_spec int_max (zlen t)); [lia |].
  assert (Hb : zlen s + zlen (0 :: zdrop (zlen s + 1) buf) = zlen buf).
  { rewrite zlen_cons, zlen_zdrop by lia. lia. }
  unfold written. rewrite zlen_app. destruct (Z.leb_spec (c - zlen s) (zlen t)) as [Hge | Hlt].
  - rewrite store_text by (rewrite ?zlen_ztake; lia). rewrite bind_Ret, rest_of by (rewrite zlen_ztake; lia).
    destruct (Z.ltb_spec (zlen s + zlen t) c); [lia |]. unfold full. rewrite zlen_ztake by lia.
    replace (zlen s + Z.min (c - zlen s - 1) (zlen t) + 1) with c by lia.
    replace (ztake (c - 1) (s ++ t)) with (s ++ ztake (c - zlen s - 1) t); [done |].
    unfold ztake. rewrite take_app_ge by (unfold zlen in *; lia). do 2 f_equal. unfold zlen in *. lia.
  - rewrite ztake_all by lia. rewrite store_text by lia. rewrite bind_Ret, rest_of by lia.
    destruct (Z.ltb_spec (zlen s + zlen t) c); [| lia]. unfold holding. rewrite zlen_app.
    by rewrite u32_small by (unfold is_u32 in *; lia).
Qed.

Lemma emits_nothing : emits done_ok [].
Proof. intros s Hs _. rewrite app_nil_r. unfold written. by rewrite (proj2 (Z.ltb_lt _ _) Hs). Qed.

Lemma full_app s t : c <= zlen s -> full (s ++ t) = full s.
Proof. intros Hs. unfold full. by rewrite ztake_app_le by lia. Qed.

Lemma emits_then m k t u : emits m t -> emits k u -> emits (and_then m k) (t ++ u).
Proof.
  intros Hm Hk s Hs Hi. unfold and_then. pose proof (zlen_nonneg u). rewrite !zlen_app in Hi.
  rewrite Hm by (rewrite ?zlen_app; lia). rewrite bind_Ret. unfold written at 1.
  destruct (Z.ltb_spec (zlen (s ++ t)) c) as [Hlt | Hge].
  - cbn. rewrite app_assoc. apply Hk; [done |]. rewrite !zlen_app. lia.
  - cbn. rewrite app_assoc. unfold written. rewrite (full_app (s ++ t) u) by done. rewrite (zlen_app (s ++ t) u).
    destruct (Z.ltb_spec (zlen (s ++ t) + zlen u) c); [lia | done].
Qed.

Lemma emits_if (b : bool) m t : (b = true -> emits m t) -> emits (if b then m else done_ok) (if b then t else []).
Proof. destruct b; [by intros H; apply H | intros _; apply emits_nothing]. Qed.

Lemma emits_str p k t : is_null p = false -> emits (k (str p)) t -> emits (with_str p k) t.
Proof. by destruct p. Qed.

Lemma emits_load l i x k t : l !! Z.to_nat i = Some x -> 0 <= i -> emits (k x) t -> emits (with_load l i k) t.
Proof.
  intros Hx Hi Hk s Hs Hl. unfold with_load. rewrite (proj2 (load_ret l i x)) by done. rewrite bind_Ret. by apply Hk.
Qed.

Lemma emits_eq m t u : emits m t -> t = u -> emits m u.
Proof. by intros H <-. Qed.
(** *** Lines *)

Lemma text_app a b : text (a ++ b) = text a ++ text b.
Proof. unfold text. by rewrite fmap_app, concat_app. Qed.

Lemma text_cons l ls : text (l :: ls) = (l ++ crlf) ++ text ls.
Proof. done. Qed.

Lemma text_opt b l : text (opt b l) = if b then l ++ crlf else [].
Proof. destruct b; [apply app_nil_r | done]. Qed.

Lemma emits_last l t : t = l ++ crlf -> emits (ngx_rtc_sdp_writer_append t) (text [l]).
Proof. intros ->. apply (emits_eq _ (l ++ crlf)); [apply emits_append | symmetry; apply app_nil_r]. Qed.

Lemma emits_line k l ls t :
  t = l ++ crlf -> emits k (text ls) -> emits (and_then (ngx_rtc_sdp_writer_append t) k) (text (l :: ls)).
Proof. intros -> Hk. apply emits_then; [apply emits_append | done]. Qed.

Lemma emits_opt (b : bool) m k l ls :
  (b = true -> emits m (l ++ crlf)) -> emits k (text ls) ->
  emits (and_then (if b then m else done_ok) k) (text (opt b l ++ ls)).
Proof. intros Hm Hk. rewrite text_app, text_opt. apply emits_then; [by apply emits_if | done]. Qed.

Lemma emits_line_str p k l : is_null p = false -> k (str p) = ngx_rtc_sdp_writer_append (l ++ crlf) ->
  emits (with_str p k) (l ++ crlf).
Proof. intros Hp Hk. apply emits_str; [done |]. rewrite Hk. apply emits_append. Qed.

Lemma present_str p : present p = true -> is_null p = false.
Proof. by destruct p. Qed.

Lemma emits_attr_then name v k ls :
  emits k (text ls) -> emits (and_then (ngx_rtc_sdp_write_attr name v) k) (text (attr_lines name v ++ ls)).
Proof.
  intros Hk. apply emits_opt; [| done]. intros Hv. apply emits_line_str; [by apply present_str |].
  by rewrite <- !app_assoc.
Qed.

(** Brackets of the appends aside. *)
Ltac same := rewrite <- ?app_assoc; reflexivity.

Lemma emits_write_media cfg t :
  is_null (proto cfg) = false ->
  emits (ngx_rtc_sdp_write_media (t_type t) (t_mid t) (t_pt t) (t_ssrc t) (t_clock t) (t_channels t)
           (t_encoding t) (t_fmtp t) cfg (t_ext t) (t_uri t))
    (text (track_lines cfg t)).
Proof.
  intros Hp. unfold ngx_rtc_sdp_write_media, track_lines. cbv zeta. cbn [app]. rewrite text_cons.
  apply emits_then; [apply emits_line_str; [done | same] |].
  apply emits_line; [done |]. apply emits_line; [same |].
  apply emits_opt.
  { intros H. apply andb_prop in H as [_ H]. apply emits_line_str; [by apply present_str | same]. }
  apply emits_opt; [intros H; apply emits_line_str; [by apply present_str | same] |].
  apply emits_opt; [intros _; destruct (0 <? sendonly cfg); apply emits_append |].
  do 2 (apply emits_opt; [intros _; apply emits_append |]).
  rewrite text_cons. apply emits_then.
  { destruct (t_channels t =? 0); cbn [negb]; (eapply emits_eq; [apply emits_append |]); rewrite ?app_nil_r; same. }
  apply emits_opt; [intros H; apply emits_line_str; [by apply present_str | same] |].
  fold (is_video (t_type t)). destruct (is_video (t_type t)); cbn [andb opt app].
  - rewrite text_cons, text_app, (app_assoc _ (text (opt _ _))). apply emits_then; [| apply emits_last; same].
    apply emits_then; [eapply emits_eq; [apply emits_append | same] |].
    rewrite text_opt. apply emits_if. intros _. eapply emits_eq; [apply emits_append | same].
  - rewrite <- (app_nil_l (text _)). apply emits_then; [apply emits_nothing | apply emits_last; same].
Qed.

(** *** The loops over the media descriptions *)

Context (cfg : ngx_rtc_sdp_answer_t).
Hypothesis Hproto : is_null (proto cfg) = false.
Hypothesis Htypes : 0 <= n_media cfg <= zlen (media_type cfg).
Hypothesis Hmids : n_media cfg <= zlen (media_mid cfg).

Lemma section_at i m :
  sections cfg !! i = Some m ->
  media_type cfg !! i = Some m.1 /\ media_mid cfg !! i = Some m.2 /\ Z.of_nat i < n_media cfg.
Proof.
  unfold sections, ztake. intros H. apply lookup_take_Some in H as [H Hi].
  apply lookup_zip_with_Some in H as (x & y & -> & Hx & Hy). split_and!; [done | done | lia].
Qed.

Lemma zlen_sections : zlen (sections cfg) = n_media cfg.
Proof using Htypes Hmids. clear Hc Hc32. unfold sections. rewrite zlen_ztake by lia. unfold zlen in *. rewrite length_zip_with. lia. Qed.

Lemma emits_section i m :
  sections cfg !! Z.to_nat i = Some m -> 0 <= i -> emits (write_section cfg i) (text (section_lines cfg m)).
Proof.
  intros Hm Hi. apply section_at in Hm as (Ht & Hmid & _). unfold write_section, section_lines.
  apply (emits_load _ _ m.1); [done | done |]. destruct (is_video m.1).
  { apply (emits_load _ _ m.2); [done | done |]. by apply (emits_write_media cfg (video_track cfg m.2)). }
  destruct (is_audio m.1).
  { apply (emits_load _ _ m.2); [done | done |]. by apply (emits_write_media cfg (audio_track cfg m.2)). }
  apply emits_str; [done |]. apply emits_last. same.
Qed.

Lemma emits_section_loop fuel : forall i,
  0 <= i -> n_media cfg - i <= Z.of_nat fuel ->
  emits (section_loop fuel cfg i) (text (concat (section_lines cfg <$> zdrop i (sections cfg)))).
Proof.
  induction fuel as [| fuel IH]; intros i Hi Hf; cbn [section_loop].
  all: destruct (Z.ltb_spec i (n_media cfg)) as [Hlt | Hge];
    [| rewrite zdrop_all by (rewrite zlen_sections; lia); apply emits_nothing].
  { lia. }
  destruct (lookup_lt_is_Some_2 (sections cfg) (Z.to_nat i)) as [m Hm].
  { pose proof zlen_sections. unfold zlen in *. lia. }
  unfold zdrop. rewrite (drop_S _ _ _ Hm). cbn [fmap list_fmap concat]. rewrite text_app.
  apply emits_then; [by apply emits_section |].
  replace (S (Z.to_nat i)) with (Z.to_nat (i + 1)) by lia. apply IH; lia.
Qed.

Lemma emits_bundle_loop fuel : forall i,
  0 <= i -> n_media cfg - i <= Z.of_nat fuel ->
  emits (bundle_loop fuel cfg i) (concat ((fun m => lit " " ++ m) <$> bundled (zdrop i (sections cfg)))).
Proof.
  induction fuel as [| fuel IH]; intros i Hi Hf; cbn [bundle_loop].
  all: destruct (Z.ltb_spec i (n_media cfg)) as [Hlt | Hge];
    [| rewrite zdrop_all by (rewrite zlen_sections; lia); apply emits_nothing].
  { lia. }
  destruct (lookup_lt_is_Some_2 (sections cfg) (Z.to_nat i)) as [m Hm].
  { pose proof zlen_sections. unfold zlen in *. lia. }
  pose proof Hm as (Ht & Hmid & _)%section_at.
  unfold zdrop. rewrite (drop_S _ _ _ Hm). replace (S (Z.to_nat i)) with (Z.to_nat (i + 1)) by lia.
  specialize (IH (i + 1) ltac:(lia) ltac:(lia)). fold (zdrop (i + 1) (sections cfg)).
  unfold bundled in *. rewrite filter_cons. destruct (is_video m.1 || is_audio m.1) eqn:E.
  - rewrite decide_True by done. cbn [fmap list_fmap concat]. apply emits_then; [| done].
    apply (emits_load _ _ m.1); [done | done |]. cbv beta. rewrite E.
    apply (emits_load _ _ m.2); [done | done |]. apply emits_append.
  - rewrite decide_False by (by intros []). rewrite <- (app_nil_l (concat _)).
    apply emits_then; [| done]. apply (emits_load _ _ m.1); [done | done |]. cbv beta. rewrite E. apply emits_nothing.
Qed.
End writer.

(** What the answer needs of its configuration: a protocol, and arrays that hold the media
    descriptions counted. *)
Definition well_formed (cfg : ngx_rtc_sdp_answer_t) : Prop :=
  is_null (proto cfg) = false /\ 0 <= n_media cfg <= zlen (media_type cfg) /\ n_media cfg <= zlen (media_mid cfg).

Lemma append_first buf c t :
  0 < c <= zlen buf -> is_u32 c -> zlen t <= int_max ->
  ngx_rtc_sdp_writer_append t {| data := buf; cap := c; len := 0 |} = Ret (written buf c t).
Proof.
  intros Hc Hc32 Ht. unfold ngx_rtc_sdp_writer_append. cbn [cap len data]. pose proof (zlen_nonneg t).
  destruct (Z.leb_spec c 0); [lia |]. destruct (Z.ltb_spec int_max (zlen t)); [lia |]. rewrite Z.sub_0_r.
  assert (Hst : forall u, zlen u < c -> store_range buf 0 (u ++ [0]) = Ret (u ++ 0 :: zdrop (zlen u + 1) buf)).
  { intros u Hu. pose proof (store_text buf c Hc [] buf u) as Hst. rewrite zlen_nil in Hst. by apply Hst. }
  unfold written. destruct (Z.leb_spec c (zlen t)).
  - pose proof (zlen_ztake (c - 1) t ltac:(lia)) as Hz. rewrite Hst by lia. rewrite bind_Ret.
    destruct (Z.ltb_spec (zlen t) c); [lia |]. unfold full. rewrite Hz. by replace (Z.min (c - 1) (zlen t) + 1) with c by lia.
  - rewrite ztake_all by lia. rewrite Hst by lia. rewrite bind_Ret. destruct (Z.ltb_spec (zlen t) c); [| lia].
    unfold holding. by rewrite u32_small by (unfold is_u32 in *; lia).
Qed.

Lemma run_first buf c t k u :
  0 < c <= zlen buf -> is_u32 c -> emits buf c k u -> zlen (t ++ u) <= int_max ->
  and_then (ngx_rtc_sdp_writer_append t) k {| data := buf; cap := c; len := 0 |} = Ret (written buf c (t ++ u)).
Proof.
  intros Hc Hc32 Hk Hi. unfold and_then. rewrite zlen_app in Hi. pose proof (zlen_nonneg u).
  rewrite append_first by (done || lia). rewrite bind_Ret. unfold written at 1.
  destruct (Z.ltb_spec (zlen t) c) as [Hlt | Hge]; cbn.
  - apply Hk; [done | rewrite zlen_app; lia].
  - unfold written. rewrite (full_app _ _ t u) by done. rewrite zlen_app.
    destruct (Z.ltb_spec (zlen t + zlen u) c); [lia | done].
Qed.

Lemma write_answer_eq buf c cfg :
  0 < c <= zlen buf -> is_u32 c -> well_formed cfg -> zlen (text (answer_lines cfg)) <= int_max ->
  write_answer cfg {| data := buf; cap := c; len := 0 |} = Ret (written buf c (text (answer_lines cfg))).
Proof.
  intros Hc Hc32 (Hp & Ht & Hm) Hi. unfold answer_lines, session_lines in *. cbn [app] in *. rewrite text_cons in *.
  apply run_first; [done | done | | done]. clear Hi. do 3 (apply emits_line; [done | done | done |]).
  rewrite text_cons, <- !(app_assoc (lit "a=group:BUNDLE")), <- (app_assoc (concat _)).
  apply emits_then; [by apply emits_append |].
  apply emits_then.
  { rewrite <- (zdrop_0 (sections cfg)). by apply emits_bundle_loop; [.. | lia]. }
  apply emits_then; [by apply emits_append |].
  do 2 (apply emits_line; [done | done | done |]). rewrite <- !app_assoc.
  do 2 (apply emits_attr_then; [done | done |]).
  apply emits_opt.
  { intros [Ha Hb]%andb_prop. apply emits_str; [by apply present_str |]. apply emits_line_str; [done | done | by apply present_str |].
    by rewrite <- !app_assoc. }
  apply emits_attr_then; [done | done |].
  rewrite <- (zdrop_0 (sections cfg)). by apply emits_section_loop; [.. | lia].
Qed.

(** The answer generator writes within the buffer whatever its size, and what it writes is the
    answer, line by line: the whole text and its terminator when they fit, with the length, and
    otherwise the text cut at the last octet and the code for it, the length cell untouched.
    Nothing past the capacity is written. *)
Theorem answer_text_exact cfg buf cap n :
  0 <= cap <= zlen buf -> is_u32 cap -> well_formed cfg -> zlen (text (answer_lines cfg)) <= int_max ->
  let t := text (answer_lines cfg) in
  ngx_rtc_sdp_generate_answer (Ref cfg) (Ref buf) cap (Ref n) =
    Ret (if zlen t <? cap then (NGX_RTC_OK, Ref (t ++ 0 :: zdrop (zlen t + 1) buf), Ref (zlen t))
         else if cap =? 0 then (NGX_RTC_ERR_TOO_SMALL, Ref buf, Ref n)
         else (NGX_RTC_ERR_TOO_SMALL, Ref (ztake (cap - 1) t ++ 0 :: zdrop cap buf), Ref n)).
Proof.
  intros Hc Hc32 Hw Hi t. unfold ngx_rtc_sdp_generate_answer. pose proof (zlen_nonneg t).
  destruct (Z.eqb_spec cap 0) as [-> | Hne]; [by destruct (Z.ltb_spec (zlen t) 0); [lia |] |].
  rewrite write_answer_eq by (done || lia). rewrite bind_Ret. fold t. unfold written.
  by destruct (zlen t <? cap).
Qed.

(** ** Reading the answer back *)

(** A value the parser keeps whole on a line of its own. *)
Definition plain (n : Z) (s : octets) : Prop := zlen s < n /\ (0 ∉ s) /\ Forall (fun c => Sdp.not_eol c = true) s.

(** A value that is one word. *)
Definition token (s : octets) : Prop := s <> [] /\ Forall (fun c => Sdp.not_ws c = true) s.

(** A value a scan for the first octet after blanks does not shorten. *)
Definition unindented (s : octets) : Prop := match s with [] => True | c :: _ => Sdp.is_ws c = false end.

Definition track_ok (t : track) : Prop :=
  (plain Sdp.NGX_RTC_SDP_MID_LEN (t_mid t) /\ 0 <= t_pt t <= 127) /\
  (is_u32 (t_ssrc t) /\ is_u32 (t_clock t) /\ is_u32 (t_channels t)) /\
  (0 <= t_ext t <= 14 /\ plain Sdp.NGX_RTC_SDP_TWCC_URI_LEN (str (t_uri t)) /\
   Forall (fun c => Sdp.not_ws c = true) (str (t_uri t)) /\
   (t_ext t <> 0 -> Sdp.mentions_twcc (str (t_uri t)) = true)) /\
  (plain Sdp.NGX_RTC_SDP_FMTP_LEN (str (t_fmtp t)) /\ unindented (str (t_fmtp t))).

Definition section_ok (cfg : ngx_rtc_sdp_answer_t) (m : octets * octets) : Prop :=
  plain Sdp.NGX_RTC_SDP_STR_LEN m.1 /\ token m.1 /\
  track_ok (video_track cfg m.2) /\ track_ok (audio_track cfg m.2).

(** A configuration whose values are those of SDP: single lines that fit what the parser copies
    them to, words where the grammar has words. *)
Definition readable (cfg : ngx_rtc_sdp_answer_t) : Prop :=
  well_formed cfg /\
  (plain Sdp.NGX_RTC_SDP_ICE_UFRAG_LEN (str (ice_ufrag cfg)) /\
   plain Sdp.NGX_RTC_SDP_ICE_PWD_LEN (str (ice_pwd cfg)) /\
   plain Sdp.NGX_RTC_SDP_SETUP_LEN (str (setup cfg))) /\
  (plain Sdp.NGX_RTC_SDP_FP_ALGO_LEN (str (fingerprint_algo cfg)) /\ token (str (fingerprint_algo cfg)) /\
   plain Sdp.NGX_RTC_SDP_FP_LEN (str (fingerprint cfg)) /\ token (str (fingerprint cfg))) /\
  (plain int_max (str (proto cfg)) /\ token (str (proto cfg)) /\ plain int_max (str (candidate_ip cfg)) /\
   is_u32 (candidate_port cfg)) /\
  n_media cfg <= Sdp.NGX_RTC_SDP_MAX_MEDIA /\ Forall (section_ok cfg) (sections cfg).

(** What a track reads as. *)
Definition track_media (t : track) : Sdp.ngx_rtc_sdp_media_t :=
  {| Sdp.type := t_type t; Sdp.mid := t_mid t; Sdp.ssrc := t_ssrc t;
     Sdp.twcc_ext := t_ext t; Sdp.twcc_uri := if t_ext t =? 0 then [] else str (t_uri t);
     Sdp.pts := [{| Sdp.pt := t_pt t; Sdp.encoding := t_encoding t; Sdp.clock_rate := t_clock t;
                        Sdp.channels := t_channels t; Sdp.fmtp := str (t_fmtp t) |}] |}.

Definition section_media (cfg : ngx_rtc_sdp_answer_t) (m : octets * octets) : Sdp.ngx_rtc_sdp_media_t :=
  if is_video m.1 then track_media (video_track cfg m.2)
  else if is_audio m.1 then track_media (audio_track cfg m.2)
  else Sdp.set_type m.1 Sdp.zero_media.

Definition session_of (cfg : ngx_rtc_sdp_answer_t) : Sdp.ngx_rtc_sdp_session_t :=
  {| Sdp.ice_ufrag := str (ice_ufrag cfg); Sdp.ice_pwd := str (ice_pwd cfg);
     Sdp.fingerprint_algo := str (fingerprint_algo cfg); Sdp.fingerprint := str (fingerprint cfg);
     Sdp.setup := str (setup cfg) |}.

Definition track_codec (t : track) : Sdp.codec :=
  {| Sdp.c_pt := t_pt t; Sdp.c_ssrc := t_ssrc t; Sdp.c_encoding := t_encoding t;
     Sdp.c_clock_rate := t_clock t; Sdp.c_channels := t_channels t; Sdp.c_fmtp := str (t_fmtp t);
     Sdp.c_twcc_ext := t_ext t; Sdp.c_twcc_uri := if t_ext t =? 0 then [] else str (t_uri t) |}.

(** The offer the answer reads as: the session as configured, a codec for each medium with a
    section, and the media descriptions in order, the refused ones without a mid. *)
Definition offer_of (cfg : ngx_rtc_sdp_answer_t) : Sdp.ngx_rtc_sdp_offer_t :=
  let ms := sections cfg in
  {| Sdp.o_session := session_of cfg;
     Sdp.o_video := if existsb (fun m => is_video m.1) ms then track_codec (video_track cfg []) else Sdp.zero_codec;
     Sdp.o_audio := if existsb (fun m => is_audio m.1) ms then track_codec (audio_track cfg []) else Sdp.zero_codec;
     Sdp.media_type := fst <$> ms;
     Sdp.media_mid := (fun m => if is_video m.1 || is_audio m.1 then m.2 else []) <$> ms |}.

(** *** Lines of the text *)

Definition clean (l : octets) : Prop := Forall (fun c => Sdp.not_eol c = true) l.

Lemma lines_of_text fuel : forall ls,
  Forall clean ls -> zlen (text ls) <= Z.of_nat fuel -> Sdp.lines_of fuel (text ls) = ls.
Proof.
  induction fuel as [| fuel IH]; intros ls Hls Hf; destruct ls as [| l ls]; try done.
  { rewrite text_cons, !zlen_app in Hf. pose proof (zlen_nonneg l). pose proof (zlen_nonneg (text ls)).
    change (zlen crlf) with 2 in Hf. lia. }
  apply Forall_cons in Hls as [Hl Hls]. rewrite text_cons in *. rewrite <- app_assoc.
  assert (Hp := prefix_app Sdp.not_eol l (crlf ++ text ls) Hl eq_refl).
  assert (E : forall r, Sdp.lines_of (S fuel) (l ++ crlf ++ r) =
    prefix_of Sdp.not_eol (l ++ crlf ++ r) :: Sdp.lines_of fuel (Sdp.after_eol (suffix_of Sdp.not_eol (l ++ crlf ++ r)))).
  { intros r. by destruct l. }
  rewrite E. destruct Hp as [-> ->]. change (Sdp.after_eol (crlf ++ text ls)) with (text ls). rewrite IH; [done | done |].
  rewrite !zlen_app in Hf. pose proof (zlen_nonneg l). change (zlen crlf) with 2 in Hf. lia.
Qed.

Lemma lines_text ls : Forall clean ls -> Sdp.lines (text ls) = ls.
Proof. intros Hls. apply lines_of_text; [done | unfold zlen; lia]. Qed.

Lemma parse_app a b st : Sdp.parse_lines (a ++ b) st = (Sdp.parse_lines a st ≫= Sdp.parse_lines b).
Proof.
  revert st. induction a as [| l a IH]; intros st; [done |]. cbn [app Sdp.parse_lines].
  destruct (Sdp.line_of st l) as [st' | rc]; [apply IH | done].
Qed.

Lemma parse_cons l ls st st' :
  Sdp.line_of st l = Ok st' -> Sdp.parse_lines (l :: ls) st = Sdp.parse_lines ls st'.
Proof. intros H. cbn [Sdp.parse_lines]. by rewrite H. Qed.

Lemma parse_opt (b : bool) l ls st st' :
  (b = true -> Sdp.line_of st l = Ok st') -> (b = false -> st = st') ->
  Sdp.parse_lines (opt b l ++ ls) st = Sdp.parse_lines ls st'.
Proof. destruct b; intros Ht Hf; [by apply parse_cons, Ht | by rewrite Hf]. Qed.

(** The media description attributes go to. *)
Definition current (st : Sdp.ngx_rtc_sdp_parser_t) : ptr Z :=
  if Sdp.in_media st =? 0 then NULL else Ref (zlen (Sdp.media st) - 1).

Definition no_colon (l : octets) : bool := forallb (Sdp.not_char 58) l.

Lemma no_colon_all l : no_colon l = true -> Forall (fun c => Sdp.not_char 58 c = true) l.
Proof. intros H. apply Forall_forall. intros x Hx. apply (proj1 (forallb_forall _ _) H). by apply list_elem_of_In. Qed.

Lemma attr_line st name v :
  no_colon name = true ->
  Sdp.line_of st (lit "a=" ++ name ++ lit ":" ++ v) = Sdp.attr_of st name v (current st).
Proof.
  intros Hn. change (lit "a=" ++ name ++ lit ":" ++ v) with (97 :: 61 :: name ++ 58 :: v). cbn [Sdp.line_of negb Z.eqb Pos.eqb].
  destruct (prefix_app (Sdp.not_char 58) name (58 :: v) (no_colon_all _ Hn) eq_refl) as [-> ->]. done.
Qed.

Lemma flag_line st name :
  no_colon name = true -> Sdp.line_of st (lit "a=" ++ name) = Sdp.attr_of st name [] (current st).
Proof.
  intros Hn. change (lit "a=" ++ name) with (97 :: 61 :: name). cbn [Sdp.line_of negb Z.eqb Pos.eqb].
  destruct (prefix_app (Sdp.not_char 58) name [] (no_colon_all _ Hn) I) as [H1 H2].
  rewrite app_nil_r in H1, H2. by rewrite H1, H2.
Qed.

(** Decides which attribute a literal name is. *)
Ltac names :=
  unfold Sdp.attr_of;
  repeat match goal with
    |- context [Sdp.ngx_rtc_sdp_name_eq ?a ?b] =>
      let r := eval vm_compute in (Sdp.ngx_rtc_sdp_name_eq a b) in change (Sdp.ngx_rtc_sdp_name_eq a b) with r
  end; cbv iota beta zeta.

Definition known : list octets :=
  [lit "ice-ufrag"; lit "ice-pwd"; lit "setup"; lit "fingerprint"; lit "mid"; lit "rtpmap"; lit "ssrc"; lit "fmtp";
   lit "extmap"].

Lemma attr_unknown st name v k : bool_decide (name ∈ known) = false -> Sdp.attr_of st name v k = Ok st.
Proof.
  intros H. apply bool_decide_eq_false_1 in H. unfold Sdp.attr_of, Sdp.ngx_rtc_sdp_name_eq.
  rewrite !bool_decide_eq_false_2 by (intros ->; apply H; unfold known; rewrite !elem_of_cons; tauto). by destruct k.
Qed.

(** *** Values *)

Lemma copy_plain n s : plain n s -> Sdp.copy n s = Ok s.
Proof.
  intros (Hl & H0 & _). unfold Sdp.copy. destruct (Z.leb_spec n (zlen s)); [lia |]. by rewrite c_string_id.
Qed.

Lemma all_prefix p a b :
  Forall (fun c => p c = true) a -> prefix_of p (a ++ b) = a ++ prefix_of p b /\ suffix_of p (a ++ b) = suffix_of p b.
Proof.
  intros Ha. induction Ha as [| c a Hc _ [IH1 IH2]]; [done |]. cbn. rewrite Hc. by rewrite IH1, IH2.
Qed.

(** A word up to a blank or the end. *)
Lemma word_token t r :
  token t -> match r with [] => True | c :: _ => Sdp.not_ws c = false end -> Sdp.word (t ++ r) = Ok (t, r).
Proof.
  intros [Hne Ht] Hr. unfold Sdp.word.
  assert (Hs : suffix_of Sdp.is_ws (t ++ r) = t ++ r).
  { destruct t as [| c t]; [done |]. apply Forall_cons in Ht as [Hc _]. cbn. unfold Sdp.not_ws in Hc.
    by rewrite (proj1 (negb_true_iff _) Hc). }
  rewrite Hs. destruct (prefix_app Sdp.not_ws t r Ht Hr) as [H1 H2]. destruct t as [| c t]; [done |].
  cbn [app] in *. by rewrite H1, H2.
Qed.

Lemma word_blank r : Sdp.word (32 :: r) = Sdp.word r.
Proof. done. Qed.

Lemma decimal_token n : is_u32 n -> token (decimal n).
Proof.
  intros Hn. apply decimal_spec in Hn as (Hd & Hne & _). split; [done |]. eapply Forall_impl; [exact Hd |].
  intros c Hc. unfold is_digit, Sdp.not_ws, Sdp.is_ws in *. lia.
Qed.

(** A number up to what is no digit. *)
Lemma num_decimal n r :
  is_u32 n -> match r with [] => True | c :: _ => is_digit c = false end -> Sdp.num (decimal n ++ r) = Ok n.
Proof.
  intros Hn Hr. destruct (decimal_spec n Hn) as (Hd & Hne & Hv). unfold Sdp.num.
  destruct (prefix_app is_digit (decimal n) r Hd Hr) as [-> _]. rewrite Hv, bool_decide_eq_false_2 by done.
  unfold is_u32 in Hn. destruct (Z.ltb_spec 4294967295 n); [lia | done].
Qed.

(** *** A section read line by line *)

(** The parser inside the last of its media descriptions. *)
Definition opened (s : Sdp.ngx_rtc_sdp_session_t) (ms : list Sdp.ngx_rtc_sdp_media_t) (m : Sdp.ngx_rtc_sdp_media_t)
    : Sdp.ngx_rtc_sdp_parser_t :=
  {| Sdp.session := s; Sdp.media := ms ++ [m]; Sdp.in_media := 1 |}.

Lemma current_opened s ms m : current (opened s ms m) = Ref (zlen ms).
Proof. unfold current, opened. cbn. rewrite zlen_app, zlen_cons, zlen_nil. f_equal. lia. Qed.

Lemma at_opened s ms m f m' :
  f m = Ok m' -> Sdp.at_media (opened s ms m) (zlen ms) f = Ok (opened s ms m').
Proof.
  intros Hf. unfold Sdp.at_media, opened, zlen. cbn. rewrite Nat2Z.id, lookup_app_r, Nat.sub_diag by done. cbn.
  rewrite Hf. cbn. unfold Sdp.set_media, Sdp.parser_eta. cbn. by rewrite insert_app_r_alt, Nat.sub_diag by done.
Qed.

(** An attribute line inside a section, of the kind [f] applies. *)
Lemma opened_line s ms m name v f m' :
  no_colon name = true ->
  (forall st k, Sdp.attr_of st name v (Ref k) = Sdp.at_media st k f) -> f m = Ok m' ->
  Sdp.line_of (opened s ms m) (lit "a=" ++ name ++ lit ":" ++ v) = Ok (opened s ms m').
Proof. intros Hn Hf Hm. rewrite attr_line by done. rewrite current_opened, Hf. by apply at_opened. Qed.

Lemma ignored_line st name v :
  no_colon name = true -> bool_decide (name ∈ known) = false ->
  Sdp.line_of st (lit "a=" ++ name ++ lit ":" ++ v) = Ok st.
Proof. intros Hn Hk. rewrite attr_line by done. by apply attr_unknown. Qed.

Lemma ignored_flag st name :
  no_colon name = true -> bool_decide (name ∈ known) = false -> Sdp.line_of st (lit "a=" ++ name) = Ok st.
Proof. intros Hn Hk. rewrite flag_line by done. by apply attr_unknown. Qed.

Lemma fmts_one m n :
  0 <= n <= 127 -> zlen (Sdp.pts m) = 0 ->
  forall fuel, Sdp.fmts_of (S fuel) (32 :: decimal n) m = Ok (Sdp.set_pts [Sdp.new_pt n] m).
Proof.
  intros Hn Hm fuel. assert (Hu : is_u32 n) by (unfold is_u32; lia). cbn [Sdp.fmts_of]. rewrite word_blank.
  rewrite <- (app_nil_r (decimal n)), word_token by (done || by apply decimal_token).
  rewrite <- (app_nil_r (decimal n)), num_decimal by done.
  destruct (Z.ltb_spec 127 n); [lia |]. rewrite Hm. cbn. destruct (Sdp.pts m) as [| x l] eqn:E.
  - by destruct fuel.
  - rewrite zlen_cons in Hm. pose proof (zlen_nonneg l). lia.
Qed.

(** The head of a media line: the type, and whatever follows the protocol. *)
Lemma media_head st t port p r :
  zlen (Sdp.media st) < Sdp.NGX_RTC_SDP_MAX_MEDIA -> plain Sdp.NGX_RTC_SDP_STR_LEN t -> token t ->
  token port -> token p -> match r with [] => True | c :: _ => Sdp.not_ws c = false end ->
  Sdp.media_of st (t ++ 32 :: port ++ 32 :: p ++ r) =
    (m ← Sdp.fmts_of (length (t ++ 32 :: port ++ 32 :: p ++ r)) r (Sdp.set_type t Sdp.zero_media);
     Ok (opened (Sdp.session st) (Sdp.media st) m)).
Proof.
  intros Hm Hc Ht Hport Hp Hr. unfold Sdp.media_of. set (n := length _). clearbody n.
  destruct (Z.leb_spec Sdp.NGX_RTC_SDP_MAX_MEDIA (zlen (Sdp.media st))); [lia |].
  rewrite word_token by done. cbn [mbind result_bind]. rewrite (copy_plain _ _ Hc). cbn [mbind result_bind].
  rewrite word_blank, word_token by done. cbn [mbind result_bind]. rewrite word_blank, word_token by done. done.
Qed.

Lemma track_head st t p n :
  zlen (Sdp.media st) < Sdp.NGX_RTC_SDP_MAX_MEDIA -> plain Sdp.NGX_RTC_SDP_STR_LEN t -> token t -> token p ->
  0 <= n <= 127 ->
  Sdp.line_of st (lit "m=" ++ t ++ lit " 9 " ++ p ++ lit " " ++ decimal n) =
    Ok (opened (Sdp.session st) (Sdp.media st) (Sdp.set_pts [Sdp.new_pt n] (Sdp.set_type t Sdp.zero_media))).
Proof.
  intros Hm Hc Ht Hp Hn.
  change (lit "m=" ++ t ++ lit " 9 " ++ p ++ lit " " ++ decimal n)
    with (109 :: 61 :: t ++ 32 :: [57] ++ 32 :: p ++ 32 :: decimal n).
  cbn [Sdp.line_of negb Z.eqb Pos.eqb]. rewrite media_head by (done || by split; [| repeat constructor]).
  destruct (length _) as [| k] eqn:E; [destruct t; cbn in E; lia |]. by rewrite fmts_one.
Qed.

Lemma rejected_head st t p :
  zlen (Sdp.media st) < Sdp.NGX_RTC_SDP_MAX_MEDIA -> plain Sdp.NGX_RTC_SDP_STR_LEN t -> token t -> token p ->
  Sdp.line_of st (lit "m=" ++ t ++ lit " 0 " ++ p) =
    Ok (opened (Sdp.session st) (Sdp.media st) (Sdp.set_type t Sdp.zero_media)).
Proof.
  intros Hm Hc Ht Hp. rewrite <- (app_nil_r p).
  change (lit "m=" ++ t ++ lit " 0 " ++ p ++ []) with (109 :: 61 :: t ++ 32 :: [48] ++ 32 :: p ++ []).
  cbn [Sdp.line_of negb Z.eqb Pos.eqb]. rewrite media_head by (done || by split; [| repeat constructor]).
  by destruct (length _).
Qed.

(** The entry of the payload type a section has. *)
Lemma entry_one m p n r :
  Sdp.pts m = [p] -> Sdp.pt p = n -> 0 <= n <= 127 -> unindented r ->
  Sdp.entry_of m (decimal n ++ 32 :: r) = Ok (0, p, r).
Proof.
  intros Hm Hp Hn Hr. assert (Hu : is_u32 n) by (unfold is_u32; lia). unfold Sdp.entry_of.
  rewrite word_token by (done || by apply decimal_token). cbn [mbind result_bind].
  rewrite <- (app_nil_r (decimal n)), num_decimal by done. cbn [mbind result_bind].
  destruct (Z.ltb_spec 127 n); [lia |]. unfold Sdp.ngx_rtc_sdp_find_pt. rewrite Hm. cbn [Sdp.find_pt_loop].
  rewrite Hp, Z.eqb_refl. cbn. destruct r as [| c r]; [done |]. cbn in Hr |- *. by rewrite Hr.
Qed.

Lemma all_prefix_nil p a : Forall (fun c => p c = true) a -> prefix_of p a = a /\ suffix_of p a = [].
Proof. intros Ha. destruct (prefix_app p a [] Ha I) as [H1 H2]. by rewrite app_nil_r in H1, H2. Qed.

Lemma decimal_no_slash n : is_u32 n -> Forall (fun c => Sdp.not_char 47 c = true) (decimal n).
Proof.
  intros Hn. apply decimal_spec in Hn as (Hd & _ & _). eapply Forall_impl; [exact Hd |].
  intros c Hc. unfold is_digit, Sdp.not_char in *. lia.
Qed.

Lemma ext_id_number ds : Sdp.ext_id ds = u32 (number ds).
Proof.
  unfold Sdp.ext_id, number. change 0 with (u32 0) at 1. generalize 0.
  induction ds as [| c ds IH]; intros a; [done |]. cbn [fold_left]. rewrite <- IH. f_equal.
  unfold u32. rewrite (Z.add_mod (a mod _ * 10)), (Z.add_mod (a * 10)), Z.mul_mod_idemp_l by done. done.
Qed.

(** An encoding name as the two tracks have. *)
Definition encoding_ok (e : octets) : Prop :=
  plain Sdp.NGX_RTC_SDP_STR_LEN e /\ unindented e /\ Forall (fun c => Sdp.not_char 47 c = true) e /\ e <> [].

Lemma rtpmap_line s ms m p n e clock ch :
  Sdp.pts m = [p] -> Sdp.pt p = n -> 0 <= n <= 127 -> encoding_ok e -> is_u32 clock -> is_u32 ch ->
  Sdp.channels p = 0 ->
  Sdp.line_of (opened s ms m)
      (lit "a=rtpmap:" ++ decimal n ++ lit " " ++ e ++ lit "/" ++ decimal clock
       ++ (if negb (ch =? 0) then lit "/" ++ decimal ch else [])) =
    Ok (opened s ms (Sdp.set_pts [p |> Sdp.set_encoding e |> Sdp.set_clock_rate clock |> Sdp.set_channels ch] m)).
Proof.
  intros Hm Hp Hn (He & Hu & Hs & Hne) Hc Hch H0.
  set (tail_ := if negb (ch =? 0) then lit "/" ++ decimal ch else []).
  change (lit "a=rtpmap:" ++ decimal n ++ lit " " ++ e ++ lit "/" ++ decimal clock ++ tail_)
    with (lit "a=" ++ lit "rtpmap" ++ lit ":" ++ (decimal n ++ 32 :: (e ++ 47 :: decimal clock ++ tail_))).
  apply (opened_line _ _ _ _ _ (fun m => Sdp.rtpmap_of m (decimal n ++ 32 :: (e ++ 47 :: decimal clock ++ tail_))));
    [done | intros; by names |].
  unfold Sdp.rtpmap_of. rewrite (entry_one m p) by (done || by destruct e). cbn [mbind result_bind].
  destruct (prefix_app (Sdp.not_char 47) e (47 :: decimal clock ++ tail_) Hs eq_refl) as [-> ->].
  rewrite (copy_plain _ _ He). cbn [mbind result_bind tail].
  assert (Ht : match tail_ with [] => True | c :: _ => Sdp.not_char 47 c = false end) by (unfold tail_; by destruct (ch =? 0)).
  destruct (prefix_app (Sdp.not_char 47) (decimal clock) tail_ (decimal_no_slash _ Hc) Ht) as [-> ->].
  rewrite <- (app_nil_r (decimal clock)), num_decimal by done. cbn [mbind result_bind].
  assert (Hw : forall q, Sdp.with_pt 0 q m = Sdp.set_pts [q] m) by (intros q; unfold Sdp.with_pt; by rewrite Hm).
  unfold tail_. destruct (Z.eqb_spec ch 0) as [-> | Hz]; cbn [negb lit tail app].
  - rewrite Hw. unfold Sdp.set_channels at 1, Sdp.set_clock_rate, Sdp.set_encoding, Sdp.pt_eta. cbn. by rewrite H0.
  - change (tail (lit "/" ++ decimal ch)) with (decimal ch).
    destruct (decimal ch) as [| x l] eqn:E; [by destruct (decimal_spec ch Hch) as (_ & [] & _) |]. rewrite <- E.
    rewrite <- (app_nil_r (decimal ch)), num_decimal by done. cbn [mbind result_bind]. by rewrite Hw.
Qed.

Lemma fmtp_line s ms m p n f :
  Sdp.pts m = [p] -> Sdp.pt p = n -> 0 <= n <= 127 -> plain Sdp.NGX_RTC_SDP_FMTP_LEN f -> unindented f ->
  Sdp.line_of (opened s ms m) (lit "a=fmtp:" ++ decimal n ++ lit " " ++ f) =
    Ok (opened s ms (Sdp.set_pts [Sdp.set_fmtp f p] m)).
Proof.
  intros Hm Hp Hn Hf Hu.
  change (lit "a=fmtp:" ++ decimal n ++ lit " " ++ f) with (lit "a=" ++ lit "fmtp" ++ lit ":" ++ (decimal n ++ 32 :: f)).
  apply (opened_line _ _ _ _ _ (fun m => Sdp.fmtp_of m (decimal n ++ 32 :: f))); [done | intros; by names |].
  unfold Sdp.fmtp_of. rewrite (entry_one m p) by done. cbn [mbind result_bind].
  rewrite (copy_plain _ _ Hf). cbn [mbind result_bind]. unfold Sdp.with_pt. by rewrite Hm.
Qed.

Lemma ssrc_line s ms m n r :
  is_u32 n ->
  Sdp.line_of (opened s ms m) (lit "a=ssrc:" ++ decimal n ++ lit " cname:" ++ r) = Ok (opened s ms (Sdp.set_ssrc n m)).
Proof.
  intros Hn.
  change (lit "a=ssrc:" ++ decimal n ++ lit " cname:" ++ r) with (lit "a=" ++ lit "ssrc" ++ lit ":" ++ (decimal n ++ lit " cname:" ++ r)).
  apply (opened_line _ _ _ _ _ (fun m => Sdp.ssrc_of m (decimal n ++ lit " cname:" ++ r))); [done | intros; by names |].
  unfold Sdp.ssrc_of. rewrite word_token by (done || by apply decimal_token). cbn [mbind result_bind].
  by rewrite <- (app_nil_r (decimal n)), num_decimal.
Qed.

Lemma mid_line s ms m v :
  plain Sdp.NGX_RTC_SDP_MID_LEN v ->
  Sdp.line_of (opened s ms m) (lit "a=mid:" ++ v) = Ok (opened s ms (Sdp.set_mid v m)).
Proof.
  intros Hv. change (lit "a=mid:" ++ v) with (lit "a=" ++ lit "mid" ++ lit ":" ++ v).
  apply (opened_line _ _ _ _ _ (fun m => x ← Sdp.copy Sdp.NGX_RTC_SDP_MID_LEN v; Ok (Sdp.set_mid x m)));
    [done | intros; by names |]. by rewrite (copy_plain _ _ Hv).
Qed.

Lemma extmap_line s ms m id u :
  0 < id <= 14 -> plain Sdp.NGX_RTC_SDP_TWCC_URI_LEN u -> Forall (fun c => Sdp.not_ws c = true) u ->
  Sdp.mentions_twcc u = true ->
  Sdp.line_of (opened s ms m) (lit "a=extmap:" ++ decimal id ++ lit " " ++ u) =
    Ok (opened s ms (m |> Sdp.set_twcc_uri u |> Sdp.set_twcc_ext id)).
Proof.
  intros Hid (Hl & H0 & Hc) Hw Hm.
  change (lit "a=extmap:" ++ decimal id ++ lit " " ++ u) with (lit "a=" ++ lit "extmap" ++ lit ":" ++ (decimal id ++ 32 :: u)).
  apply (opened_line _ _ _ _ _ (fun m => Ok (Sdp.extmap_of m (decimal id ++ 32 :: u)))); [done | intros; by names |].
  f_equal. unfold Sdp.extmap_of. assert (Hu : is_u32 id) by (unfold is_u32; lia).
  destruct (decimal_spec id Hu) as (Hd & Hne & Hv).
  assert (Hs : suffix_of Sdp.is_ws (decimal id ++ 32 :: u) = decimal id ++ 32 :: u).
  { destruct (decimal id) as [| c l]; [done |]. apply Forall_cons in Hd as [Hd _]. cbn.
    by replace (Sdp.is_ws c) with false by (unfold is_digit, Sdp.is_ws in *; lia). }
  rewrite Hs. destruct (prefix_app is_digit (decimal id) (32 :: u) Hd eq_refl) as [-> ->].
  rewrite ext_id_number, Hv, u32_small by done.
  destruct u as [| c u]; [done |]. assert (Hcw : Sdp.is_ws c = false).
  { apply Forall_cons in Hw as [Hw _]. unfold Sdp.not_ws in Hw. by apply negb_true_iff. }
  cbn [suffix_of]. change (Sdp.is_ws 32) with true. cbv iota. rewrite Hcw.
  destruct (all_prefix_nil Sdp.is_uri (c :: u)) as [-> _].
  { apply Forall_forall. intros x Hx. apply (proj1 (Forall_forall _ _) Hc) in Hx as Hx1.
    apply (proj1 (Forall_forall _ _) Hw) in Hx. unfold Sdp.not_ws, Sdp.not_eol, Sdp.is_uri in *.
    destruct (Sdp.is_ws x); [done |]. cbn. lia. }
  rewrite Hm, c_string_id by done. unfold Sdp.NGX_RTC_SDP_TWCC_URI_LEN in *.
  replace (negb (id =? 0) && true && (id <=? 14) && (zlen (c :: u) <? 96)) with true by lia. done.
Qed.

(** *** A whole section *)

Lemma absent_str p : present p = false -> str p = [].
Proof. by destruct p as [| [| c s]]. Qed.

(** The lines between the extension and the codec say nothing to the parser. *)
Lemma transport_lines cfg st ls :
  Sdp.parse_lines
    (opt (present (candidate_ip cfg))
       (lit "a=candidate:1 1 udp 2130706431 " ++ str (candidate_ip cfg) ++ lit " " ++ decimal (candidate_port cfg)
        ++ lit " typ host generation 0")
     ++ opt (negb (sendonly cfg =? 0)) (if 0 <? sendonly cfg then lit "a=sendonly" else lit "a=recvonly")
     ++ opt (negb (rtcp_mux cfg =? 0)) (lit "a=rtcp-mux")
     ++ opt (negb (rtcp_rsize cfg =? 0)) (lit "a=rtcp-rsize") ++ ls) st = Sdp.parse_lines ls st.
Proof.
  rewrite (parse_opt _ _ _ _ st); [| intros _ | done].
  2: { set (r := str _ ++ _). by apply (ignored_line st (lit "candidate") (lit "1 1 udp 2130706431 " ++ r)). }
  rewrite (parse_opt _ _ _ _ st); [| intros _ | done].
  2: { destruct (0 <? sendonly cfg); [by apply (ignored_flag st (lit "sendonly")) | by apply (ignored_flag st (lit "recvonly"))]. }
  rewrite (parse_opt _ _ _ _ st); [| intros _; by apply (ignored_flag st (lit "rtcp-mux")) | done].
  by rewrite (parse_opt _ _ _ _ st); [| intros _; by apply (ignored_flag st (lit "rtcp-rsize")) |].
Qed.

Lemma feedback_lines v st ls (b : bool) n :
  Sdp.parse_lines (opt v (lit "a=rtcp-fb:" ++ n ++ lit " nack pli") ++ opt b (lit "a=rtcp-fb:" ++ n ++ lit " nack") ++ ls) st
  = Sdp.parse_lines ls st.
Proof.
  rewrite (parse_opt _ _ _ _ st); [| intros _; by apply (ignored_line st (lit "rtcp-fb") (n ++ lit " nack pli")) | done].
  by rewrite (parse_opt _ _ _ _ st); [| intros _; by apply (ignored_line st (lit "rtcp-fb") (n ++ lit " nack")) |].
Qed.

Lemma track_parse cfg t st ls :
  zlen (Sdp.media st) < Sdp.NGX_RTC_SDP_MAX_MEDIA -> token (str (proto cfg)) ->
  plain Sdp.NGX_RTC_SDP_STR_LEN (t_type t) -> token (t_type t) -> encoding_ok (t_encoding t) -> track_ok t ->
  Sdp.parse_lines (track_lines cfg t ++ ls) st =
    Sdp.parse_lines ls (opened (Sdp.session st) (Sdp.media st) (track_media t)).
Proof.
  intros Hm Hp Hty Htok He ((Hmid & Hpt) & (Hssrc & Hclock & Hch) & (Hext & Huri & Hw & Htw) & Hf & Hu).
  unfold track_lines. cbv zeta. rewrite <- !app_assoc. cbn [app].
  set (s := Sdp.session st). set (ms := Sdp.media st).
  erewrite parse_cons by (by apply track_head). set (p0 := Sdp.new_pt (t_pt t)). fold s ms.
  erewrite parse_cons by reflexivity. erewrite parse_cons by (by apply mid_line).
  set (m1 := Sdp.set_mid _ _).
  set (m2 := if t_ext t =? 0 then m1 else m1 |> Sdp.set_twcc_uri (str (t_uri t)) |> Sdp.set_twcc_ext (t_ext t)).
  rewrite (parse_opt _ _ _ _ (opened s ms m2)); cycle 1.
  { intros [Hz _]%andb_prop. unfold m2. destruct (Z.eqb_spec (t_ext t) 0); [done |]. apply extmap_line; auto. lia. }
  { unfold m2. destruct (Z.eqb_spec (t_ext t) 0) as [| Hne]; [done |]. cbn [negb andb]. intros Hpr.
    apply Htw in Hne. by rewrite (absent_str _ Hpr) in Hne. }
  rewrite transport_lines. assert (Hpts : Sdp.pts m2 = [p0]) by (unfold m2; by destruct (t_ext t =? 0)).
  set (p1 := p0 |> Sdp.set_encoding (t_encoding t) |> Sdp.set_clock_rate (t_clock t) |> Sdp.set_channels (t_channels t)).
  erewrite parse_cons by (by apply (rtpmap_line _ _ _ p0)). fold p1. set (m3 := Sdp.set_pts [p1] m2).
  rewrite (parse_opt _ _ _ _ (opened s ms (Sdp.set_pts [Sdp.set_fmtp (str (t_fmtp t)) p1] m3))); cycle 1.
  { intros _. by apply (fmtp_line _ _ _ p1). }
  { intros ->%absent_str. done. }
  rewrite feedback_lines. erewrite parse_cons by (by apply ssrc_line). f_equal. f_equal.
  unfold m3, m2, m1, track_media. by destruct (Z.eqb_spec (t_ext t) 0) as [-> |].
Qed.

(** A closed string of the kind asked for. *)
Ltac closed := split; [| split]; [done | by (apply (bool_decide_unpack _); vm_compute) | by repeat constructor].

Lemma video_encoding : encoding_ok (lit "H264").
Proof. split; [closed | split; [done | split; [by repeat constructor | done]]]. Qed.
Lemma audio_encoding : encoding_ok (lit "opus").
Proof. split; [closed | split; [done | split; [by repeat constructor | done]]]. Qed.

Lemma section_parse cfg m st ls :
  zlen (Sdp.media st) < Sdp.NGX_RTC_SDP_MAX_MEDIA -> token (str (proto cfg)) -> section_ok cfg m ->
  Sdp.parse_lines (section_lines cfg m ++ ls) st =
    Sdp.parse_lines ls (opened (Sdp.session st) (Sdp.media st) (section_media cfg m)).
Proof.
  intros Hm Hp (Hty & Htok & Hv & Ha). unfold section_lines, section_media.
  destruct (is_video m.1).
  { apply track_parse; [done | done | closed | by split; [| repeat constructor] | apply video_encoding | done]. }
  destruct (is_audio m.1).
  { apply track_parse; [done | done | closed | by split; [| repeat constructor] | apply audio_encoding | done]. }
  cbn [app]. erewrite parse_cons by (by apply rejected_head). done.
Qed.

Lemma sections_parse cfg l : forall st,
  zlen (Sdp.media st) + zlen l <= Sdp.NGX_RTC_SDP_MAX_MEDIA -> token (str (proto cfg)) -> Forall (section_ok cfg) l ->
  Sdp.parse_lines (concat (section_lines cfg <$> l)) st =
    Ok {| Sdp.session := Sdp.session st; Sdp.media := Sdp.media st ++ (section_media cfg <$> l);
          Sdp.in_media := if zlen l =? 0 then Sdp.in_media st else 1 |}.
Proof.
  induction l as [| m l IH]; intros st Hl Hp Hok.
  - cbn. rewrite app_nil_r. by destruct st.
  - apply Forall_cons in Hok as [Hm Hok]. rewrite zlen_cons in *. pose proof (zlen_nonneg l).
    cbn [fmap list_fmap concat]. rewrite section_parse by (done || lia). rewrite IH; [| | done | done].
    + cbn. rewrite <- app_assoc. do 2 f_equal. destruct (Z.eqb_spec (zlen l) 0), (Z.eqb_spec (1 + zlen l) 0); lia || done.
    + cbn. rewrite zlen_app, zlen_cons, zlen_nil. lia.
Qed.

(** *** The session *)

(** An attribute the parser keeps when it is there. *)
Lemma session_attr st name v n get set_ :
  no_colon name = true -> plain n (str v) -> get (Sdp.session st) = [] ->
  (forall x k, Sdp.attr_of st name x k = (y ← Sdp.copy_if_empty (get (Sdp.session st)) n x; Ok (Sdp.set_session (set_ y (Sdp.session st)) st))) ->
  (set_ [] (Sdp.session st) = Sdp.session st) ->
  forall ls, Sdp.parse_lines (attr_lines name v ++ ls) st =
    Sdp.parse_lines ls (Sdp.set_session (set_ (str v) (Sdp.session st)) st).
Proof.
  intros Hn Hv Hg Ha Hs ls. unfold attr_lines. apply parse_opt.
  - intros _. rewrite attr_line by done. rewrite Ha, Hg. cbn [Sdp.copy_if_empty]. by rewrite (copy_plain _ _ Hv).
  - intros ->%absent_str. rewrite Hs. by destruct st.
Qed.

Lemma fingerprint_parse cfg st ls :
  plain Sdp.NGX_RTC_SDP_FP_ALGO_LEN (str (fingerprint_algo cfg)) -> token (str (fingerprint_algo cfg)) ->
  plain Sdp.NGX_RTC_SDP_FP_LEN (str (fingerprint cfg)) -> token (str (fingerprint cfg)) ->
  Sdp.fingerprint_algo (Sdp.session st) = [] ->
  Sdp.parse_lines
    (opt (present (fingerprint_algo cfg) && present (fingerprint cfg))
       (lit "a=fingerprint:" ++ str (fingerprint_algo cfg) ++ lit " " ++ str (fingerprint cfg)) ++ ls) st =
  Sdp.parse_lines ls
    (Sdp.set_session (Sdp.session st |> Sdp.set_fingerprint_algo (str (fingerprint_algo cfg))
                      |> Sdp.set_fingerprint (str (fingerprint cfg))) st).
Proof.
  intros Ha Hat Hf Hft H0. apply parse_opt.
  - intros _. etrans; [by apply (attr_line st (lit "fingerprint") (str (fingerprint_algo cfg) ++ lit " " ++ str (fingerprint cfg))) |].
    names. unfold Sdp.fingerprint_of. change (lit " ") with [32]. rewrite word_token by done. cbn [mbind result_bind app].
    rewrite H0, (copy_plain _ _ Ha). cbn [mbind result_bind].
    assert (Hu : suffix_of Sdp.is_ws (32 :: str (fingerprint cfg)) = str (fingerprint cfg)).
    { destruct Hft as [Hne Hft]. destruct (str (fingerprint cfg)) as [| c l]; [done |]. apply Forall_cons in Hft as [Hc _].
      unfold Sdp.not_ws in Hc. apply negb_true_iff in Hc. cbn. by rewrite Hc. }
    rewrite Hu, (copy_plain _ _ Hf). done.
  - intros Hz. destruct Hat as [Ha1 _], Hft as [Hf1 _].
    destruct (fingerprint_algo cfg) as [| [| ? ?]], (fingerprint cfg) as [| [| ? ?]]; done.
Qed.

Lemma session_parse cfg ls :
  readable cfg ->
  Sdp.parse_lines (session_lines cfg ++ ls) Sdp.zero_parser =
    Sdp.parse_lines ls {| Sdp.session := session_of cfg; Sdp.media := []; Sdp.in_media := 0 |}.
Proof.
  intros (_ & (Hu & Hw & Hs) & (Ha & Hat & Hf & Hft) & _). unfold session_lines. rewrite <- !app_assoc. cbn [app].
  do 4 (erewrite parse_cons by reflexivity). set (b := concat _). clearbody b.
  erewrite parse_cons by (by apply (ignored_line _ (lit "group") (lit "BUNDLE" ++ b))).
  do 2 (erewrite parse_cons by reflexivity).
  erewrite (session_attr _ _ _ _ Sdp.ice_ufrag Sdp.set_ice_ufrag) by (done || by intros; names).
  erewrite (session_attr _ _ _ _ Sdp.ice_pwd Sdp.set_ice_pwd) by (done || by intros; names).
  rewrite fingerprint_parse by done.
  erewrite (session_attr _ _ _ _ Sdp.setup Sdp.set_setup) by (done || by intros; names). done.
Qed.

(** *** Every line is one *)

Create HintDb clean.

Lemma clean_plain n s : plain n s -> clean s.
Proof. by intros (_ & _ & ?). Qed.

Lemma clean_decimal n : is_u32 n -> clean (decimal n).
Proof.
  intros Hn. apply decimal_spec in Hn as (Hd & _ & _). eapply Forall_impl; [exact Hd |].
  intros c Hc. unfold is_digit, Sdp.not_eol in *. lia.
Qed.

Lemma clean_app a b : clean a -> clean b -> clean (a ++ b).
Proof. intros Ha Hb. by apply Forall_app. Qed.

Lemma clean_opt b l : clean l -> Forall clean (opt b l).
Proof. destruct b; by repeat constructor. Qed.

#[local] Hint Resolve clean_plain clean_decimal : clean.

Ltac cleans :=
  repeat match goal with
    | |- clean (lit _) => by repeat constructor
    | |- clean [] => constructor
    | |- clean (_ ++ _) => apply clean_app
    | |- clean (if ?b then _ else _) => destruct b
    | |- Forall clean [] => constructor
    | |- Forall clean (_ :: _) => apply Forall_cons_2
    | |- Forall clean (opt _ _) => apply clean_opt
    | |- Forall clean (_ ++ _) => apply Forall_app_2
  end; eauto with clean.

Lemma pt_u32 n : 0 <= n <= 127 -> is_u32 n.
Proof. unfold is_u32. lia. Qed.
Lemma ext_u32 n : 0 <= n <= 14 -> is_u32 n.
Proof. unfold is_u32. lia. Qed.
#[local] Hint Resolve pt_u32 ext_u32 : clean.

Lemma track_clean cfg t :
  plain int_max (str (proto cfg)) -> plain int_max (str (candidate_ip cfg)) -> is_u32 (candidate_port cfg) ->
  clean (t_type t) -> clean (t_encoding t) -> track_ok t -> Forall clean (track_lines cfg t).
Proof.
  intros Hp Hip Hport Hty He ((Hmid & Hpt) & (Hssrc & Hclock & Hch) & (Hext & Huri & _) & Hf & _).
  unfold track_lines. cbv zeta. cleans.
Qed.

Lemma section_in cfg m : section_ok cfg m -> Forall clean [m.1; m.2].
Proof. intros (H & _ & ((Hm & _) & _) & _). cleans. Qed.

Lemma answer_clean cfg : readable cfg -> Forall clean (answer_lines cfg).
Proof.
  intros (_ & (Hu & Hw & Hs) & (Ha & _ & Hf & _) & (Hp & _ & Hip & Hport) & _ & Hok).
  apply Forall_app_2.
  - unfold session_lines, attr_lines. cleans. unfold bundled. revert Hok. generalize (sections cfg). intros l Hok.
    induction Hok as [| m l Hm _ IH]; [constructor |]. rewrite filter_cons. case_decide; [| done].
    cbn [fmap list_fmap concat]. apply section_in in Hm. inversion Hm as [| ? ? _ Hm2]. inversion Hm2. subst. cleans.
  - revert Hok. generalize (sections cfg). intros l Hok. induction Hok as [| m l Hm _ IH]; [constructor |].
    cbn [fmap list_fmap concat]. apply Forall_app_2; [| done]. destruct Hm as (Hty & _ & Hv & Hau). unfold section_lines.
    destruct (is_video m.1); [| destruct (is_audio m.1)]; [apply track_clean | apply track_clean |];
      cbn [t_type t_encoding video_track audio_track]; cleans.
Qed.

(** *** The codecs *)

Lemma streq_refl t u : Sdp.ngx_rtc_sdp_streq t u = true -> t = u.
Proof. apply bool_decide_eq_true_1. Qed.

Lemma take_track t (keep : bool) c :
  (if keep then True else Sdp.c_channels c = 0 /\ t_channels t = 0) ->
  Sdp.take_codec (track_media t) (t_encoding t) keep c = track_codec t.
Proof.
  intros Hk. unfold Sdp.take_codec, track_media. cbn [Sdp.pts Sdp.pick Sdp.encoding].
  unfold Sdp.ngx_rtc_sdp_streq_ci. rewrite bool_decide_eq_true_2 by done. unfold track_codec. cbn.
  destruct keep; [done |]. destruct Hk as [-> ->]. done.
Qed.

Lemma build_tracks cfg l : forall v a,
  Sdp.c_channels v = 0 ->
  Sdp.build_loop (section_media cfg <$> l) v a =
    (if existsb (fun m => is_video m.1) l then track_codec (video_track cfg []) else v,
     if existsb (fun m => is_audio m.1) l then track_codec (audio_track cfg []) else a).
Proof.
  induction l as [| m l IH]; intros v a Hv; [done |]. cbn [fmap list_fmap Sdp.build_loop existsb].
  destruct (is_video m.1) eqn:E1; [| destruct (is_audio m.1) eqn:E2].
  - replace (is_audio m.1) with false by (apply streq_refl in E1; rewrite E1; by vm_compute).
    replace (section_media cfg m) with (track_media (video_track cfg m.2)) by (unfold section_media; by rewrite E1).
    change (Sdp.ngx_rtc_sdp_streq (Sdp.type (track_media (video_track cfg m.2))) (lit "video")) with true. cbv iota.
    rewrite (take_track (video_track cfg m.2) false) by done. rewrite IH by done. cbn [orb].
    by destruct (existsb _ l).
  - replace (section_media cfg m) with (track_media (audio_track cfg m.2)) by (unfold section_media; by rewrite E1, E2).
    change (Sdp.ngx_rtc_sdp_streq (Sdp.type (track_media (audio_track cfg m.2))) (lit "video")) with false.
    change (Sdp.ngx_rtc_sdp_streq (Sdp.type (track_media (audio_track cfg m.2))) (lit "audio")) with true. cbv iota.
    rewrite (take_track (audio_track cfg m.2) true) by done. rewrite IH by done. cbn [orb].
    by destruct (existsb (fun m => is_audio _) l).
  - replace (section_media cfg m) with (Sdp.set_type m.1 Sdp.zero_media) by (unfold section_media; by rewrite E1, E2).
    change (Sdp.type (Sdp.set_type m.1 Sdp.zero_media)) with m.1. unfold is_video, is_audio in E1, E2. rewrite E1, E2.
    by rewrite IH.
Qed.

Lemma answer_parse_eq cfg out :
  readable cfg ->
  Sdp.ngx_rtc_sdp_parse_offer (Ref (text (answer_lines cfg))) (Ref out) = Ret (NGX_RTC_OK, Ref (offer_of cfg)).
Proof.
  intros Hr. rewrite Sdp.parse_offer_eq, lines_text by by apply answer_clean.
  unfold answer_lines. rewrite session_parse by done.
  destruct Hr as ((_ & Ht & Hm) & _ & _ & (_ & Hp & _) & Hn & Hok).
  rewrite sections_parse; [| cbn [Sdp.media]; rewrite zlen_nil, zlen_sections by done; lia | done | done]. cbn [Sdp.session Sdp.media app].
  do 3 f_equal. unfold Sdp.ngx_rtc_sdp_build_offer. cbn [Sdp.media Sdp.session]. rewrite build_tracks by done.
  unfold offer_of. f_equal; rewrite <- list_fmap_compose; apply list_fmap_ext; intros i m Hi; cbn; unfold section_media.
  - destruct (is_video m.1) eqn:E1; [by apply streq_refl in E1 | destruct (is_audio m.1) eqn:E2; [by apply streq_refl in E2 | done]].
  - by destruct (is_video m.1), (is_audio m.1).
Qed.

(** C8: the answer reads back.  Whatever is configured, as long as the values are what SDP lines
    can carry, the text the generator leaves in a buffer that holds it, read by the module's own
    parser, gives the configured session, one codec per medium answered with its number, rate,
    SSRC, parameters and transport-cc extension, and the media descriptions of the offer in the
    offer's order, with a mid for each that is answered. *)
Theorem answer_roundtrip cfg buf cap n out :
  readable cfg -> 0 <= cap <= zlen buf -> is_u32 cap -> zlen (text (answer_lines cfg)) < cap ->
  zlen (text (answer_lines cfg)) <= int_max ->
  exists b len,
    ngx_rtc_sdp_generate_answer (Ref cfg) (Ref buf) cap (Ref n) = Ret (NGX_RTC_OK, Ref b, Ref len) /\
    Sdp.ngx_rtc_sdp_parse_offer (Ref (ztake len b)) (Ref out) = Ret (NGX_RTC_OK, Ref (offer_of cfg)).
Proof.
  intros Hr Hc Hc32 Hfit Hi. pose proof (zlen_nonneg (text (answer_lines cfg))).
  unfold ngx_rtc_sdp_generate_answer. destruct (Z.eqb_spec cap 0); [lia |].
  rewrite write_answer_eq by (done || lia || by destruct Hr). rewrite bind_Ret. unfold written.
  destruct (Z.ltb_spec (zlen (text (answer_lines cfg))) cap); [| lia].
  exists (text (answer_lines cfg) ++ 0 :: zdrop (zlen (text (answer_lines cfg)) + 1) buf), (zlen (text (answer_lines cfg))).
  split; [done |]. rewrite ztake_app_length by done. by apply answer_parse_eq.
Qed.

(** A media description the server does not carry is refused with a line of three words: the
    type, port 0 and the protocol, and no format, where RFC 3264 (cited at the loop) asks for one
    at least. *)
Theorem refused_without_format cfg t mid :
  is_video t = false -> is_audio t = false -> token t -> token (str (proto cfg)) ->
  exists l r1 r2,
    section_lines cfg (t, mid) = [lit "m=" ++ l] /\
    Sdp.word l = Ok (t, r1) /\ Sdp.word r1 = Ok (lit "0", r2) /\ Sdp.word r2 = Ok (str (proto cfg), []).
Proof.
  intros Hv Ha Ht Hp. unfold section_lines. cbn [fst]. rewrite Hv, Ha.
  exists (t ++ 32 :: [48] ++ 32 :: str (proto cfg)), (32 :: [48] ++ 32 :: str (proto cfg)), (32 :: str (proto cfg)).
  split; [done |]. split; [by apply word_token |].
  split; [rewrite word_blank; by apply (word_token [48] (32 :: str (proto cfg))); [split; [| repeat constructor] |] |].
  rewrite word_blank. rewrite <- (app_nil_r (str (proto cfg))) at 1. by apply word_token.
Qed.

(** *** A configuration as the play request builds it *)

Definition demo_cfg : ngx_rtc_sdp_answer_t :=
  let c := default_answer in
  {| ice_ufrag := Ref (lit "1a2b3c4du"); ice_pwd := Ref (lit "00112233445566778899aabb");
     fingerprint_algo := Ref (lit "sha-256"); fingerprint := Ref (lit "AB:CD:EF"); setup := Ref (lit "passive");
     proto := proto c; candidate_ip := Ref (lit "192.0.2.7"); candidate_port := 8000; n_media := 3;
     media_type := [lit "audio"; lit "application"; lit "video"; []]; media_mid := [lit "0"; lit "1"; lit "2"; []];
     video_ssrc := 4000000001; audio_ssrc := 7; video_pt := 102; audio_pt := 111; video_clock_rate := 90000;
     audio_clock_rate := 48000; audio_channels := 2; video_twcc_ext := 3; audio_twcc_ext := 0;
     video_twcc_uri := Ref (lit "http://www.ietf.org/id/draft-holmer-rmcat-transport-wide-cc-extensions-01");
     audio_twcc_uri := Ref []; video_fmtp := video_fmtp c; audio_fmtp := audio_fmtp c;
     sendonly := 1; rtcp_mux := 1; rtcp_rsize := 1 |}.

Lemma demo_readable : readable demo_cfg.
Proof.
  unfold readable, well_formed. change (sections demo_cfg) with [(lit "audio", lit "0"); (lit "application", lit "1"); (lit "video", lit "2")].
  repeat match goal with
    | |- plain _ _ => closed
    | |- token _ => split; [done | by repeat constructor]
    | |- section_ok _ _ => unfold section_ok, track_ok; cbn [fst snd]
    | |- Forall (section_ok _) _ => constructor
    | |- is_u32 _ => done
    | |- _ /\ _ => split
  end; try done; by repeat constructor.
Qed.

Lemma answer_text_exact_witness :
  ngx_rtc_sdp_generate_answer (Ref demo_cfg) (Ref (zeros 64)) 64 (Ref 5) =
    Ret (NGX_RTC_ERR_TOO_SMALL, Ref (ztake 63 (text (answer_lines demo_cfg)) ++ [0]), Ref 5).
Proof.
  rewrite (answer_text_exact demo_cfg (zeros 64) 64 5); [by vm_compute | done | done | | by vm_compute].
  split; [done | split; done].
Defined.

Lemma answer_roundtrip_witness :
  exists b len,
    ngx_rtc_sdp_generate_answer (Ref demo_cfg) (Ref (zeros 4096)) 4096 (Ref 0) = Ret (NGX_RTC_OK, Ref b, Ref len) /\
    Sdp.ngx_rtc_sdp_parse_offer (Ref (ztake len b)) (Ref Sdp.zero_offer) = Ret (NGX_RTC_OK, Ref (offer_of demo_cfg)).
Proof.
  apply (answer_roundtrip demo_cfg (zeros 4096) 4096 0 Sdp.zero_offer);
    [apply demo_readable | rewrite zlen_zeros by done; done | done | by vm_compute | by vm_compute].
Defined.

Lemma refused_without_format_witness :
  exists l r1 r2,
    section_lines demo_cfg (lit "application", lit "1") = [lit "m=" ++ l] /\
    Sdp.word l = Ok (lit "application", r1) /\ Sdp.word r1 = Ok (lit "0", r2) /\
    Sdp.word r2 = Ok (str (proto demo_cfg), []).
Proof.
  apply (refused_without_format demo_cfg (lit "application") (lit "1"));
    [done | done | split; [done | by repeat constructor] | split; [done | by repeat constructor]].
Defined.

End SdpAnswer.
