(* ===== verification/HttpBody.v ===== *)
(** The request body as src/ngx_rtc_http_module.c reads it: a chain of buffers, a reader that
    walks it octet by octet, and the extraction of a JSON string field from it into the caller's
    buffer. *)

From S2P Require Import Prelude Text.
Import Text.

Module HttpBody.

(** [data] is what lies between pos and last. *)
Record ngx_buf_t := { in_file : bool; data : octets }.

(** A chain, its links in order; a link may have no buffer. *)
Definition chain := list (ptr ngx_buf_t).

(** [p] is the offset of the read position from the buffer's pos. *)
Record ngx_rtc_chain_reader_t := { cl : chain; p : ptr Z }.

(** *** The length of a body *)

(** The total length, or NULL when a buffer is in a file. *)
Fixpoint body_length (c : chain) (len : Z) : ptr Z :=
  match c with
  | [] => Ref len
  | NULL :: c => body_length c len
  | Ref b :: c => if in_file b then NULL else body_length c (len + zlen (data b))
  end.

Definition NGX_RTC_DEFAULT_MAX_SDP_LEN : Z := 65536.
Definition NGX_CONF_UNSET_SIZE : Z := 18446744073709551615.

Definition ngx_rtc_http_max_sdp (max_sdp_len client_body_buffer_size : Z) : Z :=
  let cap := if NGX_CONF_UNSET_SIZE =? max_sdp_len then NGX_RTC_DEFAULT_MAX_SDP_LEN else max_sdp_len in
  if negb (0 =? client_body_buffer_size) && (client_body_buffer_size <? cap) then client_body_buffer_size else cap.

(** *** The reader *)

Definition at_start (c : chain) : ptr Z := match c with Ref _ :: _ => Ref 0 | _ => NULL end.

Definition ngx_rtc_chain_reader_init (c : chain) : ngx_rtc_chain_reader_t := {| cl := c; p := at_start c |}.

Fixpoint get_loop (c : chain) (p : ptr Z) : outcome (ptr Z * ngx_rtc_chain_reader_t) :=
  match c with
  | [] | NULL :: _ => Ret (NULL, {| cl := c; p := p |})
  | Ref b :: next =>
      let pos := match p with NULL => 0 | Ref q => q end in
      if pos <? zlen (data b) then
        ch ← load (data b) pos; Ret (Ref ch, {| cl := c; p := Ref (pos + 1) |})
      else get_loop next (at_start next)
  end.

(** The octet, NULL for NGX_ERROR at the end. *)
Definition ngx_rtc_chain_reader_get (rd : ngx_rtc_chain_reader_t) : outcome (ptr Z * ngx_rtc_chain_reader_t) :=
  get_loop (cl rd) (p rd).

(** *** The JSON field *)

Definition is_blank (c : Z) : bool := (c =? 32) || (c =? 9).

(** Past the first octet that passes; the octet, or NULL at the end. *)
Fixpoint seek (fuel : nat) (pass : Z -> bool) (rd : ngx_rtc_chain_reader_t) : outcome (ptr Z * ngx_rtc_chain_reader_t) :=
  match fuel with
  | O => Fault
  | S fuel =>
      '(ch, rd) ← ngx_rtc_chain_reader_get rd;
      match ch with
      | NULL => Ret (NULL, rd)
      | Ref c => if pass c then Ret (ch, rd) else seek fuel pass rd
      end
  end.

(** The octets of the key come next. *)
Fixpoint match_key (key : octets) (rd : ngx_rtc_chain_reader_t) : outcome (bool * ngx_rtc_chain_reader_t) :=
  match key with
  | [] => Ret (true, rd)
  | k :: key =>
      '(ch, rd) ← ngx_rtc_chain_reader_get rd;
      match ch with
      | NULL => Ret (false, rd)
      | Ref c => if c =? k then match_key key rd else Ret (false, rd)
      end
  end.

Definition unescape (c : Z) : Z := if c =? 110 then 10 else if c =? 114 then 13 else if c =? 116 then 9 else c.

(** A store at the end of what has been written to a buffer of [cap] octets. *)
Definition store_next (cap : Z) (out : octets) (c : Z) : outcome octets :=
  if zlen out <? cap then Ret (out ++ [c]) else Fault.

(** The value up to its closing quote; [out] is what has been written. *)
Fixpoint value_loop (fuel : nat) (out_cap : Z) (out : octets) (rd : ngx_rtc_chain_reader_t)
    : outcome (ptr octets * ngx_rtc_chain_reader_t) :=
  match fuel with
  | O => Fault
  | S fuel =>
      '(ch, rd) ← ngx_rtc_chain_reader_get rd;
      match ch with
      | NULL => Ret (NULL, rd)
      | Ref c =>
          if c =? 34 then _ ← store_next out_cap out 0; Ret (Ref out, rd)
          else if out_cap <=? zlen out + 1 then Ret (NULL, rd)
          else if c =? 92 then
            '(ch, rd) ← ngx_rtc_chain_reader_get rd;
            match ch with
            | NULL => Ret (NULL, rd)
            | Ref c => out ← store_next out_cap out (unescape c); value_loop fuel out_cap out rd
            end
          else out ← store_next out_cap out c; value_loop fuel out_cap out rd
      end
  end.

(** The value after its name. *)
Definition read_value (fuel : nat) (out_cap : Z) (rd : ngx_rtc_chain_reader_t)
    : outcome (ptr octets * ngx_rtc_chain_reader_t) :=
  let not_blank c := negb (is_blank c) in
  '(ch, rd) ← seek fuel not_blank rd;
  match ch with
  | NULL => Ret (NULL, rd)
  | Ref c =>
      if negb (c =? 58) then Ret (NULL, rd)
      else
        '(ch, rd) ← seek fuel not_blank rd;
        match ch with
        | NULL => Ret (NULL, rd)
        | Ref c => if negb (c =? 34) then Ret (NULL, rd) else value_loop fuel out_cap [] rd
        end
  end.

(** [size] bounds the octets left, for the loops inside. *)
Fixpoint json_loop (fuel size : nat) (key : octets) (out_cap : Z) (rd : ngx_rtc_chain_reader_t)
    : outcome (ptr octets * ngx_rtc_chain_reader_t) :=
  match fuel with
  | O => Fault
  | S fuel =>
      '(ch, rd) ← seek size (fun c => c =? 34) rd;
      match ch with
      | NULL => Ret (NULL, rd)
      | Ref _ =>
          let mark := rd in
          '(found, rd) ← match_key key rd;
          if negb found then json_loop fuel size key out_cap mark
          else
            '(ch, rd) ← ngx_rtc_chain_reader_get rd;
            match ch with
            | NULL => json_loop fuel size key out_cap mark
            | Ref c => if c =? 34 then read_value size out_cap rd else json_loop fuel size key out_cap mark
            end
      end
  end.

(** The octets a chain is read as: those of its buffers up to a link that has none. *)
Fixpoint bytes (c : chain) : octets :=
  match c with [] | NULL :: _ => [] | Ref b :: c => data b ++ bytes c end.

Definition chain_size (c : chain) : nat := S (length (bytes c)).

(** The value, NULL for NGX_ERROR. *)
Definition ngx_rtc_http_json_string (rd : ngx_rtc_chain_reader_t) (key : octets) (out_cap : Z)
    : outcome (ptr octets * ngx_rtc_chain_reader_t) :=
  let fuel := chain_size (cl rd) in json_loop fuel fuel key out_cap rd.

(** ** The field as a function of the octets *)

Fixpoint starts_with (l k : octets) : bool :=
  match k, l with
  | [], _ => true
  | x :: k, y :: l => (y =? x) && starts_with l k
  | _ :: _, [] => false
  end.

(** A value's text up to its closing quote. *)
Fixpoint string_of (room : Z) (l : octets) : ptr octets :=
  match l with
  | [] => NULL
  | c :: l =>
      if c =? 34 then Ref []
      else if room <=? 1 then NULL
      else
        let cons x r := match r with NULL => NULL | Ref s => Ref (x :: s) end in
        if c =? 92 then match l with [] => NULL | e :: l => cons (unescape e) (string_of (room - 1) l) end
        else cons c (string_of (room - 1) l)
  end.

(** What follows the first octet that is no blank, which must be [d]. *)
Definition past_blanks (d : Z) (l : octets) : ptr octets :=
  match suffix_of is_blank l with
  | [] => NULL
  | c :: l => if c =? d then Ref l else NULL
  end.

Definition value_of (cap : Z) (l : octets) : ptr octets :=
  match past_blanks 58 l with
  | NULL => NULL
  | Ref l => match past_blanks 34 l with NULL => NULL | Ref l => string_of cap l end
  end.

Fixpoint json_of (key : octets) (cap : Z) (l : octets) : ptr octets :=
  match l with
  | [] => NULL
  | c :: l =>
      if (c =? 34) && starts_with l (key ++ [34]) then value_of cap (zdrop (zlen key + 1) l)
      else json_of key cap l
  end.

(** ** The reader and what it has left *)

Definition rest (rd : ngx_rtc_chain_reader_t) : octets :=
  match cl rd with
  | Ref b :: c => match p rd with NULL => data b | Ref q => zdrop q (data b) end ++ bytes c
  | _ => []
  end.

Definition placed (rd : ngx_rtc_chain_reader_t) : Prop := match p rd with NULL => True | Ref q => 0 <= q end.

(** [rd] is before the octets [l]. *)
Definition reads (rd : ngx_rtc_chain_reader_t) (l : octets) : Prop := placed rd /\ rest rd = l.

Lemma reads_start c : reads (ngx_rtc_chain_reader_init c) (bytes c).
Proof.
  unfold ngx_rtc_chain_reader_init, reads, placed, rest, at_start. cbn.
  destruct c as [| [| b] c]; cbn; [done | done |]. by rewrite zdrop_0.
Qed.

Lemma get_reads_at c : forall q,
  (match q with NULL => True | Ref q => 0 <= q end) ->
  let l := rest {| cl := c; p := q |} in
  exists rd, get_loop c q = Ret (match l with [] => NULL | x :: _ => Ref x end, rd) /\ reads rd (tail l).
Proof.
  induction c as [| [| b] c IH]; intros q Hq; cbn [get_loop].
  - by eexists.
  - by eexists.
  - set (pos := match q with NULL => 0 | Ref q => q end). assert (Hpos : 0 <= pos) by by destruct q.
    assert (Hr : rest {| cl := Ref b :: c; p := q |} = zdrop pos (data b) ++ bytes c).
    { unfold rest, pos. cbn. by destruct q; rewrite ?zdrop_0. }
    cbv zeta. rewrite Hr. destruct (Z.ltb_spec pos (zlen (data b))) as [Hlt | Hge].
    + destruct (load_in (data b) pos ltac:(lia)) as [x Hx]. rewrite Hx, bind_Ret.
      apply load_ret in Hx as [_ Hx]. unfold zdrop. rewrite (drop_S _ _ _ Hx). cbn [app tail].
      eexists. split; [done |]. split; [cbn; lia |]. unfold rest. cbn. unfold zdrop.
      by replace (Z.to_nat (pos + 1)) with (S (Z.to_nat pos)) by lia.
    + rewrite zdrop_all by lia. cbn [app]. destruct (IH (at_start c)) as (rd & Hrd & Hl); [by destruct c as [| []] |].
      pose proof (reads_start c) as [_ Hs]. unfold ngx_rtc_chain_reader_init in Hs. rewrite Hs in *. by exists rd.
Qed.

(** A read gives the next octet, whatever the buffers it is spread over. *)
Lemma get_reads rd l :
  reads rd l ->
  exists rd', ngx_rtc_chain_reader_get rd = Ret (match l with [] => NULL | x :: _ => Ref x end, rd') /\ reads rd' (tail l).
Proof. intros [Hp <-]. destruct rd as [c q]. by apply get_reads_at. Qed.

Lemma seek_reads pass fuel : forall rd l,
  reads rd l -> zlen l < Z.of_nat fuel ->
  exists rd', seek fuel pass rd = Ret (match suffix_of (fun c => negb (pass c)) l with [] => NULL | x :: _ => Ref x end, rd') /\
    reads rd' (tail (suffix_of (fun c => negb (pass c)) l)).
Proof.
  induction fuel as [| fuel IH]; intros rd l Hr Hf; [pose proof (zlen_nonneg l); lia |].
  cbn [seek]. destruct (get_reads _ _ Hr) as (rd' & -> & Hr'). rewrite bind_Ret.
  destruct l as [| x l]; [by exists rd' |]. cbn [suffix_of tail] in *. rewrite zlen_cons in Hf.
  destruct (pass x); cbn [negb]; [by exists rd' | apply IH; [done | lia]].
Qed.

Lemma match_key_reads key : forall rd l,
  reads rd l ->
  exists rd', match_key key rd = Ret (starts_with l key, rd') /\
    (starts_with l key = true -> reads rd' (zdrop (zlen key) l)).
Proof.
  induction key as [| k key IH]; intros rd l Hr; cbn [match_key].
  { exists rd. split; [by destruct l |]. intros _. by rewrite zdrop_0. }
  destruct (get_reads _ _ Hr) as (rd' & -> & Hr'). rewrite bind_Ret.
  destruct l as [| x l]; cbn [starts_with]; [by eexists |]. cbn [tail] in Hr'.
  destruct (x =? k); cbn [andb]; [| by eexists]. destruct (IH _ _ Hr') as (rd2 & -> & Hr2).
  exists rd2. split; [done |]. intros Hs. specialize (Hr2 Hs). rewrite zlen_cons.
  replace (1 + zlen key) with (zlen key + 1) by lia. unfold zdrop in *. pose proof (zlen_nonneg key).
  by replace (Z.to_nat (zlen key + 1)) with (S (Z.to_nat (zlen key))) by lia.
Qed.

(** What a scan with value [v] does when [room] octets are left of the caller's buffer: without
    any, a value found, which can only be the empty one, is terminated past the end. *)
Definition ended (room : Z) (v : ptr octets) rd : outcome (ptr octets * ngx_rtc_chain_reader_t) :=
  if (room <=? 0) && negb (is_null v) then Fault else Ret (v, rd).

Lemma ended_null room rd : ended room NULL rd = Ret (NULL, rd).
Proof. unfold ended. by rewrite andb_false_r. Qed.

Lemma ended_room room v rd : 0 < room -> ended room v rd = Ret (v, rd).
Proof. intros H. unfold ended. by rewrite (proj2 (Z.leb_gt room 0)). Qed.

Lemma store_next_room cap out c : zlen out < cap -> store_next cap out c = Ret (out ++ [c]).
Proof. intros H. unfold store_next. by rewrite (proj2 (Z.ltb_lt _ _)). Qed.

Lemma value_loop_reads cap fuel : forall rd l out,
  reads rd l -> zlen l < Z.of_nat fuel ->
  exists rd', value_loop fuel cap out rd =
    ended (cap - zlen out) (match string_of (cap - zlen out) l with NULL => NULL | Ref s => Ref (out ++ s) end) rd'.
Proof.
  induction fuel as [| fuel IH]; intros rd l out Hr Hf; [pose proof (zlen_nonneg l); lia |].
  cbn [value_loop]. destruct (get_reads _ _ Hr) as (rd1 & -> & Hr1). rewrite bind_Ret.
  destruct l as [| c l]; cbn [string_of]; [exists rd1; by rewrite ended_null |]. cbn [tail] in Hr1. rewrite zlen_cons in Hf.
  destruct (c =? 34).
  { exists rd1. rewrite app_nil_r. unfold store_next, ended. cbn [is_null negb]. rewrite andb_true_r.
    by destruct (Z.ltb_spec (zlen out) cap), (Z.leb_spec (cap - zlen out) 0); try lia. }
  destruct (Z.leb_spec cap (zlen out + 1)) as [Hfull | Hroom].
  { exists rd1. rewrite (proj2 (Z.leb_le (cap - zlen out) 1)) by lia. by rewrite ended_null. }
  rewrite (proj2 (Z.leb_gt (cap - zlen out) 1)) by lia.
  assert (Hnext : forall x rd' k, reads rd' k -> zlen k < Z.of_nat fuel ->
    exists rd2, (out ← store_next cap out x; value_loop fuel cap out rd') =
      ended (cap - zlen out) (match match string_of (cap - zlen out - 1) k with NULL => NULL | Ref s => Ref (x :: s) end with
           | NULL => NULL | Ref s => Ref (out ++ s) end) rd2).
  { intros x rd' k Hk Hkf. rewrite store_next_room, bind_Ret by lia.
    destruct (IH rd' k (out ++ [x]) Hk Hkf) as (rd2 & ->). exists rd2.
    rewrite zlen_app, zlen_cons, zlen_nil, Z.add_0_r, Z.sub_add_distr, !ended_room by lia.
    destruct (string_of _ k); [done |]. by rewrite <- app_assoc. }
  destruct (c =? 92); [| by apply Hnext; [| lia]].
  destruct (get_reads _ _ Hr1) as (rd2 & -> & Hr2). rewrite bind_Ret.
  destruct l as [| e l]; [exists rd2; by rewrite ended_null |].
  cbn [tail] in Hr2. rewrite zlen_cons in Hf. by apply Hnext; [| lia].
Qed.

Lemma suffix_ext p q l : (forall x, p x = q x) -> suffix_of p l = suffix_of q l.
Proof. intros H. induction l as [| x l IH]; [done |]. cbn. by rewrite H, IH. Qed.

Lemma suffix_le p l : zlen (suffix_of p l) <= zlen l.
Proof. pose proof (zlen_split p l). pose proof (zlen_nonneg (prefix_of p l)). lia. Qed.

Lemma tail_le {A} (l : list A) : zlen (tail l) <= zlen l.
Proof. destruct l; [done |]. cbn [tail]. rewrite zlen_cons. lia. Qed.

Lemma seek_blanks fuel rd l :
  reads rd l -> zlen l < Z.of_nat fuel ->
  exists rd', seek fuel (fun c => negb (is_blank c)) rd =
      Ret (match suffix_of is_blank l with [] => NULL | x :: _ => Ref x end, rd') /\
    reads rd' (tail (suffix_of is_blank l)) /\ zlen (tail (suffix_of is_blank l)) <= zlen l.
Proof.
  intros Hr Hf. destruct (seek_reads (fun c => negb (is_blank c)) fuel rd l Hr Hf) as (rd' & H1 & H2).
  rewrite (suffix_ext _ is_blank) in H1, H2 by (intros; by rewrite negb_involutive).
  exists rd'. split; [done |]. split; [done |]. pose proof (suffix_le is_blank l). etrans; [apply tail_le | done].
Qed.

Lemma read_value_reads cap fuel rd l :
  reads rd l -> zlen l < Z.of_nat fuel ->
  exists rd', read_value fuel cap rd = ended cap (value_of cap l) rd'.
Proof.
  intros Hr Hf. unfold read_value, value_of, past_blanks.
  destruct (seek_blanks fuel rd l Hr Hf) as (rd1 & -> & Hr1 & Hl1). rewrite bind_Ret.
  destruct (suffix_of is_blank l) as [| c k]; [eexists; by rewrite ended_null |]. cbn [tail] in *.
  destruct (c =? 58); cbn [negb]; [| eexists; by rewrite ended_null].
  destruct (seek_blanks fuel rd1 k Hr1 ltac:(lia)) as (rd2 & -> & Hr2 & Hl2). rewrite bind_Ret.
  destruct (suffix_of is_blank k) as [| d m]; [eexists; by rewrite ended_null |]. cbn [tail] in *.
  destruct (d =? 34); cbn [negb]; [| eexists; by rewrite ended_null].
  destruct (value_loop_reads cap fuel rd2 m [] Hr2 ltac:(lia)) as (rd3 & ->). exists rd3.
  rewrite zlen_nil, Z.sub_0_r. by destruct (string_of cap m).
Qed.

Definition not_quote (c : Z) : bool := negb (c =? 34).

Lemma json_seek key cap l : json_of key cap (suffix_of not_quote l) = json_of key cap l.
Proof.
  induction l as [| c l IH]; [done |]. cbn [suffix_of json_of]. unfold not_quote at 1.
  destruct (c =? 34) eqn:E; cbn [negb andb]; [| done]. cbn [json_of]. by rewrite E.
Qed.

Lemma starts_with_snoc l key d :
  starts_with l (key ++ [d]) =
    starts_with l key && match zdrop (zlen key) l with [] => false | x :: _ => x =? d end.
Proof.
  revert l. induction key as [| k key IH]; intros l; cbn [app starts_with].
  - rewrite zdrop_0. destruct l as [| y l]; [done |]. destruct l; cbn; by rewrite ?andb_true_r.
  - destruct l as [| y l]; [done |]. cbn [starts_with]. rewrite IH, zlen_cons, andb_assoc. f_equal. unfold zdrop.
    pose proof (zlen_nonneg key). by replace (Z.to_nat (1 + zlen key)) with (S (Z.to_nat (zlen key))) by lia.
Qed.

Lemma json_loop_reads key cap size fuel : forall rd l,
  reads rd l -> zlen l < Z.of_nat fuel -> zlen l < Z.of_nat size ->
  exists rd', json_loop fuel size key cap rd = ended cap (json_of key cap l) rd'.
Proof.
  induction fuel as [| fuel IH]; intros rd l Hr Hf Hs; [pose proof (zlen_nonneg l); lia |].
  cbn [json_loop]. destruct (seek_reads (fun c => c =? 34) size rd l Hr Hs) as (rd1 & -> & Hr1). rewrite bind_Ret.
  rewrite <- (json_seek key cap l). fold not_quote in *. pose proof (suffix_le not_quote l) as Hle.
  destruct (suffix_of not_quote l) as [| c k] eqn:E; [eexists; by rewrite ended_null |].
  apply suffix_stops, negb_false_iff in E. cbn [tail json_of] in *. rewrite E. cbn [andb]. rewrite zlen_cons in Hle.
  assert (Hagain : exists rd', json_loop fuel size key cap rd1 = ended cap (json_of key cap k) rd') by (apply IH; [done | lia | lia]).
  destruct (match_key_reads key rd1 k Hr1) as (rd2 & -> & Hr2). rewrite bind_Ret, starts_with_snoc.
  destruct (starts_with k key); cbn [negb andb]; [| done]. specialize (Hr2 eq_refl).
  destruct (get_reads _ _ Hr2) as (rd3 & -> & Hr3). rewrite bind_Ret.
  pose proof (zlen_nonneg key) as Hk. pose proof (zlen_zdrop (zlen key) k Hk) as Hd.
  assert (Hz : zdrop (zlen key + 1) k = tail (zdrop (zlen key) k)).
  { rewrite <- zdrop_zdrop by lia. unfold zdrop at 1. change (Z.to_nat 1) with 1%nat. by destruct (zdrop (zlen key) k). }
  destruct (zdrop (zlen key) k) as [| x m]; [done |]. cbn [tail] in Hr3. destruct (x =? 34); [| done].
  rewrite Hz. cbn [tail]. apply read_value_reads; [done |]. rewrite zlen_cons in Hd. pose proof (zlen_nonneg k). lia.
Qed.

Lemma json_scan c key cap :
  exists rd, ngx_rtc_http_json_string (ngx_rtc_chain_reader_init c) key cap = ended cap (json_of key cap (bytes c)) rd.
Proof.
  unfold ngx_rtc_http_json_string, chain_size. cbn [cl ngx_rtc_chain_reader_init].
  apply json_loop_reads; [apply reads_start | |]; unfold zlen; lia.
Qed.

Lemma json_read c key cap :
  0 < cap ->
  exists rd, ngx_rtc_http_json_string (ngx_rtc_chain_reader_init c) key cap = Ret (json_of key cap (bytes c), rd).
Proof. intros Hc. destruct (json_scan c key cap) as [rd ->]. exists rd. by apply ended_room. Qed.

(** C29: the field extractor reads a body as the octets of its buffers end to end, wherever the
    buffers are cut: it never leaves a buffer, ends, and gives the field that a scan of the whole
    body gives.  It stays inside the caller's buffer of [cap] octets too, the terminator
    included, unless that has none: then an empty value is terminated past its end. *)
Theorem json_string_exact c key cap :
  exists rd, ngx_rtc_http_json_string (ngx_rtc_chain_reader_init c) key cap =
    if (cap <=? 0) && negb (is_null (json_of key cap (bytes c))) then Fault else Ret (json_of key cap (bytes c), rd).
Proof. apply json_scan. Qed.

(** ** A body as a client writes it *)

Definition quote : Z := 34.

(** The escapes of a JSON string the reader knows. *)
Definition escape1 (c : Z) : octets :=
  if c =? 34 then [92; 34] else if c =? 92 then [92; 92] else if c =? 10 then [92; 110]
  else if c =? 13 then [92; 114] else if c =? 9 then [92; 116] else [c].
Definition escape (v : octets) : octets := v ≫= escape1.

Definition field (key v : octets) : octets := [quote] ++ key ++ [quote; 58; quote] ++ escape v ++ [quote].

Fixpoint members (fs : list (octets * octets)) : octets :=
  match fs with
  | [] => []
  | [(k, v)] => field k v
  | (k, v) :: fs => field k v ++ [44] ++ members fs
  end.

(** An object with the fields in order. *)
Definition object (fs : list (octets * octets)) : octets := [123] ++ members fs ++ [125].

(** The octets field names are made of. *)
Definition is_name (c : Z) : bool := ((97 <=? c) && (c <=? 122)) || ((65 <=? c) && (c <=? 90)) || (c =? 95).
Definition name_ok (k : octets) : Prop := k <> [] /\ Forall (fun c => is_name c = true) k.

(** A value the scan could take for the name: the name itself, or text that ends with it after
    a quote. *)
Definition confuses (key v : octets) : Prop := v = key \/ exists w, v = w ++ quote :: key.

Lemma string_of_escape v rest : forall room,
  zlen v < room -> string_of room (escape v ++ quote :: rest) = Ref v.
Proof.
  induction v as [| c v IH]; intros room Hr; [done |]. unfold escape in *. cbn [mbind list_bind] in *.
  rewrite <- app_assoc. rewrite zlen_cons in Hr. pose proof (zlen_nonneg v).
  assert (Hroom : (room <=? 1) = false) by lia. specialize (IH (room - 1) ltac:(lia)).
  unfold escape1 at 1. repeat match goal with
    | |- context [if c =? ?d then _ else _] =>
        destruct (Z.eqb_spec c d); [subst c; cbn [app string_of Z.eqb Pos.eqb unescape]; rewrite Hroom; cbn; by rewrite IH |]
  end.
  cbn [app string_of]. rewrite (proj2 (Z.eqb_neq c 34)), (proj2 (Z.eqb_neq c 92)), Hroom, IH by done. done.
Qed.

Lemma escape_name k : Forall (fun c => is_name c = true) k -> escape k = k.
Proof.
  intros Hk. induction Hk as [| c k Hc _ IH]; [done |]. unfold escape in *. cbn [mbind list_bind]. rewrite IH.
  unfold is_name in Hc. unfold escape1.
  by repeat match goal with |- context [if c =? ?d then _ else _] => destruct (Z.eqb_spec c d); [lia |] end.
Qed.

(** The name is next exactly when the value that is next is the name. *)
Lemma starts_value key : forall v l,
  Forall (fun c => is_name c = true) key ->
  starts_with (escape v ++ quote :: l) (key ++ [34]) = bool_decide (v = key).
Proof.
  induction key as [| k key IH]; intros v l Hk.
  - destruct v as [| c v]; [by destruct l |]. unfold escape. cbn [mbind list_bind app]. rewrite bool_decide_eq_false_2 by done.
    unfold escape1 at 1. repeat match goal with |- context [if c =? ?d then _ else _] => destruct (Z.eqb_spec c d); [done |] end.
    cbn. by rewrite (proj2 (Z.eqb_neq c 34)).
  - apply Forall_cons in Hk as [Hc Hk]. unfold is_name in Hc. destruct v as [| c v]; cbn [app starts_with escape mbind list_bind].
    { unfold quote. rewrite (proj2 (Z.eqb_neq 34 k)) by lia. by rewrite bool_decide_eq_false_2. }
    specialize (IH v l Hk). unfold escape in *. cbn [mbind list_bind]. rewrite <- app_assoc.
    assert (Hne : forall e, 92 <> k -> starts_with (92 :: e) (k :: key ++ [34]) = false).
    { intros e He. cbn [starts_with app]. by rewrite (proj2 (Z.eqb_neq 92 k)). }
    unfold escape1 at 1. repeat match goal with
      | |- context [if c =? ?d then _ else _] =>
          destruct (Z.eqb_spec c d); [cbn [app]; rewrite Hne by lia; symmetry; apply bool_decide_eq_false_2; intros [= -> ->]; lia |]
    end.
    cbn [app starts_with]. rewrite IH. destruct (Z.eqb_spec c k) as [-> | Hck]; cbn [andb].
    + apply bool_decide_ext. split; [by intros -> | by intros [= ->]].
    + symmetry. apply bool_decide_eq_false_2. by intros [= -> ->].
Qed.

Lemma starts_other key x l : name_ok key -> is_name x = false -> starts_with (x :: l) (key ++ [34]) = false.
Proof.
  intros [Hne Hk] Hx. destruct key as [| k key]; [done |]. apply Forall_cons in Hk as [Hk _]. cbn.
  destruct (Z.eqb_spec x k) as [-> |]; [congruence | done].
Qed.

(** The scan goes over the rest of a value. *)
Lemma json_past_value key cap v : forall x l,
  name_ok key -> is_name x = false -> (forall w, v <> w ++ quote :: key) ->
  json_of key cap (escape v ++ quote :: x :: l) = json_of key cap (x :: l).
Proof.
  induction v as [| c v IH]; intros x l Hk Hx Hv.
  { cbn [app escape mbind list_bind]. unfold quote. cbn [json_of Z.eqb Pos.eqb andb].
    rewrite starts_other by done. done. }
  specialize (IH x l Hk Hx). unfold escape in *. cbn [mbind list_bind]. rewrite <- app_assoc.
  assert (Hv' : forall w, v <> w ++ quote :: key) by (intros w ->; by apply (Hv (c :: w))).
  specialize (IH Hv'). unfold escape1 at 1.
  destruct (Z.eqb_spec c 34) as [-> | H34].
  { cbn [app json_of Z.eqb Pos.eqb andb]. fold (escape v). rewrite starts_value by apply Hk.
    rewrite bool_decide_eq_false_2; [done |]. intros ->. by apply (Hv []). }
  repeat match goal with
    | |- context [if c =? ?d then _ else _] => destruct (Z.eqb_spec c d); [cbn [app json_of Z.eqb Pos.eqb andb]; done |]
  end.
  cbn [app json_of]. rewrite (proj2 (Z.eqb_neq c 34)) by done. done.
Qed.

Lemma json_past_name key cap k : forall l,
  Forall (fun c => is_name c = true) k -> json_of key cap (k ++ l) = json_of key cap l.
Proof.
  intros l Hk. induction Hk as [| c k Hc _ IH]; [done |]. cbn [app json_of].
  rewrite (proj2 (Z.eqb_neq c 34)) by (unfold is_name in Hc; lia). done.
Qed.

(** A field under another name is passed over. *)
Lemma json_past_field key cap k v x l :
  name_ok key -> name_ok k -> k <> key -> ~ confuses key v -> is_name x = false ->
  json_of key cap (field k v ++ x :: l) = json_of key cap (x :: l).
Proof.
  intros Hkey [_ Hk] Hne Hv Hx. unfold field. rewrite <- !app_assoc. unfold quote at 1. cbn [app json_of Z.eqb Pos.eqb andb].
  pose proof (starts_value key k (58 :: quote :: escape v ++ quote :: x :: l) (proj2 Hkey)) as Hs.
  rewrite (escape_name k Hk), bool_decide_eq_false_2 in Hs by done. rewrite Hs, json_past_name by done.
  unfold quote at 1 2. cbn [app json_of Z.eqb Pos.eqb andb]. rewrite starts_other, starts_value by (apply Hkey || done).
  rewrite bool_decide_eq_false_2 by (intros ->; apply Hv; by left).
  apply json_past_value; [done | done |]. intros w ->. apply Hv. right. by exists w.
Qed.

Lemma json_field key cap v l :
  name_ok key -> zlen v < cap -> json_of key cap (field key v ++ l) = Ref v.
Proof.
  intros Hkey Hv. unfold field. rewrite <- !app_assoc. unfold quote at 1. cbn [app json_of Z.eqb Pos.eqb andb].
  pose proof (starts_value key key (58 :: quote :: escape v ++ quote :: l) (proj2 Hkey)) as Hs.
  rewrite (escape_name key (proj2 Hkey)), bool_decide_eq_true_2 in Hs by done. rewrite Hs.
  replace (zdrop (zlen key + 1) _) with (58 :: quote :: escape v ++ quote :: l).
  - unfold value_of, past_blanks. cbn. by apply string_of_escape.
  - symmetry. rewrite <- zdrop_zdrop by (pose proof (zlen_nonneg key); lia). by rewrite zdrop_app_length.
Qed.

Lemma members_app fs key v fs' :
  exists x l, is_name x = false /\
    members (fs ++ (key, v) :: fs') ++ [125] = concat ((fun '(k, w) => field k w ++ [44]) <$> fs) ++ field key v ++ x :: l.
Proof.
  induction fs as [| [k w] fs (x & l & Hx & IH)]; cbn [app fmap list_fmap concat].
  - destruct fs' as [| f fs']; [by exists 125, [] |]. exists 44, (members (f :: fs') ++ [125]). split; [done |].
    cbn [members]. by rewrite <- app_assoc.
  - exists x, l. split; [done |]. rewrite <- !app_assoc, <- IH. cbn [members].
    destruct (fs ++ (key, v) :: fs') as [| f fs0] eqn:E; [by destruct fs |]. by rewrite <- !app_assoc.
Qed.

(** A request body round trip.  A JSON object written with the escapes of a string literal,
    its fields in any order and its octets cut into buffers anywhere, gives every field back
    whole, as long as the value fits the caller's buffer and no earlier value is the field's name
    (or ends with it after a quote). *)
Theorem json_body_roundtrip c fs fs' key v cap :
  bytes c = object (fs ++ (key, v) :: fs') -> name_ok key -> zlen v < cap ->
  Forall (fun '(k, w) => name_ok k /\ k <> key /\ ~ confuses key w) fs ->
  exists rd, ngx_rtc_http_json_string (ngx_rtc_chain_reader_init c) key cap = Ret (Ref v, rd).
Proof.
  intros Hb Hkey Hv Hfs.
  enough (E : json_of key cap (bytes c) = Ref v) by (rewrite <- E; apply json_read; pose proof (zlen_nonneg v); lia).
  rewrite Hb. unfold object. cbn [app json_of Z.eqb Pos.eqb andb].
  destruct (members_app fs key v fs') as (x & l & Hx & ->). clear Hb.
  induction Hfs as [| [k w] fs (Hk & Hne & Hw) _ IH]; cbn [fmap list_fmap concat]; [by apply json_field |].
  rewrite <- !app_assoc. cbn [app]. rewrite json_past_field by done. cbn [json_of Z.eqb Pos.eqb andb]. done.
Qed.

(** A body is refused when an earlier value is the name of the field asked for: the scan takes
    the value for the name, finds no colon after it and gives up, where the comment says a
    failed match only consumes the opening quote. *)
Theorem json_value_named_like_key c k key v fs cap :
  bytes c = object ((k, key) :: (key, v) :: fs) -> name_ok k -> name_ok key -> k <> key ->
  exists rd, ngx_rtc_http_json_string (ngx_rtc_chain_reader_init c) key cap = Ret (NULL, rd).
Proof.
  intros Hb [_ Hk] Hkey Hne.
  enough (E : json_of key cap (bytes c) = NULL)
    by (destruct (json_scan c key cap) as [rd Hrd]; exists rd; by rewrite Hrd, E, ended_null).
  rewrite Hb. unfold object. cbn [app json_of Z.eqb Pos.eqb andb members].
  unfold field at 1. rewrite <- !app_assoc. unfold quote at 1. cbn [app json_of Z.eqb Pos.eqb andb].
  match goal with |- context [starts_with (k ++ ?r) _] => pose proof (starts_value key k (tail r) (proj2 Hkey)) as Hs end.
  cbn [tail] in Hs. rewrite (escape_name k Hk), bool_decide_eq_false_2 in Hs by done. rewrite Hs, json_past_name by done.
  unfold quote at 1 2. cbn [app json_of Z.eqb Pos.eqb andb]. rewrite starts_other, starts_value by (apply Hkey || done).
  rewrite bool_decide_eq_true_2 by done. rewrite (escape_name key (proj2 Hkey)).
  rewrite <- zdrop_zdrop by (pose proof (zlen_nonneg key); lia). by rewrite zdrop_app_length.
Qed.

(** *** A play request in three buffers *)

Definition demo_sdp : octets := lit "v=0" ++ crlf ++ lit "s=a b" ++ crlf.
Definition demo_url : octets := lit "webrtc://host/live/cam".
Definition demo_fields : list (octets * octets) := [(lit "sdp", demo_sdp); (lit "streamurl", demo_url)].
Definition demo_chain : chain :=
  let b := object demo_fields in
  [Ref {| in_file := false; data := ztake 5 b |}; Ref {| in_file := false; data := [] |};
   Ref {| in_file := false; data := zdrop 5 b |}].

Lemma no_quote_clear key v : (34 ∉ v) -> v <> key -> ~ confuses key v.
Proof. intros Hq Hv [H | [w ->]]; [done |]. apply Hq, elem_of_app. right. by left. Qed.

Lemma name_closed k : k <> [] -> forallb is_name k = true -> name_ok k.
Proof.
  intros Hk H. split; [done |]. apply Forall_forall. intros x Hx. apply (proj1 (forallb_forall _ _) H).
  by apply list_elem_of_In.
Qed.

Lemma json_body_roundtrip_witness :
  exists rd, ngx_rtc_http_json_string (ngx_rtc_chain_reader_init demo_chain) (lit "streamurl") 256 = Ret (Ref demo_url, rd).
Proof.
  apply (json_body_roundtrip demo_chain [(lit "sdp", demo_sdp)] [] (lit "streamurl") demo_url 256);
    [by vm_compute | by apply name_closed | done |].
  constructor; [| constructor]. split; [by apply name_closed | split; [done |]].
  apply no_quote_clear; [apply (bool_decide_unpack _); by vm_compute | done].
Defined.

Lemma json_value_named_like_key_witness :
  let c := [Ref {| in_file := false; data := object [(lit "kind", lit "sdp"); (lit "sdp", demo_sdp)] |}] in
  exists rd, ngx_rtc_http_json_string (ngx_rtc_chain_reader_init c) (lit "sdp") 1024 = Ret (NULL, rd).
Proof.
  intros c. apply (json_value_named_like_key c (lit "kind") (lit "sdp") demo_sdp [] 1024);
    [by vm_compute | by apply name_closed | by apply name_closed | done].
Defined.

End HttpBody.
