(* ===== verification/Signal.v ===== *)
(** What the play and publish requests of src/ngx_rtc_http_module.c do with text: the source name
    out of a stream URL or of arguments, and the answer to an offer.

    The string functions of nginx are a class with their laws; a C array is the list of its
    octets, the ones left over from before included. *)

From S2P Require Import Prelude Text Sdp SdpAnswer HttpBody.
Import Text.

Module Signal.

(** ** nginx's string functions *)

(** The first place where [n] starts. *)
Fixpoint find_in (l n : octets) (i : Z) : ptr Z :=
  if HttpBody.starts_with l n then Ref i else match l with [] => NULL | _ :: l => find_in l n (i + 1) end.

(** ngx_strnstr looks in the first octets of a C string, ngx_strlchr in the octets between two
    positions, ngx_snprintf writes at most its second argument. *)
Class NgxText := {
  ngx_strnstr : octets -> octets -> Z -> ptr Z;
  ngx_strlchr : octets -> Z -> Z -> Z -> ptr Z;
  ngx_snprintf : octets -> Z -> octets -> octets
}.

Class NgxTextLaws `{NgxText} := {
  strnstr_law s n len : 0 <= len <= zlen s -> ngx_strnstr s n len = find_in (c_string (ztake len s)) n 0;
  strlchr_law s p last c : 0 <= p <= last -> last <= zlen s ->
    ngx_strlchr s p last c =
      let d := prefix_of (Sdp.not_char c) (ztake (last - p) (zdrop p s)) in
      if p + zlen d <? last then Ref (p + zlen d) else NULL;
  snprintf_law b max t : 0 <= max <= zlen b ->
    ngx_snprintf b max t = ztake max t ++ zdrop (zlen (ztake max t)) b
}.

(** strlen of the string at [p] in an array. *)
Definition strlen (s : octets) (p : Z) : outcome Z :=
  e ← scan not_nul s p; if e <? zlen s then Ret (e - p) else Fault.

Definition NGX_HTTP_BAD_REQUEST : Z := 400.
Definition NGX_RTC_SOURCE_NAME_MAX : Z := 128.

Section names.
Context `{HT : NgxText}.

(** webrtc://host/app/stream, [su_len] octets of the array [streamurl], into the array [name]. *)
Definition play_name (streamurl : octets) (su_len : Z) (name : octets) : outcome (result octets) :=
  match ngx_strnstr streamurl (lit "://") su_len with
  | NULL => fail NGX_HTTP_BAD_REQUEST
  | Ref app =>
      match ngx_strlchr streamurl (app + 3) su_len 47 with
      | NULL => fail NGX_HTTP_BAD_REQUEST
      | Ref app =>
          let app := app + 1 in
          match ngx_strlchr streamurl app su_len 47 with
          | NULL => fail NGX_HTTP_BAD_REQUEST
          | Ref stream =>
              s ← store streamurl stream 0;
              let stream := stream + 1 in
              app_len ← strlen s app;
              stream_len ← strlen s stream;
              if (app_len =? 0) || (stream_len =? 0) || (NGX_RTC_SOURCE_NAME_MAX <? app_len + stream_len + 2)
              then fail NGX_HTTP_BAD_REQUEST
              else
                a ← load_range s app app_len;
                b ← load_range s stream stream_len;
                ok (ngx_snprintf name (NGX_RTC_SOURCE_NAME_MAX - 1) (a ++ lit "/" ++ b ++ [0]))
          end
      end
  end.
End names.

(** The publish request's arguments, already decoded: refused, or copied into the array [name]. *)
Definition whip_args_refused (app stream : octets) : bool :=
  (0 =? zlen app) || (0 =? zlen stream) || (NGX_RTC_SOURCE_NAME_MAX <=? zlen app + zlen stream + 1).

Definition whip_name (app stream name : octets) : outcome octets :=
  n ← store_range name 0 app;
  n ← store n (zlen app) 47;
  n ← store_range n (zlen app + 1) stream;
  store n (zlen app + 1 + zlen stream) 0.

(** ** The answer to an offer *)

Definition NGX_CONF_UNSET : Z := -1.
Definition NGX_RTC_DEFAULT_PORT : Z := 8000.

(** [c] is the configured address, NULL when its data is. *)
Definition candidate_ip_of (c : ptr octets) : octets :=
  match c with
  | NULL => lit "127.0.0.1"
  | Ref ip => if (zlen ip =? 0) || (Sdp.NGX_RTC_SDP_STR_LEN <=? zlen ip) then lit "127.0.0.1" else c_string ip
  end.

Definition candidate_port_of (p : Z) : Z := if NGX_CONF_UNSET =? p then NGX_RTC_DEFAULT_PORT else u32 p.

Definition hex_digits : octets := lit "0123456789abcdef".

(** The six digits of a profile-level-id. *)
Fixpoint profile_hex (ids : list Z) : outcome octets :=
  match ids with
  | [] => Ret []
  | x :: ids =>
      a ← load hex_digits (Z.shiftr x 4);
      b ← load hex_digits (Z.land x 15);
      r ← profile_hex ids;
      Ret (a :: b :: r)
  end.

Definition fmtp_prefix : octets := lit "level-asymmetry-allowed=1;packetization-mode=1;profile-level-id=".

(** What a request knows besides the offer. *)
Record signal_info := {
  i_ufrag : octets;
  i_pwd : octets;
  i_fingerprint : ptr octets;
  i_candidate_ip : ptr octets;
  i_candidate_port : Z;
  i_video_ssrc : Z;
  i_audio_ssrc : Z;
  i_video_pt : Z;
  i_audio_pt : Z;
  i_video_ext : Z;
  i_audio_ext : Z;
  i_profile_valid : Z;
  i_profile : list Z
}.

(** The configuration both requests fill. *)
Definition answer_cfg (i : signal_info) (types mids : list octets) (v_uri a_uri : octets) (n : Z) (fmtp : ptr octets)
    (sendonly : Z) : SdpAnswer.ngx_rtc_sdp_answer_t :=
  let d := SdpAnswer.default_answer in
  {| SdpAnswer.ice_ufrag := Ref (i_ufrag i); SdpAnswer.ice_pwd := Ref (i_pwd i);
     SdpAnswer.fingerprint_algo := Ref (lit "sha-256"); SdpAnswer.fingerprint := i_fingerprint i;
     SdpAnswer.setup := Ref (lit "passive"); SdpAnswer.proto := SdpAnswer.proto d;
     SdpAnswer.candidate_ip := Ref (candidate_ip_of (i_candidate_ip i));
     SdpAnswer.candidate_port := candidate_port_of (i_candidate_port i);
     SdpAnswer.n_media := n; SdpAnswer.media_type := types; SdpAnswer.media_mid := mids;
     SdpAnswer.video_ssrc := i_video_ssrc i; SdpAnswer.audio_ssrc := i_audio_ssrc i;
     SdpAnswer.video_pt := i_video_pt i; SdpAnswer.audio_pt := i_audio_pt i;
     SdpAnswer.video_clock_rate := SdpAnswer.video_clock_rate d; SdpAnswer.audio_clock_rate := SdpAnswer.audio_clock_rate d;
     SdpAnswer.audio_channels := SdpAnswer.audio_channels d;
     SdpAnswer.video_twcc_ext := i_video_ext i; SdpAnswer.audio_twcc_ext := i_audio_ext i;
     SdpAnswer.video_twcc_uri := Ref v_uri; SdpAnswer.audio_twcc_uri := Ref a_uri;
     SdpAnswer.video_fmtp := fmtp; SdpAnswer.audio_fmtp := SdpAnswer.audio_fmtp d;
     SdpAnswer.sendonly := sendonly; SdpAnswer.rtcp_mux := 1; SdpAnswer.rtcp_rsize := 1 |}.

(** The copy loop over the offer's media descriptions, the rest of the array as it was. *)
Definition mirrored (l d : list octets) : list octets := l ++ drop (length l) d.

Definition play_cfg (i : signal_info) (o : Sdp.ngx_rtc_sdp_offer_t) : outcome SdpAnswer.ngx_rtc_sdp_answer_t :=
  let d := SdpAnswer.default_answer in
  fmtp ← (if negb (i_profile_valid i =? 0)
          then h ← profile_hex (i_profile i); Ret (Ref (fmtp_prefix ++ h))
          else Ret (SdpAnswer.video_fmtp d));
  Ret (answer_cfg i (mirrored (Sdp.media_type o) (SdpAnswer.media_type d)) (mirrored (Sdp.media_mid o) (SdpAnswer.media_mid d))
         (Sdp.c_twcc_uri (Sdp.o_video o)) (Sdp.c_twcc_uri (Sdp.o_audio o)) (zlen (Sdp.media_type o)) fmtp 1).

(** A publisher's whole arrays are copied; the answer receives. *)
Definition whip_cfg (i : signal_info) (o : Sdp.ngx_rtc_sdp_offer_t) : SdpAnswer.ngx_rtc_sdp_answer_t :=
  let rest l := l ++ replicate (4 - length l) [] in
  answer_cfg i (rest (Sdp.media_type o)) (rest (Sdp.media_mid o))
    (Sdp.c_twcc_uri (Sdp.o_video o)) (Sdp.c_twcc_uri (Sdp.o_audio o)) (zlen (Sdp.media_type o))
    (SdpAnswer.video_fmtp SdpAnswer.default_answer) (-1).

(** The array the answer is generated into. *)
Definition ANS_BUF : Z := 4096.

(** ** Source names *)

Lemma zlen_pos (l : octets) : l <> [] -> 0 < zlen l.
Proof. destruct l as [| x l]; [done |]. rewrite zlen_cons. pose proof (zlen_nonneg l). lia. Qed.

Lemma strlen_at a t b : (0 ∉ t) -> strlen (a ++ t ++ 0 :: b) (zlen a) = Ret (zlen t).
Proof.
  intros H0. unfold strlen. pose proof (zlen_nonneg a). pose proof (zlen_nonneg t). pose proof (zlen_nonneg b).
  assert (Hl : zlen (a ++ t ++ 0 :: b) = zlen a + zlen t + 1 + zlen b) by (rewrite !zlen_app, zlen_cons; lia).
  rewrite scan_eq, bind_Ret by lia. rewrite zdrop_app_length by done.
  destruct (prefix_app not_nul t (0 :: b)) as [-> _]; [| done |].
  { apply Forall_forall. intros x Hx. unfold not_nul. apply negb_true_iff, Z.eqb_neq. by intros ->. }
  rewrite Hl. destruct (Z.ltb_spec (zlen a + zlen t) (zlen a + zlen t + 1 + zlen b)); [f_equal; lia | lia].
Qed.

Lemma strlen_none s : (0 ∉ s) -> strlen s 0 = Fault.
Proof.
  intros H0. unfold strlen. pose proof (zlen_nonneg s). rewrite scan_eq, zdrop_0, bind_Ret by lia.
  rewrite <- (app_nil_r s) at 1. destruct (prefix_app not_nul s []) as [-> _]; [| done |].
  { apply Forall_forall. intros x Hx. unfold not_nul. apply negb_true_iff, Z.eqb_neq. by intros ->. }
  destruct (Z.ltb_spec (0 + zlen s) (zlen s)); [lia | done].
Qed.

(** With a NUL at [q], the string at [p] ends there at the latest. *)
Lemma strlen_safe s p q :
  0 <= p <= q -> s !! Z.to_nat q = Some 0 ->
  exists t, strlen s p = Ret (zlen t) /\ (0 ∉ t) /\ p + zlen t <= q /\ load_range s p (zlen t) = Ret t.
Proof.
  intros Hp Hq. assert (Hl : q < zlen s) by (apply lookup_lt_Some in Hq; unfold zlen; lia).
  unfold strlen. rewrite scan_eq, bind_Ret by lia.
  pose proof (scan_rest not_nul s p ltac:(lia)) as Hr. cbv zeta in Hr. destruct Hr as (_ & _ & Hr). revert Hr.
  set (t := prefix_of not_nul (zdrop p s)). intros Hr. pose proof (zlen_nonneg t).
  assert (Ht : p + zlen t <= q).
  { destruct (Z.le_gt_cases (p + zlen t) q) as [| Hlt]; [done | exfalso].
    assert (Hin : t !! Z.to_nat (q - p) = Some 0).
    { pose proof (prefix_suffix not_nul (zdrop p s)) as E. fold t in E.
      rewrite <- (lookup_app_l t (suffix_of not_nul (zdrop p s))) by (clear - Hp Hlt; unfold zlen in *; lia). rewrite E.
      unfold zdrop. rewrite lookup_drop. replace (Z.to_nat p + Z.to_nat (q - p))%nat with (Z.to_nat q) by lia. done. }
    apply list_elem_of_lookup_2 in Hin. by apply (proj1 (Forall_forall _ _) (prefix_all not_nul (zdrop p s))) in Hin. }
  destruct (Z.ltb_spec (p + zlen t) (zlen s)); [| lia]. exists t. replace (p + zlen t - p) with (zlen t) in * by lia.
  split_and!; [done | | done | done].
  intros Hin. by apply (proj1 (Forall_forall _ _) (prefix_all not_nul (zdrop p s))) in Hin.
Qed.

Lemma starts_with_len l n : HttpBody.starts_with l n = true -> zlen n <= zlen l.
Proof.
  revert l. induction n as [| x n IH]; intros l; [intros _; apply zlen_nonneg |].
  destruct l as [| y l]; [done |]. cbn. rewrite !zlen_cons. intros [_ Hl]%andb_prop. specialize (IH l Hl). lia.
Qed.

Lemma find_in_bound l n i j : find_in l n i = Ref j -> i <= j /\ j + zlen n <= i + zlen l.
Proof.
  revert i. induction l as [| x l IH]; intros i; cbn [find_in].
  - destruct (HttpBody.starts_with [] n) eqn:E; [| done]. intros [= <-]. apply starts_with_len in E. lia.
  - destruct (HttpBody.starts_with (x :: l) n) eqn:E.
    + intros [= <-]. apply starts_with_len in E. lia.
    + intros Hj%IH. rewrite zlen_cons. lia.
Qed.

Lemma c_string_len v : zlen (c_string v) <= zlen v.
Proof. pose proof (zlen_split not_nul v). pose proof (zlen_nonneg (suffix_of not_nul v)). unfold c_string. lia. Qed.

Lemma find_in_first pre rest i : (58 ∉ pre) -> find_in (pre ++ lit "://" ++ rest) (lit "://") i = Ref (i + zlen pre).
Proof.
  revert i. induction pre as [| c pre IH]; intros i Hc.
  { rewrite zlen_nil, Z.add_0_r. by destruct rest. }
  rewrite elem_of_cons in Hc. cbn [app find_in]. change (HttpBody.starts_with (c :: ?l) (lit "://"))
    with ((c =? 58) && HttpBody.starts_with l [47; 47]). rewrite (proj2 (Z.eqb_neq c 58)) by (intros ->; tauto).
  cbn [andb]. rewrite IH by tauto. rewrite zlen_cons. f_equal. lia.
Qed.

Section play.
Context `{HT : NgxText, !NgxTextLaws}.

Lemma strlchr_bound s p last c q :
  0 <= p <= last -> last <= zlen s -> ngx_strlchr s p last c = Ref q -> p <= q < last.
Proof.
  intros Hp Hl. rewrite strlchr_law by done. cbv zeta.
  pose proof (zlen_nonneg (prefix_of (Sdp.not_char c) (ztake (last - p) (zdrop p s)))).
  destruct (Z.ltb_spec (p + zlen (prefix_of (Sdp.not_char c) (ztake (last - p) (zdrop p s)))) last); [| done].
  intros [= <-]. lia.
Qed.

(** The slash after [t] is found from the position before it. *)
Lemma strlchr_slash a t b g :
  (47 ∉ t) -> ngx_strlchr (a ++ t ++ 47 :: b ++ g) (zlen a) (zlen (a ++ t ++ 47 :: b)) 47 = Ref (zlen a + zlen t).
Proof.
  intros Hs. pose proof (zlen_nonneg a). pose proof (zlen_nonneg t). pose proof (zlen_nonneg b). pose proof (zlen_nonneg g).
  rewrite strlchr_law; [| rewrite !zlen_app, zlen_cons; lia | rewrite !zlen_app, !zlen_cons, zlen_app; lia].
  rewrite zdrop_app_length by done.
  replace (ztake (zlen (a ++ t ++ 47 :: b) - zlen a) (t ++ 47 :: b ++ g)) with (t ++ 47 :: b).
  2: { replace (t ++ 47 :: b ++ g) with ((t ++ 47 :: b) ++ g) by by rewrite <- app_assoc.
       rewrite ztake_app_length; [done |]. rewrite zlen_app. lia. }
  destruct (prefix_app (Sdp.not_char 47) t (47 :: b)) as [E _]; [| done |].
  { apply Forall_forall. intros x Hx. unfold Sdp.not_char. apply negb_true_iff, Z.eqb_neq. by intros ->. }
  cbv zeta. rewrite E, !zlen_app, zlen_cons. destruct (Z.ltb_spec (zlen a + zlen t) (zlen a + (zlen t + (1 + zlen b)))); [done | lia].
Qed.

Lemma play_name_eq pre host app stream g name :
  let head := pre ++ lit "://" ++ host ++ lit "/" in
  let url := head ++ app ++ lit "/" ++ stream in
  (58 ∉ pre) -> (47 ∉ host) -> (47 ∉ app) -> (0 ∉ url) -> app <> [] -> stream <> [] ->
  zlen name = NGX_RTC_SOURCE_NAME_MAX ->
  play_name (url ++ 0 :: g) (zlen url) name =
    if 126 <? zlen app + zlen stream then fail NGX_HTTP_BAD_REQUEST
    else
      let t := app ++ lit "/" ++ stream ++ [0] in
      ok (ztake 127 t ++ zdrop (zlen (ztake 127 t)) name).
Proof.
  intros head url Hpre Hhost Happ H0 Hane Hsne Hname. unfold play_name.
  pose proof (zlen_nonneg url). pose proof (zlen_nonneg g).
  rewrite strnstr_law by (rewrite zlen_app, zlen_cons; lia). rewrite ztake_app_length by done. rewrite c_string_id by done.
  assert (Eurl : url = pre ++ lit "://" ++ (host ++ lit "/" ++ app ++ lit "/" ++ stream))
    by (unfold url, head; by rewrite <- !app_assoc).
  rewrite Eurl at 1. rewrite find_in_first by done. rewrite Z.add_0_l.
  assert (E1 : url ++ 0 :: g = (pre ++ lit "://") ++ host ++ 47 :: (app ++ lit "/" ++ stream) ++ 0 :: g)
    by (unfold url, head; by rewrite <- !app_assoc).
  assert (L1 : zlen url = zlen ((pre ++ lit "://") ++ host ++ 47 :: (app ++ lit "/" ++ stream)))
    by (f_equal; unfold url, head; by rewrite <- !app_assoc).
  assert (P1 : zlen pre + 3 = zlen (pre ++ lit "://")) by by rewrite zlen_app.
  rewrite P1, E1, L1, strlchr_slash by done.
  assert (E2 : (pre ++ lit "://") ++ host ++ 47 :: (app ++ lit "/" ++ stream) ++ 0 :: g = head ++ app ++ 47 :: stream ++ 0 :: g)
    by (unfold head; by rewrite <- !app_assoc).
  assert (P2 : zlen (pre ++ lit "://") + zlen host + 1 = zlen head)
    by (unfold head; rewrite !zlen_app; change (zlen (lit "/")) with 1; lia).
  rewrite <- L1, P2, E2. replace (zlen url) with (zlen (head ++ app ++ 47 :: stream)) by done. rewrite strlchr_slash by done.
  pose proof (zlen_nonneg app). pose proof (zlen_nonneg stream). pose proof (zlen_nonneg head).
  assert (Est : store (head ++ app ++ 47 :: stream ++ 0 :: g) (zlen head + zlen app) 0 = Ret (head ++ app ++ 0 :: stream ++ 0 :: g)).
  { rewrite <- zlen_app, !(app_assoc head app). pose proof (zlen_nonneg (stream ++ 0 :: g)).
    rewrite (store_cursor (head ++ app)); [| done | rewrite zlen_cons; lia].
    rewrite <- app_assoc. f_equal. }
  rewrite Est, bind_Ret. clear Est.
  assert (Hn : (0 ∉ app) /\ (0 ∉ stream)).
  { unfold url in H0. rewrite !elem_of_app in H0. tauto. }
  rewrite strlen_at, bind_Ret by tauto.
  assert (E3 : head ++ app ++ 0 :: stream ++ 0 :: g = (head ++ app ++ [0]) ++ stream ++ 0 :: g)
    by by rewrite <- !app_assoc.
  replace (zlen head + zlen app + 1) with (zlen (head ++ app ++ [0])) by (rewrite !zlen_app; change (zlen [0]) with 1; lia).
  rewrite E3, strlen_at, bind_Ret by tauto. rewrite <- E3.
  pose proof (zlen_pos app Hane). pose proof (zlen_pos stream Hsne).
  rewrite (proj2 (Z.eqb_neq (zlen app) 0)), (proj2 (Z.eqb_neq (zlen stream) 0)) by lia. cbn [orb].
  unfold NGX_RTC_SOURCE_NAME_MAX in *.
  destruct (Z.ltb_spec 128 (zlen app + zlen stream + 2)), (Z.ltb_spec 126 (zlen app + zlen stream)); try lia; [done |].
  rewrite (load_range_app head app _ (zlen head) (zlen app)), bind_Ret by done.
  rewrite E3, load_range_app, bind_Ret by done.
  rewrite snprintf_law by lia. done.
Qed.

(** Whatever the URL holds, the request is refused or the array gets a name without a NUL and of
    at most 127 octets, with as much of its terminator as fits. *)
Lemma play_name_shape v g name :
  zlen name = NGX_RTC_SOURCE_NAME_MAX ->
  play_name (v ++ 0 :: g) (zlen v) name = fail NGX_HTTP_BAD_REQUEST \/
  exists t, (0 ∉ t) /\ 0 < zlen t <= 127 /\
    play_name (v ++ 0 :: g) (zlen v) name = ok (ztake 127 (t ++ [0]) ++ zdrop (zlen (ztake 127 (t ++ [0]))) name).
Proof.
  intros Hn. unfold play_name, NGX_RTC_SOURCE_NAME_MAX in *. pose proof (zlen_nonneg v) as Hv. pose proof (zlen_nonneg g).
  assert (Hs : zlen (v ++ 0 :: g) = zlen v + 1 + zlen g) by (rewrite zlen_app, zlen_cons; lia).
  rewrite strnstr_law by lia. rewrite ztake_app_length by done.
  destruct (find_in (c_string v) (lit "://") 0) as [| p] eqn:Ep; [by left |].
  apply find_in_bound in Ep. change (zlen (lit "://")) with 3 in Ep. pose proof (c_string_len v).
  destruct (ngx_strlchr _ (p + 3) _ _) as [| a] eqn:Ea; [by left |].
  apply strlchr_bound in Ea; [| lia | lia]. cbv zeta.
  destruct (ngx_strlchr _ (a + 1) _ _) as [| b] eqn:Eb; [by left |]. apply strlchr_bound in Eb; [| lia | lia].
  rewrite store_in, bind_Ret by lia. set (s := <[_ := _]> _).
  destruct (strlen_safe s (a + 1) b) as (x & Ex & Hx0 & Hx & Lx); [lia | apply list_lookup_insert_eq; unfold zlen in *; lia |].
  rewrite Ex, bind_Ret.
  destruct (strlen_safe s (b + 1) (zlen v)) as (y & Ey & Hy0 & Hy & Ly); [lia | |].
  { unfold s. rewrite list_lookup_insert_ne, lookup_app_r by (unfold zlen in *; lia).
    replace (Z.to_nat (zlen v) - length v)%nat with 0%nat by (unfold zlen; lia). done. }
  rewrite Ey, bind_Ret. pose proof (zlen_nonneg x). pose proof (zlen_nonneg y).
  destruct (Z.eqb_spec (zlen x) 0); [by left |]. destruct (Z.eqb_spec (zlen y) 0); [by left |]. cbn [orb].
  destruct (Z.ltb_spec 128 (zlen x + zlen y + 2)); [by left |]. right.
  exists (x ++ lit "/" ++ y). rewrite !zlen_app. change (zlen (lit "/")) with 1.
  split_and!; [| lia | lia |].
  - rewrite !elem_of_app. intros [? | [Hl | ?]]; [done | | done]. apply (bool_decide_pack _) in Hl. by vm_compute in Hl.
  - rewrite Lx, bind_Ret, Ly, bind_Ret, snprintf_law by lia. by rewrite <- !app_assoc.
Qed.

(** A stream URL webrtc://host/app/stream names the source app/stream: with up to 125 octets
    in both parts the name is written terminated, whatever the array held; with more than 126 the
    request is refused. *)
Theorem play_name_of_url pre host app stream g name :
  let url := pre ++ lit "://" ++ host ++ lit "/" ++ app ++ lit "/" ++ stream in
  (58 ∉ pre) -> (47 ∉ host) -> (47 ∉ app) -> (0 ∉ url) -> app <> [] -> stream <> [] ->
  zlen name = NGX_RTC_SOURCE_NAME_MAX ->
  (zlen app + zlen stream <= 125 ->
   exists rest, play_name (url ++ 0 :: g) (zlen url) name = ok (app ++ lit "/" ++ stream ++ 0 :: rest) /\
     zlen (app ++ lit "/" ++ stream ++ 0 :: rest) = NGX_RTC_SOURCE_NAME_MAX) /\
  (126 < zlen app + zlen stream -> play_name (url ++ 0 :: g) (zlen url) name = fail NGX_HTTP_BAD_REQUEST).
Proof.
  intros url Hpre Hhost Happ H0 Ha Hs Hn.
  assert (E : url = (pre ++ lit "://" ++ host ++ lit "/") ++ app ++ lit "/" ++ stream) by (unfold url; by rewrite <- !app_assoc).
  rewrite E in *. rewrite play_name_eq by done. pose proof (zlen_nonneg app). pose proof (zlen_nonneg stream).
  unfold NGX_RTC_SOURCE_NAME_MAX in *.
  destruct (Z.ltb_spec 126 (zlen app + zlen stream)); split; intros Hl; try done || lia.
  assert (Ht : zlen (app ++ lit "/" ++ stream ++ [0]) = zlen app + zlen stream + 2)
    by (rewrite !zlen_app; change (zlen (lit "/")) with 1; change (zlen [0]) with 1; lia).
  cbv zeta. rewrite ztake_all, Ht by lia. eexists. split; [by rewrite <- !app_assoc |].
  rewrite !zlen_app, zlen_cons, zlen_zdrop by lia. change (zlen (lit "/")) with 1. lia.
Qed.

(** At 126 octets the length test passes and the terminator does not fit: the name is left
    with whatever the last octet of the array held, and the strlen that follows reads past the
    array unless that octet happens to be zero. *)
Theorem play_name_unterminated pre host app stream g name :
  let url := pre ++ lit "://" ++ host ++ lit "/" ++ app ++ lit "/" ++ stream in
  (58 ∉ pre) -> (47 ∉ host) -> (47 ∉ app) -> (0 ∉ url) -> app <> [] -> stream <> [] ->
  zlen name = NGX_RTC_SOURCE_NAME_MAX -> zlen app + zlen stream = 126 -> (0 ∉ zdrop 127 name) ->
  exists n, play_name (url ++ 0 :: g) (zlen url) name = ok n /\ zlen n = NGX_RTC_SOURCE_NAME_MAX /\ strlen n 0 = Fault.
Proof.
  intros url Hpre Hhost Happ H0 Ha Hs Hn Hl Hg.
  assert (E : url = (pre ++ lit "://" ++ host ++ lit "/") ++ app ++ lit "/" ++ stream) by (unfold url; by rewrite <- !app_assoc).
  rewrite E in *. rewrite play_name_eq by done. rewrite (proj2 (Z.ltb_ge _ _)) by lia. cbv zeta.
  assert (Ht : zlen (app ++ lit "/" ++ stream) = 127) by (rewrite !zlen_app; change (zlen (lit "/")) with 1; lia).
  replace (app ++ lit "/" ++ stream ++ [0]) with ((app ++ lit "/" ++ stream) ++ [0]) by by rewrite <- !app_assoc.
  rewrite ztake_app_length by done. rewrite Ht. eexists. split; [done |].
  unfold NGX_RTC_SOURCE_NAME_MAX in *. split; [rewrite zlen_app, zlen_zdrop; lia |].
  apply strlen_none. rewrite !elem_of_app in *. tauto.
Qed.
End play.

Lemma whip_name_eq app stream name :
  zlen name = NGX_RTC_SOURCE_NAME_MAX -> whip_args_refused app stream = false ->
  whip_name app stream name = Ret (app ++ lit "/" ++ stream ++ 0 :: zdrop (zlen app + zlen stream + 2) name).
Proof.
  intros Hn. unfold whip_args_refused, whip_name, NGX_RTC_SOURCE_NAME_MAX in *.
  pose proof (zlen_nonneg app). pose proof (zlen_nonneg stream).
  destruct (Z.leb_spec 128 (zlen app + zlen stream + 1)); [by rewrite orb_true_r |]. intros _.
  rewrite <- (app_nil_l name) at 1. rewrite store_range_cursor, bind_Ret by (done || lia).
  change ([] ++ app) with app.
  rewrite store_cursor, bind_Ret by (rewrite ?zlen_zdrop; lia).
  rewrite store_range_cursor, bind_Ret by (rewrite ?zlen_app, ?zdrop_zdrop, ?zlen_zdrop by lia; change (zlen [47]) with 1; lia).
  rewrite store_cursor by (rewrite ?zlen_app, ?zdrop_zdrop, ?zlen_zdrop by lia; change (zlen [47]) with 1; lia).
  rewrite !zdrop_zdrop, <- !app_assoc by lia.
  by match goal with |- context [zdrop ?k name] => replace (zlen app + zlen stream + 2) with k by lia end.
Qed.

(** The publish request refuses exactly empty arguments and those whose name does not fit,
    and writes the others as the name app/stream, terminated, whatever the array held. *)
Theorem whip_name_exact app stream name :
  zlen name = NGX_RTC_SOURCE_NAME_MAX ->
  whip_args_refused app stream = negb (bool_decide (app <> [] /\ stream <> [] /\
    zlen (app ++ lit "/" ++ stream) < NGX_RTC_SOURCE_NAME_MAX)) /\
  (whip_args_refused app stream = false ->
   whip_name app stream name = Ret (app ++ lit "/" ++ stream ++ 0 :: zdrop (zlen app + zlen stream + 2) name)).
Proof.
  intros Hn. split; [| by apply whip_name_eq]. unfold whip_args_refused, NGX_RTC_SOURCE_NAME_MAX in *.
  pose proof (zlen_nonneg app). pose proof (zlen_nonneg stream).
  assert (He : forall l : octets, (0 =? zlen l) = bool_decide (l = [])).
  { intros l. case_bool_decide as E; [by rewrite E |]. apply Z.eqb_neq. pose proof (zlen_pos l E). lia. }
  rewrite !zlen_app. change (zlen (lit "/")) with 1. rewrite !He.
  destruct (Z.leb_spec 128 (zlen app + zlen stream + 1));
    repeat case_bool_decide; cbn; try done; exfalso; destruct_and?; intuition lia.
Qed.

(** ** The size of an answer *)

Lemma digits_len fuel : forall n acc, zlen (digits fuel n acc) <= zlen acc + Z.of_nat fuel + 1.
Proof.
  induction fuel as [| fuel IH]; intros n acc; cbn [digits].
  - destruct (n / 10 =? 0); rewrite zlen_cons; lia.
  - destruct (n / 10 =? 0); [rewrite zlen_cons; lia |]. specialize (IH (n / 10) ((48 + n mod 10) :: acc)).
    rewrite zlen_cons in IH. lia.
Qed.

Lemma decimal_len n : zlen (decimal n) <= 10.
Proof. pose proof (digits_len 9 n []) as H. rewrite zlen_nil in H. unfold decimal. lia. Qed.

(** The octets of some lines with their ends. *)
Definition weigh (ls : list octets) : Z := zlen (SdpAnswer.text ls).

Lemma weigh_nil : weigh [] = 0.
Proof. reflexivity. Qed.
Lemma weigh_app a b : weigh (a ++ b) = weigh a + weigh b.
Proof. unfold weigh. by rewrite SdpAnswer.text_app, zlen_app. Qed.
Lemma weigh_cons l ls : weigh (l :: ls) = zlen l + 2 + weigh ls.
Proof. unfold weigh. rewrite SdpAnswer.text_cons, !zlen_app. by change (zlen crlf) with 2. Qed.
Lemma weigh_opt b l : weigh (SdpAnswer.opt b l) <= zlen l + 2.
Proof. pose proof (zlen_nonneg l). destruct b; cbn [SdpAnswer.opt]; rewrite ?weigh_cons, weigh_nil; lia. Qed.

Lemma weigh_all (ls : list (list octets)) k :
  Forall (fun l => weigh l <= k) ls -> weigh (concat ls) <= k * zlen ls.
Proof.
  induction 1 as [| l ls Hl _ IH]; [cbn; rewrite weigh_nil, zlen_nil; lia |]. cbn [concat]. rewrite weigh_app, zlen_cons. lia.
Qed.

(** What the answer prints fits the arrays the requests print from. *)
Definition track_small (t : SdpAnswer.track) : Prop :=
  zlen (SdpAnswer.t_type t) <= 63 /\ zlen (SdpAnswer.t_mid t) <= 31 /\ zlen (SdpAnswer.t_encoding t) <= 4 /\
  zlen (SdpAnswer.str (SdpAnswer.t_fmtp t)) <= 127 /\ zlen (SdpAnswer.str (SdpAnswer.t_uri t)) <= 95.

(** Bounds a list of lines by the lengths of their parts. *)
Ltac weigh :=
  repeat rewrite weigh_app; repeat rewrite weigh_cons; rewrite ?weigh_nil;
  repeat match goal with
  | |- context [weigh (SdpAnswer.opt ?b ?l)] => generalize (weigh_opt b l); generalize (weigh (SdpAnswer.opt b l)); intros ? ?
  end;
  repeat match goal with
  | H : context [zlen (_ ++ _)] |- _ => rewrite zlen_app in H
  | H : context [zlen (if ?b then _ else _)] |- _ => destruct b in H
  | H : context [zlen (lit ?s)] |- _ => let n := eval vm_compute in (zlen (lit s)) in change (zlen (lit s)) with n in H
  | H : context [zlen (decimal ?n)] |- _ => generalize (decimal_len n) H; clear H; generalize (zlen (decimal n)); intros ? ? ?
  end;
  repeat match goal with
  | |- context [zlen (_ ++ _)] => rewrite zlen_app
  | |- context [zlen (if ?b then _ else _)] => destruct b
  | |- context [zlen (lit ?s)] => let n := eval vm_compute in (zlen (lit s)) in change (zlen (lit s)) with n
  | |- context [zlen (decimal ?n)] => generalize (decimal_len n); generalize (zlen (decimal n)); intros ? ?
  end;
  rewrite ?zlen_nil in *; lia.

Lemma weigh_track cfg t :
  zlen (SdpAnswer.str (SdpAnswer.proto cfg)) <= 17 -> zlen (SdpAnswer.str (SdpAnswer.candidate_ip cfg)) <= 63 ->
  track_small t -> weigh (SdpAnswer.track_lines cfg t) <= 750.
Proof.
  intros Hp Hc (H1 & H2 & H3 & H4 & H5). unfold SdpAnswer.track_lines. cbv zeta. weigh.
Qed.

(** What an answer prints, each value within the array it comes from. *)
Definition small (cfg : SdpAnswer.ngx_rtc_sdp_answer_t) : Prop :=
  (zlen (SdpAnswer.str (SdpAnswer.ice_ufrag cfg)) <= 63 /\ zlen (SdpAnswer.str (SdpAnswer.ice_pwd cfg)) <= 255 /\
   zlen (SdpAnswer.str (SdpAnswer.fingerprint_algo cfg)) <= 31 /\ zlen (SdpAnswer.str (SdpAnswer.fingerprint cfg)) <= 127 /\
   zlen (SdpAnswer.str (SdpAnswer.setup cfg)) <= 31) /\
  (zlen (SdpAnswer.str (SdpAnswer.proto cfg)) <= 17 /\ zlen (SdpAnswer.str (SdpAnswer.candidate_ip cfg)) <= 63) /\
  (zlen (SdpAnswer.str (SdpAnswer.video_fmtp cfg)) <= 127 /\ zlen (SdpAnswer.str (SdpAnswer.audio_fmtp cfg)) <= 127 /\
   zlen (SdpAnswer.str (SdpAnswer.video_twcc_uri cfg)) <= 95 /\ zlen (SdpAnswer.str (SdpAnswer.audio_twcc_uri cfg)) <= 95) /\
  (zlen (SdpAnswer.sections cfg) <= 4 /\
   Forall (fun m => zlen m.1 <= 63 /\ zlen m.2 <= 31) (SdpAnswer.sections cfg)).

Lemma weigh_section cfg m :
  small cfg -> zlen m.1 <= 63 /\ zlen m.2 <= 31 -> weigh (SdpAnswer.section_lines cfg m) <= 750.
Proof.
  intros (_ & [Hp Hc] & (F1 & F2 & F3 & F4) & _) [H1 H2]. unfold SdpAnswer.section_lines.
  destruct (SdpAnswer.is_video m.1); [by apply weigh_track |].
  destruct (SdpAnswer.is_audio m.1); [by apply weigh_track | weigh].
Qed.

Lemma bundle_len (ms : list (octets * octets)) :
  Forall (fun m => zlen m.1 <= 63 /\ zlen m.2 <= 31) ms ->
  zlen (concat ((fun m => lit " " ++ m) <$> SdpAnswer.bundled ms)) <= 32 * zlen ms.
Proof.
  unfold SdpAnswer.bundled. induction 1 as [| m ms [_ Hm] _ IH]; [done |]. rewrite filter_cons, zlen_cons.
  destruct (decide _); cbn [fmap list_fmap concat]; [| lia]. rewrite !zlen_app. change (zlen (lit " ")) with 1. lia.
Qed.

Lemma weigh_answer cfg : small cfg -> zlen (SdpAnswer.text (SdpAnswer.answer_lines cfg)) < ANS_BUF.
Proof.
  intros Hs. fold (weigh (SdpAnswer.answer_lines cfg)). unfold SdpAnswer.answer_lines. rewrite weigh_app.
  pose proof Hs as ((H1 & H2 & H3 & H4 & H5) & _ & _ & Hn & Hm). pose proof (bundle_len _ Hm) as Hb.
  assert (weigh (concat (SdpAnswer.section_lines cfg <$> SdpAnswer.sections cfg)) <= 3000).
  { pose proof (weigh_all (SdpAnswer.section_lines cfg <$> SdpAnswer.sections cfg) 750) as Ha. rewrite zlen_fmap in Ha.
    enough (Forall (fun l => weigh l <= 750) (SdpAnswer.section_lines cfg <$> SdpAnswer.sections cfg)) by (specialize (Ha H); lia).
    apply Forall_fmap. apply (Forall_impl _ _ _ Hm). intros m. by apply weigh_section. }
  enough (weigh (SdpAnswer.session_lines cfg) <= 1000) by (unfold ANS_BUF; lia).
  unfold SdpAnswer.session_lines, SdpAnswer.attr_lines.
  assert (zlen (concat ((fun m => lit " " ++ m) <$> SdpAnswer.bundled (SdpAnswer.sections cfg))) <= 128) by lia.
  generalize dependent (concat ((fun m => lit " " ++ m) <$> SdpAnswer.bundled (SdpAnswer.sections cfg))). intros bs _ Hbs.
  weigh.
Qed.

(** What the session and the server certificate's fingerprint hold. *)
Definition info_fits (i : signal_info) : Prop :=
  zlen (i_ufrag i) <= 63 /\ zlen (i_pwd i) <= 255 /\ zlen (SdpAnswer.str (i_fingerprint i)) <= 127 /\
  length (i_profile i) = 3%nat /\ Forall is_u8 (i_profile i).

(** The answer of [cfg] is generated whole. *)
Definition generated (cfg : SdpAnswer.ngx_rtc_sdp_answer_t) (buf : octets) (n : Z) : Prop :=
  let t := SdpAnswer.text (SdpAnswer.answer_lines cfg) in
  SdpAnswer.ngx_rtc_sdp_generate_answer (Ref cfg) (Ref buf) ANS_BUF (Ref n) =
    Ret (NGX_RTC_OK, Ref (t ++ 0 :: zdrop (zlen t + 1) buf), Ref (zlen t)).

Lemma small_generated cfg buf n :
  zlen buf = ANS_BUF -> SdpAnswer.well_formed cfg -> small cfg -> generated cfg buf n.
Proof.
  intros Hb Hw Hs. pose proof (weigh_answer cfg Hs) as Ht. unfold generated. cbv zeta.
  unfold SdpAnswer.ngx_rtc_sdp_generate_answer, ANS_BUF in *. change (4096 =? 0) with false. cbv iota.
  rewrite SdpAnswer.write_answer_eq by (done || (unfold SdpAnswer.int_max; lia)). rewrite bind_Ret.
  unfold SdpAnswer.written. by rewrite (proj2 (Z.ltb_lt _ _) Ht).
Qed.

Lemma candidate_short c : zlen (candidate_ip_of c) <= 63.
Proof.
  unfold candidate_ip_of, Sdp.NGX_RTC_SDP_STR_LEN. destruct c as [| ip]; [done |].
  destruct (Z.eqb_spec (zlen ip) 0), (Z.leb_spec 64 (zlen ip)); try done.
  cbn [orb]. pose proof (zlen_split not_nul ip). pose proof (zlen_nonneg (suffix_of not_nul ip)). unfold c_string. lia.
Qed.

(** The sections of an answer are the offer's media descriptions, whatever the arrays held before. *)
Lemma sections_mirrored (l m a b : list octets) n :
  n = zlen l -> zlen m = zlen l -> ztake n (zip (l ++ a) (m ++ b)) = zip l m.
Proof.
  intros -> Hm. rewrite zip_with_app by (unfold zlen in *; lia). apply ztake_app_length.
  unfold zlen in *. rewrite length_zip_with. lia.
Qed.

Lemma profile_hex_len ids : Forall is_u8 ids -> exists h, profile_hex ids = Ret h /\ zlen h = 2 * zlen ids.
Proof.
  induction 1 as [| x ids Hx _ (h & E & Hl)]; [by exists [] |]. cbn [profile_hex].
  assert (Hh : 0 <= Z.shiftr x 4 < 16).
  { unfold is_u8 in Hx. rewrite Z.shiftr_div_pow2 by lia. split; [apply Z.div_pos; lia | apply Z.div_lt_upper_bound; lia]. }
  assert (Hw : 0 <= Z.land x 15 < 16).
  { change 15 with (Z.ones 4). rewrite Z.land_ones by lia. apply Z.mod_pos_bound. lia. }
  destruct (load_in hex_digits (Z.shiftr x 4)) as [a Ea]; [done |].
  destruct (load_in hex_digits (Z.land x 15)) as [b Eb]; [done |].
  exists (a :: b :: h). rewrite Ea, bind_Ret, Eb, bind_Ret, E, bind_Ret. split; [done |]. rewrite !zlen_cons. lia.
Qed.

(** A configuration over an offer that fits is small, if its video parameters are. *)
Lemma answer_cfg_small i o ta ma f b :
  info_fits i -> Sdp.offer_fits o -> zlen (SdpAnswer.str f) <= 127 ->
  let cfg := answer_cfg i (Sdp.media_type o ++ ta) (Sdp.media_mid o ++ ma) (Sdp.c_twcc_uri (Sdp.o_video o))
               (Sdp.c_twcc_uri (Sdp.o_audio o)) (zlen (Sdp.media_type o)) f b in
  SdpAnswer.well_formed cfg /\ small cfg /\ SdpAnswer.sections cfg = zip (Sdp.media_type o) (Sdp.media_mid o).
Proof.
  intros (I1 & I2 & I3 & _) (_ & (_ & _ & _ & Hv) & (_ & _ & _ & Ha) & Hn & Hm & Ht & Hmid) Hf cfg.
  pose proof (candidate_short (i_candidate_ip i)). pose proof (zlen_nonneg (Sdp.media_type o)).
  pose proof (zlen_nonneg ta). pose proof (zlen_nonneg ma). unfold Sdp.holds, Sdp.NGX_RTC_SDP_TWCC_URI_LEN in Hv, Ha.
  unfold Sdp.NGX_RTC_SDP_MAX_MEDIA in Hn.
  split; [split_and!; cbn; rewrite ?zlen_app; done || lia |].
  assert (Hsec : SdpAnswer.sections cfg = zip (Sdp.media_type o) (Sdp.media_mid o)) by by apply sections_mirrored.
  split; [| done]. unfold small. rewrite Hsec. split_and!; try (cbn; done || lia).
  - unfold zlen in *. rewrite length_zip_with. lia.
  - apply Forall_forall. intros [t m] Hin.
    pose proof (proj1 (Forall_forall _ _) Ht t (elem_of_zip_l _ _ _ _ Hin)) as [Ht1 _].
    pose proof (proj1 (Forall_forall _ _) Hmid m (elem_of_zip_r _ _ _ _ Hin)) as [Ht2 _].
    unfold Sdp.NGX_RTC_SDP_STR_LEN, Sdp.NGX_RTC_SDP_MID_LEN in *. cbn. lia.
Qed.

Lemma both_generated i o buf n :
  info_fits i -> Sdp.offer_fits o -> zlen buf = ANS_BUF ->
  (exists cfg, play_cfg i o = Ret cfg /\ generated cfg buf n /\
     SdpAnswer.sections cfg = zip (Sdp.media_type o) (Sdp.media_mid o)) /\
  generated (whip_cfg i o) buf n /\ SdpAnswer.sections (whip_cfg i o) = zip (Sdp.media_type o) (Sdp.media_mid o).
Proof.
  intros Hi Ho Hb. pose proof Hi as (_ & _ & _ & Hp3 & Hp8). split.
  - assert (Hf : exists f, zlen (SdpAnswer.str f) <= 127 /\
      play_cfg i o = Ret (answer_cfg i (mirrored (Sdp.media_type o) (SdpAnswer.media_type SdpAnswer.default_answer))
        (mirrored (Sdp.media_mid o) (SdpAnswer.media_mid SdpAnswer.default_answer))
        (Sdp.c_twcc_uri (Sdp.o_video o)) (Sdp.c_twcc_uri (Sdp.o_audio o)) (zlen (Sdp.media_type o)) f 1)).
    { unfold play_cfg. destruct (negb _); [| eexists; split; [| done]; by vm_compute].
      destruct (profile_hex_len _ Hp8) as (h & -> & Hh). rewrite !bind_Ret. eexists. split; [| done].
      cbn [SdpAnswer.str]. rewrite zlen_app, Hh. unfold zlen. rewrite Hp3. vm_compute. congruence. }
    destruct Hf as (f & Hf & ->). eexists. split; [done |].
    destruct (answer_cfg_small i o (drop (length (Sdp.media_type o)) (SdpAnswer.media_type SdpAnswer.default_answer))
      (drop (length (Sdp.media_mid o)) (SdpAnswer.media_mid SdpAnswer.default_answer)) f 1 Hi Ho Hf) as (Hw & Hs & Hsec).
    split; [by apply small_generated | done].
  - destruct (answer_cfg_small i o (replicate (4 - length (Sdp.media_type o)) []) (replicate (4 - length (Sdp.media_mid o)) [])
      (SdpAnswer.video_fmtp SdpAnswer.default_answer) (-1) Hi Ho) as (Hw & Hs & Hsec); [done |].
    split; [by apply small_generated | done].
Qed.

(** C34: for every offer the parser lets through, both requests generate their whole answer in the
    4096 octets they give it, with every value as long as its array lets it be, and answer the
    offer's media descriptions in the offer's order with its mids: their branch for an answer that
    does not fit is never taken. *)
Theorem answer_always_fits i o buf n :
  info_fits i -> Sdp.offer_fits o -> zlen buf = ANS_BUF ->
  (exists cfg, play_cfg i o = Ret cfg /\ generated cfg buf n /\
     SdpAnswer.sections cfg = zip (Sdp.media_type o) (Sdp.media_mid o)) /\
  generated (whip_cfg i o) buf n /\ SdpAnswer.sections (whip_cfg i o) = zip (Sdp.media_type o) (Sdp.media_mid o).
Proof. apply both_generated. Qed.

(** ** Concrete requests *)

#[export] Instance demo_text : NgxText := {|
  ngx_strnstr s n len := find_in (c_string (ztake len s)) n 0;
  ngx_strlchr s p last c :=
    let d := prefix_of (Sdp.not_char c) (ztake (last - p) (zdrop p s)) in
    if p + zlen d <? last then Ref (p + zlen d) else NULL;
  ngx_snprintf b max t := ztake max t ++ zdrop (zlen (ztake max t)) b
|}.

#[export] Instance demo_text_laws : NgxTextLaws.
Proof. by split. Qed.

Definition long_stream : octets := replicate 122 120.

Lemma play_name_of_url_witness :
  (exists rest, play_name (HttpBody.demo_url ++ 0 :: zeros 40) (zlen HttpBody.demo_url) (replicate 128 255) =
     ok (lit "live/cam" ++ 0 :: rest) /\ zlen (lit "live/cam" ++ 0 :: rest) = NGX_RTC_SOURCE_NAME_MAX).
Proof.
  apply (play_name_of_url (lit "webrtc") (lit "host") (lit "live") (lit "cam") (zeros 40) (replicate 128 255));
    try done; apply (bool_decide_unpack _); by vm_compute.
Defined.

Lemma play_name_unterminated_witness :
  let url := lit "webrtc://host/live/" ++ long_stream in
  exists n, play_name (url ++ 0 :: zeros 40) (zlen url) (replicate 128 255) = ok n /\
    zlen n = NGX_RTC_SOURCE_NAME_MAX /\ strlen n 0 = Fault.
Proof.
  apply (play_name_unterminated (lit "webrtc") (lit "host") (lit "live") long_stream (zeros 40) (replicate 128 255));
    try done; apply (bool_decide_unpack _); by vm_compute.
Defined.

Lemma whip_name_exact_witness :
  whip_name (lit "live") (lit "cam") (replicate 128 255) = Ret (lit "live/cam" ++ 0 :: replicate 119 255).
Proof. rewrite (proj2 (whip_name_exact (lit "live") (lit "cam") (replicate 128 255) eq_refl) eq_refl); by vm_compute. Defined.

Definition demo_info : signal_info :=
  {| i_ufrag := lit "1a2b3c4du"; i_pwd := lit "00112233445566778899aabb"; i_fingerprint := Ref (lit "AB:CD:EF");
     i_candidate_ip := NULL; i_candidate_port := NGX_CONF_UNSET; i_video_ssrc := 7; i_audio_ssrc := 8; i_video_pt := 102;
     i_audio_pt := 111; i_video_ext := 3; i_audio_ext := 0; i_profile_valid := 1; i_profile := [100; 0; 31] |}.

Definition demo_offer : Sdp.ngx_rtc_sdp_offer_t := SdpAnswer.offer_of SdpAnswer.demo_cfg.

Lemma demo_offer_fits : Sdp.offer_fits demo_offer.
Proof.
  unfold Sdp.offer_fits, Sdp.session_fits, Sdp.codec_fits, Sdp.holds.
  split_and!; try (by vm_compute); try (apply (bool_decide_unpack _); by vm_compute);
    repeat constructor; try (by vm_compute); apply (bool_decide_unpack _); by vm_compute.
Qed.

Lemma answer_always_fits_witness : generated (whip_cfg demo_info demo_offer) (zeros 4096) 0.
Proof.
  apply (answer_always_fits demo_info demo_offer (zeros 4096) 0); [| apply demo_offer_fits | by vm_compute].
  split_and!; try (by vm_compute). repeat constructor; done.
Defined.

End Signal.
