(* ===== verification/Session.v ===== *)
(** The structures of src/ngx_rtc_core.h the send path and the rate controller work
    on: the tunables, the GOP ring, the source and the session.

    A session's SRTP context is of a parameter type [Srtp]; its source pointer is the
    identity of a source, and a function that reads through it receives what the
    pointer refers to as an argument. *)

From S2P Require Import Prelude Hsm SessionFsm Jitter.
Import Hsm SessionFsm.

Module Session.

Definition NGX_RTC_RTP_HEADER_SIZE : Z := 12.
Definition NGX_RTC_RTP_MARKER : Z := 128.
Definition NGX_RTC_MAX_RTP_PKT : Z := 1214.
Definition NGX_RTC_SRTP_TAG_LEN : Z := 10.
Definition NGX_RTC_CIPHER_CAP : Z := NGX_RTC_MAX_RTP_PKT + NGX_RTC_SRTP_TAG_LEN + 32.
Definition NGX_RTC_NACK_WINDOW_MS : Z := 100.
Definition NGX_RTC_NACK_BUDGET : Z := 128.
Definition NGX_RTC_NACK_WINDOW_MAX_MS : Z := 800.
Definition NGX_RTC_EAGAIN_STREAK_MAX : Z := 3.
Definition NGX_RTC_EAGAIN_STREAK_IDLE_MS : Z := 1000.
Definition NGX_RTC_KEYFRAME_MAX_PKTS : Z := 256.
Definition NGX_RTC_GOP_RING_CAP : Z := 2048.
Definition NGX_RTC_JITTER_TIMEOUT_MS : Z := 50.

Record ngx_rtc_tunables_t := {
  jitter_timeout_ms : Z;
  nack_window_ms_ : Z;
  nack_window_max_ms : Z;
  eagain_streak_max : Z;
  gop_ring_slots : Z
}.

Definition ngx_rtc_default_tunables : ngx_rtc_tunables_t :=
  {| jitter_timeout_ms := NGX_RTC_JITTER_TIMEOUT_MS;
     nack_window_ms_ := NGX_RTC_NACK_WINDOW_MS;
     nack_window_max_ms := NGX_RTC_NACK_WINDOW_MAX_MS;
     eagain_streak_max := NGX_RTC_EAGAIN_STREAK_MAX;
     gop_ring_slots := NGX_RTC_GOP_RING_CAP |}.

(** The snapshot the accessor yields: the installed one, or the defaults. *)
Definition ngx_rtc_core_set_tunables (t : ptr ngx_rtc_tunables_t) : ngx_rtc_tunables_t :=
  match t with Ref t => t | NULL => ngx_rtc_default_tunables end.

Record ngx_rtc_rtp_cache_slot_t := {
  data : octets;
  len : Z;
  is_gop_start : Z
}.

Record ngx_rtc_rtp_ring_t := {
  slots : ptr (list ngx_rtc_rtp_cache_slot_t);
  capacity : Z;
  head : Z;
  count : Z;
  gop_start : Z
}.

Definition ring_eta (r : ngx_rtc_rtp_ring_t) : ngx_rtc_rtp_ring_t :=
  {| slots := slots r; capacity := capacity r; head := head r; count := count r;
     gop_start := gop_start r |}.
Definition set_slots := ltac:(setter ring_eta slots).
Definition set_capacity := ltac:(setter ring_eta capacity).
Definition set_head := ltac:(setter ring_eta head).
Definition set_count := ltac:(setter ring_eta count).
Definition set_gop_start := ltac:(setter ring_eta gop_start).

(** The fields of a source the modelled code uses; its subscriber queue is kept by the
    registry's queues. *)
Record ngx_rtc_source_t := {
  name : octets;
  publishing : Z;
  publisher_kind : Z;
  video_ssrc : Z;
  audio_ssrc : Z;
  source_video_pt : Z;
  source_audio_pt : Z;
  video_pkts : Z;
  video_octets : Z;
  audio_pkts : Z;
  audio_octets : Z;
  sps_profile_level_id : list Z;
  sps_profile_level_id_valid : Z;
  audio_ctx : ptr unit;
  gop : ngx_rtc_rtp_ring_t;
  jitter : Jitter.ngx_rtc_jitter_t;
  shm_src : ptr Z;
  shm_sync_ms : Z;
  pli_sent_ms : Z;
  pli_requests : Z;
  snap_version : Z;
  snap : list (Z * Z);
  ring_drops : Z
}.

Definition source_eta (s : ngx_rtc_source_t) : ngx_rtc_source_t :=
  {| name := name s; publishing := publishing s; publisher_kind := publisher_kind s;
     video_ssrc := video_ssrc s; audio_ssrc := audio_ssrc s;
     source_video_pt := source_video_pt s; source_audio_pt := source_audio_pt s;
     video_pkts := video_pkts s; video_octets := video_octets s;
     audio_pkts := audio_pkts s; audio_octets := audio_octets s;
     sps_profile_level_id := sps_profile_level_id s;
     sps_profile_level_id_valid := sps_profile_level_id_valid s;
     audio_ctx := audio_ctx s; gop := gop s; jitter := jitter s;
     shm_src := shm_src s; shm_sync_ms := shm_sync_ms s;
     pli_sent_ms := pli_sent_ms s; pli_requests := pli_requests s; snap_version := snap_version s;
     snap := snap s; ring_drops := ring_drops s |}.
Definition set_name := ltac:(setter source_eta name).
Definition set_publishing := ltac:(setter source_eta publishing).
Definition set_publisher_kind := ltac:(setter source_eta publisher_kind).
Definition set_video_ssrc := ltac:(setter source_eta video_ssrc).
Definition set_audio_ssrc := ltac:(setter source_eta audio_ssrc).
Definition set_source_video_pt := ltac:(setter source_eta source_video_pt).
Definition set_source_audio_pt := ltac:(setter source_eta source_audio_pt).
Definition set_audio_ctx := ltac:(setter source_eta audio_ctx).
Definition set_gop := ltac:(setter source_eta gop).
Definition set_jitter := ltac:(setter source_eta jitter).
Definition set_shm_src := ltac:(setter source_eta shm_src).
Definition set_shm_sync_ms := ltac:(setter source_eta shm_sync_ms).
Definition set_pli_sent_ms := ltac:(setter source_eta pli_sent_ms).
Definition set_pli_requests := ltac:(setter source_eta pli_requests).
Definition set_video_pkts := ltac:(setter source_eta video_pkts).
Definition set_video_octets := ltac:(setter source_eta video_octets).
Definition set_audio_pkts := ltac:(setter source_eta audio_pkts).
Definition set_audio_octets := ltac:(setter source_eta audio_octets).
Definition set_snap_version := ltac:(setter source_eta snap_version).
Definition set_snap := ltac:(setter source_eta snap).
Definition set_ring_drops := ltac:(setter source_eta ring_drops).

(** The source [ngx_calloc] hands out. *)
Definition zero_source : ngx_rtc_source_t :=
  {| name := []; publishing := 0; publisher_kind := 0; video_ssrc := 0; audio_ssrc := 0;
     source_video_pt := 0; source_audio_pt := 0; video_pkts := 0; video_octets := 0;
     audio_pkts := 0; audio_octets := 0;
     sps_profile_level_id := [0; 0; 0]; sps_profile_level_id_valid := 0; audio_ctx := NULL;
     gop := {| slots := NULL; capacity := 0; head := 0; count := 0; gop_start := 0 |};
     jitter := Jitter.zero_jitter; shm_src := NULL; shm_sync_ms := 0; pli_sent_ms := 0; pli_requests := 0;
     snap_version := 0; snap := []; ring_drops := 0 |}.

Section session.
Context {Srtp : Type}.

Record ngx_rtc_session_t := {
  source : ptr Z;
  video_pt : Z;
  audio_pt : Z;
  twcc_video_ext : Z;
  twcc_audio_ext : Z;
  twcc_seq : Z;
  twcc_lost : Z;
  twcc_received : Z;
  drop_gop : Z;
  drop_pacer : Z;
  srtp_failed : Z;
  sess_publishing : Z;
  id : Z;
  ice_ufrag : octets;
  ice_pwd : octets;
  last_active : Z;
  sn_str_len : Z;
  srtp : Srtp;
  fsm : ngx_rtc_hsm session_object unit unit;
  conn : ptr Z;
  cipher : octets;
  send_failed : Z;
  send_eagain : Z;
  drop_until_gop : Z;
  send_eagain_streak : Z;
  send_eagain_ms : Z;
  keyframe_open : Z;
  keyframe_pkts : Z;
  nack_window_start : Z;
  nack_window_ms : Z;
  nack_retransmitted : Z;
  nack_seen : list Z;
  nack_seen_count : Z;
  pacer_started : Z;
  pacer_target_bps : Z;
  pacer_tokens : Z;
  pacer_last_ms : Z;
  twcc_win_lost : Z;
  twcc_win_received : Z;
  twcc_win_started : Z;
  twcc_win_start_ms : Z
}.

Definition eta (s : ngx_rtc_session_t) : ngx_rtc_session_t :=
  {| source := source s; video_pt := video_pt s; audio_pt := audio_pt s;
     twcc_video_ext := twcc_video_ext s; twcc_audio_ext := twcc_audio_ext s;
     twcc_seq := twcc_seq s; twcc_lost := twcc_lost s; twcc_received := twcc_received s;
     drop_gop := drop_gop s; drop_pacer := drop_pacer s; srtp_failed := srtp_failed s;
     sess_publishing := sess_publishing s;
     id := id s; ice_ufrag := ice_ufrag s; ice_pwd := ice_pwd s;
     last_active := last_active s; sn_str_len := sn_str_len s; srtp := srtp s; fsm := fsm s; conn := conn s;
     cipher := cipher s; send_failed := send_failed s; send_eagain := send_eagain s;
     drop_until_gop := drop_until_gop s; send_eagain_streak := send_eagain_streak s;
     send_eagain_ms := send_eagain_ms s; keyframe_open := keyframe_open s;
     keyframe_pkts := keyframe_pkts s; nack_window_start := nack_window_start s;
     nack_window_ms := nack_window_ms s; nack_retransmitted := nack_retransmitted s;
     nack_seen := nack_seen s; nack_seen_count := nack_seen_count s;
     pacer_started := pacer_started s; pacer_target_bps := pacer_target_bps s;
     pacer_tokens := pacer_tokens s; pacer_last_ms := pacer_last_ms s;
     twcc_win_lost := twcc_win_lost s; twcc_win_received := twcc_win_received s;
     twcc_win_started := twcc_win_started s; twcc_win_start_ms := twcc_win_start_ms s |}.
Definition set_source := ltac:(setter eta source).
Definition set_video_pt := ltac:(setter eta video_pt).
Definition set_audio_pt := ltac:(setter eta audio_pt).
Definition set_twcc_video_ext := ltac:(setter eta twcc_video_ext).
Definition set_twcc_audio_ext := ltac:(setter eta twcc_audio_ext).
Definition set_id := ltac:(setter eta id).
Definition set_sn_str_len := ltac:(setter eta sn_str_len).
Definition set_ice_ufrag := ltac:(setter eta ice_ufrag).
Definition set_ice_pwd := ltac:(setter eta ice_pwd).
Definition set_last_active := ltac:(setter eta last_active).
Definition set_fsm := ltac:(setter eta fsm).
Definition set_conn := ltac:(setter eta conn).
Definition set_twcc_seq := ltac:(setter eta twcc_seq).
Definition set_twcc_lost := ltac:(setter eta twcc_lost).
Definition set_twcc_received := ltac:(setter eta twcc_received).
Definition set_drop_gop := ltac:(setter eta drop_gop).
Definition set_drop_pacer := ltac:(setter eta drop_pacer).
Definition set_srtp_failed := ltac:(setter eta srtp_failed).
Definition set_sess_publishing := ltac:(setter eta sess_publishing).
Definition set_srtp := ltac:(setter eta srtp).
Definition set_cipher := ltac:(setter eta cipher).
Definition set_send_failed := ltac:(setter eta send_failed).
Definition set_send_eagain := ltac:(setter eta send_eagain).
Definition set_drop_until_gop := ltac:(setter eta drop_until_gop).
Definition set_send_eagain_streak := ltac:(setter eta send_eagain_streak).
Definition set_send_eagain_ms := ltac:(setter eta send_eagain_ms).
Definition set_keyframe_open := ltac:(setter eta keyframe_open).
Definition set_keyframe_pkts := ltac:(setter eta keyframe_pkts).
Definition set_nack_window_start := ltac:(setter eta nack_window_start).
Definition set_nack_window_ms := ltac:(setter eta nack_window_ms).
Definition set_nack_retransmitted := ltac:(setter eta nack_retransmitted).
Definition set_nack_seen := ltac:(setter eta nack_seen).
Definition set_nack_seen_count := ltac:(setter eta nack_seen_count).
Definition set_pacer_started := ltac:(setter eta pacer_started).
Definition set_pacer_target_bps := ltac:(setter eta pacer_target_bps).
Definition set_pacer_tokens := ltac:(setter eta pacer_tokens).
Definition set_pacer_last_ms := ltac:(setter eta pacer_last_ms).
Definition set_twcc_win_lost := ltac:(setter eta twcc_win_lost).
Definition set_twcc_win_received := ltac:(setter eta twcc_win_received).
Definition set_twcc_win_started := ltac:(setter eta twcc_win_started).
Definition set_twcc_win_start_ms := ltac:(setter eta twcc_win_start_ms).

(** The session [ngx_calloc] hands out. *)
Definition zero_session (c : Srtp) : ngx_rtc_session_t :=
  {| source := NULL; video_pt := 0; audio_pt := 0; twcc_video_ext := 0;
     twcc_audio_ext := 0; twcc_seq := 0; twcc_lost := 0; twcc_received := 0;
     drop_gop := 0; drop_pacer := 0; srtp_failed := 0; sess_publishing := 0; id := 0; ice_ufrag := []; ice_pwd := [];
     last_active := 0; sn_str_len := 0;
     srtp := c; fsm := SessionFsm.blank; conn := NULL;
     cipher := zeros NGX_RTC_CIPHER_CAP; send_failed := 0; send_eagain := 0;
     drop_until_gop := 0; send_eagain_streak := 0; send_eagain_ms := 0;
     keyframe_open := 0; keyframe_pkts := 0; nack_window_start := 0;
     nack_window_ms := 0; nack_retransmitted := 0;
     nack_seen := zeros NGX_RTC_NACK_BUDGET; nack_seen_count := 0; pacer_started := 0;
     pacer_target_bps := 0; pacer_tokens := 0; pacer_last_ms := 0; twcc_win_lost := 0;
     twcc_win_received := 0; twcc_win_started := 0; twcc_win_start_ms := 0 |}.

End session.

#[global] Arguments ngx_rtc_session_t : clear implicits.
End Session.
