(* ===== verification/Pacer.v ===== *)
(** Send pacing and loss-driven rate control of src/ngx_rtc_core.c: the token bucket
    (pacer_init, pacer_admit, pacer_cap) and the transport-cc controller (on_twcc).

    The theorems: the bucket and the target stay in range under every operation, the
    admitted traffic is bounded by a token-bucket envelope, an idle burst window is
    enough for any packet, and the controller reaches its bounds. *)

From S2P Require Import Prelude Session.
Import Session.

Module Pacer.

Definition NGX_RTC_PACER_MIN_BPS : Z := 64000.
Definition NGX_RTC_PACER_MAX_BPS : Z := 8000000.
Definition NGX_RTC_PACER_BURST_MS : Z := 100.
Definition NGX_RTC_TWCC_WINDOW_MS : Z := 500.
Definition NGX_RTC_TWCC_MIN_PKTS : Z := 20.
Definition NGX_RTC_TWCC_LOSS_HIGH_PM : Z := 50.
Definition NGX_RTC_TWCC_LOSS_LOW_PM : Z := 20.
Definition NGX_RTC_TWCC_DECREASE_NUM : Z := 85.
Definition NGX_RTC_TWCC_DECREASE_DEN : Z := 100.
Definition NGX_RTC_TWCC_INCREASE_NUM : Z := 8.
Definition NGX_RTC_TWCC_INCREASE_DEN : Z := 100.

Section pacer.
Context {Srtp : Type}.
Abbreviation session := (ngx_rtc_session_t Srtp).

Definition ngx_rtc_pacer_bucket_bytes (sess : session) : Z :=
  let bytes := u64 (pacer_target_bps sess * NGX_RTC_PACER_BURST_MS) / 8000 in
  if bytes <? NGX_RTC_MAX_RTP_PKT then NGX_RTC_MAX_RTP_PKT else bytes.

Definition ngx_rtc_session_pacer_init (sess : ptr session) (start_bps : Z) : ptr session :=
  match sess with
  | NULL => NULL
  | Ref s =>
      let start_bps := if start_bps <? NGX_RTC_PACER_MIN_BPS then NGX_RTC_PACER_MIN_BPS
                       else if NGX_RTC_PACER_MAX_BPS <? start_bps then NGX_RTC_PACER_MAX_BPS
                       else start_bps in
      let s := set_pacer_target_bps start_bps s in
      Ref (s |> set_pacer_tokens (ngx_rtc_pacer_bucket_bytes s)
             |> set_pacer_last_ms 0 |> set_pacer_started 0)
  end.

Definition ngx_rtc_session_pacer_admit (sess : ptr session) (pkt_bytes now_ms : Z)
    : Z * ptr session :=
  match sess with
  | NULL => (NGX_RTC_ERR_INVALID, NULL)
  | Ref s =>
      let capacity := ngx_rtc_pacer_bucket_bytes s in
      let s :=
        if pacer_started s =? 0 then
          s |> set_pacer_started 1 |> set_pacer_last_ms now_ms
        else if pacer_last_ms s <=? now_ms then
          let delta_ms := now_ms - pacer_last_ms s in
          let refill := if NGX_RTC_PACER_BURST_MS <=? delta_ms then capacity
                        else u64 (delta_ms * pacer_target_bps s) / 8000 in
          let tokens := u64 (pacer_tokens s + refill) in
          s |> set_pacer_last_ms now_ms
            |> set_pacer_tokens (if capacity <? tokens then capacity else tokens)
        else set_pacer_last_ms now_ms s in
      if pacer_tokens s <? pkt_bytes then (NGX_RTC_AGAIN, Ref s)
      else (NGX_RTC_OK, Ref (set_pacer_tokens (pacer_tokens s - pkt_bytes) s))
  end.

Definition ngx_rtc_session_pacer_cap (sess : ptr session) (bps : Z) : ptr session :=
  match sess with
  | NULL => NULL
  | Ref s =>
      let bps := if bps <? NGX_RTC_PACER_MIN_BPS then NGX_RTC_PACER_MIN_BPS
                 else if NGX_RTC_PACER_MAX_BPS <? bps then NGX_RTC_PACER_MAX_BPS
                 else bps in
      if pacer_target_bps s <=? bps then Ref s
      else
        let s := set_pacer_target_bps bps s in
        let capacity := ngx_rtc_pacer_bucket_bytes s in
        Ref (if capacity <? pacer_tokens s then set_pacer_tokens capacity s else s)
  end.

(** The end of a controller window: counters cleared, anchor moved. *)
Definition twcc_window_reset (now_ms : Z) (s : session) : session :=
  s |> set_twcc_win_lost 0 |> set_twcc_win_received 0 |> set_twcc_win_start_ms now_ms.

Definition ngx_rtc_session_on_twcc (sess : ptr session) (lost received now_ms : Z)
    : ptr session :=
  match sess with
  | NULL => NULL
  | Ref s =>
      let s := s |> set_twcc_lost (u32 (twcc_lost s + lost))
                 |> set_twcc_received (u32 (twcc_received s + received))
                 |> set_twcc_win_lost (u32 (twcc_win_lost s + lost))
                 |> set_twcc_win_received (u32 (twcc_win_received s + received)) in
      let total := twcc_win_lost s + twcc_win_received s in
      if total =? 0 then Ref s
      else if twcc_win_started s =? 0 then
        Ref (s |> set_twcc_win_started 1 |> set_twcc_win_start_ms now_ms)
      else
        let delta_ms := if twcc_win_start_ms s <=? now_ms
                        then now_ms - twcc_win_start_ms s else 0 in
        if (delta_ms <? NGX_RTC_TWCC_WINDOW_MS) && (total <? NGX_RTC_TWCC_MIN_PKTS)
        then Ref s
        else
          let target := pacer_target_bps s in
          if target =? 0 then Ref (twcc_window_reset now_ms s)
          else
            let loss_permille := twcc_win_lost s * 1000 / total in
            let target :=
              if NGX_RTC_TWCC_LOSS_HIGH_PM <? loss_permille then
                u64 (target * NGX_RTC_TWCC_DECREASE_NUM) / NGX_RTC_TWCC_DECREASE_DEN
              else if loss_permille <? NGX_RTC_TWCC_LOSS_LOW_PM then
                u64 (target + u64 (target * NGX_RTC_TWCC_INCREASE_NUM)
                              / NGX_RTC_TWCC_INCREASE_DEN)
              else target in
            let target := if target <? NGX_RTC_PACER_MIN_BPS then NGX_RTC_PACER_MIN_BPS
                          else if NGX_RTC_PACER_MAX_BPS <? target
                               then NGX_RTC_PACER_MAX_BPS else target in
            let s := set_pacer_target_bps target s in
            let capacity := ngx_rtc_pacer_bucket_bytes s in
            let s := if capacity <? pacer_tokens s then set_pacer_tokens capacity s else s in
            Ref (twcc_window_reset now_ms s)
  end.

(** ** Invariant *)

Record pacer_ok (s : session) : Prop := {
  ok_target : NGX_RTC_PACER_MIN_BPS <= pacer_target_bps s <= NGX_RTC_PACER_MAX_BPS;
  ok_tokens : 0 <= pacer_tokens s <= ngx_rtc_pacer_bucket_bytes s
}.

Lemma bucket_eq s :
  NGX_RTC_PACER_MIN_BPS <= pacer_target_bps s <= NGX_RTC_PACER_MAX_BPS ->
  ngx_rtc_pacer_bucket_bytes s = Z.max 1214 (pacer_target_bps s * 100 / 8000).
Proof.
  unfold NGX_RTC_PACER_MIN_BPS, NGX_RTC_PACER_MAX_BPS, ngx_rtc_pacer_bucket_bytes,
    NGX_RTC_PACER_BURST_MS, NGX_RTC_MAX_RTP_PKT. intros H.
  rewrite u64_small by (unfold is_u64; lia). zcase.
Qed.

Lemma bucket_ext s s' :
  pacer_target_bps s = pacer_target_bps s' ->
  ngx_rtc_pacer_bucket_bytes s = ngx_rtc_pacer_bucket_bytes s'.
Proof. intros H. unfold ngx_rtc_pacer_bucket_bytes. by rewrite H. Qed.

Lemma bucket_range s :
  NGX_RTC_PACER_MIN_BPS <= pacer_target_bps s <= NGX_RTC_PACER_MAX_BPS ->
  1214 <= ngx_rtc_pacer_bucket_bytes s <= 100000.
Proof.
  intros H. rewrite bucket_eq by done.
  unfold NGX_RTC_PACER_MIN_BPS, NGX_RTC_PACER_MAX_BPS in H.
  Z.div_mod_to_equations. lia.
Qed.

Lemma pacer_init_ok s bps s' :
  ngx_rtc_session_pacer_init (Ref s) bps = Ref s' -> pacer_ok s' /\ pacer_started s' = 0 /\
  pacer_tokens s' = ngx_rtc_pacer_bucket_bytes s'.
Proof.
  cbn. intros [= <-].
  set (t := if bps <? NGX_RTC_PACER_MIN_BPS then _ else _).
  assert (Ht : NGX_RTC_PACER_MIN_BPS <= t <= NGX_RTC_PACER_MAX_BPS).
  { unfold t. unfold NGX_RTC_PACER_MIN_BPS, NGX_RTC_PACER_MAX_BPS. zcase. }
  split; [| done]. split; [exact Ht |].
  cbn. change (ngx_rtc_pacer_bucket_bytes (set_pacer_started 0 _))
    with (ngx_rtc_pacer_bucket_bytes (set_pacer_target_bps t s)).
  pose proof (bucket_range (set_pacer_target_bps t s) Ht). split; [lia | done].
Qed.

(** The bucket once the elapsed time has been credited. *)
Definition credited (s : session) (now : Z) : Z :=
  let capacity := ngx_rtc_pacer_bucket_bytes s in
  if pacer_started s =? 0 then pacer_tokens s
  else if pacer_last_ms s <=? now then
    let d := now - pacer_last_ms s in
    Z.min capacity (pacer_tokens s + if 100 <=? d then capacity
                                     else d * pacer_target_bps s / 8000)
  else pacer_tokens s.

Definition clocked (s : session) (now tokens : Z) : session :=
  s |> set_pacer_started (if pacer_started s =? 0 then 1 else pacer_started s)
    |> set_pacer_last_ms now |> set_pacer_tokens tokens.

Lemma admit_eq s n now :
  pacer_ok s ->
  ngx_rtc_session_pacer_admit (Ref s) n now
  = let t := credited s now in
    if t <? n then (NGX_RTC_AGAIN, Ref (clocked s now t))
    else (NGX_RTC_OK, Ref (clocked s now (t - n))).
Proof.
  intros [Htgt Htok]. pose proof (bucket_range s Htgt) as Hb.
  unfold NGX_RTC_PACER_MIN_BPS, NGX_RTC_PACER_MAX_BPS in Htgt.
  unfold ngx_rtc_session_pacer_admit, credited, clocked. cbv zeta.
  destruct (pacer_started s =? 0) eqn:E; [by destruct s |].
  destruct (Z.leb_spec (pacer_last_ms s) now); [| by destruct s].
  unfold NGX_RTC_PACER_BURST_MS. set (cap := ngx_rtc_pacer_bucket_bytes s) in *.
  set (d := now - pacer_last_ms s). assert (Hd : 0 <= d) by (unfold d; lia).
  set (refill := if 100 <=? d then cap else d * pacer_target_bps s / 8000).
  assert (Hr : 0 <= refill <= 100000).
  { unfold refill. destruct (Z.leb_spec 100 d); [lia |].
    split; [apply Z.div_pos; nia | apply Z.div_le_upper_bound; nia]. }
  assert (Hr' : (if 100 <=? d then cap else u64 (d * pacer_target_bps s) / 8000) = refill).
  { unfold refill. destruct (Z.leb_spec 100 d); [done |].
    by rewrite u64_small by (unfold is_u64; nia). }
  rewrite Hr', u64_small by (unfold is_u64; lia).
  assert (Hm : (if cap <? pacer_tokens s + refill then cap else pacer_tokens s + refill)
               = Z.min cap (pacer_tokens s + refill)) by zcase.
  rewrite Hm. by destruct s.
Qed.

Lemma credited_range s now :
  pacer_ok s -> 0 <= credited s now <= ngx_rtc_pacer_bucket_bytes s.
Proof.
  intros [Htgt Htok]. pose proof (bucket_range s Htgt) as Hb. unfold credited. cbv zeta.
  destruct (_ =? 0); [done |]. destruct (Z.leb_spec (pacer_last_ms s) now); [| done].
  unfold NGX_RTC_PACER_MIN_BPS in Htgt.
  assert (0 <= (now - pacer_last_ms s) * pacer_target_bps s / 8000) by (apply Z.div_pos; nia).
  destruct (100 <=? _); lia.
Qed.

Lemma clocked_ok s now t :
  pacer_ok s -> 0 <= t <= ngx_rtc_pacer_bucket_bytes s -> pacer_ok (clocked s now t).
Proof. intros [Htgt _] Ht. by split. Qed.

Lemma admit_ok s n now r s' :
  pacer_ok s -> 0 <= n -> ngx_rtc_session_pacer_admit (Ref s) n now = (r, Ref s') ->
  pacer_ok s' /\ pacer_target_bps s' = pacer_target_bps s.
Proof.
  intros Hs Hn. rewrite admit_eq by done. cbv zeta. pose proof (credited_range s now Hs).
  destruct (Z.ltb_spec (credited s now) n); intros [= <- <-];
    (split; [apply clocked_ok; [done | lia] | done]).
Qed.

(** Time credits at most the rate, and at the lowest rates at most one full-size packet
    per burst window. *)
Definition envelope_bps (s : session) : Z := Z.max (pacer_target_bps s) 97120.

Lemma credited_bound s now :
  pacer_ok s -> pacer_started s <> 0 -> pacer_last_ms s <= now ->
  8000 * credited s now
  <= 8000 * pacer_tokens s + envelope_bps s * (now - pacer_last_ms s).
Proof.
  intros [Htgt Htok] Hst Hnow. unfold credited. cbv zeta.
  destruct (Z.eqb_spec (pacer_started s) 0); [done |].
  destruct (Z.leb_spec (pacer_last_ms s) now); [| lia].
  rewrite bucket_eq in * by done. unfold envelope_bps.
  unfold NGX_RTC_PACER_MIN_BPS, NGX_RTC_PACER_MAX_BPS in Htgt.
  set (d := now - pacer_last_ms s) in *. set (tgt := pacer_target_bps s) in *.
  assert (Hcap : 8000 * Z.max 1214 (tgt * 100 / 8000) <= Z.max tgt 97120 * 100)
    by (Z.div_mod_to_equations; lia).
  destruct (Z.leb_spec 100 d).
  - assert (Z.max tgt 97120 * 100 <= Z.max tgt 97120 * d) by nia. lia.
  - assert (8000 * (d * tgt / 8000) <= d * tgt) by (apply Z.mul_div_le; lia).
    assert (d * tgt <= Z.max tgt 97120 * d) by nia. lia.
Qed.

(** Offering packets of the given sizes at the given times; the bytes admitted. *)
Fixpoint paced (s : session) (l : list (Z * Z)) : Z * session :=
  match l with
  | [] => (0, s)
  | (n, now) :: l =>
      match ngx_rtc_session_pacer_admit (Ref s) n now with
      | (r, Ref s') =>
          let '(a, s'') := paced s' l in ((if r =? NGX_RTC_OK then n else 0) + a, s'')
      | (_, NULL) => (0, s)
      end
  end.

(** The clock readings never decrease from [t] on, and end at [t']. *)
Inductive clock : Z -> list (Z * Z) -> Z -> Prop :=
| clock_nil t : clock t [] t
| clock_cons t n now l t' : t <= now -> 0 <= n -> clock now l t' -> clock t ((n, now) :: l) t'.

Lemma paced_bound l : forall s t',
  pacer_ok s -> pacer_started s <> 0 -> clock (pacer_last_ms s) l t' ->
  8000 * (paced s l).1 + 8000 * pacer_tokens (paced s l).2
  <= 8000 * pacer_tokens s + envelope_bps s * (t' - pacer_last_ms s).
Proof.
  induction l as [| [n now] l IH]; intros s t' Hs Hst Hc.
  { inversion Hc. subst. cbn. lia. }
  inversion Hc as [| ? ? ? ? ? Hnow Hn Hc']. subst. cbn [paced].
  rewrite admit_eq by done. cbv zeta.
  pose proof (credited_bound s now Hs Hst Hnow) as Hcb.
  pose proof (credited_range s now Hs) as Hcr.
  assert (Hst' : forall x, pacer_started (clocked s now x) <> 0).
  { intros x. cbn. by destruct (Z.eqb_spec (pacer_started s) 0). }
  destruct (Z.ltb_spec (credited s now) n) as [Hlt | Hge].
  - specialize (IH (clocked s now (credited s now)) t'
      (clocked_ok s now _ Hs Hcr) (Hst' _) Hc').
    destruct (paced _ l) as [a s'']. cbn in IH |- *. unfold envelope_bps in *. cbn in IH. lia.
  - assert (Hcr' : 0 <= credited s now - n <= ngx_rtc_pacer_bucket_bytes s) by lia.
    specialize (IH (clocked s now (credited s now - n)) t' (clocked_ok s now _ Hs Hcr') (Hst' _) Hc').
    destruct (paced _ l) as [a s'']. cbn in IH |- *. unfold envelope_bps in *. cbn in IH. lia.
Qed.

Lemma paced_tokens l : forall s t',
  pacer_ok s -> clock (pacer_last_ms s) l t' -> pacer_ok (paced s l).2.
Proof.
  induction l as [| [n now] l IH]; intros s t' Hs Hc; [done |].
  inversion Hc as [| ? ? ? ? ? Hnow Hn Hc']. subst. cbn [paced].
  rewrite admit_eq by done. cbv zeta. pose proof (credited_range s now Hs) as Hcr.
  destruct (Z.ltb_spec (credited s now) n).
  - specialize (IH (clocked s now (credited s now)) t'
      (clocked_ok s now _ Hs Hcr) Hc'). by destruct (paced _ l).
  - assert (Hcr' : 0 <= credited s now - n <= ngx_rtc_pacer_bucket_bytes s) by lia.
    specialize (IH (clocked s now (credited s now - n)) t' (clocked_ok s now _ Hs Hcr') Hc'). by destruct (paced _ l).
Qed.

(** *** The controller *)

Definition clamp (t : Z) : Z :=
  Z.max NGX_RTC_PACER_MIN_BPS (Z.min NGX_RTC_PACER_MAX_BPS t).

(** The next target for a window of [lost] among [total] packets. *)
Definition aimd (lost total t : Z) : Z :=
  let loss := lost * 1000 / total in
  if 50 <? loss then clamp (t * 85 / 100)
  else if loss <? 20 then clamp (t + t * 8 / 100)
  else t.

(** Feedback that closes a controller window at [now]. *)
Definition closes (s : session) (lost received now : Z) : Prop :=
  twcc_win_started s <> 0 /\ 0 <= lost /\ 0 <= received /\
  let l := twcc_win_lost s + lost in
  let r := twcc_win_received s + received in
  0 <= twcc_win_lost s /\ 0 <= twcc_win_received s /\ is_u32 l /\ is_u32 r /\ 0 < l + r /\
  (20 <= l + r \/ twcc_win_start_ms s + 500 <= now).

Definition opened (s : session) : Prop :=
  twcc_win_started s <> 0 /\ twcc_win_lost s = 0 /\ twcc_win_received s = 0.

Lemma clamp_range t : NGX_RTC_PACER_MIN_BPS <= clamp t <= NGX_RTC_PACER_MAX_BPS.
Proof. unfold clamp, NGX_RTC_PACER_MIN_BPS, NGX_RTC_PACER_MAX_BPS. lia. Qed.

Lemma clamp_id t :
  NGX_RTC_PACER_MIN_BPS <= t <= NGX_RTC_PACER_MAX_BPS -> clamp t = t.
Proof. unfold clamp. lia. Qed.

Lemma aimd_range lost total t :
  NGX_RTC_PACER_MIN_BPS <= t <= NGX_RTC_PACER_MAX_BPS ->
  NGX_RTC_PACER_MIN_BPS <= aimd lost total t <= NGX_RTC_PACER_MAX_BPS.
Proof.
  intros H. unfold aimd. destruct (50 <? _); [apply clamp_range |].
  destruct (_ <? 20); [apply clamp_range | done].
Qed.

(** The code's three-way target update is [aimd]. *)
Lemma aimd_code lost total t :
  NGX_RTC_PACER_MIN_BPS <= t <= NGX_RTC_PACER_MAX_BPS ->
  (let t' := if NGX_RTC_TWCC_LOSS_HIGH_PM <? lost * 1000 / total
             then u64 (t * NGX_RTC_TWCC_DECREASE_NUM) / NGX_RTC_TWCC_DECREASE_DEN
             else if lost * 1000 / total <? NGX_RTC_TWCC_LOSS_LOW_PM
                  then u64 (t + u64 (t * NGX_RTC_TWCC_INCREASE_NUM)
                                  / NGX_RTC_TWCC_INCREASE_DEN)
                  else t in
   if t' <? NGX_RTC_PACER_MIN_BPS then NGX_RTC_PACER_MIN_BPS
   else if NGX_RTC_PACER_MAX_BPS <? t' then NGX_RTC_PACER_MAX_BPS else t')
  = aimd lost total t.
Proof.
  intros H. pose proof (clamp_id t H) as Hid. revert H.
  unfold aimd, NGX_RTC_TWCC_LOSS_HIGH_PM, NGX_RTC_TWCC_LOSS_LOW_PM,
    NGX_RTC_TWCC_DECREASE_NUM, NGX_RTC_TWCC_DECREASE_DEN, NGX_RTC_TWCC_INCREASE_NUM,
    NGX_RTC_TWCC_INCREASE_DEN. intros H.
  set (loss := lost * 1000 / total). clearbody loss. cbv zeta.
  unfold NGX_RTC_PACER_MIN_BPS, NGX_RTC_PACER_MAX_BPS in *.
  rewrite (u64_small (t * 85)), (u64_small (t * 8)) by (unfold is_u64; lia).
  assert (0 <= t * 8 / 100 <= 8000000) by (Z.div_mod_to_equations; lia).
  rewrite u64_small by (unfold is_u64; lia).
  unfold clamp, NGX_RTC_PACER_MIN_BPS, NGX_RTC_PACER_MAX_BPS in *.
  destruct (50 <? loss); [zcase |]. destruct (loss <? 20); zcase.
Qed.

(** A new target, with the bucket cut to it. *)
Definition retargeted (t : Z) (s : session) : session :=
  let s := set_pacer_target_bps t s in
  let capacity := ngx_rtc_pacer_bucket_bytes s in
  if capacity <? pacer_tokens s then set_pacer_tokens capacity s else s.

Lemma retargeted_target t s : pacer_target_bps (retargeted t s) = t.
Proof. unfold retargeted. cbv zeta. by destruct (_ <? _). Qed.

Lemma retargeted_ok t s :
  NGX_RTC_PACER_MIN_BPS <= t <= NGX_RTC_PACER_MAX_BPS -> 0 <= pacer_tokens s ->
  pacer_ok (retargeted t s).
Proof.
  intros Ht Htok. split; rewrite ?retargeted_target; [done |].
  rewrite (bucket_ext _ (set_pacer_target_bps t s)) by (by rewrite retargeted_target).
  pose proof (bucket_range (set_pacer_target_bps t s) Ht).
  unfold retargeted. cbv zeta. destruct (Z.ltb_spec (ngx_rtc_pacer_bucket_bytes
    (set_pacer_target_bps t s)) (pacer_tokens (set_pacer_target_bps t s)));
    cbn [pacer_tokens set_pacer_tokens set_pacer_target_bps] in *; lia.
Qed.

Lemma window_reset_ok now s : pacer_ok s -> pacer_ok (twcc_window_reset now s).
Proof. by intros [H1 H2]. Qed.

Lemma on_twcc_closes s lost received now :
  pacer_ok s -> closes s lost received now ->
  exists s', ngx_rtc_session_on_twcc (Ref s) lost received now = Ref s' /\
    pacer_ok s' /\ opened s' /\ twcc_win_start_ms s' = now /\
    pacer_target_bps s'
    = aimd (twcc_win_lost s + lost)
        (twcc_win_lost s + lost + (twcc_win_received s + received)) (pacer_target_bps s).
Proof.
  intros [Htgt Htok] (Hst & Hl0 & Hr0 & Hwl & Hwr & Hl & Hr & Htot & Hclose).
  unfold ngx_rtc_session_on_twcc. cbv zeta.
  cbn [twcc_win_lost twcc_win_received twcc_win_started twcc_win_start_ms pacer_target_bps
       set_twcc_win_received set_twcc_win_lost set_twcc_received set_twcc_lost].
  rewrite !(u32_small (twcc_win_lost s + lost)), !(u32_small (twcc_win_received s + received))
    by done.
  set (l := twcc_win_lost s + lost) in *. set (r := twcc_win_received s + received) in *.
  destruct (Z.eqb_spec (l + r) 0); [lia |].
  destruct (Z.eqb_spec (twcc_win_started s) 0); [done |].
  assert (Hd : ((if twcc_win_start_ms s <=? now then now - twcc_win_start_ms s else 0)
                 <? NGX_RTC_TWCC_WINDOW_MS) && (l + r <? NGX_RTC_TWCC_MIN_PKTS) = false).
  { unfold NGX_RTC_TWCC_WINDOW_MS, NGX_RTC_TWCC_MIN_PKTS. apply andb_false_iff.
    destruct Hclose; [right; lia | left]. destruct (Z.leb_spec (twcc_win_start_ms s) now); lia. }
  rewrite Hd. destruct (Z.eqb_spec (pacer_target_bps s) 0);
    [unfold NGX_RTC_PACER_MIN_BPS in Htgt; lia |].
  pose proof (aimd_code l (l + r) (pacer_target_bps s) Htgt) as Ha. cbv zeta in Ha.
  rewrite Ha. set (t := aimd _ _ _).
  assert (Ht : NGX_RTC_PACER_MIN_BPS <= t <= NGX_RTC_PACER_MAX_BPS) by by apply aimd_range.
  match goal with |- context [set_pacer_target_bps t ?x] => set (s1 := x) end.
  fold (retargeted t s1). exists (twcc_window_reset now (retargeted t s1)).
  split; [done |]. split_and!.
  - apply window_reset_ok, retargeted_ok; [done |]. by destruct Htok.
  - unfold opened, retargeted. cbv zeta.
    match goal with |- context [if ?c then _ else _] => by destruct c end.
  - done.
  - apply (retargeted_target t s1).
Qed.

(** Every other feedback leaves the pacer alone. *)
Lemma on_twcc_ok s lost received now s' :
  pacer_ok s -> 0 <= lost -> 0 <= received -> is_u32 (twcc_win_lost s) ->
  is_u32 (twcc_win_received s) ->
  ngx_rtc_session_on_twcc (Ref s) lost received now = Ref s' -> pacer_ok s'.
Proof.
  intros [Htgt Htok] Hl Hr Hwl Hwr. unfold ngx_rtc_session_on_twcc. cbv zeta.
  match goal with |- (if ?c then _ else _) = _ -> _ => destruct c end;
    [by intros [= <-] |].
  match goal with |- (if ?c then _ else _) = _ -> _ => destruct c end;
    [by intros [= <-] |].
  match goal with |- (if ?c then _ else _) = _ -> _ => destruct c end;
    [by intros [= <-] |].
  match goal with |- (if ?c then _ else _) = _ -> _ => destruct c eqn:Hz end.
  { cbn in Hz. unfold NGX_RTC_PACER_MIN_BPS in Htgt. lia. }
  match goal with |- context [twcc_win_lost ?a * 1000 / ?b] =>
    pose proof (aimd_code (twcc_win_lost a) b (pacer_target_bps s) Htgt) as Ha;
    cbv zeta in Ha; set (t := aimd (twcc_win_lost a) b (pacer_target_bps s)) in Ha;
    assert (Ht : NGX_RTC_PACER_MIN_BPS <= t <= NGX_RTC_PACER_MAX_BPS) by by apply aimd_range
  end.
  cbn [pacer_target_bps set_twcc_win_received set_twcc_win_lost set_twcc_received
       set_twcc_lost] in Ha |- *.
  rewrite Ha. match goal with |- context [set_pacer_target_bps t ?x] => set (s1 := x) end.
  fold (retargeted t s1). intros [= <-].
  apply window_reset_ok, retargeted_ok; [done | by destruct Htok].
Qed.

Lemma pacer_cap_ok s bps s' :
  pacer_ok s -> ngx_rtc_session_pacer_cap (Ref s) bps = Ref s' ->
  pacer_ok s' /\ pacer_target_bps s' = Z.min (pacer_target_bps s) (clamp bps).
Proof.
  intros [Htgt Htok]. unfold ngx_rtc_session_pacer_cap. cbv zeta.
  assert (Hc : (if bps <? NGX_RTC_PACER_MIN_BPS then NGX_RTC_PACER_MIN_BPS
                else if NGX_RTC_PACER_MAX_BPS <? bps then NGX_RTC_PACER_MAX_BPS else bps)
               = clamp bps).
  { unfold clamp, NGX_RTC_PACER_MIN_BPS, NGX_RTC_PACER_MAX_BPS. zcase. }
  rewrite Hc. pose proof (clamp_range bps) as Hr. set (b := clamp bps) in *.
  destruct (Z.leb_spec (pacer_target_bps s) b).
  { intros [= <-]. split; [done | lia]. }
  fold (retargeted b s). intros [= <-].
  split; [apply retargeted_ok; lia || done | rewrite retargeted_target; lia].
Qed.

(** *** Runs *)

Inductive pacer_op :=
| Admit (pkt_bytes now_ms : Z)
| Cap (bps : Z)
| Feedback (lost received now_ms : Z).

Definition op_ok (o : pacer_op) : Prop :=
  match o with
  | Admit n _ => 0 <= n
  | Cap _ => True
  | Feedback l r _ => is_u32 l /\ is_u32 r
  end.

Definition pacer_step (s : ptr session) (o : pacer_op) : ptr session :=
  match o with
  | Admit n now => (ngx_rtc_session_pacer_admit s n now).2
  | Cap bps => ngx_rtc_session_pacer_cap s bps
  | Feedback l r now => ngx_rtc_session_on_twcc s l r now
  end.

Definition pacer_inv (s : session) : Prop :=
  pacer_ok s /\ is_u32 (twcc_win_lost s) /\ is_u32 (twcc_win_received s).

Lemma on_twcc_counters s l r now s' :
  ngx_rtc_session_on_twcc (Ref s) l r now = Ref s' ->
  is_u32 (twcc_win_lost s') /\ is_u32 (twcc_win_received s').
Proof.
  unfold ngx_rtc_session_on_twcc. cbv zeta.
  repeat match goal with |- context [if ?c then _ else _] => destruct c end;
    intros [= <-]; split; solve [apply u32_range | done].
Qed.

Lemma pacer_step_inv s o :
  pacer_inv s -> op_ok o -> exists s', pacer_step (Ref s) o = Ref s' /\ pacer_inv s'.
Proof.
  intros (Hok & Hl & Hr) Ho. destruct o as [n now | bps | l r now]; cbn [pacer_step].
  - rewrite admit_eq by done. cbv zeta. pose proof (credited_range s now Hok).
    cbn [op_ok] in Ho.
    destruct (Z.ltb_spec (credited s now) n); cbn [snd]; eexists; (split; [done |]);
      (split; [apply clocked_ok; [done | lia] | done]).
  - destruct (ngx_rtc_session_pacer_cap (Ref s) bps) as [| s'] eqn:E.
    { cbn in E. destruct (_ <=? _); done. }
    exists s'. split; [done |]. split; [by eapply pacer_cap_ok |].
    revert E. unfold ngx_rtc_session_pacer_cap. cbv zeta.
    repeat match goal with |- context [if ?c then _ else _] => destruct c end;
      by intros [= <-].
  - destruct (ngx_rtc_session_on_twcc (Ref s) l r now) as [| s'] eqn:E.
    { revert E. unfold ngx_rtc_session_on_twcc. cbv zeta.
      repeat match goal with |- context [if ?c then _ else _] => destruct c end; done. }
    exists s'. split; [done |]. destruct Ho as [Hl' Hr'].
    split; [| by eapply on_twcc_counters].
    unfold is_u32 in Hl', Hr'. apply (on_twcc_ok s l r now); done || lia.
Qed.

Lemma pacer_run_inv l : forall s,
  pacer_inv s -> Forall op_ok l ->
  exists s', fold_left pacer_step l (Ref s) = Ref s' /\ pacer_inv s'.
Proof.
  induction l as [| o l IH]; intros s Hs Hl; [by exists s |].
  inversion_clear Hl as [| ?? Ho Hl'].
  destruct (pacer_step_inv s o Hs Ho) as (s1 & E & Hs1). cbn [fold_left]. rewrite E.
  by apply IH.
Qed.

(** Controller windows, one feedback each. *)
Definition feedback (s : ptr session) (w : Z * Z * Z) : ptr session :=
  ngx_rtc_session_on_twcc s w.1.1 w.1.2 w.2.

Definition window_ok (P : Z -> Prop) (w : Z * Z * Z) : Prop :=
  let '(lost, received, _) := w in
  0 <= lost /\ 0 <= received /\ 20 <= lost + received < 4294967296 /\
  P (lost * 1000 / (lost + received)).

Lemma windows_iter P f ws :
  (forall lost total t, 0 < total -> P (lost * 1000 / total) ->
     NGX_RTC_PACER_MIN_BPS <= t <= NGX_RTC_PACER_MAX_BPS -> aimd lost total t = f t) ->
  Forall (window_ok P) ws -> forall s, pacer_ok s -> opened s ->
  exists s', fold_left feedback ws (Ref s) = Ref s' /\ pacer_ok s' /\ opened s' /\
    pacer_target_bps s' = Nat.iter (length ws) f (pacer_target_bps s).
Proof.
  intros Hf. induction 1 as [| [[l r] now] ws Hw Hws IH]; intros s Hs Ho; [by exists s |].
  destruct Hw as (Hl & Hr & Ht & HP). destruct Ho as (Ho1 & Ho2 & Ho3).
  destruct (on_twcc_closes s l r now) as (s1 & E & Hs1 & Ho' & _ & Htgt); [done | |].
  { unfold closes. rewrite Ho2, Ho3. unfold is_u32. split_and!; try done; lia. }
  cbn [fold_left]. unfold feedback at 2. cbn [fst snd]. rewrite E.
  destruct (IH s1 Hs1 Ho') as (s' & E' & H1 & H2 & H3). exists s'. split_and!; try done.
  rewrite H3, Htgt, Ho2, Ho3, !Z.add_0_l. destruct Hs as [Hst _].
  rewrite (Hf l (l + r) _ ltac:(lia) HP Hst). cbn [length].
  by rewrite Nat.iter_succ_r.
Qed.

Lemma iter_mono (f : Z -> Z) n a b :
  (forall x y, x <= y -> f x <= f y) -> a <= b -> Nat.iter n f a <= Nat.iter n f b.
Proof. intros Hf Hab. induction n as [| n IH]; [done |]. cbn. by apply Hf. Qed.

Definition decrease (t : Z) : Z := clamp (t * 85 / 100).
Definition increase (t : Z) : Z := clamp (t + t * 8 / 100).

Lemma decrease_mono x y : x <= y -> decrease x <= decrease y.
Proof.
  intros H. unfold decrease, clamp. assert (x * 85 / 100 <= y * 85 / 100)
    by (apply Z.div_le_mono; lia). lia.
Qed.

Lemma increase_mono x y : x <= y -> increase x <= increase y.
Proof.
  intros H. unfold increase, clamp. assert (x * 8 / 100 <= y * 8 / 100)
    by (apply Z.div_le_mono; lia). lia.
Qed.

Lemma decrease_floor n t :
  NGX_RTC_PACER_MIN_BPS <= t <= NGX_RTC_PACER_MAX_BPS -> (30 <= n)%nat ->
  Nat.iter n decrease t = NGX_RTC_PACER_MIN_BPS.
Proof.
  intros [Ht0 Ht1] Hn. replace n with (30 + (n - 30))%nat by lia. rewrite Nat.iter_add.
  set (u := Nat.iter (n - 30) decrease t).
  assert (Hu : u <= NGX_RTC_PACER_MAX_BPS).
  { unfold u. destruct (n - 30)%nat; [done |]. cbn. apply clamp_range. }
  pose proof (iter_mono decrease 30 _ _ decrease_mono Hu) as Hi.
  assert (Hc : Nat.iter 30 decrease NGX_RTC_PACER_MAX_BPS = NGX_RTC_PACER_MIN_BPS)
    by (vm_compute; done).
  assert (NGX_RTC_PACER_MIN_BPS <= Nat.iter 30 decrease u) by (cbn; apply clamp_range). lia.
Qed.

Lemma increase_ceiling n t :
  NGX_RTC_PACER_MIN_BPS <= t <= NGX_RTC_PACER_MAX_BPS -> (63 <= n)%nat ->
  Nat.iter n increase t = NGX_RTC_PACER_MAX_BPS.
Proof.
  intros [Ht0 Ht1] Hn. replace n with (63 + (n - 63))%nat by lia. rewrite Nat.iter_add.
  set (u := Nat.iter (n - 63) increase t).
  assert (Hu : NGX_RTC_PACER_MIN_BPS <= u).
  { unfold u. destruct (n - 63)%nat; [done |]. cbn. apply clamp_range. }
  pose proof (iter_mono increase 63 _ _ increase_mono Hu) as Hi.
  assert (Hc : Nat.iter 63 increase NGX_RTC_PACER_MIN_BPS = NGX_RTC_PACER_MAX_BPS)
    by (vm_compute; done).
  assert (Nat.iter 63 increase u <= NGX_RTC_PACER_MAX_BPS) by (cbn; apply clamp_range). lia.
Qed.

(** From any start rate, every interleaving of packet admissions, REMB caps and
    transport-cc feedback keeps the target rate within 64 kbit/s and 8 Mbit/s and the
    token level between zero and one bucket, which is never below a full-size packet. *)
Theorem pacer_invariant s0 bps l :
  is_u32 (twcc_win_lost s0) -> is_u32 (twcc_win_received s0) -> Forall op_ok l ->
  exists s, fold_left pacer_step l (ngx_rtc_session_pacer_init (Ref s0) bps) = Ref s /\
    64000 <= pacer_target_bps s <= 8000000 /\
    0 <= pacer_tokens s <= ngx_rtc_pacer_bucket_bytes s /\
    1214 <= ngx_rtc_pacer_bucket_bytes s <= 100000.
Proof.
  intros Hl Hr Hops.
  destruct (ngx_rtc_session_pacer_init (Ref s0) bps) as [| s1] eqn:E; [done |].
  destruct (pacer_init_ok s0 bps s1 E) as (Hok & _ & _).
  destruct (pacer_run_inv l s1) as (s & Hrun & [Ht Htok] & _); [| done |].
  { split; [done |]. injection E as <-. done. }
  exists s. split; [done |]. split; [done |]. split; [done |]. by apply bucket_range.
Qed.

(** The admitted traffic obeys a token-bucket envelope: over any packets offered at
    non-decreasing times after the first, the bytes admitted are at most one bucket plus
    the elapsed time at the target rate, or at 97120 bit/s when the target is lower. *)
Theorem token_bucket_envelope s0 bps s n0 t0 l t1 :
  ngx_rtc_session_pacer_init (Ref s0) bps = Ref s -> 0 <= n0 -> clock t0 l t1 ->
  8000 * (paced s ((n0, t0) :: l)).1
  <= 8000 * ngx_rtc_pacer_bucket_bytes s
     + Z.max (pacer_target_bps s) 97120 * (t1 - t0).
Proof.
  intros E Hn0 Hc. destruct (pacer_init_ok s0 bps s E) as (Hok & Hst & Htok).
  cbn [paced]. rewrite admit_eq by done. cbv zeta.
  assert (Hcr : credited s t0 = ngx_rtc_pacer_bucket_bytes s)
    by (unfold credited; rewrite Hst; done).
  rewrite Hcr. pose proof (bucket_range s (ok_target s Hok)) as Hb.
  assert (Hstart : forall x, pacer_started (clocked s t0 x) <> 0)
    by (intros x; cbn; by rewrite Hst).
  assert (Hgo : forall x, 0 <= x <= ngx_rtc_pacer_bucket_bytes s ->
    8000 * (paced (clocked s t0 x) l).1
    <= 8000 * x + Z.max (pacer_target_bps s) 97120 * (t1 - t0)).
  { intros x Hx. pose proof (clocked_ok s t0 x Hok Hx) as Hok'.
    pose proof (paced_bound l (clocked s t0 x) t1 Hok' (Hstart x) Hc) as Hp.
    pose proof (paced_tokens l (clocked s t0 x) t1 Hok' Hc) as [_ Hpt].
    unfold envelope_bps in Hp. cbn in Hp. lia. }
  destruct (Z.ltb_spec (ngx_rtc_pacer_bucket_bytes s) n0).
  - specialize (Hgo (ngx_rtc_pacer_bucket_bytes s)). destruct (paced _ l) as [a s'].
    cbn in Hgo |- *. lia.
  - specialize (Hgo (ngx_rtc_pacer_bucket_bytes s - n0)). destruct (paced _ l) as [a s'].
    cbn in Hgo |- *. lia.
Qed.

(** No starvation: whatever the target and however empty the bucket, a packet of any
    legal size offered at least one burst window after the last one is admitted. *)
Theorem idle_packet_admitted s n now :
  pacer_ok s -> pacer_started s <> 0 -> pacer_last_ms s + NGX_RTC_PACER_BURST_MS <= now ->
  0 <= n <= NGX_RTC_MAX_RTP_PKT ->
  (ngx_rtc_session_pacer_admit (Ref s) n now).1 = NGX_RTC_OK.
Proof.
  intros Hok Hst Hnow Hn. rewrite admit_eq by done. cbv zeta.
  unfold NGX_RTC_PACER_BURST_MS, NGX_RTC_MAX_RTP_PKT in *.
  pose proof (bucket_range s (ok_target s Hok)) as Hb. pose proof (ok_tokens s Hok).
  assert (Hc : credited s now = ngx_rtc_pacer_bucket_bytes s).
  { unfold credited. cbv zeta. destruct (Z.eqb_spec (pacer_started s) 0); [done |].
    destruct (Z.leb_spec (pacer_last_ms s) now); [| lia].
    destruct (Z.leb_spec 100 (now - pacer_last_ms s)); lia. }
  rewrite Hc. by destruct (Z.ltb_spec (ngx_rtc_pacer_bucket_bytes s) n); [lia |].
Qed.

(** The times 100, 200, ... *)
Fixpoint every_100ms (k : nat) (t : Z) : list (Z * Z) :=
  match k with O => [] | S k => (1214, t) :: every_100ms k (t + 100) end.

(** At the 64 kbit/s floor the pacer lets a full-size packet through every 100 ms,
    1214 octets where the target allows 800: a sustained 97 kbit/s. *)
Theorem pacer_floor_overrate s0 k :
  pacer_target_bps s0 = NGX_RTC_PACER_MIN_BPS -> pacer_ok s0 -> pacer_started s0 <> 0 ->
  (paced s0 (every_100ms k (pacer_last_ms s0 + 100))).1 = 1214 * Z.of_nat k.
Proof.
  intros Ht. revert s0 Ht. induction k as [| k IH]; intros s Ht Hok Hst; [done |].
  cbn [every_100ms paced]. rewrite admit_eq by done. cbv zeta.
  pose proof (bucket_range s (ok_target s Hok)) as Hb. pose proof (ok_tokens s Hok).
  assert (Hc : credited s (pacer_last_ms s + 100) = ngx_rtc_pacer_bucket_bytes s).
  { unfold credited. cbv zeta. destruct (Z.eqb_spec (pacer_started s) 0); [done |].
    destruct (Z.leb_spec (pacer_last_ms s) (pacer_last_ms s + 100)); [| lia].
    destruct (Z.leb_spec 100 (pacer_last_ms s + 100 - pacer_last_ms s)); lia. }
  rewrite Hc. destruct (Z.ltb_spec (ngx_rtc_pacer_bucket_bytes s) 1214); [lia |].
  set (s1 := clocked s (pacer_last_ms s + 100) (ngx_rtc_pacer_bucket_bytes s - 1214)).
  assert (Hok1 : pacer_ok s1) by (apply clocked_ok; [done | lia]).
  specialize (IH s1 Ht Hok1).
  assert (Hst1 : pacer_started s1 <> 0)
    by (cbn; by destruct (Z.eqb_spec (pacer_started s) 0)).
  specialize (IH Hst1).
  change (pacer_last_ms s1) with (pacer_last_ms s + 100) in IH.
  destruct (paced s1 _) as [a s'] eqn:E. cbn [fst] in IH |- *. subst a.
  change (NGX_RTC_OK =? NGX_RTC_OK) with true. cbv iota. lia.
Qed.

(** The controller converges: from any in-range state, 30 consecutive windows with
    more than 5 percent loss bring the target to the floor, and 63 consecutive windows
    with less than 2 percent loss bring it to the ceiling, where it stays. *)
Theorem controller_converges s ws :
  pacer_ok s -> opened s ->
  (Forall (window_ok (fun loss => 50 < loss)) ws -> (30 <= length ws)%nat ->
   exists s', fold_left feedback ws (Ref s) = Ref s' /\
     pacer_target_bps s' = NGX_RTC_PACER_MIN_BPS) /\
  (Forall (window_ok (fun loss => loss < 20)) ws -> (63 <= length ws)%nat ->
   exists s', fold_left feedback ws (Ref s) = Ref s' /\
     pacer_target_bps s' = NGX_RTC_PACER_MAX_BPS).
Proof.
  intros Hok Ho. pose proof (ok_target s Hok) as Ht. split; intros Hws Hn.
  - destruct (windows_iter (fun loss => 50 < loss) decrease ws) with (s := s)
      as (s' & E & _ & _ & Htgt); try done.
    { intros lost total t _ HP _. unfold aimd. cbv zeta.
      by destruct (Z.ltb_spec 50 (lost * 1000 / total)); [| lia]. }
    exists s'. by rewrite Htgt, decrease_floor.
  - destruct (windows_iter (fun loss => loss < 20) increase ws) with (s := s)
      as (s' & E & _ & _ & Htgt); try done.
    { intros lost total t _ HP _. unfold aimd. cbv zeta.
      destruct (Z.ltb_spec 50 (lost * 1000 / total)); [lia |].
      by destruct (Z.ltb_spec (lost * 1000 / total) 20); [| lia]. }
    exists s'. by rewrite Htgt, increase_ceiling.
Qed.
End pacer.

Definition paced_session (bps : Z) : ngx_rtc_session_t unit :=
  match ngx_rtc_session_pacer_init (Ref (zero_session tt)) bps with
  | Ref s => s
  | NULL => zero_session tt
  end.

Lemma paced_session_ok bps : pacer_ok (paced_session bps).
Proof. by eapply (pacer_init_ok (zero_session tt) bps). Qed.

Lemma pacer_invariant_witness :
  exists s, fold_left pacer_step
      [Feedback 0 10 0; Admit 1214 5; Feedback 5 20 600; Cap 100000; Admit 1214 10]
      (ngx_rtc_session_pacer_init (Ref (zero_session tt)) 1000000) = Ref s /\
    64000 <= pacer_target_bps s <= 8000000 /\
    0 <= pacer_tokens s <= ngx_rtc_pacer_bucket_bytes s /\
    1214 <= ngx_rtc_pacer_bucket_bytes s <= 100000.
Proof.
  apply pacer_invariant; [vm_compute; intuition congruence | vm_compute; intuition congruence |].
  repeat constructor; vm_compute; intuition congruence.
Defined.

Lemma token_bucket_envelope_witness :
  8000 * (paced (paced_session 64000) [(1214, 7); (1214, 17); (1214, 300)]).1
  <= 8000 * ngx_rtc_pacer_bucket_bytes (paced_session 64000) + 97120 * 293.
Proof.
  apply (token_bucket_envelope (zero_session tt) 64000 (paced_session 64000) 1214 7
           [(1214, 17); (1214, 300)] 300 eq_refl ltac:(lia)).
  constructor; [lia | lia |]. constructor; [lia | lia |]. constructor.
Defined.

Lemma idle_packet_admitted_witness :
  (ngx_rtc_session_pacer_admit
     (Ref (paced_session 64000 |> set_pacer_started 1 |> set_pacer_tokens 0)) 1214 100).1
  = NGX_RTC_OK.
Proof.
  apply idle_packet_admitted; [| cbn; lia | vm_compute; congruence | vm_compute; intuition congruence].
  split; vm_compute; intuition congruence.
Defined.

Lemma pacer_floor_overrate_witness :
  (paced (set_pacer_started 1 (paced_session 64000)) (every_100ms 600 100)).1 = 728400.
Proof.
  apply (pacer_floor_overrate (set_pacer_started 1 (paced_session 64000)) 600);
    [reflexivity | | cbn; lia].
  split; vm_compute; intuition congruence.
Defined.

Lemma controller_converges_witness :
  exists s', fold_left feedback (replicate 30 (10, 90, 1000))
      (Ref (set_twcc_win_started 1 (paced_session 8000000))) = Ref s' /\
    pacer_target_bps s' = NGX_RTC_PACER_MIN_BPS.
Proof.
  apply (controller_converges (set_twcc_win_started 1 (paced_session 8000000))).
  - split; vm_compute; intuition congruence.
  - split; [cbn; lia | split; reflexivity].
  - apply Forall_replicate. vm_compute. intuition congruence.
  - cbn. lia.
Defined.
End Pacer.
