(* ===== verification/GopRing.v ===== *)
(** The GOP ring of src/ngx_rtc_core.c: a power-of-two ring of plaintext RTP packets
    with absolute 32-bit indices, shared by the replay to a new viewer and by the
    answers to NACKs.

    The theorems: pushes keep the last [capacity] packets whatever the index wraps, and
    a lookup by sequence number returns the retained packet with that number. *)

From S2P Require Import Prelude Window Session.
Import Session.

Module GopRing.

Definition zero_slot : ngx_rtc_rtp_cache_slot_t :=
  {| data := zeros NGX_RTC_MAX_RTP_PKT; len := 0; is_gop_start := 0 |}.

(** [sizeof (ngx_rtc_rtp_cache_slot_t)]: 1214 octets, a 16-bit and an 8-bit field. *)
Definition slot_size : Z := 1218.
Definition SIZE_MAX : Z := 18446744073709551615.

(** [alloc] is the outcome of [ngx_calloc]. *)
Definition ngx_rtc_rtp_ring_reserve (alloc : bool) (r : ptr ngx_rtc_rtp_ring_t)
    (capacity : Z) : Z * ptr ngx_rtc_rtp_ring_t :=
  match r with
  | NULL => (0, r)
  | Ref g =>
      if (capacity =? 0) || negb (Z.land capacity (u32 (capacity - 1)) =? 0) then (0, r)
      else if negb (is_null (slots g)) then (1, r)
      else if u32 (SIZE_MAX / slot_size) <? capacity then (0, r)
      else if negb alloc then (0, r)
      else (1, Ref (g |> set_slots (Ref (replicate (Z.to_nat capacity) zero_slot))
                      |> set_capacity capacity))
  end.

Definition ngx_rtc_rtp_ring_push (tunables : ngx_rtc_tunables_t) (alloc : bool)
    (r : ptr ngx_rtc_rtp_ring_t) (rtp : ptr octets) (len is_gop_start : Z)
    : outcome (ptr ngx_rtc_rtp_ring_t) :=
  match r, rtp with
  | Ref _, Ref p =>
      if (len =? 0) || (NGX_RTC_MAX_RTP_PKT <? len) then Ret r
      else
        match ngx_rtc_rtp_ring_reserve alloc r (gop_ring_slots tunables) with
        | (rc, Ref g) =>
            if rc =? 0 then Ret (Ref g)
            else
              match slots g with
              | NULL => Fault
              | Ref ss =>
                  let idx := Z.land (head g) (u32 (capacity g - 1)) in
                  slot ← load ss idx;
                  src ← load_range p 0 len;
                  d ← store_range (data slot) 0 src;
                  ss ← store ss idx {| data := d; len := u16 len;
                         is_gop_start := if is_gop_start =? 0 then 0 else 1 |};
                  let g := set_slots (Ref ss) g in
                  let g := if is_gop_start =? 0 then g else set_gop_start (head g) g in
                  let g := set_head (u32 (head g + 1)) g in
                  Ret (Ref (if count g <? capacity g then set_count (u32 (count g + 1)) g
                            else g))
              end
        | (_, NULL) => Ret NULL
        end
  | _, _ => Ret r
  end.

Definition ngx_rtc_rtp_seq_from_data (d : octets) : outcome Z :=
  hi ← load d 2; lo ← load d 3;
  Ret (u16 (Z.lor (u16 (Z.shiftl hi 8)) lo)).

(** The pointer result is the slot's buffer. *)
Definition ngx_rtc_rtp_ring_get (r : ptr ngx_rtc_rtp_ring_t) (rtp_seq : Z)
    (out : ptr (ptr octets)) (out_len : ptr Z)
    : outcome (Z * ptr (ptr octets) * ptr Z) :=
  match r, out, out_len with
  | Ref g, Ref _, Ref _ =>
      match slots g with
      | NULL => Ret (NGX_RTC_ERR_PARSE, out, out_len)
      | Ref ss =>
          if count g =? 0 then Ret (NGX_RTC_ERR_PARSE, out, out_len)
          else
            let start := u32 (head g - count g) in
            first ← load ss (Z.land start (u32 (capacity g - 1)));
            start_seq ← ngx_rtc_rtp_seq_from_data (data first);
            let dist := u16 (rtp_seq - start_seq) in
            if count g <=? dist then Ret (NGX_RTC_ERR_PARSE, out, out_len)
            else
              slot ← load ss (Z.land (u32 (start + dist)) (u32 (capacity g - 1)));
              sq ← ngx_rtc_rtp_seq_from_data (data slot);
              if negb (sq =? rtp_seq) then Ret (NGX_RTC_ERR_PARSE, out, out_len)
              else Ret (NGX_RTC_OK, Ref (Ref (data slot)), Ref (len slot))
      end
  | _, _, _ => Ret (NGX_RTC_ERR_INVALID, out, out_len)
  end.

Definition ngx_rtc_source_gop_ready (src : ptr ngx_rtc_source_t) : Z :=
  match src with
  | NULL => 0
  | Ref s => if negb (is_null (slots (gop s))) && negb (count (gop s) =? 0) then 1 else 0
  end.

(** ** The ring as the list of its retained packets *)

(** A retained packet: its octets and its GOP flag. *)
Definition entry : Type := octets * Z.

Definition entry_ok (e : entry) : Prop :=
  4 <= zlen e.1 <= NGX_RTC_MAX_RTP_PKT /\ octets_ok e.1.

(** What slot [j] holds. *)
Definition held (ss : list ngx_rtc_rtp_cache_slot_t) (j : Z) : outcome entry :=
  slot ← load ss j; Ret (ztake (len slot) (data slot), is_gop_start slot).

Definition bufs_ok (ss : list ngx_rtc_rtp_cache_slot_t) : Prop :=
  Forall (fun s => zlen (data s) = NGX_RTC_MAX_RTP_PKT /\
                   0 <= len s <= NGX_RTC_MAX_RTP_PKT) ss.

Record represents (k : Z) (g : ngx_rtc_rtp_ring_t) (ss : list ngx_rtc_rtp_cache_slot_t)
    (l : list entry) : Prop := {
  rep_k : 0 <= k <= 31;
  rep_slots : slots g = Ref ss;
  rep_cap : capacity g = 2 ^ k;
  rep_len : zlen ss = 2 ^ k;
  rep_bufs : bufs_ok ss;
  rep_head : is_u32 (head g);
  rep_count : count g = zlen l;
  rep_fits : zlen l <= 2 ^ k;
  rep_window : window (2 ^ k) (held ss) (head g - zlen l) l;
  rep_entries : Forall entry_ok l
}.

Lemma mask_pow2 k x : 0 <= k <= 31 -> Z.land x (u32 (2 ^ k - 1)) = x mod 2 ^ k.
Proof.
  intros Hk. rewrite u32_small; [apply land_pow2_mask; lia |].
  assert (2 ^ k <= 2 ^ 31) by (apply Z.pow_le_mono_r; lia).
  pose proof (Z.pow_pos_nonneg 2 k). unfold is_u32. lia.
Qed.

Lemma pow2_pos k : 0 <= k -> 0 < 2 ^ k.
Proof. intros. apply Z.pow_pos_nonneg; lia. Qed.

Lemma held_store ss idx s ss' :
  store ss idx s = Ret ss' ->
  held ss' idx = Ret (ztake (len s) (data s), is_gop_start s) /\
  (forall j, 0 <= j -> j <> idx -> held ss' j = held ss j).
Proof.
  intros [H1 H2]%load_store_other. unfold held. rewrite H1. split; [done |].
  intros j Hj Hne. by rewrite H2.
Qed.

(** The packet list after a push: the oldest goes when the ring is full. *)
Definition pushed (k : Z) (l : list entry) (e : entry) : list entry :=
  if zlen l <? 2 ^ k then l ++ [e] else drop 1 l ++ [e].

Lemma push_represents tn alloc k g ss l p gs :
  represents k g ss l -> gop_ring_slots tn = 2 ^ k ->
  entry_ok (p, if gs =? 0 then 0 else 1) ->
  exists g' ss',
    ngx_rtc_rtp_ring_push tn alloc (Ref g) (Ref p) (zlen p) gs = Ret (Ref g') /\
    represents k g' ss' (pushed k l (p, if gs =? 0 then 0 else 1)) /\
    head g' = u32 (head g + 1) /\
    gop_start g' = if gs =? 0 then gop_start g else head g.
Proof.
  intros [Hk Hs Hcap Hlen Hb Hh Hc Hf Hw He] Htn Hok.
  pose proof Hok as [Hp Hpo]. cbn [fst] in Hp, Hpo. pose proof (pow2_pos k ltac:(lia)) as H2.
  unfold NGX_RTC_MAX_RTP_PKT in Hp.
  unfold ngx_rtc_rtp_ring_push. destruct (Z.eqb_spec (zlen p) 0); [lia |].
  unfold NGX_RTC_MAX_RTP_PKT at 1. destruct (Z.ltb_spec 1214 (zlen p)); [lia |]. cbn [orb].
  unfold ngx_rtc_rtp_ring_reserve. rewrite Htn.
  destruct (Z.eqb_spec (2 ^ k) 0); [lia |].
  rewrite mask_pow2, Z.mod_same by lia. cbn [orb negb Z.eqb]. rewrite Hs. cbn [is_null negb].
  change (1 =? 0) with false. cbv iota. rewrite Hs. cbv iota.
  rewrite Hcap, mask_pow2 by lia.
  set (idx := head g mod 2 ^ k). assert (Hi : 0 <= idx < 2 ^ k) by (apply Z.mod_pos_bound; lia).
  destruct (load_in ss idx ltac:(lia)) as [slot Hslot]. rewrite Hslot, bind_Ret.
  assert (Hd : zlen (data slot) = 1214).
  { apply load_ret in Hslot as [_ Hsl]. by apply (Forall_lookup_1 _ _ _ _ Hb) in Hsl as [? _]. }
  rewrite load_range_all, bind_Ret by done.
  rewrite store_range_in, bind_Ret by lia. cbn [ztake].
  rewrite (u16_small (zlen p)) by (unfold is_u16; lia).
  set (s' := {| data := _; len := zlen p; is_gop_start := _ |}).
  destruct (store ss idx s') as [ss' |] eqn:Est.
  2: { pose proof (store_safe ss idx s' ltac:(lia)) as Hf'. by rewrite Est in Hf'. }
  rewrite bind_Ret. cbv zeta. pose proof (held_store _ _ _ _ Est) as [Hheld Hother].
  assert (Hnew : held ss' idx = Ret (p, if gs =? 0 then 0 else 1)).
  { rewrite Hheld. unfold s'. cbn [data len is_gop_start].
    by rewrite ztake_0, app_nil_l, ztake_app_length. }
  set (e := (p, if gs =? 0 then 0 else 1)) in *.
  assert (Hkm : 2 ^ k <= 2 ^ 31) by (apply Z.pow_le_mono_r; lia).
  pose proof (zlen_nonneg l).
  assert (Hl' : zlen (pushed k l e) = if zlen l <? 2 ^ k then zlen l + 1 else zlen l).
  { unfold pushed. destruct (Z.ltb_spec (zlen l) (2 ^ k)); [zl |].
    change (drop 1 l) with (zdrop 1 l). rewrite zlen_app, zlen_zdrop by lia. zl. }
  exists {| slots := Ref ss'; capacity := 2 ^ k; head := u32 (head g + 1);
            count := zlen (pushed k l e);
            gop_start := if gs =? 0 then gop_start g else head g |}, ss'.
  split; [| split; [| done]].
  { rewrite Hl'. destruct g as [sl cp hd ct gst]; cbn in Hc, Hcap |- *. subst ct cp.
    destruct (gs =? 0); cbn; destruct (Z.ltb_spec (zlen l) (2 ^ k)); cbn;
      rewrite ?(u32_small (zlen l + 1)) by (unfold is_u32; lia); done. }
  split; cbn [slots capacity head count]; try done.
  - apply store_ret in Est as [_ ->]. by rewrite zlen_insert.
  - apply store_ret in Est as [_ ->]. apply Forall_insert; [done |]. cbn.
    pose proof (zlen_nonneg (zdrop (0 + zlen p) (data slot))).
    rewrite ztake_0. unfold NGX_RTC_MAX_RTP_PKT. split; [zl | lia].
  - apply u32_range.
  - rewrite Hl'. destruct (Z.ltb_spec (zlen l) (2 ^ k)); lia.
  - assert (Hmod : (u32 (head g + 1) - zlen (pushed k l e)) mod 2 ^ k
                   = (head g + 1 - zlen (pushed k l e)) mod 2 ^ k).
    { rewrite <- Zminus_mod_idemp_l, u32_mod_pow2, Zminus_mod_idemp_l by lia. done. }
    eapply window_start; [symmetry; exact Hmod |]. rewrite Hl'. unfold pushed.
    destruct (Z.ltb_spec (zlen l) (2 ^ k)).
    + replace (head g + 1 - (zlen l + 1)) with (head g - zlen l) by lia.
      apply (window_push (2 ^ k) (held ss)); try done; try lia.
      * replace (head g - zlen l + zlen l) with (head g) by lia. done.
      * intros j Hj Hne. apply Hother; [lia |].
        by replace (head g - zlen l + zlen l) with (head g) in Hne by lia.
    + destruct l as [| y l]; [rewrite zlen_nil in *; lia |]. cbn [drop].
      replace (head g + 1 - zlen (y :: l)) with (head g - zlen (y :: l) + 1) by lia.
      assert (Hfull : zlen (y :: l) = 2 ^ k) by lia.
      apply (window_slide (2 ^ k) (held ss) _ _ y); try done.
      * replace (head g - zlen (y :: l) + 2 ^ k) with (head g) by lia. done.
      * intros j Hj Hne. apply Hother; [lia |].
        by replace (head g - zlen (y :: l) + 2 ^ k) with (head g) in Hne by lia.
  - unfold pushed. destruct (zlen l <? 2 ^ k); apply Forall_app; (split; [| by constructor]).
    + done.
    + by apply Forall_drop.
Qed.

(** ** Lookup *)

(** The sequence number a retained packet carries. *)
Definition entry_seq (e : entry) : Z :=
  match e.1 with _ :: _ :: hi :: lo :: _ => hi * 256 + lo | _ => 0 end.

Lemma seq_from_prefix d n e :
  4 <= zlen (ztake n d) -> octets_ok (ztake n d) ->
  ngx_rtc_rtp_seq_from_data d = Ret (entry_seq (ztake n d, e)) /\
  is_u16 (entry_seq (ztake n d, e)).
Proof.
  intros Hn Hok. unfold ngx_rtc_rtp_seq_from_data, entry_seq. cbn [fst].
  assert (Hz : zlen (ztake n d) = Z.of_nat (length (take (Z.to_nat n) d))) by done.
  rewrite Hz in Hn. clear Hz. unfold ztake in *.
  destruct d as [| a [| b [| c [| x d]]]]; try (rewrite length_take in Hn; simpl in Hn; lia).
  destruct (Z.to_nat n) as [| [| [| [| m]]]]; try (simpl in Hn; lia).
  cbn [take] in *. do 2 apply Forall_cons_1 in Hok as [_ Hok].
  apply Forall_cons_1 in Hok as [Hc Hok]. apply Forall_cons_1 in Hok as [Hx _].
  unfold load. simpl. unfold is_u8 in Hc, Hx.
  rewrite shiftl_mul, (u16_small (c * _)) by (try lia; unfold is_u16; lia).
  rewrite (lor_low c x 8), u16_small by (try lia; unfold is_u16; lia).
  split; [done | unfold is_u16; lia].
Qed.

Lemma seq_from_data_entry d n e :
  entry_ok (ztake n d, e) -> ngx_rtc_rtp_seq_from_data d = Ret (entry_seq (ztake n d, e)) /\
  is_u16 (entry_seq (ztake n d, e)).
Proof. intros [Hn Hok]. cbn [fst] in *. apply seq_from_prefix; [lia | done]. Qed.

(** A lookup answers from the window: it compares the distance from the oldest packet. *)
Lemma ring_get_eq k g ss l sq out0 len0 :
  represents k g ss l -> l <> [] -> is_u16 sq ->
  exists e0, load l 0 = Ret e0 /\
  let dist := u16 (sq - entry_seq e0) in
  match load l dist with
  | Fault =>
      ngx_rtc_rtp_ring_get (Ref g) sq (Ref out0) (Ref len0)
      = Ret (NGX_RTC_ERR_PARSE, Ref out0, Ref len0)
  | Ret e =>
      if entry_seq e =? sq then
        exists d n, ngx_rtc_rtp_ring_get (Ref g) sq (Ref out0) (Ref len0)
          = Ret (NGX_RTC_OK, Ref (Ref d), Ref n) /\ ztake n d = e.1 /\ 0 <= n <= zlen d
      else
        ngx_rtc_rtp_ring_get (Ref g) sq (Ref out0) (Ref len0)
        = Ret (NGX_RTC_ERR_PARSE, Ref out0, Ref len0)
  end.
Proof.
  intros [Hk Hs Hcap Hlen Hb Hh Hc Hf Hw He] Hne Hsq.
  pose proof (pow2_pos k ltac:(lia)) as H2.
  assert (Hkm : 2 ^ k <= 2 ^ 31) by (apply Z.pow_le_mono_r; lia).
  destruct l as [| e0 l0]; [done |]. exists e0. split; [done |]. cbv zeta.
  set (l := e0 :: l0) in *. assert (Hl : 0 < zlen l) by (unfold l; rewrite zlen_cons; pose proof (zlen_nonneg l0); lia).
  unfold ngx_rtc_rtp_ring_get. rewrite Hs, Hc, Hcap.
  destruct (Z.eqb_spec (zlen l) 0); [lia |].
  rewrite !mask_pow2, !u32_mod_pow2 by lia.
  assert (Hat : forall i e, load l i = Ret e ->
    exists s, load ss ((head g - zlen l + i) mod 2 ^ k) = Ret s /\
      e = (ztake (len s) (data s), is_gop_start s) /\ entry_ok e /\
      0 <= len s <= zlen (data s)).
  { intros i e Hi. pose proof (window_index _ _ _ _ _ _ Hw Hi) as Hx. unfold held in Hx.
    destruct (load ss _) as [s |] eqn:Es; [| done]. exists s. split; [done |].
    injection Hx as <-. split; [done |]. apply load_ret in Hi as [_ Hi].
    split; [by apply (Forall_lookup_1 _ _ _ _ He Hi) |].
    apply load_ret in Es as [_ Es]. apply (Forall_lookup_1 _ _ _ _ Hb) in Es as [-> ?]. done. }
  destruct (Hat 0 e0 eq_refl) as (s0 & Hs0 & He0 & Hok0 & _). rewrite Z.add_0_r in Hs0.
  rewrite Hs0, bind_Ret. subst e0.
  destruct (seq_from_data_entry _ _ _ Hok0) as [-> Hq0]. rewrite bind_Ret.
  set (e0 := (ztake (len s0) (data s0), is_gop_start s0)) in *.
  set (dist := u16 (sq - entry_seq e0)).
  pose proof (u16_range (sq - entry_seq e0)) as Hdr. fold dist in Hdr. unfold is_u16 in Hdr.
  destruct (load l dist) as [e |] eqn:Hld.
  - pose proof (load_bound _ _ _ Hld) as Hbd. destruct (Z.leb_spec (zlen l) dist); [lia |].
    rewrite mask_pow2, u32_mod_pow2 by lia.
    rewrite <- Zplus_mod_idemp_l, u32_mod_pow2, Zplus_mod_idemp_l by lia.
    destruct (Hat dist e Hld) as (s & Hss & -> & Hok & Hlen'). rewrite Hss, bind_Ret.
    destruct (seq_from_data_entry _ _ _ Hok) as [-> _]. rewrite bind_Ret.
    destruct (_ =? sq); cbn [negb]; [| done]. eexists _, _. split; [reflexivity | done].
  - destruct (Z.leb_spec (zlen l) dist); [done |].
    destruct (load_in l dist ltac:(lia)) as [e E]. congruence.
Qed.

(** A run of pushes into a fresh ring. *)
Fixpoint push_all (tn : ngx_rtc_tunables_t) (r : ptr ngx_rtc_rtp_ring_t) (l : list entry)
    : outcome (ptr ngx_rtc_rtp_ring_t) :=
  match l with
  | [] => Ret r
  | (p, gs) :: l =>
      r ← ngx_rtc_rtp_ring_push tn true r (Ref p) (zlen p) gs;
      push_all tn r l
  end.

Definition empty_ring : ngx_rtc_rtp_ring_t :=
  {| slots := NULL; capacity := 0; head := 0; count := 0; gop_start := 0 |}.

Definition flag_ok (e : entry) : Prop := e.2 = 0 \/ e.2 = 1.

Lemma push_all_represents tn k l : forall g ss l0,
  represents k g ss l0 -> gop_ring_slots tn = 2 ^ k ->
  Forall entry_ok l -> Forall flag_ok l ->
  exists g' ss', push_all tn (Ref g) l = Ret (Ref g') /\
    represents k g' ss' (fold_left (pushed k) l l0).
Proof.
  induction l as [| [p gs] l IH]; intros g ss l0 Hrep Htn Hok Hfl; [by exists g, ss |].
  inversion_clear Hok as [| ?? Hp Hok']. inversion_clear Hfl as [| ?? Hg Hfl'].
  assert (Hflag : (if gs =? 0 then 0 else 1) = gs) by (destruct Hg as [Hg | Hg]; cbn in Hg; by subst gs).
  destruct (push_represents tn true k g ss l0 p gs Hrep Htn) as (g1 & ss1 & Hpush & Hrep1 & _);
    [by rewrite Hflag |]. rewrite Hflag in Hrep1.
  cbn [push_all]. rewrite Hpush, bind_Ret. cbn [fold_left]. by apply (IH g1 ss1).
Qed.

(** The last [2 ^ k] packets. *)
Definition retained (k : Z) (l : list entry) : list entry :=
  zdrop (Z.max 0 (zlen l - 2 ^ k)) l.

Lemma retained_snoc k l e :
  0 <= k -> pushed k (retained k l) e = retained k (l ++ [e]).
Proof.
  intros Hk. pose proof (pow2_pos k Hk). pose proof (zlen_nonneg l).
  unfold pushed, retained. rewrite zlen_zdrop, zlen_app by lia.
  change (zlen [e]) with 1. destruct (Z.ltb_spec (Z.max 0 (zlen l - Z.max 0 (zlen l - 2 ^ k))) (2 ^ k)).
  - rewrite !Z.max_l by lia. done.
  - assert (2 ^ k <= zlen l) by lia. rewrite !Z.max_r by lia.
    unfold zdrop. rewrite drop_drop, drop_app_le by (unfold zlen in *; lia).
    f_equal. f_equal. unfold zlen in *. lia.
Qed.

Lemma fold_pushed k l l0 :
  0 <= k -> fold_left (pushed k) l (retained k l0) = retained k (l0 ++ l).
Proof.
  intros Hk. revert l0. induction l as [| e l IH]; intros l0; cbn [fold_left].
  - by rewrite app_nil_r.
  - rewrite retained_snoc, IH by done. by rewrite <- app_assoc.
Qed.

(** What a ring is at any time: never pushed to, or the list of its packets, all long enough
    to have an RTP header. *)
Definition ring_ok (tn : ngx_rtc_tunables_t) (r : ngx_rtc_rtp_ring_t) : Prop :=
  r = empty_ring \/
  exists k ss l, gop_ring_slots tn = 2 ^ k /\ represents k r ss l /\ Forall (fun e => 12 <= zlen e.1) l.

Lemma pow2_test x : 0 < x -> Z.land x (x - 1) = 0 -> x = 2 ^ Z.log2 x.
Proof.
  intros Hx Hl. destruct (Z.log2_spec x Hx) as [H1 H2]. destruct (Z.eq_dec x (2 ^ Z.log2 x)) as [| Hne]; [done |]. exfalso.
  assert (Hb : Z.testbit (Z.land x (x - 1)) (Z.log2 x) = true); [| by rewrite Hl, Z.bits_0 in Hb].
  rewrite Z.land_spec, Z.bit_log2 by done. cbn [andb].
  assert (E : Z.log2 (x - 1) = Z.log2 x) by (apply Z.log2_unique; [apply Z.log2_nonneg | lia]).
  rewrite <- E. apply Z.bit_log2. pose proof (Z.log2_nonneg x). pose proof (Z.pow_pos_nonneg 2 (Z.log2 x)). lia.
Qed.

Definition fresh_ring (k : Z) : ngx_rtc_rtp_ring_t :=
  empty_ring |> set_slots (Ref (replicate (Z.to_nat (2 ^ k)) zero_slot)) |> set_capacity (2 ^ k).

Lemma fresh_represents k : 0 <= k <= 31 -> represents k (fresh_ring k) (replicate (Z.to_nat (2 ^ k)) zero_slot) [].
Proof.
  intros Hk. pose proof (pow2_pos k ltac:(lia)). split; try done.
  - rewrite zlen_replicate. lia.
  - apply Forall_replicate. done.
  - rewrite zlen_nil. lia.
  - apply window_nil.
Qed.

(** A push on a ring that was never pushed to reserves its slots, or does nothing. *)
Lemma reserve_empty alloc cap :
  is_u32 cap ->
  ngx_rtc_rtp_ring_reserve alloc (Ref empty_ring) cap = (0, Ref empty_ring) \/
  exists k, 0 <= k <= 31 /\ cap = 2 ^ k /\ ngx_rtc_rtp_ring_reserve alloc (Ref empty_ring) cap = (1, Ref (fresh_ring k)) /\
    ngx_rtc_rtp_ring_reserve alloc (Ref (fresh_ring k)) cap = (1, Ref (fresh_ring k)).
Proof.
  intros Hc. unfold ngx_rtc_rtp_ring_reserve. destruct (Z.eqb_spec cap 0) as [| H0]; [by left |]. cbn [orb].
  destruct (Z.eqb_spec (Z.land cap (u32 (cap - 1))) 0) as [Hp |]; [cbn [negb] | by left]. cbn [empty_ring slots is_null negb].
  destruct (Z.ltb_spec (u32 (SIZE_MAX / slot_size)) cap) as [| Hmax]; [by left |]. destruct alloc; [cbn [negb] | by left]. right.
  rewrite u32_small in Hp by (unfold is_u32 in *; lia). apply pow2_test in Hp; [| unfold is_u32 in *; lia].
  exists (Z.log2 cap). change (u32 (SIZE_MAX / slot_size)) with 3124253714 in Hmax.
  assert (Hk : 0 <= Z.log2 cap <= 31).
  { split; [apply Z.log2_nonneg |]. destruct (Z.le_gt_cases (Z.log2 cap) 31) as [| Hgt]; [done |].
    assert (2 ^ 32 <= 2 ^ Z.log2 cap) by (apply Z.pow_le_mono_r; lia). lia. }
  split; [done |]. split; [done |]. unfold fresh_ring. rewrite <- Hp. by split.
Qed.

(** A push keeps the ring well formed, whatever the allocator says. *)
Lemma push_ring_ok tn alloc r p gs :
  is_u32 (gop_ring_slots tn) -> ring_ok tn r -> 12 <= zlen p <= NGX_RTC_MAX_RTP_PKT -> octets_ok p ->
  exists r', ngx_rtc_rtp_ring_push tn alloc (Ref r) (Ref p) (zlen p) gs = Ret (Ref r') /\ ring_ok tn r'.
Proof.
  intros Hu Hr Hp Ho. assert (He : entry_ok (p, if gs =? 0 then 0 else 1)) by (split; [cbn; lia | done]).
  assert (Hrep : forall k g ss l, gop_ring_slots tn = 2 ^ k -> represents k g ss l -> Forall (fun e => 12 <= zlen e.1) l ->
    exists r', ngx_rtc_rtp_ring_push tn alloc (Ref g) (Ref p) (zlen p) gs = Ret (Ref r') /\ ring_ok tn r').
  { intros k g ss l Htn Hg Hl. destruct (push_represents tn alloc k g ss l p gs Hg Htn He) as (g' & ss' & E & Hg' & _).
    exists g'. split; [done |]. right. exists k, ss', (pushed k l (p, if gs =? 0 then 0 else 1)). split; [done |]. split; [done |].
    unfold pushed. destruct (_ <? _); apply Forall_app; (split; [| constructor; [cbn; lia | done]]); [done | by apply Forall_drop]. }
  destruct Hr as [-> | (k & ss & l & Htn & Hg & Hl)]; [| by eapply Hrep].
  destruct (reserve_empty alloc (gop_ring_slots tn) Hu) as [E | (k & Hk & Htn & E1 & E2)].
  - exists empty_ring. split; [| by left]. unfold ngx_rtc_rtp_ring_push. rewrite E. by destruct (_ || _).
  - destruct (Hrep k (fresh_ring k) _ [] Htn (fresh_represents k Hk)) as (r' & E & Hr'); [done |].
    exists r'. split; [| done]. rewrite <- E. unfold ngx_rtc_rtp_ring_push. rewrite E1, E2.
    destruct (Z.eqb_spec (zlen p) 0); [lia |]. destruct (Z.ltb_spec NGX_RTC_MAX_RTP_PKT (zlen p)); [lia | done].
Qed.

Lemma push_all_empty tn k l :
  0 <= k <= 31 -> gop_ring_slots tn = 2 ^ k -> l <> [] ->
  Forall entry_ok l -> Forall flag_ok l ->
  exists g ss, push_all tn (Ref empty_ring) l = Ret (Ref g) /\
    represents k g ss (retained k l).
Proof.
  intros Hk Htn Hne Hok Hfl. pose proof (pow2_pos k ltac:(lia)) as H2.
  assert (Hkm : 2 ^ k <= 2 ^ 31) by (apply Z.pow_le_mono_r; lia).
  assert (Hu : is_u32 (2 ^ k)) by (unfold is_u32; lia).
  destruct (reserve_empty true (2 ^ k) Hu) as [E | (k' & Hk' & Hkk & E1 & E2)].
  { unfold ngx_rtc_rtp_ring_reserve in E. destruct (Z.eqb_spec (2 ^ k) 0); [lia |]. rewrite mask_pow2, Z.mod_same in E by lia.
    cbn [orb negb Z.eqb empty_ring slots is_null] in E. change (u32 (SIZE_MAX / slot_size)) with 3124253714 in E.
    destruct (Z.ltb_spec 3124253714 (2 ^ k)); [lia | discriminate E]. }
  assert (k' = k) as -> by (apply (Z.pow_inj_r 2); lia). pose proof (fresh_represents k Hk) as Hrep.
  destruct (push_all_represents tn k l _ _ [] Hrep Htn Hok Hfl) as (g & ss & Hrun & Hr).
  exists g, ss. split.
  - rewrite <- Hrun. destruct l as [| [p gs] l]; [done |]. cbn [push_all]. f_equal.
    unfold ngx_rtc_rtp_ring_push. destruct (_ || _) eqn:E.
    { exfalso. inversion_clear Hok as [| ?? [Hp _] _]. cbn in Hp.
      unfold NGX_RTC_MAX_RTP_PKT in *. destruct (Z.eqb_spec (zlen p) 0), (Z.ltb_spec 1214 (zlen p));
        cbn in E; try done; lia. }
    by rewrite Htn, E1, E2.
  - rewrite <- (app_nil_l l), <- fold_pushed by lia.
    assert (retained k [] = []) as -> by (unfold retained, zdrop; apply drop_nil).
    exact Hr.
Qed.

(** ** Properties *)

(** After any pushes into a fresh ring of 2^k slots, a NACK lookup that succeeds
    returns exactly the octets of one of the last 2^k packets pushed, and that packet
    carries the requested sequence number. *)
Theorem ring_get_sound tn k l sq out0 len0 d n :
  0 <= k <= 31 -> gop_ring_slots tn = 2 ^ k -> Forall entry_ok l -> Forall flag_ok l ->
  l <> [] -> is_u16 sq ->
  (exists g, push_all tn (Ref empty_ring) l = Ret (Ref g) /\
     ngx_rtc_rtp_ring_get (Ref g) sq (Ref out0) (Ref len0)
     = Ret (NGX_RTC_OK, Ref (Ref d), Ref n)) ->
  exists e, e ∈ retained k l /\ entry_seq e = sq /\ ztake n d = e.1.
Proof.
  intros Hk Htn Hok Hfl Hne Hsq (g & Hrun & Hget).
  destruct (push_all_empty tn k l Hk Htn Hne Hok Hfl) as (g' & ss & Hrun' & Hrep).
  assert (g' = g) as -> by congruence.
  assert (Hr : retained k l <> []).
  { intros E. apply (f_equal zlen) in E. unfold retained in E.
    pose proof (pow2_pos k ltac:(lia)). destruct l; [done |].
    rewrite zlen_zdrop, zlen_nil, !zlen_cons in E by lia. pose proof (zlen_nonneg l). lia. }
  destruct (ring_get_eq k g ss _ sq out0 len0 Hrep Hr Hsq) as (e0 & He0 & Hg). cbv zeta in Hg.
  destruct (load (retained k l) (u16 (sq - entry_seq e0))) as [e |] eqn:Hl;
    [| rewrite Hget in Hg; discriminate Hg].
  destruct (Z.eqb_spec (entry_seq e) sq); [| rewrite Hget in Hg; discriminate Hg].
  destruct Hg as (d' & n' & Hg & Ht & _). exists e. split_and!; [| done | congruence].
  apply load_ret in Hl as [_ Hl]. by eapply list_elem_of_lookup_2.
Qed.

(** Consecutive sequence numbers from [s]. *)
Definition consecutive (s : Z) (l : list entry) : Prop :=
  forall i e, load l i = Ret e -> entry_seq e = u16 (s + i).

(** When the packets pushed carry consecutive sequence numbers (the numbering may
    wrap), every packet among the last 2^k, up to 65536 of them, is found under its
    number, and it is that very packet. *)
Theorem ring_get_complete tn k l s i e out0 len0 :
  0 <= k <= 16 -> gop_ring_slots tn = 2 ^ k -> Forall entry_ok l -> Forall flag_ok l ->
  consecutive s l -> load l i = Ret e -> zlen l - 2 ^ k <= i ->
  exists g d n, push_all tn (Ref empty_ring) l = Ret (Ref g) /\
    ngx_rtc_rtp_ring_get (Ref g) (entry_seq e) (Ref out0) (Ref len0)
    = Ret (NGX_RTC_OK, Ref (Ref d), Ref n) /\ ztake n d = e.1.
Proof.
  intros Hk Htn Hok Hfl Hcons Hi Hrec. pose proof (load_bound _ _ _ Hi) as Hib.
  pose proof (pow2_pos k ltac:(lia)) as H2.
  assert (Hkm : 2 ^ k <= 2 ^ 16) by (apply Z.pow_le_mono_r; lia).
  assert (Hne : l <> []) by (intros ->; rewrite zlen_nil in Hib; lia).
  destruct (push_all_empty tn k l ltac:(lia) Htn Hne Hok Hfl) as (g & ss & Hrun & Hrep).
  set (off := Z.max 0 (zlen l - 2 ^ k)).
  assert (Hat : forall j, 0 <= j -> load (retained k l) j = load l (off + j)).
  { intros j Hj. unfold retained. fold off. unfold load, zdrop.
    destruct (Z.ltb_spec j 0), (Z.ltb_spec (off + j) 0); try lia.
    rewrite lookup_drop. by replace (Z.to_nat off + Z.to_nat j)%nat with (Z.to_nat (off + j)) by lia. }
  assert (Hr : retained k l <> []).
  { intros E. specialize (Hat (i - off) ltac:(lia)). rewrite E in Hat.
    replace (off + (i - off)) with i in Hat by lia. rewrite Hi in Hat.
    unfold load in Hat. destruct (_ <? 0); [done |]. by destruct (Z.to_nat (i - off)). }
  assert (Hsq : is_u16 (entry_seq e)) by (rewrite (Hcons i e Hi); apply u16_range).
  destruct (ring_get_eq k g ss _ (entry_seq e) out0 len0 Hrep Hr Hsq) as (e0 & He0 & Hg).
  cbv zeta in Hg. rewrite Hat, Z.add_0_r in He0 by lia.
  assert (Hdist : u16 (entry_seq e - entry_seq e0) = i - off).
  { rewrite (Hcons i e Hi), (Hcons off e0 He0), u16_sub_l, u16_sub_r.
    replace (s + i - (s + off)) with (i - off) by lia. apply u16_small. unfold is_u16. lia. }
  rewrite Hdist, Hat in Hg by lia. replace (off + (i - off)) with i in Hg by lia.
  rewrite Hi, Z.eqb_refl in Hg. destruct Hg as (d & n & Hg & Ht & _). by exists g, d, n.
Qed.

Definition rtp_demo (sq : Z) : entry := ([128; 102] ++ be_enc 2 sq ++ [1; 2; 3], 0).

Definition small_ring : ngx_rtc_tunables_t :=
  {| jitter_timeout_ms := 50; nack_window_ms_ := 100; nack_window_max_ms := 800;
     eagain_streak_max := 3; gop_ring_slots := 4 |}.

Definition demo_run : list entry := rtp_demo <$> [65533; 65534; 65535; 0; 1; 2].

Lemma demo_run_ok : Forall entry_ok demo_run.
Proof.
  repeat constructor; vm_compute; intuition congruence.
Qed.

Definition demo_ring : ngx_rtc_rtp_ring_t :=
  match push_all small_ring (Ref empty_ring) demo_run with
  | Ret (Ref g) => g
  | _ => empty_ring
  end.

Lemma ring_get_sound_witness :
  exists e, e ∈ retained 2 demo_run /\ entry_seq e = 1 /\
    ztake 7 ([128; 102; 0; 1; 1; 2; 3] ++ zeros 1207) = e.1.
Proof.
  apply (ring_get_sound small_ring 2 demo_run 1 NULL 0 _ 7);
    [lia | reflexivity | exact demo_run_ok | | done | unfold is_u16; lia |].
  - repeat (constructor; [left; reflexivity |]). constructor.
  - exists demo_ring. split; vm_compute; reflexivity.
Defined.

Lemma ring_get_complete_witness :
  exists g d n, push_all small_ring (Ref empty_ring) demo_run = Ret (Ref g) /\
    ngx_rtc_rtp_ring_get (Ref g) 0 (Ref NULL) (Ref 0) = Ret (NGX_RTC_OK, Ref (Ref d), Ref n) /\
    ztake n d = (rtp_demo 0).1.
Proof.
  apply (ring_get_complete small_ring 2 demo_run 65533 3 (rtp_demo 0) NULL 0);
    [lia | reflexivity | exact demo_run_ok | | | reflexivity | vm_compute; congruence].
  - repeat (constructor; [left; reflexivity |]). constructor.
  - intros i e Hi. pose proof (load_bound _ _ _ Hi) as Hb. change (zlen demo_run) with 6 in Hb.
    assert (Hi' : i = 0 \/ i = 1 \/ i = 2 \/ i = 3 \/ i = 4 \/ i = 5) by lia.
    destruct Hi' as [-> | [-> | [-> | [-> | [-> | ->]]]]]; injection Hi as <-; reflexivity.
Defined.
End GopRing.
