(* ===== verification/SendPath.v ===== *)
(** The send path of src/ngx_rtc_core.c: one plaintext RTP packet to one session
    (backpressure, pacing, transport-cc stamping, payload-type rewrite, SRTP, socket),
    the GOP replay and the NACK retransmission with its budget window.

    Parameters: [protect] is [ngx_rtc_srtp_protect_rtp], which returns its code, the
    octets left in the buffer and the context; the argument [send] of a call is what the
    connection's send returns for a datagram, [now] is [ngx_current_msec], and [src] is
    what the session's source pointer refers to.  Every datagram handed to the socket is
    appended to a log with the value send returned. *)

From S2P Require Import Prelude Hsm SessionFsm Session Rtp Pacer GopRing.
Import SessionFsm Session Pacer GopRing.

Module SendPath.

Definition NGX_ERROR : Z := -1.
Definition NGX_AGAIN : Z := -2.

Section send.
Context {Srtp : Type} (protect : Srtp -> octets -> Z * octets * Srtp)
  (tunables : ngx_rtc_tunables_t).
Abbreviation session := (ngx_rtc_session_t Srtp).

(** Octets sent, with what the socket answered. *)
Definition wire : Type := list (octets * Z).

Definition ssrc_of (rtp : octets) : outcome Z :=
  a ← load rtp 8; b ← load rtp 9; c ← load rtp 10; d ← load rtp 11;
  Ret (Z.lor (Z.lor (Z.lor (Z.shiftl a 24) (Z.shiftl b 16)) (Z.shiftl c 8)) d).

Definition is_video_packet (src : ptr ngx_rtc_source_t) (rtp : octets) (len : Z)
    : outcome bool :=
  match src with
  | Ref sc =>
      if NGX_RTC_RTP_HEADER_SIZE <=? len then
        ssrc ← ssrc_of rtp; Ret (ssrc =? video_ssrc sc)
      else Ret false
  | NULL => Ret false
  end.

(** The payload type and the extension id of the packet's medium. *)
Definition session_medium (s : session) (src : ptr ngx_rtc_source_t) (rtp : octets)
    (len : Z) : outcome (Z * Z) :=
  match src with
  | Ref sc =>
      if NGX_RTC_RTP_HEADER_SIZE <=? len then
        ssrc ← ssrc_of rtp;
        Ret (if ssrc =? video_ssrc sc then (video_pt s, twcc_video_ext s)
             else if ssrc =? audio_ssrc sc then (audio_pt s, twcc_audio_ext s)
             else (0, 0))
      else Ret (0, 0)
  | NULL => Ret (0, 0)
  end.

(** Copy into the cipher buffer, with the transport-cc extension when [ext] is set. *)
Definition stamp (s : session) (rtp : octets) (len ext : Z) : outcome (session * Z * bool) :=
  if ext =? 0 then
    b ← load_range rtp 0 len;
    c ← store_range (cipher s) 0 b;
    Ret (set_cipher c s, len, false)
  else
    h ← load_range rtp 0 NGX_RTC_RTP_HEADER_SIZE;
    c ← store_range (cipher s) 0 h;
    b ← load_range rtp NGX_RTC_RTP_HEADER_SIZE (len - NGX_RTC_RTP_HEADER_SIZE);
    c ← store_range c (NGX_RTC_RTP_HEADER_SIZE + 8) b;
    let tseq := twcc_seq s in
    let s := set_twcc_seq (u16 (twcc_seq s + 1)) s in
    c0 ← load c 0;
    c ← store c 0 (Z.lor c0 0x10);
    c ← stores c 12 [0xBE; 0xDE; 0x00; 0x01; u8 (Z.lor (u8 (Z.shiftl ext 4)) 0x01);
                     u8 (Z.shiftr tseq 8); u8 (Z.land tseq 0xff); 0x00];
    Ret (set_cipher c s, len + 8, true).

Definition rewrite_pt (s : session) (pt : Z) : outcome session :=
  if pt =? 0 then Ret s
  else
    c1 ← load (cipher s) 1;
    c ← store (cipher s) 1 (Z.lor (Z.land c1 0x80) (Z.land pt 0x7f));
    Ret (set_cipher c s).

Definition give_back (stamped : bool) (s : session) : session :=
  if stamped then set_twcc_seq (u16 (twcc_seq s - 1)) s else s.

(** What follows the socket call; [n] is the datagram's length, [m] the RTP marker. *)
Definition sent_result (now : Z) (is_video : bool) (is_gop_start n sent : Z) (stamped m : bool)
    (s : session) : Z * session :=
  let s := if negb (sent =? n) then give_back stamped s else s in
  if sent =? NGX_ERROR then
    let s := set_send_failed (u64 (send_failed s + 1)) s in
    (0, if is_video then set_drop_until_gop 1 s else s)
  else if sent =? NGX_AGAIN then
    let s := set_send_eagain (u64 (send_eagain s + 1)) s in
    (0,
     if is_video then
       let s := if (0 <? send_eagain_streak s)
                   && (NGX_RTC_EAGAIN_STREAK_IDLE_MS <=? u64 (now - send_eagain_ms s))
                then set_send_eagain_streak 0 s else s in
       let s := set_send_eagain_ms now s in
       let s := set_send_eagain_streak (u64 (send_eagain_streak s + 1)) s in
       if eagain_streak_max tunables <=? send_eagain_streak s then
         s |> set_send_eagain_streak 0 |> set_drop_until_gop 1
       else s
     else s)
  else if negb (sent =? n) then
    let s := set_send_failed (u64 (send_failed s + 1)) s in
    (0, if is_video then set_drop_until_gop 1 s else s)
  else
    (1,
     if is_video then
       let s := set_send_eagain_streak 0 s in
       let s := if negb (is_gop_start =? 0)
                then s |> set_drop_until_gop 0 |> set_keyframe_open 1 |> set_keyframe_pkts 0
                else s in
       if negb (keyframe_open s =? 0) then
         let s := set_keyframe_pkts (u64 (keyframe_pkts s + 1)) s in
         if m then set_keyframe_open 0 s else s
       else s
     else s).

(** The gates before the cipher buffer is touched: None when the packet is dropped. *)
Definition admitted (now : Z) (is_video : bool) (len is_gop_start : Z) (s : session)
    : option session * session :=
  let is_gop_idr := is_video && negb (is_gop_start =? 0) in
  let is_keyframe :=
    is_gop_idr || (is_video && negb (keyframe_open s =? 0)
                   && (keyframe_pkts s <? NGX_RTC_KEYFRAME_MAX_PKTS)) in
  if is_video && negb (drop_until_gop s =? 0) && (is_gop_start =? 0) then
    (None, set_drop_gop (u64 (drop_gop s + 1)) s)
  else if negb (pacer_target_bps s =? 0) then
    match ngx_rtc_session_pacer_admit (Ref s) len now with
    | (rc, Ref s) =>
        if negb (rc =? NGX_RTC_OK) && negb is_keyframe
        then (None, set_drop_pacer (u64 (drop_pacer s + 1)) s) else (Some s, s)
    | (_, NULL) => (None, s)
    end
  else (Some s, s).

Definition ngx_rtc_session_send_rtp (now : Z) (send : octets -> Z)
    (src : ptr ngx_rtc_source_t) (sess : ptr session) (rtp : octets)
    (len is_gop_start : Z) (log : wire) : outcome (Z * ptr session * wire) :=
  match sess with
  | NULL => Ret (0, sess, log)
  | Ref s =>
      if is_null (conn s) then Ret (0, sess, log)
      else
        ready ← ngx_rtc_session_fsm_is_ready (Ref (fsm s));
        if negb ready then Ret (0, sess, log)
        else if (len =? 0) || (NGX_RTC_MAX_RTP_PKT <? len) then Ret (0, sess, log)
        else
          is_video ← is_video_packet src rtp len;
          match admitted now is_video len is_gop_start s with
          | (None, s) => Ret (0, Ref s, log)
          | (Some s, _) =>
              '(session_pt, twcc_ext_id) ← session_medium s src rtp len;
              let twcc_ext_id :=
                if negb (twcc_ext_id =? 0)
                   && (NGX_RTC_CIPHER_CAP <? len + 8 + NGX_RTC_SRTP_TAG_LEN)
                then 0 else twcc_ext_id in
              '(s, len, twcc_stamped) ← stamp s rtp len twcc_ext_id;
              s ← rewrite_pt s session_pt;
              plain ← load_range (cipher s) 0 len;
              let '(rc, out, ctx) := protect (srtp s) plain in
              c ← store_range (cipher s) 0 out;
              let s := s |> set_srtp ctx |> set_cipher c in
              if negb (rc =? 0) then
                Ret (0, Ref (give_back twcc_stamped
                               (set_srtp_failed (u64 (srtp_failed s + 1)) s)), log)
              else
                let sent := send out in
                marker ← (if is_video && (NGX_RTC_RTP_HEADER_SIZE <=? len) then
                            b1 ← load rtp 1;
                            Ret (negb (Z.land b1 NGX_RTC_RTP_MARKER =? 0))
                          else Ret false);
                let '(r, s) := sent_result now is_video is_gop_start (zlen out) sent
                                 twcc_stamped marker s in
                Ret (r, Ref s, log ++ [(out, sent)])
          end
  end.

(** ** What reaches SRTP *)

(** A packet whose fixed header is [h], twelve octets. *)
Definition set_pt (pt b1 : Z) : Z :=
  if pt =? 0 then b1 else Z.lor (Z.land b1 0x80) (Z.land pt 0x7f).

Definition ext_block (ext tseq : Z) : octets :=
  [0xBE; 0xDE; 0x00; 0x01; u8 (Z.lor (u8 (Z.shiftl ext 4)) 0x01);
   u8 (Z.shiftr tseq 8); u8 (Z.land tseq 0xff); 0x00].

Definition on_wire (pt ext tseq : Z) (rtp : octets) : octets :=
  match rtp with
  | b0 :: b1 :: rest =>
      if ext =? 0 then b0 :: set_pt pt b1 :: rest
      else Z.lor b0 0x10 :: set_pt pt b1 :: ztake 10 rest ++ ext_block ext tseq
             ++ zdrop 10 rest
  | _ => rtp
  end.

Lemma zlen_on_wire pt ext tseq rtp :
  12 <= zlen rtp -> zlen (on_wire pt ext tseq rtp) = zlen rtp + if ext =? 0 then 0 else 8.
Proof.
  intros H. destruct rtp as [| b0 [| b1 rest]]; try (exfalso; zl). unfold on_wire.
  rewrite !zlen_cons in *. destruct (ext =? 0).
  - rewrite !zlen_cons. lia.
  - rewrite !zlen_cons, !zlen_app. change (zlen (ext_block ext tseq)) with 8. zl.
Qed.

Lemma rewrite_pt_cons s pt b0 b1 c :
  cipher s = b0 :: b1 :: c ->
  rewrite_pt s pt = Ret (set_cipher (b0 :: set_pt pt b1 :: c) s).
Proof.
  intros Hc. unfold rewrite_pt, set_pt. destruct (pt =? 0).
  - rewrite <- Hc. by destruct s.
  - rewrite Hc. change (load (b0 :: b1 :: c) 1) with (Ret b1). rewrite bind_Ret.
    pose proof (zlen_nonneg c).
    change (b0 :: b1 :: c) with ([b0] ++ b1 :: c). by rewrite store_cursor by zl.
Qed.

Lemma stamp_rewrite s rtp pt ext :
  12 <= zlen rtp -> zlen rtp + 8 <= zlen (cipher s) ->
  exists c,
    ('(s, len, st) ← stamp s rtp (zlen rtp) ext;
     s ← rewrite_pt s pt;
     Ret (s, len, st))
    = Ret (s |> set_cipher c
             |> set_twcc_seq (if ext =? 0 then twcc_seq s else u16 (twcc_seq s + 1)),
           zlen (on_wire pt ext (twcc_seq s) rtp), negb (ext =? 0)) /\
    load_range c 0 (zlen (on_wire pt ext (twcc_seq s) rtp))
      = Ret (on_wire pt ext (twcc_seq s) rtp) /\
    zlen c = zlen (cipher s).
Proof.
  intros Hr Hcap. rewrite zlen_on_wire by done. pose proof (zlen_on_wire pt ext (twcc_seq s) rtp Hr) as Hw.
  destruct rtp as [| b0 [| b1 rest]]; try (exfalso; zl). unfold stamp.
  set (rtp := b0 :: b1 :: rest) in *. unfold on_wire in *. subst rtp.
  assert (Hrest : 10 <= zlen rest) by (rewrite !zlen_cons in Hr; lia).
  destruct (ext =? 0).
  - rewrite load_range_all, bind_Ret by done.
    pose proof (store_range_cursor [] (cipher s) 0 (b0 :: b1 :: rest) eq_refl ltac:(lia)) as Hs.
    rewrite !app_nil_l in Hs. rewrite Hs, bind_Ret, bind_Ret.
    erewrite rewrite_pt_cons, bind_Ret by reflexivity. rewrite Z.add_0_r in *.
    exists ((b0 :: set_pt pt b1 :: rest) ++ zdrop (zlen (b0 :: b1 :: rest)) (cipher s)).
    split; [by destruct s |]. rewrite <- Hw. split.
    + apply (load_range_app [] (b0 :: set_pt pt b1 :: rest)); done.
    + zl.
  - assert (Hh : load_range (b0 :: b1 :: rest) 0 12 = Ret (b0 :: b1 :: ztake 10 rest)).
    { change (b0 :: b1 :: rest) with ([] ++ (b0 :: b1 :: rest)).
      rewrite <- (ztake_zdrop 10 rest) at 1.
      change (b0 :: b1 :: ztake 10 rest ++ zdrop 10 rest)
        with ((b0 :: b1 :: ztake 10 rest) ++ zdrop 10 rest).
      apply (load_range_app []); [done |]. rewrite !zlen_cons, zlen_ztake; lia. }
    change NGX_RTC_RTP_HEADER_SIZE with 12. rewrite Hh, bind_Ret.
    set (h := b0 :: b1 :: ztake 10 rest).
    assert (Hhl : zlen h = 12) by (unfold h; rewrite !zlen_cons, zlen_ztake; lia).
    rewrite !zlen_cons in *. set (n := zlen rest) in *.
    pose proof (store_range_cursor [] (cipher s) 0 h eq_refl ltac:(lia)) as Hs.
    rewrite !app_nil_l in Hs. rewrite Hs, bind_Ret. clear Hs.
    assert (Hb : load_range (b0 :: b1 :: rest) 12 (1 + (1 + n) - 12) = Ret (zdrop 10 rest)).
    { rewrite <- (ztake_zdrop 10 rest) at 1.
      change (b0 :: b1 :: ztake 10 rest ++ zdrop 10 rest) with (h ++ zdrop 10 rest).
      rewrite <- (app_nil_r (zdrop 10 rest)) at 1.
      apply load_range_app; [done |]. rewrite zlen_zdrop; lia. }
    rewrite Hb, bind_Ret. rewrite Hhl.
    assert (Hcz : zlen (zdrop 12 (cipher s)) = zlen (cipher s) - 12)
      by (rewrite zlen_zdrop by lia; lia).
    rewrite <- (ztake_zdrop 8 (zdrop 12 (cipher s))).
    set (gap := ztake 8 (zdrop 12 (cipher s))). set (tl := zdrop 8 (zdrop 12 (cipher s))).
    assert (Hgap : zlen gap = 8) by (unfold gap; rewrite zlen_ztake; lia).
    assert (Htl : zlen tl = zlen (cipher s) - 20) by (unfold tl; rewrite zlen_zdrop; lia).
    assert (Hbody : zlen (zdrop 10 rest) = n - 10) by (rewrite zlen_zdrop; lia).
    rewrite app_assoc, store_range_cursor, bind_Ret by (rewrite ?zlen_app; lia).
    rewrite Hbody. cbv zeta.
    change (load (((h ++ gap) ++ zdrop 10 rest) ++ zdrop (n - 10) tl) 0) with (Ret b0).
    rewrite bind_Ret.
    change (((h ++ gap) ++ zdrop 10 rest) ++ zdrop (n - 10) tl)
      with (b0 :: (((b1 :: ztake 10 rest) ++ gap) ++ zdrop 10 rest) ++ zdrop (n - 10) tl).
    rewrite store_head, bind_Ret. set (x0 := Z.lor b0 16).
    rewrite stores_store_range.
    2: { rewrite zlen_cons, !zlen_app, !zlen_cons, Hgap, Hbody, !zlen_zdrop, zlen_ztake; lia. }
    rewrite <- !app_assoc, app_comm_cons.
    rewrite (store_range_app (x0 :: b1 :: ztake 10 rest) gap); [| | by rewrite Hgap].
    2: { rewrite !zlen_cons, zlen_ztake; lia. }
    rewrite bind_Ret, bind_Ret. erewrite rewrite_pt_cons, bind_Ret by reflexivity.
    exists ((x0 :: set_pt pt b1 :: ztake 10 rest ++ ext_block ext (twcc_seq s)
              ++ zdrop 10 rest) ++ zdrop (n - 10) tl).
    split.
    { assert (1 + (1 + n) + 8 = 2 + n + 8) as -> by lia. destruct s; cbn.
      rewrite <- !app_assoc. done. }
    change (ext_block ext (twcc_seq s)) with
      [0xBE; 0xDE; 0; 1; u8 (Z.lor (u8 (ext ≪ 4)) 1); u8 (twcc_seq s ≫ 8);
       u8 (Z.land (twcc_seq s) 255); 0].
    split.
    + apply load_range_prefix. rewrite <- Hw, !zlen_cons. done.
    + zl.
Qed.

(** ** One call as a pure step

    The step leaves the scratch buffer out; the code is the step up to its content. *)

Definition ssrc_val (rtp : octets) : Z := match ssrc_of rtp with Ret v => v | Fault => 0 end.

Definition video (sc : ngx_rtc_source_t) (rtp : octets) : bool := ssrc_val rtp =? video_ssrc sc.

(** Payload type and extension id the session negotiated for the packet's medium. *)
Definition medium (s : session) (sc : ngx_rtc_source_t) (rtp : octets) : Z * Z :=
  if video sc rtp then (video_pt s, twcc_video_ext s)
  else if ssrc_val rtp =? audio_ssrc sc then (audio_pt s, twcc_audio_ext s)
  else (0, 0).

Definition marker (rtp : octets) : bool :=
  match load rtp 1 with Ret b1 => negb (Z.land b1 NGX_RTC_RTP_MARKER =? 0) | Fault => false end.

Definition send_step (now : Z) (send : octets -> Z) (sc : ngx_rtc_source_t) (s : session)
    (rtp : octets) (gs : Z) : Z * session * wire :=
  match admitted now (video sc rtp) (zlen rtp) gs s with
  | (None, s) => (0, s, [])
  | (Some s, _) =>
      let '(pt, ext) := medium s sc rtp in
      let '(rc, out, ctx) := protect (srtp s) (on_wire pt ext (twcc_seq s) rtp) in
      let st := negb (ext =? 0) in
      let s := s |> set_srtp ctx
                 |> set_twcc_seq (if ext =? 0 then twcc_seq s else u16 (twcc_seq s + 1)) in
      if negb (rc =? 0) then
        (0, give_back st (set_srtp_failed (u64 (srtp_failed s + 1)) s), [])
      else
        let '(r, s) := sent_result now (video sc rtp) gs (zlen out) (send out) st
                         (video sc rtp && marker rtp) s in
        (r, s, [(out, send out)])
  end.

Definition packet_ok (rtp : octets) : Prop := 12 <= zlen rtp <= NGX_RTC_MAX_RTP_PKT.

(** A session the send path works on: connected, SRTP established. *)
Definition sendable (s : session) : Prop :=
  conn s <> NULL /\ ngx_rtc_session_fsm_is_ready (Ref (fsm s)) = Ret true /\
  zlen (cipher s) = NGX_RTC_CIPHER_CAP.

(** A packet that is too long is refused. *)
Lemma long_send now send src (s : session) rtp len gs log :
  sendable s -> NGX_RTC_MAX_RTP_PKT < len ->
  ngx_rtc_session_send_rtp now send src (Ref s) rtp len gs log = Ret (0, Ref s, log).
Proof.
  intros (Hc & Hr & _) Hl. unfold ngx_rtc_session_send_rtp.
  destruct (conn s); [done |]. cbn [is_null]. rewrite Hr, bind_Ret. cbn [negb].
  destruct (Z.ltb_spec NGX_RTC_MAX_RTP_PKT len); [| lia]. by rewrite orb_true_r.
Qed.

Lemma ssrc_of_ret rtp : 12 <= zlen rtp -> ssrc_of rtp = Ret (ssrc_val rtp).
Proof.
  intros H. unfold ssrc_val, ssrc_of.
  destruct (load_in rtp 8 ltac:(lia)) as [a ->]. destruct (load_in rtp 9 ltac:(lia)) as [b ->].
  destruct (load_in rtp 10 ltac:(lia)) as [c ->]. destruct (load_in rtp 11 ltac:(lia)) as [d ->].
  done.
Qed.

(** The fields a call never changes. *)
Definition config (s : session) :=
  (conn s, fsm s, (video_pt s, audio_pt s, twcc_video_ext s, twcc_audio_ext s),
   pacer_target_bps s, (nack_seen s, nack_seen_count s),
   (nack_retransmitted s, nack_window_ms s, nack_window_start s)).

Definition same_config (s s' : session) : Prop := config s' = config s.

Lemma admitted_cases now v len gs s :
  exists t,
  (admitted now v len gs s = (None, set_drop_gop (u64 (drop_gop s + 1)) s) \/
   admitted now v len gs s = (None, set_drop_pacer (u64 (drop_pacer t + 1)) t) \/
   admitted now v len gs s = (Some t, t)) /\
  (t = s \/ (ngx_rtc_session_pacer_admit (Ref s) len now).2 = Ref t).
Proof.
  unfold admitted. destruct (_ && _ && _); [exists s; auto |].
  destruct (negb _); [| exists s; auto].
  destruct (ngx_rtc_session_pacer_admit (Ref s) len now) as [rc [| t]] eqn:E.
  { revert E. cbn. destruct (_ <? len); done. }
  exists t. split; [| by right].
  match goal with |- context [if ?c then _ else _] => destruct c; auto end.
Qed.

(** A pacer call only moves the bucket and its clock. *)
Lemma admit_frame (s : session) len now (t : session) :
  (ngx_rtc_session_pacer_admit (Ref s) len now).2 = Ref t ->
  t = (s |> set_pacer_started (pacer_started t) |> set_pacer_last_ms (pacer_last_ms t)
         |> set_pacer_tokens (pacer_tokens t)).
Proof.
  unfold ngx_rtc_session_pacer_admit. cbv zeta.
  destruct (_ =? 0); [| destruct (pacer_last_ms s <=? now)];
    destruct (_ <? len); intros [= <-]; by destruct s.
Qed.

Lemma admitted_frame now v len gs s o t :
  admitted now v len gs s = (o, t) ->
  cipher t = cipher s /\ srtp t = srtp s /\ twcc_seq t = twcc_seq s /\ same_config s t /\
  drop_until_gop t = drop_until_gop s /\ keyframe_open t = keyframe_open s /\
  keyframe_pkts t = keyframe_pkts s /\ (o = None \/ o = Some t).
Proof.
  intros E. destruct (admitted_cases now v len gs s) as (u & Hc & Hu).
  assert (Hu' : u = s \/ u = (s |> set_pacer_started (pacer_started u)
    |> set_pacer_last_ms (pacer_last_ms u) |> set_pacer_tokens (pacer_tokens u))).
  { destruct Hu as [Hu | Hu]; [by left | right; by eapply admit_frame]. }
  rewrite E in Hc.
  destruct Hc as [Hc | [Hc | Hc]]; injection Hc as -> ->;
    (destruct Hu' as [-> | Hu']; [| try rewrite Hu']; unfold same_config, config; split_and!; auto).
Qed.

(** Split on an innermost conditional. *)
Ltac inner_if :=
  match goal with
  | |- context [if ?c then _ else _] =>
      lazymatch c with context [if _ then _ else _] => fail | _ => destruct c; cbn end
  end.

Lemma sent_result_cipher now v gs n sent st m s c :
  sent_result now v gs n sent st m (set_cipher c s)
  = let '(r, s') := sent_result now v gs n sent st m s in (r, set_cipher c s').
Proof.
  unfold sent_result, give_back. cbv zeta.
  destruct (negb (sent =? n)), st, v, (sent =? NGX_ERROR), (sent =? NGX_AGAIN); cbn;
    repeat inner_if; reflexivity.
Qed.

Lemma sent_result_frame now v gs n sent st m s r s' :
  sent_result now v gs n sent st m s = (r, s') ->
  cipher s' = cipher s /\ srtp s' = srtp s /\ same_config s s'.
Proof.
  unfold sent_result, give_back. cbv zeta.
  destruct (negb (sent =? n)), st, v, (sent =? NGX_ERROR), (sent =? NGX_AGAIN);
    repeat inner_if; intros [= <- <-]; unfold same_config, config; split_and!; reflexivity.
Qed.

(** SRTP leaves the cipher buffer's headroom enough for its tag. *)
Context (Hprotect : forall ctx p,
  zlen (protect ctx p).1.2 <= zlen p + NGX_RTC_SRTP_TAG_LEN + 24).

Lemma medium_code s sc rtp :
  12 <= zlen rtp ->
  session_medium s (Ref sc) rtp (zlen rtp) = Ret (medium s sc rtp).
Proof.
  intros H. unfold session_medium, medium, video. change NGX_RTC_RTP_HEADER_SIZE with 12.
  destruct (Z.leb_spec 12 (zlen rtp)); [| lia]. by rewrite ssrc_of_ret, bind_Ret.
Qed.

Lemma medium_frame s t sc rtp : same_config s t -> medium t sc rtp = medium s sc rtp.
Proof.
  intros [= _ _ H1 H2 H3 H4 _ _ _ _ _]. unfold medium. by rewrite H1, H2, H3, H4.
Qed.

(** The code refines the step, and makes no bad access. *)
Lemma send_rtp_step now send sc s rtp gs log :
  sendable s -> packet_ok rtp ->
  exists c, zlen c = NGX_RTC_CIPHER_CAP /\
    ngx_rtc_session_send_rtp now send (Ref sc) (Ref s) rtp (zlen rtp) gs log
    = let '(r, s', w) := send_step now send sc s rtp gs in
      Ret (r, Ref (set_cipher c s'), log ++ w).
Proof.
  intros (Hconn & Hready & Hcap) [Hp0 Hp1].
  unfold ngx_rtc_session_send_rtp, send_step.
  destruct (conn s) as [| cn] eqn:Ecn; [done |]. cbn [is_null].
  rewrite Hready, bind_Ret. cbn [negb]. unfold NGX_RTC_MAX_RTP_PKT in *.
  destruct (Z.eqb_spec (zlen rtp) 0); [lia |].
  destruct (Z.ltb_spec 1214 (zlen rtp)); [lia |]. cbn [orb].
  assert (Hv : is_video_packet (Ref sc) rtp (zlen rtp) = Ret (video sc rtp)).
  { unfold is_video_packet, video. change NGX_RTC_RTP_HEADER_SIZE with 12.
    destruct (Z.leb_spec 12 (zlen rtp)); [| lia]. by rewrite ssrc_of_ret, bind_Ret. }
  rewrite Hv, bind_Ret. set (v := video sc rtp).
  destruct (admitted now v (zlen rtp) gs s) as [o t] eqn:Eadm.
  destruct (admitted_frame _ _ _ _ _ _ _ Eadm) as (Hc & Hs & Hseq & Hcfg & _ & _ & _ & Ho).
  destruct Ho as [-> | ->].
  { exists (cipher t). split; [congruence |]. rewrite app_nil_r. by destruct t. }
  rewrite medium_code, bind_Ret by lia. rewrite (medium_frame s t sc rtp Hcfg).
  destruct (medium s sc rtp) as [pt ext]. 
  unfold NGX_RTC_CIPHER_CAP, NGX_RTC_SRTP_TAG_LEN, NGX_RTC_MAX_RTP_PKT in *.
  destruct (Z.ltb_spec (1214 + 10 + 32) (zlen rtp + 8 + 10)); [lia |].
  rewrite andb_false_r.
  destruct (stamp_rewrite t rtp pt ext) as (c & Hst & Hld & Hlc);
    [lia | rewrite Hc; lia |].
  set (p := on_wire pt ext (twcc_seq t) rtp) in *.
  assert (Hpl : zlen rtp <= zlen p <= zlen rtp + 8)
    by (unfold p; rewrite zlen_on_wire by done; destruct (ext =? 0); lia).
  destruct (stamp t rtp (zlen rtp) ext) as [[[t1 len1] st1] |] in Hst |- *; [| done].
  rewrite bind_Ret in Hst. rewrite bind_Ret. cbv beta iota in Hst |- *.
  destruct (rewrite_pt t1 pt) as [t2 |] in Hst |- *; [| done].
  rewrite bind_Ret in Hst. rewrite bind_Ret. injection Hst as -> -> ->.
  set (t2 := set_twcc_seq _ _). change (cipher t2) with c.
  change (srtp t2) with (srtp t). rewrite Hld, bind_Ret.
  specialize (Hprotect (srtp t) p). destruct (protect (srtp t) p) as [[rc out] ctx].
  cbn [fst snd] in Hprotect.
  rewrite Hc in Hlc. assert (Hfit : zlen out <= zlen c) by lia.
  pose proof (store_range_safe c 0 out ltac:(lia) ltac:(lia)) as Hstore.
  destruct (store_range c 0 out) as [c1 |]; [| done]. cbn [safe] in Hstore. rewrite bind_Ret.
  exists c1. split; [lia |]. destruct (negb (rc =? 0)).
  { rewrite app_nil_r. by destruct (negb (ext =? 0)). }
  assert (Hm : (if v && (NGX_RTC_RTP_HEADER_SIZE <=? zlen p) then
                  b1 ← load rtp 1; Ret (negb (Z.land b1 NGX_RTC_RTP_MARKER =? 0))
                else Ret false) = Ret (v && marker rtp)).
  { change NGX_RTC_RTP_HEADER_SIZE with 12.
    destruct (Z.leb_spec 12 (zlen p)); [| lia]. rewrite andb_true_r.
    destruct v; [| done]. unfold marker. destruct (load_in rtp 1 ltac:(lia)) as [b1 Hb1].
    by rewrite Hb1, bind_Ret. }
  rewrite Hm, bind_Ret.
  set (t3 := set_twcc_seq (if ext =? 0 then twcc_seq t else u16 (twcc_seq t + 1))
               (set_srtp ctx t)).
  change (set_cipher c1 (set_srtp ctx t2)) with (set_cipher c1 t3).
  rewrite sent_result_cipher. by destruct (sent_result _ _ _ _ _ _ _ t3).
Qed.

(** A call reads no further than the length it is given. *)
Lemma send_rtp_prefix now send src (sess : ptr session) d n gs log :
  12 <= n <= zlen d ->
  ngx_rtc_session_send_rtp now send src sess d n gs log
  = ngx_rtc_session_send_rtp now send src sess (ztake n d) n gs log.
Proof.
  intros Hn. assert (Hl : forall i, 0 <= i < n -> load (ztake n d) i = load d i)
    by (intros; by apply load_ztake).
  assert (Hr : forall i m, 0 <= i -> 0 <= m -> i + m <= n ->
    load_range (ztake n d) i m = load_range d i m) by (intros; apply load_range_ztake; lia).
  destruct sess as [| s]; [done |]. unfold ngx_rtc_session_send_rtp.
  unfold is_video_packet, session_medium, stamp, ssrc_of, NGX_RTC_RTP_HEADER_SIZE.
  destruct src; rewrite ?Hl, !Hr by lia; done.
Qed.

(** Without a source a packet is sent as one of a source with other SSRCs is. *)
Definition foreign (v : Z) : ngx_rtc_source_t := zero_source |> set_video_ssrc (v + 1) |> set_audio_ssrc (v + 1).

Lemma send_no_source now send (s : session) d n gs log :
  12 <= n <= zlen d ->
  exists sc, ngx_rtc_session_send_rtp now send NULL (Ref s) d n gs log
    = ngx_rtc_session_send_rtp now send (Ref sc) (Ref s) d n gs log.
Proof.
  intros Hn. assert (Hv : exists v, ssrc_of d = Ret v).
  { unfold ssrc_of. destruct (load_in d 8 ltac:(lia)) as [b8 ->], (load_in d 9 ltac:(lia)) as [b9 ->],
      (load_in d 10 ltac:(lia)) as [b10 ->], (load_in d 11 ltac:(lia)) as [b11 ->]. by eexists. }
  destruct Hv as [v Hv]. exists (foreign v).
  assert (Hvid : is_video_packet NULL d n = is_video_packet (Ref (foreign v)) d n).
  { unfold is_video_packet. destruct (_ <=? n); [| done]. rewrite Hv, bind_Ret. cbn [video_ssrc foreign].
    f_equal. symmetry. apply Z.eqb_neq. cbn. lia. }
  assert (Hmed : forall u : session, session_medium u NULL d n = session_medium u (Ref (foreign v)) d n).
  { intros u. unfold session_medium. destruct (_ <=? n); [| done]. rewrite Hv, bind_Ret. cbn.
    by destruct (Z.eqb_spec v (v + 1)); [lia |]. }
  unfold ngx_rtc_session_send_rtp. destruct (is_null (conn s)); [done |].
  destruct (ngx_rtc_session_fsm_is_ready _) as [b |]; [rewrite !bind_Ret | done]. destruct (negb b); [done |].
  destruct (_ || _); [done |]. rewrite Hvid. clear Hvid. destruct (is_video_packet _ d n) as [v' |]; [rewrite !bind_Ret | done].
  destruct (admitted _ _ _ _ _) as [[u |] u']; [| done]. by rewrite Hmed.
Qed.

(** ** Runs of calls *)

Record offer := { o_now : Z; o_send : octets -> Z; o_rtp : octets; o_gop : Z }.

Fixpoint send_all (sc : ngx_rtc_source_t) (l : list offer) (sess : ptr session)
    : outcome (list (Z * wire) * ptr session) :=
  match l with
  | [] => Ret ([], sess)
  | o :: l =>
      '(r, sess, w) ← ngx_rtc_session_send_rtp (o_now o) (o_send o) (Ref sc) sess (o_rtp o)
                        (zlen (o_rtp o)) (o_gop o) [];
      '(rs, sess) ← send_all sc l sess;
      Ret ((r, w) :: rs, sess)
  end.

Inductive steps (sc : ngx_rtc_source_t) : session -> list offer -> list (Z * wire) -> session -> Prop :=
| steps_nil s : steps sc s [] [] s
| steps_cons s o l r w t c rs s' :
    send_step (o_now o) (o_send o) sc s (o_rtp o) (o_gop o) = (r, t, w) ->
    steps sc (set_cipher c t) l rs s' -> steps sc s (o :: l) ((r, w) :: rs) s'.

Lemma send_step_frame now send sc s rtp gs r t w :
  send_step now send sc s rtp gs = (r, t, w) -> same_config s t /\ cipher t = cipher s.
Proof.
  unfold send_step. destruct (admitted now (video sc rtp) (zlen rtp) gs s) as [o u] eqn:E.
  destruct (admitted_frame _ _ _ _ _ _ _ E) as (Hc & _ & _ & Hcfg & _ & _ & _ & Ho).
  destruct Ho as [-> | ->]; [by intros [= <- <- <-] |].
  destruct (medium s sc rtp) as [pt ext] eqn:Em. destruct (medium u sc rtp) as [pt' ext'].
  destruct (protect _ _) as [[rc out] ctx]. destruct (negb (rc =? 0)).
  { intros [= <- <- <-]. unfold give_back. by destruct (negb (ext' =? 0)). }
  destruct (sent_result _ _ _ _ _ _ _ _) as [r' t'] eqn:Es. intros [= <- <- <-].
  destruct (sent_result_frame _ _ _ _ _ _ _ _ _ _ Es) as (H1 & _ & H2).
  split; [| by rewrite H1]. unfold same_config in *. rewrite H2. exact Hcfg.
Qed.

(** What ties a session to the registry. *)
Definition identity (s : session) := (source s, ice_ufrag s, sn_str_len s, sess_publishing s).

Lemma send_step_identity now send sc s rtp gs r t w :
  send_step now send sc s rtp gs = (r, t, w) -> identity t = identity s.
Proof.
  unfold send_step. destruct (admitted now (video sc rtp) (zlen rtp) gs s) as [o u] eqn:E.
  assert (Hu : identity u = identity s /\ (o = None \/ o = Some u)).
  { destruct (admitted_frame _ _ _ _ _ _ _ E) as (_ & _ & _ & _ & _ & _ & _ & Ho). split; [| done].
    destruct (admitted_cases now (video sc rtp) (zlen rtp) gs s) as (v & Hc & Hv).
    assert (Hv' : identity v = identity s).
    { destruct Hv as [-> | Hv]; [done |]. apply admit_frame in Hv. by rewrite Hv. }
    rewrite E in Hc. destruct Hc as [Hc | [Hc | Hc]]; injection Hc as -> ->; done. }
  destruct Hu as [Hu [-> | ->]]; [by intros [= <- <- <-] |].
  destruct (medium s sc rtp) as [pt ext]. destruct (medium u sc rtp) as [pt' ext'].
  destruct (protect _ _) as [[rc out] ctx]. destruct (negb (rc =? 0)).
  { intros [= <- <- <-]. unfold give_back. by destruct (negb (ext' =? 0)). }
  destruct (sent_result _ _ _ _ _ _ _ _) as [r' t'] eqn:Es. intros [= <- <- <-]. rewrite <- Hu.
  revert Es. unfold sent_result, give_back. cbv zeta.
  destruct (negb (send out =? zlen out)), (negb (ext' =? 0)), (video sc rtp), (send out =? NGX_ERROR),
    (send out =? NGX_AGAIN); repeat inner_if; intros [= <- <-]; reflexivity.
Qed.

Lemma sendable_frame s t c :
  sendable s -> same_config s t -> zlen c = NGX_RTC_CIPHER_CAP -> sendable (set_cipher c t).
Proof.
  intros (H1 & H2 & _) [= Hc Hf _ _ _ _ _ _ _ _ _ _] Hcap. unfold sendable. cbn. by rewrite Hc, Hf.
Qed.

Lemma send_all_steps sc l : forall s,
  sendable s -> Forall (fun o => packet_ok (o_rtp o)) l ->
  exists rs s', send_all sc l (Ref s) = Ret (rs, Ref s') /\ steps sc s l rs s' /\ sendable s'.
Proof.
  induction l as [| o l IH]; intros s Hs Hl; [exists [], s; split_and!; [done | constructor | done] |].
  inversion_clear Hl as [| ?? Ho Hl']. cbn [send_all].
  destruct (send_rtp_step (o_now o) (o_send o) sc s (o_rtp o) (o_gop o) [] Hs Ho) as (c & Hc & E).
  destruct (send_step _ _ _ _ _ _) as [[r t] w] eqn:Est. rewrite E, bind_Ret.
  destruct (send_step_frame _ _ _ _ _ _ _ _ _ Est) as [Hcfg _].
  destruct (IH (set_cipher c t)) as (rs & s' & Er & Hst & Hs'); [by eapply sendable_frame | done |].
  rewrite Er, bind_Ret. exists ((r, w) :: rs), s'. split_and!; [done | | done].
  by eapply steps_cons.
Qed.

(** What a call does to the transport sequence. *)
Lemma send_step_seq now send sc s rtp gs r t w pt ext :
  is_u16 (twcc_seq s) -> medium s sc rtp = (pt, ext) ->
  send_step now send sc s rtp gs = (r, t, w) ->
  (r = 0 \/ r = 1) /\
  twcc_seq t = (if (r =? 1) && negb (ext =? 0) then u16 (twcc_seq s + 1) else twcc_seq s) /\
  (r = 1 -> exists ctx out ctx',
     protect ctx (on_wire pt ext (twcc_seq s) rtp) = (0, out, ctx') /\ w = [(out, zlen out)]).
Proof.
  intros Hu Hm. unfold send_step.
  destruct (admitted now (video sc rtp) (zlen rtp) gs s) as [o u] eqn:E.
  destruct (admitted_frame _ _ _ _ _ _ _ E) as (_ & _ & Hseq & Hcfg & _ & _ & _ & Ho).
  destruct Ho as [-> | ->].
  { intros [= <- <- <-]. split; [by left |]. by split. }
  rewrite (medium_frame s u sc rtp Hcfg), Hm, Hseq.
  destruct (protect (srtp u) _) as [[rc out] ctx] eqn:Ep.
  assert (Hback : u16 (u16 (twcc_seq s + 1) - 1) = twcc_seq s) by wraps.
  destruct (Z.eqb_spec rc 0) as [-> |]; cbn [negb].
  2: { intros [= <- <- <-]. split; [by left |]. split; [| done].
       unfold give_back. by destruct (ext =? 0). }
  set (u1 := set_twcc_seq _ _).
  assert (Hu1 : twcc_seq u1 = if ext =? 0 then twcc_seq s else u16 (twcc_seq s + 1)) by done.
  destruct (sent_result _ _ _ _ _ _ _ u1) as [r' t'] eqn:Es. intros [= <- <- <-].
  revert Es. unfold sent_result, give_back. cbv zeta.
  change NGX_ERROR with (-1). change NGX_AGAIN with (-2).
  pose proof (zlen_nonneg out) as Hlo.
  destruct (Z.eqb_spec (send out) (zlen out)) as [Heq |]; cbn [negb].
  - destruct (Z.eqb_spec (send out) (-1)); [lia |]. destruct (Z.eqb_spec (send out) (-2)); [lia |].
    intros [= <- <-]. split; [by right |]. split.
    2: { intros _. rewrite Heq. by exists (srtp u), out, ctx. }
    cbn [Z.eqb]. destruct (video sc rtp), (ext =? 0); cbn; repeat inner_if;
      first [exact Hu1 | done].
  - intros Es. assert (Hr : r' = 0).
    { revert Es. destruct (send out =? -1), (send out =? -2), (video sc rtp); by intros [= <- _]. }
    subst r'. split; [by left |]. split; [| done]. cbn [Z.eqb andb].
    assert (Hgb : twcc_seq (if negb (ext =? 0) then set_twcc_seq (u16 (twcc_seq u1 - 1)) u1 else u1)
                  = twcc_seq s).
    { destruct (ext =? 0); cbn [negb]; [by rewrite Hu1 |]. cbn. done. }
    revert Es. destruct (send out =? -1), (send out =? -2), (video sc rtp);
      repeat inner_if; intros [= <-]; first [exact Hgb | cbn; exact Hgb].
Qed.

(** Deliveries and the transport sequence each carries, from [sq] on. *)
Fixpoint numbered (cfg : session) (sc : ngx_rtc_source_t) (sq : Z) (l : list offer)
    (rs : list (Z * wire)) : Prop :=
  match l, rs with
  | [], [] => True
  | o :: l, (r, w) :: rs =>
      let '(pt, ext) := medium cfg sc (o_rtp o) in
      (r = 0 \/ r = 1) /\
      (r = 1 -> exists ctx out ctx',
         protect ctx (on_wire pt ext sq (o_rtp o)) = (0, out, ctx') /\ w = [(out, zlen out)]) /\
      numbered cfg sc (if (r =? 1) && negb (ext =? 0) then u16 (sq + 1) else sq) l rs
  | _, _ => False
  end.

Lemma numbered_config cfg cfg' sc l : forall sq rs,
  same_config cfg cfg' -> numbered cfg' sc sq l rs -> numbered cfg sc sq l rs.
Proof.
  induction l as [| o l IH]; intros sq [| [r w] rs] Hc; [done.. |]. cbn [numbered].
  rewrite (medium_frame cfg cfg' sc (o_rtp o) Hc).
  destruct (medium cfg sc (o_rtp o)) as [pt ext]. intros (H1 & H2 & H3).
  split_and!; [done | done | by apply IH].
Qed.

Lemma steps_numbered sc s l rs s' :
  steps sc s l rs s' -> is_u16 (twcc_seq s) -> numbered s sc (twcc_seq s) l rs.
Proof.
  induction 1 as [| s o l r w t c rs s' Hst _ IH]; intros Hu; [done |]. cbn [numbered].
  destruct (medium s sc (o_rtp o)) as [pt ext] eqn:Em.
  destruct (send_step_seq _ _ _ _ _ _ _ _ _ _ _ Hu Em Hst) as (Hr & Hq & Hw).
  destruct (send_step_frame _ _ _ _ _ _ _ _ _ Hst) as [Hcfg _].
  split_and!; [done | done |]. apply (numbered_config s (set_cipher c t)).
  { exact Hcfg. }
  change (twcc_seq (set_cipher c t)) with (twcc_seq t) in IH.
  rewrite <- Hq. apply IH. rewrite Hq. destruct (_ && _); [apply u16_range | done].
Qed.

(** ** Properties *)

(** C1: the send path makes no bad access, and over any run of calls, whatever the pacer
    drops, SRTP refuses or the socket reports, each delivered packet is exactly what SRTP
    made of the source packet with the session's payload type and, where the session
    negotiated it, the transport-cc extension; the transport sequence numbers of the
    delivered packets are consecutive, so a packet the sender abandons leaves no gap. *)
Theorem transport_seq_no_gaps sc s l :
  sendable s -> is_u16 (twcc_seq s) -> Forall (fun o => packet_ok (o_rtp o)) l ->
  exists rs s', send_all sc l (Ref s) = Ret (rs, Ref s') /\
    numbered s sc (twcc_seq s) l rs.
Proof.
  intros Hs Hu Hl. destruct (send_all_steps sc l s Hs Hl) as (rs & s' & E & Hst & _).
  exists rs, s'. split; [done |]. by apply (steps_numbered sc s l rs s').
Qed.

(** *** Backpressure *)

Definition starts_gop (sc : ngx_rtc_source_t) (o : offer) : Prop :=
  video sc (o_rtp o) = true /\ o_gop o <> 0.

Lemma sent_result_audio now gs n sent st m s r s' :
  sent_result now false gs n sent st m s = (r, s') -> drop_until_gop s' = drop_until_gop s.
Proof.
  unfold sent_result, give_back. cbv zeta.
  destruct (negb (sent =? n)), st, (sent =? NGX_ERROR), (sent =? NGX_AGAIN);
    by intros [= <- <-].
Qed.

Lemma send_step_backpressure now send sc s rtp gs r t w :
  drop_until_gop s <> 0 -> ~ (video sc rtp = true /\ gs <> 0) ->
  send_step now send sc s rtp gs = (r, t, w) ->
  drop_until_gop t = drop_until_gop s /\ (video sc rtp = true -> r = 0 /\ w = []).
Proof.
  intros Hd Hg. unfold send_step. destruct (video sc rtp) eqn:Hv.
  - assert (Hgs : gs = 0) by (destruct (decide (gs = 0)); [done | exfalso; auto]). subst gs.
    unfold admitted. destruct (Z.eqb_spec (drop_until_gop s) 0); [done |].
    cbn [negb andb Z.eqb]. intros [= <- <- <-]. done.
  - destruct (admitted now false (zlen rtp) gs s) as [o u] eqn:E.
    destruct (admitted_frame _ _ _ _ _ _ _ E)
      as (_ & _ & _ & _ & Hdr & _ & _ & Ho).
    destruct Ho as [-> | ->]; [by intros [= <- <- <-] |].
    destruct (medium u sc rtp) as [pt ext]. destruct (protect _ _) as [[rc out] ctx].
    destruct (negb (rc =? 0)).
    { intros [= <- <- <-]. unfold give_back. by destruct (negb (ext =? 0)). }
    destruct (sent_result _ _ _ _ _ _ _ _) as [r' t'] eqn:Es. intros [= <- <- <-].
    apply sent_result_audio in Es. by rewrite Es.
Qed.

(** Once a session is in backpressure, no video reaches the socket until a GOP start
    is offered: every other video packet is dropped before pacing, stamping and SRTP,
    while audio goes on and does not end the backpressure. *)
Theorem video_waits_for_gop sc s l :
  sendable s -> Forall (fun o => packet_ok (o_rtp o)) l -> drop_until_gop s <> 0 ->
  Forall (fun o => ~ starts_gop sc o) l ->
  exists rs s', send_all sc l (Ref s) = Ret (rs, Ref s') /\
    drop_until_gop s' = drop_until_gop s /\
    Forall2 (fun o '(r, w) => video sc (o_rtp o) = true -> r = 0 /\ w = []) l rs.
Proof.
  intros Hs Hl Hd Hg. destruct (send_all_steps sc l s Hs Hl) as (rs & s' & E & Hst & _).
  exists rs, s'. split; [done |]. clear E Hs Hl.
  induction Hst as [| s o l r w t c rs s' Hstep Hst IH]; [done |].
  inversion_clear Hg as [| ?? Ho Hg'].
  destruct (send_step_backpressure _ _ _ _ _ _ _ _ _ Hd Ho Hstep) as [Hd' Hv].
  change (drop_until_gop t) with (drop_until_gop (set_cipher c t)) in Hd'.
  destruct IH as [IH1 IH2]; [by rewrite Hd' | done |].
  split; [by rewrite IH1, Hd' | by constructor].
Qed.

(** *** Keyframe exemption *)

(** The pacer has nothing to give at time [t]. *)
Definition exhausted (t : Z) (s : session) : Prop :=
  NGX_RTC_PACER_MIN_BPS <= pacer_target_bps s <= NGX_RTC_PACER_MAX_BPS /\
  pacer_started s <> 0 /\ pacer_tokens s = 0 /\ pacer_last_ms s = t.

Lemma exhausted_ok t s : exhausted t s -> pacer_ok s.
Proof.
  intros (Hb & _ & Ht & _). pose proof (bucket_range s Hb). split; [done |].
  rewrite Ht. split; [done |]. lia.
Qed.

Lemma exhausted_admit t s len :
  exhausted t s -> 0 < len ->
  exists s', ngx_rtc_session_pacer_admit (Ref s) len t = (NGX_RTC_AGAIN, Ref s') /\
    exhausted t s' /\ keyframe_open s' = keyframe_open s /\ keyframe_pkts s' = keyframe_pkts s.
Proof.
  intros Hex Hlen. pose proof (exhausted_ok t s Hex) as Hok.
  destruct Hex as (Hb & Hst & Htok & Hlast). rewrite admit_eq by done. cbv zeta.
  assert (Hc : credited s t = 0).
  { pose proof (bucket_range s Hb). unfold credited. cbv zeta.
    destruct (Z.eqb_spec (pacer_started s) 0); [done |].
    rewrite Hlast, Z.leb_refl, Z.sub_diag, Htok, Z.mul_0_l. change (100 <=? 0) with false.
    change (0 / 8000) with 0. lia. }
  rewrite Hc. destruct (Z.ltb_spec 0 len); [| lia]. eexists. split; [done |].
  split; [| done]. split_and!; [apply Hb | apply Hb | | done | done]. cbn.
  by destruct (Z.eqb_spec (pacer_started s) 0).
Qed.

(** The keyframe budget left to packets that do not start a GOP. *)
Definition exemptions (s : session) : Z :=
  if keyframe_open s =? 0 then 0 else Z.max 0 (NGX_RTC_KEYFRAME_MAX_PKTS - keyframe_pkts s).

Lemma sent_result_exempt now v n sent st m s r s' t :
  sent_result now v 0 n sent st m s = (r, s') -> exhausted t s -> is_u64 (keyframe_pkts s) ->
  (v = true -> keyframe_open s <> 0 /\ keyframe_pkts s < NGX_RTC_KEYFRAME_MAX_PKTS) ->
  exhausted t s' /\ is_u64 (keyframe_pkts s') /\
  exemptions s' + (if v && (r =? 1) then 1 else 0) <= exemptions s.
Proof.
  intros E Hex Hu Hv. unfold NGX_RTC_KEYFRAME_MAX_PKTS, is_u64 in *.
  assert (Hsame : forall (x : Z) (u : session), exhausted t u ->
    keyframe_open u = keyframe_open s -> keyframe_pkts u = keyframe_pkts s ->
    x = 0 \/ v = false -> (x, u) = (r, s') ->
    exhausted t s' /\ 0 <= keyframe_pkts s' < 2 ^ 64 /\
    exemptions s' + (if v && (r =? 1) then 1 else 0) <= exemptions s).
  { intros x u H1 H2 H3 H4 [= <- <-]. split; [done |]. unfold exemptions. rewrite H2, H3.
    split; [done |]. change (0 =? 1) with false in *.
    destruct H4 as [-> | ->]; rewrite ?andb_false_l; [change (0 =? 1) with false; rewrite andb_false_r |]; lia. }
  revert E. unfold sent_result, give_back. cbv zeta.
  destruct (sent =? NGX_ERROR) eqn:E1, (sent =? NGX_AGAIN), (negb (sent =? n)), st, v;
    repeat match goal with
    | |- context [if eagain_streak_max tunables <=? ?x then _ else _] =>
        destruct (eagain_streak_max tunables <=? x)
    | |- context [if ?a && (NGX_RTC_EAGAIN_STREAK_IDLE_MS <=? ?x) then _ else _] =>
        destruct (a && (NGX_RTC_EAGAIN_STREAK_IDLE_MS <=? x))
    end;
    try (by apply Hsame; auto).
  all: destruct Hv as [Ho Hp]; [done |].
  all: change (negb (0 =? 0)) with false; cbv iota.
  all: cbn [keyframe_open set_send_eagain_streak]; rewrite (proj2 (Z.eqb_neq _ _) Ho); cbn [negb].
  all: destruct m; intros [= <- <-]; (split; [exact Hex |]); unfold exemptions; cbn.
  all: rewrite (proj2 (Z.eqb_neq _ _) Ho); unfold NGX_RTC_KEYFRAME_MAX_PKTS;
    rewrite u64_small by (unfold is_u64; lia); lia.
Qed.

Lemma send_step_exempt send sc s rtp r u w t :
  exhausted t s -> is_u64 (keyframe_pkts s) -> packet_ok rtp ->
  send_step t send sc s rtp 0 = (r, u, w) ->
  exhausted t u /\ is_u64 (keyframe_pkts u) /\
  exemptions u + (if video sc rtp && (r =? 1) then 1 else 0) <= exemptions s.
Proof.
  intros Hex Hu [Hp _]. unfold send_step, admitted. change (negb (0 =? 0)) with false.
  rewrite !andb_false_r. cbn [orb]. change (0 =? 0) with true. rewrite andb_true_r.
  set (v := video sc rtp). change (0 =? 1) with false.
  destruct (v && negb (drop_until_gop s =? 0)).
  { intros [= <- <- <-]. rewrite andb_false_r. split_and!; [done | exact Hu | ].
    unfold exemptions. cbn. lia. }
  destruct (exhausted_admit t s (zlen rtp) Hex ltac:(lia)) as (s1 & -> & Hex1 & Ho1 & Hk1).
  assert (Hne : (pacer_target_bps s =? 0) = false).
  { apply Z.eqb_neq. destruct Hex as (Hb & _). unfold NGX_RTC_PACER_MIN_BPS in Hb. lia. }
  rewrite Hne. change (negb (NGX_RTC_AGAIN =? NGX_RTC_OK)) with true. cbn [negb andb].
  assert (He1 : exemptions s1 = exemptions s) by (unfold exemptions; by rewrite Ho1, Hk1).
  rewrite <- He1. rewrite <- Hk1 in Hu.
  destruct (v && negb (keyframe_open s =? 0) && (keyframe_pkts s <? NGX_RTC_KEYFRAME_MAX_PKTS))
    eqn:Ek; cbn [negb].
  2: { intros [= <- <- <-]. rewrite andb_false_r. split_and!; [exact Hex1 | exact Hu |].
       unfold exemptions. cbn. lia. }
  apply andb_prop in Ek as [[-> Hko]%andb_prop Hkp%Z.ltb_lt].
  apply negb_true_iff, Z.eqb_neq in Hko. rewrite <- Ho1 in Hko. rewrite <- Hk1 in Hkp.
  destruct (medium s1 sc rtp) as [pt ext]. destruct (protect _ _) as [[rc out] ctx].
  destruct (negb (rc =? 0)).
  { intros [= <- <- <-]. change (0 =? 1) with false. rewrite andb_false_r.
    unfold give_back. destruct (negb (ext =? 0));
      (split_and!; [exact Hex1 | exact Hu | unfold exemptions; cbn; lia]). }
  destruct (sent_result _ _ _ _ _ _ _ _) as [r' u'] eqn:Es. intros [= <- <- <-].
  eapply sent_result_exempt in Es; [exact Es | exact Hex1 | exact Hu | done].
Qed.

(** Video packets of the run the socket took. *)
Fixpoint delivered_video (sc : ngx_rtc_source_t) (l : list offer) (rs : list (Z * wire)) : Z :=
  match l, rs with
  | o :: l, (r, _) :: rs =>
      (if video sc (o_rtp o) && (r =? 1) then 1 else 0) + delivered_video sc l rs
  | _, _ => 0
  end.

(** The keyframe exemption is bounded: with the bucket empty and the clock stopped, no
    sequence of packets that does not start a new GOP gets more video past the pacer than
    what is left of the 256 packets of the open keyframe, and none once it is closed. *)
Theorem keyframe_burst_bounded sc s t l :
  sendable s -> Forall (fun o => packet_ok (o_rtp o)) l ->
  exhausted t s -> is_u64 (keyframe_pkts s) ->
  Forall (fun o => o_now o = t /\ o_gop o = 0) l ->
  exists rs s', send_all sc l (Ref s) = Ret (rs, Ref s') /\
    delivered_video sc l rs <= exemptions s /\ exemptions s <= NGX_RTC_KEYFRAME_MAX_PKTS.
Proof.
  intros Hs Hl Hex Hu Hg. destruct (send_all_steps sc l s Hs Hl) as (rs & s' & E & Hst & _).
  exists rs, s'. split; [done |]. split; [| unfold exemptions, is_u64,
    NGX_RTC_KEYFRAME_MAX_PKTS in *; destruct (_ =? 0); lia].
  clear E Hs. enough (delivered_video sc l rs + exemptions s' <= exemptions s /\ 0 <= exemptions s')
    by lia. revert Hl Hex Hu Hg.
  induction Hst as [s | s o l r w u c rs s' Hstep Hst IH]; intros Hl Hex Hu Hg.
  { change (delivered_video sc [] []) with 0. unfold exemptions. destruct (_ =? 0); lia. }
  inversion_clear Hg as [| ?? [Hn Hgs] Hg']. inversion_clear Hl as [| ?? Hp Hl'].
  rewrite Hn, Hgs in Hstep.
  destruct (send_step_exempt _ _ _ _ _ _ _ _ Hex Hu Hp Hstep) as (Hex' & Hu' & He).
  destruct IH as [IH1 IH2]; [done | exact Hex' | exact Hu' | done |]. split; [| done].
  change (exemptions (set_cipher c u)) with (exemptions u) in IH1.
  cbn [delivered_video]. lia.
Qed.
End send.

(** ** A concrete session: SRTP appends a ten-octet tag. *)
Definition tag (c : unit) (p : octets) : Z * octets * unit := (0, p ++ zeros 10, c).

Lemma tag_fits c p : zlen (tag c p).1.2 <= zlen p + NGX_RTC_SRTP_TAG_LEN + 24.
Proof. cbn. rewrite zlen_app. change (zlen (zeros 10)) with 10. unfold NGX_RTC_SRTP_TAG_LEN. lia. Qed.

Definition viewer : ngx_rtc_session_t unit :=
  zero_session tt
    |> set_fsm {| Hsm.current_state := Ref s_session_srtp_ready; Hsm.initial_state := NULL;
                  Hsm.user_data := NULL; Hsm.unhandled_event_hook := NULL;
                  Hsm.entry_path_buffer := NULL; Hsm.buffer_size := 0 |}
    |> set_conn (Ref 1) |> set_video_pt 102 |> set_twcc_video_ext 5 |> set_twcc_seq 65535.

Lemma viewer_sendable : sendable viewer.
Proof. split_and!; [done | done | vm_compute; reflexivity]. Qed.

Definition demo_source (g : ngx_rtc_rtp_ring_t) : ngx_rtc_source_t :=
  zero_source |> set_name [97] |> set_publishing 1 |> set_publisher_kind 1 |> set_video_ssrc 7
    |> set_audio_ssrc 8 |> set_gop g.

Definition demo_packet (sq : Z) : octets :=
  [128; 96] ++ be_enc 2 sq ++ [0; 0; 0; 1; 0; 0; 0; 7; 65; 1; 2].

Lemma demo_packet_ok sq : packet_ok (demo_packet sq).
Proof.
  unfold packet_ok, demo_packet, NGX_RTC_MAX_RTP_PKT. rewrite !zlen_app, zlen_be_enc.
  change (zlen [128; 96]) with 2. change (zlen [0; 0; 0; 1; 0; 0; 0; 7; 65; 1; 2]) with 11. lia.
Qed.

(** Packets offered at time [t], the socket answering [r]. *)
Definition demo_offers (t : Z) (r : octets -> Z) (n : nat) : list offer :=
  (fun i => {| o_now := t; o_send := r; o_rtp := demo_packet (Z.of_nat i); o_gop := 0 |}) <$> seq 0 n.

Lemma demo_offers_ok t r n : Forall (fun o => packet_ok (o_rtp o)) (demo_offers t r n).
Proof. apply Forall_fmap, Forall_true. intros. apply demo_packet_ok. Qed.

Lemma transport_seq_no_gaps_witness :
  exists rs s', send_all tag ngx_rtc_default_tunables (demo_source empty_ring)
      (demo_offers 5 zlen 3) (Ref viewer) = Ret (rs, Ref s') /\
    numbered tag viewer (demo_source empty_ring) 65535 (demo_offers 5 zlen 3) rs.
Proof.
  apply (transport_seq_no_gaps tag ngx_rtc_default_tunables tag_fits (demo_source empty_ring) viewer).
  - exact viewer_sendable.
  - vm_compute. split; discriminate || reflexivity.
  - apply demo_offers_ok.
Defined.

Lemma video_waits_for_gop_witness :
  exists rs s', send_all tag ngx_rtc_default_tunables (demo_source empty_ring)
      (demo_offers 5 zlen 3) (Ref (set_drop_until_gop 1 viewer)) = Ret (rs, Ref s') /\
    drop_until_gop s' = 1 /\
    Forall2 (fun o '(r, w) => video (demo_source empty_ring) (o_rtp o) = true -> r = 0 /\ w = [])
      (demo_offers 5 zlen 3) rs.
Proof.
  apply (video_waits_for_gop tag ngx_rtc_default_tunables tag_fits (demo_source empty_ring)
           (set_drop_until_gop 1 viewer)).
  - exact viewer_sendable.
  - apply demo_offers_ok.
  - discriminate.
  - apply Forall_fmap, Forall_true. intros i [_ H]. exact (H eq_refl).
Defined.

Definition dry_viewer : ngx_rtc_session_t unit :=
  viewer |> set_pacer_started 1 |> set_pacer_last_ms 5 |> set_pacer_target_bps 64000
         |> set_keyframe_open 1 |> set_keyframe_pkts 254.

Lemma keyframe_burst_bounded_witness :
  exists rs s', send_all tag ngx_rtc_default_tunables (demo_source empty_ring)
      (demo_offers 5 zlen 9) (Ref dry_viewer) = Ret (rs, Ref s') /\
    delivered_video (demo_source empty_ring) (demo_offers 5 zlen 9) rs <= exemptions dry_viewer /\
    exemptions dry_viewer <= NGX_RTC_KEYFRAME_MAX_PKTS.
Proof.
  apply (keyframe_burst_bounded tag ngx_rtc_default_tunables tag_fits (demo_source empty_ring)
           dry_viewer 5).
  - exact viewer_sendable.
  - apply demo_offers_ok.
  - vm_compute. intuition congruence.
  - vm_compute. split; discriminate || reflexivity.
  - apply Forall_fmap, Forall_true. by intros i.
Defined.
End SendPath.
