(* ===== verification/Nack.v ===== *)
(** NACK answering: the budget window and the retransmission of src/ngx_rtc_core.c, and
    the NACK branch of ngx_rtc_stream_rtcp_cb and ngx_rtc_stream_retransmit in
    src/ngx_rtc_stream_module.c.

    [shm] is the lookup in the shared zone for the session's source,
    [ngx_rtc_shm_retransmit_get] of ShmMedia.v: the octets it copies out, or None when there
    is no zone or no packet (StreamMedia.v passes it).
    The loop also returns, for the theorems, the sequence numbers it tried and what each
    attempt returned. *)

From S2P Require Import Prelude Hsm SessionFsm Session Rtp Pacer GopRing SendPath.
Import SessionFsm Session Pacer GopRing SendPath.

Module Nack.

Section nack.
Context {Srtp : Type} (protect : Srtp -> octets -> Z * octets * Srtp)
  (tunables : ngx_rtc_tunables_t).
Abbreviation session := (ngx_rtc_session_t Srtp).
Abbreviation ngx_rtc_session_send_rtp := (ngx_rtc_session_send_rtp protect tunables).

Definition ngx_rtc_session_nack_reset (sess : ptr session) : ptr session :=
  match sess with NULL => NULL | Ref s => Ref (set_nack_seen_count 0 s) end.

Definition ngx_rtc_session_nack_budget_take (sess : ptr session) : Z * ptr session :=
  match sess with
  | NULL => (0, NULL)
  | Ref s =>
      if NGX_RTC_NACK_BUDGET <=? nack_retransmitted s then (0, sess)
      else (1, Ref (set_nack_retransmitted (u64 (nack_retransmitted s + 1)) s))
  end.

Definition ngx_rtc_session_nack_window_step (sess : ptr session) (now : Z)
    : Z * ptr session :=
  match sess with
  | NULL => (0, NULL)
  | Ref s =>
      let s := if nack_window_ms s =? 0 then set_nack_window_ms (nack_window_ms_ tunables) s
               else s in
      if u64 (now - nack_window_start s) <? nack_window_ms s then (0, Ref s)
      else
        let s :=
          if NGX_RTC_NACK_BUDGET <=? nack_retransmitted s then
            set_nack_window_ms (Z.min (u64 (nack_window_ms s * 2))
                                      (nack_window_max_ms tunables)) s
          else if nack_retransmitted s =? 0 then
            set_nack_window_ms (nack_window_ms_ tunables) s
          else s in
        (1, Ref (s |> set_nack_window_start now |> set_nack_retransmitted 0))
  end.

(** The dedup scan from [i], [n] entries left. *)
Fixpoint nack_seen_scan (n : nat) (seen : list Z) (i sq : Z) : outcome bool :=
  match n with
  | O => Ret false
  | S n => x ← load seen i; if x =? sq then Ret true else nack_seen_scan n seen (i + 1) sq
  end.

Definition ngx_rtc_session_retransmit_send (now : Z) (send : octets -> Z)
    (src : ptr ngx_rtc_source_t) (sess : ptr session) (sq : Z) (data : ptr octets)
    (len : Z) (log : wire) : outcome (Z * ptr session * wire) :=
  match sess, data with
  | Ref s, Ref d =>
      if len =? 0 then Ret (NGX_RTC_ERR_INVALID, sess, log)
      else
        seen ← nack_seen_scan (Z.to_nat (nack_seen_count s)) (nack_seen s) 0 sq;
        if (seen : bool) then Ret (NGX_RTC_ERR_PARSE, sess, log)
        else
          '(r, sess, log) ← ngx_rtc_session_send_rtp now send src sess d len 0 log;
          if r =? 0 then Ret (NGX_RTC_ERR_PARSE, sess, log)
          else
            match sess with
            | NULL => Fault
            | Ref s =>
                if nack_seen_count s <? NGX_RTC_NACK_BUDGET then
                  l ← store (nack_seen s) (nack_seen_count s) sq;
                  Ret (NGX_RTC_OK,
                       Ref (s |> set_nack_seen l
                              |> set_nack_seen_count (u64 (nack_seen_count s + 1))), log)
                else Ret (NGX_RTC_OK, sess, log)
            end
  | _, _ => Ret (NGX_RTC_ERR_INVALID, sess, log)
  end.

Definition ngx_rtc_session_retransmit (now : Z) (send : octets -> Z)
    (src : ptr ngx_rtc_source_t) (sess : ptr session) (sq : Z) (log : wire)
    : outcome (Z * ptr session * wire) :=
  match sess, src with
  | Ref _, Ref sc =>
      if ngx_rtc_source_gop_ready src =? 0 then Ret (NGX_RTC_ERR_PARSE, sess, log)
      else
        '(rc, out, out_len) ← ngx_rtc_rtp_ring_get (Ref (gop sc)) sq (Ref NULL) (Ref 0);
        if negb (rc =? NGX_RTC_OK) then Ret (rc, sess, log)
        else
          match out, out_len with
          | Ref out, Ref n => ngx_rtc_session_retransmit_send now send src sess sq out n log
          | _, _ => Fault
          end
  | _, _ => Ret (NGX_RTC_ERR_INVALID, sess, log)
  end.

Definition ngx_rtc_stream_retransmit (now : Z) (send : octets -> Z) (shm : Z -> outcome (option octets))
    (src : ptr ngx_rtc_source_t) (sess : ptr session) (sq : Z) (log : wire)
    : outcome (Z * ptr session * wire) :=
  if negb (ngx_rtc_source_gop_ready src =? 0) then
    ngx_rtc_session_retransmit now send src sess sq log
  else
    d ← shm sq;
    match d with
    | None => Ret (NGX_RTC_ERR_PARSE, sess, log)
    | Some d => ngx_rtc_session_retransmit_send now send src sess sq (Ref d) (zlen d) log
    end.

Fixpoint nack_loop (now : Z) (send : octets -> Z) (shm : Z -> outcome (option octets))
    (src : ptr ngx_rtc_source_t) (seqs : list Z) (sess : ptr session) (log : wire)
    (tried : list (Z * Z)) : outcome (ptr session * wire * list (Z * Z)) :=
  match seqs with
  | [] => Ret (sess, log, tried)
  | sq :: seqs =>
      let '(ok, sess) := ngx_rtc_session_nack_budget_take sess in
      if ok =? 0 then Ret (sess, log, tried)
      else
        '(rc, sess, log) ← ngx_rtc_stream_retransmit now send shm src sess sq log;
        nack_loop now send shm src seqs sess log (tried ++ [(sq, rc)])
  end.

(** What a NACK that expanded to [seqs] does; the flag tells whether the window rolled. *)
Definition nack_answer (now : Z) (send : octets -> Z) (shm : Z -> outcome (option octets))
    (src : ptr ngx_rtc_source_t) (seqs : list Z) (sess : ptr session) (log : wire)
    : outcome (bool * ptr session * wire * list (Z * Z)) :=
  let '(rolled, sess) := ngx_rtc_session_nack_window_step sess now in
  let sess := if negb (rolled =? 0) then ngx_rtc_session_nack_reset sess else sess in
  '(sess, log, tried) ← nack_loop now send shm src seqs sess log [];
  Ret (negb (rolled =? 0), sess, log, tried).

(** ** The session's NACK state *)

(** Sequence numbers answered in the current window. *)
Definition seen (s : session) : list Z := ztake (nack_seen_count s) (nack_seen s).

Record nack_ok (s : session) : Prop := {
  nack_cap : zlen (nack_seen s) = NGX_RTC_NACK_BUDGET;
  nack_count : 0 <= nack_seen_count s <= nack_retransmitted s;
  nack_budget : nack_retransmitted s <= NGX_RTC_NACK_BUDGET
}.

Lemma seen_scan n : forall (l : list Z) i sq,
  0 <= i -> i + Z.of_nat n <= zlen l ->
  nack_seen_scan n l i sq = Ret (bool_decide (sq ∈ ztake (Z.of_nat n) (zdrop i l))).
Proof.
  induction n as [| n IH]; intros l i sq Hi Hn; [done |]. cbn [nack_seen_scan].
  destruct (load_in l i ltac:(lia)) as [x Hx]. rewrite Hx, bind_Ret.
  pose proof Hx as [_ Hlk]%load_ret.
  assert (Hz : ztake (Z.of_nat (S n)) (zdrop i l)
               = x :: ztake (Z.of_nat n) (zdrop (i + 1) l)).
  { unfold ztake, zdrop. rewrite (drop_S l x (Z.to_nat i)) by done. rewrite !Nat2Z.id.
    cbn [take]. do 3 f_equal. lia. }
  rewrite Hz. destruct (Z.eqb_spec x sq) as [-> | Hne].
  - rewrite bool_decide_true; [done | by left].
  - rewrite IH by lia. f_equal. apply bool_decide_ext.
    rewrite elem_of_cons. split; [by right | by intros [-> |]].
Qed.

Context (Hprotect : forall ctx p,
  zlen (protect ctx p).1.2 <= zlen p + NGX_RTC_SRTP_TAG_LEN + 24).

(** The caches a retransmission reads hold RTP packets. *)
Definition supply_ok (sc : ngx_rtc_source_t) (shm : Z -> outcome (option octets)) : Prop :=
  (ngx_rtc_source_gop_ready (Ref sc) <> 0 -> exists k ss l,
     represents k (gop sc) ss l /\ l <> [] /\ Forall (fun e => 12 <= zlen e.1) l) /\
  (forall sq, is_u16 sq -> safe (fun o => forall d, o = Some d -> 12 <= zlen d) (shm sq)).

(** The session is who it was, on the same connection and in the same state. *)
Definition same_peer (s s' : session) : Prop :=
  identity s' = identity s /\ conn s' = conn s /\ fsm s' = fsm s.

Lemma same_peer_trans s1 s2 s3 : same_peer s1 s2 -> same_peer s2 s3 -> same_peer s1 s3.
Proof. intros (A1 & A2 & A3) (B1 & B2 & B3). split_and!; congruence. Qed.

(** What the NACK state keeps across an attempt. *)
Definition same_window (s s' : session) : Prop :=
  nack_retransmitted s' = nack_retransmitted s /\ nack_window_ms s' = nack_window_ms s /\
  nack_window_start s' = nack_window_start s.

Lemma send_call now send sc s rtp log :
  sendable s -> packet_ok rtp ->
  exists r t w, ngx_rtc_session_send_rtp now send (Ref sc) (Ref s) rtp (zlen rtp) 0 log
    = Ret (r, Ref t, log ++ w) /\ sendable t /\ same_config s t /\ same_peer s t.
Proof.
  intros Hs Hp.
  destruct (send_rtp_step protect tunables Hprotect now send sc s rtp 0 log Hs Hp) as (c & Hc & E).
  destruct (send_step _ _ _ _ _ _ _) as [[r t] w] eqn:Est.
  destruct (send_step_frame _ _ _ _ _ _ _ _ _ _ _ Est) as [Hcfg _].
  pose proof (send_step_identity _ _ _ _ _ _ _ _ _ _ _ Est) as Hid.
  exists r, (set_cipher c t), w. split; [done |]. split; [by eapply sendable_frame |]. split; [exact Hcfg |].
  injection Hcfg as Hcn Hfsm _. by split_and!.
Qed.

Lemma retransmit_send_eq now send sc s sq d n log :
  sendable s -> nack_ok s -> nack_seen_count s < nack_retransmitted s ->
  12 <= n <= zlen d ->
  exists rc s' w,
    ngx_rtc_session_retransmit_send now send (Ref sc) (Ref s) sq (Ref d) n log
    = Ret (rc, Ref s', log ++ w) /\
    sendable s' /\ nack_ok s' /\ same_window s s' /\ same_peer s s' /\
    if rc =? NGX_RTC_OK then (sq ∉ seen s) /\ seen s' = seen s ++ [sq] else seen s' = seen s.
Proof.
  intros Hs [Hcap Hcnt Hb] Hlt Hn. unfold NGX_RTC_NACK_BUDGET in *.
  unfold ngx_rtc_session_retransmit_send. destruct (Z.eqb_spec n 0); [lia |].
  rewrite seen_scan by lia. rewrite Z2Nat.id, bind_Ret by lia.
  change (ztake _ (zdrop 0 (nack_seen s))) with (seen s).
  destruct (bool_decide_reflect (sq ∈ seen s)) as [Hin | Hin].
  { exists NGX_RTC_ERR_PARSE, s, []. rewrite app_nil_r. by split_and!. }
  destruct (Z.le_gt_cases n NGX_RTC_MAX_RTP_PKT) as [Hmax | Hmax].
  2: { rewrite long_send, bind_Ret by done. exists NGX_RTC_ERR_PARSE, s, []. rewrite app_nil_r. by split_and!. }
  assert (Hp : packet_ok (ztake n d)) by (unfold packet_ok; rewrite zlen_ztake; lia).
  rewrite send_rtp_prefix by lia.
  destruct (send_call now send sc s (ztake n d) log Hs Hp) as (r & t & w & E & Ht & Hcfg & Hpeer).
  rewrite zlen_ztake, Z.min_l in E by lia. rewrite E, bind_Ret.
  injection Hcfg as _ _ _ _ _ _ _ Hseen Hsc Hret Hwm Hws.
  assert (Hst : seen t = seen s) by (unfold seen; by rewrite Hseen, Hsc).
  destruct (r =? 0).
  { exists NGX_RTC_ERR_PARSE, t, w. split_and!; try done. split; rewrite ?Hseen, ?Hsc, ?Hret; done || unfold NGX_RTC_NACK_BUDGET; lia. }
  rewrite Hsc. unfold NGX_RTC_NACK_BUDGET. destruct (Z.ltb_spec (nack_seen_count s) 128); [| lia].
  rewrite Hseen, store_in, bind_Ret by lia.
  set (ls := <[Z.to_nat (nack_seen_count s) := sq]> (nack_seen s)).
  assert (Hls : zlen ls = 128) by (unfold ls; by rewrite zlen_insert).
  rewrite u64_small by (unfold is_u64; lia).
  exists NGX_RTC_OK, (t |> set_nack_seen ls |> set_nack_seen_count (nack_seen_count s + 1)), w.
  split; [done |]. split; [exact Ht |]. split; [| split; [done | split; [exact Hpeer |]]].
  { split; cbn; [exact Hls | rewrite Hret; lia | rewrite Hret; exact Hb]. }
  change (NGX_RTC_OK =? NGX_RTC_OK) with true. cbv iota. split; [done |]. unfold seen. cbn.
  unfold ls, ztake. rewrite Z2Nat.inj_add by lia. rewrite Nat.add_1_r.
  assert (Hlt' : (Z.to_nat (nack_seen_count s) < length (nack_seen s))%nat)
    by (unfold zlen in Hcap; lia).
  erewrite take_S_r by (by apply list_lookup_insert_eq).
  by rewrite take_insert_ge by lia.
Qed.

Lemma attempt now send shm sc s sq log :
  sendable s -> nack_ok s -> nack_seen_count s < nack_retransmitted s ->
  supply_ok sc shm -> is_u16 sq ->
  exists rc s' w,
    ngx_rtc_stream_retransmit now send shm (Ref sc) (Ref s) sq log
    = Ret (rc, Ref s', log ++ w) /\
    sendable s' /\ nack_ok s' /\ same_window s s' /\ same_peer s s' /\
    if rc =? NGX_RTC_OK then (sq ∉ seen s) /\ seen s' = seen s ++ [sq] else seen s' = seen s.
Proof.
  intros Hs Hok Hlt [Hring Hshm] Hsq. unfold ngx_rtc_stream_retransmit.
  assert (Hmiss : exists rc s' w, Ret (NGX_RTC_ERR_PARSE, Ref s, log) = Ret (rc, Ref s', log ++ w) /\
    sendable s' /\ nack_ok s' /\ same_window s s' /\ same_peer s s' /\
    if rc =? NGX_RTC_OK then (sq ∉ seen s) /\ seen s' = seen s ++ [sq] else seen s' = seen s).
  { exists NGX_RTC_ERR_PARSE, s, []. rewrite app_nil_r. by split_and!. }
  destruct (Z.eqb_spec (ngx_rtc_source_gop_ready (Ref sc)) 0) as [Hg | Hg]; cbn [negb].
  { specialize (Hshm sq Hsq). destruct (shm sq) as [[d |] |]; [rewrite bind_Ret | rewrite bind_Ret; exact Hmiss | done].
    apply retransmit_send_eq; try done. specialize (Hshm d eq_refl). lia. }
  unfold ngx_rtc_session_retransmit. rewrite (proj2 (Z.eqb_neq _ _) Hg).
  destruct (Hring Hg) as (k & ss & l & Hrep & Hne & Hl).
  destruct (ring_get_eq k (gop sc) ss l sq NULL 0 Hrep Hne Hsq) as (e0 & _ & Hget). cbv zeta in Hget.
  destruct (load l (u16 (sq - entry_seq e0))) as [e |] eqn:Hld.
  2: { rewrite Hget, bind_Ret. exact Hmiss. }
  destruct (entry_seq e =? sq).
  2: { rewrite Hget, bind_Ret. exact Hmiss. }
  destruct Hget as (d & n & -> & Hd & Hn). rewrite bind_Ret.
  change (negb (NGX_RTC_OK =? NGX_RTC_OK)) with false. cbv iota.
  apply load_ret in Hld as [_ Hld].
  pose proof (Forall_lookup_1 _ _ _ _ Hl Hld) as H12.
  pose proof (Forall_lookup_1 _ _ _ _ (rep_entries _ _ _ _ Hrep) Hld) as [Hmax _].
  cbn beta in H12. rewrite <- Hd, zlen_ztake, Z.min_l in H12, Hmax by lia.
  by apply retransmit_send_eq; [.. | lia].
Qed.

(** The sequence numbers an answer delivered. *)
Definition delivered (tried : list (Z * Z)) : list Z :=
  (filter (fun p => p.2 = NGX_RTC_OK) tried).*1.

Lemma delivered_app a b : delivered (a ++ b) = delivered a ++ delivered b.
Proof. unfold delivered. by rewrite filter_app, fmap_app. Qed.

Lemma loop_eq now send shm sc seqs : forall s log tr,
  sendable s -> nack_ok s -> supply_ok sc shm -> Forall is_u16 seqs ->
  exists s' w tried,
    nack_loop now send shm (Ref sc) seqs (Ref s) log tr = Ret (Ref s', log ++ w, tr ++ tried) /\
    sendable s' /\ nack_ok s' /\ same_peer s s' /\
    nack_retransmitted s' = nack_retransmitted s + zlen tried /\
    nack_window_ms s' = nack_window_ms s /\ nack_window_start s' = nack_window_start s /\
    seen s' = seen s ++ delivered tried /\ (NoDup (seen s) -> NoDup (seen s')).
Proof.
  induction seqs as [| sq seqs IH]; intros s log tr Hs Hok Hsup Hsq; cbn [nack_loop].
  { exists s, [], []. rewrite zlen_nil, Z.add_0_r, !app_nil_r. by split_and!. }
  inversion_clear Hsq as [| ?? Hq Hsq']. unfold ngx_rtc_session_nack_budget_take.
  destruct Hok as [H1 H2 H3] eqn:E. clear E. unfold NGX_RTC_NACK_BUDGET in H3.
  change NGX_RTC_NACK_BUDGET with 128. destruct (Z.leb_spec 128 (nack_retransmitted s)).
  { exists s, [], []. rewrite zlen_nil, Z.add_0_r, !app_nil_r. by split_and!. }
  change (1 =? 0) with false. cbv iota. rewrite u64_small by (unfold is_u64; lia).
  set (s1 := set_nack_retransmitted _ s).
  destruct (attempt now send shm sc s1 sq log) as (rc & s2 & w & E & Hs2 & Hok2 & (Hr & Hw & Hst) & Hpeer & Hseen).
  { exact Hs. } { split; cbn; [done | lia | unfold NGX_RTC_NACK_BUDGET; lia]. }
  { cbn. lia. } { done. } { done. }
  rewrite E, bind_Ret.
  destruct (IH s2 (log ++ w) (tr ++ [(sq, rc)]) Hs2 Hok2 Hsup Hsq')
    as (s' & w' & tried & E' & Hs' & Hok' & Hpeer' & Hr' & Hw' & Hst' & Hseen' & Hnd').
  exists s', (w ++ w'), ((sq, rc) :: tried). rewrite E', <- !app_assoc.
  change (seen s1) with (seen s) in Hseen.
  assert (Hseq : seen s' = seen s ++ delivered ((sq, rc) :: tried) /\
                 (NoDup (seen s) -> NoDup (seen s2))).
  { change ((sq, rc) :: tried) with ([(sq, rc)] ++ tried). rewrite delivered_app, Hseen'.
    unfold delivered at 2. rewrite filter_cons. cbn [snd].
    destruct (Z.eqb_spec rc NGX_RTC_OK).
    - destruct Hseen as [Hnin ->]. rewrite decide_True by done. cbn. rewrite <- app_assoc.
      split; [done |]. intros Hnd. apply NoDup_app. split_and!; [done | | by apply NoDup_singleton].
      intros x Hx ->%list_elem_of_singleton. done.
    - rewrite Hseen, decide_False by done. cbn. done. }
  destruct Hseq as [Hseq Hnd]. assert (Hp : same_peer s s') by exact (same_peer_trans s s2 s' Hpeer Hpeer').
  split; [done |]. split; [done |]. split; [done |]. split; [done |]. split_and!; auto; cbn in *; try congruence.
  rewrite zlen_cons. lia.
Qed.

(** ** The response window *)

(** The window in force, and the one a roll opens. *)
Definition span (s : session) : Z :=
  if nack_window_ms s =? 0 then nack_window_ms_ tunables else nack_window_ms s.

Definition next_span (s : session) : Z :=
  if NGX_RTC_NACK_BUDGET <=? nack_retransmitted s then
    Z.min (u64 (span s * 2)) (nack_window_max_ms tunables)
  else if nack_retransmitted s =? 0 then nack_window_ms_ tunables else span s.

Definition elapsed (now : Z) (s : session) : bool := span s <=? u64 (now - nack_window_start s).

Lemma window_step_eq s now :
  ngx_rtc_session_nack_window_step (Ref s) now
  = if elapsed now s then
      (1, Ref (s |> set_nack_window_ms (next_span s) |> set_nack_window_start now
                 |> set_nack_retransmitted 0))
    else (0, Ref (set_nack_window_ms (span s) s)).
Proof.
  unfold ngx_rtc_session_nack_window_step, elapsed, next_span, span. cbv zeta.
  destruct (nack_window_ms s =? 0); cbn;
    (match goal with |- context [?a <? ?b] => destruct (Z.ltb_spec a b), (Z.leb_spec b a); try lia end);
    destruct (NGX_RTC_NACK_BUDGET <=? nack_retransmitted s), (nack_retransmitted s =? 0);
    by destruct s.
Qed.

Lemma answer_eq now send shm sc seqs s log :
  sendable s -> nack_ok s -> supply_ok sc shm -> Forall is_u16 seqs ->
  exists s' w tried,
    nack_answer now send shm (Ref sc) seqs (Ref s) log
    = Ret (elapsed now s, Ref s', log ++ w, tried) /\ sendable s' /\ nack_ok s' /\ same_peer s s' /\
    nack_retransmitted s' = (if elapsed now s then 0 else nack_retransmitted s) + zlen tried /\
    nack_window_ms s' = (if elapsed now s then next_span s else span s) /\
    nack_window_start s' = (if elapsed now s then now else nack_window_start s) /\
    seen s' = (if elapsed now s then [] else seen s) ++ delivered tried /\
    (NoDup (seen s) -> NoDup (seen s')).
Proof.
  intros Hs [H1 H2 H3] Hsup Hsq. unfold nack_answer. rewrite window_step_eq.
  destruct (elapsed now s); cbn [ngx_rtc_session_nack_reset].
  - change (negb (1 =? 0)) with true. cbv iota. set (s1 := set_nack_seen_count 0 _).
    destruct (loop_eq now send shm sc seqs s1 log []) as (s' & w & tried & E & Hs' & Hok & Hpeer & Hr & Hw & Hst & Hse & Hnd).
    { exact Hs. } { split; [exact H1 | cbn; lia | done]. } { done. } { done. }
    rewrite E, bind_Ret. exists s', w, tried. split; [done |]. split; [done |]. split; [done |]. split; [exact Hpeer |].
    split_and!; auto. intros _. apply Hnd. constructor.
  - change (negb (0 =? 0)) with false. cbv iota. set (s1 := set_nack_window_ms _ s).
    destruct (loop_eq now send shm sc seqs s1 log []) as (s' & w & tried & E & Hs' & Hok & Hpeer & Hr & Hw & Hst & Hse & Hnd).
    { exact Hs. } { by split. } { done. } { done. }
    rewrite E, bind_Ret. by exists s', w, tried.
Qed.

(** ** Runs of NACK messages *)

Record msg := {
  m_now : Z;
  m_send : octets -> Z;
  m_shm : Z -> outcome (option octets);
  m_src : ngx_rtc_source_t;
  m_seqs : list Z
}.

Definition msg_ok (m : msg) : Prop := supply_ok (m_src m) (m_shm m) /\ Forall is_u16 (m_seqs m).

Fixpoint nack_run (l : list msg) (sess : ptr session) (log : wire)
    : outcome (list (bool * list (Z * Z)) * ptr session * wire) :=
  match l with
  | [] => Ret ([], sess, log)
  | m :: l =>
      '(rolled, sess, log, tried) ← nack_answer (m_now m) (m_send m) (m_shm m) (Ref (m_src m))
                                      (m_seqs m) sess log;
      '(rs, sess, log) ← nack_run l sess log;
      Ret ((rolled, tried) :: rs, sess, log)
  end.

(** The attempts of a run, window by window; [cur] is the window open at its start. *)
Fixpoint windows (cur : list (Z * Z)) (rs : list (bool * list (Z * Z))) : list (list (Z * Z)) :=
  match rs with
  | [] => [cur]
  | (true, tried) :: rs => cur :: windows tried rs
  | (false, tried) :: rs => windows (cur ++ tried) rs
  end.

Lemma run_windows l : forall s log cur,
  sendable s -> nack_ok s -> nack_retransmitted s = zlen cur -> seen s = delivered cur ->
  NoDup (delivered cur) -> Forall msg_ok l ->
  exists rs s' w, nack_run l (Ref s) log = Ret (rs, Ref s', log ++ w) /\
    Forall (fun w => zlen w <= NGX_RTC_NACK_BUDGET /\ NoDup (delivered w)) (windows cur rs).
Proof.
  induction l as [| m l IH]; intros s log cur Hs Hok Hr Hse Hnd Hl; cbn [nack_run].
  { exists [], s, []. rewrite app_nil_r. split; [done |]. constructor; [| constructor].
    split; [| done]. rewrite <- Hr. apply Hok. }
  inversion_clear Hl as [| ?? [Hsup Hsq] Hl'].
  destruct (answer_eq (m_now m) (m_send m) (m_shm m) (m_src m) (m_seqs m) s log Hs Hok Hsup Hsq)
    as (s1 & w1 & tried & E & Hs1 & Hok1 & _ & Hr1 & _ & _ & Hse1 & Hnd1).
  rewrite E, bind_Ret. rewrite Hse in Hnd1. specialize (Hnd1 Hnd). rewrite Hse1, Hse in Hnd1.
  destruct (elapsed (m_now m) s).
  - destruct (IH s1 (log ++ w1) tried) as (rs & s' & w & E' & Hw); auto.
    rewrite E', bind_Ret, <- app_assoc. eexists _, s', _. split; [reflexivity |].
    constructor; [| exact Hw]. split; [| done]. rewrite <- Hr. apply Hok.
  - destruct (IH s1 (log ++ w1) (cur ++ tried)) as (rs & s' & w & E' & Hw); auto.
    { rewrite Hr1, Hr. by rewrite zlen_app. }
    { by rewrite Hse1, Hse, delivered_app. } { by rewrite delivered_app. }
    rewrite E', bind_Ret, <- app_assoc. eexists _, s', _. split; [reflexivity | exact Hw].
Qed.

(** C40: Whatever NACKs a connected, ready viewer sends from the start of a response window on, and
    whatever the socket, the pacer and SRTP do, the handler makes no bad access, tries at most
    128 retransmissions per response window, and delivers no sequence number twice within one.
    What the caches supply are packets with at least an RTP header. *)
Theorem nack_window_bounded s log l :
  sendable s -> nack_ok s -> nack_retransmitted s = 0 -> Forall msg_ok l ->
  exists rs s' w, nack_run l (Ref s) log = Ret (rs, Ref s', log ++ w) /\
    Forall (fun w => zlen w <= NGX_RTC_NACK_BUDGET /\ NoDup (delivered w)) (windows [] rs).
Proof.
  intros Hs Hok Hr Hl. apply (run_windows l s log []); try done; [| constructor].
  destruct Hok as [_ Hc _]. unfold seen. by replace (nack_seen_count s) with 0 by lia.
Qed.

(** The windows the tunables allow. *)
Record spans_ok : Prop := {
  span_base : 0 < nack_window_ms_ tunables <= nack_window_max_ms tunables;
  span_max : nack_window_max_ms tunables < 2 ^ 63
}.

Definition span_ok (s : session) : Prop :=
  nack_window_ms s = 0 \/
  nack_window_ms_ tunables <= nack_window_ms s <= nack_window_max_ms tunables.

Lemma span_range s :
  spans_ok -> span_ok s -> nack_window_ms_ tunables <= span s <= nack_window_max_ms tunables.
Proof.
  intros [Hb _] [Hs | Hs]; unfold span; [rewrite Hs; cbn; lia |].
  destruct (Z.eqb_spec (nack_window_ms s) 0); lia.
Qed.

Lemma next_span_range s :
  spans_ok -> span_ok s ->
  nack_window_ms_ tunables <= next_span s <= nack_window_max_ms tunables.
Proof.
  intros Hok Hs. pose proof (span_range s Hok Hs) as H. destruct Hok as [Hb Hm]. unfold next_span.
  rewrite u64_small by (unfold is_u64; lia).
  destruct (_ <=? _), (nack_retransmitted s =? 0); lia.
Qed.

Definition attempts (rs : list (bool * list (Z * Z))) : Z :=
  foldr (fun r n => zlen r.2 + n) 0 rs.

(** The clock of a run: it does not go back, from [t] to [t1]. *)
Fixpoint clocked_run (t : Z) (l : list msg) (t1 : Z) : Prop :=
  match l with [] => t <= t1 | m :: l => t <= m_now m /\ clocked_run (m_now m) l t1 end.

Lemma clocked_run_le l : forall t t1, clocked_run t l t1 -> t <= t1.
Proof. induction l as [| m l IH]; intros t t1; [done |]. intros [H1 H2%IH]. lia. Qed.

Lemma run_rate l : forall s log t t1,
  spans_ok -> sendable s -> nack_ok s -> span_ok s -> Forall msg_ok l ->
  0 <= nack_window_start s <= t -> clocked_run t l t1 -> t1 < 2 ^ 64 ->
  exists rs s' w, nack_run l (Ref s) log = Ret (rs, Ref s', log ++ w) /\
    attempts rs <= NGX_RTC_NACK_BUDGET - nack_retransmitted s
      + NGX_RTC_NACK_BUDGET * ((t1 - nack_window_start s) / nack_window_ms_ tunables).
Proof.
  induction l as [| m l IH]; intros s log t t1 Hsp Hs Hok Hspan Hl Hst Hck Ht1; cbn [nack_run].
  { exists [], s, []. rewrite app_nil_r. split; [done |]. cbn. destruct Hok as [_ _ Hb].
    destruct Hsp as [Hbase _]. cbn in Hck.
    pose proof (Z.div_pos (t1 - nack_window_start s) (nack_window_ms_ tunables)).
    unfold NGX_RTC_NACK_BUDGET in *. lia. }
  inversion_clear Hl as [| ?? [Hsup Hsq] Hl']. destruct Hck as [Hnow Hck].
  pose proof (clocked_run_le _ _ _ Hck) as Hle.
  destruct (answer_eq (m_now m) (m_send m) (m_shm m) (m_src m) (m_seqs m) s log Hs Hok Hsup Hsq)
    as (s1 & w1 & tried & E & Hs1 & Hok1 & _ & Hr1 & Hw1 & Hst1 & _).
  pose proof (span_range s Hsp Hspan) as Hrange. pose proof (next_span_range s Hsp Hspan) as Hnext.
  assert (Hspan1 : span_ok s1) by (right; rewrite Hw1; destruct (elapsed _ _); lia).
  rewrite E, bind_Ret.
  destruct (IH s1 (log ++ w1) (m_now m) t1) as (rs & s' & w & E' & Ha); auto.
  { rewrite Hst1. destruct (elapsed _ _); lia. }
  rewrite E', bind_Ret, <- app_assoc. eexists _, s', _. split; [reflexivity |]. cbn [attempts foldr snd].
  fold (attempts rs). rewrite Hr1, Hst1 in Ha. destruct Hok as [_ _ Hb], Hsp as [Hbase Hmax].
  unfold elapsed in Ha. rewrite u64_small in Ha by (unfold is_u64; lia).
  destruct (Z.leb_spec (span s) (m_now m - nack_window_start s)); [| lia].
  set (b := nack_window_ms_ tunables) in *. unfold NGX_RTC_NACK_BUDGET in *.
  assert ((t1 - m_now m) / b + 1 <= (t1 - nack_window_start s) / b); [| lia].
  rewrite <- Z.div_add by lia. apply Z.div_le_mono; lia.
Qed.

(** Over any span of time the number of retransmissions attempted is bounded, one
    budget per base window elapsed since the window in force opened (plus what that
    window has left): a flood of NACKs, however many, cannot make the session retransmit
    faster. *)
Theorem nack_rate_bounded s log l t1 :
  spans_ok -> sendable s -> nack_ok s -> span_ok s -> Forall msg_ok l ->
  0 <= nack_window_start s -> clocked_run (nack_window_start s) l t1 -> t1 < 2 ^ 64 ->
  exists rs s' w, nack_run l (Ref s) log = Ret (rs, Ref s', log ++ w) /\
    attempts rs <= NGX_RTC_NACK_BUDGET
      * (1 + (t1 - nack_window_start s) / nack_window_ms_ tunables).
Proof.
  intros Hsp Hs Hok Hspan Hl H0 Hck Ht1.
  destruct (run_rate l s log _ t1 Hsp Hs Hok Hspan Hl (conj H0 (Z.le_refl _)) Hck Ht1)
    as (rs & s' & w & E & Ha). exists rs, s', w. split; [done |].
  destruct Hok as [_ [? ?] _]. lia.
Qed.

(** [k] windows in a row that end saturated, each ended when it elapses. *)
Fixpoint saturate (k : nat) (s : session) : session :=
  match k with
  | O => s
  | S k =>
      let s := set_nack_retransmitted NGX_RTC_NACK_BUDGET (saturate k s) in
      match ngx_rtc_session_nack_window_step (Ref s) (nack_window_start s + span s) with
      | (_, Ref s) => s
      | (_, NULL) => s
      end
  end.

(** The response window backs off: each saturated window doubles the next up to the
    maximum, and a window in which nothing was retransmitted brings the base back. *)
Theorem nack_backoff s k :
  spans_ok -> nack_window_ms s = 0 -> 0 <= nack_window_start s ->
  nack_window_start s + (Z.of_nat k + 1) * nack_window_max_ms tunables < 2 ^ 64 ->
  let t := saturate k s in
  span t = Z.min (nack_window_ms_ tunables * 2 ^ Z.of_nat k) (nack_window_max_ms tunables) /\
  exists u, ngx_rtc_session_nack_window_step (Ref (set_nack_retransmitted 0 t))
      (nack_window_start t + span t) = (1, Ref u) /\
    nack_window_ms u = nack_window_ms_ tunables.
Proof.
  intros Hsp Hw H0 Hlt. cbv zeta. pose proof Hsp as [Hb Hm].
  assert (Hroll : forall (u : session) r, span_ok u -> 0 <= nack_window_start u ->
    nack_window_start u + nack_window_max_ms tunables < 2 ^ 64 ->
    ngx_rtc_session_nack_window_step (Ref (set_nack_retransmitted r u))
      (nack_window_start u + span u)
    = (1, Ref (set_nack_retransmitted r u |> set_nack_window_ms (next_span (set_nack_retransmitted r u))
                 |> set_nack_window_start (nack_window_start u + span u)
                 |> set_nack_retransmitted 0))).
  { intros u r Hu Hu0 Hu1. rewrite window_step_eq. unfold elapsed.
    change (span (set_nack_retransmitted r u)) with (span u).
    change (nack_window_start (set_nack_retransmitted r u)) with (nack_window_start u).
    pose proof (span_range u Hsp Hu). rewrite u64_small by (unfold is_u64; lia).
    destruct (Z.leb_spec (span u) (nack_window_start u + span u - nack_window_start u)); [done | lia]. }
  assert (Hinv : span_ok (saturate k s) /\
    span (saturate k s) = Z.min (nack_window_ms_ tunables * 2 ^ Z.of_nat k) (nack_window_max_ms tunables) /\
    0 <= nack_window_start (saturate k s)
      <= nack_window_start s + Z.of_nat k * nack_window_max_ms tunables).
  { induction k as [| k IH].
    { cbn [saturate]. split; [by left |]. unfold span. rewrite Hw. cbn. lia. }
    destruct IH as (Hok & Hspn & Hst); [nia |].
    pose proof (span_range _ Hsp Hok) as Hr. cbn [saturate]. cbv zeta.
    change (span (set_nack_retransmitted ?r ?u)) with (span u).
    change (nack_window_start (set_nack_retransmitted ?r ?u)) with (nack_window_start u).
    rewrite Hroll by (try done; nia). set (t := saturate k s) in *.
    set (u := set_nack_retransmitted NGX_RTC_NACK_BUDGET t).
    assert (Hn : next_span u = Z.min (span t * 2) (nack_window_max_ms tunables)).
    { unfold next_span. change (NGX_RTC_NACK_BUDGET <=? nack_retransmitted u) with true. cbv iota.
      change (span u) with (span t). by rewrite u64_small by (unfold is_u64; lia). }
    set (v := set_nack_retransmitted 0 _).
    assert (Hv : nack_window_ms v = next_span u) by done.
    split; [right; rewrite Hv, Hn; lia |]. split.
    - unfold span at 1. rewrite Hv, Hn. destruct (Z.eqb_spec (Z.min (span t * 2) (nack_window_max_ms tunables)) 0); [lia |].
      rewrite Hspn, Nat2Z.inj_succ, Z.pow_succ_r by lia. lia.
    - change (nack_window_start v) with (nack_window_start t + span t). lia. }
  destruct Hinv as (Hok & Hspn & Hst). split; [done |].
  rewrite Hroll by (try done; nia). eexists. split; [reflexivity |]. cbn.
  unfold next_span. cbn. done.
Qed.
End nack.

Definition demo_msg (t : Z) (l : list Z) : msg :=
  {| m_now := t; m_send := zlen; m_shm := fun sq => Ret (Some (demo_packet sq));
     m_src := demo_source empty_ring; m_seqs := l |}.

Lemma demo_msg_ok t l : Forall is_u16 l -> msg_ok (demo_msg t l).
Proof.
  intros Hl. split; [| exact Hl]. split; [intros H; by destruct H |].
  intros sq _ d [= <-]. apply demo_packet_ok.
Qed.

Lemma viewer_nack_ok : nack_ok viewer.
Proof. split; vm_compute; intuition congruence. Qed.

Lemma default_spans_ok : spans_ok ngx_rtc_default_tunables.
Proof. split; vm_compute; intuition congruence. Qed.

Definition demo_nacks : list msg := [demo_msg 1000 [1; 2; 1]; demo_msg 1050 [2; 3]; demo_msg 1100 [3]].

Lemma demo_nacks_ok : Forall msg_ok demo_nacks.
Proof. repeat (constructor; [apply demo_msg_ok; repeat (constructor; [unfold is_u16; lia |]); constructor |]). constructor. Qed.

Lemma nack_window_bounded_witness :
  exists rs s' w, nack_run tag ngx_rtc_default_tunables demo_nacks (Ref viewer) []
      = Ret (rs, Ref s', w) /\
    Forall (fun w => zlen w <= NGX_RTC_NACK_BUDGET /\ NoDup (delivered w)) (windows [] rs).
Proof.
  apply (nack_window_bounded tag ngx_rtc_default_tunables tag_fits viewer []).
  - exact viewer_sendable.
  - exact viewer_nack_ok.
  - reflexivity.
  - exact demo_nacks_ok.
Defined.

Lemma nack_rate_bounded_witness :
  exists rs s' w, nack_run tag ngx_rtc_default_tunables demo_nacks (Ref viewer) []
      = Ret (rs, Ref s', w) /\
    attempts rs <= NGX_RTC_NACK_BUDGET * (1 + (1150 - 0) / 100).
Proof.
  apply (nack_rate_bounded tag ngx_rtc_default_tunables tag_fits viewer [] demo_nacks 1150).
  - exact default_spans_ok.
  - exact viewer_sendable.
  - exact viewer_nack_ok.
  - by left.
  - exact demo_nacks_ok.
  - cbn. lia.
  - cbn. lia.
  - lia.
Defined.

Lemma nack_backoff_witness :
  let t := saturate ngx_rtc_default_tunables 2 viewer in
  span ngx_rtc_default_tunables t = 400 /\
  exists u, ngx_rtc_session_nack_window_step ngx_rtc_default_tunables
      (Ref (set_nack_retransmitted 0 t))
      (nack_window_start t + span ngx_rtc_default_tunables t) = (1, Ref u) /\
    nack_window_ms u = 100.
Proof.
  apply (nack_backoff ngx_rtc_default_tunables viewer 2).
  - exact default_spans_ok.
  - reflexivity.
  - cbn. lia.
  - vm_compute. reflexivity.
Defined.
End Nack.
