(* ===== verification/Replay.v ===== *)
(** The GOP replay of src/ngx_rtc_core.c: what a late subscriber or a PLI is answered
    with from the source's ring.  [protect], [now] and [send] are as in SendPath.v. *)

From S2P Require Import Prelude Window Hsm SessionFsm Session Rtp Pacer GopRing SendPath.
Import SessionFsm Session Pacer GopRing SendPath.

Module Replay.

Section replay.
Context {Srtp : Type} (protect : Srtp -> octets -> Z * octets * Srtp)
  (tunables : ngx_rtc_tunables_t).
Abbreviation session := (ngx_rtc_session_t Srtp).
Abbreviation ngx_rtc_session_send_rtp := (ngx_rtc_session_send_rtp protect tunables).

(** The replay loop from index [i], [n] iterations at most. *)
Fixpoint replay_loop (n : nat) (now : Z) (send : octets -> Z) (src : ptr ngx_rtc_source_t)
    (g : ngx_rtc_rtp_ring_t) (ss : list ngx_rtc_rtp_cache_slot_t) (i : Z)
    (sess : ptr session) (log : wire) : outcome (ptr session * wire) :=
  if i <? head g then
    match n with
    | O => Fault
    | S n =>
        slot ← load ss (Z.land i (u32 (capacity g - 1)));
        '(r, sess, log) ← ngx_rtc_session_send_rtp now send src sess (data slot) (len slot)
                            (is_gop_start slot) log;
        if r =? 0 then Ret (sess, log)
        else
          b1 ← load (data slot) 1;
          if (NGX_RTC_RTP_HEADER_SIZE <? len slot)
             && negb (Z.land b1 NGX_RTC_RTP_MARKER =? 0)
          then Ret (sess, log)
          else replay_loop n now send src g ss (u32 (i + 1)) sess log
    end
  else Ret (sess, log).

Definition ngx_rtc_rtp_ring_replay (now : Z) (send : octets -> Z)
    (src : ptr ngx_rtc_source_t) (r : ptr ngx_rtc_rtp_ring_t) (sess : ptr session)
    (log : wire) : outcome (ptr session * wire) :=
  match r, sess with
  | Ref g, Ref _ =>
      match slots g with
      | NULL => Ret (sess, log)
      | Ref ss =>
          if count g =? 0 then Ret (sess, log)
          else
            let start := u32 (head g - count g) in
            let start := if start <? gop_start g then gop_start g else start in
            replay_loop (Z.to_nat (count g)) now send src g ss start sess log
      end
  | _, _ => Ret (sess, log)
  end.

(** ** What a replay is meant to send *)

(** The packets up to the one whose marker closes the access unit. *)
Fixpoint access_unit (l : list entry) : list entry :=
  match l with
  | [] => []
  | e :: l => e :: if (NGX_RTC_RTP_HEADER_SIZE <? zlen e.1) && marker e.1 then []
                   else access_unit l
  end.

(** Packets offered in turn, until one is not delivered. *)
Fixpoint offer_all (now : Z) (send : octets -> Z) (src : ptr ngx_rtc_source_t)
    (l : list entry) (sess : ptr session) (log : wire) : outcome (ptr session * wire) :=
  match l with
  | [] => Ret (sess, log)
  | e :: l =>
      '(r, sess, log) ← ngx_rtc_session_send_rtp now send src sess e.1 (zlen e.1) e.2 log;
      if r =? 0 then Ret (sess, log) else offer_all now send src l sess log
  end.

Lemma marker_ztake n d : 1 < n -> marker (ztake n d) = marker d.
Proof. intros H. unfold marker. by rewrite load_ztake by lia. Qed.

Lemma replay_loop_eq now send sc k g ss l m : forall i sess log,
  represents k g ss l -> Forall (fun e => 12 <= zlen e.1) l -> zlen l <= head g ->
  0 <= i <= zlen l -> zlen l - i <= Z.of_nat m ->
  replay_loop m now send (Ref sc) g ss (head g - zlen l + i) sess log
  = offer_all now send (Ref sc) (access_unit (zdrop i l)) sess log.
Proof.
  induction m as [| m IH]; intros i sess log Hrep Hl Hh Hi Hm; cbn [replay_loop].
  - assert (i = zlen l) as -> by lia. rewrite zdrop_all by lia.
    by destruct (Z.ltb_spec (head g - zlen l + zlen l) (head g)); [lia |].
  - pose proof Hrep as [Hk Hs Hcap Hlen Hb Hu Hc Hf Hw He].
    pose proof (pow2_pos k ltac:(lia)) as H2. unfold is_u32 in Hu.
    destruct (Z.ltb_spec (head g - zlen l + i) (head g)).
    2: { assert (i = zlen l) as -> by lia. by rewrite zdrop_all by lia. }
    rewrite Hcap, mask_pow2 by lia.
    destruct (load_in l i ltac:(lia)) as [e Hle].
    pose proof (window_index _ _ _ _ _ _ Hw Hle) as Hx. unfold held in Hx.
    destruct (load ss ((head g - zlen l + i) mod 2 ^ k)) as [s |] eqn:Es; [| done].
    rewrite bind_Ret. injection Hx as <-.
    pose proof Es as [_ Es']%load_ret.
    destruct (Forall_lookup_1 _ _ _ _ Hb Es') as [Hd Hn].
    pose proof Hle as [_ Hlk]%load_ret.
    pose proof (Forall_lookup_1 _ _ _ _ Hl Hlk) as H12. cbn in H12.
    assert (Hz : zlen (ztake (len s) (data s)) = len s) by (rewrite zlen_ztake; lia).
    rewrite Hz in H12.
    assert (Hdrop : zdrop i l = (ztake (len s) (data s), is_gop_start s) :: zdrop (i + 1) l).
    { unfold zdrop. rewrite (drop_S _ _ _ Hlk). do 2 f_equal. lia. }
    rewrite Hdrop. cbn [access_unit offer_all fst snd]. rewrite Hz, send_rtp_prefix by lia.
    rewrite marker_ztake by lia.
    destruct (ngx_rtc_session_send_rtp _ _ _ _ _ _ _ _) as [[[r t] w] |]; [| done].
    rewrite !bind_Ret. destruct (r =? 0); [done |].
    destruct (load_in (data s) 1 ltac:(lia)) as [b1 Hb1]. rewrite Hb1, bind_Ret.
    unfold marker at 1. rewrite Hb1.
    destruct (_ && _); [done |]. rewrite u32_small by (unfold is_u32; lia).
    replace (head g - zlen l + i + 1) with (head g - zlen l + (i + 1)) by lia.
    by apply IH; [.. | lia | lia].
Qed.

(** Where the replay starts in the retained packets: the latest IDR, or the oldest packet
    when that IDR is no longer retained. *)
Definition keyframe_at (g : ngx_rtc_rtp_ring_t) (l : list entry) : Z :=
  Z.max 0 (gop_start g - (head g - zlen l)).

(** As long as the ring's 32-bit write index has not wrapped, a replay makes no bad
    access, ends, and offers the session exactly the packets from the start of the latest
    IDR access unit, or from the oldest retained packet when that start has been
    overwritten, through the one whose marker closes it (not the frames after it), in
    order, stopping at the first that is not delivered. *)
Theorem replay_sends_access_unit now send sc k g ss l s log :
  represents k g ss l -> Forall (fun e => 12 <= zlen e.1) l -> zlen l <= head g ->
  gop_start g <= head g ->
  ngx_rtc_rtp_ring_replay now send (Ref sc) (Ref g) (Ref s) log
  = offer_all now send (Ref sc) (access_unit (zdrop (keyframe_at g l) l)) (Ref s) log.
Proof.
  intros Hrep Hl Hh Hgs. pose proof Hrep as [Hk Hs Hcap Hlen Hb Hu Hc Hf Hw He].
  unfold is_u32 in Hu. unfold ngx_rtc_rtp_ring_replay. rewrite Hs, Hc.
  destruct (Z.eqb_spec (zlen l) 0) as [H0 | H0].
  { by rewrite zdrop_all by (rewrite H0; unfold keyframe_at; lia). }
  pose proof (zlen_nonneg l). cbv zeta. rewrite u32_small by (unfold is_u32; lia).
  unfold keyframe_at.
  set (i := Z.max 0 (gop_start g - (head g - zlen l))).
  assert (Hst : (if head g - zlen l <? gop_start g then gop_start g else head g - zlen l)
                = head g - zlen l + i) by (unfold i; zcase).
  rewrite Hst.
  destruct (Z.leb_spec i (zlen l)); [| unfold i in *; lia].
  by apply (replay_loop_eq now send sc k); [.. | lia | lia].
Qed.

(** Once the 32-bit write index has wrapped, and until as many packets again have been
    pushed as the ring retains, a replay sends nothing at all, although the ring still
    holds the keyframe and answers lookups from it. *)
Theorem replay_silent_after_wrap now send sc k g ss l s log :
  represents k g ss l -> head g < zlen l ->
  ngx_rtc_rtp_ring_replay now send (Ref sc) (Ref g) (Ref s) log = Ret (Ref s, log).
Proof.
  intros [Hk Hs Hcap Hlen Hb Hu Hc Hf Hw He] Hh. unfold ngx_rtc_rtp_ring_replay. rewrite Hs, Hc.
  destruct (zlen l =? 0); [done |]. cbv zeta. unfold is_u32 in Hu.
  assert (Hkm : 2 ^ k <= 2 ^ 31) by (apply Z.pow_le_mono_r; lia).
  assert (Hst : u32 (head g - zlen l) = head g - zlen l + 2 ^ 32) by wraps.
  rewrite Hst. set (i := if _ <? _ then _ else _).
  assert (Hi : head g <= i) by (unfold i; zcase).
  destruct (Z.to_nat (zlen l)); cbn [replay_loop]; by destruct (Z.ltb_spec i (head g)); [lia |].
Qed.
(** In every case a replay offers packets of the ring and ends. *)
Lemma access_unit_incl l : (access_unit l ⊆ l).
Proof.
  induction l as [| e l IH]; [done |]. cbn [access_unit]. intros x [-> | Hx]%elem_of_cons; [by left |].
  right. destruct (_ && _); [by apply elem_of_nil in Hx | by apply IH].
Qed.

Lemma replay_offers now send sc k g ss l s log :
  represents k g ss l -> Forall (fun e => 12 <= zlen e.1) l ->
  exists es, (es ⊆ l) /\
    ngx_rtc_rtp_ring_replay now send (Ref sc) (Ref g) (Ref s) log = offer_all now send (Ref sc) es (Ref s) log.
Proof.
  intros Hrep Hl. pose proof Hrep as [Hk Hs Hcap Hlen Hb Hu Hc Hf Hw He]. unfold is_u32 in Hu.
  unfold ngx_rtc_rtp_ring_replay. rewrite Hs, Hc. pose proof (zlen_nonneg l).
  destruct (zlen l =? 0); [exists []; split; [by apply list_subseteq_nil | done] |].
  cbv zeta. set (i := if _ <? _ then _ else _).
  destruct (Z.lt_ge_cases i (head g)) as [Hi | Hi].
  2: { exists []. split; [by apply list_subseteq_nil |].
       destruct (Z.to_nat (zlen l)); cbn [replay_loop]; by destruct (Z.ltb_spec i (head g)); [lia |]. }
  assert (Hst : u32 (head g - zlen l) <= i) by (unfold i; zcase).
  assert (Hkm : 2 ^ k <= 2 ^ 31) by (apply Z.pow_le_mono_r; lia).
  assert (Hh : zlen l <= head g).
  { destruct (Z.le_gt_cases (zlen l) (head g)); [done |].
    assert (u32 (head g - zlen l) = head g - zlen l + 2 ^ 32) by wraps. lia. }
  rewrite u32_small in Hst by (unfold is_u32; lia).
  exists (access_unit (zdrop (i - (head g - zlen l)) l)). split.
  { intros x Hx%access_unit_incl. unfold zdrop in Hx. rewrite <- (take_drop (Z.to_nat (i - (head g - zlen l))) l).
    apply elem_of_app. by right. }
  rewrite <- (replay_loop_eq now send sc k g ss l (Z.to_nat (zlen l)) (i - (head g - zlen l))) by (done || lia).
  f_equal. lia.
Qed.
End replay.

(** ** A ring of two packets, the write index at [h] *)
Definition demo_entries : list entry := [(demo_packet 4, 1); (demo_packet 5, 0)].

Definition demo_slots : list ngx_rtc_rtp_cache_slot_t :=
  (fun e => {| data := e.1 ++ zeros 1199; len := 15; is_gop_start := e.2 |}) <$> demo_entries.

Definition demo_ring (h : Z) : ngx_rtc_rtp_ring_t :=
  {| slots := Ref demo_slots; capacity := 2; head := h; count := 2; gop_start := 0 |}.

Lemma demo_ring_ok h : h = 0 \/ h = 2 -> represents 1 (demo_ring h) demo_slots demo_entries.
Proof.
  intros Hh. split.
  - lia.
  - reflexivity.
  - reflexivity.
  - reflexivity.
  - repeat (constructor; [vm_compute; intuition congruence |]). constructor.
  - destruct Hh as [-> | ->]; vm_compute; intuition congruence.
  - reflexivity.
  - vm_compute. congruence.
  - intros i Hi. change (zlen demo_entries) with 2 in *.
    assert (Hi' : i = 0 \/ i = 1) by lia.
    destruct Hh as [-> | ->], Hi' as [-> | ->]; vm_compute; reflexivity.
  - repeat (constructor; [split; [vm_compute; intuition congruence |
      repeat (constructor; [vm_compute; intuition congruence |]); constructor] |]). constructor.
Qed.

Lemma replay_sends_access_unit_witness :
  ngx_rtc_rtp_ring_replay tag ngx_rtc_default_tunables 9 zlen (Ref (demo_source (demo_ring 2)))
    (Ref (demo_ring 2)) (Ref viewer) []
  = offer_all tag ngx_rtc_default_tunables 9 zlen (Ref (demo_source (demo_ring 2)))
      (access_unit (zdrop (keyframe_at (demo_ring 2) demo_entries) demo_entries)) (Ref viewer) [].
Proof.
  apply (replay_sends_access_unit tag ngx_rtc_default_tunables 9 zlen _ 1 (demo_ring 2) demo_slots).
  - apply demo_ring_ok. by right.
  - repeat (constructor; [vm_compute; congruence |]). constructor.
  - vm_compute. congruence.
  - vm_compute. congruence.
Defined.

Lemma replay_silent_after_wrap_witness :
  ngx_rtc_rtp_ring_replay tag ngx_rtc_default_tunables 9 zlen (Ref (demo_source (demo_ring 0)))
    (Ref (demo_ring 0)) (Ref viewer) [] = Ret (Ref viewer, []).
Proof.
  apply (replay_silent_after_wrap tag ngx_rtc_default_tunables 9 zlen _ 1 (demo_ring 0) demo_slots demo_entries).
  - apply demo_ring_ok. by left.
  - vm_compute. reflexivity.
Defined.
End Replay.
