(* ===== verification/Registry.v ===== *)
(** The process-local registries of src/ngx_rtc_core.c: sources by name, sessions by ICE
    ufrag, the subscriber lists, and the rules by which the last user of a source frees
    it; with the places of the modules that create and close sessions
    (src/ngx_rtc_http_module.c, src/ngx_rtc_stream_module.c) or end an RTMP publish
    (src/ngx_rtmp_rtc_bridge_module.c).

    The heap is explicit: an address that is not in [sources] or [sessions] is free, and
    an access through it is [Fault].  The queues and the trees are the interfaces of
    Nginx.v; [crc] is [ngx_crc32_long]. *)

From S2P Require Import Prelude Nginx Hsm SessionFsm Session.
From stdpp Require Import list gmap.
Import Session.

#[local] Open Scope Z_scope.

Module Registry.

Definition NGX_RTC_SOURCE_NAME_MAX : Z := 128.
Definition ICE_UFRAG_SIZE : Z := 64.
Definition NGX_RTC_PUBLISHER_NONE : Z := 0.
Definition NGX_RTC_PUBLISHER_RTMP : Z := 1.
Definition NGX_RTC_PUBLISHER_WHIP : Z := 2.

(** The queue heads and the links embedded in a session. *)
Inductive queue_id := ngx_rtc_sessions | subscribers (src : Z).
Inductive node := queue (sess : Z) | sub_queue (sess : Z).

#[global] Instance queue_id_eq_dec : EqDecision queue_id.
Proof. solve_decision. Defined.
#[global] Instance node_eq_dec : EqDecision node.
Proof. solve_decision. Defined.

Section registry.
Context {Srtp : Type} (srtp0 : Srtp) (crc : octets -> Z).
Context {Q T : Type} `{HQ : Queues queue_id node Q, !QueueLaws queue_id node Q}.
Context `{HT : StrTree T, !StrTreeLaws T}.
Abbreviation session := (ngx_rtc_session_t Srtp).

Record registry := {
  sources : gmap Z ngx_rtc_source_t;
  sessions : gmap Z session;
  queues : Q;
  ngx_rtc_source_tree : T;
  ngx_rtc_session_tree : T
}.

Definition registry_eta (r : registry) : registry :=
  {| sources := sources r; sessions := sessions r; queues := queues r;
     ngx_rtc_source_tree := ngx_rtc_source_tree r;
     ngx_rtc_session_tree := ngx_rtc_session_tree r |}.
Definition set_sources := ltac:(setter registry_eta sources).
Definition set_sessions := ltac:(setter registry_eta sessions).
Definition set_queues := ltac:(setter registry_eta queues).
Definition set_source_tree := ltac:(setter registry_eta ngx_rtc_source_tree).
Definition set_session_tree := ltac:(setter registry_eta ngx_rtc_session_tree).

(** Accesses through a pointer. *)
Definition source_at (r : registry) (a : Z) : outcome ngx_rtc_source_t :=
  match sources r !! a with Some s => Ret s | None => Fault end.
Definition session_at (r : registry) (x : Z) : outcome session :=
  match sessions r !! x with Some s => Ret s | None => Fault end.
Definition put_source (a : Z) (s : ngx_rtc_source_t) (r : registry) : registry :=
  set_sources (<[a := s]> (sources r)) r.
Definition put_session (x : Z) (s : session) (r : registry) : registry :=
  set_sessions (<[x := s]> (sessions r)) r.

(** *** Sources *)

Definition ngx_rtc_source_lookup (r : registry) (name : ptr octets) : ptr Z :=
  match name with
  | NULL => NULL
  | Ref n =>
      if (zlen n =? 0) || (NGX_RTC_SOURCE_NAME_MAX <=? zlen n) then NULL
      else ngx_str_rbtree_lookup (ngx_rtc_source_tree r) (crc n, n)
  end.

(** [alloc] is what [ngx_calloc] returns. *)
Definition ngx_rtc_source_create (alloc : ptr Z) (r : registry) (nm : ptr octets)
    (created : ptr Z) : ptr Z * ptr Z * registry :=
  let set v := match created with NULL => NULL | Ref _ => Ref v end in
  match nm with
  | NULL => (NULL, set 0, r)
  | Ref n =>
      if (zlen n =? 0) || (NGX_RTC_SOURCE_NAME_MAX <=? zlen n) then (NULL, set 0, r)
      else
        match ngx_rtc_source_lookup r nm with
        | Ref a => (Ref a, set 0, r)
        | NULL =>
            match alloc with
            | NULL => (NULL, set 0, r)
            | Ref a =>
                (Ref a, set 1,
                 r |> put_source a (set_name n zero_source)
                   |> set_queues (ngx_queue_init_head (subscribers a) (queues r))
                   |> set_source_tree (ngx_rbtree_insert (ngx_rtc_source_tree r) (crc n, n) a))
            end
        end
  end.

Definition ngx_rtc_source_get (alloc : ptr Z) (r : registry) (nm : ptr octets)
    : ptr Z * registry :=
  let '(a, _, r) := ngx_rtc_source_create alloc r nm NULL in (a, r).

Definition ngx_rtc_source_find (r : registry) (nm : ptr octets) : ptr Z :=
  ngx_rtc_source_lookup r nm.

(** *** Sessions *)

Definition session_of (n : node) : Z := match n with queue x | sub_queue x => x end.

Definition ngx_rtc_session_first (r : registry) : ptr Z :=
  match q_list ngx_rtc_sessions (queues r) with
  | [] => NULL
  | n :: _ => Ref (session_of n)
  end.

Definition ngx_rtc_session_next (r : registry) (sess : ptr Z) : outcome (ptr Z) :=
  match sess with
  | NULL => Ret (ngx_rtc_session_first r)
  | Ref x =>
      n ← ngx_queue_next ngx_rtc_sessions (queue x) (queues r);
      Ret (match n with None => NULL | Some n => Ref (session_of n) end)
  end.

Definition ngx_rtc_session_find (r : registry) (ufrag : ptr octets) : ptr Z :=
  match ufrag with
  | NULL => NULL
  | Ref u =>
      if (zlen u =? 0) || (ICE_UFRAG_SIZE <=? zlen u) then NULL
      else ngx_str_rbtree_lookup (ngx_rtc_session_tree r) (crc u, u)
  end.

(** The scan shared by the loops over all sessions: the first that passes [p]. *)
Fixpoint session_scan (fuel : nat) (r : registry) (p : session -> bool) (sess : ptr Z)
    : outcome (ptr Z) :=
  match sess with
  | NULL => Ret NULL
  | Ref x =>
      match fuel with
      | O => Fault
      | S fuel =>
          s ← session_at r x;
          if p s then Ret (Ref x)
          else sess ← ngx_rtc_session_next r sess; session_scan fuel r p sess
      end
  end.

Definition scan_fuel (r : registry) : nat := length (q_list ngx_rtc_sessions (queues r)).

Definition ngx_rtc_session_find_by_id (r : registry) (i : Z) : outcome (ptr Z) :=
  session_scan (scan_fuel r) r (fun s => id s =? i) (ngx_rtc_session_first r).

Definition points_to (a : Z) (s : session) : bool :=
  match source s with NULL => false | Ref b => b =? a end.

Definition ngx_rtc_source_has_holder (r : registry) (src : ptr Z) : outcome Z :=
  match src with
  | NULL => Ret 0
  | Ref a =>
      h ← session_scan (scan_fuel r) r (points_to a) (ngx_rtc_session_first r);
      Ret (if is_null h then 0 else 1)
  end.

Definition ngx_rtc_session_add (r : registry) (sess : ptr Z) : outcome registry :=
  match sess with
  | NULL => Ret r
  | Ref x =>
      s ← session_at r x;
      let len := zlen (ice_ufrag s) in
      if len =? 0 then Ret r
      else
        let r := set_queues (ngx_queue_insert_head ngx_rtc_sessions (queue x) (queues r)) r in
        let r := put_session x (set_sn_str_len len s) r in
        Ret (set_session_tree (ngx_rbtree_insert (ngx_rtc_session_tree r)
                                 (crc (ice_ufrag s), ice_ufrag s) x) r)
  end.

Definition ngx_rtc_session_remove (r : registry) (sess : ptr Z) : outcome registry :=
  match sess with
  | NULL => Ret r
  | Ref x =>
      s ← session_at r x;
      let r := if negb (sn_str_len s =? 0)
               then r |> set_session_tree (ngx_rbtree_delete (ngx_rtc_session_tree r) x)
                      |> put_session x (set_sn_str_len 0 s)
               else r in
      q ← ngx_queue_remove (queue x) (queues r);
      Ret (set_queues q r)
  end.

(** *** Who keeps a source alive *)

Definition ngx_rtc_source_remove (r : registry) (nm : ptr octets) : outcome registry :=
  match ngx_rtc_source_lookup r nm with
  | NULL => Ret r
  | Ref a =>
      s ← source_at r a;
      match q_list (subscribers a) (queues r) with
      | _ :: _ => Ret r
      | [] =>
          if negb (publishing s =? 0) then Ret r
          else
            h ← ngx_rtc_source_has_holder r (Ref a);
            if negb (h =? 0) then Ret r
            else if negb (is_null (audio_ctx s)) then Ret r
            else Ret (r |> set_source_tree (ngx_rbtree_delete (ngx_rtc_source_tree r) a)
                        |> set_sources (delete a (sources r)))
      end
  end.

Definition ngx_rtc_source_subscribe (r : registry) (src sess : ptr Z) : outcome registry :=
  match src, sess with
  | Ref a, Ref x =>
      s ← session_at r x;
      let r := put_session x (set_source (Ref a) s) r in
      _ ← source_at r a;
      Ret (set_queues (ngx_queue_insert_head (subscribers a) (sub_queue x) (queues r)) r)
  | _, _ => Ret r
  end.

Definition ngx_rtc_source_unsubscribe (r : registry) (src sess : ptr Z) : outcome registry :=
  match src, sess with
  | Ref a, Ref x =>
      s ← session_at r x;
      if negb (points_to a s) then Ret r
      else
        q ← match q_link (sub_queue x) (queues r) with
            | Zeroed | Self => Ret (queues r)
            | _ => ngx_queue_remove (sub_queue x) (queues r)
            end;
        let r := set_queues (ngx_queue_init (sub_queue x) q) r in
        let r := put_session x (set_source NULL s) r in
        src ← source_at r a;
        match q_list (subscribers a) (queues r) with
        | [] =>
            if publishing src =? 0 then
              h ← ngx_rtc_source_has_holder r (Ref a);
              if h =? 0 then ngx_rtc_source_remove r (Ref (name src)) else Ret r
            else Ret r
        | _ => Ret r
        end
  | _, _ => Ret r
  end.

Definition ngx_rtc_source_first_subscriber (r : registry) (src : ptr Z) : ptr Z :=
  match src with
  | NULL => NULL
  | Ref a =>
      match q_list (subscribers a) (queues r) with
      | [] => NULL
      | n :: _ => Ref (session_of n)
      end
  end.

Definition ngx_rtc_source_next_subscriber (r : registry) (src sess : ptr Z)
    : outcome (ptr Z) :=
  match src, sess with
  | Ref a, Ref x =>
      n ← ngx_queue_next (subscribers a) (sub_queue x) (queues r);
      Ret (match n with None => NULL | Some n => Ref (session_of n) end)
  | _, _ => Ret NULL
  end.

(** *** The modules' uses *)

(** The part of ngx_rtc_publish_release that this process sees. *)
Definition release_mirror (r : registry) (src : ptr Z) : outcome registry :=
  match src with
  | NULL => Ret r
  | Ref a =>
      s ← source_at r a;
      if publisher_kind s =? NGX_RTC_PUBLISHER_NONE then Ret r
      else Ret (put_source a (s |> set_publisher_kind NGX_RTC_PUBLISHER_NONE
                                |> set_publishing 0) r)
  end.

Definition ngx_rtc_publish_mirror (r : registry) (src : ptr Z) (kind : Z) : outcome registry :=
  match src with
  | NULL => Ret r
  | Ref a =>
      s ← source_at r a;
      Ret (put_source a (s |> set_publisher_kind kind |> set_publishing 1) r)
  end.

(** The record a request fills for a session. *)
Definition new_session (src : ptr Z) (pub : Z) (ufrag : octets) : session :=
  zero_session srtp0 |> set_source src |> set_sess_publishing pub |> set_ice_ufrag ufrag.

(** A session is made: allocated zeroed, its links initialised, filled and registered under a
    fresh ufrag. *)
Definition session_open (x : Z) (s : session) (r : registry) : outcome registry :=
  let q := queues r |> ngx_queue_zero (queue x) |> ngx_queue_zero (sub_queue x)
             |> ngx_queue_init (queue x) |> ngx_queue_init (sub_queue x) in
  r |> set_queues q |> put_session x s |> fun r => ngx_rtc_session_add r (Ref x).

(** The end of ngx_rtc_stream_session_close, once the publish right is settled. *)
Definition session_drop (r : registry) (x : Z) : outcome registry :=
  s ← session_at r x;
  r ← (if is_null (source s) then Ret r
       else ngx_rtc_source_unsubscribe r (source s) (Ref x));
  r ← ngx_rtc_session_remove r (Ref x);
  Ret (set_sessions (delete x (sessions r)) r).

(** ngx_rtc_stream_session_close, from the release of the publish right on. *)
Definition session_close (r : registry) (x : Z) : outcome registry :=
  s ← session_at r x;
  r ← match source s with
      | NULL => Ret r
      | Ref a =>
          src ← source_at r a;
          if publisher_kind src =? NGX_RTC_PUBLISHER_WHIP then release_mirror r (Ref a)
          else Ret r
      end;
  session_drop r x.

(** Several closes in one walk of the session list: those [chosen] picks, whatever the grounds
    (the reaper's own are in Stream.v); the successor is read before the close frees its
    session. *)
Fixpoint close_loop (fuel : nat) (chosen : Z -> bool) (r : registry) (sess : ptr Z)
    : outcome registry :=
  match sess with
  | NULL => Ret r
  | Ref x =>
      match fuel with
      | O => Fault
      | S fuel =>
          next ← ngx_rtc_session_next r sess;
          _ ← session_at r x;
          r ← (if chosen x then session_close r x else Ret r);
          close_loop fuel chosen r next
      end
  end.

Definition close_chosen (chosen : Z -> bool) (r : registry) : outcome registry :=
  close_loop (scan_fuel r) chosen r (ngx_rtc_session_first r).

(** The end of an RTMP publish: the transcoder goes, then the publish right, then, if
    nothing holds it, the source. *)
Definition rtmp_teardown (r : registry) (nm : octets) : outcome registry :=
  match ngx_rtc_source_find r (Ref nm) with
  | NULL => Ret r
  | Ref a =>
      s ← source_at r a;
      let s := if is_null (audio_ctx s) then s else set_audio_ctx NULL s in
      let r := put_source a s r in
      if negb (publisher_kind s =? NGX_RTC_PUBLISHER_RTMP) then Ret r
      else r ← release_mirror r (Ref a); ngx_rtc_source_remove r (Ref nm)
  end.

(** ** The ownership invariant *)

Definition on_ok (r : registry) (n : node) (i : queue_id) : Prop :=
  exists s, sessions r !! session_of n = Some s /\
    match n with
    | queue _ => i = ngx_rtc_sessions
    | sub_queue _ => exists a, i = subscribers a /\ source s = Ref a
    end.

Record reg_ok (r : registry) : Prop := {
  ok_queues : q_ok (queues r);
  ok_src_tree k a : t_has (ngx_rtc_source_tree r) k a <->
    exists s, sources r !! a = Some s /\ k = (crc (name s), name s);
  ok_src_name a s : sources r !! a = Some s -> 0 < zlen (name s) < NGX_RTC_SOURCE_NAME_MAX;
  ok_src_uniq a b s t : sources r !! a = Some s -> sources r !! b = Some t ->
    name s = name t -> a = b;
  ok_sess_tree k x : t_has (ngx_rtc_session_tree r) k x <->
    exists s, sessions r !! x = Some s /\ k = (crc (ice_ufrag s), ice_ufrag s);
  ok_sess x s : sessions r !! x = Some s ->
    q_link (queue x) (queues r) = On ngx_rtc_sessions /\ sn_str_len s <> 0;
  ok_source x s a : sessions r !! x = Some s -> source s = Ref a -> is_Some (sources r !! a);
  ok_sub x s : sessions r !! x = Some s ->
    q_link (sub_queue x) (queues r) = Self \/
    exists a, source s = Ref a /\ q_link (sub_queue x) (queues r) = On (subscribers a);
  ok_on n i : q_link n (queues r) = On i -> on_ok r n i
}.

Lemma points_to_spec a s : points_to a s = true <-> source s = Ref a.
Proof.
  unfold points_to. destruct (source s) as [| b]; [done |].
  rewrite Z.eqb_eq. split; [by intros -> | by intros [= ->]].
Qed.

(** *** Walking the session list *)

Definition node_ptr (l : list node) : ptr Z :=
  match l with [] => NULL | n :: _ => Ref (session_of n) end.

Lemma listed r n :
  reg_ok r -> n ∈ q_list ngx_rtc_sessions (queues r) ->
  exists x s, n = queue x /\ sessions r !! x = Some s.
Proof.
  intros Hr Hn. apply (q_iff _ (ok_queues r Hr)) in Hn.
  destruct (ok_on r Hr n _ Hn) as (s & Hs & Hi). destruct n as [x | x]; [by exists x, s |].
  by destruct Hi as (a & ? & _).
Qed.

Lemma session_next_mid r pre x post :
  reg_ok r -> q_list ngx_rtc_sessions (queues r) = pre ++ queue x :: post ->
  ngx_rtc_session_next r (Ref x) = Ret (node_ptr post).
Proof.
  intros Hr Hl. pose proof (ok_queues r Hr) as Hq. unfold ngx_rtc_session_next, ngx_queue_next.
  rewrite decide_True.
  2: { apply (q_iff _ Hq). rewrite Hl. apply elem_of_app. right. by left. }
  rewrite bind_Ret, Hl, successor_mid by (rewrite <- Hl; apply Hq). by destruct post.
Qed.

Lemma session_scan_spec r p post : forall pre fuel,
  reg_ok r -> q_list ngx_rtc_sessions (queues r) = pre ++ post -> (length post <= fuel)%nat ->
  (session_scan fuel r p (node_ptr post) = Ret NULL /\
     forall x s, queue x ∈ post -> sessions r !! x = Some s -> p s = false) \/
  (exists x s, session_scan fuel r p (node_ptr post) = Ret (Ref x) /\ queue x ∈ post /\
     sessions r !! x = Some s /\ p s = true).
Proof.
  induction post as [| n post IH]; intros pre fuel Hr Hl Hf; cbn [length] in Hf.
  { left. split; [by destruct fuel | by intros x s ?%elem_of_nil]. }
  destruct (listed r n Hr) as (x & s & -> & Hs).
  { rewrite Hl. apply elem_of_app. right. by left. }
  destruct fuel as [| fuel]; [lia |]. cbn [session_scan node_ptr session_of].
  unfold session_at. rewrite Hs, bind_Ret. destruct (p s) eqn:Hp.
  { right. exists x, s. split_and!; [done | by left | done | done]. }
  rewrite (session_next_mid r pre x post Hr Hl), bind_Ret.
  destruct (IH (pre ++ [queue x]) fuel Hr) as [[E Hn] | (y & t & E & Hy & Ht)];
    [by rewrite <- app_assoc | lia | |].
  - left. split; [done |]. intros y t [Hxy | Hy]%elem_of_cons Ht; [| by eapply Hn].
    injection Hxy as ->. congruence.
  - right. exists y, t. split_and!; try done. + by right. + apply Ht. + apply Ht.
Qed.

(** What the scan over all sessions finds. *)
Lemma session_scan_all r p :
  reg_ok r ->
  (session_scan (scan_fuel r) r p (ngx_rtc_session_first r) = Ret NULL /\
     forall x s, sessions r !! x = Some s -> p s = false) \/
  (exists x s, session_scan (scan_fuel r) r p (ngx_rtc_session_first r) = Ret (Ref x) /\
     sessions r !! x = Some s /\ p s = true).
Proof.
  intros Hr. change (ngx_rtc_session_first r)
    with (node_ptr (q_list ngx_rtc_sessions (queues r))).
  destruct (session_scan_spec r p (q_list ngx_rtc_sessions (queues r)) [] (scan_fuel r) Hr eq_refl
              (le_n _)) as [[E Hn] | (x & s & E & _ & Hx & Hp)].
  - left. split; [done |]. intros x s Hs. apply (Hn x s); [| done].
    apply (q_iff _ (ok_queues r Hr)). by apply (ok_sess r Hr x s).
  - right. by exists x, s.
Qed.

Definition held_by (r : registry) (a : Z) : Prop :=
  exists x s, sessions r !! x = Some s /\ source s = Ref a.

Lemma has_holder_spec r a :
  reg_ok r ->
  (ngx_rtc_source_has_holder r (Ref a) = Ret 0 /\ ~ held_by r a) \/
  (ngx_rtc_source_has_holder r (Ref a) = Ret 1 /\ held_by r a).
Proof.
  intros Hr. unfold ngx_rtc_source_has_holder.
  destruct (session_scan_all r (points_to a) Hr) as [[-> Hn] | (x & s & -> & Hs & Hp)];
    rewrite bind_Ret.
  - left. split; [done |]. intros (x & s & Hs & Hp). apply points_to_spec in Hp.
    by rewrite (Hn x s Hs) in Hp.
  - right. split; [done |]. exists x, s. split; [done |]. by apply points_to_spec.
Qed.

(** *** Lookups *)

Lemma source_lookup_spec r n :
  reg_ok r ->
  match ngx_rtc_source_lookup r (Ref n) with
  | NULL => forall a s, sources r !! a = Some s -> name s <> n
  | Ref a => exists s, sources r !! a = Some s /\ name s = n
  end.
Proof.
  intros Hr. unfold ngx_rtc_source_lookup, NGX_RTC_SOURCE_NAME_MAX.
  destruct (_ || _) eqn:Hv.
  { intros a s Hs Hn. pose proof (ok_src_name r Hr a s Hs) as Hl. rewrite Hn in Hl.
    unfold NGX_RTC_SOURCE_NAME_MAX in Hl.
    destruct (Z.eqb_spec (zlen n) 0), (Z.leb_spec 128 (zlen n)); try done; lia. }
  destruct (ngx_str_rbtree_lookup _ _) as [| a] eqn:E.
  - intros a s Hs Hn. apply lookup_none_law with (a := a) in E. apply E, (ok_src_tree r Hr).
    exists s. by rewrite Hn.
  - apply lookup_some_law, (ok_src_tree r Hr) in E as (s & Hs & [= _ Hk]). by exists s.
Qed.

Lemma source_lookup_found r a s :
  reg_ok r -> sources r !! a = Some s -> ngx_rtc_source_lookup r (Ref (name s)) = Ref a.
Proof.
  intros Hr Hs. pose proof (source_lookup_spec r (name s) Hr) as H.
  destruct (ngx_rtc_source_lookup r (Ref (name s))) as [| b]; [by destruct (H a s Hs) |].
  destruct H as (t & Ht & Hn). f_equal. by apply (ok_src_uniq r Hr b a t s).
Qed.

Lemma session_find_spec r u :
  reg_ok r ->
  match ngx_rtc_session_find r (Ref u) with
  | NULL => True
  | Ref x => exists s, sessions r !! x = Some s /\ ice_ufrag s = u
  end.
Proof.
  intros Hr. unfold ngx_rtc_session_find. destruct (_ || _); [done |].
  destruct (ngx_str_rbtree_lookup _ _) as [| x] eqn:E; [done |].
  apply lookup_some_law, (ok_sess_tree r Hr) in E as (s & Hs & [= _ Hk]). by exists s.
Qed.

(** *** Freeing a source *)

Definition freed (a : Z) (r : registry) : registry :=
  r |> set_source_tree (ngx_rbtree_delete (ngx_rtc_source_tree r) a)
    |> set_sources (delete a (sources r)).

(** Nothing needs the source. *)
Definition unused (r : registry) (a : Z) (s : ngx_rtc_source_t) : Prop :=
  publishing s = 0 /\ audio_ctx s = NULL /\ ~ held_by r a.

Lemma no_holder_no_subscriber r a :
  reg_ok r -> ~ held_by r a -> q_list (subscribers a) (queues r) = [].
Proof.
  intros Hr Hh. destruct (q_list (subscribers a) (queues r)) as [| n l] eqn:E; [done |].
  exfalso. assert (Hn : n ∈ q_list (subscribers a) (queues r)) by (rewrite E; by left).
  apply (q_iff _ (ok_queues r Hr)), (ok_on r Hr) in Hn. destruct Hn as (s & Hs & Hi).
  destruct n as [x | x]; [done |]. destruct Hi as (b & [= <-] & Hb). apply Hh. by exists x, s.
Qed.

Lemma freed_ok r a s : reg_ok r -> sources r !! a = Some s -> ~ held_by r a -> reg_ok (freed a r).
Proof.
  intros Hr Hs Hh. pose proof Hr as [H1 H2 H3 H4 H5 H6 H7 H8 H9].
  split; cbn; try done.
  - intros k b. rewrite (delete_law _ (crc (name s), name s)) by (apply H2; by exists s).
    rewrite H2. setoid_rewrite lookup_delete_Some.
    split; [intros (? & t & ? & ?); by exists t | intros (t & [? ?] & ?); split; [done | by exists t]].
  - intros b t [_ Ht]%lookup_delete_Some. by apply (H3 b).
  - intros b c t u [_ Ht]%lookup_delete_Some [_ Hu]%lookup_delete_Some. by apply H4.
  - intros x t b Ht Hb. destruct (H7 x t b Ht Hb) as [u Hu]. exists u. apply lookup_delete_Some.
    split; [| done]. intros ->. apply Hh. by exists x, t.
Qed.

(** A removal frees the named source exactly when nothing needs it. *)
Lemma source_remove_spec r n :
  reg_ok r ->
  exists r', ngx_rtc_source_remove r (Ref n) = Ret r' /\ reg_ok r' /\
  ((r' = r /\ forall a s, sources r !! a = Some s -> name s = n -> ~ unused r a s) \/
   exists a s, sources r !! a = Some s /\ name s = n /\ unused r a s /\ r' = freed a r).
Proof.
  intros Hr. unfold ngx_rtc_source_remove. pose proof (source_lookup_spec r n Hr) as Hl.
  destruct (ngx_rtc_source_lookup r (Ref n)) as [| a].
  { exists r. split_and!; [done | done |]. left. split; [done |].
    intros a s Hs Hn. by destruct (Hl a s Hs). }
  destruct Hl as (s & Hs & Hn). unfold source_at. rewrite Hs, bind_Ret.
  assert (Huniq : forall b t, sources r !! b = Some t -> name t = n -> b = a /\ t = s).
  { intros b t Ht Htn. assert (b = a) as -> by (apply (ok_src_uniq r Hr b a t s Ht Hs); congruence).
    split; congruence. }
  assert (Hkeep : ~ unused r a s -> exists r', Ret r = Ret r' /\ reg_ok r' /\
    ((r' = r /\ forall a s, sources r !! a = Some s -> name s = n -> ~ unused r a s) \/
     exists a s, sources r !! a = Some s /\ name s = n /\ unused r a s /\ r' = freed a r)).
  { intros Hno. exists r. split_and!; [done | done |]. left. split; [done |].
    intros b t Ht Htn. by destruct (Huniq b t Ht Htn) as [-> ->]. }
  destruct (q_list (subscribers a) (queues r)) as [| m l] eqn:Eq.
  2: { apply Hkeep. intros (_ & _ & Hh). by rewrite (no_holder_no_subscriber r a Hr Hh) in Eq. }
  destruct (Z.eqb_spec (publishing s) 0) as [Hp |]; cbn [negb].
  2: { apply Hkeep. by intros (? & _ & _). }
  destruct (has_holder_spec r a Hr) as [[-> Hh] | [-> Hh]]; rewrite bind_Ret.
  2: { apply Hkeep. intros (_ & _ & Hh'). exact (Hh' Hh). }
  change (negb (0 =? 0)) with false. cbv iota.
  destruct (audio_ctx s) as [| c] eqn:Ea; cbn [is_null negb].
  2: { apply Hkeep. intros (_ & Hc & _). congruence. }
  exists (freed a r). split_and!; [done | by eapply freed_ok |]. right. exists a, s. by split_and!.
Qed.

(** *** A session leaves its source *)

(** Unlinking the subscriber node, whatever its state allows. *)
Lemma unlink_spec r x s :
  reg_ok r -> sessions r !! x = Some s ->
  exists q, match q_link (sub_queue x) (queues r) with
            | Zeroed | Self => Ret (queues r)
            | _ => ngx_queue_remove (sub_queue x) (queues r)
            end = Ret q /\
    let q' := ngx_queue_init (sub_queue x) q in
    q_ok q' /\ q_link (sub_queue x) q' = Self /\
    (forall y, y <> sub_queue x -> q_link y q' = q_link y (queues r)) /\
    q_list ngx_rtc_sessions q' = q_list ngx_rtc_sessions (queues r).
Proof.
  intros Hr Hs. pose proof (ok_queues r Hr) as Hq.
  destruct (ok_sub r Hr x s Hs) as [Hl | (a & _ & Hl)]; rewrite Hl.
  - exists (queues r). split; [done |].
    assert (Hoff : forall i, q_link (sub_queue x) (queues r) <> On i) by (intros i; by rewrite Hl).
    destruct (init_law _ _ Hoff) as (H1 & H2 & H3). split_and!; [by apply init_ok | done | done |].
    apply H3.
  - destruct (remove_ok _ _ _ Hq Hl) as (q & E & Hq' & _ & Hst & Hls & Hother).
    exists q. split; [done |].
    assert (Hoff : forall i, q_link (sub_queue x) q <> On i) by (intros i; by rewrite Hst).
    destruct (init_law _ _ Hoff) as (H1 & H2 & H3). split_and!; [by apply init_ok | done | |].
    + intros y Hy. by rewrite H2, Hother.
    + by rewrite H3, Hls.
Qed.

Lemma detach_ok r x s q' :
  reg_ok r -> sessions r !! x = Some s -> q_ok q' -> q_link (sub_queue x) q' = Self ->
  (forall y, y <> sub_queue x -> q_link y q' = q_link y (queues r)) ->
  reg_ok (r |> set_queues q' |> put_session x (set_source NULL s)).
Proof.
  intros Hr Hs Hq Hx Hy. pose proof Hr as [H1 H2 H3 H4 H5 H6 H7 H8 H9].
  split; cbn; try done.
  - intros k y. rewrite H5. destruct (decide (y = x)) as [-> |].
    + rewrite lookup_insert_eq. split.
      * intros (t & Ht & ->). rewrite Hs in Ht. injection Ht as <-. by exists (set_source NULL s).
      * intros (t & [= <-] & ->). by exists s.
    + by rewrite lookup_insert_ne by done.
  - intros y t. destruct (decide (y = x)) as [-> |].
    + rewrite lookup_insert_eq. intros [= <-]. rewrite Hy by done. exact (H6 x s Hs).
    + rewrite lookup_insert_ne by done. rewrite Hy by done. apply H6.
  - intros y t a. destruct (decide (y = x)) as [-> |].
    + rewrite lookup_insert_eq. by intros [= <-].
    + rewrite lookup_insert_ne by done. apply H7.
  - intros y t. destruct (decide (y = x)) as [-> |]; [by left |].
    rewrite lookup_insert_ne by done. rewrite Hy by congruence. apply H8.
  - intros n i Hn. assert (Hne : n <> sub_queue x) by (intros ->; congruence).
    rewrite Hy in Hn by done. destruct (H9 n i Hn) as (t & Ht & Hi).
    unfold on_ok. cbn. destruct (decide (session_of n = x)) as [Hnx |].
    + exists (set_source NULL s). rewrite Hnx, lookup_insert_eq. split; [done |].
      destruct n as [y | y]; [done |]. cbn in Hnx. congruence.
    + exists t. by rewrite lookup_insert_ne.
Qed.

(** The session leaves, and the source goes with its last user. *)
Lemma unsubscribe_spec r a x s src :
  reg_ok r -> sessions r !! x = Some s -> source s = Ref a -> sources r !! a = Some src ->
  exists r' q', ngx_rtc_source_unsubscribe r (Ref a) (Ref x) = Ret r' /\ reg_ok r' /\
    let r1 := r |> set_queues q' |> put_session x (set_source NULL s) in
    reg_ok r1 /\ q_list ngx_rtc_sessions q' = q_list ngx_rtc_sessions (queues r) /\
    q_link (sub_queue x) q' = Self /\ (forall y, y <> sub_queue x -> q_link y q' = q_link y (queues r)) /\
    ((r' = freed a r1 /\ unused r1 a src) \/ (r' = r1 /\ ~ unused r1 a src)).
Proof.
  intros Hr Hs Hx Hsrc. unfold ngx_rtc_source_unsubscribe, session_at. rewrite Hs, bind_Ret.
  rewrite (proj2 (points_to_spec a s) Hx). cbn [negb].
  destruct (unlink_spec r x s Hr Hs) as (q & -> & Hq & Hself & Hother & Hls). rewrite bind_Ret.
  set (q' := ngx_queue_init (sub_queue x) q) in *.
  pose proof (detach_ok r x s q' Hr Hs Hq Hself Hother) as Hr1.
  set (r1 := put_session x (set_source NULL s) (set_queues q' r)) in *.
  unfold source_at. change (sources r1 !! a) with (sources r !! a). rewrite Hsrc, bind_Ret.
  assert (Hstay : ~ unused r1 a src -> exists r' q', Ret r1 = Ret r' /\ reg_ok r' /\
    let r1 := r |> set_queues q' |> put_session x (set_source NULL s) in
    reg_ok r1 /\ q_list ngx_rtc_sessions q' = q_list ngx_rtc_sessions (queues r) /\
    q_link (sub_queue x) q' = Self /\ (forall y, y <> sub_queue x -> q_link y q' = q_link y (queues r)) /\
    ((r' = freed a r1 /\ unused r1 a src) \/ (r' = r1 /\ ~ unused r1 a src))).
  { intros Hno. exists r1, q'. do 6 (split; [done |]). by right. }
  destruct (q_list (subscribers a) (queues r1)) as [| n l] eqn:El.
  2: { apply Hstay. intros (_ & _ & Hh). by rewrite (no_holder_no_subscriber r1 a Hr1 Hh) in El. }
  destruct (Z.eqb_spec (publishing src) 0).
  2: { apply Hstay. by intros (? & _ & _). }
  destruct (has_holder_spec r1 a Hr1) as [[-> Hh] | [-> Hh]]; rewrite bind_Ret.
  2: { apply Hstay. intros (_ & _ & Hh'). exact (Hh' Hh). }
  change (0 =? 0) with true. cbv iota.
  destruct (source_remove_spec r1 (name src) Hr1) as (r' & -> & Hr' & Hc).
  exists r', q'. do 6 (split; [done |]).
  destruct Hc as [[-> Hno] | (b & t & Ht & Hn & Hu & ->)].
  - right. split; [done |]. by apply (Hno a src).
  - assert (b = a) as -> by by apply (ok_src_uniq r1 Hr1 b a t src).
    assert (t = src) as -> by (cbn in Ht; congruence). by left.
Qed.

(** *** A session is unregistered and freed *)

Lemma session_free_ok r x s :
  reg_ok r -> sessions r !! x = Some s -> q_link (sub_queue x) (queues r) = Self ->
  exists r', ngx_rtc_session_remove r (Ref x) = Ret r' /\
    reg_ok (set_sessions (delete x (sessions r')) r') /\
    sources r' = sources r /\
    (forall y, y <> x -> sessions r' !! y = sessions r !! y) /\
    q_list ngx_rtc_sessions (queues r')
    = filter (fun n => n <> queue x) (q_list ngx_rtc_sessions (queues r)) /\
    forall n, n <> queue x -> q_link n (queues r') = q_link n (queues r).
Proof.
  intros Hr Hs Hself. pose proof Hr as [H1 H2 H3 H4 H5 H6 H7 H8 H9].
  destruct (H6 x s Hs) as [Hon Hlen]. unfold ngx_rtc_session_remove, session_at.
  rewrite Hs, bind_Ret. destruct (Z.eqb_spec (sn_str_len s) 0); [done |]. cbn [negb].
  destruct (remove_ok _ _ _ H1 Hon) as (q & E & Hq & Hl & Hst & Hls & Hother).
  cbn [queues set_queues put_session set_sessions set_session_tree]. rewrite E, bind_Ret.
  eexists. split; [reflexivity |]. split; [| split; [done | split; [| split; [exact Hl | exact Hother]]]].
  2: { intros y Hy. cbn. by rewrite lookup_insert_ne. }
  assert (Hdel : forall y t, delete x (<[x := set_sn_str_len 0 s]> (sessions r)) !! y = Some t <->
    y <> x /\ sessions r !! y = Some t).
  { intros y t. rewrite delete_insert_eq, lookup_delete_Some. split; intros [? ?]; auto. }
  split; cbn; try done.
  - intros k y. rewrite (delete_law _ (crc (ice_ufrag s), ice_ufrag s)) by (apply H5; by exists s).
    rewrite H5. setoid_rewrite Hdel.
    split; [intros (? & t & ? & ?); by exists t | intros (t & [? ?] & ?); split; [done | by exists t]].
  - intros y t [Hne Ht]%Hdel. rewrite Hother by congruence. exact (H6 y t Ht).
  - intros y t a [_ Ht]%Hdel. exact (H7 y t a Ht).
  - intros y t [Hne Ht]%Hdel. rewrite Hother by done. exact (H8 y t Ht).
  - intros m i Hm. assert (Hne : m <> queue x) by (intros ->; congruence).
    rewrite Hother in Hm by done. destruct (H9 m i Hm) as (t & Ht & Hi). exists t. split; [| done].
    cbn. apply Hdel. split; [| done]. intros Hx. destruct m as [y | y]; cbn in Hx; congruence.
Qed.

(** *** The other operations *)

Lemma put_source_ok r a s s' :
  reg_ok r -> sources r !! a = Some s -> name s' = name s -> reg_ok (put_source a s' r).
Proof.
  intros Hr Hs Hn. pose proof Hr as [H1 H2 H3 H4 H5 H6 H7 H8 H9].
  assert (Hat : forall b t, <[a := s']> (sources r) !! b = Some t ->
    exists t', sources r !! b = Some t' /\ name t = name t').
  { intros b t. destruct (decide (b = a)) as [-> |].
    - rewrite lookup_insert_eq. intros [= <-]. by exists s.
    - rewrite lookup_insert_ne by done. by exists t. }
  split; cbn; try done.
  - intros k b. rewrite H2. destruct (decide (b = a)) as [-> |].
    + rewrite lookup_insert_eq. split.
      * intros (t & Ht & ->). rewrite Hs in Ht. injection Ht as <-. exists s'. by rewrite Hn.
      * intros (t & [= <-] & ->). exists s. by rewrite Hn.
    + by rewrite lookup_insert_ne by done.
  - intros b t (t' & Ht' & ->)%Hat. by apply (H3 b).
  - intros b c t u (t' & Ht' & ->)%Hat (u' & Hu' & ->)%Hat. by apply H4.
  - intros x t b Ht Hb. destruct (H7 x t b Ht Hb) as [u Hu].
    destruct (decide (b = a)) as [-> |]; [rewrite lookup_insert_eq | rewrite lookup_insert_ne by done];
      by eexists.
Qed.

Lemma session_put_ok r x s s' :
  reg_ok r -> sessions r !! x = Some s -> ice_ufrag s' = ice_ufrag s -> source s' = source s ->
  sn_str_len s' = sn_str_len s -> reg_ok (put_session x s' r).
Proof.
  intros Hr Hs Hu Hso Hl. pose proof Hr as [H1 H2 H3 H4 H5 H6 H7 H8 H9].
  assert (Hat : forall y t, <[x := s']> (sessions r) !! y = Some t ->
    exists t', sessions r !! y = Some t' /\ ice_ufrag t = ice_ufrag t' /\ source t = source t' /\ sn_str_len t = sn_str_len t').
  { intros y t [[<- <-] | [_ Ht]]%lookup_insert_Some; [by exists s | by exists t]. }
  assert (Hto : forall y t, sessions r !! y = Some t ->
    exists t', <[x := s']> (sessions r) !! y = Some t' /\ ice_ufrag t' = ice_ufrag t /\ source t' = source t).
  { intros y t Ht. destruct (decide (y = x)) as [-> |].
    - exists s'. rewrite lookup_insert_eq. assert (t = s) as -> by congruence. done.
    - exists t. by rewrite lookup_insert_ne. }
  split; cbn; try done.
  - intros k y. rewrite H5. split.
    + intros (t & Ht & ->). destruct (Hto y t Ht) as (t' & Ht' & E & _). exists t'. by rewrite E.
    + intros (t & (t' & Ht' & E & _)%Hat & ->). exists t'. by rewrite E.
  - intros y t (t' & Ht' & _ & _ & ->)%Hat. exact (H6 y t' Ht').
  - intros y t b (t' & Ht' & _ & -> & _)%Hat. exact (H7 y t' b Ht').
  - intros y t (t' & Ht' & _ & -> & _)%Hat. exact (H8 y t' Ht').
  - intros m i Hm. destruct (H9 m i Hm) as (t & Ht & Hi). destruct (Hto _ _ Ht) as (t' & Ht' & _ & E).
    exists t'. split; [done |]. destruct m; [done |]. by rewrite E.
Qed.

Lemma release_mirror_ok r a s :
  reg_ok r -> sources r !! a = Some s ->
  exists s', release_mirror r (Ref a) = Ret (put_source a s' r) /\ name s' = name s /\
    reg_ok (put_source a s' r).
Proof.
  intros Hr Hs. unfold release_mirror, source_at. rewrite Hs, bind_Ret.
  destruct (publisher_kind s =? NGX_RTC_PUBLISHER_NONE).
  - exists s. split; [| split; [done | by eapply put_source_ok]].
    unfold put_source. rewrite insert_id by done. by destruct r.
  - eexists. split; [reflexivity |]. split; [done | by eapply put_source_ok].
Qed.

Lemma fresh_source_off r a :
  reg_ok r -> sources r !! a = None -> forall n, q_link n (queues r) <> On (subscribers a).
Proof.
  intros Hr Ha n Hn. destruct (ok_on r Hr n _ Hn) as (s & Hs & Hi).
  destruct n as [x | x]; [done |]. destruct Hi as (b & [= <-] & Hb).
  destruct (ok_source r Hr x s a Hs Hb) as [t Ht]. congruence.
Qed.

Lemma fresh_session_off r x :
  reg_ok r -> sessions r !! x = None ->
  (forall i, q_link (queue x) (queues r) <> On i) /\ (forall i, q_link (sub_queue x) (queues r) <> On i).
Proof. intros Hr Hx. split; intros i Hi; destruct (ok_on r Hr _ _ Hi) as (s & Hs & _); cbn in Hs; congruence. Qed.

Lemma source_create_ok alloc r n c :
  reg_ok r -> (forall a, alloc = Ref a -> sources r !! a = None) ->
  exists p c' r', ngx_rtc_source_create alloc r (Ref n) c = (p, c', r') /\ reg_ok r' /\
    sessions r' = sessions r /\
    match p with
    | NULL => r' = r
    | Ref a => exists s, sources r' !! a = Some s /\ name s = n
    end.
Proof.
  intros Hr Hal. unfold ngx_rtc_source_create, NGX_RTC_SOURCE_NAME_MAX.
  destruct (Z.eqb_spec (zlen n) 0); [by exists NULL; eexists _, r |].
  destruct (Z.leb_spec 128 (zlen n)); [by exists NULL; eexists _, r |]. cbn [orb].
  pose proof (source_lookup_spec r n Hr) as Hl.
  destruct (ngx_rtc_source_lookup r (Ref n)) as [| a]; [| by exists (Ref a); eexists _, r].
  destruct alloc as [| a]; [by exists NULL; eexists _, r |].
  specialize (Hal a eq_refl). eexists _, _, _. split; [reflexivity |].
  pose proof (fresh_source_off r a Hr Hal) as Hoff.
  destruct (init_head_law _ _ Hoff) as (Q1 & Q2 & Q3).
  split; [| split; [done |]; exists (set_name n zero_source); cbn; by rewrite lookup_insert_eq].
  pose proof Hr as [H1 H2 H3 H4 H5 H6 H7 H8 H9].
  assert (Hat : forall b t, <[a := set_name n zero_source]> (sources r) !! b = Some t ->
    (b = a /\ name t = n) \/ (b <> a /\ sources r !! b = Some t)).
  { intros b t. destruct (decide (b = a)) as [-> |].
    - rewrite lookup_insert_eq. intros [= <-]. by left.
    - rewrite lookup_insert_ne by done. by right. }
  split; cbn; try done.
  - by apply init_head_ok.
  - intros k b. rewrite insert_law.
    2: { intros k0 (s & Hs & _)%H2. congruence. }
    rewrite H2. split.
    + intros [[-> ->] | (s & Hs & ->)].
      * exists (set_name n zero_source). by rewrite lookup_insert_eq.
      * exists s. by rewrite lookup_insert_ne by congruence.
    + intros (s & Hs & ->). destruct (decide (b = a)) as [-> |].
      * rewrite lookup_insert_eq in Hs. injection Hs as <-. by left.
      * rewrite lookup_insert_ne in Hs by done. right. by exists s.
  - unfold NGX_RTC_SOURCE_NAME_MAX. intros b t [[-> ->] | [_ Ht]]%Hat; [pose proof (zlen_nonneg n); lia |].
    by apply (H3 b).
  - intros b d t u [[-> E1] | [? Ht]]%Hat [[-> E2] | [? Hu]]%Hat Hnn; [done | | | by apply (H4 b d t u)].
    + destruct (Hl d u Hu). congruence.
    + destruct (Hl b t Ht). congruence.
  - intros x s Hs. rewrite Q3. by apply (H6 x).
  - intros x s b Hs Hb. destruct (H7 x s b Hs Hb) as [t Ht].
    exists t. rewrite lookup_insert_ne; [done | congruence].
  - intros x s Hs. rewrite Q3. by apply (H8 x).
  - intros m i. rewrite Q3. apply H9.
Qed.

(** No node moves. *)
Definition queues_for (r r' : registry) : Prop := forall n, q_link n (queues r') = q_link n (queues r).

(** Which of the two it was, as the caller is told. *)
Lemma source_create_spec alloc r n c :
  reg_ok r -> (forall a, alloc = Ref a -> sources r !! a = None) ->
  exists p v r', ngx_rtc_source_create alloc r (Ref n) (Ref c) = (p, Ref v, r') /\ reg_ok r' /\
    sessions r' = sessions r /\
    match p with
    | NULL => v = 0 /\ r' = r
    | Ref a => (v = 0 /\ r' = r /\ exists s, sources r !! a = Some s /\ name s = n) \/
        (v = 1 /\ sources r !! a = None /\ sources r' = <[a := set_name n zero_source]> (sources r))
    end.
Proof.
  intros Hr Hal. destruct (source_create_ok alloc r n (Ref c) Hr Hal) as (p & c' & r' & E & Hr' & Hse & _).
  revert E. unfold ngx_rtc_source_create.
  destruct (_ || _); [intros [= <- <- <-]; by eexists _, _, _ |].
  pose proof (source_lookup_spec r n Hr) as Hl.
  destruct (ngx_rtc_source_lookup r (Ref n)) as [| a].
  - destruct alloc as [| a]; intros [= <- <- <-]; [by eexists _, _, _ |].
    eexists _, _, _. split_and!; [done | done | done |]. right. split_and!; [done | by apply Hal | done].
  - intros [= <- <- <-]. eexists _, _, _. split_and!; [done | done | done |]. by left.
Qed.

(** The lookup that makes what it does not find. *)
Lemma source_get_spec alloc r n :
  reg_ok r -> (forall a, alloc = Ref a -> sources r !! a = None) ->
  exists p r', ngx_rtc_source_get alloc r (Ref n) = (p, r') /\ reg_ok r' /\ sessions r' = sessions r /\
    queues_for r r' /\
    match p with
    | NULL => r' = r
    | Ref a => is_Some (sources r' !! a) /\
        (r' = r \/ sources r !! a = None /\ sources r' = <[a := set_name n zero_source]> (sources r))
    end.
Proof.
  intros Hr Hal. destruct (source_create_spec alloc r n 0 Hr Hal) as (p & v & r' & E & Hr' & Hse & Hp).
  assert (Eg : ngx_rtc_source_get alloc r (Ref n) = (p, r')).
  { revert E. unfold ngx_rtc_source_get, ngx_rtc_source_create. destruct (_ || _); [by intros [= <- <- <-] |].
    destruct (ngx_rtc_source_lookup r (Ref n)); [destruct alloc |]; by intros [= <- <- <-]. }
  exists p, r'. split_and!; try done.
  - revert E. unfold ngx_rtc_source_create. destruct (_ || _); [by intros [= <- <- <-] |].
    destruct (ngx_rtc_source_lookup r (Ref n)); [| by intros [= <- <- <-]].
    destruct alloc as [| a]; [by intros [= <- <- <-] |]. intros [= <- <- <-] m. cbn.
    destruct (init_head_law (subscribers a) (queues r)) as (_ & _ & Hl); [by apply fresh_source_off, Hal | by rewrite Hl].
  - destruct p as [| a]; [by destruct Hp |]. destruct Hp as [(_ & -> & t & Ht & _) | (_ & Ha & E2)].
    + split; [by eexists | by left].
    + split; [rewrite E2, lookup_insert_eq; by eexists | by right].
Qed.

Lemma subscribe_ok r x s a :
  reg_ok r -> sessions r !! x = Some s -> is_Some (sources r !! a) ->
  (source s = Ref a \/ source s = NULL) -> q_link (sub_queue x) (queues r) = Self ->
  exists r', ngx_rtc_source_subscribe r (Ref a) (Ref x) = Ret r' /\ reg_ok r' /\
    sources r' = sources r /\ sessions r' = <[x := set_source (Ref a) s]> (sessions r) /\
    forall n, n <> sub_queue x -> q_link n (queues r') = q_link n (queues r).
Proof.
  intros Hr Hs [src Hsrc] Ha Hself. unfold ngx_rtc_source_subscribe, session_at, source_at.
  rewrite Hs, bind_Ret. cbn [sources put_session set_sessions]. rewrite Hsrc, bind_Ret.
  assert (Hoff : forall i, q_link (sub_queue x) (queues r) <> On i) by (intros i; by rewrite Hself).
  destruct (insert_head_law (subscribers a) _ _ Hoff) as (Q1 & Q2 & Q3 & Q4).
  eexists. split; [reflexivity |]. split; [| by split_and!].
  pose proof Hr as [H1 H2 H3 H4 H5 H6 H7 H8 H9].
  assert (Hat : forall y t, <[x := set_source (Ref a) s]> (sessions r) !! y = Some t ->
    (y = x /\ t = set_source (Ref a) s) \/ (y <> x /\ sessions r !! y = Some t)).
  { intros y t. destruct (decide (y = x)) as [-> |].
    - rewrite lookup_insert_eq. intros [= <-]. by left.
    - rewrite lookup_insert_ne by done. by right. }
  split; cbn; try done.
  - by apply insert_head_ok.
  - intros k y. rewrite H5. destruct (decide (y = x)) as [-> |].
    + rewrite lookup_insert_eq. split.
      * intros (t & Ht & ->). rewrite Hs in Ht. injection Ht as <-. by exists (set_source (Ref a) s).
      * intros (t & [= <-] & ->). by exists s.
    + by rewrite lookup_insert_ne by done.
  - intros y t [[-> ->] | [? Ht]]%Hat; rewrite Q4 by done; [exact (H6 x s Hs) | exact (H6 y t Ht)].
  - intros y t b [[-> ->] | [? Ht]]%Hat Hb; [| exact (H7 y t b Ht Hb)].
    injection Hb as <-. by exists src.
  - intros y t [[-> ->] | [? Ht]]%Hat; [right; by exists a |].
    rewrite Q4 by congruence. exact (H8 y t Ht).
  - intros m i Hm. destruct (decide (m = sub_queue x)) as [-> | Hne].
    + rewrite Q2 in Hm. injection Hm as <-. exists (set_source (Ref a) s). cbn.
      rewrite lookup_insert_eq. split; [done | by exists a].
    + rewrite Q4 in Hm by done. destruct (H9 m i Hm) as (t & Ht & Hi). unfold on_ok. cbn.
      destruct (decide (session_of m = x)) as [Hmx |].
      * exists (set_source (Ref a) s). rewrite Hmx, lookup_insert_eq. split; [done |].
        destruct m as [y | y]; [done |]. cbn in Hmx. congruence.
      * exists t. by rewrite lookup_insert_ne.
Qed.

Lemma session_open_ok r x s :
  reg_ok r -> sessions r !! x = None -> 0 < zlen (ice_ufrag s) ->
  (forall a, source s = Ref a -> is_Some (sources r !! a)) ->
  exists r', session_open x s r = Ret r' /\ reg_ok r' /\ sources r' = sources r /\
    sessions r' = <[x := set_sn_str_len (zlen (ice_ufrag s)) s]> (sessions r) /\
    q_link (sub_queue x) (queues r') = Self /\
    forall n, session_of n <> x -> q_link n (queues r') = q_link n (queues r).
Proof.
  intros Hr Hx Hu Hsrc. unfold session_open, ngx_rtc_session_add, session_at. cbv zeta.
  set (q0 := queues r |> ngx_queue_zero (queue x) |> ngx_queue_zero (sub_queue x)
               |> ngx_queue_init (queue x) |> ngx_queue_init (sub_queue x)).
  destruct (fresh_session_off r x Hr Hx) as [Hoq Hos]. pose proof (ok_queues r Hr) as Hq.
  assert (Hq0 : q_ok q0 /\ q_link (queue x) q0 = Self /\ q_link (sub_queue x) q0 = Self /\
    forall y, y <> queue x -> y <> sub_queue x -> q_link y q0 = q_link y (queues r)).
  { destruct (zero_law _ _ Hoq) as (A1 & A2 & A3). pose proof (zero_ok _ _ Hq Hoq) as A0.
    set (qa := ngx_queue_zero (queue x) (queues r)) in *.
    assert (Hb : forall i, q_link (sub_queue x) qa <> On i) by (intros i; rewrite A2 by done; apply Hos).
    destruct (zero_law _ _ Hb) as (B1 & B2 & B3). pose proof (zero_ok _ _ A0 Hb) as B0.
    set (qb := ngx_queue_zero (sub_queue x) qa) in *.
    assert (Hc : forall i, q_link (queue x) qb <> On i) by (intros i; by rewrite B2, A1 by done).
    destruct (init_law _ _ Hc) as (C1 & C2 & C3). pose proof (init_ok _ _ B0 Hc) as C0.
    set (qc := ngx_queue_init (queue x) qb) in *.
    assert (Hd : forall i, q_link (sub_queue x) qc <> On i) by (intros i; by rewrite C2, B1 by done).
    destruct (init_law _ _ Hd) as (D1 & D2 & D3). pose proof (init_ok _ _ C0 Hd) as D0.
    change (ngx_queue_init (sub_queue x) qc) with q0 in D0, D1, D2, D3.
    split_and!; [done | by rewrite D2, C1 by done | done |].
    intros y Hy1 Hy2. by rewrite D2, C2, B2, A2 by done. }
  destruct Hq0 as (Hq0 & Hself & Hsub & Hother).
  cbn [sessions put_session set_sessions]. rewrite lookup_insert_eq, bind_Ret.
  destruct (Z.eqb_spec (zlen (ice_ufrag s)) 0); [lia |].
  eexists. split; [reflexivity |].
  assert (Hoff : forall i, q_link (queue x) q0 <> On i) by (intros i; by rewrite Hself).
  destruct (insert_head_law ngx_rtc_sessions _ _ Hoff) as (Q1 & Q2 & Q3 & Q4).
  pose proof Hr as [H1 H2 H3 H4 H5 H6 H7 H8 H9].
  set (s' := set_sn_str_len _ _).
  assert (Hins : <[x := s']> (<[x := s]> (sessions r)) = <[x := s']> (sessions r)) by apply insert_insert_eq.
  assert (Hat : forall y t, <[x := s']> (<[x := s]> (sessions r)) !! y = Some t ->
    (y = x /\ t = s') \/ (y <> x /\ sessions r !! y = Some t)).
  { intros y t. destruct (decide (y = x)) as [-> |].
    - rewrite lookup_insert_eq. intros [= <-]. by left.
    - rewrite !lookup_insert_ne by done. by right. }
  split; [| split; [done | split; [exact Hins | split; [cbn; by rewrite Q4 |]]]].
  2: { intros m Hm. cbn. rewrite Q4, Hother; [done | intros ->; by apply Hm..]. }
  split; cbn; try done.
  - by apply insert_head_ok.
  - intros k y. rewrite insert_law.
    2: { intros k0 (t & Ht & _)%H5. congruence. }
    rewrite H5. split.
    + intros [[-> ->] | (t & Ht & ->)].
      * exists s'. by rewrite lookup_insert_eq.
      * exists t. by rewrite !lookup_insert_ne by congruence.
    + intros (t & [[-> ->] | [? Ht]]%Hat & ->); [by left | right; by exists t].
  - intros y t [[-> ->] | [? Ht]]%Hat; [by split |].
    rewrite Q4, Hother by congruence. exact (H6 y t Ht).
  - intros y t b [[-> ->] | [? Ht]]%Hat Hb; [by apply Hsrc | exact (H7 y t b Ht Hb)].
  - intros y t [[-> ->] | [? Ht]]%Hat; [left; by rewrite Q4 |].
    rewrite Q4, Hother by congruence. exact (H8 y t Ht).
  - intros m i Hm. destruct (decide (m = queue x)) as [-> | Hne].
    { rewrite Q2 in Hm. injection Hm as <-. exists s'. cbn. by rewrite lookup_insert_eq. }
    rewrite Q4 in Hm by done. destruct (decide (m = sub_queue x)) as [-> | Hne2]; [congruence |].
    rewrite Hother in Hm by done. destruct (H9 m i Hm) as (t & Ht & Hi). exists t. split; [| done].
    cbn. rewrite !lookup_insert_ne; [done | |]; intros ->; congruence.
Qed.

(** The source once a closing session has given up the publish right it may hold. *)
Definition released (src : ngx_rtc_source_t) : ngx_rtc_source_t :=
  if publisher_kind src =? NGX_RTC_PUBLISHER_WHIP
  then src |> set_publisher_kind NGX_RTC_PUBLISHER_NONE |> set_publishing 0 else src.

(** A session other than [x] points at [a]. *)
Definition held_by_other (r : registry) (x a : Z) : Prop :=
  exists y s, y <> x /\ sessions r !! y = Some s /\ source s = Ref a.

Definition unused_without (r : registry) (x a : Z) (src : ngx_rtc_source_t) : Prop :=
  publishing src = 0 /\ audio_ctx src = NULL /\ ~ held_by_other r x a.

Lemma release_close r a src :
  reg_ok r -> sources r !! a = Some src ->
  (if publisher_kind src =? NGX_RTC_PUBLISHER_WHIP then release_mirror r (Ref a) else Ret r)
  = Ret (put_source a (released src) r) /\ reg_ok (put_source a (released src) r).
Proof.
  intros Hr Hsrc. split.
  - unfold released. destruct (Z.eqb_spec (publisher_kind src) NGX_RTC_PUBLISHER_WHIP) as [Hk |].
    + unfold release_mirror, source_at. by rewrite Hsrc, bind_Ret, Hk.
    + unfold put_source. rewrite insert_id by done. by destruct r.
  - apply (put_source_ok r a src); [done.. |]. unfold released. by destruct (_ =? _).
Qed.

Lemma unused_detached r x s a q src src' :
  sessions r !! x = Some s ->
  unused (put_source a src r |> set_queues q |> put_session x (set_source NULL s)) a src'
  <-> unused_without r x a src'.
Proof.
  intros Hs. unfold unused, unused_without.
  assert (Hh : held_by (put_source a src r |> set_queues q |> put_session x (set_source NULL s)) a
    <-> held_by_other r x a); [| by rewrite Hh].
  unfold held_by, held_by_other. cbn. split.
  - intros (y & t & Ht & Ha). exists y, t. destruct (decide (y = x)) as [-> |].
    + rewrite lookup_insert_eq in Ht. by injection Ht as <-.
    + by rewrite lookup_insert_ne in Ht.
  - intros (y & t & Hy & Ht & Ha). exists y, t. by rewrite lookup_insert_ne.
Qed.

(** Dropping a session: it goes, nothing else does but perhaps its source. *)
Lemma session_drop_spec r x s :
  reg_ok r -> sessions r !! x = Some s ->
  exists r', session_drop r x = Ret r' /\ reg_ok r' /\ sessions r' = delete x (sessions r) /\
    q_list ngx_rtc_sessions (queues r') = filter (fun n => n <> queue x) (q_list ngx_rtc_sessions (queues r)) /\
    (forall n, session_of n <> x -> q_link n (queues r') = q_link n (queues r)) /\
    match source s with
    | NULL => sources r' = sources r
    | Ref a => forall src, sources r !! a = Some src ->
        (unused_without r x a src /\ sources r' = delete a (sources r)) \/
        (~ unused_without r x a src /\ sources r' = sources r)
    end.
Proof.
  intros Hr Hs. unfold session_drop, session_at. rewrite Hs, bind_Ret.
  assert (Hfree : forall r1 s1, reg_ok r1 -> sessions r1 !! x = Some s1 ->
    q_link (sub_queue x) (queues r1) = Self ->
    (forall y, y <> x -> sessions r1 !! y = sessions r !! y) ->
    q_list ngx_rtc_sessions (queues r1) = q_list ngx_rtc_sessions (queues r) ->
    (forall n, session_of n <> x -> q_link n (queues r1) = q_link n (queues r)) ->
    exists r', (r' ← ngx_rtc_session_remove r1 (Ref x);
                Ret (set_sessions (delete x (sessions r')) r')) = Ret r' /\ reg_ok r' /\
      sessions r' = delete x (sessions r) /\
      q_list ngx_rtc_sessions (queues r') = filter (fun n => n <> queue x) (q_list ngx_rtc_sessions (queues r)) /\
      (forall n, session_of n <> x -> q_link n (queues r') = q_link n (queues r)) /\ sources r' = sources r1).
  { intros r1 s1 Hr1 Hs1 Hself Hsame Hls Hlk.
    destruct (session_free_ok r1 x s1 Hr1 Hs1 Hself) as (r2 & -> & Hr2 & Hso & Hse & Hl & Hn).
    rewrite bind_Ret. eexists. split; [reflexivity |]. split_and!; [done | | | |done].
    - cbn. apply map_eq. intros y. rewrite !lookup_delete. destruct (decide (x = y)); [done |]. by rewrite Hse, Hsame.
    - cbn. by rewrite Hl, Hls.
    - intros n Hne. cbn. rewrite Hn, Hlk; [done | done |]. by intros ->. }
  destruct (source s) as [| a] eqn:Ea; cbn [is_null].
  { rewrite bind_Ret. destruct (Hfree r s) as (r' & E & Hr' & H1); try done; [| by exists r'].
    destruct (ok_sub r Hr x s Hs) as [? | (b & ? & _)]; congruence. }
  destruct (ok_source r Hr x s a Hs Ea) as [src Hsrc].
  destruct (unsubscribe_spec r a x s src Hr Hs Ea Hsrc) as (r2 & q & -> & Hr2 & Hr3 & Hls & Hself & Hlk & Hc).
  rewrite bind_Ret. assert (Hd : r |> set_queues q = put_source a src r |> set_queues q).
  { unfold put_source. rewrite insert_id by done. by destruct r. }
  rewrite Hd, (unused_detached r x s a q _ _ Hs), <- Hd in Hc.
  assert (Hlk' : forall n, session_of n <> x -> q_link n q = q_link n (queues r)) by (intros n Hn; apply Hlk; by intros ->).
  destruct (Hfree r2 (set_source NULL s)) as (r' & E & Hr' & H1 & H2 & H3 & H4); [done | ..].
  - destruct Hc as [[-> _] | [-> _]]; cbn; by rewrite lookup_insert_eq.
  - destruct Hc as [[-> _] | [-> _]]; exact Hself.
  - intros y Hy. destruct Hc as [[-> _] | [-> _]]; cbn; by rewrite lookup_insert_ne.
  - destruct Hc as [[-> _] | [-> _]]; exact Hls.
  - destruct Hc as [[-> _] | [-> _]]; exact Hlk'.
  - exists r'. do 5 (split; [done |]). intros src' Hsrc'. assert (src' = src) as -> by congruence. rewrite H4.
    destruct Hc as [[-> Hu] | [-> Hu]]; [left | right]; by split.
Qed.

(** Closing a session that is alive: the publish right it may hold goes first. *)
Lemma session_close_spec r x s :
  reg_ok r -> sessions r !! x = Some s ->
  exists r', session_close r x = Ret r' /\ reg_ok r' /\ sessions r' !! x = None /\
    (forall y, y <> x -> sessions r' !! y = sessions r !! y) /\
    q_list ngx_rtc_sessions (queues r')
    = filter (fun n => n <> queue x) (q_list ngx_rtc_sessions (queues r)) /\
    forall a src, source s = Ref a -> sources r !! a = Some src ->
      (unused_without r x a (released src) /\
         sources r' = delete a (<[a := released src]> (sources r))) \/
      (~ unused_without r x a (released src) /\ sources r' = <[a := released src]> (sources r)).
Proof.
  intros Hr Hs. unfold session_close, session_at. rewrite Hs, bind_Ret.
  assert (Hd : forall r', sessions r' = delete x (sessions r) ->
    sessions r' !! x = None /\ forall y, y <> x -> sessions r' !! y = sessions r !! y).
  { intros r' ->. split; [by rewrite lookup_delete_eq |]. intros y Hy. by rewrite lookup_delete_ne. }
  destruct (source s) as [| a] eqn:Ea.
  { rewrite bind_Ret. destruct (session_drop_spec r x s Hr Hs) as (r' & E & Hr' & [H1 H2]%Hd & H3 & _). by exists r'. }
  destruct (ok_source r Hr x s a Hs Ea) as [src Hsrc]. unfold source_at.
  rewrite Hsrc, bind_Ret. destruct (release_close r a src Hr Hsrc) as [-> Hr1].
  rewrite bind_Ret. set (r1 := put_source a (released src) r) in *.
  destruct (session_drop_spec r1 x s Hr1 Hs) as (r' & E & Hr' & [H1 H2]%Hd & H3 & _ & H4).
  exists r'. do 5 (split; [done |]). intros b src' [= <-] Hsrc'. assert (src' = src) as -> by congruence.
  rewrite Ea in H4. apply H4. unfold r1. cbn. by rewrite lookup_insert_eq.
Qed.

(** The walk visits every session once, though it frees some on the way. *)
Lemma close_loop_spec chosen post : forall pre fuel r,
  reg_ok r -> q_list ngx_rtc_sessions (queues r) = pre ++ post -> (length post <= fuel)%nat ->
  exists r', close_loop fuel chosen r (node_ptr post) = Ret r' /\ reg_ok r' /\
    (forall x s, sessions r' !! x = Some s <->
       sessions r !! x = Some s /\ (queue x ∈ post -> chosen x = false)).
Proof.
  induction post as [| n post IH]; intros pre fuel r Hr Hl Hf; cbn [length] in Hf.
  { exists r. split_and!; [by destruct fuel | done |]. intros x s. split; [| by intros [? _]].
    intros Hs. split; [done |]. by intros ?%elem_of_nil. }
  destruct (listed r n Hr) as (x & s & -> & Hs).
  { rewrite Hl. apply elem_of_app. right. by left. }
  destruct fuel as [| fuel]; [lia |]. cbn [close_loop node_ptr session_of].
  rewrite (session_next_mid r pre x post Hr Hl), bind_Ret. unfold session_at.
  rewrite Hs, bind_Ret.
  pose proof (q_nodup _ (ok_queues r Hr) ngx_rtc_sessions) as Hnd. rewrite Hl in Hnd.
  apply NoDup_app in Hnd as (_ & Hnp & [Hnx Hnd]%NoDup_cons).
  destruct (chosen x) eqn:Hi.
  - destruct (session_close_spec r x s Hr Hs) as (r1 & -> & Hr1 & Hx1 & Hy1 & Hl1 & _).
    rewrite bind_Ret.
    assert (Hl1' : q_list ngx_rtc_sessions (queues r1) = filter (fun n => n <> queue x) pre ++ post).
    { rewrite Hl1, Hl, filter_app, filter_cons_False by (intros H; by apply H). f_equal.
      apply filter_all. intros m Hm ->. exact (Hnx Hm). }
    destruct (IH _ fuel r1 Hr1 Hl1') as (r' & E & Hr' & Hs'); [lia |].
    exists r'. split_and!; [done | done |]. intros y t. rewrite Hs'.
    destruct (decide (y = x)) as [-> |].
    + rewrite Hx1. split; [by intros [? _] |]. intros [_ H]. rewrite Hi in H.
      exfalso. discriminate (H ltac:(by left)).
    + rewrite Hy1 by done. split; intros [? H]; (split; [done |]).
      * intros [? | ?]%elem_of_cons; [congruence | by apply H].
      * intros ?. apply H. by right.
  - rewrite bind_Ret. destruct (IH (pre ++ [queue x]) fuel r Hr) as (r' & E & Hr' & Hs');
      [by rewrite <- app_assoc | lia |].
    exists r'. split_and!; [done | done |]. intros y t. rewrite Hs'.
    split; intros [? H]; (split; [done |]).
    + intros [[= ->] | ?]%elem_of_cons; [done | by apply H].
    + intros ?. apply H. by right.
Qed.

Lemma close_chosen_spec chosen r :
  reg_ok r ->
  exists r', close_chosen chosen r = Ret r' /\ reg_ok r' /\
    (forall x s, sessions r' !! x = Some s <-> sessions r !! x = Some s /\ chosen x = false).
Proof.
  intros Hr. destruct (close_loop_spec chosen (q_list ngx_rtc_sessions (queues r)) []
    (scan_fuel r) r Hr eq_refl (le_n _)) as (r' & E & Hr' & Hs).
  exists r'. split_and!; [done | done |]. intros x s. rewrite Hs. split; intros [? H]; (split; [done |]).
  - apply H, (q_iff _ (ok_queues r Hr)). by eapply ok_sess.
  - auto.
Qed.

Lemma rtmp_teardown_ok r n :
  reg_ok r -> exists r', rtmp_teardown r n = Ret r' /\ reg_ok r' /\ sessions r' = sessions r.
Proof.
  intros Hr. unfold rtmp_teardown, ngx_rtc_source_find.
  pose proof (source_lookup_spec r n Hr) as Hl.
  destruct (ngx_rtc_source_lookup r (Ref n)) as [| a]; [by exists r |].
  destruct Hl as (s & Hs & Hn). unfold source_at. rewrite Hs, bind_Ret. cbv zeta.
  set (s1 := if is_null (audio_ctx s) then s else set_audio_ctx NULL s).
  assert (Hn1 : name s1 = name s) by (unfold s1; by destruct (is_null _)).
  pose proof (put_source_ok r a s s1 Hr Hs Hn1) as Hr1. set (r1 := put_source a s1 r) in *.
  assert (Hs1 : sources r1 !! a = Some s1) by (cbn; by rewrite lookup_insert_eq).
  destruct (negb _); [by exists r1 |].
  destruct (release_mirror_ok r1 a s1 Hr1 Hs1) as (s2 & -> & Hn2 & Hr2). rewrite bind_Ret.
  destruct (source_remove_spec (put_source a s2 r1) n Hr2) as (r' & -> & Hr' & Hc).
  exists r'. split_and!; [done | done |]. by destruct Hc as [[-> _] | (b & t & _ & _ & _ & ->)].
Qed.

(** ** Runs *)

Inductive op :=
| Create (alloc : ptr Z) (nm : octets)
| Open (alloc : ptr Z) (nm : octets) (x : Z) (ufrag : octets) (pub : Z)
| Claim (nm : octets) (kind : Z)
| Subscribe (x : Z)
| Close (x : Z)
| CloseChosen (chosen : Z -> bool)
| Teardown (nm : octets)
| Remove (nm : octets).

Definition step (r : registry) (o : op) : outcome registry :=
  match o with
  | Create alloc n => Ret (ngx_rtc_source_get alloc r (Ref n)).2
  | Open alloc n x u pub =>
      let '(src, r) := ngx_rtc_source_get alloc r (Ref n) in session_open x (new_session src pub u) r
  | Claim n kind => ngx_rtc_publish_mirror r (ngx_rtc_source_find r (Ref n)) kind
  | Subscribe x =>
      s ← session_at r x;
      if negb (is_null (source s)) && (sess_publishing s =? 0)
      then ngx_rtc_source_subscribe r (source s) (Ref x) else Ret r
  | Close x => session_close r x
  | CloseChosen chosen => close_chosen chosen r
  | Teardown n => rtmp_teardown r n
  | Remove n => ngx_rtc_source_remove r (Ref n)
  end.

(** The allocator hands out free addresses, ufrags are not empty, and a connection only
    names the session it belongs to, subscribed at most once. *)
Definition op_ok (r : registry) (o : op) : Prop :=
  match o with
  | Create alloc _ => forall a, alloc = Ref a -> sources r !! a = None
  | Open alloc _ x u _ =>
      (forall a, alloc = Ref a -> sources r !! a = None) /\ sessions r !! x = None /\ 0 < zlen u
  | Subscribe x =>
      is_Some (sessions r !! x) /\ q_link (sub_queue x) (queues r) = Self
  | Close x => is_Some (sessions r !! x)
  | Claim _ _ | CloseChosen _ | Teardown _ | Remove _ => True
  end.

Fixpoint run (r : registry) (l : list op) : outcome registry :=
  match l with [] => Ret r | o :: l => r ← step r o; run r l end.

Fixpoint run_ok (r : registry) (l : list op) : Prop :=
  match l with
  | [] => True
  | o :: l => op_ok r o /\ match step r o with Ret r => run_ok r l | Fault => True end
  end.

Lemma step_ok r o : reg_ok r -> op_ok r o -> exists r', step r o = Ret r' /\ reg_ok r'.
Proof.
  intros Hr Ho. destruct o as [alloc n | alloc n x u pub | n kind | x | x | chosen | n | n]; cbn [step op_ok] in *.
  - unfold ngx_rtc_source_get.
    destruct (source_create_ok alloc r n NULL Hr Ho) as (p & c & r' & -> & Hr' & _). by exists r'.
  - destruct Ho as (Ha & Hx & Hu). unfold ngx_rtc_source_get.
    destruct (source_create_ok alloc r n NULL Hr Ha) as (p & c & r' & -> & Hr' & Hse & Hp).
    destruct (session_open_ok r' x (new_session p pub u)) as (r2 & E & Hr2 & _); [done | by rewrite Hse | done | | by exists r2].
    cbn. intros a ->. destruct Hp as (s & Hs & _). by exists s.
  - pose proof (source_lookup_spec r n Hr) as Hl. unfold ngx_rtc_source_find.
    destruct (ngx_rtc_source_lookup r (Ref n)) as [| a]; [by exists r |].
    destruct Hl as (s & Hs & _). unfold ngx_rtc_publish_mirror, source_at. rewrite Hs, bind_Ret.
    eexists. split; [reflexivity |]. by eapply put_source_ok.
  - destruct Ho as [[s Hs] Hself]. unfold session_at. rewrite Hs, bind_Ret.
    destruct (source s) as [| a] eqn:Ea; cbn [is_null negb andb]; [by exists r |].
    destruct (sess_publishing s =? 0); [| by exists r].
    destruct (subscribe_ok r x s a Hr Hs) as (r' & E & Hr' & _); [by eapply ok_source | by left | done |].
    by exists r'.
  - destruct Ho as [s Hs]. destruct (session_close_spec r x s Hr Hs) as (r' & E & Hr' & _).
    by exists r'.
  - destruct (close_chosen_spec chosen r Hr) as (r' & E & Hr' & _). by exists r'.
  - destruct (rtmp_teardown_ok r n Hr) as (r' & E & Hr' & _). by exists r'.
  - destruct (source_remove_spec r n Hr) as (r' & E & Hr' & _). by exists r'.
Qed.

Lemma registry_run_spec l : forall r,
  reg_ok r -> run_ok r l -> exists r', run r l = Ret r' /\ reg_ok r'.
Proof.
  induction l as [| o l IH]; intros r Hr Hl; [by exists r |]. destruct Hl as [Ho Hl]. cbn [run].
  destruct (step_ok r o Hr Ho) as (r1 & E & Hr1). rewrite E in Hl |- *. rewrite bind_Ret.
  by apply IH.
Qed.

(** The registries at start: no source, no session, the global list initialised. *)
Definition start_registry (q : Q) : registry :=
  {| sources := ∅; sessions := ∅; queues := q; ngx_rtc_source_tree := t_empty;
     ngx_rtc_session_tree := t_empty |}.

Lemma start_ok q : q_ok q -> (forall n i, q_link n q <> On i) -> reg_ok (start_registry q).
Proof.
  intros Hq Hn. split; cbn; try done.
  - intros k a. split; [by intros ?%empty_law | by intros (s & ? & _)].
  - intros k a. split; [by intros ?%empty_law | by intros (s & ? & _)].
  - intros n i H. by destruct (Hn n i).
Qed.

(** C16: over any interleaving of source creation, session creation, publish and teardown,
    subscription, single closes and walks that close any choice of sessions, no access goes
    through freed memory and no queue link is removed twice; afterwards every session that
    points at a source points at a live one, which lookup by its name finds. *)
Theorem registry_no_dangling q l :
  q_ok q -> (forall n i, q_link n q <> On i) -> run_ok (start_registry q) l ->
  exists r, run (start_registry q) l = Ret r /\
    forall x s a, sessions r !! x = Some s -> source s = Ref a ->
      exists src, sources r !! a = Some src /\
        ngx_rtc_source_find r (Ref (name src)) = Ref a.
Proof.
  intros Hq Hn Hl. destruct (registry_run_spec l _ (start_ok q Hq Hn) Hl) as (r & E & Hr).
  exists r. split; [done |]. intros x s a Hs Ha.
  destruct (ok_source r Hr x s a Hs Ha) as [src Hsrc]. exists src. split; [done |].
  by apply source_lookup_found.
Qed.

(** Closing a session frees its source exactly when it was the last user: no other
    session points at the source, no transcoder is attached and no publish is on, the
    WHIP publish the close itself ends counting as off; any other source stays. *)
Theorem close_frees_last_used q l r x s a src :
  q_ok q -> (forall n i, q_link n q <> On i) -> run_ok (start_registry q) l ->
  run (start_registry q) l = Ret r ->
  sessions r !! x = Some s -> source s = Ref a -> sources r !! a = Some src ->
  exists r', session_close r x = Ret r' /\
    (sources r' !! a = None <->
       (publishing src = 0 \/ publisher_kind src = NGX_RTC_PUBLISHER_WHIP) /\
       audio_ctx src = NULL /\ ~ held_by_other r x a) /\
    (forall b, b <> a -> sources r' !! b = sources r !! b).
Proof.
  intros Hq Hn Hl Hrun Hs Ha Hsrc. destruct (registry_run_spec l _ (start_ok q Hq Hn) Hl) as (r1 & E & Hr).
  assert (r1 = r) as -> by congruence.
  destruct (session_close_spec r x s Hr Hs) as (r' & E' & _ & _ & _ & _ & Hc).
  assert (Hrel : (publishing (released src) = 0 <->
      publishing src = 0 \/ publisher_kind src = NGX_RTC_PUBLISHER_WHIP) /\
      audio_ctx (released src) = audio_ctx src).
  { unfold released. destruct (Z.eqb_spec (publisher_kind src) NGX_RTC_PUBLISHER_WHIP); cbn; tauto. }
  destruct Hrel as [Hp Hau].
  exists r'. split; [done |]. destruct (Hc a src Ha Hsrc) as [[Hu ->] | [Hu ->]];
    unfold unused_without in Hu; rewrite Hp, Hau in Hu.
  - split; [by rewrite lookup_delete_eq |]. intros b Hb.
    by rewrite lookup_delete_ne, lookup_insert_ne by done.
  - split; [by rewrite lookup_insert_eq |]. intros b Hb. by rewrite lookup_insert_ne by done.
Qed.

(** A viewer that leaves ends the WHIP publish it was watching: the close tests the
    source's ownership tag and not whether the closing session is the publisher, so in a
    worker that holds both, the publisher is still connected and still points at the
    source, but the source is marked as not publishing and owned by nobody. *)
Theorem viewer_close_ends_publish q l r x s y t a src :
  q_ok q -> (forall n i, q_link n q <> On i) -> run_ok (start_registry q) l ->
  run (start_registry q) l = Ret r ->
  sessions r !! x = Some s -> source s = Ref a -> sess_publishing s = 0 ->
  sessions r !! y = Some t -> source t = Ref a -> y <> x -> sess_publishing t = 1 ->
  sources r !! a = Some src -> publisher_kind src = NGX_RTC_PUBLISHER_WHIP ->
  exists r' src', session_close r x = Ret r' /\ sessions r' !! y = Some t /\
    sources r' !! a = Some src' /\ publishing src' = 0 /\
    publisher_kind src' = NGX_RTC_PUBLISHER_NONE.
Proof.
  intros Hq Hn Hl Hrun Hs Ha _ Ht Hta Hy _ Hsrc Hk.
  destruct (registry_run_spec l _ (start_ok q Hq Hn) Hl) as (r1 & E & Hr).
  assert (r1 = r) as -> by congruence.
  destruct (session_close_spec r x s Hr Hs) as (r' & E' & _ & _ & Hse & _ & Hc).
  exists r', (released src). split; [done |]. split; [by rewrite Hse |].
  assert (Hrel : released src = src |> set_publisher_kind NGX_RTC_PUBLISHER_NONE |> set_publishing 0)
    by (unfold released; by rewrite Hk).
  destruct (Hc a src Ha Hsrc) as [[(_ & _ & Hh) _] | [_ ->]].
  - destruct Hh. by exists y, t.
  - by rewrite lookup_insert_eq, Hrel.
Qed.
End registry.

(** ** A run: a WHIP publisher and a viewer on one source *)
Definition demo_queues : Nginx.queues queue_id node :=
  {| lists := fun _ => []; links := fun _ => Zeroed |}.

Lemma demo_queues_ok : q_ok demo_queues.
Proof. split; [intros x i; split; [done | by intros ?%elem_of_nil] | intros i; constructor]. Qed.

Lemma demo_queues_off n i : q_link n demo_queues <> On i.
Proof. done. Qed.

Definition demo_name : octets := [97; 47; 98].

Definition demo_ops : list op :=
  [Open (Ref 1) demo_name 11 [117] 1; Claim demo_name NGX_RTC_PUBLISHER_WHIP;
   Open NULL demo_name 12 [118] 0; Subscribe 12].

Definition demo_start : registry := start_registry (Srtp := unit) (T := list (key * Z)) demo_queues.

Lemma demo_ops_ok : run_ok tt zlen demo_start demo_ops.
Proof.
  vm_compute. split; [split; [by intros a [= <-] | by split] |]. split; [done |].
  split; [split; [done | by split] |]. split; [| done]. split; [by eexists | done].
Qed.

Definition demo_registry : registry :=
  match run tt zlen demo_start demo_ops with Ret r => r | Fault => demo_start end.

Lemma registry_no_dangling_witness :
  exists r, run tt zlen demo_start demo_ops = Ret r /\
    forall x s a, sessions r !! x = Some s -> source s = Ref a ->
      exists src, sources r !! a = Some src /\
        ngx_rtc_source_find zlen r (Ref (name src)) = Ref a.
Proof.
  apply (registry_no_dangling tt zlen demo_queues demo_ops).
  - exact demo_queues_ok.
  - exact demo_queues_off.
  - exact demo_ops_ok.
Defined.

Definition at_demo {A} (d : A) (m : gmap Z A) (x : Z) : A :=
  match m !! x with Some s => s | None => d end.

Definition demo_session (x : Z) : ngx_rtc_session_t unit :=
  at_demo (zero_session tt) (sessions demo_registry) x.

Definition demo_src : ngx_rtc_source_t := at_demo zero_source (sources demo_registry) 1.

Lemma close_frees_last_used_witness :
  exists r', session_close zlen demo_registry 12 = Ret r' /\
    (sources r' !! 1 = None <->
       (publishing demo_src = 0 \/ publisher_kind demo_src = NGX_RTC_PUBLISHER_WHIP) /\
       audio_ctx demo_src = NULL /\ ~ held_by_other demo_registry 12 1) /\
    (forall b, b <> 1 -> sources r' !! b = sources demo_registry !! b).
Proof.
  apply (close_frees_last_used tt zlen demo_queues demo_ops demo_registry 12 (demo_session 12) 1 demo_src).
  - exact demo_queues_ok.
  - exact demo_queues_off.
  - exact demo_ops_ok.
  - vm_compute. reflexivity.
  - vm_compute. reflexivity.
  - vm_compute. reflexivity.
  - vm_compute. reflexivity.
Defined.

Lemma viewer_close_ends_publish_witness :
  exists r' src', session_close zlen demo_registry 12 = Ret r' /\
    sessions r' !! 11 = Some (demo_session 11) /\
    sources r' !! 1 = Some src' /\ publishing src' = 0 /\
    publisher_kind src' = NGX_RTC_PUBLISHER_NONE.
Proof.
  apply (viewer_close_ends_publish tt zlen demo_queues demo_ops demo_registry
           12 (demo_session 12) 11 (demo_session 11) 1 demo_src).
  - exact demo_queues_ok.
  - exact demo_queues_off.
  - exact demo_ops_ok.
  - vm_compute. reflexivity.
  - vm_compute. reflexivity.
  - vm_compute. reflexivity.
  - vm_compute. reflexivity.
  - vm_compute. reflexivity.
  - vm_compute. reflexivity.
  - lia.
  - vm_compute. reflexivity.
  - vm_compute. reflexivity.
  - vm_compute. reflexivity.
Defined.
End Registry.
