(* ===== verification/ShmRing.v ===== *)
(** The per-worker media ring of src/ngx_rtc_shm.c: a worker that packetises media
    enqueues a plaintext RTP packet with the ids of the sessions it is for, the worker
    that owns those sessions dequeues it.  Each ring has a lock of its own, held for the
    whole of enqueue and of dequeue, so those are the atomic steps; [full] and [empty] read
    the two counters without it.

    The theorem: from [ngx_rtc_shm_ring_init] on, any sequence of calls behaves as a
    bounded FIFO of packets, whatever the 64-bit counters wrap to. *)

From S2P Require Import Prelude Window.

Module ShmRing.

Definition NGX_RTC_RING_MAX_SESSIONS : Z := 64.
Definition NGX_RTC_RING_RTP_MAX : Z := 1500.
Definition NGX_OK : Z := 0.
Definition NGX_ERROR : Z := -1.

Record ngx_rtc_ring_entry_t := {
  seq : Z;
  media : Z;
  gop : Z;
  len : Z;
  nsess : Z;
  sess : list Z;
  rtp : octets
}.

(** The lock is not data: [mtx] and [mtx_sh] only take room, see [entries_off]. *)
Record ngx_rtc_shm_ring_t := {
  head : Z;
  tail : Z;
  size : Z;
  mask : Z;
  entries : list ngx_rtc_ring_entry_t
}.

Definition eta (r : ngx_rtc_shm_ring_t) : ngx_rtc_shm_ring_t :=
  {| head := head r; tail := tail r; size := size r; mask := mask r; entries := entries r |}.
Definition set_head := ltac:(setter eta head).
Definition set_tail := ltac:(setter eta tail).
Definition set_entries := ltac:(setter eta entries).

Definition ngx_rtc_shm_ring_next_pow2 (v : Z) : Z :=
  let v := u64 (v - 1) in
  let v := Z.lor v (Z.shiftr v 1) in
  let v := Z.lor v (Z.shiftr v 2) in
  let v := Z.lor v (Z.shiftr v 4) in
  let v := Z.lor v (Z.shiftr v 8) in
  let v := Z.lor v (Z.shiftr v 16) in
  let v := Z.lor v (Z.shiftr v 32) in
  u64 (v + 1).

Definition zero_entry : ngx_rtc_ring_entry_t :=
  {| seq := 0; media := 0; gop := 0; len := 0; nsess := 0;
     sess := zeros NGX_RTC_RING_MAX_SESSIONS; rtp := zeros NGX_RTC_RING_RTP_MAX |}.

(** [sizeof (ngx_rtc_ring_entry_t)]: five words, 64 words and 1500 octets, padded to a
    multiple of 8. *)
Definition entry_size : Z := 2056.

(** [offsetof (ngx_rtc_shm_ring_t, entries)] depends on the size of nginx's lock. *)
Section init.
Context (entries_off : Z).

(** A pool is what its allocator answers to a size; memory that was granted holds as many
    entries as fit. *)
Definition ngx_rtc_shm_ring_init (pool : ptr (Z -> bool)) (slots : Z) : ptr ngx_rtc_shm_ring_t :=
  match pool with
  | NULL => NULL
  | Ref alloc =>
      if slots =? 0 then NULL
      else
        let cap := ngx_rtc_shm_ring_next_pow2 slots in
        let sz := u64 (entries_off + u64 (cap * entry_size)) in
        if alloc sz then
          Ref {| head := 0; tail := 0; size := cap; mask := u64 (cap - 1);
                 entries := replicate (Z.to_nat ((sz - entries_off) / entry_size)) zero_entry |}
        else NULL
  end.
End init.

Definition ngx_rtc_shm_ring_enqueue (ring : ptr ngx_rtc_shm_ring_t) (md gp : Z)
    (data : ptr octets) (rtp_len : Z) (sess_ids : ptr (list Z)) (n : Z)
    : outcome (Z * ptr ngx_rtc_shm_ring_t) :=
  match ring, data, sess_ids with
  | Ref r, Ref d, Ref ids =>
      if (rtp_len =? 0) || (NGX_RTC_RING_RTP_MAX <? rtp_len)
         || (n =? 0) || (NGX_RTC_RING_MAX_SESSIONS <? n) then Ret (NGX_ERROR, ring)
      else if size r <=? u64 (head r - tail r) then Ret (NGX_ERROR, ring)
      else
        let idx := Z.land (head r) (mask r) in
        slot ← load (entries r) idx;
        ids ← load_range ids 0 n;
        ss ← store_range (sess slot) 0 ids;
        src ← load_range d 0 rtp_len;
        b ← store_range (rtp slot) 0 src;
        es ← store (entries r) idx {| seq := head r; media := md; gop := gp; len := rtp_len;
                                      nsess := n; sess := ss; rtp := b |};
        Ret (NGX_OK, Ref (r |> set_entries es |> set_head (u64 (head r + 1))))
  | _, _, _ => Ret (NGX_ERROR, ring)
  end.

(** [entry] is the caller's structure, returned as the call leaves it. *)
Definition ngx_rtc_shm_ring_dequeue (ring : ptr ngx_rtc_shm_ring_t)
    (entry : ptr ngx_rtc_ring_entry_t)
    : outcome (Z * ptr ngx_rtc_shm_ring_t * ptr ngx_rtc_ring_entry_t) :=
  match ring, entry with
  | Ref r, Ref _ =>
      if head r =? tail r then Ret (NGX_ERROR, ring, entry)
      else
        slot ← load (entries r) (Z.land (tail r) (mask r));
        Ret (NGX_OK, Ref (set_tail (u64 (tail r + 1)) r), Ref slot)
  | _, _ => Ret (NGX_ERROR, ring, entry)
  end.

Definition ngx_rtc_shm_ring_full (ring : ptr ngx_rtc_shm_ring_t) : Z :=
  match ring with
  | NULL => 1
  | Ref r => if size r <=? u64 (head r - tail r) then 1 else 0
  end.

Definition ngx_rtc_shm_ring_empty (ring : ptr ngx_rtc_shm_ring_t) : Z :=
  match ring with
  | NULL => 1
  | Ref r => if head r =? tail r then 1 else 0
  end.

(** ** The capacity *)

Lemma shm_next_pow2_log2_up v :
  1 <= v <= 2 ^ 63 -> ngx_rtc_shm_ring_next_pow2 v = 2 ^ Z.log2_up v.
Proof.
  intros Hv. destruct (decide (v = 1)) as [-> | Hne]; [done |].
  unfold ngx_rtc_shm_ring_next_pow2. rewrite (u64_small (v - 1)) by wraps.
  assert (Hs : smeared (v - 1) 1 (v - 1)) by (apply smeared_1; lia).
  apply (smeared_step _ 1) in Hs; [| lia]. apply (smeared_step _ 2) in Hs; [| lia].
  apply (smeared_step _ 4) in Hs; [| lia]. apply (smeared_step _ 8) in Hs; [| lia].
  apply (smeared_step _ 16) in Hs; [| lia]. apply (smeared_step _ 32) in Hs; [| lia].
  assert (Hlog : Z.log2 (v - 1) <= 62).
  { apply Z.lt_succ_r, Z.log2_lt_pow2; simpl; lia. }
  apply smeared_done in Hs; [| lia | lia]. cbv zeta. rewrite Hs.
  rewrite u64_small; [apply pow2_succ_log2_up; lia |].
  pose proof (Z.log2_nonneg (v - 1)). unfold is_u64.
  pose proof (Z.pow_le_mono_r 2 (Z.succ (Z.log2 (v - 1))) 63). lia.
Qed.

(** ** The queue the ring promises to be *)

(** A packet as its receiver sees it: the number of the slot it was given, the medium, the
    keyframe flag, the sessions and the payload. *)
Definition packet : Type := Z * Z * Z * list Z * octets.

Definition view (e : ngx_rtc_ring_entry_t) : packet :=
  (seq e, media e, gop e, ztake (nsess e) (sess e), ztake (len e) (rtp e)).

Inductive op :=
| Enqueue (md gp : Z) (d : octets) (rtp_len : Z) (ids : list Z) (n : Z)
| Dequeue
| Full
| Empty.

(** The lengths the caller states are those of its buffers. *)
Definition op_ok (o : op) : Prop :=
  match o with
  | Enqueue _ _ d rtp_len ids n => 0 <= rtp_len <= zlen d /\ 0 <= n <= zlen ids
  | _ => True
  end.

Definition step (r : ptr ngx_rtc_shm_ring_t) (o : op)
    : outcome (Z * option packet * ptr ngx_rtc_shm_ring_t) :=
  match o with
  | Enqueue md gp d rtp_len ids n =>
      '(rc, r) ← ngx_rtc_shm_ring_enqueue r md gp (Ref d) rtp_len (Ref ids) n;
      Ret (rc, None, r)
  | Dequeue =>
      '(rc, r, e) ← ngx_rtc_shm_ring_dequeue r (Ref zero_entry);
      Ret (rc, match e with Ref e => if rc =? NGX_OK then Some (view e) else None | NULL => None end, r)
  | Full => Ret (ngx_rtc_shm_ring_full r, None, r)
  | Empty => Ret (ngx_rtc_shm_ring_empty r, None, r)
  end.

Fixpoint run (r : ptr ngx_rtc_shm_ring_t) (os : list op)
    : outcome (list (Z * option packet) * ptr ngx_rtc_shm_ring_t) :=
  match os with
  | [] => Ret ([], r)
  | o :: os =>
      '(rc, out, r) ← step r o;
      '(res, r) ← run r os;
      Ret ((rc, out) :: res, r)
  end.

(** The specification: the number of the next packet and the packets in flight. *)
Definition fifo : Type := Z * list packet.

Definition spec_step (cap : Z) (s : fifo) (o : op) : Z * option packet * fifo :=
  let '(n, q) := s in
  match o with
  | Enqueue md gp d l ids k =>
      if (1 <=? l) && (l <=? 1500) && (1 <=? k) && (k <=? 64) && (zlen q <? cap)
      then (NGX_OK, None, (u64 (n + 1), q ++ [(n, md, gp, ztake k ids, ztake l d)]))
      else (NGX_ERROR, None, s)
  | Dequeue =>
      match q with
      | [] => (NGX_ERROR, None, s)
      | p :: q => (NGX_OK, Some p, (n, q))
      end
  | Full => (if zlen q <? cap then 0 else 1, None, s)
  | Empty => (match q with [] => 1 | _ => 0 end, None, s)
  end.

Fixpoint spec_run (cap : Z) (s : fifo) (os : list op) : list (Z * option packet) * fifo :=
  match os with
  | [] => ([], s)
  | o :: os =>
      let '(rc, out, s) := spec_step cap s o in
      let '(res, s) := spec_run cap s os in
      ((rc, out) :: res, s)
  end.

(** ** The representation *)

Definition slot_at (es : list ngx_rtc_ring_entry_t) (j : Z) : outcome packet :=
  e ← load es j; Ret (view e).

Definition entry_ok (e : ngx_rtc_ring_entry_t) : Prop :=
  zlen (sess e) = 64 /\ zlen (rtp e) = 1500 /\ 0 <= nsess e <= 64 /\ 0 <= len e <= 1500.

Definition bufs_ok (es : list ngx_rtc_ring_entry_t) : Prop := Forall entry_ok es.

Record mr_rep (k : Z) (r : ngx_rtc_shm_ring_t) (s : fifo) : Prop := {
  mr_k : 0 <= k <= 32;
  mr_size : size r = 2 ^ k;
  mr_mask : mask r = 2 ^ k - 1;
  mr_entries : zlen (entries r) = 2 ^ k;
  mr_bufs : bufs_ok (entries r);
  mr_head : head r = s.1;
  mr_u64 : is_u64 (head r) /\ is_u64 (tail r);
  mr_count : u64 (head r - tail r) = zlen s.2;
  mr_fits : zlen s.2 <= 2 ^ k;
  mr_window : window (2 ^ k) (slot_at (entries r)) (tail r) s.2
}.

Lemma pow2_bounds k : 0 <= k <= 32 -> 0 < 2 ^ k <= 2 ^ 32.
Proof.
  intros Hk. split; [apply Z.pow_pos_nonneg; lia | apply Z.pow_le_mono_r; lia].
Qed.

Lemma head_mod64 k h t n :
  0 <= k <= 64 -> u64 (h - t) = n -> h mod 2 ^ k = (t + n) mod 2 ^ k.
Proof.
  intros Hk <-. rewrite <- Zplus_mod_idemp_r.
  rewrite u64_mod_pow2 by lia. rewrite Zplus_mod_idemp_r. f_equal. lia.
Qed.

Lemma media_slot_write es idx e es' :
  store es idx e = Ret es' ->
  slot_at es' idx = Ret (view e) /\
  (forall j, 0 <= j -> j <> idx -> slot_at es' j = slot_at es j).
Proof.
  intros [H1 H2]%load_store_other. unfold slot_at. rewrite H1. split; [done |].
  intros j Hj Hne. by rewrite H2.
Qed.

Lemma mr_full k r s :
  mr_rep k r s -> (size r <=? u64 (head r - tail r)) = negb (zlen s.2 <? 2 ^ k).
Proof.
  intros H. rewrite (mr_size _ _ _ H), (mr_count _ _ _ H). zcase; done.
Qed.

Lemma mr_empty k r s : mr_rep k r s -> (head r =? tail r) = bool_decide (s.2 = []).
Proof.
  intros H. pose proof (mr_count _ _ _ H) as Hc. destruct (mr_u64 _ _ _ H) as [Hh Ht].
  destruct s as [n [| p q]]; cbn [snd] in *.
  - rewrite zlen_nil in Hc. rewrite bool_decide_true by done. apply Z.eqb_eq. wraps.
  - rewrite bool_decide_false by done. apply Z.eqb_neq. intros E. rewrite E, Z.sub_diag in Hc.
    rewrite zlen_cons in Hc. pose proof (zlen_nonneg q). change (u64 0) with 0 in Hc. lia.
Qed.

(** ** Each call refines its specification *)

Lemma enqueue_refines k r n q md gp d l ids m :
  mr_rep k r (n, q) -> 1 <= l <= 1500 -> 1 <= m <= 64 -> zlen q < 2 ^ k ->
  l <= zlen d -> m <= zlen ids ->
  exists r', ngx_rtc_shm_ring_enqueue (Ref r) md gp (Ref d) l (Ref ids) m = Ret (NGX_OK, Ref r') /\
    mr_rep k r' (u64 (n + 1), q ++ [(n, md, gp, ztake m ids, ztake l d)]).
Proof.
  intros Hrep Hl Hm Hq Hd Hids. pose proof (mr_full _ _ _ Hrep) as Hfull.
  destruct Hrep as [Hk Hs Hmk Hel Hb Hh [Hu1 Hu2] Hc Hf Hw]. cbn [fst snd] in *.
  pose proof (pow2_bounds k Hk) as H2. unfold ngx_rtc_shm_ring_enqueue.
  destruct (Z.eqb_spec l 0); [lia |]. destruct (Z.eqb_spec m 0); [lia |].
  destruct (Z.ltb_spec NGX_RTC_RING_RTP_MAX l) as [H | _]; [unfold NGX_RTC_RING_RTP_MAX in H; lia |].
  destruct (Z.ltb_spec NGX_RTC_RING_MAX_SESSIONS m) as [H | _];
    [unfold NGX_RTC_RING_MAX_SESSIONS in H; lia |].
  cbn [orb]. rewrite Hfull. destruct (Z.ltb_spec (zlen q) (2 ^ k)); [| lia]. cbn [negb].
  cbv zeta. rewrite Hmk, land_pow2_mask by lia. set (idx := head r mod 2 ^ k).
  assert (Hi : 0 <= idx < 2 ^ k) by (apply Z.mod_pos_bound; lia).
  destruct (load_in (entries r) idx ltac:(lia)) as [slot Hslot]. rewrite Hslot, bind_Ret.
  assert (Hsb : zlen (sess slot) = 64 /\ zlen (rtp slot) = 1500).
  { apply load_ret in Hslot as [_ Hsl]. by destruct (Forall_lookup_1 _ _ _ _ Hb Hsl) as (? & ? & _). }
  destruct Hsb as [Hs1 Hs2].
  rewrite (load_range_in ids 0 m), (load_range_in d 0 l), !zdrop_0, !bind_Ret by lia.
  rewrite (store_range_in (sess slot)), bind_Ret by (rewrite ?zlen_ztake by lia; lia).
  rewrite bind_Ret, store_range_in, bind_Ret by (rewrite ?zlen_ztake by lia; lia).
  set (e := {| seq := _ |}).
  destruct (store (entries r) idx e) as [es |] eqn:Est.
  2: { pose proof (store_safe (entries r) idx e ltac:(lia)) as Hf'. by rewrite Est in Hf'. }
  rewrite bind_Ret. eexists. split; [reflexivity |].
  pose proof (media_slot_write _ _ _ _ Est) as [Hnew Hother].
  assert (Hv : view e = (n, md, gp, ztake m ids, ztake l d)).
  { unfold view, e. cbn [seq media gop len nsess sess rtp]. rewrite Hh, !ztake_0, !app_nil_l.
    rewrite !ztake_app_length; [done | zl | zl]. }
  pose proof (zlen_nonneg q).
  split; cbn [size mask entries head tail set_head set_entries fst snd]; try done.
  - apply store_ret in Est as [_ ->]. by rewrite zlen_insert.
  - apply store_ret in Est as [_ ->]. apply Forall_insert; [done |]. unfold entry_ok.
    cbn [sess rtp nsess len e]. split_and!; [zl | zl | lia ..].
  - by rewrite Hh.
  - split; [apply u64_range | done].
  - rewrite zlen_app, zlen_cons, zlen_nil. wraps.
  - rewrite zlen_app, zlen_cons, zlen_nil. lia.
  - unfold idx in Hnew, Hother. rewrite (head_mod64 k _ (tail r) (zlen q)) in Hnew, Hother by (try lia; done).
    apply window_push with (slot_at (entries r)); try done; [lia | by rewrite Hnew, Hv |].
    intros j Hj Hne. apply Hother; [lia | done].
Qed.

Lemma dequeue_refines k r n p q e :
  mr_rep k r (n, p :: q) ->
  exists r' e', ngx_rtc_shm_ring_dequeue (Ref r) (Ref e) = Ret (NGX_OK, Ref r', Ref e') /\
    view e' = p /\ entry_ok e' /\ mr_rep k r' (n, q).
Proof.
  intros Hrep. pose proof (mr_empty _ _ _ Hrep) as He.
  destruct Hrep as [Hk Hs Hmk Hel Hb Hh [Hu1 Hu2] Hc Hf Hw]. cbn [fst snd] in *.
  pose proof (pow2_bounds k Hk) as H2. unfold ngx_rtc_shm_ring_dequeue. rewrite He. cbn [negb].
  rewrite bool_decide_false by done. rewrite Hmk, land_pow2_mask by lia.
  pose proof (window_head _ _ _ _ _ Hw) as Hp. unfold slot_at in Hp.
  destruct (load (entries r) _) as [slot |] eqn:Hslot; [| done]. cbn in Hp. rewrite bind_Ret.
  injection Hp as Hp. eexists _, _. split; [reflexivity |]. split; [done |]. split.
  { apply load_ret in Hslot as [_ Hsl]. by apply (Forall_lookup_1 _ _ _ _ Hb Hsl). }
  rewrite zlen_cons in *. pose proof (zlen_nonneg q).
  split; cbn [size mask entries head tail set_tail fst snd]; try done.
  - split; [done | apply u64_range].
  - wraps.
  - lia.
  - apply window_start with (tail r + 1); [by rewrite u64_mod_pow2 by lia |].
    by apply window_tail with p.
Qed.

Lemma step_refines k r s o :
  mr_rep k r s -> op_ok o ->
  exists r', step (Ref r) o = Ret ((spec_step (2 ^ k) s o).1, Ref r') /\
    mr_rep k r' (spec_step (2 ^ k) s o).2.
Proof.
  intros Hrep Hok. destruct s as [n q]. destruct o as [md gp d l ids m | | |].
  - destruct Hok as [Hd Hids]. cbn [step spec_step].
    destruct ((1 <=? l) && (l <=? 1500) && (1 <=? m) && (m <=? 64) && (zlen q <? 2 ^ k)) eqn:Hg.
    + apply andb_prop in Hg as [[[[Hg1 Hg2]%andb_prop Hg3]%andb_prop Hg4]%andb_prop Hg5].
      destruct (enqueue_refines k r n q md gp d l ids m) as (r' & E & Hr'); try lia; [done |].
      exists r'. by rewrite E.
    + exists r. split; [| done]. unfold ngx_rtc_shm_ring_enqueue.
      rewrite (mr_full _ _ _ Hrep). cbn [snd].
      unfold NGX_RTC_RING_RTP_MAX, NGX_RTC_RING_MAX_SESSIONS. revert Hg. zcase; done.
  - destruct q as [| p q].
    + exists r. split; [| done]. cbn [step spec_step]. unfold ngx_rtc_shm_ring_dequeue.
      by rewrite (mr_empty _ _ _ Hrep).
    + destruct (dequeue_refines k r n p q zero_entry Hrep) as (r' & e' & E & Hv & _ & Hr').
      exists r'. cbn [step spec_step]. rewrite E, bind_Ret. cbn [fst snd]. rewrite <- Hv. done.
  - exists r. split; [| done]. cbn [step spec_step ngx_rtc_shm_ring_full].
    rewrite (mr_full _ _ _ Hrep). cbn [snd]. by destruct (zlen q <? 2 ^ k).
  - exists r. split; [| done]. cbn [step spec_step ngx_rtc_shm_ring_empty].
    rewrite (mr_empty _ _ _ Hrep). by destruct q.
Qed.

Lemma media_init_rep off alloc slots :
  0 <= off <= 4096 -> 1 <= slots <= 2 ^ 32 -> alloc (u64 (off + 2 ^ Z.log2_up slots * entry_size)) = true ->
  exists r, ngx_rtc_shm_ring_init off (Ref alloc) slots = Ref r /\
    mr_rep (Z.log2_up slots) r (0, []).
Proof.
  intros Hoff Hs Ha. unfold ngx_rtc_shm_ring_init. destruct (Z.eqb_spec slots 0); [lia |].
  rewrite shm_next_pow2_log2_up by lia. cbv zeta.
  assert (Hk : 0 <= Z.log2_up slots <= 32).
  { split; [apply Z.log2_up_nonneg |]. apply Z.log2_up_le_pow2; lia. }
  pose proof (pow2_bounds _ Hk) as H2. set (c := 2 ^ Z.log2_up slots) in *.
  rewrite (u64_small (c * entry_size)) by (unfold is_u64, entry_size; lia).
  rewrite Ha. eexists. split; [reflexivity |].
  rewrite (u64_small (off + _)) by (unfold is_u64, entry_size; lia).
  replace (off + c * entry_size - off) with (c * entry_size) by lia.
  rewrite Z.div_mul by done.
  split; cbn [size mask entries head tail fst snd]; try done.
  - rewrite u64_small; [done | unfold is_u64; lia].
  - rewrite zlen_replicate. lia.
  - apply Forall_replicate. by vm_compute.
  - fold c. rewrite zlen_nil. lia.
  - apply window_nil.
Qed.

Lemma media_run_refines k os : forall r s,
  mr_rep k r s -> Forall op_ok os ->
  exists r', run (Ref r) os = Ret ((spec_run (2 ^ k) s os).1, Ref r') /\
    mr_rep k r' (spec_run (2 ^ k) s os).2.
Proof.
  induction os as [| o os IH]; intros r s Hrep Hok; [by exists r |].
  apply Forall_cons_1 in Hok as [Ho Hok].
  destruct (step_refines k r s o Hrep Ho) as (r1 & E1 & H1). cbn [run spec_run].
  destruct (spec_step (2 ^ k) s o) as [[rc out] s1] eqn:Es. cbn [fst snd] in *.
  rewrite E1, bind_Ret. destruct (IH r1 s1 H1 Hok) as (r' & E' & H').
  destruct (spec_run (2 ^ k) s1 os) as [res s']. cbn [fst snd] in *.
  rewrite E', bind_Ret. by exists r'.
Qed.

(** C25: a media ring made for [slots] entries is a bounded FIFO: whatever is asked of it,
    it never accesses memory outside its slots, takes a packet exactly when fewer than
    2^ceil(log2 slots) are in flight and its lengths are within limits, and hands packets
    out whole, once, in the order they came, numbered consecutively. *)
Theorem media_ring_fifo off alloc slots os :
  0 <= off <= 4096 -> 1 <= slots <= 2 ^ 32 ->
  alloc (u64 (off + 2 ^ Z.log2_up slots * entry_size)) = true -> Forall op_ok os ->
  exists r, run (ngx_rtc_shm_ring_init off (Ref alloc) slots) os =
    Ret ((spec_run (2 ^ Z.log2_up slots) (0, []) os).1, Ref r).
Proof.
  intros Hoff Hs Ha Hok. destruct (media_init_rep off alloc slots Hoff Hs Ha) as (r0 & -> & Hrep).
  destruct (media_run_refines _ os r0 (0, []) Hrep Hok) as (r & E & _). by exists r.
Qed.

Definition demo_ops : list op :=
  [Enqueue 0 1 [128; 102; 0; 1] 4 [7; 9] 2; Enqueue 1 0 [128; 111] 2 [7] 1;
   Enqueue 0 0 [1; 2; 3] 3 [] 0; Full; Enqueue 0 0 [9] 1 [8] 1; Dequeue; Dequeue; Dequeue; Empty].

Lemma media_demo_ok : Forall op_ok demo_ops.
Proof. repeat constructor; vm_compute; intuition congruence. Defined.

Lemma media_ring_fifo_witness :
  exists r, run (ngx_rtc_shm_ring_init 64 (Ref (fun _ => true)) 2) demo_ops =
    Ret ([(0, None); (0, None); (-1, None); (1, None); (-1, None);
          (0, Some (0, 0, 1, [7; 9], [128; 102; 0; 1]));
          (0, Some (1, 1, 0, [7], [128; 111])); (-1, None); (1, None)], Ref r).
Proof.
  apply (media_ring_fifo 64 (fun _ => true) 2 demo_ops);
    [vm_compute; intuition congruence | vm_compute; intuition congruence | reflexivity | exact media_demo_ok].
Defined.

End ShmRing.
