(* ===== verification/Retransmit.v ===== *)
(** The retransmit ring of src/ngx_rtc_shm.c: the last 1024 plaintext video packets of a
    source, in the slab pool, from which a worker that does not own the publisher answers
    NACKs and replays the keyframe.  Everything here happens under the pool mutex; finding
    the source and its ring is in Shm.v.

    The theorems about the ring alone are lemmas here; ShmMedia.v states the properties of
    the calls made of them. *)

From S2P Require Import Prelude Window Rtp GopRing.
Import GopRing.

Module Retransmit.

Definition NGX_RTC_SHM_RETX_RING_CAP : Z := 1024.
Definition NGX_RTC_RING_RTP_MAX : Z := 1500.
Definition NGX_RTC_RTP_HEADER_SIZE : Z := 12.
Definition NGX_RTC_RTP_MARKER : Z := 128.

Record ngx_rtc_shm_retransmit_slot_t := {
  len : Z;
  is_gop_start : Z;
  data : octets
}.

Record ngx_rtc_shm_retransmit_t := {
  head : Z;
  count : Z;
  gop_start : Z;
  cap : Z;
  slots : list ngx_rtc_shm_retransmit_slot_t
}.

Definition eta (r : ngx_rtc_shm_retransmit_t) : ngx_rtc_shm_retransmit_t :=
  {| head := head r; count := count r; gop_start := gop_start r; cap := cap r; slots := slots r |}.
Definition set_head := ltac:(setter eta head).
Definition set_count := ltac:(setter eta count).
Definition set_gop_start := ltac:(setter eta gop_start).
Definition set_slots := ltac:(setter eta slots).

Definition zero_slot : ngx_rtc_shm_retransmit_slot_t :=
  {| len := 0; is_gop_start := 0; data := zeros NGX_RTC_RING_RTP_MAX |}.

(** The zeroed allocation of ngx_rtc_shm_retransmit_alloc_locked. *)
Definition fresh_ring : ngx_rtc_shm_retransmit_t :=
  {| head := 0; count := 0; gop_start := 0; cap := NGX_RTC_SHM_RETX_RING_CAP;
     slots := replicate (Z.to_nat NGX_RTC_SHM_RETX_RING_CAP) zero_slot |}.

Definition ngx_rtc_shm_retx_seq (d : octets) : outcome Z :=
  hi ← load d 2; lo ← load d 3; Ret (u16 (Z.lor (u16 (Z.shiftl hi 8)) lo)).

(** The locked half of ngx_rtc_shm_retransmit_append. *)
Definition retx_push (r : ngx_rtc_shm_retransmit_t) (rtp : octets) (rtp_len gs : Z)
    : outcome ngx_rtc_shm_retransmit_t :=
  let idx := Z.land (head r) (u64 (cap r - 1)) in
  slot ← load (slots r) idx;
  src ← load_range rtp 0 rtp_len;
  d ← store_range (data slot) 0 src;
  ss ← store (slots r) idx {| len := u16 rtp_len; is_gop_start := if gs =? 0 then 0 else 1;
                              data := d |};
  let r := set_slots ss r in
  let r := if gs =? 0 then r else set_gop_start (head r) r in
  let r := set_head (u64 (head r + 1)) r in
  Ret (if count r <? cap r then set_count (u64 (count r + 1)) r else r).

(** The lookup of ngx_rtc_shm_retransmit_get: what it leaves in [out] and [out_len] on a
    hit, None on a miss. *)
Definition retx_find (r : ngx_rtc_shm_retransmit_t) (rtp_seq : Z) (out : octets) (out_cap : Z)
    : outcome (option (octets * Z)) :=
  if count r =? 0 then Ret None
  else
    let start := u64 (head r - count r) in
    first ← load (slots r) (Z.land start (u64 (cap r - 1)));
    start_seq ← ngx_rtc_shm_retx_seq (data first);
    let dist := u16 (rtp_seq - start_seq) in
    if dist <? count r then
      slot ← load (slots r) (Z.land (u64 (start + dist)) (u64 (cap r - 1)));
      sq ← ngx_rtc_shm_retx_seq (data slot);
      if (sq =? rtp_seq) && (len slot <=? out_cap) then
        src ← load_range (data slot) 0 (len slot);
        out ← store_range out 0 src;
        Ret (Some (out, len slot))
      else Ret None
    else Ret None.

(** The packet that closes an access unit. *)
Definition closes (s : ngx_rtc_shm_retransmit_slot_t) : outcome bool :=
  b ← load (data s) 1;
  Ret ((NGX_RTC_RTP_HEADER_SIZE <? len s) && negb (Z.land b NGX_RTC_RTP_MARKER =? 0)).

(** The copy loop of ngx_rtc_shm_retransmit_replay_gop: slots from [i] on into [buf], which
    has room for [NGX_RTC_SHM_RETX_RING_CAP]. *)
Fixpoint copy_loop (fuel : nat) (r : ngx_rtc_shm_retransmit_t) (i : Z)
    (buf : list ngx_rtc_shm_retransmit_slot_t) : outcome (list ngx_rtc_shm_retransmit_slot_t) :=
  if i <? head r then
    match fuel with
    | O => Fault
    | S fuel =>
        slot ← load (slots r) (Z.land i (u64 (cap r - 1)));
        if NGX_RTC_SHM_RETX_RING_CAP <=? zlen buf then Fault
        else
          let buf := buf ++ [slot] in
          b ← closes slot;
          if b : bool then Ret buf else copy_loop fuel r (u64 (i + 1)) buf
    end
  else Ret buf.

Definition retx_copy (r : ngx_rtc_shm_retransmit_t)
    : outcome (list ngx_rtc_shm_retransmit_slot_t) :=
  if count r =? 0 then Ret []
  else
    let start := u64 (head r - count r) in
    let start := if start <? gop_start r then gop_start r else start in
    copy_loop (Z.to_nat (count r)) r start [].

(** The send loop, outside the lock: [cb] is called with the state [A] of its opaque
    argument and answers NGX_OK (0) to go on. *)
Section send.
Context {A : Type} (cb : A -> octets -> Z -> Z -> outcome (Z * A)).

Fixpoint send_loop (buf : list ngx_rtc_shm_retransmit_slot_t) (a : A) : outcome A :=
  match buf with
  | [] => Ret a
  | s :: buf =>
      '(rc, a) ← cb a (data s) (len s) (is_gop_start s);
      if negb (rc =? 0) then Ret a
      else
        b ← closes s;
        if b : bool then Ret a else send_loop buf a
  end.
End send.

(** ** The ring as the list of its retained packets *)

Definition retx_entry_ok (e : entry) : Prop :=
  12 <= zlen e.1 <= NGX_RTC_RING_RTP_MAX /\ octets_ok e.1 /\ flag_ok e.

Definition slot_entry (s : ngx_rtc_shm_retransmit_slot_t) : entry :=
  (ztake (len s) (data s), is_gop_start s).

Definition retx_held (ss : list ngx_rtc_shm_retransmit_slot_t) (j : Z) : outcome entry :=
  s ← load ss j; Ret (slot_entry s).

Definition slot_ok (s : ngx_rtc_shm_retransmit_slot_t) : Prop :=
  zlen (data s) = 1500 /\ 0 <= len s <= 1500.

Record retx_rep (r : ngx_rtc_shm_retransmit_t) (l : list entry) : Prop := {
  rx_cap : cap r = 1024;
  rx_len : zlen (slots r) = 1024;
  rx_slots : Forall slot_ok (slots r);
  rx_head : is_u64 (head r);
  rx_count : count r = zlen l;
  rx_fits : zlen l <= 1024;
  rx_window : window 1024 (retx_held (slots r)) (head r - zlen l) l;
  rx_entries : Forall retx_entry_ok l
}.

(** The list after an append: the oldest packet goes when 1024 are held. *)
Definition appended (l : list entry) (e : entry) : list entry :=
  if zlen l <? 1024 then l ++ [e] else drop 1 l ++ [e].

Lemma fresh_ring_rep : retx_rep fresh_ring [].
Proof.
  split; cbn [cap slots head count fresh_ring]; try done.
  - apply Forall_replicate. unfold slot_ok. cbn [data len zero_slot].
    by rewrite zlen_zeros.
  - apply window_nil.
Qed.

Lemma retx_mask x : Z.land x (u64 (1024 - 1)) = x mod 1024.
Proof. change (u64 (1024 - 1)) with (Z.ones 10). by rewrite Z.land_ones. Qed.

Lemma u64_mod_1024 x : u64 x mod 1024 = x mod 1024.
Proof. apply (u64_mod_pow2 x 10). lia. Qed.

Lemma retx_held_store ss idx s ss' :
  store ss idx s = Ret ss' ->
  retx_held ss' idx = Ret (slot_entry s) /\
  (forall j, 0 <= j -> j <> idx -> retx_held ss' j = retx_held ss j).
Proof.
  intros [H1 H2]%load_store_other. unfold retx_held. rewrite H1. split; [done |].
  intros j Hj Hne. by rewrite H2.
Qed.

Lemma zlen_appended l e : zlen (appended l e) = if zlen l <? 1024 then zlen l + 1 else zlen l.
Proof.
  pose proof (zlen_nonneg l). unfold appended. destruct (Z.ltb_spec (zlen l) 1024); [zl |].
  change (drop 1 l) with (zdrop 1 l). rewrite zlen_app, zlen_zdrop by lia. zl.
Qed.

Lemma retx_push_rep r l p gs :
  retx_rep r l -> 12 <= zlen p <= 1500 -> octets_ok p ->
  exists r', retx_push r p (zlen p) gs = Ret r' /\
    retx_rep r' (appended l (p, if gs =? 0 then 0 else 1)) /\
    head r' = u64 (head r + 1) /\
    gop_start r' = if gs =? 0 then gop_start r else head r.
Proof.
  intros [Hcap Hlen Hss Hh Hc Hf Hw He] Hp Hpo. unfold retx_push. rewrite Hcap, retx_mask. cbv zeta.
  set (idx := head r mod 1024). assert (Hi : 0 <= idx < 1024) by (apply Z.mod_pos_bound; lia).
  destruct (load_in (slots r) idx ltac:(lia)) as [slot Hslot]. rewrite Hslot, bind_Ret.
  assert (Hd : zlen (data slot) = 1500).
  { apply load_ret in Hslot as [_ Hsl]. by apply (Forall_lookup_1 _ _ _ _ Hss) in Hsl as [? _]. }
  rewrite load_range_all, bind_Ret by done.
  rewrite store_range_in, bind_Ret by lia.
  rewrite (u16_small (zlen p)) by (unfold is_u16; lia). rewrite ztake_0, app_nil_l.
  set (s' := {| len := zlen p; is_gop_start := _; data := _ |}).
  destruct (store (slots r) idx s') as [ss' |] eqn:Est.
  2: { pose proof (store_safe (slots r) idx s' ltac:(lia)) as Hf'. by rewrite Est in Hf'. }
  rewrite bind_Ret. pose proof (retx_held_store _ _ _ _ Est) as [Hheld Hother].
  set (e := (p, if gs =? 0 then 0 else 1)) in *.
  assert (Hnew : slot_entry s' = e).
  { unfold slot_entry, s', e. cbn [data len is_gop_start]. by rewrite ztake_app_length. }
  rewrite Hnew in Hheld. pose proof (zlen_nonneg l). pose proof (zlen_appended l e) as Hl'.
  exists {| head := u64 (head r + 1); count := zlen (appended l e);
            gop_start := if gs =? 0 then gop_start r else head r; cap := 1024; slots := ss' |}.
  split; [| split; [| done]].
  { rewrite Hl'. destruct r as [hd ct gst cp sl]; cbn in Hc, Hcap |- *. subst ct cp.
    destruct (gs =? 0); cbn; destruct (Z.ltb_spec (zlen l) 1024); cbn;
      rewrite ?(u64_small (zlen l + 1)) by (unfold is_u64; lia); done. }
  assert (Hsok : slot_ok s').
  { unfold slot_ok, s'. cbn [data len]. split; [zl | lia]. }
  split; cbn [cap slots head count]; try done.
  - apply store_ret in Est as [_ ->]. by rewrite zlen_insert.
  - apply store_ret in Est as [_ ->]. by apply Forall_insert.
  - apply u64_range.
  - rewrite Hl'. destruct (Z.ltb_spec (zlen l) 1024); lia.
  - assert (Hmod : (head r + 1 - zlen (appended l e)) mod 1024
                   = (u64 (head r + 1) - zlen (appended l e)) mod 1024).
    { rewrite <- (Zminus_mod_idemp_l (u64 _)), u64_mod_1024, Zminus_mod_idemp_l. done. }
    eapply window_start; [exact Hmod |]. rewrite Hl'. unfold appended.
    destruct (Z.ltb_spec (zlen l) 1024).
    + replace (head r + 1 - (zlen l + 1)) with (head r - zlen l) by lia.
      apply (window_push 1024 (retx_held (slots r))); try done; try lia.
      * by replace (head r - zlen l + zlen l) with (head r) by lia.
      * intros j Hj Hne. apply Hother; [lia |].
        by replace (head r - zlen l + zlen l) with (head r) in Hne by lia.
    + destruct l as [| y l]; [rewrite zlen_nil in *; lia |]. cbn [drop].
      replace (head r + 1 - zlen (y :: l)) with (head r - zlen (y :: l) + 1) by lia.
      assert (Hfull : zlen (y :: l) = 1024) by lia.
      apply (window_slide 1024 (retx_held (slots r)) _ _ y); try done.
      * by replace (head r - zlen (y :: l) + 1024) with (head r) by lia.
      * intros j Hj Hne. apply Hother; [lia |].
        by replace (head r - zlen (y :: l) + 1024) with (head r) in Hne by lia.
  - assert (Hok : retx_entry_ok e).
    { unfold e, retx_entry_ok, NGX_RTC_RING_RTP_MAX, flag_ok. cbn [fst snd].
      split_and!; [lia | lia | done |]. by destruct (gs =? 0); [left | right]. }
    unfold appended. destruct (zlen l <? 1024); apply Forall_app; (split; [| by constructor]).
    + done.
    + by apply Forall_drop.
Qed.

(** The slot that holds the [i]-th retained packet. *)
Lemma retx_at r l i e :
  retx_rep r l -> load l i = Ret e ->
  exists s, load (slots r) ((head r - zlen l + i) mod 1024) = Ret s /\ slot_entry s = e /\
    slot_ok s /\ retx_entry_ok e.
Proof.
  intros [Hcap Hlen Hss Hh Hc Hf Hw He] Hi. pose proof (window_index _ _ _ _ _ _ Hw Hi) as Hx.
  unfold retx_held in Hx. destruct (load (slots r) _) as [s |] eqn:Es; [| done].
  injection Hx as <-. exists s. apply load_ret in Es as [_ Es]. apply load_ret in Hi as [_ Hi].
  split_and!; [done | done | by apply (Forall_lookup_1 _ _ _ _ Hss Es)
              | by apply (Forall_lookup_1 _ _ _ _ He Hi)].
Qed.

Lemma retx_seq_entry s :
  retx_entry_ok (slot_entry s) ->
  ngx_rtc_shm_retx_seq (data s) = Ret (entry_seq (slot_entry s)) /\
  is_u16 (entry_seq (slot_entry s)).
Proof.
  intros (Hn & Hok & _). unfold slot_entry in *. cbn [fst] in *.
  apply (seq_from_prefix (data s) (len s)); [lia | done].
Qed.

(** What a lookup by sequence number answers from the retained packets: it compares the
    distance from the oldest. *)
Definition answer (l : list entry) (sq room : Z) : option octets :=
  match l with
  | [] => None
  | e0 :: _ =>
      match load l (u16 (sq - entry_seq e0)) with
      | Ret e => if (entry_seq e =? sq) && (zlen e.1 <=? room) then Some e.1 else None
      | Fault => None
      end
  end.

Lemma zlen_slot_entry s : slot_ok s -> zlen (slot_entry s).1 = len s.
Proof. intros [Hd Hl]. unfold slot_entry. cbn [fst]. rewrite zlen_ztake; lia. Qed.

Lemma retx_find_eq r l sq out :
  retx_rep r l -> is_u16 sq ->
  retx_find r sq out (zlen out)
  = Ret (match answer l sq (zlen out) with
         | Some d => Some (d ++ zdrop (zlen d) out, zlen d)
         | None => None
         end).
Proof.
  intros Hrep Hsq. pose proof Hrep as [Hcap Hlen Hss Hh Hc Hf Hw He]. unfold retx_find.
  rewrite Hc. destruct l as [| e0 l']; [done |]. set (l := e0 :: l') in *.
  pose proof (zlen_nonneg l') as Hl'.
  destruct (Z.eqb_spec (zlen l) 0) as [H0 |]; [unfold l in H0; rewrite zlen_cons in H0; lia |].
  cbv zeta. rewrite Hcap, !retx_mask, !u64_mod_1024.
  destruct (retx_at r l 0 e0 Hrep eq_refl) as (s0 & Hs0 & He0 & Hok0 & Heo0).
  rewrite Z.add_0_r in Hs0. rewrite Hs0, bind_Ret. subst e0.
  change (ngx_rtc_shm_retx_seq (data s0)) with (ngx_rtc_shm_retx_seq (data s0)).
  destruct (retx_seq_entry s0 Heo0) as [-> _]. rewrite bind_Ret. unfold answer.
  fold l. change (match l with [] => None | e0 :: _ => match load l (u16 (sq - entry_seq e0)) with
      | Ret e => if (entry_seq e =? sq) && (zlen e.1 <=? zlen out) then Some e.1 else None
      | Fault => None end end)
    with (match load l (u16 (sq - entry_seq (slot_entry s0))) with
      | Ret e => if (entry_seq e =? sq) && (zlen e.1 <=? zlen out) then Some e.1 else None
      | Fault => None end).
  set (dist := u16 (sq - entry_seq (slot_entry s0))).
  pose proof (u16_range (sq - entry_seq (slot_entry s0))) as Hdr. fold dist in Hdr. unfold is_u16 in Hdr.
  destruct (load l dist) as [e |] eqn:Hld.
  - pose proof (load_bound _ _ _ Hld). destruct (Z.ltb_spec dist (zlen l)); [| lia].
    rewrite retx_mask, u64_mod_1024. rewrite <- Zplus_mod_idemp_l, u64_mod_1024, Zplus_mod_idemp_l.
    destruct (retx_at r l dist e Hrep Hld) as (s & Hs & <- & Hok & Heo). rewrite Hs, bind_Ret.
    destruct (retx_seq_entry s Heo) as [-> _]. rewrite bind_Ret.
    rewrite (zlen_slot_entry s Hok). destruct Hok as [Hd Hl].
    destruct ((_ =? sq) && (len s <=? zlen out)) eqn:Eb; [| done].
    apply andb_prop in Eb as [_ Eb%Z.leb_le].
    rewrite (load_range_in (data s)), bind_Ret by lia. rewrite zdrop_0.
    rewrite store_range_in, bind_Ret by (rewrite ?zlen_ztake by lia; lia).
    rewrite ztake_0, app_nil_l. unfold slot_entry. cbn [fst].
    rewrite Z.add_0_l, (zlen_ztake (len s) (data s)), Hd, Z.min_l by lia. done.
  - destruct (Z.ltb_spec dist (zlen l)); [| done].
    destruct (load_in l dist ltac:(lia)) as [e E]. congruence.
Qed.

(** A consecutively numbered window answers every number it holds. *)
Lemma answer_complete l s i e room :
  consecutive s l -> load l i = Ret e -> zlen l <= 65536 -> zlen e.1 <= room ->
  answer l (entry_seq e) room = Some e.1.
Proof.
  intros Hcons Hi Hl Hroom. pose proof (load_bound _ _ _ Hi) as Hb. unfold answer.
  destruct l as [| e0 l']; [rewrite zlen_nil in Hb; lia |].
  assert (Hd : u16 (entry_seq e - entry_seq e0) = i).
  { rewrite (Hcons i e Hi), (Hcons 0 e0 eq_refl), u16_sub_l, u16_sub_r.
    replace (s + i - (s + 0)) with i by lia. apply u16_small. unfold is_u16. lia. }
  rewrite Hd, Hi, Z.eqb_refl. by destruct (Z.leb_spec (zlen e.1) room); [| lia].
Qed.

Lemma answer_sound l sq room d :
  answer l sq room = Some d -> exists e, e ∈ l /\ e.1 = d /\ entry_seq e = sq /\ zlen d <= room.
Proof.
  unfold answer. destruct l as [| e0 l']; [done |].
  destruct (load (e0 :: l') _) as [e |] eqn:Hl; [| done].
  destruct (_ && _) eqn:Eb; [| done]. intros [= <-].
  apply andb_prop in Eb as [E1%Z.eqb_eq E2%Z.leb_le].
  exists e. split_and!; try done. apply load_ret in Hl as [_ Hl].
  by eapply list_elem_of_lookup_2.
Qed.

(** *** The copy and the sends of a replay *)

(** The packet ends an access unit. *)
Definition last_of_unit (e : entry) : bool :=
  (NGX_RTC_RTP_HEADER_SIZE <? zlen e.1)
  && match load e.1 1 with Ret b => negb (Z.land b NGX_RTC_RTP_MARKER =? 0) | Fault => false end.

Fixpoint first_unit (l : list entry) : list entry :=
  match l with
  | [] => []
  | e :: l => e :: if last_of_unit e then [] else first_unit l
  end.

Lemma closes_entry s :
  slot_ok s -> retx_entry_ok (slot_entry s) -> closes s = Ret (last_of_unit (slot_entry s)).
Proof.
  intros Hok Heo. pose proof (zlen_slot_entry s Hok) as Hz. destruct Hok as [Hd Hl].
  destruct Heo as [Hn _]. unfold closes, last_of_unit. rewrite Hz in *. unfold slot_entry. cbn [fst].
  rewrite load_ztake by lia.
  destruct (load_in (data s) 1 ltac:(lia)) as [b Hb]. by rewrite Hb, bind_Ret.
Qed.

(** The slots [ss] hold the packets [l]. *)
Definition hold (ss : list ngx_rtc_shm_retransmit_slot_t) (l : list entry) : Prop :=
  slot_entry <$> ss = l /\ Forall slot_ok ss.

Lemma copy_loop_eq r l : forall fuel i buf,
  retx_rep r l -> zlen l <= head r -> 0 <= i <= zlen l -> (Z.to_nat (zlen l - i) <= fuel)%nat ->
  zlen buf + (zlen l - i) <= 1024 ->
  exists ss, copy_loop fuel r (head r - zlen l + i) buf = Ret (buf ++ ss) /\
    hold ss (first_unit (zdrop i l)).
Proof.
  induction fuel as [| fuel IH]; intros i buf Hrep Hh Hi Hf Hb; cbn [copy_loop].
  - assert (i = zlen l) as -> by lia. rewrite zdrop_all by lia.
    destruct (Z.ltb_spec (head r - zlen l + zlen l) (head r)); [lia |].
    exists []. rewrite app_nil_r. by repeat split.
  - pose proof Hrep as [Hcap Hlen Hss Hu Hc Hft Hw He]. unfold is_u64 in Hu.
    destruct (Z.ltb_spec (head r - zlen l + i) (head r)).
    2: { assert (i = zlen l) as -> by lia. rewrite zdrop_all by lia.
         exists []. rewrite app_nil_r. by repeat split. }
    rewrite Hcap, retx_mask. destruct (load_in l i ltac:(lia)) as [e Hle].
    destruct (retx_at r l i e Hrep Hle) as (s & Hs & <- & Hok & Heo). rewrite Hs, bind_Ret.
    unfold NGX_RTC_SHM_RETX_RING_CAP. destruct (Z.leb_spec 1024 (zlen buf)); [lia |].
    rewrite (closes_entry s Hok Heo), bind_Ret.
    pose proof Hle as [_ Hlk]%load_ret.
    assert (Hdrop : zdrop i l = slot_entry s :: zdrop (i + 1) l).
    { unfold zdrop. rewrite (drop_S _ _ _ Hlk). do 2 f_equal. lia. }
    rewrite Hdrop. cbn [first_unit]. destruct (last_of_unit (slot_entry s)).
    + exists [s]. split; [done |]. split; [done | by constructor].
    + rewrite u64_small by (unfold is_u64; lia).
      replace (head r - zlen l + i + 1) with (head r - zlen l + (i + 1)) by lia.
      destruct (IH (i + 1) (buf ++ [s])) as (ss & E & [Hm Hall]); try done; try lia; [zl |].
      exists (s :: ss). rewrite E, <- app_assoc. split; [done |]. split.
      * rewrite fmap_cons. by f_equal.
      * by constructor.
Qed.

(** Where the replay starts: the latest keyframe, or the oldest packet when that keyframe
    is no longer held. *)
Definition replay_from (r : ngx_rtc_shm_retransmit_t) (l : list entry) : Z :=
  Z.max 0 (gop_start r - (head r - zlen l)).

Lemma retx_copy_eq r l :
  retx_rep r l -> zlen l <= head r -> gop_start r <= head r ->
  exists ss, retx_copy r = Ret ss /\ hold ss (first_unit (zdrop (replay_from r l) l)).
Proof.
  intros Hrep Hh Hg. pose proof Hrep as [Hcap Hlen Hss Hu Hc Hft Hw He]. unfold is_u64 in Hu.
  unfold retx_copy. rewrite Hc. pose proof (zlen_nonneg l).
  destruct (Z.eqb_spec (zlen l) 0) as [H0 |].
  { exists []. rewrite zdrop_all by (rewrite H0; unfold replay_from; lia). by repeat split. }
  cbv zeta. rewrite u64_small by (unfold is_u64; lia).
  set (i := replay_from r l).
  assert (Hst : (if head r - zlen l <? gop_start r then gop_start r else head r - zlen l)
                = head r - zlen l + i) by (unfold i, replay_from; zcase).
  rewrite Hst. destruct (Z.leb_spec i (zlen l)); [| unfold i, replay_from in *; lia].
  assert (Hi : 0 <= i) by (unfold i, replay_from; lia). clearbody i.
  destruct (copy_loop_eq r l (Z.to_nat (zlen l)) i [] Hrep Hh) as (ss & E & Hs);
    [lia | lia | rewrite zlen_nil; lia |].
  by exists ss.
Qed.

(** Offering packets in turn to [cb] until one is refused. *)
Fixpoint offer {A} (cb : A -> octets -> Z -> Z -> outcome (Z * A))
    (ss : list ngx_rtc_shm_retransmit_slot_t) (a : A) : outcome A :=
  match ss with
  | [] => Ret a
  | s :: ss =>
      '(rc, a) ← cb a (data s) (len s) (is_gop_start s);
      if negb (rc =? 0) then Ret a else offer cb ss a
  end.

(** The copy already ended with the packet the send loop stops at. *)
Lemma send_loop_eq {A} (cb : A -> octets -> Z -> Z -> outcome (Z * A)) l : forall ss a,
  Forall retx_entry_ok l -> hold ss (first_unit l) ->
  send_loop cb ss a = offer cb ss a.
Proof.
  induction l as [| e l IH]; intros ss a He [Hm Hok]; cbn [first_unit] in Hm.
  { apply fmap_nil_inv in Hm as ->. done. }
  destruct ss as [| s ss]; [done |]. rewrite fmap_cons in Hm. injection Hm as <- Hm.
  apply Forall_cons_1 in He as [He Hel]. apply Forall_cons_1 in Hok as [Hs Hok].
  cbn [send_loop offer]. destruct (cb a (data s) (len s) (is_gop_start s)) as [[rc a'] |]; [| done].
  rewrite !bind_Ret. destruct (negb (rc =? 0)); [done |].
  rewrite (closes_entry s Hs He), bind_Ret. destruct (last_of_unit (slot_entry s)).
  - apply fmap_nil_inv in Hm as ->. done.
  - by apply IH.
Qed.

(** What the copy gives the callback is in bounds. *)
Definition slot_fits (s : ngx_rtc_shm_retransmit_slot_t) : Prop := 12 <= len s <= zlen (data s).

Lemma hold_fits l : forall ss, Forall retx_entry_ok l -> hold ss (first_unit l) -> Forall slot_fits ss.
Proof.
  induction l as [| e l IH]; intros ss He [Hm Hok]; cbn [first_unit] in Hm.
  { by apply fmap_nil_inv in Hm as ->. }
  destruct ss as [| s ss]; [done |]. rewrite fmap_cons in Hm. injection Hm as <- Hm.
  apply Forall_cons_1 in He as [(H1 & _ & _) Hel]. apply Forall_cons_1 in Hok as [[Hs Hl] Hok].
  constructor.
  - unfold slot_fits, slot_entry in *. cbn [fst] in H1. rewrite zlen_ztake in H1 by lia. lia.
  - destruct (last_of_unit (slot_entry s)); [by apply fmap_nil_inv in Hm as -> | by apply IH].
Qed.
End Retransmit.
