(* ===== verification/Shm.v ===== *)
(** The cross-worker registry of src/ngx_rtc_shm.c: sources by name and session skeletons
    in the slab pool, their subscriber lists, the publish right of a source, and the sweep
    that reclaims what nobody needs.

    Every function takes the pool mutex for its whole body, so a call is one step and a
    schedule of the workers is a sequence of calls.  The slab is explicit: an address that
    is not in [sources] or [sessions] is free, and an access through it is [Fault].  What
    [ngx_slab_alloc_locked] returns and the clock [ngx_current_msec] are arguments; the
    queues and the tree are the interfaces of Nginx.v.

    The invariant and the lemmas on each call are in ShmInv.v, the properties in
    ShmProps.v. *)

From S2P Require Import Prelude Nginx Retransmit.
From stdpp Require Import list gmap.

#[local] Open Scope Z_scope.

Module Shm.

Definition NGX_OK : Z := 0.
Definition NGX_ERROR : Z := -1.
Definition NGX_BUSY : Z := -3.
Definition NGX_DECLINED : Z := -5.

Definition NGX_RTC_SHM_SOURCE_NAME_MAX : Z := 128.
Definition NGX_RTC_SHM_UFRAG_MAX : Z := 64.
Definition NGX_RTC_SHM_PWD_MAX : Z := 256.
Definition NGX_RTC_SHM_SESSION_EXPIRE_MS : Z := 30000.
Definition NGX_RTC_SHM_SOURCE_EXPIRE_MS : Z := 10000.
Definition NGX_RTC_SHM_PUBLISH_GRACE_MS : Z := 10000.
Definition NGX_RTC_PUBLISHER_NONE : Z := 0.
Definition NGX_RTC_PUBLISHER_RTMP : Z := 1.
Definition NGX_RTC_PUBLISHER_WHIP : Z := 2.
Definition NGX_RTC_SHM_LAYOUT : Z := 3.
Definition NGX_RTC_PAYLOAD_TYPE_H264 : Z := 102.
Definition NGX_RTC_PAYLOAD_TYPE_OPUS : Z := 111.
Definition NGX_RTC_SESSION_STATE_NEW : Z := 1.
Definition NGX_RTC_SESSION_STATE_SRTP_READY : Z := 4.

(** [(ngx_msec_int_t) x] on the 64-bit targets the module is built for. *)
Definition s64 (x : Z) : Z :=
  if u64 x <? 9223372036854775808 then u64 x else u64 x - 18446744073709551616.

(** A source.  [name] is name[0 .. sn.str.len); the RTP positions, the parameter sets and
    the lock-cost sums, which this unit only stores for the statistics page, are left out. *)
Record ngx_rtc_shm_source_t := {
  name : octets;
  publishing : Z;
  publisher_kind : Z;
  expires : Z;
  publisher_seen_ms : Z;
  publisher_slot : Z;
  video_ssrc : Z;
  video_pt : Z;
  audio_ssrc : Z;
  audio_pt : Z;
  video_pkts : Z;
  video_octets : Z;
  audio_pkts : Z;
  audio_octets : Z;
  send_failed : Z;
  send_eagain : Z;
  subscribers_version : Z;
  remote_subscribers : Z;
  retransmit : ptr Retransmit.ngx_rtc_shm_retransmit_t;
  retransmit_alloc_failed : Z;
  retx_append_locked : Z;
  retx_replay_count : Z;
  retx_replay_slots : Z
}.

Definition source_eta (s : ngx_rtc_shm_source_t) : ngx_rtc_shm_source_t :=
  {| name := name s; publishing := publishing s; publisher_kind := publisher_kind s;
     expires := expires s; publisher_seen_ms := publisher_seen_ms s;
     publisher_slot := publisher_slot s; video_ssrc := video_ssrc s; video_pt := video_pt s;
     audio_ssrc := audio_ssrc s; audio_pt := audio_pt s; video_pkts := video_pkts s;
     video_octets := video_octets s; audio_pkts := audio_pkts s;
     audio_octets := audio_octets s; send_failed := send_failed s;
     send_eagain := send_eagain s; subscribers_version := subscribers_version s;
     remote_subscribers := remote_subscribers s; retransmit := retransmit s;
     retransmit_alloc_failed := retransmit_alloc_failed s;
     retx_append_locked := retx_append_locked s; retx_replay_count := retx_replay_count s;
     retx_replay_slots := retx_replay_slots s |}.
Definition set_publishing := ltac:(setter source_eta publishing).
Definition set_publisher_kind := ltac:(setter source_eta publisher_kind).
Definition set_expires := ltac:(setter source_eta expires).
Definition set_publisher_seen_ms := ltac:(setter source_eta publisher_seen_ms).
Definition set_publisher_slot := ltac:(setter source_eta publisher_slot).
Definition set_video_ssrc := ltac:(setter source_eta video_ssrc).
Definition set_video_pt := ltac:(setter source_eta video_pt).
Definition set_audio_ssrc := ltac:(setter source_eta audio_ssrc).
Definition set_audio_pt := ltac:(setter source_eta audio_pt).
Definition set_video_pkts := ltac:(setter source_eta video_pkts).
Definition set_video_octets := ltac:(setter source_eta video_octets).
Definition set_audio_pkts := ltac:(setter source_eta audio_pkts).
Definition set_audio_octets := ltac:(setter source_eta audio_octets).
Definition set_send_failed := ltac:(setter source_eta send_failed).
Definition set_send_eagain := ltac:(setter source_eta send_eagain).
Definition set_subscribers_version := ltac:(setter source_eta subscribers_version).
Definition set_remote_subscribers := ltac:(setter source_eta remote_subscribers).
Definition set_retransmit := ltac:(setter source_eta retransmit).
Definition set_retransmit_alloc_failed := ltac:(setter source_eta retransmit_alloc_failed).
Definition set_retx_append_locked := ltac:(setter source_eta retx_append_locked).
Definition set_retx_replay_count := ltac:(setter source_eta retx_replay_count).
Definition set_retx_replay_slots := ltac:(setter source_eta retx_replay_slots).

(** A session skeleton. *)
Record ngx_rtc_shm_session_t := {
  source : ptr Z;
  id : Z;
  ice_ufrag : octets;
  ice_pwd : octets;
  s_video_pt : Z;
  s_audio_pt : Z;
  twcc_video_ext : Z;
  twcc_audio_ext : Z;
  s_publishing : Z;
  srtp_ready : Z;
  owner_slot : Z;
  close_requested : Z;
  s_expires : Z;
  twcc_lost : Z;
  twcc_received : Z;
  pacer_bps : Z;
  drop_pacer : Z;
  drop_gop : Z;
  state : Z
}.

Definition session_eta (s : ngx_rtc_shm_session_t) : ngx_rtc_shm_session_t :=
  {| source := source s; id := id s; ice_ufrag := ice_ufrag s; ice_pwd := ice_pwd s;
     s_video_pt := s_video_pt s; s_audio_pt := s_audio_pt s;
     twcc_video_ext := twcc_video_ext s; twcc_audio_ext := twcc_audio_ext s;
     s_publishing := s_publishing s; srtp_ready := srtp_ready s; owner_slot := owner_slot s;
     close_requested := close_requested s; s_expires := s_expires s;
     twcc_lost := twcc_lost s; twcc_received := twcc_received s; pacer_bps := pacer_bps s;
     drop_pacer := drop_pacer s; drop_gop := drop_gop s; state := state s |}.
Definition set_srtp_ready := ltac:(setter session_eta srtp_ready).
Definition set_owner_slot := ltac:(setter session_eta owner_slot).
Definition set_close_requested := ltac:(setter session_eta close_requested).
Definition set_s_expires := ltac:(setter session_eta s_expires).
Definition set_twcc_lost := ltac:(setter session_eta twcc_lost).
Definition set_twcc_received := ltac:(setter session_eta twcc_received).
Definition set_pacer_bps := ltac:(setter session_eta pacer_bps).
Definition set_drop_pacer := ltac:(setter session_eta drop_pacer).
Definition set_drop_gop := ltac:(setter session_eta drop_gop).
Definition set_state := ltac:(setter session_eta state).

(** The queue heads and the links embedded in the structures. *)
Inductive queue_id := source_list | session_list | subscribers (src : Z).
Inductive node := src_queue (src : Z) | queue (sess : Z) | sub_queue (sess : Z).

#[global] Instance queue_id_eq_dec : EqDecision queue_id.
Proof. solve_decision. Defined.
#[global] Instance node_eq_dec : EqDecision node.
Proof. solve_decision. Defined.

(** [ngx_queue_data]: the structure a link is embedded in. *)
Definition data_of (n : node) : Z := match n with src_queue a | queue a | sub_queue a => a end.

(** The hash comes from nginx. *)
Class Crc := ngx_crc32_long : octets -> Z.

Section shm.
Context `{HC : Crc}.
Context {Q T : Type} `{HQ : Queues queue_id node Q, !QueueLaws queue_id node Q}.
Context `{HT : StrTree T, !StrTreeLaws T}.

(** The root table, with what is allocated in the slab; the media rings are in ShmRing.v. *)
Record ngx_rtc_shm_ctx_t := {
  sources : gmap Z ngx_rtc_shm_source_t;
  sessions : gmap Z ngx_rtc_shm_session_t;
  queues : Q;
  source_tree : T;
  next_session_id : Z;
  nworkers : Z;
  layout : Z
}.
Abbreviation shm := ngx_rtc_shm_ctx_t.

Definition shm_eta (r : shm) : shm :=
  {| sources := sources r; sessions := sessions r; queues := queues r;
     source_tree := source_tree r; next_session_id := next_session_id r;
     nworkers := nworkers r; layout := layout r |}.
Definition set_sources := ltac:(setter shm_eta sources).
Definition set_sessions := ltac:(setter shm_eta sessions).
Definition set_queues := ltac:(setter shm_eta queues).
Definition set_source_tree := ltac:(setter shm_eta source_tree).
Definition set_next_session_id := ltac:(setter shm_eta next_session_id).

(** Accesses through a pointer. *)
Definition source_at (r : shm) (a : Z) : outcome ngx_rtc_shm_source_t :=
  match sources r !! a with Some s => Ret s | None => Fault end.
Definition session_at (r : shm) (x : Z) : outcome ngx_rtc_shm_session_t :=
  match sessions r !! x with Some s => Ret s | None => Fault end.
Definition put_source (a : Z) (s : ngx_rtc_shm_source_t) (r : shm) : shm :=
  set_sources (<[a := s]> (sources r)) r.
Definition put_session (x : Z) (s : ngx_rtc_shm_session_t) (r : shm) : shm :=
  set_sessions (<[x := s]> (sessions r)) r.

Definition list_fuel (r : shm) (i : queue_id) : nat := length (q_list i (queues r)).

(** The guards every call opens with: a name or a ufrag of acceptable length. *)
Definition valid_name (n : octets) : bool :=
  (0 <? zlen n) && (zlen n <? NGX_RTC_SHM_SOURCE_NAME_MAX).
Definition valid_ufrag (u : octets) : bool :=
  (0 <? zlen u) && (zlen u <? NGX_RTC_SHM_UFRAG_MAX).

(** *** Lookups, under the mutex *)

Definition ngx_rtc_shm_source_locked_lookup (ctx : shm) (n : octets) : ptr Z :=
  ngx_str_rbtree_lookup (source_tree ctx) (ngx_crc32_long n, n).

(** [ngx_strlen]: up to the first zero octet. *)
Fixpoint ngx_strlen (b : octets) : Z :=
  match b with
  | [] => 0
  | x :: b => if x =? 0 then 0 else 1 + ngx_strlen b
  end.

Definition ufrag_is (u : octets) (s : ngx_rtc_shm_session_t) : bool :=
  (zlen u =? ngx_strlen (ice_ufrag s)) && bool_decide (ztake (zlen u) (ice_ufrag s) = u).

(** The search of the session list that several calls make. *)
Definition session_search (ctx : shm) (p : ngx_rtc_shm_session_t -> bool) : outcome (ptr Z) :=
  n ← queue_find (list_fuel ctx session_list) session_list
        (fun n => s ← session_at ctx (data_of n); Ret (p s))
        (queues ctx) (ngx_queue_head session_list (queues ctx));
  Ret (match n with None => NULL | Some n => Ref (data_of n) end).

Definition ngx_rtc_shm_session_locked_lookup (ctx : shm) (u : octets) : outcome (ptr Z) :=
  if zlen u =? 0 then Ret NULL else session_search ctx (ufrag_is u).

Definition points_to (a : Z) (s : ngx_rtc_shm_session_t) : bool :=
  match source s with NULL => false | Ref b => b =? a end.

Definition ngx_rtc_shm_source_referenced_locked (ctx : shm) (a : Z) : outcome Z :=
  h ← session_search ctx (points_to a); Ret (if is_null h then 0 else 1).

(** *** Freeing, under the mutex *)

Definition free_source (a : Z) (ctx : shm) : outcome shm :=
  q ← ngx_queue_remove (src_queue a) (queues ctx);
  Ret (ctx |> set_queues q |> set_source_tree (ngx_rbtree_delete (source_tree ctx) a)
           |> set_sources (delete a (sources ctx))).

(** The part for a skeleton that was subscribed. *)
Definition unlink_subscriber (ctx : shm) (x a : Z) (s : ngx_rtc_shm_session_t) : outcome shm :=
  if decide (q_link (sub_queue x) (queues ctx) = Self) then Ret ctx
  else
    q ← ngx_queue_remove (sub_queue x) (queues ctx);
    src ← source_at ctx a;
    let src :=
      if negb (owner_slot s =? publisher_slot src) && (0 <? remote_subscribers src)
      then set_remote_subscribers (u64 (remote_subscribers src - 1)) src else src in
    Ret (ctx |> set_queues q
             |> put_source a (set_subscribers_version (u64 (subscribers_version src + 1)) src)).

Definition ngx_rtc_shm_session_free_locked (now : Z) (ctx : shm) (x : Z) : outcome shm :=
  s ← session_at ctx x;
  ctx ← match source s with NULL => Ret ctx | Ref a => unlink_subscriber ctx x a s end;
  q ← ngx_queue_remove (queue x) (queues ctx);
  let ctx := ctx |> set_queues q |> set_sessions (delete x (sessions ctx)) in
  match source s with
  | NULL => Ret ctx
  | Ref a =>
      src ← source_at ctx a;
      match q_list (subscribers a) (queues ctx) with
      | [] =>
          if (publishing src =? 0) && (expires src =? 0)
          then Ret (put_source a (set_expires (u64 (now + NGX_RTC_SHM_SOURCE_EXPIRE_MS)) src) ctx)
          else Ret ctx
      | _ => Ret ctx
      end
  end.

(** *** The sweep *)

(** [0 != e && (forced || now >= e)]. *)
Definition due (now forced e : Z) : bool :=
  negb (e =? 0) && (negb (forced =? 0) || (e <=? now)).

Definition expire_session (now forced : Z) (n : node) (ctx : shm) : outcome shm :=
  s ← session_at ctx (data_of n);
  if negb (owner_slot s =? -1) then Ret ctx
  else if due now forced (s_expires s)
  then ngx_rtc_shm_session_free_locked now ctx (data_of n) else Ret ctx.

(** The publisher of a publishing source still shows signs of life. *)
Definition fresh_publisher (now : Z) (src : ngx_rtc_shm_source_t) : bool :=
  negb (publisher_seen_ms src =? 0)
  && (s64 (now - publisher_seen_ms src) <? NGX_RTC_SHM_PUBLISH_GRACE_MS).

Definition drop_publisher (now : Z) (src : ngx_rtc_shm_source_t) : ngx_rtc_shm_source_t :=
  let src := src |> set_publishing 0 |> set_publisher_kind NGX_RTC_PUBLISHER_NONE in
  if expires src =? 0 then set_expires (u64 (now + NGX_RTC_SHM_SOURCE_EXPIRE_MS)) src else src.

Definition expire_source (now forced : Z) (n : node) (ctx : shm) : outcome shm :=
  let a := data_of n in
  src ← source_at ctx a;
  if negb (publishing src =? 0) && fresh_publisher now src then Ret ctx
  else
    let src := if publishing src =? 0 then src else drop_publisher now src in
    let ctx := put_source a src ctx in
    match q_list (subscribers a) (queues ctx) with
    | _ :: _ => Ret ctx
    | [] =>
        if due now forced (expires src) then
          h ← ngx_rtc_shm_source_referenced_locked ctx a;
          if h =? 0 then free_source a ctx else Ret ctx
        else Ret ctx
    end.

Definition ngx_rtc_shm_expire_locked (now : Z) (ctx : shm) (forced : Z) : outcome shm :=
  ctx ← queue_each (list_fuel ctx session_list) session_list queues (expire_session now forced)
          ctx (ngx_queue_head session_list (queues ctx));
  queue_each (list_fuel ctx source_list) source_list queues (expire_source now forced)
    ctx (ngx_queue_head source_list (queues ctx)).

Definition ngx_rtc_shm_expire (now : Z) (ctx : ptr shm) (forced : Z) : outcome (ptr shm) :=
  match ctx with
  | NULL => Ret NULL
  | Ref c => c ← ngx_rtc_shm_expire_locked now c forced; Ret (Ref c)
  end.

(** [ngx_slab_alloc_locked], and once more after a forced sweep when it fails. *)
Definition slab_alloc (alloc retry : ptr Z) (now : Z) (ctx : shm) : outcome (ptr Z * shm) :=
  match alloc with
  | Ref a => Ret (Ref a, ctx)
  | NULL => ctx ← ngx_rtc_shm_expire_locked now ctx 1; Ret (retry, ctx)
  end.

(** *** Sources *)

(** [v_ssrc] and [a_ssrc] are the two [ngx_random] draws. *)
Definition new_source (now v_ssrc a_ssrc : Z) (n : octets) : ngx_rtc_shm_source_t :=
  {| name := n; publishing := 0; publisher_kind := 0;
     expires := u64 (now + NGX_RTC_SHM_SOURCE_EXPIRE_MS); publisher_seen_ms := 0;
     publisher_slot := -1; video_ssrc := u32 v_ssrc; video_pt := NGX_RTC_PAYLOAD_TYPE_H264;
     audio_ssrc := u32 a_ssrc; audio_pt := NGX_RTC_PAYLOAD_TYPE_OPUS; video_pkts := 0;
     video_octets := 0; audio_pkts := 0; audio_octets := 0; send_failed := 0;
     send_eagain := 0; subscribers_version := 0; remote_subscribers := 0;
     retransmit := NULL; retransmit_alloc_failed := 0; retx_append_locked := 0;
     retx_replay_count := 0; retx_replay_slots := 0 |}.

Definition ngx_rtc_shm_source_get (alloc retry : ptr Z) (now v_ssrc a_ssrc : Z) (ctx : shm)
    (n : octets) : outcome (ptr Z * shm) :=
  if negb (valid_name n) then Ret (NULL, ctx)
  else
    match ngx_rtc_shm_source_locked_lookup ctx n with
    | Ref a => Ret (Ref a, ctx)
    | NULL =>
        '(p, ctx) ← slab_alloc alloc retry now ctx;
        match p with
        | NULL => Ret (NULL, ctx)
        | Ref a =>
            let q := queues ctx |> ngx_queue_zero (src_queue a) |> ngx_queue_init (src_queue a)
                       |> ngx_queue_init_head (subscribers a)
                       |> ngx_queue_insert_head source_list (src_queue a) in
            Ret (Ref a,
                 ctx |> put_source a (new_source now v_ssrc a_ssrc n)
                     |> set_source_tree (ngx_rbtree_insert (source_tree ctx) (ngx_crc32_long n, n) a)
                     |> set_queues q)
        end
    end.

Definition ngx_rtc_shm_source_remove (ctx : shm) (n : octets) : outcome shm :=
  if negb (valid_name n) then Ret ctx
  else
    match ngx_rtc_shm_source_locked_lookup ctx n with
    | NULL => Ret ctx
    | Ref a =>
        src ← source_at ctx a;
        match q_list (subscribers a) (queues ctx) with
        | _ :: _ => Ret ctx
        | [] =>
            if negb (publishing src =? 0) then Ret ctx
            else
              h ← ngx_rtc_shm_source_referenced_locked ctx a;
              if negb (h =? 0) then Ret ctx else free_source a ctx
        end
    end.

(** The calls that find a source by name and write some of its fields. *)
Definition update_source (ctx : shm) (n : octets)
    (f : ngx_rtc_shm_source_t -> ngx_rtc_shm_source_t) : outcome shm :=
  if negb (valid_name n) then Ret ctx
  else
    match ngx_rtc_shm_source_locked_lookup ctx n with
    | NULL => Ret ctx
    | Ref a => src ← source_at ctx a; Ret (put_source a (f src) ctx)
    end.

Definition ngx_rtc_shm_source_add_send_stats (ctx : shm) (n : octets) (failed eagain : Z)
    : outcome shm :=
  update_source ctx n (fun src => src |> set_send_failed (u64 (send_failed src + failed))
                                      |> set_send_eagain (u64 (send_eagain src + eagain))).

Definition ngx_rtc_shm_source_set_pt (ctx : shm) (n : octets) (v a : Z) : outcome shm :=
  update_source ctx n (fun src =>
    let src := if v =? 0 then src else set_video_pt v src in
    if a =? 0 then src else set_audio_pt a src).

Definition ngx_rtc_shm_source_set_ssrc (ctx : shm) (n : octets) (v a : Z) : outcome shm :=
  update_source ctx n (fun src =>
    let src := if v =? 0 then src else set_video_ssrc v src in
    if a =? 0 then src else set_audio_ssrc a src).

(** *** The publish right *)

Definition claimed (now kind : Z) (src : ngx_rtc_shm_source_t) : ngx_rtc_shm_source_t :=
  src |> set_publisher_kind kind |> set_publishing 1 |> set_expires 0
      |> set_publisher_seen_ms now.

Definition ngx_rtc_shm_source_try_publish (now : Z) (ctx : shm) (n : octets) (kind : Z)
    : outcome (Z * shm) :=
  if negb (valid_name n) then Ret (NGX_ERROR, ctx)
  else
    match ngx_rtc_shm_source_locked_lookup ctx n with
    | NULL => Ret (NGX_ERROR, ctx)
    | Ref a =>
        src ← source_at ctx a;
        if negb (publisher_kind src =? 0) && negb (publisher_kind src =? kind)
        then Ret (NGX_BUSY, ctx)
        else Ret (NGX_OK, put_source a (claimed now kind src) ctx)
    end.

Definition ngx_rtc_shm_source_release_publish (now : Z) (ctx : shm) (n : octets) (kind : Z)
    : outcome shm :=
  if negb (valid_name n) then Ret ctx
  else
    match ngx_rtc_shm_source_locked_lookup ctx n with
    | NULL => Ret ctx
    | Ref a =>
        src ← source_at ctx a;
        if negb (publisher_kind src =? kind) then Ret ctx
        else
          let src := src |> set_publisher_kind NGX_RTC_PUBLISHER_NONE |> set_publishing 0 in
          let src :=
            match q_list (subscribers a) (queues ctx) with
            | _ :: _ => set_expires 0 src
            | [] => if expires src =? 0
                    then set_expires (u64 (now + NGX_RTC_SHM_SOURCE_EXPIRE_MS)) src else src
            end in
          Ret (put_source a src ctx)
    end.

(** *** Session skeletons *)

(** What the caller asks for. *)
Record offer := {
  o_ufrag : octets;
  o_pwd : octets;
  o_name : octets;
  o_video_pt : Z;
  o_audio_pt : Z;
  o_twcc_video_ext : Z;
  o_twcc_audio_ext : Z;
  o_publishing : Z
}.

Definition new_session (now i a : Z) (o : offer) : ngx_rtc_shm_session_t :=
  {| source := Ref a; id := i; ice_ufrag := o_ufrag o; ice_pwd := o_pwd o;
     s_video_pt := o_video_pt o; s_audio_pt := o_audio_pt o;
     twcc_video_ext := o_twcc_video_ext o; twcc_audio_ext := o_twcc_audio_ext o;
     s_publishing := o_publishing o; srtp_ready := 0; owner_slot := -1; close_requested := 0;
     s_expires := u64 (now + NGX_RTC_SHM_SESSION_EXPIRE_MS); twcc_lost := 0;
     twcc_received := 0; pacer_bps := 0; drop_pacer := 0; drop_gop := 0;
     state := NGX_RTC_SESSION_STATE_NEW |}.

Definition valid_offer (o : offer) : bool :=
  valid_ufrag (o_ufrag o) && (0 <? zlen (o_pwd o)) && (zlen (o_pwd o) <? NGX_RTC_SHM_PWD_MAX)
  && valid_name (o_name o).

Definition ngx_rtc_shm_session_add (alloc retry : ptr Z) (now : Z) (ctx : shm) (o : offer)
    : outcome (ptr Z * shm) :=
  if negb (valid_offer o) then Ret (NULL, ctx)
  else
    match ngx_rtc_shm_source_locked_lookup ctx (o_name o) with
    | NULL => Ret (NULL, ctx)
    | Ref src =>
        '(p, ctx) ← slab_alloc alloc retry now ctx;
        match p with
        | NULL => Ret (NULL, ctx)
        | Ref x =>
            let q := queues ctx |> ngx_queue_zero (queue x) |> ngx_queue_zero (sub_queue x)
                       |> ngx_queue_init (queue x) |> ngx_queue_init (sub_queue x)
                       |> ngx_queue_insert_head session_list (queue x) in
            Ret (Ref x,
                 ctx |> put_session x (new_session now (next_session_id ctx) src o)
                     |> set_next_session_id (u64 (next_session_id ctx + 1))
                     |> set_queues q)
        end
    end.

(** The calls that find a skeleton by ufrag and act on it. *)
Definition with_session {A} (ctx : shm) (u : octets) (dflt none : A)
    (f : Z -> ngx_rtc_shm_session_t -> outcome (A * shm)) : outcome (A * shm) :=
  if negb (valid_ufrag u) then Ret (dflt, ctx)
  else
    p ← ngx_rtc_shm_session_locked_lookup ctx u;
    match p with
    | NULL => Ret (none, ctx)
    | Ref x => s ← session_at ctx x; f x s
    end.

(** Another worker owns the skeleton. *)
Definition owned_elsewhere (slot : Z) (s : ngx_rtc_shm_session_t) : bool :=
  negb (owner_slot s =? -1) && negb (owner_slot s =? slot).

Definition bound (slot : Z) (s : ngx_rtc_shm_session_t) : ngx_rtc_shm_session_t :=
  if owner_slot s =? -1 then set_owner_slot slot s else s.

(** The immutable fields copied out; None stands for the zeroed structure. *)
Record snapshot := {
  n_id : Z;
  n_ice_ufrag : octets;
  n_ice_pwd : octets;
  n_video_pt : Z;
  n_audio_pt : Z;
  n_twcc_video_ext : Z;
  n_twcc_audio_ext : Z;
  n_publishing : Z;
  n_srtp_ready : Z;
  n_source : option (octets * Z * Z * Z * Z)
}.

Definition ngx_rtc_shm_session_bind (ctx : shm) (u : octets) (slot : Z)
    : outcome (Z * option snapshot * shm) :=
  with_session ctx u (NGX_ERROR, None) (NGX_ERROR, None) (fun x s =>
    if owned_elsewhere slot s then Ret (NGX_DECLINED, None, ctx)
    else
      let s := bound slot s in
      src ← match source s with
            | NULL => Ret None
            | Ref a =>
                src ← source_at ctx a;
                Ret (Some (name src, video_ssrc src, audio_ssrc src, video_pt src, audio_pt src))
            end;
      Ret (NGX_OK,
           Some {| n_id := id s; n_ice_ufrag := ice_ufrag s; n_ice_pwd := ice_pwd s;
                   n_video_pt := s_video_pt s; n_audio_pt := s_audio_pt s;
                   n_twcc_video_ext := twcc_video_ext s; n_twcc_audio_ext := twcc_audio_ext s;
                   n_publishing := s_publishing s;
                   n_srtp_ready := if srtp_ready s =? 0 then 0 else 1; n_source := src |},
           put_session x s ctx)).

Definition activated (slot : Z) (s : ngx_rtc_shm_session_t) : ngx_rtc_shm_session_t :=
  bound slot s |> set_srtp_ready 1 |> set_state NGX_RTC_SESSION_STATE_SRTP_READY
               |> set_s_expires 0.

(** The source gains a viewer. *)
Definition subscribed (s : ngx_rtc_shm_session_t) (src : ngx_rtc_shm_source_t)
    : ngx_rtc_shm_source_t :=
  let src := src |> set_subscribers_version (u64 (subscribers_version src + 1))
                 |> set_expires 0 in
  if owner_slot s =? publisher_slot src then src
  else set_remote_subscribers (u64 (remote_subscribers src + 1)) src.

Definition ngx_rtc_shm_session_activate (ctx : shm) (u : octets) (slot : Z) : outcome (Z * shm) :=
  with_session ctx u NGX_ERROR NGX_ERROR (fun x s =>
    if owned_elsewhere slot s then Ret (NGX_DECLINED, ctx)
    else
      let s := activated slot s in
      let ctx := put_session x s ctx in
      match source s with
      | NULL => Ret (NGX_OK, ctx)
      | Ref a =>
          if (s_publishing s =? 0) && bool_decide (q_link (sub_queue x) (queues ctx) = Self) then
            src ← source_at ctx a;
            Ret (NGX_OK,
                 ctx |> set_queues (ngx_queue_insert_head (subscribers a) (sub_queue x) (queues ctx))
                     |> put_source a (subscribed s src))
          else Ret (NGX_OK, ctx)
      end).

Definition ngx_rtc_shm_session_remove_if_owner (now : Z) (ctx : shm) (u : octets) (slot : Z)
    : outcome shm :=
  '(_, ctx) ← with_session ctx u tt tt (fun x s =>
    if owned_elsewhere slot s then Ret (tt, ctx)
    else ctx ← ngx_rtc_shm_session_free_locked now ctx x; Ret (tt, ctx));
  Ret ctx.

Definition ngx_rtc_shm_session_request_close (ctx : shm) (i : Z) : outcome (Z * shm) :=
  if i =? 0 then Ret (NGX_ERROR, ctx)
  else
    p ← session_search ctx (fun s => id s =? i);
    match p with
    | NULL => Ret (NGX_ERROR, ctx)
    | Ref x => s ← session_at ctx x; Ret (NGX_OK, put_session x (set_close_requested 1 s) ctx)
    end.

Definition ngx_rtc_shm_session_is_close_requested (ctx : shm) (u : octets) : outcome Z :=
  '(c, _) ← with_session ctx u 0 0 (fun _ s =>
    Ret (if close_requested s =? 0 then 0 else 1, ctx));
  Ret c.

Definition ngx_rtc_shm_session_set_stats (ctx : shm) (u : octets) (lost received bps pacer gop : Z)
    : outcome shm :=
  '(_, ctx) ← with_session ctx u tt tt (fun x s =>
    Ret (tt, put_session x (s |> set_twcc_lost lost |> set_twcc_received received
                              |> set_pacer_bps bps |> set_drop_pacer pacer
                              |> set_drop_gop gop) ctx));
  Ret ctx.

Definition ngx_rtc_shm_session_set_state (ctx : shm) (u : octets) (slot st : Z) : outcome shm :=
  '(_, ctx) ← with_session ctx u tt tt (fun x s =>
    if (owner_slot s =? -1) || (owner_slot s =? slot)
    then Ret (tt, put_session x (set_state st s) ctx) else Ret (tt, ctx));
  Ret ctx.

Definition ngx_rtc_shm_layout_check (ctx : ptr shm) : Z :=
  match ctx with
  | NULL => NGX_ERROR
  | Ref c => if layout c =? NGX_RTC_SHM_LAYOUT then NGX_OK else NGX_ERROR
  end.

Definition close_viewer (n : node) (ctx : shm) : outcome shm :=
  s ← session_at ctx (data_of n); Ret (put_session (data_of n) (set_close_requested 1 s) ctx).

Definition ngx_rtc_shm_source_request_close (ctx : shm) (n : octets) : outcome (Z * shm) :=
  if negb (valid_name n) then Ret (NGX_ERROR, ctx)
  else
    match ngx_rtc_shm_source_locked_lookup ctx n with
    | NULL => Ret (NGX_ERROR, ctx)
    | Ref a =>
        _ ← source_at ctx a;
        ctx ← queue_each (list_fuel ctx (subscribers a)) (subscribers a) queues close_viewer ctx
                (ngx_queue_head (subscribers a) (queues ctx));
        Ret (NGX_OK, ctx)
    end.

(** A subscriber a snapshot reports: ready, and owned by a worker that exists. *)
Definition reported (ctx : shm) (s : ngx_rtc_shm_session_t) : bool :=
  negb (srtp_ready s =? 0) && (0 <=? owner_slot s) && (owner_slot s <? s64 (nworkers ctx)).

(** The loop of ngx_rtc_shm_source_snapshot: [acc] is ids[0 .. n) with slots[0 .. n). *)
Fixpoint snapshot_loop (fuel : nat) (ctx : shm) (a max : Z) (n : option node)
    (acc : list (Z * Z)) : outcome (list (Z * Z)) :=
  match n with
  | None => Ret acc
  | Some n =>
      if zlen acc <? max then
        match fuel with
        | O => Fault
        | S fuel =>
            s ← session_at ctx (data_of n);
            let acc := if reported ctx s then acc ++ [(id s, owner_slot s)] else acc in
            next ← ngx_queue_next (subscribers a) n (queues ctx);
            snapshot_loop fuel ctx a max next acc
        end
      else Ret acc
  end.

Definition ngx_rtc_shm_source_snapshot (ctx : shm) (n : octets) (max : Z)
    : outcome (list (Z * Z)) :=
  if negb (valid_name n) || (max =? 0) then Ret []
  else
    match ngx_rtc_shm_source_locked_lookup ctx n with
    | NULL => Ret []
    | Ref a =>
        _ ← source_at ctx a;
        snapshot_loop (list_fuel ctx (subscribers a)) ctx a max
          (ngx_queue_head (subscribers a) (queues ctx)) []
    end.

End shm.
End Shm.
