(* ===== verification/ShmInv.v ===== *)
(** The invariant of the cross-worker registry (Shm.v) and what each call does to it.

    [wf] is about who points at whom: the tree and the source list hold exactly the live
    sources, the session list exactly the live skeletons, every skeleton points at a live
    source and is linked, if at all, into that source's subscriber list.  It only sees the
    names of the sources and the [source] fields of the skeletons, so a call that writes
    other fields keeps it by computation. *)

From S2P Require Import Prelude Nginx Retransmit Shm.
From stdpp Require Import list gmap.
Import Shm.

#[local] Open Scope Z_scope.

Module ShmInv.
Section inv.
Context `{HC : Crc}.
Context {Q T : Type} `{HQ : Queues queue_id node Q, !QueueLaws queue_id node Q}.
Context `{HT : StrTree T, !StrTreeLaws T}.
Abbreviation shm := (ngx_rtc_shm_ctx_t (Q:=Q) (T:=T)).
Implicit Types (r : shm) (a x : Z) (n : octets).

(** What the link of [m] in queue [i] says. *)
Definition linked (names : gmap Z octets) (held : gmap Z (ptr Z)) (m : node) (i : queue_id) : Prop :=
  match m, i with
  | src_queue a, source_list => is_Some (names !! a)
  | queue x, session_list => is_Some (held !! x)
  | sub_queue x, subscribers a => held !! x = Some (Ref a)
  | _, _ => False
  end.

Record wf (names : gmap Z octets) (held : gmap Z (ptr Z)) (q : Q) (t : T) : Prop := {
  wf_queues : q_ok q;
  wf_tree k a : t_has t k a <-> exists n, names !! a = Some n /\ k = (ngx_crc32_long n, n);
  wf_name a n : names !! a = Some n -> valid_name n = true;
  wf_uniq a b n : names !! a = Some n -> names !! b = Some n -> a = b;
  wf_src a : is_Some (names !! a) -> q_link (src_queue a) q = On source_list;
  wf_sess x : is_Some (held !! x) -> q_link (queue x) q = On session_list;
  wf_held x a : held !! x = Some (Ref a) -> is_Some (names !! a);
  wf_sub x p : held !! x = Some p ->
    q_link (sub_queue x) q = Self \/ exists a, p = Ref a /\ q_link (sub_queue x) q = On (subscribers a);
  wf_on m i : q_link m q = On i -> linked names held m i
}.

Definition shm_ok r : Prop :=
  wf (name <$> sources r) (source <$> sessions r) (queues r) (source_tree r).

Lemma source_name r a s : sources r !! a = Some s -> (name <$> sources r) !! a = Some (name s).
Proof. intros H. by rewrite lookup_fmap, H. Qed.

Lemma name_source r a n :
  (name <$> sources r) !! a = Some n -> exists s, sources r !! a = Some s /\ name s = n.
Proof. rewrite lookup_fmap. destruct (sources r !! a) as [s |]; [intros [= <-]; by exists s | done]. Qed.

Lemma session_source r x s : sessions r !! x = Some s -> (source <$> sessions r) !! x = Some (source s).
Proof. intros H. by rewrite lookup_fmap, H. Qed.

Lemma source_session r x p :
  (source <$> sessions r) !! x = Some p -> exists s, sessions r !! x = Some s /\ source s = p.
Proof. rewrite lookup_fmap. destruct (sessions r !! x) as [s |]; [intros [= <-]; by exists s | done]. Qed.

Lemma some_name r a : is_Some ((name <$> sources r) !! a) <-> is_Some (sources r !! a).
Proof. rewrite lookup_fmap. apply fmap_is_Some. Qed.
Lemma some_source r x : is_Some ((source <$> sessions r) !! x) <-> is_Some (sessions r !! x).
Proof. rewrite lookup_fmap. apply fmap_is_Some. Qed.

(** Writing fields [wf] does not see. *)
Lemma shm_put_source_ok r a s s' :
  shm_ok r -> sources r !! a = Some s -> name s' = name s -> shm_ok (put_source a s' r).
Proof.
  intros Hr Hs Hn. unfold shm_ok, put_source. cbn.
  rewrite fmap_insert, Hn, <- fmap_insert, insert_id by done. exact Hr.
Qed.

Lemma put_session_ok r x s s' :
  shm_ok r -> sessions r !! x = Some s -> source s' = source s -> shm_ok (put_session x s' r).
Proof.
  intros Hr Hs Hn. unfold shm_ok, put_session. cbn.
  rewrite fmap_insert, Hn, <- fmap_insert, insert_id by done. exact Hr.
Qed.

Lemma put_source_id r a s : sources r !! a = Some s -> put_source a s r = r.
Proof. intros Hs. unfold put_source. rewrite insert_id by done. by destruct r. Qed.

(** *** Lookups *)

Lemma on_session_list r m :
  shm_ok r -> m ∈ q_list session_list (queues r) ->
  exists x s, m = queue x /\ sessions r !! x = Some s.
Proof.
  intros Hr Hm. apply (q_iff _ (wf_queues _ _ _ _ Hr)), (wf_on _ _ _ _ Hr) in Hm.
  destruct m as [a | x | x]; try done. cbn in Hm. apply some_source in Hm as [s Hs]. by exists x, s.
Qed.

Lemma on_source_list r m :
  shm_ok r -> m ∈ q_list source_list (queues r) ->
  exists a s, m = src_queue a /\ sources r !! a = Some s.
Proof.
  intros Hr Hm. apply (q_iff _ (wf_queues _ _ _ _ Hr)), (wf_on _ _ _ _ Hr) in Hm.
  destruct m as [a | x | x]; try done. cbn in Hm. apply some_name in Hm as [s Hs]. by exists a, s.
Qed.

Lemma on_subscribers r m a :
  shm_ok r -> m ∈ q_list (subscribers a) (queues r) ->
  exists x s, m = sub_queue x /\ sessions r !! x = Some s /\ source s = Ref a.
Proof.
  intros Hr Hm. apply (q_iff _ (wf_queues _ _ _ _ Hr)), (wf_on _ _ _ _ Hr) in Hm.
  destruct m as [b | x | x]; try done. cbn in Hm. apply source_session in Hm as (s & Hs & Hp).
  by exists x, s.
Qed.

Lemma session_listed r x s :
  shm_ok r -> sessions r !! x = Some s -> queue x ∈ q_list session_list (queues r).
Proof.
  intros Hr Hs. apply (q_iff _ (wf_queues _ _ _ _ Hr)), (wf_sess _ _ _ _ Hr), some_source.
  by exists s.
Qed.

Lemma source_listed r a s :
  shm_ok r -> sources r !! a = Some s -> src_queue a ∈ q_list source_list (queues r).
Proof.
  intros Hr Hs. apply (q_iff _ (wf_queues _ _ _ _ Hr)), (wf_src _ _ _ _ Hr), some_name.
  by exists s.
Qed.

Lemma search_spec r p :
  shm_ok r ->
  (session_search r p = Ret NULL /\ forall x s, sessions r !! x = Some s -> p s = false) \/
  (exists x s, session_search r p = Ret (Ref x) /\ sessions r !! x = Some s /\ p s = true).
Proof.
  intros Hr. unfold session_search, list_fuel.
  set (b := fun m => match sessions r !! data_of m with Some s => p s | None => false end).
  rewrite (queue_find_spec session_list _ b).
  2: apply Hr. 2: { intros m (x & s & -> & Hs)%on_session_list; [| done].
    unfold session_at, b. cbn [data_of]. by rewrite Hs. }
  rewrite bind_Ret. destruct (List.find b _) as [m |] eqn:E.
  - right. apply List.find_some in E as [Hm Hb]. apply list_elem_of_In, on_session_list in Hm; [| done].
    destruct Hm as (x & s & -> & Hs). unfold b in Hb. cbn [data_of] in Hb. rewrite Hs in Hb. by exists x, s.
  - left. split; [done |]. intros x s Hs.
    pose proof (List.find_none _ _ E (queue x)) as Hx. unfold b in Hx. cbn [data_of] in Hx.
    rewrite Hs in Hx. apply Hx, list_elem_of_In. by eapply session_listed.
Qed.

Lemma shm_points_to_spec a s : points_to a s = true <-> source s = Ref a.
Proof.
  unfold points_to. destruct (source s) as [| b]; [done |].
  rewrite Z.eqb_eq. split; [by intros -> | by intros [= ->]].
Qed.

(** Some skeleton of [m] points at [a]. *)
Definition held_in (m : gmap Z ngx_rtc_shm_session_t) a : bool :=
  existsb (fun xs => points_to a xs.2) (map_to_list m).

Lemma held_in_spec m a :
  held_in m a = true <-> exists x s, m !! x = Some s /\ source s = Ref a.
Proof.
  unfold held_in. rewrite existsb_exists. split.
  - intros ([x s] & Hin & Hp). exists x, s. apply list_elem_of_In, elem_of_map_to_list in Hin.
    split; [done |]. by apply shm_points_to_spec.
  - intros (x & s & Hs & Hp). exists (x, s).
    split; [by apply list_elem_of_In, elem_of_map_to_list | by apply shm_points_to_spec].
Qed.

Lemma referenced_spec r a :
  shm_ok r -> ngx_rtc_shm_source_referenced_locked r a
              = Ret (if held_in (sessions r) a then 1 else 0).
Proof.
  intros Hr. unfold ngx_rtc_shm_source_referenced_locked.
  destruct (search_spec r (points_to a) Hr) as [[-> Hno] | (x & s & -> & Hs & Hp)]; rewrite bind_Ret.
  - destruct (held_in _ _) eqn:E; [| done]. apply held_in_spec in E as (x & s & Hs & Hp).
    apply shm_points_to_spec in Hp. by rewrite (Hno x s Hs) in Hp.
  - assert (E : held_in (sessions r) a = true); [| by rewrite E].
    apply held_in_spec. exists x, s. split; [done |]. by apply shm_points_to_spec.
Qed.

Lemma lookup_spec r n :
  shm_ok r ->
  match ngx_rtc_shm_source_locked_lookup r n with
  | NULL => forall a s, sources r !! a = Some s -> name s <> n
  | Ref a => exists s, sources r !! a = Some s /\ name s = n
  end.
Proof.
  intros Hr. unfold ngx_rtc_shm_source_locked_lookup.
  destruct (ngx_str_rbtree_lookup _ _) as [| a] eqn:E.
  - intros a s Hs Hn. apply lookup_none_law with (a := a) in E. apply E, (wf_tree _ _ _ _ Hr).
    exists n. split; [| done]. rewrite <- Hn. by apply source_name.
  - apply lookup_some_law, (wf_tree _ _ _ _ Hr) in E as (m & Hm & [= _ ->]).
    by apply name_source.
Qed.

Lemma lookup_found r a s :
  shm_ok r -> sources r !! a = Some s -> ngx_rtc_shm_source_locked_lookup r (name s) = Ref a.
Proof.
  intros Hr Hs. pose proof (lookup_spec r (name s) Hr) as H.
  destruct (ngx_rtc_shm_source_locked_lookup r (name s)) as [| b]; [by destruct (H a s Hs) |].
  destruct H as (t & Ht & Hn). f_equal. apply (wf_uniq _ _ _ _ Hr b a (name s)).
  - rewrite <- Hn. by apply source_name.
  - by apply source_name.
Qed.

Lemma unheld_no_subscriber r a :
  shm_ok r -> held_in (sessions r) a = false -> q_list (subscribers a) (queues r) = [].
Proof.
  intros Hr Hh. destruct (q_list (subscribers a) (queues r)) as [| m l] eqn:E; [done |].
  exfalso. destruct (on_subscribers r m a Hr) as (x & s & -> & Hs & Hp); [rewrite E; by left |].
  apply not_true_iff_false in Hh. apply Hh, held_in_spec. by exists x, s.
Qed.

(** *** Freeing *)

Lemma free_source_ok r a s :
  shm_ok r -> sources r !! a = Some s -> held_in (sessions r) a = false ->
  exists r', free_source a r = Ret r' /\ shm_ok r' /\ sources r' = delete a (sources r) /\
    sessions r' = sessions r /\
    (forall i, i <> source_list -> q_list i (queues r') = q_list i (queues r)) /\
    q_list source_list (queues r')
    = filter (fun m => m <> src_queue a) (q_list source_list (queues r)) /\
    (forall x, q_link (sub_queue x) (queues r') = q_link (sub_queue x) (queues r)) /\
    next_session_id r' = next_session_id r /\ nworkers r' = nworkers r.
Proof.
  intros Hr Hs Hh. pose proof Hr as [H1 H2 H3 H4 H5 H6 H7 H8 H9].
  assert (Hno : forall x, (source <$> sessions r) !! x <> Some (Ref a)).
  { intros x (t & Ht & Hp)%source_session. apply not_true_iff_false in Hh. apply Hh, held_in_spec.
    by exists x, t. }
  assert (Hon : q_link (src_queue a) (queues r) = On source_list).
  { apply H5, some_name. by exists s. }
  destruct (remove_ok _ _ _ H1 Hon) as (q & E & Hq & Hl & Hst & Hls & Hlk).
  unfold free_source. rewrite E, bind_Ret. eexists. split; [reflexivity |].
  split; [| split_and!; try done; intros x; by apply Hlk].
  unfold shm_ok. cbn. rewrite fmap_delete. split; try done.
  - intros k b. rewrite (delete_law _ (ngx_crc32_long (name s), name s)).
    2: { apply H2. exists (name s). split; [by apply source_name | done]. }
    rewrite H2. setoid_rewrite lookup_delete_Some.
    split; [intros (? & t & ? & ?); by exists t | intros (t & [? ?] & ?); split; [done | by exists t]].
  - intros b t [_ Ht]%lookup_delete_Some. by apply (H3 b).
  - intros b c t [_ Ht]%lookup_delete_Some [_ Hu]%lookup_delete_Some. by apply (H4 b c t).
  - intros b [t [Hne Ht]%lookup_delete_Some]. rewrite Hlk by congruence. apply H5. by exists t.
  - intros x Hx. rewrite Hlk by done. by apply H6.
  - intros x b Hx. destruct (H7 x b Hx) as [t Ht]. exists t. apply lookup_delete_Some.
    split; [| done]. intros ->. by apply (Hno x).
  - intros x p Hx. rewrite Hlk by done. by apply H8.
  - intros m i Hm. destruct (decide (m = src_queue a)) as [-> | Hne]; [congruence |].
    rewrite Hlk in Hm by done. specialize (H9 m i Hm). destruct m as [b | x | x], i; try done.
    cbn in *. destruct H9 as [t Ht]. exists t. apply lookup_delete_Some. split; [congruence | done].
Qed.

(** The source of a skeleton that leaves: the count of remote viewers and the version when
    it was subscribed, the deadline when nobody is left. *)
Definition unsubscribed (s : ngx_rtc_shm_session_t) (src : ngx_rtc_shm_source_t)
    : ngx_rtc_shm_source_t :=
  let src :=
    if negb (owner_slot s =? publisher_slot src) && (0 <? remote_subscribers src)
    then set_remote_subscribers (u64 (remote_subscribers src - 1)) src else src in
  set_subscribers_version (u64 (subscribers_version src + 1)) src.

Definition armed (now : Z) (src : ngx_rtc_shm_source_t) : ngx_rtc_shm_source_t :=
  if (publishing src =? 0) && (expires src =? 0)
  then set_expires (u64 (now + NGX_RTC_SHM_SOURCE_EXPIRE_MS)) src else src.

Lemma unsubscribed_name s src : name (unsubscribed s src) = name src.
Proof. unfold unsubscribed. by destruct (_ && _). Qed.
Lemma armed_name now src : name (armed now src) = name src.
Proof. unfold armed. by destruct (_ && _). Qed.

Definition without (x : Z) (l : list node) : list node := filter (fun m => m <> sub_queue x) l.

Definition left_source (now : Z) (s : ngx_rtc_shm_session_t) (was : bool) (rest : list node)
    (src : ngx_rtc_shm_source_t) : ngx_rtc_shm_source_t :=
  let src := if was then unsubscribed s src else src in
  match rest with [] => armed now src | _ => src end.

Lemma left_source_name now s was rest src : name (left_source now s was rest src) = name src.
Proof.
  unfold left_source. destruct was, rest; rewrite ?armed_name, ?unsubscribed_name; done.
Qed.

Lemma unlink_sub_ok r x s :
  shm_ok r -> sessions r !! x = Some s -> q_link (sub_queue x) (queues r) <> Self ->
  exists a src q, source s = Ref a /\ sources r !! a = Some src /\
    ngx_queue_remove (sub_queue x) (queues r) = Ret q /\ q_ok q /\
    (forall i, q_list i q = without x (q_list i (queues r))) /\
    q_link (sub_queue x) q = Stale /\ (forall y, y <> sub_queue x -> q_link y q = q_link y (queues r)).
Proof.
  intros Hr Hs Hne. pose proof Hr as [H1 H2 H3 H4 H5 H6 H7 H8 H9].
  destruct (H8 x _ (session_source r x s Hs)) as [? | (a & Hp & Hl)]; [done |].
  pose proof (session_source r x s Hs) as Hx. rewrite Hp in Hx.
  destruct (H7 x a Hx) as [n Hn]. apply name_source in Hn as (src & Hsrc & _).
  destruct (remove_ok _ _ _ H1 Hl) as (q & E & Hq & Hli & Hst & Hls & Hlk).
  exists a, src, q. split_and!; try done. intros i. destruct (decide (i = subscribers a)) as [-> | Hi].
  - done.
  - rewrite Hls by done. unfold without. rewrite filter_all; [done |].
    intros m Hm ->. apply (q_iff _ H1) in Hm. congruence.
Qed.

Lemma shm_session_free_ok now r x s a src :
  shm_ok r -> sessions r !! x = Some s -> source s = Ref a -> sources r !! a = Some src ->
  let was := negb (bool_decide (q_link (sub_queue x) (queues r) = Self)) in
  let rest := without x (q_list (subscribers a) (queues r)) in
  exists r', ngx_rtc_shm_session_free_locked now r x = Ret r' /\ shm_ok r' /\
    sessions r' = delete x (sessions r) /\
    sources r' = <[a := left_source now s was rest src]> (sources r) /\
    (forall b, q_list (subscribers b) (queues r') = without x (q_list (subscribers b) (queues r))) /\
    q_list source_list (queues r') = q_list source_list (queues r) /\
    q_list session_list (queues r')
    = filter (fun m => m <> queue x) (q_list session_list (queues r)) /\
    (forall y, y <> x -> q_link (sub_queue y) (queues r') = q_link (sub_queue y) (queues r)) /\
    next_session_id r' = next_session_id r /\ nworkers r' = nworkers r.
Proof.
  intros Hr Hs Hp Hsrc was rest. unfold ngx_rtc_shm_session_free_locked, session_at.
  rewrite Hs, bind_Ret, Hp.
  assert (Hmid : exists r1 q1, unlink_subscriber r x a s = Ret r1 /\
    r1 = set_queues q1 (put_source a (if was then unsubscribed s src else src) r) /\ q_ok q1 /\
    (forall i, q_list i q1 = without x (q_list i (queues r))) /\
    (forall i, q_link (sub_queue x) q1 <> On i) /\
    (forall y, y <> sub_queue x -> q_link y q1 = q_link y (queues r))).
  { unfold was, unlink_subscriber. destruct (decide (q_link (sub_queue x) (queues r) = Self)) as [Hl | Hl].
    - rewrite bool_decide_true by done. cbn [negb]. exists r, (queues r).
      rewrite (put_source_id r a src Hsrc). split_and!; try done.
      + by destruct r.
      + apply Hr.
      + intros i. unfold without. rewrite filter_all; [done |]. intros m Hm ->.
        apply (q_iff _ (wf_queues _ _ _ _ Hr)) in Hm. congruence.
      + intros i. by rewrite Hl.
    - rewrite bool_decide_false by done. cbn [negb].
      destruct (unlink_sub_ok r x s Hr Hs Hl) as (b & t & q & Hpb & Ht & -> & Hq & Hli & Hst & Hlk).
      rewrite bind_Ret. unfold source_at. rewrite Hsrc, bind_Ret. cbv zeta.
      eexists _, q. split; [reflexivity |]. split_and!; [done | done | done | | done].
      intros i. by rewrite Hst. }
  destruct Hmid as (r1 & q1 & -> & -> & Hq1 & Hli1 & Hoff1 & Hlk1). rewrite bind_Ret.
  set (src1 := if was then unsubscribed s src else src).
  assert (Hn1 : name src1 = name src) by (unfold src1; destruct was; [apply unsubscribed_name | done]).
  cbn [queues set_queues].
  pose proof Hr as [H1 H2 H3 H4 H5 H6 H7 H8 H9].
  assert (Hon : q_link (queue x) q1 = On session_list).
  { rewrite Hlk1 by done. apply H6, some_source. by exists s. }
  destruct (remove_ok _ _ _ Hq1 Hon) as (q2 & E & Hq2 & Hl2 & Hst2 & Hls2 & Hlk2).
  rewrite E, bind_Ret. cbv zeta. unfold source_at. cbn [sources sessions set_queues set_sessions put_source set_sources].
  rewrite lookup_insert_eq, bind_Ret. cbn [queues].
  assert (Hsub2 : forall b, q_list (subscribers b) q2 = without x (q_list (subscribers b) (queues r))).
  { intros b. by rewrite Hls2, Hli1 by done. }
  rewrite Hsub2. fold rest.
  set (r2 := {| sources := <[a := left_source now s was rest src]> (sources r);
                sessions := delete x (sessions r); queues := q2; source_tree := source_tree r;
                next_session_id := next_session_id r; nworkers := nworkers r; layout := layout r |}).
  exists r2. split.
  { unfold r2, left_source, armed. fold src1. destruct rest as [| m l]; [| by cbn].
    destruct ((publishing src1 =? 0) && (expires src1 =? 0)); [| by cbn].
    unfold put_source. cbn. by rewrite insert_insert_eq. }
  split; [| cbn [sessions sources queues next_session_id nworkers r2]].
  2: { split_and!; try done.
       - rewrite Hls2, Hli1 by done. unfold without. apply filter_all. intros m Hm ->.
         apply (q_iff _ H1), H9 in Hm. done.
       - rewrite Hl2, Hli1. unfold without. rewrite (filter_all (fun m => m <> sub_queue x)); [done |].
         intros m Hm ->. by apply (q_iff _ H1), H9 in Hm.
       - intros y Hy. by rewrite Hlk2, Hlk1 by congruence. }
  unfold shm_ok, r2. cbn [sources sessions queues source_tree].
  rewrite fmap_insert, left_source_name, <- fmap_insert, insert_id by done. rewrite fmap_delete.
  split; try done.
  - intros b Hb. rewrite Hlk2, Hlk1 by done. by apply H5.
  - intros y [t [Hne Ht]%lookup_delete_Some]. rewrite Hlk2, Hlk1 by congruence. apply H6. by exists t.
  - intros y b [Hne Hy]%lookup_delete_Some. by apply (H7 y).
  - intros y p [Hne Hy]%lookup_delete_Some. rewrite Hlk2, Hlk1 by congruence. by apply H8.
  - intros m i Hm. destruct (decide (m = queue x)) as [-> | Hne1]; [congruence |].
    rewrite Hlk2 in Hm by done. destruct (decide (m = sub_queue x)) as [-> | Hne2]; [by apply Hoff1 in Hm |].
    rewrite Hlk1 in Hm by done. specialize (H9 m i Hm). destruct m as [b | y | y], i; try done; cbn in *.
    + destruct H9 as [t Ht]. exists t. apply lookup_delete_Some. split; [congruence | done].
    + apply lookup_delete_Some. split; [congruence | done].
Qed.

(** ** The invariant *)

Definition is_viewer (s : ngx_rtc_shm_session_t) : Prop := srtp_ready s = 1 /\ s_publishing s = 0.

(** A skeleton is subscribed exactly when it is a ready viewer, and a ready one is owned. *)
Definition link_ok (l : link queue_id) (s : ngx_rtc_shm_session_t) : Prop :=
  (l <> Self <-> is_viewer s) /\ (srtp_ready s = 1 -> 0 <= owner_slot s).

(** A source is publishing exactly when some protocol holds it, and then has no deadline. *)
Definition kind_ok (s : ngx_rtc_shm_source_t) : Prop :=
  (publishing s = 0 <-> publisher_kind s = 0) /\ (publishing s <> 0 -> expires s = 0).

(** [kind_cases]: follow the branches of an operation on a source. *)
Ltac kind_cases :=
  repeat match goal with
  | |- context [(?a =? ?b) && _] => destruct (Z.eqb_spec a b); cbn
  | |- context [if ?a =? ?b then _ else _] => destruct (Z.eqb_spec a b); cbn
  | |- context [if ?c then _ else _] => destruct c; cbn
  end; try done; try tauto.

Record shm_inv r : Prop := {
  inv_ok : shm_ok r;
  inv_kind a s : sources r !! a = Some s -> kind_ok s;
  inv_src x s : sessions r !! x = Some s -> exists a, source s = Ref a;
  inv_sub x s : sessions r !! x = Some s -> link_ok (q_link (sub_queue x) (queues r)) s;
  inv_ids x s : sessions r !! x = Some s -> 1 <= id s < next_session_id r;
  inv_uniq x y s t : sessions r !! x = Some s -> sessions r !! y = Some t -> id s = id t -> x = y;
  inv_next : 1 <= next_session_id r
}.

Lemma inv_source r x s :
  shm_inv r -> sessions r !! x = Some s ->
  exists a src, source s = Ref a /\ sources r !! a = Some src.
Proof.
  intros Hr Hs. destruct (inv_src r Hr x s Hs) as [a Ha].
  pose proof (session_source r x s Hs) as Hx. rewrite Ha in Hx.
  apply (wf_held _ _ _ _ (inv_ok r Hr)) in Hx as [n Hn].
  apply name_source in Hn as (src & Hsrc & _). by exists a, src.
Qed.

Lemma left_source_kind now s was rest src : kind_ok src -> kind_ok (left_source now s was rest src).
Proof.
  unfold left_source, unsubscribed, armed, kind_ok. intros H. destruct was, rest; cbn; kind_cases.
Qed.

Lemma drop_publisher_kind now src : kind_ok (drop_publisher now src).
Proof. unfold drop_publisher, kind_ok. cbn. kind_cases. Qed.

(** Fewer sessions, the same links. *)
Lemma inv_shrink r r' :
  shm_inv r -> shm_ok r' ->
  (forall x s, sessions r' !! x = Some s -> sessions r !! x = Some s) ->
  (forall x s, sessions r' !! x = Some s ->
     q_link (sub_queue x) (queues r') = q_link (sub_queue x) (queues r)) ->
  (forall a s, sources r' !! a = Some s -> kind_ok s) ->
  next_session_id r' = next_session_id r -> shm_inv r'.
Proof.
  intros Hr Hok Hs Hl Hk Hn. split; try done.
  - intros x s H%Hs. by apply (inv_src r Hr x).
  - intros x s H. rewrite (Hl x s H). apply Hs in H. by apply (inv_sub r Hr x).
  - intros x s H%Hs. rewrite Hn. by apply (inv_ids r Hr x).
  - intros x y s t H1%Hs H2%Hs. by apply (inv_uniq r Hr x y).
  - rewrite Hn. apply Hr.
Qed.

Lemma inv_put_source r a s s' :
  shm_inv r -> sources r !! a = Some s -> name s' = name s -> (kind_ok s -> kind_ok s') ->
  shm_inv (put_source a s' r).
Proof.
  intros Hr Hs Hn Hk. apply (inv_shrink r); try done.
  - eapply shm_put_source_ok; [apply Hr | done | done].
  - intros b t Ht. cbn in Ht. apply lookup_insert_Some in Ht as [[<- <-] | [_ Ht]].
    + by apply Hk, (inv_kind r Hr a).
    + by apply (inv_kind r Hr b).
Qed.

Lemma inv_relink_session r x s s' q :
  shm_inv r -> sessions r !! x = Some s -> source s' = source s -> id s' = id s ->
  shm_ok (set_queues q (put_session x s' r)) ->
  (forall y, y <> x -> q_link (sub_queue y) q = q_link (sub_queue y) (queues r)) ->
  link_ok (q_link (sub_queue x) q) s' ->
  shm_inv (set_queues q (put_session x s' r)).
Proof.
  intros Hr Hs Hp Hi Hok Hq Hv.
  assert (Hat : forall y t, <[x := s']> (sessions r) !! y = Some t ->
    exists t', sessions r !! y = Some t' /\ source t = source t' /\ id t = id t' /\
      (y = x -> t = s') /\ (y <> x -> t = t')).
  { intros y t. destruct (decide (y = x)) as [-> |].
    - rewrite lookup_insert_eq. intros [= <-]. exists s. by split_and!.
    - rewrite lookup_insert_ne by done. exists t. by split_and!. }
  split; cbn [sessions queues next_session_id put_session set_sessions set_queues].
  - done.
  - apply Hr.
  - intros y t (t' & Ht & -> & _)%Hat. by apply (inv_src r Hr y).
  - intros y t (t' & Ht & _ & _ & E1 & E2)%Hat. destruct (decide (y = x)) as [-> |].
    + by rewrite E1.
    + rewrite E2, Hq by done. by apply (inv_sub r Hr y).
  - intros y t (t' & Ht & _ & -> & _)%Hat. by apply (inv_ids r Hr y).
  - intros y z t u (t' & Ht & _ & -> & _)%Hat (u' & Hu & _ & -> & _)%Hat. by apply (inv_uniq r Hr y z).
  - apply Hr.
Qed.

Lemma inv_put_session r x s s' :
  shm_inv r -> sessions r !! x = Some s -> source s' = source s -> id s' = id s ->
  link_ok (q_link (sub_queue x) (queues r)) s' -> shm_inv (put_session x s' r).
Proof.
  intros Hr Hs Hp Hi Hv.
  change (put_session x s' r) with (set_queues (queues r) (put_session x s' r)).
  apply (inv_relink_session r x s); try done.
  change (shm_ok (put_session x s' r)). eapply put_session_ok; [apply Hr | done | done].
Qed.

(** ** The sweep against a reference *)

Definition is_nil {A} (l : list A) : bool := match l with [] => true | _ => false end.

Definition reaped (now forced : Z) (s : ngx_rtc_shm_session_t) : bool :=
  (owner_slot s =? -1) && due now forced (s_expires s).

Definition kept (now forced : Z) (m : gmap Z ngx_rtc_shm_session_t) : gmap Z ngx_rtc_shm_session_t :=
  filter (fun xs => reaped now forced xs.2 = false) m.
Definition gone (now forced : Z) (m : gmap Z ngx_rtc_shm_session_t) : gmap Z ngx_rtc_shm_session_t :=
  filter (fun xs => reaped now forced xs.2 = true) m.

(** What the sweep makes of a source: [lost] when a reaped skeleton pointed at it, [alone]
    when it has no subscriber, [held] when a surviving skeleton points at it. *)
Definition sweep (now forced : Z) (lost alone held : bool) (src : ngx_rtc_shm_source_t)
    : option ngx_rtc_shm_source_t :=
  let src := if lost && alone then armed now src else src in
  if negb (publishing src =? 0) && fresh_publisher now src then Some src
  else
    let src := if publishing src =? 0 then src else drop_publisher now src in
    if alone && due now forced (expires src) && negb held then None else Some src.

Definition alone r a : bool := is_nil (q_list (subscribers a) (queues r)).

Lemma armed_idem now src : armed now (armed now src) = armed now src.
Proof.
  unfold armed at 2 3. destruct ((publishing src =? 0) && (expires src =? 0)) eqn:E; unfold armed.
  - clear E. by destruct (_ && _).
  - by rewrite E.
Qed.

Lemma drop_publisher_name now src : name (drop_publisher now src) = name src.
Proof. unfold drop_publisher. by destruct (_ =? _). Qed.

Lemma sweep_name now forced lost al held src src' :
  sweep now forced lost al held src = Some src' -> name src' = name src.
Proof.
  unfold sweep. destruct (lost && al).
  all: destruct (_ && fresh_publisher _ _); [intros [= <-]; by rewrite ?armed_name |].
  all: destruct (publishing _ =? 0); destruct (_ && negb _); try done; intros [= <-];
    by rewrite ?drop_publisher_name, ?armed_name.
Qed.

(** A source of [m] lost a skeleton that is not in [l]. *)
Definition lost_in (now forced : Z) (m : gmap Z ngx_rtc_shm_session_t) (l : list node) a : bool :=
  held_in (filter (fun xs => reaped now forced xs.2 = true /\ queue xs.1 ∉ l) m) a.

Lemma lost_in_spec now forced m l a :
  lost_in now forced m l a = true <->
  exists x s, m !! x = Some s /\ reaped now forced s = true /\ (queue x ∉ l) /\ source s = Ref a.
Proof.
  unfold lost_in. rewrite held_in_spec. split.
  - intros (x & s & [H1 [H2 H3]]%map_lookup_filter_Some & H4). by exists x, s.
  - intros (x & s & H1 & H2 & H3 & H4). exists x, s. by rewrite map_lookup_filter_Some.
Qed.

(** The session pass, with the nodes [l] still to visit. *)
Record swept_sessions (now forced : Z) r (l : list node) r' : Prop := {
  sw_inv : shm_inv r';
  sw_list : exists pre, q_list session_list (queues r') = pre ++ l;
  sw_sess x s : sessions r' !! x = Some s <->
    sessions r !! x = Some s /\ (reaped now forced s = false \/ queue x ∈ l);
  sw_src a : sources r' !! a =
    (fun src => if (lost_in now forced (sessions r) l a && alone r a) then armed now src else src)
    <$> (sources r !! a);
  sw_subs a : q_list (subscribers a) (queues r') = q_list (subscribers a) (queues r);
  sw_srcs : q_list source_list (queues r') = q_list source_list (queues r);
  sw_next : next_session_id r' = next_session_id r
}.

Lemma lost_in_skip now forced m x s l a :
  m !! x = Some s -> reaped now forced s = false ->
  lost_in now forced m l a = lost_in now forced m (queue x :: l) a.
Proof.
  intros Hs Hf. apply eq_iff_eq_true. rewrite !lost_in_spec. split.
  - intros (y & t & Ht & Hr & Hn & Hp). exists y, t. split_and!; try done.
    intros [[= ->] | ?]%elem_of_cons; [congruence | done].
  - intros (y & t & Ht & Hr & Hn & Hp). exists y, t. split_and!; try done.
    intros H. apply Hn. by right.
Qed.

Lemma lost_in_take now forced m x s l a :
  m !! x = Some s -> reaped now forced s = true -> queue x ∉ l ->
  lost_in now forced m l a = lost_in now forced m (queue x :: l) a || points_to a s.
Proof.
  intros Hs Hf Hx. apply eq_iff_eq_true. rewrite orb_true_iff, shm_points_to_spec, !lost_in_spec. split.
  - intros (y & t & Ht & Hr & Hn & Hp). destruct (decide (y = x)) as [-> | Hne].
    + right. congruence.
    + left. exists y, t. split_and!; try done. intros [[= ->] | ?]%elem_of_cons; done.
  - intros [(y & t & Ht & Hr & Hn & Hp) | Hp].
    + exists y, t. split_and!; try done. intros H. apply Hn. by right.
    + by exists x, s.
Qed.

Lemma expire_session_step now forced r m l r' :
  shm_inv r -> swept_sessions now forced r (m :: l) r' ->
  exists r'', expire_session now forced m r' = Ret r'' /\ swept_sessions now forced r l r''.
Proof.
  intros Hr0 [Hr (pre & Hl) Hse Hso Hsu Hsl Hnx]. pose proof (inv_ok r' Hr) as Hok.
  destruct (on_session_list r' m Hok) as (x & s & -> & Hs).
  { rewrite Hl. apply elem_of_app. right. by left. }
  assert (Hnd : NoDup (pre ++ queue x :: l)).
  { rewrite <- Hl. apply Hok. }
  apply NoDup_app in Hnd as (_ & Hpre & [Hxl _]%NoDup_cons).
  pose proof Hs as [Hs0 _]%Hse.
  unfold expire_session, session_at. cbn [data_of]. rewrite Hs, bind_Ret.
  assert (Hskip : reaped now forced s = false ->
    swept_sessions now forced r l r').
  { intros Hf. split; try done.
    - exists (pre ++ [queue x]). by rewrite <- app_assoc.
    - intros y t. rewrite Hse, elem_of_cons. split; [| tauto].
      intros [Ht [? | [[= ->] | ?]]]; split; try tauto. left. congruence.
    - intros a. by rewrite (lost_in_skip now forced _ x s) by done. }
  unfold reaped in Hskip. destruct (Z.eqb_spec (owner_slot s) (-1)) as [Ho |]; cbn [negb].
  2: { exists r'. split; [done | by apply Hskip]. }
  destruct (due now forced (s_expires s)) eqn:Hd; [| exists r'; split; [done | by apply Hskip]].
  assert (Hf : reaped now forced s = true) by (unfold reaped; by rewrite Ho, Hd).
  destruct (inv_source r' x s Hr Hs) as (a & src & Ha & Hsrc).
  assert (Hself : q_link (sub_queue x) (queues r') = Self).
  { destruct (decide (q_link (sub_queue x) (queues r') = Self)) as [| Hne]; [done |].
    destruct (inv_sub r' Hr x s Hs) as [Hv Hown]. apply Hv in Hne as [Hrd _].
    specialize (Hown Hrd). lia. }
  destruct (shm_session_free_ok now r' x s a src Hok Hs Ha Hsrc)
    as (r'' & E & Hok'' & Es & Eo & Eu & El & Eq & Ek & En & _).
  rewrite bool_decide_true in Eo by done. cbn [negb] in Eo.
  assert (Hw : forall b, without x (q_list (subscribers b) (queues r')) = q_list (subscribers b) (queues r')).
  { intros b. apply filter_all. intros m Hm ->.
    apply (q_iff _ (wf_queues _ _ _ _ Hok)) in Hm. congruence. }
  exists r''. split; [done |]. split.
  - apply (inv_shrink r'); [done | done | | | | done].
    + intros y t. rewrite Es. by intros [_ ?]%lookup_delete_Some.
    + intros y t. rewrite Es. intros [Hne _]%lookup_delete_Some. by apply Ek.
    + intros b t. rewrite Eo. intros [[<- <-] | [_ Ht]]%lookup_insert_Some; [| by apply (inv_kind r' Hr b)].
      by apply left_source_kind, (inv_kind r' Hr a).
  - exists pre. rewrite Eq, Hl, filter_app, filter_cons_False by (intros H; by apply H).
    rewrite !filter_all; [done | |].
    + by intros m Hm ->.
    + intros m Hm ->. apply (Hpre _ Hm). by left.
  - intros y t. rewrite Es, lookup_delete_Some, Hse, elem_of_cons. split.
    + intros (Hne & Ht & [? | [[= ?] | ?]]); [tauto | congruence | tauto].
    + intros [Ht Hc]. split; [| tauto]. intros <-. destruct Hc as [Hc | Hc]; [congruence | done].
  - intros b. rewrite Eo, Hw, Hsu. rewrite (lost_in_take now forced _ x s) by done.
    destruct (decide (b = a)) as [-> | Hne].
    + rewrite lookup_insert_eq. rewrite Hso in Hsrc.
      destruct (sources r !! a) as [src0 |]; [| done]. cbn in Hsrc. injection Hsrc as <-. cbn. f_equal.
      rewrite (proj2 (shm_points_to_spec a s) Ha), orb_true_r. unfold left_source, alone.
      destruct (q_list (subscribers a) (queues r)); cbn [is_nil]; [| by rewrite !andb_false_r].
      rewrite !andb_true_r. destruct (lost_in _ _ _ _ _); [apply armed_idem | done].
    + rewrite lookup_insert_ne by done. rewrite Hso.
      assert (Hp : points_to b s = false).
      { apply not_true_iff_false. rewrite shm_points_to_spec. congruence. }
      by rewrite Hp, orb_false_r.
  - intros b. by rewrite Eu, Hw, Hsu.
  - by rewrite El, Hsl.
  - by rewrite En.
Qed.

(** The source pass, with the nodes [l] still to visit. *)
Record swept_sources (now forced : Z) r (l : list node) r' : Prop := {
  so_inv : shm_inv r';
  so_list : exists pre, q_list source_list (queues r') = pre ++ l;
  so_sess : sessions r' = sessions r;
  so_src a : sources r' !! a =
    if bool_decide (src_queue a ∈ l) then sources r !! a
    else sources r !! a ≫= sweep now forced false (alone r a) (held_in (sessions r) a);
  so_subs a : q_list (subscribers a) (queues r') = q_list (subscribers a) (queues r);
  so_next : next_session_id r' = next_session_id r
}.

Lemma expire_source_step now forced r m l r' :
  swept_sources now forced r (m :: l) r' ->
  exists r'', expire_source now forced m r' = Ret r'' /\ swept_sources now forced r l r''.
Proof.
  intros [Hr (pre & Hl) Hse Hso Hsu Hnx]. pose proof (inv_ok r' Hr) as Hok.
  destruct (on_source_list r' m Hok) as (a & src & -> & Hs).
  { rewrite Hl. apply elem_of_app. right. by left. }
  assert (Hnd : NoDup (pre ++ src_queue a :: l)) by (rewrite <- Hl; apply Hok).
  apply NoDup_app in Hnd as (_ & Hpre & [Hal _]%NoDup_cons).
  assert (Hs0 : sources r !! a = Some src).
  { rewrite Hso, bool_decide_true in Hs by (by left). done. }
  set (sw := sweep now forced false (alone r a) (held_in (sessions r) a) src).
  (* Every outcome of the body sets [a] to [sw] and nothing else. *)
  assert (Hdone : forall r'', shm_inv r'' -> sources r'' !! a = sw ->
    (forall b, b <> a -> sources r'' !! b = sources r' !! b) ->
    (exists pre', q_list source_list (queues r'') = pre' ++ l) ->
    sessions r'' = sessions r' ->
    (forall b, q_list (subscribers b) (queues r'') = q_list (subscribers b) (queues r')) ->
    next_session_id r'' = next_session_id r' -> swept_sources now forced r l r'').
  { intros r'' Hi Ha Ho Hp Hse' Hsu' Hnx'. split; try done; try congruence.
    - intros b. destruct (decide (b = a)) as [-> | Hne].
      + rewrite bool_decide_false by done. by rewrite Hs0.
      + rewrite Ho, Hso by done. destruct (decide (src_queue b ∈ l)).
        * rewrite !bool_decide_true by (try right; done). done.
        * rewrite !bool_decide_false; [done | done |]. intros [? | ?]%elem_of_cons; [congruence | done]. }
  assert (Hstay : exists pre', q_list source_list (queues r') = pre' ++ l).
  { exists (pre ++ [src_queue a]). by rewrite <- app_assoc. }
  unfold expire_source, source_at. cbn [data_of]. rewrite Hs, bind_Ret.
  unfold sw, sweep in Hdone. cbn [andb] in Hdone.
  destruct (negb (publishing src =? 0) && fresh_publisher now src); cbv zeta.
  { exists r'. split; [done |]. by apply Hdone. }
  set (src1 := if publishing src =? 0 then src else drop_publisher now src) in *.
  assert (Hn1 : name src1 = name src).
  { unfold src1. destruct (_ =? 0); [done | apply drop_publisher_name]. }
  assert (Hk1 : kind_ok src -> kind_ok src1).
  { unfold src1. destruct (_ =? 0); [done | intros _; apply drop_publisher_kind]. }
  pose proof (inv_put_source r' a src src1 Hr Hs Hn1 Hk1) as Hr1. set (r1 := put_source a src1 r') in *.
  assert (Hother : forall b, b <> a -> sources r1 !! b = sources r' !! b).
  { intros b Hb. cbn. by rewrite lookup_insert_ne. }
  assert (Hat : sources r1 !! a = Some src1) by (cbn; by rewrite lookup_insert_eq).
  unfold alone in Hdone. rewrite <- Hsu in Hdone.
  change (q_list (subscribers a) (queues r1)) with (q_list (subscribers a) (queues r')).
  destruct (q_list (subscribers a) (queues r')) as [| v vs] eqn:Ev; cbn [is_nil andb] in Hdone.
  2: { exists r1. split; [done |]. by apply Hdone. }
  destruct (due now forced (expires src1)); cbn [andb] in Hdone.
  2: { exists r1. split; [done |]. by apply Hdone. }
  rewrite (referenced_spec r1 a (inv_ok r1 Hr1)), bind_Ret.
  change (sessions r1) with (sessions r'). rewrite Hse.
  destruct (held_in (sessions r) a) eqn:Eh; cbn [negb] in Hdone.
  { change (1 =? 0) with false. cbv iota. exists r1. split; [done |]. by apply Hdone. }
  change (0 =? 0) with true. cbv iota.
  destruct (free_source_ok r1 a src1 (inv_ok r1 Hr1) Hat) as (r2 & -> & Hok2 & Es & Ess & Eq & El & Ek & En & _).
  { change (sessions r1) with (sessions r'). by rewrite Hse. }
  exists r2. split; [done |]. apply Hdone.
  - apply (inv_shrink r1); try done.
    + intros x s. by rewrite Ess.
    + intros b s. rewrite Es. intros [_ Hb]%lookup_delete_Some. by apply (inv_kind r1 Hr1 b).
  - by rewrite Es, lookup_delete_eq.
  - intros b Hb. rewrite Es, lookup_delete_ne by done. by apply Hother.
  - exists pre. rewrite El. change (q_list source_list (queues r1)) with (q_list source_list (queues r')).
    rewrite Hl, filter_app, filter_cons_False by (intros H; by apply H). rewrite !filter_all; [done | |].
    + by intros k Hk ->.
    + intros k Hk ->. apply (Hpre _ Hk). by left.
  - by rewrite Ess.
  - intros b. by rewrite Eq.
  - by rewrite En.
Qed.

(** What the sweep leaves, as a function of what it found. *)
Definition expired_sessions (now forced : Z) r : gmap Z ngx_rtc_shm_session_t :=
  kept now forced (sessions r).
Definition expired_sources (now forced : Z) r : gmap Z ngx_rtc_shm_source_t :=
  map_imap (fun a => sweep now forced (held_in (gone now forced (sessions r)) a) (alone r a)
                       (held_in (kept now forced (sessions r)) a)) (sources r).

Lemma lost_in_nil now forced m a : lost_in now forced m [] a = held_in (gone now forced m) a.
Proof.
  apply eq_iff_eq_true. rewrite lost_in_spec, held_in_spec. split.
  - intros (x & s & H1 & H2 & _ & H4). exists x, s. split; [| done].
    by apply map_lookup_filter_Some.
  - intros (x & s & [H1 H2]%map_lookup_filter_Some & H4). exists x, s.
    split_and!; try done. by intros ?%elem_of_nil.
Qed.

Lemma expire_spec now forced r :
  shm_inv r ->
  exists r', ngx_rtc_shm_expire_locked now r forced = Ret r' /\ shm_inv r' /\
    sessions r' = expired_sessions now forced r /\ sources r' = expired_sources now forced r /\
    (forall a, q_list (subscribers a) (queues r') = q_list (subscribers a) (queues r)) /\
    next_session_id r' = next_session_id r.
Proof.
  intros Hr. unfold ngx_rtc_shm_expire_locked, list_fuel, ngx_queue_head.
  destruct (queue_each_spec (swept_sessions now forced r) session_list queues (expire_session now forced))
    with (l := q_list session_list (queues r)) (fuel := length (q_list session_list (queues r))) (s := r)
    as (r1 & -> & [Hr1 _ Hse1 Hso1 Hsu1 _ Hn1]).
  - intros l s [Hi Hp _ _ _ _ _]. split; [apply Hi | done].
  - intros m l s Hs. by apply expire_session_step.
  - split; try done.
    + by exists [].
    + intros x s. split; [| by intros [? _]]. intros Hs. split; [done |]. right.
      eapply session_listed; [apply Hr | done].
    + intros a. destruct (lost_in _ _ _ _ _) eqn:E; [| by destruct (sources r !! a)].
      apply lost_in_spec in E as (x & s & Hs & _ & Hx & _). destruct Hx.
      eapply session_listed; [apply Hr | done].
  - done.
  - rewrite bind_Ret.
    destruct (queue_each_spec (swept_sources now forced r1) source_list queues (expire_source now forced))
      with (l := q_list source_list (queues r1)) (fuel := length (q_list source_list (queues r1))) (s := r1)
      as (r2 & -> & [Hr2 _ Hse2 Hso2 Hsu2 Hn2]).
    + intros l s [Hi Hp _ _ _ _]. split; [apply Hi | done].
    + intros m l s Hs. by apply expire_source_step.
    + split; try done.
      * by exists [].
      * intros a. destruct (sources r1 !! a) as [s |] eqn:E; [| by destruct (bool_decide _)].
        rewrite bool_decide_true; [done |]. eapply source_listed; [apply Hr1 | done].
    + done.
    + exists r2.
      assert (Hk : sessions r1 = kept now forced (sessions r)).
      { apply map_eq. intros x. apply option_eq. intros s. unfold kept.
        rewrite Hse1, map_lookup_filter_Some. split; [| tauto].
        intros [? [? | ?%elem_of_nil]]; [done | done]. }
      split_and!; [done | done | by rewrite Hse2 | | intros a; by rewrite Hsu2, Hsu1 | by rewrite Hn2].
      apply map_eq. intros a. unfold expired_sources. rewrite map_lookup_imap, Hso2.
      rewrite bool_decide_false by (intros ?%elem_of_nil; done).
      rewrite Hso1, Hk, lost_in_nil. destruct (sources r !! a) as [s |]; [| done]. cbn.
      assert (Ha : alone r1 a = alone r a) by (unfold alone; by rewrite Hsu1).
      rewrite Ha. unfold sweep. cbn [andb].
      by destruct (_ && alone r a).
Qed.

(** ** The other calls *)

Lemma slab_alloc_spec alloc retry now r :
  shm_inv r ->
  exists p r', slab_alloc alloc retry now r = Ret (p, r') /\ shm_inv r' /\
    match alloc with
    | Ref a => p = Ref a /\ r' = r
    | NULL => p = retry /\ sessions r' = expired_sessions now 1 r /\
              sources r' = expired_sources now 1 r /\ next_session_id r' = next_session_id r
    end.
Proof.
  intros Hr. destruct alloc as [| a]; cbn [slab_alloc]; [| by exists (Ref a), r].
  destruct (expire_spec now 1 r Hr) as (r' & -> & Hr' & E1 & E2 & _ & E3). rewrite bind_Ret.
  by exists retry, r'.
Qed.

Lemma fresh_src_off r a :
  shm_ok r -> sources r !! a = None ->
  (forall i, q_link (src_queue a) (queues r) <> On i) /\
  (forall m, q_link m (queues r) <> On (subscribers a)).
Proof.
  intros Hr Ha. split.
  - intros i Hi. pose proof (wf_on _ _ _ _ Hr _ _ Hi) as H. destruct i; try done.
    cbn in H. apply some_name in H as [? ?]. congruence.
  - intros m Hm. pose proof (wf_on _ _ _ _ Hr _ _ Hm) as H. destruct m as [b | x | x]; try done.
    cbn in H. apply (wf_held _ _ _ _ Hr), some_name in H as [? ?]. congruence.
Qed.

Lemma fresh_sess_off r x :
  shm_ok r -> sessions r !! x = None ->
  (forall i, q_link (queue x) (queues r) <> On i) /\ (forall i, q_link (sub_queue x) (queues r) <> On i).
Proof.
  intros Hr Hx. split; intros i Hi; pose proof (wf_on _ _ _ _ Hr _ _ Hi) as H; destruct i; try done; cbn in H.
  - apply some_source in H as [? ?]. congruence.
  - apply source_session in H as (? & ? & _). congruence.
Qed.

(** Zeroing and initialising a link that is nowhere. *)
Lemma reinit_ok m q :
  q_ok q -> (forall i, q_link m q <> On i) ->
  let q' := ngx_queue_init m (ngx_queue_zero m q) in
  q_ok q' /\ q_link m q' = Self /\ (forall y, y <> m -> q_link y q' = q_link y q) /\
  (forall i, q_list i q' = q_list i q).
Proof.
  intros Hq Hm. destruct (zero_law _ _ Hm) as (A1 & A2 & A3). pose proof (zero_ok _ _ Hq Hm) as A0.
  assert (Hb : forall i, q_link m (ngx_queue_zero m q) <> On i) by (intros i; by rewrite A1).
  destruct (init_law _ _ Hb) as (B1 & B2 & B3). pose proof (init_ok _ _ A0 Hb) as B0.
  split_and!; [done | done | |].
  - intros y Hy. by rewrite B2, A2.
  - intros i. by rewrite B3, A3.
Qed.

(** Linking [m] into queue [i] when it is in none. *)
Lemma link_in_ok i m q :
  q_ok q -> q_link m q = Self ->
  let q' := ngx_queue_insert_head i m q in
  q_ok q' /\ q_link m q' = On i /\ (forall y, y <> m -> q_link y q' = q_link y q) /\
  q_list i q' = m :: q_list i q /\ (forall j, j <> i -> q_list j q' = q_list j q).
Proof.
  intros Hq Hm. assert (Hoff : forall j, q_link m q <> On j) by (intros j; by rewrite Hm).
  destruct (insert_head_law i _ _ Hoff) as (A1 & A2 & A3 & A4).
  split_and!; try done. by apply insert_head_ok.
Qed.

(** The state after a new source [a] is put in place. *)
Definition with_source (a : Z) (s : ngx_rtc_shm_source_t) r : shm :=
  let q := queues r |> ngx_queue_zero (src_queue a) |> ngx_queue_init (src_queue a)
             |> ngx_queue_init_head (subscribers a)
             |> ngx_queue_insert_head source_list (src_queue a) in
  r |> put_source a s
    |> set_source_tree (ngx_rbtree_insert (source_tree r) (ngx_crc32_long (name s), name s) a)
    |> set_queues q.

Lemma with_source_inv a s r :
  shm_inv r -> sources r !! a = None -> valid_name (name s) = true -> kind_ok s ->
  (forall b t, sources r !! b = Some t -> name t <> name s) -> shm_inv (with_source a s r).
Proof.
  intros Hr Ha Hv Hks Hun. pose proof (inv_ok r Hr) as Hok.
  destruct (fresh_src_off r a Hok Ha) as [Ho1 Ho2].
  pose proof Hok as [H1 H2 H3 H4 H5 H6 H7 H8 H9].
  destruct (reinit_ok _ _ H1 Ho1) as (A0 & A1 & A2 & A3).
  set (q1 := ngx_queue_init (src_queue a) (ngx_queue_zero (src_queue a) (queues r))) in *.
  assert (Hb : forall m, q_link m q1 <> On (subscribers a)).
  { intros m. destruct (decide (m = src_queue a)) as [-> |]; [by rewrite A1 | by rewrite A2 by done]. }
  destruct (init_head_law _ _ Hb) as (B1 & B2 & B3). pose proof (init_head_ok _ _ A0 Hb) as B0.
  set (q2 := ngx_queue_init_head (subscribers a) q1) in *.
  destruct (link_in_ok source_list (src_queue a) q2 B0) as (C0 & C1 & C2 & C3 & C4); [by rewrite B3 |].
  set (q3 := ngx_queue_insert_head source_list (src_queue a) q2) in *.
  assert (Hq : queues (with_source a s r) = q3) by done.
  assert (Hlk : forall y, y <> src_queue a -> q_link y q3 = q_link y (queues r)).
  { intros y Hy. by rewrite C2, B3, A2. }
  assert (Hname : (name <$> <[a := s]> (sources r)) = <[a := name s]> (name <$> sources r)).
  { apply fmap_insert. }
  assert (Hno : forall b n, (name <$> sources r) !! b = Some n -> b <> a /\ n <> name s).
  { intros b n (t & Ht & <-)%name_source. split; [congruence | by apply (Hun b)]. }
  assert (Hwf : shm_ok (with_source a s r)).
  { unfold shm_ok. rewrite Hq. cbn [sources sessions source_tree with_source put_source set_sources
      set_source_tree set_queues]. rewrite Hname. split; try done.
    - intros k b. rewrite insert_law.
      2: { intros k0 (n & Hn & _)%H2. by destruct (Hno a n Hn). }
      rewrite H2. split.
      + intros [[-> ->] | (n & Hn & ->)].
        * exists (name s). by rewrite lookup_insert_eq.
        * exists n. destruct (Hno b n Hn). by rewrite lookup_insert_ne.
      + intros (n & Hn & ->). apply lookup_insert_Some in Hn as [[-> ->] | [_ Hn]]; [by left |].
        right. by exists n.
    - intros b n [[-> <-] | [_ Hn]]%lookup_insert_Some; [done | by apply (H3 b)].
    - intros b c n [[<- <-] | [? Hn]]%lookup_insert_Some [[<- ?] | [? Hm]]%lookup_insert_Some; try done.
      + by destruct (Hno c _ Hm).
      + subst n. by destruct (Hno b _ Hn).
      + by apply (H4 b c n).
    - intros b [n [[<- _] | [? Hn]]%lookup_insert_Some]; [done |]. rewrite Hlk by congruence.
      apply H5. by exists n.
    - intros x Hx. rewrite Hlk by done. by apply H6.
    - intros x b Hx. destruct (H7 x b Hx) as [n Hn]. destruct (Hno b n Hn).
      exists n. by rewrite lookup_insert_ne.
    - intros x p Hx. rewrite Hlk by done. by apply H8.
    - intros m i Hm. destruct (decide (m = src_queue a)) as [-> | Hne].
      + rewrite C1 in Hm. injection Hm as <-. cbn. rewrite lookup_insert_eq. by eexists.
      + rewrite Hlk in Hm by done. specialize (H9 m i Hm). destruct m as [b | x | x], i; try done.
        cbn in *. destruct H9 as [n Hn]. exists n. destruct (Hno b n Hn). by rewrite lookup_insert_ne. }
  apply (inv_shrink r); try done.
  - intros x t _. rewrite Hq. by apply Hlk.
  - intros b t Ht. cbn in Ht. apply lookup_insert_Some in Ht as [[<- <-] | [_ Ht]]; [done |].
    by apply (inv_kind r Hr b).
Qed.

Lemma source_get_inv alloc retry now v w r n :
  shm_inv r ->
  (forall a, alloc = Ref a -> sources r !! a = None) ->
  (forall a, retry = Ref a -> expired_sources now 1 r !! a = None) ->
  exists p r', ngx_rtc_shm_source_get alloc retry now v w r n = Ret (p, r') /\ shm_inv r' /\
    (r' = r \/
     exists r1, (r1 = r \/ (alloc = NULL /\ shm_inv r1 /\ sessions r1 = expired_sessions now 1 r /\
                           sources r1 = expired_sources now 1 r)) /\
       (r' = r1 \/ exists a, sources r1 !! a = None /\
          r' = with_source a (new_source now v w n) r1)) /\
    match p with
    | NULL => True
    | Ref a => exists s, sources r' !! a = Some s /\ name s = n
    end.
Proof.
  intros Hr Ha Hret. unfold ngx_rtc_shm_source_get.
  destruct (valid_name n) eqn:Hv; cbn [negb]; [| exists NULL, r; split_and!; try done; by left].
  pose proof (lookup_spec r n (inv_ok r Hr)) as Hl.
  destruct (ngx_rtc_shm_source_locked_lookup r n) as [| a];
    [| exists (Ref a), r; split_and!; try done; by left].
  destruct (slab_alloc_spec alloc retry now r Hr) as (p & r1 & -> & Hr1 & Hc). rewrite bind_Ret.
  assert (Hfrom : r1 = r \/ (alloc = NULL /\ shm_inv r1 /\ sessions r1 = expired_sessions now 1 r /\
                             sources r1 = expired_sources now 1 r)).
  { destruct alloc; [right | left]; by destruct_and? Hc. }
  destruct p as [| a].
  { exists NULL, r1. split_and!; try done. right. exists r1. split; [done | by left]. }
  assert (Hfree : sources r1 !! a = None).
  { destruct alloc as [| b]; [destruct Hc as (<- & _ & -> & _); by apply Hret |].
    destruct Hc as [[= ->] ->]. by apply Ha. }
  assert (Hun : forall b t, sources r1 !! b = Some t -> name t <> n).
  { destruct alloc as [| b]; [| destruct Hc as [_ ->]; exact Hl].
    destruct Hc as (_ & _ & -> & _). intros b t Ht. unfold expired_sources in Ht.
    rewrite map_lookup_imap in Ht. destruct (sources r !! b) as [t0 |] eqn:E; [| done].
    cbn in Ht. enough (name t = name t0) as -> by by apply (Hl b).
    by eapply sweep_name. }
  exists (Ref a), (with_source a (new_source now v w n) r1). split; [done |]. split; [| split].
  - by apply with_source_inv.
  - right. exists r1. split; [done |]. right. by exists a.
  - exists (new_source now v w n). split; [| done]. cbn. by rewrite lookup_insert_eq.
Qed.

Lemma source_remove_inv r n :
  shm_inv r ->
  exists r', ngx_rtc_shm_source_remove r n = Ret r' /\ shm_inv r' /\
    (r' = r \/ exists a s, sources r !! a = Some s /\ name s = n /\ publishing s = 0 /\
       held_in (sessions r) a = false /\ sources r' = delete a (sources r) /\
       sessions r' = sessions r).
Proof.
  intros Hr. pose proof (inv_ok r Hr) as Hok. unfold ngx_rtc_shm_source_remove.
  assert (Hkeep : exists r', Ret r = Ret r' /\ shm_inv r' /\
    (r' = r \/ exists a s, sources r !! a = Some s /\ name s = n /\ publishing s = 0 /\
       held_in (sessions r) a = false /\ sources r' = delete a (sources r) /\
       sessions r' = sessions r)) by (exists r; split_and!; [done | done | by left]).
  destruct (valid_name n); cbn [negb]; [| done].
  pose proof (lookup_spec r n Hok) as Hl.
  destruct (ngx_rtc_shm_source_locked_lookup r n) as [| a]; [done |].
  destruct Hl as (s & Hs & Hn). unfold source_at. rewrite Hs, bind_Ret.
  destruct (q_list (subscribers a) (queues r)) as [| m l]; [| done].
  destruct (Z.eqb_spec (publishing s) 0) as [Hp |]; cbn [negb]; [| done].
  rewrite (referenced_spec r a Hok), bind_Ret.
  destruct (held_in (sessions r) a) eqn:Hh; [done |]. change (negb (0 =? 0)) with false. cbv iota.
  destruct (free_source_ok r a s Hok Hs Hh) as (r' & -> & Hok' & E1 & E2 & _ & _ & Ek & En & _).
  exists r'. split; [done |]. split.
  - apply (inv_shrink r); try done.
    + intros x t. by rewrite E2.
    + intros b t. rewrite E1. intros [_ Hb]%lookup_delete_Some. by apply (inv_kind r Hr b).
  - right. exists a, s. by split_and!.
Qed.

Lemma update_source_inv r n f :
  shm_inv r -> (forall s, name (f s) = name s) -> (forall s, kind_ok s -> kind_ok (f s)) ->
  exists r', update_source r n f = Ret r' /\ shm_inv r' /\
    (r' = r \/ exists a s, sources r !! a = Some s /\ name s = n /\ r' = put_source a (f s) r).
Proof.
  intros Hr Hf Hk. unfold update_source.
  destruct (negb (valid_name n)); [exists r; split_and!; try done; by left |].
  pose proof (lookup_spec r n (inv_ok r Hr)) as Hl.
  destruct (ngx_rtc_shm_source_locked_lookup r n) as [| a]; [exists r; split_and!; try done; by left |].
  destruct Hl as (s & Hs & Hn). unfold source_at. rewrite Hs, bind_Ret.
  eexists. split; [reflexivity |]. split; [| right; by exists a, s].
  eapply inv_put_source; [done | done | apply Hf | apply Hk].
Qed.

(** *** By name *)

Definition named r (n : octets) a (s : ngx_rtc_shm_source_t) : Prop :=
  sources r !! a = Some s /\ name s = n.

Lemma lookup_cases r n :
  shm_inv r ->
  (exists a s, named r n a s /\ ngx_rtc_shm_source_locked_lookup r n = Ref a) \/
  ((forall a s, ~ named r n a s) /\ ngx_rtc_shm_source_locked_lookup r n = NULL).
Proof.
  intros Hr. pose proof (lookup_spec r n (inv_ok r Hr)) as H.
  destruct (ngx_rtc_shm_source_locked_lookup r n) as [| a].
  - right. split; [| done]. intros a s [Hs Hn]. by apply (H a s).
  - left. destruct H as (s & Hs & Hn). by exists a, s.
Qed.

Lemma named_lookup r n a s :
  shm_inv r -> named r n a s -> valid_name n = true /\ ngx_rtc_shm_source_locked_lookup r n = Ref a.
Proof.
  intros Hr [Hs <-]. split; [| by apply lookup_found; [apply Hr |]].
  apply (wf_name _ _ _ _ (inv_ok r Hr) a). by apply source_name.
Qed.

Lemma named_uniq r n a b s t : shm_inv r -> named r n a s -> named r n b t -> a = b /\ s = t.
Proof.
  intros Hr [Hs Hn] [Ht Hm].
  assert (a = b) as <-.
  { apply (wf_uniq _ _ _ _ (inv_ok r Hr) a b n); [rewrite <- Hn | rewrite <- Hm]; by apply source_name. }
  split; [done | congruence].
Qed.

(** A claim succeeds unless another protocol holds the name. *)
Definition busy (kind : Z) (s : ngx_rtc_shm_source_t) : bool :=
  negb (publisher_kind s =? 0) && negb (publisher_kind s =? kind).

Lemma try_publish_at now r n kind a s :
  shm_inv r -> named r n a s ->
  ngx_rtc_shm_source_try_publish now r n kind
  = Ret (if busy kind s then (NGX_BUSY, r) else (NGX_OK, put_source a (claimed now kind s) r)).
Proof.
  intros Hr Hn. destruct (named_lookup r n a s Hr Hn) as [Hv Hl]. destruct Hn as [Hs _].
  unfold ngx_rtc_shm_source_try_publish, source_at. rewrite Hv, Hl. cbn [negb].
  rewrite Hs, bind_Ret. unfold busy. by destruct (_ && _).
Qed.

Lemma claimed_kind now kind s : kind <> 0 -> kind_ok (claimed now kind s).
Proof. intros H. unfold kind_ok, claimed. cbn. split; [lia | done]. Qed.

Lemma try_publish_inv now r n kind :
  shm_inv r -> kind <> 0 ->
  exists rc r', ngx_rtc_shm_source_try_publish now r n kind = Ret (rc, r') /\ shm_inv r' /\
    (r' = r \/ exists a s, named r n a s /\ busy kind s = false /\ r' = put_source a (claimed now kind s) r).
Proof.
  intros Hr Hk. destruct (lookup_cases r n Hr) as [(a & s & Hn & _) | [_ Hl]].
  - rewrite (try_publish_at now r n kind a s Hr Hn). destruct (busy kind s) eqn:Hb.
    + eexists _, _. split; [reflexivity |]. split; [done | by left].
    + eexists _, _. split; [reflexivity |]. split; [| right; by exists a, s].
      eapply inv_put_source; [done | apply Hn | done | intros _; by apply claimed_kind].
  - unfold ngx_rtc_shm_source_try_publish. rewrite Hl.
    destruct (negb (valid_name n)); eexists _, _; (split; [reflexivity |]); (split; [done | by left]).
Qed.

(** What a release makes of its source. *)
Definition released (now : Z) (alone : bool) (s : ngx_rtc_shm_source_t) : ngx_rtc_shm_source_t :=
  let s := s |> set_publisher_kind NGX_RTC_PUBLISHER_NONE |> set_publishing 0 in
  if alone then if expires s =? 0 then set_expires (u64 (now + NGX_RTC_SHM_SOURCE_EXPIRE_MS)) s else s
  else set_expires 0 s.

Lemma released_name now b s : name (released now b s) = name s.
Proof. unfold released. destruct b; [| done]. by destruct (_ =? _). Qed.

Lemma released_kind now b s : publishing (released now b s) = 0 /\ publisher_kind (released now b s) = 0.
Proof. unfold released. destruct b; [| done]. by destruct (_ =? _). Qed.

Lemma release_publish_at now r n kind a s :
  shm_inv r -> named r n a s ->
  ngx_rtc_shm_source_release_publish now r n kind
  = Ret (if publisher_kind s =? kind then put_source a (released now (alone r a) s) r else r).
Proof.
  intros Hr Hn. destruct (named_lookup r n a s Hr Hn) as [Hv Hl]. destruct Hn as [Hs _].
  unfold ngx_rtc_shm_source_release_publish, source_at. rewrite Hv, Hl. cbn [negb].
  rewrite Hs, bind_Ret. destruct (publisher_kind s =? kind); [| done]. cbn [negb]. cbv zeta.
  unfold released, alone. by destruct (q_list (subscribers a) (queues r)).
Qed.

Lemma release_publish_inv now r n kind :
  shm_inv r ->
  exists r', ngx_rtc_shm_source_release_publish now r n kind = Ret r' /\ shm_inv r' /\
    (r' = r \/ exists a s, named r n a s /\ publisher_kind s = kind /\
                 r' = put_source a (released now (alone r a) s) r).
Proof.
  intros Hr. destruct (lookup_cases r n Hr) as [(a & s & Hn & _) | [_ Hl]].
  - rewrite (release_publish_at now r n kind a s Hr Hn). destruct (Z.eqb_spec (publisher_kind s) kind).
    + eexists. split; [reflexivity |]. split; [| right; by exists a, s].
      eapply inv_put_source; [done | apply Hn | apply released_name |].
      intros _. unfold kind_ok. by destruct (released_kind now (alone r a) s) as [-> ->].
    + exists r. split; [done |]. split; [done | by left].
  - unfold ngx_rtc_shm_source_release_publish. rewrite Hl.
    destruct (negb (valid_name n)); exists r; (split; [done |]); (split; [done | by left]).
Qed.

(** *** By ufrag *)

Lemma with_session_spec {A} r u (d none : A) f :
  shm_inv r ->
  with_session r u d none f = Ret (d, r) \/ with_session r u d none f = Ret (none, r) \/
  exists x s, sessions r !! x = Some s /\ ufrag_is u s = true /\ with_session r u d none f = f x s.
Proof.
  intros Hr. unfold with_session. destruct (negb (valid_ufrag u)); [by left |].
  unfold ngx_rtc_shm_session_locked_lookup. destruct (zlen u =? 0); [right; by left |].
  destruct (search_spec r (ufrag_is u) (inv_ok r Hr)) as [[-> _] | (x & s & -> & Hs & Hu)];
    rewrite bind_Ret; right; [by left |].
  right. exists x, s. unfold session_at. by rewrite Hs, bind_Ret.
Qed.

(** [on_session]: the call does nothing, or acts on a skeleton with that ufrag. *)
Ltac on_session Hr x s Hs Hu :=
  match goal with
  | |- context [with_session ?r ?u ?d ?n ?f] =>
      destruct (with_session_spec r u d n f Hr) as [-> | [-> | (x & s & Hs & Hu & ->)]]
  end.

(** What may happen to a skeleton while it lives. *)
Record evolves (s s' : ngx_rtc_shm_session_t) : Prop := {
  ev_id : id s' = id s;
  ev_source : source s' = source s;
  ev_ufrag : ice_ufrag s' = ice_ufrag s;
  ev_publishing : s_publishing s' = s_publishing s;
  ev_owner : owner_slot s <> -1 -> owner_slot s' = owner_slot s;
  ev_ready : srtp_ready s = 1 -> srtp_ready s' = 1;
  ev_close : close_requested s = 1 -> close_requested s' = 1
}.

Lemma evolves_refl s : evolves s s.
Proof. by split. Qed.

Lemma evolves_trans s t u : evolves s t -> evolves t u -> evolves s u.
Proof.
  intros [A1 A2 A3 A4 A5 A6 A7] [B1 B2 B3 B4 B5 B6 B7]. split; try congruence; [| auto | auto].
  intros H. rewrite <- (A5 H) in H |- *. auto.
Qed.

Lemma link_evolves l s s' :
  link_ok l s -> evolves s s' -> srtp_ready s' = srtp_ready s -> link_ok l s'.
Proof.
  intros [Hv Ho] He Hrd. unfold link_ok, is_viewer in *. rewrite Hrd, (ev_publishing _ _ He).
  split; [done |]. intros H. specialize (Ho H). rewrite (ev_owner _ _ He); lia.
Qed.

Lemma put_session_inv r x s s' :
  shm_inv r -> sessions r !! x = Some s -> evolves s s' -> srtp_ready s' = srtp_ready s ->
  shm_inv (put_session x s' r).
Proof.
  intros Hr Hs He Hrd. eapply inv_put_session; try done; [apply He | apply He |].
  eapply link_evolves; [by apply (inv_sub r Hr x) | done | done].
Qed.

Lemma bound_evolves slot s : owned_elsewhere slot s = false -> evolves s (bound slot s).
Proof.
  unfold owned_elsewhere, bound. destruct (Z.eqb_spec (owner_slot s) (-1)); [| intros _; apply evolves_refl].
  intros _. by split.
Qed.

Lemma bound_owner slot s : owned_elsewhere slot s = false -> owner_slot (bound slot s) = slot.
Proof.
  unfold owned_elsewhere, bound. destruct (Z.eqb_spec (owner_slot s) (-1)); [done |].
  destruct (Z.eqb_spec (owner_slot s) slot); [done |]. done.
Qed.

Lemma bound_ready slot s : srtp_ready (bound slot s) = srtp_ready s.
Proof. unfold bound. by destruct (_ =? _). Qed.

Lemma activated_evolves slot s : owned_elsewhere slot s = false -> evolves s (activated slot s).
Proof.
  intros H. apply evolves_trans with (bound slot s); [by apply bound_evolves |]. by split.
Qed.

Lemma bind_inv r u slot :
  shm_inv r ->
  exists rc out r', ngx_rtc_shm_session_bind r u slot = Ret (rc, out, r') /\ shm_inv r' /\
    (r' = r \/ exists x s, sessions r !! x = Some s /\ ufrag_is u s = true /\
       owned_elsewhere slot s = false /\ r' = put_session x (bound slot s) r).
Proof.
  intros Hr. unfold ngx_rtc_shm_session_bind.
  on_session Hr x s Hs Hu.
  1, 2: eexists _, _, _; split; [reflexivity |]; split; [done | by left].
  destruct (owned_elsewhere slot s) eqn:Ho.
  { eexists _, _, _. split; [reflexivity |]. split; [done | by left]. }
  cbv zeta. pose proof (bound_evolves slot s Ho) as He. rewrite (ev_source _ _ He).
  destruct (inv_source r x s Hr Hs) as (a & src & Ha & Hsrc). rewrite Ha. unfold source_at.
  rewrite Hsrc, !bind_Ret. eexists _, _, _. split; [reflexivity |].
  split; [eapply put_session_inv; [done.. | apply bound_ready] | right; by exists x, s].
Qed.

(** The state after a viewer is linked to its source. *)
Definition with_viewer (x a : Z) (s : ngx_rtc_shm_session_t) (src : ngx_rtc_shm_source_t) r : shm :=
  put_session x s r |> set_queues (ngx_queue_insert_head (subscribers a) (sub_queue x) (queues r))
                    |> put_source a (subscribed s src).

Lemma subscribed_name s src : name (subscribed s src) = name src.
Proof. unfold subscribed. by destruct (_ =? _). Qed.
Lemma subscribed_kind s src : kind_ok src -> kind_ok (subscribed s src).
Proof. unfold subscribed, kind_ok. intros H. cbn. kind_cases. Qed.

Lemma with_viewer_inv x a s s' src r :
  shm_inv r -> sessions r !! x = Some s -> evolves s s' -> source s = Ref a ->
  is_viewer s' -> 0 <= owner_slot s' ->
  sources r !! a = Some src -> q_link (sub_queue x) (queues r) = Self ->
  shm_inv (with_viewer x a s' src r).
Proof.
  intros Hr Hs He Ha Hv Ho Hsrc Hself.
  assert (Hok1 : shm_ok (put_session x s' r)).
  { eapply put_session_ok; [apply Hr | done | apply He]. }
  pose proof Hok1 as [H1 H2 H3 H4 H5 H6 H7 H8 H9].
  destruct (link_in_ok (subscribers a) (sub_queue x) (queues r) H1 Hself) as (Q0 & Q1 & Q2 & _ & _).
  set (q := ngx_queue_insert_head (subscribers a) (sub_queue x) (queues r)) in *.
  set (r1 := put_session x s' r) in *.
  assert (Hx : (source <$> sessions r1) !! x = Some (Ref a)).
  { rewrite <- Ha, <- (ev_source _ _ He). apply session_source. cbn. by rewrite lookup_insert_eq. }
  apply (inv_put_source (set_queues q r1) a src); [| done | apply subscribed_name | apply subscribed_kind].
  apply (inv_relink_session r x s); try done; [apply He | apply He | | |].
  - unfold shm_ok. cbn [sources sessions queues source_tree set_queues]. split; try done.
    + intros b Hb. rewrite Q2 by done. by apply H5.
    + intros y Hy. rewrite Q2 by done. by apply H6.
    + intros y p Hy. destruct (decide (y = x)) as [-> | Hne].
      * right. exists a. fold r1 in Hy. split; [congruence | done].
      * rewrite Q2 by congruence. by apply H8.
    + intros m i Hm. destruct (decide (m = sub_queue x)) as [-> | Hne].
      * rewrite Q1 in Hm. by injection Hm as <-.
      * rewrite Q2 in Hm by done. by apply H9.
  - intros y Hy. apply Q2. congruence.
  - by rewrite Q1.
Qed.

Lemma activate_inv r u slot :
  shm_inv r -> 0 <= slot ->
  exists rc r', ngx_rtc_shm_session_activate r u slot = Ret (rc, r') /\ shm_inv r' /\
    (r' = r \/ exists x s, sessions r !! x = Some s /\ ufrag_is u s = true /\
       owned_elsewhere slot s = false /\
       (r' = put_session x (activated slot s) r \/
        exists a src, source s = Ref a /\ sources r !! a = Some src /\ s_publishing s = 0 /\
          q_link (sub_queue x) (queues r) = Self /\
          r' = with_viewer x a (activated slot s) src r)).
Proof.
  intros Hr Hslot. unfold ngx_rtc_shm_session_activate. on_session Hr x s Hs Hu.
  1, 2: eexists _, _; split; [reflexivity |]; split; [done | by left].
  destruct (owned_elsewhere slot s) eqn:Ho.
  { eexists _, _. split; [reflexivity |]. split; [done | by left]. }
  cbv zeta. pose proof (activated_evolves slot s Ho) as He. rewrite (ev_source _ _ He).
  assert (Hao : owner_slot (activated slot s) = slot) by (unfold activated; cbn; by rewrite bound_owner).
  destruct (inv_source r x s Hr Hs) as (a & src & Ha & Hsrc). rewrite Ha.
  rewrite (ev_publishing _ _ He). unfold source_at. cbn [sources queues put_session set_sessions].
  destruct (Z.eqb_spec (s_publishing s) 0) as [Hp |]; cbn [andb].
  2: { eexists _, _. split; [reflexivity |]. split; [| right; exists x, s; by split_and!; [.. | left]].
       apply (inv_put_session r x s); try done; [apply He | apply He |].
       destruct (inv_sub r Hr x s Hs) as [Hv _]. unfold link_ok, is_viewer in *. rewrite Hao.
       rewrite (ev_publishing _ _ He) in *. tauto. }
  destruct (decide (q_link (sub_queue x) (queues r) = Self)) as [Hl | Hl].
  - rewrite bool_decide_true by done. rewrite Hsrc, bind_Ret. eexists _, _. split; [reflexivity |].
    split.
    + eapply with_viewer_inv; try done; [| by rewrite Hao].
      split; [done | by rewrite (ev_publishing _ _ He)].
    + right. exists x, s. split_and!; try done. right. by exists a, src.
  - rewrite bool_decide_false by done. eexists _, _. split; [reflexivity |].
    split; [| right; exists x, s; by split_and!; [.. | left]].
    apply (inv_put_session r x s); try done; [apply He | apply He |].
    destruct (inv_sub r Hr x s Hs) as [Hv _]. unfold link_ok, is_viewer in *. rewrite Hao.
    rewrite (ev_publishing _ _ He). cbn. tauto.
Qed.

Lemma session_free_inv now r x s :
  shm_inv r -> sessions r !! x = Some s ->
  exists r', ngx_rtc_shm_session_free_locked now r x = Ret r' /\ shm_inv r' /\
    sessions r' = delete x (sessions r) /\ next_session_id r' = next_session_id r /\
    exists a src rest, source s = Ref a /\ sources r !! a = Some src /\
      sources r' = <[a := left_source now s
                       (negb (bool_decide (q_link (sub_queue x) (queues r) = Self))) rest src]> (sources r).
Proof.
  intros Hr Hs. destruct (inv_source r x s Hr Hs) as (a & src & Ha & Hsrc).
  destruct (shm_session_free_ok now r x s a src (inv_ok r Hr) Hs Ha Hsrc)
    as (r' & E & Hok & Es & Eo & _ & _ & _ & Ek & En & _).
  exists r'. split; [done |]. split; [| split_and!; [done | done |]; by eexists _, _, _].
  apply (inv_shrink r); try done.
  - intros y t. rewrite Es. by intros [_ ?]%lookup_delete_Some.
  - intros y t. rewrite Es. intros [Hne _]%lookup_delete_Some. by apply Ek.
  - intros b t. rewrite Eo. intros [[<- <-] | [_ Ht]]%lookup_insert_Some; [| by apply (inv_kind r Hr b)].
    by apply left_source_kind, (inv_kind r Hr a).
Qed.

Lemma remove_if_owner_inv now r u slot :
  shm_inv r ->
  exists r', ngx_rtc_shm_session_remove_if_owner now r u slot = Ret r' /\ shm_inv r' /\
    (r' = r \/ exists x s, sessions r !! x = Some s /\ ufrag_is u s = true /\
       owned_elsewhere slot s = false /\ ngx_rtc_shm_session_free_locked now r x = Ret r').
Proof.
  intros Hr. unfold ngx_rtc_shm_session_remove_if_owner. on_session Hr x s Hs Hu; rewrite ?bind_Ret.
  1, 2: exists r; split; [done |]; split; [done | by left].
  destruct (owned_elsewhere slot s) eqn:Ho; rewrite ?bind_Ret.
  { exists r. split; [done |]. split; [done | by left]. }
  destruct (session_free_inv now r x s Hr Hs) as (r' & E & Hr' & _). rewrite E, !bind_Ret.
  exists r'. split; [done |]. split; [done |]. right. by exists x, s.
Qed.

(** Calls that write one skeleton at most, within [evolves]. *)
Definition one_session r r' : Prop :=
  r' = r \/ exists x s s', sessions r !! x = Some s /\ evolves s s' /\ r' = put_session x s' r.

Lemma one_session_inv r x s s' :
  shm_inv r -> sessions r !! x = Some s -> evolves s s' -> srtp_ready s' = srtp_ready s ->
  shm_inv (put_session x s' r) /\ one_session r (put_session x s' r).
Proof. intros Hr Hs He Hrd. split; [by eapply put_session_inv | right; by exists x, s, s']. Qed.

Lemma request_close_inv r i :
  shm_inv r ->
  exists rc r', ngx_rtc_shm_session_request_close r i = Ret (rc, r') /\ shm_inv r' /\ one_session r r'.
Proof.
  intros Hr. unfold ngx_rtc_shm_session_request_close.
  destruct (i =? 0); [eexists _, r; split; [reflexivity |]; split; [done | by left] |].
  destruct (search_spec r (fun s => id s =? i) (inv_ok r Hr)) as [[-> _] | (x & s & -> & Hs & _)];
    rewrite bind_Ret.
  { eexists _, r. split; [reflexivity |]. split; [done | by left]. }
  unfold session_at. rewrite Hs, bind_Ret. eexists _, _. split; [reflexivity |].
  apply (one_session_inv r x s); try done.
Qed.

Lemma set_stats_inv r u l rv b p g :
  shm_inv r ->
  exists r', ngx_rtc_shm_session_set_stats r u l rv b p g = Ret r' /\ shm_inv r' /\ one_session r r'.
Proof.
  intros Hr. unfold ngx_rtc_shm_session_set_stats. on_session Hr x s Hs Hu; rewrite bind_Ret.
  1, 2: exists r; split; [done |]; split; [done | by left].
  eexists. split; [reflexivity |]. apply (one_session_inv r x s); try done.
Qed.

Lemma set_state_inv r u slot st :
  shm_inv r ->
  exists r', ngx_rtc_shm_session_set_state r u slot st = Ret r' /\ shm_inv r' /\ one_session r r'.
Proof.
  intros Hr. unfold ngx_rtc_shm_session_set_state. on_session Hr x s Hs Hu; rewrite ?bind_Ret.
  1, 2: exists r; split; [done |]; split; [done | by left].
  destruct (_ || _); rewrite bind_Ret; eexists; (split; [reflexivity |]).
  - apply (one_session_inv r x s); try done.
  - split; [done | by left].
Qed.

(** The kick of every viewer of a source: skeletons only evolve. *)
Definition all_evolve r r' : Prop :=
  sources r' = sources r /\ next_session_id r' = next_session_id r /\
  forall x, match sessions r' !! x with
            | None => sessions r !! x = None
            | Some s' => exists s, sessions r !! x = Some s /\ evolves s s'
            end.

Lemma source_request_close_inv r n :
  shm_inv r ->
  exists rc r', ngx_rtc_shm_source_request_close r n = Ret (rc, r') /\ shm_inv r' /\ all_evolve r r' /\
    forall a s, named r n a s -> rc = NGX_OK /\
      forall x, sub_queue x ∈ q_list (subscribers a) (queues r) ->
        exists v, sessions r' !! x = Some v /\ close_requested v = 1.
Proof.
  intros Hr. assert (Hsame : all_evolve r r).
  { split_and!; [done | done |]. intros x. destruct (sessions r !! x) as [s |] eqn:E; [| done].
    exists s. split; [done | apply evolves_refl]. }
  unfold ngx_rtc_shm_source_request_close.
  destruct (lookup_cases r n Hr) as [(a & s & Hn & Hl) | [Hno Hl]].
  2: { rewrite Hl. destruct (negb (valid_name n)); eexists _, r; (split; [reflexivity |]);
       (split_and!; [done | done |]); intros a s H; by destruct (Hno a s). }
  destruct (named_lookup r n a s Hr Hn) as [Hv _]. rewrite Hv, Hl. cbn [negb].
  unfold source_at. rewrite (proj1 Hn), bind_Ret. unfold list_fuel, ngx_queue_head.
  destruct (queue_each_spec (fun l r' => shm_inv r' /\ all_evolve r r' /\
      queues r' = queues r /\ (exists pre, q_list (subscribers a) (queues r) = pre ++ l /\
        forall x, sub_queue x ∈ pre -> exists v, sessions r' !! x = Some v /\ close_requested v = 1))
      (subscribers a) queues close_viewer)
    with (l := q_list (subscribers a) (queues r)) (fuel := length (q_list (subscribers a) (queues r))) (s := r)
    as (r' & -> & Hr' & He & Hq & pre & Hpre & Hc).
  - intros l r' (Hi & _ & Hq & pre & Hp & _). split; [apply Hi |]. rewrite Hq. by exists pre.
  - intros m l r' (Hi & He & Hq & pre & Hp & Hcl).
    destruct (on_subscribers r m a (inv_ok r Hr)) as (x & t0 & -> & Ht0 & _).
    { rewrite Hp. apply elem_of_app. right. by left. }
    pose proof (proj2 (proj2 He) x) as Hx. destruct (sessions r' !! x) as [t |] eqn:Et; [| congruence].
    destruct Hx as (t1 & Ht1 & Hev). assert (t1 = t0) as -> by congruence.
    assert (Hev' : evolves t (set_close_requested 1 t)) by by split.
    unfold close_viewer, session_at. cbn [data_of]. rewrite Et, bind_Ret. eexists. split; [reflexivity |].
    split_and!; [by eapply put_session_inv | | done |].
    + split_and!; [apply He | apply He |]. intros y. cbn. destruct (decide (y = x)) as [-> | Hne].
      * rewrite lookup_insert_eq. exists t0. split; [done | by eapply evolves_trans].
      * rewrite lookup_insert_ne by done. apply He.
    + exists (pre ++ [sub_queue x]). split; [by rewrite <- app_assoc |].
      intros y [Hy | Hy%list_elem_of_singleton]%elem_of_app.
      * cbn. destruct (decide (y = x)) as [-> | Hne].
        -- rewrite lookup_insert_eq. by eexists.
        -- rewrite lookup_insert_ne by done. by apply Hcl.
      * injection Hy as ->. cbn. rewrite lookup_insert_eq. by eexists.
  - split_and!; [done | done | done |]. exists []. split; [done |]. by intros x ?%elem_of_nil.
  - done.
  - rewrite bind_Ret. eexists _, r'. split; [reflexivity |]. split_and!; [done | done |].
    intros b t Hb. destruct (named_uniq r n a b s t Hr Hn Hb) as [<- <-]. split; [done |].
    intros x Hx. apply Hc. rewrite app_nil_r in Hpre. by rewrite <- Hpre.
Qed.

(** The state after a new skeleton is put in place. *)
Definition with_session_at (x : Z) (s : ngx_rtc_shm_session_t) r : shm :=
  let q := queues r |> ngx_queue_zero (queue x) |> ngx_queue_zero (sub_queue x)
             |> ngx_queue_init (queue x) |> ngx_queue_init (sub_queue x)
             |> ngx_queue_insert_head session_list (queue x) in
  r |> put_session x s |> set_next_session_id (u64 (next_session_id r + 1)) |> set_queues q.

(** Two links, both nowhere, zeroed and then initialised. *)
Lemma reinit2_ok m m' q :
  m <> m' -> q_ok q -> (forall i, q_link m q <> On i) -> (forall i, q_link m' q <> On i) ->
  let q' := q |> ngx_queue_zero m |> ngx_queue_zero m' |> ngx_queue_init m |> ngx_queue_init m' in
  q_ok q' /\ q_link m q' = Self /\ q_link m' q' = Self /\
  (forall y, y <> m -> y <> m' -> q_link y q' = q_link y q) /\
  (forall i, q_list i q' = q_list i q).
Proof.
  intros Hne Hq Hm Hm'. destruct (zero_law _ _ Hm) as (A1 & A2 & A3). pose proof (zero_ok _ _ Hq Hm) as A0.
  set (qa := ngx_queue_zero m q) in *.
  assert (Hb : forall i, q_link m' qa <> On i) by (intros i; rewrite A2 by done; apply Hm').
  destruct (zero_law _ _ Hb) as (B1 & B2 & B3). pose proof (zero_ok _ _ A0 Hb) as B0.
  set (qb := ngx_queue_zero m' qa) in *.
  assert (Hc : forall i, q_link m qb <> On i) by (intros i; by rewrite B2, A1 by done).
  destruct (init_law _ _ Hc) as (C1 & C2 & C3). pose proof (init_ok _ _ B0 Hc) as C0.
  set (qc := ngx_queue_init m qb) in *.
  assert (Hd : forall i, q_link m' qc <> On i) by (intros i; by rewrite C2, B1 by done).
  destruct (init_law _ _ Hd) as (D1 & D2 & D3). pose proof (init_ok _ _ C0 Hd) as D0.
  cbv zeta. fold qa qb qc. split_and!; [done | by rewrite D2, C1 by done | done | |].
  - intros y Hy1 Hy2. by rewrite D2, C2, B2, A2 by done.
  - intros i. by rewrite D3, C3, B3, A3.
Qed.

Lemma with_session_inv x a s r :
  shm_inv r -> sessions r !! x = None -> source s = Ref a -> is_Some (sources r !! a) ->
  srtp_ready s = 0 -> id s = next_session_id r -> next_session_id r < 2 ^ 64 - 1 ->
  shm_inv (with_session_at x s r).
Proof.
  intros Hr Hx Ha Hsrc Hrd Hid Hlt. pose proof (inv_ok r Hr) as Hok. pose proof (inv_next r Hr) as Hnx.
  destruct (fresh_sess_off r x Hok Hx) as [Ho1 Ho2].
  pose proof Hok as [H1 H2 H3 H4 H5 H6 H7 H8 H9].
  destruct (reinit2_ok (queue x) (sub_queue x) (queues r)) as (A0 & A1 & A2 & A3 & A4); try done.
  cbv zeta in *.
  set (q1 := queues r |> ngx_queue_zero (queue x) |> ngx_queue_zero (sub_queue x)
               |> ngx_queue_init (queue x) |> ngx_queue_init (sub_queue x)) in *.
  destruct (link_in_ok session_list (queue x) q1 A0 A1) as (B0 & B1 & B2 & _ & _).
  set (q2 := ngx_queue_insert_head session_list (queue x) q1) in *.
  assert (Hq : queues (with_session_at x s r) = q2) by done.
  assert (Hlk : forall y, y <> queue x -> y <> sub_queue x -> q_link y q2 = q_link y (queues r)).
  { intros y Hy1 Hy2. by rewrite B2, A3. }
  assert (Hnext : next_session_id (with_session_at x s r) = next_session_id r + 1).
  { cbn. apply u64_small. unfold is_u64. lia. }
  assert (Hat : forall y t, sessions (with_session_at x s r) !! y = Some t ->
    (y = x /\ t = s) \/ (y <> x /\ sessions r !! y = Some t)).
  { intros y t Ht. cbn in Ht. apply lookup_insert_Some in Ht as [[<- <-] | [? ?]]; [by left | by right]. }
  assert (Hno : forall y p, (source <$> sessions r) !! y = Some p -> y <> x).
  { intros y p (t & Ht & _)%source_session. congruence. }
  split.
  - unfold shm_ok. rewrite Hq. cbn [sources sessions source_tree with_session_at put_session
      set_sessions set_next_session_id set_queues]. rewrite fmap_insert, Ha. split; try done.
    + intros b Hb. rewrite Hlk by done. by apply H5.
    + intros y [p [[<- _] | [? Hp]]%lookup_insert_Some]; [done |]. rewrite Hlk by congruence.
      apply H6. by exists p.
    + intros y b [[<- [= <-]] | [? Hp]]%lookup_insert_Some; [by apply some_name | by apply (H7 y)].
    + intros y p [[<- <-] | [? Hp]]%lookup_insert_Some; [left; by rewrite B2, A2 |].
      rewrite Hlk by congruence. by apply H8.
    + intros m i Hm. destruct (decide (m = queue x)) as [-> | Hne].
      { rewrite B1 in Hm. injection Hm as <-. cbn. rewrite lookup_insert_eq. by eexists. }
      destruct (decide (m = sub_queue x)) as [-> | Hne2]; [rewrite B2, A2 in Hm by done; done |].
      rewrite Hlk in Hm by done. specialize (H9 m i Hm). destruct m as [b | y | y], i; try done; cbn in *.
      * destruct H9 as [p Hp]. exists p. rewrite lookup_insert_ne; [done |]. by apply Hno in Hp.
      * rewrite lookup_insert_ne; [done |]. by apply Hno in H9.
  - apply Hr.
  - intros y t [[-> ->] | [_ Ht]]%Hat; [by exists a | by apply (inv_src r Hr y)].
  - intros y t [[-> ->] | [Hne Ht]]%Hat; rewrite Hq.
    + rewrite B2, A2 by done. unfold link_ok, is_viewer. rewrite Hrd. intuition done.
    + rewrite Hlk by congruence. by apply (inv_sub r Hr y).
  - intros y t Ht. rewrite Hnext. apply Hat in Ht as [[-> ->] | [_ Ht]]; [lia |].
    pose proof (inv_ids r Hr y t Ht). lia.
  - intros y z t u Ht Hu He. apply Hat in Ht as [[-> ->] | [_ Ht]], Hu as [[-> ->] | [_ Hu]]; try done.
    + pose proof (inv_ids r Hr z u Hu). lia.
    + pose proof (inv_ids r Hr y t Ht). lia.
    + by apply (inv_uniq r Hr y z t u).
  - rewrite Hnext. lia.
Qed.

(** The new skeleton heads the session list. *)
Lemma with_session_head x s r :
  shm_inv r -> sessions r !! x = None ->
  q_ok (queues (with_session_at x s r)) /\
  exists l, q_list session_list (queues (with_session_at x s r)) = queue x :: l.
Proof.
  intros Hr Hx. pose proof (inv_ok r Hr) as Hok. destruct (fresh_sess_off r x Hok Hx) as [Ho1 Ho2].
  destruct (reinit2_ok (queue x) (sub_queue x) (queues r)) as (A0 & A1 & _ & _ & _); [done | apply Hok | done | done |].
  destruct (link_in_ok session_list (queue x) _ A0 A1) as (B0 & _ & _ & B3 & _). split; [exact B0 |]. eexists. exact B3.
Qed.

(** When a call to ngx_rtc_shm_session_add is harmless: the slab hands out free memory,
    and when it first has to sweep, the sweep leaves the source of the new skeleton. *)
Definition add_ok (alloc retry : ptr Z) (now : Z) (o : offer) r : Prop :=
  next_session_id r < 2 ^ 64 - 1 /\
  (forall x, alloc = Ref x -> sessions r !! x = None) /\
  (forall x, alloc = NULL -> retry = Ref x -> expired_sessions now 1 r !! x = None /\
     (valid_offer o = true -> forall a s, named r (o_name o) a s -> is_Some (expired_sources now 1 r !! a))).

Lemma expired_named now r n a s t :
  named r n a s -> expired_sources now 1 r !! a = Some t -> name t = n.
Proof.
  intros [Hs <-]. unfold expired_sources. rewrite map_lookup_imap, Hs. cbn. apply sweep_name.
Qed.

Lemma session_add_inv alloc retry now r o :
  shm_inv r -> add_ok alloc retry now o r ->
  exists p r', ngx_rtc_shm_session_add alloc retry now r o = Ret (p, r') /\ shm_inv r' /\
    (r' = r \/
     exists r1, (r1 = r \/ (alloc = NULL /\ shm_inv r1 /\ sessions r1 = expired_sessions now 1 r /\
                           sources r1 = expired_sources now 1 r)) /\
       next_session_id r1 = next_session_id r /\
       (r' = r1 \/ exists x a t, sessions r1 !! x = None /\ named r1 (o_name o) a t /\
          r' = with_session_at x (new_session now (next_session_id r1) a o) r1)).
Proof.
  intros Hr (Hlt & Hf1 & Hf2). unfold ngx_rtc_shm_session_add.
  destruct (valid_offer o) eqn:Hv; cbn [negb].
  2: { eexists _, r. split; [reflexivity |]. split; [done | by left]. }
  destruct (lookup_cases r (o_name o) Hr) as [(a & s & Hn & ->) | [_ ->]].
  2: { eexists _, r. split; [reflexivity |]. split; [done | by left]. }
  assert (Hadd : forall r1 x t, shm_inv r1 -> sessions r1 !! x = None -> named r1 (o_name o) a t ->
    next_session_id r1 = next_session_id r ->
    shm_inv (with_session_at x (new_session now (next_session_id r1) a o) r1)).
  { intros r1 x t Hr1 Hx [Ht _] E. apply (with_session_inv x a); try done; by rewrite E. }
  destruct (slab_alloc_spec alloc retry now r Hr) as (p & r1 & -> & Hr1 & Hc). rewrite bind_Ret.
  destruct alloc as [| x].
  - destruct Hc as (-> & E1 & E2 & E3). destruct retry as [| x].
    { eexists _, r1. split; [reflexivity |]. split; [done |]. right. exists r1.
      split_and!; [by right | done | by left]. }
    destruct (Hf2 x eq_refl eq_refl) as [Hx Ha]. destruct (Ha eq_refl a s Hn) as [t Ht].
    assert (Hn1 : named r1 (o_name o) a t).
    { split; [by rewrite E2 | by eapply expired_named]. }
    rewrite <- E1 in Hx. eexists _, _. split; [reflexivity |]. split; [by apply (Hadd r1 x t) |].
    right. exists r1. split_and!; [by right | done |]. right. by exists x, a, t.
  - destruct Hc as [-> ->]. specialize (Hf1 x eq_refl).
    eexists _, _. split; [reflexivity |]. split; [by apply (Hadd r x s) |].
    right. exists r. split_and!; [by left | done |]. right. by exists x, a, s.
Qed.

(** *** Snapshots *)

Definition report r (m : node) : option (Z * Z) :=
  match sessions r !! data_of m with
  | Some s => if reported r s then Some (id s, owner_slot s) else None
  | None => None
  end.

Definition room (max : Z) (acc l : list (Z * Z)) : list (Z * Z) := acc ++ ztake (max - zlen acc) l.

Lemma room_full max acc l : max <= zlen acc -> room max acc l = acc.
Proof.
  intros H. unfold room, ztake. replace (Z.to_nat (max - zlen acc)) with 0%nat by lia.
  by rewrite take_0, app_nil_r.
Qed.

Lemma snapshot_loop_eq r a max l : forall fuel pre acc,
  shm_inv r -> q_list (subscribers a) (queues r) = pre ++ l -> (length l <= fuel)%nat ->
  snapshot_loop fuel r a max (head l) acc = Ret (room max acc (omap (report r) l)).
Proof.
  induction l as [| m l IH]; intros fuel pre acc Hr Hl Hf.
  { assert (E : snapshot_loop fuel r a max (head []) acc = Ret acc) by (by destruct fuel).
    rewrite E. cbn [omap list_omap]. unfold room, ztake. by rewrite take_nil, app_nil_r. }
  cbn [length] in Hf. destruct fuel as [| fuel]; [lia |]. cbn [snapshot_loop head].
  destruct (Z.ltb_spec (zlen acc) max) as [Hlt | Hge]; [| by rewrite room_full].
  destruct (on_subscribers r m a (inv_ok r Hr)) as (x & s & -> & Hs & _).
  { rewrite Hl. apply elem_of_app. right. by left. }
  unfold session_at. cbn [data_of]. rewrite Hs, bind_Ret. cbv zeta.
  rewrite (queue_next_mid (subscribers a) (sub_queue x) (queues r) pre l), bind_Ret;
    [| apply Hr | done].
  rewrite (IH fuel (pre ++ [sub_queue x])); [| done | by rewrite <- app_assoc | lia].
  cbn [omap list_omap]. unfold report at 2. cbn [data_of]. rewrite Hs.
  destruct (reported r s); [| done]. f_equal. unfold room. rewrite zlen_app, zlen_cons, zlen_nil.
  rewrite <- app_assoc. f_equal. unfold ztake.
  replace (Z.to_nat (max - zlen acc)) with (S (Z.to_nat (max - (zlen acc + (1 + 0))))) by lia.
  done.
Qed.

Lemma snapshot_spec r n a s max :
  shm_inv r -> named r n a s -> 0 < max ->
  ngx_rtc_shm_source_snapshot r n max
  = Ret (ztake max (omap (report r) (q_list (subscribers a) (queues r)))).
Proof.
  intros Hr Hn Hmax. destruct (named_lookup r n a s Hr Hn) as [Hv Hl].
  unfold ngx_rtc_shm_source_snapshot. rewrite Hv, Hl. destruct (Z.eqb_spec max 0); [lia |].
  cbn [negb orb]. unfold source_at. rewrite (proj1 Hn), bind_Ret. unfold list_fuel, ngx_queue_head.
  rewrite (snapshot_loop_eq r a max _ _ [] [] Hr eq_refl (le_n _)). unfold room.
  rewrite zlen_nil, Z.sub_0_r. done.
Qed.

End inv.
End ShmInv.
