(* ===== verification/ShmStep.v ===== *)
(** The workers' calls into the registry as one step relation, and what a step may do.

    An event is a call with the time [ngx_current_msec] shows; since every call holds the
    pool mutex, any interleaving of the workers is a sequence of events.  [effect] lists,
    once for all calls, the ways a step changes a source or a skeleton; the properties of
    ShmProps.v are read off it. *)

From S2P Require Import Prelude Nginx Retransmit Shm ShmInv.
From stdpp Require Import list gmap.
Import Shm ShmInv.

#[local] Open Scope Z_scope.

Module ShmStep.

Inductive op :=
| SourceGet (alloc retry : ptr Z) (v_ssrc a_ssrc : Z) (n : octets)
| SourceRemove (n : octets)
| AddSendStats (n : octets) (failed eagain : Z)
| SetPt (n : octets) (v a : Z)
| SetSsrc (n : octets) (v a : Z)
| TryPublish (n : octets) (kind : Z)
| ReleasePublish (n : octets) (kind : Z)
| SessionAdd (alloc retry : ptr Z) (o : offer)
| Bind (u : octets) (slot : Z)
| Activate (u : octets) (slot : Z)
| RemoveIfOwner (u : octets) (slot : Z)
| RequestClose (i : Z)
| SetStats (u : octets) (lost received bps pacer gop : Z)
| SetState (u : octets) (slot st : Z)
| SourceRequestClose (n : octets)
| Expire (forced : Z).

#[global] Instance ptr_Z_eq_dec : EqDecision (ptr Z).
Proof. solve_decision. Defined.
#[global] Instance offer_eq_dec : EqDecision offer.
Proof. solve_decision. Defined.
#[global] Instance op_eq_dec : EqDecision op.
Proof. solve_decision. Defined.

Section step.
Context `{HC : Crc}.
Context {Q T : Type} `{HQ : Queues queue_id node Q, !QueueLaws queue_id node Q}.
Context `{HT : StrTree T, !StrTreeLaws T}.
Abbreviation shm := (ngx_rtc_shm_ctx_t (Q:=Q) (T:=T)).
Implicit Types (r : shm) (a x now : Z) (n : octets) (e : op).

(** One call: its result code (0 where it has none) and the table it leaves. *)
Definition step (now : Z) (e : op) (r : shm) : outcome (Z * shm) :=
  let void (m : outcome shm) := r ← m; Ret (0, r) in
  match e with
  | SourceGet alloc retry v w n =>
      '(p, r) ← ngx_rtc_shm_source_get alloc retry now v w r n; Ret (if is_null p then -1 else 0, r)
  | SourceRemove n => void (ngx_rtc_shm_source_remove r n)
  | AddSendStats n f g => void (ngx_rtc_shm_source_add_send_stats r n f g)
  | SetPt n v a => void (ngx_rtc_shm_source_set_pt r n v a)
  | SetSsrc n v a => void (ngx_rtc_shm_source_set_ssrc r n v a)
  | TryPublish n kind => ngx_rtc_shm_source_try_publish now r n kind
  | ReleasePublish n kind => void (ngx_rtc_shm_source_release_publish now r n kind)
  | SessionAdd alloc retry o =>
      '(p, r) ← ngx_rtc_shm_session_add alloc retry now r o; Ret (if is_null p then -1 else 0, r)
  | Bind u slot => '(rc, _, r) ← ngx_rtc_shm_session_bind r u slot; Ret (rc, r)
  | Activate u slot => ngx_rtc_shm_session_activate r u slot
  | RemoveIfOwner u slot => void (ngx_rtc_shm_session_remove_if_owner now r u slot)
  | RequestClose i => ngx_rtc_shm_session_request_close r i
  | SetStats u l rv b p g => void (ngx_rtc_shm_session_set_stats r u l rv b p g)
  | SetState u slot st => void (ngx_rtc_shm_session_set_state r u slot st)
  | SourceRequestClose n => ngx_rtc_shm_source_request_close r n
  | Expire forced => r ← ngx_rtc_shm_expire_locked now r forced; Ret (0, r)
  end.

(** The slab hands out free memory, slots are worker numbers, protocols have a tag, and a
    skeleton is not added under memory pressure for a source the sweep takes away. *)
Definition op_ok (now : Z) (e : op) r : Prop :=
  match e with
  | SourceGet alloc retry _ _ _ =>
      (forall a, alloc = Ref a -> sources r !! a = None) /\
      (forall a, retry = Ref a -> expired_sources now 1 r !! a = None)
  | TryPublish _ kind | ReleasePublish _ kind => kind <> 0
  | SessionAdd alloc retry o => add_ok alloc retry now o r
  | Bind _ slot | Activate _ slot | RemoveIfOwner _ slot | SetState _ slot _ => 0 <= slot
  | _ => True
  end.

(** What the environment promises, whatever the calls are: the slab hands out free memory, slots are
    worker numbers, protocols have a tag, and the 64-bit ids have not run out. *)
Definition op_env (now : Z) (e : op) r : Prop :=
  match e with
  | SessionAdd alloc retry o =>
      next_session_id r < 2 ^ 64 - 1 /\
     (forall x, alloc = Ref x -> sessions r !! x = None) /\
     (forall x, alloc = NULL -> retry = Ref x -> expired_sessions now 1 r !! x = None)
  | e => op_ok now e r
  end.

(** The call is a session_add that has looked its source up and whose allocation then has to sweep,
    and the sweep frees that source. *)
Definition loses_source (now : Z) (e : op) r : bool :=
  match e with
  | SessionAdd NULL (Ref _) o =>
      valid_offer o &&
      match ngx_rtc_shm_source_locked_lookup r (o_name o), ngx_rtc_shm_expire_locked now r 1 with
      | Ref a, Ret r1 => bool_decide (sources r1 !! a = None)
      | _, _ => false
      end
  | _ => false
  end.

Lemma op_env_ok now e r : shm_inv r -> op_env now e r -> loses_source now e r = false -> op_ok now e r.
Proof.
  intros Hr He Hl. destruct e; try exact He. destruct He as (H1 & H2 & H3). split_and!; [done | done |].
  intros x -> ->. split; [by apply H3 |]. intros Hv a s Hn. cbn [loses_source] in Hl. rewrite Hv in Hl. cbn [andb] in Hl.
  rewrite (proj2 (named_lookup r _ a s Hr Hn)) in Hl. destruct (expire_spec now 1 r Hr) as (r1 & E & _ & _ & Eso & _).
  rewrite E in Hl. apply bool_decide_eq_false in Hl. rewrite <- Eso. by destruct (sources r1 !! a) as [t |]; [exists t |].
Qed.

(** ** The effect of a step *)

(** The source the call names. *)
Definition op_name (e : op) : option octets :=
  match e with
  | SourceGet _ _ _ _ n | SourceRemove n | AddSendStats n _ _ | SetPt n _ _ | SetSsrc n _ _
  | TryPublish n _ | ReleasePublish n _ | SourceRequestClose n => Some n
  | SessionAdd _ _ o => Some (o_name o)
  | _ => None
  end.

(** The call sweeps the table, with this [forced] flag. *)
Definition sweeps (e : op) : option Z :=
  match e with
  | Expire f => Some f
  | SourceGet NULL _ _ _ _ | SessionAdd NULL _ _ => Some 1
  | _ => None
  end.

(** The publish right is as it was. *)
Definition same_right (s s' : ngx_rtc_shm_source_t) : Prop :=
  publishing s' = publishing s /\ publisher_kind s' = publisher_kind s /\
  publisher_seen_ms s' = publisher_seen_ms s.

Inductive change (now : Z) (e : op) (held : bool) (s : ngx_rtc_shm_source_t)
    : option ngx_rtc_shm_source_t -> Prop :=
| ch_same : change now e held s (Some s)
| ch_named s' : op_name e = Some (name s) -> same_right s s' -> expires s' = expires s ->
    change now e held s (Some s')
| ch_held s' : held = true -> same_right s s' -> change now e held s (Some s')
| ch_claim kind : e = TryPublish (name s) kind -> busy kind s = false -> kind <> 0 ->
    change now e held s (Some (claimed now kind s))
| ch_release b : e = ReleasePublish (name s) (publisher_kind s) ->
    change now e held s (Some (released now b s))
| ch_sweep f lost alone h s' : sweeps e = Some f -> (lost = true -> held = true) ->
    (h = true -> held = true) -> sweep now f lost alone h s = s' -> change now e held s s'
| ch_remove : e = SourceRemove (name s) -> publishing s = 0 -> held = false ->
    change now e held s None.

(** The name and the retransmit ring are not touched by any of these calls. *)
Definition same_body (s s' : ngx_rtc_shm_source_t) : Prop :=
  name s' = name s /\ retransmit s' = retransmit s.

(** What a step may do to every source and every skeleton. *)
Record effect (now : Z) (e : op) r r' : Prop := {
  ef_inv : shm_inv r';
  ef_src a s : sources r !! a = Some s ->
    exists o, change now e (held_in (sessions r) a) s o /\
      match o with
      | Some s' => sources r' !! a = Some s' /\ same_body s s'
      | None => forall s', sources r' !! a = Some s' -> op_name e = Some (name s')
      end;
  ef_new a s' : sources r' !! a = Some s' ->
    (exists s, sources r !! a = Some s /\ same_body s s') \/
    (op_name e = Some (name s') /\ publishing s' = 0 /\ publisher_kind s' = 0 /\ retransmit s' = NULL);
  ef_sess x s' : sessions r' !! x = Some s' ->
    (exists s, sessions r !! x = Some s /\ evolves s s') \/
    (owner_slot s' = -1 /\ next_session_id r <= id s' /\
     exists a src n, source s' = Ref a /\ sources r' !! a = Some src /\
       op_name e = Some n /\ name src = n);
  ef_lost x s : sessions r !! x = Some s -> owner_slot s <> -1 ->
    (exists s', sessions r' !! x = Some s' /\ evolves s s') \/
    exists u, e = RemoveIfOwner u (owner_slot s) /\ ufrag_is u s = true
}.

(** The retransmit rings: a source keeps its own, a new source has none. *)
Definition keeps_bodies r r' : Prop :=
  forall a s', sources r' !! a = Some s' -> (exists s, sources r !! a = Some s /\ same_body s s') \/ retransmit s' = NULL.

Lemma effect_keeps now e r r' : effect now e r r' -> keeps_bodies r r'.
Proof. intros He a s' Hs'. destruct (ef_new _ _ _ _ He a s' Hs') as [? | (_ & _ & _ & ?)]; [by left | by right]. Qed.

Lemma keeps_refl r : keeps_bodies r r.
Proof. intros a s Hs. left. by exists s. Qed.

Lemma keeps_trans r1 r2 r3 : keeps_bodies r1 r2 -> keeps_bodies r2 r3 -> keeps_bodies r1 r3.
Proof.
  intros H1 H2 a s3 H3. destruct (H2 a s3 H3) as [(s2 & Hs2 & En & Er) | ?]; [| by right].
  destruct (H1 a s2 Hs2) as [(s1 & Hs1 & En1 & Er1) | E]; [left | right; congruence].
  exists s1. split; [done |]. split; congruence.
Qed.

Lemma sweep_retransmit now f lost al held s s' :
  sweep now f lost al held s = Some s' -> retransmit s' = retransmit s.
Proof.
  unfold sweep, armed, drop_publisher.
  repeat match goal with |- context [if ?c then _ else _] => destruct c end;
    try done; by intros [= <-].
Qed.

Lemma released_retransmit now b s : retransmit (released now b s) = retransmit s.
Proof. unfold released. destruct b; [| done]. by destruct (_ =? _). Qed.

Lemma subscribed_retransmit s src : retransmit (subscribed s src) = retransmit src.
Proof. unfold subscribed. by destruct (_ =? _). Qed.

Lemma left_source_retransmit now s was rest src :
  retransmit (left_source now s was rest src) = retransmit src.
Proof.
  unfold left_source, unsubscribed, armed. destruct was, rest; try done; repeat destruct (_ && _); done.
Qed.

(** Nothing happened to sources, or to skeletons. *)
Lemma same_sources now e r r' a s :
  sources r' = sources r -> sources r !! a = Some s ->
  exists o, change now e (held_in (sessions r) a) s o /\
    match o with
    | Some s' => sources r' !! a = Some s' /\ same_body s s'
    | None => forall s', sources r' !! a = Some s' -> op_name e = Some (name s')
    end.
Proof. intros E Hs. exists (Some s). split; [apply ch_same |]. by rewrite E. Qed.

Lemma same_new e r r' a s' :
  sources r' = sources r -> sources r' !! a = Some s' ->
  (exists s, sources r !! a = Some s /\ same_body s s') \/
  (op_name e = Some (name s') /\ publishing s' = 0 /\ publisher_kind s' = 0 /\ retransmit s' = NULL).
Proof. intros E Hs. left. exists s'. by rewrite <- E. Qed.

Lemma same_sess r r' x s' (P : Prop) :
  sessions r' = sessions r -> sessions r' !! x = Some s' ->
  (exists s, sessions r !! x = Some s /\ evolves s s') \/ P.
Proof. intros E Hs. left. exists s'. rewrite <- E. split; [done | apply evolves_refl]. Qed.

Lemma same_lost r r' x s (P : Prop) :
  sessions r' = sessions r -> sessions r !! x = Some s ->
  (exists s', sessions r' !! x = Some s' /\ evolves s s') \/ P.
Proof. intros E Hs. left. exists s. rewrite E. split; [done | apply evolves_refl]. Qed.

(** No effect at all. *)
Lemma effect_none now e r : shm_inv r -> effect now e r r.
Proof.
  intros Hr. split; [done | | | |].
  - intros a s. by apply same_sources.
  - intros a s'. by apply same_new.
  - intros x s'. by apply same_sess.
  - intros x s Hs _. by eapply same_lost.
Qed.

(** One source is written. *)
Lemma effect_source now e r b t t' :
  shm_inv (put_source b t' r) -> sources r !! b = Some t -> same_body t t' ->
  change now e (held_in (sessions r) b) t (Some t') -> effect now e r (put_source b t' r).
Proof.
  intros Hi Hb Hn Hc. split; [done | | | |].
  - intros a s Hs. cbn. destruct (decide (a = b)) as [-> | Hne].
    + assert (s = t) as -> by congruence. exists (Some t'). by rewrite lookup_insert_eq.
    + exists (Some s). split; [apply ch_same |]. by rewrite lookup_insert_ne.
  - intros a s' Hs'. cbn in Hs'. left. apply lookup_insert_Some in Hs' as [[<- <-] | [_ Hs']].
    + by exists t.
    + by exists s'.
  - intros x s'. by apply same_sess.
  - intros x s Hs _. by eapply same_lost.
Qed.

(** Skeletons evolve, none comes or goes. *)
Lemma effect_evolve now e r r' : shm_inv r' -> all_evolve r r' -> effect now e r r'.
Proof.
  intros Hi (Es & _ & Hx). split; [done | | | |].
  - intros a s. by apply same_sources.
  - intros a s'. by apply same_new.
  - intros x s' Hs'. specialize (Hx x). rewrite Hs' in Hx. by left.
  - intros x s Hs _. left. specialize (Hx x). destruct (sessions r' !! x) as [s' |]; [| congruence].
    destruct Hx as (t & Ht & He). exists s'. split; [done |]. congruence.
Qed.

Lemma put_session_evolves x s s' r :
  sessions r !! x = Some s -> evolves s s' -> all_evolve r (put_session x s' r).
Proof.
  intros Hs He. split_and!; [done | done |]. intros y. cbn. destruct (decide (y = x)) as [-> | Hne].
  - rewrite lookup_insert_eq. by exists s.
  - rewrite lookup_insert_ne by done. destruct (sessions r !! y) as [t |] eqn:Et; [| done].
    exists t. split; [done | apply evolves_refl].
Qed.

Lemma one_session_effect now e r r' : shm_inv r' -> one_session r r' -> effect now e r r'.
Proof.
  intros Hi [-> | (x & s & s' & Hs & He & ->)]; [by apply effect_none |].
  apply effect_evolve; [done |]. by eapply put_session_evolves.
Qed.

(** The sweep. *)
Lemma sweep_effect now e r r' f :
  shm_inv r' -> sweeps e = Some f -> sessions r' = expired_sessions now f r ->
  sources r' = expired_sources now f r -> effect now e r r'.
Proof.
  intros Hi Hf E1 E2.
  assert (Hsub : forall (P : ngx_rtc_shm_session_t -> bool) a,
    held_in (filter (fun xs => P xs.2 = true) (sessions r)) a = true -> held_in (sessions r) a = true).
  { intros P a. rewrite !held_in_spec. intros (x & s & [Hs _]%map_lookup_filter_Some & Hp).
    by exists x, s. }
  assert (Hsub' : forall (P : ngx_rtc_shm_session_t -> bool) a,
    held_in (filter (fun xs => P xs.2 = false) (sessions r)) a = true -> held_in (sessions r) a = true).
  { intros P a. rewrite !held_in_spec. intros (x & s & [Hs _]%map_lookup_filter_Some & Hp).
    by exists x, s. }
  assert (Hname : forall a s s', sources r !! a = Some s -> sources r' !! a = Some s' -> same_body s s').
  { intros a s s' Hs. rewrite E2. unfold expired_sources. rewrite map_lookup_imap, Hs. cbn.
    intros H. split; [by eapply sweep_name | by eapply sweep_retransmit]. }
  split; [done | | | |].
  - intros a s Hs. eexists. split.
    + eapply ch_sweep; [done | apply (Hsub (reaped now f)) | apply (Hsub' (reaped now f)) | reflexivity].
    + assert (E : sources r' !! a = sweep now f (held_in (gone now f (sessions r)) a) (alone r a)
                    (held_in (kept now f (sessions r)) a) s).
      { rewrite E2. unfold expired_sources. by rewrite map_lookup_imap, Hs. }
      unfold gone, kept in E. rewrite <- E. destruct (sources r' !! a) as [s' |] eqn:Es; [| done].
      split; [done |]. by apply (Hname a s s').
  - intros a s' Hs'. left. pose proof Hs' as Hs2. rewrite E2 in Hs2. unfold expired_sources in Hs2.
    rewrite map_lookup_imap in Hs2. destruct (sources r !! a) as [s |] eqn:Es; [| done].
    exists s. split; [done |]. by apply (Hname a s s').
  - intros x s' Hs'. left. exists s'. rewrite E1 in Hs'. apply map_lookup_filter_Some in Hs' as [? _].
    split; [done | apply evolves_refl].
  - intros x s Hs Ho. left. exists s. split; [| apply evolves_refl]. rewrite E1.
    apply map_lookup_filter_Some. split; [done |]. unfold reaped. cbn [snd].
    by destruct (Z.eqb_spec (owner_slot s) (-1)).
Qed.

(** A sweep and then something else. *)
Lemma sweep_then now e r r1 r2 f :
  sweeps e = Some f -> effect now e r r1 -> shm_inv r2 ->
  (forall a s, sources r1 !! a = Some s -> sources r2 !! a = Some s) ->
  (forall a s, sources r2 !! a = Some s -> sources r1 !! a = Some s \/
     sources r1 !! a = None /\ op_name e = Some (name s) /\ publishing s = 0 /\ publisher_kind s = 0 /\
     retransmit s = NULL) ->
  (forall x s, sessions r1 !! x = Some s -> sessions r2 !! x = Some s) ->
  (forall x s, sessions r2 !! x = Some s -> sessions r1 !! x = Some s \/
     owner_slot s = -1 /\ next_session_id r <= id s /\
     exists a src n, source s = Ref a /\ sources r2 !! a = Some src /\
       op_name e = Some n /\ name src = n) ->
  effect now e r r2.
Proof.
  intros Hf [Hi Hs Hn Hx Hl] Hi2 Hup Hdown Hsup Hsdown. split; [done | | | |].
  - intros a s Ha. destruct (Hs a s Ha) as (o & Hc & Ho). exists o. split; [done |].
    destruct o as [s' |]; [destruct Ho as [Ho ?]; split; [by apply Hup | done] |].
    intros s' Hs'. destruct (Hdown a s' Hs') as [H | (_ & H & _)]; [by apply Ho | done].
  - intros a s' Hs'. destruct (Hdown a s' Hs') as [H | (_ & H)]; [by apply Hn | by right].
  - intros x s' Hs'. destruct (Hsdown x s' Hs') as [H | H]; [| by right].
    destruct (Hx x s' H) as [? | (? & ? & a & src & n & ? & ? & ?)]; [by left |]. right.
    split_and!; [done | done |]. exists a, src, n. split_and!; try done; [by apply Hup | tauto..].
  - intros x s Hs' Ho. destruct (Hl x s Hs' Ho) as [(s' & H & ?) | ?]; [| by right].
    left. exists s'. split; [by apply Hsup | done].
Qed.

Lemma source_get_effect now alloc retry v w n r :
  shm_inv r -> op_ok now (SourceGet alloc retry v w n) r ->
  exists p r', ngx_rtc_shm_source_get alloc retry now v w r n = Ret (p, r') /\
    effect now (SourceGet alloc retry v w n) r r'.
Proof.
  intros Hr [Ha Hret]. set (e := SourceGet alloc retry v w n).
  destruct (source_get_inv alloc retry now v w r n Hr Ha Hret) as (p & r' & E & Hr' & Hc & _).
  exists p, r'. split; [done |]. destruct Hc as [-> | (r1 & H1 & Hc)]; [by apply effect_none |].
  assert (He : effect now e r r1).
  { destruct H1 as [-> | (-> & Hi1 & E1 & E2)]; [by apply effect_none |].
    by eapply (sweep_effect now e r r1 1). }
  destruct Hc as [-> | (a & Ha1 & ->)]; [done |]. split; [done | | | |].
  - intros b s Hs. destruct (ef_src _ _ _ _ He b s Hs) as (o & Hc & Ho). exists o. split; [done |].
    cbn [sources with_source set_queues set_source_tree put_source set_sources].
    destruct (decide (b = a)) as [-> | Hne].
    + rewrite lookup_insert_eq. destruct o as [s' |]; [destruct Ho; congruence |]. by intros s' [= <-].
    + by rewrite lookup_insert_ne.
  - intros b s' Hs'. cbn in Hs'. apply lookup_insert_Some in Hs' as [[<- <-] | [_ Hs']].
    + by right.
    + by apply (ef_new _ _ _ _ He b).
  - intros x s' Hs'. destruct (ef_sess _ _ _ _ He x s' Hs') as [H | (H1' & H2 & b & src & m & H3 & H4 & H5 & H6)];
      [by left |]. right. split_and!; try done. exists b, src, m. split_and!; try done.
    cbn. destruct (decide (b = a)) as [-> | Hne]; [congruence | by rewrite lookup_insert_ne].
  - intros x s Hs Ho. apply (ef_lost _ _ _ _ He x s Hs Ho).
Qed.

Lemma source_remove_effect now n r :
  shm_inv r ->
  exists r', ngx_rtc_shm_source_remove r n = Ret r' /\ effect now (SourceRemove n) r r'.
Proof.
  intros Hr. destruct (source_remove_inv r n Hr) as (r' & E & Hr' & Hc). exists r'. split; [done |].
  destruct Hc as [-> | (b & t & Ht & <- & Hp & Hh & E1 & E2)]; [by apply effect_none |].
  split; [done | | | |].
  - intros a s Hs. destruct (decide (a = b)) as [-> | Hne].
    + assert (s = t) as -> by congruence. exists None. split; [by apply ch_remove |].
      rewrite E1, lookup_delete_eq. done.
    + exists (Some s). split; [apply ch_same |]. by rewrite E1, lookup_delete_ne.
  - intros a s' Hs'. left. rewrite E1 in Hs'. apply lookup_delete_Some in Hs' as [_ Hs']. by exists s'.
  - intros x s'. by apply same_sess.
  - intros x s Hs _. by eapply same_lost.
Qed.

Lemma update_effect now e n f r :
  shm_inv r -> op_name e = Some n -> (forall s, same_body s (f s)) ->
  (forall s, same_right s (f s)) -> (forall s, expires (f s) = expires s) ->
  exists r', update_source r n f = Ret r' /\ effect now e r r'.
Proof.
  intros Hr He Hn Hs Hx.
  destruct (update_source_inv r n f Hr (fun s => proj1 (Hn s))) as (r' & E & Hr' & Hc).
  { intros s. unfold kind_ok. destruct (Hs s) as (-> & -> & _). by rewrite Hx. }
  exists r'. split; [done |]. destruct Hc as [-> | (a & s & Ha & <- & ->)]; [by apply effect_none |].
  apply (effect_source now e r a s (f s)); try done. by apply ch_named.
Qed.

Lemma publish_effect now n kind r :
  shm_inv r -> kind <> 0 ->
  exists rc r', ngx_rtc_shm_source_try_publish now r n kind = Ret (rc, r') /\
    effect now (TryPublish n kind) r r'.
Proof.
  intros Hr Hk. destruct (try_publish_inv now r n kind Hr Hk) as (rc & r' & E & Hr' & Hc).
  exists rc, r'. split; [done |].
  destruct Hc as [-> | (a & s & [Ha <-] & Hb & ->)]; [by apply effect_none |].
  apply (effect_source now _ r a s); try done. by apply ch_claim.
Qed.

Lemma release_effect now n kind r :
  shm_inv r ->
  exists r', ngx_rtc_shm_source_release_publish now r n kind = Ret r' /\
    effect now (ReleasePublish n kind) r r'.
Proof.
  intros Hr. destruct (release_publish_inv now r n kind Hr) as (r' & E & Hr' & Hc).
  exists r'. split; [done |].
  destruct Hc as [-> | (a & s & [Ha <-] & <- & ->)]; [by apply effect_none |].
  apply (effect_source now _ r a s); try done; [by split; [apply released_name | apply released_retransmit] | by apply ch_release].
Qed.

Lemma held_by_session r x s a :
  sessions r !! x = Some s -> source s = Ref a -> held_in (sessions r) a = true.
Proof. intros Hs Ha. apply held_in_spec. by exists x, s. Qed.

Lemma activate_effect now u slot r :
  shm_inv r -> 0 <= slot ->
  exists rc r', ngx_rtc_shm_session_activate r u slot = Ret (rc, r') /\
    effect now (Activate u slot) r r'.
Proof.
  intros Hr Hslot. destruct (activate_inv r u slot Hr Hslot) as (rc & r' & E & Hr' & Hc).
  exists rc, r'. split; [done |].
  destruct Hc as [-> | (x & s & Hs & _ & Ho & Hc)]; [by apply effect_none |].
  pose proof (activated_evolves slot s Ho) as Hev.
  destruct Hc as [-> | (b & src & Hb & Hsrc & _ & _ & ->)].
  { apply effect_evolve; [done |]. by eapply put_session_evolves. }
  pose proof (put_session_evolves x s _ r Hs Hev) as (_ & _ & Hx).
  split; [done | | | |].
  - intros a t Ht. cbn. destruct (decide (a = b)) as [-> | Hne].
    + assert (t = src) as -> by congruence. exists (Some (subscribed (activated slot s) src)).
      rewrite lookup_insert_eq. split; [| split; [done | by split; [apply subscribed_name | apply subscribed_retransmit]]].
      apply ch_held; [by eapply held_by_session |]. unfold subscribed, same_right. by destruct (_ =? _).
    + exists (Some t). split; [apply ch_same |]. by rewrite lookup_insert_ne.
  - intros a t Ht. cbn in Ht. left. apply lookup_insert_Some in Ht as [[<- <-] | [_ Ht]].
    + exists src. split; [done | by split; [apply subscribed_name | apply subscribed_retransmit]].
    + by exists t.
  - intros y t Ht. left. specialize (Hx y). change (sessions (with_viewer x b (activated slot s) src r))
      with (sessions (put_session x (activated slot s) r)) in Ht. by rewrite Ht in Hx.
  - intros y t Ht _. left. specialize (Hx y).
    change (sessions (with_viewer x b (activated slot s) src r))
      with (sessions (put_session x (activated slot s) r)).
    destruct (sessions (put_session x (activated slot s) r) !! y) as [t' |]; [| congruence].
    destruct Hx as (t0 & Ht0 & ?). exists t'. split; [done | congruence].
Qed.

Lemma left_source_right now s was rest src :
  same_right src (left_source now s was rest src).
Proof.
  unfold left_source, unsubscribed, armed, same_right.
  destruct was, rest; try done; repeat destruct (_ && _); done.
Qed.

Lemma remove_effect now u slot r :
  shm_inv r ->
  exists r', ngx_rtc_shm_session_remove_if_owner now r u slot = Ret r' /\
    effect now (RemoveIfOwner u slot) r r'.
Proof.
  intros Hr. destruct (remove_if_owner_inv now r u slot Hr) as (r' & E & Hr' & Hc).
  exists r'. split; [done |].
  destruct Hc as [-> | (x & s & Hs & Hu & Ho & Hfree)]; [by apply effect_none |].
  destruct (session_free_inv now r x s Hr Hs)
    as (r2 & E2 & _ & Es & _ & b & src & rest & Hb & Hsrc & Eo).
  assert (r2 = r') as -> by congruence. split; [done | | | |].
  - intros a t Ht. rewrite Eo. destruct (decide (a = b)) as [-> | Hne].
    + assert (t = src) as -> by congruence. eexists. split.
      * apply ch_held; [by eapply held_by_session | apply left_source_right].
      * rewrite lookup_insert_eq. split; [done | by split; [apply left_source_name | apply left_source_retransmit]].
    + exists (Some t). split; [apply ch_same |]. by rewrite lookup_insert_ne.
  - intros a t. rewrite Eo. intros Ht. left. apply lookup_insert_Some in Ht as [[<- <-] | [_ Ht]].
    + exists src. split; [done | by split; [apply left_source_name | apply left_source_retransmit]].
    + by exists t.
  - intros y t. rewrite Es. intros [_ Ht]%lookup_delete_Some. left. exists t. split; [done | apply evolves_refl].
  - intros y t Ht Hot. rewrite Es. destruct (decide (y = x)) as [-> | Hne].
    + right. exists u. assert (t = s) as -> by congruence. split; [f_equal | done].
      unfold owned_elsewhere in Ho. destruct (Z.eqb_spec (owner_slot s) (-1)); [done |].
      by destruct (Z.eqb_spec (owner_slot s) slot).
    + left. exists t. rewrite lookup_delete_ne by done. split; [done | apply evolves_refl].
Qed.

Lemma session_add_effect now alloc retry o r :
  shm_inv r -> add_ok alloc retry now o r ->
  exists p r', ngx_rtc_shm_session_add alloc retry now r o = Ret (p, r') /\
    effect now (SessionAdd alloc retry o) r r'.
Proof.
  intros Hr Hok. set (e := SessionAdd alloc retry o).
  destruct (session_add_inv alloc retry now r o Hr Hok) as (p & r' & E & Hr' & Hc).
  exists p, r'. split; [done |]. destruct Hc as [-> | (r1 & H1 & Hnx & Hc)]; [by apply effect_none |].
  assert (He : effect now e r r1).
  { destruct H1 as [-> | (-> & Hi1 & E1 & E2)]; [by apply effect_none |].
    by eapply (sweep_effect now e r r1 1). }
  destruct Hc as [-> | (x & a & t & Hx & [Ht Hn] & ->)]; [done |].
  destruct He as [_ Hs Hnew Hse Hlo]. split; [done | done | done | |].
  - intros y s' Hs'. cbn in Hs'. apply lookup_insert_Some in Hs' as [[<- <-] | [_ Hs']].
    + right. cbn. split_and!; [done | lia |]. by exists a, t, (o_name o).
    + by apply Hse.
  - intros y s Hy Ho. destruct (Hlo y s Hy Ho) as [(s' & Hs' & Hev) | H]; [| by right].
    left. exists s'. split; [| done]. cbn. rewrite lookup_insert_ne; [done | congruence].
Qed.

Lemma bind_effect now u slot r :
  shm_inv r ->
  exists rc out r', ngx_rtc_shm_session_bind r u slot = Ret (rc, out, r') /\
    effect now (Bind u slot) r r'.
Proof.
  intros Hr. destruct (bind_inv r u slot Hr) as (rc & out & r' & E & Hr' & Hc).
  exists rc, out, r'. split; [done |].
  destruct Hc as [-> | (x & s & Hs & _ & Ho & ->)]; [by apply effect_none |].
  apply effect_evolve; [done |]. eapply put_session_evolves; [done | by apply bound_evolves].
Qed.

(** [on_update e n Hr]: the call writes fields of the source named [n]. *)
Ltac on_update now e n Hr :=
  match goal with
  | |- context [update_source ?r n ?f] =>
      destruct (update_effect now e n f r Hr) as (?r' & -> & ?He);
      [ done
      | try (intros ?s; cbv zeta; repeat match goal with |- context [if ?b then _ else _] => destruct b end; done) ..
      | rewrite bind_Ret; eexists _, _; split; [reflexivity | eassumption] ]
  end.

(** Every call of the registry completes, and does no more than [effect] says. *)
Lemma step_effect now e r :
  shm_inv r -> op_ok now e r ->
  exists rc r', step now e r = Ret (rc, r') /\ effect now e r r'.
Proof.
  intros Hr Hok. destruct e; cbn [step].
  - destruct (source_get_effect now alloc retry v_ssrc a_ssrc n r Hr Hok) as (p & r' & -> & He).
    rewrite bind_Ret. by eexists _, r'.
  - destruct (source_remove_effect now n r Hr) as (r' & -> & He). rewrite bind_Ret. by eexists _, r'.
  - unfold ngx_rtc_shm_source_add_send_stats. on_update now (AddSendStats n failed eagain) n Hr.
  - unfold ngx_rtc_shm_source_set_pt. on_update now (SetPt n v a) n Hr.
  - unfold ngx_rtc_shm_source_set_ssrc. on_update now (SetSsrc n v a) n Hr.
  - by apply publish_effect.
  - destruct (release_effect now n kind r Hr) as (r' & -> & He). rewrite bind_Ret. by eexists _, r'.
  - destruct (session_add_effect now alloc retry o r Hr Hok) as (p & r' & -> & He).
    rewrite bind_Ret. by eexists _, r'.
  - destruct (bind_effect now u slot r Hr) as (rc & out & r' & -> & He). rewrite bind_Ret. by eexists _, r'.
  - by apply activate_effect.
  - destruct (remove_effect now u slot r Hr) as (r' & -> & He). rewrite bind_Ret. by eexists _, r'.
  - destruct (request_close_inv r i Hr) as (rc & r' & -> & Hi & H1).
    exists rc, r'. split; [done | by apply one_session_effect].
  - destruct (set_stats_inv r u lost received bps pacer gop Hr) as (r' & -> & Hi & H1).
    rewrite bind_Ret. eexists _, r'. split; [done | by apply one_session_effect].
  - destruct (set_state_inv r u slot st Hr) as (r' & -> & Hi & H1).
    rewrite bind_Ret. eexists _, r'. split; [done | by apply one_session_effect].
  - destruct (source_request_close_inv r n Hr) as (rc & r' & -> & Hi & H1 & _).
    exists rc, r'. split; [done | by apply effect_evolve].
  - destruct (expire_spec now forced r Hr) as (r' & -> & Hi & E1 & E2 & _). rewrite bind_Ret.
    eexists _, r'. split; [done |]. by eapply sweep_effect.
Qed.

(** ** Runs *)

(** The registry as the zone initialiser of ngx_rtc_core_module.c leaves a new zone; [raw] is the
    zeroed memory the heads are initialised in. *)
Definition fresh_zone (raw : Q) (nw : Z) : shm :=
  {| sources := ∅; sessions := ∅;
     queues := raw |> ngx_queue_init_head source_list |> ngx_queue_init_head session_list;
     source_tree := t_empty; next_session_id := 1; nworkers := nw;
     layout := NGX_RTC_SHM_LAYOUT |}.

(** Calls in the order they take the mutex, each with its time and its result. *)
Inductive trace : shm -> list (Z * op * Z) -> shm -> Prop :=
| trace_nil r : trace r [] r
| trace_cons r now e rc r1 l r2 :
    op_ok now e r -> step now e r = Ret (rc, r1) -> trace r1 l r2 ->
    trace r ((now, e, rc) :: l) r2.

Lemma init_inv raw nw :
  q_ok raw -> (forall m i, q_link m raw <> On i) -> shm_inv (fresh_zone raw nw).
Proof.
  intros H0 Hoff. destruct (init_head_law source_list raw (fun m => Hoff m _)) as (_ & _ & A3).
  pose proof (init_head_ok source_list raw H0 (fun m => Hoff m _)) as A0.
  set (q1 := ngx_queue_init_head source_list raw) in *.
  assert (Hoff1 : forall m i, q_link m q1 <> On i) by (intros m i; by rewrite A3).
  destruct (init_head_law session_list q1 (fun m => Hoff1 m _)) as (_ & _ & B3).
  pose proof (init_head_ok session_list q1 A0 (fun m => Hoff1 m _)) as B0.
  split; try done.
  unfold shm_ok, fresh_zone. cbn. rewrite !fmap_empty. fold q1. split; try done.
  - intros k a. split; [intros H; by apply empty_law in H | by intros (n & Hn & _)].
  - by intros a [? ?].
  - by intros x [? ?].
  - intros m i. rewrite B3. intros H. by apply Hoff1 in H.
Qed.

Lemma step_inv now e r rc r' :
  shm_inv r -> op_ok now e r -> step now e r = Ret (rc, r') -> effect now e r r'.
Proof.
  intros Hr Hok E. destruct (step_effect now e r Hr Hok) as (rc' & r1 & E1 & He). congruence.
Qed.

Lemma trace_inv r l r' : trace r l r' -> shm_inv r -> shm_inv r'.
Proof.
  induction 1 as [| r now e rc r1 l r2 Hok E _ IH]; [done |]. intros Hr.
  by apply IH, (step_inv now e r rc).
Qed.

Lemma trace_app r l1 l2 r' : trace r (l1 ++ l2) r' -> exists r1, trace r l1 r1 /\ trace r1 l2 r'.
Proof.
  revert r. induction l1 as [| ev l1 IH]; intros r Ht; [exists r; split; [constructor | done] |].
  cbn in Ht. inversion Ht as [| ? now e rc r1 ? ? Hok E Hrest]; subst.
  destruct (IH r1 Hrest) as (r2 & H1 & H2). exists r2. split; [by econstructor | done].
Qed.

(** *** Runs of the environment

    Nothing is asked of the calls here but what the environment promises. *)
Inductive calls : shm -> list (Z * op) -> shm -> Prop :=
| calls_nil r : calls r [] r
| calls_cons r now e rc r1 l r2 :
    op_env now e r -> step now e r = Ret (rc, r1) -> calls r1 l r2 -> calls r ((now, e) :: l) r2.

(** Some call of the run lost its source. *)
Fixpoint loses (l : list (Z * op)) r : bool :=
  match l with
  | [] => false
  | (now, e) :: l =>
      loses_source now e r || match step now e r with Ret (_, r) => loses l r | Fault => false end
  end.

Lemma calls_inv r l r' : calls r l r' -> shm_inv r -> loses l r = false -> shm_inv r'.
Proof.
  induction 1 as [| r now e rc r1 l r2 He E _ IH]; [done |]. intros Hr. cbn [loses]. rewrite E.
  intros [Hl1 Hl2]%orb_false_iff. apply IH; [| done]. by apply (step_inv now e r rc), E; [| apply op_env_ok].
Qed.

Lemma strlen_whole (u : octets) : (0 ∉ u) -> ngx_strlen u = zlen u.
Proof.
  induction u as [| b u IH]; [done |]. intros [Hb Hu]%not_elem_of_cons. cbn [ngx_strlen].
  destruct (Z.eqb_spec b 0); [congruence |]. rewrite IH, zlen_cons by done. done.
Qed.

(** What losing the source leaves: the skeleton, first in its list, points at freed memory, and
    whoever binds it next reads there. *)
Lemma lost_add now x o r :
  shm_inv r -> op_env now (SessionAdd NULL (Ref x) o) r -> loses_source now (SessionAdd NULL (Ref x) o) r = true ->
  exists r' a, step now (SessionAdd NULL (Ref x) o) r = Ret (0, r') /\
    ngx_rtc_shm_source_locked_lookup r (o_name o) = Ref a /\ sources r' !! a = None /\
    (exists v, sessions r' !! x = Some v /\ source v = Ref a /\ ice_ufrag v = o_ufrag o) /\
    ((0 ∉ o_ufrag o) -> forall t slot, step t (Bind (o_ufrag o) slot) r' = Fault).
Proof.
  intros Hr (_ & _ & Hx) Hl. specialize (Hx x eq_refl eq_refl). cbn [loses_source] in Hl.
  destruct (valid_offer o) eqn:Hv; [cbn [andb] in Hl | done].
  destruct (ngx_rtc_shm_source_locked_lookup r (o_name o)) as [| a] eqn:El; [done |].
  destruct (expire_spec now 1 r Hr) as (r1 & E & Hr1 & Ese & _). rewrite E in Hl. apply bool_decide_eq_true in Hl.
  rewrite <- Ese in Hx. set (v := new_session now (next_session_id r1) a o). exists (with_session_at x v r1), a.
  assert (Hs : sessions (with_session_at x v r1) !! x = Some v) by (cbn; by rewrite lookup_insert_eq).
  assert (Hat : session_at (with_session_at x v r1) x = Ret v) by (unfold session_at; by rewrite Hs).
  split; [| split_and!; [done | done | by exists v |]].
  { cbn [step]. unfold ngx_rtc_shm_session_add. rewrite Hv, El. cbn [negb slab_alloc]. by rewrite E, !bind_Ret. }
  intros Hu t slot. destruct (with_session_head x v r1 Hr1 Hx) as [_ [l Hl1]].
  set (r2 := with_session_at x v r1) in *. cbn [step]. unfold ngx_rtc_shm_session_bind, with_session.
  unfold valid_offer in Hv. apply andb_prop in Hv as [[[Hv _]%andb_prop _]%andb_prop _]. rewrite Hv. cbn [negb].
  unfold valid_ufrag in Hv. apply andb_prop in Hv as [Hv _]. apply Z.ltb_lt in Hv.
  unfold ngx_rtc_shm_session_locked_lookup. destruct (Z.eqb_spec (zlen (o_ufrag o)) 0); [lia |].
  assert (Hself : ufrag_is (o_ufrag o) v = true).
  { unfold ufrag_is. change (ice_ufrag v) with (o_ufrag o). rewrite strlen_whole, ztake_all, bool_decide_true by done || lia.
    by rewrite Z.eqb_refl. }
  unfold session_search, list_fuel, ngx_queue_head. rewrite Hl1. cbn [length queue_find head].
  cbn [data_of]. rewrite Hat, !bind_Ret, Hself, !bind_Ret. cbn [data_of]. rewrite Hat, bind_Ret. change (owned_elsewhere slot v) with false. cbv iota zeta.
  assert (Hb : source (bound slot v) = Ref a) by done. rewrite Hb. unfold source_at.
  change (sources r2 !! a) with (sources r1 !! a). by rewrite Hl.
Qed.

(** Every call completes, the one that loses its source too. *)
Lemma step_env now e r : shm_inv r -> op_env now e r -> exists rc r', step now e r = Ret (rc, r').
Proof.
  intros Hr He. destruct (loses_source now e r) eqn:El.
  - destruct e; try done. destruct alloc; [| done]. destruct retry as [| x]; [done |].
    destruct (lost_add now x o r Hr He El) as (r' & a & E & _). by eexists _, _.
  - destruct (step_effect now e r Hr (op_env_ok now e r Hr He El)) as (rc & r' & E & _). by eexists _, _.
Qed.

(** ** A source by its name *)

(** What a step may do to the source named [n], told by name. *)
Lemma effect_named now e r r' n a s :
  shm_inv r -> effect now e r r' -> named r n a s ->
  exists o, change now e (held_in (sessions r) a) s o /\
    match o with
    | Some s' => named r' n a s'
    | None => op_name e = Some n \/ forall b t, ~ named r' n b t
    end.
Proof.
  intros Hr He [Hs Hn]. destruct (ef_src _ _ _ _ He a s Hs) as (o & Hc & Ho). exists o. split; [done |].
  destruct o as [s' |]; [by destruct Ho as [? [? ?]]; split; [| congruence] |].
  destruct (decide (op_name e = Some n)) as [| Hne]; [by left | right].
  intros b t [Ht Htn]. destruct (ef_new _ _ _ _ He b t Ht) as [(t0 & Ht0 & Hn0 & _) | [H _]]; [| congruence].
  assert (b = a) as ->.
  { destruct (named_uniq r n a b s t0 Hr) as [<- _]; [done | split; congruence | done]. }
  apply Ho in Ht. congruence.
Qed.

Lemma effect_unnamed now e r r' n :
  effect now e r r' -> (forall b t, ~ named r n b t) -> op_name e <> Some n ->
  forall b t, ~ named r' n b t.
Proof.
  intros He Hno Hne b t [Ht Hn]. destruct (ef_new _ _ _ _ He b t Ht) as [(t0 & Ht0 & Hn0 & _) | [H _]].
  - apply (Hno b t0). split; congruence.
  - congruence.
Qed.

(** A source nobody holds stays unheld while no call names it. *)
Lemma effect_unheld now e r r' n a s' :
  effect now e r r' -> held_in (sessions r) a = false -> named r' n a s' ->
  op_name e <> Some n -> held_in (sessions r') a = false.
Proof.
  intros He Hh [Hs' Hn'] Hne. apply not_true_iff_false. rewrite held_in_spec.
  intros (x & t & Ht & Hp). destruct (ef_sess _ _ _ _ He x t Ht)
    as [(t0 & Ht0 & Hev) | (_ & _ & b & src & m & Hb & Hsrc & Hm & Hnm)].
  - apply not_true_iff_false in Hh. apply Hh, held_in_spec. exists x, t0. split; [done |].
    by rewrite <- (ev_source _ _ Hev).
  - assert (b = a) as -> by congruence. congruence.
Qed.

(** *** Concrete runs *)

(** [op_ok] as a test, without memory pressure. *)
Definition op_okb (e : op) r : bool :=
  let free {A} (m : gmap Z A) p := match p with Ref a => bool_decide (m !! a = None) | NULL => false end in
  match e with
  | SourceGet alloc retry _ _ _ => free (sources r) alloc && is_null retry
  | TryPublish _ kind | ReleasePublish _ kind => negb (kind =? 0)
  | SessionAdd alloc retry _ =>
      (next_session_id r <? 2 ^ 64 - 1) && free (sessions r) alloc && is_null retry
  | Bind _ slot | Activate _ slot | RemoveIfOwner _ slot | SetState _ slot _ => 0 <=? slot
  | _ => true
  end.

Lemma op_okb_ok now e r : op_okb e r = true -> op_ok now e r.
Proof.
  unfold op_okb, op_ok, add_ok. destruct e; try done; try lia.
  - destruct alloc as [| a]; [done |]. destruct retry; [| by rewrite andb_false_r].
    rewrite andb_true_r, bool_decide_eq_true. intros Ha. split; [by intros b [= <-] | done].
  - destruct alloc as [| a]; [by rewrite andb_false_r |]. destruct retry; [| by rewrite andb_false_r].
    rewrite andb_true_r, andb_true_iff, bool_decide_eq_true, Z.ltb_lt.
    intros [Hn Ha]. split_and!; [done | by intros b [= <-] | done].
Qed.

Fixpoint run_ok (evs : list (Z * op)) r : bool :=
  match evs with
  | [] => true
  | (now, e) :: evs =>
      op_okb e r && match step now e r with Ret (_, r) => run_ok evs r | Fault => false end
  end.

Fixpoint log (evs : list (Z * op)) r : list (Z * op * Z) :=
  match evs with
  | [] => []
  | (now, e) :: evs =>
      match step now e r with Ret (rc, r) => (now, e, rc) :: log evs r | Fault => [] end
  end.

Fixpoint final (evs : list (Z * op)) r : shm :=
  match evs with
  | [] => r
  | (now, e) :: evs => match step now e r with Ret (_, r) => final evs r | Fault => r end
  end.

Lemma run_trace evs : forall r, run_ok evs r = true -> trace r (log evs r) (final evs r).
Proof.
  induction evs as [| [now e] evs IH]; intros r; cbn [run_ok log final]; [constructor |].
  intros [H1 H2]%andb_true_iff. destruct (step now e r) as [[rc r1] |] eqn:E; [| done].
  econstructor; [by apply op_okb_ok | done | by apply IH].
Qed.

End step.
End ShmStep.
