(* ===== verification/ShmProps.v ===== *)
(** What the cross-worker registry guarantees, over every interleaving of the workers'
    calls: no pointer into the slab dangles until a session_add loses its source to its own
    sweep, the publish right is exclusive, a skeleton has one owner, a crashed publisher's source
    is reclaimed, the sweep and the snapshot are what their comments promise.  Read off the step relation of ShmStep.v. *)

From S2P Require Import Prelude Nginx Retransmit Shm ShmInv ShmStep.
From stdpp Require Import list gmap.
Import Shm ShmInv ShmStep.

#[local] Open Scope Z_scope.

Module ShmProps.
Section props.
Context `{HC : Crc}.
Context {Q T : Type} `{HQ : Queues queue_id node Q, !QueueLaws queue_id node Q}.
Context `{HT : StrTree T, !StrTreeLaws T}.
Abbreviation shm := (ngx_rtc_shm_ctx_t (Q:=Q) (T:=T)).
Implicit Types (r : shm) (a x now : Z) (n : octets) (e : op).

(** A state the workers can bring about, whatever they call and in whatever order. *)
Definition reachable r : Prop :=
  exists raw nw l, q_ok raw /\ (forall m i, q_link m raw <> On i) /\ trace (fresh_zone raw nw) l r.

Lemma reachable_inv r : reachable r -> shm_inv r.
Proof.
  intros (raw & nw & l & H1 & H2 & Ht). eapply trace_inv; [done |]. by apply init_inv.
Qed.

Lemma s64_small x : 0 <= x < 2 ^ 63 -> s64 x = x.
Proof.
  intros H. unfold s64. rewrite u64_small by (unfold is_u64; lia).
  destruct (Z.ltb_spec x 9223372036854775808); [done | lia].
Qed.

Lemma fresh_spec now s :
  0 < publisher_seen_ms s <= now -> now < 2 ^ 63 ->
  fresh_publisher now s = (now <? publisher_seen_ms s + NGX_RTC_SHM_PUBLISH_GRACE_MS).
Proof.
  intros H1 H2. unfold fresh_publisher. rewrite s64_small by lia.
  destruct (Z.eqb_spec (publisher_seen_ms s) 0); [lia |]. cbn. apply eq_iff_eq_true.
  rewrite !Z.ltb_lt. lia.
Qed.

(** *** The publish right *)

(** Protocol [kind] holds [n] and was last seen at [seen]. *)
Definition holds r n (kind seen : Z) : Prop :=
  exists a s, named r n a s /\ publishing s <> 0 /\ publisher_kind s = kind /\
    publisher_seen_ms s = seen.

(** The events let the right of [kind] over [n], last renewed at [seen], stand: it is
    renewed in time and not given back. *)
Fixpoint kept_up n (kind seen : Z) (l : list (Z * op * Z)) : Prop :=
  match l with
  | [] => True
  | (now, e, rc) :: l =>
      seen <= now < seen + NGX_RTC_SHM_PUBLISH_GRACE_MS /\ now < 2 ^ 63 /\
      e <> ReleasePublish n kind /\
      kept_up n kind (if decide (e = TryPublish n kind) then now else seen) l
  end.

Lemma sweep_fresh now f lost al held s :
  publishing s <> 0 -> fresh_publisher now s = true -> sweep now f lost al held s = Some s.
Proof.
  intros Hp Hf. assert (E : armed now s = s).
  { unfold armed. by destruct (Z.eqb_spec (publishing s) 0). }
  unfold sweep. rewrite E. assert (Ei : (if lost && al then s else s) = s) by (by destruct (_ && _)).
  rewrite Ei, Hf. by destruct (Z.eqb_spec (publishing s) 0).
Qed.

Lemma claim_ok now n kind r r' :
  shm_inv r -> step now (TryPublish n kind) r = Ret (NGX_OK, r') -> holds r' n kind now.
Proof.
  intros Hr E. cbn [step] in E. destruct (lookup_cases r n Hr) as [(a & s & Hn & _) | [_ Hl]].
  - rewrite (try_publish_at now r n kind a s Hr Hn) in E. destruct (busy kind s); [done |].
    injection E as <-. exists a, (claimed now kind s). split_and!; try done.
    split; [cbn; by rewrite lookup_insert_eq | apply Hn].
  - unfold ngx_rtc_shm_source_try_publish in E. rewrite Hl in E. by destruct (negb (valid_name n)).
Qed.

Lemma claim_renew now n kind seen r rc r' :
  shm_inv r -> kind <> 0 -> holds r n kind seen -> step now (TryPublish n kind) r = Ret (rc, r') ->
  holds r' n kind now.
Proof.
  intros Hr Hk (a & s & Hn & Hp & Hki & _) E. apply (claim_ok now n kind r r' Hr).
  cbn [step] in E |- *. rewrite (try_publish_at now r n kind a s Hr Hn) in E |- *.
  assert (Hb : busy kind s = false).
  { unfold busy. rewrite Hki, Z.eqb_refl. by rewrite andb_false_r. }
  rewrite Hb in E |- *. by injection E as _ <-.
Qed.

(** A step keeps a right that is fresh and not given back; it renews it at most. *)
Lemma right_step now n kind e r rc r' a s :
  shm_inv r -> kind <> 0 -> op_ok now e r -> step now e r = Ret (rc, r') ->
  named r n a s -> publishing s <> 0 -> publisher_kind s = kind ->
  0 < publisher_seen_ms s <= now -> now < publisher_seen_ms s + NGX_RTC_SHM_PUBLISH_GRACE_MS ->
  now < 2 ^ 63 -> e <> ReleasePublish n kind ->
  exists s', named r' n a s' /\ publishing s' <> 0 /\ publisher_kind s' = kind /\
    (publisher_seen_ms s' = publisher_seen_ms s \/
     publisher_seen_ms s' = now /\ e = TryPublish n kind).
Proof.
  intros Hr Hk Hok E Hn Hp Hki Hseen Hnow Hbig Hrel.
  pose proof (step_inv now e r rc r' Hr Hok E) as He.
  assert (Hf : fresh_publisher now s = true).
  { rewrite fresh_spec by lia. by apply Z.ltb_lt. }
  destruct (effect_named now e r r' n a s Hr He Hn) as (o & Hc & Ho).
  enough (exists s', o = Some s' /\ publishing s' <> 0 /\ publisher_kind s' = kind /\
    (publisher_seen_ms s' = publisher_seen_ms s \/
     publisher_seen_ms s' = now /\ e = TryPublish n kind)) as (s' & -> & H) by by exists s'.
  assert (Hsame : forall s', same_right s s' -> publishing s' <> 0 /\ publisher_kind s' = kind /\
    (publisher_seen_ms s' = publisher_seen_ms s \/
     publisher_seen_ms s' = now /\ e = TryPublish n kind)).
  { intros s' (-> & -> & ->). by split_and!; [.. | left]. }
  destruct Hn as [_ Hn]. destruct Hc as [| s' _ Hs _ | s' _ Hs | k He' Hb Hk0 | b He' | f lost al h o _ _ _ <- | He' Hp' _].
  - exists s. split; [done | by apply Hsame].
  - exists s'. split; [done | by apply Hsame].
  - exists s'. split; [done | by apply Hsame].
  - assert (k = kind) as ->.
    { unfold busy in Hb. rewrite Hki in Hb. destruct (Z.eqb_spec kind 0); [done |].
      by destruct (Z.eqb_spec kind k). }
    eexists. split; [reflexivity |]. split_and!; [done | done |]. right. by rewrite He', Hn.
  - destruct Hrel. by rewrite He', Hn, Hki.
  - rewrite sweep_fresh by done. exists s. split; [done | by apply Hsame].
  - done.
Qed.

Lemma holds_step now n kind seen e r rc r' :
  shm_inv r -> kind <> 0 -> holds r n kind seen -> 0 < seen ->
  seen <= now < seen + NGX_RTC_SHM_PUBLISH_GRACE_MS -> now < 2 ^ 63 ->
  e <> ReleasePublish n kind -> e <> TryPublish n kind ->
  op_ok now e r -> step now e r = Ret (rc, r') -> holds r' n kind seen.
Proof.
  intros Hr Hk (a & s & Hn & Hp & Hki & <-) H0 Hnow Hbig Hrel Htry Hok E.
  destruct (right_step now n kind e r rc r' a s) as (s' & Hn' & Hp' & Hki' & [Hs | [_ ?]]); try done; try lia.
  by exists a, s'.
Qed.

Lemma holds_trace r l r' n kind : forall seen,
  trace r l r' -> shm_inv r -> kind <> 0 -> holds r n kind seen -> 0 < seen ->
  kept_up n kind seen l -> exists seen', holds r' n kind seen'.
Proof.
  intros seen Ht. revert seen. induction Ht as [r | r now e rc r1 l r2 Hok E _ IH]; intros seen Hr Hk Hh H0.
  { intros _. by exists seen. }
  pose proof (ef_inv _ _ _ _ (step_inv now e r rc r1 Hr Hok E)) as Hr1. cbn [kept_up].
  intros (Hnow & Hbig & Hrel & Hrest). destruct (decide (e = TryPublish n kind)) as [-> | Htry].
  - apply (IH now); try done; [by apply (claim_renew now n kind seen r rc) | lia].
  - apply (IH seen); try done. by apply (holds_step now n kind seen e r rc).
Qed.

(** C5: The publish right is exclusive across workers: once a protocol has claimed a stream,
    then through any interleaving of calls in which it renews the claim within the grace
    period and does not release it, a claim by another protocol answers NGX_BUSY and changes
    nothing. *)
Theorem publish_exclusive r n kind other now r1 l r2 t :
  reachable r -> kind <> 0 -> other <> kind -> 0 < now ->
  step now (TryPublish n kind) r = Ret (NGX_OK, r1) -> trace r1 l r2 -> kept_up n kind now l ->
  step t (TryPublish n other) r2 = Ret (NGX_BUSY, r2).
Proof.
  intros Hreach Hk Hne H0 E Ht Hup. pose proof (reachable_inv r Hreach) as Hr.
  pose proof (ef_inv _ _ _ _ (step_inv now (TryPublish n kind) r NGX_OK r1 Hr Hk E)) as Hr1.
  destruct (holds_trace r1 l r2 n kind now) as (seen & a & s & Hn & _ & Hki & _); try done;
    [by apply (claim_ok now n kind r) |].
  pose proof (trace_inv r1 l r2 Ht Hr1) as Hr2. cbn [step].
  rewrite (try_publish_at t r2 n other a s Hr2 Hn). unfold busy. rewrite Hki.
  destruct (Z.eqb_spec kind 0); [done |]. by destruct (Z.eqb_spec kind other); [congruence |].
Qed.

(** *** Ownership *)

(** C17: A skeleton has one owner: from the moment a worker has bound it, no interleaving of
    calls moves it to another worker, to another source or to another id, and it only
    disappears when a call from its owner's slot with its ufrag removes it. *)
Theorem session_one_owner r l r' x s :
  reachable r -> trace r l r' -> sessions r !! x = Some s -> owner_slot s <> -1 ->
  (exists s', sessions r' !! x = Some s' /\ id s' = id s /\ source s' = source s /\
     owner_slot s' = owner_slot s) \/
  exists t u rc, (t, RemoveIfOwner u (owner_slot s), rc) ∈ l /\ ufrag_is u s = true.
Proof.
  intros Hreach Ht Hs Ho. apply reachable_inv in Hreach as Hr. clear Hreach. revert s Hs Ho Hr.
  induction Ht as [r | r now e rc r1 l r2 Hok E _ IH]; intros s Hs Ho Hr.
  { left. by exists s. }
  pose proof (step_inv now e r rc r1 Hr Hok E) as He.
  destruct (ef_lost _ _ _ _ He x s Hs Ho) as [(s1 & Hs1 & Hev) | (u & -> & Hu)].
  2: { right. exists now, u, rc. split; [by left | done]. }
  pose proof (ev_owner _ _ Hev Ho) as Eo.
  destruct (IH s1 Hs1) as [(s' & H1 & H2 & H3 & H4) | (t & u & rc' & Hin & Hu)];
    [congruence | apply He | left | right].
  - exists s'. by rewrite H2, H3, H4, (ev_id _ _ Hev), (ev_source _ _ Hev).
  - exists t, u, rc'. rewrite Eo in Hin. split; [by right |].
    unfold ufrag_is in *. by rewrite (ev_ufrag _ _ Hev) in Hu.
Qed.

(** *** No dangling pointer *)

(** Every skeleton points at a live source that the tree finds under its name, and no two have
    the same id. *)
Definition sound r : Prop :=
  (forall x s, sessions r !! x = Some s -> exists a src, source s = Ref a /\
     sources r !! a = Some src /\ ngx_rtc_shm_source_locked_lookup r (name src) = Ref a) /\
  (forall x y s t, sessions r !! x = Some s -> sessions r !! y = Some t -> id s = id t -> x = y).

Lemma inv_sound r : shm_inv r -> sound r.
Proof.
  intros Hr. split.
  - intros x s Hs. destruct (inv_source r x s Hr Hs) as (a & src & Ha & Hsrc).
    exists a, src. split_and!; [done | done |]. by apply lookup_found; [apply Hr |].
  - intros x y s t Hs Ht E. by apply (inv_uniq r Hr x y s t).
Qed.

(** C3: Where a pointer into the slab first dangles.  Whatever the workers call, in whatever order,
    with the environment's promises alone: as long as no session_add lost the source it had
    looked up to its own sweep, every skeleton points at a live source that the tree finds
    under its name, ids are distinct, and the next call, whichever it is, runs to its end
    without touching freed memory; and it leaves a dangling pointer exactly when it is a
    session_add that loses its source. *)
Theorem shm_no_dangling raw nw l r now e :
  q_ok raw -> (forall m i, q_link m raw <> On i) ->
  calls (fresh_zone raw nw) l r -> loses l (fresh_zone raw nw) = false -> op_env now e r ->
  sound r /\ exists rc r', step now e r = Ret (rc, r') /\ (sound r' <-> loses_source now e r = false).
Proof.
  intros H1 H2 Hc Hl He. pose proof (calls_inv _ l r Hc (init_inv raw nw H1 H2) Hl) as Hr.
  split; [by apply inv_sound |]. destruct (step_env now e r Hr He) as (rc & r' & E). exists rc, r'. split; [done |].
  destruct (loses_source now e r) eqn:El.
  - split; [| done]. intros [Hs _]. exfalso. destruct e; try done. destruct alloc; [| done]. destruct retry as [| x]; [done |].
    destruct (lost_add now x o r Hr He El) as (r1 & a & E1 & _ & Hno & (v & Hv & Ha & _) & _).
    assert (r1 = r') as -> by congruence. destruct (Hs x v Hv) as (b & src & Hb & Hsrc & _). congruence.
  - split; [done |]. intros _. apply inv_sound, (step_inv now e r rc r' Hr); [by apply op_env_ok | done].
Qed.

(** C39: What memory pressure does: ngx_rtc_shm_session_add looks its source up before the
    allocation that may have to sweep.  When the stream is not published, is idle with a
    deadline set, however far off, and has no viewer and no other skeleton, the forced sweep frees
    it: the call still answers with a skeleton, which points at the freed source, and the
    request of its peer, on whichever worker, faults on it. *)
Theorem session_add_stale_source now x o a s r :
  reachable r -> op_env now (SessionAdd NULL (Ref x) o) r -> valid_offer o = true -> (0 ∉ o_ufrag o) ->
  named r (o_name o) a s -> publishing s = 0 -> expires s <> 0 -> q_list (subscribers a) (queues r) = [] ->
  (forall y t, sessions r !! y = Some t -> source t <> Ref a) ->
  exists r', step now (SessionAdd NULL (Ref x) o) r = Ret (0, r') /\ sources r' !! a = None /\
    source <$> (sessions r' !! x) = Some (Ref a) /\ forall t slot, step t (Bind (o_ufrag o) slot) r' = Fault.
Proof.
  intros Hr%reachable_inv He Hv Hu Hn Hp Hex Hsub Hno. pose proof (proj2 (named_lookup r _ a s Hr Hn)) as El.
  assert (Hl : loses_source now (SessionAdd NULL (Ref x) o) r = true).
  { cbn [loses_source]. rewrite Hv, El. destruct (expire_spec now 1 r Hr) as (r1 & -> & _ & _ & Eso & _).
    cbn [andb]. apply bool_decide_eq_true. rewrite Eso. unfold expired_sources. rewrite map_lookup_imap, (proj1 Hn). cbn [mbind option_bind].
    assert (Hh : forall m : gmap Z ngx_rtc_shm_session_t, m ⊆ sessions r -> held_in m a = false).
    { intros m Hm. apply not_true_iff_false. rewrite held_in_spec. intros (y & t & Ht & Ha).
      by apply (Hno y t); [eapply lookup_weaken |]. }
    unfold kept, gone. rewrite !Hh by apply map_filter_subseteq. unfold sweep, alone, due. rewrite Hsub. cbn [is_nil andb].
    rewrite Hp. cbn. by destruct (Z.eqb_spec (expires s) 0). }
  destruct (lost_add now x o r Hr He Hl) as (r' & b & E & Eb & Hso & (v & Hse & Ha & _) & Hb).
  assert (b = a) as -> by congruence. exists r'. split_and!; [done | done | by rewrite Hse, <- Ha | by apply Hb].
Qed.

(** *** The sweep *)

(** C37: The sweep, which walks both lists and unlinks nodes as it goes, is the obvious
    function of the table: it drops exactly the unbound skeletons that are due, and maps
    every source to [sweep], which frees it only when it is not freshly published, has no
    viewer, is due, and no surviving skeleton points at it. *)
Theorem expire_reference now forced r :
  reachable r ->
  exists r', step now (Expire forced) r = Ret (0, r') /\
    sessions r' = filter (fun xs => reaped now forced xs.2 = false) (sessions r) /\
    (forall a, sources r' !! a =
       sources r !! a ≫= sweep now forced (held_in (gone now forced (sessions r)) a) (alone r a)
                           (held_in (sessions r') a)).
Proof.
  intros Hr%reachable_inv. destruct (expire_spec now forced r Hr) as (r' & E & _ & E1 & E2 & _).
  exists r'. cbn [step]. rewrite E, bind_Ret. split_and!; [done | done |].
  intros a. rewrite E1, E2. unfold expired_sources. by rewrite map_lookup_imap.
Qed.

(** *** A crashed publisher *)

Definition unnamed r n : Prop := forall a s, ~ named r n a s.

(** [n] is gone, or idle with a deadline no later than [d]; or, for [fading], still marked
    as published by someone last seen at [seen]. *)
Definition doomed r n (d : Z) : Prop :=
  unnamed r n \/ exists a s, named r n a s /\ held_in (sessions r) a = false /\
    publishing s = 0 /\ 0 < expires s <= d.
Definition fading r n (seen d : Z) : Prop :=
  doomed r n d \/ exists a s, named r n a s /\ held_in (sessions r) a = false /\
    publishing s <> 0 /\ expires s = 0 /\ publisher_seen_ms s = seen.

(** A step that does not name an unheld source leaves it alone or sweeps it. *)
Lemma unheld_change now e s o :
  change now e false s o -> op_name e <> Some (name s) ->
  o = Some s \/ exists f al, o = sweep now f false al false s.
Proof.
  intros Hc Hne. destruct Hc as [| | s' H | k -> | b -> | f lost al h o _ Hl Hh <- | ->]; try done.
  - by left.
  - right. exists f, al. destruct lost; [by specialize (Hl eq_refl) |].
    by destruct h; [specialize (Hh eq_refl) |].
Qed.

Lemma sweep_idle now f al s o :
  publishing s = 0 -> sweep now f false al false s = o -> o = None \/ o = Some s.
Proof.
  intros Hp. unfold sweep. cbn [andb]. rewrite Hp. cbn. intros <-. by destruct (_ && _); [left | right].
Qed.

Lemma sweep_dead now f al s o :
  0 <= now < 2 ^ 63 - 10000 -> publishing s <> 0 -> expires s = 0 ->
  sweep now f false al false s = o ->
  o = None \/ (o = Some s /\ fresh_publisher now s = true) \/
  exists s', o = Some s' /\ publishing s' = 0 /\ expires s' = now + NGX_RTC_SHM_SOURCE_EXPIRE_MS.
Proof.
  intros Hnow Hp He. unfold sweep. cbn [andb]. destruct (Z.eqb_spec (publishing s) 0); [done |]. cbn [negb andb].
  destruct (fresh_publisher now s); [intros <-; right; by left |]. intros <-.
  destruct (_ && _); [by left | right; right]. eexists. split; [reflexivity |].
  unfold drop_publisher. cbn. rewrite He. cbn. split; [done |]. apply u64_small.
  unfold is_u64, NGX_RTC_SHM_SOURCE_EXPIRE_MS. lia.
Qed.

(** How an unheld source [a] named [n] fares in a step that does not name it. *)
Lemma unheld_step now e r rc r' n a s :
  shm_inv r -> op_ok now e r -> step now e r = Ret (rc, r') -> op_name e <> Some n ->
  named r n a s -> held_in (sessions r) a = false ->
  unnamed r' n \/ (exists s', named r' n a s' /\ held_in (sessions r') a = false /\
    (s' = s \/ exists f al, sweep now f false al false s = Some s')).
Proof.
  intros Hr Hok E Hne Hn Hh. pose proof (step_inv now e r rc r' Hr Hok E) as He.
  destruct (effect_named now e r r' n a s Hr He Hn) as (o & Hc & Ho). rewrite Hh in Hc.
  destruct o as [s' |]; [right | left; by destruct Ho].
  exists s'. split; [done |]. split; [by apply (effect_unheld now e r r' n a s') |].
  destruct (unheld_change now e s _ Hc) as [[= ->] | (f & al & ->)].
  - by rewrite (proj2 Hn).
  - by left.
  - right. by exists f, al.
Qed.

Lemma unnamed_step now e r rc r' n :
  shm_inv r -> op_ok now e r -> step now e r = Ret (rc, r') -> op_name e <> Some n ->
  unnamed r n -> unnamed r' n.
Proof. intros Hr Hok E Hne Hu. exact (effect_unnamed now e r r' n (step_inv now e r rc r' Hr Hok E) Hu Hne). Qed.

Lemma doomed_step now e r rc r' n d :
  shm_inv r -> op_ok now e r -> step now e r = Ret (rc, r') -> op_name e <> Some n ->
  doomed r n d -> doomed r' n d.
Proof.
  intros Hr Hok E Hne [Hu | (a & s & Hn & Hh & Hp & Hd)].
  { left. by eapply unnamed_step. }
  destruct (unheld_step now e r rc r' n a s) as [Hu | (s' & Hn' & Hh' & Hc)]; try done; [by left | right].
  exists a, s'. assert (s' = s) as ->; [| done].
  destruct Hc as [-> | (f & al & Hs)]; [done |]. by destruct (sweep_idle _ _ _ _ _ Hp Hs) as [? | [= ->]].
Qed.

Lemma fading_step now e r rc r' n seen d :
  shm_inv r -> op_ok now e r -> step now e r = Ret (rc, r') -> op_name e <> Some n ->
  0 <= now < 2 ^ 63 - 10000 -> now + NGX_RTC_SHM_SOURCE_EXPIRE_MS <= d ->
  fading r n seen d -> fading r' n seen d.
Proof.
  intros Hr Hok E Hne Hnow Hd [Hu | (a & s & Hn & Hh & Hp & He & Hs)].
  { left. by eapply doomed_step. }
  destruct (unheld_step now e r rc r' n a s) as [Hu | (s' & Hn' & Hh' & Hc)]; try done; [by do 2 left |].
  destruct Hc as [-> | (f & al & Hsw)]; [right; by exists a, s |].
  destruct (sweep_dead now f al s _ Hnow Hp He Hsw) as [? | [[[= ->] _] | (t & [= <-] & Hp' & He')]];
    [done | right; by exists a, s | left; right].
  exists a, s'. rewrite He'. unfold NGX_RTC_SHM_SOURCE_EXPIRE_MS in *. split_and!; try done; lia.
Qed.

(** What a sweep makes of an unheld source, exactly. *)
Lemma expire_at now f r rc r' n a s :
  shm_inv r -> step now (Expire f) r = Ret (rc, r') -> named r n a s ->
  held_in (sessions r) a = false -> sources r' !! a = sweep now f false true false s.
Proof.
  intros Hr E [Hs _] Hh. destruct (expire_spec now f r Hr) as (r1 & E1 & _ & _ & E2 & _).
  cbn [step] in E. rewrite E1, bind_Ret in E. injection E as _ <-. rewrite E2.
  unfold expired_sources. rewrite map_lookup_imap, Hs. cbn.
  assert (Hsub : forall m, m ⊆ sessions r -> held_in m a = false).
  { intros m Hm. apply not_true_iff_false. apply not_true_iff_false in Hh. intros H. apply Hh.
    apply held_in_spec in H as (x & t & Ht & Hp). apply held_in_spec. exists x, t.
    split; [by eapply lookup_weaken | done]. }
  rewrite !Hsub by apply map_filter_subseteq. unfold alone.
  by rewrite (unheld_no_subscriber r a (inv_ok r Hr) Hh).
Qed.

Lemma swept_unnamed now f r rc r' n a s :
  shm_inv r -> step now (Expire f) r = Ret (rc, r') -> named r n a s -> sources r' !! a = None ->
  unnamed r' n.
Proof.
  intros Hr E Hn Ha b t [Ht Htn]. pose proof (step_inv now (Expire f) r rc r' Hr I E) as He.
  destruct (ef_new _ _ _ _ He b t Ht) as [(t0 & Ht0 & Hn0 & _) | [? _]]; [| done].
  destruct (named_uniq r n a b s t0 Hr Hn) as [<- _]; [split; congruence | congruence].
Qed.

Lemma fading_expire now f r rc r' n seen :
  shm_inv r -> step now (Expire f) r = Ret (rc, r') -> 0 < seen ->
  seen + NGX_RTC_SHM_PUBLISH_GRACE_MS <= now < 2 ^ 63 - 10000 ->
  fading r n seen (now + NGX_RTC_SHM_SOURCE_EXPIRE_MS) ->
  doomed r' n (now + NGX_RTC_SHM_SOURCE_EXPIRE_MS).
Proof.
  intros Hr E H0 Hnow [Hd | (a & s & Hn & Hh & Hp & He & Hs)].
  { by apply (doomed_step now (Expire f) r rc r'). }
  pose proof (expire_at now f r rc r' n a s Hr E Hn Hh) as Ha. symmetry in Ha.
  unfold NGX_RTC_SHM_PUBLISH_GRACE_MS in Hnow.
  destruct (sweep_dead now f true s _ ltac:(lia) Hp He Ha) as [Hno | [[_ Hf] | (s' & Hs' & Hp' & He')]].
  - left. by eapply swept_unnamed.
  - rewrite fresh_spec in Hf by lia. apply Z.ltb_lt in Hf. unfold NGX_RTC_SHM_PUBLISH_GRACE_MS in Hf. lia.
  - right. exists a, s'.
    assert (Hn' : named r' n a s').
    { split; [done |]. rewrite Hs' in Ha. by rewrite (sweep_name _ _ _ _ _ _ _ Ha), (proj2 Hn). }
    split_and!; try done.
    + apply (effect_unheld now (Expire f) r r' n a s'); try done. by apply (step_inv now (Expire f) r rc).
    + rewrite He'. unfold NGX_RTC_SHM_SOURCE_EXPIRE_MS. lia.
    + by rewrite He'.
Qed.

Lemma doomed_expire now f r rc r' n d :
  shm_inv r -> step now (Expire f) r = Ret (rc, r') -> d <= now -> doomed r n d -> unnamed r' n.
Proof.
  intros Hr E Hd [Hu | (a & s & Hn & Hh & Hp & He)]; [by apply (unnamed_step now (Expire f) r rc r') |].
  eapply swept_unnamed; [done | done | done |]. rewrite (expire_at now f r rc r' n a s Hr E Hn Hh).
  unfold sweep, due. cbn [andb]. rewrite Hp. cbn.
  destruct (Z.eqb_spec (expires s) 0); [lia |]. destruct (Z.leb_spec (expires s) now); [| lia].
  by rewrite orb_true_r.
Qed.

(** No event names [n]. *)
Definition silent n (l : list (Z * op * Z)) : Prop := Forall (fun ev => op_name ev.1.2 <> Some n) l.

Lemma doomed_trace r l r' n d :
  trace r l r' -> shm_inv r -> silent n l -> doomed r n d -> doomed r' n d.
Proof.
  induction 1 as [| r now e rc r1 l r2 Hok E _ IH]; [done |].
  intros Hr [Hne Hs]%Forall_cons Hd. apply IH; [by eapply step_inv | done |]. by eapply doomed_step.
Qed.

Lemma fading_trace r l r' n seen d :
  trace r l r' -> shm_inv r -> silent n l ->
  Forall (fun ev => 0 <= ev.1.1 < 2 ^ 63 - 10000 /\ ev.1.1 + NGX_RTC_SHM_SOURCE_EXPIRE_MS <= d) l ->
  fading r n seen d -> fading r' n seen d.
Proof.
  induction 1 as [| r now e rc r1 l r2 Hok E _ IH]; [done |].
  intros Hr [Hne Hs]%Forall_cons [[Ht1 Ht2] Hts]%Forall_cons Hd.
  apply IH; [by eapply step_inv | done | done |]. by apply (fading_step now e r rc r1).
Qed.

(** C23: A publisher that crashed is reclaimed: when no skeleton points at its stream, the first
    sweep at least 10 s after the publisher was last seen takes the publish right away, and
    the first sweep at least 10 s later frees the source, whatever calls come in between that
    do not name the stream ([silent]: one that does may renew the right or add a skeleton),
    in a run where no session_add loses its source to its own sweep. *)
Theorem dead_publisher_reclaimed r n a s l1 t1 f1 c1 l2 t2 f2 c2 r' :
  reachable r -> named r n a s -> publishing s <> 0 -> held_in (sessions r) a = false ->
  0 < publisher_seen_ms s ->
  trace r (l1 ++ (t1, Expire f1, c1) :: l2 ++ [(t2, Expire f2, c2)]) r' ->
  silent n l1 -> silent n l2 -> Forall (fun ev => 0 <= ev.1.1 <= t1) l1 ->
  publisher_seen_ms s + NGX_RTC_SHM_PUBLISH_GRACE_MS <= t1 < 2 ^ 63 - 10000 ->
  t1 + NGX_RTC_SHM_SOURCE_EXPIRE_MS <= t2 ->
  unnamed r' n.
Proof.
  intros Hr%reachable_inv Hn Hp Hh H0 Ht Hs1 Hs2 Hts Ht1 Ht2.
  pose proof (proj2 (inv_kind r Hr a s (proj1 Hn)) Hp) as He.
  apply trace_app in Ht as (r1 & Htr1 & Ht). pose proof (trace_inv _ _ _ Htr1 Hr) as Hr1.
  inversion Ht as [| ? now e rc r2 ? ? Hok E Htr2]; subst. clear Ht.
  pose proof (ef_inv _ _ _ _ (step_inv _ _ _ _ _ Hr1 Hok E)) as Hr2.
  apply trace_app in Htr2 as (r3 & Htr2 & Ht). pose proof (trace_inv _ _ _ Htr2 Hr2) as Hr3.
  inversion Ht as [| ? now e rc r4 ? ? Hok4 E4 Htr4]; subst. inversion Htr4; subst.
  eapply (doomed_expire t2 f2 r3 c2 r' n (t1 + NGX_RTC_SHM_SOURCE_EXPIRE_MS)); [done | done | lia |].
  eapply doomed_trace; [done | done | done |].
  apply (fading_expire t1 f1 r1 c1 r2 n (publisher_seen_ms s)); [done | done | done | done |].
  eapply fading_trace; [done | done | done | | by right; exists a, s].
  eapply Forall_impl; [exact Hts |]. cbn. intros ev ?. lia.
Qed.

(** *** The snapshot *)

(** [v] watches source [a] from a worker that exists. *)
Definition watches r a (v : ngx_rtc_shm_session_t) : Prop :=
  source v = Ref a /\ srtp_ready v = 1 /\ s_publishing v = 0 /\ owner_slot v < s64 (nworkers r).

Lemma watches_listed r a x v :
  shm_inv r -> sessions r !! x = Some v -> watches r a v ->
  sub_queue x ∈ q_list (subscribers a) (queues r) /\ report r (sub_queue x) = Some (id v, owner_slot v).
Proof.
  intros Hr Hv (Ha & Hrd & Hp & How). destruct (inv_sub r Hr x v Hv) as [Hl Ho].
  specialize (Ho Hrd). split.
  - apply (q_iff _ (wf_queues _ _ _ _ (inv_ok r Hr))).
    destruct (wf_sub _ _ _ _ (inv_ok r Hr) x _ (session_source r x v Hv)) as [Hself | (b & Hb & Hon)].
    + exfalso. assert (q_link (sub_queue x) (queues r) <> Self) as Hne by (by apply Hl). done.
    + congruence.
  - unfold report. cbn [data_of]. rewrite Hv. unfold reported. rewrite Hrd.
    destruct (Z.leb_spec 0 (owner_slot v)); [| lia].
    by destruct (Z.ltb_spec (owner_slot v) (s64 (nworkers r))); [| lia].
Qed.

Lemma listed_watches r a m i w :
  shm_inv r -> m ∈ q_list (subscribers a) (queues r) -> report r m = Some (i, w) ->
  exists x v, m = sub_queue x /\ sessions r !! x = Some v /\ id v = i /\ owner_slot v = w /\ watches r a v.
Proof.
  intros Hr Hm Hrep. pose proof Hm as Hon. apply (q_iff _ (wf_queues _ _ _ _ (inv_ok r Hr))) in Hon.
  destruct (on_subscribers r m a (inv_ok r Hr) Hm) as (x & v & -> & Hv & Ha).
  destruct (inv_sub r Hr x v Hv) as [Hl _]. rewrite Hon in Hl.
  assert (is_viewer v) as [Hrd Hp] by by apply Hl.
  unfold report in Hrep. cbn [data_of] in Hrep. rewrite Hv in Hrep. unfold reported in Hrep.
  destruct (_ && _) eqn:E; [| done]. injection Hrep as <- <-. exists x, v. split_and!; try done.
  apply andb_true_iff in E as [_ E%Z.ltb_lt]. by split_and!.
Qed.

Lemma report_ids_nodup r a l :
  shm_inv r -> NoDup l -> (forall m, m ∈ l -> m ∈ q_list (subscribers a) (queues r)) ->
  NoDup (omap (report r) l).*1.
Proof.
  intros Hr Hnd. induction Hnd as [| m l Hm Hnd IH]; intros Hsub; [constructor |].
  cbn. destruct (report r m) as [[i w] |] eqn:E; [| apply IH; intros k Hk; apply Hsub; by right].
  cbn. apply NoDup_cons. split; [| apply IH; intros k Hk; apply Hsub; by right].
  intros ((j & w') & -> & (k & Hk & Ek)%list_elem_of_omap)%list_elem_of_fmap. cbn in E.
  destruct (listed_watches r a m j w Hr) as (x & v & -> & Hv & Hid & _); [apply Hsub; by left | done |].
  destruct (listed_watches r a k j w' Hr) as (y & u & -> & Hu & Hid' & _); [apply Hsub; by right | done |].
  destruct (inv_uniq r Hr x y v u Hv Hu); [congruence |]. done.
Qed.

(** C38: A snapshot of a stream's viewers is exact: it reports each id once, only skeletons
    that watch the stream from a live worker, with their owner's slot, at most [max] of
    them, and all of them when fewer than [max] are reported. *)
Theorem snapshot_exact r n a s max :
  reachable r -> named r n a s -> 0 < max ->
  exists out, ngx_rtc_shm_source_snapshot r n max = Ret out /\ zlen out <= max /\ NoDup out.*1 /\
    (forall i w, (i, w) ∈ out ->
       exists x v, sessions r !! x = Some v /\ id v = i /\ owner_slot v = w /\ watches r a v) /\
    (zlen out < max -> forall x v, sessions r !! x = Some v -> watches r a v ->
       (id v, owner_slot v) ∈ out).
Proof.
  intros Hr%reachable_inv Hn Hmax. eexists. split; [by apply (snapshot_spec r n a s) |].
  set (full := omap (report r) (q_list (subscribers a) (queues r))).
  assert (Hlen : zlen (ztake max full) = Z.min max (zlen full)).
  { unfold zlen, ztake. rewrite length_take. lia. }
  split_and!.
  - lia.
  - assert (Hnd : NoDup full.*1).
    { by apply (report_ids_nodup r a); [| apply (wf_queues _ _ _ _ (inv_ok r Hr)) |]. }
    unfold ztake. rewrite fmap_take. rewrite <- (take_drop (Z.to_nat max) full.*1) in Hnd.
    by apply NoDup_app in Hnd as [? _].
  - intros i w Hin. unfold ztake in Hin. apply elem_of_take in Hin as (k & Hin & _).
    apply list_elem_of_lookup_2 in Hin.
    apply list_elem_of_omap in Hin as (m & Hm & Hrep).
    destruct (listed_watches r a m i w Hr Hm Hrep) as (x & v & _ & H). by exists x, v.
  - intros Hlt x v Hv Hw. destruct (watches_listed r a x v Hr Hv Hw) as [Hin Hrep].
    assert (E : ztake max full = full) by (unfold ztake; apply take_ge; unfold zlen in *; lia).
    rewrite E. apply list_elem_of_omap. by exists (sub_queue x).
Qed.

End props.
(** ** Concrete runs *)

#[local] Instance demo_crc : Crc := fun _ => 0.

Definition demo_raw : Nginx.queues queue_id node := {| lists := fun _ => []; links := fun _ => Zeroed |}.
Definition demo_zone : ngx_rtc_shm_ctx_t (Q := Nginx.queues queue_id node) (T := list (key * Z)) := fresh_zone demo_raw 2.

Lemma demo_raw_ok : q_ok demo_raw.
Proof. split; [| constructor]. intros x i. cbn. rewrite elem_of_nil. by split. Qed.

Definition live : octets := [108; 105; 118; 101].
Definition alice : octets := [97; 108].
Definition watch : offer :=
  {| o_ufrag := alice; o_pwd := [112; 119]; o_name := live; o_video_pt := 102; o_audio_pt := 111;
     o_twcc_video_ext := 3; o_twcc_audio_ext := 4; o_publishing := 0 |}.

(** A source, published, with one viewer bound and activated by worker 1. *)
Definition published : list (Z * op) :=
  [(1000, SourceGet (Ref 1) NULL 7 8 live); (1000, TryPublish live NGX_RTC_PUBLISHER_RTMP)].
Definition viewed : list (Z * op) :=
  published ++ [(1500, SessionAdd (Ref 2) NULL watch); (1600, Bind alice 1); (1700, Activate alice 1)].

Lemma demo_reachable evs : run_ok evs demo_zone = true -> reachable (final evs demo_zone).
Proof.
  intros H. exists demo_raw, 2, (log evs demo_zone). split_and!; [exact demo_raw_ok | done | by apply run_trace].
Qed.

Lemma run_calls evs : forall r : ngx_rtc_shm_ctx_t (Q := Nginx.queues queue_id node) (T := list (key * Z)),
  run_ok evs r = true -> calls r evs (final evs r).
Proof.
  induction evs as [| [now e] evs IH]; intros r; cbn [run_ok final]; [constructor |].
  intros [H1%(op_okb_ok now) H2]%andb_true_iff. destruct (step now e r) as [[rc r1] |] eqn:E; [| done].
  econstructor; [| exact E | by apply IH]. destruct e; try exact H1. destruct H1 as (A1 & A2 & A3). split_and!; [done | done |].
  intros x Ha Hx. by apply A3.
Qed.

(** The stream was looked up before it was swept, or not at all. *)
Lemma shm_no_dangling_witness :
  let r := final viewed demo_zone in
  (exists rc r', step 40000 (Expire 1) r = Ret (rc, r') /\ sound r') /\
  (exists s, sessions r !! 2 = Some s /\ exists a src, source s = Ref a /\ sources r !! a = Some src) /\
  (exists rc r', step 2000 (SessionAdd NULL (Ref 2) watch) (final [(1000, SourceGet (Ref 1) NULL 7 8 live)] demo_zone) = Ret (rc, r') /\ ~ sound r').
Proof.
  cbv zeta. destruct (shm_no_dangling demo_raw 2 viewed (final viewed demo_zone) 40000 (Expire 1))
    as [[H1 _] (rc & r' & E & H2)]; [exact demo_raw_ok | done | apply run_calls; vm_compute; reflexivity | vm_compute; reflexivity | done |].
  split; [exists rc, r'; split; [exact E | by apply H2] |]. split.
  - destruct (sessions (final viewed demo_zone) !! 2) as [s |] eqn:Es; [| vm_compute in Es; discriminate Es].
    exists s. split; [reflexivity |]. destruct (H1 2 s Es) as (a & src & Ha & Hs & _). by exists a, src.
  - destruct (shm_no_dangling demo_raw 2 [(1000, SourceGet (Ref 1) NULL 7 8 live)]
      (final [(1000, SourceGet (Ref 1) NULL 7 8 live)] demo_zone) 2000 (SessionAdd NULL (Ref 2) watch))
      as [_ (rc2 & r2 & E2 & H3)]; [exact demo_raw_ok | done | apply run_calls; vm_compute; reflexivity | vm_compute; reflexivity | |].
    + split_and!; [by vm_compute | done |]. intros x _ [= <-]. by vm_compute.
    + exists rc2, r2. split; [exact E2 |]. rewrite H3. vm_compute. discriminate.
Defined.

Lemma publish_exclusive_witness :
  let r1 := final published demo_zone in
  let evs := [(5000, TryPublish live NGX_RTC_PUBLISHER_RTMP); (6000, Expire 0);
              (14000, ReleasePublish live NGX_RTC_PUBLISHER_WHIP)] in
  step 14500 (TryPublish live NGX_RTC_PUBLISHER_WHIP) (final evs r1) = Ret (NGX_BUSY, final evs r1).
Proof.
  cbv zeta.
  eapply (publish_exclusive (final [(1000, SourceGet (Ref 1) NULL 7 8 live)] demo_zone) live
            NGX_RTC_PUBLISHER_RTMP NGX_RTC_PUBLISHER_WHIP 1000).
  - apply demo_reachable. vm_compute. reflexivity.
  - discriminate.
  - discriminate.
  - reflexivity.
  - reflexivity.
  - apply run_trace. vm_compute. reflexivity.
  - vm_compute. intuition congruence.
Defined.

Lemma session_one_owner_witness :
  let r := final viewed demo_zone in
  let evs := [(2000, Bind alice 0); (2100, RemoveIfOwner alice 0); (90000, Expire 1)] in
  exists s, sessions (final evs r) !! 2 = Some s /\ owner_slot s = 1.
Proof.
  cbv zeta. destruct (sessions (final viewed demo_zone) !! 2) as [s |] eqn:E.
  2: { vm_compute in E. discriminate E. }
  assert (Ho : owner_slot s = 1) by (vm_compute in E; injection E as <-; reflexivity).
  edestruct (session_one_owner (final viewed demo_zone)) as [(s' & Hs & _ & _ & Ho') | (t & u & rc & Hin & _)].
  - apply demo_reachable. vm_compute. reflexivity.
  - apply (run_trace [(2000, Bind alice 0); (2100, RemoveIfOwner alice 0); (90000, Expire 1)]).
    vm_compute. reflexivity.
  - exact E.
  - rewrite Ho. discriminate.
  - exists s'. split; [exact Hs |]. by rewrite Ho', Ho.
  - exfalso. rewrite Ho in Hin. revert Hin.
    assert (El : log [(2000, Bind alice 0); (2100, RemoveIfOwner alice 0); (90000, Expire 1)]
                   (final viewed demo_zone)
                 = [(2000, Bind alice 0, NGX_DECLINED); (2100, RemoveIfOwner alice 0, 0);
                    (90000, Expire 1, 0)]) by (vm_compute; reflexivity).
    rewrite El, !elem_of_cons, elem_of_nil. intuition congruence.
Defined.

Lemma expire_reference_witness :
  exists r', step 40000 (Expire 0) (final viewed demo_zone) = Ret (0, r') /\
    (exists s, sources r' !! 1 = Some s /\ publishing s = 0).
Proof.
  destruct (expire_reference 40000 0 (final viewed demo_zone)) as (r' & E & E1 & E2).
  - apply demo_reachable. vm_compute. reflexivity.
  - exists r'. split; [exact E |]. rewrite E2, E1. vm_compute. eexists. by split.
Defined.

Lemma dead_publisher_reclaimed_witness :
  let r := final published demo_zone in
  let evs := [(3000, Expire 0); (12000, Expire 0); (13000, SourceGet (Ref 5) NULL 1 2 alice);
              (22000, Expire 0)] in
  unnamed (final evs r) live /\ publishing <$> (sources r !! 1) = Some 1.
Proof.
  cbv zeta. split; [| reflexivity].
  destruct (sources (final published demo_zone) !! 1) as [s |] eqn:E.
  2: { vm_compute in E. discriminate E. }
  eapply (dead_publisher_reclaimed (final published demo_zone) live 1 s [(3000, Expire 0, 0)] 12000 0 0
            [(13000, SourceGet (Ref 5) NULL 1 2 alice, 0)] 22000 0 0).
  - apply demo_reachable. vm_compute. reflexivity.
  - split; [exact E |]. vm_compute in E. by injection E as <-.
  - vm_compute in E. by injection E as <-.
  - reflexivity.
  - vm_compute in E. by injection E as <-.
  - set (evs := [(3000, Expire 0); (12000, Expire 0); (13000, SourceGet (Ref 5) NULL 1 2 alice);
                 (22000, Expire 0)]).
    assert (Hok : run_ok evs (final published demo_zone) = true) by (vm_compute; reflexivity).
    pose proof (run_trace evs _ Hok) as Ht.
    assert (El : log evs (final published demo_zone)
                 = [(3000, Expire 0, 0); (12000, Expire 0, 0);
                    (13000, SourceGet (Ref 5) NULL 1 2 alice, 0); (22000, Expire 0, 0)])
      by (vm_compute; reflexivity).
    rewrite El in Ht. exact Ht.
  - by repeat constructor.
  - by repeat constructor.
  - by repeat constructor.
  - vm_compute in E. injection E as <-. done.
  - done.
Defined.

Lemma snapshot_exact_witness :
  ngx_rtc_shm_source_snapshot (final viewed demo_zone) live 8 = Ret [(1, 1)] /\
  exists out, ngx_rtc_shm_source_snapshot (final viewed demo_zone) live 8 = Ret out /\ NoDup out.*1.
Proof.
  split; [vm_compute; reflexivity |].
  destruct (sources (final viewed demo_zone) !! 1) as [s |] eqn:E.
  2: { vm_compute in E. discriminate E. }
  destruct (snapshot_exact (final viewed demo_zone) live 1 s 8) as (out & H1 & _ & H2 & _).
  - apply demo_reachable. vm_compute. reflexivity.
  - split; [exact E |]. vm_compute in E. by injection E as <-.
  - done.
  - by exists out.
Defined.

Lemma session_add_stale_source_witness :
  exists r', step 2000 (SessionAdd NULL (Ref 2) watch) (final [(1000, SourceGet (Ref 1) NULL 7 8 live)] demo_zone) = Ret (0, r') /\
    sources r' !! 1 = None /\ step 3000 (Bind alice 1) r' = Fault.
Proof.
  set (r := final [(1000, SourceGet (Ref 1) NULL 7 8 live)] demo_zone).
  destruct (sources r !! 1) as [s |] eqn:Es; [| vm_compute in Es; discriminate Es].
  destruct (session_add_stale_source 2000 2 watch 1 s r) as (r' & E & H1 & _ & H2).
  - apply demo_reachable. vm_compute. reflexivity.
  - split_and!; [by vm_compute | done |]. intros x _ [= <-]. by vm_compute.
  - by vm_compute.
  - change (o_ufrag watch) with alice. unfold alice. rewrite !elem_of_cons, elem_of_nil. intuition discriminate.
  - split; [exact Es |]. vm_compute in Es. by injection Es as <-.
  - vm_compute in Es. by injection Es as <-.
  - vm_compute in Es. by injection Es as <-.
  - by vm_compute.
  - intros y t Ht. assert (Hn : sessions r = ∅) by by vm_compute. rewrite Hn in Ht. by rewrite lookup_empty in Ht.
  - exists r'. split; [exact E |]. split; [exact H1 |]. exact (H2 3000 1).
Defined.

End ShmProps.
