(* ===== verification/ShmMedia.v ===== *)
(** The retransmit ring of a source as the workers call it: append by the publisher, lookup
    and replay by the workers whose viewers watch from elsewhere (src/ngx_rtc_shm.c).

    The ring itself is in Retransmit.v, the table it hangs off in Shm.v.  [cached] relates a
    source to the whole history of what was appended: the ring holds its last 1024 packets
    and remembers where the last keyframe starts. *)

From S2P Require Import Prelude Nginx Window Rtp GopRing Retransmit Shm ShmInv ShmStep ShmProps.
From stdpp Require Import list gmap.
Import GopRing Retransmit Shm ShmInv ShmStep ShmProps.

#[local] Open Scope Z_scope.

Module ShmMedia.

Abbreviation ring := Retransmit.ngx_rtc_shm_retransmit_t.

Section media.
Context `{HC : Crc}.
Context {Q T : Type} `{HQ : Queues queue_id node Q, !QueueLaws queue_id node Q}.
Context `{HT : StrTree T, !StrTreeLaws T}.
Abbreviation shm := (ngx_rtc_shm_ctx_t (Q:=Q) (T:=T)).
Implicit Types (r : shm) (a : Z) (n : octets) (h : list entry).

(** [alloc] tells whether the slab has room for the ring. *)
Definition ngx_rtc_shm_retransmit_alloc_locked (alloc : bool) (src : ngx_rtc_shm_source_t)
    : ptr ring * ngx_rtc_shm_source_t :=
  if alloc then (Ref fresh_ring, set_retransmit (Ref fresh_ring) src) else (NULL, src).

(** [racy] is the remote_subscribers the fast path reads before it takes the mutex. *)
Definition ngx_rtc_shm_retransmit_append (alloc : bool) (racy : Z) (ctx : shm) (src : ptr Z)
    (rtp : ptr octets) (rtp_len is_gop_start : Z) : outcome shm :=
  match src, rtp with
  | Ref a, Ref rtp =>
      if (rtp_len =? 0) || (NGX_RTC_RING_RTP_MAX <? rtp_len) then Ret ctx
      else if racy =? 0 then Ret ctx
      else
        src ← source_at ctx a;
        let src := set_retx_append_locked (u64 (retx_append_locked src + 1)) src in
        if remote_subscribers src =? 0 then Ret (put_source a src ctx)
        else
          let '(g, src) :=
            match retransmit src with
            | NULL => ngx_rtc_shm_retransmit_alloc_locked alloc src
            | g => (g, src)
            end in
          match g with
          | NULL =>
              Ret (put_source a (set_retransmit_alloc_failed
                                   (u64 (retransmit_alloc_failed src + 1)) src) ctx)
          | Ref g =>
              g ← retx_push g rtp rtp_len is_gop_start;
              Ret (put_source a (set_retransmit (Ref g) src) ctx)
          end
  | _, _ => Ret ctx
  end.

Definition ngx_rtc_shm_retransmit_reset (ctx : shm) (n : octets) : outcome shm :=
  if negb (valid_name n) then Ret ctx
  else
    match ngx_rtc_shm_source_locked_lookup ctx n with
    | NULL => Ret ctx
    | Ref a =>
        src ← source_at ctx a;
        match retransmit src with
        | NULL => Ret ctx
        | Ref g =>
            let g := g |> Retransmit.set_head 0 |> Retransmit.set_count 0
                       |> Retransmit.set_gop_start 0 in
            Ret (put_source a (set_retransmit (Ref g) src) ctx)
        end
    end.

(** The result code, and on NGX_OK what it leaves in [out] and [out_len]. *)
Definition ngx_rtc_shm_retransmit_get (ctx : shm) (n : octets) (rtp_seq : Z) (out : ptr octets)
    (out_cap : Z) : outcome (Z * option (octets * Z)) :=
  match out with
  | NULL => Ret (NGX_DECLINED, None)
  | Ref out =>
      if negb (valid_name n) then Ret (NGX_DECLINED, None)
      else
        match ngx_rtc_shm_source_locked_lookup ctx n with
        | NULL => Ret (NGX_DECLINED, None)
        | Ref a =>
            src ← source_at ctx a;
            match retransmit src with
            | NULL => Ret (NGX_DECLINED, None)
            | Ref g =>
                hit ← retx_find g rtp_seq out out_cap;
                Ret (match hit with
                     | None => (NGX_DECLINED, None)
                     | Some _ => (NGX_OK, hit)
                     end)
            end
        end
  end.

(** [heap] tells whether ngx_alloc finds the copy buffer.  The trace line is left out; the
    sends happen after the unlock, and [cb] does not touch the table. *)
Definition ngx_rtc_shm_retransmit_replay_gop {A} (heap : bool) (ctx : shm) (n : octets)
    (cb : A -> octets -> Z -> Z -> outcome (Z * A)) (opaque : A) : outcome (Z * shm * A) :=
  if negb (valid_name n) then Ret (-1, ctx, opaque)
  else if negb heap then Ret (-1, ctx, opaque)
  else
    match ngx_rtc_shm_source_locked_lookup ctx n with
    | NULL => Ret (-1, ctx, opaque)
    | Ref a =>
        src ← source_at ctx a;
        match retransmit src with
        | NULL => Ret (-1, ctx, opaque)
        | Ref g =>
            buf ← retx_copy g;
            let src := src |> set_retx_replay_count (u64 (retx_replay_count src + 1))
                           |> set_retx_replay_slots (u64 (retx_replay_slots src + zlen buf)) in
            opaque ← send_loop cb buf opaque;
            Ret (zlen buf, put_source a src ctx, opaque)
        end
    end.

(** ** The ring and the history of its source *)

(** Where the last keyframe of the packets numbered from [i] starts; [k] before them. *)
Fixpoint key_from (i k : Z) h : Z :=
  match h with
  | [] => k
  | e :: h => key_from (i + 1) (if e.2 =? 0 then k else i) h
  end.
Definition last_key h : Z := key_from 0 0 h.

Definition recent h : list entry := zdrop (zlen h - 1024) h.

Definition ring_of (g : ptr ring) h : Prop :=
  match g with
  | NULL => h = []
  | Ref g => retx_rep g (recent h) /\ head g = zlen h /\ gop_start g = last_key h
  end.

(** Source [a] has [h] in its ring since the last reset. *)
Definition cached r a h : Prop :=
  exists src, sources r !! a = Some src /\ ring_of (retransmit src) h.

Lemma key_from_snoc h e : forall i k,
  key_from i k (h ++ [e]) = if e.2 =? 0 then key_from i k h else i + zlen h.
Proof.
  induction h as [| d h IH]; intros i k; cbn [key_from app].
  - rewrite zlen_nil, Z.add_0_r. done.
  - rewrite IH, zlen_cons. by replace (i + 1 + zlen h) with (i + (1 + zlen h)) by lia.
Qed.

Lemma key_from_range h : forall i k, 0 <= k <= i -> 0 <= key_from i k h <= i + zlen h.
Proof.
  induction h as [| d h IH]; intros i k Hk; cbn [key_from]; [rewrite zlen_nil; lia |].
  rewrite zlen_cons. pose proof (zlen_nonneg h).
  destruct (d.2 =? 0); [pose proof (IH (i + 1) k ltac:(lia)) | pose proof (IH (i + 1) i ltac:(lia))]; lia.
Qed.

Lemma zlen_recent h : zlen (recent h) = Z.min (zlen h) 1024.
Proof.
  unfold recent. pose proof (zlen_nonneg h). destruct (Z.leb_spec (zlen h) 1024).
  - unfold zdrop. replace (Z.to_nat (zlen h - 1024)) with 0%nat by lia. rewrite drop_0. lia.
  - rewrite zlen_zdrop; lia.
Qed.

Lemma appended_recent h e : appended (recent h) e = recent (h ++ [e]).
Proof.
  unfold appended. rewrite zlen_recent. pose proof (zlen_nonneg h). unfold recent, zdrop.
  rewrite zlen_app, zlen_cons, zlen_nil.
  destruct (Z.ltb_spec (Z.min (zlen h) 1024) 1024).
  - replace (Z.to_nat (zlen h - 1024)) with 0%nat by lia.
    replace (Z.to_nat (zlen h + (1 + 0) - 1024)) with 0%nat by lia. done.
  - rewrite drop_drop, drop_app_le.
    + do 2 f_equal. lia.
    + unfold zlen in *. lia.
Qed.

Lemma fresh_ring_of : ring_of (Ref fresh_ring) [].
Proof. split_and!; [apply fresh_ring_rep | done | done]. Qed.

(** One append: the fields [shm_inv] sees stay, the history grows by the packet. *)
Lemma append_spec alloc racy r a h src p gs :
  shm_inv r -> sources r !! a = Some src -> ring_of (retransmit src) h ->
  racy <> 0 -> remote_subscribers src <> 0 -> (retransmit src = NULL -> alloc = true) ->
  12 <= zlen p <= 1500 -> octets_ok p -> zlen h < 2 ^ 64 - 1 ->
  exists r' src', ngx_rtc_shm_retransmit_append alloc racy r (Ref a) (Ref p) (zlen p) gs = Ret r' /\
    r' = put_source a src' r /\ shm_inv r' /\
    ring_of (retransmit src') (h ++ [(p, if gs =? 0 then 0 else 1)]) /\
    name src' = name src /\ remote_subscribers src' = remote_subscribers src /\
    retransmit src' <> NULL.
Proof.
  intros Hr Hs Hg Hracy Hrem Halloc Hp Hpo Hh. unfold ngx_rtc_shm_retransmit_append.
  unfold NGX_RTC_RING_RTP_MAX. destruct (Z.eqb_spec (zlen p) 0); [lia |].
  destruct (Z.ltb_spec 1500 (zlen p)); [lia |]. destruct (Z.eqb_spec racy 0); [done |]. cbn [orb].
  unfold source_at. rewrite Hs, bind_Ret. cbv zeta.
  set (src1 := set_retx_append_locked _ src).
  change (remote_subscribers src1) with (remote_subscribers src).
  change (retransmit src1) with (retransmit src).
  destruct (Z.eqb_spec (remote_subscribers src) 0); [done |].
  assert (Hring : exists g src2, ring_of (Ref g) h /\ name src2 = name src /\
    remote_subscribers src2 = remote_subscribers src /\ (kind_ok src -> kind_ok src2) /\
    match retransmit src with
    | NULL => ngx_rtc_shm_retransmit_alloc_locked alloc src1
    | Ref g => (Ref g, src1)
    end = (Ref g, src2)).
  { destruct (retransmit src) as [| g].
    - rewrite Halloc by done. cbn in Hg. subst h.
      exists fresh_ring, (set_retransmit (Ref fresh_ring) src1). by split; [apply fresh_ring_of |].
    - exists g, src1. by split. }
  destruct Hring as (g & src2 & (Hrep & Hhd & Hgs) & Hn & Hrm & Hk & ->).
  destruct (retx_push_rep g (recent h) p gs Hrep Hp Hpo) as (g' & E & Hrep' & Hhd' & Hgs').
  rewrite E, bind_Ret. eexists _, _. split; [reflexivity |]. split; [reflexivity |].
  split; [by eapply inv_put_source | split; [| done]].
  cbn [retransmit set_retransmit ring_of]. rewrite appended_recent in Hrep'.
  split; [done |]. rewrite Hhd', Hgs', Hhd, Hgs. unfold last_key. rewrite key_from_snoc. cbn [snd].
  pose proof (zlen_nonneg h). split; [| by destruct (gs =? 0)].
  rewrite zlen_app, zlen_cons, zlen_nil. rewrite u64_small by (unfold is_u64; lia). lia.
Qed.

(** Whatever the fast path read and the allocator answers, an append goes through and the
    history grows by one packet at most. *)
Lemma append_safe alloc racy r a h src p gs :
  shm_inv r -> sources r !! a = Some src -> ring_of (retransmit src) h -> 12 <= zlen p <= 1500 -> octets_ok p -> zlen h < 2 ^ 64 - 1 ->
  exists r', ngx_rtc_shm_retransmit_append alloc racy r (Ref a) (Ref p) (zlen p) gs = Ret r' /\ shm_inv r' /\
    (r' = r \/ exists src' h', r' = put_source a src' r /\ ring_of (retransmit src') h' /\ zlen h' <= zlen h + 1).
Proof.
  intros Hr Hs Hg Hp Hpo Hh.
  destruct (Z.eq_dec racy 0) as [-> | Hracy].
  { exists r. split; [| by split; [| left]]. unfold ngx_rtc_shm_retransmit_append. by destruct (_ || _). }
  assert (Hput : forall src', name src' = name src -> retransmit src' = retransmit src -> (kind_ok src -> kind_ok src') ->
    shm_inv (put_source a src' r) /\ (put_source a src' r = r \/ exists src1 h', put_source a src' r = put_source a src1 r /\
      ring_of (retransmit src1) h' /\ zlen h' <= zlen h + 1)).
  { intros src' Hn Hb Hk. split; [by eapply inv_put_source |]. right. exists src', h. split; [done |]. rewrite Hb. split; [done | lia]. }
  destruct (Z.eq_dec (remote_subscribers src) 0) as [Hrem | Hrem].
  { exists (put_source a (set_retx_append_locked (u64 (retx_append_locked src + 1)) src) r). split; [| by apply Hput].
    unfold ngx_rtc_shm_retransmit_append, NGX_RTC_RING_RTP_MAX. destruct (Z.eqb_spec (zlen p) 0); [lia |].
    destruct (Z.ltb_spec 1500 (zlen p)); [lia |]. destruct (Z.eqb_spec racy 0); [done |]. cbn [orb].
    unfold source_at. rewrite Hs, bind_Ret. cbv zeta. change (remote_subscribers (set_retx_append_locked _ src)) with (remote_subscribers src).
    by rewrite Hrem. }
  assert (Hcase : (retransmit src = NULL /\ alloc = false) \/ (retransmit src = NULL -> alloc = true)).
  { destruct (retransmit src), alloc; auto; by right. }
  destruct Hcase as [[Hnull ->] | Halloc].
  - set (src1 := set_retx_append_locked (u64 (retx_append_locked src + 1)) src).
    exists (put_source a (set_retransmit_alloc_failed (u64 (retransmit_alloc_failed src1 + 1)) src1) r). split; [| by apply Hput].
    unfold ngx_rtc_shm_retransmit_append, NGX_RTC_RING_RTP_MAX. destruct (Z.eqb_spec (zlen p) 0); [lia |].
    destruct (Z.ltb_spec 1500 (zlen p)); [lia |]. destruct (Z.eqb_spec racy 0); [done |]. cbn [orb].
    unfold source_at. rewrite Hs, bind_Ret. cbv zeta. fold src1. change (remote_subscribers src1) with (remote_subscribers src).
    rewrite (proj2 (Z.eqb_neq _ _) Hrem). change (retransmit src1) with (retransmit src). by rewrite Hnull.
  - destruct (append_spec alloc racy r a h src p gs) as (r' & src' & E & -> & Hr' & Hg' & _); try done.
    eexists. split; [exact E |]. split; [done |]. right. exists src', (h ++ [(p, if gs =? 0 then 0 else 1)]). split; [done |]. split; [done |].
    rewrite zlen_app, zlen_cons, zlen_nil. lia.
Qed.

(** A reset forgets the history. *)
Lemma reset_spec r n a s h :
  shm_inv r -> named r n a s -> cached r a h ->
  exists r', ngx_rtc_shm_retransmit_reset r n = Ret r' /\ shm_inv r' /\ cached r' a [].
Proof.
  intros Hr Hn (src & Hs & Hg). assert (src = s) as -> by (destruct Hn; congruence).
  destruct (named_lookup r n a s Hr Hn) as [Hv Hl]. unfold ngx_rtc_shm_retransmit_reset.
  rewrite Hv, Hl. cbn [negb]. unfold source_at. rewrite Hs, bind_Ret.
  destruct (retransmit s) as [| g] eqn:Eg.
  - exists r. split_and!; [done | done |]. exists s. by rewrite Eg.
  - eexists. split; [reflexivity |]. split; [by eapply inv_put_source |].
    eexists. split; [cbn; by rewrite lookup_insert_eq |].
    destruct Hg as ([Hcap Hlen Hss _ _ _ _ _] & _ & _).
    cbn. split_and!; [| done | done]. split; cbn; try done. apply window_nil.
Qed.

Lemma get_spec r n a s h sq out :
  shm_inv r -> named r n a s -> cached r a h -> is_u16 sq ->
  ngx_rtc_shm_retransmit_get r n sq (Ref out) (zlen out)
  = Ret (match answer (recent h) sq (zlen out) with
         | Some d => (NGX_OK, Some (d ++ zdrop (zlen d) out, zlen d))
         | None => (NGX_DECLINED, None)
         end).
Proof.
  intros Hr Hn (src & Hs & Hg) Hsq. assert (src = s) as -> by (destruct Hn; congruence).
  destruct (named_lookup r n a s Hr Hn) as [Hv Hl]. unfold ngx_rtc_shm_retransmit_get.
  rewrite Hv, Hl. cbn [negb]. unfold source_at. rewrite Hs, bind_Ret.
  destruct (retransmit s) as [| g]; [cbn in Hg; by subst h |]. destruct Hg as (Hrep & _ & _).
  rewrite (retx_find_eq g (recent h) sq out Hrep Hsq), bind_Ret.
  by destruct (answer (recent h) sq (zlen out)).
Qed.

(** What a replay offers: from the last keyframe, or from the oldest packet held when that
    keyframe is gone, up to the packet that ends the access unit. *)
Definition replayed h : list entry :=
  first_unit (zdrop (Z.max (last_key h) (zlen h - 1024)) h).

Lemma replay_spec {A} (cb : A -> octets -> Z -> Z -> outcome (Z * A)) r n a s g h :
  shm_inv r -> named r n a s -> retransmit s = Ref g -> ring_of (Ref g) h -> zlen h < 2 ^ 64 ->
  exists ss r', (hold ss (replayed h) /\ Forall slot_fits ss) /\ shm_inv r' /\ (exists s', r' = put_source a s' r /\ same_body s s') /\
    forall op, ngx_rtc_shm_retransmit_replay_gop true r n cb op
               = (op' ← Retransmit.offer cb ss op; Ret (zlen (replayed h), r', op')).
Proof.
  intros Hr Hn Hg (Hrep & Hhd & Hgs) Hh.
  destruct (named_lookup r n a s Hr Hn) as [Hv Hl]. destruct Hn as [Hs Hn].
  pose proof (zlen_nonneg h). pose proof (zlen_recent h) as Hzr.
  pose proof (key_from_range h 0 0 ltac:(lia)) as Hkr. fold (last_key h) in Hkr.
  destruct (retx_copy_eq g (recent h) Hrep) as (ss & E & Hold); [lia | lia |].
  assert (Hfrom : zdrop (replay_from g (recent h)) (recent h)
                  = zdrop (Z.max (last_key h) (zlen h - 1024)) h).
  { unfold replay_from, recent at 2, zdrop. rewrite drop_drop. f_equal.
    rewrite Hgs, Hhd. fold (recent h). lia. }
  rewrite Hfrom in Hold. fold (replayed h) in Hold.
  assert (Hlen : zlen ss = zlen (replayed h)).
  { destruct Hold as [<- _]. unfold zlen. by rewrite length_fmap. }
  eexists ss, _. split; [split; [done |] |].
  { eapply hold_fits; [| exact Hold]. rewrite <- Hfrom. by apply Forall_drop, (rx_entries g). }
  split.
  2: { split.
       2: { intros op. unfold ngx_rtc_shm_retransmit_replay_gop. rewrite Hv, Hl. cbn [negb].
            unfold source_at. rewrite Hs, bind_Ret, Hg, E, bind_Ret. cbv zeta.
            rewrite (send_loop_eq cb (zdrop (Z.max (last_key h) (zlen h - 1024)) h) ss op); [| | done].
            - rewrite Hlen. reflexivity.
            - rewrite <- Hfrom. by apply Forall_drop, (rx_entries g). }
       by eexists. }
  by eapply inv_put_source.
Qed.

(** The publisher's appends, one packet after the other, while someone watches from another
    worker. *)
Fixpoint append_all (a : Z) (ps : list entry) (ctx : shm) : outcome shm :=
  match ps with
  | [] => Ret ctx
  | (p, gs) :: ps =>
      ctx ← ngx_rtc_shm_retransmit_append true 1 ctx (Ref a) (Ref p) (zlen p) gs;
      append_all a ps ctx
  end.

Lemma append_all_spec a n ps : forall r s h,
  shm_inv r -> named r n a s -> ring_of (retransmit s) h -> remote_subscribers s <> 0 ->
  Forall retx_entry_ok ps -> zlen h + zlen ps < 2 ^ 64 ->
  exists r' s', append_all a ps r = Ret r' /\ shm_inv r' /\ named r' n a s' /\
    ring_of (retransmit s') (h ++ ps) /\ (ps <> [] -> retransmit s' <> NULL).
Proof.
  induction ps as [| [p gs] ps IH]; intros r s h Hr Hn Hg Hrem Hps Hlen.
  { exists r, s. rewrite app_nil_r. by split_and!. }
  apply Forall_cons_1 in Hps as [[Hp [Hpo Hf]] Hps]. rewrite zlen_cons in Hlen. cbn [fst] in *.
  pose proof (zlen_nonneg ps). pose proof Hn as [Hs Hnm]. cbn [append_all].
  destruct (append_spec true 1 r a h s p gs) as (r1 & s1 & E & -> & Hr1 & Hg1 & Hn1 & Hrem1 & Hne);
    try done; [lia |].
  rewrite E, bind_Ret.
  assert (Hn1' : named (put_source a s1 r) n a s1).
  { split; [cbn; by rewrite lookup_insert_eq | congruence]. }
  assert (He : (if gs =? 0 then 0 else 1) = gs) by (unfold flag_ok in Hf; cbn [snd] in Hf; by destruct Hf as [-> | ->]).
  rewrite He in Hg1.
  destruct (IH (put_source a s1 r) s1 (h ++ [(p, gs)])) as (r' & s' & E' & Hr' & Hn' & Hg' & Hne');
    try done; [congruence | rewrite zlen_app, zlen_cons, zlen_nil; lia |].
  exists r', s'. split_and!; [done | done | done | by rewrite <- app_assoc in Hg' |].
  intros _. destruct ps as [| q ps]; [| by apply Hne']. cbn in E'. injection E' as <-.
  assert (s' = s1) as -> by (destruct Hn', Hn1'; congruence). done.
Qed.

(** C24: A NACK from a viewer on another worker is answered from the shared zone: whatever the
    publisher appended for a stream, the lookup by name returns packet number [sq] only if
    it is one of the last 1024 appended, whole and unchanged, and when the publisher
    numbered its packets consecutively every one of those is found. *)
Theorem shm_nack_exact r n a s ps :
  reachable r -> named r n a s -> retransmit s = NULL -> remote_subscribers s <> 0 ->
  Forall retx_entry_ok ps -> zlen ps < 2 ^ 64 ->
  exists r', append_all a ps r = Ret r' /\
    (forall sq out d len, is_u16 sq -> zlen out = 1500 ->
       ngx_rtc_shm_retransmit_get r' n sq (Ref out) 1500 = Ret (NGX_OK, Some (d, len)) ->
       exists e, e ∈ zdrop (zlen ps - 1024) ps /\ entry_seq e = sq /\ len = zlen e.1 /\
                 ztake len d = e.1) /\
    (forall first i e out, consecutive first ps -> load ps i = Ret e -> zlen ps - 1024 <= i ->
       zlen out = 1500 ->
       ngx_rtc_shm_retransmit_get r' n (entry_seq e) (Ref out) 1500
       = Ret (NGX_OK, Some (e.1 ++ zdrop (zlen e.1) out, zlen e.1))).
Proof.
  intros Hr%reachable_inv Hn Hnull Hrem Hps Hlen.
  destruct (append_all_spec a n ps r s []) as (r' & s' & E & Hr' & Hn' & Hg & _);
    try done; [by rewrite Hnull |].
  cbn [app] in Hg. assert (Hc : cached r' a ps) by (exists s'; split; [apply Hn' | done]).
  exists r'. split; [done |]. split.
  - intros sq out d len Hsq Hout. rewrite <- Hout at 1.
    rewrite (get_spec r' n a s' ps sq out Hr' Hn' Hc Hsq).
    destruct (answer (recent ps) sq (zlen out)) as [d' |] eqn:Ha; [| done]. intros [= <- <-].
    apply answer_sound in Ha as (e & He & <- & Hsq' & _). exists e. split_and!; try done.
    by rewrite ztake_app_length.
  - intros first i e out Hcons Hi Hlast Hout.
    pose proof Hi as [_ Hlk]%load_ret.
    assert (Heok : retx_entry_ok e) by (by apply (Forall_lookup_1 _ _ _ _ Hps Hlk)).
    pose proof Heok as (Hz & Hoct & _).
    assert (Hsq : is_u16 (entry_seq e)) by (rewrite (Hcons i e Hi); apply u16_range).
    rewrite <- Hout at 1. rewrite (get_spec r' n a s' ps (entry_seq e) out Hr' Hn' Hc Hsq).
    pose proof (load_bound _ _ _ Hi) as Hb. set (k := Z.max 0 (zlen ps - 1024)).
    assert (Hrec : recent ps = zdrop k ps).
    { unfold recent, zdrop, k. f_equal. lia. }
    assert (Hshift : forall j, 0 <= j -> load (zdrop k ps) j = load ps (k + j)).
    { intros j Hj. rewrite load_zdrop by lia. done. }
    rewrite Hrec, (answer_complete (zdrop k ps) (first + k) (i - k) e (zlen out)); [done | | | |].
    + intros j f Hj. pose proof (load_bound _ _ _ Hj). rewrite Hshift in Hj by lia.
      rewrite (Hcons _ _ Hj). f_equal. lia.
    + rewrite Hshift by lia. by replace (k + (i - k)) with i by lia.
    + pose proof (zlen_recent ps). rewrite <- Hrec. lia.
    + unfold NGX_RTC_RING_RTP_MAX in Hz. lia.
Qed.

(** The latest keyframe of a history that has one. *)
Lemma last_key_spec h :
  (exists e, e ∈ h /\ e.2 <> 0) ->
  exists e, load h (last_key h) = Ret e /\ e.2 <> 0 /\
    forall j f, last_key h < j -> load h j = Ret f -> f.2 = 0.
Proof.
  induction h as [| d h IH] using rev_ind; [intros (e & He & _); by apply elem_of_nil in He |].
  intros (e & He & Hk). unfold last_key. rewrite key_from_snoc.
  destruct (Z.eqb_spec d.2 0) as [Hd | Hd].
  - apply elem_of_app in He as [He | He%list_elem_of_singleton]; [| congruence].
    destruct IH as (f & Hf & Hf2 & Hlast); [by exists e |]. exists f.
    pose proof (load_bound _ _ _ Hf). split; [| split; [done |]].
    + by rewrite load_app_l.
    + intros j g Hj Hg. pose proof (load_bound _ _ _ Hg) as Hb. rewrite zlen_app, zlen_cons, zlen_nil in Hb.
      destruct (Z.ltb_spec j (zlen h)).
      * rewrite load_app_l in Hg by (unfold last_key in *; lia). by apply (Hlast j).
      * rewrite load_app_r in Hg by lia. replace (j - zlen h) with 0 in Hg by lia.
        cbn in Hg. by injection Hg as <-.
  - exists d. rewrite Z.add_0_l. split; [rewrite load_app_r, Z.sub_diag by lia; done |].
    split; [done |]. intros j g Hj Hg. pose proof (load_bound _ _ _ Hg) as Hb.
    rewrite zlen_app, zlen_cons, zlen_nil in Hb. lia.
Qed.

Lemma replayed_first h i e :
  Z.max (last_key h) (zlen h - 1024) = i -> load h i = Ret e -> replayed h !! 0%nat = Some e.
Proof.
  intros Hi [Hb Hlk]%load_ret. unfold replayed. rewrite Hi. unfold zdrop. by rewrite (drop_S _ _ _ Hlk).
Qed.

(** C36: A viewer on another worker is replayed the latest keyframe: over any appends, the
    replay hands the packets of one access unit, in order and unchanged, to the send
    callback until it refuses one, and starts with the latest keyframe packet whenever the
    ring still holds it. *)
Theorem shm_replay_access_unit {A} (cb : A -> octets -> Z -> Z -> outcome (Z * A)) r n a s ps :
  reachable r -> named r n a s -> retransmit s = NULL -> remote_subscribers s <> 0 ->
  Forall retx_entry_ok ps -> ps <> [] -> zlen ps < 2 ^ 64 ->
  exists r' r'' ss, append_all a ps r = Ret r' /\ hold ss (replayed ps) /\
    (forall op, ngx_rtc_shm_retransmit_replay_gop true r' n cb op
                = (op' ← Retransmit.offer cb ss op; Ret (zlen (replayed ps), r'', op'))) /\
    ((exists e, e ∈ ps /\ e.2 <> 0) -> zlen ps - 1024 <= last_key ps ->
     exists e, replayed ps !! 0%nat = Some e /\ load ps (last_key ps) = Ret e /\ e.2 <> 0 /\
       forall j f, last_key ps < j -> load ps j = Ret f -> f.2 = 0).
Proof.
  intros Hr%reachable_inv Hn Hnull Hrem Hps Hne Hlen.
  destruct (append_all_spec a n ps r s []) as (r' & s' & E & Hr' & Hn' & Hg & Hnn);
    try done; [by rewrite Hnull |].
  cbn [app] in Hg. specialize (Hnn Hne). destruct (retransmit s') as [| g] eqn:Eg; [done |].
  destruct (replay_spec cb r' n a s' g ps Hr' Hn' Eg Hg Hlen) as (ss & r'' & [Hold _] & _ & _ & Hrep).
  exists r', r'', ss. split_and!; try done; [by destruct Hold.. |].
  intros Hk Hwin. destruct (last_key_spec ps Hk) as (e & He & Hek & Hlast). exists e.
  split; [| done]. apply (replayed_first ps (last_key ps)); [lia | done].
Qed.

Lemma offer_refused op ss :
  Retransmit.offer (fun a _ _ _ => Ret (NGX_ERROR, a)) ss op = Ret (op : Z).
Proof. by destruct ss. Qed.

(** The replay reports packets it did not deliver: when no packet of the ring is a
    keyframe, or the very first send fails, it still returns a positive count, which its
    caller takes for a keyframe served. *)
Theorem shm_replay_counts_undelivered r n a s ps op :
  reachable r -> named r n a s -> retransmit s = NULL -> remote_subscribers s <> 0 ->
  Forall retx_entry_ok ps -> Forall (fun e => e.2 = 0) ps -> ps <> [] -> zlen ps < 2 ^ 64 ->
  exists r' r'' count, append_all a ps r = Ret r' /\ 0 < count /\
    ngx_rtc_shm_retransmit_replay_gop true r' n (fun a _ _ _ => Ret (NGX_ERROR, a)) op
    = Ret (count, r'', op).
Proof.
  intros Hr%reachable_inv Hn Hnull Hrem Hps Hno Hne Hlen.
  destruct (append_all_spec a n ps r s []) as (r' & s' & E & Hr' & Hn' & Hg & Hnn);
    try done; [by rewrite Hnull |].
  cbn [app] in Hg. specialize (Hnn Hne). destruct (retransmit s') as [| g] eqn:Eg; [done |].
  destruct (replay_spec (fun (a : Z) (_ : octets) (_ _ : Z) => Ret (NGX_ERROR, a))
              r' n a s' g ps Hr' Hn' Eg Hg Hlen) as (ss & r'' & _ & _ & _ & Hrep).
  exists r', r'', (zlen (replayed ps)). split; [done |]. rewrite Hrep, offer_refused. split; [| done].
  assert (Hk0 : last_key ps = 0).
  { unfold last_key. clear -Hno. generalize 0 at 1. induction Hno as [| e h He Hno IH]; intros i; [done |].
    cbn. rewrite He. apply IH. }
  assert (Hb : 0 <= Z.max (last_key ps) (zlen ps - 1024) < zlen ps).
  { destruct ps; [done |]. rewrite zlen_cons in *. pose proof (zlen_nonneg ps). lia. }
  destruct (load_in ps _ Hb) as [e He]. pose proof (replayed_first ps _ e eq_refl He) as Hh.
  destruct (replayed ps) as [| f l]; [done |]. rewrite zlen_cons. pose proof (zlen_nonneg l). lia.
Qed.

End media.
(** ** Concrete runs *)

#[local] Existing Instance ShmProps.demo_crc.

(** A packet with this marker bit and sequence number. *)
Definition pkt (m sq : Z) : octets := [128; 96 + m; 0; sq] ++ zeros 16.
Definition camera : list entry := [(pkt 0 9, 0); (pkt 0 10, 1); (pkt 128 11, 0); (pkt 0 12, 0)].

Lemma pkt_ok m sq f : is_u8 (96 + m) -> is_u8 sq -> f = 0 \/ f = 1 -> retx_entry_ok (pkt m sq, f).
Proof.
  intros Hm Hsq Hf. split; [| split; [| done]]; cbn [fst].
  - unfold pkt. rewrite zlen_app, zlen_zeros by done. vm_compute. split; congruence.
  - unfold pkt. apply Forall_app. split; [by repeat (apply Forall_cons; split); try apply Forall_nil |].
    apply Forall_replicate. done.
Qed.

Lemma camera_ok : Forall retx_entry_ok camera.
Proof. by repeat (constructor; [apply pkt_ok; [done | done | by (left + right)] |]). Qed.

Lemma viewed_reachable : reachable (final viewed demo_zone).
Proof. apply demo_reachable. vm_compute. reflexivity. Qed.

(** The source of the demo, watched from worker 1. *)
Lemma watched_source :
  exists s, named (final viewed demo_zone) live 1 s /\ retransmit s = NULL /\ remote_subscribers s <> 0.
Proof.
  destruct (sources (final viewed demo_zone) !! 1) as [s |] eqn:E; [| vm_compute in E; discriminate E].
  exists s. assert (H : name s = live /\ retransmit s = NULL /\ remote_subscribers s = 1).
  { vm_compute in E. by injection E as <-. }
  destruct H as (H1 & H2 & H3). split_and!; [by split | done | by rewrite H3].
Qed.

Lemma shm_nack_exact_witness :
  exists r', append_all 1 camera (final viewed demo_zone) = Ret r' /\
    ngx_rtc_shm_retransmit_get r' live 10 (Ref (zeros 1500)) 1500
    = Ret (NGX_OK, Some (pkt 0 10 ++ zdrop 20 (zeros 1500), 20)).
Proof.
  destruct watched_source as (s & Hn & H1 & H2).
  destruct (shm_nack_exact (final viewed demo_zone) live 1 s camera viewed_reachable Hn H1 H2 camera_ok
              eq_refl) as (r' & E & _ & Hget).
  exists r'. split; [exact E |]. clear E.
  assert (Hcons : consecutive 9 camera).
  { intros i e He. pose proof (load_bound _ _ _ He) as Hb.
    assert (i = 0 \/ i = 1 \/ i = 2 \/ i = 3) as [-> | [-> | [-> | ->]]]
      by (change (zlen camera) with 4 in Hb; lia); by injection He as <-. }
  pose proof (Hget 9 1 (pkt 0 10, 1) (zeros 1500) Hcons eq_refl ltac:(discriminate)
                (zlen_zeros 1500 ltac:(discriminate))) as H.
  change (entry_seq (pkt 0 10, 1)) with 10 in H. change (zlen (pkt 0 10, 1).1) with 20 in H.
  exact H.
Defined.

Lemma shm_replay_access_unit_witness :
  exists r' r'' ss, append_all 1 camera (final viewed demo_zone) = Ret r' /\
    slot_entry <$> ss = [(pkt 0 10, 1); (pkt 128 11, 0)] /\
    ngx_rtc_shm_retransmit_replay_gop true r' live (fun a d n _ => Ret (0, a ++ [ztake n d])) []
    = (out ← Retransmit.offer (fun a d n _ => Ret (0, a ++ [ztake n d])) ss []; Ret (2, r'', out)).
Proof.
  destruct watched_source as (s & Hn & H1 & H2).
  destruct (shm_replay_access_unit (A := list octets) (fun a d n _ => Ret (0, a ++ [ztake n d]))
              (final viewed demo_zone) live 1 s camera viewed_reachable Hn H1 H2 camera_ok
              ltac:(discriminate) eq_refl) as (r' & r'' & ss & E & [Hold _] & Hrep & _).
  exists r', r'', ss. split_and!; [exact E | exact Hold | exact (Hrep [])].
Defined.

Lemma shm_replay_counts_undelivered_witness :
  exists r' r'' count, append_all 1 [(pkt 0 9, 0); (pkt 0 10, 0)] (final viewed demo_zone) = Ret r' /\
    0 < count /\
    ngx_rtc_shm_retransmit_replay_gop true r' live (fun a _ _ _ => Ret (NGX_ERROR, a)) 7
    = Ret (count, r'', 7).
Proof.
  destruct watched_source as (s & Hn & H1 & H2).
  apply (shm_replay_counts_undelivered (final viewed demo_zone) live 1 s [(pkt 0 9, 0); (pkt 0 10, 0)] 7
           viewed_reachable Hn H1 H2).
  - by repeat (constructor; [apply pkt_ok; [done | done | by left] |]).
  - by repeat constructor.
  - discriminate.
  - reflexivity.
Defined.

End ShmMedia.
