(* ===== verification/Publish.v ===== *)
(** The publish right as the workers use it: ngx_rtc_publish_claim and _release of
    src/ngx_rtc_shm.c, and the media paths that keep a claim alive, ngx_rtmp_rtc_sync_shm of
    src/ngx_rtmp_rtc_bridge_module.c and ngx_rtc_stream_shm_source of
    src/ngx_rtc_stream_module.c.

    Every worker keeps its own record of the source, with a pointer into the shared zone that
    it trusts for a second without asking; the question is when that pointer can dangle: after a
    [breach], and not before.
    The zone is the [ptr] that ccf->sh is, NULL without an rtc_zone.  A claim takes the pool
    mutex twice, back to back. *)

From S2P Require Import Prelude Nginx GopRing Retransmit Shm ShmInv ShmStep ShmProps ShmMedia.
From stdpp Require Import list gmap.
Import GopRing Retransmit Shm ShmInv ShmStep ShmProps ShmMedia.

#[local] Open Scope Z_scope.

Module Publish.

Definition NGX_RTC_SHM_SYNC_MS : Z := 1000.

(** The fields of a worker's ngx_rtc_source_t that the publish right concerns. *)
Record ngx_rtc_source_t := {
  l_name : octets;
  l_publisher_kind : Z;
  l_publishing : Z;
  l_shm_src : ptr Z;
  l_shm_sync_ms : Z;
  l_video_ssrc : Z;
  l_audio_ssrc : Z;
  l_video_pt : Z;
  l_audio_pt : Z;
  l_video_pkts : Z;
  l_video_octets : Z;
  l_audio_pkts : Z;
  l_audio_octets : Z
}.

Definition local_eta (s : ngx_rtc_source_t) : ngx_rtc_source_t :=
  {| l_name := l_name s; l_publisher_kind := l_publisher_kind s; l_publishing := l_publishing s;
     l_shm_src := l_shm_src s; l_shm_sync_ms := l_shm_sync_ms s;
     l_video_ssrc := l_video_ssrc s; l_audio_ssrc := l_audio_ssrc s;
     l_video_pt := l_video_pt s; l_audio_pt := l_audio_pt s;
     l_video_pkts := l_video_pkts s; l_video_octets := l_video_octets s;
     l_audio_pkts := l_audio_pkts s; l_audio_octets := l_audio_octets s |}.
Definition set_l_publisher_kind := ltac:(setter local_eta l_publisher_kind).
Definition set_l_publishing := ltac:(setter local_eta l_publishing).
Definition set_l_shm_src := ltac:(setter local_eta l_shm_src).
Definition set_l_shm_sync_ms := ltac:(setter local_eta l_shm_sync_ms).
Definition set_l_video_ssrc := ltac:(setter local_eta l_video_ssrc).
Definition set_l_audio_ssrc := ltac:(setter local_eta l_audio_ssrc).
Definition set_l_video_pt := ltac:(setter local_eta l_video_pt).
Definition set_l_audio_pt := ltac:(setter local_eta l_audio_pt).

Section publish.
Context `{HC : Crc}.
Context {Q T : Type} `{HQ : Queues queue_id node Q, !QueueLaws queue_id node Q}.
Context `{HT : StrTree T, !StrTreeLaws T}.
Abbreviation shm := (ngx_rtc_shm_ctx_t (Q:=Q) (T:=T)).
Abbreviation local := ngx_rtc_source_t.
Implicit Types (r : shm) (a w now : Z) (n : octets).

(** What the slab and ngx_random would answer if the claim had to create the source. *)
Record supply := { s_alloc : ptr Z; s_retry : ptr Z; s_v : Z; s_a : Z }.

(** The mirror of a claim that was refused, or given back. *)
Definition unclaimed (s : local) : local :=
  s |> set_l_publisher_kind NGX_RTC_PUBLISHER_NONE |> set_l_publishing 0 |> set_l_shm_src NULL.

Definition ngx_rtc_publish_claim (sup : supply) (now : Z) (src : ptr local) (kind : Z) (sh : ptr shm)
    : outcome (Z * ptr local * ptr shm) :=
  match src with
  | NULL => Ret (NGX_ERROR, src, sh)
  | Ref s =>
      match sh with
      | NULL =>
          Ret (NGX_OK, Ref (s |> set_l_publisher_kind kind |> set_l_publishing 1
                              |> set_l_shm_src NULL), sh)
      | Ref c =>
          '(rc, c) ← ngx_rtc_shm_source_try_publish now c (l_name s) kind;
          if rc =? NGX_BUSY then Ret (NGX_BUSY, Ref (unclaimed s), Ref c)
          else
            let s := s |> set_l_publisher_kind kind |> set_l_publishing 1 in
            '(p, c) ← if rc =? NGX_OK
                      then ngx_rtc_shm_source_get (s_alloc sup) (s_retry sup) now (s_v sup) (s_a sup)
                             c (l_name s)
                      else Ret (NULL, c);
            let s := set_l_shm_src p s in
            let s := if is_null p then s else set_l_shm_sync_ms now s in
            Ret (NGX_OK, Ref s, Ref c)
      end
  end.

Definition ngx_rtc_publish_release (now : Z) (src : ptr local) (sh : ptr shm)
    : outcome (ptr local * ptr shm) :=
  match src with
  | NULL => Ret (src, sh)
  | Ref s =>
      let kind := l_publisher_kind s in
      if kind =? NGX_RTC_PUBLISHER_NONE then Ret (src, sh)
      else
        let s := unclaimed s in
        match sh with
        | NULL => Ret (Ref s, sh)
        | Ref c =>
            c ← ngx_rtc_shm_source_release_publish now c (l_name s) kind;
            c ← ngx_rtc_shm_source_remove c (l_name s);
            Ret (Ref s, Ref c)
        end
  end.

(** The counters, written through the cached pointer without the mutex. *)
Definition mirrored (s : local) (t : ngx_rtc_shm_source_t) : ngx_rtc_shm_source_t :=
  t |> set_video_pkts (l_video_pkts s) |> set_video_octets (l_video_octets s)
    |> set_audio_pkts (l_audio_pkts s) |> set_audio_octets (l_audio_octets s).

(** A write through the cached pointer. *)
Definition through (p : ptr Z) (f : ngx_rtc_shm_source_t -> ngx_rtc_shm_source_t) (c : shm) : outcome shm :=
  match p with
  | NULL => Ret c
  | Ref a => t ← source_at c a; Ret (put_source a (f t) c)
  end.

Definition ngx_rtmp_rtc_shm_stats (now : Z) (s : local) (c : shm) : outcome shm :=
  through (l_shm_src s) (fun t => set_publisher_seen_ms now (mirrored s t)) c.

Definition ngx_rtc_stream_shm_stats (s : local) (shm_src : ptr Z) (c : shm) : outcome shm :=
  through shm_src (mirrored s) c.

(** The cached pointer is still trusted. *)
Definition trusted (now : Z) (s : local) : bool :=
  negb (is_null (l_shm_src s)) && (s64 (now - l_shm_sync_ms s) <? NGX_RTC_SHM_SYNC_MS).

Definition ngx_rtmp_rtc_sync_shm (sup : supply) (now slot : Z) (s : local) (sh : ptr shm)
    : outcome (Z * local * ptr shm) :=
  match sh with
  | NULL => Ret (NGX_OK, s, sh)
  | Ref c =>
      if (NGX_RTC_PUBLISHER_RTMP =? l_publisher_kind s) && trusted now s then
        c ← ngx_rtmp_rtc_shm_stats now s c; Ret (NGX_OK, s, Ref c)
      else
        '(rc, src, sh) ← ngx_rtc_publish_claim sup now (Ref s) NGX_RTC_PUBLISHER_RTMP sh;
        match src, sh with
        | Ref s, Ref c =>
            if rc =? NGX_BUSY then Ret (NGX_BUSY, s, sh)
            else
              match l_shm_src s with
              | NULL => Ret (NGX_OK, s, sh)
              | Ref a =>
                  t ← source_at c a;
                  let s := s |> set_l_video_ssrc (video_ssrc t) |> set_l_audio_ssrc (audio_ssrc t)
                             |> set_l_video_pt (video_pt t) |> set_l_audio_pt (audio_pt t) in
                  c ← through (Ref a) (set_publisher_slot slot) c;
                  c ← ngx_rtmp_rtc_shm_stats now s c;
                  Ret (NGX_OK, s, Ref c)
              end
        | _, _ => Fault
        end
  end.

(** The pointer a WHIP media packet may mirror through, with the source's record and the
    zone after asking. *)
Definition ngx_rtc_stream_shm_source (now : Z) (src : ptr local) (sh : ptr shm)
    : outcome (ptr Z * ptr local * ptr shm) :=
  match src with
  | NULL => Ret (NULL, src, sh)
  | Ref s =>
      if is_null (l_shm_src s) then Ret (NULL, src, sh)
      else if s64 (now - l_shm_sync_ms s) <? NGX_RTC_SHM_SYNC_MS then Ret (l_shm_src s, src, sh)
      else
        match sh with
        | NULL => Ret (NULL, src, sh)
        | Ref c =>
            '(rc, c) ← ngx_rtc_shm_source_try_publish now c (l_name s) NGX_RTC_PUBLISHER_WHIP;
            if negb (rc =? NGX_OK)
            then Ret (NULL, Ref (s |> set_l_shm_src NULL |> set_l_shm_sync_ms now), Ref c)
            else Ret (l_shm_src s, Ref (set_l_shm_sync_ms now s), Ref c)
        end
  end.

(** One RTMP media message: the sync, and when the ingest is accepted the packet it makes
    is appended through the cached pointer. *)
Definition rtmp_packet (sup : supply) (alloc : bool) (racy now slot : Z) (pkt : entry) (s : local) (c : shm)
    : outcome (Z * local * shm) :=
  '(rc, s, sh) ← ngx_rtmp_rtc_sync_shm sup now slot s (Ref c);
  match sh with
  | NULL => Fault
  | Ref c =>
      if rc =? NGX_BUSY then Ret (rc, s, c)
      else
        c ← ngx_rtc_shm_retransmit_append alloc racy c (l_shm_src s) (Ref pkt.1) (zlen pkt.1) pkt.2;
        Ret (rc, s, c)
  end.

(** ** The workers together

    One stream [n] on a zone; [locals] is each worker's record of it. *)
Record world := { zone : shm; locals : gmap Z local }.

Inductive event :=
| Packet (w : Z) (sup : supply) (alloc : bool) (racy : Z) (pkt : entry)
| Release (w : Z)
| Other (e : op).

Definition wstep (now : Z) (ev : event) (g : world) : outcome world :=
  match ev with
  | Packet w sup alloc racy pkt =>
      match locals g !! w with
      | None => Ret g
      | Some s =>
          '(_, s, c) ← rtmp_packet sup alloc racy now w pkt s (zone g);
          Ret {| zone := c; locals := <[w := s]> (locals g) |}
      end
  | Release w =>
      match locals g !! w with
      | None => Ret g
      | Some s =>
          '(s, sh) ← ngx_rtc_publish_release now (Ref s) (Ref (zone g));
          match s, sh with
          | Ref s, Ref c => Ret {| zone := c; locals := <[w := s]> (locals g) |}
          | _, _ => Fault
          end
      end
  | Other e => '(_, c) ← step now e (zone g); Ret {| zone := c; locals := locals g |}
  end.

(** ** The invariant *)

Definition rings_ok r : Prop :=
  forall a s, sources r !! a = Some s ->
    match retransmit s with NULL => True | Ref g => exists l, retx_rep g l end.

Lemma rings_effect now e r r' : effect now e r r' -> rings_ok r -> rings_ok r'.
Proof.
  intros He Hr a s' Hs'. destruct (ef_new _ _ _ _ He a s' Hs') as [(s & Hs & _ & ->) | (_ & _ & _ & ->)].
  - by apply (Hr a).
  - done.
Qed.

Lemma rings_put r a s s' :
  rings_ok r -> (match retransmit s' with NULL => True | Ref g => exists l, retx_rep g l end) ->
  sources r !! a = Some s -> rings_ok (put_source a s' r).
Proof.
  intros Hr Hs' _ b t Ht. cbn in Ht. apply lookup_insert_Some in Ht as [[<- <-] | [_ Ht]]; [done |].
  by apply (Hr b).
Qed.

(** The writes of a media packet to the zone at time [t]: the RTMP right over [n], wherever
    it is, stays, and what is new about it is its time. *)
Record written n (t : Z) r r' : Prop := {
  wr_inv : shm_inv r';
  wr_rings : rings_ok r';
  wr_right a s : named r n a s -> publishing s <> 0 -> publisher_kind s = NGX_RTC_PUBLISHER_RTMP ->
    exists s', named r' n a s' /\ publishing s' <> 0 /\
      publisher_kind s' = NGX_RTC_PUBLISHER_RTMP /\
      (publisher_seen_ms s' = publisher_seen_ms s \/ publisher_seen_ms s' = t)
}.

Lemma written_refl n t r : shm_inv r -> rings_ok r -> written n t r r.
Proof. intros H1 H2. split; [done | done |]. intros a s Hn Hp Hk. exists s. by split_and!; [.. | left]. Qed.

Lemma written_trans n t r1 r2 r3 : written n t r1 r2 -> written n t r2 r3 -> written n t r1 r3.
Proof.
  intros [_ _ H1] [Hi Hr H2]. split; [done | done |]. intros a s Hn Hp Hk.
  destruct (H1 a s Hn Hp Hk) as (s1 & Hn1 & Hp1 & Hk1 & E1).
  destruct (H2 a s1 Hn1 Hp1 Hk1) as (s2 & Hn2 & Hp2 & Hk2 & E2).
  exists s2. split_and!; try done. destruct E2 as [-> | ->]; [done | by right].
Qed.

(** One write to source [b]. *)
Lemma written_put n t r b s s' :
  shm_inv r -> rings_ok r -> sources r !! b = Some s -> name s' = name s ->
  (kind_ok s -> kind_ok s') ->
  (match retransmit s' with NULL => True | Ref g => exists l, retx_rep g l end) ->
  (publisher_kind s = NGX_RTC_PUBLISHER_RTMP -> publishing s <> 0 ->
     publisher_kind s' = NGX_RTC_PUBLISHER_RTMP /\ publishing s' <> 0 /\
     (publisher_seen_ms s' = publisher_seen_ms s \/ publisher_seen_ms s' = t)) ->
  written n t r (put_source b s' r).
Proof.
  intros Hr Hg Hs Hn Hk Hring Hright. split.
  - by eapply inv_put_source.
  - by eapply rings_put.
  - intros a u [Hu Hun] Hp Hku. destruct (decide (a = b)) as [-> | Hne].
    + assert (u = s) as -> by congruence. destruct (Hright Hku Hp) as (H1 & H2 & H3).
      exists s'. split; [| done]. split; [cbn; by rewrite lookup_insert_eq | congruence].
    + exists u. split_and!; [| done | done | by left].
      split; [cbn; by rewrite lookup_insert_ne | done].
Qed.

Lemma through_spec n t r a s f :
  shm_inv r -> rings_ok r -> sources r !! a = Some s ->
  (forall u, name (f u) = name u) -> (forall u, kind_ok u -> kind_ok (f u)) ->
  (forall u, retransmit (f u) = retransmit u) ->
  (forall u, publisher_kind (f u) = publisher_kind u /\ publishing (f u) = publishing u /\
     (publisher_seen_ms (f u) = publisher_seen_ms u \/ publisher_seen_ms (f u) = t)) ->
  through (Ref a) f r = Ret (put_source a (f s) r) /\ written n t r (put_source a (f s) r).
Proof.
  intros Hr Hg Hs Hn Hk Hre Hri. unfold through, source_at. rewrite Hs, bind_Ret. split; [done |].
  apply (written_put n t r a s); try done; [by apply Hk | |].
  - rewrite Hre. by apply (Hg a).
  - destruct (Hri s) as (-> & -> & ?). done.
Qed.

(** An append through a pointer that is NULL or live. *)
Lemma append_written n t alloc racy r p pkt :
  shm_inv r -> rings_ok r -> retx_entry_ok pkt ->
  (forall a, p = Ref a -> is_Some (sources r !! a)) ->
  exists r', ngx_rtc_shm_retransmit_append alloc racy r p (Ref pkt.1) (zlen pkt.1) pkt.2 = Ret r' /\
    written n t r r'.
Proof.
  intros Hr Hg (Hz & Hoct & _) Hlive. unfold ngx_rtc_shm_retransmit_append.
  destruct p as [| a]; [exists r; split; [done | by apply written_refl] |].
  destruct ((zlen pkt.1 =? 0) || _); [exists r; split; [done | by apply written_refl] |].
  destruct (racy =? 0); [exists r; split; [done | by apply written_refl] |].
  destruct (Hlive a eq_refl) as [s Hs]. unfold source_at. rewrite Hs, bind_Ret. cbv zeta.
  pose proof (Hg a s Hs) as Hring.
  set (s1 := set_retx_append_locked _ s).
  change (remote_subscribers s1) with (remote_subscribers s).
  change (retransmit s1) with (retransmit s).
  destruct (remote_subscribers s =? 0).
  { eexists. split; [reflexivity |]. apply (written_put n t r a s); try done.
    by intros H1 H2; split_and!; [.. | left]. }
  assert (Hcase : (exists s2, match retransmit s with
      | NULL => ngx_rtc_shm_retransmit_alloc_locked alloc s1 | g => (g, s1) end = (NULL, s2) /\ s2 = s1 /\
      retransmit s = NULL) \/
    exists g s2 l, match retransmit s with
      | NULL => ngx_rtc_shm_retransmit_alloc_locked alloc s1 | g => (g, s1) end = (Ref g, s2) /\
      retx_rep g l /\ name s2 = name s /\ (kind_ok s -> kind_ok s2) /\
      publisher_kind s2 = publisher_kind s /\ publishing s2 = publishing s /\
      publisher_seen_ms s2 = publisher_seen_ms s).
  { destruct (retransmit s) as [| g].
    - destruct alloc; [right | left; by exists s1].
      eexists fresh_ring, _, []. split; [reflexivity |]. split; [apply fresh_ring_rep | done].
    - right. destruct Hring as [l Hl]. by exists g, s1, l. }
  destruct Hcase as [(s2 & -> & -> & Hnull) | (g & s2 & l & -> & Hl & Hn & Hk & Hpk & Hpu & Hps)].
  - eexists. split; [reflexivity |]. apply (written_put n t r a s); try done.
    by intros H1 H2; split_and!; [.. | left].
  - destruct (retx_push_rep g l pkt.1 pkt.2 Hl Hz Hoct) as (g' & -> & Hl' & _ & _). rewrite bind_Ret.
    eexists. split; [reflexivity |]. apply (written_put n t r a s); try done; [by eexists |].
    cbn. rewrite Hpk, Hpu, Hps. by intros H1 H2; split_and!; [.. | left].
Qed.

(** A claim finds what it claimed. *)
Lemma claim_found sup now n kind r a s :
  shm_inv r -> named r n a s -> kind <> 0 -> busy kind s = false ->
  shm_inv (put_source a (claimed now kind s) r) /\
  ngx_rtc_shm_source_try_publish now r n kind = Ret (NGX_OK, put_source a (claimed now kind s) r) /\
  ngx_rtc_shm_source_get (s_alloc sup) (s_retry sup) now (s_v sup) (s_a sup)
    (put_source a (claimed now kind s) r) n = Ret (Ref a, put_source a (claimed now kind s) r).
Proof.
  intros Hr Hn Hk Hb. pose proof Hn as [Hs Hnm]. pose proof (try_publish_at now r n kind a s Hr Hn) as E.
  rewrite Hb in E. set (r1 := put_source a (claimed now kind s) r) in *.
  assert (Hr1 : shm_inv r1).
  { eapply inv_put_source; [done | done | done | intros _; by apply claimed_kind]. }
  split; [done |]. split; [done |].
  assert (Hn1 : named r1 n a (claimed now kind s)) by (split; [cbn; by rewrite lookup_insert_eq | done]).
  destruct (named_lookup r1 n a _ Hr1 Hn1) as [Hv Hl].
  unfold ngx_rtc_shm_source_get. by rewrite Hv, Hl.
Qed.

(** A live and held source, by its pointer. *)
Definition held_at r n a (seen now : Z) : Prop :=
  exists t, named r n a t /\ publishing t <> 0 /\ publisher_kind t = NGX_RTC_PUBLISHER_RTMP /\
    seen <= publisher_seen_ms t <= now.

Lemma held_written n t r r' a seen c :
  written n t r r' -> held_at r n a seen c -> c <= t -> held_at r' n a seen t.
Proof.
  intros Hw (s & Hn & Hp & Hk & Hseen) Hc.
  destruct (wr_right _ _ _ _ Hw a s Hn Hp Hk) as (s' & Hn' & Hp' & Hk' & [E | E]);
    exists s'; rewrite E; (split_and!; [done | done | done | lia | lia]).
Qed.

(** What the record of a worker promises about its pointer, at time [c]. *)
Definition record_ok r n (c : Z) (s : local) : Prop :=
  l_name s = n /\
  (l_publisher_kind s = NGX_RTC_PUBLISHER_RTMP -> forall a, l_shm_src s = Ref a ->
     0 < l_shm_sync_ms s <= c /\
     (c < l_shm_sync_ms s + NGX_RTC_SHM_SYNC_MS -> held_at r n a (l_shm_sync_ms s) c)).

Lemma trusted_spec now s :
  0 < l_shm_sync_ms s <= now -> now < 2 ^ 63 ->
  trusted now s = negb (is_null (l_shm_src s)) && (now <? l_shm_sync_ms s + NGX_RTC_SHM_SYNC_MS).
Proof.
  intros H1 H2. unfold trusted. rewrite s64_small by lia. f_equal. apply eq_iff_eq_true.
  rewrite !Z.ltb_lt. lia.
Qed.

Lemma unclaimed_ok r n c s : l_name s = n -> record_ok r n c (unclaimed s).
Proof. intros Hn. by split. Qed.

(** The heartbeat of a worker through its pointer. *)
Lemma stats_written n t r a s u :
  shm_inv r -> rings_ok r -> l_shm_src s = Ref a -> sources r !! a = Some u ->
  exists r', ngx_rtmp_rtc_shm_stats t s r = Ret r' /\ written n t r r' /\
    r' = put_source a (set_publisher_seen_ms t (mirrored s u)) r.
Proof.
  intros Hr Hg Ha Hu. unfold ngx_rtmp_rtc_shm_stats. rewrite Ha.
  destruct (through_spec n t r a u (fun t0 => set_publisher_seen_ms t (mirrored s t0)) Hr Hg Hu)
    as [-> Hw]; try done.
  { intros v. by split_and!; [.. | right]. }
  by eexists.
Qed.

(** The outcome of a sync: it completes, leaves the record sound, and the rights of the
    others as they were. *)
Definition synced n (t : Z) r (out : outcome (Z * local * ptr shm)) : Prop :=
  exists rc s' r', out = Ret (rc, s', Ref r') /\ written n t r r' /\ record_ok r' n t s' /\
    (forall a, rc <> NGX_BUSY -> l_shm_src s' = Ref a -> is_Some (sources r' !! a)).

(** The slow path: the claim and what is read and written through its result. *)
Lemma claim_synced sup n t slot s r :
  shm_inv r -> rings_ok r -> l_name s = n -> 0 < t ->
  synced n t r
    ('(rc, src, sh) ← ngx_rtc_publish_claim sup t (Ref s) NGX_RTC_PUBLISHER_RTMP (Ref r);
     match src, sh with
     | Ref s, Ref c =>
         if rc =? NGX_BUSY then Ret (NGX_BUSY, s, sh)
         else
           match l_shm_src s with
           | NULL => Ret (NGX_OK, s, sh)
           | Ref a =>
               t0 ← source_at c a;
               let s := s |> set_l_video_ssrc (video_ssrc t0) |> set_l_audio_ssrc (audio_ssrc t0)
                          |> set_l_video_pt (video_pt t0) |> set_l_audio_pt (audio_pt t0) in
               c ← through (Ref a) (set_publisher_slot slot) c;
               c ← ngx_rtmp_rtc_shm_stats t s c;
               Ret (NGX_OK, s, Ref c)
           end
     | _, _ => Fault
     end).
Proof.
  intros Hr Hg Hname Ht. unfold ngx_rtc_publish_claim. rewrite Hname.
  destruct (lookup_cases r n Hr) as [(a & u & Hn & Hl) | [_ Hl]].
  2: { assert (E : ngx_rtc_shm_source_try_publish t r n NGX_RTC_PUBLISHER_RTMP = Ret (NGX_ERROR, r)).
       { unfold ngx_rtc_shm_source_try_publish. rewrite Hl. by destruct (negb (valid_name n)). }
       rewrite E, !bind_Ret. eexists _, _, r. split; [reflexivity |].
       split; [by apply written_refl | split; [by split | done]]. }
  destruct (busy NGX_RTC_PUBLISHER_RTMP u) eqn:Hb.
  { rewrite (try_publish_at t r n _ a u Hr Hn), Hb, !bind_Ret. eexists _, _, r. split; [reflexivity |].
    split; [by apply written_refl | split; [by split | by intros b ?]]. }
  destruct (claim_found sup t n NGX_RTC_PUBLISHER_RTMP r a u Hr Hn ltac:(done) Hb) as (Hr1 & -> & E).
  rewrite bind_Ret. change (NGX_OK =? NGX_BUSY) with false. change (NGX_OK =? NGX_OK) with true. cbv iota zeta.
  cbn [l_name set_l_publisher_kind set_l_publishing]. rewrite Hname, E, !bind_Ret. cbn [is_null l_shm_src set_l_shm_sync_ms set_l_shm_src].
  set (u1 := claimed t NGX_RTC_PUBLISHER_RTMP u) in *. set (r1 := put_source a u1 r) in *.
  destruct Hn as [Hu Hun]. pose proof (Hg a u Hu) as Hring.
  assert (Hw1 : written n t r r1).
  { apply (written_put n t r a u); try done.
    intros _ _. by split_and!; [.. | right]. }
  assert (Hu1 : sources r1 !! a = Some u1) by (cbn; by rewrite lookup_insert_eq).
  unfold source_at. rewrite Hu1, bind_Ret.
  destruct (through_spec n t r1 a u1 (set_publisher_slot slot) Hr1 (wr_rings _ _ _ _ Hw1) Hu1)
    as [-> Hw2]; try done.
  { intros v. by split_and!; [.. | left]. }
  rewrite bind_Ret. set (u2 := set_publisher_slot slot u1) in *. set (r2 := put_source a u2 r1) in *.
  assert (Hu2 : sources r2 !! a = Some u2) by (cbn; by rewrite lookup_insert_eq).
  set (s1 := set_l_audio_pt _ _).
  destruct (stats_written n t r2 a s1 u2 (wr_inv _ _ _ _ Hw2) (wr_rings _ _ _ _ Hw2) eq_refl Hu2)
    as (r3 & -> & Hw3 & ->).
  rewrite bind_Ret. eexists _, s1, _. split; [reflexivity |].
  split; [by eapply written_trans; [eapply written_trans |] |].
  assert (Hu3 : forall v, sources (put_source a v r2) !! a = Some v).
  { intros v. cbn. by rewrite lookup_insert_eq. }
  split; [split; [done |] | intros b _ [= <-]; by rewrite Hu3].
  intros _ b [= <-]. split; [cbn; lia |]. intros _. eexists. split; [split; [apply Hu3 | done] |].
  split_and!; [done | done | done | cbn; lia].
Qed.

Lemma sync_spec sup n c t slot s r :
  shm_inv r -> rings_ok r -> record_ok r n c s -> c <= t -> 0 < t < 2 ^ 63 ->
  synced n t r (ngx_rtmp_rtc_sync_shm sup t slot s (Ref r)).
Proof.
  intros Hr Hg [Hname Hrec] Hc Ht. unfold ngx_rtmp_rtc_sync_shm.
  pose proof (claim_synced sup n t slot s r Hr Hg Hname ltac:(lia)) as Hslow.
  destruct (Z.eqb_spec NGX_RTC_PUBLISHER_RTMP (l_publisher_kind s)) as [Hkind | _]; [| exact Hslow].
  cbn [andb]. destruct (trusted t s) eqn:Htr; [| exact Hslow].
  destruct (l_shm_src s) as [| a] eqn:Ha; [unfold trusted in Htr; by rewrite Ha in Htr |].
  destruct (Hrec (eq_sym Hkind) a eq_refl) as [Hsync Hheld].
  rewrite trusted_spec, Ha in Htr by lia. apply Z.ltb_lt in Htr.
  specialize (Hheld ltac:(lia)). pose proof Hheld as (u & Hn & _).
  destruct (stats_written n t r a s u Hr Hg Ha (proj1 Hn)) as (r' & -> & Hw & E).
  rewrite bind_Ret. eexists _, s, r'. split; [reflexivity |]. split; [done |]. split.
  - split; [done |]. intros _ b Hb. assert (b = a) as -> by congruence. split; [lia |]. intros _.
    by apply (held_written n t r r' a _ c Hw).
  - intros b _ Hb. assert (b = a) as -> by congruence. rewrite E. cbn. by rewrite lookup_insert_eq.
Qed.

(** A media message. *)
Lemma packet_spec sup alloc racy n c t slot pkt s r :
  shm_inv r -> rings_ok r -> record_ok r n c s -> c <= t -> 0 < t < 2 ^ 63 -> retx_entry_ok pkt ->
  exists rc s' r', rtmp_packet sup alloc racy t slot pkt s r = Ret (rc, s', r') /\
    written n t r r' /\ record_ok r' n t s'.
Proof.
  intros Hr Hg Hs Hc Ht Hpkt. unfold rtmp_packet.
  destruct (sync_spec sup n c t slot s r Hr Hg Hs Hc Ht) as (rc & s1 & r1 & -> & Hw & Hs1 & Hlive).
  rewrite bind_Ret. destruct (Z.eqb_spec rc NGX_BUSY) as [| Hrc]; [by eexists _, _, _ |].
  destruct (append_written n t alloc racy r1 (l_shm_src s1) pkt (wr_inv _ _ _ _ Hw) (wr_rings _ _ _ _ Hw)
              Hpkt) as (r2 & -> & Hw2); [intros a Ha; by apply (Hlive a) |].
  rewrite bind_Ret. eexists _, _, r2. split; [reflexivity |]. split; [by eapply written_trans |].
  destruct Hs1 as [Hname Hrec]. split; [done |]. intros Hk a Ha. destruct (Hrec Hk a Ha) as [H1 H2].
  split; [done |]. intros H3. apply (held_written n t r1 r2 a _ t Hw2); [by apply H2 | done].
Qed.

(** ** The world *)

Record world_ok n (c : Z) (g : world) : Prop := {
  wo_inv : shm_inv (zone g);
  wo_rings : rings_ok (zone g);
  wo_local w s : locals g !! w = Some s -> record_ok (zone g) n c s
}.

(** Some worker, not [o] if one is given, still trusts the pointer it cached for RTMP. *)
Definition trusting (o : option Z) (now : Z) (g : world) : Prop :=
  exists v s, o <> Some v /\ locals g !! v = Some s /\ l_publisher_kind s = NGX_RTC_PUBLISHER_RTMP /\ trusted now s = true.

(** Worker [w] publishes by RTMP. *)
Definition by_rtmp (g : world) w : Prop :=
  exists s, locals g !! w = Some s /\ l_publisher_kind s = NGX_RTC_PUBLISHER_RTMP.

(** What is promised of an event, whatever the workers do: the packets are packets, and the
    environment's part of a call on the zone. *)
Definition event_env (now : Z) (g : world) (ev : event) : Prop :=
  match ev with
  | Packet _ _ _ _ pkt => retx_entry_ok pkt
  | Release w => True
  | Other e => op_env now e (zone g)
  end.

(** The two things that go wrong: the RTMP right over [n] is given back while another worker
    still trusts its pointer, and a session_add loses its source to its own sweep. *)
Definition breach n (now : Z) (g : world) (ev : event) : Prop :=
  match ev with
  | Packet _ _ _ _ _ => False
  | Release w => by_rtmp g w /\ trusting (Some w) now g
  | Other e => loses_source now e (zone g) = true \/ e = ReleasePublish n NGX_RTC_PUBLISHER_RTMP /\ trusting None now g
  end.

Lemma not_trusting (o : option Z) now g v s :
  ~ trusting o now g -> o <> Some v -> locals g !! v = Some s -> l_publisher_kind s = NGX_RTC_PUBLISHER_RTMP -> trusted now s = false.
Proof. intros Hno Hv Hs Hk. destruct (trusted now s) eqn:Et; [| done]. exfalso. apply Hno. by exists v, s. Qed.

Lemma record_written n c t r r' s :
  record_ok r n c s -> written n t r r' -> c <= t -> record_ok r' n t s.
Proof.
  intros [Hn Hrec] Hw Hc. split; [done |]. intros Hk a Ha. destruct (Hrec Hk a Ha) as [H1 H2].
  split; [lia |]. intros H3. apply (held_written n t r r' a _ c Hw); [apply H2; lia | done].
Qed.

Lemma other_ok n c t e g rc r' :
  world_ok n c g -> c <= t -> 0 < t < 2 ^ 63 -> op_ok t e (zone g) ->
  e <> ReleasePublish n NGX_RTC_PUBLISHER_RTMP -> step t e (zone g) = Ret (rc, r') ->
  world_ok n t {| zone := r'; locals := locals g |}.
Proof.
  intros [Hr Hg Hl] Hc Ht Hok Hrel E. pose proof (step_inv t e _ rc r' Hr Hok E) as He. split; cbn.
  - apply He.
  - by eapply rings_effect.
  - intros w s Hs. destruct (Hl w s Hs) as [Hn Hrec]. split; [done |]. intros Hk a Ha.
    destruct (Hrec Hk a Ha) as [H1 H2]. split; [lia |]. intros H3.
    destruct (H2 ltac:(lia)) as (u & Hu & Hp & Hku & Hseen).
    unfold NGX_RTC_SHM_SYNC_MS in H3.
    destruct (right_step t n NGX_RTC_PUBLISHER_RTMP e (zone g) rc r' a u) as (u' & Hu' & Hp' & Hk' & Hs');
      try done; try lia; [unfold NGX_RTC_SHM_PUBLISH_GRACE_MS; lia |].
    exists u'. split_and!; try done; destruct Hs' as [-> | [-> _]]; lia.
Qed.

Lemma release_ok n t s r :
  shm_inv r -> rings_ok r -> l_name s = n ->
  exists s' r', ngx_rtc_publish_release t (Ref s) (Ref r) = Ret (Ref s', Ref r') /\
    shm_inv r' /\ rings_ok r' /\ (s' = s /\ r' = r \/ s' = unclaimed s).
Proof.
  intros Hr Hg Hn. unfold ngx_rtc_publish_release.
  destruct (Z.eqb_spec (l_publisher_kind s) NGX_RTC_PUBLISHER_NONE) as [Hk | Hk].
  { exists s, r. by split_and!; [.. | left]. }
  cbv zeta. change (l_name (unclaimed s)) with (l_name s). rewrite Hn. destruct (release_effect t n (l_publisher_kind s) r Hr) as (r1 & -> & He1).
  rewrite bind_Ret. destruct (source_remove_effect t n r1 (ef_inv _ _ _ _ He1)) as (r2 & -> & He2).
  rewrite bind_Ret. exists (unclaimed s), r2. split; [done |].
  split_and!; [apply He2 | | by right]. eapply rings_effect; [done |]. by eapply rings_effect.
Qed.

(** A record whose pointer is not trusted promises nothing. *)
Lemma record_distrusted n c t r r' s :
  record_ok r n c s -> c <= t -> 0 < t < 2 ^ 63 -> (l_publisher_kind s = NGX_RTC_PUBLISHER_RTMP -> trusted t s = false) ->
  record_ok r' n t s.
Proof.
  intros [Hn Hrec] Hc Ht Hno. split; [done |]. intros Hk a Ha. destruct (Hrec Hk a Ha) as [H1 _]. split; [lia |]. intros H3.
  specialize (Hno Hk). rewrite trusted_spec, Ha in Hno by lia. cbn in Hno. apply Z.ltb_ge in Hno. lia.
Qed.

(** A call on the zone. *)
Lemma call_ok n c t e g :
  world_ok n c g -> c <= t -> 0 < t < 2 ^ 63 -> op_env t e (zone g) -> ~ breach n t g (Other e) ->
  exists rc r', step t e (zone g) = Ret (rc, r') /\ world_ok n t {| zone := r'; locals := locals g |}.
Proof.
  intros Hw Hc Ht He Hno. pose proof Hw as [Hr Hg Hl].
  assert (Hok : op_ok t e (zone g)).
  { apply op_env_ok; [done | done |]. apply not_true_iff_false. intros El. apply Hno. by left. }
  destruct (step_effect t e (zone g) Hr Hok) as (rc & r' & E & Heff). exists rc, r'. split; [done |].
  destruct (decide (e = ReleasePublish n NGX_RTC_PUBLISHER_RTMP)) as [-> | Hne]; [| by eapply other_ok].
  split; cbn; [apply Heff | by eapply rings_effect |]. intros v s Hs. eapply record_distrusted; [by apply (Hl v) | done | done |].
  intros Hk. apply (not_trusting None t g v); try done. intros Htr. apply Hno. by right.
Qed.

Lemma wstep_ok n c t ev g :
  world_ok n c g -> c <= t -> 0 < t < 2 ^ 63 -> event_env t g ev -> ~ breach n t g ev ->
  exists g', wstep t ev g = Ret g' /\ world_ok n t g'.
Proof.
  intros Hw Hc Ht Hev Hno. pose proof Hw as [Hr Hg Hl].
  assert (Hskip : world_ok n t g).
  { split; [done | done |]. intros w s Hs. eapply record_written; [by apply (Hl w) | | done].
    by apply written_refl. }
  destruct ev as [w sup alloc racy pkt | w | e]; cbn [wstep event_env] in *.
  - destruct (locals g !! w) as [s |] eqn:Hs; [| by exists g].
    destruct (packet_spec sup alloc racy n c t w pkt s (zone g) Hr Hg (Hl w s Hs) Hc Ht Hev)
      as (rc & s' & r' & -> & Hwr & Hs').
    rewrite bind_Ret. eexists. split; [reflexivity |]. split; cbn; [apply Hwr | apply Hwr |].
    intros v u [[<- <-] | [Hne Hu]]%lookup_insert_Some; [done |].
    eapply record_written; [by apply (Hl v) | done | done].
  - destruct (locals g !! w) as [s |] eqn:Hs; [| by exists g]. pose proof (proj1 (Hl w s Hs)) as Hname.
    destruct (release_ok n t s (zone g) Hr Hg Hname) as (s' & r' & E & Hr' & Hg' & Hs').
    rewrite E, bind_Ret. eexists. split; [reflexivity |].
    assert (Hself : record_ok r' n t s').
    { destruct Hs' as [[-> ->] | ->]; [by apply (wo_local _ _ _ Hskip w) | by apply unclaimed_ok]. }
    enough (Hrest : forall v u, v <> w -> locals g !! v = Some u -> record_ok r' n t u).
    { split; cbn; [done | done |]. intros v u [[<- <-] | [Hne Hu]]%lookup_insert_Some; [done | by apply (Hrest v)]. }
    intros v u Hv Hu. destruct (decide (l_publisher_kind s = NGX_RTC_PUBLISHER_RTMP)) as [Hk | Hk].
    { eapply record_distrusted; [by apply (Hl v) | done | done |]. intros Hku.
      apply (not_trusting (Some w) t g v); [| congruence | done | done]. intros Htr. apply Hno. split; [by exists s | done]. }
    unfold ngx_rtc_publish_release in E. destruct (Z.eqb_spec (l_publisher_kind s) NGX_RTC_PUBLISHER_NONE) as [_ | Hkn].
    { injection E as _ <-. by apply (wo_local _ _ _ Hskip v). }
    cbv zeta in E. change (l_name (unclaimed s)) with (l_name s) in E. rewrite Hname in E.
    destruct (call_ok n c t (ReleasePublish n (l_publisher_kind s)) g Hw Hc Ht) as (rc1 & r1 & E1 & Hw1).
    { exact Hkn. }
    { intros [? | [[=] _]]; done. }
    cbn [step] in E1. destruct (ngx_rtc_shm_source_release_publish t (zone g) n (l_publisher_kind s)) as [c1 |]; [| done].
    rewrite bind_Ret in E. injection E1 as <- <-.
    destruct (call_ok n t t (SourceRemove n) {| zone := c1; locals := locals g |} Hw1 (Z.le_refl t) Ht) as (rc2 & r2 & E2 & Hw2);
      [done | by intros [? | [? _]] |].
    cbn [step zone] in E2. destruct (ngx_rtc_shm_source_remove c1 n) as [c2 |]; [| done].
    rewrite bind_Ret in E. injection E2 as <- <-. injection E as _ <-. by apply (wo_local _ _ _ Hw2 v).
  - destruct (call_ok n c t e g Hw Hc Ht Hev Hno) as (rc & r' & E & Hw'). rewrite E, bind_Ret. by eexists.
Qed.

(** Every event completes, a breach too. *)
Lemma wstep_total n c t ev g :
  world_ok n c g -> c <= t -> 0 < t < 2 ^ 63 -> event_env t g ev -> exists g', wstep t ev g = Ret g'.
Proof.
  intros Hw Hc Ht Hev. destruct ev as [w sup alloc racy pkt | w | e].
  - destruct (wstep_ok n c t _ g Hw Hc Ht Hev) as (g' & E & _); [by intros [] | by exists g'].
  - cbn [wstep]. destruct (locals g !! w) as [s |] eqn:Hs; [| by exists g].
    destruct (release_ok n t s (zone g) (wo_inv _ _ _ Hw) (wo_rings _ _ _ Hw) (proj1 (wo_local _ _ _ Hw w s Hs))) as (s' & r' & -> & _).
    rewrite bind_Ret. by eexists.
  - cbn [wstep]. destruct (step_env t e (zone g) (wo_inv _ _ _ Hw) Hev) as (rc & r' & ->). rewrite bind_Ret. by eexists.
Qed.

(** What the workers do on one stream, from time [c] to time [c']. *)
Inductive wtrace : Z -> world -> list (Z * event) -> Z -> world -> Prop :=
| wtrace_nil c g : wtrace c g [] c g
| wtrace_cons c g t ev g1 l c' g' :
    c <= t -> 0 < t < 2 ^ 63 -> event_env t g ev -> wstep t ev g = Ret g1 ->
    wtrace t g1 l c' g' -> wtrace c g ((t, ev) :: l) c' g'.

(** Some event of the run is a breach. *)
Fixpoint breached n (l : list (Z * event)) (g : world) : Prop :=
  match l with
  | [] => False
  | (t, ev) :: l => breach n t g ev \/ match wstep t ev g with Ret g => breached n l g | Fault => False end
  end.

Lemma wtrace_ok n c g l c' g' : wtrace c g l c' g' -> ~ breached n l g -> world_ok n c g -> world_ok n c' g'.
Proof.
  induction 1 as [| c g t ev g1 l c' g' Hc Ht Hev E _ IH]; [done |]. cbn [breached]. rewrite E. intros Hno Hw.
  apply IH; [by intros Hb; apply Hno; right |].
  destruct (wstep_ok n c t ev g Hw Hc Ht Hev) as (g2 & E2 & Hw2); [by intros Hb; apply Hno; left | congruence].
Qed.

(** No worker has claimed anything yet. *)
Definition quiet n (ls : gmap Z local) : Prop :=
  forall w s, ls !! w = Some s -> l_name s = n /\ l_shm_src s = NULL.

Lemma quiet_ok raw nw n ls :
  q_ok raw -> (forall m i, q_link m raw <> On i) -> quiet n ls ->
  world_ok n 0 {| zone := fresh_zone raw nw; locals := ls |}.
Proof.
  intros H1 H2 Hq. split; cbn; [by apply init_inv | by intros a s Hs |].
  intros w s Hs. destruct (Hq w s Hs) as [Hn Hp]. split; [done |]. intros _ a Ha. congruence.
Qed.


(** *** Concrete runs *)

Definition event_okb n (now : Z) (g : world) (ev : event) : bool :=
  match ev with
  | Packet _ _ _ _ _ => true
  | Release w =>
      forallb (fun vs => (vs.1 =? w) || negb (l_publisher_kind vs.2 =? NGX_RTC_PUBLISHER_RTMP)
                         || negb (trusted now vs.2)) (map_to_list (locals g))
  | Other e => op_okb e (zone g) && negb (bool_decide (e = ReleasePublish n NGX_RTC_PUBLISHER_RTMP))
  end.

Definition packet_ok (ev : event) : Prop :=
  match ev with Packet _ _ _ _ pkt => retx_entry_ok pkt | _ => True end.

Lemma event_okb_ok n now g ev :
  packet_ok ev -> event_okb n now g ev = true -> event_env now g ev /\ ~ breach n now g ev.
Proof.
  destruct ev as [w sup alloc racy pkt | w | e]; cbn [packet_ok event_okb event_env breach]; [by split; [| intros []] | |].
  - intros _ H. split; [done |]. intros (_ & v & s & Hv & Hs & Hk & Ht). rewrite forallb_forall in H.
    specialize (H (v, s)). rewrite <- list_elem_of_In, elem_of_map_to_list in H. specialize (H Hs).
    cbn in H. destruct (Z.eqb_spec v w); [congruence |]. rewrite Hk, Ht in H. done.
  - intros _ [H1 H2]%andb_true_iff. apply negb_true_iff, bool_decide_eq_false in H2. split.
    + apply (op_okb_ok now) in H1. destruct e; try exact H1. destruct H1 as (A1 & A2 & A3). split_and!; [done | done |].
      intros x Ha Hx. by apply A3.
    + intros [Hl | [He _]]; [| done]. destruct e; try done. destruct alloc; [| done]. destruct retry; [done |].
      cbn in H1. by rewrite andb_false_r in H1.
Qed.

Fixpoint wfinal (evs : list (Z * event)) (g : world) : outcome world :=
  match evs with
  | [] => Ret g
  | (t, ev) :: evs => g ← wstep t ev g; wfinal evs g
  end.

Fixpoint wrun_ok n (c : Z) (evs : list (Z * event)) (g : world) : bool :=
  match evs with
  | [] => true
  | (t, ev) :: evs =>
      (c <=? t) && (0 <? t) && (t <? 2 ^ 63) && event_okb n t g ev &&
      match wstep t ev g with Ret g => wrun_ok n t evs g | Fault => false end
  end.

Lemma wrun_trace n evs : forall c g,
  Forall (fun ev => packet_ok ev.2) evs -> wrun_ok n c evs g = true ->
  exists c' g', wfinal evs g = Ret g' /\ wtrace c g evs c' g' /\ ~ breached n evs g /\ c' = List.last (map fst evs) c.
Proof.
  induction evs as [| [t ev] evs IH]; intros c g Hp; cbn [wfinal wrun_ok].
  { exists c, g. split_and!; [done | constructor | by intros [] | done]. }
  apply Forall_cons_1 in Hp as [Hp1 Hp]. rewrite !andb_true_iff, Z.leb_le, !Z.ltb_lt.
  intros [(((H1 & H2) & H3) & H4) H5]. destruct (wstep t ev g) as [g1 |] eqn:E; [| done].
  rewrite bind_Ret. destruct (IH t g1 Hp H5) as (c' & g' & E' & Htr & Hno & Hlast).
  destruct (event_okb_ok n t g ev Hp1 H4) as [Henv Hnb]. exists c', g'. split; [done |]. split; [| split].
  - econstructor; [done | lia | done | done | done].
  - cbn [breached]. rewrite E. by intros [Hb | Hb].
  - rewrite Hlast. destruct evs as [| ev' evs]; [done |]. cbn [map List.last]. clear.
    revert ev'. induction evs as [| e evs IH]; intros ev'; [done |]. cbn [map List.last]. apply IH.
Qed.

End publish.
(** ** A demonstration *)

#[local] Existing Instance ShmProps.demo_crc.

Definition demo_local : ngx_rtc_source_t :=
  {| l_name := live; l_publisher_kind := 0; l_publishing := 0; l_shm_src := NULL; l_shm_sync_ms := 0;
     l_video_ssrc := 0; l_audio_ssrc := 0; l_video_pt := 0; l_audio_pt := 0; l_video_pkts := 0;
     l_video_octets := 0; l_audio_pkts := 0; l_audio_octets := 0 |}.
Definition two_workers : world (Q := Nginx.queues queue_id node) (T := list (key * Z)) :=
  {| zone := demo_zone; locals := {[ 0 := demo_local; 1 := demo_local ]} |}.
Definition none : supply := {| s_alloc := NULL; s_retry := NULL; s_v := 0; s_a := 0 |}.
Definition message (w : Z) : event := Packet w none true 0 (pkt 0 9, 0).

(** Worker 0 publishes, then the stream moves to worker 1, which ends it. *)
Definition handover : list (Z * event) :=
  [(1000, Other (SourceGet (Ref 1) NULL 7 8 live)); (1000, message 0); (1500, message 0);
   (1800, message 1); (2100, Release 1)].

Lemma message_ok w : packet_ok (message w).
Proof. apply pkt_ok; [done | done | by left]. Qed.

Lemma two_quiet : quiet live (locals two_workers).
Proof.
  intros w s Hs. cbn in Hs. apply lookup_insert_Some in Hs as [[_ <-] | [_ Hs]]; [done |].
  apply lookup_singleton_Some in Hs as [_ <-]. done.
Qed.


(** What a second publisher of the same protocol can do: the zone lets two workers claim
    a name for RTMP, and when one of them ends its stream the source is freed at once, so
    the other worker's next packet, within the second it trusts its pointer for, writes
    through freed memory. *)
Theorem release_frees_under_publisher :
  exists g, wfinal [(1000, Other (SourceGet (Ref 1) NULL 7 8 live)); (1000, message 0);
                    (1200, message 1); (1300, Release 1)] two_workers = Ret g /\
    sources (zone g) !! 1 = None /\
    l_shm_src <$> (locals g !! 0) = Some (Ref 1) /\
    wstep 1400 (message 0) g = Fault.
Proof. eexists. split; [vm_compute; reflexivity |]. split_and!; vm_compute; reflexivity. Qed.

(** The count of viewers on other workers is relative to where the publisher was when
    they joined: a viewer that joined in the publisher's worker is not counted, and when the
    publisher reconnects to another worker nothing counts it, so the packets it would need
    are not kept for it. *)
Theorem remote_viewer_uncounted :
  exists g, wfinal [(1000, Other (SourceGet (Ref 1) NULL 7 8 live)); (1000, message 1);
                    (1100, Other (SessionAdd (Ref 2) NULL watch)); (1200, Other (Activate alice 1));
                    (2100, Release 1); (2200, message 0)] two_workers = Ret g /\
    (exists v, sessions (zone g) !! 2 = Some v /\ watches (zone g) 1 v /\ owner_slot v = 1) /\
    (exists u, sources (zone g) !! 1 = Some u /\ publisher_slot u = 0 /\ remote_subscribers u = 0 /\
               retransmit u = NULL).
Proof.
  eexists. split; [vm_compute; reflexivity |].
  split; eexists; (split; [vm_compute; reflexivity |]); by vm_compute.
Qed.

End Publish.
