(* ===== verification/Broadcast.v ===== *)
(** Fanning one packet out to the viewers of a stream: ngx_rtc_broadcast_rtp of
    src/ngx_rtmp_rtc_bridge_module.c, the producer, and ngx_rtc_stream_drain_ring with its
    notify handler, of src/ngx_rtc_stream_module.c, the consumer in every other worker.

    What a worker does with a packet for one of its sessions is an interface, [Deliver],
    with the laws the fan-out needs; the end of the file discharges them for
    ngx_rtc_session_find_by_id followed by ngx_rtc_session_send_rtp.

    A ring is touched once per broadcast, under its own lock, so a broadcast is one step;
    a drain is one step per packet, and the wakeup that starts it is a step of its own. *)

From S2P Require Import Prelude Window Nginx Session SessionFsm SendPath Registry GopRing ShmRing.
From S2P Require Import Shm ShmInv ShmStep ShmProps.
From stdpp Require Import list gmap.
Import ShmRing.

#[local] Open Scope Z_scope.

Module Broadcast.

Definition NGX_RTC_SOURCE_MAX_SNAPSHOT : Z := 256.

(** What a worker does with a packet for session [i], in surroundings [e] (its clock and its
    sockets).  The octets past [n] are not read, and no packet makes it fail. *)
Class Deliver (E W : Type) := deliver : E -> W -> Z -> octets -> Z -> Z -> outcome W.

Class DeliverLaws (E W : Type) `{Deliver E W} := {
  worker_ok : W -> Prop;
  deliver_ok e w i rtp gp : worker_ok w -> 12 <= zlen rtp ->
    exists w', deliver e w i rtp (zlen rtp) gp = Ret w' /\ worker_ok w';
  deliver_prefix e w i b n gp : worker_ok w -> 12 <= n <= zlen b ->
    deliver e w i b n gp = deliver e w i (ztake n b) n gp
}.

(** The fields of the publisher's record of its source that a broadcast uses; [snap] is
    snap_ids[0 .. snap_count) with snap_slots. *)
Record ngx_rtc_source_t := {
  name : octets;
  shm_src : ptr Z;
  snap_version : Z;
  snap : list (Z * Z);
  ring_drops : Z
}.

Definition source_eta (s : ngx_rtc_source_t) : ngx_rtc_source_t :=
  {| name := name s; shm_src := shm_src s; snap_version := snap_version s; snap := snap s;
     ring_drops := ring_drops s |}.
Definition set_snap_version := ltac:(setter source_eta snap_version).
Definition set_snap := ltac:(setter source_eta snap).
Definition set_ring_drops := ltac:(setter source_eta ring_drops).

Section slots.
Context {W : Type}.

(** A worker with the w-th entries of the zone's rings and notify_fd: its own state, the ring
    it drains, its eventfd and the count in it, and whether its notify handler is running. *)
Record slot := {
  worker : W;
  ring : ptr ngx_rtc_shm_ring_t;
  notify_fd : Z;
  wakeups : Z;
  draining : bool
}.

Definition slot_eta (s : slot) : slot :=
  {| worker := worker s; ring := ring s; notify_fd := notify_fd s; wakeups := wakeups s;
     draining := draining s |}.
Definition set_worker := ltac:(setter slot_eta worker).
Definition set_ring := ltac:(setter slot_eta ring).
Definition set_wakeups := ltac:(setter slot_eta wakeups).
Definition set_draining := ltac:(setter slot_eta draining).
End slots.
#[global] Arguments slot : clear implicits.

Section broadcast.
Context {E W : Type} `{HD : Deliver E W, !DeliverLaws E W}.
Context `{HC : Shm.Crc}.
Context {Q T : Type} `{HQ : Queues Shm.queue_id Shm.node Q, !QueueLaws Shm.queue_id Shm.node Q}.
Context `{HT : StrTree T, !StrTreeLaws T}.
Abbreviation shm := (Shm.ngx_rtc_shm_ctx_t (Q:=Q) (T:=T)).
Abbreviation source := ngx_rtc_source_t.

(** ** The producer *)

(** The zone at the three moments a broadcast reads it: the version, the snapshot (under the
    mutex), the version again. *)
Definition reads : Type := shm * shm * shm.

Definition refresh (z : reads) (src : source) : outcome source :=
  let '(z1, z2, z3) := z in
  stale ← match shm_src src with
          | NULL => Ret true
          | Ref a => t ← Shm.source_at z1 a;
                     Ret (negb (Shm.subscribers_version t =? snap_version src))
          end;
  if (stale : bool) then
    l ← Shm.ngx_rtc_shm_source_snapshot z2 (name src) NGX_RTC_SOURCE_MAX_SNAPSHOT;
    let src := set_snap l src in
    match shm_src src with
    | NULL => Ret src
    | Ref a => t ← Shm.source_at z3 a; Ret (set_snap_version (Shm.subscribers_version t) src)
    end
  else Ret src.

Fixpoint deliver_own (e : E) (self : Z) (l : list (Z * Z)) (rtp : octets) (len gs : Z) (w : W) : outcome W :=
  match l with
  | [] => Ret w
  | (i, sl) :: l =>
      w ← if negb (sl =? self) then Ret w else deliver e w i rtp len gs;
      deliver_own e self l rtp len gs w
  end.

(** The session ids of worker [w], as many as an entry holds. *)
Fixpoint collect (w : Z) (l : list (Z * Z)) (ids : list Z) : list Z :=
  match l with
  | [] => ids
  | (i, sl) :: l =>
      collect w l (if (sl =? w) && (zlen ids <? NGX_RTC_RING_MAX_SESSIONS) then ids ++ [i] else ids)
  end.

(** A write of 1 to an eventfd; at the kernel's limit it is refused and the count stays. *)
Definition signal (n : Z) : Z := Z.min (n + 1) 18446744073709551614.

Definition enqueue_for (self w : Z) (rtp : octets) (len is_video gs : Z) (s : slot W) (src : source)
    : outcome (slot W * source) :=
  if w =? self then Ret (s, src)
  else
    let ids := collect w (snap src) [] in
    if (zlen ids =? 0) || is_null (ring s) then Ret (s, src)
    else
      '(rc, r) ← ngx_rtc_shm_ring_enqueue (ring s) (if is_video =? 0 then 1 else 0)
                   (if gs =? 0 then 0 else 1) (Ref rtp) (u16 len) (Ref ids) (zlen ids);
      let s := set_ring r s in
      if rc =? NGX_OK then
        Ret (if notify_fd s =? -1 then s else set_wakeups (signal (wakeups s)) s, src)
      else Ret (s, set_ring_drops (u32 (ring_drops src + 1)) src).

Fixpoint enqueue_all (self w : Z) (rtp : octets) (len is_video gs : Z) (l : list (slot W)) (src : source)
    : outcome (list (slot W) * source) :=
  match l with
  | [] => Ret ([], src)
  | s :: l =>
      '(s, src) ← enqueue_for self w rtp len is_video gs s src;
      '(l, src) ← enqueue_all self (w + 1) rtp len is_video gs l src;
      Ret (s :: l, src)
  end.

(** [z] is NULL without an rtc_zone. *)
Definition ngx_rtc_broadcast_rtp (e : E) (self : Z) (z : ptr reads) (src : source) (rtp : octets)
    (len is_video gs : Z) (g : list (slot W)) : outcome (list (slot W) * source) :=
  if NGX_RTC_RING_RTP_MAX <? len then Ret (g, src)
  else
    match z with
    | NULL => Ret (g, src)
    | Ref z =>
        src ← refresh z src;
        if zlen (snap src) =? 0 then Ret (g, src)
        else
          s ← load g self;
          w ← deliver_own e self (snap src) rtp len gs (worker s);
          g ← store g self (set_worker w s);
          enqueue_all self 0 rtp len is_video gs g src
    end.

(** ** The consumer *)

Fixpoint deliver_all (e : E) (ids : list Z) (rtp : octets) (len gs : Z) (w : W) : outcome W :=
  match ids with
  | [] => Ret w
  | i :: ids => w ← deliver e w i rtp len gs; deliver_all e ids rtp len gs w
  end.

(** One turn of the drain loop: true when a packet was taken. *)
Definition drain_entry (e : E) (s : slot W) : outcome (bool * slot W) :=
  '(rc, r, en) ← ngx_rtc_shm_ring_dequeue (ring s) (Ref zero_entry);
  let s := set_ring r s in
  if rc =? NGX_OK then
    match en with
    | NULL => Fault
    | Ref en =>
        ids ← load_range (sess en) 0 (nsess en);
        w ← deliver_all e ids (rtp en) (len en) (u8 (gop en)) (worker s);
        Ret (true, set_worker w s)
    end
  else Ret (false, s).

Fixpoint drain_loop (fuel : nat) (e : E) (s : slot W) : outcome (slot W) :=
  '(more, s) ← drain_entry e s;
  if (more : bool) then match fuel with O => Fault | S fuel => drain_loop fuel e s end
  else Ret s.

(** Undisturbed, the loop takes what the ring holds. *)
Definition ngx_rtc_stream_drain_ring (e : E) (s : slot W) : outcome (slot W) :=
  match ring s with
  | NULL => Ret s
  | Ref r => drain_loop (Z.to_nat (size r)) e s
  end.

(** The read resets the eventfd's count. *)
Definition ngx_rtc_stream_notify_handler (e : E) (s : slot W) : outcome (slot W) :=
  s ← ngx_rtc_stream_drain_ring e (s |> set_wakeups 0 |> set_draining true);
  Ret (set_draining false s).

(** ** What the fan-out promises

    A worker is a mailbox: the calls its sessions have heard, each for a packet of its own or
    for one relayed through the ring, the packets accepted into the ring so far, and how
    many of them it has taken. *)

Record delivery := { relayed : bool; d_env : E; d_id : Z; d_rtp : octets; d_gop : Z }.

Record mailbox := {
  start : W;
  cap : Z;
  heard : list delivery;
  accepted : list packet;
  taken : nat
}.

Definition waiting (b : mailbox) : list packet := drop (taken b) (accepted b).

Definition hear (ds : list delivery) (b : mailbox) : mailbox :=
  {| start := start b; cap := cap b; heard := heard b ++ ds; accepted := accepted b; taken := taken b |}.
Definition accept (p : packet) (b : mailbox) : mailbox :=
  {| start := start b; cap := cap b; heard := heard b; accepted := accepted b ++ [p]; taken := taken b |}.
Definition pass (b : mailbox) : mailbox :=
  {| start := start b; cap := cap b; heard := heard b; accepted := accepted b; taken := S (taken b) |}.

Definition calls (rl : bool) (e : E) (rtp : octets) (gs : Z) (ids : list Z) : list delivery :=
  (fun i => {| relayed := rl; d_env := e; d_id := i; d_rtp := rtp; d_gop := gs |}) <$> ids.

(** The ids of a snapshot that worker [w] owns. *)
Definition owned (w : Z) (l : list (Z * Z)) : list Z := (filter (fun p => p.2 = w) l).*1.

Definition post (e : E) (self : Z) (l : list (Z * Z)) (rtp : octets) (is_video gs : Z) (w : nat) (b : mailbox)
    : mailbox :=
  if Z.of_nat w =? self then hear (calls false e rtp gs (owned self l)) b
  else
    let ids := ztake 64 (owned (Z.of_nat w) l) in
    if bool_decide (ids = []) || (cap b <=? zlen (waiting b)) then b
    else accept (u64 (zlen (accepted b)), if is_video =? 0 then 1 else 0, if gs =? 0 then 0 else 1, ids, rtp) b.

(** The calls packet [p] makes. *)
Definition relay (e : E) (p : packet) : list delivery :=
  let '(_, _, gp, ids, rtp) := p in calls true e rtp gp ids.

Definition fetch (e : E) (b : mailbox) : mailbox :=
  match waiting b with [] => b | p :: _ => pass (hear (relay e p) b) end.

Fixpoint replay (ds : list delivery) (w : W) : outcome W :=
  match ds with
  | [] => Ret w
  | d :: ds => w ← deliver (d_env d) w (d_id d) (d_rtp d) (zlen (d_rtp d)) (d_gop d); replay ds w
  end.

(** The events of the workers, and what each does to the mailboxes. *)
Inductive event :=
| Packet (e : E) (self : Z) (z : reads) (src : source) (rtp : octets) (is_video gs : Z)
| Wake (w : Z)
| Drain (e : E) (w : Z).

Definition estep (ev : event) (g : list (slot W)) : outcome (list (slot W)) :=
  match ev with
  | Packet e self z src rtp is_video gs =>
      '(g, _) ← ngx_rtc_broadcast_rtp e self (Ref z) src rtp (zlen rtp) is_video gs g; Ret g
  | Wake w => s ← load g w; store g w (s |> set_wakeups 0 |> set_draining true)
  | Drain e w =>
      s ← load g w;
      '(more, s) ← drain_entry e s;
      store g w (if (more : bool) then s else set_draining false s)
  end.

Definition used (z : reads) (src : source) : list (Z * Z) :=
  match refresh z src with Ret s => snap s | Fault => [] end.

Definition sstep (ev : event) (bs : list mailbox) : list mailbox :=
  match ev with
  | Packet e self z src rtp is_video gs =>
      if 1500 <? zlen rtp then bs else imap (post e self (used z src) rtp is_video gs) bs
  | Wake w => bs
  | Drain e w => alter (fetch e) (Z.to_nat w) bs
  end.

(** ** The representation *)

Record slot_rep (s : slot W) (b : mailbox) : Prop := {
  sr_heard : replay (heard b) (start b) = Ret (worker s);
  sr_ok : worker_ok (worker s);
  sr_ring : match ring s with
            | NULL => cap b = 0 /\ accepted b = []
            | Ref r => exists k, cap b = 2 ^ k /\ mr_rep k r (u64 (zlen (accepted b)), waiting b)
            end;
  sr_taken : (taken b <= length (accepted b))%nat;
  sr_packets : Forall (fun p => 12 <= zlen p.2 /\ is_u8 p.1.1.2) (accepted b);
  sr_count : 0 <= wakeups s;
  sr_awake : notify_fd s <> -1 -> waiting b <> [] -> 0 < wakeups s \/ draining s = true
}.

Lemma replay_app ds es w : replay (ds ++ es) w = (w ← replay ds w; replay es w).
Proof.
  revert w. induction ds as [| d ds IH]; intros w; [done |]. cbn [replay app].
  destruct (deliver _ _ _ _ _ _); [apply IH | done].
Qed.

(** A loop of deliveries is the replay of its calls, and succeeds. *)
Lemma deliver_all_replay rl e rtp gs ids : forall w,
  worker_ok w -> 12 <= zlen rtp ->
  exists w', deliver_all e ids rtp (zlen rtp) gs w = Ret w' /\ worker_ok w' /\
    replay (calls rl e rtp gs ids) w = Ret w'.
Proof.
  induction ids as [| i ids IH]; intros w Hw Hl; [by exists w |].
  destruct (deliver_ok e w i rtp gs Hw Hl) as (w1 & Ed & Hw1). cbn. rewrite Ed, !bind_Ret.
  by apply IH.
Qed.

Lemma deliver_all_prefix e b n gs ids : forall w,
  worker_ok w -> 12 <= n <= zlen b ->
  deliver_all e ids b n gs w = deliver_all e ids (ztake n b) n gs w.
Proof.
  induction ids as [| i ids IH]; intros w Hw Hn; [done |]. cbn. rewrite deliver_prefix by done.
  assert (Hz : zlen (ztake n b) = n) by (rewrite zlen_ztake; lia).
  destruct (deliver_ok e w i (ztake n b) gs Hw ltac:(lia)) as (w1 & Ed & Hw1).
  rewrite Hz in Ed. rewrite Ed, !bind_Ret. by apply IH.
Qed.

Lemma deliver_own_all e self rtp len gs l : forall w,
  deliver_own e self l rtp len gs w = deliver_all e (owned self l) rtp len gs w.
Proof.
  induction l as [| [i sl] l IH]; intros w; [done |]. cbn [deliver_own]. unfold owned.
  rewrite filter_cons. cbn [snd]. destruct (Z.eqb_spec sl self) as [-> | Hne]; cbn [negb].
  - rewrite decide_True by done. cbn. destruct (deliver _ _ _ _ _ _); [apply IH | done].
  - rewrite decide_False by done. rewrite bind_Ret. apply IH.
Qed.

Lemma collect_spec w l : forall ids,
  zlen ids <= 64 -> collect w l ids = ids ++ ztake (64 - zlen ids) (owned w l).
Proof.
  induction l as [| [i sl] l IH]; intros ids Hi.
  { cbn. unfold ztake. by rewrite take_nil, app_nil_r. }
  cbn [collect]. unfold owned. rewrite filter_cons. cbn [snd].
  unfold NGX_RTC_RING_MAX_SESSIONS. destruct (Z.eqb_spec sl w) as [-> | Hne]; cbn [andb].
  - rewrite decide_True by done. destruct (Z.ltb_spec (zlen ids) 64).
    + rewrite IH by (rewrite zlen_app, zlen_cons, zlen_nil; lia).
      rewrite zlen_app, zlen_cons, zlen_nil, <- app_assoc. cbn [app fmap list_fmap]. f_equal.
      unfold ztake at 2. replace (Z.to_nat (64 - zlen ids)) with (S (Z.to_nat (64 - (zlen ids + (1 + 0))))) by lia.
      done.
    + rewrite IH by lia. replace (64 - zlen ids) with 0 by lia. by rewrite !ztake_0.
  - rewrite decide_False by done. by apply IH.
Qed.

Lemma hear_rep s b ds w' :
  slot_rep s b -> replay ds (worker s) = Ret w' -> worker_ok w' ->
  slot_rep (set_worker w' s) (hear ds b).
Proof.
  intros [H1 H2 H3 H4 H5 H6 H7] Hd Hw. split; try done. cbn. by rewrite replay_app, H1.
Qed.

Lemma own_rep e self l rtp gs s b :
  slot_rep s b -> 12 <= zlen rtp ->
  exists w', deliver_own e self l rtp (zlen rtp) gs (worker s) = Ret w' /\
    slot_rep (set_worker w' s) (hear (calls false e rtp gs (owned self l)) b).
Proof.
  intros Hs Hl. rewrite deliver_own_all.
  destruct (deliver_all_replay false e rtp gs (owned self l) (worker s) (sr_ok _ _ Hs) Hl)
    as (w' & E1 & Hw' & E2).
  exists w'. split; [done |]. by apply hear_rep.
Qed.

Lemma waiting_accept p b :
  (taken b <= length (accepted b))%nat -> waiting (accept p b) = waiting b ++ [p].
Proof. intros H. unfold waiting. cbn. by rewrite drop_app_le. Qed.

Lemma enqueue_for_rep e self l rtp is_video gs src w s b :
  slot_rep s b -> 12 <= zlen rtp <= 1500 -> snap src = l -> Z.of_nat w <> self ->
  exists s' d, enqueue_for self (Z.of_nat w) rtp (zlen rtp) is_video gs s src
               = Ret (s', set_ring_drops d src) /\
    slot_rep s' (post e self l rtp is_video gs w b) /\ worker s' = worker s.
Proof.
  intros Hs Hl <- Hw. assert (Hsame : src = set_ring_drops (ring_drops src) src) by (by destruct src).
  unfold enqueue_for, post. destruct (Z.eqb_spec (Z.of_nat w) self) as [| _]; [done |].
  rewrite collect_spec, zlen_nil, Z.sub_0_r, app_nil_l by (rewrite zlen_nil; lia).
  set (ids := ztake 64 (owned (Z.of_nat w) (snap src))). cbv zeta.
  assert (Hids : zlen ids <= 64) by (unfold ids, zlen, ztake; rewrite length_take; lia).
  case_bool_decide as Hnil.
  { rewrite Hnil. exists s, (ring_drops src). by rewrite <- Hsame. }
  assert (Hpos : 1 <= zlen ids) by (destruct ids; [done | rewrite zlen_cons; pose proof (zlen_nonneg ids); lia]).
  destruct (Z.eqb_spec (zlen ids) 0); [lia |]. cbn [orb].
  pose proof (sr_ring _ _ Hs) as Hring. destruct (ring s) as [| r] eqn:Er; cbn [is_null].
  { destruct Hring as [-> _]. exists s, (ring_drops src). rewrite <- Hsame.
    destruct (Z.leb_spec 0 (zlen (waiting b))); [by split_and! |]. pose proof (zlen_nonneg (waiting b)). lia. }
  destruct Hring as (k & Hcap & Hrep). rewrite (u16_small (zlen rtp)) by (unfold is_u16; lia).
  rewrite Hcap. destruct (Z.leb_spec (2 ^ k) (zlen (waiting b))) as [Hfull | Hroom].
  - assert (Ee : ngx_rtc_shm_ring_enqueue (Ref r) (if is_video =? 0 then 1 else 0)
                   (if gs =? 0 then 0 else 1) (Ref rtp) (zlen rtp) (Ref ids) (zlen ids)
                 = Ret (NGX_ERROR, Ref r)).
    { unfold ngx_rtc_shm_ring_enqueue. rewrite (mr_full _ _ _ Hrep). cbn [snd].
      destruct (Z.ltb_spec (zlen (waiting b)) (2 ^ k)); [lia |]. cbn [negb]. by destruct (_ || _). }
    rewrite Ee, bind_Ret. cbn [Z.eqb NGX_ERROR NGX_OK]. exists (set_ring (Ref r) s). eexists.
    split; [reflexivity |]. split; [| done]. destruct Hs. split; try done. cbn. by exists k.
  - destruct (enqueue_refines k r _ _ (if is_video =? 0 then 1 else 0) (if gs =? 0 then 0 else 1) rtp
                (zlen rtp) ids (zlen ids) Hrep) as (r' & -> & Hrep'); try lia.
    rewrite bind_Ret. cbn [Z.eqb NGX_OK]. eexists _, (ring_drops src). rewrite <- Hsame.
    split; [reflexivity |]. rewrite !ztake_zlen in Hrep'.
    set (p := (u64 (zlen (accepted b)), _, _, _, _)) in *.
    destruct Hs as [H1 H2 H3 H4 H5 H6 H7].
    assert (Hring : mr_rep k r' (u64 (zlen (accepted (accept p b))), waiting (accept p b))).
    { cbn [accept accepted]. rewrite zlen_app, zlen_cons, zlen_nil, waiting_accept by done.
      rewrite u64_add_l in Hrep'. by rewrite Z.add_0_r. }
    assert (Hacc : Forall (fun p => 12 <= zlen p.2 /\ is_u8 p.1.1.2) (accepted b ++ [p])).
    { apply Forall_app. split; [done |]. constructor; [| done]. unfold p. cbn. split; [lia |].
      destruct (gs =? 0); unfold is_u8; lia. }
    assert (Hlen : (taken b <= length (accepted b ++ [p]))%nat) by (rewrite length_app; lia).
    cbn [notify_fd set_ring]. destruct (Z.eqb_spec (notify_fd s) (-1)) as [Hfd | Hfd];
      (split; [| done]); split; try done; try (by exists k); cbn; unfold signal; try lia.
  Qed.

(** The whole producer. *)
Lemma enqueue_all_rep e self l rtp is_video gs : forall ss bs src w,
  12 <= zlen rtp <= 1500 -> snap src = l -> length ss = length bs ->
  (forall i s b, ss !! i = Some s -> bs !! i = Some b ->
     slot_rep s (if Z.of_nat (w + i) =? self then post e self l rtp is_video gs (w + i) b else b)) ->
  exists ss' d, enqueue_all self (Z.of_nat w) rtp (zlen rtp) is_video gs ss src
                = Ret (ss', set_ring_drops d src) /\
    Forall2 slot_rep ss' (imap (fun i => post e self l rtp is_video gs (w + i)) bs).
Proof.
  intros ss. induction ss as [| s ss IH]; intros [| b bs] src w Hl Hsnap Hlen Hrep; try done.
  { exists [], (ring_drops src). split; [by destruct src | constructor]. }
  cbn [enqueue_all].
  assert (Hone : exists s' d, enqueue_for self (Z.of_nat w) rtp (zlen rtp) is_video gs s src
      = Ret (s', set_ring_drops d src) /\ slot_rep s' (post e self l rtp is_video gs w b)).
  { pose proof (Hrep 0%nat s b eq_refl eq_refl) as Hs. rewrite Nat.add_0_r in Hs.
    destruct (Z.eqb_spec (Z.of_nat w) self) as [Hw | Hw].
    - exists s, (ring_drops src). split; [| done]. unfold enqueue_for.
      destruct (Z.eqb_spec (Z.of_nat w) self); [by destruct src | done].
    - destruct (enqueue_for_rep e self l rtp is_video gs src w s b Hs Hl Hsnap Hw)
        as (s' & d & H1 & H2 & _). by exists s', d. }
  destruct Hone as (s' & d & -> & Hs'). rewrite bind_Ret.
  destruct (IH bs (set_ring_drops d src) (S w) Hl Hsnap ltac:(cbn in Hlen; lia)) as (ss' & d' & E1 & Hss).
  { intros i t c Ht Hc. specialize (Hrep (S i) t c Ht Hc). by rewrite Nat.add_succ_r in Hrep. }
  replace (Z.of_nat w + 1) with (Z.of_nat (S w)) by lia. rewrite E1, bind_Ret.
  exists (s' :: ss'), d'. split; [done |]. rewrite imap_cons. constructor; [by rewrite Nat.add_0_r |].
  erewrite imap_ext; [exact Hss |]. intros i c _. cbn. by rewrite Nat.add_succ_r.
Qed.

Lemma load_slot g bs w :
  Forall2 slot_rep g bs -> 0 <= w < zlen g ->
  exists s b, load g w = Ret s /\ g !! Z.to_nat w = Some s /\ bs !! Z.to_nat w = Some b /\ slot_rep s b /\
    forall t c, slot_rep t c -> exists g', store g w t = Ret g' /\
      Forall2 slot_rep g' (<[Z.to_nat w := c]> bs) /\ g' = <[Z.to_nat w := t]> g.
Proof.
  intros Hg Hw. destruct (load_in g w Hw) as [s Hs]. pose proof Hs as [_ Hl]%load_ret.
  destruct (Forall2_lookup_l _ _ _ _ _ Hg Hl) as (b & Hb & Hsb). exists s, b. split_and!; try done.
  intros t c Htc. rewrite store_in by done. eexists. split; [done |]. split; [| done].
  by apply Forall2_insert.
Qed.

Lemma imap_ident {A} (l : list A) : forall f : nat -> A -> A, (forall i x, f i x = x) -> imap f l = l.
Proof. induction l as [| x l IH]; intros f Hf; [done |]. rewrite imap_cons, Hf, IH; [done |]. intros. apply Hf. Qed.

Lemma post_none e self rtp is_video gs w b : post e self [] rtp is_video gs w b = b.
Proof.
  unfold post. destruct (_ =? self).
  - unfold hear. cbn. rewrite app_nil_r. by destruct b.
  - cbn. by rewrite bool_decide_true by done.
Qed.

Lemma broadcast_rep e self z src rtp is_video gs g bs src' :
  Forall2 slot_rep g bs -> 0 <= self < zlen g -> 12 <= zlen rtp -> refresh z src = Ret src' ->
  exists g' out, ngx_rtc_broadcast_rtp e self (Ref z) src rtp (zlen rtp) is_video gs g = Ret (g', out) /\
    Forall2 slot_rep g' (sstep (Packet e self z src rtp is_video gs) bs).
Proof.
  intros Hg Hself Hl Hz. unfold ngx_rtc_broadcast_rtp. cbn [sstep]. unfold used. rewrite Hz.
  change NGX_RTC_RING_RTP_MAX with 1500. destruct (1500 <? zlen rtp) eqn:Hmax; [by exists g, src |].
  apply Z.ltb_ge in Hmax. rewrite bind_Ret. destruct (Z.eqb_spec (zlen (snap src')) 0) as [Hn | Hn].
  { exists g, src'. split; [done |].
    assert (snap src' = []) as -> by (destruct (snap src') as [| x l]; [done | pose proof (zlen_nonneg l); rewrite zlen_cons in Hn; lia]).
    rewrite imap_ident; [done |]. intros. apply post_none. }
  destruct (load_slot g bs self Hg Hself) as (s & b & -> & Hgs & Hbs & Hsb & Hput). rewrite bind_Ret.
  destruct (own_rep e self (snap src') rtp gs s b Hsb Hl) as (w' & -> & Hw'). rewrite bind_Ret.
  destruct (Hput _ _ Hw') as (g1 & -> & Hg1 & Eg1). rewrite bind_Ret.
  destruct (enqueue_all_rep e self (snap src') rtp is_video gs g1 bs src' 0%nat) as (g2 & d & E2 & Hg2).
  - done.
  - done.
  - apply Forall2_length in Hg1. by rewrite length_insert in Hg1.
  - intros i t c Ht Hc. cbn [Nat.add]. destruct (Z.eqb_spec (Z.of_nat i) self) as [<- | Hi].
    + rewrite Nat2Z.id in *. assert (c = b) as -> by congruence.
      pose proof (Forall2_lookup_lr _ _ _ _ _ _ Hg1 Ht (list_lookup_insert_eq _ _ _ (lookup_lt_Some _ _ _ Hbs))) as Hr.
      unfold post. by rewrite Z.eqb_refl.
    + eapply (Forall2_lookup_lr _ _ _ i _ _ Hg1 Ht). rewrite list_lookup_insert_ne; [done |]. lia.
  - exists g2, (set_ring_drops d src'). by split.
Qed.

(** The octets past the packet are not read. *)
Lemma enqueue_prefix r md gp b n (ids : ptr (list Z)) k :
  0 <= n <= zlen b ->
  ngx_rtc_shm_ring_enqueue r md gp (Ref b) n ids k = ngx_rtc_shm_ring_enqueue r md gp (Ref (ztake n b)) n ids k.
Proof.
  intros Hn. unfold ngx_rtc_shm_ring_enqueue. destruct r as [| r]; [done |]. destruct ids as [| ids]; [done |].
  by rewrite (load_range_ztake b n 0 n) by lia.
Qed.

Lemma enqueue_all_prefix self b n is_video gs : forall g w src,
  0 <= n <= zlen b -> n <= 1500 ->
  enqueue_all self w b n is_video gs g src = enqueue_all self w (ztake n b) n is_video gs g src.
Proof.
  induction g as [| s g IH]; intros w src Hn Hmax; [done |]. cbn [enqueue_all].
  assert (Hone : enqueue_for self w b n is_video gs s src = enqueue_for self w (ztake n b) n is_video gs s src).
  { unfold enqueue_for. rewrite (u16_small n) by (unfold is_u16; lia). by rewrite enqueue_prefix by done. }
  rewrite Hone. clear Hone. destruct (enqueue_for _ _ _ _ _ _ _ _) as [[s' src'] |]; [| done]. by rewrite !bind_Ret, IH.
Qed.

Lemma broadcast_prefix e self z src b n is_video gs g :
  Forall (fun s => worker_ok (worker s)) g -> 12 <= n <= zlen b ->
  ngx_rtc_broadcast_rtp e self z src b n is_video gs g
  = ngx_rtc_broadcast_rtp e self z src (ztake n b) n is_video gs g.
Proof.
  intros Hg Hn. unfold ngx_rtc_broadcast_rtp. change NGX_RTC_RING_RTP_MAX with 1500.
  destruct (Z.ltb_spec 1500 n); [done |]. destruct z as [| z]; [done |].
  destruct (refresh z src) as [src' |]; [rewrite !bind_Ret | done]. destruct (_ =? 0); [done |].
  destruct (load g self) as [s |] eqn:El; [rewrite !bind_Ret | done]. apply load_ret in El as [_ El].
  pose proof (Forall_lookup_1 _ _ _ _ Hg El) as Hw. cbn beta in Hw.
  rewrite !deliver_own_all, deliver_all_prefix by done.
  destruct (deliver_all _ _ _ _ _ _) as [w' |]; [rewrite !bind_Ret | done].
  destruct (store g self _) as [g' |]; [rewrite !bind_Ret | done]. apply enqueue_all_prefix; lia.
Qed.

(** *** The consumer *)

Lemma drain_entry_rep e s b :
  slot_rep s b ->
  exists s', drain_entry e s = Ret (negb (bool_decide (waiting b = [])), s') /\
    slot_rep s' (fetch e b) /\ draining s' = draining s.
Proof.
  intros Hs. pose proof Hs as [H1 H2 H3 H4 H5 H6 H7]. unfold drain_entry, fetch.
  destruct (waiting b) as [| p q] eqn:Ew.
  { exists s. assert (Ed : ngx_rtc_shm_ring_dequeue (ring s) (Ref zero_entry)
                           = Ret (NGX_ERROR, ring s, Ref zero_entry)).
    { destruct (ring s) as [| r]; [done |]. destruct H3 as (k & _ & Hrep).
      unfold ngx_rtc_shm_ring_dequeue. by rewrite (mr_empty _ _ _ Hrep). }
    rewrite Ed, bind_Ret. cbn [Z.eqb NGX_ERROR NGX_OK]. rewrite bool_decide_true by done.
    split; [by destruct s |]. done. }
  rewrite bool_decide_false by done.
  destruct (ring s) as [| r] eqn:Er.
  { destruct H3 as [_ H3]. unfold waiting in Ew. by rewrite H3, drop_nil in Ew. }
  destruct H3 as (k & Hcap & Hrep).
  destruct (dequeue_refines k r _ p q zero_entry Hrep) as (r' & en & -> & Hv & (Hb1 & Hb2 & Hb3 & Hb4) & Hrep').
  rewrite bind_Ret. cbn [Z.eqb NGX_OK]. cbn [worker set_ring].
  rewrite load_range_in, bind_Ret, zdrop_0 by lia.
  assert (Hp : 12 <= zlen p.2 /\ is_u8 p.1.1.2).
  { rewrite Forall_forall in H5. apply H5. unfold waiting in Ew.
    rewrite <- (take_drop (taken b) (accepted b)), Ew. apply elem_of_app. right. by left. }
  destruct p as [[[[sq m] gp] ids] d]. cbn [fst snd] in Hp. destruct Hp as [Hd Hgp].
  injection Hv as _ _ Hvg Hvi Hvd. rewrite Hvi, Hvg, (u8_small gp) by done.
  assert (Hlen : len en = zlen d) by (rewrite <- Hvd, zlen_ztake; lia).
  rewrite deliver_all_prefix, Hvd, Hlen by (try done; lia).
  destruct (deliver_all_replay true e d gp ids (worker s) H2 Hd) as (w' & -> & Hw' & Erep).
  rewrite bind_Ret. eexists. split; [reflexivity |].
  split; [| done].
  assert (Hq : drop (S (taken b)) (accepted b) = q).
  { unfold waiting in Ew. by rewrite <- Nat.add_1_r, <- drop_drop, Ew. }
  assert (Hlt : (taken b < length (accepted b))%nat).
  { apply Nat.nle_gt. intros Hle. unfold waiting in Ew. by rewrite drop_ge in Ew by done. }
  split; try done; cbn.
  - rewrite replay_app, H1. exact Erep.
  - exists k. split; [done |]. unfold waiting. cbn. by rewrite Hq.
  - intros Hfd _. by apply H7.
Qed.

Lemma asleep_rep s b d : slot_rep s b -> waiting b = [] -> slot_rep (set_draining d s) b.
Proof. intros [H1 H2 H3 H4 H5 H6 H7] Hw. by split. Qed.

Lemma fetch_waiting e b : waiting (fetch e b) = tl (waiting b).
Proof.
  unfold fetch. destruct (waiting b) as [| p q] eqn:Ew; [done |]. unfold waiting in *. cbn.
  by rewrite <- Nat.add_1_r, <- drop_drop, Ew.
Qed.

(** A worker that wakes up and is left alone empties its ring, in as many turns as it held
    packets, and takes them in order. *)
Lemma drain_loop_rep e : forall fuel s b,
  slot_rep s b -> (length (waiting b) <= fuel)%nat ->
  exists s', drain_loop fuel e s = Ret s' /\ slot_rep s' (Nat.iter (length (waiting b)) (fetch e) b).
Proof.
  induction fuel as [| fuel IH]; intros s b Hs Hf.
  all: destruct (drain_entry_rep e s b Hs) as (s1 & E1 & Hs1 & _); cbn [drain_loop]; rewrite E1, bind_Ret.
  all: destruct (waiting b) as [| p q] eqn:Ew;
    [rewrite bool_decide_true by done | rewrite bool_decide_false by done]; cbn [negb length] in *.
  - exists s1. split; [done |]. unfold fetch in Hs1. by rewrite Ew in Hs1.
  - lia.
  - exists s1. split; [done |]. unfold fetch in Hs1. by rewrite Ew in Hs1.
  - destruct (IH s1 (fetch e b) Hs1) as (s2 & E2 & Hs2); [rewrite fetch_waiting, Ew; cbn; lia |].
    exists s2. split; [done |]. rewrite fetch_waiting, Ew in Hs2. cbn [tl] in Hs2.
    by rewrite Nat.iter_succ_r.
Qed.

Lemma waiting_iter e n b : waiting (Nat.iter n (fetch e) b) = drop n (waiting b).
Proof.
  induction n as [| n IH]; [done |]. change (Nat.iter (S n) (fetch e) b) with (fetch e (Nat.iter n (fetch e) b)).
  rewrite fetch_waiting, IH.
  rewrite <- Nat.add_1_r, <- drop_drop. by destruct (drop n (waiting b)).
Qed.

Lemma handler_rep e s b :
  slot_rep s b ->
  exists s', ngx_rtc_stream_notify_handler e s = Ret s' /\
    slot_rep s' (Nat.iter (length (waiting b)) (fetch e) b) /\
    waiting (Nat.iter (length (waiting b)) (fetch e) b) = [].
Proof.
  intros Hs. set (s1 := s |> set_wakeups 0 |> set_draining true).
  assert (Hs1 : slot_rep s1 b) by (destruct Hs; split; try done; by right).
  assert (Hend : waiting (Nat.iter (length (waiting b)) (fetch e) b) = []).
  { by rewrite waiting_iter, drop_ge by done. }
  assert (Hrun : exists s2, ngx_rtc_stream_drain_ring e s1 = Ret s2 /\
                   slot_rep s2 (Nat.iter (length (waiting b)) (fetch e) b)).
  { pose proof (sr_ring _ _ Hs1) as Hr. unfold ngx_rtc_stream_drain_ring. destruct (ring s1) as [| r].
    - destruct Hr as [_ Hr]. exists s1. split; [done |]. unfold waiting at 1. by rewrite Hr, drop_nil.
    - destruct Hr as (k & _ & Hrep). apply drain_loop_rep; [done |]. rewrite (mr_size _ _ _ Hrep).
      pose proof (mr_fits _ _ _ Hrep) as Hf. unfold zlen in Hf. cbn [snd] in Hf. lia. }
  destruct Hrun as (s2 & E2 & Hs2). unfold ngx_rtc_stream_notify_handler. fold s1. rewrite E2, bind_Ret.
  eexists. split; [reflexivity |]. split; [by apply asleep_rep | done].
Qed.

(** *** Runs *)

Definition event_ok (g : list (slot W)) (ev : event) : Prop :=
  match ev with
  | Packet e self z src rtp is_video gs =>
      0 <= self < zlen g /\ 12 <= zlen rtp /\ exists src', refresh z src = Ret src'
  | Wake w => exists s, g !! Z.to_nat w = Some s /\ 0 <= w /\ draining s = false /\ 0 < wakeups s
  | Drain e w => exists s, g !! Z.to_nat w = Some s /\ 0 <= w /\ draining s = true
  end.

Lemma alter_insert {A} (f : A -> A) (l : list A) k x : l !! k = Some x -> alter f k l = <[k := f x]> l.
Proof.
  intros Hx. apply list_eq. intros j. destruct (decide (j = k)) as [-> | Hne].
  - rewrite list_lookup_insert_eq by (by eapply lookup_lt_Some). by rewrite list_lookup_alter_eq, Hx.
  - by rewrite list_lookup_alter_ne, list_lookup_insert_ne by done.
Qed.

Lemma estep_rep ev g bs :
  Forall2 slot_rep g bs -> event_ok g ev ->
  exists g', estep ev g = Ret g' /\ Forall2 slot_rep g' (sstep ev bs).
Proof.
  intros Hg Hev. destruct ev as [e self z src rtp is_video gs | w | e w]; cbn [estep event_ok] in *.
  - destruct Hev as (H1 & H2 & src' & H3).
    destruct (broadcast_rep e self z src rtp is_video gs g bs src' Hg H1 H2 H3) as (g' & out & -> & Hg').
    by exists g'.
  - destruct Hev as (s & Hs & Hw & Hd & Hc).
    assert (Hlt : 0 <= w < zlen g) by (apply lookup_lt_Some in Hs; unfold zlen; lia).
    destruct (load_slot g bs w Hg Hlt) as (t & b & -> & Ht & Hb & Htb & Hput). rewrite bind_Ret.
    destruct (Hput (t |> set_wakeups 0 |> set_draining true) b) as (g' & -> & Hg' & _).
    { destruct Htb. split; try done. by right. }
    exists g'. by rewrite list_insert_id in Hg' by done.
  - destruct Hev as (t & Ht & Hw & _).
    assert (Hlt : 0 <= w < zlen g) by (apply lookup_lt_Some in Ht; unfold zlen; lia).
    destruct (load_slot g bs w Hg Hlt) as (s & b & -> & Hs & Hb & Hsb & Hput). rewrite bind_Ret.
    cbn [sstep]. rewrite (alter_insert _ _ _ b Hb).
    destruct (drain_entry_rep e s b Hsb) as (s' & -> & Hs' & _). rewrite bind_Ret.
    case_bool_decide as Ew; cbn [negb].
    + assert (Hf : waiting (fetch e b) = []) by (by rewrite fetch_waiting, Ew).
      destruct (Hput _ _ (asleep_rep _ _ false Hs' Hf)) as (g' & -> & Hg' & _). by exists g'.
    + destruct (Hput _ _ Hs') as (g' & -> & Hg' & _). by exists g'.
Qed.


Fixpoint erun (evs : list event) (g : list (slot W)) : outcome (list (slot W)) :=
  match evs with
  | [] => Ret g
  | ev :: evs => g ← estep ev g; erun evs g
  end.

Fixpoint run_ok (evs : list event) (g : list (slot W)) : Prop :=
  match evs with
  | [] => True
  | ev :: evs => event_ok g ev /\ match estep ev g with Ret g => run_ok evs g | Fault => False end
  end.

Definition srun (evs : list event) (bs : list mailbox) : list mailbox := fold_left (fun bs ev => sstep ev bs) evs bs.

Lemma erun_rep evs : forall g bs,
  Forall2 slot_rep g bs -> run_ok evs g ->
  exists g', erun evs g = Ret g' /\ Forall2 slot_rep g' (srun evs bs).
Proof.
  induction evs as [| ev evs IH]; intros g bs Hg; [by exists g |]. cbn [run_ok erun]. intros [Hev Hrun].
  destruct (estep_rep ev g bs Hg Hev) as (g1 & E1 & Hg1). rewrite E1 in *. rewrite bind_Ret. by apply IH.
Qed.

(** A worker at start-up: an empty ring of 2^k entries, or none. *)
Definition fresh_slot (s : slot W) : Prop :=
  worker_ok (worker s) /\ wakeups s = 0 /\ draining s = false /\
  match ring s with NULL => True | Ref r => exists k, mr_rep k r (0, []) end.

Definition fresh_box (s : slot W) : mailbox :=
  {| start := worker s; cap := match ring s with NULL => 0 | Ref r => size r end; heard := [];
     accepted := []; taken := 0 |}.

Lemma fresh_rep g : Forall fresh_slot g -> Forall2 slot_rep g (fresh_box <$> g).
Proof.
  induction 1 as [| s g (H1 & H2 & H3 & H4) _ IH]; constructor; [| done].
  split; cbn; try done; [| lia]. destruct (ring s) as [| r]; [done |]. destruct H4 as [k Hk].
  exists k. split; [apply Hk | done].
Qed.

(** ** What each worker's sessions hear *)

(** A call without its surroundings. *)
Definition told (d : delivery) : Z * octets * Z := (d_id d, d_rtp d, d_gop d).
Definition addressed (p : packet) : list (Z * octets * Z) :=
  let '(_, _, gp, ids, rtp) := p in (fun i => (i, rtp, gp)) <$> ids.

(** The calls a worker makes for its own streams in a run. *)
Definition spoken (w : Z) (ev : event) : list (Z * octets * Z) :=
  match ev with
  | Packet e self z src rtp is_video gs =>
      if (self =? w) && (zlen rtp <=? 1500) then (fun i => (i, rtp, gs)) <$> owned w (used z src) else []
  | _ => []
  end.

(** The packets the other workers have for it. *)
Definition sent_to (w : Z) (ev : event) : list (Z * Z * list Z * octets) :=
  match ev with
  | Packet e self z src rtp is_video gs =>
      let ids := ztake 64 (owned w (used z src)) in
      if (self =? w) || (1500 <? zlen rtp) || bool_decide (ids = []) then []
      else [(if is_video =? 0 then 1 else 0, if gs =? 0 then 0 else 1, ids, rtp)]
  | _ => []
  end.

Definition content (p : packet) : Z * Z * list Z * octets :=
  let '(_, m, gp, ids, rtp) := p in (m, gp, ids, rtp).

Record box_ok (w : Z) (evs : list event) (b : mailbox) : Prop := {
  bo_taken : (taken b <= length (accepted b))%nat;
  bo_relayed : told <$> filter (fun d => relayed d = true) (heard b)
               = concat (addressed <$> take (taken b) (accepted b));
  bo_own : told <$> filter (fun d => relayed d = false) (heard b) = concat (spoken w <$> evs);
  bo_accepted : content <$> accepted b `sublist_of` concat (sent_to w <$> evs);
  bo_numbers j p : accepted b !! j = Some p -> p.1.1.1.1 = u64 (Z.of_nat j)
}.

Lemma filter_calls rl rl' e rtp gs ids :
  told <$> filter (fun d => relayed d = rl') (calls rl e rtp gs ids)
  = if bool_decide (rl = rl') then (fun i => (i, rtp, gs)) <$> ids else [].
Proof.
  unfold calls. induction ids as [| i ids IH]; [by case_bool_decide |]. cbn [fmap list_fmap].
  rewrite filter_cons. cbn [relayed]. case_bool_decide as Hb.
  - rewrite decide_True by done. cbn [fmap list_fmap]. f_equal. by rewrite IH.
  - rewrite decide_False by done. exact IH.
Qed.

Lemma box_hear_own w evs ev b e rtp gs ids :
  box_ok w evs b -> spoken w ev = (fun i => (i, rtp, gs)) <$> ids -> sent_to w ev = [] ->
  box_ok w (evs ++ [ev]) (hear (calls false e rtp gs ids) b).
Proof.
  intros [H1 H2 H3 H4 H5] Hs Ht. split; cbn; try done.
  - by rewrite filter_app, fmap_app, filter_calls, bool_decide_false, app_nil_r.
  - rewrite filter_app, !fmap_app, filter_calls, bool_decide_true, concat_app by done.
    cbn. by rewrite H3, Hs, app_nil_r.
  - by rewrite fmap_app, concat_app; cbn; rewrite Ht, !app_nil_r.
Qed.

Lemma box_quiet w evs ev b : box_ok w evs b -> spoken w ev = [] -> box_ok w (evs ++ [ev]) b.
Proof.
  intros [H1 H2 H3 H4 H5] Hs. split; try done; rewrite fmap_app, concat_app; cbn.
  - by rewrite H3, Hs, !app_nil_r.
  - by apply sublist_inserts_r.
Qed.

Lemma box_accept w evs ev b p :
  box_ok w evs b -> spoken w ev = [] -> sent_to w ev = [content p] ->
  p.1.1.1.1 = u64 (zlen (accepted b)) -> box_ok w (evs ++ [ev]) (accept p b).
Proof.
  intros [H1 H2 H3 H4 H5] Hs Ht Hp. split; cbn; try done.
  - rewrite length_app. lia.
  - by rewrite take_app_le.
  - by rewrite fmap_app, concat_app; cbn; rewrite Hs, !app_nil_r.
  - rewrite !fmap_app, concat_app. cbn. rewrite Ht. by apply sublist_app.
  - intros j q [Hj | [Hj Hq]]%lookup_app_Some; [by apply H5 |].
    apply list_lookup_singleton_Some in Hq as [Hj' <-]. rewrite Hp.
    by replace j with (length (accepted b)) by (change (Z * Z * Z * octets * octets)%type with packet in *; lia).
Qed.

Lemma box_fetch w evs ev e b :
  box_ok w evs b -> spoken w ev = [] -> sent_to w ev = [] -> box_ok w (evs ++ [ev]) (fetch e b).
Proof.
  intros Hb Hs Ht. unfold fetch. destruct (waiting b) as [| p q] eqn:Ew; [by apply box_quiet |].
  destruct Hb as [H1 H2 H3 H4 H5]. unfold waiting in Ew.
  assert (Hlt : accepted b !! taken b = Some p).
  { replace (taken b) with (taken b + 0)%nat by lia. by rewrite <- lookup_drop, Ew. }
  destruct p as [[[[sq m] gp] ids] d]. cbn [relay].
  split; cbn; try done.
  - apply lookup_lt_Some in Hlt. lia.
  - rewrite filter_app, fmap_app, filter_calls, bool_decide_true, H2 by done.
    rewrite (take_S_r _ _ _ Hlt), fmap_app, concat_app. cbn. by rewrite app_nil_r.
  - rewrite filter_app, !fmap_app, filter_calls, bool_decide_false, concat_app by done.
    cbn. by rewrite H3, Hs, !app_nil_r.
  - by rewrite fmap_app, concat_app; cbn; rewrite Ht, !app_nil_r.
Qed.

Lemma sstep_lookup ev bs w b' :
  sstep ev bs !! w = Some b' ->
  exists b, bs !! w = Some b /\ forall evs, box_ok (Z.of_nat w) evs b -> box_ok (Z.of_nat w) (evs ++ [ev]) b'.
Proof.
  destruct ev as [e self z src rtp is_video gs | v | e v]; cbn [sstep]; intros Hb'.
  - destruct (1500 <? zlen rtp) eqn:Hl.
    { exists b'. split; [done |]. intros evs Hb. apply box_quiet; [done |]. cbn.
      destruct (Z.leb_spec (zlen rtp) 1500); [apply Z.ltb_lt in Hl; lia | by rewrite andb_false_r]. }
    rewrite list_lookup_imap in Hb'. destruct (bs !! w) as [b |]; [| done]. injection Hb' as <-.
    exists b. split; [done |]. intros evs Hb. unfold post.
    destruct (Z.eqb_spec (Z.of_nat w) self) as [<- | Hw].
    + apply box_hear_own; [done | |]; cbn; rewrite Z.eqb_refl; [| done].
      apply Z.ltb_ge in Hl. by destruct (Z.leb_spec (zlen rtp) 1500); [| lia].
    + assert (Hs : spoken (Z.of_nat w) (Packet e self z src rtp is_video gs) = []).
      { cbn. by destruct (Z.eqb_spec self (Z.of_nat w)); [congruence |]. }
      cbv zeta. destruct (bool_decide _ || _) eqn:Hc; [by apply box_quiet |].
      apply orb_false_iff in Hc as [Hc _]. apply box_accept; try done.
      cbn. rewrite Hl, Hc. by destruct (Z.eqb_spec self (Z.of_nat w)); [congruence |].
  - exists b'. split; [done |]. intros evs Hb. by apply box_quiet.
  - rewrite list_lookup_alter in Hb'. destruct (decide (Z.to_nat v = w)) as [Hv | Hv].
    + rewrite Hv in Hb'. destruct (bs !! w) as [b |]; [| done]. injection Hb' as <-.
      exists b. split; [done |]. intros evs Hb. by apply box_fetch.
    + exists b'. split; [done |]. intros evs Hb. by apply box_quiet.
Qed.

Lemma srun_box evs : forall bs w b,
  (forall v c, bs !! v = Some c -> box_ok (Z.of_nat v) [] c) ->
  srun evs bs !! w = Some b -> box_ok (Z.of_nat w) evs b.
Proof.
  induction evs as [| ev evs IH] using rev_ind; intros bs w b H0 Hb; [by apply H0 |].
  unfold srun in Hb. rewrite fold_left_app in Hb.
  destruct (sstep_lookup ev _ w b Hb) as (c & Hc & Hstep). apply Hstep. by apply (IH bs).
Qed.

(** C4: The fan-out delivers: whatever the workers' broadcasts, wakeups and drains, in any
    order, from empty rings on, no call makes a bad access and each worker is in the state
    its mailbox says.  Its sessions have heard, of the streams published elsewhere, the
    packets accepted into its ring, whole, each once for every id it was addressed to, in
    the order they were accepted, up to those still waiting; the accepted packets are
    numbered consecutively and are, in order, among those the other workers had for it; and
    its own streams' packets it has all heard. *)
Theorem relay_in_order g0 evs :
  Forall fresh_slot g0 -> run_ok evs g0 ->
  exists g, erun evs g0 = Ret g /\ Forall2 slot_rep g (srun evs (fresh_box <$> g0)) /\
    forall w b, srun evs (fresh_box <$> g0) !! w = Some b -> box_ok (Z.of_nat w) evs b.
Proof.
  intros Hg0 Hrun. destruct (erun_rep evs g0 _ (fresh_rep g0 Hg0) Hrun) as (g & E1 & Hg).
  exists g. split_and!; [done | done |]. intros w b. apply srun_box. intros v c Hc.
  rewrite list_lookup_fmap in Hc. destruct (g0 !! v); [| done]. injection Hc as <-.
  by split.
Qed.

(** C20: No packet is left without a wakeup: whenever a worker that has an eventfd has packets
    waiting, the eventfd is readable or its handler is running; and a handler that is not
    disturbed takes every packet waiting, in as many turns. *)
Theorem no_lost_wakeup g0 evs g w s :
  Forall fresh_slot g0 -> run_ok evs g0 -> erun evs g0 = Ret g -> g !! w = Some s ->
  exists b, srun evs (fresh_box <$> g0) !! w = Some b /\
    (notify_fd s <> -1 -> waiting b <> [] -> 0 < wakeups s \/ draining s = true) /\
    forall e, exists s', ngx_rtc_stream_notify_handler e s = Ret s' /\
      slot_rep s' (Nat.iter (length (waiting b)) (fetch e) b) /\
      waiting (Nat.iter (length (waiting b)) (fetch e) b) = [].
Proof.
  intros Hg0 Hrun E1 Hs. destruct (erun_rep evs g0 _ (fresh_rep g0 Hg0) Hrun) as (g' & E2 & Hg).
  assert (g' = g) as -> by congruence.
  destruct (Forall2_lookup_l _ _ _ _ _ Hg Hs) as (b & Hb & Hsb). exists b. split; [done |].
  split; [apply Hsb |]. intros e. apply handler_rep, Hsb.
Qed.

End broadcast.

(** ** A worker of the module

    A delivery is ngx_rtc_session_find_by_id followed by ngx_rtc_session_send_rtp on what it
    found; [wire] is what the sockets were handed, with the session it was handed to. *)
Section worker.
Context {Srtp : Type} (protect : Srtp -> octets -> Z * octets * Srtp) (tunables : Session.ngx_rtc_tunables_t).
Context (crc : octets -> Z).
Context {Q T : Type} `{HQ : Queues Registry.queue_id Registry.node Q,
  !QueueLaws Registry.queue_id Registry.node Q}.
Context `{HT : StrTree T, !StrTreeLaws T}.
Abbreviation registry := (Registry.registry (Srtp:=Srtp) (Q:=Q) (T:=T)).
Abbreviation session := (Session.ngx_rtc_session_t Srtp).

Record surroundings := { now : Z; socket : Z -> octets -> Z }.
Record worker_state := { reg : registry; wire : list (Z * SendPath.wire) }.

(** What the session's source pointer refers to. *)
Definition source_of (r : registry) (s : session) : outcome (ptr Session.ngx_rtc_source_t) :=
  match Session.source s with
  | NULL => Ret NULL
  | Ref a => t ← Registry.source_at r a; Ret (Ref t)
  end.

Definition send_to (e : surroundings) (w : worker_state) (i : Z) (rtp : octets) (len gs : Z)
    : outcome worker_state :=
  p ← Registry.ngx_rtc_session_find_by_id (reg w) i;
  match p with
  | NULL => Ret w
  | Ref x =>
      s ← Registry.session_at (reg w) x;
      src ← source_of (reg w) s;
      '(_, s, l) ← SendPath.ngx_rtc_session_send_rtp protect tunables (now e) (socket e x) src (Ref s) rtp len gs [];
      match s with
      | NULL => Fault
      | Ref s => Ret {| reg := Registry.put_session x s (reg w); wire := wire w ++ [(x, l)] |}
      end
  end.

#[global] Instance worker_deliver : Deliver surroundings worker_state := send_to.

(** A session that sends nothing yet, and one that does. *)
Definition idle (s : session) : Prop :=
  Session.conn s = NULL \/ SessionFsm.ngx_rtc_session_fsm_is_ready (Ref (Session.fsm s)) = Ret false.

Definition registry_ok (w : worker_state) : Prop :=
  Registry.reg_ok crc (reg w) /\
  forall x s, Registry.sessions (reg w) !! x = Some s ->
    idle s \/ (SendPath.sendable s /\ Session.source s <> NULL).

Lemma idle_send now send src s rtp len gs :
  idle s -> SendPath.ngx_rtc_session_send_rtp protect tunables now send src (Ref s) rtp len gs []
            = Ret (0, Ref s, []).
Proof.
  intros Hi. unfold SendPath.ngx_rtc_session_send_rtp.
  destruct (is_null (Session.conn s)) eqn:Hc; [done |]. destruct Hi as [Hi | Hi]; [by rewrite Hi in Hc |].
  by rewrite Hi, bind_Ret.
Qed.

(** A session that keeps its identity keeps its place. *)
Lemma kept_session_ok (r : registry) x (s t : session) :
  Registry.reg_ok crc r -> Registry.sessions r !! x = Some s ->
  SendPath.identity t = SendPath.identity s -> Registry.reg_ok crc (Registry.put_session x t r).
Proof.
  intros [H1 H2 H3 H4 H5 H6 H7 H8 H9] Hs [= Hsrc Huf Hsn Hpub].
  assert (Hat : forall y u, <[x := t]> (Registry.sessions r) !! y = Some u ->
    exists v, Registry.sessions r !! y = Some v /\ SendPath.identity u = SendPath.identity v).
  { intros y u [[<- <-] | [_ Hu]]%lookup_insert_Some; [exists s | by exists u].
    split; [done |]. unfold SendPath.identity. congruence. }
  assert (Hback : forall y v, Registry.sessions r !! y = Some v ->
    exists u, <[x := t]> (Registry.sessions r) !! y = Some u /\ SendPath.identity u = SendPath.identity v).
  { intros y v Hv. destruct (decide (y = x)) as [-> | Hne].
    - exists t. rewrite lookup_insert_eq. split; [done |]. unfold SendPath.identity. congruence.
    - exists v. by rewrite lookup_insert_ne. }
  split; cbn; try done.
  - intros k y. rewrite H5. split.
    + intros (v & Hv & ->). destruct (Hback y v Hv) as (u & Hu & [= _ Eu _ _]). exists u. by rewrite Eu.
    + intros (u & Hu & ->). destruct (Hat y u Hu) as (v & Hv & [= _ Eu _ _]). exists v. by rewrite Eu.
  - intros y u Hu. destruct (Hat y u Hu) as (v & Hv & [= _ _ -> _]). by apply (H6 y v).
  - intros y u a Hu Ha. destruct (Hat y u Hu) as (v & Hv & [= Ev _ _ _]). apply (H7 y v); congruence.
  - intros y u Hu. destruct (Hat y u Hu) as (v & Hv & [= Ev _ _ _]). rewrite Ev. by apply H8.
  - intros n i Hn. destruct (H9 n i Hn) as (v & Hv & Hi). destruct (Hback _ v Hv) as (u & Hu & [= Eu _ _ _]).
    exists u. split; [done |]. by rewrite Eu.
Qed.

Context (Hprotect : forall ctx p,
  zlen (protect ctx p).1.2 <= zlen p + Session.NGX_RTC_SRTP_TAG_LEN + 24).

(** What a delivery finds and does to a well-formed worker. *)
Lemma find_ok w i :
  registry_ok w ->
  Registry.ngx_rtc_session_find_by_id (reg w) i = Ret NULL \/
  exists x s src, Registry.ngx_rtc_session_find_by_id (reg w) i = Ret (Ref x) /\
    Registry.sessions (reg w) !! x = Some s /\ source_of (reg w) s = Ret src /\
    (idle s \/ SendPath.sendable s /\ exists sc, src = Ref sc).
Proof.
  intros [Hr Hs]. unfold Registry.ngx_rtc_session_find_by_id.
  destruct (Registry.session_scan_all crc (reg w) (fun s => Session.id s =? i) Hr)
    as [[E _] | (x & s & E & Hx & _)]; [by left |].
  right. unfold source_of. destruct (Session.source s) as [| a] eqn:Ea.
  - exists x, s, NULL. rewrite Ea. split_and!; try done. destruct (Hs x s Hx) as [Hi | [_ Hn]]; [by left | done].
  - destruct (Registry.ok_source _ _ Hr x s a Hx Ea) as [sc Hsc]. exists x, s, (Ref sc).
    rewrite Ea. unfold Registry.source_at. rewrite Hsc. split_and!; try done.
    destruct (Hs x s Hx) as [Hi | [Hi _]]; [by left | right; split; [done | by exists sc]].
Qed.

Lemma registry_ok_put w x (s t : session) l :
  registry_ok w -> Registry.sessions (reg w) !! x = Some s -> SendPath.identity t = SendPath.identity s ->
  idle t \/ (SendPath.sendable t /\ Session.source t <> NULL) ->
  registry_ok {| reg := Registry.put_session x t (reg w); wire := l |}.
Proof.
  intros [Hr Hs] Hx Hid Ht. split; [by eapply kept_session_ok |]. cbn.
  intros y u [[<- <-] | [_ Hu]]%lookup_insert_Some; [done | by apply (Hs y)].
Qed.

Lemma worker_deliver_ok e w i rtp gs :
  registry_ok w -> 12 <= zlen rtp ->
  exists w', send_to e w i rtp (zlen rtp) gs = Ret w' /\ registry_ok w'.
Proof.
  intros Hw Hl. unfold send_to.
  destruct (find_ok w i Hw) as [-> | (x & s & src & -> & Hx & Hsrc & Hs)]; [by exists w |].
  rewrite bind_Ret. unfold Registry.session_at. rewrite Hx, bind_Ret, Hsrc, bind_Ret.
  assert (Hsame : forall l, registry_ok {| reg := Registry.put_session x s (reg w); wire := l |}).
  { intros l. apply (registry_ok_put w x s s l Hw Hx eq_refl). by apply Hw with x. }
  destruct Hs as [Hi | [Hs [sc ->]]].
  { rewrite idle_send, bind_Ret by done. by eexists. }
  destruct (Z.le_gt_cases (zlen rtp) Session.NGX_RTC_MAX_RTP_PKT) as [Hmax | Hmax].
  2: { rewrite SendPath.long_send, bind_Ret by done. by eexists. }
  destruct (SendPath.send_rtp_step protect tunables Hprotect (now e) (socket e x) sc s rtp gs [] Hs
              (conj Hl Hmax)) as (c & Hc & ->).
  destruct (SendPath.send_step _ _ _ _ _ _ _ _) as [[r t] l] eqn:Est. rewrite bind_Ret.
  destruct (SendPath.send_step_frame _ _ _ _ _ _ _ _ _ _ _ Est) as [Hcfg _].
  pose proof (SendPath.send_step_identity _ _ _ _ _ _ _ _ _ _ _ Est) as Hid.
  eexists. split; [reflexivity |]. apply (registry_ok_put w x s); [done | done | done |]. right.
  split; [by eapply SendPath.sendable_frame |]. cbn. injection Hid as Hsrc' _ _ _. rewrite Hsrc'.
  unfold source_of in Hsrc. by destruct (Session.source s).
Qed.

Lemma worker_deliver_prefix e w i b n gs :
  registry_ok w -> 12 <= n <= zlen b -> send_to e w i b n gs = send_to e w i (ztake n b) n gs.
Proof.
  intros Hw Hn. unfold send_to.
  destruct (find_ok w i Hw) as [-> | (x & s & src & -> & Hx & Hsrc & Hs)]; [done |].
  rewrite !bind_Ret. unfold Registry.session_at. rewrite Hx, !bind_Ret, Hsrc, !bind_Ret.
  destruct Hs as [Hi | [Hs [sc ->]]]; [by rewrite !idle_send by done |].
  by rewrite SendPath.send_rtp_prefix by done.
Qed.

#[global] Instance worker_laws : DeliverLaws surroundings worker_state :=
  {| worker_ok := registry_ok; deliver_ok := worker_deliver_ok; deliver_prefix := worker_deliver_prefix |}.

End worker.

(** ** A demonstration

    Worker 0 publishes; worker 1 has the viewer, session 1 of the zone. *)

#[local] Existing Instance ShmProps.demo_crc.

Abbreviation demo_worker := (worker_state (Srtp := unit) (Q := Nginx.queues Registry.queue_id Registry.node)
                               (T := list (key * Z))).

Definition demo_viewer : Session.ngx_rtc_session_t unit :=
  SendPath.viewer |> Session.set_source (Ref 1) |> Session.set_ice_ufrag [118] |> Session.set_sn_str_len 1
                  |> Session.set_id 1.

Definition publisher_worker : demo_worker := {| reg := Registry.demo_registry; wire := [] |}.
Definition viewer_worker : demo_worker :=
  {| reg := Registry.put_session 12 demo_viewer Registry.demo_registry; wire := [] |}.

#[local] Instance demo_deliver : Deliver surroundings demo_worker :=
  worker_deliver SendPath.tag Session.ngx_rtc_default_tunables.
#[local] Instance demo_laws : DeliverLaws surroundings demo_worker :=
  worker_laws SendPath.tag Session.ngx_rtc_default_tunables zlen SendPath.tag_fits.

Lemma demo_registry_ok : Registry.reg_ok zlen Registry.demo_registry.
Proof.
  destruct (Registry.registry_run_spec tt zlen Registry.demo_ops _
              (Registry.start_ok zlen _ Registry.demo_queues_ok Registry.demo_queues_off) Registry.demo_ops_ok)
    as (r & E & Hr).
  unfold Registry.demo_registry, Registry.demo_start. by rewrite E.
Qed.

Lemma publisher_worker_ok : registry_ok zlen publisher_worker.
Proof.
  split; [exact demo_registry_ok |]. intros x s Hx. left. left. revert Hx.
  change (Registry.sessions (reg publisher_worker)) with (Registry.sessions Registry.demo_registry).
  set (m := Registry.sessions Registry.demo_registry). vm_compute in m. subst m.
  intros Hx. apply elem_of_map_to_list in Hx. vm_compute in Hx.
  repeat (apply elem_of_cons in Hx as [Hx | Hx]; [injection Hx as _ ->; reflexivity |]).
  by apply elem_of_nil in Hx.
Qed.

Lemma viewer_worker_ok : registry_ok zlen viewer_worker.
Proof.
  eapply registry_ok_put with (w := publisher_worker) (s := Registry.demo_session 12).
  - exact publisher_worker_ok.
  - vm_compute. reflexivity.
  - vm_compute. reflexivity.
  - right. split; [| discriminate]. split; [discriminate |]. split; vm_compute; reflexivity.
Qed.

Definition demo_ring : ngx_rtc_shm_ring_t :=
  match ngx_rtc_shm_ring_init 64 (Ref (fun _ => true)) 2 with
  | Ref r => r
  | NULL => {| head := 0; tail := 0; size := 0; mask := 0; entries := [] |}
  end.

Lemma demo_ring_rep : exists k, mr_rep k demo_ring (0, []).
Proof.
  destruct (media_init_rep 64 (fun _ => true) 2) as (r & E & Hr); [lia | lia | done |].
  unfold demo_ring. rewrite E. by eexists.
Qed.

Definition demo_slot (w : demo_worker) : slot demo_worker :=
  {| worker := w; ring := Ref demo_ring; notify_fd := 7; wakeups := 0; draining := false |}.
Definition demo_cluster : list (slot demo_worker) := [demo_slot publisher_worker; demo_slot viewer_worker].

Lemma demo_cluster_fresh : Forall fresh_slot demo_cluster.
Proof.
  constructor; [| constructor; [| constructor]].
  - split_and!; [exact publisher_worker_ok | done | done | exact demo_ring_rep].
  - split_and!; [exact viewer_worker_ok | done | done | exact demo_ring_rep].
Qed.

Abbreviation demo_shm := (Shm.ngx_rtc_shm_ctx_t (Q := Nginx.queues Shm.queue_id Shm.node) (T := list (key * Z))).

Abbreviation demo_event := (event (E := surroundings) (Q := Nginx.queues Shm.queue_id Shm.node)
                              (T := list (key * Z))).

Definition demo_feed : ngx_rtc_source_t :=
  {| name := ShmProps.live; shm_src := Ref 1; snap_version := 0; snap := []; ring_drops := 0 |}.

(** The zone after [evs], quiet while the broadcast reads it. *)
Definition quiet_zone (evs : list (Z * ShmStep.op)) : demo_shm * demo_shm * demo_shm :=
  let c := ShmStep.final evs ShmProps.demo_zone in (c, c, c).

Definition demo_env : surroundings := {| now := 5; socket := fun _ => zlen |}.
Definition demo_rtp (sq : Z) : octets := [128; 96; 0; sq; 0; 0; 0; 1; 0; 0; 0; 9; 65; 1; 2].

(** Three packets, the ring holding two: worker 1 wakes up after the first and takes what it
    finds while the others arrive. *)
Definition demo_packet (sq : Z) : demo_event :=
  Packet demo_env 0 (quiet_zone ShmProps.viewed) demo_feed (demo_rtp sq) 1 0.
Definition demo_events : list demo_event :=
  [demo_packet 1; Wake 1; demo_packet 2; demo_packet 3; Drain demo_env 1; demo_packet 4;
   Drain demo_env 1; Drain demo_env 1; Drain demo_env 1].

Definition event_okb (g : list (slot demo_worker)) (ev : demo_event) : bool :=
  match ev with
  | Packet e self z src rtp is_video gs =>
      (0 <=? self) && (self <? zlen g) && (12 <=? zlen rtp) &&
      match refresh z src with Ret _ => true | Fault => false end
  | Wake w => match g !! Z.to_nat w with
              | Some s => (0 <=? w) && negb (draining s) && (0 <? wakeups s)
              | None => false
              end
  | Drain e w => match g !! Z.to_nat w with Some s => (0 <=? w) && draining s | None => false end
  end.

Lemma relay_okb_ok g ev : event_okb g ev = true -> event_ok g ev.
Proof.
  destruct ev as [e self z src rtp is_video gs | w | e w]; cbn [event_okb event_ok].
  - rewrite !andb_true_iff, !Z.leb_le, Z.ltb_lt. intros [[[H1 H2] H3] H4]. split_and!; try done.
    destruct (refresh z src) as [src' |]; [by exists src' | done].
  - destruct (g !! Z.to_nat w) as [s |]; [| done].
    rewrite !andb_true_iff, negb_true_iff, Z.leb_le, Z.ltb_lt. intros [[H1 H2] H3]. by exists s.
  - destruct (g !! Z.to_nat w) as [s |]; [| done].
    rewrite !andb_true_iff, Z.leb_le. intros [H1 H2]. by exists s.
Qed.

Fixpoint run_okb (evs : list demo_event) (g : list (slot demo_worker)) : bool :=
  match evs with
  | [] => true
  | ev :: evs => event_okb g ev && match estep ev g with Ret g => run_okb evs g | Fault => false end
  end.

Lemma run_okb_ok evs : forall g, run_okb evs g = true -> run_ok evs g.
Proof.
  induction evs as [| ev evs IH]; intros g; [done |]. cbn [run_okb run_ok].
  intros [H1 H2]%andb_true_iff. split; [by apply relay_okb_ok |].
  destruct (estep ev g); [by apply IH | done].
Qed.

Lemma demo_events_ok : run_ok demo_events demo_cluster.
Proof. apply run_okb_ok. vm_compute. reflexivity. Qed.

(** What worker 1's sockets were handed in a run. *)
Definition handed (evs : list demo_event) : option (list (Z * SendPath.wire)) :=
  match erun evs demo_cluster with
  | Ret g => (fun s => wire (worker s)) <$> g !! 1%nat
  | Fault => None
  end.

Lemma relay_in_order_witness :
  handed demo_events = Some (map (fun sq => (12, [(demo_rtp sq ++ zeros 10, 25)])) [1; 2; 4]) /\
  exists g, erun demo_events demo_cluster = Ret g.
Proof.
  split; [vm_compute; reflexivity |].
  destruct (relay_in_order demo_cluster demo_events demo_cluster_fresh demo_events_ok) as (g & E & _).
  exists g. exact E.
Defined.


Lemma no_lost_wakeup_witness :
  exists g s, erun [demo_packet 1] demo_cluster = Ret g /\ g !! 1%nat = Some s /\ notify_fd s = 7 /\
    0 < wakeups s /\ exists s', ngx_rtc_stream_notify_handler demo_env s = Ret s' /\
      wire (worker s') = [(12, [(demo_rtp 1 ++ zeros 10, 25)])].
Proof.
  assert (Hrun : run_ok [demo_packet 1] demo_cluster) by (apply run_okb_ok; vm_compute; reflexivity).
  destruct (erun [demo_packet 1] demo_cluster) as [g |] eqn:E.
  2: { vm_compute in E. discriminate E. }
  destruct (g !! 1%nat) as [s |] eqn:Es.
  2: { vm_compute in E. injection E as <-. discriminate Es. }
  destruct (no_lost_wakeup demo_cluster [demo_packet 1] g 1 s demo_cluster_fresh Hrun E Es)
    as (b & _ & _ & H).
  destruct (H demo_env) as (s' & Hs' & _). clear H. exists g, s.
  split; [reflexivity |]. split; [exact Es |].
  vm_compute in E. injection E as <-. injection Es as <-. split; [reflexivity |]. split; [reflexivity |].
  exists s'. split; [exact Hs' |]. vm_compute in Hs'. injection Hs' as <-. reflexivity.
Defined.

(** A viewer can be missed: the snapshot and the version are read at different times, so
    a viewer that becomes ready between the two reads is not in the snapshot although the
    version kept with it says it is.  The next broadcast finds its version current and
    sends the viewer nothing, until the set of viewers changes again. *)
Theorem late_viewer_missed :
  let bob := {| Shm.o_ufrag := [98; 111]; Shm.o_pwd := [112; 119]; Shm.o_name := ShmProps.live;
                Shm.o_video_pt := 102; Shm.o_audio_pt := 111; Shm.o_twcc_video_ext := 3;
                Shm.o_twcc_audio_ext := 4; Shm.o_publishing := 0 |} in
  let joining := ShmProps.published ++
    [(1100, ShmStep.SessionAdd (Ref 2) NULL ShmProps.watch); (1200, ShmStep.SessionAdd (Ref 3) NULL bob);
     (1300, ShmStep.Activate [98; 111] 1)] in
  let before := ShmStep.final joining ShmProps.demo_zone in
  let after := ShmStep.final (joining ++ [(1400, ShmStep.Activate ShmProps.alice 1)]) ShmProps.demo_zone in
  (ShmStep.log (joining ++ [(1400, ShmStep.Activate ShmProps.alice 1)]) ShmProps.demo_zone).*2 = [0; 0; 0; 0; 0; 0] /\
  exists feed, refresh (before, before, after) demo_feed = Ret feed /\
    snap feed = [(2, 1)] /\ refresh (after, after, after) feed = Ret feed /\
    Shm.ngx_rtc_shm_source_snapshot after ShmProps.live NGX_RTC_SOURCE_MAX_SNAPSHOT = Ret [(1, 1); (2, 1)].
Proof.
  split; [vm_compute; reflexivity |]. eexists. split; [vm_compute; reflexivity |].
  split_and!; vm_compute; reflexivity.
Qed.

End Broadcast.
