(* ===== verification/Request.v ===== *)
(** The play and publish requests of src/ngx_rtc_http_module.c as whole handlers, with the
    control requests kick and disconnect: what a worker's registries and the shared zone become,
    and the reply, on every branch.

    A worker's state is its registry and the zone it maps, NULL without an rtc_zone.  What nginx
    and the allocator hand to one request is a record of its own ([grants]); the stack arrays are
    part of it, with whatever they held.  A request asks a full slab again after its sweep; the
    theorems are about a slab that then refuses ([zone_grants]). *)

From S2P Require Import Prelude Nginx Text Sdp SdpAnswer HttpBody Signal Hsm SessionFsm Jitter Session Registry Shm ShmInv ShmStep ShmProps Publish.
From stdpp Require Import list gmap.
Import Text Hsm SessionFsm Session.

#[local] Open Scope Z_scope.

Module Request.

Definition NGX_HTTP_OK : Z := 200.
Definition NGX_HTTP_CREATED : Z := 201.
Definition NGX_HTTP_BAD_REQUEST : Z := 400.
Definition NGX_HTTP_NOT_FOUND : Z := 404.
Definition NGX_HTTP_NOT_ALLOWED : Z := 405.
Definition NGX_HTTP_CONFLICT : Z := 409.
Definition NGX_HTTP_REQUEST_ENTITY_TOO_LARGE : Z := 413.
Definition NGX_HTTP_INTERNAL_SERVER_ERROR : Z := 500.
Definition NGX_HTTP_SERVICE_UNAVAILABLE : Z := 503.
Definition NGX_RTC_SESSION_FSM_MAX_DEPTH : Z := 2.

(** nginx's JSON escaper, and the octets it says escaping adds. *)
Class NgxJson := { ngx_escape_json : octets -> octets; escape_extra : octets -> Z }.
Class NgxJsonLaws `{NgxJson} := {
  escape_len_law s : zlen (ngx_escape_json s) = zlen s + escape_extra s;
  escape_extra_law s : 0 <= escape_extra s
}.

(** nginx's URI decoder, and its reading of a decimal number, NGX_ERROR for anything else. *)
Class NgxUri := { ngx_unescape_uri : octets -> octets; ngx_atoi : octets -> Z }.

(** The body as nginx read it: its buffers, or a temporary file. *)
Record ngx_http_request_body_t := { bufs : HttpBody.chain; temp_file : bool }.

Record ngx_rtc_http_loc_conf_t := {
  candidate_ip : ptr octets;
  candidate_port : Z;
  max_sdp_len : Z;
  client_body_buffer_size : Z
}.

(** A reply without a body, or a response with its status, type and text. *)
Inductive reply :=
| Finalize (rc : Z)
| Response (status : Z) (content_type text : octets).

(** What one request is given: the time, the allocations in the order they are asked for, the
    draws of ngx_random, the certificate's fingerprint, and the arrays on its stack. *)
Record grants := {
  g_now : Z;
  g_offer_buf : bool;
  g_source : ptr Z;
  g_zone_source : Publish.supply;
  g_session : ptr Z;
  g_random : Z * Z * Z * Z;
  g_zone_session : ptr Z * ptr Z;
  g_response_buf : bool;
  g_temp_buf : bool;
  g_fingerprint : ptr octets;
  s_streamurl : octets;
  s_name : octets;
  s_offer : Sdp.ngx_rtc_sdp_offer_t;
  s_ans_buf : octets;
  s_ans_len : Z
}.

(** *** Up to the parsed offer *)

Definition request_chain (b : ptr ngx_http_request_body_t) : result HttpBody.chain :=
  match b with
  | NULL => Err NGX_HTTP_BAD_REQUEST
  | Ref b =>
      match bufs b with
      | [] => Err (if temp_file b then NGX_HTTP_REQUEST_ENTITY_TOO_LARGE else NGX_HTTP_BAD_REQUEST)
      | c => Ok c
      end
  end.

Definition request_length (rcf : ngx_rtc_http_loc_conf_t) (c : HttpBody.chain) : result Z :=
  match HttpBody.body_length c 0 with
  | NULL => Err NGX_HTTP_REQUEST_ENTITY_TOO_LARGE
  | Ref n =>
      if HttpBody.ngx_rtc_http_max_sdp (max_sdp_len rcf) (client_body_buffer_size rcf) <? n
      then Err NGX_HTTP_REQUEST_ENTITY_TOO_LARGE else Ok n
  end.

(** The length is passed in 32 bits. *)
Definition request_offer (sdp : octets) (g : grants) : outcome (result Sdp.ngx_rtc_sdp_offer_t) :=
  '(rc, o) ← Sdp.ngx_rtc_sdp_parse_offer (Ref (ztake (u32 (zlen sdp)) sdp)) (Ref (s_offer g));
  match o with
  | NULL => Fault
  | Ref o => if negb (rc =? NGX_RTC_OK) then fail NGX_HTTP_BAD_REQUEST else ok o
  end.

(** The C string in an array. *)
Definition c_str (s : octets) : outcome octets := n ← Signal.strlen s 0; load_range s 0 n.

(** sizeof(streamurl). *)
Definition STREAMURL : Z := 256.

Section input.
Context `{HX : Signal.NgxText}.

Definition play_input (rcf : ngx_rtc_http_loc_conf_t) (b : ptr ngx_http_request_body_t) (g : grants)
    : outcome (result (octets * Sdp.ngx_rtc_sdp_offer_t)) :=
  c ←? Ret (request_chain b);
  n ←? Ret (request_length rcf c);
  if negb (g_offer_buf g) then fail NGX_HTTP_INTERNAL_SERVER_ERROR
  else
    let rd := HttpBody.ngx_rtc_chain_reader_init c in
    '(sdp, _) ← HttpBody.ngx_rtc_http_json_string rd (lit "sdp") (n + 1);
    match sdp with
    | NULL => fail NGX_HTTP_BAD_REQUEST
    | Ref sdp =>
        '(url, _) ← HttpBody.ngx_rtc_http_json_string rd (lit "streamurl") STREAMURL;
        match url with
        | NULL => fail NGX_HTTP_BAD_REQUEST
        | Ref url =>
            name ←? Signal.play_name (url ++ 0 :: zdrop (zlen url + 1) (s_streamurl g)) (zlen url) (s_name g);
            o ←? request_offer sdp g;
            ok (name, o)
        end
    end.

(** The octets of the buffers, copied one after the other into fresh memory. *)
Fixpoint gather (c : HttpBody.chain) (p : octets) (off : Z) : outcome octets :=
  match c with
  | [] => Ret p
  | NULL :: c => gather c p off
  | Ref b :: c => p ← store_range p off (HttpBody.data b); gather c p (off + zlen (HttpBody.data b))
  end.

Definition whip_input (rcf : ngx_rtc_http_loc_conf_t) (b : ptr ngx_http_request_body_t) (app stream : ptr octets)
    (g : grants) : outcome (result (octets * Sdp.ngx_rtc_sdp_offer_t)) :=
  c ←? Ret (request_chain b);
  match app, stream with
  | Ref app, Ref stream =>
      if Signal.whip_args_refused app stream then fail NGX_HTTP_BAD_REQUEST
      else
        n ←? Ret (request_length rcf c);
        if negb (g_offer_buf g) then fail NGX_HTTP_INTERNAL_SERVER_ERROR
        else
          p ← gather c (zeros (n + 1)) 0;
          p ← store p n 0;
          name ← Signal.whip_name app stream (s_name g);
          sdp ← load_range p 0 n;
          o ←? request_offer sdp g;
          ok (name, o)
  | _, _ => fail NGX_HTTP_BAD_REQUEST
  end.
End input.

(** *** The handlers *)

(** The publish right's view of a source, and what a claim or a release writes through it. *)
Definition right_of (s : ngx_rtc_source_t) : Publish.ngx_rtc_source_t :=
  {| Publish.l_name := name s; Publish.l_publisher_kind := publisher_kind s; Publish.l_publishing := publishing s;
     Publish.l_shm_src := shm_src s; Publish.l_shm_sync_ms := shm_sync_ms s;
     Publish.l_video_ssrc := video_ssrc s; Publish.l_audio_ssrc := audio_ssrc s;
     Publish.l_video_pt := source_video_pt s; Publish.l_audio_pt := source_audio_pt s;
     Publish.l_video_pkts := video_pkts s; Publish.l_video_octets := video_octets s;
     Publish.l_audio_pkts := audio_pkts s; Publish.l_audio_octets := audio_octets s |}.
Definition with_right (l : Publish.ngx_rtc_source_t) (s : ngx_rtc_source_t) : ngx_rtc_source_t :=
  s |> set_publisher_kind (Publish.l_publisher_kind l) |> set_publishing (Publish.l_publishing l)
    |> set_shm_src (Publish.l_shm_src l) |> set_shm_sync_ms (Publish.l_shm_sync_ms l).

(** The offer's payload type, or what there was. *)
Definition or_else (a b : Z) : Z := if negb (0 =? a) then a else b.

Definition offered_video_pt (o : Sdp.ngx_rtc_sdp_offer_t) : Z := Sdp.c_pt (Sdp.o_video o).
Definition offered_audio_pt (o : Sdp.ngx_rtc_sdp_offer_t) : Z := Sdp.c_pt (Sdp.o_audio o).

(** A source takes its SSRCs from the zone and its payload types from the offer. *)
Definition synced (t : Shm.ngx_rtc_shm_source_t) (o : Sdp.ngx_rtc_sdp_offer_t) (s : ngx_rtc_source_t) : ngx_rtc_source_t :=
  s |> set_video_ssrc (Shm.video_ssrc t) |> set_audio_ssrc (Shm.audio_ssrc t)
    |> set_source_video_pt (or_else (offered_video_pt o) (Shm.video_pt t))
    |> set_source_audio_pt (or_else (offered_audio_pt o) (Shm.audio_pt t)).

Definition hex_digit (n : Z) : Z := if n <? 10 then 48 + n else 87 + n.

(** A %08uxD conversion of a 32-bit value. *)
Definition hex8 (n : Z) : octets := map (fun i => hex_digit (Z.land (Z.shiftr n i) 15)) [28; 24; 20; 16; 12; 8; 4; 0].

Definition ufrag_of (g : grants) : octets := let '(a, _, _, _) := g_random g in hex8 (u32 a) ++ lit "u".
Definition pwd_of (g : grants) : octets :=
  let '(_, b, c, d) := g_random g in hex8 (u32 b) ++ hex8 (u32 c) ++ hex8 (u32 d).

(** The JSON text around the answer. *)
Definition response_head : octets := [123; 34] ++ lit "code" ++ [34] ++ lit ":0," ++ [34] ++ lit "sdp" ++ [34; 58; 34].
Definition response_tail : octets := [34; 125].

Section handlers.
Context {Srtp : Type} (srtp0 : Srtp).
Context (report : unit -> ngx_rtc_hsm session_object unit unit ->
  ptr (ngx_rtc_hsm_event ngx_rtc_session_fsm_ctx_t) -> ngx_rtc_hsm session_object unit unit).
Context `{HC : Shm.Crc}.
Context {Q T : Type} `{HQ : Queues Registry.queue_id Registry.node Q, !QueueLaws Registry.queue_id Registry.node Q}.
Context `{HT : StrTree T, !StrTreeLaws T}.
Context {Q' T' : Type} `{HQ' : Queues Shm.queue_id Shm.node Q', !QueueLaws Shm.queue_id Shm.node Q'}.
Context `{HT' : StrTree T', !StrTreeLaws T'}.
Context `{HX : Signal.NgxText} `{HJ : NgxJson} `{HU : NgxUri}.
Abbreviation registry := (Registry.registry (Srtp := Srtp) (Q := Q) (T := T)).
Abbreviation shm := (Shm.ngx_rtc_shm_ctx_t (Q := Q') (T := T')).
Abbreviation session := (ngx_rtc_session_t Srtp).

Record env := { reg : registry; zone : ptr shm }.

Definition env_eta (e : env) : env := {| reg := reg e; zone := zone e |}.
Definition set_reg := ltac:(setter env_eta reg).
Definition set_zone := ltac:(setter env_eta zone).

Definition source_create (alloc : ptr Z) (n : octets) (e : env) : ptr Z * bool * env :=
  let '(p, created, r) := Registry.ngx_rtc_source_create Shm.ngx_crc32_long alloc (reg e) (Ref n) (Ref 0) in
  (p, match created with Ref 0 | NULL => false | Ref _ => true end, set_reg r e).

(** The rollback of a source this request made. *)
Definition roll_back (created : bool) (n : octets) (e : env) : outcome env :=
  if created then r ← Registry.ngx_rtc_source_remove Shm.ngx_crc32_long (reg e) (Ref n); Ret (set_reg r e) else Ret e.

(** What the play request reads from the zone, and tells it. *)
Definition play_sync (g : grants) (n : octets) (o : Sdp.ngx_rtc_sdp_offer_t) (a : Z) (e : env) : outcome env :=
  match zone e with
  | NULL => Ret e
  | Ref c =>
      let z := g_zone_source g in
      '(p, c) ← Shm.ngx_rtc_shm_source_get (Publish.s_alloc z) (Publish.s_retry z) (g_now g) (Publish.s_v z)
                  (Publish.s_a z) c n;
      match p with
      | NULL => Ret (set_zone (Ref c) e)
      | Ref b =>
          t ← Shm.source_at c b;
          s ← Registry.source_at (reg e) a;
          c ← Shm.ngx_rtc_shm_source_set_pt c n (offered_video_pt o) (offered_audio_pt o);
          Ret {| reg := Registry.put_source a (synced t o s) (reg e); zone := Ref c |}
      end
  end.

(** The session both requests fill. *)
Definition filled (g : grants) (o : Sdp.ngx_rtc_sdp_offer_t) (a pub : Z) (src : ngx_rtc_source_t) : outcome session :=
  m ← ngx_rtc_session_fsm_init report (Ref blank) (Ref (replicate (Z.to_nat NGX_RTC_SESSION_FSM_MAX_DEPTH) NULL))
        NGX_RTC_SESSION_FSM_MAX_DEPTH (Ref tt);
  match ngx_rtc_session_fsm_set_reporter m (Ref tt) with
  | NULL => Fault
  | Ref m =>
      Ret (zero_session srtp0 |> set_fsm m |> set_last_active (g_now g) |> set_source (Ref a)
             |> set_sess_publishing pub
             |> set_video_pt (or_else (offered_video_pt o) (source_video_pt src))
             |> set_audio_pt (or_else (offered_audio_pt o) (source_audio_pt src))
             |> set_twcc_video_ext (Sdp.c_twcc_ext (Sdp.o_video o))
             |> set_twcc_audio_ext (Sdp.c_twcc_ext (Sdp.o_audio o))
             |> set_ice_ufrag (ufrag_of g) |> set_ice_pwd (pwd_of g))
  end.

(** The skeleton of a session, as asked of the zone. *)
Definition skeleton (s : session) (n : octets) : Shm.offer :=
  {| Shm.o_ufrag := ice_ufrag s; Shm.o_pwd := ice_pwd s; Shm.o_name := n; Shm.o_video_pt := video_pt s;
     Shm.o_audio_pt := audio_pt s; Shm.o_twcc_video_ext := twcc_video_ext s;
     Shm.o_twcc_audio_ext := twcc_audio_ext s; Shm.o_publishing := sess_publishing s |}.

Definition add_skeleton (g : grants) (x : Z) (n : octets) (e : env) : outcome env :=
  match zone e with
  | NULL => Ret e
  | Ref c =>
      s ← Registry.session_at (reg e) x;
      '(p, c) ← Shm.ngx_rtc_shm_session_add (g_zone_session g).1 (g_zone_session g).2 (g_now g) c (skeleton s n);
      match p with
      | NULL => Ret (set_zone (Ref c) e)
      | Ref y => t ← Shm.session_at c y;
                 Ret {| reg := Registry.put_session x (set_id (Shm.id t) s) (reg e); zone := Ref c |}
      end
  end.

Definition info_of (rcf : ngx_rtc_http_loc_conf_t) (g : grants) (s : session) (src : ngx_rtc_source_t) : Signal.signal_info :=
  {| Signal.i_ufrag := ice_ufrag s; Signal.i_pwd := ice_pwd s; Signal.i_fingerprint := g_fingerprint g;
     Signal.i_candidate_ip := candidate_ip rcf; Signal.i_candidate_port := candidate_port rcf;
     Signal.i_video_ssrc := video_ssrc src; Signal.i_audio_ssrc := audio_ssrc src;
     Signal.i_video_pt := video_pt s; Signal.i_audio_pt := audio_pt s;
     Signal.i_video_ext := twcc_video_ext s; Signal.i_audio_ext := twcc_audio_ext s;
     Signal.i_profile_valid := sps_profile_level_id_valid src; Signal.i_profile := sps_profile_level_id src |}.

(** The answer in ans_buf, as far as ans_len. *)
Definition answer (cfg : SdpAnswer.ngx_rtc_sdp_answer_t) (g : grants) : outcome (result octets) :=
  '(rc, b, n) ← SdpAnswer.ngx_rtc_sdp_generate_answer (Ref cfg) (Ref (s_ans_buf g)) (zlen (s_ans_buf g)) (Ref (s_ans_len g));
  match b, n with
  | Ref b, Ref n => if negb (rc =? NGX_RTC_OK) then fail NGX_HTTP_INTERNAL_SERVER_ERROR else a ← load_range b 0 n; ok a
  | _, _ => Fault
  end.

(** The escaped answer between its braces, in a buffer sized beforehand. *)
Definition json_response (ans : octets) : outcome octets :=
  let resp_len := zlen ans + escape_extra ans + zlen (response_head ++ response_tail) in
  let b := zeros (resp_len + 1) in
  b ← store_range b 0 response_head;
  let p := zlen response_head in
  b ← store_range b p (ngx_escape_json ans);
  let p := p + zlen (ngx_escape_json ans) in
  b ← store_range b p response_tail;
  load_range b 0 (p + zlen response_tail).

(** From the session's registration to the reply; past this point nothing is undone. *)
Definition play_reply (rcf : ngx_rtc_http_loc_conf_t) (g : grants) (o : Sdp.ngx_rtc_sdp_offer_t) (a x : Z) (e : env)
    : outcome reply :=
  s ← Registry.session_at (reg e) x;
  src ← Registry.source_at (reg e) a;
  cfg ← Signal.play_cfg (info_of rcf g s src) o;
  r ← answer cfg g;
  match r with
  | Err rc => Ret (Finalize rc)
  | Ok ans =>
      if negb (g_response_buf g) then Ret (Finalize NGX_HTTP_INTERNAL_SERVER_ERROR)
      else
        t ← json_response ans;
        if negb (g_temp_buf g) then Ret (Finalize NGX_HTTP_INTERNAL_SERVER_ERROR)
        else Ret (Response NGX_HTTP_OK (lit "application/json") t)
  end.

Definition ngx_rtc_http_body_handler (rcf : ngx_rtc_http_loc_conf_t) (b : ptr ngx_http_request_body_t) (g : grants) (e : env)
    : outcome (reply * env) :=
  r ← play_input rcf b g;
  match r with
  | Err rc => Ret (Finalize rc, e)
  | Ok (name, o) =>
      n ← c_str name;
      let '(p, created, e) := source_create (g_source g) n e in
      match p with
      | NULL => Ret (Finalize NGX_HTTP_INTERNAL_SERVER_ERROR, e)
      | Ref a =>
          e ← play_sync g n o a e;
          match g_session g with
          | NULL => e ← roll_back created n e; Ret (Finalize NGX_HTTP_INTERNAL_SERVER_ERROR, e)
          | Ref x =>
              src ← Registry.source_at (reg e) a;
              s ← filled g o a 0 src;
              r ← Registry.session_open Shm.ngx_crc32_long x s (reg e);
              e ← add_skeleton g x n (set_reg r e);
              reply ← play_reply rcf g o a x e;
              Ret (reply, e)
          end
      end
  end.

(** A claim or a release of the right over the source [a]. *)
Definition claim (g : grants) (a : Z) (e : env) : outcome (Z * env) :=
  s ← Registry.source_at (reg e) a;
  '(rc, l, z) ← Publish.ngx_rtc_publish_claim (g_zone_source g) (g_now g) (Ref (right_of s))
                  Registry.NGX_RTC_PUBLISHER_WHIP (zone e);
  match l with
  | NULL => Fault
  | Ref l => Ret (rc, {| reg := Registry.put_source a (with_right l s) (reg e); zone := z |})
  end.

Definition release (now : Z) (a : Z) (e : env) : outcome env :=
  s ← Registry.source_at (reg e) a;
  '(l, z) ← Publish.ngx_rtc_publish_release now (Ref (right_of s)) (zone e);
  match l with
  | NULL => Fault
  | Ref l => Ret {| reg := Registry.put_source a (with_right l s) (reg e); zone := z |}
  end.

(** What the publish request reads from the zone through the pointer the claim cached, and
    tells it. *)
Definition whip_sync (n : octets) (o : Sdp.ngx_rtc_sdp_offer_t) (a : Z) (e : env) : outcome env :=
  s ← Registry.source_at (reg e) a;
  match zone e, shm_src s with
  | Ref c, Ref b =>
      t ← Shm.source_at c b;
      c ← Shm.ngx_rtc_shm_source_set_pt c n (offered_video_pt o) (offered_audio_pt o);
      Ret {| reg := Registry.put_source a (synced t o s) (reg e); zone := Ref c |}
  | _, _ => Ret e
  end.

(** A fresh publish starts a new sequence space. *)
Definition reset_jitter (tun : ngx_rtc_tunables_t) (s : ngx_rtc_source_t) : ngx_rtc_source_t :=
  match Jitter.ngx_rtc_jitter_reset (Ref (jitter s)) with
  | NULL => s
  | Ref j => set_jitter (Jitter.set_gap_timeout_ms (jitter_timeout_ms tun) j) s
  end.

(** The publisher's skeleton, added under a source made on the spot if there is none. *)
Definition whip_skeleton (g : grants) (x : Z) (n : octets) (e : env) : outcome env :=
  match zone e with
  | NULL => Ret e
  | Ref c =>
      let z := g_zone_source g in
      '(p, c) ← Shm.ngx_rtc_shm_source_get (Publish.s_alloc z) (Publish.s_retry z) (g_now g) (Publish.s_v z)
                  (Publish.s_a z) c n;
      match p with NULL => Ret (set_zone (Ref c) e) | Ref _ => add_skeleton g x n (set_zone (Ref c) e) end
  end.

(** The answer could not be sent: the right, the session and a source made here go, in that
    order. *)
Definition abandon (g : grants) (created : bool) (n : octets) (a x : Z) (e : env) : outcome env :=
  e ← release (g_now g) a e;
  r ← Registry.ngx_rtc_session_remove (reg e) (Ref x);
  roll_back created n (set_reg (Registry.set_sessions (delete x (Registry.sessions r)) r) e).

(** From the session's registration to the reply. *)
Definition whip_reply (rcf : ngx_rtc_http_loc_conf_t) (g : grants) (o : Sdp.ngx_rtc_sdp_offer_t) (created : bool)
    (n : octets) (a x : Z) (e : env) : outcome (reply * env) :=
  s ← Registry.session_at (reg e) x;
  src ← Registry.source_at (reg e) a;
  r ← answer (Signal.whip_cfg (info_of rcf g s src) o) g;
  match r with
  | Err rc => e ← abandon g created n a x e; Ret (Finalize rc, e)
  | Ok ans =>
      if negb (g_temp_buf g)
      then e ← abandon g created n a x e; Ret (Finalize NGX_HTTP_INTERNAL_SERVER_ERROR, e)
      else Ret (Response NGX_HTTP_CREATED (lit "application/sdp") ans, e)
  end.

(** From the granted right to the reply. *)
Definition whip_open (rcf : ngx_rtc_http_loc_conf_t) (tun : ngx_rtc_tunables_t) (g : grants) (o : Sdp.ngx_rtc_sdp_offer_t)
    (created : bool) (n : octets) (a : Z) (e : env) : outcome (reply * env) :=
  e ← whip_sync n o a e;
  src ← Registry.source_at (reg e) a;
  let e := set_reg (Registry.put_source a (reset_jitter tun src) (reg e)) e in
  match g_session g with
  | NULL =>
      e ← release (g_now g) a e;
      e ← roll_back created n e;
      Ret (Finalize NGX_HTTP_INTERNAL_SERVER_ERROR, e)
  | Ref x =>
      s ← filled g o a 1 (reset_jitter tun src);
      r ← Registry.session_open Shm.ngx_crc32_long x s (reg e);
      e ← whip_skeleton g x n (set_reg r e);
      whip_reply rcf g o created n a x e
  end.

Definition ngx_rtc_http_whip_body_handler (rcf : ngx_rtc_http_loc_conf_t) (tun : ngx_rtc_tunables_t)
    (b : ptr ngx_http_request_body_t) (app stream : ptr octets) (g : grants) (e : env) : outcome (reply * env) :=
  r ← whip_input rcf b app stream g;
  match r with
  | Err rc => Ret (Finalize rc, e)
  | Ok (name, o) =>
      n ← c_str name;
      let '(p, created, e) := source_create (g_source g) n e in
      match p with
      | NULL => Ret (Finalize NGX_HTTP_INTERNAL_SERVER_ERROR, e)
      | Ref a =>
          src ← Registry.source_at (reg e) a;
          if publisher_kind src =? Registry.NGX_RTC_PUBLISHER_RTMP then
            e ← roll_back created n e; Ret (Finalize NGX_HTTP_CONFLICT, e)
          else
            '(rc, e) ← claim g a e;
            if rc =? Shm.NGX_BUSY then e ← roll_back created n e; Ret (Finalize NGX_HTTP_CONFLICT, e)
            else
              whip_open rcf tun g o created n a e
      end
  end.

(** *** Control requests *)

(** An argument as ngx_http_arg finds it, with its escapes resolved; the flag is the pool's. *)
Definition ngx_rtc_http_arg_decoded (arg : ptr octets) (granted : bool) : ptr octets :=
  match arg with
  | NULL => NULL
  | Ref v => if zlen v =? 0 then Ref v else if granted then Ref (ngx_unescape_uri v) else NULL
  end.

Definition ngx_rtc_http_kick_handler (post : bool) (arg : ptr octets) (granted : bool) (z : ptr shm) : outcome (Z * ptr shm) :=
  if negb post then Ret (NGX_HTTP_NOT_ALLOWED, z)
  else
    match ngx_rtc_http_arg_decoded arg granted with
    | NULL => Ret (NGX_HTTP_BAD_REQUEST, z)
    | Ref val =>
        let id := ngx_atoi val in
        if (Shm.NGX_ERROR =? id) || (id <=? 0) then Ret (NGX_HTTP_BAD_REQUEST, z)
        else
          match z with
          | NULL => Ret (NGX_HTTP_SERVICE_UNAVAILABLE, z)
          | Ref c =>
              '(rc, c) ← Shm.ngx_rtc_shm_session_request_close c id;
              Ret (if negb (rc =? Shm.NGX_OK) then NGX_HTTP_NOT_FOUND else Shm.NGX_OK, Ref c)
          end
    end.

Definition ngx_rtc_http_disconnect_handler (post : bool) (arg : ptr octets) (granted : bool) (z : ptr shm)
    : outcome (Z * ptr shm) :=
  if negb post then Ret (NGX_HTTP_NOT_ALLOWED, z)
  else
    match ngx_rtc_http_arg_decoded arg granted with
    | NULL => Ret (NGX_HTTP_BAD_REQUEST, z)
    | Ref n =>
        if 0 =? zlen n then Ret (NGX_HTTP_BAD_REQUEST, z)
        else
          match z with
          | NULL => Ret (NGX_HTTP_SERVICE_UNAVAILABLE, z)
          | Ref c =>
              '(rc, c) ← Shm.ngx_rtc_shm_source_request_close c n;
              Ret (if negb (rc =? Shm.NGX_OK) then NGX_HTTP_NOT_FOUND else Shm.NGX_OK, Ref c)
          end
    end.

(** ** Where the handlers run

    The registries are sound, and the sources carry three octets of profile. *)
Definition profile_ok (s : ngx_rtc_source_t) : Prop :=
  length (sps_profile_level_id s) = 3%nat /\ Forall is_u8 (sps_profile_level_id s).

Record env_ok (e : env) : Prop := {
  eo_reg : Registry.reg_ok Shm.ngx_crc32_long (reg e);
  eo_profile a s : Registry.sources (reg e) !! a = Some s -> profile_ok s;
  eo_zone : match zone e with NULL => True | Ref c => ShmInv.shm_inv c end
}.

(** The allocators hand out free memory, the slab refuses again what it refused, the arrays have
    the sizes they are declared with. *)
Definition zone_grants (g : grants) (z : ptr shm) : Prop :=
  (forall c, z = Ref c ->
     (forall a, Publish.s_alloc (g_zone_source g) = Ref a -> Shm.sources c !! a = None) /\
     (forall x, (g_zone_session g).1 = Ref x -> Shm.sessions c !! x = None) /\
     Shm.next_session_id c < 2 ^ 64 - 1) /\
  Publish.s_retry (g_zone_source g) = NULL /\ (g_zone_session g).2 = NULL.

Record grants_ok (g : grants) (e : env) : Prop := {
  go_source a : g_source g = Ref a -> Registry.sources (reg e) !! a = None;
  go_session x : g_session g = Ref x -> Registry.sessions (reg e) !! x = None;
  go_zone : zone_grants g (zone e);
  go_name : zlen (s_name g) = Signal.NGX_RTC_SOURCE_NAME_MAX;
  go_ans : zlen (s_ans_buf g) = Signal.ANS_BUF;
  go_fingerprint : zlen (SdpAnswer.str (g_fingerprint g)) <= 127
}.

Lemma source_is a s (r : registry) : Registry.sources r !! a = Some s -> Registry.source_at r a = Ret s.
Proof. unfold Registry.source_at. by intros ->. Qed.

Lemma put_source_env a s s' e :
  env_ok e -> Registry.sources (reg e) !! a = Some s -> name s' = name s ->
  sps_profile_level_id s' = sps_profile_level_id s ->
  env_ok (set_reg (Registry.put_source a s' (reg e)) e).
Proof.
  intros [H1 H2 H3] Hs Hn Hp. split; cbn; [by eapply Registry.put_source_ok | | done].
  intros b t [[<- <-] | [_ Ht]]%lookup_insert_Some; [unfold profile_ok; rewrite Hp |]; by eapply H2.
Qed.

(** A source by name: there already, or made. *)
Lemma source_create_env alloc n e :
  env_ok e -> (forall a, alloc = Ref a -> Registry.sources (reg e) !! a = None) ->
  exists p created e', source_create alloc n e = (p, created, e') /\ env_ok e' /\ zone e' = zone e /\
    Registry.sessions (reg e') = Registry.sessions (reg e) /\
    match p with
    | NULL => created = false /\ e' = e
    | Ref a => exists s, Registry.sources (reg e') !! a = Some s /\ name s = n /\
        (if created then Registry.sources (reg e) !! a = None /\
           Registry.sources (reg e') = <[a := set_name n zero_source]> (Registry.sources (reg e))
         else e' = e)
    end.
Proof.
  intros He Hal. pose proof He as [H1 H2 H3]. unfold source_create.
  destruct (Registry.source_create_spec Shm.ngx_crc32_long alloc (reg e) n 0 H1 Hal) as (p & v & r' & -> & Hr' & Hse & Hp).
  assert (Hid : r' = reg e -> set_reg r' e = e) by (intros ->; by destruct e).
  eexists p, _, _. split; [reflexivity |]. split_and!; [| done | done |].
  - destruct p as [| a]; [destruct Hp as [_ Hp] | destruct Hp as [(_ & Hp & _) | (_ & Ha & Hp)]]; try by rewrite Hid.
    split; cbn; [done | | done]. rewrite Hp. intros b t [[<- <-] | [_ Ht]]%lookup_insert_Some; [| by eapply H2].
    split; [done |]. by repeat constructor.
  - destruct p as [| a]; [destruct Hp as [-> Hp]; split; [done | by apply Hid] |].
    destruct Hp as [(-> & Hp & s & Hs & Hn) | (-> & Ha & Hp)].
    + exists s. rewrite Hid by done. by split_and!.
    + exists (set_name n zero_source). cbn. rewrite Hp, lookup_insert_eq. by split_and!.
Qed.

(** *** The zone *)

Implicit Types (c : shm) (n : octets).

(** What a request leaves free in the zone for its skeleton. *)
Definition room_kept c c' : Prop :=
  Shm.next_session_id c' = Shm.next_session_id c /\
  forall x, Shm.sessions c !! x = None -> Shm.sessions c' !! x = None.

(** No source is made. *)
Definition sources_kept c c' : Prop := forall a, Shm.sources c !! a = None -> Shm.sources c' !! a = None.

Lemma put_kept c b t t' : Shm.sources c !! b = Some t -> sources_kept c (Shm.put_source b t' c).
Proof. intros Hb a Ha. cbn. rewrite lookup_insert_ne; [done | congruence]. Qed.

(** What is in the zone was there before, or is one of the new sessions and sources. *)
Definition zone_from (P : Z -> Shm.ngx_rtc_shm_session_t -> Prop) (R : Z -> Shm.ngx_rtc_shm_source_t -> Prop) (z z' : ptr shm) : Prop :=
  match z, z' with
  | NULL, NULL => True
  | Ref c, Ref c' =>
      (forall y t, Shm.sessions c' !! y = Some t -> Shm.sessions c !! y = Some t \/ P y t) /\
      (forall b t, Shm.sources c' !! b = Some t ->
         (exists t0, Shm.sources c !! b = Some t0 /\ Shm.name t0 = Shm.name t) \/ R b t)
  | _, _ => False
  end.

Definition nothing {A} (_ : Z) (_ : A) : Prop := False.

(** Nothing is new. *)
Definition zone_quiet : ptr shm -> ptr shm -> Prop := zone_from nothing nothing.

(** The request's skeleton: bound to no worker, to go at its expiry; and the request's source. *)
Definition new_skeleton (g : grants) (y : Z) (t : Shm.ngx_rtc_shm_session_t) : Prop :=
  (g_zone_session g).1 = Ref y /\ Shm.ice_ufrag t = ufrag_of g /\ Shm.owner_slot t = -1 /\
  Shm.s_expires t = u64 (g_now g + Shm.NGX_RTC_SHM_SESSION_EXPIRE_MS).
Definition new_zone_source (g : grants) n (b : Z) (t : Shm.ngx_rtc_shm_source_t) : Prop :=
  Publish.s_alloc (g_zone_source g) = Ref b /\ Shm.name t = n.
Abbreviation zone_residue g n := (zone_from (new_skeleton g) (new_zone_source g n)).

Lemma from_refl P R z : zone_from P R z z.
Proof. destruct z as [| c]; [done |]. split; [by left |]. intros b t Hb. left. by exists t. Qed.

Lemma from_mono (P P' : Z -> Shm.ngx_rtc_shm_session_t -> Prop) (R R' : Z -> Shm.ngx_rtc_shm_source_t -> Prop) z z' :
  (forall y t, P y t -> P' y t) -> (forall b t, R b t -> R' b t) -> zone_from P R z z' -> zone_from P' R' z z'.
Proof.
  intros HP HR. destruct z as [| c], z' as [| c']; try done. intros [H1 H2]. split.
  - intros y t Ht. destruct (H1 y t Ht); [by left | right; by apply HP].
  - intros b t Ht. destruct (H2 b t Ht); [by left | right; by apply HR].
Qed.

Lemma quiet_from P R z z' : zone_quiet z z' -> zone_from P R z z'.
Proof. by apply from_mono. Qed.

Lemma from_trans (P : Z -> Shm.ngx_rtc_shm_session_t -> Prop) (R : Z -> Shm.ngx_rtc_shm_source_t -> Prop) z1 z2 z3 :
  (forall b t t', R b t -> Shm.name t = Shm.name t' -> R b t') -> zone_from P R z1 z2 -> zone_from P R z2 z3 -> zone_from P R z1 z3.
Proof.
  intros HR. destruct z1 as [| c1], z2 as [| c2], z3 as [| c3]; try done. intros [A1 A2] [B1 B2]. split.
  - intros y t Ht. destruct (B1 y t Ht) as [Ht' |]; [by apply A1 | by right].
  - intros b t Ht. destruct (B2 b t Ht) as [(t0 & Ht0 & En) |]; [| by right].
    destruct (A2 b t0 Ht0) as [(t1 & Ht1 & En1) | Hr]; [left; exists t1; split; [done | congruence] | right; by eapply HR].
Qed.

Lemma quiet_trans z1 z2 z3 : zone_quiet z1 z2 -> zone_quiet z2 z3 -> zone_quiet z1 z3.
Proof. by apply from_trans. Qed.

Lemma residue_trans g n z1 z2 z3 : zone_residue g n z1 z2 -> zone_residue g n z2 z3 -> zone_residue g n z1 z3.
Proof. apply from_trans. intros b t t' [H1 H2] En. split; congruence. Qed.

Lemma quiet_put c b t t' : Shm.sources c !! b = Some t -> Shm.name t' = Shm.name t -> zone_quiet (Ref c) (Ref (Shm.put_source b t' c)).
Proof.
  intros Hb En. split; [by left |]. cbn. intros d u [[<- <-] | [_ Hu]]%lookup_insert_Some; left; [by exists t | by exists u].
Qed.

(** A sweep makes nothing. *)
Lemma quiet_sweep now forced c c' :
  Shm.sessions c' = ShmInv.expired_sessions now forced c -> Shm.sources c' = ShmInv.expired_sources now forced c -> zone_quiet (Ref c) (Ref c').
Proof.
  intros E1 E2. split; [rewrite E1 | rewrite E2].
  - intros y t Ht. left. unfold ShmInv.expired_sessions, ShmInv.kept in Ht. by apply map_lookup_filter_Some in Ht as [Ht _].
  - intros b t Ht. left. unfold ShmInv.expired_sources in Ht. rewrite map_lookup_imap in Ht.
    destruct (Shm.sources c !! b) as [t0 |]; [| done]. exists t0. split; [done |]. symmetry. by eapply ShmInv.sweep_name.
Qed.

Lemma from_source_get alloc now v w c n :
  ShmInv.shm_inv c ->
  safe (fun r => zone_from nothing (fun b t => alloc = Ref b /\ Shm.name t = n) (Ref c) (Ref r.2)) (Shm.ngx_rtc_shm_source_get alloc NULL now v w c n).
Proof.
  intros Hc. unfold Shm.ngx_rtc_shm_source_get. destruct (negb _); [apply from_refl |].
  destruct (Shm.ngx_rtc_shm_source_locked_lookup c n) as [| b]; [| apply from_refl].
  destruct (ShmInv.slab_alloc_spec alloc NULL now c Hc) as (q & c1 & -> & _ & Hs). rewrite bind_Ret. destruct alloc as [| a].
  - destruct Hs as (-> & E1 & E2 & _). by apply quiet_from, (quiet_sweep now 1).
  - destruct Hs as [-> ->]. split; [by left |]. cbn. intros d u [[<- <-] | [_ Hu]]%lookup_insert_Some; [by right | left; by exists u].
Qed.

Lemma from_session_add alloc now c (o : Shm.offer) :
  ShmInv.shm_inv c ->
  safe (fun r => zone_from (fun y t => alloc = Ref y /\ exists i a, t = Shm.new_session now i a o) nothing (Ref c) (Ref r.2))
    (Shm.ngx_rtc_shm_session_add alloc NULL now c o).
Proof.
  intros Hc. unfold Shm.ngx_rtc_shm_session_add. destruct (negb _); [apply from_refl |].
  destruct (Shm.ngx_rtc_shm_source_locked_lookup c _) as [| b]; [apply from_refl |].
  destruct (ShmInv.slab_alloc_spec alloc NULL now c Hc) as (q & c1 & -> & _ & Hs). rewrite bind_Ret. destruct alloc as [| y].
  - destruct Hs as (-> & E1 & E2 & _). by apply quiet_from, (quiet_sweep now 1).
  - destruct Hs as [-> ->]. split; cbn.
    + intros d u [[<- <-] | [_ Hu]]%lookup_insert_Some; [right; split; [done | by eexists _, _] | by left].
    + intros d u Hu. left. by exists u.
Qed.

Lemma zone_source_get alloc now v w c n :
  ShmInv.shm_inv c -> (forall a, alloc = Ref a -> Shm.sources c !! a = None) ->
  exists p c', Shm.ngx_rtc_shm_source_get alloc NULL now v w c n = Ret (p, c') /\ ShmInv.shm_inv c' /\ room_kept c c' /\
    match p with
    | NULL => True
    | Ref b => exists t, ShmInv.named c' n b t /\
        (c' = c \/ t = Shm.new_source now v w n /\ forall b u, ~ ShmInv.named c n b u)
    end.
Proof.
  intros Hc Hal. destruct (ShmInv.source_get_inv alloc NULL now v w c n Hc Hal) as (p & c' & E & Hc' & _); [done |].
  exists p, c'. split_and!; [done | done | |].
  - revert E. unfold Shm.ngx_rtc_shm_source_get. destruct (negb _); [by intros [= <- <-] |].
    destruct (Shm.ngx_rtc_shm_source_locked_lookup c n) as [| b]; [| by intros [= <- <-]].
    destruct (ShmInv.slab_alloc_spec alloc NULL now c Hc) as (q & c1 & -> & Hc1 & Hs). rewrite bind_Ret.
    destruct alloc as [| a].
    + destruct Hs as (-> & E1 & _ & E2). intros [= <- <-]. split; [done |]. intros x Hx. rewrite E1.
      unfold ShmInv.expired_sessions, ShmInv.kept. apply map_lookup_filter_None. by left.
    + destruct Hs as [-> ->]. by intros [= <- <-].
  - destruct p as [| b]; [done |]. revert E. unfold Shm.ngx_rtc_shm_source_get.
    destruct (negb _); [done |].
    destruct (ShmInv.lookup_cases c n Hc) as [(a & t & Hn & ->) | [Hno ->]].
    { intros [= <- <-]. exists t. by split; [| left]. }
    destruct (ShmInv.slab_alloc_spec alloc NULL now c Hc) as (q & c1 & -> & Hc1 & Hs). rewrite bind_Ret.
    destruct q as [| q]; [done |]. intros [= <- <-]. exists (Shm.new_source now v w n). split.
    + split; [cbn; by rewrite lookup_insert_eq | done].
    + right. by split.
Qed.

Lemma zone_set_pt c n v a : ShmInv.shm_inv c ->
  exists c', Shm.ngx_rtc_shm_source_set_pt c n v a = Ret c' /\ ShmInv.shm_inv c' /\ room_kept c c' /\ sources_kept c c' /\
    (forall b t, ShmInv.named c n b t -> exists t', ShmInv.named c' n b t' /\
      Shm.publishing t' = Shm.publishing t /\ Shm.publisher_kind t' = Shm.publisher_kind t) /\
    zone_quiet (Ref c) (Ref c').
Proof.
  intros Hc. unfold Shm.ngx_rtc_shm_source_set_pt.
  match goal with |- context [Shm.update_source c n ?g] => set (f := g) end.
  assert (Hn : forall s, Shm.name (f s) = Shm.name s) by (intros s; unfold f; by destruct (v =? 0), (a =? 0)).
  assert (Hr : forall s, Shm.publishing (f s) = Shm.publishing s /\ Shm.publisher_kind (f s) = Shm.publisher_kind s)
    by (intros s; unfold f; by destruct (v =? 0), (a =? 0)).
  destruct (ShmInv.update_source_inv c n f Hc Hn) as (c' & E & Hc' & Hcase).
  { intros s. unfold ShmInv.kind_ok. destruct (Hr s) as [-> ->]. unfold f. by destruct (v =? 0), (a =? 0). }
  exists c'. do 2 (split; [done |]). split; [| split; [| split]].
  - by destruct Hcase as [-> | (b & s & _ & _ & ->)].
  - destruct Hcase as [-> | (b & s & Hs & _ & ->)]; [by intros b | by eapply put_kept].
  - intros b t Ht. destruct Hcase as [-> | (b' & s & Hs & Hsn & ->)]; [by exists t |].
    destruct (ShmInv.named_uniq c n b b' t s Hc Ht) as [-> ->]; [done |].
    exists (f s). destruct (Hr s) as [Hr1 Hr2]. split_and!; [| done | done].
    split; [cbn; by rewrite lookup_insert_eq | by rewrite Hn].
  - destruct Hcase as [-> | (b & s & Hs & _ & ->)]; [apply from_refl | by eapply quiet_put].
Qed.

Definition zone_kept (e e' : env) : Prop :=
  match zone e, zone e' with NULL, NULL => True | Ref c, Ref c' => room_kept c c' | _, _ => False end.

Lemma zone_kept_refl e : zone_kept e e.
Proof. unfold zone_kept. by destruct (zone e). Qed.

(** What the source is used for stays. *)
Definition same_use (s s' : ngx_rtc_source_t) : Prop :=
  (name s' = name s /\ publishing s' = publishing s /\ publisher_kind s' = publisher_kind s) /\
  (audio_ctx s' = audio_ctx s /\ sps_profile_level_id s' = sps_profile_level_id s).

Lemma same_use_refl s : same_use s s.
Proof. done. Qed.

Lemma put_source_same a s (r : registry) : Registry.sources r !! a = Some s -> Registry.put_source a s r = r.
Proof. intros Hs. destruct r. unfold Registry.put_source, Registry.set_sources, Registry.registry_eta in *. cbn in *. by rewrite insert_id. Qed.

Lemma play_sync_env g n o a s e :
  env_ok e -> zone_grants g (zone e) -> Registry.sources (reg e) !! a = Some s ->
  exists e' s', play_sync g n o a e = Ret e' /\ env_ok e' /\ zone_kept e e' /\
    reg e' = Registry.put_source a s' (reg e) /\ same_use s s'.
Proof.
  intros He Hg Hs. unfold play_sync. destruct (zone e) as [| c] eqn:Ez.
  { exists e, s. rewrite put_source_same by done. split_and!; try done. apply zone_kept_refl. }
  pose proof He as [H1 H2 H3]. rewrite Ez in H3. destruct Hg as (Hg & -> & _). destruct (Hg c eq_refl) as (Ha & _ & _).
  destruct (zone_source_get (Publish.s_alloc (g_zone_source g)) (g_now g) (Publish.s_v (g_zone_source g))
              (Publish.s_a (g_zone_source g)) c n H3 Ha) as (p & c1 & -> & Hc1 & Hroom & Hp). rewrite bind_Ret.
  destruct p as [| b].
  { exists (set_zone (Ref c1) e), s. split; [done |]. split; [by split |].
    split; [unfold zone_kept; by rewrite Ez |]. cbn. by rewrite put_source_same. }
  destruct Hp as (t & [Ht _] & _). unfold Shm.source_at, Registry.source_at. rewrite Ht, bind_Ret, Hs, bind_Ret.
  destruct (zone_set_pt c1 n (offered_video_pt o) (offered_audio_pt o) Hc1) as (c2 & -> & Hc2 & Hroom2 & _). rewrite bind_Ret.
  eexists _, (synced t o s). split; [reflexivity |]. split_and!; try done.
  - pose proof (put_source_env a s (synced t o s) e He Hs eq_refl eq_refl) as [K1 K2 _]. by split.
  - unfold zone_kept. rewrite Ez. cbn. destruct Hroom as [R1 R2], Hroom2 as [R3 R4].
    split; [congruence |]. intros x Hx. by apply R4, R2.
Qed.

Lemma filled_eq g o a pub src :
  exists s, filled g o a pub src = Ret s /\ source s = Ref a /\ ice_ufrag s = ufrag_of g /\ ice_pwd s = pwd_of g /\
    sess_publishing s = pub /\
    video_pt s = or_else (offered_video_pt o) (source_video_pt src) /\
    audio_pt s = or_else (offered_audio_pt o) (source_audio_pt src) /\
    ngx_rtc_session_fsm_get_state (Ref (fsm s)) = Ret NGX_RTC_SESSION_STATE_NEW.
Proof.
  unfold filled. destruct (init_rep report blank NULL [NULL] NGX_RTC_SESSION_FSM_MAX_DEPTH (Ref tt)) as (m & E & Hm); [done | done |].
  change (replicate (Z.to_nat NGX_RTC_SESSION_FSM_MAX_DEPTH) NULL) with [NULL; NULL : ptr session_object].
  rewrite E, bind_Ret. eexists. split; [reflexivity |]. split_and!; try done.
  apply get_state_rep. by destruct Hm as (K1 & K2 & K3).
Qed.

Lemma zlen_hex8 i : zlen (hex8 i) = 8.
Proof. reflexivity. Qed.
Lemma ufrag_len g : zlen (ufrag_of g) = 9.
Proof. unfold ufrag_of. destruct (g_random g) as [[[u b] w] d]. by rewrite zlen_app, zlen_hex8. Qed.
Lemma pwd_len g : zlen (pwd_of g) = 24.
Proof. unfold pwd_of. destruct (g_random g) as [[[u b] w] d]. by rewrite !zlen_app, !zlen_hex8. Qed.

(** The skeleton, when the zone has room for it. *)
Lemma add_skeleton_env g x n s e :
  env_ok e -> Registry.sessions (reg e) !! x = Some s ->
  (forall c, zone e = Ref c -> (forall y, (g_zone_session g).1 = Ref y -> Shm.sessions c !! y = None) /\
     Shm.next_session_id c < 2 ^ 64 - 1) ->
  (g_zone_session g).2 = NULL ->
  exists e' i, add_skeleton g x n e = Ret e' /\ env_ok e' /\
    Registry.sources (reg e') = Registry.sources (reg e) /\
    Registry.sessions (reg e') = <[x := set_id i s]> (Registry.sessions (reg e)) /\
    Registry.queues (reg e') = Registry.queues (reg e) /\
    (ice_ufrag s = ufrag_of g -> zone_residue g n (zone e) (zone e')).
Proof.
  intros He Hs Hroom Hretry. pose proof He as [H1 H2 H3].
  assert (Hsame : Registry.sessions (reg e) = <[x := set_id (id s) s]> (Registry.sessions (reg e))).
  { by rewrite insert_id by (rewrite Hs; by destruct s). }
  unfold add_skeleton. destruct (zone e) as [| c] eqn:Ez; [exists e, (id s); rewrite Ez; by split_and! |].
  destruct (Hroom c eq_refl) as [Hy Hid]. unfold Registry.session_at. rewrite Hs, bind_Ret, Hretry.
  destruct (ShmInv.session_add_inv (g_zone_session g).1 NULL (g_now g) c (skeleton s n) H3) as (p & c' & E & Hc' & _); [by split |].
  pose proof (from_session_add (g_zone_session g).1 (g_now g) c (skeleton s n) H3) as Hfrom. rewrite E in Hfrom. cbn [safe snd] in Hfrom.
  assert (Hres : ice_ufrag s = ufrag_of g -> zone_residue g n (Ref c) (Ref c')).
  { intros Hu. revert Hfrom. apply from_mono; [| done]. intros y t (Hy' & i & a & ->). by split_and!. }
  rewrite E, bind_Ret. destruct p as [| y]; [exists (set_zone (Ref c') e), (id s); by split_and!; [| split | | | |] |].
  assert (Ht : exists t, Shm.sessions c' !! y = Some t).
  { revert E. unfold Shm.ngx_rtc_shm_session_add. destruct (negb _); [done |].
    destruct (Shm.ngx_rtc_shm_source_locked_lookup c _) as [| b]; [done |].
    destruct (ShmInv.slab_alloc_spec (g_zone_session g).1 NULL (g_now g) c H3) as (q & c1 & -> & Hc1 & _). rewrite bind_Ret.
    destruct q as [| q]; [done |]. intros [= <- <-]. eexists. cbn. by rewrite lookup_insert_eq. }
  destruct Ht as [t Ht]. unfold Shm.session_at. rewrite Ht, bind_Ret. eexists _, (Shm.id t). split; [reflexivity |].
  split_and!; [| done | done | done | done]. split; cbn; [by eapply Registry.session_put_ok | done | done].
Qed.

(** *** Replies *)

Context `{!Signal.NgxTextLaws, !NgxJsonLaws}.

Lemma json_response_eq ans : json_response ans = Ret (response_head ++ ngx_escape_json ans ++ response_tail).
Proof.
  pose proof (escape_len_law ans) as Hl. pose proof (escape_extra_law ans). pose proof (zlen_nonneg ans).
  unfold json_response. cbv zeta. rewrite zlen_app.
  set (k := zlen response_head). set (m := zlen response_tail).
  assert (0 <= k) by apply zlen_nonneg. assert (0 <= m) by apply zlen_nonneg.
  assert (Hz : zlen (zeros (zlen ans + escape_extra ans + (k + m) + 1)) = zlen ans + escape_extra ans + k + m + 1)
    by (rewrite zlen_zeros by lia; lia).
  set (b := zeros _) in *.
  rewrite <- (app_nil_l b). rewrite store_range_cursor, bind_Ret by (done || (fold k; lia)).
  change ([] ++ response_head) with response_head. fold k.
  rewrite store_range_cursor, bind_Ret by (done || (rewrite zlen_zdrop by lia; lia)).
  rewrite store_range_cursor, bind_Ret by (rewrite ?zlen_app, ?zdrop_zdrop, ?zlen_zdrop by lia; fold k m; lia).
  rewrite load_range_prefix; [by rewrite <- app_assoc |].
  rewrite !zlen_app. fold k m. lia.
Qed.

Lemma sent_answer_eq cfg g e :
  grants_ok g e -> Signal.generated cfg (s_ans_buf g) (s_ans_len g) ->
  answer cfg g = ok (SdpAnswer.text (SdpAnswer.answer_lines cfg)).
Proof.
  intros Hg Hc. unfold answer. rewrite (go_ans _ _ Hg). unfold Signal.generated in Hc. cbv zeta in Hc.
  rewrite Hc, bind_Ret. cbn [negb]. change (NGX_RTC_OK =? NGX_RTC_OK) with true. cbn [negb].
  by rewrite load_range_prefix, bind_Ret.
Qed.

Lemma info_fits_of rcf g e s src :
  grants_ok g e -> profile_ok src -> ice_ufrag s = ufrag_of g -> ice_pwd s = pwd_of g ->
  Signal.info_fits (info_of rcf g s src).
Proof.
  intros Hg [Hp1 Hp2] Hu Hw. split_and!; cbn; [rewrite Hu, ufrag_len; lia | rewrite Hw, pwd_len; lia | apply Hg | done | done].
Qed.

(** The play request's reply: the answer, unless the pool is exhausted. *)
Lemma play_reply_eq rcf g o a x e s src :
  env_ok e -> (exists e0, grants_ok g e0) -> Sdp.offer_fits o ->
  Registry.sessions (reg e) !! x = Some s -> Registry.sources (reg e) !! a = Some src ->
  ice_ufrag s = ufrag_of g -> ice_pwd s = pwd_of g ->
  exists cfg, Signal.play_cfg (info_of rcf g s src) o = Ret cfg /\
    play_reply rcf g o a x e =
      Ret (if g_response_buf g && g_temp_buf g
           then Response NGX_HTTP_OK (lit "application/json")
                  (response_head ++ ngx_escape_json (SdpAnswer.text (SdpAnswer.answer_lines cfg)) ++ response_tail)
           else Finalize NGX_HTTP_INTERNAL_SERVER_ERROR).
Proof.
  intros He [e0 Hg] Ho Hs Hsrc Hu Hw. pose proof (eo_profile _ He a src Hsrc) as Hp.
  destruct (Signal.both_generated (info_of rcf g s src) o (s_ans_buf g) (s_ans_len g)) as [(cfg & Ec & Hgen & _) _];
    [by eapply info_fits_of | done | apply Hg |].
  exists cfg. split; [done |]. unfold play_reply, Registry.session_at, Registry.source_at.
  rewrite Hs, bind_Ret, Hsrc, bind_Ret, Ec, bind_Ret, (sent_answer_eq cfg g e0 Hg Hgen). unfold ok. rewrite bind_Ret.
  destruct (g_response_buf g); cbn [negb andb]; [| done]. rewrite json_response_eq, bind_Ret.
  by destruct (g_temp_buf g).
Qed.

(** *** Inputs *)

Lemma request_offer_ok sdp g :
  exists r, request_offer sdp g = Ret r /\ match r with Ok o => Sdp.offer_fits o | Err rc => rc = NGX_HTTP_BAD_REQUEST end.
Proof.
  unfold request_offer. pose proof (Sdp.parse_offer_fits (ztake (u32 (zlen sdp)) sdp) (s_offer g)) as Hf.
  destruct (Sdp.ngx_rtc_sdp_parse_offer _ _) as [[rc [| o]] |]; cbn in Hf; [done | | done].
  rewrite bind_Ret. destruct (negb _); by eexists.
Qed.

Lemma c_str_eq t rest : (0 ∉ t) -> c_str (t ++ 0 :: rest) = Ret t.
Proof.
  intros Ht. unfold c_str. pose proof (Signal.strlen_at [] t rest Ht) as E. cbn [app] in E.
  change (zlen []) with 0 in E. by rewrite E, bind_Ret, load_range_prefix.
Qed.

(** A name that fills its array up to the last octet, which holds what it held before. *)
Definition unterminated (g : grants) (array : octets) : Prop :=
  exists t k, array = t ++ [k] /\ (0 ∉ t) /\ zlen t = 127 /\ k <> 0 /\ s_name g !! 127%nat = Some k.

Definition name_ok (n : octets) : Prop := (0 ∉ n) /\ 0 < zlen n < Signal.NGX_RTC_SOURCE_NAME_MAX.

Lemma named_array t g :
  (0 ∉ t) -> zlen t <= 127 -> zlen (s_name g) = 128 ->
  let array := ztake 127 (t ++ [0]) ++ zdrop (zlen (ztake 127 (t ++ [0]))) (s_name g) in
  c_str array = Ret t \/ c_str array = Fault /\ unterminated g array.
Proof.
  intros Ht Hl Ha. cbv zeta. pose proof (zlen_nonneg t). destruct (Z.eqb_spec (zlen t) 127) as [E |].
  - rewrite ztake_app_length by done. rewrite E.
    destruct (s_name g !! 127%nat) as [k |] eqn:Hk.
    2: { apply lookup_ge_None in Hk. unfold zlen in Ha. lia. }
    assert (Hd : zdrop 127 (s_name g) = [k]).
    { unfold zdrop. change (Z.to_nat 127) with 127%nat. rewrite (drop_S _ k 127 Hk). f_equal. apply drop_ge. unfold zlen in Ha. lia. }
    rewrite Hd. destruct (Z.eq_dec k 0) as [-> | Hk0]; [left; by apply c_str_eq | right].
    split; [| by exists t, k]. unfold c_str. rewrite Signal.strlen_none; [done |].
    intros [? | ?%list_elem_of_singleton]%elem_of_app; [done | congruence].
  - left. assert (Hl1 : zlen (t ++ [0]) = zlen t + 1) by (rewrite zlen_app; by change (zlen [0]) with 1).
    rewrite ztake_all by lia. rewrite <- app_assoc. by apply c_str_eq.
Qed.

(** What lies in the buffers. *)
Definition octets_of (c : HttpBody.chain) : octets :=
  concat ((fun b => match b with NULL => [] | Ref b => HttpBody.data b end) <$> c).

Lemma body_length_eq (c : HttpBody.chain) : forall k m, HttpBody.body_length c k = Ref m -> m = k + zlen (octets_of c).
Proof.
  induction c as [| [| b] c IH]; intros k m; cbn [HttpBody.body_length].
  - intros [= <-]. unfold octets_of. cbn. rewrite zlen_nil. lia.
  - intros E%IH. exact E.
  - destruct (HttpBody.in_file b); [done |]. intros E%IH.
    unfold octets_of in *. cbn [fmap list_fmap concat]. rewrite zlen_app. lia.
Qed.

Lemma request_length_nonneg rcf (c : HttpBody.chain) k : request_length rcf c = Ok k -> 0 <= k.
Proof.
  unfold request_length. destruct (HttpBody.body_length c 0) as [| m] eqn:E; [done |].
  destruct (_ <? m); [done |]. intros [= <-]. apply body_length_eq in E. pose proof (zlen_nonneg (octets_of c)). lia.
Qed.

Lemma play_input_ok rcf b g e :
  grants_ok g e ->
  exists r, play_input rcf b g = Ret r /\
    match r with
    | Err rc => rc ∈ [NGX_HTTP_BAD_REQUEST; NGX_HTTP_REQUEST_ENTITY_TOO_LARGE; NGX_HTTP_INTERNAL_SERVER_ERROR]
    | Ok (name, o) => Sdp.offer_fits o /\ ((exists n, c_str name = Ret n /\ name_ok n) \/ c_str name = Fault /\ unterminated g name)
    end.
Proof.
  intros Hg. unfold play_input.
  assert (H400 : NGX_HTTP_BAD_REQUEST ∈ [NGX_HTTP_BAD_REQUEST; NGX_HTTP_REQUEST_ENTITY_TOO_LARGE; NGX_HTTP_INTERNAL_SERVER_ERROR]) by left.
  assert (H413 : NGX_HTTP_REQUEST_ENTITY_TOO_LARGE ∈ [NGX_HTTP_BAD_REQUEST; NGX_HTTP_REQUEST_ENTITY_TOO_LARGE; NGX_HTTP_INTERNAL_SERVER_ERROR]) by (right; left).
  assert (H500 : NGX_HTTP_INTERNAL_SERVER_ERROR ∈ [NGX_HTTP_BAD_REQUEST; NGX_HTTP_REQUEST_ENTITY_TOO_LARGE; NGX_HTTP_INTERNAL_SERVER_ERROR]) by (right; right; left).
  destruct (request_chain b) as [c | rc] eqn:Ec.
  2: { eexists. split; [done |]. unfold request_chain in Ec. destruct b as [| b]; [by injection Ec as <- |].
       destruct (bufs b), (temp_file b); try done; by injection Ec as <-. }
  unfold try at 1. rewrite bind_Ret.
  destruct (request_length rcf c) as [k | rc] eqn:Ek.
  2: { eexists. split; [done |]. unfold request_length in Ek. destruct (HttpBody.body_length c 0); [by injection Ek as <- |].
       destruct (_ <? _); [by injection Ek as <- | done]. }
  unfold try at 1. rewrite bind_Ret. destruct (negb (g_offer_buf g)); [by eexists |]. cbv zeta.
  pose proof (request_length_nonneg _ _ _ Ek) as Hk.
  destruct (HttpBody.json_read c (lit "sdp") (k + 1) ltac:(lia)) as (rd1 & E1). rewrite E1, bind_Ret.
  destruct (HttpBody.json_of (lit "sdp") (k + 1) (HttpBody.bytes c)) as [| sdp]; [by eexists |].
  destruct (HttpBody.json_read c (lit "streamurl") STREAMURL ltac:(done)) as (rd2 & E2). rewrite E2, bind_Ret.
  destruct (HttpBody.json_of (lit "streamurl") _ _) as [| url]; [by eexists |].
  destruct (Signal.play_name_shape url (zdrop (zlen url + 1) (s_streamurl g)) (s_name g) (go_name _ _ Hg))
    as [-> | (t & Ht & Hl & ->)]; [by eexists |].
  rewrite try_ok. destruct (request_offer_ok sdp g) as ([o | rc] & -> & Ho).
  - eexists. split; [reflexivity |]. split; [done |].
    destruct (named_array t g) as [En | Hun]; [done | lia | apply Hg | left | by right].
    exists t. split; [done | split; [done | unfold Signal.NGX_RTC_SOURCE_NAME_MAX; lia]].
  - eexists. split; [reflexivity |]. by rewrite Ho.
Qed.

(** *** What is undone *)

(** The worker's registry is what it was, SSRCs and payload types apart. *)
Definition registry_kept (e e' : env) : Prop :=
  Registry.sessions (reg e') = Registry.sessions (reg e) /\
  forall a, match Registry.sources (reg e) !! a, Registry.sources (reg e') !! a with
       | Some s, Some s' => same_use s s'
       | None, None => True
       | _, _ => False
       end.

Lemma registry_kept_refl e : registry_kept e e.
Proof. split; [done |]. intros a. by destruct (Registry.sources (reg e) !! a). Qed.

Lemma roll_back_zone created n e e' : roll_back created n e = Ret e' -> zone e' = zone e.
Proof.
  unfold roll_back. destruct created; [| by intros [= <-]].
  destruct (Registry.ngx_rtc_source_remove _ _ _); [| done]. rewrite bind_Ret. by intros [= <-].
Qed.

(** A source made by this request, that nothing came to use, is removed again. *)
Lemma roll_back_env (created : bool) n a s e e' :
  env_ok e -> env_ok e' ->
  Registry.sessions (reg e') = Registry.sessions (reg e) ->
  (created = true -> Registry.sources (reg e) !! a = None /\
     Registry.sources (reg e') = <[a := s]> (Registry.sources (reg e)) /\
     name s = n /\ publishing s = 0 /\ audio_ctx s = NULL) ->
  exists e2, roll_back created n e' = Ret e2 /\ env_ok e2 /\
    Registry.sessions (reg e2) = Registry.sessions (reg e) /\
    Registry.sources (reg e2) = if created then Registry.sources (reg e) else Registry.sources (reg e').
Proof.
  intros He He' Hse Hc. unfold roll_back. destruct created; [| by exists e'].
  destruct (Hc eq_refl) as (Ha & Hso & Hn & Hp & Hctx).
  assert (Hs : Registry.sources (reg e') !! a = Some s) by (by rewrite Hso, lookup_insert_eq).
  assert (Hun : Registry.unused (reg e') a s).
  { split_and!; [done | done |]. intros (x & u & Hu & Hsrc). rewrite Hse in Hu.
    destruct (Registry.ok_source _ _ (eo_reg _ He) x u a Hu Hsrc) as [v Hv]. congruence. }
  destruct (Registry.source_remove_spec _ (reg e') n (eo_reg _ He')) as (r & -> & Hr & Hcase). rewrite bind_Ret.
  destruct Hcase as [[_ Hno] | (b & t & Ht & Htn & _ & ->)]; [by destruct (Hno a s Hs Hn) |].
  assert (b = a) as -> by (apply (Registry.ok_src_uniq _ _ (eo_reg _ He') b a t s Ht Hs); congruence).
  eexists. split; [reflexivity |].
  assert (Hdel : Registry.sources (Registry.freed a (reg e')) = Registry.sources (reg e)).
  { cbn. rewrite Hso, delete_insert_eq, delete_id by done. done. }
  split; [| done]. split; cbn [reg zone set_reg]; [done | | apply He']. rewrite Hdel. apply He.
Qed.

Lemma same_use_put a s s' e e' :
  Registry.sessions (reg e') = Registry.sessions (reg e) -> Registry.sources (reg e) !! a = Some s -> same_use s s' ->
  Registry.sources (reg e') = <[a := s']> (Registry.sources (reg e)) -> registry_kept e e'.
Proof.
  intros Hse Hs Hu Hso. split; [done |]. intros d. rewrite Hso. destruct (decide (d = a)) as [-> | Hne].
  - by rewrite Hs, lookup_insert_eq.
  - rewrite lookup_insert_ne by done. by destruct (Registry.sources (reg e) !! d).
Qed.

(** The session a request leaves behind: registered under a fresh ufrag, in state NEW, pointing
    at the source of the name. *)
Definition joined (g : grants) (pub : Z) (name : octets) (e e' : env) (a : Z) (s : session) (src : ngx_rtc_source_t) : Prop :=
  (exists x, g_session g = Ref x /\ Registry.sessions (reg e') = <[x := s]> (Registry.sessions (reg e))) /\
  (source s = Ref a /\ Registry.sources (reg e') !! a = Some src /\ c_str name = Ret (Session.name src)) /\
  (ice_ufrag s = ufrag_of g /\ ice_pwd s = pwd_of g /\ sess_publishing s = pub) /\
  ngx_rtc_session_fsm_get_state (Ref (fsm s)) = Ret NGX_RTC_SESSION_STATE_NEW.

Definition play_outcome (rcf : ngx_rtc_http_loc_conf_t) (b : ptr ngx_http_request_body_t) (g : grants) (e e' : env) (rep : reply) : Prop :=
  (exists rc, rep = Finalize rc /\
     rc ∈ [NGX_HTTP_BAD_REQUEST; NGX_HTTP_REQUEST_ENTITY_TOO_LARGE; NGX_HTTP_INTERNAL_SERVER_ERROR] /\ registry_kept e e') \/
  exists name o a s src cfg, play_input rcf b g = ok (name, o) /\ joined g 0 name e e' a s src /\
    Signal.play_cfg (info_of rcf g s src) o = Ret cfg /\
    rep = if g_response_buf g && g_temp_buf g
          then Response NGX_HTTP_OK (lit "application/json")
                 (response_head ++ ngx_escape_json (SdpAnswer.text (SdpAnswer.answer_lines cfg)) ++ response_tail)
          else Finalize NGX_HTTP_INTERNAL_SERVER_ERROR.

(** A filled session enters the registry. *)
Lemma opened_env g o a x pub src e :
  env_ok e -> Registry.sources (reg e) !! a = Some src -> Registry.sessions (reg e) !! x = None ->
  exists s r, filled g o a pub src = Ret s /\ Registry.session_open Shm.ngx_crc32_long x s (reg e) = Ret r /\
    env_ok (set_reg r e) /\ Registry.sources r = Registry.sources (reg e) /\
    Registry.sessions r = <[x := set_sn_str_len (zlen (ice_ufrag s)) s]> (Registry.sessions (reg e)) /\
    q_link (Registry.sub_queue x) (Registry.queues r) = Self /\
    source s = Ref a /\ ice_ufrag s = ufrag_of g /\ ice_pwd s = pwd_of g /\ sess_publishing s = pub /\
    ngx_rtc_session_fsm_get_state (Ref (fsm s)) = Ret NGX_RTC_SESSION_STATE_NEW.
Proof.
  intros He Hsrc Hx. pose proof He as [H1 H2 H3].
  destruct (filled_eq g o a pub src) as (s & Ef & Hs1 & Hs2 & Hs3 & Hs4 & _ & _ & Hs5).
  destruct (Registry.session_open_ok Shm.ngx_crc32_long (reg e) x s) as (r & Eo & Hr & Hso & Hse & Hq & _); [done | done | | |].
  { rewrite Hs2, ufrag_len. lia. }
  { rewrite Hs1. intros b [= <-]. by exists src. }
  exists s, r. split_and!; try done. split; cbn; [done | by rewrite Hso | done].
Qed.

(** The session is opened and its skeleton added. *)
Lemma open_env g o a x pub n src e :
  env_ok e -> (forall c, zone e = Ref c -> (forall y, (g_zone_session g).1 = Ref y -> Shm.sessions c !! y = None) /\
     Shm.next_session_id c < 2 ^ 64 - 1) ->
  (g_zone_session g).2 = NULL ->
  Registry.sources (reg e) !! a = Some src -> Registry.sessions (reg e) !! x = None ->
  exists s r e' i, filled g o a pub src = Ret s /\ Registry.session_open Shm.ngx_crc32_long x s (reg e) = Ret r /\
    add_skeleton g x n (set_reg r e) = Ret e' /\ env_ok e' /\
    let s' := set_id i (set_sn_str_len (zlen (ice_ufrag s)) s) in
    Registry.sources (reg e') = Registry.sources (reg e) /\
    Registry.sessions (reg e') = <[x := s']> (Registry.sessions (reg e)) /\
    (source s' = Ref a /\ ice_ufrag s' = ufrag_of g /\ ice_pwd s' = pwd_of g /\ sess_publishing s' = pub /\
     ngx_rtc_session_fsm_get_state (Ref (fsm s')) = Ret NGX_RTC_SESSION_STATE_NEW) /\
    q_link (Registry.sub_queue x) (Registry.queues (reg e')) = Self.
Proof.
  intros He Hroom Hretry Hsrc Hx.
  destruct (opened_env g o a x pub src e He Hsrc Hx) as (s & r & Ef & Eo & He1 & Hso & Hse & Hq & Hj).
  destruct (add_skeleton_env g x n (set_sn_str_len (zlen (ice_ufrag s)) s) (set_reg r e))
    as (e' & i & Ea & He' & Hso' & Hse' & Hq' & _); [done | cbn; by rewrite Hse, lookup_insert_eq | done | done |].
  exists s, r, e', i. cbv zeta. split_and!; try done; try apply Hj.
  - rewrite Hso'. apply Hso.
  - rewrite Hse'. cbn. by rewrite Hse, insert_insert_eq.
  - by rewrite Hq'.
Qed.

Lemma play_request_spec rcf b g e :
  env_ok e -> grants_ok g e ->
  (exists rep e', ngx_rtc_http_body_handler rcf b g e = Ret (rep, e') /\ env_ok e' /\ play_outcome rcf b g e e' rep) \/
  (ngx_rtc_http_body_handler rcf b g e = Fault /\ exists name o, play_input rcf b g = ok (name, o) /\ unterminated g name).
Proof.
  intros He Hg. unfold ngx_rtc_http_body_handler.
  destruct (play_input_ok rcf b g e Hg) as ([[name o] | rc] & Ei & Hin); rewrite Ei, bind_Ret.
  2: { left. eexists _, _. split; [reflexivity |]. split; [done |]. left. exists rc. split_and!; [done | done | apply registry_kept_refl]. }
  destruct Hin as (Ho & [(n & En & Hn) | [En Hun]]); rewrite En; [rewrite bind_Ret; left | right; split; [done | by exists name, o]].
  assert (H500 : NGX_HTTP_INTERNAL_SERVER_ERROR ∈ [NGX_HTTP_BAD_REQUEST; NGX_HTTP_REQUEST_ENTITY_TOO_LARGE; NGX_HTTP_INTERNAL_SERVER_ERROR]) by (right; right; left).
  destruct (source_create_env (g_source g) n e He (go_source _ _ Hg)) as (p & created & e1 & -> & He1 & Hz1 & Hse1 & Hp).
  destruct p as [| a].
  { destruct Hp as [_ ->]. eexists _, _. split; [reflexivity |]. split; [done |]. left. eexists.
    split_and!; [done | done | apply registry_kept_refl]. }
  destruct Hp as (s1 & Hs1 & Hname & Hcase).
  destruct (play_sync_env g n o a s1 e1 He1) as (e2 & s2 & -> & He2 & Hk2 & Hr2 & Hu2); [rewrite Hz1; apply Hg | done |].
  rewrite bind_Ret. assert (Hse2 : Registry.sessions (reg e2) = Registry.sessions (reg e)) by by rewrite Hr2.
  assert (Hs2 : Registry.sources (reg e2) !! a = Some s2) by (rewrite Hr2; cbn; by rewrite lookup_insert_eq).
  destruct (g_session g) as [| x] eqn:Ex.
  - destruct (roll_back_env created n a s2 e e2 He He2 Hse2) as (e3 & -> & He3 & Hse3 & Hso3).
    { intros ->. destruct Hu2 as [(U1 & U2 & U3) (U4 & U5)], Hcase as [Ha Hso].
      assert (s1 = set_name n zero_source) as -> by (rewrite Hso, lookup_insert_eq in Hs1; congruence).
      split_and!; [done | rewrite Hr2; cbn; by rewrite Hso, insert_insert_eq | by rewrite U1 | by rewrite U2 | by rewrite U4]. }
    rewrite bind_Ret. eexists _, _. split; [reflexivity |]. split; [done |]. left. eexists. split_and!; [done | done |].
    destruct created.
    + split; [done |]. intros d. rewrite Hso3. by destruct (Registry.sources (reg e) !! d).
    + subst e1. apply (same_use_put a s1 s2); [done | done | done | by rewrite Hso3, Hr2].
  - unfold Registry.source_at at 1. rewrite Hs2, bind_Ret.
    destruct (open_env g o a x 0 n s2 e2 He2) as (s & r & e3 & i & Ef & Eo & Ea & He3 & Hso3 & Hse3 & Hj & _); [| apply Hg | done | |].
    { intros c2 Ec2. unfold zone_kept in Hk2. rewrite Hz1, Ec2 in Hk2. destruct (go_zone _ _ Hg) as (Hzg & _).
      destruct (zone e) as [| c]; [done |]. destruct (Hzg c eq_refl) as (_ & K1 & K2). destruct Hk2 as [K3 K4].
      split; [intros y Hy; by apply K4, K1 | congruence]. }
    { rewrite Hse2. by apply (go_session _ _ Hg). }
    cbv zeta in Hse3, Hj. set (s' := set_id i _) in *. rewrite Ef, bind_Ret, Eo, bind_Ret, Ea, bind_Ret.
    destruct Hj as (J1 & J2 & J3 & J4 & J5).
    destruct (play_reply_eq rcf g o a x e3 s' s2 He3) as (cfg & Ec & Er); [by exists e | done | by rewrite Hse3, lookup_insert_eq | by rewrite Hso3 | done | done |].
    rewrite Er, bind_Ret. eexists _, _. split; [reflexivity |]. split; [done |]. right.
    exists name, o, a, s', s2, cfg. split_and!; try done.
    + split; [exists x; split; [done | by rewrite Hse3, Hse2] |]. split; [| by split_and!].
      split_and!; [done | by rewrite Hso3 | rewrite En; do 2 f_equal]. destruct Hu2 as [(-> & _) _]. done.
Qed.

(** *** The publish right over a source *)

(** The zone has room for what the request still asks of it. *)
Definition zone_fixed (z z' : ptr shm) : Prop :=
  match z, z' with NULL, NULL => True | Ref c, Ref c' => room_kept c c' /\ sources_kept c c' | _, _ => False end.

Lemma zone_fixed_refl z : zone_fixed z z.
Proof. destruct z as [| c]; [done |]. split; [by split | by intros a]. Qed.

Lemma zone_fixed_grants g z z' : zone_fixed z z' -> zone_grants g z -> zone_grants g z'.
Proof.
  intros Hz (Hg & Hr). split; [| done]. intros c' ->. destruct z as [| c]; [done |]. destruct Hz as [[R1 R2] R3].
  destruct (Hg c eq_refl) as (G1 & G2 & G3).
  split; [intros a Ha; by apply R3, G1 | split; [intros x Hx; by apply R2, G2 | congruence]].
Qed.

(** The fields no claim, release or sync touches. *)
Definition same_source (s s' : ngx_rtc_source_t) : Prop :=
  name s' = name s /\ audio_ctx s' = audio_ctx s /\ sps_profile_level_id s' = sps_profile_level_id s /\ gop s' = gop s.

Definition holds_right (s : ngx_rtc_source_t) : Prop :=
  publisher_kind s = Registry.NGX_RTC_PUBLISHER_WHIP /\ publishing s = 1.

(** The pointer a claim caches leads to the source of the name, held for the protocol. *)
Definition zone_held c n b : Prop :=
  exists t, ShmInv.named c n b t /\ Shm.publishing t = 1 /\ Shm.publisher_kind t = Registry.NGX_RTC_PUBLISHER_WHIP.

Definition cached (z : ptr shm) n (s : ngx_rtc_source_t) : Prop :=
  match z, shm_src s with
  | Ref c, Ref b => zone_held c n b
  | NULL, Ref _ => False
  | _, NULL => True
  end.

Lemma put_env a s s' z e :
  env_ok e -> match z with NULL => True | Ref c => ShmInv.shm_inv c end ->
  Registry.sources (reg e) !! a = Some s -> same_source s s' ->
  env_ok {| reg := Registry.put_source a s' (reg e); zone := z |}.
Proof.
  intros He Hz Hs (Hn & _ & Hp & _). destruct (put_source_env a s s' e He Hs Hn Hp) as [K1 K2 _]. by split.
Qed.

Lemma claim_env g a s e :
  env_ok e -> Registry.sources (reg e) !! a = Some s ->
  exists rc z s', claim g a e = Ret (rc, {| reg := Registry.put_source a s' (reg e); zone := z |}) /\
    env_ok {| reg := Registry.put_source a s' (reg e); zone := z |} /\
    zone_fixed (zone e) z /\ zone_quiet (zone e) z /\ same_source s s' /\
    (rc = Shm.NGX_BUSY /\ publisher_kind s' = Registry.NGX_RTC_PUBLISHER_NONE /\ publishing s' = 0 \/
     rc = Shm.NGX_OK /\ holds_right s' /\ cached z (name s) s').
Proof.
  intros He Hs. pose proof (eo_zone _ He) as H3.
  unfold claim, Registry.source_at. rewrite Hs, bind_Ret. unfold Publish.ngx_rtc_publish_claim.
  change (Publish.l_name (right_of s)) with (name s). set (n := name s).
  destruct (zone e) as [| c] eqn:Ez.
  { rewrite bind_Ret. eexists _, NULL, _. split; [reflexivity |].
    split; [by eapply put_env | split; [rewrite ?Ez; apply zone_fixed_refl | split; [rewrite ?Ez; apply from_refl |]]]. split; [done |]. right. by split_and!. }
  destruct (ShmInv.lookup_cases c n H3) as [(b & t & Hn & _) | [Hno El]].
  - destruct (ShmInv.busy Registry.NGX_RTC_PUBLISHER_WHIP t) eqn:Hb.
    + rewrite (ShmInv.try_publish_at (g_now g) c n _ b t H3 Hn), Hb, !bind_Ret.
      eexists _, (Ref c), _. split; [reflexivity |].
      split; [by eapply put_env | split; [rewrite ?Ez; apply zone_fixed_refl | split; [rewrite ?Ez; apply from_refl |]]]. split; [done |]. by left.
    + destruct (Publish.claim_found (g_zone_source g) (g_now g) n Registry.NGX_RTC_PUBLISHER_WHIP c b t H3 Hn) as (Hi & -> & Eg);
        [done | done |].
      rewrite bind_Ret. change (Shm.NGX_OK =? Shm.NGX_BUSY) with false. cbv iota zeta.
      change (Shm.NGX_OK =? Shm.NGX_OK) with true. cbv iota.
      match goal with |- context [Publish.l_name ?x] => change (Publish.l_name x) with n end.
      rewrite Eg, !bind_Ret. cbn [is_null].
      eexists _, (Ref _), _. split; [reflexivity |].
      split; [by eapply put_env | split; [split; [done | by eapply put_kept; apply Hn] | split; [by eapply quiet_put; [apply Hn |] |]]]. split; [done |]. right.
      split; [done | split; [done |]]. cbn. eexists. split; [split; [cbn; by rewrite lookup_insert_eq |] | done].
      apply Hn.
  - assert (E : Shm.ngx_rtc_shm_source_try_publish (g_now g) c n Registry.NGX_RTC_PUBLISHER_WHIP = Ret (Shm.NGX_ERROR, c)).
    { unfold Shm.ngx_rtc_shm_source_try_publish. rewrite El. by destruct (negb _). }
    rewrite E, !bind_Ret. eexists _, (Ref c), _. split; [reflexivity |].
    split; [by eapply put_env | split; [rewrite ?Ez; apply zone_fixed_refl | split; [rewrite ?Ez; apply from_refl |]]]. split; [done |]. right. by split_and!.
Qed.

(** The sources of the zone keep their rings, and skeletons can only go. *)
Definition zone_shrinks (z z' : ptr shm) : Prop :=
  match z, z' with
  | NULL, NULL => True
  | Ref c, Ref c' => ShmStep.keeps_bodies c c' /\ Shm.sessions c' ⊆ Shm.sessions c
  | _, _ => False
  end.

Lemma zone_shrinks_refl z : zone_shrinks z z.
Proof. destruct z; [done | split; [apply ShmStep.keeps_refl | done]]. Qed.

Lemma zone_shrinks_trans z1 z2 z3 : zone_shrinks z1 z2 -> zone_shrinks z2 z3 -> zone_shrinks z1 z3.
Proof.
  destruct z1, z2, z3; try done. intros [A1 A2] [B1 B2]. split; [by eapply ShmStep.keeps_trans | by etrans].
Qed.

Lemma release_env now a s e :
  env_ok e -> Registry.sources (reg e) !! a = Some s ->
  exists z s', release now a e = Ret {| reg := Registry.put_source a s' (reg e); zone := z |} /\
    env_ok {| reg := Registry.put_source a s' (reg e); zone := z |} /\ same_source s s' /\
    publisher_kind s' = Registry.NGX_RTC_PUBLISHER_NONE /\ (holds_right s -> publishing s' = 0) /\ zone_shrinks (zone e) z /\
    jitter s' = jitter s /\ zone_quiet (zone e) z.
Proof.
  intros He Hs. pose proof (eo_zone _ He) as H3.
  unfold release, Registry.source_at. rewrite Hs, bind_Ret. unfold Publish.ngx_rtc_publish_release.
  change (Publish.l_publisher_kind (right_of s)) with (publisher_kind s).
  destruct (Z.eqb_spec (publisher_kind s) Shm.NGX_RTC_PUBLISHER_NONE) as [Hk | Hk].
  { rewrite bind_Ret. eexists (zone e), _. split; [reflexivity |]. split; [by eapply put_env |]. split; [done |].
    split; [done |]. split; [| split; [apply zone_shrinks_refl | split; [done | apply from_refl]]]. intros [Hk' _]. rewrite Hk in Hk'. done. }
  cbv zeta. destruct (zone e) as [| c] eqn:Ez.
  { rewrite bind_Ret. eexists NULL, _. split; [reflexivity |]. by split_and!; [eapply put_env | ..]. }
  change (Publish.l_name (Publish.unclaimed (right_of s))) with (name s).
  destruct (ShmStep.release_effect now (name s) (publisher_kind s) c H3) as (c1 & E1 & He1). rewrite E1, bind_Ret.
  destruct (ShmStep.source_remove_effect now (name s) c1 (ShmStep.ef_inv _ _ _ _ He1)) as (c2 & E2 & He2).
  destruct (ShmInv.release_publish_inv now c (name s) (publisher_kind s) H3) as (c1' & E1' & Hc1 & H1).
  assert (c1' = c1) as -> by congruence. destruct (ShmInv.source_remove_inv c1 (name s) Hc1) as (c2' & E2' & _ & H2).
  assert (c2' = c2) as -> by congruence.
  assert (Hq1 : zone_quiet (Ref c) (Ref c1) /\ Shm.sessions c1 = Shm.sessions c).
  { destruct H1 as [-> | (b & t & [Ht _] & _ & ->)]; [by split; [apply from_refl |] | split; [eapply quiet_put; [exact Ht |] | done]].
    unfold ShmInv.released. destruct (ShmInv.alone c b); [| done]. cbn. by destruct (_ =? 0). }
  assert (Hq2 : zone_quiet (Ref c1) (Ref c2) /\ Shm.sessions c2 = Shm.sessions c1).
  { destruct H2 as [-> | (b & t & _ & _ & _ & _ & Eso & Ese)]; [by split; [apply from_refl |] | split; [| done]].
    split; [rewrite Ese; by left |]. rewrite Eso. intros d u [_ Hu]%lookup_delete_Some. left. by exists u. }
  rewrite E2, !bind_Ret. eexists (Ref c2), _. split; [reflexivity |].
  destruct Hq1 as [Hq1 Es1], Hq2 as [Hq2 Es2].
  assert (Hsh : zone_shrinks (Ref c) (Ref c2)).
  { split; [eapply ShmStep.keeps_trans; eapply ShmStep.effect_keeps; [exact He1 | exact He2] | by rewrite Es2, Es1]. }
  split; [by eapply put_env; [| apply He2 | |] |]. split; [done |]. split; [done |]. split; [done |]. split; [exact Hsh |].
  split; [done | by apply (quiet_trans _ (Ref c1))].
Qed.

(** What a release does, exactly. *)
Definition given_up (s : ngx_rtc_source_t) : ngx_rtc_source_t := with_right (Publish.unclaimed (right_of s)) s.

Definition zone_given_up (now : Z) (n : octets) (kind : Z) (z : ptr shm) : outcome (ptr shm) :=
  match z with
  | NULL => Ret NULL
  | Ref c => c ← Shm.ngx_rtc_shm_source_release_publish now c n kind; c ← Shm.ngx_rtc_shm_source_remove c n; Ret (Ref c)
  end.

Lemma release_eq now a s e :
  Registry.sources (reg e) !! a = Some s -> publisher_kind s <> Shm.NGX_RTC_PUBLISHER_NONE ->
  release now a e = (z ← zone_given_up now (name s) (publisher_kind s) (zone e);
                     Ret {| reg := Registry.put_source a (given_up s) (reg e); zone := z |}).
Proof.
  intros Hs Hk. unfold release, Registry.source_at. rewrite Hs, bind_Ret. unfold Publish.ngx_rtc_publish_release.
  change (Publish.l_publisher_kind (right_of s)) with (publisher_kind s).
  destruct (Z.eqb_spec (publisher_kind s) Shm.NGX_RTC_PUBLISHER_NONE) as [| _]; [done |].
  cbv zeta. unfold zone_given_up. destruct (zone e) as [| c]; [done |].
  change (Publish.l_name (Publish.unclaimed (right_of s))) with (name s).
  destruct (Shm.ngx_rtc_shm_source_release_publish _ _ _ _) as [c1 |]; [rewrite !bind_Ret | done].
  by destruct (Shm.ngx_rtc_shm_source_remove _ _).
Qed.

(** Syncing reads through the cached pointer only when it is live. *)
Lemma whip_sync_env n o a s e :
  env_ok e -> Registry.sources (reg e) !! a = Some s -> name s = n -> holds_right s -> cached (zone e) n s ->
  exists z s', whip_sync n o a e = Ret {| reg := Registry.put_source a s' (reg e); zone := z |} /\
    env_ok {| reg := Registry.put_source a s' (reg e); zone := z |} /\
    zone_fixed (zone e) z /\ same_source s s' /\ holds_right s' /\ cached z n s' /\
    shm_src s' = shm_src s /\ (shm_src s = NULL -> z = zone e /\ s' = s) /\ zone_quiet (zone e) z.
Proof.
  intros He Hs Hn Hr Hc. pose proof (eo_zone _ He) as H3.
  assert (Hkeep : exists z s', Ret e = Ret {| reg := Registry.put_source a s' (reg e); zone := z |} /\
    env_ok {| reg := Registry.put_source a s' (reg e); zone := z |} /\
    zone_fixed (zone e) z /\ same_source s s' /\ holds_right s' /\ cached z n s' /\
    shm_src s' = shm_src s /\ (shm_src s = NULL -> z = zone e /\ s' = s) /\ zone_quiet (zone e) z).
  { exists (zone e), s. rewrite put_source_same by done.
    assert (E : {| reg := reg e; zone := zone e |} = e) by by destruct e. rewrite E.
    split_and!; try done; [apply zone_fixed_refl | apply from_refl]. }
  unfold whip_sync, Registry.source_at. rewrite Hs, bind_Ret.
  destruct (zone e) as [| c] eqn:Ez; [done |]. destruct (shm_src s) as [| b] eqn:Eb; [done |].
  unfold cached in Hc. rewrite Eb in Hc. destruct Hc as (t & Ht & Hp & Hk).
  unfold Shm.source_at. rewrite (proj1 Ht), bind_Ret.
  destruct (zone_set_pt c n (offered_video_pt o) (offered_audio_pt o) H3) as (c' & -> & Hc' & Hroom & Hkept & Hnm & Hq). rewrite bind_Ret.
  eexists (Ref c'), (synced t o s). split; [reflexivity |]. split_and!; try done.
  - by eapply put_env.
  - unfold cached. cbn. rewrite Eb. destruct (Hnm b t Ht) as (t' & Ht' & E1 & E2). exists t'. rewrite E1, E2. done.
Qed.

(** *** The publish request's input *)

Lemma gather_eq (c : HttpBody.chain) : forall pre b, zlen (octets_of c) <= zlen b ->
  gather c (pre ++ b) (zlen pre) = Ret ((pre ++ octets_of c) ++ zdrop (zlen (octets_of c)) b).
Proof.
  induction c as [| [| d] c IH]; intros pre b Hb; cbn [gather].
  - change (octets_of []) with (@nil Z). rewrite app_nil_r, zlen_nil. by rewrite zdrop_0.
  - by rewrite IH.
  - assert (E : octets_of (Ref d :: c) = HttpBody.data d ++ octets_of c) by done.
    rewrite E in *. rewrite zlen_app in Hb. pose proof (zlen_nonneg (HttpBody.data d)). pose proof (zlen_nonneg (octets_of c)).
    rewrite store_range_cursor, bind_Ret by (done || lia). rewrite <- zlen_app.
    rewrite IH by (rewrite zlen_zdrop; lia). rewrite zdrop_zdrop, zlen_app, <- !app_assoc by lia. done.
Qed.

Lemma whip_input_ok rcf b app stream g e :
  grants_ok g e ->
  exists r, whip_input rcf b app stream g = Ret r /\
    match r with
    | Err rc => rc ∈ [NGX_HTTP_BAD_REQUEST; NGX_HTTP_REQUEST_ENTITY_TOO_LARGE; NGX_HTTP_INTERNAL_SERVER_ERROR]
    | Ok (name, o) => Sdp.offer_fits o /\ exists n, c_str name = Ret n
    end.
Proof.
  intros Hg. unfold whip_input.
  assert (H400 : NGX_HTTP_BAD_REQUEST ∈ [NGX_HTTP_BAD_REQUEST; NGX_HTTP_REQUEST_ENTITY_TOO_LARGE; NGX_HTTP_INTERNAL_SERVER_ERROR]) by left.
  assert (H413 : NGX_HTTP_REQUEST_ENTITY_TOO_LARGE ∈ [NGX_HTTP_BAD_REQUEST; NGX_HTTP_REQUEST_ENTITY_TOO_LARGE; NGX_HTTP_INTERNAL_SERVER_ERROR]) by (right; left).
  assert (H500 : NGX_HTTP_INTERNAL_SERVER_ERROR ∈ [NGX_HTTP_BAD_REQUEST; NGX_HTTP_REQUEST_ENTITY_TOO_LARGE; NGX_HTTP_INTERNAL_SERVER_ERROR]) by (right; right; left).
  destruct (request_chain b) as [c | rc] eqn:Ec.
  2: { eexists. split; [done |]. unfold request_chain in Ec. destruct b as [| b]; [by injection Ec as <- |].
       destruct (bufs b), (temp_file b); try done; by injection Ec as <-. }
  unfold try at 1. rewrite bind_Ret. destruct app as [| app]; [by eexists |]. destruct stream as [| stream]; [by eexists |].
  destruct (Signal.whip_args_refused app stream) eqn:Ea; [by eexists |].
  destruct (request_length rcf c) as [k | rc] eqn:Ek.
  2: { eexists. split; [done |]. unfold request_length in Ek. destruct (HttpBody.body_length c 0); [by injection Ek as <- |].
       destruct (_ <? _); [by injection Ek as <- | done]. }
  unfold try at 1. rewrite bind_Ret. destruct (negb (g_offer_buf g)); [by eexists |].
  assert (Hk : k = zlen (octets_of c)).
  { unfold request_length in Ek. destruct (HttpBody.body_length c 0) eqn:E; [done |].
    destruct (_ <? _); [done |]. injection Ek as <-. by apply (body_length_eq c 0). }
  pose proof (zlen_nonneg (octets_of c)).
  assert (Hz : zlen (zeros (k + 1)) = k + 1) by (apply zlen_zeros; lia).
  pose proof (gather_eq c [] (zeros (k + 1)) ltac:(lia)) as E. change (zlen []) with 0 in E. cbn [Datatypes.app] in E.
  rewrite E, bind_Ret. clear E. rewrite store_cursor, bind_Ret by (done || (rewrite zlen_zdrop; lia)).
  rewrite Signal.whip_name_eq, bind_Ret by (done || apply Hg). rewrite <- app_assoc.
  rewrite load_range_prefix, bind_Ret by done.
  destruct (request_offer_ok (octets_of c) g) as ([o | rc] & -> & Ho); eexists; (split; [reflexivity |]); [| by rewrite Ho].
  split; [done |].
  set (w := app ++ lit "/" ++ stream ++ 0 :: _).
  destruct (Signal.strlen_safe w 0 (zlen (app ++ lit "/" ++ stream))) as (t & Et & _ & _ & Lt).
  - pose proof (zlen_nonneg (app ++ lit "/" ++ stream)). lia.
  - unfold w. rewrite !app_assoc. rewrite lookup_app_r by (unfold zlen; rewrite ?length_app; lia).
    rewrite <- !app_assoc. replace (Z.to_nat (zlen (app ++ lit "/" ++ stream)) - length (app ++ lit "/" ++ stream))%nat with 0%nat
      by (unfold zlen; lia). done.
  - exists t. unfold c_str. by rewrite Et, bind_Ret.
Qed.

(** *** The publish request *)

Lemma whip_skeleton_env g x n s e :
  env_ok e -> zone_grants g (zone e) -> Registry.sessions (reg e) !! x = Some s ->
  exists e' i, whip_skeleton g x n e = Ret e' /\ env_ok e' /\
    Registry.sources (reg e') = Registry.sources (reg e) /\
    Registry.sessions (reg e') = <[x := set_id i s]> (Registry.sessions (reg e)) /\
    Registry.queues (reg e') = Registry.queues (reg e) /\
    (ice_ufrag s = ufrag_of g -> zone_residue g n (zone e) (zone e')).
Proof.
  intros He Hg Hs. pose proof He as [H1 H2 H3].
  assert (Hsame : Registry.sessions (reg e) = <[x := set_id (id s) s]> (Registry.sessions (reg e))).
  { by rewrite insert_id by (rewrite Hs; by destruct s). }
  unfold whip_skeleton. destruct (zone e) as [| c] eqn:Ez; [exists e, (id s); rewrite Ez; by split_and! |].
  destruct Hg as (Hg & -> & Hr). destruct (Hg c eq_refl) as (G1 & G2 & G3).
  destruct (zone_source_get (Publish.s_alloc (g_zone_source g)) (g_now g) (Publish.s_v (g_zone_source g))
              (Publish.s_a (g_zone_source g)) c n H3 G1) as (p & c1 & E & Hc1 & [R1 R2] & _).
  assert (Hres : zone_residue g n (Ref c) (Ref c1)).
  { pose proof (from_source_get (Publish.s_alloc (g_zone_source g)) (g_now g) (Publish.s_v (g_zone_source g)) (Publish.s_a (g_zone_source g)) c n H3) as Hf.
    rewrite E in Hf. revert Hf. by apply from_mono. }
  rewrite E, bind_Ret. assert (He1 : env_ok (set_zone (Ref c1) e)) by by split.
  destruct p as [| b]; [by exists (set_zone (Ref c1) e), (id s) |].
  destruct (add_skeleton_env g x n s (set_zone (Ref c1) e) He1) as (e' & i & Ea & K1 & K2 & K3 & K4 & K5); [done | | done |].
  { cbn. intros c2 [= <-]. split; [intros y Hy; by apply R2, G2 | congruence]. }
  exists e', i. split_and!; try done. intros Hu. eapply residue_trans; [exact Hres | by apply K5].
Qed.

(** The registry after the session went again. *)
Lemma abandon_env g created n a x s src e e1 :
  env_ok e -> env_ok e1 ->
  Registry.sources (reg e1) !! a = Some src -> name src = n -> holds_right src ->
  Registry.sessions (reg e) !! x = None -> Registry.sessions (reg e1) = <[x := s]> (Registry.sessions (reg e)) ->
  q_link (Registry.sub_queue x) (Registry.queues (reg e1)) = Self ->
  (if created : bool then Registry.sources (reg e) !! a = None /\ audio_ctx src = NULL /\
     Registry.sources (reg e1) = <[a := src]> (Registry.sources (reg e)) else True) ->
  exists e' src', abandon g created n a x e1 = Ret e' /\ env_ok e' /\
    Registry.sessions (reg e') = Registry.sessions (reg e) /\
    publisher_kind src' = Registry.NGX_RTC_PUBLISHER_NONE /\ same_source src src' /\
    Registry.sources (reg e') = (if created then Registry.sources (reg e) else <[a := src']> (Registry.sources (reg e1))) /\
    zone_quiet (zone e1) (zone e').
Proof.
  intros He He1 Hsrc Hn Hr Hx Hse Hq Hc. unfold abandon.
  destruct (release_env (g_now g) a src e1 He1 Hsrc) as (z & src' & -> & He2 & Hss & Hk & Hp & _ & _ & Hq2). rewrite bind_Ret.
  set (e2 := {| reg := _; zone := z |}) in *. specialize (Hp Hr).
  destruct (Registry.session_free_ok Shm.ngx_crc32_long (reg e2) x s) as (r & Er & Hrok & Hso & Hoth & _ & _); [apply He2 | | done |].
  { cbn. by rewrite Hse, lookup_insert_eq. }
  rewrite Er, bind_Ret. set (e3 := set_reg _ e2).
  assert (He3 : env_ok e3).
  { split; cbn; [done | | apply He2]. rewrite Hso. apply He2. }
  assert (Hse3 : Registry.sessions (reg e3) = Registry.sessions (reg e)).
  { cbn. apply map_eq. intros y. destruct (decide (y = x)) as [-> | Hne]; [by rewrite lookup_delete_eq |].
    rewrite lookup_delete_ne by done. rewrite Hoth by done. cbn. rewrite Hse. by rewrite lookup_insert_ne. }
  assert (Hso3 : Registry.sources (reg e3) = <[a := src']> (Registry.sources (reg e1))) by (cbn; by rewrite Hso).
  destruct (roll_back_env created n a src' e e3 He He3 Hse3) as (e4 & E4 & He4 & Hse4 & Hso4).
  { intros ->. destruct Hc as (Ha & Hctx & Hins), Hss as (S1 & S2 & S3 & S3g).
    split_and!; [done | by rewrite Hso3, Hins, insert_insert_eq | congruence | done | congruence]. }
  rewrite E4. exists e4, src'. split_and!; try done; [rewrite Hso4; by destruct created |].
  by rewrite (roll_back_zone created n e3 e4 E4).
Qed.

(** A publish that was refused after its source was looked up: no session, no source that was
    not there, the others as they were, and no right of WHIP on the name. *)
Definition whip_undone n (e e' : env) : Prop :=
  Registry.sessions (reg e') = Registry.sessions (reg e) /\
  (forall a, match Registry.sources (reg e) !! a, Registry.sources (reg e') !! a with
        | Some s, Some s' => same_source s s' /\ (name s <> n -> s' = s)
        | None, None => True
        | _, _ => False
        end) /\
  (forall a s, Registry.sources (reg e') !! a = Some s -> name s = n -> publisher_kind s <> Registry.NGX_RTC_PUBLISHER_WHIP).

Lemma undone_put n a s s' e e' :
  env_ok e -> Registry.sessions (reg e') = Registry.sessions (reg e) ->
  Registry.sources (reg e) !! a = Some s -> name s = n -> same_source s s' ->
  publisher_kind s' <> Registry.NGX_RTC_PUBLISHER_WHIP ->
  Registry.sources (reg e') = <[a := s']> (Registry.sources (reg e)) -> whip_undone n e e'.
Proof.
  intros He Hse Hs Hn Hss Hk Hso. split; [done |]. rewrite Hso. split.
  - intros d. destruct (decide (d = a)) as [-> | Hne]; [by rewrite Hs, lookup_insert_eq |].
    rewrite lookup_insert_ne by done. by destruct (Registry.sources (reg e) !! d).
  - intros d t [[<- <-] | [Hne Ht]]%lookup_insert_Some Htn; [done |].
    destruct Hne. by apply (Registry.ok_src_uniq _ _ (eo_reg _ He) a d s t Hs Ht); rewrite Htn.
Qed.

Lemma undone_same n e e' :
  env_ok e -> Registry.sessions (reg e') = Registry.sessions (reg e) ->
  Registry.sources (reg e') = Registry.sources (reg e) ->
  (forall a s, Registry.sources (reg e) !! a = Some s -> name s <> n) -> whip_undone n e e'.
Proof.
  intros He Hse Hso Hno. split; [done |]. rewrite Hso. split.
  - intros d. by destruct (Registry.sources (reg e) !! d).
  - intros d t Ht Htn. by destruct (Hno d t Ht).
Qed.

Definition whip_outcome (rcf : ngx_rtc_http_loc_conf_t) (b : ptr ngx_http_request_body_t) (app stream : ptr octets)
    (g : grants) (e e' : env) (rep : reply) : Prop :=
  (exists rc, rep = Finalize rc /\
     rc ∈ [NGX_HTTP_BAD_REQUEST; NGX_HTTP_REQUEST_ENTITY_TOO_LARGE; NGX_HTTP_INTERNAL_SERVER_ERROR] /\ e' = e) \/
  exists name o n, whip_input rcf b app stream g = ok (name, o) /\ c_str name = Ret n /\
    ((exists rc, rep = Finalize rc /\ rc ∈ [NGX_HTTP_CONFLICT; NGX_HTTP_INTERNAL_SERVER_ERROR] /\ whip_undone n e e' /\
        zone_residue g n (zone e) (zone e') /\ (rc = NGX_HTTP_CONFLICT \/ g_session g = NULL -> zone_quiet (zone e) (zone e'))) \/
     exists a s src, joined g 1 name e e' a s src /\ holds_right src /\
       rep = Response NGX_HTTP_CREATED (lit "application/sdp")
               (SdpAnswer.text (SdpAnswer.answer_lines (Signal.whip_cfg (info_of rcf g s src) o)))).

Lemma reset_jitter_same tun s : same_source s (reset_jitter tun s) /\
  publisher_kind (reset_jitter tun s) = publisher_kind s /\ publishing (reset_jitter tun s) = publishing s /\
  shm_src (reset_jitter tun s) = shm_src s.
Proof. by split_and!. Qed.

(** The publisher's session is opened and its skeleton added. *)
Lemma whip_open_env g o a x n src e :
  env_ok e -> zone_grants g (zone e) ->
  Registry.sources (reg e) !! a = Some src -> Registry.sessions (reg e) !! x = None ->
  exists s r e' i, filled g o a 1 src = Ret s /\ Registry.session_open Shm.ngx_crc32_long x s (reg e) = Ret r /\
    whip_skeleton g x n (set_reg r e) = Ret e' /\ env_ok e' /\
    let s' := set_id i (set_sn_str_len (zlen (ice_ufrag s)) s) in
    Registry.sources (reg e') = Registry.sources (reg e) /\
    Registry.sessions (reg e') = <[x := s']> (Registry.sessions (reg e)) /\
    (source s' = Ref a /\ ice_ufrag s' = ufrag_of g /\ ice_pwd s' = pwd_of g /\ sess_publishing s' = 1 /\
     ngx_rtc_session_fsm_get_state (Ref (fsm s')) = Ret NGX_RTC_SESSION_STATE_NEW) /\
    q_link (Registry.sub_queue x) (Registry.queues (reg e')) = Self /\ zone_residue g n (zone e) (zone e').
Proof.
  intros He Hgr Hsrc Hx.
  destruct (opened_env g o a x 1 src e He Hsrc Hx) as (s & r & Ef & Eo & He1 & Hso & Hse & Hq & Hj).
  destruct (whip_skeleton_env g x n (set_sn_str_len (zlen (ice_ufrag s)) s) (set_reg r e))
    as (e' & i & Ea & He' & Hso' & Hse' & Hq' & Hres); [done | done | cbn; by rewrite Hse, lookup_insert_eq |].
  exists s, r, e', i. cbv zeta. split_and!; try done; try apply Hj; [| | | by apply Hres, Hj].
  - rewrite Hso'. apply Hso.
  - rewrite Hse'. cbn. by rewrite Hse, insert_insert_eq.
  - by rewrite Hq'.
Qed.

(** The source of the request's name: there before, or made by the request. *)
Definition looked_up n (created : bool) (a : Z) (s : ngx_rtc_source_t) (e e1 : env) : Prop :=
  Registry.sessions (reg e1) = Registry.sessions (reg e) /\
  Registry.sources (reg e1) !! a = Some s /\ name s = n /\
  if created then Registry.sources (reg e) !! a = None /\
    Registry.sources (reg e1) = <[a := set_name n zero_source]> (Registry.sources (reg e))
  else e1 = e.

Lemma looked_up_new n a s e e1 :
  env_ok e1 -> looked_up n true a s e e1 ->
  s = set_name n zero_source /\ forall d t, Registry.sources (reg e) !! d = Some t -> name t <> n.
Proof.
  intros He1 (Hse & Hs & Hn & Ha & Hso). split; [rewrite Hso, lookup_insert_eq in Hs; congruence |].
  intros d t Ht Htn. assert (Hd : Registry.sources (reg e1) !! d = Some t) by (rewrite Hso, lookup_insert_ne; [done | congruence]).
  assert (d = a) by (apply (Registry.ok_src_uniq _ _ (eo_reg _ He1) d a t s Hd Hs); congruence). congruence.
Qed.

Lemma made_unused n (created : bool) a s s' e e1 e2 :
  env_ok e1 -> looked_up n created a s e e1 -> same_source s s' -> (publishing s' = 0 \/ created = false) ->
  Registry.sources (reg e2) = <[a := s']> (Registry.sources (reg e1)) ->
  created = true -> Registry.sources (reg e) !! a = None /\
    Registry.sources (reg e2) = <[a := s']> (Registry.sources (reg e)) /\
    name s' = n /\ publishing s' = 0 /\ audio_ctx s' = NULL.
Proof.
  intros He1 Hl (S1 & S2 & S3) Hpub Hso2 ->. destruct (looked_up_new n a s e e1 He1 Hl) as [-> _].
  destruct Hl as (_ & _ & _ & Ha & Hso). destruct Hpub as [Hpub | Hpub]; [| done].
  split_and!; [done | by rewrite Hso2, Hso, insert_insert_eq | by rewrite S1 | done | by rewrite S2].
Qed.

(** What the roll-back leaves once the source's record is [s'] and no session was opened. *)
Lemma undone_by n (created : bool) a s s' e e1 e2 e3 :
  env_ok e -> env_ok e1 -> looked_up n created a s e e1 -> same_source s s' ->
  publisher_kind s' <> Registry.NGX_RTC_PUBLISHER_WHIP ->
  Registry.sources (reg e2) = <[a := s']> (Registry.sources (reg e1)) ->
  Registry.sessions (reg e3) = Registry.sessions (reg e) ->
  Registry.sources (reg e3) = (if created then Registry.sources (reg e) else Registry.sources (reg e2)) ->
  whip_undone n e e3.
Proof.
  intros He He1 Hl Hss Hk Hso2 Hse3 Hso3. destruct created.
  - destruct (looked_up_new n a s e e1 He1 Hl) as [_ Hno]. by apply undone_same.
  - destruct Hl as (_ & Hs & Hn & ->). apply (undone_put n a s s'); try done. by rewrite Hso3, Hso2.
Qed.

Lemma whip_fail n (created : bool) a s s' e e1 e2 :
  env_ok e -> env_ok e1 -> looked_up n created a s e e1 -> env_ok e2 ->
  Registry.sessions (reg e2) = Registry.sessions (reg e) ->
  Registry.sources (reg e2) = <[a := s']> (Registry.sources (reg e1)) -> same_source s s' ->
  publisher_kind s' <> Registry.NGX_RTC_PUBLISHER_WHIP -> publishing s' = 0 \/ created = false ->
  exists e3, roll_back created n e2 = Ret e3 /\ env_ok e3 /\ whip_undone n e e3 /\ zone e3 = zone e2.
Proof.
  intros He He1 Hl He2 Hse2 Hso2 Hss Hk Hpub.
  destruct (roll_back_env created n a s' e e2 He He2 Hse2 (made_unused n created a s s' e e1 e2 He1 Hl Hss Hpub Hso2))
    as (e3 & E3 & He3 & Hse3 & Hso3).
  exists e3. split_and!; [done | done | by apply (undone_by n created a s s' e e1 e2 e3) | by eapply roll_back_zone].
Qed.

(** The answer of an open publish session. *)
Lemma whip_answer_eq rcf g e e2 o s src a :
  grants_ok g e -> Sdp.offer_fits o -> env_ok e2 -> Registry.sources (reg e2) !! a = Some src ->
  ice_ufrag s = ufrag_of g -> ice_pwd s = pwd_of g ->
  answer (Signal.whip_cfg (info_of rcf g s src) o) g =
    ok (SdpAnswer.text (SdpAnswer.answer_lines (Signal.whip_cfg (info_of rcf g s src) o))).
Proof.
  intros Hg Ho He2 Hsrc Hu Hw. apply (sent_answer_eq _ g e Hg).
  apply Signal.both_generated; [eapply info_fits_of; [done | by eapply (eo_profile _ He2) | done | done] | done | apply Hg].
Qed.

(** The reply of an open publish session, or its undoing. *)
Lemma whip_reply_env rcf g o (created : bool) n a x s0 s src e e1 e2 :
  env_ok e -> env_ok e1 -> looked_up n created a s0 e e1 -> grants_ok g e -> Sdp.offer_fits o -> env_ok e2 ->
  same_source s0 src -> holds_right src ->
  Registry.sessions (reg e) !! x = None -> Registry.sessions (reg e2) = <[x := s]> (Registry.sessions (reg e)) ->
  Registry.sources (reg e2) = <[a := src]> (Registry.sources (reg e1)) ->
  q_link (Registry.sub_queue x) (Registry.queues (reg e2)) = Self ->
  ice_ufrag s = ufrag_of g -> ice_pwd s = pwd_of g ->
  exists rep e', whip_reply rcf g o created n a x e2 = Ret (rep, e') /\ env_ok e' /\
    ((rep = Finalize NGX_HTTP_INTERNAL_SERVER_ERROR /\ whip_undone n e e' /\ zone_quiet (zone e2) (zone e')) \/
     e' = e2 /\ rep = Response NGX_HTTP_CREATED (lit "application/sdp")
               (SdpAnswer.text (SdpAnswer.answer_lines (Signal.whip_cfg (info_of rcf g s src) o)))).
Proof.
  intros He He1 Hl Hg Ho He2 Hss Hr Hx Hse2 Hso2 Hq Hu Hw. unfold whip_reply, Registry.session_at, Registry.source_at.
  assert (Hsrc : Registry.sources (reg e2) !! a = Some src) by by rewrite Hso2, lookup_insert_eq.
  rewrite Hse2, lookup_insert_eq, bind_Ret, Hsrc, bind_Ret.
  rewrite (whip_answer_eq rcf g e e2 o s src a Hg Ho He2 Hsrc Hu Hw). unfold ok. rewrite bind_Ret.
  destruct (g_temp_buf g); cbn [negb]; [eexists _, _; split; [reflexivity |]; split; [done | by right] |].
  destruct (abandon_env g created n a x s src e e2) as (e3 & src' & -> & He3 & Hse3 & Hk & Hss' & Hso3 & Hq3); try done.
  { destruct Hl as (_ & _ & <- & _). apply Hss. }
  { destruct created; [| done]. destruct (looked_up_new n a s0 e e1 He1 Hl) as [-> _]. destruct Hl as (_ & _ & _ & Ha & Hso).
    split_and!; [done | apply Hss | by rewrite Hso2, Hso, insert_insert_eq]. }
  rewrite bind_Ret. eexists _, _. split; [reflexivity |]. split; [done |]. left. split; [done |]. split; [| done].
  apply (undone_by n created a s0 src' e e1 (set_reg (Registry.put_source a src' (reg e2)) e2) e3); try done.
  - destruct Hss as (S1 & S2 & S3 & S3g), Hss' as (S4 & S5 & S6 & S6g). split_and!; congruence.
  - by rewrite Hk.
  - cbn. by rewrite Hso2, insert_insert_eq.
Qed.

Lemma same_source_trans s1 s2 s3 : same_source s1 s2 -> same_source s2 s3 -> same_source s1 s3.
Proof. intros (S1 & S2 & S3 & S3g) (S4 & S5 & S6 & S6g). split_and!; congruence. Qed.

(** Past the claim: the publish is open and answered, or undone. *)
Lemma whip_open_spec rcf tun g o (created : bool) n a s1 s2 e e1 e2 :
  env_ok e -> env_ok e1 -> looked_up n created a s1 e e1 -> grants_ok g e -> Sdp.offer_fits o -> env_ok e2 ->
  Registry.sessions (reg e2) = Registry.sessions (reg e) -> Registry.sources (reg e2) !! a = Some s2 ->
  Registry.sources (reg e2) = <[a := s2]> (Registry.sources (reg e1)) ->
  zone_grants g (zone e2) -> same_source s1 s2 -> holds_right s2 -> cached (zone e2) n s2 ->
  exists rep e', whip_open rcf tun g o created n a e2 = Ret (rep, e') /\ env_ok e' /\
    ((rep = Finalize NGX_HTTP_INTERNAL_SERVER_ERROR /\ whip_undone n e e' /\ zone_residue g n (zone e2) (zone e') /\
      (g_session g = NULL -> zone_quiet (zone e2) (zone e'))) \/
     exists s src, forall nm, c_str nm = Ret n -> joined g 1 nm e e' a s src /\ holds_right src /\
       rep = Response NGX_HTTP_CREATED (lit "application/sdp")
               (SdpAnswer.text (SdpAnswer.answer_lines (Signal.whip_cfg (info_of rcf g s src) o)))).
Proof.
  intros He He1 Hl Hg Ho He2 Hse2 Hs2 Hso2 Hg2 Hss2 Hr2 Hc2. pose proof Hl as (_ & _ & Hname & _). unfold whip_open.
  destruct (whip_sync_env n o a s2 e2 He2 Hs2) as (z3 & s3 & -> & He3 & Hz3 & Hss3 & Hr3 & Hc3 & _ & _ & Hq3); [| done | done |].
  { destruct Hss2 as (-> & _). done. }
  rewrite bind_Ret. set (e3 := {| reg := _; zone := z3 |}) in *.
  assert (Hs3 : Registry.sources (reg e3) !! a = Some s3) by by cbn; rewrite lookup_insert_eq.
  rewrite (source_is a s3 _ Hs3), bind_Ret. cbv zeta.
  set (s4 := reset_jitter tun s3). set (e4 := set_reg _ e3).
  assert (He4 : env_ok e4) by by apply (put_source_env a s3 s4 e3).
  assert (Hso4 : Registry.sources (reg e4) = <[a := s4]> (Registry.sources (reg e1))) by by cbn; rewrite Hso2, !insert_insert_eq.
  assert (Hss4 : same_source s1 s4) by by apply (same_source_trans s1 s2); [| apply (same_source_trans s2 s3)].
  assert (Hse4 : Registry.sessions (reg e4) = Registry.sessions (reg e)) by done.
  assert (Hs4 : Registry.sources (reg e4) !! a = Some s4) by by rewrite Hso4, lookup_insert_eq.
  destruct (g_session g) as [| x] eqn:Ex.
  { destruct (release_env (g_now g) a s4 e4 He4 Hs4) as (z5 & s5 & -> & He5 & Hss5 & Hk5 & Hp5 & _ & _ & Hq5). rewrite bind_Ret.
    set (e5 := {| reg := _; zone := z5 |}) in *.
    destruct (whip_fail n created a s1 s5 e e1 e5) as (e6 & -> & He6 & Hun & Ez6); try done.
    - cbn. by rewrite Hso2, !insert_insert_eq.
    - by apply (same_source_trans s1 s4).
    - by rewrite Hk5.
    - left. by apply Hp5.
    - assert (Hq : zone_quiet (zone e2) (zone e6)) by (rewrite Ez6; by apply (quiet_trans _ z3)).
      rewrite bind_Ret. eexists _, _. split; [reflexivity |]. split; [done | left; split_and!; [done | done | by apply quiet_from | done]]. }
  destruct (whip_open_env g o a x n s4 e4 He4 (zone_fixed_grants g _ _ Hz3 Hg2) Hs4)
    as (s & r & e5 & i & Ef & Eo & Ea & He5 & Hso5 & Hse5 & Hj & Hq5 & Hres5).
  { rewrite Hse4. by apply (go_session _ _ Hg). }
  cbv zeta in Hse5, Hj. set (s' := set_id i _) in *. rewrite Ef, bind_Ret, Eo, bind_Ret, Ea, bind_Ret.
  destruct Hj as (J1 & J2 & J3 & J4 & J5).
  destruct (whip_reply_env rcf g o created n a x s1 s' s4 e e1 e5) as (rep & e6 & Er & He6 & Hout); try done.
  { by apply (go_session _ _ Hg). }
  { by rewrite Hse5, Hse4. }
  { by rewrite Hso5. }
  rewrite Er. exists rep, e6. split; [done |]. split; [done |].
  destruct Hout as [(-> & Hun & Hq6) | (-> & ->)]; [left; split_and!; try done |].
  { eapply residue_trans; [apply quiet_from, Hq3 |]. eapply residue_trans; [exact Hres5 | by apply quiet_from]. }
  right. exists s', s4. intros nm En. split_and!; [| done | done].
  split; [exists x; split; [done | by rewrite Hse5, Hse4] |]. split; [| by split_and!].
  split_and!; [done | by rewrite Hso5 | rewrite En]. by destruct Hss4 as [-> _]; rewrite Hname.
Qed.

Lemma whip_request_spec rcf tun b app stream g e :
  env_ok e -> grants_ok g e ->
  exists rep e', ngx_rtc_http_whip_body_handler rcf tun b app stream g e = Ret (rep, e') /\ env_ok e' /\
    whip_outcome rcf b app stream g e e' rep.
Proof.
  intros He Hg. unfold ngx_rtc_http_whip_body_handler.
  destruct (whip_input_ok rcf b app stream g e Hg) as ([[nm o] | rc] & Ei & Hin); rewrite Ei, bind_Ret.
  2: { eexists _, _. split; [reflexivity |]. split; [done |]. left. by exists rc. }
  destruct Hin as (Ho & n & En). rewrite En, bind_Ret.
  destruct (source_create_env (g_source g) n e He (go_source _ _ Hg)) as (p & created & e1 & -> & He1 & Hz1 & Hse1 & Hp).
  destruct p as [| a].
  { destruct Hp as [_ ->]. eexists _, _. split; [reflexivity |]. split; [done |]. left. eexists.
    split_and!; [done | by right; right; left | done]. }
  destruct Hp as (s1 & Hs1 & Hname & Hcase).
  assert (Hl : looked_up n created a s1 e e1) by by split_and!.
  assert (Hrep : forall rc e3, rc ∈ [NGX_HTTP_CONFLICT; NGX_HTTP_INTERNAL_SERVER_ERROR] -> env_ok e3 -> whip_undone n e e3 -> zone_quiet (zone e) (zone e3) ->
    exists rep e', Ret (Finalize rc, e3) = Ret (rep, e') /\ env_ok e' /\ whip_outcome rcf b app stream g e e' rep).
  { intros rc e3 Hrc He3 Hun Hq. eexists _, _. split; [reflexivity |]. split; [done |]. right. exists nm, o, n.
    split_and!; [done | done |]. left. exists rc. split_and!; [done | done | done | by apply quiet_from | done]. }
  rewrite (source_is a s1 _ Hs1), bind_Ret.
  destruct (Z.eqb_spec (publisher_kind s1) Registry.NGX_RTC_PUBLISHER_RTMP) as [Hrt | Hrt].
  { destruct (whip_fail n created a s1 s1 e e1 e1) as (e3 & -> & He3 & Hun & Ez3); try done.
    - by rewrite insert_id.
    - by rewrite Hrt.
    - right. destruct created; [| done]. by destruct (looked_up_new n a s1 e e1 He1 Hl) as (-> & _).
    - rewrite bind_Ret. apply Hrep; [by left | done.. |]. rewrite Ez3, Hz1. apply from_refl. }
  destruct (claim_env g a s1 e1 He1 Hs1) as (rc & z2 & s2 & -> & He2 & Hz2 & Hq2 & Hss2 & Hcl). rewrite bind_Ret.
  rewrite Hname in Hcl. rewrite Hz1 in Hz2, Hq2. set (e2 := {| reg := _; zone := z2 |}) in *.
  destruct Hcl as [(-> & Hk2 & Hp2) | (-> & Hr2 & Hc2)]; cbn [Z.eqb Pos.eqb Shm.NGX_BUSY Shm.NGX_OK].
  { destruct (whip_fail n created a s1 s2 e e1 e2) as (e3 & -> & He3 & Hun & Ez3); try done.
    - by rewrite Hk2.
    - by left.
    - rewrite bind_Ret. apply Hrep; [by left | done.. |]. by rewrite Ez3. }
  destruct (whip_open_spec rcf tun g o created n a s1 s2 e e1 e2) as (rep & e6 & Er & He6 & Hout); try done.
  { cbn. by rewrite lookup_insert_eq. }
  { by apply (zone_fixed_grants g (zone e)); [| apply Hg]. }
  rewrite Er. exists rep, e6. split; [done |]. split; [done |]. right. exists nm, o, n. split_and!; [done | done |].
  destruct Hout as [(-> & Hun & Hres & Hnos) | (s & src & Hj)].
  { left. eexists. split_and!; [done | by right; left | done | by eapply residue_trans; [apply quiet_from |] |].
    intros [| Hx]; [done |]. by eapply quiet_trans; [| apply Hnos]. }
  right. exists a, s, src. by apply Hj.
Qed.

(** *** Who holds the name *)

Lemma claim_busy g a s e c d t :
  env_ok e -> Registry.sources (reg e) !! a = Some s -> zone e = Ref c -> ShmInv.named c (name s) d t ->
  ShmInv.busy Registry.NGX_RTC_PUBLISHER_WHIP t = true ->
  exists s', claim g a e = Ret (Shm.NGX_BUSY, set_reg (Registry.put_source a s' (reg e)) e) /\
    same_source s s' /\ publisher_kind s' = Registry.NGX_RTC_PUBLISHER_NONE /\ publishing s' = 0.
Proof.
  intros He Hs Ez Hn Hb. pose proof (eo_zone _ He) as H3. rewrite Ez in H3.
  unfold claim. rewrite (source_is a s _ Hs), bind_Ret. unfold Publish.ngx_rtc_publish_claim. rewrite Ez.
  change (Publish.l_name (right_of s)) with (name s).
  rewrite (ShmInv.try_publish_at (g_now g) c (name s) _ d t H3 Hn), Hb, !bind_Ret.
  eexists. split; [unfold set_reg; cbn; by rewrite Ez |]. done.
Qed.

(** Without a source of the name in the zone, a claim is granted locally and nowhere else. *)
Lemma claim_unknown g a s e c :
  env_ok e -> Registry.sources (reg e) !! a = Some s -> zone e = Ref c -> (forall d t, ~ ShmInv.named c (name s) d t) ->
  claim g a e = Ret (Shm.NGX_OK, set_reg (Registry.put_source a
    (s |> set_publisher_kind Registry.NGX_RTC_PUBLISHER_WHIP |> set_publishing 1 |> set_shm_src NULL
       |> set_shm_sync_ms (shm_sync_ms s)) (reg e)) e).
Proof.
  intros He Hs Ez Hno. pose proof (eo_zone _ He) as H3. rewrite Ez in H3.
  unfold claim. rewrite (source_is a s _ Hs), bind_Ret. unfold Publish.ngx_rtc_publish_claim. rewrite Ez.
  change (Publish.l_name (right_of s)) with (name s).
  destruct (ShmInv.lookup_cases c (name s) H3) as [(d & t & Hn & _) | [_ El]]; [by destruct (Hno d t) |].
  assert (E : Shm.ngx_rtc_shm_source_try_publish (g_now g) c (name s) Registry.NGX_RTC_PUBLISHER_WHIP = Ret (Shm.NGX_ERROR, c)).
  { unfold Shm.ngx_rtc_shm_source_try_publish. rewrite El. by destruct (negb _). }
  rewrite E, !bind_Ret. unfold set_reg. cbn. by rewrite Ez.
Qed.

(** The skeleton brings the source into the zone, unpublished. *)
Lemma whip_skeleton_zone g x n s e c d y :
  env_ok e -> zone e = Ref c -> Shm.valid_name n = true -> (forall d t, ~ ShmInv.named c n d t) ->
  Registry.sessions (reg e) !! x = Some s ->
  Publish.s_alloc (g_zone_source g) = Ref d -> Shm.sources c !! d = None ->
  (g_zone_session g).1 = Ref y -> Shm.sessions c !! y = None -> Shm.next_session_id c < 2 ^ 64 - 1 ->
  exists e' c' t, whip_skeleton g x n e = Ret e' /\ zone e' = Ref c' /\ ShmInv.named c' n d t /\ Shm.publishing t = 0 /\
    Shm.publisher_kind t = Registry.NGX_RTC_PUBLISHER_NONE.
Proof.
  intros He Ez Hv Hno Hs Ea Hd Ey Hy Hid. pose proof (eo_zone _ He) as H3. rewrite Ez in H3.
  unfold whip_skeleton. rewrite Ez, Ea. cbv zeta.
  destruct (ShmInv.lookup_cases c n H3) as [(d' & t' & Hn & _) | [_ El]]; [by destruct (Hno d' t') |].
  unfold Shm.ngx_rtc_shm_source_get. rewrite Hv, El. cbn [negb Shm.slab_alloc]. rewrite !bind_Ret.
  set (t := Shm.new_source _ _ _ n). set (c1 := Shm.set_queues _ _).
  assert (Ht : Shm.sources c1 !! d = Some t) by by cbn; rewrite lookup_insert_eq.
  unfold add_skeleton. cbn [zone set_zone reg]. unfold Registry.session_at. rewrite Hs, bind_Ret, Ey.
  unfold Shm.ngx_rtc_shm_session_add. destruct (negb _); [rewrite bind_Ret; by eexists _, c1, t |].
  destruct (Shm.ngx_rtc_shm_source_locked_lookup c1 _) as [| b]; [rewrite bind_Ret; by eexists _, c1, t |].
  cbn [Shm.slab_alloc]. rewrite !bind_Ret. unfold Shm.session_at at 1. cbn [Shm.sessions Shm.set_queues].
  match goal with |- context [Shm.sessions ?m !! y] => set (c2 := m) end.
  destruct (Shm.sessions c2 !! y) as [u |] eqn:Eu; [| by cbn in Eu; rewrite lookup_insert_eq in Eu].
  rewrite bind_Ret. eexists _, _, t. by split_and!.
Qed.

(** C7: A play request goes out of bounds in one case only, and otherwise ends in one of two ways.
    It ends in an error code with the worker's registry as it was, SSRCs and payload types
    apart, whatever it had already made; or it leaves exactly one new session, in state NEW
    under the drawn ufrag and bound to the source of the requested name, and answers with the
    escaped SDP answer for that session, or with 500 and the session left behind when the
    buffers of the reply cannot be had.  The one case: the name in the URL takes all 127 octets,
    no terminator is written after it, and the octet the array held there is not zero.  It is
    given a slab that refuses again, after its sweep, what it refused. *)
Theorem play_request rcf b g e :
  env_ok e -> grants_ok g e ->
  (exists rep e', ngx_rtc_http_body_handler rcf b g e = Ret (rep, e') /\ env_ok e' /\ play_outcome rcf b g e e' rep) \/
  (ngx_rtc_http_body_handler rcf b g e = Fault /\ exists name o, play_input rcf b g = ok (name, o) /\ unterminated g name).
Proof. apply play_request_spec. Qed.


(** C33: A name the zone shows as published by another protocol is refused with 409 before
    anything is opened: the zone keeps its state and the worker's registry is rolled back. *)
Theorem whip_refused_when_held rcf tun b app stream g e e1 c nm o n a created d t :
  env_ok e -> grants_ok g e ->
  whip_input rcf b app stream g = ok (nm, o) -> c_str nm = Ret n ->
  source_create (g_source g) n e = (Ref a, created, e1) ->
  zone e = Ref c -> ShmInv.named c n d t -> ShmInv.busy Registry.NGX_RTC_PUBLISHER_WHIP t = true ->
  exists e', ngx_rtc_http_whip_body_handler rcf tun b app stream g e = Ret (Finalize NGX_HTTP_CONFLICT, e') /\
    env_ok e' /\ zone e' = zone e /\ whip_undone n e e'.
Proof.
  intros He Hg Ei En Ec Ez Hnm Hb. unfold ngx_rtc_http_whip_body_handler.
  rewrite Ei. unfold ok. rewrite bind_Ret, En, bind_Ret.
  destruct (source_create_env (g_source g) n e He (go_source _ _ Hg)) as (p & cr & e2 & E2 & He1 & Hz1 & Hse1 & Hp).
  rewrite Ec in E2. injection E2 as <- <- <-. rewrite Ec. destruct Hp as (s1 & Hs1 & Hname & Hcase).
  assert (Hl : looked_up n created a s1 e e1) by by split_and!.
  rewrite (source_is a s1 _ Hs1), bind_Ret.
  destruct (Z.eqb_spec (publisher_kind s1) Registry.NGX_RTC_PUBLISHER_RTMP) as [Hrt | Hrt].
  - destruct (whip_fail n created a s1 s1 e e1 e1) as (e3 & E3 & He3 & Hun & _); try done.
    { by rewrite insert_id. }
    { by rewrite Hrt. }
    { right. destruct created; [| done]. by destruct (looked_up_new n a s1 e e1 He1 Hl) as (-> & _). }
    rewrite E3, bind_Ret. exists e3. split_and!; [done | done | | done]. rewrite <- Hz1. by eapply roll_back_zone.
  - destruct (claim_busy g a s1 e1 c d t He1 Hs1) as (s2 & E2 & Hss & Hk & Hp); [by rewrite Hz1 | by rewrite Hname | done |].
    rewrite E2, bind_Ret. change (Shm.NGX_BUSY =? Shm.NGX_BUSY) with true. cbv iota.
    destruct (whip_fail n created a s1 s2 e e1 (set_reg (Registry.put_source a s2 (reg e1)) e1)) as (e3 & E3 & He3 & Hun & _); try done.
    { destruct Hss as (S1 & S2 & S3 & S3g). by apply (put_source_env a s1 s2 e1). }
    { by rewrite Hk. }
    { by left. }
    rewrite E3, bind_Ret. exists e3. split_and!; [done | done | | done].
    transitivity (zone e1); [| done]. by eapply (roll_back_zone created n (set_reg _ e1)).
Qed.

(** What an open publish sends, and leaves in the zone it was not claimed in. *)
Lemma whip_open_unclaimed rcf tun g o created n a s2 e e2 c x d y :
  grants_ok g e -> Sdp.offer_fits o -> env_ok e2 -> Registry.sessions (reg e2) = Registry.sessions (reg e) ->
  Registry.sources (reg e2) !! a = Some s2 -> shm_src s2 = NULL -> zone e = Ref c -> zone e2 = Ref c ->
  Shm.valid_name n = true -> (forall d t, ~ ShmInv.named c n d t) ->
  g_session g = Ref x -> Publish.s_alloc (g_zone_source g) = Ref d -> (g_zone_session g).1 = Ref y -> g_temp_buf g = true ->
  exists text e' c' t, whip_open rcf tun g o created n a e2 = Ret (Response NGX_HTTP_CREATED (lit "application/sdp") text, e') /\
    env_ok e' /\ Registry.sources (reg e') !! a = Some (reset_jitter tun s2) /\
    zone e' = Ref c' /\ ShmInv.named c' n d t /\ Shm.publishing t = 0 /\ Shm.publisher_kind t = Registry.NGX_RTC_PUBLISHER_NONE.
Proof.
  intros Hg Ho He2 Hse2 Hs2 Hsh Ez Ez2 Hv Hno Ex Ed Ey Et. unfold whip_open.
  assert (Esync : whip_sync n o a e2 = Ret e2) by (unfold whip_sync; by rewrite (source_is a s2 _ Hs2), bind_Ret, Ez2, Hsh).
  rewrite Esync, bind_Ret, (source_is a s2 _ Hs2), bind_Ret. cbv zeta.
  set (s3 := reset_jitter tun s2). set (e3 := set_reg _ e2).
  assert (Hs3 : Registry.sources (reg e3) !! a = Some s3) by by cbn; rewrite lookup_insert_eq.
  assert (He3 : env_ok e3) by by apply (put_source_env a s2 s3 e2).
  assert (Ez3 : zone e3 = Ref c) by done.
  assert (Hx : Registry.sessions (reg e3) !! x = None)
    by (change (Registry.sessions (reg e2) !! x = None); rewrite Hse2; by apply (go_session _ _ Hg)).
  rewrite Ex. pose proof (go_zone _ _ Hg) as Hgz. rewrite Ez in Hgz. pose proof (proj1 Hgz c eq_refl) as (G1 & G2 & G3).
  destruct (whip_open_env g o a x n s3 e3 He3) as (s & r & e4 & i & Ef & Eo & Ea & He4 & Hso4 & Hse4 & Hj & _);
    [by rewrite Ez3 | done | done |].
  cbv zeta in Hse4, Hj. destruct Hj as (_ & J2 & J3 & _).
  destruct (opened_env g o a x 1 s3 e3 He3 Hs3 Hx) as (s' & r' & Ef' & Eo' & Her & _ & Her2 & _).
  rewrite Ef in Ef'. injection Ef' as <-. rewrite Eo in Eo'. injection Eo' as <-.
  rewrite Ef, bind_Ret, Eo, bind_Ret, Ea, bind_Ret.
  destruct (whip_skeleton_zone g x n (set_sn_str_len (zlen (ice_ufrag s)) s) (set_reg r e3) c d y)
    as (e4' & c' & t & Ea' & Ezz & Hnt & Hpt & Hkt); try done.
  { cbn. by rewrite Her2, lookup_insert_eq. }
  { by apply G1. }
  { by apply G2. }
  rewrite Ea in Ea'. injection Ea' as <-. unfold whip_reply, Registry.session_at.
  assert (Hsrc : Registry.sources (reg e4) !! a = Some s3) by by rewrite Hso4.
  rewrite Hse4, lookup_insert_eq, bind_Ret, (source_is a s3 _ Hsrc), bind_Ret.
  rewrite (whip_answer_eq rcf g e e4 o _ s3 a Hg Ho He4 Hsrc J2 J3). unfold ok. rewrite bind_Ret, Et. cbn [negb].
  by eexists _, e4, c', t.
Qed.

(** C32: The publish request that brings a name into the zone never claims it there: the claim
    comes before the source is made, finds none and is granted locally only.  The request still
    answers 201, the worker mirrors nothing, and the zone shows the name as free, so that an RTMP
    publisher of any worker is granted the right as well. *)
Theorem whip_first_unclaimed rcf tun b app stream g e e1 c nm o n a created d x y s1 :
  env_ok e -> grants_ok g e ->
  whip_input rcf b app stream g = ok (nm, o) -> c_str nm = Ret n -> Shm.valid_name n = true ->
  source_create (g_source g) n e = (Ref a, created, e1) -> Registry.sources (reg e1) !! a = Some s1 ->
  publisher_kind s1 <> Registry.NGX_RTC_PUBLISHER_RTMP ->
  zone e = Ref c -> (forall d t, ~ ShmInv.named c n d t) ->
  g_session g = Ref x -> Publish.s_alloc (g_zone_source g) = Ref d -> (g_zone_session g).1 = Ref y -> g_temp_buf g = true ->
  exists text e' c' src t,
    ngx_rtc_http_whip_body_handler rcf tun b app stream g e = Ret (Response NGX_HTTP_CREATED (lit "application/sdp") text, e') /\
    Registry.sources (reg e') !! a = Some src /\ holds_right src /\ shm_src src = NULL /\
    zone e' = Ref c' /\ ShmInv.named c' n d t /\ Shm.publishing t = 0 /\
    forall now, exists c'', Shm.ngx_rtc_shm_source_try_publish now c' n Registry.NGX_RTC_PUBLISHER_RTMP = Ret (Shm.NGX_OK, c'').
Proof.
  intros He Hg Ei En Hv Ec Hs1 Hrt Ez Hno Ex Ed Ey Et. unfold ngx_rtc_http_whip_body_handler.
  rewrite Ei. unfold ok. rewrite bind_Ret, En, bind_Ret.
  destruct (source_create_env (g_source g) n e He (go_source _ _ Hg)) as (p & cr & e2 & E2 & He1 & Hz1 & Hse1 & Hp).
  rewrite Ec in E2. injection E2 as <- <- <-. rewrite Ec. destruct Hp as (s1' & Hs1' & Hname & _).
  rewrite Hs1 in Hs1'. injection Hs1' as <-. rewrite (source_is a s1 _ Hs1), bind_Ret.
  rewrite (proj2 (Z.eqb_neq _ _) Hrt).
  rewrite (claim_unknown g a s1 e1 c He1 Hs1), bind_Ret; [| by rewrite Hz1 | by rewrite Hname].
  set (s2 := set_shm_sync_ms _ _). set (e2 := set_reg _ e1). change (Shm.NGX_OK =? Shm.NGX_BUSY) with false. cbv iota.
  destruct (whip_input_ok rcf b app stream g e Hg) as (rr & Ei' & Hin). rewrite Ei in Ei'. injection Ei' as <-.
  destruct (whip_open_unclaimed rcf tun g o created n a s2 e e2 c x d y)
    as (text & e4 & c' & t & Eo & He4 & Hsrc & Ezz & Hnt & Hpt & Hkt); try done.
  { apply Hin. }
  { by apply (put_source_env a s1 s2 e1). }
  { cbn. by rewrite lookup_insert_eq. }
  { by rewrite <- Ez, <- Hz1. }
  exists text, e4, c', (reset_jitter tun s2), t. split_and!; try done.
  intros now. pose proof (eo_zone _ He4) as H4. rewrite Ezz in H4. eexists.
  rewrite (ShmInv.try_publish_at now c' n _ d t H4 Hnt). unfold ShmInv.busy. by rewrite Hkt.
Qed.

(** *** Who is closed *)

(** A kick marks the one session with the given id, and a disconnect every viewer of the
    given name, for their workers to close; anything else is answered 404 and changes nothing. *)
Theorem control_exact c k v id m n :
  ShmInv.shm_inv c -> ngx_rtc_http_arg_decoded k true = Ref v -> ngx_atoi v = id -> 0 < id ->
  ngx_rtc_http_arg_decoded m true = Ref n -> 0 < zlen n ->
  (exists rc c', ngx_rtc_http_kick_handler true k true (Ref c) = Ret (rc, Ref c') /\ ShmInv.shm_inv c' /\
     match rc with
     | 0 => exists x s, Shm.sessions c !! x = Some s /\ Shm.id s = id /\ c' = Shm.put_session x (Shm.set_close_requested 1 s) c
     | _ => rc = NGX_HTTP_NOT_FOUND /\ c' = c /\ forall x s, Shm.sessions c !! x = Some s -> Shm.id s <> id
     end) /\
  (exists rc c', ngx_rtc_http_disconnect_handler true m true (Ref c) = Ret (rc, Ref c') /\ ShmInv.shm_inv c' /\
     ShmInv.all_evolve c c' /\ ((forall a t, ~ ShmInv.named c n a t) -> rc = NGX_HTTP_NOT_FOUND /\ c' = c) /\
     forall a t, ShmInv.named c n a t -> rc = Shm.NGX_OK /\
       forall x, Shm.sub_queue x ∈ q_list (Shm.subscribers a) (Shm.queues c) ->
         exists u, Shm.sessions c' !! x = Some u /\ Shm.close_requested u = 1).
Proof.
  intros Hc Hk Hid Hpos Ha Hn.
  unfold ngx_rtc_http_kick_handler, ngx_rtc_http_disconnect_handler. rewrite Hk, Ha, Hid. cbn [negb]. cbv zeta.
  rewrite (proj2 (Z.eqb_neq 0 (zlen n))), (proj2 (Z.eqb_neq Shm.NGX_ERROR id)), (proj2 (Z.leb_gt id 0))
    by (done || (unfold Shm.NGX_ERROR; lia)).
  cbn [orb]. split.
  - unfold Shm.ngx_rtc_shm_session_request_close. rewrite (proj2 (Z.eqb_neq id 0)) by lia.
    destruct (ShmInv.search_spec c (fun s => Shm.id s =? id) (ShmInv.inv_ok c Hc)) as [[-> Hno] | (x & s & -> & Hs & Hid')];
      rewrite !bind_Ret.
    + eexists _, c. split; [reflexivity |]. split; [done |]. split_and!; [done | done |].
      intros x s Hs E%Z.eqb_eq. by rewrite (Hno x s Hs) in E.
    + unfold Shm.session_at. rewrite Hs, !bind_Ret. eexists _, _. split; [reflexivity |].
      split; [by apply (ShmInv.one_session_inv c x s) |]. exists x, s. split_and!; [done | by apply Z.eqb_eq | done].
  - destruct (ShmInv.source_request_close_inv c n Hc) as (rc & c' & Er & Hc' & He & Hall). rewrite Er, bind_Ret.
    eexists _, c'. split; [reflexivity |]. split_and!; [done | done | | by intros a t Hnt; destruct (Hall a t Hnt) as [-> Hm]].
    intros Hno. destruct (ShmInv.lookup_cases c n Hc) as [(a & t & Hnt & _) | [_ El]]; [by destruct (Hno a t) |].
    revert Er. unfold Shm.ngx_rtc_shm_source_request_close. rewrite El. destruct (negb _); by intros [= <- <-].
Qed.

End handlers.

(** ** Concrete requests *)

#[local] Existing Instances ShmProps.demo_crc Signal.demo_text Signal.demo_text_laws.

#[export] Instance demo_json : NgxJson := {|
  ngx_escape_json s := concat (map (fun c => if (c =? 34) || (c =? 92) then [92; c] else [c]) s);
  escape_extra s := zlen (List.filter (fun c => (c =? 34) || (c =? 92)) s)
|}.

#[export] Instance demo_json_laws : NgxJsonLaws.
Proof.
  split; [| intros s; apply zlen_nonneg]. intros s. induction s as [| k s IH]; [done |]. cbn in *.
  rewrite zlen_app, IH, zlen_cons. by destruct (_ || _); rewrite ?zlen_cons, ?zlen_nil; lia.
Qed.

#[export] Instance demo_uri : NgxUri := {|
  ngx_unescape_uri s := s;
  ngx_atoi s := if forallb (fun c => (48 <=? c) && (c <=? 57)) s && (0 <? zlen s)
                then fold_left (fun n c => 10 * n + (c - 48)) s 0 else -1
|}.

Abbreviation demo_env := (env (Srtp := unit) (Q := Nginx.queues Registry.queue_id Registry.node) (T := list (key * Z))
  (Q' := Nginx.queues Shm.queue_id Shm.node) (T' := list (key * Z))).

Definition demo_rcf : ngx_rtc_http_loc_conf_t :=
  {| candidate_ip := Ref (lit "192.0.2.7"); candidate_port := Signal.NGX_CONF_UNSET; max_sdp_len := 16384;
     client_body_buffer_size := 16384 |}.

Definition idle (z : Shm.ngx_rtc_shm_ctx_t) : demo_env := {| reg := Registry.demo_start; zone := Ref z |}.

Definition demo_grants : grants :=
  {| g_now := 5000; g_offer_buf := true; g_source := Ref 1;
     g_zone_source := {| Publish.s_alloc := Ref 21; Publish.s_retry := NULL; Publish.s_v := 7; Publish.s_a := 8 |};
     g_session := Ref 11; g_random := (439041101, 1, 2, 3); g_zone_session := (Ref 31, NULL); g_response_buf := true;
     g_temp_buf := true; g_fingerprint := Ref (lit "AB:CD:EF"); s_streamurl := replicate 256 255; s_name := zeros 128;
     s_offer := Sdp.zero_offer; s_ans_buf := replicate 4096 255; s_ans_len := 99 |}.

Definition demo_text_offer : octets := SdpAnswer.text (SdpAnswer.answer_lines SdpAnswer.demo_cfg).
Definition body_of (t : octets) : ptr ngx_http_request_body_t :=
  Ref {| bufs := [Ref {| HttpBody.in_file := false; HttpBody.data := t |}]; temp_file := false |}.
Definition play_body : ptr ngx_http_request_body_t :=
  body_of (HttpBody.object [(lit "sdp", demo_text_offer); (lit "streamurl", HttpBody.demo_url)]).

Lemma idle_ok z : ShmInv.shm_inv z -> env_ok (idle z).
Proof.
  intros Hz. split; cbn; [apply (Registry.start_ok _ _ Registry.demo_queues_ok Registry.demo_queues_off) | | done].
  intros a s Ha. by rewrite lookup_empty in Ha.
Qed.

Lemma demo_zone_inv evs : ShmStep.run_ok evs ShmProps.demo_zone = true -> ShmInv.shm_inv (ShmStep.final evs ShmProps.demo_zone).
Proof. intros H. by apply ShmProps.reachable_inv, ShmProps.demo_reachable. Qed.

Lemma idle_grants z : ShmInv.shm_inv z -> (forall a, a = 21 -> Shm.sources z !! a = None) ->
  (forall x, x = 31 -> Shm.sessions z !! x = None) -> Shm.next_session_id z < 2 ^ 64 - 1 -> grants_ok demo_grants (idle z).
Proof.
  intros Hz Ha Hx Hi. split; [done | done | | done | done | by vm_compute].
  split; [| done]. intros c [= <-]. split_and!; [intros a [= <-]; by apply Ha | intros x [= <-]; by apply Hx | done].
Qed.

Definition session_srtp : unit := tt.
Definition no_report (_ : unit) (m : ngx_rtc_hsm session_object unit unit)
    (_ : ptr (ngx_rtc_hsm_event ngx_rtc_session_fsm_ctx_t)) : ngx_rtc_hsm session_object unit unit := m.

Definition empty_zone := ShmStep.final [] ShmProps.demo_zone.
Definition cam : octets := lit "live/cam".
Definition rtmp_zone := ShmStep.final
  [(1000, ShmStep.SourceGet (Ref 1) NULL 7 8 cam); (1000, ShmStep.TryPublish cam Registry.NGX_RTC_PUBLISHER_RTMP)] ShmProps.demo_zone.

Lemma empty_zone_ok : env_ok (idle empty_zone) /\ grants_ok demo_grants (idle empty_zone).
Proof.
  assert (Hz : ShmInv.shm_inv empty_zone) by (apply demo_zone_inv; by vm_compute).
  split; [by apply idle_ok |]. apply idle_grants; [done | by intros a -> | by intros x -> | by vm_compute].
Qed.

Lemma rtmp_zone_ok : env_ok (idle rtmp_zone) /\ grants_ok demo_grants (idle rtmp_zone).
Proof.
  assert (Hz : ShmInv.shm_inv rtmp_zone) by (apply demo_zone_inv; by vm_compute).
  split; [by apply idle_ok |]. apply idle_grants; [done | by intros a -> | by intros x -> | by vm_compute].
Qed.

Lemma play_request_witness :
  exists rep e', ngx_rtc_http_body_handler session_srtp no_report demo_rcf play_body demo_grants (idle empty_zone) = Ret (rep, e') /\
    env_ok e' /\ play_outcome demo_rcf play_body demo_grants (idle empty_zone) e' rep.
Proof.
  destruct (play_request session_srtp no_report demo_rcf play_body demo_grants (idle empty_zone)) as [Hok | [_ (name & o & _ & t & k & _ & _ & _ & Hk & E)]];
    [apply empty_zone_ok.. | exact Hok |].
  exfalso. vm_compute in E. injection E as <-. by apply Hk.
Defined.


Definition whip_parsed : octets * Sdp.ngx_rtc_sdp_offer_t :=
  match whip_input demo_rcf (body_of demo_text_offer) (Ref (lit "live")) (Ref (lit "cam")) demo_grants with
  | Ret (Ok p) => p
  | _ => ([], Sdp.zero_offer)
  end.

Definition looked_up_env (z : Shm.ngx_rtc_shm_ctx_t) : demo_env := (source_create (g_source demo_grants) cam (idle z)).2.

Lemma whip_parsed_eq :
  whip_input demo_rcf (body_of demo_text_offer) (Ref (lit "live")) (Ref (lit "cam")) demo_grants = ok (whip_parsed.1, whip_parsed.2).
Proof. by vm_compute. Qed.

Lemma whip_refused_when_held_witness :
  exists e', ngx_rtc_http_whip_body_handler session_srtp no_report demo_rcf ngx_rtc_default_tunables (body_of demo_text_offer)
      (Ref (lit "live")) (Ref (lit "cam")) demo_grants (idle rtmp_zone) = Ret (Finalize NGX_HTTP_CONFLICT, e') /\
    env_ok e' /\ zone e' = Ref rtmp_zone /\ whip_undone cam (idle rtmp_zone) e'.
Proof.
  destruct (Shm.sources rtmp_zone !! 1) as [t |] eqn:Et; [| vm_compute in Et; discriminate Et].
  apply (whip_refused_when_held session_srtp no_report demo_rcf ngx_rtc_default_tunables (body_of demo_text_offer)
           (Ref (lit "live")) (Ref (lit "cam")) demo_grants (idle rtmp_zone) (looked_up_env rtmp_zone) rtmp_zone
           whip_parsed.1 whip_parsed.2 cam 1 true 1 t).
  - apply rtmp_zone_ok.
  - apply rtmp_zone_ok.
  - apply whip_parsed_eq.
  - by vm_compute.
  - by vm_compute.
  - done.
  - split; [exact Et |]. vm_compute in Et. by injection Et as <-.
  - vm_compute in Et. by injection Et as <-.
Defined.

Lemma whip_first_unclaimed_witness :
  exists text e' c' src t,
    ngx_rtc_http_whip_body_handler session_srtp no_report demo_rcf ngx_rtc_default_tunables (body_of demo_text_offer)
      (Ref (lit "live")) (Ref (lit "cam")) demo_grants (idle empty_zone) =
      Ret (Response NGX_HTTP_CREATED (lit "application/sdp") text, e') /\
    Registry.sources (reg e') !! 1 = Some src /\ holds_right src /\ shm_src src = NULL /\
    zone e' = Ref c' /\ ShmInv.named c' cam 21 t /\ Shm.publishing t = 0 /\
    forall now, exists c'', Shm.ngx_rtc_shm_source_try_publish now c' cam Registry.NGX_RTC_PUBLISHER_RTMP = Ret (Shm.NGX_OK, c'').
Proof.
  apply (whip_first_unclaimed session_srtp no_report demo_rcf ngx_rtc_default_tunables (body_of demo_text_offer)
           (Ref (lit "live")) (Ref (lit "cam")) demo_grants (idle empty_zone) (looked_up_env empty_zone) empty_zone
           whip_parsed.1 whip_parsed.2 cam 1 true 21 11 31 (set_name cam zero_source)).
  - apply empty_zone_ok.
  - apply empty_zone_ok.
  - apply whip_parsed_eq.
  - by vm_compute.
  - done.
  - by vm_compute.
  - by vm_compute.
  - done.
  - done.
  - intros d t [Ht _]. by vm_compute in Ht.
  - done.
  - done.
  - done.
  - done.
Defined.

Definition viewed_zone := ShmStep.final ShmProps.viewed ShmProps.demo_zone.

Lemma control_exact_witness :
  (exists c' x s, ngx_rtc_http_kick_handler true (Ref (lit "1")) true (Ref viewed_zone) = Ret (Shm.NGX_OK, Ref c') /\
    Shm.sessions viewed_zone !! x = Some s /\ Shm.id s = 1 /\ c' = Shm.put_session x (Shm.set_close_requested 1 s) viewed_zone) /\
  exists c', ngx_rtc_http_disconnect_handler true (Ref ShmProps.live) true (Ref viewed_zone) = Ret (Shm.NGX_OK, Ref c').
Proof.
  destruct (control_exact viewed_zone (Ref (lit "1")) (lit "1") 1 (Ref ShmProps.live) ShmProps.live)
    as [(rc & c' & E & _ & Hk) (rc2 & c2 & E2 & _ & _ & _ & Hd)];
    [apply demo_zone_inv; by vm_compute | done | done | done | done | done |].
  split.
  - assert (rc = 0) as ->.
    { assert (Er : (match ngx_rtc_http_kick_handler true (Ref (lit "1")) true (Ref viewed_zone) with
                    | Ret (rc, _) => rc | Fault => 1 end) = 0) by by vm_compute.
      rewrite E in Er. exact Er. }
    destruct Hk as (x & s & H1 & H2 & H3). by exists c', x, s.
  - destruct (Shm.sources viewed_zone !! 1) as [t |] eqn:Et; [| vm_compute in Et; discriminate Et].
    destruct (Hd 1 t) as [-> _]; [split; [exact Et | vm_compute in Et; by injection Et as <-] |]. by exists c2.
Defined.

End Request.
