(* ===== verification/Stream.v ===== *)
(** The UDP side of a worker, src/ngx_rtc_stream_module.c: binding a session to the connection
    its STUN requests come from, rebuilding a session another worker signalled, the DTLS
    handshake with its timer, closing, and the reaper.

    A worker's state is its registry and zone ([Request.env]) with what this module adds: the
    DTLS part of each session, the module context of each live connection, the finalizations
    that are posted, and the datagrams sent.  A connection that was finalized is no longer in
    the map, and a session that was freed no longer in the registry, so a use of either is
    [Fault]. *)

From S2P Require Import Prelude Nginx Text Dtls Hsm SessionFsm Jitter Session Rtcp Stun Pacer GopRing SendPath Replay Registry Shm ShmMedia Publish Request.
From stdpp Require Import list gmap.
Import Text Hsm SessionFsm Session.

#[local] Open Scope Z_scope.

Module Stream.

Definition NGX_RTC_PLI_MIN_INTERVAL_MS : Z := 1000.
Definition NGX_RTC_PLI_SENDER_SSRC : Z := 1.

(** *** The server's directives *)

Record ngx_rtc_stream_srv_conf_t := { rtc : Z; handshake_timeout : Z; ready_timeout : Z; reap_interval : Z }.

(** A value that is not set, of a flag and of a time. *)
Definition NGX_CONF_UNSET : Z := -1.
Definition NGX_CONF_UNSET_MSEC : Z := 2 ^ 64 - 1.
Definition NGX_RTC_SESSION_REAP_INTERVAL_MS : Z := 2000.

Definition ngx_rtc_stream_create_srv_conf (granted : bool) : ptr ngx_rtc_stream_srv_conf_t :=
  if granted then Ref {| rtc := NGX_CONF_UNSET; handshake_timeout := NGX_CONF_UNSET_MSEC; ready_timeout := NGX_CONF_UNSET_MSEC;
                         reap_interval := NGX_CONF_UNSET_MSEC |} else NULL.

(** nginx's ngx_conf_merge_value and ngx_conf_merge_msec_value. *)
Definition merge_value (unset conf prev default : Z) : Z :=
  if conf =? unset then (if prev =? unset then default else prev) else conf.

(** What the server has after the merge, which is also what the module's static pointer then
    refers to. *)
Definition ngx_rtc_stream_merge_srv_conf (prev conf : ngx_rtc_stream_srv_conf_t) : ngx_rtc_stream_srv_conf_t :=
  {| handshake_timeout := merge_value NGX_CONF_UNSET_MSEC (handshake_timeout conf) (handshake_timeout prev) 10000;
     ready_timeout := merge_value NGX_CONF_UNSET_MSEC (ready_timeout conf) (ready_timeout prev) 30000;
     reap_interval := merge_value NGX_CONF_UNSET_MSEC (reap_interval conf) (reap_interval prev) NGX_RTC_SESSION_REAP_INTERVAL_MS;
     rtc := merge_value NGX_CONF_UNSET (rtc conf) (rtc prev) 0 |}.

Definition ngx_rtc_stream_reap_interval (srv_conf : ptr ngx_rtc_stream_srv_conf_t) : Z :=
  match srv_conf with
  | NULL => NGX_RTC_SESSION_REAP_INTERVAL_MS
  | Ref k => if (reap_interval k =? NGX_CONF_UNSET_MSEC) || (reap_interval k =? 0) then NGX_RTC_SESSION_REAP_INTERVAL_MS else reap_interval k
  end.

(** The directive; the content handler of the server is [StreamMedia.ngx_rtc_stream_handler]. *)
Definition ngx_rtc_stream_rtc (conf : ngx_rtc_stream_srv_conf_t) : ngx_rtc_stream_srv_conf_t :=
  {| rtc := 1; handshake_timeout := handshake_timeout conf; ready_timeout := ready_timeout conf; reap_interval := reap_interval conf |}.

(** *** The cycle *)

(** Before the workers are forked; the arguments are what ngx_rtc_dtls_global_init and
    ngx_rtc_srtp_global_init return. *)
Definition ngx_rtc_stream_init_module (dtls srtp : Z) : Z :=
  if negb (dtls =? 0) then Shm.NGX_ERROR else if negb (srtp =? 0) then Shm.NGX_ERROR else Shm.NGX_OK.

(** What a process has armed: the reaper's timer with its delay, and the eventfd it reads. *)
Record armed := { reap_timer : ptr Z; notify_event : ptr Z }.

(** [notify] is the eventfd of this worker's slot, NULL without a zone; [added] is what
    ngx_add_event grants. *)
Definition ngx_rtc_stream_init_process (is_worker : bool) (srv_conf : ptr ngx_rtc_stream_srv_conf_t) (notify : ptr Z) (added : bool)
    : Z * armed :=
  if negb is_worker then (Shm.NGX_OK, {| reap_timer := NULL; notify_event := NULL |})
  else
    let timer := Ref (ngx_rtc_stream_reap_interval srv_conf) in
    match notify with
    | NULL => (Shm.NGX_OK, {| reap_timer := timer; notify_event := NULL |})
    | Ref fd =>
        if fd =? -1 then (Shm.NGX_OK, {| reap_timer := timer; notify_event := NULL |})
        else if added then (Shm.NGX_OK, {| reap_timer := timer; notify_event := Ref fd |})
        else (Shm.NGX_ERROR, {| reap_timer := timer; notify_event := NULL |})
    end.

(** The first octets of a datagram say what it is. *)
Inductive protocol := STUN | DTLS | SRTCP | SRTP.

Definition classify (data : octets) : outcome protocol :=
  let len := zlen data in
  stun ← (if len <? 20 then Ret false
          else a ← load data 4; b ← load data 5; c ← load data 6; d ← load data 7;
               Ret ((a =? 0x21) && (b =? 0x12) && (c =? 0xA4) && (d =? 0x42)));
  if (stun : bool) then Ret STUN
  else
    a ← load data 0;
    if (20 <=? a) && (a <=? 63) then Ret DTLS
    else if (len <? 2) || negb (Z.land a 0xc0 =? 0x80) then Ret SRTP
    else b ← load data 1; Ret (if (200 <=? b) && (b <=? 207) then SRTCP else SRTP).

Section stream.
Context {S C : Type} `{HS : Dtls.OpenSsl S} `{HL : Srtp.LibSrtp C}.
Context (hmac : octets -> octets -> option octets) (tunables : ngx_rtc_tunables_t).
Context (report : unit -> ngx_rtc_hsm session_object unit unit ->
  ptr (ngx_rtc_hsm_event ngx_rtc_session_fsm_ctx_t) -> ngx_rtc_hsm session_object unit unit).
Context `{HC : Shm.Crc}.
Context {Q T : Type} `{HQ : Queues Registry.queue_id Registry.node Q, !QueueLaws Registry.queue_id Registry.node Q}.
Context `{HT : StrTree T, !StrTreeLaws T}.
Context {Q' T' : Type} `{HQ' : Queues Shm.queue_id Shm.node Q', !QueueLaws Shm.queue_id Shm.node Q'}.
Context `{HT' : StrTree T', !StrTreeLaws T'}.
Abbreviation srtp_t := (Srtp.ngx_rtc_srtp_t C).
Abbreviation session := (ngx_rtc_session_t srtp_t).
Abbreviation shm := (Shm.ngx_rtc_shm_ctx_t (Q := Q') (T := T')).
Abbreviation env := (Request.env (Srtp := srtp_t) (Q := Q) (T := T) (Q' := Q') (T' := T')).

(** The fields of ngx_rtc_session_s that only this module uses; the timer event, once it is
    allocated, with when it is due if it is set. *)
Record ngx_rtc_media_t := {
  dtls : Dtls.ngx_rtc_dtls_t S;
  dtls_timer : ptr (option Z);
  close_pending : Z
}.

Definition media_eta (m : ngx_rtc_media_t) : ngx_rtc_media_t :=
  {| dtls := dtls m; dtls_timer := dtls_timer m; close_pending := close_pending m |}.
Definition set_dtls := ltac:(setter media_eta dtls).
Definition set_dtls_timer := ltac:(setter media_eta dtls_timer).
Definition set_close_pending := ltac:(setter media_eta close_pending).

Definition zero_media : ngx_rtc_media_t := {| dtls := Dtls.zero_dtls; dtls_timer := NULL; close_pending := 0 |}.

Record worker := {
  host : env;
  media : gmap Z ngx_rtc_media_t;
  conns : gmap Z (ptr Z);
  posted : list Z;
  wire : list (Z * octets * Z)
}.

Definition worker_eta (w : worker) : worker :=
  {| host := host w; media := media w; conns := conns w; posted := posted w; wire := wire w |}.
Definition set_host := ltac:(setter worker_eta host).
Definition set_media := ltac:(setter worker_eta media).
Definition set_conns := ltac:(setter worker_eta conns).
Definition set_posted := ltac:(setter worker_eta posted).
Definition set_wire := ltac:(setter worker_eta wire).

(** What one event is given: the time, the worker's number, what the allocators, OpenSSL and
    libsrtp grant, the peer's address, what the socket returns, and the arrays on the stack. *)
Record given := {
  g_now : Z;
  g_slot : Z;
  g_session : ptr Z;
  g_source : ptr Z;
  g_zone_source : Publish.supply;
  g_event : bool;
  g_ring : bool;
  g_retx : bool;
  g_close_event : bool;
  g_copy : bool;
  g_ssl_ctx : bool;
  g_ssl : ptr S;
  g_bio_in : ptr unit;
  g_bio_out : ptr unit;
  g_srtp : bool * bool;
  g_addr : Z;
  g_port : Z;
  g_socket : octets -> Z;
  s_stun : Stun.ngx_rtc_stun_t;
  s_resp : octets;
  s_recv_key : octets;
  s_send_key : octets;
  s_pkt : octets;
  s_seqs : list Z;
  s_scratch : octets
}.
Implicit Types (g : given) (w : worker) (x c a : Z).

(** *** Reading and writing what pointers lead to *)

Definition session_at w x : outcome session := Registry.session_at (Request.reg (host w)) x.
Definition source_at w a : outcome ngx_rtc_source_t := Registry.source_at (Request.reg (host w)) a.
(** A session's record is allocated zeroed. *)
Definition media_of w x : ngx_rtc_media_t := default zero_media (media w !! x).
Definition media_at w x : outcome ngx_rtc_media_t := _ ← session_at w x; Ret (media_of w x).
(** The module context of a connection's stream session. *)
Definition ctx_of w c : outcome (ptr Z) := match conns w !! c with Some p => Ret p | None => Fault end.
Definition set_registry (r : Registry.registry) w : worker := set_host (Request.set_reg r (host w)) w.
Definition put_session x (s : session) w : worker := set_registry (Registry.put_session x s (Request.reg (host w))) w.
Definition put_source a (s : ngx_rtc_source_t) w : worker := set_registry (Registry.put_source a s (Request.reg (host w))) w.
Definition put_media x (m : ngx_rtc_media_t) w : worker := set_media (<[x := m]> (media w)) w.
Definition set_ctx c (p : ptr Z) w : outcome worker := _ ← ctx_of w c; Ret (set_conns (<[c := p]> (conns w)) w).
Definition set_zone (z : ptr shm) w : worker := set_host (Request.set_zone z (host w)) w.

(** A datagram on a connection, with what the socket made of it. *)
Definition send g c (d : octets) w : outcome worker := _ ← ctx_of w c; Ret (set_wire (wire w ++ [(c, d, g_socket g d)]) w).

(** *** Sessions signalled on another worker *)

Definition restored (m : ngx_rtc_hsm session_object unit unit) (srtp_ready : Z) : ngx_rtc_hsm session_object unit unit :=
  if srtp_ready =? 0 then m
  else match (ngx_rtc_session_fsm_restore (Ref m) NGX_RTC_SESSION_STATE_SRTP_READY).2 with NULL => m | Ref m => m end.

Definition rebuilt g (snap : Shm.snapshot) : outcome session :=
  m ← ngx_rtc_session_fsm_init report (Ref blank) (Ref (replicate (Z.to_nat Request.NGX_RTC_SESSION_FSM_MAX_DEPTH) NULL))
        Request.NGX_RTC_SESSION_FSM_MAX_DEPTH (Ref tt);
  match ngx_rtc_session_fsm_set_reporter m (Ref tt) with
  | NULL => Fault
  | Ref m =>
      Ret (zero_session Srtp.zero_srtp |> set_fsm (restored m (Shm.n_srtp_ready snap)) |> set_last_active (g_now g)
             |> set_id (Shm.n_id snap) |> set_ice_ufrag (Shm.n_ice_ufrag snap) |> set_ice_pwd (Shm.n_ice_pwd snap)
             |> set_video_pt (Shm.n_video_pt snap) |> set_audio_pt (Shm.n_audio_pt snap)
             |> set_twcc_video_ext (Shm.n_twcc_video_ext snap) |> set_twcc_audio_ext (Shm.n_twcc_audio_ext snap)
             |> set_sess_publishing (Shm.n_publishing snap))
  end.

(** The publishing side of an attach: the cached zone source, the mirrored right, and a fresh
    reorder buffer. *)
Definition attach_publisher g (n : octets) a (ctx : shm) w : outcome worker :=
  let z := g_zone_source g in
  '(p, ctx) ← Shm.ngx_rtc_shm_source_get (Publish.s_alloc z) (Publish.s_retry z) (g_now g) (Publish.s_v z) (Publish.s_a z) ctx n;
  let w := set_zone (Ref ctx) w in
  src ← source_at w a;
  let w := put_source a (src |> set_shm_src p |> set_shm_sync_ms (g_now g)) w in
  r ← Registry.ngx_rtc_publish_mirror (Request.reg (host w)) (Ref a) Registry.NGX_RTC_PUBLISHER_WHIP;
  let w := set_registry r w in
  src ← source_at w a;
  Ret (put_source a (Request.reset_jitter tunables src) w).

(** The source of a rebuilt session, with what the zone says of it. *)
Definition attach_source g (snap : Shm.snapshot) (s : session) (ctx : shm) w : outcome (session * worker) :=
  match Shm.n_source snap with
  | None => Ret (s, w)
  | Some (n, video_ssrc, audio_ssrc, video_pt, audio_pt) =>
      if zlen n =? 0 then Ret (s, w)
      else
        let '(p, r) := Registry.ngx_rtc_source_get Shm.ngx_crc32_long (g_source g) (Request.reg (host w)) (Ref n) in
        let w := set_registry r w in
        match p with
        | NULL => Ret (s, w)
        | Ref a =>
            src ← source_at w a;
            let w := put_source a (src |> set_video_ssrc video_ssrc |> set_audio_ssrc audio_ssrc
                                      |> set_source_video_pt video_pt |> set_source_audio_pt audio_pt) w in
            w ← (if Shm.n_publishing snap =? 0 then Ret w else attach_publisher g n a ctx w);
            Ret (set_source (Ref a) s, w)
        end
  end.

Definition ngx_rtc_stream_attach_from_shm g (ufrag : octets) w : outcome (ptr Z * worker) :=
  match Request.zone (host w), g_session g with
  | Ref ctx, Ref x =>
      '(rc, snap, ctx) ← Shm.ngx_rtc_shm_session_bind ctx ufrag (g_slot g);
      let w := set_zone (Ref ctx) w in
      match snap with
      | None => Ret (NULL, w)
      | Some snap =>
          if negb (rc =? Shm.NGX_OK) then Ret (NULL, w)
          else
            s ← rebuilt g snap;
            '(s, w) ← attach_source g snap s ctx w;
            r ← Registry.session_open Shm.ngx_crc32_long x s (Request.reg (host w));
            Ret (Ref x, set_registry r w)
      end
  | _, _ => Ret (NULL, w)
  end.

(** *** STUN *)

Definition state_number (q : ngx_rtc_session_state_t) : Z :=
  match q with
  | NGX_RTC_SESSION_STATE_UNKNOWN => 0
  | NGX_RTC_SESSION_STATE_NEW => 1
  | NGX_RTC_SESSION_STATE_ICE_BOUND => 2
  | NGX_RTC_SESSION_STATE_DTLS_HANDSHAKE => 3
  | NGX_RTC_SESSION_STATE_SRTP_READY => 4
  | NGX_RTC_SESSION_STATE_CLOSED => 5
  end.

Definition ngx_rtc_stream_publish_state g x w : outcome worker :=
  match Request.zone (host w) with
  | NULL => Ret w
  | Ref ctx =>
      s ← session_at w x;
      q ← ngx_rtc_session_fsm_get_state (Ref (fsm s));
      ctx ← Shm.ngx_rtc_shm_session_set_state ctx (ice_ufrag s) (g_slot g) (state_number q);
      Ret (set_zone (Ref ctx) w)
  end.

(** A transition of the session's machine; the flag is what dispatch returns. *)
Definition dispatch x (ev : ngx_rtc_session_event_t) (ctx : ptr ngx_rtc_session_fsm_ctx_t) w : outcome (bool * worker) :=
  s ← session_at w x;
  '(ok, m) ← ngx_rtc_session_fsm_dispatch_ctx report (Ref (fsm s)) ev ctx;
  match m with NULL => Fault | Ref m => Ret (ok, put_session x (set_fsm m s) w) end.

(** A request for session [x]: once it is verified the session and the connection are bound, and
    the response goes out. *)
Definition stun_request g c x (stun : Stun.ngx_rtc_stun_t) (data : octets) w : outcome worker :=
  s ← session_at w x;
  rc ← Stun.ngx_rtc_stun_verify_request hmac (Ref stun) (Ref data) (zlen data) (Ref (ice_pwd s));
  if negb (rc =? 0) then Ret w
  else
    let w := put_session x (s |> set_conn (Ref c) |> set_last_active (g_now g)) w in
    '(_, w) ← dispatch x NGX_RTC_SESSION_EVT_STUN_BINDING
                (Ref {| SessionFsm.conn := Ref tt; SessionFsm.data := NULL; SessionFsm.len := 0 |}) w;
    w ← ngx_rtc_stream_publish_state g x w;
    w ← set_ctx c (Ref x) w;
    s ← session_at w x;
    '(n, o) ← Stun.ngx_rtc_stun_encode_binding_response hmac (Ref stun) (Ref (ice_pwd s)) (g_addr g) (g_port g)
                (Ref (s_resp g)) (zlen (s_resp g));
    match o with
    | NULL => Fault
    | Ref o => if 0 <? n then d ← load_range o 0 n; send g c d w else Ret w
    end.

Definition ngx_rtc_stream_on_stun g c (data : octets) w : outcome worker :=
  '(rc, stun) ← Stun.ngx_rtc_stun_decode (Ref (s_stun g)) (Ref data) (zlen data);
  match stun with
  | NULL => Fault
  | Ref stun =>
      if negb (rc =? 0) || (Stun.has_username stun =? 0) then Ret w
      else
        u ← Stun.c_str (Stun.local_ufrag stun);
        '(p, w) ← match Registry.ngx_rtc_session_find Shm.ngx_crc32_long (Request.reg (host w)) (Ref u) with
                  | Ref x => Ret (Ref x, w)
                  | NULL => ngx_rtc_stream_attach_from_shm g u w
                  end;
        match p with NULL => Ret w | Ref x => stun_request g c x stun data w end
  end.

(** *** Serving a viewer from the cache *)

Abbreviation protect := (Srtp.ngx_rtc_srtp_protect_rtp (C := C)).

(** What a session sent on its connection. *)
Definition log_wire x (s : session) (l : SendPath.wire) w : outcome worker :=
  match conn s, l with
  | _, [] => Ret w
  | NULL, _ => Fault
  | Ref c, _ => _ ← ctx_of w c; Ret (set_wire (wire w ++ map (fun d => (c, d.1, d.2)) l) w)
  end.

Definition ngx_rtc_stream_shm_gop_send g (src : ngx_rtc_source_t) (opaque : ptr session * SendPath.wire) (rtp : octets)
    (len is_gop_start : Z) : outcome (Z * (ptr session * SendPath.wire)) :=
  '(r, sess, log) ← SendPath.ngx_rtc_session_send_rtp protect tunables (g_now g) (g_socket g) (Ref src) opaque.1 rtp len
                      is_gop_start opaque.2;
  Ret (if r =? 0 then Shm.NGX_ERROR else Shm.NGX_OK, (sess, log)).

Definition ngx_rtc_stream_replay_gop g x w : outcome (Z * worker) :=
  s ← session_at w x;
  match source s with
  | NULL => Fault
  | Ref a =>
      src ← source_at w a;
      if negb (GopRing.ngx_rtc_source_gop_ready (Ref src) =? 0) then
        '(sess, l) ← Replay.ngx_rtc_rtp_ring_replay protect tunables (g_now g) (g_socket g) (Ref src) (Ref (gop src)) (Ref s) [];
        match sess with
        | NULL => Fault
        | Ref s => w ← log_wire x s l w; Ret (1, put_session x s w)
        end
      else
        match Request.zone (host w) with
        | NULL => Ret (0, w)
        | Ref ctx =>
            '(rc, ctx, (sess, l)) ← ShmMedia.ngx_rtc_shm_retransmit_replay_gop (g_copy g) ctx (name src)
                                      (ngx_rtc_stream_shm_gop_send g src) (Ref s, []);
            match sess with
            | NULL => Fault
            | Ref s =>
                w ← log_wire x s l w;
                Ret (if 0 <? rc then 1 else 0, set_zone (Ref ctx) (put_session x s w))
            end
        end
  end.

(** The PLI to a source's publisher, at most one a second. *)
Definition ngx_rtc_stream_request_keyframe g a w : outcome worker :=
  src ← source_at w a;
  if publishing src =? 0 then Ret w
  else if negb (pli_sent_ms src =? 0) && (u64 (g_now g - pli_sent_ms src) <? NGX_RTC_PLI_MIN_INTERVAL_MS) then Ret w
  else
    p ← Registry.session_scan (Registry.scan_fuel (Request.reg (host w))) (Request.reg (host w))
          (fun s => Registry.points_to a s && negb (sess_publishing s =? 0)) (Registry.ngx_rtc_session_first (Request.reg (host w)));
    match p with
    | NULL => Ret w
    | Ref y =>
        s ← session_at w y;
        '(rc, b, n) ← Rtcp.ngx_rtc_rtcp_encode_pli NGX_RTC_PLI_SENDER_SSRC (video_ssrc src) (Ref (s_pkt g)) (zlen (s_pkt g)) (Ref 0);
        match b, n with
        | Ref b, Ref n =>
            if negb (rc =? NGX_RTC_OK) then Ret w
            else
              pkt ← load_range b 0 n;
              let '(rc, pkt, k) := Srtp.ngx_rtc_srtp_protect_rtcp (srtp s) pkt in
              _ ← store_range b 0 pkt;
              let w := put_session y (set_srtp k s) w in
              if negb (rc =? 0) then Ret w
              else
                match conn s with
                | NULL => Ret w
                | Ref c =>
                    w ← send g c pkt w;
                    Ret (put_source a (src |> set_pli_sent_ms (g_now g) |> set_pli_requests (u32 (pli_requests src + 1))) w)
                end
        | _, _ => Fault
        end
    end.

(** *** DTLS *)

(** The send callback, for the records of one call on the context. *)
Fixpoint ngx_rtc_stream_dtls_send g x (l : list octets) w : outcome worker :=
  match l with
  | [] => Ret w
  | d :: l =>
      s ← session_at w x;
      w ← match conn s with NULL => Ret w | Ref c => send g c d w end;
      ngx_rtc_stream_dtls_send g x l w
  end.

Definition flag_close x w : outcome worker := m ← media_at w x; Ret (put_media x (set_close_pending 1 m) w).

(** The viewer's subscription and first picture. *)
Definition subscribe g x w : outcome worker :=
  s ← session_at w x;
  match source s with
  | NULL => Ret w
  | Ref a =>
      if negb (sess_publishing s =? 0) then Ret w
      else
        r ← Registry.ngx_rtc_source_subscribe (Request.reg (host w)) (Ref a) (Ref x);
        '(served, w) ← ngx_rtc_stream_replay_gop g x (set_registry r w);
        if served =? 0 then ngx_rtc_stream_request_keyframe g a w else Ret w
  end.

Definition activate g x w : outcome worker :=
  match Request.zone (host w) with
  | NULL => Ret w
  | Ref ctx =>
      s ← session_at w x;
      '(_, ctx) ← Shm.ngx_rtc_shm_session_activate ctx (ice_ufrag s) (g_slot g);
      Ret (set_zone (Ref ctx) w)
  end.

Definition ngx_rtc_stream_dtls_done g x w : outcome worker :=
  m ← media_at w x;
  '(rc, rk, sk) ← Dtls.ngx_rtc_dtls_get_srtp_key (Ref (dtls m)) (Ref (s_recv_key g)) (Ref (s_send_key g));
  if negb (rc =? 0) then flag_close x w
  else
    s ← session_at w x;
    let '(rc, k, _) := Srtp.ngx_rtc_srtp_create (g_srtp g).1 (g_srtp g).2 (Ref (srtp s)) rk sk 0 in
    match k with
    | NULL => Fault
    | Ref k =>
        let w := put_session x (set_srtp k s) w in
        if negb (rc =? 0) then flag_close x w
        else
          '(_, w) ← dispatch x NGX_RTC_SESSION_EVT_DTLS_HANDSHAKE_DONE NULL w;
          s ← session_at w x;
          match Pacer.ngx_rtc_session_pacer_init (Ref (set_last_active (g_now g) s)) Pacer.NGX_RTC_PACER_MAX_BPS with
          | NULL => Fault
          | Ref s =>
              w ← subscribe g x (put_session x s w);
              activate g x w
          end
    end.

(** A call on the context: its records go out, and its completion runs inside it. *)
Definition dtls_called g x (r : Z * ptr (Dtls.ngx_rtc_dtls_t S) * list octets * bool) w : outcome (Z * worker) :=
  let '(rc, d, out, fired) := r in
  match d with
  | NULL => Fault
  | Ref d =>
      m ← media_at w x;
      w ← ngx_rtc_stream_dtls_send g x out (put_media x (set_dtls d m) w);
      w ← (if (fired : bool) then ngx_rtc_stream_dtls_done g x w else Ret w);
      Ret (rc, w)
  end.

Definition ngx_rtc_stream_dtls_schedule g x w : outcome worker :=
  m ← media_at w x;
  let timeout := Dtls.ngx_rtc_dtls_next_timeout_ms (Ref (dtls m)) in
  if timeout <=? 0 then Ret w
  else
    match dtls_timer m with
    | NULL => if g_event g then Ret (put_media x (set_dtls_timer (Ref (Some (g_now g + timeout))) m) w) else Ret w
    | Ref _ => Ret (put_media x (set_dtls_timer (Ref (Some (g_now g + timeout))) m) w)
    end.

Definition ngx_rtc_stream_dtls_cancel x w : outcome worker :=
  m ← media_at w x; Ret (put_media x (set_dtls_timer NULL m) w).

(** *** Closing *)

(** The connection lets go of the session, and its finalization is posted. *)
Definition detach g x w : outcome worker :=
  s ← session_at w x;
  let w' := put_session x (set_conn NULL s) w in
  match conn s with
  | NULL => Ret w'
  | Ref c => w' ← set_ctx c NULL w'; Ret (if g_close_event g then set_posted (posted w' ++ [c]) w' else w')
  end.

Definition release_publish g x w : outcome worker :=
  s ← session_at w x;
  match source s with
  | NULL => Ret w
  | Ref a =>
      src ← source_at w a;
      if publisher_kind src =? Registry.NGX_RTC_PUBLISHER_WHIP
      then e ← Request.release (g_now g) a (host w); Ret (set_host e w) else Ret w
  end.

Definition ngx_rtc_stream_session_close g x (ev : ngx_rtc_session_event_t) w : outcome worker :=
  w ← detach g x w;
  '(_, w) ← dispatch x ev NULL w;
  w ← release_publish g x w;
  s ← session_at w x;
  r ← Registry.session_drop Shm.ngx_crc32_long (Request.reg (host w)) x;
  let w := set_registry r w in
  w ← match Request.zone (host w) with
      | NULL => Ret w
      | Ref ctx => ctx ← Shm.ngx_rtc_shm_session_remove_if_owner (g_now g) ctx (ice_ufrag s) (g_slot g);
                   Ret (set_zone (Ref ctx) w)
      end;
  Ret (set_media (delete x (media w)) w).

(** The posted event: the connection and its stream session go. *)
Definition ngx_rtc_stream_close_ev_handler w : worker :=
  match posted w with [] => w | c :: l => set_posted l (set_conns (delete c (conns w)) w) end.

(** The first record moves the session to the handshake and makes its context; the flag is
    false when the handler ends there. *)
Definition dtls_start g c x (data : octets) w : outcome (worker * bool) :=
  s ← session_at w x;
  pending ← ngx_rtc_session_fsm_dtls_pending (Ref (fsm s));
  if negb pending then Ret (w, true)
  else
    '(ok, w) ← dispatch x NGX_RTC_SESSION_EVT_DTLS_PACKET
                 (Ref {| SessionFsm.conn := Ref tt; SessionFsm.data := Ref data; SessionFsm.len := zlen data |}) w;
    if negb ok then Ret (w, false)
    else
      w ← ngx_rtc_stream_publish_state g x w;
      s ← session_at w x;
      m ← media_at w x;
      let w := put_session x (set_conn (Ref c) s) w in
      let '(rc, d, _) := Dtls.ngx_rtc_dtls_create (g_ssl_ctx g) (g_ssl g) (g_bio_in g) (g_bio_out g) (Ref (dtls m))
                           (Ref tt) (Ref tt) {| Dtls.connections := 0; Dtls.bios := 0 |} in
      match d with
      | NULL => Fault
      | Ref d =>
          let w := put_media x (set_dtls d m) w in
          if negb (rc =? 0) then w ← ngx_rtc_stream_session_close g x NGX_RTC_SESSION_EVT_CLOSE w; Ret (w, false)
          else w ← ngx_rtc_stream_dtls_schedule g x w; Ret (w, true)
      end.

Definition ngx_rtc_stream_on_dtls g c (sess : ptr Z) (data : octets) w : outcome worker :=
  match sess with
  | NULL => Ret w
  | Ref x =>
      '(w, go) ← dtls_start g c x data w;
      if negb go then Ret w
      else
        s ← session_at w x;
        let w := put_session x (set_last_active (g_now g) s) w in
        m ← media_at w x;
        '(rc, w) ← dtls_called g x (Dtls.ngx_rtc_dtls_on_data (Ref (dtls m)) data) w;
        if negb (rc =? 0) then ngx_rtc_stream_session_close g x NGX_RTC_SESSION_EVT_CLOSE w
        else
          m ← media_at w x;
          if negb (close_pending m =? 0) then ngx_rtc_stream_session_close g x NGX_RTC_SESSION_EVT_CLOSE w
          else ngx_rtc_stream_dtls_schedule g x w
  end.

(** The timer event of a session came due. *)
Definition ngx_rtc_stream_dtls_timer g x w : outcome worker :=
  m ← media_at w x;
  let w := put_media x (set_dtls_timer (match dtls_timer m with NULL => NULL | Ref _ => Ref None end) m) w in
  if negb (Dtls.ngx_rtc_dtls_is_done (Ref (dtls m)) =? 0) then Ret w
  else
    '(rc, w) ← dtls_called g x (Dtls.ngx_rtc_dtls_handle_timeout (Ref (dtls m))) w;
    if negb (rc =? 0) then ngx_rtc_stream_session_close g x NGX_RTC_SESSION_EVT_TIMEOUT w
    else
      m ← media_at w x;
      if negb (close_pending m =? 0) then ngx_rtc_stream_session_close g x NGX_RTC_SESSION_EVT_CLOSE w
      else if negb (Dtls.ngx_rtc_dtls_is_done (Ref (dtls m)) =? 0) then ngx_rtc_stream_dtls_cancel x w
      else ngx_rtc_stream_dtls_schedule g x w.

(** *** The reaper *)

Fixpoint reap_sessions (fuel : nat) g (srv_conf : ptr ngx_rtc_stream_srv_conf_t) (sess : ptr Z) w : outcome worker :=
  match sess with
  | NULL => Ret w
  | Ref x =>
      match fuel with
      | O => Fault
      | Datatypes.S fuel =>
          next ← Registry.ngx_rtc_session_next (Request.reg (host w)) sess;
          s ← session_at w x;
          kicked ← match Request.zone (host w) with
                   | NULL => Ret 0
                   | Ref ctx => Shm.ngx_rtc_shm_session_is_close_requested ctx (ice_ufrag s)
                   end;
          w ← (if negb (kicked =? 0) then ngx_rtc_stream_session_close g x NGX_RTC_SESSION_EVT_CLOSE w
               else
                 ready ← ngx_rtc_session_fsm_is_ready (Ref (fsm s));
                 timeout ← (match srv_conf with
                            | NULL => Fault
                            | Ref k => Ret (if (ready : bool) then ready_timeout k else handshake_timeout k)
                            end);
                 if timeout <=? u64 (g_now g - last_active s)
                 then ngx_rtc_stream_session_close g x NGX_RTC_SESSION_EVT_TIMEOUT w else Ret w);
          reap_sessions fuel g srv_conf next w
      end
  end.

(** The result has when the timer is due next. *)
Definition ngx_rtc_stream_reap_timer g (srv_conf : ptr ngx_rtc_stream_srv_conf_t) w : outcome (worker * Z) :=
  z ← Shm.ngx_rtc_shm_expire (g_now g) (Request.zone (host w)) 0;
  let w := set_zone z w in
  w ← reap_sessions (Registry.scan_fuel (Request.reg (host w))) g srv_conf (Registry.ngx_rtc_session_first (Request.reg (host w))) w;
  Ret (w, g_now g + ngx_rtc_stream_reap_interval srv_conf).
End stream.
End Stream.
