(* ===== verification/StreamMedia.v ===== *)
(** Media and feedback on a session's connection: the SRTCP and SRTP handlers of
    src/ngx_rtc_stream_module.c, and the datagram handler that chooses among all four.

    A WHIP publisher's packet goes from the socket through the SRTP context, the header
    normalisation and the reorder buffer to every viewer, to the zone and to the GOP ring.
    The state is a worker with the media rings of the others; what a packet does to them is
    [Broadcast.ngx_rtc_broadcast_rtp]. *)

From S2P Require Import Prelude Nginx Text Dtls Hsm SessionFsm Jitter Session Rtp Rtcp Stun Pacer GopRing SendPath Nack Registry Shm ShmMedia Publish Broadcast Request Stream.
From stdpp Require Import list gmap.
Import Text Hsm SessionFsm Session Stream.

#[local] Open Scope Z_scope.

Module StreamMedia.

Definition NGX_RTC_RING_RTP_MAX : Z := 1500.
Definition NGX_RTC_NACK_SEQS : Z := 512.

Section media.
Context {S C : Type} `{HS : Dtls.OpenSsl S} `{HL : Srtp.LibSrtp C}.
Context (hmac : octets -> octets -> option octets) (tunables : ngx_rtc_tunables_t).
Context (report : unit -> ngx_rtc_hsm session_object unit unit ->
  ptr (ngx_rtc_hsm_event ngx_rtc_session_fsm_ctx_t) -> ngx_rtc_hsm session_object unit unit).
Context `{HC : Shm.Crc}.
Context {Q T : Type} `{HQ : Queues Registry.queue_id Registry.node Q, !QueueLaws Registry.queue_id Registry.node Q}.
Context `{HT : StrTree T, !StrTreeLaws T}.
Context {Q' T' : Type} `{HQ' : Queues Shm.queue_id Shm.node Q', !QueueLaws Shm.queue_id Shm.node Q'}.
Context `{HT' : StrTree T', !StrTreeLaws T'}.
Abbreviation srtp_t := (Srtp.ngx_rtc_srtp_t C).
Abbreviation session := (ngx_rtc_session_t srtp_t).
Abbreviation worker := (worker (S := S) (C := C) (Q := Q) (T := T) (Q' := Q') (T' := T')).
Abbreviation given := (given (S := S)).
Abbreviation protect := (Srtp.ngx_rtc_srtp_protect_rtp (C := C)).
Implicit Types (g : given) (w : worker) (x c a : Z).

(** *** Feedback *)

(** The packet ngx_rtc_shm_retransmit_get copies out, for ngx_rtc_stream_retransmit. *)
Definition zone_packet g w (n : octets) (sq : Z) : outcome (option octets) :=
  match Request.zone (host w) with
  | NULL => Ret None
  | Ref ctx =>
      '(rc, hit) ← ShmMedia.ngx_rtc_shm_retransmit_get ctx n sq (Ref (s_scratch g)) NGX_RTC_RING_RTP_MAX;
      match hit with
      | Some (d, len) => if rc =? Shm.NGX_OK then d ← load_range d 0 len; Ret (Some d) else Ret None
      | None => Ret None
      end
  end.

Definition on_nack g x a (pkt : Rtcp.ngx_rtc_rtcp_pkt_t) w : outcome worker :=
  '(rc, seqs, n) ← Rtcp.ngx_rtc_rtcp_nack_expand (Ref pkt) (Ref (s_seqs g)) NGX_RTC_NACK_SEQS (Ref 0);
  match seqs, n with
  | Ref seqs, Ref n =>
      if negb (rc =? NGX_RTC_OK) then Ret w
      else
        l ← load_range seqs 0 n;
        s ← session_at w x;
        src ← source_at w a;
        '(_, sess, log, _) ← Nack.nack_answer protect tunables (g_now g) (g_socket g) (zone_packet g w (name src)) (Ref src) l (Ref s) [];
        match sess with
        | NULL => Fault
        | Ref s => w ← log_wire x s log w; Ret (put_session x s w)
        end
  | _, _ => Fault
  end.

Definition on_twcc g x (pkt : Rtcp.ngx_rtc_rtcp_pkt_t) w : outcome worker :=
  s ← session_at w x;
  match Pacer.ngx_rtc_session_on_twcc (Ref s) (Rtcp.twcc_lost pkt) (Rtcp.twcc_received pkt) (g_now g) with
  | NULL => Fault
  | Ref s =>
      let w := put_session x s w in
      match Request.zone (host w) with
      | NULL => Ret w
      | Ref ctx =>
          ctx ← Shm.ngx_rtc_shm_session_set_stats ctx (ice_ufrag s) (twcc_lost s) (twcc_received s) (pacer_target_bps s)
                  (drop_pacer s) (drop_gop s);
          Ret (set_zone (Ref ctx) w)
      end
  end.

(** The callback of the decoder; the flag is ctx->bye. *)
Definition ngx_rtc_stream_rtcp_cb g x (pkt : Rtcp.ngx_rtc_rtcp_pkt_t) (bye : bool) w : outcome (bool * worker) :=
  s ← session_at w x;
  match source s with
  | NULL => Ret (bye, w)
  | Ref a =>
      src ← source_at w a;
      if (Rtcp.NGX_RTC_RTCP_RTPFB =? Rtcp.type pkt) && (Rtcp.NGX_RTC_RTCP_FMT_NACK =? Rtcp.fmt pkt) then
        w ← (if Rtcp.media_ssrc pkt =? video_ssrc src then on_nack g x a pkt w else Ret w);
        Ret (bye, w)
      else if (Rtcp.NGX_RTC_RTCP_PSFB =? Rtcp.type pkt) && (Rtcp.NGX_RTC_RTCP_FMT_PLI =? Rtcp.fmt pkt) then
        w ← (if Rtcp.media_ssrc pkt =? video_ssrc src then
               '(served, w) ← ngx_rtc_stream_replay_gop tunables g x w;
               if served =? 0 then ngx_rtc_stream_request_keyframe g a w else Ret w
             else Ret w);
        Ret (bye, w)
      else if (Rtcp.NGX_RTC_RTCP_RTPFB =? Rtcp.type pkt) && (Rtcp.NGX_RTC_RTCP_FMT_TWCC =? Rtcp.fmt pkt) then
        w ← on_twcc g x pkt w; Ret (bye, w)
      else if negb (Rtcp.has_remb pkt =? 0) then
        match Pacer.ngx_rtc_session_pacer_cap (Ref s) (Rtcp.remb_bitrate_bps pkt) with
        | NULL => Fault
        | Ref s => Ret (bye, put_session x s w)
        end
      else Ret (bye || (Rtcp.NGX_RTC_RTCP_BYE =? Rtcp.type pkt), w)
  end.

(** A datagram after it was unprotected in place: what lies past the packet is still there. *)
Definition in_datagram (pkt data : octets) : octets := pkt ++ zdrop (zlen pkt) data.

Definition ngx_rtc_stream_on_rtcp g c (data : octets) w : outcome worker :=
  p ← ctx_of w c;
  match p with
  | NULL => Ret w
  | Ref x =>
      s ← session_at w x;
      if is_null (conn s) then Ret w
      else
        ready ← ngx_rtc_session_fsm_is_ready (Ref (fsm s));
        if negb ready then Ret w
        else
          let s := set_last_active (g_now g) s in
          let '(rc, pkt, k) := Srtp.ngx_rtc_srtp_unprotect_rtcp (srtp s) data in
          let w := put_session x (set_srtp k s) w in
          if negb (rc =? 0) then Ret w
          else
            '(_, r) ← Rtcp.ngx_rtc_rtcp_decode (Ref (in_datagram pkt data)) (u32 (zlen pkt))
                        (Ref (fun p r => (NGX_RTC_OK, '(bye, w) ← r; ngx_rtc_stream_rtcp_cb g x p bye w))) (Ret (false, w));
            '(bye, w) ← r;
            if (bye : bool) then ngx_rtc_stream_session_close report g x NGX_RTC_SESSION_EVT_RTCP_BYE w else Ret w
  end.

(** *** Media *)

(** One packet to the session of an id, if it is in this worker. *)
Definition send_to g w (i : Z) (rtp : octets) (len gs : Z) : outcome worker :=
  p ← Registry.ngx_rtc_session_find_by_id (Request.reg (host w)) i;
  match p with
  | NULL => Ret w
  | Ref x =>
      s ← session_at w x;
      src ← Broadcast.source_of (Request.reg (host w)) s;
      '(_, s, log) ← SendPath.ngx_rtc_session_send_rtp protect tunables (g_now g) (g_socket g) src (Ref s) rtp len gs [];
      match s with
      | NULL => Fault
      | Ref s => w ← log_wire x s log w; Ret (put_session x s w)
      end
  end.

#[local] Instance deliver_here : Broadcast.Deliver given worker := send_to.

(** The worker with the entries of all workers in the zone: its own slot is where [g_slot]
    says. *)
Abbreviation slots := (list (Broadcast.slot unit)).
Implicit Types (rs : slots).

Definition seated w (r : Broadcast.slot unit) : Broadcast.slot worker :=
  {| Broadcast.worker := w; Broadcast.ring := Broadcast.ring r; Broadcast.notify_fd := Broadcast.notify_fd r;
     Broadcast.wakeups := Broadcast.wakeups r; Broadcast.draining := Broadcast.draining r |}.
Definition vacated (r : Broadcast.slot worker) : Broadcast.slot unit :=
  {| Broadcast.worker := tt; Broadcast.ring := Broadcast.ring r; Broadcast.notify_fd := Broadcast.notify_fd r;
     Broadcast.wakeups := Broadcast.wakeups r; Broadcast.draining := Broadcast.draining r |}.

Definition snapshot_of (src : ngx_rtc_source_t) : Broadcast.ngx_rtc_source_t :=
  {| Broadcast.name := name src; Broadcast.shm_src := shm_src src; Broadcast.snap_version := snap_version src;
     Broadcast.snap := snap src; Broadcast.ring_drops := ring_drops src |}.
Definition with_snapshot (b : Broadcast.ngx_rtc_source_t) (src : ngx_rtc_source_t) : ngx_rtc_source_t :=
  src |> set_snap_version (Broadcast.snap_version b) |> set_snap (Broadcast.snap b) |> set_ring_drops (Broadcast.ring_drops b).

Definition broadcast g a (rtp : octets) (len is_video gs : Z) w rs : outcome (worker * slots) :=
  src ← source_at w a;
  let z : ptr Broadcast.reads := match Request.zone (host w) with NULL => NULL | Ref ctx => Ref (ctx, ctx, ctx) end in
  '(l, b) ← Broadcast.ngx_rtc_broadcast_rtp (E := given) (W := worker) g (g_slot g) z (snapshot_of src) rtp len is_video gs
                (map (seated w) rs);
  let w := match l !! Z.to_nat (g_slot g) with None => w | Some r => Broadcast.worker r end in
  src ← source_at w a;
  Ret (put_source a (with_snapshot b src) w, map vacated l).

Definition ngx_rtc_stream_shm_source g a w : outcome (ptr Z * worker) :=
  src ← source_at w a;
  '(p, l, z) ← Publish.ngx_rtc_stream_shm_source (g_now g) (Ref (Request.right_of src)) (Request.zone (host w));
  match l with
  | NULL => Fault
  | Ref l => Ret (p, put_source a (Request.with_right l src) (set_zone z w))
  end.

Definition ngx_rtc_stream_shm_stats a (p : ptr Z) w : outcome worker :=
  src ← source_at w a;
  match Request.zone (host w) with
  | NULL => match p with NULL => Ret w | Ref _ => Fault end
  | Ref ctx => ctx ← Publish.ngx_rtc_stream_shm_stats (Request.right_of src) p ctx; Ret (set_zone (Ref ctx) w)
  end.

(** The append of the zone's retransmit ring reads the count of remote viewers first. *)
Definition shm_append g (p : ptr Z) (rtp : octets) (len gs : Z) w : outcome worker :=
  match p, Request.zone (host w) with
  | Ref b, Ref ctx =>
      t ← Shm.source_at ctx b;
      ctx ← ShmMedia.ngx_rtc_shm_retransmit_append (g_retx g) (Shm.remote_subscribers t) ctx p (Ref rtp) len gs;
      Ret (set_zone (Ref ctx) w)
  | _, _ => Ret w
  end.

Definition payload_octets (len : Z) : Z := if NGX_RTC_RTP_HEADER_SIZE <? len then u32 (len - NGX_RTC_RTP_HEADER_SIZE) else len.

Definition ngx_rtc_stream_whip_emit g x (rtp : octets) (len gs : Z) w rs : outcome (worker * slots) :=
  s ← session_at w x;
  match source s with
  | NULL => Ret (w, rs)
  | Ref a =>
      '(w, rs) ← broadcast g a rtp len 1 gs w rs;
      src ← source_at w a;
      let src := src |> set_video_pkts (u32 (video_pkts src + 1)) |> set_video_octets (u32 (video_octets src + payload_octets len)) in
      '(p, w) ← ngx_rtc_stream_shm_source g a (put_source a src w);
      w ← ngx_rtc_stream_shm_stats a p w;
      w ← shm_append g p rtp len gs w;
      src ← source_at w a;
      r ← GopRing.ngx_rtc_rtp_ring_push tunables (g_ring g) (Ref (gop src)) (Ref rtp) len gs;
      match r with NULL => Fault | Ref r => Ret (put_source a (set_gop r src) w, rs) end
  end.

(** What the reorder buffer lets go, in order. *)
Fixpoint emit_all g x (l : list Jitter.emission) w rs : outcome (worker * slots) :=
  match l with
  | [] => Ret (w, rs)
  | (rtp, gs) :: l => '(w, rs) ← ngx_rtc_stream_whip_emit g x rtp (zlen rtp) gs w rs; emit_all g x l w rs
  end.

(** The SSRC of the publisher's packet becomes the source's, here and in the zone. *)
Definition learn_ssrc a (is_video : bool) (ssrc : Z) w : outcome worker :=
  match Request.zone (host w) with
  | NULL => Ret w
  | Ref ctx =>
      src ← source_at w a;
      if is_video && negb (video_ssrc src =? ssrc) then
        ctx ← Shm.ngx_rtc_shm_source_set_ssrc ctx (name src) ssrc 0;
        Ret (set_zone (Ref ctx) (put_source a (set_video_ssrc ssrc src) w))
      else if negb is_video && negb (audio_ssrc src =? ssrc) then
        ctx ← Shm.ngx_rtc_shm_source_set_ssrc ctx (name src) 0 ssrc;
        Ret (set_zone (Ref ctx) (put_source a (set_audio_ssrc ssrc src) w))
      else Ret w
  end.

(** A video packet through the reorder buffer. *)
Definition on_video g x a (data : octets) (len : Z) w rs : outcome (worker * slots) :=
  gs ← (if NGX_RTC_RTP_HEADER_SIZE <? len
        then h ← load data NGX_RTC_RTP_HEADER_SIZE; Ret (if Z.land h 0x1f =? Rtp.NGX_RTC_H264_STAP_A then 1 else 0)
        else Ret 0);
  hi ← load data 2;
  lo ← load data 3;
  let sq := u16 (Z.lor (Z.shiftl hi 8) lo) in
  src ← source_at w a;
  '(_, j, l) ← Jitter.ngx_rtc_jitter_push (Ref (jitter src)) (Ref data) len sq gs (u32 (g_now g)) (Ref tt);
  match j with
  | NULL => Fault
  | Ref j => emit_all g x l (put_source a (set_jitter j src) w) rs
  end.

Definition on_audio g a (data : octets) (len : Z) w rs : outcome (worker * slots) :=
  '(w, rs) ← broadcast g a data len 0 0 w rs;
  src ← source_at w a;
  let src := src |> set_audio_pkts (u32 (audio_pkts src + 1)) |> set_audio_octets (u32 (audio_octets src + payload_octets len)) in
  '(p, w) ← ngx_rtc_stream_shm_source g a (put_source a src w);
  w ← ngx_rtc_stream_shm_stats a p w;
  Ret (w, rs).

Definition ngx_rtc_stream_on_srtp g (sess : ptr Z) (data : octets) w rs : outcome (worker * slots) :=
  match sess with
  | NULL => Ret (w, rs)
  | Ref x =>
      s ← session_at w x;
      match source s with
      | NULL => Ret (w, rs)
      | Ref a =>
          ready ← ngx_rtc_session_fsm_is_ready (Ref (fsm s));
          if (sess_publishing s =? 0) || negb ready then Ret (w, rs)
          else
            let '(rc, pkt, k) := Srtp.ngx_rtc_srtp_unprotect_rtp (srtp s) data in
            let s := set_srtp k s in
            let w := put_session x s w in
            if negb (rc =? 0) || (zlen pkt <? NGX_RTC_RTP_HEADER_SIZE) then Ret (w, rs)
            else
              '(rc, d, n) ← Rtp.ngx_rtc_rtp_strip_header_ext (Ref pkt) (Ref (zlen pkt));
              match d, n with
              | Ref d, Ref len =>
                  if negb (rc =? NGX_RTC_OK) then Ret (w, rs)
                  else
                    let w := put_session x (set_last_active (g_now g) s) w in
                    b1 ← load d 1;
                    let pt := Z.land b1 0x7f in
                    let is_video := pt =? video_pt s in
                    if negb is_video && negb (pt =? audio_pt s) then Ret (w, rs)
                    else
                      ssrc ← Rtcp.ngx_rtc_rtcp_rd_u32 d 8;
                      w ← learn_ssrc a is_video ssrc w;
                      if is_video then on_video g x a d len w rs else on_audio g a d len w rs
              | _, _ => Fault
              end
      end
  end.

(** *** A datagram on a connection *)

Definition ngx_rtc_stream_handler g c (data : octets) w rs : outcome (worker * slots) :=
  sess ← ctx_of w c;
  if zlen data <? 1 then Ret (w, rs)
  else
    p ← classify data;
    match p with
    | STUN => w ← ngx_rtc_stream_on_stun hmac tunables report g c data w; Ret (w, rs)
    | DTLS => w ← ngx_rtc_stream_on_dtls tunables report g c sess data w; Ret (w, rs)
    | SRTCP => w ← ngx_rtc_stream_on_rtcp g c data w; Ret (w, rs)
    | SRTP => ngx_rtc_stream_on_srtp g sess data w rs
    end.
(** The eventfd of this worker was written: the packets the other workers left in its ring. *)
Definition notified g w rs : outcome (worker * slots) :=
  match Request.zone (host w) with
  | NULL => Ret (w, rs)
  | Ref _ =>
      r ← load rs (g_slot g);
      r ← Broadcast.ngx_rtc_stream_notify_handler (E := given) (W := worker) g (seated w r);
      rs ← store rs (g_slot g) (vacated r);
      Ret (Broadcast.worker r, rs)
  end.
End media.
End StreamMedia.
