(* ===== verification/StreamSafe.v ===== *)
(** The UDP side of a worker: what holds of it between two events ([worker_ok]), and that every
    event of Stream.v runs to its end and keeps it, but for two cases each lemma names: a Binding
    request that takes over a session or a connection bound already ([takeover]), and a keyframe
    request that overflows its packet ([overflows]).  Here is also what exactly a Binding
    request and a close change. *)

From S2P Require Import Prelude Nginx Text Dtls Hsm SessionFsm Jitter Session Rtcp Stun Pacer GopRing SendPath Nack Retransmit Replay Registry Shm ShmInv ShmStep ShmMedia Publish Request Stream.
From stdpp Require Import list gmap.
Import Text Hsm SessionFsm Session Stream.

#[local] Open Scope Z_scope.

Module StreamSafe.

Section safe.
Context {S C : Type} `{HS : Dtls.OpenSsl S, !Dtls.OpenSslLaws S} `{HL : Srtp.LibSrtp C, !Srtp.LibSrtpLaws C}.
Context (hmac : octets -> octets -> option octets) (tunables : ngx_rtc_tunables_t).
Context (report : unit -> ngx_rtc_hsm session_object unit unit ->
  ptr (ngx_rtc_hsm_event ngx_rtc_session_fsm_ctx_t) -> ngx_rtc_hsm session_object unit unit).
Context `{HC : Shm.Crc}.
Context {Q T : Type} `{HQ : Queues Registry.queue_id Registry.node Q, !QueueLaws Registry.queue_id Registry.node Q}.
Context `{HT : StrTree T, !StrTreeLaws T}.
Context {Q' T' : Type} `{HQ' : Queues Shm.queue_id Shm.node Q', !QueueLaws Shm.queue_id Shm.node Q'}.
Context `{HT' : StrTree T', !StrTreeLaws T'}.
Context (Hlog : reporter_logs report).
Abbreviation srtp_t := (Srtp.ngx_rtc_srtp_t C).
Abbreviation session := (ngx_rtc_session_t srtp_t).
Abbreviation shm := (Shm.ngx_rtc_shm_ctx_t (Q := Q') (T := T')).
Abbreviation media_t := (ngx_rtc_media_t (S := S)).
Abbreviation worker := (worker (S := S) (C := C) (Q := Q) (T := T) (Q' := Q') (T' := T')).
Abbreviation given := (given (S := S)).
Implicit Types (g : given) (w : worker) (x y c a : Z) (s t : session) (m : media_t).
Abbreviation registry_of w := (Request.reg (host w)).
Abbreviation sessions_of w := (Registry.sessions (registry_of w)).
Abbreviation sources_of w := (Registry.sources (registry_of w)).
Abbreviation link_of w x := (q_link (Registry.sub_queue x) (Registry.queues (registry_of w))).

(** ** What holds between two events *)

Definition pending (q : ngx_rtc_session_state_t) : Prop :=
  q = NGX_RTC_SESSION_STATE_NEW \/ q = NGX_RTC_SESSION_STATE_ICE_BOUND.

(** The arrays in a session's record: the packet being sent, and the retransmissions answered
    in the current window. *)
Definition bufs_ok s : Prop :=
  zlen (cipher s) = NGX_RTC_CIPHER_CAP /\ zlen (nack_seen s) = NGX_RTC_NACK_BUDGET /\
  0 <= nack_seen_count s <= nack_retransmitted s /\ nack_retransmitted s <= NGX_RTC_NACK_BUDGET.

Lemma bufs_nack s : bufs_ok s <-> zlen (cipher s) = NGX_RTC_CIPHER_CAP /\ Nack.nack_ok s.
Proof. split; [intros (H1 & H2 & H3 & H4); by split | by intros (H1 & [H2 H3 H4])]. Qed.

(** A session: its machine is in a state and has no DTLS context before the handshake, the
    connection it sends on is its own, and it subscribes only when its handshake is done. *)
Record session_ok (k : gmap Z (ptr Z)) (l : link Registry.queue_id) x s m : Prop := {
  so_fsm : exists q, fsm_rep (fsm s) q /\ (pending q -> Dtls.ssl (dtls m) = NULL);
  so_bufs : bufs_ok s;
  so_conn c : conn s = Ref c -> k !! c = Some (Ref x);
  so_done : Dtls.handshake_done (dtls m) <> 0 -> Dtls.ssl (dtls m) <> NULL;
  so_link : l = Self \/ Dtls.handshake_done (dtls m) <> 0
}.

(** A source: its GOP ring is a sequence of packets, its reorder buffer holds packets that the
    ring and the socket take. *)
Definition emitted (_ : Z) (d : octets) (_ : Z) : Prop := 12 <= zlen d <= NGX_RTC_MAX_RTP_PKT /\ octets_ok d.

Definition jitter_ok (j : Jitter.ngx_rtc_jitter_t) : Prop :=
  Jitter.jinv emitted j /\ Jitter.settled j /\ (Jitter.initialized j = 0 -> Jitter.pending j = 0).

Definition src_ok (src : ngx_rtc_source_t) : Prop := GopRing.ring_ok tunables (gop src) /\ jitter_ok (jitter src).

Lemma jitter_ok_reset (n : Z) : jitter_ok (Jitter.set_gap_timeout_ms n Jitter.zero_jitter).
Proof. destruct (Jitter.jinv_zero emitted 0 n) as [H1 H2]; [done |]. by split. Qed.

Lemma src_ok_zero n : src_ok (set_name n zero_source).
Proof. split; [by left |]. apply (jitter_ok_reset 0). Qed.

Definition rings_ok (c : shm) : Prop :=
  forall a (t : Shm.ngx_rtc_shm_source_t), Shm.sources c !! a = Some t -> exists h, zlen h < 2 ^ 64 /\ ShmMedia.ring_of (Shm.retransmit t) h.

Definition zone_ok (z : ptr shm) : Prop :=
  match z with NULL => True | Ref c => ShmInv.shm_inv c /\ rings_ok c end.

Record worker_ok w : Prop := {
  wo_env : Request.env_ok (host w);
  wo_zone : zone_ok (Request.zone (host w));
  wo_src a src : sources_of w !! a = Some src -> src_ok src;
  wo_sess x s : sessions_of w !! x = Some s -> session_ok (conns w) (link_of w x) x s (media_of w x);
  wo_ctx c x : conns w !! c = Some (Ref x) -> exists s, sessions_of w !! x = Some s /\ conn s = Ref c;
  wo_media x m : media w !! x = Some m -> is_Some (sessions_of w !! x);
  wo_posted c : c ∈ posted w -> conns w !! c = Some NULL;
  wo_once : NoDup (posted w)
}.

Lemma wo_reg w : worker_ok w -> Registry.reg_ok Shm.ngx_crc32_long (registry_of w).
Proof. intros Hw. apply (wo_env _ Hw). Qed.

(** ** One part changes *)

Lemma keeps_rings (c c' : shm) : ShmStep.keeps_bodies c c' -> rings_ok c -> rings_ok c'.
Proof.
  intros Hk Hc a s' Hs'. destruct (Hk a s' Hs') as [(s & Hs & _ & ->) | ->]; [by eapply Hc |]. by exists [].
Qed.

Lemma zone_effect now e (c c' : shm) : ShmStep.effect now e c c' -> rings_ok c -> zone_ok (Ref c').
Proof. intros He Hc. split; [apply He |]. by eapply keeps_rings; [eapply ShmStep.effect_keeps |]. Qed.

Lemma set_zone_wok z w : worker_ok w -> zone_ok z -> worker_ok (set_zone z w).
Proof.
  intros [[H1 H2 H3] H4 H5 H6 H7 H8 H9 H10] Hz. split; try done. split; cbn; try done. by destruct z as [| c]; [| apply Hz].
Qed.

Lemma set_wire_wok l w : worker_ok w -> worker_ok (set_wire l w).
Proof. by intros []. Qed.

Lemma put_session_wok x s s' w :
  worker_ok w -> sessions_of w !! x = Some s -> SendPath.identity s' = SendPath.identity s -> conn s' = conn s ->
  session_ok (conns w) (link_of w x) x s' (media_of w x) -> worker_ok (put_session x s' w).
Proof.
  intros [[H1 H2 H3] H4 H5 H6 H7 H8 H9 H10] Hs [= Hi1 Hi2 Hi3 _] Hc Hok. split; try done.
  - split; cbn; try done. by eapply Registry.session_put_ok.
  - cbn. intros y t [[<- <-] | [_ Ht]]%lookup_insert_Some; [done | by apply H6].
  - cbn. intros c y Hy. destruct (H7 c y Hy) as (t & Ht & Ect). destruct (decide (y = x)) as [-> | Hne].
    + exists s'. rewrite lookup_insert_eq. split; [done |]. congruence.
    + exists t. by rewrite lookup_insert_ne.
  - cbn. intros y m Hm. destruct (H8 y m Hm) as [t Ht]. destruct (decide (y = x)) as [-> | Hne].
    + rewrite lookup_insert_eq. by eexists.
    + rewrite lookup_insert_ne by done. by eexists.
Qed.

Lemma put_media_wok x s m w :
  worker_ok w -> sessions_of w !! x = Some s -> session_ok (conns w) (link_of w x) x s m -> worker_ok (put_media x m w).
Proof.
  intros [H1 H2 H3 H4 H5 H6 H7 H8] Hs Hok. split; try done.
  - intros y t Ht. change (sessions_of (put_media x m w)) with (sessions_of w) in Ht. unfold media_of. cbn.
    destruct (decide (y = x)) as [-> | Hne].
    + rewrite lookup_insert_eq. cbn. by assert (t = s) as -> by congruence.
    + rewrite lookup_insert_ne by done. by apply H4.
  - cbn. intros y m' [[<- <-] | [_ Hm]]%lookup_insert_Some; [by eexists | by eapply H6].
Qed.

Lemma put_source_wok a src src' w :
  worker_ok w -> sources_of w !! a = Some src -> name src' = name src ->
  sps_profile_level_id src' = sps_profile_level_id src -> (src_ok src -> src_ok src') -> worker_ok (put_source a src' w).
Proof.
  intros [H1 H2 H3 H4 H5 H6 H7 H8] Hs Hn Hp Hg. split; try done.
  - by eapply Request.put_source_env.
  - cbn. intros b t [[<- <-] | [_ Ht]]%lookup_insert_Some; [apply Hg |]; by eapply H3.
Qed.

Lemma session_at_in w x s : sessions_of w !! x = Some s -> session_at w x = Ret s.
Proof. unfold session_at, Registry.session_at. by intros ->. Qed.

Lemma media_at_in w x s : sessions_of w !! x = Some s -> media_at w x = Ret (media_of w x).
Proof. intros Hs. unfold media_at. by rewrite (session_at_in w x s Hs). Qed.

Lemma source_at_in w a src : sources_of w !! a = Some src -> source_at w a = Ret src.
Proof. unfold source_at, Registry.source_at. by intros ->. Qed.

Lemma set_zone_id w : set_zone (Request.zone (host w)) w = w.
Proof. by destruct w as [[] ? ? ? ?]. Qed.

(** ** The zone's calls *)

Lemma publish_state_spec g x s q w :
  zone_ok (Request.zone (host w)) -> sessions_of w !! x = Some s -> fsm_rep (fsm s) q ->
  exists z, ngx_rtc_stream_publish_state g x w = Ret (set_zone z w) /\ zone_ok z.
Proof.
  intros Hz Hs Hq. unfold ngx_rtc_stream_publish_state.
  destruct (Request.zone (host w)) as [| c] eqn:Ez; [exists NULL; split; [rewrite <- Ez; by rewrite set_zone_id | done] |].
  destruct Hz as [Hc Hr]. rewrite (session_at_in w x s Hs), bind_Ret, (get_state_rep _ q Hq), bind_Ret.
  destruct (ShmInv.set_state_inv c (ice_ufrag s) (g_slot g) (state_number q) Hc) as (c' & -> & Hc' & H1).
  rewrite bind_Ret. exists (Ref c'). split; [done |].
  eapply (zone_effect 0 (ShmStep.Expire 0) c); [by apply ShmStep.one_session_effect | done].
Qed.

Lemma publish_state_safe g x s w :
  worker_ok w -> sessions_of w !! x = Some s ->
  safe (fun w' => worker_ok w' /\ exists z, w' = set_zone z w) (ngx_rtc_stream_publish_state g x w).
Proof.
  intros Hw Hs. destruct (so_fsm _ _ _ _ _ (wo_sess w Hw x s Hs)) as (q & Hq & _).
  destruct (publish_state_spec g x s q w (wo_zone w Hw) Hs Hq) as (z & -> & Hz).
  split; [by apply set_zone_wok | by eexists].
Qed.

Lemma activate_safe g x s w :
  worker_ok w -> sessions_of w !! x = Some s -> 0 <= g_slot g ->
  safe (fun w' => worker_ok w' /\ exists z, w' = set_zone z w) (activate g x w).
Proof.
  intros Hw Hs Hg. pose proof (wo_zone w Hw) as Hz. unfold activate.
  destruct (Request.zone (host w)) as [| c] eqn:Ez; [split; [done |]; eexists; by rewrite set_zone_id |].
  destruct Hz as [Hc Hr]. rewrite (session_at_in w x s Hs), bind_Ret.
  destruct (ShmStep.activate_effect 0 (ice_ufrag s) (g_slot g) c Hc Hg) as (rc & c' & -> & He).
  rewrite bind_Ret. split; [| by eexists]. apply set_zone_wok; [done |]. by eapply zone_effect.
Qed.

(** ** The session's machine *)

(** Only a session that is pending stays so. *)
Lemma flat_pending q ev ctx : pending (flat_step q ev ctx).2 -> pending q.
Proof.
  unfold pending, flat_step. destruct (close_class ev); [by intros [] |].
  destruct ev, q; try (destruct (on_connection ctx)); try (destruct (dtls_record ctx)); cbn [fst snd];
    intros [Hp | Hp]; first [discriminate Hp | by left | by right].
Qed.

Lemma dispatch_safe x s q ev ctx w :
  worker_ok w -> sessions_of w !! x = Some s -> fsm_rep (fsm s) q -> ctx_wf ctx ->
  safe (fun r => r.1 = (flat_step q ev ctx).1 /\ worker_ok r.2 /\
          exists k, r.2 = put_session x (set_fsm k s) w /\ fsm_rep k (flat_step q ev ctx).2)
    (dispatch report x ev ctx w).
Proof.
  intros Hw Hs Hq Hctx. unfold dispatch. rewrite (session_at_in w x s Hs), bind_Ret.
  destruct (dispatch_flat report (fsm s) q ev ctx Hlog Hq Hctx) as (k & -> & Hk). rewrite bind_Ret. cbn [safe fst snd].
  split; [done |]. split; [| by exists k]. pose proof (wo_sess w Hw x s Hs) as [(q0 & H1 & H2) H3 H4 H5 H6].
  apply (put_session_wok x s); try done. split; try done.
  exists (flat_step q ev ctx).2. split; [done |]. intros Hp. apply H2.
  assert (q0 = q) as ->; [| by eapply flat_pending]. pose proof (get_state_rep _ _ H1) as E1.
  rewrite (get_state_rep _ _ Hq) in E1. by injection E1.
Qed.

(** ** Sending to a session *)

Abbreviation protect := (Srtp.ngx_rtc_srtp_protect_rtp (C := C)).

Lemma protect_rtp_fits (k : srtp_t) p : zlen (protect k p).1.2 <= zlen p + NGX_RTC_SRTP_TAG_LEN + 24.
Proof. pose proof (Srtp.protect_fits k p). unfold NGX_RTC_SRTP_TAG_LEN. lia. Qed.

(** What sending leaves of a session. *)
Definition sent s t : Prop :=
  SendPath.identity t = SendPath.identity s /\ conn t = conn s /\ fsm t = fsm s /\ bufs_ok t.

Definition can_send s : Prop := (exists q, fsm_rep (fsm s) q) /\ bufs_ok s.

Lemma sent_refl s : can_send s -> sent s s.
Proof. by intros [_ Hs]. Qed.

Lemma sent_trans s t u : sent s t -> sent t u -> sent s u.
Proof. intros (A1 & A2 & A3 & _) (B1 & B2 & B3 & B4). split_and!; congruence. Qed.

Lemma sent_can_send s t : can_send s -> sent s t -> can_send t.
Proof. intros [Hq _] (_ & _ & E & Hc). split; [by rewrite E | done]. Qed.

(** What a call leaves: the session, and nothing on a wire the session does not have. *)
Definition after s (log : SendPath.wire) (p : ptr session) (l : SendPath.wire) : Prop :=
  exists t, p = Ref t /\ sent s t /\ (conn s = NULL -> l = log).

Lemma send_one now send sc s d n gs log :
  can_send s -> 12 <= n <= zlen d ->
  safe (fun '(_, p, l) => after s log p l)
    (SendPath.ngx_rtc_session_send_rtp protect tunables now send (Ref sc) (Ref s) d n gs log).
Proof.
  intros Hs Hn. rewrite SendPath.send_rtp_prefix by done. set (p := ztake n d).
  assert (Hp : zlen p = n) by (unfold p; rewrite zlen_ztake; lia). rewrite <- Hp.
  assert (Hself : after s log (Ref s) log) by (exists s; split_and!; [done | by apply sent_refl | done]).
  destruct Hs as [[q Hq] Hc]. destruct (conn s) as [| c] eqn:Ec.
  { unfold SendPath.ngx_rtc_session_send_rtp. by rewrite Ec. }
  destruct (ngx_rtc_session_fsm_is_ready (Ref (fsm s))) as [[] |] eqn:Er; [| | by rewrite (is_ready_rep _ q Hq) in Er].
  2: { unfold SendPath.ngx_rtc_session_send_rtp. by rewrite Ec, Er. }
  destruct (Z.le_gt_cases n NGX_RTC_MAX_RTP_PKT) as [Hmax | Hmax].
  2: { unfold SendPath.ngx_rtc_session_send_rtp. rewrite Ec, Er. cbn [is_null]. rewrite bind_Ret. cbn [negb].
       destruct (Z.ltb_spec NGX_RTC_MAX_RTP_PKT (zlen p)); [| lia]. by rewrite orb_true_r. }
  assert (Hsend : SendPath.sendable s) by (split_and!; [by rewrite Ec | done | apply Hc]).
  destruct (SendPath.send_rtp_step protect tunables protect_rtp_fits now send sc s p gs log Hsend) as (k & Hk & ->).
  { split; lia. }
  destruct (SendPath.send_step _ _ _ _ _ _ _ _) as [[r t] l] eqn:Est. cbn.
  destruct (SendPath.send_step_frame _ _ _ _ _ _ _ _ _ _ _ Est) as [[= Ecn Ef _ _ _ _ _ En1 En2 En3 _ _] _].
  pose proof (SendPath.send_step_identity _ _ _ _ _ _ _ _ _ _ _ Est) as Hid.
  exists (set_cipher k t). split_and!; [done | | congruence]. split_and!; [exact Hid | cbn; congruence | cbn; congruence |].
  destruct Hc as (_ & Hc). unfold bufs_ok. cbn. by rewrite En1, En2, En3.
Qed.

Lemma offer_all_safe now send sc es : forall s log,
  can_send s -> Forall (fun e : GopRing.entry => 12 <= zlen e.1) es ->
  safe (fun r => after s log r.1 r.2) (Replay.offer_all protect tunables now send (Ref sc) es (Ref s) log).
Proof.
  induction es as [| e es IH]; intros s log Hs He; cbn [Replay.offer_all].
  { exists s. split_and!; [done | by apply sent_refl | done]. }
  apply Forall_cons in He as [He Hes].
  eapply safe_bind; [apply (send_one now send sc s e.1 (zlen e.1) e.2 log Hs); lia |].
  intros [[r p] l] (t & -> & Ht & Hl). destruct (r =? 0); [by exists t |].
  eapply safe_mono, IH; [| by eapply sent_can_send | done].
  intros [p l'] (u & Hu & Htu & Hl'). exists u. split_and!; [done | by eapply sent_trans |].
  intros Ec. cbn [fst snd] in *. rewrite Hl', <- Hl; [done | done |]. destruct Ht as (_ & Ect & _). congruence.
Qed.

Lemma shm_offer_safe g sc ss : forall s log,
  can_send s -> Forall Retransmit.slot_fits ss ->
  safe (fun op => after s log op.1 op.2) (Retransmit.offer (ngx_rtc_stream_shm_gop_send tunables g sc) ss (Ref s, log)).
Proof.
  induction ss as [| d ss IH]; intros s log Hs Hd; cbn [Retransmit.offer].
  { exists s. split_and!; [done | by apply sent_refl | done]. }
  apply Forall_cons in Hd as [Hd Hds]. unfold ngx_rtc_stream_shm_gop_send at 1. cbn [fst snd].
  eapply (safe_bind (fun r : Z * (ptr session * SendPath.wire) => after s log r.2.1 r.2.2)).
  { eapply safe_bind; [by apply (send_one (g_now g) (g_socket g) sc s _ (Retransmit.len d)) |].
    by intros [[r p] l] Ha. }
  intros [rc [p l]] (t & Ep & Ht & Hl). cbn [fst snd] in Ep, Hl. subst p. destruct (negb (rc =? 0)); [by exists t |].
  eapply safe_mono, IH; [| by eapply sent_can_send | done].
  intros [p l'] (u & Hu & Htu & Hl'). exists u. split_and!; [done | by eapply sent_trans |].
  intros Ec. cbn [fst snd] in *. rewrite Hl', <- Hl; [done | done |]. destruct Ht as (_ & Ect & _). congruence.
Qed.

Lemma sent_ok k l x s t m : session_ok k l x s m -> sent s t -> session_ok k l x t m.
Proof. intros [H1 H2 H3 H4 H5] (_ & Ec & Ef & Hc). split; [by rewrite Ef | done | by rewrite Ec | done..]. Qed.

Lemma ok_can_send k l x s m : session_ok k l x s m -> can_send s.
Proof. intros [(q & Hq & _) Hc _ _ _]. split; [by exists q | done]. Qed.

Lemma sent_wok x s t w : worker_ok w -> sessions_of w !! x = Some s -> sent s t -> worker_ok (put_session x t w).
Proof.
  intros Hw Hs Ht. pose proof (wo_sess w Hw x s Hs) as Hok. destruct Ht as (Hi & Hc & Ht).
  apply (put_session_wok x s); try done. by eapply sent_ok.
Qed.

Lemma ctx_in w c p : conns w !! c = Some p -> ctx_of w c = Ret p.
Proof. unfold ctx_of. by intros ->. Qed.

(** What goes out goes out on the session's connection. *)
Lemma log_wire_safe x s t l w :
  worker_ok w -> sessions_of w !! x = Some s -> conn t = conn s -> (conn t = NULL -> l = []) ->
  exists l', log_wire x t l w = Ret (set_wire l' w).
Proof.
  intros Hw Hs Hc Hl. unfold log_wire. destruct (conn t) as [| c] eqn:Ec.
  { rewrite Hl by done. exists (wire w). by destruct w. }
  destruct l as [| d l]; [exists (wire w); by destruct w |].
  rewrite (ctx_in w c (Ref x)), bind_Ret; [by eexists |].
  apply (so_conn _ _ _ _ _ (wo_sess w Hw x s Hs)). congruence.
Qed.

(** A worker in which session x is alive. *)
Definition good x w : Prop := worker_ok w /\ exists s, sessions_of w !! x = Some s.

(** Session x was sent to, the rest of the registry is as it was. *)
Definition served x s w w' : Prop :=
  worker_ok w' /\ (exists t, sessions_of w' !! x = Some t /\ sent s t) /\
  (forall y, y <> x -> sessions_of w' !! y = sessions_of w !! y) /\ sources_of w' = sources_of w.

Lemma served_good x s w w' : served x s w w' -> good x w'.
Proof. intros (Hw & (t & Ht & _) & _). split; [done | by exists t]. Qed.

Lemma served_wire x s t l w :
  worker_ok w -> sessions_of w !! x = Some s -> sent s t -> (conn s = NULL -> l = []) ->
  exists l', log_wire x t l w = Ret (set_wire l' w) /\ served x s w (put_session x t (set_wire l' w)).
Proof.
  intros Hw Hs Ht Hl. pose proof Ht as (_ & Hc & _).
  destruct (log_wire_safe x s t l w Hw Hs Hc) as [l' ->]; [by rewrite Hc |]. exists l'. split; [done |].
  split; [apply (sent_wok x s); [by apply set_wire_wok | done | done] |].
  split; [exists t; split; [cbn; by rewrite lookup_insert_eq | done] |]. split; [| done].
  intros y Hy. cbn. by rewrite lookup_insert_ne.
Qed.

Lemma served_zone x s z w w' : served x s w w' -> zone_ok z -> served x s w (set_zone z w').
Proof. intros (Hw & Hx) Hz. split; [by apply set_zone_wok | exact Hx]. Qed.

Lemma source_in w x s a : worker_ok w -> sessions_of w !! x = Some s -> source s = Ref a -> exists src, sources_of w !! a = Some src.
Proof. intros Hw Hs Ha. destruct (Registry.ok_source _ _ (wo_reg w Hw) x s a Hs Ha) as [src Hsrc]. by exists src. Qed.

Lemma replay_gop_safe g x s a w :
  worker_ok w -> sessions_of w !! x = Some s -> source s = Ref a ->
  safe (fun r => served x s w r.2) (ngx_rtc_stream_replay_gop tunables g x w).
Proof.
  intros Hw Hs Ha. unfold ngx_rtc_stream_replay_gop. rewrite (session_at_in w x s Hs), bind_Ret, Ha.
  destruct (source_in w x s a Hw Hs Ha) as [src Hsrc]. rewrite (source_at_in w a src Hsrc), bind_Ret.
  pose proof (ok_can_send _ _ _ _ _ (wo_sess w Hw x s Hs)) as Hcan.
  destruct (negb (GopRing.ngx_rtc_source_gop_ready (Ref src) =? 0)) eqn:Er.
  - destruct (wo_src w Hw a src Hsrc) as [[Hn | (k & ss & l & _ & Hrep & H12)] _].
    { unfold GopRing.ngx_rtc_source_gop_ready in Er. by rewrite Hn in Er. }
    destruct (Replay.replay_offers protect tunables (g_now g) (g_socket g) src k (gop src) ss l s [] Hrep H12) as (es & Hes & ->).
    eapply safe_bind; [apply offer_all_safe; [done |] |].
    { apply Forall_forall. intros e He. by eapply Forall_forall in H12; [| apply Hes]. }
    intros [p l'] (t & Ep & Ht & Hl). cbn [fst snd] in Ep, Hl. subst p.
    destruct (served_wire x s t l' w Hw Hs Ht Hl) as (l'' & -> & Hg). by rewrite bind_Ret.
  - pose proof (wo_zone w Hw) as Hz. destruct (Request.zone (host w)) as [| c] eqn:Ez; 
      [split_and!; [done | exists s; split; [done | by apply sent_refl] | done | done] |].
    destruct Hz as [Hc Hrings].
    assert (Hsame : forall rc, safe (fun r => served x s w r.2)
      ('(rc, ctx, (sess, l)) ← Ret (rc, c, (Ref s, []));
       match sess with NULL => Fault | Ref s => w ← log_wire x s l w; Ret (if 0 <? rc then 1 else 0, set_zone (Ref ctx) (put_session x s w)) end)).
    { intros rc. rewrite bind_Ret. destruct (served_wire x s s [] w Hw Hs (sent_refl s Hcan)) as (l' & -> & Hg); [done |].
      rewrite bind_Ret. by apply served_zone. }
    unfold ShmMedia.ngx_rtc_shm_retransmit_replay_gop.
    destruct (negb (Shm.valid_name (name src))) eqn:Ev; [apply Hsame |].
    destruct (g_copy g) eqn:Eg; [cbn [negb] | apply Hsame].
    destruct (ShmInv.lookup_cases c (name src) Hc) as [(b & r & Hn & El) | [_ El]]; [| rewrite El; apply Hsame].
    destruct (Shm.retransmit r) as [| ring] eqn:Ering.
    { rewrite El. unfold Shm.source_at. rewrite (proj1 Hn), bind_Ret, Ering. apply Hsame. }
    destruct (Hrings b r (proj1 Hn)) as (h & Hh & Hring). rewrite Ering in Hring.
    destruct (ShmMedia.replay_spec (ngx_rtc_stream_shm_gop_send tunables g src) c (name src) b r ring h Hc Hn Ering Hring Hh)
      as (ss & c' & [_ Hfit] & Hc' & (r' & -> & Hbody) & E).
    specialize (E (Ref s, [])). unfold ShmMedia.ngx_rtc_shm_retransmit_replay_gop in E. rewrite Ev in E. cbn [negb] in E.
    rewrite E. clear E. pose proof (shm_offer_safe g src ss s [] Hcan Hfit) as Ho.
    destruct (Retransmit.offer _ ss _) as [[p l'] |]; [| done]. destruct Ho as (t & Ep & Ht & Hl). cbn [fst snd] in Ep, Hl. subst p.
    rewrite !bind_Ret. destruct (served_wire x s t l' w Hw Hs Ht Hl) as (l'' & -> & Hg). rewrite bind_Ret.
    apply served_zone; [done |]. split; [done |].
    intros b' u Hu. cbn in Hu. apply lookup_insert_Some in Hu as [[<- <-] | [_ Hu]]; [| by eapply Hrings].
    exists h. split; [done |]. by rewrite (proj2 Hbody), Ering.
Qed.

(** ** Feedback and sessions that stay

    The sessions are all still there, who they were, on their connections and in their states. *)
Definition carries w w' : Prop :=
  worker_ok w' /\ forall y, match sessions_of w !! y, sessions_of w' !! y with
                            | Some s, Some t => sent s t
                            | None, None => True
                            | _, _ => False
                            end.

Lemma ok_sends w x s : worker_ok w -> sessions_of w !! x = Some s -> can_send s.
Proof. intros Hw Hs. exact (ok_can_send _ _ _ _ _ (wo_sess w Hw x s Hs)). Qed.

Lemma carries_refl w : worker_ok w -> carries w w.
Proof.
  intros Hw. split; [done |]. intros y. destruct (sessions_of w !! y) as [s |] eqn:Hs; [| done].
  by eapply sent_refl, ok_sends.
Qed.

Lemma carries_trans w1 w2 w3 : carries w1 w2 -> carries w2 w3 -> carries w1 w3.
Proof.
  intros [_ H1] [Hw H2]. split; [done |]. intros y. specialize (H1 y). specialize (H2 y).
  destruct (sessions_of w1 !! y), (sessions_of w2 !! y), (sessions_of w3 !! y); try done. by eapply sent_trans.
Qed.

Lemma carries_get w w' y s : carries w w' -> sessions_of w !! y = Some s -> exists t, sessions_of w' !! y = Some t /\ sent s t.
Proof. intros [_ Hc] Hs. specialize (Hc y). rewrite Hs in Hc. destruct (sessions_of w' !! y) as [t |]; [by exists t | done]. Qed.

Lemma carries_put w y s t : worker_ok w -> sessions_of w !! y = Some s -> sent s t -> carries w (put_session y t w).
Proof.
  intros Hw Hs Ht. split; [by apply (sent_wok y s) |]. intros z. cbn. destruct (decide (z = y)) as [-> | Hne].
  - by rewrite lookup_insert_eq, Hs.
  - rewrite lookup_insert_ne by done. destruct (sessions_of w !! z) as [u |] eqn:Hu; [| done]. by eapply sent_refl, ok_sends.
Qed.

(** The worker with the same sessions. *)
Lemma carries_same w w' : worker_ok w' -> sessions_of w' = sessions_of w -> carries w w'.
Proof.
  intros Hw E. split; [done |]. intros y. rewrite E. destruct (sessions_of w !! y) as [s |] eqn:Hs; [| done].
  eapply sent_refl, (ok_sends w' y); [done | by rewrite E].
Qed.

Lemma served_carries x s w w' : worker_ok w -> sessions_of w !! x = Some s -> served x s w w' -> carries w w'.
Proof.
  intros Hw Hs (Hw' & (t & Ht & Hst) & Ho & _). split; [done |]. intros y. destruct (decide (y = x)) as [-> | Hne].
  - by rewrite Hs, Ht.
  - rewrite Ho by done. destruct (sessions_of w !! y) as [u |] eqn:Hu; [| done]. exact (sent_refl u (ok_sends w y u Hw Hu)).
Qed.

(** ** Asking the publisher for a keyframe

    The request is protected in an array of its own.  It is twelve octets and libsrtp appends
    fourteen, so where the array is shorter than twenty-six, as the code's is, the request can
    write past it; only a session whose stream has a publisher in this worker gets there. *)

Definition overflows g x w : Prop :=
  zlen (s_pkt g) < 26 /\
  exists s y t, sessions_of w !! x = Some s /\ source s <> NULL /\ sessions_of w !! y = Some t /\ source t = source s /\
    sess_publishing t <> 0.

(** Who the sessions are. *)
Definition same_ids w w' : Prop := forall y, SendPath.identity <$> (sessions_of w' !! y) = SendPath.identity <$> (sessions_of w !! y).

Lemma overflows_ids g x w w' : same_ids w w' -> overflows g x w' -> overflows g x w.
Proof.
  intros He (Hp & s & y & t & Hs & Hsrc & Ht & E & Hpub). split; [done |]. pose proof (He x) as Hx. pose proof (He y) as Hy.
  rewrite Hs in Hx. rewrite Ht in Hy. destruct (sessions_of w !! x) as [s0 |] eqn:Es; [| done]. destruct (sessions_of w !! y) as [t0 |] eqn:Et; [| done].
  injection Hx as Ex _ _ _. injection Hy as Ey _ _ Ep. exists s0, y, t0. split_and!; congruence.
Qed.

Lemma same_ids_put w x s t : sessions_of w !! x = Some s -> SendPath.identity t = SendPath.identity s -> same_ids w (put_session x t w).
Proof.
  intros Hs Hid y. cbn. destruct (decide (y = x)) as [-> | Hne]; [rewrite lookup_insert_eq, Hs; cbn; by rewrite Hid | by rewrite lookup_insert_ne].
Qed.

Lemma same_ids_trans w1 w2 w3 : same_ids w1 w2 -> same_ids w2 w3 -> same_ids w1 w3.
Proof. intros H1 H2 y. by rewrite H2. Qed.

Lemma carries_ids w w' : carries w w' -> same_ids w w'.
Proof.
  intros [_ Hc] y. specialize (Hc y). destruct (sessions_of w !! y) as [s |], (sessions_of w' !! y) as [t |]; try done.
  destruct Hc as [Hid _]. cbn. by rewrite Hid.
Qed.

Lemma send_safe g c p d w : conns w !! c = Some p -> exists l, send g c d w = Ret (set_wire l w).
Proof. intros Hc. unfold send. rewrite (ctx_in w c p Hc), bind_Ret. by eexists. Qed.

Lemma protect_rtcp_room (k : srtp_t) p b :
  zlen p = 12 -> 26 <= zlen b -> exists b', store_range b 0 (Srtp.ngx_rtc_srtp_protect_rtcp k p).1.2 = Ret b'.
Proof.
  intros Hp Hb. assert (Hl : zlen (Srtp.ngx_rtc_srtp_protect_rtcp k p).1.2 <= zlen b) by (pose proof (Srtp.protect_rtcp_fits k p); lia).
  pose proof (store_range_safe b 0 _ ltac:(lia) Hl) as Hsafe.
  destruct (store_range b 0 _) as [b' |]; [by exists b' | done].
Qed.

Lemma request_keyframe_carries g x s a w :
  worker_ok w -> sessions_of w !! x = Some s -> source s = Ref a -> 12 <= zlen (s_pkt g) ->
  safe_unless (overflows g x w) (carries w) (ngx_rtc_stream_request_keyframe g a w).
Proof.
  intros Hw Hs Ha H12. unfold ngx_rtc_stream_request_keyframe.
  destruct (source_in w x s a Hw Hs Ha) as [src Hsrc].
  assert (Hsame : carries w w) by by apply carries_refl.
  rewrite (source_at_in w a src Hsrc), bind_Ret. destruct (publishing src =? 0); [done |]. destruct (_ && _); [done |].
  set (p := fun t : session => Registry.points_to a t && negb (sess_publishing t =? 0)).
  destruct (Registry.session_scan_all Shm.ngx_crc32_long (registry_of w) p (wo_reg w Hw)) as [[-> _] | (y & t & -> & Hy & Hp)];
    rewrite bind_Ret; [done |].
  apply andb_prop in Hp as [Hpa Hp]. apply Registry.points_to_spec in Hpa.
  rewrite (session_at_in w y t Hy), bind_Ret.
  rewrite Rtcp.encode_pli_wire, bind_Ret by lia. change (negb (NGX_RTC_OK =? NGX_RTC_OK)) with false. cbv iota.
  set (b := Rtcp.pli_wire _ _ ++ _). assert (Hpl : zlen (Rtcp.pli_wire NGX_RTC_PLI_SENDER_SSRC (video_ssrc src)) = 12) by done.
  assert (Hb : zlen b = zlen (s_pkt g)) by (unfold b; rewrite zlen_app, zlen_zdrop; lia).
  rewrite (load_range_in b 0 12), bind_Ret, zdrop_0 by lia.
  pose proof (protect_rtcp_room (srtp t) (ztake 12 b) b ltac:(rewrite zlen_ztake; lia)) as Hroom.
  destruct (Srtp.ngx_rtc_srtp_protect_rtcp (srtp t) (ztake 12 b)) as [[rc pkt] k]. cbn [fst snd] in Hroom.
  destruct (store_range b 0 pkt) as [b' |] eqn:Eb.
  2: { split.
       - destruct (Z.lt_ge_cases (zlen (s_pkt g)) 26) as [| Hge]; [done |]. by destruct Hroom as [b' Eb']; [lia |].
       - exists s, y, t. split_and!; [done | congruence | done | congruence |]. intros E. by rewrite E in Hp. }
  rewrite bind_Ret. pose proof (wo_sess w Hw y t Hy) as Hok.
  assert (Hg : carries w (put_session y (set_srtp k t) w)).
  { apply (carries_put w y t); [done.. |]. split_and!; [done.. | apply Hok]. }
  destruct (negb (rc =? 0)); [done |]. destruct (conn t) as [| c] eqn:Ec; [done |].
  destruct (send_safe g c (Ref y) pkt (put_session y (set_srtp k t) w)) as [l ->]; [by apply (so_conn _ _ _ _ _ Hok) |].
  rewrite bind_Ret. eapply carries_trans; [exact Hg |]. destruct Hg as [Hwok _]. apply carries_same; [| done].
  apply (put_source_wok a src); [by apply set_wire_wok | exact Hsrc | done | done | done].
Qed.

Lemma carries_good w w' x s : carries w w' -> sessions_of w !! x = Some s -> good x w'.
Proof. intros Hc Hs. split; [apply Hc |]. destruct (carries_get w w' x s Hc Hs) as (t & Ht & _). by exists t. Qed.

(** ** The end of the handshake *)

Lemma put_same x s w : sessions_of (put_session x s w) !! x = Some s.
Proof. cbn. by rewrite lookup_insert_eq. Qed.

(** The registry's links change. *)
Lemma set_registry_wok (r : Registry.registry) w :
  worker_ok w -> Registry.reg_ok Shm.ngx_crc32_long r -> Registry.sources r = sources_of w ->
  Registry.sessions r = sessions_of w ->
  (forall x s, sessions_of w !! x = Some s ->
     q_link (Registry.sub_queue x) (Registry.queues r) = Self \/ Dtls.handshake_done (dtls (media_of w x)) <> 0) ->
  worker_ok (set_registry r w).
Proof.
  intros [[H1 H2 H3] H4 H5 H6 H7 H8 H9 H10] Hr Hso Hse Hl. split; cbn; rewrite ?Hso, ?Hse; try done.
  - split; cbn; [done | by rewrite Hso | done].
  - intros x s Hs. destruct (H6 x s Hs) as [A1 A2 A3 A4 _]. split; try done. by eapply Hl.
Qed.

Definition done_ready x w : Prop := Dtls.handshake_done (dtls (media_of w x)) <> 0 /\ link_of w x = Self.

Lemma subscribe_safe g x s w :
  worker_ok w -> sessions_of w !! x = Some s -> done_ready x w -> 12 <= zlen (s_pkt g) ->
  safe_unless (overflows g x w) (good x) (subscribe tunables g x w).
Proof.
  intros Hw Hs [Hd Hself] H12. unfold subscribe. rewrite (session_at_in w x s Hs), bind_Ret.
  assert (Hg : good x w) by (split; [done | by exists s]).
  destruct (source s) as [| a] eqn:Ea; [done |]. destruct (negb (sess_publishing s =? 0)) eqn:Ep; [done |].
  destruct (source_in w x s a Hw Hs Ea) as [src Hsrc].
  destruct (Registry.subscribe_ok Shm.ngx_crc32_long (registry_of w) x s a) as (r & -> & Hr & Hso & Hse & Hn);
    [by apply wo_reg | done | by exists src | by left | done |]. rewrite bind_Ret.
  rewrite (insert_id _ x) in Hse by (rewrite Hs; f_equal; rewrite <- Ea; by destruct s).
  assert (Hw1 : worker_ok (set_registry r w)).
  { apply set_registry_wok; try done. intros y t Hy. destruct (decide (y = x)) as [-> | Hne]; [by right |].
    rewrite Hn by congruence. apply (so_link _ _ _ _ _ (wo_sess w Hw y t Hy)). }
  assert (Hs1 : sessions_of (set_registry r w) !! x = Some s) by (cbn; by rewrite Hse).
  eapply safe_bind_unless; [by apply (replay_gop_safe g x s a) |]. intros [n w2] Hserved. cbn [snd] in Hserved.
  pose proof (served_good _ _ _ _ Hserved) as Hg2. destruct (n =? 0); [| done].
  pose proof (served_carries x s _ _ Hw1 Hs1 Hserved) as Hc2.
  destruct Hserved as (Hw2 & (t & Ht & (Hid & _)) & _). injection Hid as Hst _ _ _.
  eapply safe_unless_mono; [| | apply (request_keyframe_carries g x t a w2); [done | done | congruence | done]].
  - apply overflows_ids. intros y. rewrite (carries_ids _ _ Hc2 y). cbn. by rewrite Hse.
  - intros w3 Hc3. by apply (carries_good w2 w3 x t).
Qed.

Lemma flag_close_safe x s w : worker_ok w -> sessions_of w !! x = Some s -> safe (good x) (flag_close x w).
Proof.
  intros Hw Hs. unfold flag_close. rewrite (media_at_in w x s Hs), bind_Ret. split; [| by exists s].
  apply (put_media_wok x s); [done | done |]. by destruct (wo_sess w Hw x s Hs).
Qed.

(** The arrays and the worker's number. *)
Definition arrays_ok g : Prop := zlen (s_recv_key g) = 30 /\ zlen (s_send_key g) = 30 /\ 128 <= zlen (s_resp g) /\ 0 <= g_slot g /\
  12 <= zlen (s_pkt g).

Lemma dtls_done_safe g x s w :
  worker_ok w -> sessions_of w !! x = Some s -> done_ready x w -> arrays_ok g ->
  safe_unless (overflows g x w) (good x) (ngx_rtc_stream_dtls_done tunables report g x w).
Proof.
  intros Hw Hs Hd (Hrk & Hsk & _ & Hslot & H12). unfold ngx_rtc_stream_dtls_done.
  rewrite (media_at_in w x s Hs), bind_Ret. pose proof (wo_sess w Hw x s Hs) as Hok.
  destruct (Dtls.srtp_key_safe (dtls (media_of w x)) (s_recv_key g) (s_send_key g)) as (rc & rk & sk & ->);
    [apply Hd | apply Hok, Hd | done | done |]. rewrite bind_Ret.
  destruct (negb (rc =? 0)); [by eapply safe_safe_unless, flag_close_safe |]. rewrite (session_at_in w x s Hs), bind_Ret.
  assert (Hk : exists rc k n, Srtp.ngx_rtc_srtp_create (g_srtp g).1 (g_srtp g).2 (Ref (srtp s)) (Ref rk) (Ref sk) 0 = (rc, Ref k, n)).
  { destruct (g_srtp g) as [[] []]; by eexists _, _, _. }
  destruct Hk as (rc' & k & n & ->). set (s1 := set_srtp k s). set (w1 := put_session x s1 w).
  assert (Hw1 : worker_ok w1) by (apply (sent_wok x s); [done | done | split_and!; try done; apply Hok]).
  assert (Hs1 : sessions_of w1 !! x = Some s1) by apply put_same.
  destruct (negb (rc' =? 0)); [by eapply safe_safe_unless, flag_close_safe |].
  destruct (so_fsm _ _ _ _ _ (wo_sess w1 Hw1 x s1 Hs1)) as (q & Hq & _).
  eapply safe_bind_unless; [by apply (dispatch_safe x s1 q NGX_RTC_SESSION_EVT_DTLS_HANDSHAKE_DONE NULL w1) |].
  intros [ok w2] (_ & Hw2 & kk & E2 & _). cbn [snd] in *. subst w2. set (s2 := set_fsm kk s1) in *.
  rewrite (session_at_in _ x s2) by apply put_same. rewrite bind_Ret.
  destruct (Pacer.ngx_rtc_session_pacer_init (Ref (set_last_active (g_now g) s2)) Pacer.NGX_RTC_PACER_MAX_BPS) as [| s3] eqn:E3; [done |].
  assert (Hs3 : sent s2 s3) by (injection E3 as <-; split_and!; try done; apply Hok).
  assert (Hw3 : worker_ok (put_session x s3 (put_session x s2 w1))) by (apply (sent_wok x s2); [done | apply put_same | done]).
  eapply (safe_unless_bind _ (good x)).
  { eapply safe_unless_mono; [| | apply (subscribe_safe g x s3); [done | apply put_same | exact Hd | done]]; [| done].
    apply overflows_ids. apply (same_ids_trans _ w1); [by apply (same_ids_put w x s) |].
    apply (same_ids_trans _ (put_session x s2 w1)); [by apply (same_ids_put w1 x s1) | apply (same_ids_put _ x s2); [apply put_same | apply Hs3]]. }
  intros w4 [Hw4 [t Ht]]. eapply safe_safe_unless, safe_mono; [| by apply (activate_safe g x t)].
  intros w5 [Hw5 [z ->]]. split; [done | by exists t].
Qed.

(** ** Calls on the DTLS context *)

Lemma dtls_send_safe g x l : forall w, good x w ->
  exists l', ngx_rtc_stream_dtls_send g x l w = Ret (set_wire l' w).
Proof.
  induction l as [| d l IH]; intros w [Hw [s Hs]]; cbn [ngx_rtc_stream_dtls_send]; [exists (wire w); by destruct w |].
  rewrite (session_at_in w x s Hs), bind_Ret.
  assert (Hsend : exists l', match conn s with NULL => Ret w | Ref c => send g c d w end = Ret (set_wire l' w)).
  { destruct (conn s) as [| c] eqn:Ec; [exists (wire w); by destruct w |].
    by apply (send_safe g c (Ref x)), (so_conn _ _ _ _ _ (wo_sess w Hw x s Hs)). }
  destruct Hsend as [l' ->]. rewrite bind_Ret. destruct (IH (set_wire l' w)) as [l'' ->]; [| by exists l''].
  split; [by apply set_wire_wok | by exists s].
Qed.

Definition call_rep x w (r : Z * ptr (Dtls.ngx_rtc_dtls_t S) * list octets * bool) : Prop :=
  exists call, r = Dtls.call_on (Ref (dtls (media_of w x))) call.

Lemma dtls_called_safe g x s r w :
  worker_ok w -> sessions_of w !! x = Some s -> arrays_ok g -> call_rep x w r ->
  safe_unless (overflows g x w) (fun r => good x r.2) (dtls_called tunables report g x r w).
Proof.
  intros Hw Hs Harr [call ->]. unfold dtls_called. set (m := media_of w x).
  pose proof (Dtls.call_on_ssl (dtls m) call) as Hcall.
  destruct (Dtls.call_on (Ref (dtls m)) call) as [[[rc p] out] fired]. destruct Hcall as (e & -> & H1 & H2 & H3 & H4).
  rewrite (media_at_in w x s Hs), bind_Ret. fold m.
  pose proof (wo_sess w Hw x s Hs) as [(q & Hq & Hpend) Hci Hco Hdn Hli]. fold m in Hpend, Hdn, Hli.
  assert (Hok : session_ok (conns w) (link_of w x) x s (set_dtls e m)).
  { split; cbn; try done.
    - exists q. split; [done |]. intros Hp. by apply H1, Hpend.
    - intros Hd. destruct (H3 Hd) as [Hd' | ?]; [| done]. rewrite H1. by apply Hdn.
    - destruct Hli as [? | Hd]; [by left | right; by apply H2]. }
  assert (Hw1 : worker_ok (put_media x (set_dtls e m) w)) by (by apply (put_media_wok x s)).
  assert (Hg1 : good x (put_media x (set_dtls e m) w)) by (split; [done | by exists s]).
  destruct (dtls_send_safe g x out _ Hg1) as [l ->]. rewrite bind_Ret.
  assert (Hw2 : worker_ok (set_wire l (put_media x (set_dtls e m) w))) by by apply set_wire_wok.
  destruct fired; [| split; [done | by exists s]].
  eapply safe_unless_bind; [| by intros w3 Hw3].
  eapply safe_unless_mono; [by apply (overflows_ids g x w (set_wire l (put_media x (set_dtls e m) w))) | done | apply (dtls_done_safe g x s); try done].
  destruct (H4 eq_refl) as [Hd0 Hd1]. split.
  - unfold media_of. cbn. by rewrite lookup_insert_eq.
  - cbn. by destruct Hli.
Qed.

Lemma put_timer_good x s p w : worker_ok w -> sessions_of w !! x = Some s -> good x (put_media x (set_dtls_timer p (media_of w x)) w).
Proof.
  intros Hw Hs. split; [| by exists s]. apply (put_media_wok x s); [done | done |]. by destruct (wo_sess w Hw x s Hs).
Qed.

Lemma schedule_safe g x w :
  good x w -> safe (fun w' => good x w' /\ sessions_of w' = sessions_of w) (ngx_rtc_stream_dtls_schedule g x w).
Proof.
  intros Hg. pose proof Hg as [Hw [s Hs]]. unfold ngx_rtc_stream_dtls_schedule. rewrite (media_at_in w x s Hs), bind_Ret. cbv zeta.
  destruct (_ <=? 0); [done |]. destruct (dtls_timer _); [destruct (g_event g); [| done] |]; by (split; [eapply put_timer_good |]).
Qed.

Lemma cancel_safe x w : good x w -> safe (good x) (ngx_rtc_stream_dtls_cancel x w).
Proof.
  intros [Hw [s Hs]]. unfold ngx_rtc_stream_dtls_cancel. rewrite (media_at_in w x s Hs), bind_Ret. by eapply put_timer_good.
Qed.

(** ** Closing a session *)

Definition unbound s (k : gmap Z (ptr Z)) : gmap Z (ptr Z) := match conn s with NULL => k | Ref c => <[c := NULL]> k end.
Definition finalizing g s : list Z := match conn s with NULL => [] | Ref c => if g_close_event g then [c] else [] end.

Definition detached g x s w : worker :=
  w |> put_session x (set_conn NULL s) |> set_conns (unbound s (conns w)) |> set_posted (posted w ++ finalizing g s).

Lemma detach_spec g x s w :
  worker_ok w -> sessions_of w !! x = Some s -> detach g x w = Ret (detached g x s w) /\ worker_ok (detached g x s w).
Proof.
  intros Hw Hs. pose proof Hw as [[H1 H2 H3] H4 H5 H6 H7 H8 H9 H10].
  assert (Hb : forall c, conn s = Ref c -> conns w !! c = Some (Ref x)) by (intros c; apply (so_conn _ _ _ _ _ (H6 x s Hs))).
  split.
  { unfold detach, detached, unbound, finalizing. rewrite (session_at_in w x s Hs), bind_Ret.
    destruct (conn s) as [| c] eqn:Ec; [rewrite app_nil_r; by destruct w |].
    unfold set_ctx. rewrite (ctx_in _ c (Ref x)) by by apply Hb. rewrite !bind_Ret.
    destruct (g_close_event g); [done |]. by rewrite app_nil_r. }
  assert (Hk : forall c p, unbound s (conns w) !! c = Some p -> (p = NULL /\ conn s = Ref c) \/ (conn s <> Ref c /\ conns w !! c = Some p)).
  { intros c p. unfold unbound. destruct (conn s) as [| d]; [by right |].
    intros [[<- <-] | [? ?]]%lookup_insert_Some; [by left | right]. split; congruence. }
  assert (Hk' : forall c p, conn s <> Ref c -> conns w !! c = Some p -> unbound s (conns w) !! c = Some p).
  { intros c p Hc Hp. unfold unbound. destruct (conn s) as [| d]; [done |]. rewrite lookup_insert_ne; [done | congruence]. }
  split; cbn; try done.
  - split; cbn; try done. by eapply Registry.session_put_ok.
  - intros y t [[<- <-] | [Hne Ht]]%lookup_insert_Some.
    + destruct (H6 x s Hs) as [A1 A2 A3 A4 A5]. by split.
    + destruct (H6 y t Ht) as [A1 A2 A3 A4 A5]. split; try done. intros c Hc. apply Hk'; [| by apply A3].
      intros Hx. pose proof (Hb c Hx). pose proof (A3 c Hc). congruence.
  - intros c y [[? ?] | [Hne Hy]]%Hk; [done |]. destruct (H7 c y Hy) as (t & Ht & Ect).
    exists t. rewrite lookup_insert_ne; [done |]. intros ->. congruence.
  - intros y m Hm. destruct (H8 y m Hm) as [t Ht]. destruct (decide (y = x)) as [-> | Hne].
    + rewrite lookup_insert_eq. by eexists.
    + rewrite lookup_insert_ne by done. by eexists.
  - intros c [Hc | Hc]%elem_of_app.
    + apply Hk'; [| by apply H9]. intros Hx. pose proof (Hb c Hx). pose proof (H9 c Hc). congruence.
    + unfold finalizing, unbound in *. destruct (conn s) as [| d]; [by apply elem_of_nil in Hc |].
      destruct (g_close_event g); [| by apply elem_of_nil in Hc]. apply list_elem_of_singleton in Hc as ->. by rewrite lookup_insert_eq.
  - apply NoDup_app. split_and!; [done | |].
    + intros c Hc Hf. unfold finalizing in Hf. destruct (conn s) as [| d] eqn:Ec; [by apply elem_of_nil in Hf |].
      destruct (g_close_event g); [| by apply elem_of_nil in Hf]. apply list_elem_of_singleton in Hf as ->.
      pose proof (Hb d eq_refl). pose proof (H9 d Hc). congruence.
    + unfold finalizing. destruct (conn s), (g_close_event g); repeat constructor; apply not_elem_of_nil.
Qed.

(** A WHIP publisher's source gives the right up, in the worker and in the zone. *)
Definition gave_up (src : ngx_rtc_source_t) : ngx_rtc_source_t :=
  if publisher_kind src =? Registry.NGX_RTC_PUBLISHER_WHIP then Request.given_up src else src.
Definition zone_gave_up g s w : outcome (ptr shm) :=
  match source s with
  | NULL => Ret (Request.zone (host w))
  | Ref a =>
      src ← source_at w a;
      if publisher_kind src =? Registry.NGX_RTC_PUBLISHER_WHIP
      then Request.zone_given_up (g_now g) (name src) (publisher_kind src) (Request.zone (host w)) else Ret (Request.zone (host w))
  end.

Lemma release_publish_exact g x s w w' :
  sessions_of w !! x = Some s -> release_publish g x w = Ret w' ->
  zone_gave_up g s w = Ret (Request.zone (host w')) /\
  match source s with
  | NULL => sources_of w' = sources_of w
  | Ref a => forall src, sources_of w !! a = Some src -> sources_of w' = <[a := gave_up src]> (sources_of w)
  end.
Proof.
  intros Hs. unfold release_publish, zone_gave_up, gave_up. rewrite (session_at_in w x s Hs), bind_Ret.
  destruct (source s) as [| a]; [by intros [= <-] |]. unfold source_at, Registry.source_at.
  destruct (sources_of w !! a) as [src |] eqn:Hsrc; [rewrite !bind_Ret | done].
  destruct (Z.eqb_spec (publisher_kind src) Registry.NGX_RTC_PUBLISHER_WHIP) as [Hk |].
  2: { intros [= <-]. split; [done |]. intros t [= <-]. destruct (Z.eqb_spec (publisher_kind src) Registry.NGX_RTC_PUBLISHER_WHIP); [done |]. by rewrite insert_id. }
  rewrite (Request.release_eq (g_now g) a src (host w) Hsrc) by (by rewrite Hk).
  destruct (Request.zone_given_up _ _ _ _) as [z |]; [rewrite !bind_Ret | done]. intros [= <-]. split; [done |].
  intros t [= <-]. by rewrite Hk.
Qed.

Lemma release_publish_safe g x s w :
  worker_ok w -> sessions_of w !! x = Some s ->
  safe (fun w' => worker_ok w' /\ (exists e, w' = set_host e w) /\ sessions_of w' = sessions_of w /\
          Registry.queues (registry_of w') = Registry.queues (registry_of w) /\
          Request.zone_shrinks (Request.zone (host w)) (Request.zone (host w'))) (release_publish g x w).
Proof.
  intros Hw Hs. unfold release_publish. rewrite (session_at_in w x s Hs), bind_Ret.
  assert (Hsame : worker_ok w /\ (exists e, w = set_host e w) /\ sessions_of w = sessions_of w /\
    Registry.queues (registry_of w) = Registry.queues (registry_of w) /\ Request.zone_shrinks (Request.zone (host w)) (Request.zone (host w))).
  { split_and!; try done; [exists (host w); by destruct w | apply Request.zone_shrinks_refl]. }
  destruct (source s) as [| a] eqn:Ea; [done |]. destruct (source_in w x s a Hw Hs Ea) as [src Hsrc].
  rewrite (source_at_in w a src Hsrc), bind_Ret. destruct (_ =? _); [| done].
  destruct (Request.release_env (g_now g) a src (host w) (wo_env w Hw) Hsrc) as (z & src' & -> & He & Hss & _ & _ & Hz & Hj & _).
  rewrite bind_Ret. split; [| split; [by eexists | by split_and!]]. destruct Hss as (Hn & _ & Hp & Hgop).
  pose proof Hw as [_ H4 H5 H6 H7 H8 H9 H10]. split; cbn; try done.
  - destruct (Request.zone (host w)) as [| c], z as [| c']; try done. destruct H4 as [_ Hr].
    split; [apply He | eapply keeps_rings; [apply Hz | done]].
  - intros b t [[<- <-] | [_ Ht]]%lookup_insert_Some; [unfold src_ok; rewrite Hgop, Hj |]; by eapply H5.
Qed.

(** The skeleton goes with the session when this worker owns it. *)
Definition zone_forgot g s (z : ptr shm) : outcome (ptr shm) :=
  match z with
  | NULL => Ret NULL
  | Ref c => c ← Shm.ngx_rtc_shm_session_remove_if_owner (g_now g) c (ice_ufrag s) (g_slot g); Ret (Ref c)
  end.

(** The session is gone; its connection has let go of it and will be finalized. *)
Record closed g x s w w' : Prop := {
  cl_ok : worker_ok w';
  cl_sessions : sessions_of w' = delete x (sessions_of w);
  cl_list : q_list Registry.ngx_rtc_sessions (Registry.queues (registry_of w'))
    = filter (fun n => n <> Registry.queue x) (q_list Registry.ngx_rtc_sessions (Registry.queues (registry_of w)));
  cl_conns : conns w' = unbound s (conns w);
  cl_posted : posted w' = posted w ++ finalizing g s;
  cl_media : media w' = delete x (media w);
  cl_zone : Request.zone_shrinks (Request.zone (host w)) (Request.zone (host w'));
  cl_wire : wire w' = wire w;
  cl_zone_is : exists z, zone_gave_up g s w = Ret z /\ zone_forgot g s z = Ret (Request.zone (host w'));
  cl_sources : match source s with
               | NULL => sources_of w' = sources_of w
               | Ref a => forall src, sources_of w !! a = Some src ->
                   (Registry.unused_without (registry_of w) x a (gave_up src) /\ sources_of w' = delete a (sources_of w)) \/
                   (~ Registry.unused_without (registry_of w) x a (gave_up src) /\ sources_of w' = <[a := gave_up src]> (sources_of w))
               end
}.

Lemma drop_wok x s (r : Registry.registry) z w :
  worker_ok w -> sessions_of w !! x = Some s -> conn s = NULL ->
  Registry.reg_ok Shm.ngx_crc32_long r -> Registry.sessions r = delete x (sessions_of w) ->
  (forall n, Registry.session_of n <> x -> q_link n (Registry.queues r) = q_link n (Registry.queues (registry_of w))) ->
  (forall a src, Registry.sources r !! a = Some src -> sources_of w !! a = Some src) -> zone_ok z ->
  worker_ok (set_media (delete x (media w)) (set_zone z (set_registry r w))).
Proof.
  intros [[H1 H2 H3] H4 H5 H6 H7 H8 H9 H10] Hs Hc Hr Hse Hl Hso Hz. split; cbn; rewrite ?Hse; try done.
  - split; cbn; [done | intros a src Ha; by apply (H2 a), Hso | by destruct z as [| ?]; [| apply Hz]].
  - intros a src Ha. by apply (H5 a), Hso.
  - intros y t [Hne Ht]%lookup_delete_Some. destruct (H6 y t Ht) as [A1 A2 A3 A4 A5].
    unfold media_of in *. cbn. rewrite lookup_delete_ne by done.
    split; try done. by rewrite Hl by (cbn; congruence).
  - intros c y Hy. destruct (H7 c y Hy) as (t & Ht & Ect). exists t. split; [| done].
    apply lookup_delete_Some. split; [| done]. intros ->. congruence.
  - intros y m [Hne Hm]%lookup_delete_Some. rewrite lookup_delete_ne by done. by eapply H8.
Qed.

Lemma session_close_safe g x s ev w :
  worker_ok w -> sessions_of w !! x = Some s -> safe (closed g x s w) (ngx_rtc_stream_session_close report g x ev w).
Proof.
  intros Hw Hs. unfold ngx_rtc_stream_session_close.
  destruct (detach_spec g x s w Hw Hs) as [-> Hw1]. rewrite bind_Ret. set (w1 := detached g x s w) in *.
  set (s1 := set_conn NULL s). assert (Hs1 : sessions_of w1 !! x = Some s1) by apply put_same.
  destruct (so_fsm _ _ _ _ _ (wo_sess w1 Hw1 x s1 Hs1)) as (q & Hq & _).
  eapply safe_bind; [by apply (dispatch_safe x s1 q ev NULL w1) |].
  intros [ok w2] (_ & Hw2 & k & E2 & _). cbn [snd] in *. subst w2. set (s2 := set_fsm k s1) in *. set (w2 := put_session x s2 w1) in *.
  assert (Hs2 : sessions_of w2 !! x = Some s2) by apply put_same.
  eapply (safe_bind (fun w3 => worker_ok w3 /\ _ /\ release_publish g x w2 = Ret w3)).
  { pose proof (release_publish_safe g x s2 w2 Hw2 Hs2) as Hrel. destruct (release_publish g x w2) as [w3 |]; [| done]. destruct Hrel as [H1 H2].
    split; [exact H1 |]. split; [exact H2 | done]. }
  intros w3 (Hw3 & ([e E3] & Hse3 & Hq3 & Hz23) & Erel). destruct (release_publish_exact g x s2 w2 w3 Hs2 Erel) as [Hzone Hsrcs]. change (Request.zone (host w2)) with (Request.zone (host w)) in Hz23. assert (Hs3 : sessions_of w3 !! x = Some s2) by (by rewrite Hse3).
  rewrite (session_at_in w3 x s2 Hs3), bind_Ret.
  destruct (Registry.session_drop_spec Shm.ngx_crc32_long (registry_of w3) x s2 (wo_reg w3 Hw3) Hs3)
    as (r & -> & Hr & Hse & Hls & Hlk & Hso). rewrite bind_Ret.
  assert (Hso' : forall a src, Registry.sources r !! a = Some src -> sources_of w3 !! a = Some src).
  { intros a src Ha. destruct (source s2) as [| b] eqn:Eb; [by rewrite <- Hso |].
    destruct (source_in w3 x s2 b Hw3 Hs3 Eb) as [t Ht]. destruct (Hso t Ht) as [[_ E] | [_ E]]; rewrite E in Ha; [| done].
    by apply lookup_delete_Some in Ha as [_ Ha]. }
  assert (Hdel : delete x (sessions_of w2) = delete x (sessions_of w)).
  { unfold w2, w1, detached. cbn. by rewrite !delete_insert_eq. }
  assert (Hun : forall a src, Registry.unused_without (registry_of w3) x a src <-> Registry.unused_without (registry_of w) x a src).
  { intros a src. unfold Registry.unused_without. assert (Hby : Registry.held_by_other (registry_of w3) x a <-> Registry.held_by_other (registry_of w) x a); [| by rewrite Hby].
    unfold Registry.held_by_other. rewrite Hse3. split; intros (y & u & Hne & Hu & Hua); exists y, u; (split; [done |]); (split; [| done]); revert Hu;
      unfold w2, w1, detached; cbn; by rewrite !lookup_insert_ne. }
  assert (Hend : forall z, zone_ok z -> Request.zone_shrinks (Request.zone (host w3)) z -> zone_forgot g s (Request.zone (host w3)) = Ret z ->
    closed g x s w (set_media (delete x (media w3)) (set_zone z (set_registry r w3)))).
  { intros z Hz Hsh Hfg. rewrite Hse3, Hdel in Hse. rewrite Hq3 in Hls. split.
    - apply (drop_wok x s2); try done. by rewrite Hse3, Hdel.
    - exact Hse.
    - exact Hls.
    - by subst w3.
    - by subst w3.
    - by subst w3.
    - by eapply Request.zone_shrinks_trans.
    - by subst w3.
    - by exists (Request.zone (host w3)).
    - change (sources_of (set_media (delete x (media w3)) (set_zone z (set_registry r w3)))) with (Registry.sources r).
      change (source s2) with (source s) in Hsrcs, Hso. destruct (source s) as [| a]; [by rewrite Hso |]. intros src Hsrc.
      specialize (Hsrcs src Hsrc). rewrite <- Hun. destruct (Hso (gave_up src)) as [[Hu ->] | [Hu ->]]; [by rewrite Hsrcs, lookup_insert_eq | left | right].
      + by rewrite Hsrcs, delete_insert_eq.
      + by rewrite Hsrcs. }
  pose proof (wo_zone w3 Hw3) as Hz3.
  change (Request.zone (host (set_registry r w3))) with (Request.zone (host w3)).
  destruct (Request.zone (host w3)) as [| c] eqn:Ez.
  { rewrite bind_Ret. cbn [safe]. rewrite <- (set_zone_id (set_registry r w3)). apply Hend; cbn; by rewrite ?Ez. }
  destruct Hz3 as [Hc Hrings]. destruct (ShmStep.remove_effect (g_now g) (ice_ufrag s2) (g_slot g) c Hc) as (c' & Ec' & He).
  rewrite Ec'.
  rewrite !bind_Ret. apply Hend; [by eapply zone_effect | | unfold zone_forgot; change (ice_ufrag s) with (ice_ufrag s2); by rewrite Ec']. split; [by eapply ShmStep.effect_keeps |].
  destruct (ShmInv.remove_if_owner_inv (g_now g) c (ice_ufrag s2) (g_slot g) Hc) as (c'' & E'' & _ & H1).
  assert (c'' = c') as -> by congruence. destruct H1 as [-> | (y & sk & Hy & _ & _ & Hfree)]; [done |].
  destruct (ShmInv.session_free_inv (g_now g) c y sk Hc Hy) as (c3 & E3' & _ & Ese & _).
  assert (c3 = c') as -> by congruence. rewrite Ese. apply delete_subseteq.
Qed.

(** ** DTLS datagrams and the DTLS timer *)

Lemma dtls_create_fresh cx o b1 b2 (d : Dtls.ngx_rtc_dtls_t S) k :
  Dtls.handshake_done d = 0 ->
  exists rc e n, Dtls.ngx_rtc_dtls_create cx o b1 b2 (Ref d) (Ref tt) (Ref tt) k = (rc, Ref e, n) /\ Dtls.handshake_done e = 0.
Proof.
  intros Hd. unfold Dtls.ngx_rtc_dtls_create. destruct cx; [| by exists (-1), d, k].
  destruct o as [| o]; [by eexists _, _, _ |]. destruct b1, b2; by eexists _, _, _.
Qed.

Lemma dtls_start_safe g c x s (data : octets) w :
  worker_ok w -> sessions_of w !! x = Some s -> conn s = Ref c ->
  safe (fun r => worker_ok r.1 /\
          (r.2 = true -> good x r.1 /\ same_ids w r.1))
    (dtls_start report g c x data w).
Proof.
  intros Hw Hs Hc. pose proof (wo_sess w Hw x s Hs) as [(q & Hq & Hpend) Hci Hco Hdn Hli].
  unfold dtls_start. rewrite (session_at_in w x s Hs), bind_Ret.
  rewrite (dtls_pending_rep _ q Hq), bind_Ret. case_bool_decide as Hp; cbn [negb].
  2: { split; [done |]. intros _. split; [split; [done | by exists s] | done]. }
  specialize (Hpend Hp). assert (Hd0 : Dtls.handshake_done (dtls (media_of w x)) = 0).
  { destruct (decide (Dtls.handshake_done (dtls (media_of w x)) = 0)) as [| Hne]; [done | by destruct (Hdn Hne)]. }
  set (ctx := Ref {| SessionFsm.conn := Ref tt; SessionFsm.data := Ref data; SessionFsm.len := zlen data |}). eapply safe_bind; [apply (dispatch_safe x s q NGX_RTC_SESSION_EVT_DTLS_PACKET ctx w); [done.. | cbn; lia] |].
  intros [ok w2] (Eok & Hw2 & k & E2 & Hk). cbn [fst snd] in *. destruct ok; cbn [negb]; [| done].
  assert (Hnp : ~ pending (flat_step q NGX_RTC_SESSION_EVT_DTLS_PACKET ctx).2).
  { destruct Hp as [-> | ->]; unfold flat_step in *; cbn [close_class] in *; [done |].
    destruct (dtls_record ctx); [| done]. by intros []. }
  set (q2 := (flat_step q _ ctx).2) in *. set (s2 := set_fsm k s). assert (Hs2 : sessions_of w2 !! x = Some s2) by (subst w2; apply put_same).
  eapply safe_bind; [by apply (publish_state_safe g x s2) |]. intros w3 [Hw3 [z E3]].
  assert (Hs3 : sessions_of w3 !! x = Some s2) by by subst w3.
  assert (Ho3 : same_ids w w3) by (intros y; subst w3 w2; by apply (same_ids_put w x s s2)).
  assert (Hm3 : media_of w3 x = media_of w x) by by subst.
  rewrite (session_at_in w3 x s2 Hs3), bind_Ret, (media_at_in w3 x s2 Hs3), bind_Ret.
  assert (Hid : set_conn (Ref c) s2 = s2) by (rewrite <- Hc; by destruct s). rewrite Hid.
  destruct (dtls_create_fresh (g_ssl_ctx g) (g_ssl g) (g_bio_in g) (g_bio_out g) (dtls (media_of w3 x))
    {| Dtls.connections := 0; Dtls.bios := 0 |}) as (rc & e & n & -> & He0); [by rewrite Hm3 |].
  set (w4 := put_session x s2 w3). assert (Hw4 : worker_ok w4).
  { apply (put_session_wok x s2); try done. by apply (wo_sess w3 Hw3). }
  set (w5 := put_media x _ w4). assert (Hw5 : worker_ok w5).
  { apply (put_media_wok x s2); [done | apply put_same |]. pose proof (wo_sess w3 Hw3 x s2 Hs3) as [_ A2 A3 A4 A5].
    split; try done. - exists q2. by split. - left. cbn. destruct A5 as [A5 | A5]; [done |]. by rewrite Hm3 in A5. }
  assert (Hs5 : sessions_of w5 !! x = Some s2) by apply put_same.
  destruct (negb (rc =? 0)).
  - eapply safe_bind; [by apply (session_close_safe g x s2) |]. intros w6 H6. split; [apply H6 | done].
  - eapply safe_bind; [apply schedule_safe; split; [done | by exists s2] |]. intros w6 [Hg6 E6]. split; [apply Hg6 |]. intros _. split; [done |].
    intros y. cbn [fst]. rewrite E6. apply (same_ids_trans w w3 w5 Ho3). by apply (same_ids_put w3 x s2).
Qed.

Lemma close_if_pending g x w : good x w ->
  safe worker_ok (m ← media_at w x;
    if negb (close_pending m =? 0) then ngx_rtc_stream_session_close report g x NGX_RTC_SESSION_EVT_CLOSE w
    else ngx_rtc_stream_dtls_schedule g x w).
Proof.
  intros Hg. pose proof Hg as [Hw [s Hs]]. rewrite (media_at_in w x s Hs), bind_Ret. destruct (negb _).
  - eapply safe_mono; [| by apply (session_close_safe g x s)]. intros w' Hcl. apply Hcl.
  - eapply safe_mono; [| by apply schedule_safe]. by intros w' [[] _].
Qed.

Lemma on_dtls_safe g c p (data : octets) w :
  worker_ok w -> conns w !! c = Some p -> arrays_ok g ->
  safe_unless (exists x, p = Ref x /\ overflows g x w) worker_ok (ngx_rtc_stream_on_dtls tunables report g c p data w).
Proof.
  intros Hw Hc Harr. unfold ngx_rtc_stream_on_dtls. destruct p as [| x]; [done |].
  destruct (wo_ctx w Hw c x Hc) as (s & Hs & Hcs). eapply safe_bind_unless; [by apply (dtls_start_safe g c x s data w) |].
  intros [w1 go] [Hw1 H1]. cbn [fst snd] in *. destruct go; cbn [negb]; [| done].
  destruct (H1 eq_refl) as [[_ [t Ht]] Ho]. rewrite (session_at_in w1 x t Ht), bind_Ret.
  set (t' := set_last_active (g_now g) t). set (w2 := put_session x t' w1).
  pose proof (wo_sess w1 Hw1 x t Ht) as [A1 A2 A3 A4 A5].
  assert (Hw2 : worker_ok w2) by (by apply (put_session_wok x t)).
  rewrite (media_at_in w2 x t'), bind_Ret by apply put_same.
  eapply safe_unless_bind.
  { eapply safe_unless_mono; [| done | apply (dtls_called_safe g x t'); [done | apply put_same | done | by exists (Dtls.Data data)]].
    intros Hov. exists x. split; [done |]. revert Hov. apply overflows_ids. apply (same_ids_trans w w1); [done |]. by apply (same_ids_put w1 x t). }
  intros [rc w3] Hg3. cbn [snd] in Hg3. destruct (negb (rc =? 0)); [| by apply safe_safe_unless, close_if_pending].
  destruct Hg3 as [Hw3 [u Hu]]. eapply safe_safe_unless, safe_mono; [| by apply (session_close_safe g x u)]. intros w' Hcl. apply Hcl.
Qed.

Lemma dtls_timer_safe g x s w :
  worker_ok w -> sessions_of w !! x = Some s -> arrays_ok g ->
  safe_unless (overflows g x w) worker_ok (ngx_rtc_stream_dtls_timer tunables report g x w).
Proof.
  intros Hw Hs Harr. unfold ngx_rtc_stream_dtls_timer. rewrite (media_at_in w x s Hs), bind_Ret.
  set (p := match dtls_timer _ with NULL => NULL | Ref _ => Ref None end).
  destruct (put_timer_good x s p w Hw Hs) as [Hw1 _]. set (w1 := put_media x _ w) in *.
  destruct (negb _); [done |]. eapply safe_unless_bind.
  { eapply safe_unless_mono; [by apply (overflows_ids g x w w1) | done | apply (dtls_called_safe g x s); [done | done | done |]]. exists Dtls.Timer. unfold media_of. cbn.
    by rewrite lookup_insert_eq. }
  intros [rc w2] Hg. apply safe_safe_unless. cbn [snd] in Hg. pose proof Hg as [Hw2 [t Ht]]. destruct (negb (rc =? 0)).
  { eapply safe_mono; [| by apply (session_close_safe g x t)]. intros w' Hcl. apply Hcl. }
  rewrite (media_at_in w2 x t Ht), bind_Ret. destruct (negb (close_pending _ =? 0)).
  { eapply safe_mono; [| by apply (session_close_safe g x t)]. intros w' Hcl. apply Hcl. }
  destruct (negb _).
  - eapply safe_mono; [| by apply cancel_safe]. by intros w' [].
  - eapply safe_mono; [| by apply schedule_safe]. by intros w' [[] _].
Qed.

(** ** The posted finalization and the reaper *)

Lemma close_ev_wok w : worker_ok w -> worker_ok (ngx_rtc_stream_close_ev_handler w).
Proof.
  intros Hw. unfold ngx_rtc_stream_close_ev_handler. destruct (posted w) as [| c l] eqn:Ep; [done |].
  pose proof Hw as [[H1 H2 H3] H4 H5 H6 H7 H8 H9 H10]. rewrite Ep in H9, H10. apply NoDup_cons in H10 as [Hnc Hnd].
  assert (Hc : conns w !! c = Some NULL) by (apply H9; by left). split; cbn; try done.
  - intros x s Hs. destruct (H6 x s Hs) as [A1 A2 A3 A4 A5]. split; try done. intros d Hd. pose proof (A3 d Hd).
    rewrite lookup_delete_ne; [done | congruence].
  - intros d x [_ Hd]%lookup_delete_Some. by apply H7.
  - intros d Hd. rewrite lookup_delete_ne by (by intros ->). apply H9. by right.
Qed.

Definition timeout_of (k : ngx_rtc_stream_srv_conf_t) s : Z :=
  match ngx_rtc_session_fsm_is_ready (Ref (fsm s)) with Ret true => ready_timeout k | _ => handshake_timeout k end.

(** Nothing was heard of the session for as long as its state allows. *)
Definition stale g (k : ngx_rtc_stream_srv_conf_t) s : bool :=
  timeout_of k s <=? u64 (g_now g - last_active s).

(** The control plane asked for the session's skeleton to be closed. *)
Definition kicked w s : Prop :=
  exists (z : shm) y sk, Request.zone (host w) = Ref z /\ Shm.sessions z !! y = Some sk /\ Shm.ufrag_is (ice_ufrag s) sk = true /\
    Shm.close_requested sk <> 0.

Lemma kicked_shrinks w w' s : Request.zone_shrinks (Request.zone (host w)) (Request.zone (host w')) -> kicked w' s -> kicked w s.
Proof.
  intros Hz (c' & y & sk & Ez & Hy & Hu & Hk). rewrite Ez in Hz. unfold kicked.
  destruct (Request.zone (host w)) as [| c]; [done |]. exists c, y, sk. split_and!; try done. eapply lookup_weaken; [exact Hy | apply Hz].
Qed.

Lemma close_requested_spec (c : shm) u : ShmInv.shm_inv c ->
  exists q, Shm.ngx_rtc_shm_session_is_close_requested c u = Ret q /\
    (q <> 0 -> exists y sk, Shm.sessions c !! y = Some sk /\ Shm.ufrag_is u sk = true /\ Shm.close_requested sk <> 0).
Proof.
  intros Hc. unfold Shm.ngx_rtc_shm_session_is_close_requested.
  match goal with |- context [Shm.with_session c u 0 0 ?f] =>
    destruct (ShmInv.with_session_spec c u 0 0 f Hc) as [-> | [-> | (y & sk & Hy & Hu & ->)]] end;
    rewrite bind_Ret; (eexists; split; [reflexivity |]); try done.
  destruct (Z.eqb_spec (Shm.close_requested sk) 0); [done |]. intros _. by exists y, sk.
Qed.

(** What a walk over the sessions of [post] leaves. *)
Record reaped g (k : ngx_rtc_stream_srv_conf_t) (post : list Registry.node) w w' : Prop := {
  rp_ok : worker_ok w';
  rp_left x s : sessions_of w' !! x = Some s -> sessions_of w !! x = Some s /\ (Registry.queue x ∈ post -> stale g k s = false);
  rp_kept x s : sessions_of w !! x = Some s -> stale g k s = false -> ~ kicked w s -> sessions_of w' !! x = Some s;
  rp_gone x s c : sessions_of w !! x = Some s -> sessions_of w' !! x = None -> conn s = Ref c -> g_close_event g = true ->
    c ∈ posted w';
  rp_posted c : c ∈ posted w -> c ∈ posted w'
}.

Lemma reap_sessions_safe g (k : ngx_rtc_stream_srv_conf_t) post : forall pre fuel w,
  worker_ok w -> q_list Registry.ngx_rtc_sessions (Registry.queues (registry_of w)) = pre ++ post -> (length post <= fuel)%nat ->
  safe (reaped g k post w) (reap_sessions report fuel g (Ref k) (Registry.node_ptr post) w).
Proof.
  induction post as [| n post IH]; intros pre fuel w Hw Hl Hf; cbn [length] in Hf.
  { destruct fuel; (split; [done | | | congruence | done]); intros x s Hs; try done; (split; [done |]); by intros ?%elem_of_nil. }
  pose proof (wo_reg w Hw) as Hr. destruct (Registry.listed Shm.ngx_crc32_long (registry_of w) n Hr) as (x & s & -> & Hs).
  { rewrite Hl. apply elem_of_app. right. by left. }
  destruct fuel as [| fuel]; [lia |]. cbn [reap_sessions Registry.node_ptr Registry.session_of].
  rewrite (Registry.session_next_mid Shm.ngx_crc32_long _ pre x post Hr Hl), bind_Ret, (session_at_in w x s Hs), bind_Ret.
  pose proof (q_nodup _ (Registry.ok_queues _ _ Hr) Registry.ngx_rtc_sessions) as Hnd. rewrite Hl in Hnd.
  apply NoDup_app in Hnd as (_ & Hnp & [Hnx Hnd]%NoDup_cons).
  assert (Hgo : forall ev, stale g k s = true \/ kicked w s ->
    safe (reaped g k (Registry.queue x :: post) w)
      (w ← ngx_rtc_stream_session_close report g x ev w; reap_sessions report fuel g (Ref k) (Registry.node_ptr post) w)).
  { intros ev Hwhy. eapply safe_bind; [by apply (session_close_safe g x s) |]. intros w1 [Hw1 E1 El1 Ek1 Ep1 _ Ez1 _ _ _].
    eapply safe_mono; [| apply (IH (filter (fun n => n <> Registry.queue x) pre) fuel w1 Hw1)]; [| | lia].
    2: { rewrite El1, Hl, filter_app, filter_cons_False by (intros Hno; by apply Hno). f_equal.
         apply filter_all. intros m Hm ->. exact (Hnx Hm). }
    intros w' [B1 B2 B3 B4 B5]. split; [done | | | |].
    - intros y t Hy. destruct (B2 y t Hy) as [Hy1 Hst]. rewrite E1 in Hy1. apply lookup_delete_Some in Hy1 as [Hne Hy1].
      split; [done |]. intros [[= ->] | Hin]%elem_of_cons; [done | by apply Hst].
    - intros y t Hy Hst Hk. apply B3; [| done | intros Hk'; by apply Hk, (kicked_shrinks w w1)].
      rewrite E1. apply lookup_delete_Some. split; [| done]. intros ->. assert (t = s) as -> by congruence.
      destruct Hwhy; [congruence | done].
    - intros y t c Hy Hgone Hc Hev. destruct (decide (y = x)) as [-> | Hne].
      + assert (t = s) as -> by congruence. apply B5. rewrite Ep1. apply elem_of_app. right.
        unfold finalizing. rewrite Hc, Hev. by left.
      + apply (B4 y t c); try done. rewrite E1. by rewrite lookup_delete_ne.
    - intros c Hc. apply B5. rewrite Ep1. apply elem_of_app. by left. }
  assert (Hno : stale g k s = false -> safe (reaped g k (Registry.queue x :: post) w) (reap_sessions report fuel g (Ref k) (Registry.node_ptr post) w)).
  { intros Hst. eapply safe_mono; [| apply (IH (pre ++ [Registry.queue x]) fuel w Hw); [by rewrite <- app_assoc | lia]].
    intros w' [B1 B2 B3 B4 B5]. split; try done. intros y t Hy. destruct (B2 y t Hy) as [Hy1 Hst1]. split; [done |].
    intros [[= ->] | Hin]%elem_of_cons; [| by apply Hst1]. by assert (t = s) as -> by congruence. }
  assert (Hrest : safe (reaped g k (Registry.queue x :: post) w)
    (w ← (ready ← ngx_rtc_session_fsm_is_ready (Ref (fsm s));
          timeout ← (match Ref k with NULL => Fault | Ref k => Ret (if (ready : bool) then ready_timeout k else handshake_timeout k) end);
          if timeout <=? u64 (g_now g - last_active s)
          then ngx_rtc_stream_session_close report g x NGX_RTC_SESSION_EVT_TIMEOUT w else Ret w);
     reap_sessions report fuel g (Ref k) (Registry.node_ptr post) w)).
  { destruct (so_fsm _ _ _ _ _ (wo_sess w Hw x s Hs)) as (q & Hq & _). unfold stale, timeout_of in Hgo, Hno.
    rewrite (is_ready_rep _ q Hq) in Hgo, Hno |- *. rewrite !bind_Ret.
    destruct (bool_decide _), (_ <=? u64 _) eqn:Est; (apply Hgo; by left) || (rewrite bind_Ret; by apply Hno). }
  pose proof (wo_zone w Hw) as Hz. destruct (Request.zone (host w)) as [| c] eqn:Ez; [exact Hrest |].
  destruct (close_requested_spec c (ice_ufrag s) (proj1 Hz)) as (rc & -> & Hk). rewrite bind_Ret.
  destruct (Z.eqb_spec rc 0) as [_ | Hk0]; cbn [negb]; [exact Hrest |]. apply Hgo. right.
  destruct (Hk Hk0) as (y & sk & Hy). by exists c, y, sk.
Qed.

Lemma expire_keeps g w :
  worker_ok w ->
  exists z, Shm.ngx_rtc_shm_expire (g_now g) (Request.zone (host w)) 0 = Ret z /\ zone_ok z /\ forall s, kicked (set_zone z w) s -> kicked w s.
Proof.
  intros Hw. pose proof (wo_zone w Hw) as Hz. unfold kicked. destruct (Request.zone (host w)) as [| c] eqn:Ez.
  { exists NULL. split_and!; [done | done |]. intros s (z & y & sk & E & _). cbn in E. discriminate E. }
  destruct Hz as [Hc Hrings]. destruct (ShmInv.expire_spec (g_now g) 0 c Hc) as (c' & E & Hc' & Ese & Eso & _).
  exists (Ref c'). split; [unfold Shm.ngx_rtc_shm_expire; by rewrite E |]. split.
  - eapply (zone_effect (g_now g) (ShmStep.Expire 0) c); [| done]. by eapply ShmStep.sweep_effect.
  - intros s (z & y & sk & [= <-] & Hy & Hk). exists c, y, sk. split; [done |]. split; [| done].
    rewrite Ese in Hy. by apply map_lookup_filter_Some in Hy as [Hy _].
Qed.

Lemma reap_timer_safe g (k : ngx_rtc_stream_srv_conf_t) w :
  worker_ok w ->
  safe (fun r => reaped g k (q_list Registry.ngx_rtc_sessions (Registry.queues (registry_of w))) w r.1 /\
          r.2 = g_now g + ngx_rtc_stream_reap_interval (Ref k))
    (ngx_rtc_stream_reap_timer report g (Ref k) w).
Proof.
  intros Hw. unfold ngx_rtc_stream_reap_timer. destruct (expire_keeps g w Hw) as (z & -> & Hz' & Hk). rewrite bind_Ret.
  eapply safe_bind; [apply (reap_sessions_safe g k _ []); [by apply set_zone_wok | reflexivity | done] |].
  intros w' [B1 B2 B3 B4 B5]. split; [| done]. split; try done. intros x s Hs Hst Hno. apply B3; [done | done |]. intros Hk'. by apply Hno, Hk.
Qed.

(** ** A session signalled on another worker *)

(** The allocators hand out free memory: the slab at first, and again after the sweep of a full
    one, in the zone as it is when a source is asked of it, the skeleton just bound. *)
Definition zone_supply g (z : shm) : Prop :=
  (forall a, Publish.s_alloc (g_zone_source g) = Ref a -> Shm.sources z !! a = None) /\
  (forall a, Publish.s_retry (g_zone_source g) = Ref a -> ShmInv.expired_sources (g_now g) 1 z !! a = None).

Definition attach_grants g w : Prop :=
  (forall x, g_session g = Ref x -> sessions_of w !! x = None) /\
  (forall a, g_source g = Ref a -> sources_of w !! a = None) /\
  forall (z : shm) u rc out z', Request.zone (host w) = Ref z -> Shm.ngx_rtc_shm_session_bind z u (g_slot g) = Ret (rc, out, z') ->
    zone_supply g z'.

(** A session made from a skeleton, before it is registered. *)
Record made w s : Prop := {
  md_fsm : exists q, fsm_rep (fsm s) q;
  md_bufs : bufs_ok s;
  md_conn : conn s = NULL;
  md_source a : source s = Ref a -> is_Some (sources_of w !! a)
}.

Lemma rebuilt_made g (n : Shm.snapshot) w :
  exists s, rebuilt report g n = Ret s /\ made w s /\ ice_ufrag s = Shm.n_ice_ufrag n /\ source s = NULL.
Proof.
  unfold rebuilt.
  destruct (init_rep report blank NULL [NULL] Request.NGX_RTC_SESSION_FSM_MAX_DEPTH (Ref tt)) as (k & E & Hk); [done.. |].
  change (replicate (Z.to_nat Request.NGX_RTC_SESSION_FSM_MAX_DEPTH) NULL) with [@NULL session_object; NULL].
  rewrite E, bind_Ret. cbn [ngx_rtc_session_fsm_set_reporter]. set (k' := Hsm.set_unhandled_event_hook (Ref tt) k).
  assert (Hk' : fsm_rep k' NGX_RTC_SESSION_STATE_NEW) by exact Hk.
  eexists. split; [reflexivity |]. split; [| done]. split; [| done..]. cbn [fsm]. unfold restored.
  destruct (_ =? 0); [by eexists |].
  destruct (restore_rep k' NGX_RTC_SESSION_STATE_NEW NGX_RTC_SESSION_STATE_SRTP_READY Hk') as (k2 & -> & Hk2). by eexists.
Qed.

(** What the attach leaves of the rest of the worker. *)
Definition aside w w' : Prop :=
  sessions_of w' = sessions_of w /\ media w' = media w /\ conns w' = conns w /\ posted w' = posted w /\
  (forall a, is_Some (sources_of w !! a) -> is_Some (sources_of w' !! a)).

Lemma aside_refl w : aside w w.
Proof. by split_and!. Qed.

Lemma aside_trans w1 w2 w3 : aside w1 w2 -> aside w2 w3 -> aside w1 w3.
Proof. intros (A1 & A2 & A3 & A4 & A5) (B1 & B2 & B3 & B4 & B5). split_and!; try congruence. intros a Ha. by apply B5, A5. Qed.

Lemma put_source_aside a src w : aside w (put_source a src w).
Proof.
  split_and!; try done. intros b Hb. cbn. destruct (decide (b = a)) as [-> |]; [rewrite lookup_insert_eq | by rewrite lookup_insert_ne]. by eexists.
Qed.

Lemma reset_jitter_keeps src :
  let src' := Request.reset_jitter tunables src in
  name src' = name src /\ sps_profile_level_id src' = sps_profile_level_id src /\ (src_ok src -> src_ok src').
Proof. split_and!; [done | done |]. intros [Hr _]. split; [exact Hr | apply jitter_ok_reset]. Qed.

Lemma attach_publisher_safe g n a (z : shm) w :
  worker_ok w -> is_Some (sources_of w !! a) -> Request.zone (host w) = Ref z -> zone_supply g z ->
  safe (fun w' => worker_ok w' /\ aside w w') (attach_publisher tunables g n a z w).
Proof.
  intros Hw [src Hsrc] Ez [Hal Hre]. pose proof (wo_zone w Hw) as Hz. rewrite Ez in Hz. destruct Hz as [Hc Hrings].
  unfold attach_publisher.
  destruct (ShmStep.source_get_effect (g_now g) (Publish.s_alloc (g_zone_source g)) (Publish.s_retry (g_zone_source g))
    (Publish.s_v (g_zone_source g)) (Publish.s_a (g_zone_source g)) n z Hc) as (p & z' & -> & He); [by split |].
  rewrite bind_Ret. set (w1 := set_zone (Ref z') w).
  assert (Hw1 : worker_ok w1) by (apply set_zone_wok; [done | by eapply zone_effect]).
  rewrite (source_at_in w1 a src Hsrc), bind_Ret. cbv zeta. set (src2 := set_shm_sync_ms _ _). set (w2 := put_source a src2 w1).
  assert (Hw2 : worker_ok w2) by (by apply (put_source_wok a src)).
  assert (Hs2 : sources_of w2 !! a = Some src2) by (cbn; by rewrite lookup_insert_eq).
  unfold Registry.ngx_rtc_publish_mirror, Registry.source_at. rewrite Hs2, !bind_Ret.
  match goal with |- context [Registry.put_source a ?t (registry_of w2)] => set (src3 := t) end.
  change (set_registry (Registry.put_source a src3 (registry_of w2)) w2) with (put_source a src3 w2). set (w3 := put_source a src3 w2).
  assert (Hw3 : worker_ok w3) by (by apply (put_source_wok a src2)).
  assert (Hs3 : sources_of w3 !! a = Some src3) by (cbn; by rewrite lookup_insert_eq).
  rewrite (source_at_in w3 a src3 Hs3), bind_Ret. destruct (reset_jitter_keeps src3) as (K1 & K2 & K3).
  split; [by apply (put_source_wok a src3) |].
  apply (aside_trans w w3); [apply (aside_trans w w2) |]; try apply put_source_aside.
  apply (aside_trans w w1); [by split_and! | apply put_source_aside].
Qed.

(** The source of the name, made if there is none. *)
Lemma source_get_safe g n w :
  worker_ok w -> (forall a, g_source g = Ref a -> sources_of w !! a = None) ->
  exists p r, Registry.ngx_rtc_source_get Shm.ngx_crc32_long (g_source g) (registry_of w) (Ref n) = (p, r) /\
    worker_ok (set_registry r w) /\ aside w (set_registry r w) /\
    match p with NULL => True | Ref a => is_Some (Registry.sources r !! a) end.
Proof.
  intros Hw Hal. pose proof Hw as [[H1 H2 H3] H4 H5 H6 H7 H8 H9 H10].
  destruct (Registry.source_get_spec Shm.ngx_crc32_long (g_source g) (registry_of w) n H1 Hal) as (p & r & E & Hr & Hse & Hq & Hp).
  exists p, r. split; [done |].
  assert (Hcase : r = registry_of w \/ exists a, sources_of w !! a = None /\ Registry.sources r = <[a := set_name n zero_source]> (sources_of w)).
  { destruct p as [| a]; [by left |]. destruct Hp as [_ [-> | Hp]]; [by left | right; by exists a]. }
  assert (Hat : forall b u, Registry.sources r !! b = Some u -> u = set_name n zero_source \/ sources_of w !! b = Some u).
  { intros b u. destruct Hcase as [-> | (a & _ & ->)]; [by right |]. intros [[_ <-] | [_ Ht]]%lookup_insert_Some; [by left | by right]. }
  split; [| split; [| by destruct p; [| apply Hp]]].
  - split; cbn; rewrite ?Hse; try done.
    + split; cbn; [done | | done]. intros b t [-> | Ht]%Hat; [| by eapply H2]. split; [done |]. by repeat constructor.
    + intros b t [-> | Ht]%Hat; [apply src_ok_zero | by eapply H5].
    + intros x t Ht. rewrite Hq. by apply H6.
  - split_and!; [exact Hse | done.. |]. intros b [t Hb]. cbn. destruct Hcase as [-> | (a & Ha & ->)]; [by exists t |].
    rewrite lookup_insert_ne; [by exists t | congruence].
Qed.

Lemma attach_source_safe g (n : Shm.snapshot) s (z : shm) w :
  worker_ok w -> made w s -> source s = NULL -> Request.zone (host w) = Ref z ->
  (forall a, g_source g = Ref a -> sources_of w !! a = None) -> zone_supply g z ->
  safe (fun r => worker_ok r.2 /\ aside w r.2 /\ made r.2 r.1 /\ ice_ufrag r.1 = ice_ufrag s) (attach_source tunables g n s z w).
Proof.
  intros Hw Hs Hnull Ez Hal Hg. unfold attach_source.
  assert (Hsame : forall w1, worker_ok w1 -> aside w w1 -> safe (fun r => worker_ok r.2 /\ aside w r.2 /\ made r.2 r.1 /\ ice_ufrag r.1 = ice_ufrag s) (Ret (s, w1))).
  { intros w1 Hw1 Ha. cbn. split_and!; [done | done | | done]. destruct Hs as [A1 A2 A3 A4]. split; try done. intros a Ea. congruence. }
  destruct (Shm.n_source n) as [[[[[nm vs] asr] vp] ap] |]; [| apply Hsame; [done | apply aside_refl]].
  destruct (zlen nm =? 0); [apply Hsame; [done | apply aside_refl] |].
  destruct (source_get_safe g nm w Hw Hal) as (p & r & -> & Hw1 & Ha1 & Hp). set (w1 := set_registry r w) in *.
  destruct p as [| a]; [by apply Hsame |]. destruct Hp as [src Hsrc].
  rewrite (source_at_in w1 a src Hsrc), bind_Ret. set (src2 := set_source_audio_pt _ _). set (w2 := put_source a src2 w1).
  assert (Hw2 : worker_ok w2) by (by apply (put_source_wok a src)).
  assert (Ha2 : aside w w2) by (apply (aside_trans w w1); [done | apply put_source_aside]).
  assert (Hin : is_Some (sources_of w2 !! a)) by (cbn; rewrite lookup_insert_eq; by eexists).
  eapply (safe_bind (fun w' => worker_ok w' /\ aside w2 w')).
  { destruct (_ =? 0); [split; [done | apply aside_refl] |]. by apply attach_publisher_safe. }
  intros w3 [Hw3 Ha3]. cbn [safe fst snd]. split_and!; [done | by apply (aside_trans w w2) | | done].
  destruct Hs as [A1 A2 A3 A4]. split; try done. intros b [= <-]. by apply Ha3.
Qed.

Lemma open_wok x s w :
  worker_ok w -> made w s -> sessions_of w !! x = None -> 0 < zlen (ice_ufrag s) ->
  exists r, Registry.session_open Shm.ngx_crc32_long x s (registry_of w) = Ret r /\ worker_ok (set_registry r w) /\
    sessions_of (set_registry r w) = <[x := set_sn_str_len (zlen (ice_ufrag s)) s]> (sessions_of w).
Proof.
  intros Hw [(q & Hq) Hci Hco Hso] Hx Hu. pose proof Hw as [[H1 H2 H3] H4 H5 H6 H7 H8 H9 H10].
  destruct (Registry.session_open_ok Shm.ngx_crc32_long (registry_of w) x s H1 Hx Hu Hso) as (r & -> & Hr & Esrc & Ese & Hself & Hother).
  exists r. split; [done |]. split; [| exact Ese].
  assert (Hm : media w !! x = None).
  { destruct (media w !! x) as [m |] eqn:Em; [| done]. destruct (H8 x m Em) as [t Ht]. congruence. }
  split; cbn; rewrite ?Esrc, ?Ese; try done.
  - split; cbn; [done | by rewrite Esrc | done].
  - intros y t [[<- <-] | [Hne Ht]]%lookup_insert_Some.
    + unfold media_of. cbn. rewrite Hm. split; cbn; try done; [by exists q | intros c Hc; congruence | by left].
    + rewrite Hother by (cbn; congruence). by apply H6.
  - intros c y Hy. destruct (H7 c y Hy) as (t & Ht & Ect). exists t. rewrite lookup_insert_ne; [done | congruence].
  - intros y m Hy. rewrite lookup_insert_ne by congruence. by eapply H8.
Qed.

Lemma bind_spec (z : shm) u slot :
  ShmInv.shm_inv z -> exists rc out z', Shm.ngx_rtc_shm_session_bind z u slot = Ret (rc, out, z') /\
    (forall now, ShmStep.effect now (ShmStep.Bind u slot) z z') /\ Shm.sources z' = Shm.sources z /\
    forall n, out = Some n -> 0 < zlen (Shm.n_ice_ufrag n).
Proof.
  intros Hz. destruct (ShmInv.bind_inv z u slot Hz) as (rc & out & z' & E & _ & Hc). exists rc, out, z'. split; [done |].
  split; [intros now; destruct (ShmStep.bind_effect now u slot z Hz) as (? & ? & ? & E2 & He); rewrite E in E2; by injection E2 as -> -> -> |].
  split; [by destruct Hc as [-> | (x & sk & _ & _ & _ & ->)] |]. intros n ->. revert E.
  unfold Shm.ngx_rtc_shm_session_bind, Shm.with_session. destruct (Shm.valid_ufrag u) eqn:Ev; [cbn [negb] | done].
  unfold Shm.ngx_rtc_shm_session_locked_lookup. destruct (zlen u =? 0); [by rewrite bind_Ret |].
  destruct (ShmInv.search_spec z (Shm.ufrag_is u) (ShmInv.inv_ok z Hz)) as [[-> _] | (x & sk & -> & Hs & Hu)]; rewrite bind_Ret; [done |].
  unfold Shm.session_at. rewrite Hs, bind_Ret. destruct (Shm.owned_elsewhere slot sk); [done |].
  assert (Hl : 0 < zlen (Shm.ice_ufrag sk)).
  { unfold Shm.ufrag_is, Shm.valid_ufrag in *. destruct (Shm.ice_ufrag sk) as [| b l]; [| rewrite zlen_cons; pose proof (zlen_nonneg l); lia].
    cbn in Hu. lia. }
  assert (Hb : Shm.ice_ufrag (Shm.bound slot sk) = Shm.ice_ufrag sk) by (unfold Shm.bound; by destruct (_ =? _)).
  cbv zeta. destruct (match Shm.source _ with NULL => _ | Ref a => _ end) as [o |]; [| done]. rewrite bind_Ret.
  intros [= _ <- _]. cbn. by rewrite Hb.
Qed.

(** What an attach gives: nothing, or a session that was not there. *)
Definition attached w (r : ptr Z * worker) : Prop :=
  worker_ok r.2 /\ conns r.2 = conns w /\ posted r.2 = posted w /\
  match r.1 with
  | NULL => sessions_of r.2 = sessions_of w
  | Ref x => exists s, sessions_of w !! x = None /\ conn s = NULL /\ sessions_of r.2 = <[x := s]> (sessions_of w)
  end.

Lemma attach_safe g u w :
  worker_ok w -> attach_grants g w -> safe (attached w) (ngx_rtc_stream_attach_from_shm tunables report g u w).
Proof.
  intros Hw Hg. unfold ngx_rtc_stream_attach_from_shm. pose proof (wo_zone w Hw) as Hz.
  destruct (Request.zone (host w)) as [| z] eqn:Ez; [by split_and! |]. destruct (g_session g) as [| x] eqn:Ex; [by split_and! |].
  destruct Hz as [Hzi Hrings]. destruct (bind_spec z u (g_slot g) Hzi) as (rc & out & z' & Eb & He & Eso & Hn). rewrite Eb, bind_Ret.
  set (w1 := set_zone (Ref z') w). assert (Hw1 : worker_ok w1) by (apply set_zone_wok; [done | by eapply (zone_effect 0)]).
  destruct out as [n |]; [| by split_and!]. specialize (Hn n eq_refl). destruct (negb (rc =? Shm.NGX_OK)); [by split_and! |].
  destruct (rebuilt_made g n w1) as (s & -> & Hs & Eu & Hnull). rewrite bind_Ret.
  eapply safe_bind; [apply (attach_source_safe g n s z' w1 Hw1 Hs Hnull eq_refl) |].
  { destruct Hg as (_ & G2 & _). exact G2. }
  { destruct Hg as (_ & _ & G3). by eapply G3. }
  intros [s2 w2] (Hw2 & (A1 & A2 & A3 & A4 & _) & Hs2 & Eu2). cbn [fst snd] in *.
  assert (Hx : sessions_of w !! x = None) by (by apply Hg).
  destruct (open_wok x s2 w2 Hw2 Hs2) as (r & -> & Hw3 & E3); [by rewrite A1 | by rewrite Eu2, Eu |]. rewrite bind_Ret.
  split; [done |]. split; [exact A3 |]. split; [exact A4 |]. cbn [fst snd].
  exists (set_sn_str_len (zlen (ice_ufrag s2)) s2). split; [done |]. split; [apply Hs2 |]. rewrite E3, A1. done.
Qed.

(** ** STUN datagrams *)

(** The session and the connection a request brings together have no other partner, and the
    connection is not about to be finalized. *)
Definition one_binding c w u : Prop :=
  (c ∉ posted w) /\
  match Registry.ngx_rtc_session_find Shm.ngx_crc32_long (registry_of w) (Ref u) with
  | NULL => conns w !! c = Some NULL
  | Ref x => (conns w !! c = Some NULL \/ conns w !! c = Some (Ref x)) /\
             forall s, sessions_of w !! x = Some s -> conn s = NULL \/ conn s = Ref c
  end.

Lemma bound_wok x c s s' q w :
  worker_ok w -> sessions_of w !! x = Some s -> (c ∉ posted w) ->
  conns w !! c = Some NULL \/ conns w !! c = Some (Ref x) -> conn s = NULL \/ conn s = Ref c ->
  SendPath.identity s' = SendPath.identity s -> conn s' = Ref c -> (bufs_ok s -> bufs_ok s') ->
  fsm_rep (fsm s') q -> (pending q -> Dtls.ssl (dtls (media_of w x)) = NULL) ->
  worker_ok (set_conns (<[c := Ref x]> (conns w)) (put_session x s' w)).
Proof.
  intros [[H1 H2 H3] H4 H5 H6 H7 H8 H9 H10] Hs Hp Hk Hcs [= Hi1 Hi2 Hi3 _] Hc Hci Hq Hpend. split; try done.
  - split; cbn; try done. by eapply Registry.session_put_ok.
  - cbn. intros y t [[<- <-] | [Hne Ht]]%lookup_insert_Some.
    + destruct (H6 x s Hs) as [A1 A2 A3 A4 A5]. split; try done; [by exists q | by apply Hci |].
      intros d. rewrite Hc. intros [= <-]. by rewrite lookup_insert_eq.
    + destruct (H6 y t Ht) as [A1 A2 A3 A4 A5]. split; try done. intros d Hd. pose proof (A3 d Hd) as Hdk.
      rewrite lookup_insert_ne; [done |]. intros <-. destruct Hk as [Hk | Hk]; congruence.
  - cbn. intros d y [[<- [= <-]] | [Hne Hy]]%lookup_insert_Some; [exists s'; by rewrite lookup_insert_eq |].
    destruct (H7 d y Hy) as (t & Ht & Ect). exists t. split; [| done]. destruct (decide (y = x)) as [-> | Hyx].
    + assert (t = s) as -> by congruence. destruct Hcs; congruence.
    + by rewrite lookup_insert_ne.
  - cbn. intros y m Hm. destruct (H8 y m Hm) as [t Ht]. destruct (decide (y = x)) as [-> | Hne].
    + rewrite lookup_insert_eq. by eexists.
    + rewrite lookup_insert_ne by done. by eexists.
  - cbn. intros d Hd. rewrite lookup_insert_ne; [by apply H9 |]. by intros ->.
Qed.

(** The worker after a request: the session and the connection refer to each other, the session's
    machine and the zone were told, and something was sent. *)
Definition bound_session g c s (f : ngx_rtc_hsm session_object unit unit) : session :=
  s |> set_conn (Ref c) |> set_last_active (g_now g) |> set_fsm f.
Definition rebound g c x s f (z : ptr shm) l w : worker :=
  w |> put_session x (bound_session g c s f) |> set_zone z |> set_conns (<[c := Ref x]> (conns w)) |> set_wire l.

Context (Hsha1 : forall k b, exists mac, hmac k b = Some mac /\ zlen mac = 20 /\ octets_ok mac).

Lemma stun_answer_sends g c p x s data ty tid l w :
  conns w !! c = Some p -> octets_ok data -> Stun.parse data = Some (ty, tid, l) ->
  Stun.has_username (Stun.understood ty tid l) <> 0 -> 128 <= zlen (s_resp g) ->
  exists k,
    ('(n, o) ← Stun.ngx_rtc_stun_encode_binding_response hmac (Ref (Stun.understood ty tid l)) (Ref (ice_pwd s)) (g_addr g) (g_port g)
                 (Ref (s_resp g)) (zlen (s_resp g));
     match o with
     | NULL => Fault
     | Ref o => if 0 <? n then d ← load_range o 0 n; send g c d w else Ret w
     end) = Ret (set_wire k w).
Proof.
  intros Hc Hd Hp Hu Hr. destruct (Stun.understood_named data ty tid l Hd Hp) as (lu & ru & Hn).
  destruct (Stun.understood_tid ty tid l) as [Et _].
  destruct (Stun.encode_exact hmac (ice_pwd s) (Hsha1 (ice_pwd s)) (Stun.understood ty tid l) lu ru (g_addr g) (g_port g) (s_resp g) Hn)
    as (mac & crc & _ & _ & _ & _ & ->); [rewrite Et; by eapply Stun.zlen_parsed | done | done |].
  set (m := Stun.message _ _ _). rewrite bind_Ret. destruct (0 <? zlen m); [| exists (wire w); by destruct w].
  pose proof (zlen_nonneg m). pose proof (zlen_nonneg (zdrop (zlen m) (s_resp g))).
  rewrite load_range_in, bind_Ret by (rewrite ?zlen_app; lia). by apply (send_safe g c p).
Qed.

(** The user name a request carries. *)
Definition names (data : octets) (u : octets) : Prop :=
  exists ty tid l ru, Stun.parse data = Some (ty, tid, l) /\ Stun.named (Stun.understood ty tid l) u ru.

(** The request is authentic under the session's password. *)
Definition proven (data : octets) (req : Stun.ngx_rtc_stun_t) s : Prop :=
  Stun.has_message_integrity req <> 0 /\ Stun.authentic hmac (ice_pwd s) (Stun.message_integrity_offset req) data.

Lemma verify_proven (data : octets) req s :
  exists rc, Stun.ngx_rtc_stun_verify_request hmac (Ref req) (Ref data) (zlen data) (Ref (ice_pwd s)) = Ret rc /\
    (rc = 0 <-> proven data req s).
Proof.
  unfold proven. destruct (Z.eq_dec (Stun.has_message_integrity req) 0) as [E0 | E0].
  - unfold Stun.ngx_rtc_stun_verify_request. rewrite E0. exists (-1). split; [done |]. split; [done | by intros [? _]].
  - destruct (Stun.verify_exact hmac req data (ice_pwd s) E0) as (rc & Ev & _ & Hrc). exists rc. split; [done |].
    rewrite Hrc. tauto.
Qed.

Definition stun_ctx : ptr ngx_rtc_session_fsm_ctx_t := Ref {| SessionFsm.conn := Ref tt; SessionFsm.data := NULL; SessionFsm.len := 0 |}.

(** A request for a session this worker has, wherever the session and the connection were bound
    before: without a proof it changes nothing, with one it binds them to each other. *)
Lemma stun_request_exact g c p x s q (data : octets) ty tid l w :
  let req := Stun.understood ty tid l in
  zone_ok (Request.zone (host w)) -> conns w !! c = Some p -> sessions_of w !! x = Some s -> fsm_rep (fsm s) q ->
  octets_ok data -> Stun.parse data = Some (ty, tid, l) -> Stun.has_username req <> 0 -> 128 <= zlen (s_resp g) ->
  (~ proven data req s /\ stun_request hmac report g c x req data w = Ret w) \/
  (proven data req s /\ exists f z k, stun_request hmac report g c x req data w = Ret (rebound g c x s f z k w) /\
     zone_ok z /\ fsm_rep f (flat_step q NGX_RTC_SESSION_EVT_STUN_BINDING stun_ctx).2).
Proof.
  intros req Hz Hc Hs Hq Hd Ep Hun Hr. unfold stun_request. rewrite (session_at_in w x s Hs), bind_Ret.
  destruct (verify_proven data req s) as (rc & -> & Hv). rewrite bind_Ret.
  destruct (Z.eqb_spec rc 0) as [E0 | E0]; cbn [negb]; [| left; split; [by rewrite <- Hv | done]].
  apply Hv in E0. right. split; [done |]. cbv zeta. fold stun_ctx.
  set (s1 := set_last_active (g_now g) (set_conn (Ref c) s)). set (w1 := put_session x s1 w).
  unfold dispatch. rewrite (session_at_in w1 x s1) by apply put_same. rewrite bind_Ret.
  destruct (dispatch_flat report (fsm s1) q NGX_RTC_SESSION_EVT_STUN_BINDING stun_ctx Hlog Hq) as (f & -> & Hm); [done |].
  rewrite !bind_Ret. set (s2 := set_fsm f s1). set (w2 := put_session x s2 w1). set (q2 := (flat_step _ _ _).2) in *.
  destruct (publish_state_spec g x s2 q2 w2) as (z & -> & Hz'); [exact Hz | apply put_same | done |]. rewrite bind_Ret.
  assert (E : w2 = put_session x s2 w).
  { unfold w2, w1, put_session, Registry.put_session, set_registry. destruct w as [[r ?] ? ? ? ?]. cbn. unfold Registry.set_sessions. cbn.
    by rewrite insert_insert_eq. }
  unfold set_ctx. rewrite (ctx_in (set_zone z w2) c p Hc), !bind_Ret. set (w3 := set_conns _ _).
  assert (Hs3 : sessions_of w3 !! x = Some s2) by apply put_same. rewrite (session_at_in w3 x s2 Hs3), bind_Ret.
  destruct (stun_answer_sends g c (Ref x) x s2 data ty tid l w3) as [k Ek]; [cbn; by rewrite lookup_insert_eq | done.. |].
  exists f, z, k. split; [| done]. etransitivity; [exact Ek |]. unfold w3. by rewrite E.
Qed.

(** The session and the connection find no other partner, and the connection is not about to be
    finalized; or the request takes one of them over. *)
Definition takeover c w w' : Prop :=
  exists x, conns w' !! c = Some (Ref x) /\ conns w !! c <> Some (Ref x) /\
    ((c ∈ posted w) \/ (exists y, conns w !! c = Some (Ref y)) \/ exists s d, sessions_of w !! x = Some s /\ conn s = Ref d).

Lemma rebound_wok g c x s q f z k w :
  worker_ok w -> sessions_of w !! x = Some s -> (c ∉ posted w) ->
  conns w !! c = Some NULL \/ conns w !! c = Some (Ref x) -> conn s = NULL \/ conn s = Ref c -> zone_ok z ->
  fsm_rep (fsm s) q -> fsm_rep f (flat_step q NGX_RTC_SESSION_EVT_STUN_BINDING stun_ctx).2 -> worker_ok (rebound g c x s f z k w).
Proof.
  intros Hw Hs Hp Hk Hcs Hz Hq Hm. unfold rebound. apply set_wire_wok.
  assert (Hb : worker_ok (set_conns (<[c := Ref x]> (conns w)) (put_session x (bound_session g c s f) w))).
  { apply (bound_wok x c s (bound_session g c s f) (flat_step q NGX_RTC_SESSION_EVT_STUN_BINDING stun_ctx).2); try done.
    intros Hpq. destruct (so_fsm _ _ _ _ _ (wo_sess w Hw x s Hs)) as (q0 & Hq0 & Hpend). apply Hpend.
    assert (q0 = q) as ->; [| by eapply flat_pending]. pose proof (get_state_rep _ _ Hq0) as E1. rewrite (get_state_rep _ _ Hq) in E1. by injection E1. }
  by apply (set_zone_wok z) in Hb.
Qed.

Lemma rebound_or_takeover g c p x s q f z k w :
  worker_ok w -> conns w !! c = Some p -> sessions_of w !! x = Some s -> zone_ok z ->
  fsm_rep (fsm s) q -> fsm_rep f (flat_step q NGX_RTC_SESSION_EVT_STUN_BINDING stun_ctx).2 ->
  worker_ok (rebound g c x s f z k w) \/ takeover c w (rebound g c x s f z k w).
Proof.
  intros Hw Hc Hs Hz Hq Hm.
  assert (Hto : conns w !! c <> Some (Ref x) ->
    (c ∈ posted w) \/ (exists y, conns w !! c = Some (Ref y)) \/ (exists t d, sessions_of w !! x = Some t /\ conn t = Ref d) ->
    takeover c w (rebound g c x s f z k w)).
  { intros Hne Hby. exists x. split; [cbn; by rewrite lookup_insert_eq |]. split; [exact Hne | exact Hby]. }
  destruct (decide (p = Ref x)) as [-> | Hpx].
  { left. destruct (wo_ctx w Hw c x Hc) as (s' & Hs' & Ecs). assert (s' = s) as -> by congruence.
    apply (rebound_wok g c x s q); try done; [| by right..]. intros Hin. pose proof (wo_posted w Hw c Hin). congruence. }
  destruct p as [| y]; [| right; apply Hto; [congruence | right; left; by exists y]].
  destruct (decide (c ∈ posted w)) as [Hin | Hno]; [right; apply Hto; [congruence | by left] |].
  destruct (conn s) as [| d] eqn:Ed; [left; apply (rebound_wok g c x s q); try done; by left |].
  right. apply Hto; [congruence | right; right; by exists s, d].
Qed.

Lemma on_stun_safe g c p (data : octets) w :
  worker_ok w -> conns w !! c = Some p -> octets_ok data -> arrays_ok g -> attach_grants g w ->
  safe (fun w' => worker_ok w' \/ takeover c w w') (ngx_rtc_stream_on_stun hmac tunables report g c data w).
Proof.
  intros Hw Hc Hd Harr Hgr. unfold ngx_rtc_stream_on_stun.
  destruct (Stun.decode_exact (s_stun g) data Hd) as (stun & -> & Huf & Hun). rewrite bind_Ret.
  destruct (Stun.parse data) as [[[ty tid] l] |] eqn:Ep; [| by left]. rewrite (Hun ty tid l eq_refl).
  destruct (Stun.understood_named data ty tid l Hd Ep) as (lu & ru & Hn). cbn [Stun.code]. change (negb (0 =? 0)) with false. cbn [orb].
  destruct (Z.eqb_spec (Stun.has_username (Stun.understood ty tid l)) 0) as [| Hun0]; [by left |].
  rewrite (Stun.nm_local _ _ _ Hn), bind_Ret.
  eapply (safe_bind (fun r => worker_ok r.2 /\ posted r.2 = posted w /\ conns r.2 = conns w /\ match r.1 with NULL => True | Ref x =>
    exists s, sessions_of r.2 !! x = Some s /\ (sessions_of w !! x = Some s \/ conn s = NULL) end)).
  { pose proof (Registry.session_find_spec Shm.ngx_crc32_long (registry_of w) lu (wo_reg w Hw)) as Hf.
    destruct (Registry.ngx_rtc_session_find _ _ _) as [| x].
    - eapply safe_mono; [| by apply attach_safe]. intros [q w'] (H1 & H2 & H3 & H4). cbn [fst snd] in *. split_and!; try done.
      destruct q as [| x]; [done |]. destruct H4 as (s & Hx & Hcs & E). exists s. rewrite E, lookup_insert_eq. auto.
    - destruct Hf as (s & Hs & _). cbn. split_and!; try done. exists s. auto. }
  intros [q w1] (Hw1 & Hp1 & Hc1 & Hq). cbn [fst snd] in *. destruct q as [| x]; [by left |]. destruct Hq as (s & Hs & Hold).
  destruct (so_fsm _ _ _ _ _ (wo_sess w1 Hw1 x s Hs)) as (q & Hfq & _).
  destruct (stun_request_exact g c p x s q data ty tid l w1) as [[_ ->] | (_ & f & z & k & -> & Hz & Hm)]; try done;
    [apply (wo_zone w1 Hw1) | by rewrite Hc1 | apply Harr | by left |].
  destruct (rebound_or_takeover g c p x s q f z k w1) as [Hok | (y & T1 & T2 & T3)]; try done; [by rewrite Hc1 | by left |].
  right. exists y. rewrite Hp1, Hc1 in *. split; [done |]. split; [done |].
  destruct T3 as [T3 | [T3 | (t & d & Ht & Ed)]]; [by left | by right; left |]. right. right.
  assert (y = x) as -> by (cbn in T1; rewrite lookup_insert_eq in T1; by injection T1). assert (t = s) as -> by congruence.
  destruct Hold as [Hold | Hold]; [by exists s, d | congruence].
Qed.
End safe.
End StreamSafe.
