(* ===== verification/StreamMediaSafe.v ===== *)
(** Media and feedback keep a worker well formed: an SRTCP datagram, whatever its compound
    packets ask for, and an SRTP packet, through the reorder buffer to the viewers, the zone and
    the caches, run to their end and leave what StreamSafe.v says of a worker, but for feedback
    whose keyframe request overflows its packet. *)

From S2P Require Import Prelude Nginx Text Dtls Hsm SessionFsm Jitter Session Rtp Rtcp Stun Pacer GopRing SendPath Nack Retransmit Registry Shm ShmInv ShmStep ShmRing ShmMedia Publish Broadcast Request Stream StreamMedia StreamSafe.
From stdpp Require Import list gmap.
Import Text Hsm SessionFsm Session Stream StreamMedia StreamSafe.

#[local] Open Scope Z_scope.

Module StreamMediaSafe.

Section media.
Context {S C : Type} `{HS : Dtls.OpenSsl S, !Dtls.OpenSslLaws S} `{HL : Srtp.LibSrtp C, !Srtp.LibSrtpLaws C}.
Context (hmac : octets -> octets -> option octets) (tunables : ngx_rtc_tunables_t).
Context (report : unit -> ngx_rtc_hsm session_object unit unit ->
  ptr (ngx_rtc_hsm_event ngx_rtc_session_fsm_ctx_t) -> ngx_rtc_hsm session_object unit unit).
Context `{HC : Shm.Crc}.
Context {Q T : Type} `{HQ : Queues Registry.queue_id Registry.node Q, !QueueLaws Registry.queue_id Registry.node Q}.
Context `{HT : StrTree T, !StrTreeLaws T}.
Context {Q' T' : Type} `{HQ' : Queues Shm.queue_id Shm.node Q', !QueueLaws Shm.queue_id Shm.node Q'}.
Context `{HT' : StrTree T', !StrTreeLaws T'}.
Context (Hlog : reporter_logs report).
Abbreviation srtp_t := (Srtp.ngx_rtc_srtp_t C).
Abbreviation session := (ngx_rtc_session_t srtp_t).
Abbreviation shm := (Shm.ngx_rtc_shm_ctx_t (Q := Q') (T := T')).
Abbreviation worker := (worker (S := S) (C := C) (Q := Q) (T := T) (Q' := Q') (T' := T')).
Abbreviation given := (given (S := S)).
Abbreviation protect := (Srtp.ngx_rtc_srtp_protect_rtp (C := C)).
Implicit Types (g : given) (w : worker) (x y c a : Z) (s t : session).
Abbreviation registry_of w := (Request.reg (host w)).
Abbreviation sessions_of w := (Registry.sessions (registry_of w)).
Abbreviation sources_of w := (Registry.sources (registry_of w)).
Abbreviation worker_ok := (StreamSafe.worker_ok tunables).
Abbreviation carries := (StreamSafe.carries tunables).
Abbreviation ok_sends := (StreamSafe.ok_sends tunables).
Abbreviation carries_refl := (StreamSafe.carries_refl tunables).
Abbreviation carries_trans := (StreamSafe.carries_trans tunables).
Abbreviation carries_get := (StreamSafe.carries_get tunables).
Abbreviation carries_put := (StreamSafe.carries_put tunables).
Abbreviation carries_same := (StreamSafe.carries_same tunables).
Abbreviation served_carries := (StreamSafe.served_carries tunables).

(** ** Feedback *)

(** A session that hears feedback: connected and past its handshake. *)
Definition hears s : Prop := conn s <> NULL /\ ngx_rtc_session_fsm_is_ready (Ref (fsm s)) = Ret true.

Lemma sent_hears s t : sent s t -> hears s -> hears t.
Proof. intros (_ & Ec & Ef & _) [H1 H2]. split; [by rewrite Ec | by rewrite Ef]. Qed.

(** *** The zone's cache *)

Definition scratch_ok g : Prop := zlen (s_seqs g) = NGX_RTC_NACK_SEQS /\ zlen (s_scratch g) = NGX_RTC_RING_RTP_MAX.

Lemma zone_packet_safe g w n sq :
  worker_ok w -> zlen (s_scratch g) = NGX_RTC_RING_RTP_MAX -> is_u16 sq ->
  safe (fun o => forall d, o = Some d -> 12 <= zlen d) (zone_packet g w n sq).
Proof.
  intros Hw Hs Hsq. unfold zone_packet. pose proof (wo_zone tunables w Hw) as Hz.
  destruct (Request.zone (host w)) as [| c]; [done |]. destruct Hz as [Hc Hr].
  destruct (ShmInv.lookup_cases c n Hc) as [(b & r & Hn & El) | [Hno El]].
  - destruct (Hr b r (proj1 Hn)) as (h & Hh & Hring).
    assert (Hcache : ShmMedia.cached c b h) by (exists r; split; [apply Hn | done]).
    rewrite <- Hs. rewrite (ShmMedia.get_spec c n b r h sq (s_scratch g) Hc Hn Hcache Hsq), bind_Ret.
    destruct (Retransmit.answer _ sq _) as [d |] eqn:Ea; [| done]. cbn [Z.eqb Shm.NGX_OK].
    pose proof (zlen_nonneg d). rewrite load_range_in, bind_Ret, zdrop_0, ztake_app_length by (rewrite ?zlen_app; pose proof (zlen_nonneg (zdrop (zlen d) (s_scratch g))); lia).
    intros d' [= <-]. apply Retransmit.answer_sound in Ea as (e & He & <- & _). 
    destruct (Shm.retransmit r) as [| ring]; [cbn in Hring; by subst h; apply elem_of_nil in He |]. destruct Hring as [Hrep _].
    pose proof (Retransmit.rx_entries _ _ Hrep) as HF. eapply Forall_forall in HF as [HF _]; [| exact He]. lia.
  - unfold ShmMedia.ngx_rtc_shm_retransmit_get. rewrite El. by destruct (negb _).
Qed.
(** *** A compound packet *)

Lemma supply_of g w a src :
  worker_ok w -> scratch_ok g -> sources_of w !! a = Some src -> Nack.supply_ok src (zone_packet g w (name src)).
Proof.
  intros Hw [_ Hsc] Hsrc. split; [| intros sq Hsq; by apply zone_packet_safe].
  destruct (wo_src tunables w Hw a src Hsrc) as [[He | (k & ss & l & _ & Hrep & H12)] _].
  { unfold GopRing.ngx_rtc_source_gop_ready. by rewrite He. }
  intros Hready. exists k, ss, l. split; [done |]. split; [| done]. intros ->. apply Hready.
  unfold GopRing.ngx_rtc_source_gop_ready. rewrite (GopRing.rep_count _ _ _ _ Hrep), zlen_nil.
  by destruct (slots (gop src)).
Qed.

Lemma on_nack_safe g x a s p w :
  worker_ok w -> scratch_ok g -> sessions_of w !! x = Some s -> hears s -> source s = Ref a -> Rtcp.arrays_ok p ->
  safe (carries w) (on_nack tunables g x a p w).
Proof.
  intros Hw Hsc Hs [Hconn Hready] Ha Hp. unfold on_nack.
  eapply safe_bind; [apply (Rtcp.nack_expand_safe p (s_seqs g) NGX_RTC_NACK_SEQS Hp); [done | rewrite (proj1 Hsc); lia] |].
  intros [[rc seqs] n] (l & k & -> & -> & Hk & Hu16). destruct (negb (rc =? NGX_RTC_OK)); [by apply carries_refl |].
  rewrite load_range_in, bind_Ret, zdrop_0, (session_at_in w x s Hs), bind_Ret by lia.
  destruct (source_in tunables w x s a Hw Hs Ha) as [src Hsrc]. rewrite (source_at_in w a src Hsrc), bind_Ret.
  destruct (ok_sends w x s Hw Hs) as [_ Hbufs]. pose proof (proj1 (bufs_nack s) Hbufs) as [Hci Hnack].
  destruct (Nack.answer_eq protect tunables protect_rtp_fits (g_now g) (g_socket g) (zone_packet g w (name src)) src (ztake k l) s [])
    as (s' & log & tried & -> & (_ & _ & Hci') & Hnack' & Hpeer & _); [by split_and! | done | by apply (supply_of g w a) | done |].
  rewrite bind_Ret. destruct Hpeer as (Hid & Hc & Hf).
  assert (Ht : sent s s') by (split_and!; try done; by apply bufs_nack).
  destruct (served_wire tunables x s s' ([] ++ log) w Hw Hs Ht) as (l' & -> & Hserved); [done |]. rewrite bind_Ret.
  by apply (served_carries x s).
Qed.

Lemma twcc_sent s lost received now : bufs_ok s -> exists t, Pacer.ngx_rtc_session_on_twcc (Ref s) lost received now = Ref t /\ sent s t.
Proof.
  intros Hb. unfold Pacer.ngx_rtc_session_on_twcc. cbv zeta.
  repeat match goal with |- context [if ?c then Ref _ else _] => destruct c end;
    try (eexists; split; [reflexivity | by split_and!]).
  match goal with |- context [if ?c then set_pacer_tokens _ _ else _] => destruct c end;
    (eexists; split; [reflexivity | by split_and!]).
Qed.

Lemma cap_sent s bps : bufs_ok s -> exists t, Pacer.ngx_rtc_session_pacer_cap (Ref s) bps = Ref t /\ sent s t.
Proof.
  intros Hb. unfold Pacer.ngx_rtc_session_pacer_cap. cbv zeta. destruct (_ <=? _); [by exists s |].
  match goal with |- context [if ?c then set_pacer_tokens _ _ else _] => destruct c end;
    (eexists; split; [reflexivity | by split_and!]).
Qed.

Lemma on_twcc_safe g x s p w : worker_ok w -> sessions_of w !! x = Some s -> safe (carries w) (on_twcc g x p w).
Proof.
  intros Hw Hs. unfold on_twcc. rewrite (session_at_in w x s Hs), bind_Ret.
  destruct (twcc_sent s (Rtcp.twcc_lost p) (Rtcp.twcc_received p) (g_now g)) as (t & -> & Ht); [apply (ok_sends w x s Hw Hs) |].
  pose proof (carries_put w x s t Hw Hs Ht) as Hc. cbv zeta.
  pose proof (wo_zone tunables w Hw) as Hz. change (Request.zone (host (put_session x t w))) with (Request.zone (host w)).
  destruct (Request.zone (host w)) as [| c]; [exact Hc |]. destruct Hz as [Hci Hr].
  destruct (ShmInv.set_stats_inv c (ice_ufrag t) (twcc_lost t) (twcc_received t) (pacer_target_bps t) (drop_pacer t) (drop_gop t) Hci)
    as (c' & -> & Hc' & H1). rewrite bind_Ret. eapply carries_trans; [exact Hc |]. apply carries_same; [| done].
  apply set_zone_wok; [apply Hc |]. eapply (zone_effect 0 (ShmStep.Expire 0) c); [by apply ShmStep.one_session_effect | done].
Qed.

Lemma rtcp_cb_safe g x s p bye w :
  worker_ok w -> scratch_ok g -> 12 <= zlen (s_pkt g) -> sessions_of w !! x = Some s -> hears s -> Rtcp.arrays_ok p ->
  safe_unless (overflows g x w) (fun r => carries w r.2 /\ (r.1 = true -> bye = true \/ Rtcp.type p = Rtcp.NGX_RTC_RTCP_BYE))
    (ngx_rtc_stream_rtcp_cb tunables g x p bye w).
Proof.
  intros Hw Hsc H12 Hs Hh Hp. unfold ngx_rtc_stream_rtcp_cb. rewrite (session_at_in w x s Hs), bind_Ret.
  assert (Hsame : carries w w) by by apply carries_refl.
  destruct (source s) as [| a] eqn:Ha; [by split; [| left] |]. destruct (source_in tunables w x s a Hw Hs Ha) as [src Hsrc].
  rewrite (source_at_in w a src Hsrc), bind_Ret.
  assert (Hret : forall o, safe_unless (overflows g x w) (carries w) o ->
    safe_unless (overflows g x w) (fun r => carries w r.2 /\ (r.1 = true -> bye = true \/ Rtcp.type p = Rtcp.NGX_RTC_RTCP_BYE)) (w' ← o; Ret (bye, w'))).
  { intros [w' |]; [| done]. intros Hc. by split; [| left]. }
  destruct (_ && _). { apply Hret, safe_safe_unless. destruct (_ =? _); [by apply (on_nack_safe g x a s) | done]. }
  destruct (_ && _).
  { apply Hret. destruct (_ =? _); [| done].
    eapply safe_bind_unless; [by apply (replay_gop_safe tunables g x s a) |]. intros [n w1] Hserved. cbn [snd] in Hserved.
    pose proof (served_carries x s w w1 Hw Hs Hserved) as Hc. destruct (n =? 0); [| done].
    destruct (carries_get w w1 x s Hc Hs) as (t & Ht & (Hid & _)). injection Hid as Hso _ _ _.
    eapply safe_unless_mono; [by apply overflows_ids, (carries_ids tunables) | intros w2; exact (carries_trans w w1 w2 Hc) |].
    apply (request_keyframe_carries tunables g x t); [apply Hc | done | congruence | done]. }
  destruct (_ && _); [apply Hret, safe_safe_unless; by apply (on_twcc_safe g x s) |].
  destruct (negb _).
  2: { split; [done |]. cbn [fst]. intros [Hb | Hb]%orb_true_iff; [by left | right; lia]. }
  destruct (cap_sent s (Rtcp.remb_bitrate_bps p)) as (t & -> & Ht); [apply (ok_sends w x s Hw Hs) |].
  split; [by apply (carries_put w x s) | by left].
Qed.

(** What a datagram decrypts to says goodbye. *)
Definition says_bye s (data : octets) : Prop :=
  exists pkt k q, Srtp.ngx_rtc_srtp_unprotect_rtcp (srtp s) data = (0, pkt, k) /\
    Rtcp.member (in_datagram pkt data) (u32 (zlen pkt)) q /\ Rtcp.type q = Rtcp.NGX_RTC_RTCP_BYE.

Lemma on_rtcp_safe g c p (data : octets) w :
  worker_ok w -> conns w !! c = Some p -> octets_ok data -> zlen data < 2 ^ 32 -> scratch_ok g -> 12 <= zlen (s_pkt g) ->
  safe_unless (exists x, p = Ref x /\ overflows g x w)
    (fun w' => carries w w' \/ exists x s w1, p = Ref x /\ (exists s0, sessions_of w !! x = Some s0 /\ says_bye s0 data) /\
                 carries w w1 /\ sessions_of w1 !! x = Some s /\ closed tunables g x s w1 w')
    (ngx_rtc_stream_on_rtcp tunables report g c data w).
Proof.
  intros Hw Hc Hd Hlen Hsc H12. unfold ngx_rtc_stream_on_rtcp. rewrite (ctx_in w c p Hc), bind_Ret.
  assert (Hsame : carries w w) by by apply carries_refl.
  destruct p as [| x]; [by left |]. destruct (wo_ctx tunables w Hw c x Hc) as (s & Hs & Hcs).
  rewrite (session_at_in w x s Hs), bind_Ret, Hcs. cbn [is_null].
  destruct (so_fsm _ _ _ _ _ (wo_sess tunables w Hw x s Hs)) as (q & Hq & _).
  pose proof (is_ready_rep _ q Hq) as Hrd. rewrite Hrd, bind_Ret. destruct (bool_decide _) eqn:Eready; cbn [negb]; [| by left].
  set (s1 := set_last_active (g_now g) s).
  destruct (Srtp.ngx_rtc_srtp_unprotect_rtcp (srtp s1) data) as [[rc pkt] k] eqn:Eun. cbv zeta.
  set (s2 := set_srtp k s1). pose proof (ok_sends w x s Hw Hs) as [_ Hbufs].
  assert (Ht : sent s s2) by (by split_and!). pose proof (carries_put w x s s2 Hw Hs Ht) as Hc1. set (w1 := put_session x s2 w) in *.
  destruct (Z.eqb_spec rc 0) as [Hrc | _]; cbn [negb]; [| by left].
  destruct (Srtp.unprotect_rtcp_opened _ _ _ _ _ Eun Hrc Hd) as [Hl Hpo]. pose proof (zlen_nonneg pkt). rewrite Hrc in Eun.
  assert (Hin : zlen (in_datagram pkt data) = zlen data) by (unfold in_datagram; rewrite zlen_app, zlen_zdrop; lia).
  set (good := fun r : bool * worker => carries w r.2 /\ (r.1 = true -> says_bye s data)).
  eapply (safe_bind_unless _ (fun r => safe_unless (overflows g x w) good r.2)).
  { apply (Rtcp.decode_safe (safe_unless (overflows g x w) good)).
    - apply Forall_app. split; [done | by apply Forall_drop].
    - apply u32_range.
    - rewrite Hin, u32_small by (unfold is_u32; lia). lia.
    - intros q' [[bye w2] |] Hp Hmem Hi; [| done]. destruct Hi as [Hi Hbye]. cbn [fst snd] in Hi, Hbye |- *. rewrite bind_Ret.
      destruct (carries_get w w2 x s Hi Hs) as (t & Htx & Hst).
      eapply safe_unless_mono; [by apply overflows_ids, (carries_ids tunables) | | apply (rtcp_cb_safe g x t); [apply Hi | done | done | done | | done]].
      + intros r [Hr Hrb]. split; [exact (carries_trans w w2 r.2 Hi Hr) |]. intros Er. destruct (Hrb Er) as [Eb | Ebye]; [by apply Hbye |].
        by exists pkt, k, q'.
      + apply (sent_hears s t Hst). split; [by rewrite Hcs | exact Hrd].
    - by split. }
  intros [r1 r] Hr. cbn [snd] in Hr. destruct r as [[bye w2] |]; [| by exists x]. rewrite bind_Ret. destruct Hr as [Hr Hbye]. cbn [fst snd] in Hr, Hbye.
  destruct bye; [| by left]. destruct (carries_get w w2 x s Hr Hs) as (t & Htx & _).
  eapply safe_safe_unless, safe_mono; [| apply (session_close_safe tunables report Hlog g x t); [apply Hr | done]].
  intros w' Hcl. right. exists x, t, w2. split; [done |]. split; [| done]. exists s. split; [done | by apply Hbye].
Qed.

(** ** Packets to the sessions of this worker *)

(** Only sessions changed, and as sending changes them. *)
Definition stays w w' : Prop :=
  carries w w' /\ sources_of w' = sources_of w /\ Request.zone (host w') = Request.zone (host w).

Lemma stays_refl w : worker_ok w -> stays w w.
Proof. intros Hw. split; [by apply carries_refl | done]. Qed.

Lemma stays_trans w1 w2 w3 : stays w1 w2 -> stays w2 w3 -> stays w1 w3.
Proof. intros (A1 & A2 & A3) (B1 & B2 & B3). split; [by eapply carries_trans | split; congruence]. Qed.

Lemma found w i :
  worker_ok w ->
  Registry.ngx_rtc_session_find_by_id (registry_of w) i = Ret NULL \/
  exists x s src, Registry.ngx_rtc_session_find_by_id (registry_of w) i = Ret (Ref x) /\ sessions_of w !! x = Some s /\
    Broadcast.source_of (registry_of w) s = Ret src.
Proof.
  intros Hw. unfold Registry.ngx_rtc_session_find_by_id.
  destruct (Registry.session_scan_all Shm.ngx_crc32_long (registry_of w) (fun s => Session.id s =? i) (wo_reg tunables w Hw))
    as [[E _] | (x & s & E & Hx & _)]; [by left |].
  right. unfold Broadcast.source_of. destruct (source s) as [| a] eqn:Ea.
  - exists x, s, NULL. by rewrite Ea.
  - destruct (source_in tunables w x s a Hw Hx Ea) as [sc Hsc]. exists x, s, (Ref sc).
    rewrite Ea. unfold Registry.source_at. by rewrite Hsc.
Qed.

Lemma send_any now send src s d n gs log :
  can_send s -> 12 <= n <= zlen d ->
  safe (fun '(_, p, l) => after s log p l) (SendPath.ngx_rtc_session_send_rtp protect tunables now send src (Ref s) d n gs log).
Proof.
  intros Hs Hn. destruct src as [| sc]; [| by apply send_one].
  destruct (SendPath.send_no_source protect tunables now send s d n gs log Hn) as [sc ->]. by apply send_one.
Qed.

Lemma send_to_safe g w i (rtp : octets) n gs :
  worker_ok w -> 12 <= n <= zlen rtp -> exists w', send_to tunables g w i rtp n gs = Ret w' /\ stays w w'.
Proof.
  intros Hw Hn. unfold send_to. destruct (found w i Hw) as [-> | (x & s & src & -> & Hx & Hsrc)]; rewrite bind_Ret.
  { exists w. split; [done | by apply stays_refl]. }
  rewrite (session_at_in w x s Hx), bind_Ret, Hsrc, bind_Ret.
  pose proof (send_any (g_now g) (g_socket g) src s rtp n gs [] (ok_sends w x s Hw Hx) Hn) as Ha.
  destruct (SendPath.ngx_rtc_session_send_rtp _ _ _ _ _ _ _ _ _ _) as [[[r p] l] |]; [| done].
  destruct Ha as (t & -> & Ht & Hl). rewrite bind_Ret.
  destruct (served_wire tunables x s t l w Hw Hx Ht Hl) as (l' & -> & Hserved). rewrite bind_Ret. eexists. split; [reflexivity |].
  split; [by apply (served_carries x s) | done].
Qed.

Lemma send_to_prefix g w i (b : octets) n gs :
  worker_ok w -> 12 <= n <= zlen b -> send_to tunables g w i b n gs = send_to tunables g w i (ztake n b) n gs.
Proof.
  intros Hw Hn. unfold send_to. destruct (found w i Hw) as [-> | (x & s & src & -> & Hx & Hsrc)]; rewrite !bind_Ret; [done |].
  by rewrite (session_at_in w x s Hx), !bind_Ret, Hsrc, !bind_Ret, SendPath.send_rtp_prefix by done.
Qed.

#[local] Instance deliver_session : Broadcast.Deliver given worker := deliver_here tunables.

(** Deliveries from [w0] on. *)
Definition laws w0 : Broadcast.DeliverLaws given worker.
Proof.
  refine {| Broadcast.worker_ok := stays w0 |}.
  - intros g w i rtp gp Hw Hl. destruct (send_to_safe g w i rtp (zlen rtp) gp) as (w' & E & Hw'); [apply Hw | lia |].
    exists w'. split; [exact E | by eapply stays_trans].
  - intros g w i b n gp Hw Hn. by apply send_to_prefix; [apply Hw |].
Defined.

(** The entries of the zone without the workers, each ring a list of packets. *)
#[local] Instance deliver_nobody : Broadcast.Deliver given unit := fun _ _ _ _ _ _ => Ret tt.
#[local] Instance nobody_laws : Broadcast.DeliverLaws given unit.
Proof.
  refine {| Broadcast.worker_ok := fun _ => True |}; [| done]. intros. by exists tt.
Defined.

Implicit Types (rs : list (Broadcast.slot unit)).

Definition slots_ready rs : Prop := exists bs : list (Broadcast.mailbox (E := given) (W := unit)), Forall2 Broadcast.slot_rep rs bs.

Definition seat w (b : Broadcast.mailbox (E := given) (W := unit)) : Broadcast.mailbox (E := given) (W := worker) :=
  {| Broadcast.start := w; Broadcast.cap := Broadcast.cap b; Broadcast.heard := []; Broadcast.accepted := Broadcast.accepted b;
     Broadcast.taken := Broadcast.taken b |}.
Definition vacate (b : Broadcast.mailbox (E := given) (W := worker)) : Broadcast.mailbox (E := given) (W := unit) :=
  {| Broadcast.start := tt; Broadcast.cap := Broadcast.cap b; Broadcast.heard := []; Broadcast.accepted := Broadcast.accepted b;
     Broadcast.taken := Broadcast.taken b |}.

Lemma seat_rep w (r : Broadcast.slot unit) b :
  worker_ok w -> Broadcast.slot_rep r b -> Broadcast.slot_rep (DeliverLaws0 := laws w) (seated w r) (seat w b).
Proof. intros Hw [H1 H2 H3 H4 H5 H6 H7]. split; try done. by apply stays_refl. Qed.

Lemma vacate_rep w (r : Broadcast.slot worker) b :
  Broadcast.slot_rep (DeliverLaws0 := laws w) r b -> Broadcast.slot_rep (vacated r) (vacate b).
Proof. intros [H1 H2 H3 H4 H5 H6 H7]. by split. Qed.

Lemma vacated_seated w rs : map vacated (map (seated w) rs) = rs.
Proof. induction rs as [| [[] ? ? ? ?] rs IH]; [done |]. cbn. by f_equal. Qed.

(** ** A publisher's packet *)

(** A cached pointer into the zone that is good. *)
Definition live_cache (z : ptr shm) (p : ptr Z) : Prop :=
  forall b, p = Ref b -> exists k : shm, z = Ref k /\ is_Some (Shm.sources k !! b).

(** No ring of the zone is within [n] packets of 2^64. *)
Definition rings_within (n : Z) (z : ptr shm) : Prop :=
  match z with
  | NULL => True
  | Ref k => forall b (t : Shm.ngx_rtc_shm_source_t), Shm.sources k !! b = Some t ->
               exists h, zlen h + n < 2 ^ 64 /\ ShmMedia.ring_of (Shm.retransmit t) h
  end.

(** Session x feeds source a, and the zone takes [n] more packets. *)
Record feeding g x a (n : Z) w rs : Prop := {
  fd_ok : worker_ok w;
  fd_sess : exists s, sessions_of w !! x = Some s /\ source s = Ref a;
  fd_src : exists src, sources_of w !! a = Some src /\ live_cache (Request.zone (host w)) (shm_src src);
  fd_rings : rings_within n (Request.zone (host w));
  fd_slots : slots_ready rs;
  fd_slot : 0 <= g_slot g < zlen rs
}.

Lemma refresh_safe (c : shm) (src : Broadcast.ngx_rtc_source_t) :
  ShmInv.shm_inv c -> (forall b, Broadcast.shm_src src = Ref b -> is_Some (Shm.sources c !! b)) ->
  exists src', Broadcast.refresh (c, c, c) src = Ret src'.
Proof.
  intros Hc Hlive. unfold Broadcast.refresh.
  assert (Hsnap : exists l, Shm.ngx_rtc_shm_source_snapshot c (Broadcast.name src) Broadcast.NGX_RTC_SOURCE_MAX_SNAPSHOT = Ret l).
  { destruct (ShmInv.lookup_cases c (Broadcast.name src) Hc) as [(b & t & Hn & El) | [_ El]].
    - eexists. by apply (ShmInv.snapshot_spec c (Broadcast.name src) b t).
    - unfold Shm.ngx_rtc_shm_source_snapshot. rewrite El. destruct (_ || _); by eexists. }
  destruct Hsnap as [l Hsnap]. unfold Shm.source_at. destruct (Broadcast.shm_src src) as [| b] eqn:Eb.
  - rewrite bind_Ret, Hsnap, bind_Ret. cbn [Broadcast.shm_src Broadcast.set_snap]. rewrite Eb. by eexists.
  - destruct (Hlive b eq_refl) as [t Ht]. rewrite Ht, !bind_Ret. destruct (negb _); [| by eexists].
    rewrite Hsnap, bind_Ret. cbn [Broadcast.shm_src Broadcast.set_snap]. rewrite Eb, Ht, bind_Ret. by eexists.
Qed.

Lemma put_source_carries w a src src' :
  worker_ok w -> sources_of w !! a = Some src -> name src' = name src ->
  sps_profile_level_id src' = sps_profile_level_id src -> (src_ok tunables src -> src_ok tunables src') ->
  carries w (put_source a src' w).
Proof. intros Hw Hs Hn Hp Hok. apply carries_same; [by apply (put_source_wok tunables a src) | done]. Qed.

Lemma set_zone_carries w z : worker_ok w -> zone_ok z -> carries w (set_zone z w).
Proof. intros Hw Hz. apply carries_same; [by apply set_zone_wok | done]. Qed.

(** The source's record changes where the publisher's path does not look. *)
Lemma feeding_carries g x a n w w' rs :
  feeding g x a n w rs -> carries w w' ->
  (exists src, sources_of w' !! a = Some src /\ live_cache (Request.zone (host w')) (shm_src src)) ->
  rings_within n (Request.zone (host w')) -> feeding g x a n w' rs.
Proof.
  intros [F1 (s & Hs & Ha) F3 F4 F5 F6] Hc Hsrc Hr. split; try done; [apply Hc |].
  destruct (carries_get w w' x s Hc Hs) as (t & Ht & (Hid & _)). injection Hid as Hid _ _ _. exists t. split; [done | congruence].
Qed.

Lemma broadcast_safe g x a n (rtp : octets) len is_video gs w rs :
  feeding g x a n w rs -> 12 <= len <= zlen rtp ->
  safe (fun r => feeding g x a n r.1 r.2 /\ carries w r.1) (broadcast tunables g a rtp len is_video gs w rs).
Proof.
  intros Hf Hlen. pose proof Hf as [Hw Hx (src & Hsrc & Hlive) Hr [bs Hbs] Hslot]. unfold broadcast.
  rewrite (source_at_in w a src Hsrc), bind_Ret. cbv zeta. pose proof (wo_zone tunables w Hw) as Hz.
  assert (Hseats : Forall2 (Broadcast.slot_rep (DeliverLaws0 := laws w)) (map (seated w) rs) (map (seat w) bs)).
  { clear Hslot Hf. induction Hbs; constructor; [by apply seat_rep | done]. }
  assert (Hz_len : zlen (map (seated w) rs) = zlen rs) by (unfold zlen; by rewrite length_map).
  assert (Hfin : forall w' src' b l bs', stays w w' -> sources_of w' !! a = Some src' -> src' = src ->
    Forall2 (Broadcast.slot_rep (DeliverLaws0 := laws w)) l bs' -> zlen l = zlen rs ->
    safe (fun r => feeding g x a n r.1 r.2 /\ carries w r.1)
      (src ← source_at w' a; Ret (put_source a (with_snapshot b src) w', map vacated l))).
  { intros w' src' b l bs' (Hc & Es & Ez) Hs' -> Hl Hzl. rewrite (source_at_in w' a src Hs'), bind_Ret. cbn [safe fst snd].
    assert (Hcar : carries w (put_source a (with_snapshot b src) w')).
    { eapply carries_trans; [exact Hc |]. by apply (put_source_carries w' a src); [apply Hc | ..]. }
    split; [| done]. pose proof (feeding_carries g x a n w (put_source a (with_snapshot b src) w') rs Hf Hcar) as Hfc.
    destruct Hfc as [G1 G2 G3 G4 G5 G6].
    - exists (with_snapshot b src). split; [cbn; by rewrite lookup_insert_eq |].
      change (shm_src (with_snapshot b src)) with (shm_src src). change (Request.zone (host (put_source a (with_snapshot b src) w'))) with (Request.zone (host w')). by rewrite Ez.
    - change (Request.zone (host (put_source a (with_snapshot b src) w'))) with (Request.zone (host w')). by rewrite Ez.
    - split; try done; [| unfold zlen in *; by rewrite length_map, Hzl]. exists (map vacate bs').
      clear -Hl. induction Hl; constructor; [by eapply vacate_rep | done]. }
  destruct (Request.zone (host w)) as [| c] eqn:Ezone.
  { unfold Broadcast.ngx_rtc_broadcast_rtp.
    assert (E : (if NGX_RTC_RING_RTP_MAX <? len then Ret (map (seated w) rs, snapshot_of src) else Ret (map (seated w) rs, snapshot_of src))
      = Ret (map (seated w) rs, snapshot_of src)) by by destruct (_ <? _).
    change ShmRing.NGX_RTC_RING_RTP_MAX with NGX_RTC_RING_RTP_MAX. rewrite E, bind_Ret. clear E.
    assert (Ew : match map (seated w) rs !! Z.to_nat (g_slot g) with None => w | Some r => Broadcast.worker r end = w).
    { rewrite list_lookup_fmap. by destruct (rs !! Z.to_nat (g_slot g)). }
    rewrite Ew. by eapply Hfin; [apply stays_refl | exact Hsrc | done | exact Hseats |]. }
  rewrite (Broadcast.broadcast_prefix (DeliverLaws0 := laws w)) by
    (done || (apply Forall_forall; intros r Hin; apply list_elem_of_fmap in Hin as (r0 & -> & _); by apply stays_refl)).
  set (p := ztake len rtp). assert (Hp : zlen p = len) by (unfold p; rewrite zlen_ztake; lia). rewrite <- Hp.
  destruct (refresh_safe c (snapshot_of src)) as [b' Hb']; [apply Hz | intros b Eb; destruct (Hlive b Eb) as (c' & [= <-] & ?); done |].
  destruct (Broadcast.broadcast_rep (DeliverLaws0 := laws w) g (g_slot g) (c, c, c) (snapshot_of src) p is_video gs
    (map (seated w) rs) (map (seat w) bs) b' Hseats) as (l & out & Ebr & Hl); [by rewrite Hz_len | lia | done |].
  unfold Broadcast.reads in Ebr. rewrite Ebr, bind_Ret. clear Ebr. pose proof (Forall2_length _ _ _ Hl) as Hll.
  assert (Hlen2 : zlen l = zlen rs).
  { unfold zlen. rewrite Hll. cbn [Broadcast.sstep]. destruct (1500 <? zlen p); rewrite ?length_imap, length_map;
      apply Forall2_length in Hbs; by rewrite Hbs. }
  destruct (load_in l (g_slot g) ltac:(lia)) as [r Hr']. apply load_ret in Hr' as [_ Hr'].
  rewrite Hr'. destruct (Forall2_lookup_l _ _ _ _ _ Hl Hr') as (b & _ & Hrb).
  pose proof (Broadcast.sr_ok (DeliverLaws0 := laws w) _ _ Hrb) as Hst. change (stays w (Broadcast.worker r)) in Hst.
  eapply Hfin; [exact Hst | rewrite (proj1 (proj2 Hst)); exact Hsrc | done | exact Hl | done].
Qed.

(** *** The zone's record of the source *)

Lemma within_keeps n (k k' : shm) : ShmStep.keeps_bodies k k' -> n < 2 ^ 64 -> rings_within n (Ref k) -> rings_within n (Ref k').
Proof.
  intros Hk Hn Hr b t Ht. destruct (Hk b t Ht) as [(t0 & Ht0 & _ & ->) | ->]; [by eapply Hr |].
  exists []. split; [rewrite zlen_nil; lia | done].
Qed.

Lemma effect_live now e (k k' : shm) b :
  ShmStep.effect now e k k' -> ShmStep.sweeps e = None -> (forall n, e <> ShmStep.SourceRemove n) ->
  is_Some (Shm.sources k !! b) -> is_Some (Shm.sources k' !! b).
Proof.
  intros He Hs Hr [t Ht]. destruct (ShmStep.ef_src _ _ _ _ He b t Ht) as (o & Hch & Ho).
  destruct o as [t' |]; [destruct Ho as [-> _]; by eexists |]. exfalso. inversion Hch; subst; try congruence; by eapply Hr.
Qed.

Lemma live_keeps now e (k k' : shm) (p : ptr Z) :
  ShmStep.effect now e k k' -> ShmStep.sweeps e = None -> (forall n, e <> ShmStep.SourceRemove n) ->
  live_cache (Ref k) p -> live_cache (Ref k') p.
Proof. intros He Hs Hr Hp b Hb. destruct (Hp b Hb) as (k0 & [= <-] & Hk). exists k'. split; [done |]. by eapply effect_live. Qed.

(** A feeding worker whose zone went through a call and whose source's record changed. *)
Lemma feeding_step g x a n now e src src' (k k' : shm) w rs :
  feeding g x a n w rs -> sources_of w !! a = Some src -> Request.zone (host w) = Ref k -> n < 2 ^ 64 ->
  ShmStep.effect now e k k' -> ShmStep.sweeps e = None -> (forall m, e <> ShmStep.SourceRemove m) ->
  name src' = name src -> sps_profile_level_id src' = sps_profile_level_id src -> (src_ok tunables src -> src_ok tunables src') ->
  (shm_src src' = shm_src src \/ shm_src src' = NULL) ->
  feeding g x a n (put_source a src' (set_zone (Ref k') w)) rs /\ carries w (put_source a src' (set_zone (Ref k') w)).
Proof.
  intros Hf Hs Ez Hn He Hsw Hrm K1 K2 K3 Hp. pose proof Hf as [Hw _ (src0 & Hs0 & Hlive) Hr _ _].
  assert (src0 = src) as -> by congruence. rewrite Ez in Hlive, Hr.
  pose proof (wo_zone tunables w Hw) as Hz. rewrite Ez in Hz. destruct Hz as [_ Hrings].
  assert (Hc1 : carries w (set_zone (Ref k') w)) by (apply set_zone_carries; [done | by eapply zone_effect]).
  assert (Hc2 : carries w (put_source a src' (set_zone (Ref k') w))).
  { eapply carries_trans; [exact Hc1 |]. by apply (put_source_carries _ a src); [apply Hc1 | ..]. }
  split; [| exact Hc2]. apply (feeding_carries g x a n w); [done | done | | by eapply within_keeps; [eapply ShmStep.effect_keeps | ..]].
  exists src'. split; [cbn; by rewrite lookup_insert_eq |]. cbn. destruct Hp as [-> | ->]; [| done]. by eapply live_keeps.
Qed.

Lemma feeding_source g x a n src src' w rs :
  feeding g x a n w rs -> sources_of w !! a = Some src ->
  name src' = name src -> sps_profile_level_id src' = sps_profile_level_id src -> (src_ok tunables src -> src_ok tunables src') ->
  (shm_src src' = shm_src src \/ shm_src src' = NULL) ->
  feeding g x a n (put_source a src' w) rs /\ carries w (put_source a src' w).
Proof.
  intros Hf Hs K1 K2 K3 Hp. pose proof Hf as [Hw _ (src0 & Hs0 & Hlive) Hr _ _]. assert (src0 = src) as -> by congruence.
  pose proof (put_source_carries w a src src' Hw Hs K1 K2 K3) as Hc. split; [| done].
  apply (feeding_carries g x a n w); [done | done | | done]. exists src'. split; [cbn; by rewrite lookup_insert_eq |].
  cbn. by destruct Hp as [-> | ->].
Qed.

Lemma shm_source_safe g x a n w rs :
  feeding g x a n w rs -> n < 2 ^ 64 ->
  safe (fun r => feeding g x a n r.2 rs /\ carries w r.2 /\ live_cache (Request.zone (host r.2)) r.1) (ngx_rtc_stream_shm_source g a w).
Proof.
  intros Hf Hn. pose proof Hf as [Hw _ (src & Hsrc & Hlive) _ _ _]. unfold ngx_rtc_stream_shm_source.
  rewrite (source_at_in w a src Hsrc), bind_Ret. unfold Publish.ngx_rtc_stream_shm_source.
  change (Publish.l_shm_src (Request.right_of src)) with (shm_src src).
  change (Publish.l_shm_sync_ms (Request.right_of src)) with (shm_sync_ms src).
  assert (Hid : Request.with_right (Request.right_of src) src = src) by by destruct src.
  assert (Hsame : forall p, live_cache (Request.zone (host w)) p ->
    safe (fun r => feeding g x a n r.2 rs /\ carries w r.2 /\ live_cache (Request.zone (host r.2)) r.1)
      (Ret (p, put_source a (Request.with_right (Request.right_of src) src) (set_zone (Request.zone (host w)) w)))).
  { intros p Hp. rewrite Hid, set_zone_id. cbn [safe fst snd].
    destruct (feeding_source g x a n src src w rs Hf Hsrc) as [H1 H2]; try done; by left. }
  destruct (is_null (shm_src src)) eqn:Enull; [rewrite bind_Ret; by apply Hsame |].
  destruct (_ <? _); [rewrite bind_Ret; by apply Hsame |].
  destruct (Request.zone (host w)) as [| k] eqn:Ez; [rewrite bind_Ret; by apply Hsame |].
  pose proof (wo_zone tunables w Hw) as Hz. rewrite Ez in Hz. destruct Hz as [Hk _].
  change (Publish.l_name (Request.right_of src)) with (name src).
  destruct (ShmStep.publish_effect (g_now g) (name src) Shm.NGX_RTC_PUBLISHER_WHIP k Hk) as (rc & k' & -> & He); [done |]. rewrite bind_Ret.
  destruct (negb _); rewrite bind_Ret; cbn [safe fst snd].
  - match goal with |- feeding _ _ _ _ (put_source a ?s' _) _ /\ _ =>
      destruct (feeding_step g x a n _ _ src s' k k' w rs Hf Hsrc Ez Hn He) as [H1 H2]; try done; by right end.
  - match goal with |- feeding _ _ _ _ (put_source a ?s' _) _ /\ _ =>
      destruct (feeding_step g x a n _ _ src s' k k' w rs Hf Hsrc Ez Hn He) as [H1 H2]; try done; [by left |] end.
    split; [done |]. split; [done |]. by eapply live_keeps.
Qed.

(** The zone with another body at a live address. *)
Lemma feeding_body g x a n m (k : shm) b (t t' : Shm.ngx_rtc_shm_source_t) w rs :
  feeding g x a n w rs -> Request.zone (host w) = Ref k -> Shm.sources k !! b = Some t -> 0 <= m ->
  ShmInv.shm_inv (Shm.put_source b t' k) ->
  (exists h, zlen h + m < 2 ^ 64 /\ ShmMedia.ring_of (Shm.retransmit t') h) ->
  m <= n ->
  feeding g x a m (set_zone (Ref (Shm.put_source b t' k)) w) rs /\ carries w (set_zone (Ref (Shm.put_source b t' k)) w).
Proof.
  intros Hf Ez Hb Hm Hinv Hring Hle. pose proof Hf as [Hw (s & Hs & Ha) (src & Hsrc & Hlive) Hr Hsl Hslot]. rewrite Ez in Hlive, Hr.
  assert (Hr' : rings_within m (Ref (Shm.put_source b t' k))).
  { intros d u. cbn. intros [[<- <-] | [_ Hu]]%lookup_insert_Some.
    - exact Hring.
    - destruct (Hr d u Hu) as (h & H1 & H2). exists h. split; [lia | done]. }
  assert (Hc : carries w (set_zone (Ref (Shm.put_source b t' k)) w)).
  { apply set_zone_carries; [done |]. split; [done |]. intros d u Hu. destruct (Hr' d u Hu) as (h & H1 & H2). exists h. split; [lia | done]. }
  split; [| done]. split; try done.
  - apply Hc.
  - by exists s.
  - exists src. split; [done |]. intros d Hd. destruct (Hlive d Hd) as (k0 & [= <-] & Hk). eexists. split; [reflexivity |]. cbn.
    destruct (decide (d = b)) as [-> | Hne]; [rewrite lookup_insert_eq; by eexists | by rewrite lookup_insert_ne].
Qed.

Lemma shm_stats_safe g x a n p w rs :
  feeding g x a n w rs -> 0 <= n -> live_cache (Request.zone (host w)) p ->
  safe (fun w' => feeding g x a n w' rs /\ carries w w' /\ live_cache (Request.zone (host w')) p) (ngx_rtc_stream_shm_stats a p w).
Proof.
  intros Hf Hn Hp. pose proof Hf as [Hw _ (src & Hsrc & Hlive) Hr _ _]. unfold ngx_rtc_stream_shm_stats.
  rewrite (source_at_in w a src Hsrc), bind_Ret.
  assert (Hsame : carries w w) by by apply carries_refl.
  destruct (Request.zone (host w)) as [| k] eqn:Ez.
  { destruct p as [| b]; [cbn [safe]; by rewrite Ez | destruct (Hp b eq_refl) as (? & ? & _); done]. }
  unfold Publish.ngx_rtc_stream_shm_stats, Publish.through. destruct p as [| b].
  { rewrite bind_Ret. cbn [safe]. assert (E : set_zone (Ref k) w = w) by (rewrite <- Ez; apply set_zone_id). rewrite E, Ez. by split_and!. }
  destruct (Hp b eq_refl) as (k0 & [= <-] & [t Ht]). unfold Shm.source_at. rewrite Ht, !bind_Ret.
  pose proof (wo_zone tunables w Hw) as Hz. rewrite Ez in Hz.
  set (t' := Publish.mirrored (Request.right_of src) t).
  destruct (feeding_body g x a n n k b t t' w rs Hf Ez Ht Hn) as [H1 H2]; [| by apply (Hr b t Ht) | lia |].
  { by apply (ShmInv.inv_put_source k b t); [apply Hz | ..]. }
  split; [done |]. split; [done |]. intros d [= <-]. eexists. split; [reflexivity |]. cbn. rewrite lookup_insert_eq. by eexists.
Qed.

Lemma shm_append_safe g x a n p (rtp : octets) gs w rs :
  feeding g x a (n + 1) w rs -> 0 <= n -> live_cache (Request.zone (host w)) p -> 12 <= zlen rtp <= 1500 -> octets_ok rtp ->
  safe (fun w' => feeding g x a n w' rs /\ carries w w') (shm_append g p rtp (zlen rtp) gs w).
Proof.
  intros Hf Hn Hp Hl Ho. pose proof Hf as [Hw _ (src & Hsrc & Hlive) Hr _ _]. unfold shm_append.
  assert (Hless : feeding g x a n w rs).
  { destruct Hf as [F1 F2 F3 F4 F5 F6]. split; try done. destruct (Request.zone (host w)) as [| k]; [done |].
    intros b t Ht. destruct (F4 b t Ht) as (h & H1 & H2). exists h. split; [lia | done]. }
  assert (Hsame : carries w w) by by apply carries_refl.
  destruct p as [| b]; [done |]. destruct (Hp b eq_refl) as (k & Ez & [t Ht]). rewrite Ez.
  unfold Shm.source_at. rewrite Ht, bind_Ret. rewrite Ez in Hr. destruct (Hr b t Ht) as (h & Hh & Hring).
  pose proof (wo_zone tunables w Hw) as Hz. rewrite Ez in Hz.
  destruct (ShmMedia.append_safe (g_retx g) (Shm.remote_subscribers t) k b h t rtp gs (proj1 Hz) Ht Hring Hl Ho) as (k' & -> & Hk' & Hc); [lia |].
  rewrite bind_Ret. cbn [safe]. destruct Hc as [-> | (t' & h' & -> & Hring' & Hh')].
  { assert (E : set_zone (Ref k) w = w) by (rewrite <- Ez; apply set_zone_id). by rewrite E. }
  destruct (feeding_body g x a (n + 1) n k b t t' w rs Hf Ez Ht Hn Hk') as [H1 H2]; [| lia | done].
  exists h'. split; [lia | done].
Qed.

Context (Hslots : is_u32 (gop_ring_slots tunables)).

Lemma feeding_found g x a n w rs : feeding g x a n w rs -> exists src, sources_of w !! a = Some src.
Proof. intros [_ _ (src & Hs & _) _ _ _]. by exists src. Qed.

Lemma feeding_less g x a n m w rs : feeding g x a n w rs -> m <= n -> feeding g x a m w rs.
Proof.
  intros [F1 F2 F3 F4 F5 F6] Hm. split; try done. destruct (Request.zone (host w)) as [| k]; [done |].
  intros b t Ht. destruct (F4 b t Ht) as (h & H1 & H2). exists h. split; [lia | done].
Qed.

Lemma whip_emit_safe g x a n (rtp : octets) gs w rs :
  feeding g x a (n + 1) w rs -> 0 <= n < 2 ^ 63 -> emitted 0 rtp gs ->
  safe (fun r => feeding g x a n r.1 r.2 /\ carries w r.1) (ngx_rtc_stream_whip_emit tunables g x rtp (zlen rtp) gs w rs).
Proof.
  intros Hf Hn [Hl Ho]. unfold NGX_RTC_MAX_RTP_PKT in Hl. pose proof Hf as [_ (s & Hs & Ha) _ _ _ _].
  unfold ngx_rtc_stream_whip_emit. rewrite (session_at_in w x s Hs), bind_Ret, Ha.
  eapply safe_bind; [apply (broadcast_safe g x a (n + 1) rtp (zlen rtp) 1 gs w rs Hf); lia |].
  intros [w1 rs1] [Hf1 Hc1]. cbn [fst snd] in Hf1, Hc1.
  destruct (feeding_found _ _ _ _ _ _ Hf1) as (src1 & Hs1). rewrite (source_at_in w1 a src1 Hs1), bind_Ret. cbv zeta.
  set (src1' := set_video_octets _ _).
  destruct (feeding_source g x a (n + 1) src1 src1' w1 rs1 Hf1 Hs1) as [Hf2 Hc2]; [done | done | done | by left |].
  eapply safe_bind; [apply (shm_source_safe g x a (n + 1) (put_source a src1' w1) rs1 Hf2); lia |].
  intros [p w3] (Hf3 & Hc3 & Hp3). cbn [fst snd] in Hf3, Hc3, Hp3.
  eapply safe_bind; [apply (shm_stats_safe g x a (n + 1) p w3 rs1 Hf3 ltac:(lia) Hp3) |].
  intros w4 (Hf4 & Hc4 & Hp4). eapply safe_bind; [apply (shm_append_safe g x a n p rtp gs w4 rs1 Hf4); [lia | done | lia | done] |].
  intros w5 (Hf5 & Hc5). destruct (feeding_found _ _ _ _ _ _ Hf5) as (src5 & Hs5). rewrite (source_at_in w5 a src5 Hs5), bind_Ret.
  pose proof (wo_src tunables w5 (fd_ok _ _ _ _ _ _ Hf5) a src5 Hs5) as [Hring Hjit].
  destruct (GopRing.push_ring_ok tunables (g_ring g) (gop src5) rtp gs Hslots Hring) as (r' & -> & Hr'); [done | done |].
  rewrite bind_Ret. cbn [safe fst snd].
  destruct (feeding_source g x a n src5 (set_gop r' src5) w5 rs1 Hf5 Hs5) as [Hf6 Hc6]; [done | done | by split | by left |].
  split; [done |]. eapply carries_trans; [| exact Hc6]. eapply carries_trans; [| exact Hc5]. eapply carries_trans; [| exact Hc4].
  eapply carries_trans; [| exact Hc3]. by eapply carries_trans.
Qed.

Lemma emit_all_safe g x a l : forall n w rs,
  feeding g x a (n + zlen l) w rs -> 0 <= n -> n + zlen l < 2 ^ 63 -> Forall (fun e => emitted 0 e.1 e.2) l ->
  safe (fun r => feeding g x a n r.1 r.2 /\ carries w r.1) (emit_all tunables g x l w rs).
Proof.
  induction l as [| [rtp gs] l IH]; intros n w rs Hf Hn Hb Hl.
  { rewrite zlen_nil, Z.add_0_r in Hf. split; [done |]. apply carries_refl, Hf. }
  pose proof (zlen_nonneg l). rewrite zlen_cons in Hf, Hb. inversion Hl as [| ? ? Hh Ht]; subst. cbn [emit_all].
  eapply safe_bind; [apply (whip_emit_safe g x a (n + zlen l) rtp gs w rs); [| lia | exact Hh] |].
  { by replace (n + zlen l + 1) with (n + (1 + zlen l)) by lia. }
  intros [w1 rs1] [Hf1 Hc1]. cbn [fst snd] in Hf1, Hc1. eapply safe_mono; [| apply (IH n w1 rs1 Hf1); [lia.. | done]].
  intros r [Hr Hcr]. split; [done |]. by eapply carries_trans.
Qed.

(** The SSRC of a packet reaches the source and the zone. *)
Lemma learn_ssrc_safe g x a n is_video ssrc w rs :
  feeding g x a n w rs -> n < 2 ^ 64 -> safe (fun w' => feeding g x a n w' rs /\ carries w w') (learn_ssrc a is_video ssrc w).
Proof.
  intros Hf Hn. unfold learn_ssrc. pose proof (carries_refl w (fd_ok _ _ _ _ _ _ Hf)) as Hrefl.
  destruct (Request.zone (host w)) as [| k] eqn:Ez; [done |].
  destruct (feeding_found _ _ _ _ _ _ Hf) as (src & Hs). rewrite (source_at_in w a src Hs), bind_Ret.
  pose proof (wo_zone tunables w (fd_ok _ _ _ _ _ _ Hf)) as Hz. rewrite Ez in Hz. destruct Hz as [Hk _].
  assert (Hset : forall v u src', name src' = name src -> sps_profile_level_id src' = sps_profile_level_id src ->
    (src_ok tunables src -> src_ok tunables src') -> shm_src src' = shm_src src ->
    safe (fun w' => feeding g x a n w' rs /\ carries w w')
      (ctx ← Shm.ngx_rtc_shm_source_set_ssrc k (name src) v u; Ret (set_zone (Ref ctx) (put_source a src' w)))).
  { intros v u src' K1 K2 K3 K4.
    destruct (ShmStep.step_effect 0 (ShmStep.SetSsrc (name src) v u) k Hk I) as (rc & k' & E & He).
    cbn [ShmStep.step] in E. destruct (Shm.ngx_rtc_shm_source_set_ssrc k (name src) v u) as [k1 |]; [| done].
    rewrite bind_Ret in E. injection E as <- ->. rewrite bind_Ret. cbn [safe].
    apply (feeding_step g x a n 0 _ src src' k k' w rs Hf Hs Ez Hn He); try done. by left. }
  destruct (is_video && _); [by apply Hset |]. destruct (negb is_video && _); [by apply Hset | done].
Qed.

(** What the reorder buffer lets go of is what it took, at most 259 packets at a time. *)
Lemma on_video_safe g x a n (d : octets) len w rs :
  feeding g x a (n + 259) w rs -> 0 <= n < 2 ^ 62 -> 12 <= len <= zlen d -> octets_ok (ztake len d) ->
  safe (fun r => worker_ok r.1 /\ feeding g x a n r.1 r.2 /\ carries w r.1) (on_video tunables g x a d len w rs).
Proof.
  intros Hf Hn Hl Hd. unfold on_video.
  assert (Hgs : exists gs, (if NGX_RTC_RTP_HEADER_SIZE <? len
      then h ← load d NGX_RTC_RTP_HEADER_SIZE; Ret (if Z.land h 0x1f =? Rtp.NGX_RTC_H264_STAP_A then 1 else 0) else Ret 0) = Ret gs).
  { destruct (Z.ltb_spec NGX_RTC_RTP_HEADER_SIZE len) as [Hlt |]; [| by eexists].
    destruct (load_in d NGX_RTC_RTP_HEADER_SIZE) as [h ->]; [unfold NGX_RTC_RTP_HEADER_SIZE in *; lia |]. by eexists. }
  destruct Hgs as [gs ->]. rewrite bind_Ret.
  destruct (load_in d 2 ltac:(lia)) as [hi ->]. destruct (load_in d 3 ltac:(lia)) as [lo ->]. rewrite !bind_Ret. cbv zeta.
  set (sq := u16 _). destruct (feeding_found _ _ _ _ _ _ Hf) as (src & Hs). rewrite (source_at_in w a src Hs), bind_Ret.
  pose proof (wo_src tunables w (fd_ok _ _ _ _ _ _ Hf) a src Hs) as [Hring (J1 & J2 & J3)].
  assert (Hpush : exists rc j l, Jitter.ngx_rtc_jitter_push (Ref (jitter src)) (Ref d) len sq gs (u32 (g_now g)) (Ref tt) = Ret (rc, Ref j, l) /\
    jitter_ok j /\ Forall (fun e => emitted 0 e.1 e.2) l).
  { destruct (Z.leb_spec len NGX_RTC_MAX_RTP_PKT) as [Hle | Hgt].
    - assert (He : forall q, emitted sq (ztake len d) q).
      { intros q. split; [rewrite zlen_ztake; lia | done]. }
      destruct (Jitter.push_spec emitted (jitter src) d len sq gs (u32 (g_now g)) tt J1 J2 J3) as (j & ss & log & E & K1 & K2 & K3 & _ & _ & Hdel);
        [split; [lia | exact Hle] | lia | apply u16_range | apply He.. |].
      exists NGX_RTC_OK, j, log. split; [exact E |]. split; [by split_and! |].
      apply Jitter.delivers_arrived in Hdel. clear -Hdel. induction Hdel; by constructor.
    - exists NGX_RTC_ERR_INVALID, (jitter src), []. split; [| by split_and!].
      unfold Jitter.ngx_rtc_jitter_push. destruct (_ || _) eqn:Eo; [done |].
      apply orb_false_iff in Eo as [_ Eo]. apply Z.ltb_ge in Eo. apply Z.lt_nge in Hgt. by destruct Hgt. }
  destruct Hpush as (rc & j & l & E & Hj & Hl').
  pose proof (Jitter.push_length _ _ _ _ _ _ _ _ _ _ E) as Hlen. rewrite E, bind_Ret.
  destruct (feeding_source g x a (n + 259) src (set_jitter j src) w rs Hf Hs) as [Hf1 Hc1]; [done | done | by split | by left |].
  eapply safe_mono; [| apply (emit_all_safe g x a l n (put_source a (set_jitter j src) w) rs); [| lia | | exact Hl']].
  - intros r [Hr Hcr]. split_and!; [apply Hr | done | exact (carries_trans _ _ _ Hc1 Hcr)].
  - eapply feeding_less; [exact Hf1 | unfold zlen, Jitter.emission in *; lia].
  - unfold zlen, Jitter.emission in *. lia.
Qed.

Lemma on_audio_safe g x a n (d : octets) len w rs :
  feeding g x a n w rs -> 0 <= n < 2 ^ 64 -> 12 <= len <= zlen d ->
  safe (fun r => worker_ok r.1 /\ feeding g x a n r.1 r.2 /\ carries w r.1) (on_audio tunables g a d len w rs).
Proof.
  intros Hf Hn Hl. unfold on_audio.
  eapply safe_bind; [by apply (broadcast_safe g x a n d len 0 0 w rs Hf) |].
  intros [w1 rs1] [Hf1 Hc1]. cbn [fst snd] in Hf1, Hc1.
  destruct (feeding_found _ _ _ _ _ _ Hf1) as (src1 & Hs1). rewrite (source_at_in w1 a src1 Hs1), bind_Ret. cbv zeta.
  set (src1' := set_audio_octets _ _).
  destruct (feeding_source g x a n src1 src1' w1 rs1 Hf1 Hs1) as [Hf2 Hc2]; [done | done | done | by left |].
  eapply safe_bind; [apply (shm_source_safe g x a n (put_source a src1' w1) rs1 Hf2); lia |].
  intros [p w3] (Hf3 & Hc3 & Hp3). cbn [fst snd] in Hf3, Hc3, Hp3.
  eapply safe_bind; [apply (shm_stats_safe g x a n p w3 rs1 Hf3 ltac:(lia) Hp3) |].
  intros w4 (Hf4 & Hc4 & _). cbn [safe fst snd]. split_and!; [apply Hf4 | done |].
  eapply carries_trans; [| exact Hc4]. eapply carries_trans; [| exact Hc3]. by eapply carries_trans.
Qed.

(** A packet without its header extension is a packet. *)
Lemma strip_packet (p : octets) :
  octets_ok p -> 12 <= zlen p ->
  exists rc d n, Rtp.ngx_rtc_rtp_strip_header_ext (Ref p) (Ref (zlen p)) = Ret (rc, Ref d, Ref n) /\
    (rc = NGX_RTC_OK -> 12 <= n <= zlen d /\ octets_ok (ztake n d)).
Proof.
  intros Ho Hp. pose proof (Rtp.strip_header_ext_total p Ho) as Ht. destruct (Z.ltb_spec (zlen p) 12); [lia |].
  destruct (Rtp.rtp_header_len p) as [h |] eqn:Eh; [| by eexists _, _, _].
  destruct (Z.ltb_spec (zlen p) h); [by eexists _, _, _ |]. destruct Ht as (d & E & Hd).
  exists NGX_RTC_OK, d, (12 + (zlen p - h)). split; [exact E |]. intros _.
  destruct p as [| b0 p']; [done |]. inversion Ho as [| ? ? Hb Ho']; subst.
  assert (Hh : 12 <= h).
  { unfold Rtp.rtp_header_len in Eh. pose proof (Z.mod_pos_bound b0 16 ltac:(lia)).
    destruct (Z.testbit b0 4); [| injection Eh as <-; lia].
    destruct (load _ (_ + 2)) as [hi |] eqn:E1; [| done]. destruct (load _ (_ + 3)) as [lo |] eqn:E2; [| done]. injection Eh as <-.
    pose proof (load_u8 _ _ _ Ho E1) as B1. pose proof (load_u8 _ _ _ Ho E2) as B2. unfold is_u8 in *. lia. }
  assert (Hzl : zlen (Rtp.stripped (b0 :: p') h) = 12 + (zlen (b0 :: p') - h)).
  { pose proof (zlen_cons b0 p'). unfold Rtp.stripped. rewrite zlen_cons, zlen_app, zlen_ztake, zlen_zdrop by lia. lia. }
  assert (Hle : 12 + (zlen (b0 :: p') - h) <= zlen d).
  { rewrite <- Hd in Hzl. unfold zlen, ztake in Hzl. rewrite length_take in Hzl. unfold zlen in *. lia. }
  split; [lia |]. rewrite Hd. constructor.
  { unfold is_u8. replace (Z.land b0 224) with (Z.land b0 224 mod 256) by (rewrite <- land_255, <- Z.land_assoc; reflexivity).
    apply Z.mod_pos_bound. lia. }
  apply Forall_app. split; [by apply Forall_take | by apply Forall_drop].
Qed.

(** What the zone, the other workers and the cached pointers must have for a packet. *)
Record media_ready g (p : ptr Z) w rs : Prop := {
  mr_slots : slots_ready rs;
  mr_slot : 0 <= g_slot g < zlen rs;
  mr_rings : rings_within 260 (Request.zone (host w));
  mr_cache x s a src : p = Ref x -> sessions_of w !! x = Some s -> source s = Ref a -> sources_of w !! a = Some src ->
    live_cache (Request.zone (host w)) (shm_src src)
}.

Lemma on_srtp_safe g p (data : octets) w rs :
  worker_ok w -> (forall x, p = Ref x -> is_Some (sessions_of w !! x)) -> octets_ok data -> media_ready g p w rs ->
  safe (fun r => carries w r.1 /\ slots_ready r.2) (ngx_rtc_stream_on_srtp tunables g p data w rs).
Proof.
  intros Hw Hp Hd [M1 M2 M3 M4]. unfold ngx_rtc_stream_on_srtp. pose proof (carries_refl w Hw) as Hrefl.
  destruct p as [| x]; [done |]. destruct (Hp x eq_refl) as [s Hs]. rewrite (session_at_in w x s Hs), bind_Ret.
  destruct (source s) as [| a] eqn:Ha; [done |].
  destruct (so_fsm _ _ _ _ _ (wo_sess tunables w Hw x s Hs)) as (q & Hq & _).
  rewrite (is_ready_rep _ q Hq), bind_Ret. destruct (_ || _); [done |].
  destruct (Srtp.ngx_rtc_srtp_unprotect_rtp (srtp s) data) as [[rc pkt] k] eqn:Eun. cbv zeta.
  set (s1 := set_srtp k s). pose proof (ok_sends w x s Hw Hs) as Hok.
  assert (Ht1 : sent s s1) by (destruct Hok as [_ Hb]; by split_and!). pose proof (carries_put w x s s1 Hw Hs Ht1) as Hc1.
  destruct (Z.eqb_spec rc 0) as [Hrc | _]; cbn [negb orb]; [| done].
  destruct (Z.ltb_spec (zlen pkt) NGX_RTC_RTP_HEADER_SIZE) as [_ | Hpl]; [done |]. unfold NGX_RTC_RTP_HEADER_SIZE in Hpl.
  destruct (Srtp.unprotect_rtp_opened _ _ _ _ _ Eun Hrc Hd) as [_ Hpo].
  destruct (strip_packet pkt Hpo Hpl) as (rc2 & d & len & -> & Hst). rewrite bind_Ret.
  destruct (Z.eqb_spec rc2 NGX_RTC_OK) as [Hrc2 | _]; cbn [negb]; [| done]. destruct (Hst Hrc2) as [Hlen Hdo].
  set (s2 := set_last_active (g_now g) s1). assert (Ht2 : sent s1 s2) by (destruct Hok as [_ Hb]; by split_and!).
  pose proof (carries_trans _ _ _ Hc1 (carries_put (put_session x s1 w) x s1 s2 (proj1 Hc1) (put_same x s1 w) Ht2)) as Hc2.
  set (w2 := put_session x s2 _) in *.
  destruct (load_in d 1 ltac:(lia)) as [b1 ->]. rewrite bind_Ret. set (is_video := _ =? video_pt _).
  destruct (_ && _); [done |]. destruct (source_in tunables w x s a Hw Hs Ha) as [src Hsrc].
  assert (Hf : feeding g x a 260 w2 rs).
  { split; try done; [apply Hc2 | exists s2; split; [apply put_same | done] |].
    exists src. split; [done |]. by apply (M4 x s a). }
  assert (Hrd : exists v, Rtcp.ngx_rtc_rtcp_rd_u32 d 8 = Ret v).
  { unfold Rtcp.ngx_rtc_rtcp_rd_u32. destruct (load_in d 8 ltac:(lia)) as [? ->], (load_in d (8 + 1) ltac:(lia)) as [? ->],
      (load_in d (8 + 2) ltac:(lia)) as [? ->], (load_in d (8 + 3) ltac:(lia)) as [? ->]. by eexists. }
  destruct Hrd as [v ->]. rewrite bind_Ret.
  eapply safe_bind; [by apply (learn_ssrc_safe g x a 260 is_video v w2 rs Hf) |]. intros w3 [Hf3 Hc3].
  assert (Hend : forall r, worker_ok r.1 /\ feeding g x a 1 r.1 r.2 /\ carries w3 r.1 -> carries w r.1 /\ slots_ready r.2).
  { intros r (_ & Hfr & Hcr). split; [| apply Hfr]. eapply carries_trans; [| exact Hcr]. by eapply carries_trans. }
  destruct is_video.
  - eapply safe_mono; [exact Hend |]. by apply (on_video_safe g x a 1 d len w3 rs).
  - eapply safe_mono; [exact Hend |]. apply on_audio_safe; [eapply feeding_less; [exact Hf3 | lia] | lia | done].
Qed.

(** The packets the other workers left. *)
Lemma notified_safe g w rs :
  worker_ok w -> slots_ready rs -> 0 <= g_slot g < zlen rs ->
  safe (fun r => carries w r.1 /\ slots_ready r.2) (notified tunables g w rs).
Proof.
  intros Hw [bs Hbs] Hslot. unfold notified. pose proof (carries_refl w Hw) as Hrefl.
  destruct (Request.zone (host w)) as [| k]; [split; [done | by exists bs] |].
  destruct (load_in rs (g_slot g) Hslot) as [r Er]. rewrite Er, bind_Ret. apply load_ret in Er as [_ Er].
  destruct (Forall2_lookup_l _ _ _ _ _ Hbs Er) as (b & Hb & Hrb).
  destruct (Broadcast.handler_rep (DeliverLaws0 := laws w) g (seated w r) (seat w b) (seat_rep w r b Hw Hrb)) as (r' & Er' & Hr' & _).
  unfold deliver_session in Er'. rewrite Er', bind_Ret, store_in by done. rewrite bind_Ret. cbn [safe fst snd]. split.
  - exact (proj1 (Broadcast.sr_ok (DeliverLaws0 := laws w) _ _ Hr')).
  - eexists. eapply Forall2_insert; [exact Hbs |]. eapply vacate_rep, Hr'.
Qed.

End media.
End StreamMediaSafe.
