(* ===== verification/StreamProps.v ===== *)
(** What the UDP side of a worker promises, and where it does not hold: the reaper, the end of a
    session, the Binding request as proof of the password, the keyframe request's packet, and the
    step a request takes before it is verified. *)

From S2P Require Import Prelude Nginx Text Dtls Hsm SessionFsm Jitter Session Rtcp Stun Pacer GopRing SendPath Registry Shm ShmInv ShmStep ShmProps ShmMedia Publish Request Stream StreamSafe.
From stdpp Require Import list gmap.
Import Text Hsm SessionFsm Session Stream StreamSafe.

#[local] Open Scope Z_scope.

Module StreamProps.

Section props.
Context {S C : Type} `{HS : Dtls.OpenSsl S, !Dtls.OpenSslLaws S} `{HL : Srtp.LibSrtp C, !Srtp.LibSrtpLaws C}.
Context (hmac : octets -> octets -> option octets) (tunables : ngx_rtc_tunables_t).
Context (report : unit -> ngx_rtc_hsm session_object unit unit ->
  ptr (ngx_rtc_hsm_event ngx_rtc_session_fsm_ctx_t) -> ngx_rtc_hsm session_object unit unit).
Context `{HC : Shm.Crc}.
Context {Q T : Type} `{HQ : Queues Registry.queue_id Registry.node Q, !QueueLaws Registry.queue_id Registry.node Q}.
Context `{HT : StrTree T, !StrTreeLaws T}.
Context {Q' T' : Type} `{HQ' : Queues Shm.queue_id Shm.node Q', !QueueLaws Shm.queue_id Shm.node Q'}.
Context `{HT' : StrTree T', !StrTreeLaws T'}.
Abbreviation session := (ngx_rtc_session_t (Srtp.ngx_rtc_srtp_t C)).
Abbreviation worker := (worker (S := S) (C := C) (Q := Q) (T := T) (Q' := Q') (T' := T')).
Abbreviation given := (given (S := S)).
Abbreviation worker_ok := (StreamSafe.worker_ok tunables).
Implicit Types (g : given) (w : worker) (x y c a : Z) (s t : session).
Abbreviation registry_of w := (Request.reg (host w)).
Abbreviation sessions_of w := (Registry.sessions (registry_of w)).
Abbreviation sources_of w := (Registry.sources (registry_of w)).

(** C12: A pass of the reaper ends, sets the timer again, keeps the worker well formed and reaps
    exactly: every session it leaves was there before, unchanged, and is not stale; every
    session that is neither stale nor asked to close by the control plane is left; and the
    connection of each one reaped is posted for finalization, when the module could allocate
    the event. *)
Theorem reaper_exact g (k : ngx_rtc_stream_srv_conf_t) w :
  reporter_logs report -> worker_ok w ->
  exists w', ngx_rtc_stream_reap_timer report g (Ref k) w = Ret (w', g_now g + ngx_rtc_stream_reap_interval (Ref k)) /\ worker_ok w' /\
    (forall x s, sessions_of w' !! x = Some s -> sessions_of w !! x = Some s /\ stale g k s = false) /\
    (forall x s, sessions_of w !! x = Some s -> stale g k s = false -> ~ kicked w s -> sessions_of w' !! x = Some s) /\
    (forall x s c, sessions_of w !! x = Some s -> sessions_of w' !! x = None -> conn s = Ref c -> g_close_event g = true ->
       c ∈ posted w').
Proof.
  intros Hlog Hw. pose proof (reap_timer_safe tunables report Hlog g k w Hw) as Hs.
  destruct (ngx_rtc_stream_reap_timer _ _ _ _) as [[w' t] |]; [| done]. destruct Hs as [[H1 H2 H3 H4 H5] Ht]. cbn in Ht. subst t.
  exists w'. split_and!; try done. intros x s Hx. destruct (H2 x s Hx) as [H6 H7]. split; [done |]. apply H7.
  apply (q_iff _ (Registry.ok_queues _ _ (wo_reg tunables w Hw))). by eapply Registry.ok_sess; [apply (wo_reg tunables w Hw) |].
Qed.

(** The reaper reads its timeouts through the server's configuration, which is NULL until some
    stream server was merged; with a session in the worker (the signalling handlers make them
    without a stream server) the first pass is a NULL dereference, although the cadence of
    the same timer falls back to a default. *)
Theorem reaper_without_server g w :
  worker_ok w -> (exists x, is_Some (sessions_of w !! x)) -> (forall x s, sessions_of w !! x = Some s -> ~ kicked w s) ->
  ngx_rtc_stream_reap_interval NULL = 2000 /\ ngx_rtc_stream_reap_timer report g NULL w = Fault.
Proof.
  intros Hw [x0 [s0 Hx0]] Hno. split; [done |]. unfold ngx_rtc_stream_reap_timer.
  destruct (expire_keeps tunables g w Hw) as (z & -> & Hz' & Hk). rewrite bind_Ret.
  set (w1 := set_zone z w). assert (Hw1 : worker_ok w1) by by apply set_zone_wok.
  pose proof (wo_reg tunables w Hw) as Hr.
  assert (Hin : Registry.queue x0 ∈ q_list Registry.ngx_rtc_sessions (Registry.queues (registry_of w))).
  { apply (q_iff _ (Registry.ok_queues _ _ Hr)). by eapply Registry.ok_sess. }
  unfold Registry.scan_fuel. change (registry_of w1) with (registry_of w).
  change (Registry.ngx_rtc_session_first (registry_of w))
    with (Registry.node_ptr (q_list Registry.ngx_rtc_sessions (Registry.queues (registry_of w)))).
  destruct (q_list Registry.ngx_rtc_sessions _) as [| n post] eqn:El; [by apply elem_of_nil in Hin |].
  destruct (Registry.listed Shm.ngx_crc32_long (registry_of w) n Hr) as (x & s & -> & Hs); [rewrite El; by left |].
  cbn [length reap_sessions Registry.node_ptr Registry.session_of].
  change (Registry.ngx_rtc_session_next (registry_of w1) (Ref x)) with (Registry.ngx_rtc_session_next (registry_of w) (Ref x)).
  rewrite (Registry.session_next_mid Shm.ngx_crc32_long (registry_of w) [] x post Hr El), bind_Ret, (session_at_in w1 x s Hs), bind_Ret.
  assert (Hkick : exists q, match Request.zone (host w1) with NULL => Ret 0 | Ref c => Shm.ngx_rtc_shm_session_is_close_requested c (ice_ufrag s) end
    = Ret q /\ q = 0).
  { pose proof (wo_zone tunables w1 Hw1) as Hzone. destruct (Request.zone (host w1)) as [| c] eqn:Ez; [by exists 0 |].
    destruct (close_requested_spec c (ice_ufrag s) (proj1 Hzone)) as (q & -> & Hq). exists q. split; [done |].
    destruct (Z.eq_dec q 0) as [| Hne]; [done |]. exfalso. apply (Hno x s Hs), Hk. destruct (Hq Hne) as (y & sk & Hy). by exists c, y, sk. }
  destruct Hkick as (q & -> & ->). rewrite bind_Ret. cbn [Z.eqb negb].
  destruct (so_fsm _ _ _ _ _ (wo_sess tunables w Hw x s Hs)) as (st & Hst & _). by rewrite (is_ready_rep _ st Hst), bind_Ret.
Qed.

(** C19: Closing a session takes away all of it and only it.  The call ends; the session and its
    DTLS part are freed and leave the session list, the other sessions and their DTLS parts are
    untouched; its connection no longer refers to it and is posted for finalization, the other
    connections and the wire are as they were.  Of the sources only the session's own can
    change: it gives up a WHIP right it holds, and it is freed exactly when it then publishes
    nothing, has no audio context and no other session refers to it.  The zone is what giving
    that right up leaves, less the session's skeleton if this worker owns it. *)
Theorem session_close_exact g x s ev w :
  reporter_logs report -> worker_ok w -> sessions_of w !! x = Some s ->
  exists w', ngx_rtc_stream_session_close report g x ev w = Ret w' /\ worker_ok w' /\
    sessions_of w' = delete x (sessions_of w) /\ media w' = delete x (media w) /\
    q_list Registry.ngx_rtc_sessions (Registry.queues (registry_of w'))
      = filter (fun n => n <> Registry.queue x) (q_list Registry.ngx_rtc_sessions (Registry.queues (registry_of w))) /\
    conns w' = match conn s with NULL => conns w | Ref c => <[c := NULL]> (conns w) end /\
    posted w' = posted w ++ match conn s with NULL => [] | Ref c => if g_close_event g then [c] else [] end /\
    (forall c, conns w' !! c <> Some (Ref x)) /\ wire w' = wire w /\
    (exists z, zone_gave_up g s w = Ret z /\ zone_forgot g s z = Ret (Request.zone (host w'))) /\
    match source s with
    | NULL => sources_of w' = sources_of w
    | Ref a => forall src, sources_of w !! a = Some src ->
        let idle := publishing (gave_up src) = 0 /\ audio_ctx src = NULL /\
          forall y t, y <> x -> sessions_of w !! y = Some t -> source t <> Ref a in
        (idle /\ sources_of w' = delete a (sources_of w)) \/
        (~ idle /\ sources_of w' = <[a := gave_up src]> (sources_of w))
    end.
Proof.
  intros Hlog Hw Hs. pose proof (session_close_safe tunables report Hlog g x s ev w Hw Hs) as Hc.
  destruct (ngx_rtc_stream_session_close _ _ _ _ _) as [w' |]; [| done]. destruct Hc as [H1 H2 H3 H4 H5 H6 H7 H8 H9 H10].
  exists w'. split_and!; try done.
  - intros c Hk. destruct (wo_ctx tunables w' H1 c x Hk) as (t & Ht & _). rewrite H2, lookup_delete_eq in Ht. discriminate Ht.
  - destruct (source s) as [| a]; [done |]. intros src Hsrc idle.
    assert (Hidle : Registry.unused_without (registry_of w) x a (gave_up src) <-> idle).
    { unfold idle, Registry.unused_without, Registry.held_by_other.
      assert (Ha : audio_ctx (gave_up src) = audio_ctx src) by (unfold gave_up; by destruct (_ =? _)). rewrite Ha.
      split; intros (I1 & I2 & I3); (split; [done |]); (split; [done |]).
      - intros y t Hne Ht Et. apply I3. by exists y, t.
      - intros (y & t & Hne & Ht & Et). by apply (I3 y t). }
    rewrite <- Hidle. by apply H10.
Qed.

(** C10: A known session changes hands only on proof of its password.  A Binding request that names
    it and is not authentic under its ice_pwd leaves the worker as it was.  An authentic one,
    whatever the session and the connection were bound to before, binds the two to each other
    and restarts the session's idle time; no other session or connection, no source, DTLS part
    or posted finalization changes, and the session keeps its identity.  The worker it leaves
    is well formed when neither had another partner and the connection was not about to be
    finalized. *)
Theorem stun_authenticates g c p (data : octets) ty tid l u ru x s w :
  let req := Stun.understood ty tid l in
  worker_ok w -> conns w !! c = Some p -> octets_ok data -> Stun.parse data = Some (ty, tid, l) ->
  Stun.has_username req <> 0 -> Stun.named req u ru ->
  Registry.ngx_rtc_session_find Shm.ngx_crc32_long (registry_of w) (Ref u) = Ref x -> sessions_of w !! x = Some s ->
  reporter_logs report -> (forall k b, exists mac, hmac k b = Some mac /\ zlen mac = 20 /\ octets_ok mac) ->
  128 <= zlen (s_resp g) ->
  exists w', ngx_rtc_stream_on_stun hmac tunables report g c data w = Ret w' /\
    (~ proven hmac data req s -> w' = w) /\
    (proven hmac data req s ->
       conns w' = <[c := Ref x]> (conns w) /\ posted w' = posted w /\ media w' = media w /\
       sources_of w' = sources_of w /\
       (exists s', sessions_of w' = <[x := s']> (sessions_of w) /\ conn s' = Ref c /\ last_active s' = g_now g /\
          SendPath.identity s' = SendPath.identity s /\ ice_pwd s' = ice_pwd s) /\
       (one_binding c w u -> worker_ok w')).
Proof.
  intros req Hw Hc Hd Ep Hun Hn Hf Hs Hlog Hsha1 Hr.
  unfold ngx_rtc_stream_on_stun. destruct (Stun.decode_exact (s_stun g) data Hd) as (stun & -> & _ & Hst). rewrite bind_Ret, Ep.
  rewrite (Hst ty tid l Ep). fold req. change (negb (Stun.code (Some (ty, tid, l)) =? 0)) with false. cbn [orb].
  destruct (Z.eqb_spec (Stun.has_username req) 0); [done |]. rewrite (Stun.nm_local _ _ _ Hn), bind_Ret, Hf, bind_Ret.
  destruct (so_fsm _ _ _ _ _ (wo_sess tunables w Hw x s Hs)) as (q & Hq & _).
  destruct (stun_request_exact hmac report Hlog Hsha1 g c p x s q data ty tid l w (wo_zone tunables w Hw) Hc Hs Hq Hd Ep Hun Hr)
    as [[Hno E] | (Hyes & f & z & k & E & Hz & Hm)]; fold req in E; rewrite E.
  - exists w. by split_and!.
  - eexists. split; [reflexivity |]. split; [done |]. intros _. split_and!; try done; [by exists (bound_session g c s f) |].
    intros [Hp Hone]. rewrite Hf in Hone. destruct Hone as [Hk Hcs]. apply (rebound_wok tunables g c x s q); try done. by apply Hcs.
Qed.

(** ** A session on two connections

    A request from another connection leaves the first one referring to the session.  Only the
    connection's entry tells that worker from one that let go of the first connection, and only
    the first step of closing a session looks at the connections. *)

Lemma set_posted_wok w : worker_ok w -> forall l, NoDup l -> (forall c, c ∈ l -> c ∈ posted w) -> worker_ok (set_posted l w).
Proof. intros [[H1 H2 H3] H4 H5 H6 H7 H8 H9 H10] l Hl Hin. split; try done. cbn. intros c Hc. by apply H9, Hin. Qed.

Lemma dispatch_conns x ev ctx k w :
  dispatch report x ev ctx (set_conns k w) = ('(o, w) ← dispatch report x ev ctx w; Ret (o, set_conns k w)).
Proof.
  unfold dispatch. change (session_at (set_conns k w) x) with (session_at w x). destruct (session_at w x) as [s |]; [| done]. rewrite !bind_Ret.
  destruct (ngx_rtc_session_fsm_dispatch_ctx _ _ _ _) as [[o p] |]; [| done]. rewrite !bind_Ret. by destruct p.
Qed.

Lemma release_conns g x k w : release_publish g x (set_conns k w) = (w ← release_publish g x w; Ret (set_conns k w)).
Proof.
  unfold release_publish. change (session_at (set_conns k w) x) with (session_at w x). destruct (session_at w x) as [s |]; [| done]. rewrite !bind_Ret.
  destruct (source s) as [| a]; [done |]. change (source_at (set_conns k w) a) with (source_at w a). destruct (source_at w a) as [src |]; [| done].
  rewrite !bind_Ret. destruct (_ =? _); [| done]. change (host (set_conns k w)) with (host w). by destruct (Request.release _ _ _).
Qed.

Lemma close_conns g x ev k w v v1 :
  detach g x w = Ret v1 -> detach g x v = Ret (set_conns k v1) ->
  ngx_rtc_stream_session_close report g x ev v = (w ← ngx_rtc_stream_session_close report g x ev w; Ret (set_conns k w)).
Proof.
  intros E1 E2. unfold ngx_rtc_stream_session_close. rewrite E1, E2, !bind_Ret, dispatch_conns.
  destruct (dispatch _ _ _ _ _) as [[o w2] |]; [rewrite !bind_Ret, release_conns | done].
  destruct (release_publish g x w2) as [w3 |]; [rewrite !bind_Ret | done].
  change (session_at (set_conns k w3) x) with (session_at w3 x). destruct (session_at w3 x) as [s |]; [rewrite !bind_Ret | done].
  change (host (set_conns k w3)) with (host w3). destruct (Registry.session_drop _ _ _) as [r |]; [rewrite !bind_Ret | done]. cbv zeta.
  change (Request.zone (host (set_registry r (set_conns k w3)))) with (Request.zone (host w3)).
  change (Request.zone (host (set_registry r w3))) with (Request.zone (host w3)).
  destruct (Request.zone (host w3)) as [| z]; [done |]. by destruct (Shm.ngx_rtc_shm_session_remove_if_owner _ _ _ _).
Qed.

Lemma put_twice x s t w : put_session x t (put_session x s w) = put_session x t w.
Proof.
  destruct w as [[[] ?] ? ? ? ?]. unfold put_session, Registry.put_session, set_registry, Registry.set_sessions. cbn. by rewrite insert_insert_eq.
Qed.

(** The worker of a rebound session, had the session let go of the connection it was on. *)
Lemma rebound_let_go g c d x s q f (z : ptr _) k w :
  worker_ok w -> conns w !! c = Some NULL -> (c ∉ posted w) -> sessions_of w !! x = Some s -> conn s = Ref d -> zone_ok z ->
  fsm_rep (fsm s) q -> fsm_rep f (flat_step q NGX_RTC_SESSION_EVT_STUN_BINDING stun_ctx).2 ->
  let v := rebound g c x s f z k w in worker_ok (set_conns (<[d := NULL]> (conns v)) v).
Proof.
  intros Hw Hc Hp Hs Hd Hz Hq Hf v. destruct (detach_spec tunables g x s w Hw Hs) as [_ Hdet].
  assert (Hne : c <> d) by (intros <-; pose proof (so_conn _ _ _ _ _ (wo_sess tunables w Hw x s Hs) c Hd); congruence).
  set (s0 := set_conn NULL s). set (w0 := set_posted (posted w) (detached g x s w)).
  assert (Hw0 : worker_ok w0).
  { apply (set_posted_wok _ Hdet); [apply (wo_once tunables w Hw) |]. intros e He. cbn. apply elem_of_app. by left. }
  assert (E : set_conns (<[d := NULL]> (conns v)) v = rebound g c x s0 f z k w0).
  { assert (Ec : conns w0 = <[d := NULL]> (conns w)) by (unfold w0, detached, unbound; cbn; by rewrite Hd).
    assert (Eb : bound_session g c s0 f = bound_session g c s f) by by destruct s.
    unfold rebound. rewrite Ec, Eb, (insert_insert_ne (conns w)) by done. unfold v, rebound. set (b := bound_session g c s f).
    destruct w as [[[qs so se ix] zn] me co po wi]. unfold w0, detached, put_session, Registry.put_session, set_registry, Registry.set_sessions. cbn.
    by rewrite insert_insert_eq. }
  rewrite E. apply (rebound_wok tunables g c x s0 q); try done.
  - cbn. by rewrite lookup_insert_eq.
  - left. cbn. unfold unbound. rewrite Hd, lookup_insert_ne by done. exact Hc.
  - by left.
Qed.

(** Closing such a session leaves the connection it did not let go of. *)
Lemma rebound_close g c d x s q f (z : ptr _) k w g' ev :
  reporter_logs report ->
  worker_ok w -> conns w !! c = Some NULL -> (c ∉ posted w) -> sessions_of w !! x = Some s -> conn s = Ref d -> zone_ok z ->
  fsm_rep (fsm s) q -> fsm_rep f (flat_step q NGX_RTC_SESSION_EVT_STUN_BINDING stun_ctx).2 ->
  exists w', ngx_rtc_stream_session_close report g' x ev (rebound g c x s f z k w) = Ret w' /\
    sessions_of w' = delete x (sessions_of w) /\ conns w' = <[c := NULL]> (conns w).
Proof.
  intros Hlog Hw Hc Hp Hs Hd Hz Hq Hf. pose proof (rebound_let_go g c d x s q f z k w Hw Hc Hp Hs Hd Hz Hq Hf) as Hv. cbv zeta in Hv.
  set (v := rebound g c x s f z k w) in *. set (v0 := set_conns _ v) in *. set (s' := bound_session g c s f).
  assert (Hs0 : sessions_of v0 !! x = Some s') by (cbn; by rewrite lookup_insert_eq).
  destruct (detach_spec tunables g' x s' v0 Hv Hs0) as [E0 _].
  pose proof (session_close_safe tunables report Hlog g' x s' ev v0 Hv Hs0) as Hcl.
  set (k' := <[c := NULL]> (conns v)).
  assert (E1 : detach g' x v = Ret (set_conns k' (detached g' x s' v0))).
  { unfold detach. rewrite (session_at_in v x s') by apply put_same. rewrite bind_Ret. change (conn s') with (Ref c). cbv iota zeta.
    unfold set_ctx. rewrite (ctx_in _ c (Ref x)) by (cbn; by rewrite lookup_insert_eq). rewrite !bind_Ret.
    unfold detached, finalizing, k'. change (conn s') with (Ref c). by destruct (g_close_event g'); cbn; rewrite ?app_nil_r. }
  rewrite (close_conns g' x ev k' v0 v _ E0 E1). destruct (ngx_rtc_stream_session_close _ _ _ _ v0) as [w' |]; [| done].
  rewrite bind_Ret. eexists. split; [reflexivity |]. split.
  - cbn. rewrite (cl_sessions _ _ _ _ _ _ Hcl). cbn. by rewrite delete_insert_eq.
  - cbn. unfold k'. cbn. by rewrite insert_insert_eq.
Qed.

(** C31: The keyframe request writes past its packet: the PLI is built in sixteen octets of the stack
    and protected there, and libsrtp appends the four octets of the index and a tag of ten to
    its twelve.  So on every worker whose live source has a publisher with a sending
    context the request that is due is a bad access. *)
Theorem keyframe_request_overflows g a src w :
  worker_ok w -> sources_of w !! a = Some src -> publishing src <> 0 -> pli_sent_ms src = 0 -> zlen (s_pkt g) = 16 ->
  (exists y t, sessions_of w !! y = Some t /\ source t = Ref a /\ sess_publishing t <> 0) ->
  (forall y t, sessions_of w !! y = Some t -> source t = Ref a -> sess_publishing t <> 0 ->
     exists k, Srtp.send_ctx (srtp t) = Ref k /\ forall p, (Srtp.srtp_protect_rtcp k p).1.1 = true) ->
  ngx_rtc_stream_request_keyframe g a w = Fault.
Proof.
  intros Hw Hsrc Hpub Hdue H16 (y0 & t0 & Hy0 & Ha0 & Hp0) Hctx. unfold ngx_rtc_stream_request_keyframe.
  rewrite (source_at_in w a src Hsrc), bind_Ret. destruct (Z.eqb_spec (publishing src) 0); [done |]. rewrite Hdue. cbn [Z.eqb negb andb].
  set (p := fun t : session => Registry.points_to a t && negb (sess_publishing t =? 0)).
  destruct (Registry.session_scan_all Shm.ngx_crc32_long (registry_of w) p (wo_reg tunables w Hw)) as [[_ Hno] | (y & t & -> & Hy & Hp)].
  { specialize (Hno y0 t0 Hy0). unfold p in Hno. rewrite (proj2 (Registry.points_to_spec a t0) Ha0) in Hno.
    destruct (Z.eqb_spec (sess_publishing t0) 0); done. }
  rewrite bind_Ret. apply andb_prop in Hp as [Hpa Hp]. apply Registry.points_to_spec in Hpa.
  destruct (Hctx y t Hy Hpa) as (k & Ek & Hok); [by destruct (Z.eqb_spec (sess_publishing t) 0) |].
  rewrite (session_at_in w y t Hy), bind_Ret, Rtcp.encode_pli_wire, bind_Ret by lia.
  change (negb (NGX_RTC_OK =? NGX_RTC_OK)) with false. cbv iota. set (b := Rtcp.pli_wire _ _ ++ _).
  assert (Hpl : zlen (Rtcp.pli_wire NGX_RTC_PLI_SENDER_SSRC (video_ssrc src)) = 12) by done.
  assert (Hb : zlen b = 16) by (unfold b; rewrite zlen_app, zlen_zdrop; lia).
  rewrite (load_range_in b 0 12), bind_Ret, zdrop_0 by lia. unfold Srtp.ngx_rtc_srtp_protect_rtcp, Srtp.in_place. rewrite Ek.
  pose proof (Srtp.srtcp_size_law k (ztake 12 b)) as Hl. specialize (Hok (ztake 12 b)).
  destruct (Srtp.srtp_protect_rtcp k (ztake 12 b)) as [[ok q] k']. cbn in Hok. subst ok. cbv iota in Hl |- *.
  rewrite zlen_ztake in Hl by lia.
  assert (Ef : store_range b 0 q = Fault); [| by rewrite Ef].
  destruct (store_range b 0 q) as [b' |] eqn:E; [| done]. exfalso. revert E. unfold store_range. destruct (_ && _) eqn:Eb; [| done]. lia.
Qed.
End props.

(** ** A worker *)

#[local] Existing Instances ShmProps.demo_crc Srtp.demo_ssl Srtp.demo_ssl_laws Srtp.demo_srtp Srtp.demo_srtp_laws.

#[local] Abbreviation worker_ok := (StreamSafe.worker_ok ngx_rtc_default_tunables).
Abbreviation demo_worker := (worker (S := Z) (C := octets) (Q := Nginx.queues Registry.queue_id Registry.node) (T := list (key * Z))
  (Q' := Nginx.queues Shm.queue_id Shm.node) (T' := list (key * Z))).

(** A source another worker's publisher feeds, and a viewer signalled there; or a publisher. *)
Definition signalled (pub : Z) : Shm.offer :=
  {| Shm.o_ufrag := lit "alice"; Shm.o_pwd := Stun.demo_pwd; Shm.o_name := ShmProps.live; Shm.o_video_pt := 102; Shm.o_audio_pt := 111;
     Shm.o_twcc_video_ext := 3; Shm.o_twcc_audio_ext := 4; Shm.o_publishing := pub |}.
Definition demo_zone (pub : Z) :=
  ShmStep.final (ShmProps.published ++ [(1500, ShmStep.SessionAdd (Ref 2) NULL (signalled pub))]) ShmProps.demo_zone.

(** Two connections, 5 and 6. *)
Definition demo_start (pub : Z) : demo_worker :=
  {| host := {| Request.reg := Registry.start_registry (Srtp := Srtp.ngx_rtc_srtp_t octets) (T := list (key * Z)) Registry.demo_queues;
                Request.zone := Ref (demo_zone pub) |};
     media := empty; conns := <[5 := NULL]> {[6 := NULL]}; posted := []; wire := [] |}.

Definition demo_given (t : Z) : given (S := Z) :=
  {| g_now := t; g_slot := 1; g_session := Ref 21; g_source := Ref 31;
     g_zone_source := {| Publish.s_alloc := Ref 41; Publish.s_retry := NULL; Publish.s_v := 7; Publish.s_a := 8 |};
     g_event := true; g_ring := true; g_retx := true; g_close_event := true; g_copy := true; g_ssl_ctx := true; g_ssl := Ref 0; g_bio_in := Ref tt; g_bio_out := Ref tt;
     g_srtp := (true, true); g_addr := 3221225991; g_port := 4000; g_socket := zlen; s_stun := Stun.zero_stun; s_resp := zeros 512;
     s_recv_key := zeros 30; s_send_key := zeros 30; s_pkt := zeros 16; s_seqs := replicate 512 0;
     s_scratch := zeros 1500 |}.

Definition stun g c (d : octets) (w : demo_worker) : outcome demo_worker :=
  ngx_rtc_stream_on_stun Stun.demo_hmac ngx_rtc_default_tunables Request.no_report g c d w.
Definition record_in g c p (d : octets) (w : demo_worker) : outcome demo_worker :=
  ngx_rtc_stream_on_dtls ngx_rtc_default_tunables Request.no_report g c p d w.

Definition else_start (pub : Z) (o : outcome demo_worker) : demo_worker := match o with Ret w => w | Fault => demo_start pub end.
Definition bound (pub : Z) : demo_worker := else_start pub (stun (demo_given 2000) 5 Stun.demo_datagram (demo_start pub)).
Definition record : octets := [22; 254; 253; 0; 0; 0; 0; 0; 0; 0; 0; 0; 1; 1].
Definition greeted (pub : Z) : demo_worker := else_start pub (record_in (demo_given 2100) 5 (Ref 21) record (bound pub)).
Definition ready (pub : Z) : demo_worker := else_start pub (record_in (demo_given 2200) 5 (Ref 21) record (greeted pub)).

Lemma demo_zone_ok pub : pub = 0 \/ pub = 1 -> ShmInv.shm_inv (demo_zone pub) /\ rings_ok (demo_zone pub).
Proof.
  intros Hp. split; [apply Request.demo_zone_inv; by destruct Hp as [-> | ->]; vm_compute |]. intros a t Ht. exists []. split; [done |].
  assert (Hn : forallb (fun p => is_null (Shm.retransmit p.2)) (map_to_list (Shm.sources (demo_zone pub))) = true)
    by by destruct Hp as [-> | ->]; vm_compute.
  rewrite forallb_forall in Hn. apply elem_of_map_to_list, list_elem_of_In, Hn in Ht. cbn in Ht. by destruct (Shm.retransmit t).
Qed.

Lemma demo_start_ok pub : pub = 0 \/ pub = 1 -> worker_ok (demo_start pub).
Proof.
  intros Hp. destruct (demo_zone_ok pub Hp) as [Hz Hr]. split; try done.
  - split; cbn; [apply (Registry.start_ok _ _ Registry.demo_queues_ok Registry.demo_queues_off) | | done].
    intros a t Ha. by rewrite lookup_empty in Ha.
  - intros c x. cbn. by intros [[_ [=]] | [_ [_ [=]]%lookup_singleton_Some]]%lookup_insert_Some.
  - intros c Hc. by apply elem_of_nil in Hc.
  - constructor.
Qed.

Lemma demo_logs : reporter_logs Request.no_report.
Proof. by intros o k ev. Qed.

Lemma demo_hmac_ok : forall k b, exists mac, Stun.demo_hmac k b = Some mac /\ zlen mac = 20 /\ octets_ok mac.
Proof.
  intros k b. eexists. split; [reflexivity |]. split; [by rewrite zlen_app, zlen_be_enc |].
  apply Forall_app. split; [apply be_enc_ok | by repeat constructor].
Qed.

Lemma demo_parse : Stun.parse Stun.demo_datagram = Some (1, Stun.demo_tid, Stun.demo_request).
Proof. by vm_compute. Qed.

Lemma demo_names u : names Stun.demo_datagram u -> u = lit "alice".
Proof.
  intros (ty & tid & l & ru & Hp & Hn). rewrite demo_parse in Hp. injection Hp as <- <- <-.
  pose proof (Stun.nm_local _ _ _ Hn) as Hl. vm_compute in Hl. by injection Hl as <-.
Qed.

Lemma demo_attach t pub : pub = 0 \/ pub = 1 -> attach_grants (demo_given t) (demo_start pub).
Proof.
  intros Hpub. split; [done |]. split; [done |]. intros z u rc out z' [= <-] Eb. split; [| done].
  destruct (bind_spec (demo_zone pub) u 1) as (rc2 & out2 & z2 & E & _ & Eso & _); [by apply demo_zone_ok |].
  assert (z2 = z') as -> by (change (g_slot (demo_given t)) with 1 in Eb; rewrite E in Eb; by injection Eb).
  rewrite Eso. intros a [= <-]. by destruct Hpub as [-> | ->]; vm_compute.
Qed.

Lemma bound_ok pub : pub = 0 \/ pub = 1 ->
  stun (demo_given 2000) 5 Stun.demo_datagram (demo_start pub) = Ret (bound pub) /\ worker_ok (bound pub).
Proof.
  intros Hpub. assert (Hs : safe worker_ok (stun (demo_given 2000) 5 Stun.demo_datagram (demo_start pub))).
  { eapply safe_mono; [| apply (on_stun_safe _ ngx_rtc_default_tunables _ demo_logs demo_hmac_ok _ _ NULL);
      [by apply demo_start_ok | done | exact Stun.demo_datagram_ok | done | by apply demo_attach]].
    intros w' [Hok | (x & _ & _ & [Hp | [[y [=]] | (t & d & Ht & _)]])]; [done | by apply elem_of_nil in Hp |].
    cbn in Ht. by rewrite lookup_empty in Ht. }
  unfold bound. destruct (stun _ _ _ _) as [w |]; [by split | done].
Qed.

(** The worker has the one session. *)
Definition alone (w : demo_worker) : bool := forallb (fun p => p.1 =? 21) (map_to_list (Registry.sessions (Request.reg (host w)))).

Lemma record_ok t w w' : worker_ok w -> conns w !! 5 = Some (Ref 21) ->
  record_in (demo_given t) 5 (Ref 21) record w = Ret w' -> worker_ok w'.
Proof.
  intros Hw Hc E.
  pose proof (on_dtls_safe ngx_rtc_default_tunables Request.no_report demo_logs (demo_given t) 5 (Ref 21) record w Hw Hc) as Hs.
  unfold record_in in E. rewrite E in Hs. by apply Hs.
Qed.

Lemma ready_ok pub : pub = 0 \/ pub = 1 -> worker_ok (ready pub).
Proof.
  intros Hp. assert (Hg : worker_ok (greeted pub)).
  { apply (record_ok 2100 (bound pub)); [by apply bound_ok | by destruct Hp as [-> | ->]; vm_compute |].
    destruct Hp as [-> | ->]; by vm_compute. }
  apply (record_ok 2200 (greeted pub)); [done | by destruct Hp as [-> | ->]; vm_compute |].
  destruct Hp as [-> | ->]; by vm_compute.
Qed.

Lemma field {A B} (f : A -> B) (o : option A) x v : o = Some x -> f <$> o = Some v -> f x = v.
Proof. intros ->. by intros [= <-]. Qed.

Definition demo_conf : ngx_rtc_stream_srv_conf_t := {| rtc := 1; handshake_timeout := 15000; ready_timeout := 30000; reap_interval := 2000 |}.
Definition reap g (w : demo_worker) : outcome demo_worker :=
  '(w, _) ← ngx_rtc_stream_reap_timer Request.no_report g (Ref demo_conf) w; Ret w.

Lemma not_kicked pub : pub = 0 \/ pub = 1 -> forall s, ~ kicked (ready pub) s.
Proof.
  intros Hp s (z & y & sk & Ez & Hy & _ & Hk).
  assert (Hall : match Request.zone (host (ready pub)) with Ref z => forallb (fun p => Shm.close_requested p.2 =? 0) (map_to_list (Shm.sessions z)) | NULL => true end = true)
    by by destruct Hp as [-> | ->]; vm_compute.
  rewrite Ez, forallb_forall in Hall. apply elem_of_map_to_list, list_elem_of_In, Hall in Hy. cbn in Hy. lia.
Qed.

Lemma reaper_exact_witness :
  (exists w', reap (demo_given 40000) (ready 0) = Ret w' /\ Registry.sessions (Request.reg (host w')) !! 21 = None /\ 5 ∈ posted w') /\
  (exists w', reap (demo_given 17500) (ready 0) = Ret w' /\ is_Some (Registry.sessions (Request.reg (host w')) !! 21)).
Proof.
  destruct (Registry.sessions (Request.reg (host (ready 0))) !! 21) as [s |] eqn:Es; [| vm_compute in Es; discriminate Es].
  split.
  - destruct (reaper_exact ngx_rtc_default_tunables Request.no_report (demo_given 40000) demo_conf (ready 0) demo_logs (ready_ok 0 (or_introl eq_refl)))
      as (w' & E & _ & H1 & _ & H3).
    exists w'. split; [unfold reap; by rewrite E |]. assert (Hn : Registry.sessions (Request.reg (host w')) !! 21 = None).
    { destruct (Registry.sessions (Request.reg (host w')) !! 21) as [t |] eqn:Et; [| done].
      destruct (H1 21 t Et) as [Ht Hst]. assert (Hs : stale (demo_given 40000) demo_conf t = true)
        by exact (field (stale (demo_given 40000) demo_conf) _ _ true Ht ltac:(by vm_compute)). rewrite Hs in Hst. discriminate Hst. }
    split; [exact Hn |]. apply (H3 21 s 5 Es Hn); [exact (field conn _ _ (Ref 5) Es ltac:(by vm_compute)) | reflexivity].
  - destruct (reaper_exact ngx_rtc_default_tunables Request.no_report (demo_given 17500) demo_conf (ready 0) demo_logs (ready_ok 0 (or_introl eq_refl)))
      as (w' & E & _ & _ & H2 & _).
    exists w'. split; [unfold reap; by rewrite E |]. exists s. apply H2; [exact Es | exact (field (stale (demo_given 17500) demo_conf) _ _ false Es ltac:(by vm_compute)) |].
    by apply not_kicked; left.
Defined.

Lemma reaper_without_server_witness :
  ngx_rtc_stream_reap_interval NULL = 2000 /\ ngx_rtc_stream_reap_timer Request.no_report (demo_given 3000) NULL (ready 0) = Fault.
Proof.
  apply (reaper_without_server ngx_rtc_default_tunables Request.no_report (demo_given 3000) (ready 0) (ready_ok 0 (or_introl eq_refl))).
  - exists 21. by vm_compute; eexists.
  - intros x s _. by apply not_kicked; left.
Defined.

Lemma session_close_exact_witness :
  exists w', ngx_rtc_stream_session_close Request.no_report (demo_given 3000) 21 NGX_RTC_SESSION_EVT_CLOSE (ready 0) = Ret w' /\
    conns w' !! 5 = Some NULL /\ posted w' = [5].
Proof.
  destruct (Registry.sessions (Request.reg (host (ready 0))) !! 21) as [s |] eqn:Es; [| vm_compute in Es; discriminate Es].
  destruct (session_close_exact ngx_rtc_default_tunables Request.no_report (demo_given 3000) 21 s NGX_RTC_SESSION_EVT_CLOSE (ready 0) demo_logs
    (ready_ok 0 (or_introl eq_refl)) Es) as (w' & E & _ & _ & _ & _ & H1 & H2 & _ & _ & _).
  exists w'. split; [exact E |]. rewrite H1, H2. rewrite (field conn _ _ (Ref 5) Es) by by vm_compute. split; by vm_compute.
Defined.

(** The session's request, from connection 6 now. *)
Lemma demo_proven s : Registry.sessions (Request.reg (host (ready 0))) !! 21 = Some s ->
  proven Stun.demo_hmac Stun.demo_datagram (Stun.understood 1 Stun.demo_tid Stun.demo_request) s.
Proof.
  intros Es. split; [by vm_compute |].
  assert (Hp : ice_pwd s = Stun.demo_pwd) by exact (field ice_pwd _ _ Stun.demo_pwd Es ltac:(by vm_compute)). rewrite Hp.
  split; [by vm_compute |]. unfold Stun.authentic. split_and!; vm_compute; try reflexivity; try discriminate.
Qed.

Lemma demo_named : exists ru, Stun.named (Stun.understood 1 Stun.demo_tid Stun.demo_request) (lit "alice") ru.
Proof.
  destruct (Stun.understood_named Stun.demo_datagram 1 Stun.demo_tid Stun.demo_request Stun.demo_datagram_ok demo_parse) as (u & ru & Hn).
  assert (Hu : u = lit "alice")
    by (apply demo_names; exists 1, Stun.demo_tid, Stun.demo_request, ru; split; [exact demo_parse | exact Hn]). exists ru. by rewrite <- Hu.
Qed.

Lemma stun_authenticates_witness :
  exists w' s', stun (demo_given 3000) 6 Stun.demo_datagram (ready 0) = Ret w' /\ conns w' !! 6 = Some (Ref 21) /\
    Registry.sessions (Request.reg (host w')) !! 21 = Some s' /\ conn s' = Ref 6 /\ last_active s' = 3000.
Proof.
  destruct (Registry.sessions (Request.reg (host (ready 0))) !! 21) as [s |] eqn:Es; [| vm_compute in Es; discriminate Es].
  destruct demo_named as [ru Hn].
  destruct (stun_authenticates Stun.demo_hmac ngx_rtc_default_tunables Request.no_report (demo_given 3000) 6 NULL Stun.demo_datagram
    1 Stun.demo_tid Stun.demo_request (lit "alice") ru 21 s (ready 0) (ready_ok 0 (or_introl eq_refl)))
    as (w' & E & _ & Hyes); [by vm_compute | exact Stun.demo_datagram_ok | exact demo_parse | by vm_compute | exact Hn | by vm_compute | exact Es |
      exact demo_logs | exact demo_hmac_ok | by vm_compute |].
  destruct (Hyes (demo_proven s Es)) as (Hc & _ & _ & _ & (s' & Hs' & Hcn & Ha & _) & _).
  exists w', s'. rewrite Hc, Hs', !lookup_insert_eq. split_and!; [exact E | reflexivity | reflexivity | exact Hcn | exact Ha].
Defined.

Lemma keyframe_request_overflows_witness :
  ngx_rtc_stream_request_keyframe (demo_given 3000) 31 (ready 1) = Fault.
Proof.
  destruct (Registry.sources (Request.reg (host (ready 1))) !! 31) as [src |] eqn:Ea; [| vm_compute in Ea; discriminate Ea].
  destruct (Registry.sessions (Request.reg (host (ready 1))) !! 21) as [s |] eqn:Es; [| vm_compute in Es; discriminate Es].
  assert (Hal : alone (ready 1) = true) by by vm_compute. unfold alone in Hal. rewrite forallb_forall in Hal.
  apply (keyframe_request_overflows ngx_rtc_default_tunables (demo_given 3000) 31 src (ready 1) (ready_ok 1 (or_intror eq_refl)) Ea).
  - rewrite (field publishing _ _ 1 Ea); [discriminate | by vm_compute].
  - by rewrite (field pli_sent_ms _ _ 0 Ea); [| vm_compute].
  - reflexivity.
  - exists 21, s. split; [exact Es |]. split; [exact (field source _ _ (Ref 31) Es ltac:(by vm_compute)) |].
    rewrite (field sess_publishing _ _ 1 Es); [discriminate | by vm_compute].
  - intros y t Ht _ _. assert (Hy : y = 21).
    { pose proof Ht as Hin. apply elem_of_map_to_list, list_elem_of_In, Hal in Hin. cbn in Hin. lia. }
    rewrite Hy, Es in Ht. injection Ht as <-. eexists. split; [eapply (field (fun s => Srtp.send_ctx (srtp s)) _ _ _ Es); vm_compute; reflexivity |].
    intros p. reflexivity.
Defined.

(** ** A step a request takes too early *)

(** The request without a valid MESSAGE-INTEGRITY. *)
Definition forged : octets := Stun.message 1 Stun.demo_tid (Stun.demo_attrs ++ [(Stun.NGX_RTC_STUN_ATTR_MESSAGE_INTEGRITY, zeros 20)]).

(** A worker takes over a session signalled elsewhere before it verifies the request: a forged
    Binding request that only names the ufrag registers a session in the worker it reaches and
    makes that worker the owner of the skeleton, so the worker the viewer's own request
    reaches is refused. *)
Theorem unverified_request_attaches :
  exists w1 z s sk, stun (demo_given 2000) 5 forged (demo_start 0) = Ret w1 /\
    Registry.sessions (Request.reg (host (demo_start 0))) = empty /\
    Registry.sessions (Request.reg (host w1)) !! 21 = Some s /\ ice_ufrag s = lit "alice" /\ conn s = NULL /\
    Request.zone (host w1) = Ref z /\ Shm.sessions z !! 2 = Some sk /\ Shm.owner_slot sk = 1 /\
    Shm.ngx_rtc_shm_session_bind (demo_zone 0) (lit "alice") 0 <> Ret (Shm.NGX_DECLINED, None, demo_zone 0) /\
    Shm.ngx_rtc_shm_session_bind z (lit "alice") 0 = Ret (Shm.NGX_DECLINED, None, z).
Proof.
  set (w1 := else_start 0 (stun (demo_given 2000) 5 forged (demo_start 0))). exists w1.
  destruct (Registry.sessions (Request.reg (host w1)) !! 21) as [s |] eqn:Es; [| vm_compute in Es; discriminate Es].
  destruct (Request.zone (host w1)) as [| z] eqn:Ez; [vm_compute in Ez; discriminate Ez |].
  destruct (Shm.sessions z !! 2) as [sk |] eqn:Esk.
  2: { exfalso. assert (Hn : match Request.zone (host w1) with Ref z => is_null (match Shm.sessions z !! 2 with Some _ => Ref tt | None => NULL end) | NULL => true end = false) by by vm_compute.
       rewrite Ez, Esk in Hn. discriminate Hn. }
  exists z, s, sk. split; [by vm_compute |]. split; [reflexivity |]. split; [first [exact Es | reflexivity] |].
  split; [exact (field ice_ufrag _ _ (lit "alice") Es ltac:(by vm_compute)) |]. split; [exact (field conn _ _ NULL Es ltac:(by vm_compute)) |].
  split; [first [exact Ez | reflexivity] |]. split; [exact Esk |].
  assert (Hz : z = match Request.zone (host w1) with Ref z => z | NULL => demo_zone 0 end) by by rewrite Ez.
  split; [| split; [vm_compute; discriminate | rewrite Hz; by vm_compute]].
  rewrite Hz in Esk. exact (field Shm.owner_slot _ _ 1 Esk ltac:(by vm_compute)).
Qed.
End StreamProps.
