(* ===== verification/StreamRun.v ===== *)
(** A worker over its whole life: the datagrams of its connections, its timers, the packets the
    other workers leave it and what those workers do to the zone, in any order.  Each runs to
    its end and keeps the worker well formed, or is one of the hazards listed here;
    [stale_context_used_after_free] shows where one of them, the take-over, leads. *)

From S2P Require Import Prelude Nginx Text Dtls Hsm SessionFsm Jitter Session Rtp Rtcp Stun Pacer GopRing SendPath Nack Retransmit Registry Shm ShmInv ShmStep ShmProps ShmRing ShmMedia Publish Broadcast Request Stream StreamMedia StreamSafe StreamMediaSafe StreamProps.
From stdpp Require Import list gmap.
Import Text Hsm SessionFsm Session Stream StreamMedia StreamSafe StreamMediaSafe.

#[local] Open Scope Z_scope.

Module StreamRun.

Section run.
Context {S C : Type} `{HS : Dtls.OpenSsl S, !Dtls.OpenSslLaws S} `{HL : Srtp.LibSrtp C, !Srtp.LibSrtpLaws C}.
Context (hmac : octets -> octets -> option octets) (tunables : ngx_rtc_tunables_t).
Context (report : unit -> ngx_rtc_hsm session_object unit unit ->
  ptr (ngx_rtc_hsm_event ngx_rtc_session_fsm_ctx_t) -> ngx_rtc_hsm session_object unit unit).
Context `{HC : Shm.Crc}.
Context {Q T : Type} `{HQ : Queues Registry.queue_id Registry.node Q, !QueueLaws Registry.queue_id Registry.node Q}.
Context `{HT : StrTree T, !StrTreeLaws T}.
Context {Q' T' : Type} `{HQ' : Queues Shm.queue_id Shm.node Q', !QueueLaws Shm.queue_id Shm.node Q'}.
Context `{HT' : StrTree T', !StrTreeLaws T'}.
Abbreviation session := (ngx_rtc_session_t (Srtp.ngx_rtc_srtp_t C)).
Abbreviation shm := (Shm.ngx_rtc_shm_ctx_t (Q := Q') (T := T')).
Abbreviation worker := (worker (S := S) (C := C) (Q := Q) (T := T) (Q' := Q') (T' := T')).
Abbreviation given := (given (S := S)).
Abbreviation slots := (list (Broadcast.slot unit)).
Abbreviation registry_of w := (Request.reg (host w)).
Abbreviation sessions_of w := (Registry.sessions (registry_of w)).
Abbreviation sources_of w := (Registry.sources (registry_of w)).
Abbreviation worker_ok := (StreamSafe.worker_ok tunables).
Abbreviation slots_ready := (StreamMediaSafe.slots_ready (S := S)).
Implicit Types (g : given) (w : worker) (x y c a : Z) (s t : session) (rs : slots) (k : shm).

(** What happens to a worker: a connection of the stream server opens, a datagram arrives on one,
    the DTLS timer of a session or the reaper's fires, a posted event finalizes a connection,
    the other workers ring, or they change the zone and the rings. *)
Inductive event :=
  | Connect c
  | Datagram g c (data : octets)
  | Alarm g x
  | Finalize
  | Reap g (conf : ngx_rtc_stream_srv_conf_t)
  | Ring g
  | Elsewhere (z : ptr shm) rs.

Definition step (e : event) (p : worker * slots) : outcome (worker * slots) :=
  let '(w, rs) := p in
  match e with
  | Connect c => Ret (set_conns (<[c := NULL]> (conns w)) w, rs)
  | Datagram g c data => ngx_rtc_stream_handler hmac tunables report g c data w rs
  | Alarm g x => w ← ngx_rtc_stream_dtls_timer tunables report g x w; Ret (w, rs)
  | Finalize => Ret (ngx_rtc_stream_close_ev_handler w, rs)
  | Reap g conf => '(w, _) ← ngx_rtc_stream_reap_timer report g (Ref conf) w; Ret (w, rs)
  | Ring g => notified tunables g w rs
  | Elsewhere z rs => Ret (set_zone z w, rs)
  end.

Fixpoint run (l : list event) (p : worker * slots) : outcome (worker * slots) :=
  match l with [] => Ret p | e :: l => p ← step e p; run l p end.

(** What the rest of the program and the system promise of an event, whatever the peer sends: a
    datagram is octets, comes on an open connection and finds the arrays as they are declared
    (the keyframe request's has at least its twelve octets), memory the allocators grant is
    free, and no ring of the zone is 260 packets short of its 2^64th; a timer is a session's;
    the other workers leave the zone and the slots well formed. *)
Record datagram_env g c (data : octets) w rs : Prop := {
  de_open : is_Some (conns w !! c);
  de_octets : octets_ok data;
  de_size : zlen data <= 65535;
  de_arrays : arrays_ok g /\ scratch_ok g;
  de_slot : 0 <= g_slot g < zlen rs;
  de_attach : classify data = Ret STUN -> attach_grants g w;
  de_rings : rings_within 260 (Request.zone (host w))
}.

Definition event_env (e : event) (p : worker * slots) : Prop :=
  let '(w, rs) := p in
  match e with
  | Connect c => conns w !! c = None
  | Datagram g c data => datagram_env g c data w rs
  | Alarm g x => is_Some (sessions_of w !! x) /\ arrays_ok g
  | Finalize | Reap _ _ => True
  | Ring g => 0 <= g_slot g < zlen rs
  | Elsewhere z rs => zone_ok z /\ slots_ready rs
  end.

Fixpoint schedule_env (l : list event) (p : worker * slots) : Prop :=
  match l with [] => True | e :: l => event_env e p /\ forall p', step e p = Ret p' -> schedule_env l p' end.

(** The three things that go wrong: a Binding request takes a session or a connection over from
    the one it is bound to (see [stale_context_used_after_free]); the keyframe request for a
    stream this worker's own publisher feeds writes past its array (see
    [StreamProps.keyframe_request_overflows]); a media packet feeds a source whose cached
    pointer into the zone is no source's any more (see [Publish.cached_pointer_live]). *)
Inductive hazard : event -> worker * slots -> Prop :=
| taken_over g c (data : octets) w rs w' rs' :
    classify data = Ret STUN -> step (Datagram g c data) (w, rs) = Ret (w', rs') -> takeover c w w' ->
    hazard (Datagram g c data) (w, rs)
| datagram_overflows g c (data : octets) x w rs :
    conns w !! c = Some (Ref x) -> classify data = Ret DTLS \/ classify data = Ret SRTCP -> overflows g x w ->
    step (Datagram g c data) (w, rs) = Fault -> hazard (Datagram g c data) (w, rs)
| alarm_overflows g x w rs : overflows g x w -> step (Alarm g x) (w, rs) = Fault -> hazard (Alarm g x) (w, rs)
| cache_dangles g c (data : octets) x s a src w rs :
    conns w !! c = Some (Ref x) -> classify data = Ret SRTP -> sessions_of w !! x = Some s -> source s = Ref a ->
    sources_of w !! a = Some src -> ~ live_cache (Request.zone (host w)) (shm_src src) -> hazard (Datagram g c data) (w, rs).

Definition ok (p : worker * slots) : Prop := worker_ok p.1 /\ slots_ready p.2.

Lemma connect_wok c w : worker_ok w -> conns w !! c = None -> worker_ok (set_conns (<[c := NULL]> (conns w)) w).
Proof.
  intros [H1 H2 H3 H4 H5 H6 H7 H8] Hc. split; cbn; try done.
  - intros x s Hs. destruct (H4 x s Hs) as [A1 A2 A3 A4 A5]. split; try done. intros d Hd. pose proof (A3 d Hd) as Hk.
    rewrite lookup_insert_ne; [done | by intros <-; congruence].
  - intros d x [[_ [=]] | [_ Hd]]%lookup_insert_Some. by apply H5.
  - intros d Hd. destruct (decide (d = c)) as [-> | Hne]; [by rewrite lookup_insert_eq | rewrite lookup_insert_ne by done; by apply H7].
Qed.

Context (Hlog : reporter_logs report) (Hslots : is_u32 (gop_ring_slots tunables)).
Context (Hsha1 : forall key b, exists mac, hmac key b = Some mac /\ zlen mac = 20 /\ octets_ok mac).

Lemma classify_total (data : octets) : 1 <= zlen data -> exists pr, classify data = Ret pr.
Proof.
  intros Hl. unfold classify. destruct (load_in data 0 ltac:(lia)) as [d0 E0].
  assert (Hrest : forall b : bool, exists pr, (if b then Ret STUN else
    a ← load data 0; if (20 <=? a) && (a <=? 63) then Ret DTLS else if (zlen data <? 2) || negb (Z.land a 0xc0 =? 0x80) then Ret SRTP
      else b ← load data 1; Ret (if (200 <=? b) && (b <=? 207) then SRTCP else SRTP)) = Ret pr).
  { intros [|]; [by eexists |]. rewrite E0, bind_Ret. destruct (_ && _); [by eexists |].
    destruct (Z.ltb_spec (zlen data) 2); cbn [orb]; [by eexists |]. destruct (negb _); [by eexists |].
    destruct (load_in data 1 ltac:(lia)) as [d1 ->]. by eexists. }
  cbv zeta. destruct (Z.ltb_spec (zlen data) 20); [rewrite bind_Ret; by apply (Hrest false) |].
  destruct (load_in data 4 ltac:(lia)) as [? ->], (load_in data 5 ltac:(lia)) as [? ->],
    (load_in data 6 ltac:(lia)) as [? ->], (load_in data 7 ltac:(lia)) as [? ->]. rewrite !bind_Ret. apply Hrest.
Qed.

(** A cached pointer is live or not. *)
Lemma live_cache_dec (z : ptr shm) (p : ptr Z) : live_cache z p \/ ~ live_cache z p.
Proof.
  destruct p as [| b]; [by left |]. destruct z as [| k]; [right; intros Hlv; by destruct (Hlv b eq_refl) as (k & [=] & _) |].
  destruct (Shm.sources k !! b) as [t |] eqn:Hb; [left; intros b' [= <-]; exists k; split; [done | by exists t] | right].
  intros Hlv. destruct (Hlv b eq_refl) as (k' & [= <-] & [t Ht]). congruence.
Qed.

(** What a step does: it completes and leaves the worker well formed, or it meets a hazard. *)
Definition fine (e : event) (p : worker * slots) : Prop := safe ok (step e p) \/ hazard e p.

(** An SRTP datagram. *)
Lemma srtp_outcome g c p (data : octets) w rs :
  worker_ok w -> slots_ready rs -> datagram_env g c data w rs -> conns w !! c = Some p -> classify data = Ret SRTP ->
  safe (fun r => carries tunables w r.1 /\ slots_ready r.2) (ngx_rtc_stream_on_srtp tunables g p data w rs) \/ hazard (Datagram g c data) (w, rs).
Proof.
  intros Hw Hr [_ Hd Hsz _ Hslot _ Hrings] Hc Hcl.
  assert (Hgo : (forall x s a src, p = Ref x -> sessions_of w !! x = Some s -> source s = Ref a -> sources_of w !! a = Some src ->
      live_cache (Request.zone (host w)) (shm_src src)) ->
    safe (fun r => carries tunables w r.1 /\ slots_ready r.2) (ngx_rtc_stream_on_srtp tunables g p data w rs)).
  { intros Hlive. apply (on_srtp_safe tunables Hslots g p); [done | | done | by split].
    intros x ->. destruct (wo_ctx tunables w Hw c x Hc) as (s & Hs & _). by exists s. }
  destruct p as [| x]; [by left; apply Hgo |]. destruct (wo_ctx tunables w Hw c x Hc) as (s & Hs & _).
  destruct (source s) as [| a] eqn:Ea; [left; apply Hgo; intros x' s' a src [= <-] Hs' Ea'; congruence |].
  destruct (source_in tunables w x s a Hw Hs Ea) as [src Hsrc].
  destruct (live_cache_dec (Request.zone (host w)) (shm_src src)) as [Hlive | Hno].
  - left. apply Hgo. intros x' s' a' src' [= <-] Hs' Ea' Hsrc'. assert (s' = s) as -> by congruence.
    assert (a' = a) as -> by congruence. by assert (src' = src) as -> by congruence.
  - right. by apply (cache_dangles g c data x s a src).
Qed.

(** An SRTCP datagram. *)
Lemma rtcp_outcome g c p (data : octets) w rs :
  worker_ok w -> datagram_env g c data w rs -> conns w !! c = Some p -> 1 <= zlen data -> classify data = Ret SRTCP ->
  (exists w', ngx_rtc_stream_on_rtcp tunables report g c data w = Ret w' /\
     (carries tunables w w' \/ exists x s w1, p = Ref x /\ (exists s0, sessions_of w !! x = Some s0 /\ says_bye s0 data) /\
        carries tunables w w1 /\ sessions_of w1 !! x = Some s /\ closed tunables g x s w1 w')) \/ hazard (Datagram g c data) (w, rs).
Proof.
  intros Hw [_ Hd Hsz [(_ & _ & _ & _ & H12) Hscr] _ _ _] Hc Hl Hcl.
  pose proof (on_rtcp_safe tunables report Hlog g c p data w Hw Hc Hd ltac:(lia) Hscr H12) as Hs.
  destruct (ngx_rtc_stream_on_rtcp _ _ _ _ _ _) as [w' |] eqn:E; [left; by exists w' |]. right. destruct Hs as (x & -> & Hov).
  apply (datagram_overflows g c data x); [done | by right | done |].
  cbn [step]. unfold ngx_rtc_stream_handler. rewrite (ctx_in w c (Ref x) Hc), bind_Ret.
  destruct (Z.ltb_spec (zlen data) 1); [lia |]. by rewrite Hcl, bind_Ret, E.
Qed.

(** A datagram, whatever it holds and whoever sent it. *)
Lemma handler_fine g c (data : octets) w rs :
  worker_ok w -> slots_ready rs -> datagram_env g c data w rs -> fine (Datagram g c data) (w, rs).
Proof.
  intros Hw Hr He. pose proof He as [[p Hc] Hd Hsz [Harr Hscr] Hslot Hatt Hrings].
  assert (Hstep : forall pr, 1 <= zlen data -> classify data = Ret pr -> step (Datagram g c data) (w, rs) =
    match pr with
    | STUN => w ← ngx_rtc_stream_on_stun hmac tunables report g c data w; Ret (w, rs)
    | DTLS => w ← ngx_rtc_stream_on_dtls tunables report g c p data w; Ret (w, rs)
    | SRTCP => w ← ngx_rtc_stream_on_rtcp tunables report g c data w; Ret (w, rs)
    | SRTP => ngx_rtc_stream_on_srtp tunables g p data w rs
    end).
  { intros pr Hl Hcl. cbn [step]. unfold ngx_rtc_stream_handler. rewrite (ctx_in w c p Hc), bind_Ret.
    destruct (Z.ltb_spec (zlen data) 1); [lia |]. by rewrite Hcl, bind_Ret; destruct pr. }
  destruct (Z.ltb_spec (zlen data) 1) as [Hlt | Hl].
  { left. cbn [step]. unfold ngx_rtc_stream_handler. rewrite (ctx_in w c p Hc), bind_Ret. by destruct (Z.ltb_spec (zlen data) 1); [| lia]. }
  destruct (classify_total data Hl) as [pr Hcl]. specialize (Hstep pr Hl Hcl). destruct pr.
  - pose proof (on_stun_safe hmac tunables report Hlog Hsha1 g c p data w Hw Hc Hd Harr (Hatt Hcl)) as Hs.
    destruct (ngx_rtc_stream_on_stun _ _ _ _ _ _ _) as [w' |]; [rewrite bind_Ret in Hstep | done].
    destruct Hs as [Hw' | Hto]; [left; by rewrite Hstep | right; by apply (taken_over g c data w rs w' rs)].
  - pose proof (on_dtls_safe tunables report Hlog g c p data w Hw Hc Harr) as Hs.
    destruct (ngx_rtc_stream_on_dtls _ _ _ _ _ _ _) as [w' |]; [left; by rewrite Hstep |].
    destruct Hs as (x & -> & Hov). right. apply (datagram_overflows g c data x); [done | by left | done | by rewrite Hstep].
  - destruct (rtcp_outcome g c p data w rs Hw He Hc Hl Hcl) as [(w' & E & Hs) | Hh]; [left | by right].
    rewrite Hstep, E, bind_Ret. split; [| done]. destruct Hs as [Hcar | (x & s & w1 & _ & _ & _ & _ & Hclo)]; [apply Hcar | apply Hclo].
  - destruct (srtp_outcome g c p data w rs Hw Hr He Hc Hcl) as [Hs | Hh]; [left | by right]. rewrite Hstep.
    eapply safe_mono; [| exact Hs]. intros r [Hc1 Hr1]. split; [apply Hc1 | done].
Qed.

Lemma step_fine e p : ok p -> event_env e p -> fine e p.
Proof.
  destruct p as [w rs]. intros [Hw Hr] He. cbn [fst snd] in Hw, Hr.
  destruct e as [c | g c data | g x | | g conf | g | z rs']; cbn [event_env] in He; [left | by apply handler_fine | | left..]; cbn [step].
  - split; [by apply connect_wok | done].
  - destruct He as ([s Hs] & Harr). pose proof (dtls_timer_safe tunables report Hlog g x s w Hw Hs Harr) as Ht. unfold fine. cbn [step].
    destruct (ngx_rtc_stream_dtls_timer _ _ _ _ _) as [w' |] eqn:E; [left; by split |].
    right. apply (alarm_overflows g x); [done |]. cbn [step]. by rewrite E.
  - split; [by apply close_ev_wok | done].
  - pose proof (reap_timer_safe tunables report Hlog g conf w Hw) as Ht.
    destruct (ngx_rtc_stream_reap_timer _ _ _ _) as [[w' t] |]; [| done]. split; [apply (proj1 Ht) | done].
  - eapply safe_mono; [| by apply notified_safe]. intros r [Hc1 Hr1]. split; [apply Hc1 | done].
  - destruct He as [Hz Hr']. split; [by apply set_zone_wok | done].
Qed.

(** A run completes, or it reaches the first of its hazards. *)
Lemma run_fine l : forall p, ok p -> schedule_env l p ->
  safe ok (run l p) \/ exists l1 e l2 p1, l = l1 ++ e :: l2 /\ run l1 p = Ret p1 /\ ok p1 /\ hazard e p1.
Proof.
  induction l as [| e l IH]; intros p Hp Hs; [by left |]. destruct Hs as [He Hs]. cbn [run].
  destruct (step_fine e p Hp He) as [Hst | Hh]; [| right; by exists [], e, l, p].
  destruct (step e p) as [p' |] eqn:E; [| done]. rewrite bind_Ret.
  destruct (IH p' Hst (Hs p' eq_refl)) as [Hrun | (l1 & e1 & l2 & p1 & -> & Er & Hp1 & Hh)]; [by left | right].
  exists (e :: l1), e1, l2, p1. split; [done |]. cbn [run]. by rewrite E, bind_Ret.
Qed.


(** C14: Media and feedback change nothing about who is connected.  An SRTP or SRTCP datagram,
    whatever it decrypts to, is handled to the end, and every session left was there before,
    with the same source, name, publish flag, connection and state; the only session that
    can be gone is the one the datagram's own connection refers to, and only when the datagram
    is SRTCP and decrypts to a compound packet with a BYE in it.  Or the handler meets a hazard:
    feedback whose keyframe request overflows its packet, or media for a source whose cached
    zone pointer dangles. *)
Theorem media_confined g c (data : octets) pr p w rs :
  worker_ok w -> slots_ready rs -> datagram_env g c data w rs -> conns w !! c = Some p ->
  classify data = Ret pr -> pr = SRTP \/ pr = SRTCP ->
  (exists w' rs', ngx_rtc_stream_handler hmac tunables report g c data w rs = Ret (w', rs') /\
    (forall y t, sessions_of w' !! y = Some t -> exists s, sessions_of w !! y = Some s /\
       SendPath.identity t = SendPath.identity s /\ conn t = conn s /\ fsm t = fsm s) /\
    (forall y s, sessions_of w !! y = Some s -> sessions_of w' !! y = None -> p = Ref y /\ pr = SRTCP /\ says_bye s data)) \/
  hazard (Datagram g c data) (w, rs).
Proof.
  intros Hw Hr He Hc Hcl Hpr. unfold ngx_rtc_stream_handler. rewrite (ctx_in w c p Hc), bind_Ret.
  assert (Hcar : forall w', carries tunables w w' -> (forall y t, sessions_of w' !! y = Some t -> exists s, sessions_of w !! y = Some s /\
       SendPath.identity t = SendPath.identity s /\ conn t = conn s /\ fsm t = fsm s) /\
    (forall y s, sessions_of w !! y = Some s -> sessions_of w' !! y = None -> False)).
  { intros w' [_ Hy]. split.
    - intros y t Ht. specialize (Hy y). rewrite Ht in Hy. destruct (sessions_of w !! y) as [s |]; [| done].
      destruct Hy as (Hid & Hcn & Hf & _). by exists s.
    - intros y s Hs Hn. specialize (Hy y). by rewrite Hs, Hn in Hy. }
  destruct (Z.ltb_spec (zlen data) 1) as [Hlt | Hl].
  { left. exists w, rs. destruct (Hcar w (carries_refl tunables w Hw)) as [A1 A2]. split_and!; [done | done |]. intros y s Hs Hn. by destruct (A2 y s Hs Hn). }
  rewrite Hcl, bind_Ret. destruct Hpr as [-> | ->].
  - destruct (srtp_outcome g c p data w rs Hw Hr He Hc Hcl) as [Hs | Hh]; [left | by right].
    destruct (ngx_rtc_stream_on_srtp _ _ _ _ _ _) as [[w' rs'] |]; [| done].
    destruct Hs as [Hs _]. destruct (Hcar w' Hs) as [A1 A2]. exists w', rs'. split_and!; [done | done |].
    intros y s Hy Hn. by destruct (A2 y s Hy Hn).
  - destruct (rtcp_outcome g c p data w rs Hw He Hc Hl Hcl) as [(w' & -> & Hs) | Hh]; [left | by right].
    rewrite bind_Ret. exists w', rs. split; [done |].
    destruct Hs as [Hs | (x & s & w1 & -> & (s0 & Hs0 & Hbye) & Hc1 & Hx & Hclo)].
    + destruct (Hcar w' Hs) as [A1 A2]. split; [done |]. intros y t Hy Hn. by destruct (A2 y t Hy Hn).
    + destruct (Hcar w1 Hc1) as [A1 A2]. rewrite (cl_sessions _ _ _ _ _ _ Hclo). split.
      * intros y t [_ Hy]%lookup_delete_Some. by apply A1.
      * intros y t Hy Hn. destruct (decide (y = x)) as [-> | Hne]; [split_and!; try done; congruence |].
        rewrite lookup_delete_ne in Hn by done. by destruct (A2 y t Hy Hn).
Qed.

(** C30: A session that moves to another connection leaves the first one referring to it.  In any
    well-formed worker, an authentic Binding request for a connected session, from a
    connection that is not bound, is answered, and both connections refer to the session; when
    the session is then closed, whatever closes it, the first connection still refers to it;
    and after that every datagram on that connection that is not STUN uses the freed session. *)
Theorem stale_context_used_after_free g c d (data : octets) ty tid l u ru x s w rs :
  let req := Stun.understood ty tid l in
  worker_ok w -> conns w !! c = Some NULL -> (c ∉ posted w) -> octets_ok data -> Stun.parse data = Some (ty, tid, l) ->
  Stun.has_username req <> 0 -> Stun.named req u ru ->
  Registry.ngx_rtc_session_find Shm.ngx_crc32_long (registry_of w) (Ref u) = Ref x -> sessions_of w !! x = Some s ->
  conn s = Ref d -> 128 <= zlen (s_resp g) -> proven hmac data req s ->
  exists w1, ngx_rtc_stream_on_stun hmac tunables report g c data w = Ret w1 /\
    conns w1 !! c = Some (Ref x) /\ conns w1 !! d = Some (Ref x) /\
    forall g' ev, exists w2, ngx_rtc_stream_session_close report g' x ev w1 = Ret w2 /\
      sessions_of w2 !! x = None /\ conns w2 !! c = Some NULL /\ conns w2 !! d = Some (Ref x) /\
      forall g'' rest, 1 <= zlen rest -> classify rest <> Ret STUN ->
        ngx_rtc_stream_handler hmac tunables report g'' d rest w2 rs = Fault.
Proof.
  intros req Hw Hc Hp Hd Ep Hun Hn Hf Hs Hcs Hr Hyes.
  unfold ngx_rtc_stream_on_stun. destruct (Stun.decode_exact (s_stun g) data Hd) as (stun & -> & _ & Hst). rewrite bind_Ret, Ep.
  rewrite (Hst ty tid l Ep). fold req. change (negb (Stun.code (Some (ty, tid, l)) =? 0)) with false. cbn [orb].
  destruct (Z.eqb_spec (Stun.has_username req) 0); [done |]. rewrite (Stun.nm_local _ _ _ Hn), bind_Ret, Hf, bind_Ret.
  destruct (so_fsm _ _ _ _ _ (wo_sess tunables w Hw x s Hs)) as (q & Hq & _).
  pose proof (so_conn _ _ _ _ _ (wo_sess tunables w Hw x s Hs) d Hcs) as Hk. assert (Hne : c <> d) by congruence.
  destruct (stun_request_exact hmac report Hlog Hsha1 g c NULL x s q data ty tid l w (wo_zone tunables w Hw) Hc Hs Hq Hd Ep Hun Hr)
    as [[Hno _] | (_ & f & z & k & E & Hz & Hm)]; [done |]. fold req in E. rewrite E.
  eexists. split; [reflexivity |]. split; [cbn; by rewrite lookup_insert_eq |]. split; [cbn; by rewrite lookup_insert_ne |].
  intros g' ev. destruct (StreamProps.rebound_close tunables report g c d x s q f z k w g' ev Hlog Hw Hc Hp Hs Hcs Hz Hq Hm)
    as (w2 & E2 & Hse2 & Hco2).
  exists w2. rewrite Hse2, Hco2, lookup_delete_eq, lookup_insert_eq, lookup_insert_ne by done. split_and!; try done.
  intros g'' rest Hl Hcl. destruct (classify_total rest Hl) as [pr Epr].
  assert (Hgone : session_at w2 x = Fault) by (unfold session_at, Registry.session_at; by rewrite Hse2, lookup_delete_eq).
  assert (Hctx : ctx_of w2 d = Ret (Ref x)) by (unfold ctx_of; by rewrite Hco2, lookup_insert_ne, Hk).
  unfold ngx_rtc_stream_handler. rewrite Hctx, bind_Ret. destruct (Z.ltb_spec (zlen rest) 1); [lia |]. rewrite Epr, bind_Ret.
  destruct pr; [congruence | | |].
  - unfold ngx_rtc_stream_on_dtls, dtls_start. by rewrite Hgone.
  - unfold ngx_rtc_stream_on_rtcp. by rewrite Hctx, bind_Ret, Hgone.
  - unfold ngx_rtc_stream_on_srtp. by rewrite Hgone.
Qed.
End run.

(** ** A publisher comes and goes *)

#[local] Existing Instances ShmProps.demo_crc Srtp.demo_ssl Srtp.demo_ssl_laws Srtp.demo_srtp Srtp.demo_srtp_laws
  StreamMediaSafe.deliver_nobody StreamMediaSafe.nobody_laws.

Abbreviation demo_state := (StreamProps.demo_worker * list (Broadcast.slot unit))%type.

Lemma demo_ring_slots : is_u32 (gop_ring_slots ngx_rtc_default_tunables).
Proof. by vm_compute. Qed.

Definition demo_slot : Broadcast.slot unit :=
  {| Broadcast.worker := tt; Broadcast.ring := Ref Broadcast.demo_ring; Broadcast.notify_fd := 7;
     Broadcast.wakeups := 0; Broadcast.draining := false |}.

Lemma demo_slots_ready : StreamMediaSafe.slots_ready (S := Z) [demo_slot; demo_slot].
Proof.
  destruct Broadcast.demo_ring_rep as [n Hn].
  assert (Hb : exists b : Broadcast.mailbox (E := given (S := Z)) (W := unit), Broadcast.slot_rep demo_slot b).
  { exists {| Broadcast.start := tt; Broadcast.cap := 2 ^ n; Broadcast.heard := []; Broadcast.accepted := []; Broadcast.taken := 0%nat |}.
    by split; try done; exists n. }
  destruct Hb as [b Hb]. exists [b; b]. constructor; [exact Hb | constructor; [exact Hb | constructor]].
Qed.

Abbreviation demo_event := (event (S := Z) (Q' := Nginx.queues Shm.queue_id Shm.node) (T' := list (key * Z))).
Definition demo_step : demo_event -> demo_state -> outcome demo_state :=
  step Stun.demo_hmac ngx_rtc_default_tunables Request.no_report.
Definition after e (p : demo_state) : demo_state := match demo_step e p with Ret p => p | Fault => p end.

(** A video packet of the publisher, protected with the key of the session. *)
Definition demo_packet (p : demo_state) : octets :=
  match Srtp.recv_ctx (srtp (default (zero_session Srtp.zero_srtp) (Registry.sessions (Request.reg (host p.1)) !! 21))) with
  | NULL => []
  | Ref k => Srtp.tagged 10 k [0x80; 102; 0; 9; 0; 0; 0; 1; 0; 0; 0; 7; 0x65; 1; 2; 3]
  end.

(** A request binds connection 5, two records complete the handshake, a packet arrives, the
    others ring, connection 7 opens, the others change the zone, the reaper finds the session
    idle and the posted event finalizes its connection. *)
Definition p0 : demo_state := (StreamProps.demo_start 1, [demo_slot; demo_slot]).
Definition e1 : demo_event := Datagram (StreamProps.demo_given 2000) 5 Stun.demo_datagram.
Definition p1 := after e1 p0.
Definition e2 : demo_event := Datagram (StreamProps.demo_given 2100) 5 StreamProps.record.
Definition p2 := after e2 p1.
Definition e3 : demo_event := Datagram (StreamProps.demo_given 2200) 5 StreamProps.record.
Definition p3 := after e3 p2.
Definition e4 : demo_event := Datagram (StreamProps.demo_given 2300) 5 (demo_packet p3).
Definition p4 := after e4 p3.
Definition rest : list demo_event :=
  [Ring (StreamProps.demo_given 2310); Connect 7; Elsewhere (Ref (StreamProps.demo_zone 1)) [demo_slot; demo_slot];
   Reap (StreamProps.demo_given 40000) StreamProps.demo_conf; Finalize].
Definition demo_run : list demo_event := e1 :: e2 :: e3 :: e4 :: rest.

Abbreviation demo_schedule := (schedule_env Stun.demo_hmac ngx_rtc_default_tunables Request.no_report).
Abbreviation demo_hazard := (hazard Stun.demo_hmac ngx_rtc_default_tunables Request.no_report).

Lemma schedule_cons (e : demo_event) l p : event_env e p -> demo_schedule l (after e p) -> demo_schedule (e :: l) p.
Proof. intros He Hl. split; [done |]. intros p' E. unfold after, demo_step in Hl. by rewrite E in Hl. Qed.

(** No ring of the zone has been used, and every pointer a source caches is good. *)
Definition unused_rings (z : ptr (Shm.ngx_rtc_shm_ctx_t (Q := Nginx.queues Shm.queue_id Shm.node) (T := list (key * Z)))) : bool :=
  match z with NULL => true | Ref k => forallb (fun p => is_null (Shm.retransmit p.2)) (map_to_list (Shm.sources k)) end.
Definition fresh (w : StreamProps.demo_worker) : bool :=
  match Request.zone (host w) with
  | NULL => false
  | Ref k => forallb (fun p => match shm_src p.2 with NULL => true | Ref b => bool_decide (is_Some (Shm.sources k !! b)) end)
               (map_to_list (Registry.sources (Request.reg (host w))))
  end.

Lemma unused_within z : unused_rings z = true -> rings_within 260 z.
Proof.
  destruct z as [| k]; [done |]. intros Hn b t Ht. exists []. split; [done |]. unfold unused_rings in Hn. rewrite forallb_forall in Hn.
  apply elem_of_map_to_list, list_elem_of_In, Hn in Ht. cbn in Ht. by destruct (Shm.retransmit t).
Qed.

Lemma fresh_live (w : StreamProps.demo_worker) a (src : ngx_rtc_source_t) :
  fresh w = true -> Registry.sources (Request.reg (host w)) !! a = Some src -> live_cache (Request.zone (host w)) (shm_src src).
Proof.
  unfold fresh. destruct (Request.zone (host w)) as [| k]; [done |]. intros Hc Hs b Eb. exists k. split; [done |].
  rewrite forallb_forall in Hc. apply elem_of_map_to_list, list_elem_of_In, Hc in Hs. cbn in Hs. rewrite Eb in Hs. by apply bool_decide_eq_true in Hs.
Qed.

(** A run without hazards, as far as it can be computed: nothing is bound that was bound before,
    nothing faults and every media packet finds its pointers good. *)
Definition calm (e : demo_event) (p : demo_state) : bool :=
  match demo_step e p, e with
  | Fault, _ => false
  | Ret p', Datagram _ c data =>
      match classify data with
      | Ret STUN => bool_decide (conns p.1 !! c = Some NULL) && bool_decide (posted p.1 = []) &&
          forallb (fun s => is_null (conn s.2)) (map_to_list (Registry.sessions (Request.reg (host p.1))))
      | Ret SRTP => fresh p.1
      | _ => true
      end
  | _, _ => true
  end.

Fixpoint calm_run (l : list demo_event) (p : demo_state) : bool :=
  match l with [] => true | e :: l => calm e p && calm_run l (after e p) end.

Lemma calm_sound (e : demo_event) p : calm e p = true -> ~ demo_hazard e p.
Proof.
  intros Hc Hh. unfold calm, demo_step in Hc.
  destruct Hh as [g c data w rs w' rs' Hcl E (x & _ & _ & Hto) | g c data x w rs _ _ _ E | g x w rs _ E | g c data x s a src w rs _ Hcl _ _ Hsrc Hno].
  - rewrite E, Hcl in Hc. cbn [fst] in Hc. rewrite !andb_true_iff, !bool_decide_eq_true in Hc. destruct Hc as [[H1 H2] H3].
    destruct Hto as [Hp | [[y Hy] | (s & d & Hs & Hd)]]; [rewrite H2 in Hp; by apply elem_of_nil in Hp | congruence |].
    rewrite forallb_forall in H3. apply elem_of_map_to_list, list_elem_of_In, H3 in Hs. cbn in Hs. by rewrite Hd in Hs.
  - by rewrite E in Hc.
  - by rewrite E in Hc.
  - apply Hno. apply (fresh_live w a); [| done]. destruct (step _ _ _ _ _); [by rewrite Hcl in Hc | done].
Qed.

Lemma calm_run_sound l : forall l1 e l2 p p1,
  calm_run l p = true -> l = l1 ++ e :: l2 -> run Stun.demo_hmac ngx_rtc_default_tunables Request.no_report l1 p = Ret p1 -> ~ demo_hazard e p1.
Proof.
  induction l as [| e0 l IH]; intros l1 e l2 p p1 Hc El Er; [by destruct l1 |].
  cbn [calm_run] in Hc. apply andb_prop in Hc as [Hc1 Hc2].
  destruct l1 as [| e1 l1]; injection El as -> El; [injection Er as <-; by apply calm_sound |].
  cbn [run] in Er. unfold after, demo_step in Hc2. destruct (step _ _ _ e1 p) as [p' |]; [| done]. rewrite bind_Ret in Er. by eapply IH.
Qed.

(** A datagram on connection 5. *)
Lemma datagram_event t (data : octets) (p : demo_state) :
  is_null (match conns p.1 !! 5 with Some _ => NULL | None => Ref tt end) = true ->
  forallb (fun b => (0 <=? b) && (b <=? 255)) data = true -> (zlen data <=? 65535) = true ->
  unused_rings (Request.zone (host p.1)) = true -> (2 <=? zlen p.2) = true ->
  (classify data = Ret STUN -> attach_grants (StreamProps.demo_given t) p.1) ->
  event_env (Datagram (StreamProps.demo_given t) 5 data) p.
Proof.
  destruct p as [w rs]. cbn [fst snd]. intros Hc Ho Hl Hz Hr Ha. split; try done.
  - by destruct (conns w !! 5) as [q |]; [exists q |].
  - apply Forall_forall. intros b Hb. rewrite forallb_forall in Ho. apply list_elem_of_In, Ho in Hb. unfold is_u8. lia.
  - lia.
  - cbn. lia.
  - by apply unused_within.
Qed.

(** The events that ask for little. *)
Lemma ring_event t (p : demo_state) : (2 <=? zlen p.2) = true -> event_env (Ring (StreamProps.demo_given t)) p.
Proof. destruct p as [w rs]. cbn. lia. Qed.

Lemma connect_event c (p : demo_state) : is_null (match conns p.1 !! c with Some _ => Ref tt | None => NULL end) = true ->
  event_env (Connect c : demo_event) p.
Proof. destruct p as [w rs]. cbn. by destruct (conns w !! c). Qed.

Lemma elsewhere_event z rs (p : demo_state) : zone_ok z -> StreamMediaSafe.slots_ready (S := Z) rs -> event_env (Elsewhere z rs : demo_event) p.
Proof. destruct p. by split. Qed.

Lemma lifetime_ok : demo_schedule demo_run p0.
Proof.
  apply schedule_cons; [| fold p1; apply schedule_cons; [| fold p2; apply schedule_cons; [| fold p3; apply schedule_cons; [| fold p4]]]].
  - apply (datagram_event 2000 Stun.demo_datagram p0); [vm_compute; reflexivity.. |]. intros _. exact (StreamProps.demo_attach 2000 1 (or_intror eq_refl)).
  - apply (datagram_event 2100 StreamProps.record p1); [vm_compute; reflexivity.. |]. intros Hcl. vm_compute in Hcl. discriminate Hcl.
  - apply (datagram_event 2200 StreamProps.record p2); [vm_compute; reflexivity.. |]. intros Hcl. vm_compute in Hcl. discriminate Hcl.
  - apply (datagram_event 2300 (demo_packet p3) p3); [vm_compute; reflexivity.. |]. intros Hcl. vm_compute in Hcl. discriminate Hcl.
  - apply schedule_cons; [apply ring_event; vm_compute; reflexivity |].
    apply schedule_cons; [apply connect_event; vm_compute; reflexivity |].
    apply schedule_cons; [apply elsewhere_event; [exact (StreamProps.demo_zone_ok 1 (or_intror eq_refl)) | exact demo_slots_ready] |].
    apply schedule_cons; [by destruct (after _ _) |]. apply schedule_cons; [by destruct (after _ _) | exact I].
Qed.


(** The viewer says goodbye. *)
Definition goodbye : octets :=
  match Srtp.recv_ctx (srtp (default (zero_session Srtp.zero_srtp) (Registry.sessions (Request.reg (host (StreamProps.ready 0))) !! 21))) with
  | NULL => []
  | Ref k => Srtp.tagged 14 k [0x81; 203; 0; 1; 0; 0; 0; 5]
  end.

Lemma media_confined_witness :
  exists w' rs', ngx_rtc_stream_handler Stun.demo_hmac ngx_rtc_default_tunables Request.no_report (StreamProps.demo_given 2300) 5 goodbye
      (StreamProps.ready 0) [demo_slot; demo_slot] = Ret (w', rs') /\
    Registry.sessions (Request.reg (host w')) !! 21 = None /\ posted w' = [5] /\
    exists s, Registry.sessions (Request.reg (host (StreamProps.ready 0))) !! 21 = Some s /\ says_bye s goodbye.
Proof.
  assert (Hok : event_env (Datagram (StreamProps.demo_given 2300) 5 goodbye) (StreamProps.ready 0, [demo_slot; demo_slot])).
  { apply datagram_event; [vm_compute; reflexivity.. |]. intros Hcl. vm_compute in Hcl. discriminate Hcl. }
  assert (Hcl : classify goodbye = Ret SRTCP) by (vm_compute; reflexivity).
  assert (Hgone : match ngx_rtc_stream_handler Stun.demo_hmac ngx_rtc_default_tunables Request.no_report (StreamProps.demo_given 2300) 5 goodbye
      (StreamProps.ready 0) [demo_slot; demo_slot] with
      | Ret (w, _) => (is_null (match Registry.sessions (Request.reg (host w)) !! 21 with Some _ => Ref tt | None => NULL end), posted w)
      | Fault => (false, []) end = (true, [5])) by (vm_compute; reflexivity).
  destruct (Registry.sessions (Request.reg (host (StreamProps.ready 0))) !! 21) as [s |] eqn:Es; [| vm_compute in Es; discriminate Es].
  destruct (media_confined Stun.demo_hmac ngx_rtc_default_tunables Request.no_report StreamProps.demo_logs demo_ring_slots
    (StreamProps.demo_given 2300) 5 goodbye SRTCP (Ref 21) (StreamProps.ready 0) [demo_slot; demo_slot] (StreamProps.ready_ok 0 (or_introl eq_refl)) demo_slots_ready
    Hok ltac:(vm_compute; reflexivity) Hcl (or_intror eq_refl)) as [(w' & rs' & E & _ & Hm) | Hh].
  2: { exfalso. revert Hh. apply calm_sound. vm_compute. reflexivity. }
  exists w', rs'. rewrite E in Hgone. clear Hok Hcl.
  destruct (Registry.sessions (Request.reg (host w')) !! 21) eqn:E21; [discriminate Hgone |].
  destruct (Hm 21 s Es E21) as (_ & _ & Hbye).
  split; [exact E |]. split; [reflexivity |]. split; [exact (f_equal snd Hgone) |]. exists s. exact (conj eq_refl Hbye).
Defined.

(** The session of connection 5 sends its request from connection 6; the reaper closes it. *)
Lemma stale_context_used_after_free_witness :
  exists w1 w2, StreamProps.stun (StreamProps.demo_given 2500) 6 Stun.demo_datagram (StreamProps.ready 0) = Ret w1 /\
    ngx_rtc_stream_session_close Request.no_report (StreamProps.demo_given 40000) 21 NGX_RTC_SESSION_EVT_TIMEOUT w1 = Ret w2 /\
    Registry.sessions (Request.reg (host w2)) !! 21 = None /\
    ngx_rtc_stream_handler Stun.demo_hmac ngx_rtc_default_tunables Request.no_report (StreamProps.demo_given 40100) 5 StreamProps.record w2 [] = Fault.
Proof.
  destruct (Registry.sessions (Request.reg (host (StreamProps.ready 0))) !! 21) as [s |] eqn:Es; [| vm_compute in Es; discriminate Es].
  destruct StreamProps.demo_named as [ru Hn].
  destruct (stale_context_used_after_free Stun.demo_hmac ngx_rtc_default_tunables Request.no_report StreamProps.demo_logs StreamProps.demo_hmac_ok
    (StreamProps.demo_given 2500) 6 5 Stun.demo_datagram 1 Stun.demo_tid Stun.demo_request (lit "alice") ru 21 s (StreamProps.ready 0) []
    (StreamProps.ready_ok 0 (or_introl eq_refl))) as (w1 & E1 & _ & _ & Hclose).
  - vm_compute. reflexivity.
  - intros Hin. vm_compute in Hin. by apply elem_of_nil in Hin.
  - exact Stun.demo_datagram_ok.
  - exact StreamProps.demo_parse.
  - vm_compute. discriminate.
  - exact Hn.
  - vm_compute. reflexivity.
  - exact Es.
  - exact (StreamProps.field conn _ _ (Ref 5) Es ltac:(by vm_compute)).
  - vm_compute. discriminate.
  - exact (StreamProps.demo_proven s Es).
  - destruct (Hclose (StreamProps.demo_given 40000) NGX_RTC_SESSION_EVT_TIMEOUT) as (w2 & E2 & Hgone & _ & _ & Hf).
    exists w1, w2. split; [exact E1 |]. split; [exact E2 |]. split; [exact Hgone |]. apply Hf; vm_compute; discriminate.
Defined.
End StreamRun.
